(* ===== verification/_CoqProject ===== *)
-Q . S2P
Prelude.v
JsString.v
Errors.v
OnChain.v
Normalize.v
Kit.v
SmallKit.v
Pdas.v
Accounts.v
Instruction.v
NameInstructions.v
MarketInstructions.v
TokenInstructions.v
Program.v
ProgramAccounts.v
ProgramClient.v
NameBuilders.v
MarketBuilders.v
TokenBuilders.v
Builders.v
HashName.v
Staking.v
Client.v
Renewal.v
Keeper.v
IndexParse.v
JsNumber.v
IndexStore.v
IndexApp.v
Tx.v
TxLaws.v
JsDate.v
Json.v
Hosting.v
Pinning.v
Resolver.v
ResolverLaws.v
Observability.v
ObservabilityLaws.v
ResolverService.v
IndexService.v
AccountFetch.v
Transactions.v
KeeperProcess.v
Servers.v
Cli.v
CliRead.v
CliProgram.v
CliLaws.v
Runtime.v
ChainState.v
ProgramUtils.v
Registration.v
Ownership.v
Market.v
Auctions.v
Administration.v
StakingPool.v
Registry.v
SmallRuntime.v
SmallChain.v
ChainFacts.v
RegistrySpec.v
RegistryLaws.v
OfferLaws.v
RegistryClient.v
RegistrySafety.v
RegistryInvariants.v
TokenLaws.v
EscrowLaws.v
StakeLaws.v
TermLaws.v
KeeperChain.v
InstructionData.v
InstructionTypes.v
Plugin.v
