(* ===== verification/Prelude.v ===== *)
(** * SOLANS: a verification development

    SOLANS is a name service on Solana: labels under .sol, .chain and .web3, with
    subdomains, records, a marketplace and a staking pool.  The repository holds the
    on-chain program (programs/solans, Rust), a generated TypeScript client of its
    accounts and instructions (clients/ts), an SDK (clients/sdk), and off-chain
    services: an auto-renew keeper, an indexer fed by webhooks, a resolver
    (services/).  This development models the TypeScript side, and those parts of
    the program that the TypeScript side mirrors or depends on, and proves that
    they agree.  Paths below are under src/.

    ** How the parts interact

    A name typed by a user is normalized (clients/ts/src/normalize.ts), hashed label
    by label into the seed of its record's address (hashName.ts), fetched and decoded
    (generated/accounts), and followed up its chain of parents (sdk client.ts).
    Wallets send instructions encoded by generated/instructions; the indexer decodes
    them again (services/indexer/src/parse.ts), folds them into a store (store.ts)
    and serves a watchlist, which the keeper (services/keeper/src/keeper.ts) sweeps,
    renewing the names that are due through the program's auto_renew.  The keeper's
    process (keeper/src/index.ts) and the command line (cli/src) build transactions,
    simulate and send them; the services count what they do in Prometheus metrics
    (services/observability).

    ** Conventions

    - A JavaScript string is the list of its UTF-16 code units, a byte string a list
      of integers, a bigint or an integer number a [Z]; a Rust integer is a [Z] with
      its range written where it matters ([is_u64], [checked_u64]).  Client integers
      that TypeScript holds as bigint do not overflow; those the program holds do,
      and theorems on both say where they part.
    - A function that throws returns [result JsError]; a handler of the program
      returns [result SolansError].  An async function over injected effects is an
      [Eff W]: it takes the outside world and returns the world it leaves and its
      outcome, so the effects made before a throw remain.
    - A handler of the program on the chain takes the [World] (its accounts by
      address, the ledger of lamports and tokens, events, clock) and returns the new
      one or an error, [Chain]; a failed instruction leaves the chain unchanged.
    - Code outside the repository is a parameter with documented laws: [Runtime] (the
      System, SPL Token and Metaplex programs and the lamports of accounts; [TokenSpec]
      has the laws of the classic token program, which theorems on tokens assume),
      [Addresses] (program-derived addresses), [Unicode] (NFKC and case folding),
      [Keccak], [Kit] (@solana/kit: codecs, addresses, PDA derivation), [AppKit] (base58 input),
      [AccountKit] and [NumberCodec] (account and number codecs), [TokenClient]
      (@solana-program/token), the account fetcher of the SDK, the keeper's effects,
      [Host] (the RPC node, the wallet, the console), [PinHost] ([fetch] and files),
      [PluginCore] and [ProgramErrorKit] (@solana/kit's program client).  [SmallUnicode],
      [SmallKeccak], [SmallKit] and their like are concrete instances, which satisfy the
      laws and let each theorem be applied at a concrete input.

    ** Files

    - Prelude: results, effects, little-endian integers, tactics, list lemmas.
    - JsString: code points, UTF-8, trimming, splitting, [Unicode].
    - Errors: the program's errors and the client's table of them.
    - OnChain: the program's name validation, hashes, prices, fee split and $SOLANS
      quotes (utils.rs, state/config.rs, constants.rs).
    - Normalize: clients/ts/src/normalize.ts; theorems: it accepts what the program
      accepts, parsing is sound, canonical and idempotent, names are one-label paths.
    - Kit, SmallKit: @solana/kit as an interface and a concrete kit; [ObjectCodec]
      states what a generated encoder/decoder pair owes its clients.
    - Pdas: generated/pdas.  Accounts: generated/accounts, one Module per account.
    - Instruction: the shared shape of generated/instructions ([InstructionCodec]);
      NameInstructions, MarketInstructions, TokenInstructions: forty Modules, one per
      instruction, each with its codec and its parser.  Program: identification and
      dispatch (generated/programs/solans.ts); round trips and errors of all of them.
    - ProgramAccounts: the accounts each handler of the program declares, in order;
      ProgramClient: the client's account lists against them.  NameBuilders,
      MarketBuilders, TokenBuilders: the sixty-four instruction builders of
      generated/instructions, forty synchronous and twenty-four that derive the
      addresses a caller omits; Builders: what they build parses back.  InstructionData:
      discriminator bytes and data codecs; InstructionTypes: the types of the built
      instructions, and that they have them; Plugin: what [solansProgram] adds to an RPC
      client, and that the failures of the program are recognised and explained.
    - HashName: clients/ts/src/hashName.ts; agreement with the program's hashes,
      injectivity up to keccak collisions, agreement on address seeds.
    - Staking: state/stake.rs.  Client: clients/sdk/src/client.ts; [resolve] decides
      liveness of a name, prices and quotes agree with the program, pending rewards,
      reverse lookup.
    - Renewal: the checks and expiry arithmetic of renew_name.rs and auto_renew.rs.
    - Keeper: services/keeper/src/keeper.ts; the traces of one name ([episode]), what
      they guarantee (when it renews, whom it notifies, what a sweep counts), and
      that the program accepts the renewals it attempts.
    - IndexParse, IndexStore, IndexApp: services/indexer/src/parse.ts, store.ts,
      app.ts; what an encoded instruction is indexed as, the state of the index after
      a history of events over any backend that satisfies [IndexStoreLaws], and what
      a webhook batch does, errors included.  IndexService: the service as a process over
      an asynchronous store: its hooks, metrics and requests in flight, what the metrics
      tell of any interleaving, that every request ends with one response, and updates that
      concurrent webhooks lose.
    - Tx: clients/sdk/src/tx.ts, the SDK's twenty-seven writes; TxLaws: their
      instructions are what the indexer and the parsers read, where a subdomain is
      created, when a registration mints.
    - JsNumber: IEEE doubles, Number, BigInt, Math.round, sorting and printing of
      numbers.  JsDate: toISOString.  Json: JSON.stringify (compact and indented) and
      JSON.parse of values without numbers; each text reads back.
      Hosting: clients/sdk/src/hosting.ts.  Pinning: pinata.ts and records.ts, with the
      upload of the command line.  Resolver: services/resolver/src (app.ts,
      cache.ts, doh.ts), each route a program of awaited calls ([Prog]) so that
      requests interleave at their awaits; ResolverLaws: the cache is transparent, its
      hits are recent under any interleaving, the DNS routes agree, every request is
      answered.  ResolverService: the service as a process, with its registry, its hook
      and the route of /metrics; its runs are runs of that interleaving, and its counters
      tell the responses and the lookups.
    - Observability: services/observability/src/index.ts; ObservabilityLaws: what is
      scraped, which label sets share a series, what histograms and counters hold
      after any operations, counters incremented by one.
    - AccountFetch: the fetch helpers of generated/accounts, one Module per account.
      Transactions: what the processes that send transactions share, [Host].
    - KeeperProcess: services/keeper/src/index.ts, metrics.ts and the notifiers of
      keeper.ts; the account that is checked is the one debited, what a sweep survives.
      Servers: the entry points, server.ts of the indexer and of the resolver and [main] of
      the keeper: settings, start-up, and what ends the keeper's process.
    - Cli: cli/src/context.ts and the forty-one commands of cli/src/index.ts that send
      ([Command.t], [prepare], [runCommand]); CliRead: the seven that read.  CliProgram:
      the declarations of the forty-eight; the lines commander accepts and the commands
      correspond.  CliLaws:
      the commands send the instructions of the SDK's writes, nothing is sent
      unsimulated, amounts are read as written.

    - Runtime, ChainState, ProgramUtils: the runtime's interface, the program's accounts
      and events (programs/solans/src/state, events.rs, constants.rs) with what Anchor
      does for an account struct, and utils.rs.  Registration, Ownership, Market,
      Auctions, Administration, StakingPool: the forty handlers of
      programs/solans/src/instructions, one Module each, [t] the account struct and
      [handler] its constraints and body.  Registry: lib.rs as a machine, [execute], and
      the worlds it can [reach] under any instructions of any wallets, with the rest of
      the chain moving in between.
    - RegistrySpec: the abstract registry, [transition]: twenty-four changes of the
      accounts, each with who must have signed, what must have held and what is paid in
      lamports; and that each instruction is one, seen as its [request] (its signers and the
      amount it names).  ChainFacts: the inversion lemmas for it.  RegistryLaws: what every
      record is (its path, seeds, parent, depth), and that a frozen name has a sale.
      RegistrySafety: what a record becomes and on whose authority, while its owner keeps it
      ([undisturbed]) and when it is taken, given away or removed ([disposed]); the way out
      of a listing.  OfferLaws: offers are funded.
      RegistryInvariants: records fit their accounts, the configuration is sound and fees
      add up, positions sum to the pool's total.  RegistryClient: the SDK's resolve
      against a node of a reachable chain.
    - TokenLaws: whose tokens an instruction can take.  EscrowLaws: an auction's vault
      holds the standing bid, and a vault that holds more can no longer be closed.
      StakeLaws: the pool's vault holds what is staked; what a reward vault that falls
      short does to the positions it owes.  TermLaws: registrations last a year, and
      automatic renewals are spaced however many keepers run.  KeeperChain: the renewals the keeper attempts
      go through on the program's chain.
    - SmallRuntime, SmallChain: a concrete runtime and runs of the machine on it.

    ** Bounds and fuel

    [resolve] loops over the parents of a record; its model has fuel 255, since a
    depth is a u8 and decreases at each step; [resolve_decides_liveness] proves that
    it is never exhausted on chains the program maintains ([depths_ordered]).
    JSON.parse has fuel twice the length of the text plus two, which [json_round_trip]
    shows is enough for every printed value; the printing of integers has fuel for their
    digits ([toString_digits]), that of doubles for the seventeen a double can need.
    [Servers.ticks] takes the number of ticks to run.  The rest is structurally recursive.

    ** Not modelled

    Fastify and commander beyond what the sources rely on (which requests reach a handler,
    which lines reach an action and with which defaults), dns-packet, sockets and files;
    ticks of the keeper's interval that overlap a sweep still running (on the chain they do
    no harm: [auto_renewals_are_spaced]); the Rust client, another
    client of the same program.  Of the program: account writability and rent beyond [CreateAccount], which the runtime
    checks, the exact order in which Anchor evaluates constraints of one struct (it
    decides which error is reported, not whether there is one), and the metadata
    Metaplex stores. *)
From Stdlib Require Export ZArith Lia Ascii String.
From stdpp Require Export base option numbers list.

#[global] Open Scope Z_scope.

(** ** JavaScript strings

    A JS string is its sequence of UTF-16 code units.  String literals of the
    source are written [js "..."]; every literal used is ASCII, so each
    character is one unit. *)
Abbreviation jsstring := (list Z).

Fixpoint js (s : String.string) : jsstring :=
  match s with
  | EmptyString => []
  | String a s' => Z.of_N (N_of_ascii a) :: js s'
  end.

(** The character U+0022. *)
Definition dquote : jsstring := [34].

Abbreviation bytes := (list Z).

(** An error thrown by the code: [new Error(message)]. *)
Record JsError := MkError { message : jsstring }.

#[export] Instance JsError_eq_dec : EqDecision JsError.
Proof. solve_decision. Defined.

(** ** Fallible code *)

Inductive result (E A : Type) : Type :=
| Ok (a : A)
| Err (e : E).
Arguments Ok {E A} _.
Arguments Err {E A} _.

#[export] Instance result_ret E : MRet (result E) := fun A a => Ok a.
#[export] Instance result_bind E : MBind (result E) := fun A B f m =>
  match m with Ok a => f a | Err e => Err e end.
#[export] Instance result_fmap E : FMap (result E) := fun A B f m =>
  match m with Ok a => Ok (f a) | Err e => Err e end.

#[export] Instance result_eq_dec {E A} `{EqDecision E, EqDecision A} :
  EqDecision (result E A).
Proof. solve_decision. Defined.

Definition is_Ok {E A} (r : result E A) : bool :=
  match r with Ok _ => true | Err _ => false end.

(** [try { ... } catch (e) { ... }] without state. *)
Definition result_catch {E A} (m : result E A) (h : E -> result E A) : result E A :=
  match m with Ok a => Ok a | Err e => h e end.

Definition of_option {E A} (e : E) (o : option A) : result E A :=
  match o with Some a => Ok a | None => Err e end.

Fixpoint mapR {E A B} (f : A -> result E B) (l : list A) : result E (list B) :=
  match l with
  | [] => Ok []
  | a :: l' => b ← f a; bs ← mapR f l'; Ok (b :: bs)
  end.

(** ** Effectful asynchronous code

    An [async] function that awaits injected effects is a function of the
    outside world [W]: it returns the world it leaves and its outcome.  A thrown
    error keeps the effects made before it. *)
Definition Eff (W A : Type) : Type := W -> W * result JsError A.

#[export] Instance eff_ret W : MRet (Eff W) := fun A a w => (w, Ok a).
#[export] Instance eff_bind W : MBind (Eff W) := fun A B f m w =>
  match m w with
  | (w', Ok a) => f a w'
  | (w', Err e) => (w', Err e)
  end.

Definition throw {W A} (e : JsError) : Eff W A := fun w => (w, Err e).
Definition lift {W A} (r : result JsError A) : Eff W A := fun w => (w, r).

(** [try { m } catch (e) { h e }]. *)
Definition eff_catch {W A} (m : Eff W A) (h : JsError -> Eff W A) : Eff W A :=
  fun w => match m w with
           | (w', Ok a) => (w', Ok a)
           | (w', Err e) => h e w'
           end.

(** An effect that never throws. *)
Definition no_throw {W A} (m : Eff W A) : Prop := forall w, is_Ok (m w).2 = true.

(** ** Tactics *)

Create HintDb solans discriminated.

(** Turn boolean tests in hypotheses and goal into propositions. *)
Ltac bool_prop :=
  repeat match goal with
  | H : (_ && _)%bool = true |- _ => apply andb_true_iff in H as [? ?]
  | H : (_ || _)%bool = false |- _ => apply orb_false_iff in H as [? ?]
  | H : negb _ = true |- _ => apply negb_true_iff in H
  | H : negb _ = false |- _ => apply negb_false_iff in H
  | H : (_ <=? _) = true |- _ => apply Z.leb_le in H
  | H : (_ <=? _) = false |- _ => apply Z.leb_gt in H
  | H : (_ <? _) = true |- _ => apply Z.ltb_lt in H
  | H : (_ <? _) = false |- _ => apply Z.ltb_ge in H
  | H : (_ >=? _) = true |- _ => rewrite Z.geb_leb in H
  | H : (_ >=? _) = false |- _ => rewrite Z.geb_leb in H
  | H : (_ >? _) = true |- _ => rewrite Z.gtb_ltb in H
  | H : (_ >? _) = false |- _ => rewrite Z.gtb_ltb in H
  | H : (_ =? _) = true |- _ => apply Z.eqb_eq in H
  | H : (_ =? _) = false |- _ => apply Z.eqb_neq in H
  | H : bool_decide _ = true |- _ => apply bool_decide_eq_true in H
  | H : bool_decide _ = false |- _ => apply bool_decide_eq_false in H
  | H : Is_true _ |- _ => apply Is_true_true in H
  end.

(** Case analysis on the scrutinee of the first match of a hypothesis. *)
Ltac split_match_in H :=
  match type of H with
  | context [ match ?x with _ => _ end ] => destruct x eqn:?
  end.

Ltac split_match :=
  match goal with
  | |- context [ match ?x with _ => _ end ] => destruct x eqn:?
  end.

(** Decide a closed statement by evaluation. *)
Ltac by_compute := vm_compute; repeat split; try reflexivity; try discriminate.

(** ** Lemmas about the monads *)

Lemma is_Ok_true {E A} (m : result E A) : is_Ok m = true <-> exists a, m = Ok a.
Proof. destruct m; cbn; split; [eauto|done|done|by intros (? & [=])]. Qed.

Lemma Ok_inj {E A} (a b : A) : Ok (E := E) a = Ok b -> a = b.
Proof. by intros [= ->]. Qed.

Lemma result_bind_Ok {E A B} (m : result E A) (f : A -> result E B) b :
  m ≫= f = Ok b <-> exists a, m = Ok a /\ f a = Ok b.
Proof.
  destruct m as [a|e]; cbn; split; [eauto| |done|].
  - by intros (a' & [= <-] & H).
  - by intros (a' & [=] & _).
Qed.

Lemma result_fmap_Ok {E A B} (m : result E A) (f : A -> B) b :
  f <$> m = Ok b <-> exists a, m = Ok a /\ f a = b.
Proof. destruct m; cbn; naive_solver. Qed.

Lemma result_bind_is_Ok {E A B} (m : result E A) (f : A -> result E B) :
  is_Ok (m ≫= f) = true <-> exists a, m = Ok a /\ is_Ok (f a) = true.
Proof.
  rewrite is_Ok_true. setoid_rewrite is_Ok_true. setoid_rewrite result_bind_Ok. split.
  - intros (b & a & H1 & H2). eauto.
  - intros (a & H1 & b & H2). eauto.
Qed.


Lemma mapR_length {E A B} (f : A -> result E B) l bs :
  mapR f l = Ok bs -> length bs = length l.
Proof.
  revert bs; induction l as [|a l IH]; cbn; intros bs H.
  - by injection H as <-.
  - apply result_bind_Ok in H as (b & _ & H).
    apply result_bind_Ok in H as (bs' & H & E'). injection E' as <-.
    cbn. f_equal. by apply IH.
Qed.

Lemma eff_bind_run {W A B} (m : Eff W A) (f : A -> Eff W B) w :
  (m ≫= f) w = match m w with
               | (w', Ok a) => f a w'
               | (w', Err e) => (w', Err e)
               end.
Proof. done. Qed.

Lemma eff_bind_Ok {W A B} (m : Eff W A) (f : A -> Eff W B) w w' a :
  m w = (w', Ok a) -> (m ≫= f) w = f a w'.
Proof. intros H. unfold mbind, eff_bind. by rewrite H. Qed.

Lemma eff_bind_Err {W A B} (m : Eff W A) (f : A -> Eff W B) w w' e :
  m w = (w', Err e) -> (m ≫= f) w = (w', Err e).
Proof. intros H. unfold mbind, eff_bind. by rewrite H. Qed.

Lemma no_throw_Ok {W A} (m : Eff W A) w :
  no_throw m -> exists w' a, m w = (w', Ok a).
Proof.
  intros H. specialize (H w). destruct (m w) as [w' [a|e]]; cbn in H; [eauto|done].
Qed.

(** ** Bytes and little-endian integers *)

Definition is_byte (z : Z) : Prop := 0 <= z < 256.

Fixpoint le_bytes (n : nat) (z : Z) : bytes :=
  match n with
  | O => []
  | S n' => z mod 256 :: le_bytes n' (z / 256)
  end.

Fixpoint le_val (bs : bytes) : Z :=
  match bs with
  | [] => 0
  | b :: bs' => b + 256 * le_val bs'
  end.

Lemma le_bytes_length n z : length (le_bytes n z) = n.
Proof. revert z; induction n; cbn; auto. Qed.

Lemma le_bytes_bytes n z : Forall is_byte (le_bytes n z).
Proof.
  revert z; induction n; cbn; constructor; auto.
  unfold is_byte. apply Z.mod_pos_bound. lia.
Qed.

Lemma le_val_bytes n z : 0 <= z < 256 ^ Z.of_nat n -> le_val (le_bytes n z) = z.
Proof.
  revert z; induction n as [|n IH]; intros z Hz; cbn.
  - change (256 ^ Z.of_nat 0) with 1 in Hz. lia.
  - rewrite IH.
    + pose proof (Z.div_mod z 256 ltac:(lia)). lia.
    + rewrite Nat2Z.inj_succ, Z.pow_succ_r in Hz by lia.
      split; [apply Z.div_pos; lia|]. apply Z.div_lt_upper_bound; lia.
Qed.

Lemma le_val_bound bs :
  Forall is_byte bs -> 0 <= le_val bs < 256 ^ Z.of_nat (length bs).
Proof.
  induction 1 as [|b bs Hb _ IH]; cbn [le_val length].
  - change (256 ^ Z.of_nat 0) with 1. lia.
  - rewrite Nat2Z.inj_succ, Z.pow_succ_r by lia. unfold is_byte in Hb. lia.
Qed.

Lemma le_bytes_val bs : Forall is_byte bs -> le_bytes (length bs) (le_val bs) = bs.
Proof.
  induction 1 as [|b bs Hb _ IH]; cbn; [done|]. unfold is_byte in Hb.
  rewrite (Z.mul_comm 256), Z.mod_add, Z.mod_small, Z.div_add, Z.div_small, Z.add_0_l
    by lia.
  by rewrite IH.
Qed.

(** ** Association of list facts used by several components *)

Lemma Forall_In {A} (P : A -> Prop) l x : Forall P l -> In x l -> P x.
Proof. intros H Hx. rewrite List.Forall_forall in H. auto. Qed.

Lemma app_eq_length_inv {A} (a b c d : list A) :
  length a = length c -> a ++ b = c ++ d -> a = c /\ b = d.
Proof.
  revert c; induction a as [|x a IH]; intros [|y c] Hl H; cbn in *; try discriminate.
  - done.
  - injection H as -> H. injection Hl as Hl.
    destruct (IH c Hl H) as [-> ->]. done.
Qed.

Lemma forallb_Forall_iff {A} (f : A -> bool) l :
  forallb f l = true <-> Forall (fun x => f x = true) l.
Proof. rewrite forallb_forall, List.Forall_forall. done. Qed.
