(* ===== verification/JsString.v ===== *)
(** * JavaScript and Rust strings

    The parts of the JS string library the client uses, on UTF-16 code units:
    iteration by code points ([[...s]]), [TextEncoder.encode] (UTF-8),
    [trim], [split], [lastIndexOf], [slice], [startsWith].  A Rust [str] is the
    sequence of its Unicode scalar values ([chars()]); [as_bytes] is its UTF-8
    encoding.  [String.prototype.normalize] and [toLowerCase] depend on the
    Unicode character database and are the operations of the class [Unicode],
    with the facts of the standard that the code relies on. *)
From S2P Require Import Prelude.

(** ** Code units and code points *)

Definition is_unit (u : Z) : Prop := 0 <= u < 65536.
Definition is_hi (u : Z) : bool := (0xD800 <=? u) && (u <=? 0xDBFF).
Definition is_lo (u : Z) : bool := (0xDC00 <=? u) && (u <=? 0xDFFF).
Definition is_surrogate (c : Z) : bool := (0xD800 <=? c) && (c <=? 0xDFFF).

(** A Unicode scalar value: what a Rust [char] can be. *)
Definition is_scalar (c : Z) : bool :=
  (0 <=? c) && (c <=? 0x10FFFF) && negb (is_surrogate c).

Definition combine_surrogates (h l : Z) : Z :=
  0x10000 + (h - 0xD800) * 0x400 + (l - 0xDC00).

(** The string iterator: [[...s]] and [for (const c of s)]. *)
Fixpoint codePoints (s : jsstring) : list Z :=
  match s with
  | [] => []
  | u :: r =>
      if is_hi u then
        match r with
        | v :: r' => if is_lo v then combine_surrogates u v :: codePoints r'
                     else u :: codePoints r
        | [] => [u]
        end
      else u :: codePoints r
  end.

(** The code units of one code point ([String.fromCodePoint]). *)
Definition units_of (c : Z) : jsstring :=
  if c <? 0x10000 then [c]
  else [0xD800 + (c - 0x10000) / 0x400; 0xDC00 + (c - 0x10000) mod 0x400].

(** A string without lone surrogates. *)
Definition well_formed (s : jsstring) : bool := forallb is_scalar (codePoints s).

(** ** UTF-8 *)

Definition utf8_char (c : Z) : bytes :=
  if c <? 0x80 then [c]
  else if c <? 0x800 then [0xC0 + c / 64; 0x80 + c mod 64]
  else if c <? 0x10000 then [0xE0 + c / 4096; 0x80 + (c / 64) mod 64; 0x80 + c mod 64]
  else [0xF0 + c / 262144; 0x80 + (c / 4096) mod 64; 0x80 + (c / 64) mod 64; 0x80 + c mod 64].

(** [as_bytes()] of a Rust string. *)
Definition as_bytes (s : list Z) : bytes := flat_map utf8_char s.

(** [new TextEncoder().encode(s)]: a lone surrogate becomes U+FFFD. *)
Definition textEncode (s : jsstring) : bytes :=
  as_bytes (map (fun c => if is_surrogate c then 0xFFFD else c) (codePoints s)).

(** ** String operations *)

Definition WHITESPACE : list Z :=
  [9; 10; 11; 12; 13; 32; 0xA0; 0x1680; 0x2000; 0x2001; 0x2002; 0x2003; 0x2004; 0x2005;
   0x2006; 0x2007; 0x2008; 0x2009; 0x200A; 0x2028; 0x2029; 0x202F; 0x205F; 0x3000; 0xFEFF].

Definition is_white (u : Z) : bool := existsb (Z.eqb u) WHITESPACE.

Fixpoint trimStart (s : jsstring) : jsstring :=
  match s with
  | [] => []
  | u :: r => if is_white u then trimStart r else s
  end.

Definition trimEnd (s : jsstring) : jsstring := rev (trimStart (rev s)).

(** [s.trim()] *)
Definition trim (s : jsstring) : jsstring := trimEnd (trimStart s).

(** [s.lastIndexOf(c)] for a one-unit string [c]; -1 when absent. *)
Fixpoint lastIndexOf (c : Z) (s : jsstring) : Z :=
  match s with
  | [] => -1
  | u :: r =>
      let i := lastIndexOf c r in
      if i <? 0 then (if u =? c then 0 else -1) else i + 1
  end.

(** [s.slice(from)] and [s.slice(0, to)] for non-negative indices. *)
Definition slice_from (n : Z) (s : jsstring) : jsstring := drop (Z.to_nat n) s.
Definition slice_to (n : Z) (s : jsstring) : jsstring := take (Z.to_nat n) s.

(** [s.split(c)] for a one-unit separator. *)
Fixpoint split (c : Z) (s : jsstring) : list jsstring :=
  match s with
  | [] => [[]]
  | u :: r =>
      if u =? c then [] :: split c r
      else match split c r with
           | [] => [[u]]
           | p :: ps => (u :: p) :: ps
           end
  end.

(** [parts.join(c)]. *)
Fixpoint join (c : jsstring) (parts : list jsstring) : jsstring :=
  match parts with
  | [] => []
  | [p] => p
  | p :: ps => p ++ c ++ join c ps
  end.

(** [s.startsWith(p)]. *)
Definition startsWith (p s : jsstring) : bool := bool_decide (take (length p) s = p).

(** Lower-casing of ASCII letters. *)
Definition ascii_lower (u : Z) : Z := if (65 <=? u) && (u <=? 90) then u + 32 else u.

Definition is_ascii (u : Z) : bool := (0 <=? u) && (u <? 128).

(** Decimal digits of a non-negative integer ([n.toString()], [`${n}`]). *)
Fixpoint digits_fuel (fuel : nat) (n : Z) (acc : jsstring) : jsstring :=
  match fuel with
  | O => acc
  | S f => if n <? 10 then 48 + n :: acc
           else digits_fuel f (n / 10) (48 + n mod 10 :: acc)
  end.

Definition toString (n : Z) : jsstring :=
  if n <? 0 then 45 :: digits_fuel (S (Z.to_nat (Z.log2 (- n)))) (- n) []
  else digits_fuel (S (Z.to_nat (Z.log2 n))) n [].

(** ** The Unicode database

    [normalizeNFKC] is [s.normalize] with form NFKC and [toLowerCase] is
    [s.toLowerCase()]. *)
Class Unicode := {
  normalizeNFKC : jsstring -> jsstring;
  toLowerCase : jsstring -> jsstring;
}.

(** The pictograph blocks the name rules allow, without U+2329 and U+232A, the
    two characters of these blocks that have a (canonical) decomposition. *)
Definition is_pictograph (c : Z) : bool :=
  ((0x1F300 <=? c) && (c <=? 0x1FAFF)) || ((0x2600 <=? c) && (c <=? 0x27BF))
  || ((0x1F1E6 <=? c) && (c <=? 0x1F1FF))
  || ((0x2300 <=? c) && (c <=? 0x23FF) && negb (c =? 0x2329) && negb (c =? 0x232A))
  || ((0x2B00 <=? c) && (c <=? 0x2BFF)) || (c =? 0x200D) || (c =? 0x20E3) || (c =? 0xFE0F).

Definition is_plain (c : Z) : bool := is_ascii c || is_pictograph c.

(** Facts of the Unicode standard: ASCII characters and pictographs are fixed by
    NFKC and compose with nothing; lower-casing changes only the letters A-Z among
    them; U+2329 and U+232A normalize to the CJK brackets U+3008 and U+3009, which
    have no case. *)
Class UnicodeSpec (U : Unicode) : Prop := {
  nfkc_plain : forall s, forallb is_plain (codePoints s) = true -> normalizeNFKC s = s;
  lower_plain : forall s, forallb is_plain (codePoints s) = true ->
    toLowerCase s = map ascii_lower s;
  nfkc_left_angle : normalizeNFKC [0x2329] = [0x3008];
  nfkc_right_angle : normalizeNFKC [0x232A] = [0x3009];
  lower_cjk_bracket : toLowerCase [0x3008] = [0x3008] /\ toLowerCase [0x3009] = [0x3009];
}.

(** A concrete database, for evaluation: the angle brackets are the only characters
    that decompose and only ASCII letters have case. *)
Definition nfkc_unit (u : Z) : Z :=
  if u =? 0x2329 then 0x3008 else if u =? 0x232A then 0x3009 else u.

Definition SmallUnicode : Unicode :=
  {| normalizeNFKC := map nfkc_unit; toLowerCase := map ascii_lower |}.

(** ** Code points and units *)

Ltac unfold_chars :=
  unfold is_scalar, is_hi, is_lo, is_surrogate, is_ascii, is_unit, combine_surrogates in *.

Lemma units_of_combine h l :
  is_hi h = true -> is_lo l = true -> units_of (combine_surrogates h l) = [h; l].
Proof.
  unfold_chars. intros Hh Hl. bool_prop. unfold units_of.
  rewrite (proj2 (Z.ltb_ge _ _)) by lia.
  replace (_ - 0x10000) with ((h - 0xD800) * 0x400 + (l - 0xDC00)) by lia.
  rewrite Z.div_add_l, Z.div_small by lia.
  rewrite (Z.add_comm (_ * _)), Z.mod_add, Z.mod_small by lia.
  f_equal; [lia|f_equal; lia].
Qed.

Lemma units_of_small c : c < 0x10000 -> units_of c = [c].
Proof. intros H. unfold units_of. by rewrite (proj2 (Z.ltb_lt _ _)). Qed.

(** Iterating by code points loses nothing: the units can be rebuilt. *)
Lemma codePoints_units s :
  Forall is_unit s -> flat_map units_of (codePoints s) = s.
Proof.
  remember (length s) as n eqn:Hn. revert s Hn.
  induction n as [n IH] using lt_wf_ind; intros s -> Hs.
  destruct s as [|u r]; [done|]. cbn.
  inversion_clear Hs as [|? ? Hu Hr].
  assert (Hone : flat_map units_of (u :: codePoints r) = u :: r).
  { cbn. rewrite units_of_small by (unfold is_unit in Hu; lia).
    cbn. f_equal. by apply (IH (length r)); cbn; [lia|..]. }
  destruct (is_hi u) eqn:Hhi; [|done].
  destruct r as [|v r']; [cbn; by rewrite units_of_small by (unfold is_unit in Hu; lia)|].
  destruct (is_lo v) eqn:Hlo; [|done].
  cbn. rewrite units_of_combine by done. cbn. do 2 f_equal.
  inversion_clear Hr. by apply (IH (length r')); cbn; [lia|..].
Qed.

Lemma codePoints_inj s1 s2 :
  Forall is_unit s1 -> Forall is_unit s2 -> codePoints s1 = codePoints s2 -> s1 = s2.
Proof.
  intros H1 H2 H. rewrite <- (codePoints_units s1), <- (codePoints_units s2) by done.
  by rewrite H.
Qed.

Lemma codePoints_ascii s : forallb is_ascii s = true -> codePoints s = s.
Proof.
  induction s as [|u r IH]; [done|]. cbn. intros H. bool_prop.
  unfold_chars. bool_prop.
  replace (0xD800 <=? u) with false by (symmetry; apply Z.leb_gt; lia).
  cbn. by rewrite IH.
Qed.

Lemma codePoints_nil s : codePoints s = [] -> s = [].
Proof.
  destruct s as [|u [|v r]]; cbn; [done|..]; repeat case_match; done.
Qed.

(** A string of units none of which is a surrogate is its own code points. *)
Lemma codePoints_bmp s :
  forallb (fun u => negb (is_surrogate u)) s = true -> codePoints s = s.
Proof.
  induction s as [|u r IH]; [done|]. cbn. intros H. bool_prop.
  unfold_chars. replace ((0xD800 <=? u) && (u <=? 0xDBFF)) with false by lia.
  by rewrite IH.
Qed.

Lemma well_formed_scalars s c : well_formed s = true -> In c (codePoints s) -> is_scalar c = true.
Proof. unfold well_formed. rewrite forallb_forall. auto. Qed.

Lemma textEncode_well_formed s :
  well_formed s = true -> textEncode s = as_bytes (codePoints s).
Proof.
  unfold well_formed, textEncode. intros H. f_equal.
  induction (codePoints s) as [|c l IH]; cbn in *; [done|]. bool_prop.
  rewrite IH by done. unfold is_scalar in *. bool_prop. by case_match; bool_prop.
Qed.

Lemma textEncode_ascii s : forallb is_ascii s = true -> textEncode s = s.
Proof.
  intros H. unfold textEncode. rewrite codePoints_ascii by done.
  induction s as [|u r IH]; [done|]. cbn in H. bool_prop. cbn [map as_bytes flat_map].
  unfold as_bytes in *. cbn. rewrite IH by done.
  unfold_chars. bool_prop.
  replace ((0xD800 <=? u) && (u <=? 0xDFFF)) with false by lia.
  unfold utf8_char. by rewrite (proj2 (Z.ltb_lt u 0x80)).
Qed.

(** A unit that is no surrogate is a code point of the string. *)
Lemma In_codePoints u s : is_surrogate u = false -> In u s -> In u (codePoints s).
Proof.
  intros Hu. remember (length s) as n eqn:Hn. revert s Hn.
  induction n as [n IH] using lt_wf_ind; intros s -> H.
  destruct s as [|v r]; [done|]. cbn.
  assert (Hone : In u (v :: codePoints r)).
  { destruct H as [->|H]; [by left|right]. by apply (IH (length r)); cbn; [lia|..]. }
  destruct (is_hi v) eqn:Hv; [|done].
  destruct r as [|w r']; [by destruct Hone as [->|[]]; left|].
  destruct (is_lo w) eqn:Hw; [|done]. right.
  destruct H as [->|[->|H]].
  - unfold_chars. bool_prop. rewrite andb_false_iff in Hu. destruct Hu; bool_prop; lia.
  - unfold_chars. bool_prop. rewrite andb_false_iff in Hu. destruct Hu; bool_prop; lia.
  - apply (IH (length r')); cbn; [lia|done..].
Qed.

(** Concatenation: nothing merges across the seam when the right part does not start
    with a low surrogate. *)
Lemma codePoints_app s t :
  match t with u :: _ => is_lo u = false | [] => True end ->
  codePoints (s ++ t) = codePoints s ++ codePoints t.
Proof.
  intros Ht. remember (length s) as n eqn:Hn. revert s Hn.
  induction n as [n IH] using lt_wf_ind; intros s ->.
  destruct s as [|u r]; [done|]. cbn [app codePoints].
  destruct (is_hi u) eqn:Hu.
  - destruct r as [|v r']; cbn [app].
    + destruct t as [|w t]; [done|]. by rewrite Ht.
    + destruct (is_lo v) eqn:Hv; cbn [app]; f_equal.
      * apply (IH (length r')); cbn; lia.
      * apply (IH (S (length r')) ltac:(cbn; lia) (v :: r')). done.
  - cbn. f_equal. apply (IH (length r)); cbn; lia.
Qed.

#[export] Instance SmallUnicode_spec : UnicodeSpec SmallUnicode.
Proof.
  split; [|done..]. intros s H. cbn. rewrite <- (map_id s) at 2. apply map_ext_in.
  intros u Hu. unfold nfkc_unit.
  rewrite forallb_forall in H.
  destruct (Z.eqb_spec u 0x2329) as [->|].
  { discriminate (H _ (In_codePoints 0x2329 s eq_refl Hu)). }
  destruct (Z.eqb_spec u 0x232A) as [->|]; [|done].
  discriminate (H _ (In_codePoints 0x232A s eq_refl Hu)).
Qed.

(** ** UTF-8 is injective and prefix-free *)

Definition is_codepoint (c : Z) : Prop := 0 <= c < 0x110000.

Lemma is_scalar_codepoint c : is_scalar c = true -> is_codepoint c.
Proof. unfold is_scalar, is_codepoint. intros H. bool_prop. lia. Qed.

Lemma utf8_char_prefix c d r r' :
  is_codepoint c -> is_codepoint d ->
  utf8_char c ++ r = utf8_char d ++ r' -> c = d /\ r = r'.
Proof.
  unfold is_codepoint, utf8_char. intros Hc Hd H.
  destruct (Z.ltb_spec c 0x80), (Z.ltb_spec d 0x80);
    destruct (Z.ltb_spec c 0x800), (Z.ltb_spec d 0x800);
    destruct (Z.ltb_spec c 0x10000), (Z.ltb_spec d 0x10000);
    cbn [app] in H; try lia;
    injection H; clear H; intros;
    (split; [|first [assumption | exfalso]]);
    Z.to_euclidean_division_equations; lia.
Qed.

Lemma as_bytes_app s t : as_bytes (s ++ t) = as_bytes s ++ as_bytes t.
Proof. unfold as_bytes. by rewrite flat_map_app. Qed.

Lemma utf8_char_nonempty c : utf8_char c <> [].
Proof. unfold utf8_char. repeat case_match; done. Qed.

Lemma as_bytes_inj s t :
  Forall is_codepoint s -> Forall is_codepoint t -> as_bytes s = as_bytes t -> s = t.
Proof.
  intros Hs. revert t. induction Hs as [|c s Hc _ IH]; intros t Ht H.
  - destruct t as [|d t]; [done|]. cbn in H.
    by destruct (utf8_char d) eqn:E; [apply utf8_char_nonempty in E|].
  - destruct Ht as [|d t Hd Ht].
    + cbn in H. by destruct (utf8_char c) eqn:E; [apply utf8_char_nonempty in E|].
    + cbn in H. apply utf8_char_prefix in H as [-> H]; [|done..]. f_equal. by apply IH.
Qed.

Lemma utf8_char_bytes c : is_codepoint c -> Forall is_byte (utf8_char c).
Proof.
  unfold is_codepoint, utf8_char, is_byte. intros Hc.
  repeat case_match; bool_prop; repeat constructor;
    Z.to_euclidean_division_equations; lia.
Qed.

Lemma as_bytes_bytes s : Forall is_codepoint s -> Forall is_byte (as_bytes s).
Proof.
  induction 1; cbn; [constructor|]. apply Forall_app. split; [|done].
  by apply utf8_char_bytes.
Qed.

(** UTF-8 of an ASCII character is the character; of any other is at least two bytes. *)
Lemma utf8_char_length_ascii c : 0 <= c < 0x80 -> length (utf8_char c) = 1%nat.
Proof. intros H. unfold utf8_char. by rewrite (proj2 (Z.ltb_lt c 0x80)) by lia. Qed.

Lemma as_bytes_length_ge s : (length s <= length (as_bytes s))%nat.
Proof.
  induction s as [|c s IH]; cbn; [lia|]. fold (as_bytes s). rewrite length_app.
  destruct (utf8_char c) eqn:E; [by apply utf8_char_nonempty in E|]. cbn. lia.
Qed.

(** ** split, join, lastIndexOf *)

Lemma split_nonempty c s : split c s <> [].
Proof. destruct s as [|u s]; cbn; [done|]. repeat case_match; done. Qed.

Lemma join_split c s : join [c] (split c s) = s.
Proof.
  induction s as [|u s IH]; [done|]. cbn.
  destruct (Z.eqb_spec u c) as [->|Hne].
  - destruct (split c s) eqn:E; [by apply split_nonempty in E|]. cbn. by rewrite <- IH.
  - destruct (split c s) as [|p ps] eqn:E; [by apply split_nonempty in E|].
    cbn in *. destruct ps; [by rewrite <- IH|]. cbn. by rewrite <- IH.
Qed.

(** The parts of a split do not hold the separator. *)
Lemma split_no_sep c s p : In p (split c s) -> ~ In c p.
Proof.
  revert p. induction s as [|u s IH]; cbn; intros p Hp.
  - destruct Hp as [<-|[]]. by intros [].
  - destruct (Z.eqb_spec u c) as [->|Hne].
    + destruct Hp as [<-|Hp]; [by intros []|auto].
    + destruct (split c s) as [|q qs]; cbn in Hp.
      * destruct Hp as [<-|[]]. intros [<-|[]]. done.
      * destruct Hp as [<-|Hp].
        -- intros [<-|Hq]; [done|]. apply (IH q); cbn; auto.
        -- apply IH. by right.
Qed.

Lemma split_absent c s : ~ In c s -> split c s = [s].
Proof.
  induction s as [|u s IH]; [done|]. cbn. intros H.
  destruct (Z.eqb_spec u c) as [->|Hne]; [destruct H; by left|].
  rewrite IH; [done|]. intros Hc. apply H. by right.
Qed.

Lemma split_app c s t : ~ In c s -> split c (s ++ c :: t) = s :: split c t.
Proof.
  induction s as [|u s IH]; intros H; cbn.
  - by rewrite Z.eqb_refl.
  - destruct (Z.eqb_spec u c) as [->|Hne]; [destruct H; by left|].
    rewrite IH; [done|]. intros Hc. apply H. by right.
Qed.

Lemma split_single c s p : split c s = [p] -> p = s /\ ~ In c s.
Proof.
  intros H. pose proof (join_split c s) as Hj. rewrite H in Hj. cbn in Hj. subst p.
  split; [done|]. apply (split_no_sep c s). rewrite H. by left.
Qed.

(** Splitting undoes joining when no part holds the separator. *)
Lemma split_join c parts :
  parts <> [] -> Forall (fun p => ~ In c p) parts -> split c (join [c] parts) = parts.
Proof.
  intros Hne H. induction H as [|p ps Hp Hps IH]; [done|].
  destruct ps as [|q ps]; [by apply split_absent|].
  change (join [c] (p :: q :: ps)) with (p ++ c :: join [c] (q :: ps)).
  rewrite split_app by done. f_equal. by apply IH.
Qed.

Lemma lastIndexOf_absent c s : ~ In c s -> lastIndexOf c s = -1.
Proof.
  induction s as [|u s IH]; [done|]. cbn. intros H.
  rewrite IH by tauto. cbn. destruct (Z.eqb_spec u c) as [->|]; tauto.
Qed.

Lemma lastIndexOf_ge c s : -1 <= lastIndexOf c s.
Proof. induction s; cbn; [lia|]. repeat case_match; lia. Qed.

Lemma lastIndexOf_app c s t :
  ~ In c t -> lastIndexOf c (s ++ c :: t) = Z.of_nat (length s).
Proof.
  intros Ht. induction s as [|u s IH].
  - cbn. rewrite lastIndexOf_absent by done. cbn. by rewrite Z.eqb_refl.
  - cbn [app lastIndexOf length]. rewrite IH.
    rewrite (proj2 (Z.ltb_ge _ _)) by lia. lia.
Qed.

(** A found index splits the string at the last occurrence. *)
Lemma lastIndexOf_found c s :
  0 <= lastIndexOf c s ->
  s = slice_to (lastIndexOf c s) s ++ c :: slice_from (lastIndexOf c s + 1) s
  /\ ~ In c (slice_from (lastIndexOf c s + 1) s).
Proof.
  unfold slice_to, slice_from. induction s as [|u s IH]; cbn; [lia|].
  destruct (Z.ltb_spec (lastIndexOf c s) 0) as [Hneg|Hpos].
  - destruct (Z.eqb_spec u c) as [->|]; [|lia]. intros _. cbn. split; [done|].
    intros Hc. destruct (List.in_split c s Hc) as (a & b & ->). clear IH Hc.
    induction a as [|x a IHa]; cbn in Hneg.
    + pose proof (lastIndexOf_ge c b). repeat case_match; bool_prop; lia.
    + repeat case_match; bool_prop; lia.
  - intros _. specialize (IH Hpos) as [IH1 IH2].
    replace (Z.to_nat (lastIndexOf c s + 1)) with (S (Z.to_nat (lastIndexOf c s))) in * by lia.
    replace (Z.to_nat (lastIndexOf c s + 1 + 1)) with (S (S (Z.to_nat (lastIndexOf c s)))) by lia.
    split; [|done]. cbn. f_equal. done.
Qed.

(** ** trim *)

Lemma trimStart_id s u r : s = u :: r -> is_white u = false -> trimStart s = s.
Proof. intros -> H. cbn [trimStart]. by rewrite H. Qed.

Lemma trim_id s :
  Forall (fun u => is_white u = false) s -> trim s = s.
Proof.
  intros H. assert (Hs : forall t, Forall (fun u => is_white u = false) t -> trimStart t = t).
  { intros t [|u r Hu _]; [done|]. cbn [trimStart]. by rewrite Hu. }
  unfold trim, trimEnd. rewrite (Hs s) by done.
  rewrite (Hs (rev s)); [apply rev_involutive|].
  apply List.Forall_rev. done.
Qed.
