(* ===== verification/Errors.v ===== *)
(** * Program errors

    [SolansError] is the program's error enum (programs/solans/src/error.rs)
    with its messages; Anchor numbers custom errors from 6000 in declaration
    order.  [solansErrorMessages] and [getSolansErrorMessage] are the client's
    table of the same codes (clients/ts/src/generated/errors/solans.ts). *)
From S2P Require Import Prelude.

(** The variants of the program's error enum, in declaration order. *)
Inductive SolansError : Type :=
| InvalidNameLength
| InvalidNameCharacter
| InvalidNameHyphen
| NameMismatch
| InvalidTld
| InvalidYears
| MathOverflow
| NotOwner
| NotAuthorized
| TransferLocked
| NotExpired
| RecordNotFound
| TooManyRecords
| RecordTooLong
| InvalidTreasury
| InvalidMint
| NotAdmin
| Tokenized
| InvalidNftMint
| TooDeep
| ParentExpired
| NotParent
| Subdomain
| Listed
| NotListed
| NotSeller
| ListingExpired
| SelfPurchase
| PriceMismatch
| InvalidFeeBps
| OfferExpired
| NotOfferer
| InvalidFeeSplit
| InvalidPrice
| InsufficientStake
| StakeMintMismatch
| SolansNotConfigured
| InsufficientBurnVault
| InvalidDiscount
| AuctionEnded
| AuctionActive
| BidTooLow
| AuctionHasBids
| SelfBid
| WrongRefundAccount
| NameExpired
| AutoRenewTooEarly.

#[export] Instance SolansError_eq_dec : EqDecision SolansError.
Proof. solve_decision. Defined.

(** [type Result<T>] of the program. *)
Abbreviation Result := (result SolansError).

(** [require!(cond, err)]. *)
Definition require (cond : bool) (e : SolansError) : Result unit :=
  if cond then Ok tt else Err e.

(** The [#[msg]] of each variant. *)
Definition msg (e : SolansError) : string :=
  match e with
  | InvalidNameLength => "Name length must be between 1 and 63 characters"
  | InvalidNameCharacter => "Name contains invalid characters (allowed: lowercase a-z, 0-9, hyphen)"
  | InvalidNameHyphen => "Invalid hyphen position (no leading, trailing, or consecutive hyphens)"
  | NameMismatch => "Provided name does not match the account's name hash"
  | InvalidTld => "Unsupported TLD"
  | InvalidYears => "Registration term (years) is out of the allowed range"
  | MathOverflow => "Arithmetic overflow"
  | NotOwner => "Signer is not the owner of this name"
  | NotAuthorized => "Signer is not the owner or controller of this name"
  | TransferLocked => "Name transfer is locked"
  | NotExpired => "Name is not past its expiration + grace period"
  | RecordNotFound => "Record key not found"
  | TooManyRecords => "Record store is full"
  | RecordTooLong => "Record key or value exceeds the maximum length"
  | InvalidTreasury => "Treasury token account does not match config"
  | InvalidMint => "Payment mint does not match config"
  | NotAdmin => "Signer is not the config admin"
  | Tokenized => "Name is tokenized as an NFT; redeem it first"
  | InvalidNftMint => "Provided mint is not this name's NFT"
  | TooDeep => "Subdomain depth exceeds the maximum"
  | ParentExpired => "Parent name has expired"
  | NotParent => "Account is not a subdomain of the provided parent"
  | Subdomain => "Operation is not supported for a subdomain"
  | Listed => "Name is listed for sale; cancel the listing first"
  | NotListed => "Name is not listed for sale"
  | NotSeller => "Signer is not the seller of this listing"
  | ListingExpired => "Listing has expired"
  | SelfPurchase => "Buyer and seller must differ"
  | PriceMismatch => "Listing price does not match the expected price"
  | InvalidFeeBps => "Marketplace fee exceeds the maximum allowed"
  | OfferExpired => "Offer has expired"
  | NotOfferer => "Signer cannot cancel this offer"
  | InvalidFeeSplit => "Fee-split basis points must sum to less than 10000"
  | InvalidPrice => "Every registration price tier must be greater than zero"
  | InsufficientStake => "Insufficient staked balance"
  | StakeMintMismatch => "Token account mint does not match the staking pool"
  | SolansNotConfigured => "Pay-in-$SOLANS is not configured (set the mint, rate, and discount)"
  | InsufficientBurnVault => "Burn vault has insufficient balance for this buyback"
  | InvalidDiscount => "Discount basis points must be less than 10000"
  | AuctionEnded => "Auction has ended"
  | AuctionActive => "Auction is still active"
  | BidTooLow => "Bid is below the reserve or the minimum increment"
  | AuctionHasBids => "Auction already has bids and cannot be cancelled"
  | SelfBid => "Seller cannot bid on their own auction"
  | WrongRefundAccount => "Refund account does not belong to the current highest bidder"
  | NameExpired => "Name has expired and does not resolve"
  | AutoRenewTooEarly => "Name is not yet within the auto-renew window"
  end%string.

(** The variants in declaration order. *)
Definition all_errors : list SolansError :=
  [InvalidNameLength; InvalidNameCharacter; InvalidNameHyphen; NameMismatch; InvalidTld; InvalidYears; MathOverflow; NotOwner; NotAuthorized; TransferLocked; NotExpired; RecordNotFound; TooManyRecords; RecordTooLong; InvalidTreasury; InvalidMint; NotAdmin; Tokenized; InvalidNftMint; TooDeep; ParentExpired; NotParent; Subdomain; Listed; NotListed; NotSeller; ListingExpired; SelfPurchase; PriceMismatch; InvalidFeeBps; OfferExpired; NotOfferer; InvalidFeeSplit; InvalidPrice; InsufficientStake; StakeMintMismatch; SolansNotConfigured; InsufficientBurnVault; InvalidDiscount; AuctionEnded; AuctionActive; BidTooLow; AuctionHasBids; SelfBid; WrongRefundAccount; NameExpired; AutoRenewTooEarly].

(** Anchor's number of a variant: 6000 plus its position in the enum. *)
Definition anchor_code (e : SolansError) : Z :=
  match e with
  | InvalidNameLength => 6000
  | InvalidNameCharacter => 6001
  | InvalidNameHyphen => 6002
  | NameMismatch => 6003
  | InvalidTld => 6004
  | InvalidYears => 6005
  | MathOverflow => 6006
  | NotOwner => 6007
  | NotAuthorized => 6008
  | TransferLocked => 6009
  | NotExpired => 6010
  | RecordNotFound => 6011
  | TooManyRecords => 6012
  | RecordTooLong => 6013
  | InvalidTreasury => 6014
  | InvalidMint => 6015
  | NotAdmin => 6016
  | Tokenized => 6017
  | InvalidNftMint => 6018
  | TooDeep => 6019
  | ParentExpired => 6020
  | NotParent => 6021
  | Subdomain => 6022
  | Listed => 6023
  | NotListed => 6024
  | NotSeller => 6025
  | ListingExpired => 6026
  | SelfPurchase => 6027
  | PriceMismatch => 6028
  | InvalidFeeBps => 6029
  | OfferExpired => 6030
  | NotOfferer => 6031
  | InvalidFeeSplit => 6032
  | InvalidPrice => 6033
  | InsufficientStake => 6034
  | StakeMintMismatch => 6035
  | SolansNotConfigured => 6036
  | InsufficientBurnVault => 6037
  | InvalidDiscount => 6038
  | AuctionEnded => 6039
  | AuctionActive => 6040
  | BidTooLow => 6041
  | AuctionHasBids => 6042
  | SelfBid => 6043
  | WrongRefundAccount => 6044
  | NameExpired => 6045
  | AutoRenewTooEarly => 6046
  end.

(** The client: one constant per error code. *)
Definition SOLANS_ERROR__INVALID_NAME_LENGTH : Z := 0x1770.
Definition SOLANS_ERROR__INVALID_NAME_CHARACTER : Z := 0x1771.
Definition SOLANS_ERROR__INVALID_NAME_HYPHEN : Z := 0x1772.
Definition SOLANS_ERROR__NAME_MISMATCH : Z := 0x1773.
Definition SOLANS_ERROR__INVALID_TLD : Z := 0x1774.
Definition SOLANS_ERROR__INVALID_YEARS : Z := 0x1775.
Definition SOLANS_ERROR__MATH_OVERFLOW : Z := 0x1776.
Definition SOLANS_ERROR__NOT_OWNER : Z := 0x1777.
Definition SOLANS_ERROR__NOT_AUTHORIZED : Z := 0x1778.
Definition SOLANS_ERROR__TRANSFER_LOCKED : Z := 0x1779.
Definition SOLANS_ERROR__NOT_EXPIRED : Z := 0x177a.
Definition SOLANS_ERROR__RECORD_NOT_FOUND : Z := 0x177b.
Definition SOLANS_ERROR__TOO_MANY_RECORDS : Z := 0x177c.
Definition SOLANS_ERROR__RECORD_TOO_LONG : Z := 0x177d.
Definition SOLANS_ERROR__INVALID_TREASURY : Z := 0x177e.
Definition SOLANS_ERROR__INVALID_MINT : Z := 0x177f.
Definition SOLANS_ERROR__NOT_ADMIN : Z := 0x1780.
Definition SOLANS_ERROR__TOKENIZED : Z := 0x1781.
Definition SOLANS_ERROR__INVALID_NFT_MINT : Z := 0x1782.
Definition SOLANS_ERROR__TOO_DEEP : Z := 0x1783.
Definition SOLANS_ERROR__PARENT_EXPIRED : Z := 0x1784.
Definition SOLANS_ERROR__NOT_PARENT : Z := 0x1785.
Definition SOLANS_ERROR__SUBDOMAIN : Z := 0x1786.
Definition SOLANS_ERROR__LISTED : Z := 0x1787.
Definition SOLANS_ERROR__NOT_LISTED : Z := 0x1788.
Definition SOLANS_ERROR__NOT_SELLER : Z := 0x1789.
Definition SOLANS_ERROR__LISTING_EXPIRED : Z := 0x178a.
Definition SOLANS_ERROR__SELF_PURCHASE : Z := 0x178b.
Definition SOLANS_ERROR__PRICE_MISMATCH : Z := 0x178c.
Definition SOLANS_ERROR__INVALID_FEE_BPS : Z := 0x178d.
Definition SOLANS_ERROR__OFFER_EXPIRED : Z := 0x178e.
Definition SOLANS_ERROR__NOT_OFFERER : Z := 0x178f.
Definition SOLANS_ERROR__INVALID_FEE_SPLIT : Z := 0x1790.
Definition SOLANS_ERROR__INVALID_PRICE : Z := 0x1791.
Definition SOLANS_ERROR__INSUFFICIENT_STAKE : Z := 0x1792.
Definition SOLANS_ERROR__STAKE_MINT_MISMATCH : Z := 0x1793.
Definition SOLANS_ERROR__SOLANS_NOT_CONFIGURED : Z := 0x1794.
Definition SOLANS_ERROR__INSUFFICIENT_BURN_VAULT : Z := 0x1795.
Definition SOLANS_ERROR__INVALID_DISCOUNT : Z := 0x1796.
Definition SOLANS_ERROR__AUCTION_ENDED : Z := 0x1797.
Definition SOLANS_ERROR__AUCTION_ACTIVE : Z := 0x1798.
Definition SOLANS_ERROR__BID_TOO_LOW : Z := 0x1799.
Definition SOLANS_ERROR__AUCTION_HAS_BIDS : Z := 0x179a.
Definition SOLANS_ERROR__SELF_BID : Z := 0x179b.
Definition SOLANS_ERROR__WRONG_REFUND_ACCOUNT : Z := 0x179c.
Definition SOLANS_ERROR__NAME_EXPIRED : Z := 0x179d.
Definition SOLANS_ERROR__AUTO_RENEW_TOO_EARLY : Z := 0x179e.

(** [solansErrorMessages]: the message of each code, in the order of the source. *)
Definition solansErrorMessages : list (Z * string) :=
  [ (SOLANS_ERROR__AUCTION_ACTIVE, "Auction is still active");
    (SOLANS_ERROR__AUCTION_ENDED, "Auction has ended");
    (SOLANS_ERROR__AUCTION_HAS_BIDS, "Auction already has bids and cannot be cancelled");
    (SOLANS_ERROR__AUTO_RENEW_TOO_EARLY, "Name is not yet within the auto-renew window");
    (SOLANS_ERROR__BID_TOO_LOW, "Bid is below the reserve or the minimum increment");
    (SOLANS_ERROR__INSUFFICIENT_BURN_VAULT, "Burn vault has insufficient balance for this buyback");
    (SOLANS_ERROR__INSUFFICIENT_STAKE, "Insufficient staked balance");
    (SOLANS_ERROR__INVALID_DISCOUNT, "Discount basis points must be less than 10000");
    (SOLANS_ERROR__INVALID_FEE_BPS, "Marketplace fee exceeds the maximum allowed");
    (SOLANS_ERROR__INVALID_FEE_SPLIT, "Fee-split basis points must sum to less than 10000");
    (SOLANS_ERROR__INVALID_MINT, "Payment mint does not match config");
    (SOLANS_ERROR__INVALID_NAME_CHARACTER, "Name contains invalid characters (allowed: lowercase a-z, 0-9, hyphen)");
    (SOLANS_ERROR__INVALID_NAME_HYPHEN, "Invalid hyphen position (no leading, trailing, or consecutive hyphens)");
    (SOLANS_ERROR__INVALID_NAME_LENGTH, "Name length must be between 1 and 63 characters");
    (SOLANS_ERROR__INVALID_NFT_MINT, "Provided mint is not this name's NFT");
    (SOLANS_ERROR__INVALID_PRICE, "Every registration price tier must be greater than zero");
    (SOLANS_ERROR__INVALID_TLD, "Unsupported TLD");
    (SOLANS_ERROR__INVALID_TREASURY, "Treasury token account does not match config");
    (SOLANS_ERROR__INVALID_YEARS, "Registration term (years) is out of the allowed range");
    (SOLANS_ERROR__LISTED, "Name is listed for sale; cancel the listing first");
    (SOLANS_ERROR__LISTING_EXPIRED, "Listing has expired");
    (SOLANS_ERROR__MATH_OVERFLOW, "Arithmetic overflow");
    (SOLANS_ERROR__NAME_EXPIRED, "Name has expired and does not resolve");
    (SOLANS_ERROR__NAME_MISMATCH, "Provided name does not match the account's name hash");
    (SOLANS_ERROR__NOT_ADMIN, "Signer is not the config admin");
    (SOLANS_ERROR__NOT_AUTHORIZED, "Signer is not the owner or controller of this name");
    (SOLANS_ERROR__NOT_EXPIRED, "Name is not past its expiration + grace period");
    (SOLANS_ERROR__NOT_LISTED, "Name is not listed for sale");
    (SOLANS_ERROR__NOT_OFFERER, "Signer cannot cancel this offer");
    (SOLANS_ERROR__NOT_OWNER, "Signer is not the owner of this name");
    (SOLANS_ERROR__NOT_PARENT, "Account is not a subdomain of the provided parent");
    (SOLANS_ERROR__NOT_SELLER, "Signer is not the seller of this listing");
    (SOLANS_ERROR__OFFER_EXPIRED, "Offer has expired");
    (SOLANS_ERROR__PARENT_EXPIRED, "Parent name has expired");
    (SOLANS_ERROR__PRICE_MISMATCH, "Listing price does not match the expected price");
    (SOLANS_ERROR__RECORD_NOT_FOUND, "Record key not found");
    (SOLANS_ERROR__RECORD_TOO_LONG, "Record key or value exceeds the maximum length");
    (SOLANS_ERROR__SELF_BID, "Seller cannot bid on their own auction");
    (SOLANS_ERROR__SELF_PURCHASE, "Buyer and seller must differ");
    (SOLANS_ERROR__SOLANS_NOT_CONFIGURED, "Pay-in-$SOLANS is not configured (set the mint, rate, and discount)");
    (SOLANS_ERROR__STAKE_MINT_MISMATCH, "Token account mint does not match the staking pool");
    (SOLANS_ERROR__SUBDOMAIN, "Operation is not supported for a subdomain");
    (SOLANS_ERROR__TOKENIZED, "Name is tokenized as an NFT; redeem it first");
    (SOLANS_ERROR__TOO_DEEP, "Subdomain depth exceeds the maximum");
    (SOLANS_ERROR__TOO_MANY_RECORDS, "Record store is full");
    (SOLANS_ERROR__TRANSFER_LOCKED, "Name transfer is locked");
    (SOLANS_ERROR__WRONG_REFUND_ACCOUNT, "Refund account does not belong to the current highest bidder") ]%string.

Fixpoint assoc {A} (k : Z) (l : list (Z * A)) : option A :=
  match l with
  | [] => None
  | (k', v) :: l' => if k =? k' then Some v else assoc k l'
  end.

(** [getSolansErrorMessage(code)]; [production] is [NODE_ENV === production]. *)
Definition getSolansErrorMessage (production : bool) (code : Z) : option string :=
  if production then Some "Error message not available in production bundles."%string
  else assoc code solansErrorMessages.

(** For every error of the program, the client's table gives, at Anchor's code for it,
    the program's message, and the enum's declaration order numbers it. *)
Theorem client_error_table_matches_program (e : SolansError) :
  getSolansErrorMessage false (anchor_code e) = Some (msg e)
  /\ nth_error all_errors (Z.to_nat (anchor_code e - 6000)) = Some e.
Proof. destruct e; split; reflexivity. Qed.
