(* ===== verification/OnChain.v ===== *)
(** * The program's naming and fee rules

    The pure part of the Rust program (programs/solans/src): constants.rs, the
    validation and hashing functions of utils.rs, and the pricing methods of
    state/config.rs.  Integers keep their Rust width: checked operations return
    [MathOverflow], saturating ones clamp. *)
From S2P Require Import Prelude JsString Errors.

(** ** Machine integers *)

Definition U64_MAX : Z := 2 ^ 64 - 1.
Definition U128_MAX : Z := 2 ^ 128 - 1.
Definition I64_MIN : Z := - 2 ^ 63.
Definition I64_MAX : Z := 2 ^ 63 - 1.

Definition is_u16 (z : Z) : Prop := 0 <= z < 2 ^ 16.
Definition is_u64 (z : Z) : Prop := 0 <= z <= U64_MAX.
Definition is_u128 (z : Z) : Prop := 0 <= z <= U128_MAX.
Definition is_i64 (z : Z) : Prop := I64_MIN <= z <= I64_MAX.

(** [checked_*(..).ok_or_else(|| error!(MathOverflow))] on a given width. *)
Definition checked (lo hi z : Z) : Result Z :=
  if (lo <=? z) && (z <=? hi) then Ok z else Err MathOverflow.

Definition checked_u64 := checked 0 U64_MAX.
Definition checked_u128 := checked 0 U128_MAX.
Definition checked_i64 := checked I64_MIN I64_MAX.

Definition checked_div_u128 (a b : Z) : Result Z :=
  if b =? 0 then Err MathOverflow else Ok (a / b).

Definition saturating_sub (a b : Z) : Z := Z.max 0 (a - b).
Definition saturating_mul_u64 (a b : Z) : Z := Z.min U64_MAX (a * b).
Definition saturating_mul_u128 (a b : Z) : Z := Z.min U128_MAX (a * b).

(** ** constants.rs *)

Definition BPS_DENOMINATOR : Z := 10000.
Definition ACC_SCALE : Z := 1000000000000.
Definition SOLANS_RATE_SCALE : Z := 1000000.
Definition NAME_MIN_LEN : Z := 1.
Definition NAME_MAX_LEN : Z := 63.
Definition SECONDS_PER_YEAR : Z := 31536000.
Definition RENEWAL_WINDOW_SECONDS : Z := 2592000.
Definition MAX_SUBDOMAIN_DEPTH : Z := 4.
Definition ALLOWED_TLDS : list (list Z) := [js "sol"; js "chain"; js "web3"].

(** ** Names (utils.rs)

    A Rust [&str] is the list of its [char]s. *)

Definition is_emoji_char (c : Z) : bool :=
  ((0x1F300 <=? c) && (c <=? 0x1FAFF))
  || ((0x2600 <=? c) && (c <=? 0x27BF))
  || ((0x1F1E6 <=? c) && (c <=? 0x1F1FF))
  || ((0x2300 <=? c) && (c <=? 0x23FF))
  || ((0x2B00 <=? c) && (c <=? 0x2BFF))
  || (c =? 0x200D) || (c =? 0x20E3) || (c =? 0xFE0F).

(** [matches!(c, 'a'..='z' | '0'..='9' | '-')] *)
Definition is_label_ascii (c : Z) : bool :=
  ((97 <=? c) && (c <=? 122)) || ((48 <=? c) && (c <=? 57)) || (c =? 45).

(** The loop of [validate_name]: state [(first, last, prev_hyphen)]. *)
Fixpoint validate_chars (cs : list Z) (first : option Z) (last : Z) (prev_hyphen : bool)
  : Result (option Z * Z) :=
  match cs with
  | [] => Ok (first, last)
  | c :: cs' =>
      let first' := match first with None => Some c | Some f => Some f end in
      _ ← require (is_label_ascii c || is_emoji_char c) InvalidNameCharacter;
      if c =? 45 then
        _ ← require (negb prev_hyphen) InvalidNameHyphen;
        validate_chars cs' first' c true
      else validate_chars cs' first' c false
  end.

Definition validate_name (name : list Z) : Result unit :=
  let len := Z.of_nat (length (as_bytes name)) in
  _ ← require ((NAME_MIN_LEN <=? len) && (len <=? NAME_MAX_LEN)) InvalidNameLength;
  '(first, last) ← validate_chars name None 0 false;
  first ← of_option InvalidNameLength first;
  require (negb (first =? 45) && negb (last =? 45)) InvalidNameHyphen.

Definition validate_tld (tld : list Z) : Result unit :=
  require (existsb (fun t => bool_decide (t = tld)) ALLOWED_TLDS) InvalidTld.

Definition validate_years (years min_years max_years : Z) : Result unit :=
  require ((min_years <=? years) && (years <=? max_years)) InvalidYears.

Definition years_to_secs (years : Z) : Result Z := checked_i64 (years * SECONDS_PER_YEAR).

(** ** Hashing

    [keccak_256] is @noble/hashes' and [hashv] is solana-keccak-hasher's: both
    compute Keccak-256, the second over the concatenation of its slices. *)
Class Keccak := {
  keccak_256 : bytes -> bytes;
  hashv : list bytes -> bytes;
}.

Class KeccakSpec (K : Keccak) : Prop := {
  hashv_concat : forall parts, hashv parts = keccak_256 (List.concat parts);
  keccak_length : forall m, length (keccak_256 m) = 32%nat;
}.

Section Hashing.
Context `{Keccak}.

Definition compute_name_hash (name tld : list Z) : bytes :=
  hashv [as_bytes name; js "."; as_bytes tld].

Definition compute_subdomain_hash (parent_hash : bytes) (label : list Z) : bytes :=
  hashv [[0]; parent_hash; as_bytes label].
End Hashing.

(** ** Config (state/config.rs) *)

Abbreviation Pubkey := bytes.
Definition Pubkey_default : Pubkey := repeat 0 32.

Record Config := {
  admin : Pubkey;
  payment_mint : Pubkey;
  treasury_token_account : Pubkey;
  price_1 : Z; price_2 : Z; price_3 : Z; price_4 : Z; price_5plus : Z;
  price_numeric : Z;
  grace_period_seconds : Z;
  min_years : Z; max_years : Z;
  sol_treasury : Pubkey;
  marketplace_fee_bps : Z;
  staking_vault : Pubkey;
  burn_vault : Pubkey;
  staking_fee_bps : Z; referral_fee_bps : Z; burn_fee_bps : Z;
  solans_mint : Pubkey;
  solans_rate : Z;
  solans_discount_bps : Z;
  bump : Z;
}.

Definition price_for_len (self : Config) (len : Z) : Z :=
  if len =? 1 then price_1 self
  else if len =? 2 then price_2 self
  else if len =? 3 then price_3 self
  else if len =? 4 then price_4 self
  else price_5plus self.

Definition is_ascii_digit (c : Z) : bool := (48 <=? c) && (c <=? 57).

Definition price_for_label (self : Config) (label : list Z) : Z :=
  if negb (forallb is_ascii label) then
    saturating_mul_u64 (price_for_len self (Z.of_nat (length label))) 2
  else
    let b := as_bytes label in
    if (Z.of_nat (length b) <=? 4) && forallb is_ascii_digit b then price_numeric self
    else price_for_len self (Z.of_nat (length b)).

(** The closure [share], its [as u64] included. *)
Definition fee_share (amount bps : Z) : Z :=
  saturating_mul_u128 amount bps / BPS_DENOMINATOR mod 2 ^ 64.

(** (treasury, staking, referral, burn) *)
Definition fee_split (self : Config) (amount : Z) : Z * Z * Z * Z :=
  let staking := fee_share amount (staking_fee_bps self) in
  let referral := fee_share amount (referral_fee_bps self) in
  let burn := fee_share amount (burn_fee_bps self) in
  let treasury := saturating_sub (saturating_sub (saturating_sub amount staking) referral) burn in
  (treasury, staking, referral, burn).

Definition solans_enabled (self : Config) : bool := 
  negb (bool_decide (solans_mint self = Pubkey_default)) && (solans_rate self >? 0).

Definition solans_fee (self : Config) (usdc_fee : Z) : Result Z :=
  v ← checked_u128 (usdc_fee * solans_rate self);
  gross ← checked_div_u128 v SOLANS_RATE_SCALE;
  let keep_bps := saturating_sub BPS_DENOMINATOR (solans_discount_bps self) in
  v ← checked_u128 (gross * keep_bps);
  net ← checked_div_u128 v BPS_DENOMINATOR;
  checked_u64 net.

Definition buyback_usdc (self : Config) (solans_amount : Z) : Result Z :=
  v ← checked_u128 (solans_amount * SOLANS_RATE_SCALE);
  usdc ← checked_div_u128 v (solans_rate self);
  checked_u64 usdc.

(** A config whose integers are in range and whose fee split was accepted by
    [init_config] / [update_config]: the three shares sum to less than 10_000. *)
Record config_ok (c : Config) : Prop := {
  ok_p1 : is_u64 (price_1 c); ok_p2 : is_u64 (price_2 c); ok_p3 : is_u64 (price_3 c);
  ok_p4 : is_u64 (price_4 c); ok_p5 : is_u64 (price_5plus c);
  ok_pn : is_u64 (price_numeric c);
  ok_staking : is_u16 (staking_fee_bps c); ok_referral : is_u16 (referral_fee_bps c);
  ok_burn : is_u16 (burn_fee_bps c);
  ok_split : staking_fee_bps c + referral_fee_bps c + burn_fee_bps c < BPS_DENOMINATOR;
  ok_rate : is_u64 (solans_rate c);
  ok_discount : 0 <= solans_discount_bps c < BPS_DENOMINATOR;
}.

(** ** Lemmas *)

Lemma checked_Ok lo hi z v : checked lo hi z = Ok v <-> z = v /\ lo <= z <= hi.
Proof.
  unfold checked. destruct ((lo <=? z) && (z <=? hi)) eqn:E.
  - bool_prop. split; [intros [= <-]; lia|intros [<- _]; done].
  - split; [done|]. intros [<- ?]. apply andb_false_iff in E as [E|E]; bool_prop; lia.
Qed.

Lemma require_Ok b e : require b e = Ok tt <-> b = true.
Proof. destruct b; cbn; split; done. Qed.

Lemma fee_share_bounds amount bps :
  is_u64 amount -> 0 <= bps ->
  0 <= fee_share amount bps /\ fee_share amount bps <= amount * bps / BPS_DENOMINATOR.
Proof.
  unfold is_u64, fee_share, saturating_mul_u128, BPS_DENOMINATOR. intros Ha Hb.
  assert (0 <= U128_MAX) by (unfold U128_MAX; lia).
  split; [apply Z.mod_pos_bound; lia|].
  etrans; [apply Z.mod_le; [apply Z.div_pos; nia|lia]|]. apply Z.div_le_mono; lia.
Qed.

(** On a [u64] amount and at most all its basis points, the multiplication never saturates
    and the quotient is a [u64]. *)
Lemma fee_share_exact amount bps : is_u64 amount -> 0 <= bps <= BPS_DENOMINATOR ->
  fee_share amount bps = amount * bps / BPS_DENOMINATOR.
Proof.
  unfold is_u64, fee_share, saturating_mul_u128, U64_MAX, U128_MAX, BPS_DENOMINATOR. intros Ha Hb.
  rewrite Z.min_r by nia. apply Z.mod_small. split; [apply Z.div_pos; nia|].
  apply Z.div_lt_upper_bound; nia.
Qed.

Lemma solans_fee_exact c fee v :
  solans_fee c fee = Ok v ->
  v = fee * solans_rate c / SOLANS_RATE_SCALE
      * Z.max 0 (BPS_DENOMINATOR - solans_discount_bps c) / BPS_DENOMINATOR
  /\ 0 <= v <= U64_MAX.
Proof.
  unfold solans_fee, checked_u128, checked_u64. intros H.
  apply result_bind_Ok in H as (x & Hx & H). apply checked_Ok in Hx as [<- Hx].
  cbn in H. apply result_bind_Ok in H as (y & Hy & H). apply checked_Ok in Hy as [<- Hy].
  cbn in H. apply checked_Ok in H as [<- Hz]. done.
Qed.

Lemma buyback_usdc_exact c a v :
  buyback_usdc c a = Ok v ->
  solans_rate c <> 0 /\ v = a * SOLANS_RATE_SCALE / solans_rate c /\ 0 <= v <= U64_MAX.
Proof.
  unfold buyback_usdc, checked_u128, checked_u64, checked_div_u128. intros H.
  apply result_bind_Ok in H as (x & Hx & H). apply checked_Ok in Hx as [<- Hx].
  destruct (Z.eqb_spec (solans_rate c) 0) as [E|E]; [done|]. cbn in H.
  apply checked_Ok in H as [<- Hz]. done.
Qed.

(** The program's fee split loses nothing: the four shares sum to the fee, the three
    configured shares are the floors of their basis points, none is negative, and the
    treasury's is positive for a positive fee. *)
Theorem fee_split_conserves (c : Config) (amount : Z) (Hc : config_ok c) (Ha : is_u64 amount) :
  let '(treasury, staking, referral, burn) := fee_split c amount in
  treasury + staking + referral + burn = amount
  /\ staking = amount * staking_fee_bps c / BPS_DENOMINATOR
  /\ referral = amount * referral_fee_bps c / BPS_DENOMINATOR
  /\ burn = amount * burn_fee_bps c / BPS_DENOMINATOR
  /\ 0 <= treasury /\ 0 <= staking /\ 0 <= referral /\ 0 <= burn
  /\ (0 < amount -> 0 < treasury).
Proof.
  destruct Hc. unfold fee_split.
  rewrite !fee_share_exact by (unfold is_u16, BPS_DENOMINATOR in *; lia || done).
  pose proof (fee_share_bounds amount (staking_fee_bps c) Ha ltac:(unfold is_u16 in *; lia)).
  pose proof (fee_share_bounds amount (referral_fee_bps c) Ha ltac:(unfold is_u16 in *; lia)).
  pose proof (fee_share_bounds amount (burn_fee_bps c) Ha ltac:(unfold is_u16 in *; lia)).
  rewrite !fee_share_exact in * by (unfold is_u16, BPS_DENOMINATOR in *; lia || done).
  unfold BPS_DENOMINATOR, is_u16, is_u64, saturating_sub in *.
  assert (Hsum : 0 < amount ->
    amount * staking_fee_bps c / 10000 + amount * referral_fee_bps c / 10000
    + amount * burn_fee_bps c / 10000 < amount).
  { intros Hpos.
    pose proof (Z.mul_div_le (amount * staking_fee_bps c) 10000 ltac:(lia)).
    pose proof (Z.mul_div_le (amount * referral_fee_bps c) 10000 ltac:(lia)).
    pose proof (Z.mul_div_le (amount * burn_fee_bps c) 10000 ltac:(lia)). nia. }
  assert (Hz : amount = 0 -> amount * staking_fee_bps c / 10000 = 0
    /\ amount * referral_fee_bps c / 10000 = 0 /\ amount * burn_fee_bps c / 10000 = 0)
    by (intros ->; done).
  lia.
Qed.

Definition sample_config : Config :=
  {| admin := Pubkey_default; payment_mint := Pubkey_default;
     treasury_token_account := Pubkey_default;
     price_1 := 1000000000; price_2 := 200000000; price_3 := 50000000; price_4 := 10000000;
     price_5plus := 1000000; price_numeric := 500000000; grace_period_seconds := 7776000;
     min_years := 1; max_years := 10; sol_treasury := Pubkey_default;
     marketplace_fee_bps := 200; staking_vault := Pubkey_default; burn_vault := Pubkey_default;
     staking_fee_bps := 2500; referral_fee_bps := 1000; burn_fee_bps := 500;
     solans_mint := repeat 7 32; solans_rate := 2000000; solans_discount_bps := 1000;
     bump := 255 |}.

Lemma sample_config_ok : config_ok sample_config.
Proof. split; by_compute. Defined.

Lemma fee_split_conserves_witness :
  let '(t, s, r, b) := fee_split sample_config 1000001 in t + s + r + b = 1000001.
Proof.
  exact (proj1 (fee_split_conserves sample_config 1000001 sample_config_ok
    ltac:(split; by_compute))).
Defined.

(** Paying a fee in $SOLANS and selling the same tokens to the buyback never returns
    more than the fee. *)
Theorem pay_then_buyback_never_profits (c : Config) (fee solans usdc : Z) (Hc : config_ok c)
    (Hfee : is_u64 fee) (Hpay : solans_fee c fee = Ok solans)
    (Hback : buyback_usdc c solans = Ok usdc) :
  usdc <= fee.
Proof.
  apply solans_fee_exact in Hpay as [-> Hs]. apply buyback_usdc_exact in Hback as (Hr & -> & Hu).
  destruct Hc. unfold is_u64, BPS_DENOMINATOR, SOLANS_RATE_SCALE in *.
  set (gross := fee * solans_rate c / 1000000) in *.
  assert (Hg0 : 0 <= gross) by (apply Z.div_pos; nia).
  assert (Hg : gross * 1000000 <= fee * solans_rate c).
  { pose proof (Z.mul_div_le (fee * solans_rate c) 1000000 ltac:(lia)). subst gross. lia. }
  assert (Hn : gross * Z.max 0 (10000 - solans_discount_bps c) / 10000 <= gross).
  { apply Z.div_le_upper_bound; [lia|]. nia. }
  apply Z.div_le_upper_bound; [lia|]. nia.
Qed.

Lemma pay_then_buyback_never_profits_witness :
  solans_fee sample_config 5000000 = Ok 9000000 /\ 4500000 <= 5000000.
Proof.
  split; [reflexivity|].
  exact (pay_then_buyback_never_profits sample_config 5000000 9000000 4500000
    sample_config_ok ltac:(split; by_compute) eq_refl eq_refl).
Defined.
