(* ===== verification/Normalize.v ===== *)
(** * Name normalization (clients/ts/src/normalize.ts)

    Labels, TLDs and dotted paths, as the client parses them before hashing.
    [validateLabel] mirrors the program's [validate_name]; [parseName] handles
    one label with an optional TLD and [parsePath] a subdomain path. *)
From S2P Require Import Prelude JsString Errors OnChain.

Definition DEFAULT_TLD : jsstring := js "sol".
Definition ALLOWED_TLDS : list jsstring := [js "sol"; js "chain"; js "web3"].
Definition NAME_MAX_LEN : Z := 63.
Definition MAX_SUBDOMAIN_DEPTH : Z := 4.

Definition isEmojiChar (cp : Z) : bool :=
  ((cp >=? 0x1F300) && (cp <=? 0x1FAFF))
  || ((cp >=? 0x2600) && (cp <=? 0x27BF))
  || ((cp >=? 0x1F1E6) && (cp <=? 0x1F1FF))
  || ((cp >=? 0x2300) && (cp <=? 0x23FF))
  || ((cp >=? 0x2B00) && (cp <=? 0x2BFF))
  || (cp =? 0x200D)
  || (cp =? 0x20E3)
  || (cp =? 0xFE0F).

Definition byteLen (s : jsstring) : Z := Z.of_nat (length (textEncode s)).

Definition isAllowedTld (t : jsstring) : bool :=
  existsb (fun t' => bool_decide (t' = t)) ALLOWED_TLDS.

(** [s.replace(/^\./, "")] *)
Definition stripLeadingDot (s : jsstring) : jsstring :=
  match s with
  | 46 :: r => r
  | _ => s
  end.

Definition Error {A} (m : jsstring) : result JsError A := Err (MkError m).

Definition quoted (s : jsstring) : jsstring := dquote ++ s ++ dquote.

Definition tldMessage (tld : jsstring) : jsstring :=
  js "Unsupported TLD " ++ quoted tld ++ js " (allowed: " ++ join (js ", ") ALLOWED_TLDS ++ js ")".
Definition lengthMessage (input : jsstring) : jsstring :=
  js "Invalid name length (must be 1-" ++ toString NAME_MAX_LEN ++ js " bytes): " ++ quoted input.
Definition hyphenMessage (input : jsstring) : jsstring :=
  js "Invalid hyphen position (no leading/trailing/double): " ++ quoted input.
Definition charsMessage (input : jsstring) : jsstring :=
  js "Name has invalid characters (allowed: a-z 0-9 - and emoji): " ++ quoted input.
Definition depthMessage (input : jsstring) : jsstring :=
  js "Subdomain too deep (max " ++ toString MAX_SUBDOMAIN_DEPTH ++ js " levels): " ++ quoted input.

(** [c === "-" || (c >= "a" && c <= "z") || (c >= "0" && c <= "9")] on the string of
    one code point. *)
Definition asciiOk (c : Z) : bool :=
  (c =? 45) || ((c >=? 97) && (c <=? 122)) || ((c >=? 48) && (c <=? 57)).

(** The loop over the code points, with [prevHyphen]. *)
Fixpoint checkChars (input : jsstring) (chars : list Z) (prevHyphen : bool)
  : result JsError unit :=
  match chars with
  | [] => Ok tt
  | c :: cs =>
      if negb (asciiOk c) && negb (isEmojiChar c) then Error (charsMessage input)
      else if c =? 45 then
        if prevHyphen then Error (hyphenMessage input) else checkChars input cs true
      else checkChars input cs false
  end.

Definition validateLabel (label input : jsstring) : result JsError jsstring :=
  if (byteLen label <? 1) || (byteLen label >? NAME_MAX_LEN) then Error (lengthMessage input)
  else
    let chars := codePoints label in
    if bool_decide (head chars = Some 45) || bool_decide (last chars = Some 45)
    then Error (hyphenMessage input)
    else _ ← checkChars input chars false; Ok label.

Section Parse.
Context `{Unicode}.

Definition validateTld (tld : jsstring) : result JsError jsstring :=
  let t := stripLeadingDot (toLowerCase (trim tld)) in
  if isAllowedTld t then Ok t else Error (tldMessage tld).

(** [input.trim().normalize(NFKC).toLowerCase()] *)
Definition canonical (input : jsstring) : jsstring :=
  toLowerCase (normalizeNFKC (trim input)).

(** The TLD suffix honoured by both parsers: (rest, tld). *)
Definition splitTld (trimmed : jsstring) : jsstring * jsstring :=
  let dot := lastIndexOf 46 trimmed in
  if (dot >? 0) && isAllowedTld (slice_from (dot + 1) trimmed)
  then (slice_to dot trimmed, slice_from (dot + 1) trimmed)
  else (trimmed, DEFAULT_TLD).

(** [if (tldOverride) tld = validateTld(tldOverride)]; the empty string is falsy. *)
Definition overrideTld (tld : jsstring) (tldOverride : option jsstring) : result JsError jsstring :=
  match tldOverride with
  | Some (u :: r) => validateTld (u :: r)
  | _ => Ok tld
  end.

Definition parseName (input : jsstring) (tldOverride : option jsstring)
  : result JsError (jsstring * jsstring) :=
  let '(label, tld) := splitTld (canonical input) in
  tld ← overrideTld tld tldOverride;
  name ← validateLabel label input;
  Ok (name, tld).

Definition parsePath (input : jsstring) (tldOverride : option jsstring)
  : result JsError (list jsstring * jsstring) :=
  let '(rest, tld) := splitTld (canonical input) in
  tld ← overrideTld tld tldOverride;
  let labels := split 46 rest in
  if Z.of_nat (length labels) - 1 >? MAX_SUBDOMAIN_DEPTH then Error (depthMessage input)
  else _ ← mapR (fun l => validateLabel l input) labels; Ok (labels, tld).

Definition normalizeName (input : jsstring) : result JsError jsstring :=
  '(name, _) ← parseName input None; Ok name.

Definition isValidName (input : jsstring) : bool := is_Ok (parseName input None).
End Parse.

(** ** The canonical form of a label

    The specification both validators implement: 1 to 63 bytes of UTF-8, every
    character allowed, no hyphen at either end and no two in a row. *)
Definition allowed_char (c : Z) : Prop :=
  97 <= c <= 122 \/ 48 <= c <= 57 \/ c = 45
  \/ 0x1F300 <= c <= 0x1FAFF \/ 0x2600 <= c <= 0x27BF \/ 0x1F1E6 <= c <= 0x1F1FF
  \/ 0x2300 <= c <= 0x23FF \/ 0x2B00 <= c <= 0x2BFF
  \/ c = 0x200D \/ c = 0x20E3 \/ c = 0xFE0F.

Record canonical_label (cs : list Z) : Prop := {
  label_bytes : 1 <= Z.of_nat (length (as_bytes cs)) <= 63;
  label_chars : Forall allowed_char cs;
  label_first : head cs <> Some 45;
  label_last : last cs <> Some 45;
  label_double : forall i, cs !! i = Some 45 -> cs !! S i <> Some 45;
}.

(** No hyphen directly after [prev] or after another hyphen. *)
Definition hyphens_apart (cs : list Z) (prev : bool) : Prop :=
  (prev = true -> head cs <> Some 45)
  /\ (forall i, cs !! i = Some 45 -> cs !! S i <> Some 45).

Lemma hyphens_apart_cons c cs prev :
  hyphens_apart (c :: cs) prev <-> (prev = true -> c <> 45) /\ hyphens_apart cs (c =? 45).
Proof.
  unfold hyphens_apart. cbn. split.
  - intros [H1 H2]. split; [intros Hp ->; by apply H1|]. split.
    + intros E. apply Z.eqb_eq in E as ->. specialize (H2 0%nat eq_refl). cbn in H2.
      by destruct cs.
    + intros i Hi. apply (H2 (S i)). done.
  - intros [H1 [H2 H3]]. split; [intros Hp [= ->]; by apply H1|].
    intros [|i] Hi; cbn in *.
    + injection Hi as ->. rewrite Z.eqb_refl in H2. specialize (H2 eq_refl). by destruct cs.
    + by apply H3.
Qed.

Lemma asciiOk_or_emoji c :
  asciiOk c || isEmojiChar c = true <-> allowed_char c.
Proof.
  unfold asciiOk, isEmojiChar, allowed_char.
  rewrite !orb_true_iff, !andb_true_iff, !Z.geb_leb, !Z.leb_le, !Z.eqb_eq. lia.
Qed.

Lemma label_ascii_or_emoji c :
  is_label_ascii c || is_emoji_char c = true <-> allowed_char c.
Proof.
  unfold is_label_ascii, is_emoji_char, allowed_char.
  rewrite !orb_true_iff, !andb_true_iff, !Z.leb_le, !Z.eqb_eq. lia.
Qed.

Lemma allowed_scalar c : allowed_char c -> is_scalar c = true.
Proof.
  unfold allowed_char, is_scalar, is_surrogate. intros H.
  repeat (destruct H as [H|H]; [lia|]). lia.
Qed.

Lemma allowed_well_formed s : Forall allowed_char (codePoints s) -> well_formed s = true.
Proof.
  intros H. unfold well_formed. apply forallb_Forall_iff.
  eapply List.Forall_impl; [|exact H]. intros c. apply allowed_scalar.
Qed.

Lemma checkChars_Ok input cs prev :
  checkChars input cs prev = Ok tt <-> Forall allowed_char cs /\ hyphens_apart cs prev.
Proof.
  revert prev; induction cs as [|c cs IH]; intros prev; cbn [checkChars].
  - split; [|done]. intros _. split; [done|]. split; [done|]. intros i. done.
  - rewrite List.Forall_cons_iff, hyphens_apart_cons, <- asciiOk_or_emoji, orb_true_iff.
    destruct (asciiOk c) eqn:Ha; cbn.
    + destruct (Z.eqb_spec c 45) as [->|Hc].
      * destruct prev; [split; [done|intros (_ & H & _); by destruct H]|].
        rewrite IH. naive_solver.
      * rewrite IH. naive_solver.
    + destruct (isEmojiChar c) eqn:He; cbn; [|split; [done|naive_solver]].
      destruct (Z.eqb_spec c 45) as [->|Hc]; [done|]. rewrite IH. naive_solver.
Qed.

Lemma validate_chars_Ok cs first l prev r :
  validate_chars cs first l prev = Ok r <->
  (Forall allowed_char cs /\ hyphens_apart cs prev)
  /\ r = (match first with Some f => Some f | None => head cs end, default l (last cs)).
Proof.
  revert first l prev; induction cs as [|c cs IH]; intros first l prev; cbn [validate_chars].
  - split.
    + intros [= <-]. split; [split; [done|split; [done|]]; intros i; done|by destruct first].
    + intros [_ ->]. by destruct first.
  - rewrite List.Forall_cons_iff, hyphens_apart_cons, <- label_ascii_or_emoji.
    assert (Hlast : default l (last (c :: cs)) = default c (last cs)).
    { destruct cs as [|d cs]; [done|]. rewrite last_cons_cons.
      destruct (last (d :: cs)) eqn:E; [done|]. by apply last_None in E. }
    assert (Hhead : forall b, b = (c =? 45) ->
      validate_chars cs (match first with Some f => Some f | None => Some c end) c b = Ok r <->
      (Forall allowed_char cs /\ hyphens_apart cs (c =? 45))
      /\ r = (match first with Some f => Some f | None => head (c :: cs) end,
              default l (last (c :: cs)))).
    { intros b ->. rewrite IH, Hlast. by destruct first. }
    destruct (is_label_ascii c || is_emoji_char c) eqn:Ha; cbn; [|split; [done|naive_solver]].
    destruct (Z.eqb_spec c 45) as [->|Hc].
    + destruct prev; cbn; [split; [done|intros ((_ & H & _) & _); by destruct H]|].
      rewrite (Hhead true eq_refl). naive_solver.
    + rewrite (Hhead false eq_refl). naive_solver.
Qed.

Lemma byteLen_as_bytes s :
  well_formed s = true -> byteLen s = Z.of_nat (length (as_bytes (codePoints s))).
Proof. intros H. unfold byteLen. by rewrite textEncode_well_formed. Qed.

Lemma validateLabel_accepts (label input : jsstring) :
  validateLabel label input = Ok label <-> canonical_label (codePoints label).
Proof.
  unfold validateLabel. split.
  - destruct (_ || _) eqn:Hb; [done|]. bool_prop.
    destruct (_ || _) eqn:Hh; [done|]. bool_prop.
    intros Hok. apply result_bind_Ok in Hok as ([] & Hc & _).
    apply checkChars_Ok in Hc as [Hc1 [_ Hc2]].
    rewrite byteLen_as_bytes in * by by apply allowed_well_formed.
    unfold NAME_MAX_LEN in *. split; [lia|done..].
  - intros [H1 H2 H3 H4 H5]. rewrite byteLen_as_bytes by by apply allowed_well_formed.
    unfold NAME_MAX_LEN. rewrite Z.gtb_ltb.
    rewrite (proj2 (Z.ltb_ge _ 1)), (proj2 (Z.ltb_ge 63 _)) by lia. cbn.
    rewrite !bool_decide_eq_false_2 by done. cbn.
    rewrite (proj2 (checkChars_Ok _ _ _)); [done|]. by repeat split.
Qed.

(** [validateLabel] returns its argument or throws. *)
Lemma validateLabel_returns label input l :
  validateLabel label input = Ok l -> l = label.
Proof.
  unfold validateLabel. repeat case_match; [done..|]. intros Hok.
  apply result_bind_Ok in Hok as (_ & _ & Hok). by injection Hok.
Qed.

Lemma validateLabel_Ok label input l :
  validateLabel label input = Ok l <-> l = label /\ canonical_label (codePoints label).
Proof.
  split.
  - intros H. pose proof (validateLabel_returns _ _ _ H) as ->.
    split; [done|]. by apply validateLabel_accepts in H.
  - intros [-> H]. by apply validateLabel_accepts.
Qed.

Lemma validate_name_canonical cs : validate_name cs = Ok tt <-> canonical_label cs.
Proof.
  unfold validate_name, NAME_MIN_LEN, OnChain.NAME_MAX_LEN. split.
  - intros H. apply result_bind_Ok in H as ([] & Hl & H). apply require_Ok in Hl.
    apply result_bind_Ok in H as ([f l] & Hc & H).
    apply validate_chars_Ok in Hc as ([H1 [_ H2]] & Hfl). injection Hfl as -> ->.
    destruct cs as [|c cs]; [done|]. cbn [head of_option mbind result_bind] in H.
    apply require_Ok in H. bool_prop. split; [lia|done|by intros [= ->]| |done].
    intros E. by rewrite E in *.
  - intros [H1 H2 H3 H4 H5].
    rewrite (proj2 (Z.leb_le 1 _)), (proj2 (Z.leb_le _ 63)) by lia. cbn.
    rewrite (proj2 (validate_chars_Ok cs None 0 false (head cs, default 0 (last cs)))) by done.
    destruct cs as [|c cs]; [cbn in H1; lia|]. cbn [mbind result_bind head of_option].
    apply require_Ok. cbn in H3.
    destruct (last (c :: cs)) as [l|] eqn:E; [|by apply last_None in E].
    cbn. rewrite !(proj2 (Z.eqb_neq _ 45)); [done|..]; congruence.
Qed.

(** How [checkChars] fails: on the first character that is not allowed, or on a
    second hyphen in a row. *)
Lemma checkChars_Err input cs prev e :
  checkChars input cs prev = Err e ->
  (e = MkError (charsMessage input) /\ ~ Forall allowed_char cs)
  \/ (e = MkError (hyphenMessage input)
      /\ ((prev = true /\ head cs = Some 45)
          \/ exists i, cs !! i = Some 45 /\ cs !! S i = Some 45)).
Proof.
  revert prev. induction cs as [|c cs IH]; intros prev; [done|]. cbn [checkChars].
  destruct (negb (asciiOk c) && negb (isEmojiChar c)) eqn:Hc.
  - intros [= <-]. left. split; [done|]. intros Hall. inversion_clear Hall as [|? ? Hc' _].
    apply asciiOk_or_emoji in Hc'. bool_prop. apply orb_true_iff in Hc'. destruct Hc'; congruence.
  - assert (Hrec : forall p, checkChars input cs p = Err e ->
      (p = true -> c = 45) ->
      (e = MkError (charsMessage input) /\ ~ Forall allowed_char (c :: cs))
      \/ (e = MkError (hyphenMessage input)
          /\ ((prev = true /\ Some c = Some 45)
              \/ exists i, (c :: cs) !! i = Some 45 /\ (c :: cs) !! S i = Some 45))).
    { intros p HE Hp. apply IH in HE as [[-> HF]|[-> [[-> Hh]|(i & H1 & H2)]]].
      - left. split; [done|]. intros HF'. by inversion_clear HF'.
      - right. split; [done|]. right. exists 0%nat. cbn. rewrite (Hp eq_refl).
        split; [done|]. by destruct cs.
      - right. split; [done|]. right. by exists (S i). }
    destruct (Z.eqb_spec c 45) as [->|Hne].
    + destruct prev; [|by intros HE; apply (Hrec true)].
      intros [= <-]. right. split; [done|]. by left.
    + intros HE. by apply (Hrec false).
Qed.

(** validateLabel accepts exactly the canonical labels, returning them unchanged, and
    otherwise throws the length, the hyphen or the character message that the first failing
    check calls for. *)
Theorem validateLabel_outcome (label input : jsstring) :
  (canonical_label (codePoints label) -> validateLabel label input = Ok label)
  /\ (~ canonical_label (codePoints label) -> exists m,
       validateLabel label input = Err (MkError m)
       /\ if (byteLen label <? 1) || (byteLen label >? 63) then m = lengthMessage input
          else if bool_decide (head (codePoints label) = Some 45)
                  || bool_decide (last (codePoints label) = Some 45) then m = hyphenMessage input
          else (m = charsMessage input /\ ~ Forall allowed_char (codePoints label))
               \/ (m = hyphenMessage input
                   /\ exists i, codePoints label !! i = Some 45
                             /\ codePoints label !! S i = Some 45)).
Proof.
  split; [by intros Hc; apply validateLabel_accepts|]. intros Hn.
  destruct (validateLabel label input) as [l|e] eqn:HV.
  { destruct Hn. by apply validateLabel_Ok in HV as [_ HV]. }
  unfold validateLabel, NAME_MAX_LEN in HV.
  destruct (_ || _); [by injection HV as <-; eexists|].
  destruct (_ || _); [by injection HV as <-; eexists|].
  destruct (checkChars input (codePoints label) false) as [[]|e'] eqn:HC; [done|].
  cbn in HV. injection HV as <-.
  apply checkChars_Err in HC as [[-> HF]|[-> [[? _]|Hd]]]; [|done|];
    (eexists; split; [reflexivity|]); [by left|by right].
Qed.

(** C16: The client's validateLabel accepts a label exactly when the program's validate_name
    accepts its code points: length in bytes, hyphen placement and the emoji ranges agree on
    every JavaScript string. *)
Theorem validateLabel_matches_program (label input : jsstring) :
  is_Ok (validateLabel label input) = true <-> validate_name (codePoints label) = Ok tt.
Proof.
  rewrite validate_name_canonical, <- (validateLabel_accepts label input), is_Ok_true.
  split; [|eauto]. intros [l H]. by rewrite (validateLabel_returns _ _ _ H) in H.
Qed.

(** ** parseName and parsePath *)

Lemma isAllowedTld_In t : isAllowedTld t = true <-> In t ALLOWED_TLDS.
Proof.
  unfold isAllowedTld. rewrite existsb_exists. split.
  - intros (x & Hx & E). by apply bool_decide_eq_true in E as ->.
  - intros H. exists t. split; [done|]. by apply bool_decide_eq_true.
Qed.

Lemma allowed_tld_validate t : In t ALLOWED_TLDS <-> validate_tld t = Ok tt.
Proof. rewrite <- isAllowedTld_In. unfold validate_tld. by rewrite require_Ok. Qed.

(** A canonical label has no dot. *)
Lemma canonical_no_dot label : canonical_label (codePoints label) -> ~ In 46 label.
Proof.
  intros [_ H _ _ _] Hin. apply In_codePoints in Hin; [|done].
  eapply Forall_In in H; [|exact Hin]. unfold allowed_char in H. lia.
Qed.

Lemma canonical_nonempty label : canonical_label (codePoints label) -> label <> [].
Proof. intros [H _ _ _ _] ->. cbn in H. lia. Qed.

Section ParseTheorems.
Context `{HU : Unicode}.

Lemma splitTld_allowed s rest tld :
  splitTld s = (rest, tld) -> In tld ALLOWED_TLDS.
Proof.
  unfold splitTld. destruct (_ && _) eqn:E.
  - bool_prop. intros [= _ <-]. by apply isAllowedTld_In.
  - intros [= _ <-]. by left.
Qed.

Lemma overrideTld_allowed tld o t :
  In tld ALLOWED_TLDS -> overrideTld tld o = Ok t -> In t ALLOWED_TLDS.
Proof.
  intros Ht. unfold overrideTld, validateTld.
  destruct o as [[|u r]|]; [by intros [= <-]| |by intros [= <-]].
  destruct (isAllowedTld (stripLeadingDot _)) eqn:E; [|done]. intros [= <-]. by apply isAllowedTld_In.
Qed.

(** What parseName returns is canonical: the label meets the documented grammar and the
    program's validate_name, and the TLD is on the program's allowlist. *)
Theorem parseName_sound (input : jsstring) (o : option jsstring) (name tld : jsstring)
    (H : parseName input o = Ok (name, tld)) :
  canonical_label (codePoints name)
  /\ validate_name (codePoints name) = Ok tt
  /\ validate_tld tld = Ok tt.
Proof.
  unfold parseName in H. destruct (splitTld _) as [label t] eqn:Hs.
  apply result_bind_Ok in H as (t' & Ho & H). apply result_bind_Ok in H as (n & Hv & H).
  injection H as -> ->. apply validateLabel_Ok in Hv as [-> Hv].
  split; [done|]. split; [by apply validate_name_canonical|].
  apply allowed_tld_validate. eapply overrideTld_allowed; [|done]. by eapply splitTld_allowed.
Qed.

Lemma mapR_validate input labels ls :
  mapR (fun l => validateLabel l input) labels = Ok ls <->
  ls = labels /\ Forall (fun l => canonical_label (codePoints l)) labels.
Proof.
  revert ls; induction labels as [|l labels IH]; intros ls; cbn.
  - split; [by intros [= <-]|]. by intros [-> _].
  - rewrite List.Forall_cons_iff. split.
    + intros H. apply result_bind_Ok in H as (x & Hx & H). apply validateLabel_Ok in Hx as [-> Hx].
      apply result_bind_Ok in H as (xs & Hxs & H). apply IH in Hxs as [-> Hxs].
      by injection H as <-.
    + intros (-> & Hl & Hls). rewrite (proj2 (validateLabel_Ok l input l)) by done. cbn.
      by rewrite (proj2 (IH labels)).
Qed.

Lemma parsePath_Ok input o labels tld :
  parsePath input o = Ok (labels, tld) <->
  exists rest t0, splitTld (canonical input) = (rest, t0)
    /\ overrideTld t0 o = Ok tld
    /\ labels = split 46 rest
    /\ (length labels <= 5)%nat
    /\ Forall (fun l => canonical_label (codePoints l)) labels.
Proof.
  unfold parsePath, MAX_SUBDOMAIN_DEPTH. destruct (splitTld _) as [rest t0]. split.
  - intros H. apply result_bind_Ok in H as (t & Ho & H).
    destruct (_ >? _) eqn:Hd; [done|]. bool_prop.
    apply result_bind_Ok in H as (ls & Hls & H). injection H as <- <-.
    apply mapR_validate in Hls as [-> Hls].
    exists rest, t0. repeat split; [done|lia|done].
  - intros (rest' & t0' & [= <- <-] & Ho & -> & Hlen & Hls). rewrite Ho. cbn.
    rewrite Z.gtb_ltb, (proj2 (Z.ltb_ge _ _)) by lia.
    by rewrite (proj2 (mapR_validate _ _ _) (conj eq_refl Hls)).
Qed.

(** What parsePath returns is one to five labels, each accepted by the program, under
    an allowed TLD, and joining the labels with dots gives the normalized input without its
    TLD. *)
Theorem parsePath_sound (input : jsstring) (o : option jsstring) (labels : list jsstring)
    (tld : jsstring) (H : parsePath input o = Ok (labels, tld)) :
  (1 <= length labels <= 5)%nat
  /\ Forall (fun l => validate_name (codePoints l) = Ok tt) labels
  /\ validate_tld tld = Ok tt
  /\ (exists rest t0, splitTld (canonical input) = (rest, t0) /\ join [46] labels = rest).
Proof.
  apply parsePath_Ok in H as (rest & t0 & Hs & Ho & -> & Hlen & Hls).
  split; [pose proof (split_nonempty 46 rest); destruct (split 46 rest); cbn in *; [done|lia]|].
  split; [eapply List.Forall_impl; [|exact Hls]; intros l; apply validate_name_canonical|].
  split; [|exists rest, t0; split; [done|apply join_split]].
  apply allowed_tld_validate. eapply overrideTld_allowed; [|done]. by eapply splitTld_allowed.
Qed.

Lemma parseName_parsePath (input : jsstring) (o : option jsstring)
    (name tld : jsstring) :
  parseName input o = Ok (name, tld) <-> parsePath input o = Ok ([name], tld).
Proof.
  rewrite parsePath_Ok. unfold parseName. destruct (splitTld _) as [label t] eqn:Hs. split.
  - intros H. apply result_bind_Ok in H as (t' & Ho & H).
    apply result_bind_Ok in H as (n & Hv & H). injection H as -> ->.
    apply validateLabel_Ok in Hv as [-> Hv].
    exists label, t. split; [done|]. split; [done|].
    split; [by rewrite split_absent by by apply canonical_no_dot|].
    split; [cbn; lia|]. by constructor.
  - intros (rest & t0 & [= <- <-] & Ho & Hl & _ & Hls). rewrite Ho. cbn.
    symmetry in Hl. apply split_single in Hl as [-> _]. inversion_clear Hls as [|? ? Hv _].
    by rewrite (proj2 (validateLabel_Ok label input label)).
Qed.

(** parseName and parsePath agree: parseName returns a name exactly when parsePath
    returns it as the only label with the same TLD, and parseName throws on every path of
    two or more labels. *)
Theorem parseName_is_single_label_path (input : jsstring) (o : option jsstring) :
  (forall name tld, parseName input o = Ok (name, tld) <-> parsePath input o = Ok ([name], tld))
  /\ (forall labels tld, parsePath input o = Ok (labels, tld) -> (2 <= length labels)%nat ->
       is_Ok (parseName input o) = false).
Proof.
  split; [apply parseName_parsePath|]. intros labels tld HP Hlen.
  destruct (parseName input o) as [[name t]|e] eqn:HN; [|done].
  apply parseName_parsePath in HN. rewrite HP in HN. injection HN as -> _. cbn in Hlen. lia.
Qed.
End ParseTheorems.

(** ** Round trip: a parsed name prints to itself *)

Definition angle_bracket (c : Z) : bool := (c =? 0x2329) || (c =? 0x232A).

Lemma allowed_plain c : allowed_char c -> angle_bracket c = false -> is_plain c = true.
Proof.
  unfold allowed_char, angle_bracket, is_plain, is_ascii, is_pictograph.
  intros H Ha. apply orb_false_iff in Ha as [H1 H2]. rewrite H1, H2. bool_prop.
  rewrite !orb_true_iff, !andb_true_iff, !Z.leb_le, Z.ltb_lt, !Z.eqb_eq. lia.
Qed.

(** The units of a canonical label are unchanged by lower-casing and trimming. *)
Lemma codePoints_In_unit s u : In u s -> is_surrogate u = true \/ In u (codePoints s).
Proof.
  intros H. destruct (is_surrogate u) eqn:E; [by left|right]. by apply In_codePoints.
Qed.

Lemma label_unit_cases s u :
  canonical_label (codePoints s) -> In u s -> is_surrogate u = true \/ allowed_char u.
Proof.
  intros [_ H _ _ _] Hu. destruct (codePoints_In_unit s u Hu) as [|Hc]; [by left|right].
  eapply Forall_In; done.
Qed.

Lemma map_ascii_lower_id s :
  Forall (fun u => u < 65 \/ 90 < u) s -> map ascii_lower s = s.
Proof.
  induction 1 as [|u s Hu _ IH]; [done|]. cbn. rewrite IH. f_equal.
  unfold ascii_lower. destruct (_ && _) eqn:E; [|done]. bool_prop. lia.
Qed.

Lemma label_unit_plain u :
  is_surrogate u = true \/ allowed_char u -> (u < 65 \/ 90 < u) /\ is_white u = false.
Proof.
  intros H. assert (Hr : u = 45 \/ 48 <= u <= 57 \/ 97 <= u <= 122 \/ 0x200D = u \/ 0x20E3 = u
    \/ (0x2300 <= u <= 0x27BF) \/ (0x2B00 <= u <= 0x2BFF) \/ 0xD800 <= u <= 0xDFFF
    \/ 0xFE0F = u \/ 0x1F000 <= u).
  { destruct H as [H|H]; [unfold is_surrogate in H; bool_prop; lia|].
    unfold allowed_char in H. lia. }
  split; [lia|]. unfold is_white, WHITESPACE. cbn [existsb].
  rewrite !orb_false_iff, !Z.eqb_neq. lia.
Qed.

Definition dotted (name tld : jsstring) : jsstring := name ++ js "." ++ tld.

Lemma tld_units tld : In tld ALLOWED_TLDS ->
  Forall (fun u => (u < 65 \/ 90 < u) /\ is_white u = false /\ is_plain u = true
                   /\ is_surrogate u = false /\ u <> 46) tld.
Proof.
  intros H.
  assert (Hb : forallb (fun u => ((u <? 65) || (90 <? u)) && negb (is_white u) && is_plain u
                                 && negb (is_surrogate u) && negb (u =? 46)) tld = true)
    by (destruct H as [<-|[<-|[<-|[]]]]; reflexivity).
  apply forallb_Forall_iff in Hb. eapply List.Forall_impl; [|exact Hb]. cbn beta.
  intros u Hu. bool_prop. rewrite orb_true_iff, !Z.ltb_lt in *. done.
Qed.

Section RoundTrip.
Context `{HU : Unicode} `{HUS : !UnicodeSpec HU}.

(** What lower-casing, NFKC and trimming leave alone. *)
Definition settled (s : jsstring) : Prop :=
  Forall (fun u => (u < 65 \/ 90 < u) /\ is_white u = false) s
  /\ forallb is_plain (codePoints s) = true.

Definition no_brackets (s : jsstring) : Prop :=
  forallb (fun c => negb (angle_bracket c)) (codePoints s) = true.

Lemma settled_canonical s : settled s -> canonical s = s.
Proof.
  intros [Hu Hp]. unfold canonical.
  rewrite trim_id by (eapply List.Forall_impl; [|exact Hu]; naive_solver).
  rewrite nfkc_plain, lower_plain by done.
  apply map_ascii_lower_id. eapply List.Forall_impl; [|exact Hu]. naive_solver.
Qed.

Lemma settled_dot s t : settled s -> settled t -> settled (s ++ js "." ++ t).
Proof.
  intros [Hs Hs'] [Ht Ht']. split.
  - rewrite !Forall_app. split; [done|]. split; [|done]. repeat constructor; by_compute.
  - rewrite codePoints_app by done. change (codePoints (js "." ++ t)) with (46 :: codePoints t).
    rewrite forallb_app, Hs'. cbn [forallb andb]. by rewrite Ht'.
Qed.

Lemma settled_label l : canonical_label (codePoints l) -> no_brackets l -> settled l.
Proof.
  intros Hl Ha. split.
  - apply List.Forall_forall. intros u Hin. apply label_unit_plain. by eapply label_unit_cases.
  - apply forallb_Forall_iff, List.Forall_forall. intros c Hc.
    unfold no_brackets in Ha. rewrite forallb_forall in Ha. specialize (Ha c Hc). bool_prop.
    apply allowed_plain; [|done]. eapply Forall_In; [apply Hl|done].
Qed.

Lemma settled_tld tld : In tld ALLOWED_TLDS -> settled tld.
Proof.
  intros Ht. split.
  - eapply List.Forall_impl; [|by apply tld_units]. naive_solver.
  - destruct Ht as [<-|[<-|[<-|[]]]]; done.
Qed.

Lemma canonical_dotted name tld :
  canonical_label (codePoints name) -> no_brackets name -> In tld ALLOWED_TLDS ->
  canonical (dotted name tld) = dotted name tld.
Proof.
  intros Hn Ha Ht. apply settled_canonical, settled_dot; [by apply settled_label|].
  by apply settled_tld.
Qed.

Lemma splitTld_dotted name tld :
  name <> [] -> In tld ALLOWED_TLDS -> splitTld (dotted name tld) = (name, tld).
Proof.
  intros Hne Ht. unfold splitTld, dotted. change (js "." ++ tld) with (46 :: tld).
  assert (Hd : ~ In 46 tld).
  { intros Hin. pose proof (tld_units tld Ht) as Hu. eapply Forall_In in Hu; [|done].
    naive_solver. }
  rewrite lastIndexOf_app by done.
  assert (Hfrom : slice_from (Z.of_nat (length name) + 1) (name ++ 46 :: tld) = tld).
  { unfold slice_from. replace (Z.to_nat _) with (length name + 1)%nat by lia.
    by rewrite <- drop_drop, drop_app_length. }
  rewrite Hfrom, (proj2 (isAllowedTld_In tld) Ht).
  rewrite Z.gtb_ltb, (proj2 (Z.ltb_lt _ _)) by (destruct name; [done|cbn; lia]). cbn.
  f_equal. unfold slice_to. by rewrite Nat2Z.id, take_app_length.
Qed.

Lemma parseName_again input o name tld : parseName input o = Ok (name, tld) -> no_brackets name ->
  parseName (dotted name tld) None = Ok (name, tld).
Proof.
  intros H Ha. pose proof (parseName_sound input o name tld H) as (Hn & _ & Ht).
  apply allowed_tld_validate in Ht.
  unfold parseName. rewrite canonical_dotted by done.
  rewrite splitTld_dotted by (done || by apply canonical_nonempty). cbn.
  by rewrite (proj2 (validateLabel_Ok name _ name)).
Qed.

(** Parsing name.tld of a parsed name gives the same name and TLD, for labels without
    the two angle brackets U+2329 and U+232A that NFKC rewrites. *)
Theorem parseName_roundtrip (input : jsstring) (o : option jsstring) (name tld : jsstring)
    (H : parseName input o = Ok (name, tld))
    (Ha : forallb (fun c => negb (angle_bracket c)) (codePoints name) = true) :
  parseName (dotted name tld) None = Ok (name, tld).
Proof. exact (parseName_again input o name tld H Ha). Qed.

Lemma join_snoc labels tld : labels <> [] ->
  join (js ".") (labels ++ [tld]) = dotted (join (js ".") labels) tld.
Proof.
  induction labels as [|l ls IH]; [done|]. intros _. destruct ls as [|l' ls]; [done|].
  change (join (js ".") ((l :: l' :: ls) ++ [tld]))
    with (l ++ js "." ++ join (js ".") ((l' :: ls) ++ [tld])).
  rewrite IH by done. unfold dotted. cbn [join]. by rewrite <- !app_assoc.
Qed.

Lemma settled_join labels : labels <> [] -> Forall settled labels ->
  settled (join (js ".") labels).
Proof.
  intros Hne H. induction H as [|l ls Hl Hls IH]; [done|]. destruct ls as [|l' ls]; [done|].
  change (join (js ".") (l :: l' :: ls)) with (l ++ js "." ++ join (js ".") (l' :: ls)).
  apply settled_dot; [done|]. by apply IH.
Qed.

(** A path of canonical labels parses back to its labels. *)
Lemma parsePath_join labels tld :
  labels <> [] -> (length labels <= 5)%nat ->
  Forall (fun l => canonical_label (codePoints l)) labels -> Forall no_brackets labels ->
  In tld ALLOWED_TLDS ->
  parsePath (join (js ".") (labels ++ [tld])) None = Ok (labels, tld).
Proof.
  intros Hne Hlen Hc Hb Ht. apply parsePath_Ok. exists (join (js ".") labels), tld.
  assert (Hj : join (js ".") labels <> []).
  { destruct labels as [|l [|l' ls]]; [done|..]; inversion_clear Hc as [|? ? Hl _];
      apply canonical_nonempty in Hl; by destruct l. }
  rewrite join_snoc by done. split_and!; try done.
  - rewrite settled_canonical; [by apply splitTld_dotted|]. apply settled_dot; [|by apply settled_tld].
    apply settled_join; [done|]. rewrite List.Forall_forall in *. intros l Hl.
    apply settled_label; auto.
  - symmetry. apply (split_join 46); [done|]. rewrite List.Forall_forall in *. intros l Hl.
    apply canonical_no_dot; auto.
Qed.

(** The two angle brackets are valid on chain and out of reach of the client. *)
Theorem angle_bracket_names_unreachable (c : Z) (Hc : angle_bracket c = true) :
  validate_name [c] = Ok tt /\ isValidName [c] = false.
Proof.
  destruct lower_cjk_bracket as [Hl1 Hl2].
  unfold angle_bracket in Hc. apply orb_true_iff in Hc as [Hc|Hc]; apply Z.eqb_eq in Hc as ->;
    (split; [reflexivity|]); unfold isValidName, parseName, canonical.
  - change (trim [0x2329]) with [0x2329]. by rewrite nfkc_left_angle, Hl1.
  - change (trim [0x232A]) with [0x232A]. by rewrite nfkc_right_angle, Hl2.
Qed.
End RoundTrip.

(** ** Concrete inputs *)

Section Sample.
#[local] Existing Instance SmallUnicode.

Lemma parseName_sound_witness :
  parseName (js " Alex.SOL") None = Ok (js "alex", js "sol")
  /\ canonical_label (codePoints (js "alex")).
Proof.
  split; [vm_compute; reflexivity|].
  apply (parseName_sound (js " Alex.SOL") None (js "alex") (js "sol")).
  vm_compute. reflexivity.
Defined.

Lemma parsePath_sound_witness :
  (1 <= length [js "pay"; js "alex"] <= 5)%nat /\ validate_tld (js "web3") = Ok tt.
Proof.
  destruct (parsePath_sound (js "Pay.Alex") (Some (js "web3")) [js "pay"; js "alex"] (js "web3"))
    as (Hlen & _ & Htld & _); [vm_compute; reflexivity|].
  split; [exact Hlen|exact Htld].
Defined.

Lemma parseName_roundtrip_witness :
  parseName (dotted (js "a-1") (js "chain")) None = Ok (js "a-1", js "chain").
Proof.
  apply (parseName_roundtrip (js "A-1.Chain") None); vm_compute; reflexivity.
Defined.

Lemma angle_bracket_names_unreachable_witness :
  validate_name [0x2329] = Ok tt /\ isValidName [0x2329] = false.
Proof. apply (angle_bracket_names_unreachable 0x2329). reflexivity. Defined.
End Sample.
