(* ===== verification/Kit.v ===== *)
(** * The @solana/kit interface

    What the generated client calls of @solana/kit: codecs, addresses, program
    derived addresses and account metas.  [Kit] holds the operations, [KitSpec]
    the documented behaviour the client relies on: integers are little-endian,
    options and arrays carry a one-byte and a four-byte prefix, structs
    concatenate their fields in order, [fixEncoderSize]/[fixDecoderSize] handle
    exactly n bytes.  From these equations this file derives that every codec
    the generated files build decodes what it encodes ([RoundTrip]).
    [SmallKit] is a concrete kit, used to evaluate the models. *)
From S2P Require Import Prelude JsString.

(** Base58 strings accepted by [isAddress]. *)
Abbreviation Address := jsstring.

(** [encode] of an encoder; [read] of a decoder: the value and what follows it. *)
Definition Encoder (T : Type) : Type := T -> result JsError bytes.
Definition Decoder (T : Type) : Type := bytes -> result JsError (T * bytes).

(** The array of [[name, codec]] pairs given to [getStructEncoder] and
    [getStructDecoder]; the object it describes is the tuple of its fields. *)
Inductive StructFields (C : Type -> Type) : Type -> Type :=
| SNil : StructFields C unit
| SCons {A B} (name : string) (codec : C A) (rest : StructFields C B) : StructFields C (A * B).
Arguments SNil {C}.
Arguments SCons {C A B} name codec rest.

Declare Scope fields_scope.
Delimit Scope fields_scope with fields.
Notation "n ~> c ;; r" := (SCons n%string c r)
  (at level 60, c at level 59, right associativity) : fields_scope.

(** An account of an instruction: [AccountMeta]. *)
Inductive AccountRole := READONLY | WRITABLE | READONLY_SIGNER | WRITABLE_SIGNER.
Record AccountMeta := { address : Address; role : AccountRole }.

(** [Instruction & InstructionWithAccounts & InstructionWithData]. *)
Record Instruction := {
  programAddress : Address;
  accounts : list AccountMeta;
  data : bytes;
}.

#[export] Instance AccountRole_eq_dec : EqDecision AccountRole.
Proof. solve_decision. Defined.
#[export] Instance AccountMeta_eq_dec : EqDecision AccountMeta.
Proof. solve_decision. Defined.

Class Kit := {
  getU8Encoder : Encoder Z; getU8Decoder : Decoder Z;
  getU16Encoder : Encoder Z; getU16Decoder : Decoder Z;
  getU32Encoder : Encoder Z; getU32Decoder : Decoder Z;
  getU64Encoder : Encoder Z; getU64Decoder : Decoder Z;
  getU128Encoder : Encoder Z; getU128Decoder : Decoder Z;
  getI64Encoder : Encoder Z; getI64Decoder : Decoder Z;
  getBooleanEncoder : Encoder bool; getBooleanDecoder : Decoder bool;
  getBytesEncoder : Encoder bytes; getBytesDecoder : Decoder bytes;
  getUtf8Encoder : Encoder jsstring; getUtf8Decoder : Decoder jsstring;
  getAddressEncoder : Encoder Address; getAddressDecoder : Decoder Address;
  fixEncoderSize : forall {T}, Encoder T -> nat -> Encoder T;
  fixDecoderSize : forall {T}, Decoder T -> nat -> Decoder T;
  addEncoderSizePrefix : forall {T}, Encoder T -> Encoder Z -> Encoder T;
  addDecoderSizePrefix : forall {T}, Decoder T -> Decoder Z -> Decoder T;
  getOptionEncoder : forall {T}, Encoder T -> Encoder (option T);
  getOptionDecoder : forall {T}, Decoder T -> Decoder (option T);
  getArrayEncoder : forall {T}, Encoder T -> Encoder (list T);
  getArrayDecoder : forall {T}, Decoder T -> Decoder (list T);
  getStructEncoder : forall {T}, StructFields Encoder T -> Encoder T;
  getStructDecoder : forall {T}, StructFields Decoder T -> Decoder T;
  transformEncoder : forall {A B}, Encoder A -> (B -> A) -> Encoder B;
  containsBytes : bytes -> bytes -> Z -> bool;
  isAddress : Address -> bool;
  getProgramDerivedAddress : Address -> list bytes -> result JsError (Address * Z);
  (** [new SolanaError(SOLANA_ERROR__PROGRAM_CLIENTS__..., context)] *)
  insufficientAccountMetas : Z -> Z -> JsError;
  failedToIdentifyInstruction : bytes -> JsError;
  failedToIdentifyAccount : bytes -> JsError;
}.

(** [decoder.decode(bytes)]: read at the start, ignore what follows. *)
Definition decode {T} (d : Decoder T) (bs : bytes) : result JsError T :=
  '(v, _) ← d bs; Ok v.

(** The object a struct decoder builds, given as a record of its fields. *)
Definition asObject {T R} (d : Decoder T) (obj : T -> R) : Decoder R := fun bs =>
  '(v, rest) ← d bs; Ok (obj v, rest).

(** The tuple of its fields a struct encoder is given for an object. *)
Definition ofObject {T R} (e : Encoder T) (fields : R -> T) : Encoder R := fun r => e (fields r).

(** ** Documented behaviour *)

(** An unsigned integer codec of [w] bytes. *)
Record unsigned_codec (w : nat) (e : Encoder Z) (d : Decoder Z) : Prop := {
  unsigned_enc : forall n, 0 <= n < 256 ^ Z.of_nat w -> e n = Ok (le_bytes w n);
  unsigned_dec : forall n rest, 0 <= n < 256 ^ Z.of_nat w -> d (le_bytes w n ++ rest) = Ok (n, rest);
}.

Fixpoint array_items {T} (e : Encoder T) (l : list T) : result JsError bytes :=
  match l with
  | [] => Ok []
  | x :: l' => b ← e x; bs ← array_items e l'; Ok (b ++ bs)
  end.

Fixpoint read_items {T} (d : Decoder T) (n : nat) (bs : bytes) : result JsError (list T * bytes) :=
  match n with
  | O => Ok ([], bs)
  | S n' => '(x, r) ← d bs; '(xs, r) ← read_items d n' r; Ok (x :: xs, r)
  end.

(** Strings the UTF-8 codec keeps: no lone surrogate (encoded as U+FFFD), no NUL
    (the decoder removes null characters) and no leading byte order mark
    ([TextDecoder] strips it). *)
Definition utf8_safe (s : jsstring) : bool :=
  well_formed s && negb (existsb (Z.eqb 0) s) && forallb (fun u => (0 <=? u) && (u <? 65536)) s
  && negb (bool_decide (head s = Some 65279)).

Class KitSpec (K : Kit) : Prop := {
  u8_spec : unsigned_codec 1 getU8Encoder getU8Decoder;
  u16_spec : unsigned_codec 2 getU16Encoder getU16Decoder;
  u32_spec : unsigned_codec 4 getU32Encoder getU32Decoder;
  u64_spec : unsigned_codec 8 getU64Encoder getU64Decoder;
  u128_spec : unsigned_codec 16 getU128Encoder getU128Decoder;
  i64_enc : forall n, - 2 ^ 63 <= n < 2 ^ 63 -> getI64Encoder n = Ok (le_bytes 8 (n mod 2 ^ 64));
  i64_dec : forall n rest, - 2 ^ 63 <= n < 2 ^ 63 ->
    getI64Decoder (le_bytes 8 (n mod 2 ^ 64) ++ rest) = Ok (n, rest);
  bool_enc : forall b : bool, getBooleanEncoder b = Ok [if b then 1 else 0];
  bool_dec : forall (b : bool) rest, getBooleanDecoder ((if b then 1 else 0) :: rest) = Ok (b, rest);
  bytes_enc : forall bs, getBytesEncoder bs = Ok bs;
  bytes_dec : forall bs, getBytesDecoder bs = Ok (bs, []);
  utf8_enc : forall s, getUtf8Encoder s = Ok (textEncode s);
  utf8_dec : forall s, utf8_safe s = true -> getUtf8Decoder (textEncode s) = Ok (s, []);
  address_enc : forall a, isAddress a = true -> exists bs,
    getAddressEncoder a = Ok bs /\ length bs = 32%nat
    /\ forall rest, getAddressDecoder (bs ++ rest) = Ok (a, rest);
  address_dec : forall bs rest a, getAddressDecoder bs = Ok (a, rest) -> isAddress a = true;
  fix_enc : forall T (e : Encoder T) n v bs, e v = Ok bs -> length bs = n ->
    fixEncoderSize e n v = Ok bs;
  fix_dec : forall T (d : Decoder T) n bs rest v r, length bs = n -> d bs = Ok (v, r) ->
    fixDecoderSize d n (bs ++ rest) = Ok (v, rest);
  prefix_enc : forall T (e : Encoder T) p v,
    addEncoderSizePrefix e p v =
      (bs ← e v; pre ← p (Z.of_nat (length bs)); Ok (pre ++ bs));
  prefix_dec : forall T (d : Decoder T) p bs n r v r', p bs = Ok (n, r) ->
    0 <= n <= Z.of_nat (length r) -> d (take (Z.to_nat n) r) = Ok (v, r') ->
    addDecoderSizePrefix d p bs = Ok (v, drop (Z.to_nat n) r);
  option_enc : forall T (e : Encoder T) o, getOptionEncoder e o =
    match o with None => Ok [0] | Some v => bs ← e v; Ok (1 :: bs) end;
  option_dec_none : forall T (d : Decoder T) rest, getOptionDecoder d (0 :: rest) = Ok (None, rest);
  option_dec_some : forall T (d : Decoder T) rest, getOptionDecoder d (1 :: rest) =
    ('(v, r) ← d rest; Ok (Some v, r));
  array_enc : forall T (e : Encoder T) l, Z.of_nat (length l) < 2 ^ 32 ->
    getArrayEncoder e l = (bs ← array_items e l; Ok (le_bytes 4 (Z.of_nat (length l)) ++ bs));
  array_dec : forall T (d : Decoder T) n rest, 0 <= n < 2 ^ 32 ->
    getArrayDecoder d (le_bytes 4 n ++ rest) = read_items d (Z.to_nat n) rest;
  struct_enc_nil : getStructEncoder SNil tt = Ok [];
  struct_enc_cons : forall A B name (c : Encoder A) (fs : StructFields Encoder B) a b,
    getStructEncoder (SCons name c fs) (a, b) =
      (x ← c a; xs ← getStructEncoder fs b; Ok (x ++ xs));
  struct_dec_nil : forall bs, getStructDecoder SNil bs = Ok (tt, bs);
  struct_dec_cons : forall A B name (c : Decoder A) (fs : StructFields Decoder B) bs,
    getStructDecoder (SCons name c fs) bs =
      ('(a, r) ← c bs; '(b, r) ← getStructDecoder fs r; Ok ((a, b), r));
  transform_enc : forall A B (e : Encoder A) (f : B -> A) v, transformEncoder e f v = e (f v);
  contains_start : forall d bs, containsBytes d bs 0 = bool_decide (take (length bs) d = bs);
  pda_address : forall program seeds a bump,
    getProgramDerivedAddress program seeds = Ok (a, bump) -> isAddress a = true;
  empty_address : isAddress [] = false;
}.

(** ** Round trips *)

(** [d] reads back what [e] writes, for the values [ok] accepts. *)
Class RoundTrip {T} (e : Encoder T) (d : Decoder T) (ok : T -> Prop) : Prop :=
  round_trip : forall v, ok v -> exists bs, e v = Ok bs /\ forall rest, d (bs ++ rest) = Ok (v, rest).

Definition unsigned_ok (w : nat) (n : Z) : Prop := 0 <= n < 256 ^ Z.of_nat w.
Definition i64_ok (n : Z) : Prop := - 2 ^ 63 <= n < 2 ^ 63.
Definition string_ok (s : jsstring) : Prop :=
  utf8_safe s = true /\ Z.of_nat (length (textEncode s)) < 2 ^ 32.
Definition address_ok `{Kit} (a : Address) : Prop := isAddress a = true.
Definition option_ok {T} (ok : T -> Prop) (o : option T) : Prop :=
  match o with Some v => ok v | None => True end.
Definition array_ok {T} (ok : T -> Prop) (l : list T) : Prop :=
  Forall ok l /\ Z.of_nat (length l) < 2 ^ 32.

Lemma round_trip_weaken {T} (e : Encoder T) d (ok ok' : T -> Prop) :
  RoundTrip e d ok -> (forall v, ok' v -> ok v) -> RoundTrip e d ok'.
Proof. intros HR Hok v Hv. by apply HR, Hok. Qed.

Section RoundTrips.
Context `{KS : KitSpec}.

Lemma unsigned_round_trip w e d : unsigned_codec w e d -> RoundTrip e d (unsigned_ok w).
Proof.
  intros [He Hd] n Hn. exists (le_bytes w n). split; [by apply He|]. intros rest. by apply Hd.
Qed.

#[export] Instance u8_round_trip : RoundTrip getU8Encoder getU8Decoder (unsigned_ok 1).
Proof. apply unsigned_round_trip, u8_spec. Qed.
#[export] Instance u16_round_trip : RoundTrip getU16Encoder getU16Decoder (unsigned_ok 2).
Proof. apply unsigned_round_trip, u16_spec. Qed.
#[export] Instance u32_round_trip : RoundTrip getU32Encoder getU32Decoder (unsigned_ok 4).
Proof. apply unsigned_round_trip, u32_spec. Qed.
#[export] Instance u64_round_trip : RoundTrip getU64Encoder getU64Decoder (unsigned_ok 8).
Proof. apply unsigned_round_trip, u64_spec. Qed.
#[export] Instance u128_round_trip : RoundTrip getU128Encoder getU128Decoder (unsigned_ok 16).
Proof. apply unsigned_round_trip, u128_spec. Qed.

#[export] Instance i64_round_trip : RoundTrip getI64Encoder getI64Decoder i64_ok.
Proof.
  intros n Hn. eexists. split; [by apply i64_enc|]. intros rest. by apply i64_dec.
Qed.

#[export] Instance bool_round_trip :
  RoundTrip getBooleanEncoder getBooleanDecoder (fun _ => True).
Proof. intros b _. eexists. split; [apply bool_enc|]. intros rest. apply bool_dec. Qed.

#[export] Instance address_round_trip :
  RoundTrip getAddressEncoder getAddressDecoder address_ok.
Proof. intros a Ha. destruct (address_enc a Ha) as (bs & ? & _ & ?). eauto. Qed.

#[export] Instance fixed_bytes_round_trip n :
  RoundTrip (fixEncoderSize getBytesEncoder n) (fixDecoderSize getBytesDecoder n)
    (fun bs => length bs = n).
Proof.
  intros bs Hn. exists bs. split.
  - apply fix_enc; [apply bytes_enc|done].
  - intros rest. eapply fix_dec; [done|apply bytes_dec].
Qed.

#[export] Instance utf8_round_trip :
  RoundTrip (addEncoderSizePrefix getUtf8Encoder getU32Encoder)
    (addDecoderSizePrefix getUtf8Decoder getU32Decoder) string_ok.
Proof.
  intros s [Hs Hl]. rewrite prefix_enc, utf8_enc. cbn [mbind result_bind].
  assert (Hr : 0 <= Z.of_nat (length (textEncode s)) < 256 ^ Z.of_nat 4) by (cbn; lia).
  rewrite (unsigned_enc _ _ _ u32_spec) by done. eexists. split; [done|].
  intros rest. rewrite <- app_assoc.
  rewrite (prefix_dec _ _ _ _ (Z.of_nat (length (textEncode s))) (textEncode s ++ rest) s []).
  - by rewrite Nat2Z.id, drop_app_length.
  - by apply (unsigned_dec _ _ _ u32_spec).
  - rewrite length_app. lia.
  - rewrite Nat2Z.id, take_app_length. by apply utf8_dec.
Qed.

#[export] Instance option_round_trip {T} (e : Encoder T) d ok :
  RoundTrip e d ok -> RoundTrip (getOptionEncoder e) (getOptionDecoder d) (option_ok ok).
Proof.
  intros HR [v|] Ho; rewrite option_enc.
  - destruct (HR v Ho) as (bs & -> & Hd). cbn. eexists. split; [done|].
    intros rest. cbn. rewrite option_dec_some, Hd. done.
  - eexists. split; [done|]. intros rest. apply option_dec_none.
Qed.

Lemma items_round_trip {T} (e : Encoder T) d ok l :
  RoundTrip e d ok -> Forall ok l ->
  exists bs, array_items e l = Ok bs
    /\ forall rest, read_items d (length l) (bs ++ rest) = Ok (l, rest).
Proof.
  intros HR. induction 1 as [|v l Hv _ (bs & IH1 & IH2)]; [by exists []|].
  destruct (HR v Hv) as (b & Hb & Hd). exists (b ++ bs). split.
  - cbn. by rewrite Hb, IH1.
  - intros rest. cbn. rewrite <- app_assoc, Hd. cbn. by rewrite IH2.
Qed.

#[export] Instance array_round_trip {T} (e : Encoder T) d ok :
  RoundTrip e d ok -> RoundTrip (getArrayEncoder e) (getArrayDecoder d) (array_ok ok).
Proof.
  intros HR l [Hl Hn]. destruct (items_round_trip e d ok l HR Hl) as (bs & He & Hd).
  rewrite array_enc, He by done. eexists. split; [done|].
  intros rest. rewrite <- app_assoc, array_dec by lia. by rewrite Nat2Z.id.
Qed.

#[export] Instance struct_nil_round_trip :
  RoundTrip (getStructEncoder SNil) (getStructDecoder SNil) (fun _ => True).
Proof. intros [] _. exists []. split; [apply struct_enc_nil|apply struct_dec_nil]. Qed.

#[export] Instance struct_cons_round_trip {A B} name (e : Encoder A) d ok
    (es : StructFields Encoder B) ds oks :
  RoundTrip e d ok -> RoundTrip (getStructEncoder es) (getStructDecoder ds) oks ->
  RoundTrip (getStructEncoder (SCons name e es)) (getStructDecoder (SCons name d ds))
    (fun v => ok v.1 /\ oks v.2).
Proof.
  intros HR HRs [a b] [Ha Hb]. destruct (HR a Ha) as (x & Hx & Hdx).
  destruct (HRs b Hb) as (y & Hy & Hdy). exists (x ++ y). split.
  - rewrite struct_enc_cons. cbn. by rewrite Hx, Hy.
  - intros rest. rewrite struct_dec_cons, <- app_assoc, Hdx. cbn. by rewrite Hdy.
Qed.

(** Structs as objects. *)
#[export] Instance object_round_trip {T R} (e : Encoder T) d ok (fields : R -> T) (obj : T -> R) :
  RoundTrip e d ok -> (forall r, obj (fields r) = r) ->
  RoundTrip (ofObject e fields) (asObject d obj) (fun r => ok (fields r)).
Proof.
  intros HR Hobj r Hr. destruct (HR _ Hr) as (bs & He & Hd).
  exists bs. split; [done|]. intros rest. unfold asObject. rewrite Hd. cbn. by rewrite Hobj.
Qed.

(** What a generated pair of encoder and decoder gives: the encoder of the
    arguments [A] adds the discriminator, the decoder builds the object [R]. *)
Lemma tagged_round_trip {A R} (e : Encoder R) d ok (to : A -> R) v :
  RoundTrip e d ok -> ok (to v) ->
  exists bs, transformEncoder e to v = Ok bs /\ forall rest, d (bs ++ rest) = Ok (to v, rest).
Proof. intros HR Hv. rewrite transform_enc. by apply HR. Qed.

(** The bytes of an object that has a discriminator start with it. *)
Lemma tagged_first {A R B} (fs : StructFields Encoder B) D (fields : R -> bytes * B)
    (to : A -> R) v bs :
  length D = 8%nat -> (forall a, (fields (to a)).1 = D) ->
  transformEncoder
    (ofObject (getStructEncoder (SCons "discriminator" (fixEncoderSize getBytesEncoder 8) fs))
       fields) to v = Ok bs ->
  take 8 bs = D.
Proof.
  intros HD HF. rewrite transform_enc. unfold ofObject.
  specialize (HF v). destruct (fields (to v)) as [D' b]. cbn in HF. subst D'.
  rewrite struct_enc_cons, (fix_enc _ _ _ D D) by (apply bytes_enc || done).
  cbn [mbind result_bind]. destruct (getStructEncoder fs b) as [xs|]; [|done].
  cbn [mbind result_bind]. intros [= <-]. rewrite <- HD. by rewrite take_app_length.
Qed.

Lemma discriminator_bytes D : length D = 8%nat ->
  fixEncoderSize getBytesEncoder 8 D = Ok D.
Proof. intros HD. apply fix_enc; [apply bytes_enc|done]. Qed.

End RoundTrips.

(** A generated encoder and decoder with their laws: what is encoded is decoded,
    and its first eight bytes are the type's discriminator. *)
Record ObjectCodec `{Kit} := {
  Args : Type;
  Obj : Type;
  encoder : Encoder Args;
  decoder : Decoder Obj;
  object : Args -> Obj;
  object_ok : Args -> Prop;
  tag : bytes;
  object_law : forall v, object_ok v -> exists bs,
    encoder v = Ok bs /\ forall rest, decoder (bs ++ rest) = Ok (object v, rest);
  tag_law : forall v bs, encoder v = Ok bs -> take 8 bs = tag;
}.

(** The two laws of a generated pair. *)
Ltac object_codec_round_trip :=
  let v := fresh "v" in let Hok := fresh "Hok" in
  intros v Hok; eapply tagged_round_trip;
  [ eapply object_round_trip; [typeclasses eauto | by intros [? []]]
  | red in Hok; destruct v; cbn in Hok |- *; tauto ].

Ltac object_codec_tag :=
  let v := fresh "v" in let bs := fresh "bs" in
  intros v bs; apply tagged_first; [reflexivity | by intros []].

(** The first entry of a table of discriminators that [data] starts with. *)
Fixpoint find_tag {K} (data : bytes) (table : list (bytes * K)) : option K :=
  match table with
  | [] => None
  | (t, k) :: rest => if bool_decide (take 8 data = t) then Some k else find_tag data rest
  end.

(** One test of a generated [identify] function. *)
Lemma identify_step `{KitSpec} {A} data t (yes : A) (no : result JsError A) :
  length t = 8%nat ->
  (b ← fixEncoderSize getBytesEncoder 8 t;
   if containsBytes data b 0 then Ok yes else no)
  = if bool_decide (take 8 data = t) then Ok yes else no.
Proof.
  intros Ht. rewrite discriminator_bytes by done. cbn [mbind result_bind].
  by rewrite contains_start, Ht.
Qed.

(** ** Sizes *)

Class FixedSize {T} (e : Encoder T) (ok : T -> Prop) (n : nat) : Prop :=
  fixed_size : forall v bs, ok v -> e v = Ok bs -> length bs = n.

Section Sizes.
Context `{KS : KitSpec}.

Lemma unsigned_size w e d : unsigned_codec w e d -> FixedSize e (unsigned_ok w) w.
Proof.
  intros [He _] n bs Hn. rewrite He by done. intros [= <-]. apply le_bytes_length.
Qed.
#[export] Instance u8_size : FixedSize getU8Encoder (unsigned_ok 1) 1.
Proof. eapply unsigned_size, u8_spec. Qed.
#[export] Instance u16_size : FixedSize getU16Encoder (unsigned_ok 2) 2.
Proof. eapply unsigned_size, u16_spec. Qed.
#[export] Instance u64_size : FixedSize getU64Encoder (unsigned_ok 8) 8.
Proof. eapply unsigned_size, u64_spec. Qed.
#[export] Instance u128_size : FixedSize getU128Encoder (unsigned_ok 16) 16.
Proof. eapply unsigned_size, u128_spec. Qed.
#[export] Instance i64_size : FixedSize getI64Encoder i64_ok 8.
Proof. intros n bs Hn. rewrite i64_enc by done. by intros [= <-]. Qed.
#[export] Instance bool_size : FixedSize getBooleanEncoder (fun _ => True) 1.
Proof. intros b bs _. rewrite bool_enc. by intros [= <-]. Qed.
#[export] Instance address_size : FixedSize getAddressEncoder address_ok 32.
Proof.
  intros a bs Ha. destruct (address_enc a Ha) as (bs' & -> & Hl & _). by intros [= <-].
Qed.
#[export] Instance fixed_bytes_size n :
  FixedSize (fixEncoderSize getBytesEncoder n) (fun bs => length bs = n) n.
Proof.
  intros v bs Hv. rewrite (fix_enc _ _ n v v) by (apply bytes_enc || done). by intros [= <-].
Qed.
#[export] Instance struct_nil_size : FixedSize (getStructEncoder SNil) (fun _ => True) 0.
Proof. intros [] bs _. rewrite struct_enc_nil. by intros [= <-]. Qed.
#[export] Instance struct_cons_size {A B} name (e : Encoder A) ok n
    (es : StructFields Encoder B) oks m :
  FixedSize e ok n -> FixedSize (getStructEncoder es) oks m ->
  FixedSize (getStructEncoder (SCons name e es)) (fun v => ok v.1 /\ oks v.2) (n + m).
Proof.
  intros Hn Hm [a b] bs [Ha Hb]. rewrite struct_enc_cons. intros HE.
  apply result_bind_Ok in HE as (x & Hx & HE). apply result_bind_Ok in HE as (y & Hy & HE).
  injection HE as <-. rewrite length_app, (Hn _ _ Ha Hx), (Hm _ _ Hb Hy). done.
Qed.
Lemma tagged_size {T A R} (e : Encoder T) ok n (fields : R -> T) (to : A -> R) v bs :
  FixedSize e ok n -> ok (fields (to v)) ->
  transformEncoder (ofObject e fields) to v = Ok bs -> length bs = n.
Proof. intros HF Hv. rewrite transform_enc. by apply HF. Qed.
End Sizes.
