(* ===== verification/SmallKit.v ===== *)
(** * A concrete kit

    A kit that satisfies [KitSpec]: little-endian integers, UTF-8, base58
    addresses of 32 bytes.  Only its program-derived addresses are a stand-in
    (no hash, no curve check).  The models are evaluated with it. *)
From S2P Require Import Prelude JsString Kit.

(** ** UTF-8 decoding *)

Fixpoint utf8_decode (bs : bytes) : list Z :=
  match bs with
  | [] => []
  | b :: r =>
      if b <? 0x80 then b :: utf8_decode r
      else if b <? 0xE0 then
        match r with
        | c :: r => (b - 0xC0) * 64 + (c - 0x80) :: utf8_decode r
        | _ => []
        end
      else if b <? 0xF0 then
        match r with
        | c :: d :: r => (b - 0xE0) * 4096 + (c - 0x80) * 64 + (d - 0x80) :: utf8_decode r
        | _ => []
        end
      else
        match r with
        | c :: d :: e :: r =>
            (b - 0xF0) * 262144 + (c - 0x80) * 4096 + (d - 0x80) * 64 + (e - 0x80)
              :: utf8_decode r
        | _ => []
        end
  end.

Lemma utf8_decode_char c r :
  is_codepoint c -> utf8_decode (utf8_char c ++ r) = c :: utf8_decode r.
Proof.
  unfold is_codepoint, utf8_char. intros Hc.
  destruct (Z.ltb_spec c 0x80) as [H1|H1];
    [|destruct (Z.ltb_spec c 0x800) as [H2|H2];
      [|destruct (Z.ltb_spec c 0x10000) as [H3|H3]]]; cbn [app utf8_decode].
  - by rewrite (proj2 (Z.ltb_lt c 0x80)).
  - rewrite (proj2 (Z.ltb_ge _ 0x80)), (proj2 (Z.ltb_lt _ 0xE0))
      by (Z.to_euclidean_division_equations; lia).
    f_equal. Z.to_euclidean_division_equations; lia.
  - rewrite (proj2 (Z.ltb_ge _ 0x80)), (proj2 (Z.ltb_ge _ 0xE0)), (proj2 (Z.ltb_lt _ 0xF0))
      by (Z.to_euclidean_division_equations; lia).
    f_equal. Z.to_euclidean_division_equations; lia.
  - rewrite (proj2 (Z.ltb_ge _ 0x80)), (proj2 (Z.ltb_ge _ 0xE0)), (proj2 (Z.ltb_ge _ 0xF0))
      by (Z.to_euclidean_division_equations; lia).
    f_equal. Z.to_euclidean_division_equations; lia.
Qed.

Lemma utf8_decode_as_bytes cs : Forall is_codepoint cs -> utf8_decode (as_bytes cs) = cs.
Proof.
  induction 1 as [|c cs Hc _ IH]; [done|].
  unfold as_bytes in *. cbn [flat_map]. by rewrite utf8_decode_char, IH.
Qed.

(** ** Base58 *)

Definition ALPHABET : jsstring :=
  js "123456789ABCDEFGHJKLMNPQRSTUVWXYZabcdefghijkmnopqrstuvwxyz".

Fixpoint index_of (u : Z) (l : jsstring) (i : Z) : option Z :=
  match l with
  | [] => None
  | v :: r => if u =? v then Some i else index_of u r (i + 1)
  end.

Fixpoint base58_value (s : jsstring) (acc : Z) : option Z :=
  match s with
  | [] => Some acc
  | u :: r => d ← index_of u ALPHABET 0; base58_value r (acc * 58 + d)
  end.

(** Digits of [n] in base [b], most significant first, none for 0. *)
Fixpoint big_endian (fuel : nat) (b n : Z) (acc : list Z) : list Z :=
  match fuel with
  | O => acc
  | S f => if n <=? 0 then acc else big_endian f b (n / b) (n mod b :: acc)
  end.

Fixpoint leading (u : Z) (l : list Z) : nat :=
  match l with
  | v :: r => if u =? v then S (leading u r) else O
  | [] => O
  end.

Definition base58_decode (s : jsstring) : option bytes :=
  v ← base58_value s 0;
  Some (replicate (leading 49 s) 0 ++ big_endian 64 256 v []).

Definition base58_encode (bs : bytes) : jsstring :=
  replicate (leading 0 bs) 49
  ++ map (fun d => nth (Z.to_nat d) ALPHABET 49)
       (big_endian 64 58 (fold_left (fun a b => a * 256 + b) bs 0) []).

(** A base58 string of exactly 32 bytes, in canonical form. *)
Definition is_address (a : Address) : bool :=
  match base58_decode a with
  | Some bs => (length bs =? 32)%nat && bool_decide (base58_encode bs = a)
  | None => false
  end.

(** ** The kit *)

Definition small_error (m : String.string) : JsError := MkError (js m).

Definition small_unsigned_enc (w : nat) : Encoder Z := fun n =>
  if (0 <=? n) && (n <? 256 ^ Z.of_nat w) then Ok (le_bytes w n)
  else Err (small_error "Codec: number out of range").

Definition small_fixed {A} (w : nat) (k : bytes -> A) : Decoder A := fun bs =>
  if (w <=? length bs)%nat then Ok (k (take w bs), drop w bs)
  else Err (small_error "Codec: invalid byte length").

Fixpoint small_struct_enc {T} (fs : StructFields Encoder T) : Encoder T :=
  match fs in StructFields _ T return Encoder T with
  | SNil => fun _ => Ok []
  | SCons _ c rest => fun v => x ← c v.1; xs ← small_struct_enc rest v.2; Ok (x ++ xs)
  end.

Fixpoint small_struct_dec {T} (fs : StructFields Decoder T) : Decoder T :=
  match fs in StructFields _ T return Decoder T with
  | SNil => fun bs => Ok (tt, bs)
  | SCons _ c rest => fun bs =>
      '(a, r) ← c bs; '(b, r) ← small_struct_dec rest r; Ok ((a, b), r)
  end.

Definition small_signed (n : Z) : Z := if n <? 2 ^ 63 then n else n - 2 ^ 64.

#[export] Instance SmallKit : Kit := {
  getU8Encoder := small_unsigned_enc 1; getU8Decoder := small_fixed 1 le_val;
  getU16Encoder := small_unsigned_enc 2; getU16Decoder := small_fixed 2 le_val;
  getU32Encoder := small_unsigned_enc 4; getU32Decoder := small_fixed 4 le_val;
  getU64Encoder := small_unsigned_enc 8; getU64Decoder := small_fixed 8 le_val;
  getU128Encoder := small_unsigned_enc 16; getU128Decoder := small_fixed 16 le_val;
  getI64Encoder := fun n =>
    if (- 2 ^ 63 <=? n) && (n <? 2 ^ 63) then Ok (le_bytes 8 (n mod 2 ^ 64))
    else Err (small_error "Codec: number out of range");
  getI64Decoder := small_fixed 8 (fun bs => small_signed (le_val bs));
  getBooleanEncoder := fun b => Ok [if b then 1 else 0];
  getBooleanDecoder := small_fixed 1 (fun bs => le_val bs =? 1);
  getBytesEncoder := fun bs => Ok bs;
  getBytesDecoder := fun bs => Ok (bs, []);
  getUtf8Encoder := fun s => Ok (textEncode s);
  getUtf8Decoder := fun bs => Ok (flat_map units_of (utf8_decode bs), []);
  getAddressEncoder := fun a =>
    match base58_decode a with
    | Some bs => if (length bs =? 32)%nat then Ok bs else Err (small_error "Address: invalid")
    | None => Err (small_error "Address: invalid")
    end;
  getAddressDecoder := fun bs =>
    let a := base58_encode (take 32 bs) in
    if is_address a then Ok (a, drop 32 bs) else Err (small_error "Codec: invalid byte length");
  fixEncoderSize := fun T e n v =>
    bs ← e v; Ok (take n bs ++ replicate (n - length bs) 0);
  fixDecoderSize := fun T d n bs =>
    if (n <=? length bs)%nat then '(v, _) ← d (take n bs); Ok (v, drop n bs)
    else Err (small_error "Codec: invalid byte length");
  addEncoderSizePrefix := fun T e p v =>
    bs ← e v; pre ← p (Z.of_nat (length bs)); Ok (pre ++ bs);
  addDecoderSizePrefix := fun T d p bs =>
    '(n, r) ← p bs;
    if (Z.to_nat n <=? length r)%nat then
      '(v, _) ← d (take (Z.to_nat n) r); Ok (v, drop (Z.to_nat n) r)
    else Err (small_error "Codec: invalid byte length");
  getOptionEncoder := fun T e o =>
    match o with None => Ok [0] | Some v => bs ← e v; Ok (1 :: bs) end;
  getOptionDecoder := fun T d bs =>
    match bs with
    | [] => Err (small_error "Codec: invalid byte length")
    | b :: rest => if b =? 0 then Ok (None, rest) else '(v, r) ← d rest; Ok (Some v, r)
    end;
  getArrayEncoder := fun T e l =>
    n ← small_unsigned_enc 4 (Z.of_nat (length l)); bs ← array_items e l; Ok (n ++ bs);
  getArrayDecoder := fun T d bs =>
    '(n, r) ← small_fixed 4 le_val bs; read_items d (Z.to_nat n) r;
  getStructEncoder := @small_struct_enc;
  getStructDecoder := @small_struct_dec;
  transformEncoder := fun A B e f v => e (f v);
  containsBytes := fun d bs off =>
    bool_decide (take (length bs) (drop (Z.to_nat off) d) = bs);
  isAddress := is_address;
  getProgramDerivedAddress := fun program seeds =>
    let a := base58_encode (take 32 (concat seeds ++ replicate 32 7)) in
    if is_address a then Ok (a, 255) else Err (small_error "Invalid seeds");
  insufficientAccountMetas := fun actual expected => small_error "Insufficient account metas";
  failedToIdentifyInstruction := fun data => small_error "Failed to identify instruction";
  failedToIdentifyAccount := fun data => small_error "Failed to identify account";
}.

Lemma small_unsigned w : unsigned_codec w (small_unsigned_enc w) (small_fixed w le_val).
Proof.
  split.
  - intros n Hn. unfold small_unsigned_enc.
    by rewrite (proj2 (Z.leb_le 0 n)), (proj2 (Z.ltb_lt n _)) by lia.
  - intros n rest Hn. unfold small_fixed.
    rewrite length_app, le_bytes_length, (proj2 (Nat.leb_le _ _)) by lia.
    rewrite take_app_length', drop_app_length' by (by rewrite le_bytes_length).
    by rewrite le_val_bytes.
Qed.

Lemma small_i64_dec n rest : i64_ok n ->
  small_fixed 8 (fun bs => small_signed (le_val bs)) (le_bytes 8 (n mod 2 ^ 64) ++ rest)
  = Ok (n, rest).
Proof.
  unfold i64_ok. intros Hn. unfold small_fixed.
  rewrite length_app, le_bytes_length, (proj2 (Nat.leb_le _ _)) by lia.
  rewrite take_app_length', drop_app_length' by (by rewrite le_bytes_length).
  rewrite le_val_bytes by (apply Z.mod_pos_bound; lia). do 2 f_equal.
  unfold small_signed. destruct (Z.ltb_spec (n mod 2 ^ 64) (2 ^ 63));
    Z.to_euclidean_division_equations; lia.
Qed.

Lemma small_utf8_dec s : utf8_safe s = true ->
  flat_map units_of (utf8_decode (textEncode s)) = s.
Proof.
  unfold utf8_safe. intros H. bool_prop.
  rewrite textEncode_well_formed by done. rewrite utf8_decode_as_bytes.
  - apply codePoints_units. apply List.Forall_forall. intros u Hu.
    match goal with H : forallb _ s = true |- _ =>
      apply (proj1 (forallb_forall _ _) H) in Hu end.
    bool_prop. unfold is_unit. lia.
  - apply List.Forall_forall. intros c Hc. apply is_scalar_codepoint. by eapply well_formed_scalars.
Qed.

Lemma small_address a : is_address a = true -> exists bs,
  getAddressEncoder a = Ok bs /\ length bs = 32%nat
  /\ forall rest, getAddressDecoder (bs ++ rest) = Ok (a, rest).
Proof.
  intros Ha. assert (Ha' := Ha). unfold is_address in Ha. cbn.
  destruct (base58_decode a) as [bs|]; [|done]. bool_prop.
  match goal with H : (_ =? _)%nat = true |- _ => rewrite H; apply Nat.eqb_eq in H end.
  exists bs. repeat split; [done|]. intros rest.
  rewrite take_app_length', drop_app_length' by done.
  match goal with H : base58_encode bs = a |- _ => rewrite H end. by rewrite Ha'.
Qed.

#[export] Instance SmallKit_spec : KitSpec SmallKit.
Proof.
  split; try apply small_unsigned; try done.
  - intros n Hn. cbn [getI64Encoder SmallKit].
    by rewrite (proj2 (Z.leb_le (- 2 ^ 63) n)), (proj2 (Z.ltb_lt n (2 ^ 63))) by lia.
  - apply small_i64_dec.
  - intros [] rest; cbn; unfold small_fixed; cbn; by rewrite drop_0.
  - intros s Hs. cbn. by rewrite small_utf8_dec.
  - apply small_address.
  - intros bs rest a. cbn. case_match eqn:Ha; [|done]. by intros [= <- _].
  - intros T e n v bs He Hn. cbn. rewrite He. cbn. subst n.
    by rewrite Nat.sub_diag, take_ge, app_nil_r by lia.
  - intros T d n bs rest v r Hn Hd. cbn. subst n.
    rewrite length_app, (proj2 (Nat.leb_le _ _)) by lia.
    rewrite take_app_length, drop_app_length, Hd. done.
  - intros T d p bs n r v r' Hp Hn Hd. cbn. rewrite Hp. cbn.
    rewrite (proj2 (Nat.leb_le _ _)) by lia. rewrite Hd. done.
  - intros T e l Hl. cbn [getArrayEncoder SmallKit]. rewrite (unsigned_enc _ _ _ (small_unsigned 4)) by (cbn; lia). done.
  - intros T d n rest Hn. cbn [getArrayDecoder SmallKit]. rewrite (unsigned_dec _ _ _ (small_unsigned 4)) by (cbn; lia). done.
  - intros program seeds a bump. cbn. case_match eqn:Ha; [|done]. by intros [= <- _].
Qed.

(** An address, for examples. *)
Definition small_addr (n : Z) : Address := base58_encode (replicate 31 1 ++ [n]).

Lemma small_addr_ok : forallb (fun n => is_address (small_addr n)) [1; 2; 3; 4; 5] = true.
Proof. vm_compute. reflexivity. Qed.
