(* ===== verification/Pdas.v ===== *)
(** * Program-derived addresses of the generated client

    src/clients/ts/src/generated/pdas: each [find...Pda] encodes its seeds and
    asks the kit for the derived address and its bump.  [config.programAddress]
    is an option; the literal default is the program's own address. *)
From S2P Require Import Prelude JsString Kit.

Definition SOLANS_PROGRAM_ADDRESS : Address :=
  js "AiDB9oh4jMKuGnx4nEseMgW7qpMnswygx6wpFKJbXKfb".

(** [ProgramDerivedAddress]: the address and its bump. *)
Abbreviation ProgramDerivedAddress := (Address * Z)%type.

Section Pdas.
Context `{Kit}.

Definition findConfigPda (programAddress : option Address)
    : result JsError ProgramDerivedAddress :=
  let programAddress := default SOLANS_PROGRAM_ADDRESS programAddress in
  s1 ← getBytesEncoder [99; 111; 110; 102; 105; 103];
  getProgramDerivedAddress programAddress [s1].

Definition findStakePoolPda (programAddress : option Address)
    : result JsError ProgramDerivedAddress :=
  let programAddress := default SOLANS_PROGRAM_ADDRESS programAddress in
  s1 ← getBytesEncoder [115; 116; 97; 107; 101; 95; 112; 111; 111; 108];
  getProgramDerivedAddress programAddress [s1].

Record NameRecordSeeds := { nameHash : bytes }.

Definition findNameRecordPda (seeds : NameRecordSeeds) (programAddress : option Address)
    : result JsError ProgramDerivedAddress :=
  let programAddress := default SOLANS_PROGRAM_ADDRESS programAddress in
  s1 ← getBytesEncoder [110; 97; 109; 101];
  s2 ← fixEncoderSize getBytesEncoder 32 (nameHash seeds);
  getProgramDerivedAddress programAddress [s1; s2].

Record ReverseRecordSeeds := { owner : Address }.

Definition findReverseRecordPda (seeds : ReverseRecordSeeds) (programAddress : option Address)
    : result JsError ProgramDerivedAddress :=
  let programAddress := default SOLANS_PROGRAM_ADDRESS programAddress in
  s1 ← getBytesEncoder [114; 101; 118; 101; 114; 115; 101];
  s2 ← getAddressEncoder (owner seeds);
  getProgramDerivedAddress programAddress [s1; s2].

Record StakeAccountSeeds := { staker : Address }.

Definition findStakeAccountPda (seeds : StakeAccountSeeds) (programAddress : option Address)
    : result JsError ProgramDerivedAddress :=
  let programAddress := default SOLANS_PROGRAM_ADDRESS programAddress in
  s1 ← getBytesEncoder [115; 116; 97; 107; 101];
  s2 ← getAddressEncoder (staker seeds);
  getProgramDerivedAddress programAddress [s1; s2].

(** [MetadataSeeds], and [MasterEditionSeeds] which has the same fields. *)
Record MetadataSeeds := { metadataProgram : Address; mint : Address }.

Definition findMetadataPda (seeds : MetadataSeeds) (programAddress : option Address)
    : result JsError ProgramDerivedAddress :=
  let programAddress := default SOLANS_PROGRAM_ADDRESS programAddress in
  s1 ← getBytesEncoder [109; 101; 116; 97; 100; 97; 116; 97];
  s2 ← getAddressEncoder (metadataProgram seeds);
  s3 ← getAddressEncoder (mint seeds);
  getProgramDerivedAddress programAddress [s1; s2; s3].

Definition findMasterEditionPda (seeds : MetadataSeeds) (programAddress : option Address)
    : result JsError ProgramDerivedAddress :=
  let programAddress := default SOLANS_PROGRAM_ADDRESS programAddress in
  s1 ← getBytesEncoder [109; 101; 116; 97; 100; 97; 116; 97];
  s2 ← getAddressEncoder (metadataProgram seeds);
  s3 ← getAddressEncoder (mint seeds);
  s4 ← getBytesEncoder [101; 100; 105; 116; 105; 111; 110];
  getProgramDerivedAddress programAddress [s1; s2; s3; s4].
End Pdas.
