(* ===== verification/Accounts.v ===== *)
(** * The program's accounts, as the client encodes them

    One Module per file of src/clients/ts/src/generated/accounts: the arguments
    record, the decoded object (the arguments and the discriminator), the encoder
    and the decoder, field by field in the order of the source.  Each Module ends
    with the pair's laws as an [ObjectCodec] of Kit.v.  Then [SolansAccount] and
    [identifySolansAccount] (programs/solans.ts), and the theorems on them. *)
From S2P Require Import Prelude JsString Kit SmallKit.

(** ** types/record.ts *)

Record Record_ := MkRecord { key : jsstring; value : jsstring }.

#[export] Instance Record_eq_dec : EqDecision Record_.
Proof. solve_decision. Defined.

Definition getRecordEncoder `{Kit} : Encoder Record_ :=
  ofObject (getStructEncoder (
     "key" ~> addEncoderSizePrefix getUtf8Encoder getU32Encoder ;;
     "value" ~> addEncoderSizePrefix getUtf8Encoder getU32Encoder ;; SNil)%fields)
    (fun r => (key r, (value r, tt))).

Definition getRecordDecoder `{Kit} : Decoder Record_ :=
  asObject (getStructDecoder (
     "key" ~> addDecoderSizePrefix getUtf8Decoder getU32Decoder ;;
     "value" ~> addDecoderSizePrefix getUtf8Decoder getU32Decoder ;; SNil)%fields)
    (fun '(k, (v, tt)) => MkRecord k v).

Definition Record_ok (r : Record_) : Prop := string_ok (key r) /\ string_ok (value r) /\ True.

#[export] Instance record_round_trip `{KitSpec} :
  RoundTrip getRecordEncoder getRecordDecoder Record_ok.
Proof.
  eapply round_trip_weaken.
  - eapply object_round_trip; [typeclasses eauto | by intros []].
  - by intros [] ?.
Qed.

(** ** accounts/auction.ts *)

Module AuctionAccount.

Definition AUCTION_DISCRIMINATOR : bytes := [218; 94; 247; 242; 126; 233; 131; 81].

Record AuctionArgs := MkAuctionArgs {
  seller : Address; nameHash : bytes; bidVault : Address; highestBidder : option Address;
  highestBid : Z; reservePrice : Z; minIncrement : Z; endTime : Z; bump : Z
}.
Record Auction := MkAuction { discriminator : bytes; args :> AuctionArgs }.

Definition getAuctionEncoder `{Kit} : Encoder AuctionArgs :=
  transformEncoder (ofObject (getStructEncoder (
     "discriminator" ~> fixEncoderSize getBytesEncoder 8 ;;
     "seller" ~> getAddressEncoder ;;
     "nameHash" ~> fixEncoderSize getBytesEncoder 32 ;;
     "bidVault" ~> getAddressEncoder ;;
     "highestBidder" ~> getOptionEncoder getAddressEncoder ;;
     "highestBid" ~> getU64Encoder ;;
     "reservePrice" ~> getU64Encoder ;;
     "minIncrement" ~> getU64Encoder ;;
     "endTime" ~> getI64Encoder ;;
     "bump" ~> getU8Encoder ;; SNil)%fields)
    (fun v : Auction => (discriminator v,
      (seller v, (nameHash v, (bidVault v, (highestBidder v, (highestBid v, (reservePrice v,
      (minIncrement v, (endTime v, (bump v, tt))))))))))))
    (fun value => MkAuction AUCTION_DISCRIMINATOR value).

Definition getAuctionDecoder `{Kit} : Decoder Auction :=
  asObject (getStructDecoder (
     "discriminator" ~> fixDecoderSize getBytesDecoder 8 ;;
     "seller" ~> getAddressDecoder ;;
     "nameHash" ~> fixDecoderSize getBytesDecoder 32 ;;
     "bidVault" ~> getAddressDecoder ;;
     "highestBidder" ~> getOptionDecoder getAddressDecoder ;;
     "highestBid" ~> getU64Decoder ;;
     "reservePrice" ~> getU64Decoder ;;
     "minIncrement" ~> getU64Decoder ;;
     "endTime" ~> getI64Decoder ;;
     "bump" ~> getU8Decoder ;; SNil)%fields)
    (fun '(d, (x0, (x1, (x2, (x3, (x4, (x5, (x6, (x7, (x8, tt)))))))))) =>
       MkAuction d (MkAuctionArgs x0 x1 x2 x3 x4 x5 x6 x7 x8)).

Definition Auction_ok `{Kit} (v : AuctionArgs) : Prop :=
  address_ok (seller v) /\ length (nameHash v) = 32%nat /\ address_ok (bidVault v) /\
  option_ok address_ok (highestBidder v) /\ unsigned_ok 8 (highestBid v) /\
  unsigned_ok 8 (reservePrice v) /\ unsigned_ok 8 (minIncrement v) /\ i64_ok (endTime v) /\
  unsigned_ok 1 (bump v).

Definition Auction_codec `{KitSpec} : ObjectCodec.
Proof.
  refine {| encoder := getAuctionEncoder; decoder := getAuctionDecoder;
            object := MkAuction AUCTION_DISCRIMINATOR; object_ok := Auction_ok; tag := AUCTION_DISCRIMINATOR |}.
  - object_codec_round_trip.
  - object_codec_tag.
Defined.

End AuctionAccount.

(** ** accounts/config.ts *)

Module ConfigAccount.

Definition CONFIG_DISCRIMINATOR : bytes := [155; 12; 170; 224; 30; 250; 204; 130].

Record ConfigArgs := MkConfigArgs {
  admin : Address; paymentMint : Address; treasuryTokenAccount : Address; price1 : Z; price2 : Z;
  price3 : Z; price4 : Z; price5plus : Z; priceNumeric : Z; gracePeriodSeconds : Z;
  minYears : Z; maxYears : Z; solTreasury : Address; marketplaceFeeBps : Z;
  stakingVault : Address; burnVault : Address; stakingFeeBps : Z; referralFeeBps : Z;
  burnFeeBps : Z; solansMint : Address; solansRate : Z; solansDiscountBps : Z; bump : Z
}.
Record Config := MkConfig { discriminator : bytes; args :> ConfigArgs }.

Definition getConfigEncoder `{Kit} : Encoder ConfigArgs :=
  transformEncoder (ofObject (getStructEncoder (
     "discriminator" ~> fixEncoderSize getBytesEncoder 8 ;;
     "admin" ~> getAddressEncoder ;;
     "paymentMint" ~> getAddressEncoder ;;
     "treasuryTokenAccount" ~> getAddressEncoder ;;
     "price1" ~> getU64Encoder ;;
     "price2" ~> getU64Encoder ;;
     "price3" ~> getU64Encoder ;;
     "price4" ~> getU64Encoder ;;
     "price5plus" ~> getU64Encoder ;;
     "priceNumeric" ~> getU64Encoder ;;
     "gracePeriodSeconds" ~> getI64Encoder ;;
     "minYears" ~> getU16Encoder ;;
     "maxYears" ~> getU16Encoder ;;
     "solTreasury" ~> getAddressEncoder ;;
     "marketplaceFeeBps" ~> getU16Encoder ;;
     "stakingVault" ~> getAddressEncoder ;;
     "burnVault" ~> getAddressEncoder ;;
     "stakingFeeBps" ~> getU16Encoder ;;
     "referralFeeBps" ~> getU16Encoder ;;
     "burnFeeBps" ~> getU16Encoder ;;
     "solansMint" ~> getAddressEncoder ;;
     "solansRate" ~> getU64Encoder ;;
     "solansDiscountBps" ~> getU16Encoder ;;
     "bump" ~> getU8Encoder ;; SNil)%fields)
    (fun v : Config => (discriminator v,
      (admin v, (paymentMint v, (treasuryTokenAccount v, (price1 v, (price2 v, (price3 v,
      (price4 v, (price5plus v, (priceNumeric v, (gracePeriodSeconds v, (minYears v,
      (maxYears v, (solTreasury v, (marketplaceFeeBps v, (stakingVault v, (burnVault v,
      (stakingFeeBps v, (referralFeeBps v, (burnFeeBps v, (solansMint v, (solansRate v,
      (solansDiscountBps v, (bump v, tt))))))))))))))))))))))))))
    (fun value => MkConfig CONFIG_DISCRIMINATOR value).

Definition getConfigDecoder `{Kit} : Decoder Config :=
  asObject (getStructDecoder (
     "discriminator" ~> fixDecoderSize getBytesDecoder 8 ;;
     "admin" ~> getAddressDecoder ;;
     "paymentMint" ~> getAddressDecoder ;;
     "treasuryTokenAccount" ~> getAddressDecoder ;;
     "price1" ~> getU64Decoder ;;
     "price2" ~> getU64Decoder ;;
     "price3" ~> getU64Decoder ;;
     "price4" ~> getU64Decoder ;;
     "price5plus" ~> getU64Decoder ;;
     "priceNumeric" ~> getU64Decoder ;;
     "gracePeriodSeconds" ~> getI64Decoder ;;
     "minYears" ~> getU16Decoder ;;
     "maxYears" ~> getU16Decoder ;;
     "solTreasury" ~> getAddressDecoder ;;
     "marketplaceFeeBps" ~> getU16Decoder ;;
     "stakingVault" ~> getAddressDecoder ;;
     "burnVault" ~> getAddressDecoder ;;
     "stakingFeeBps" ~> getU16Decoder ;;
     "referralFeeBps" ~> getU16Decoder ;;
     "burnFeeBps" ~> getU16Decoder ;;
     "solansMint" ~> getAddressDecoder ;;
     "solansRate" ~> getU64Decoder ;;
     "solansDiscountBps" ~> getU16Decoder ;;
     "bump" ~> getU8Decoder ;; SNil)%fields)
    (fun '(d, (x0, (x1, (x2, (x3, (x4, (x5, (x6, (x7, (x8, (x9, (x10, (x11, (x12, (x13, (x14, (x15, (x16, (x17, (x18, (x19, (x20, (x21, (x22, tt)))))))))))))))))))))))) =>
       MkConfig d (MkConfigArgs x0 x1 x2 x3 x4 x5 x6 x7 x8 x9 x10 x11 x12 x13 x14 x15 x16 x17 x18 x19 x20 x21 x22)).

Definition Config_ok `{Kit} (v : ConfigArgs) : Prop :=
  address_ok (admin v) /\ address_ok (paymentMint v) /\ address_ok (treasuryTokenAccount v) /\
  unsigned_ok 8 (price1 v) /\ unsigned_ok 8 (price2 v) /\ unsigned_ok 8 (price3 v) /\
  unsigned_ok 8 (price4 v) /\ unsigned_ok 8 (price5plus v) /\ unsigned_ok 8 (priceNumeric v) /\
  i64_ok (gracePeriodSeconds v) /\ unsigned_ok 2 (minYears v) /\ unsigned_ok 2 (maxYears v) /\
  address_ok (solTreasury v) /\ unsigned_ok 2 (marketplaceFeeBps v) /\
  address_ok (stakingVault v) /\ address_ok (burnVault v) /\ unsigned_ok 2 (stakingFeeBps v) /\
  unsigned_ok 2 (referralFeeBps v) /\ unsigned_ok 2 (burnFeeBps v) /\
  address_ok (solansMint v) /\ unsigned_ok 8 (solansRate v) /\
  unsigned_ok 2 (solansDiscountBps v) /\ unsigned_ok 1 (bump v).

Definition Config_codec `{KitSpec} : ObjectCodec.
Proof.
  refine {| encoder := getConfigEncoder; decoder := getConfigDecoder;
            object := MkConfig CONFIG_DISCRIMINATOR; object_ok := Config_ok; tag := CONFIG_DISCRIMINATOR |}.
  - object_codec_round_trip.
  - object_codec_tag.
Defined.

Definition getConfigSize : Z := 311.

End ConfigAccount.

(** ** accounts/listing.ts *)

Module ListingAccount.

Definition LISTING_DISCRIMINATOR : bytes := [218; 32; 50; 73; 43; 134; 26; 58].

Record ListingArgs := MkListingArgs {
  seller : Address; nameHash : bytes; price : Z; expiresAt : Z; bump : Z
}.
Record Listing := MkListing { discriminator : bytes; args :> ListingArgs }.

Definition getListingEncoder `{Kit} : Encoder ListingArgs :=
  transformEncoder (ofObject (getStructEncoder (
     "discriminator" ~> fixEncoderSize getBytesEncoder 8 ;;
     "seller" ~> getAddressEncoder ;;
     "nameHash" ~> fixEncoderSize getBytesEncoder 32 ;;
     "price" ~> getU64Encoder ;;
     "expiresAt" ~> getI64Encoder ;;
     "bump" ~> getU8Encoder ;; SNil)%fields)
    (fun v : Listing => (discriminator v,
      (seller v, (nameHash v, (price v, (expiresAt v, (bump v, tt))))))))
    (fun value => MkListing LISTING_DISCRIMINATOR value).

Definition getListingDecoder `{Kit} : Decoder Listing :=
  asObject (getStructDecoder (
     "discriminator" ~> fixDecoderSize getBytesDecoder 8 ;;
     "seller" ~> getAddressDecoder ;;
     "nameHash" ~> fixDecoderSize getBytesDecoder 32 ;;
     "price" ~> getU64Decoder ;;
     "expiresAt" ~> getI64Decoder ;;
     "bump" ~> getU8Decoder ;; SNil)%fields)
    (fun '(d, (x0, (x1, (x2, (x3, (x4, tt)))))) =>
       MkListing d (MkListingArgs x0 x1 x2 x3 x4)).

Definition Listing_ok `{Kit} (v : ListingArgs) : Prop :=
  address_ok (seller v) /\ length (nameHash v) = 32%nat /\ unsigned_ok 8 (price v) /\
  i64_ok (expiresAt v) /\ unsigned_ok 1 (bump v).

Definition Listing_codec `{KitSpec} : ObjectCodec.
Proof.
  refine {| encoder := getListingEncoder; decoder := getListingDecoder;
            object := MkListing LISTING_DISCRIMINATOR; object_ok := Listing_ok; tag := LISTING_DISCRIMINATOR |}.
  - object_codec_round_trip.
  - object_codec_tag.
Defined.

Definition getListingSize : Z := 89.

End ListingAccount.

(** ** accounts/nameRecord.ts *)

Module NameRecordAccount.

Definition NAME_RECORD_DISCRIMINATOR : bytes := [254; 22; 17; 161; 229; 49; 238; 105].

Record NameRecordArgs := MkNameRecordArgs {
  owner : Address; controller : option Address; nameHash : bytes; tld : jsstring;
  registeredAt : Z; expiresAt : Z; records : list Record_; resolver : option Address;
  hostingRef : option jsstring; transferLocked : bool; reverseSet : bool;
  nftMint : option Address; parent : option Address; parentRegisteredAt : Z; depth : Z;
  listed : bool; bump : Z
}.
Record NameRecord := MkNameRecord { discriminator : bytes; args :> NameRecordArgs }.

Definition getNameRecordEncoder `{Kit} : Encoder NameRecordArgs :=
  transformEncoder (ofObject (getStructEncoder (
     "discriminator" ~> fixEncoderSize getBytesEncoder 8 ;;
     "owner" ~> getAddressEncoder ;;
     "controller" ~> getOptionEncoder getAddressEncoder ;;
     "nameHash" ~> fixEncoderSize getBytesEncoder 32 ;;
     "tld" ~> addEncoderSizePrefix getUtf8Encoder getU32Encoder ;;
     "registeredAt" ~> getI64Encoder ;;
     "expiresAt" ~> getI64Encoder ;;
     "records" ~> getArrayEncoder getRecordEncoder ;;
     "resolver" ~> getOptionEncoder getAddressEncoder ;;
     "hostingRef" ~> getOptionEncoder (addEncoderSizePrefix getUtf8Encoder getU32Encoder) ;;
     "transferLocked" ~> getBooleanEncoder ;;
     "reverseSet" ~> getBooleanEncoder ;;
     "nftMint" ~> getOptionEncoder getAddressEncoder ;;
     "parent" ~> getOptionEncoder getAddressEncoder ;;
     "parentRegisteredAt" ~> getI64Encoder ;;
     "depth" ~> getU8Encoder ;;
     "listed" ~> getBooleanEncoder ;;
     "bump" ~> getU8Encoder ;; SNil)%fields)
    (fun v : NameRecord => (discriminator v,
      (owner v, (controller v, (nameHash v, (tld v, (registeredAt v, (expiresAt v, (records v,
      (resolver v, (hostingRef v, (transferLocked v, (reverseSet v, (nftMint v, (parent v,
      (parentRegisteredAt v, (depth v, (listed v, (bump v, tt))))))))))))))))))))
    (fun value => MkNameRecord NAME_RECORD_DISCRIMINATOR value).

Definition getNameRecordDecoder `{Kit} : Decoder NameRecord :=
  asObject (getStructDecoder (
     "discriminator" ~> fixDecoderSize getBytesDecoder 8 ;;
     "owner" ~> getAddressDecoder ;;
     "controller" ~> getOptionDecoder getAddressDecoder ;;
     "nameHash" ~> fixDecoderSize getBytesDecoder 32 ;;
     "tld" ~> addDecoderSizePrefix getUtf8Decoder getU32Decoder ;;
     "registeredAt" ~> getI64Decoder ;;
     "expiresAt" ~> getI64Decoder ;;
     "records" ~> getArrayDecoder getRecordDecoder ;;
     "resolver" ~> getOptionDecoder getAddressDecoder ;;
     "hostingRef" ~> getOptionDecoder (addDecoderSizePrefix getUtf8Decoder getU32Decoder) ;;
     "transferLocked" ~> getBooleanDecoder ;;
     "reverseSet" ~> getBooleanDecoder ;;
     "nftMint" ~> getOptionDecoder getAddressDecoder ;;
     "parent" ~> getOptionDecoder getAddressDecoder ;;
     "parentRegisteredAt" ~> getI64Decoder ;;
     "depth" ~> getU8Decoder ;;
     "listed" ~> getBooleanDecoder ;;
     "bump" ~> getU8Decoder ;; SNil)%fields)
    (fun '(d, (x0, (x1, (x2, (x3, (x4, (x5, (x6, (x7, (x8, (x9, (x10, (x11, (x12, (x13, (x14, (x15, (x16, tt)))))))))))))))))) =>
       MkNameRecord d (MkNameRecordArgs x0 x1 x2 x3 x4 x5 x6 x7 x8 x9 x10 x11 x12 x13 x14 x15 x16)).

Definition NameRecord_ok `{Kit} (v : NameRecordArgs) : Prop :=
  address_ok (owner v) /\ option_ok address_ok (controller v) /\ length (nameHash v) = 32%nat /\
  string_ok (tld v) /\ i64_ok (registeredAt v) /\ i64_ok (expiresAt v) /\
  array_ok Record_ok (records v) /\ option_ok address_ok (resolver v) /\
  option_ok string_ok (hostingRef v) /\ option_ok address_ok (nftMint v) /\
  option_ok address_ok (parent v) /\ i64_ok (parentRegisteredAt v) /\ unsigned_ok 1 (depth v) /\
  unsigned_ok 1 (bump v).

Definition NameRecord_codec `{KitSpec} : ObjectCodec.
Proof.
  refine {| encoder := getNameRecordEncoder; decoder := getNameRecordDecoder;
            object := MkNameRecord NAME_RECORD_DISCRIMINATOR; object_ok := NameRecord_ok; tag := NAME_RECORD_DISCRIMINATOR |}.
  - object_codec_round_trip.
  - object_codec_tag.
Defined.

End NameRecordAccount.

(** ** accounts/offer.ts *)

Module OfferAccount.

Definition OFFER_DISCRIMINATOR : bytes := [215; 88; 60; 71; 170; 162; 73; 229].

Record OfferArgs := MkOfferArgs {
  buyer : Address; nameHash : bytes; amount : Z; expiresAt : Z; bump : Z
}.
Record Offer := MkOffer { discriminator : bytes; args :> OfferArgs }.

Definition getOfferEncoder `{Kit} : Encoder OfferArgs :=
  transformEncoder (ofObject (getStructEncoder (
     "discriminator" ~> fixEncoderSize getBytesEncoder 8 ;;
     "buyer" ~> getAddressEncoder ;;
     "nameHash" ~> fixEncoderSize getBytesEncoder 32 ;;
     "amount" ~> getU64Encoder ;;
     "expiresAt" ~> getI64Encoder ;;
     "bump" ~> getU8Encoder ;; SNil)%fields)
    (fun v : Offer => (discriminator v,
      (buyer v, (nameHash v, (amount v, (expiresAt v, (bump v, tt))))))))
    (fun value => MkOffer OFFER_DISCRIMINATOR value).

Definition getOfferDecoder `{Kit} : Decoder Offer :=
  asObject (getStructDecoder (
     "discriminator" ~> fixDecoderSize getBytesDecoder 8 ;;
     "buyer" ~> getAddressDecoder ;;
     "nameHash" ~> fixDecoderSize getBytesDecoder 32 ;;
     "amount" ~> getU64Decoder ;;
     "expiresAt" ~> getI64Decoder ;;
     "bump" ~> getU8Decoder ;; SNil)%fields)
    (fun '(d, (x0, (x1, (x2, (x3, (x4, tt)))))) =>
       MkOffer d (MkOfferArgs x0 x1 x2 x3 x4)).

Definition Offer_ok `{Kit} (v : OfferArgs) : Prop :=
  address_ok (buyer v) /\ length (nameHash v) = 32%nat /\ unsigned_ok 8 (amount v) /\
  i64_ok (expiresAt v) /\ unsigned_ok 1 (bump v).

Definition Offer_codec `{KitSpec} : ObjectCodec.
Proof.
  refine {| encoder := getOfferEncoder; decoder := getOfferDecoder;
            object := MkOffer OFFER_DISCRIMINATOR; object_ok := Offer_ok; tag := OFFER_DISCRIMINATOR |}.
  - object_codec_round_trip.
  - object_codec_tag.
Defined.

Definition getOfferSize : Z := 89.

End OfferAccount.

(** ** accounts/reverseRecord.ts *)

Module ReverseRecordAccount.

Definition REVERSE_RECORD_DISCRIMINATOR : bytes := [125; 98; 59; 20; 159; 18; 85; 123].

Record ReverseRecordArgs := MkReverseRecordArgs {
  owner : Address; nameHash : bytes; name : jsstring; tld : jsstring; bump : Z
}.
Record ReverseRecord := MkReverseRecord { discriminator : bytes; args :> ReverseRecordArgs }.

Definition getReverseRecordEncoder `{Kit} : Encoder ReverseRecordArgs :=
  transformEncoder (ofObject (getStructEncoder (
     "discriminator" ~> fixEncoderSize getBytesEncoder 8 ;;
     "owner" ~> getAddressEncoder ;;
     "nameHash" ~> fixEncoderSize getBytesEncoder 32 ;;
     "name" ~> addEncoderSizePrefix getUtf8Encoder getU32Encoder ;;
     "tld" ~> addEncoderSizePrefix getUtf8Encoder getU32Encoder ;;
     "bump" ~> getU8Encoder ;; SNil)%fields)
    (fun v : ReverseRecord => (discriminator v,
      (owner v, (nameHash v, (name v, (tld v, (bump v, tt))))))))
    (fun value => MkReverseRecord REVERSE_RECORD_DISCRIMINATOR value).

Definition getReverseRecordDecoder `{Kit} : Decoder ReverseRecord :=
  asObject (getStructDecoder (
     "discriminator" ~> fixDecoderSize getBytesDecoder 8 ;;
     "owner" ~> getAddressDecoder ;;
     "nameHash" ~> fixDecoderSize getBytesDecoder 32 ;;
     "name" ~> addDecoderSizePrefix getUtf8Decoder getU32Decoder ;;
     "tld" ~> addDecoderSizePrefix getUtf8Decoder getU32Decoder ;;
     "bump" ~> getU8Decoder ;; SNil)%fields)
    (fun '(d, (x0, (x1, (x2, (x3, (x4, tt)))))) =>
       MkReverseRecord d (MkReverseRecordArgs x0 x1 x2 x3 x4)).

Definition ReverseRecord_ok `{Kit} (v : ReverseRecordArgs) : Prop :=
  address_ok (owner v) /\ length (nameHash v) = 32%nat /\ string_ok (name v) /\
  string_ok (tld v) /\ unsigned_ok 1 (bump v).

Definition ReverseRecord_codec `{KitSpec} : ObjectCodec.
Proof.
  refine {| encoder := getReverseRecordEncoder; decoder := getReverseRecordDecoder;
            object := MkReverseRecord REVERSE_RECORD_DISCRIMINATOR; object_ok := ReverseRecord_ok; tag := REVERSE_RECORD_DISCRIMINATOR |}.
  - object_codec_round_trip.
  - object_codec_tag.
Defined.

End ReverseRecordAccount.

(** ** accounts/stakeAccount.ts *)

Module StakeAccountAccount.

Definition STAKE_ACCOUNT_DISCRIMINATOR : bytes := [80; 158; 67; 124; 50; 189; 192; 255].

Record StakeAccountArgs := MkStakeAccountArgs {
  owner : Address; amount : Z; rewardDebt : Z; bump : Z
}.
Record StakeAccount := MkStakeAccount { discriminator : bytes; args :> StakeAccountArgs }.

Definition getStakeAccountEncoder `{Kit} : Encoder StakeAccountArgs :=
  transformEncoder (ofObject (getStructEncoder (
     "discriminator" ~> fixEncoderSize getBytesEncoder 8 ;;
     "owner" ~> getAddressEncoder ;;
     "amount" ~> getU64Encoder ;;
     "rewardDebt" ~> getU128Encoder ;;
     "bump" ~> getU8Encoder ;; SNil)%fields)
    (fun v : StakeAccount => (discriminator v,
      (owner v, (amount v, (rewardDebt v, (bump v, tt)))))))
    (fun value => MkStakeAccount STAKE_ACCOUNT_DISCRIMINATOR value).

Definition getStakeAccountDecoder `{Kit} : Decoder StakeAccount :=
  asObject (getStructDecoder (
     "discriminator" ~> fixDecoderSize getBytesDecoder 8 ;;
     "owner" ~> getAddressDecoder ;;
     "amount" ~> getU64Decoder ;;
     "rewardDebt" ~> getU128Decoder ;;
     "bump" ~> getU8Decoder ;; SNil)%fields)
    (fun '(d, (x0, (x1, (x2, (x3, tt))))) =>
       MkStakeAccount d (MkStakeAccountArgs x0 x1 x2 x3)).

Definition StakeAccount_ok `{Kit} (v : StakeAccountArgs) : Prop :=
  address_ok (owner v) /\ unsigned_ok 8 (amount v) /\ unsigned_ok 16 (rewardDebt v) /\
  unsigned_ok 1 (bump v).

Definition StakeAccount_codec `{KitSpec} : ObjectCodec.
Proof.
  refine {| encoder := getStakeAccountEncoder; decoder := getStakeAccountDecoder;
            object := MkStakeAccount STAKE_ACCOUNT_DISCRIMINATOR; object_ok := StakeAccount_ok; tag := STAKE_ACCOUNT_DISCRIMINATOR |}.
  - object_codec_round_trip.
  - object_codec_tag.
Defined.

Definition getStakeAccountSize : Z := 65.

End StakeAccountAccount.

(** ** accounts/stakePool.ts *)

Module StakePoolAccount.

Definition STAKE_POOL_DISCRIMINATOR : bytes := [121; 34; 206; 21; 79; 127; 255; 28].

Record StakePoolArgs := MkStakePoolArgs {
  solansMint : Address; stakeVault : Address; rewardVault : Address; totalStaked : Z;
  accRewardPerShare : Z; lastRewardBalance : Z; bump : Z
}.
Record StakePool := MkStakePool { discriminator : bytes; args :> StakePoolArgs }.

Definition getStakePoolEncoder `{Kit} : Encoder StakePoolArgs :=
  transformEncoder (ofObject (getStructEncoder (
     "discriminator" ~> fixEncoderSize getBytesEncoder 8 ;;
     "solansMint" ~> getAddressEncoder ;;
     "stakeVault" ~> getAddressEncoder ;;
     "rewardVault" ~> getAddressEncoder ;;
     "totalStaked" ~> getU64Encoder ;;
     "accRewardPerShare" ~> getU128Encoder ;;
     "lastRewardBalance" ~> getU64Encoder ;;
     "bump" ~> getU8Encoder ;; SNil)%fields)
    (fun v : StakePool => (discriminator v,
      (solansMint v, (stakeVault v, (rewardVault v, (totalStaked v, (accRewardPerShare v,
      (lastRewardBalance v, (bump v, tt))))))))))
    (fun value => MkStakePool STAKE_POOL_DISCRIMINATOR value).

Definition getStakePoolDecoder `{Kit} : Decoder StakePool :=
  asObject (getStructDecoder (
     "discriminator" ~> fixDecoderSize getBytesDecoder 8 ;;
     "solansMint" ~> getAddressDecoder ;;
     "stakeVault" ~> getAddressDecoder ;;
     "rewardVault" ~> getAddressDecoder ;;
     "totalStaked" ~> getU64Decoder ;;
     "accRewardPerShare" ~> getU128Decoder ;;
     "lastRewardBalance" ~> getU64Decoder ;;
     "bump" ~> getU8Decoder ;; SNil)%fields)
    (fun '(d, (x0, (x1, (x2, (x3, (x4, (x5, (x6, tt)))))))) =>
       MkStakePool d (MkStakePoolArgs x0 x1 x2 x3 x4 x5 x6)).

Definition StakePool_ok `{Kit} (v : StakePoolArgs) : Prop :=
  address_ok (solansMint v) /\ address_ok (stakeVault v) /\ address_ok (rewardVault v) /\
  unsigned_ok 8 (totalStaked v) /\ unsigned_ok 16 (accRewardPerShare v) /\
  unsigned_ok 8 (lastRewardBalance v) /\ unsigned_ok 1 (bump v).

Definition StakePool_codec `{KitSpec} : ObjectCodec.
Proof.
  refine {| encoder := getStakePoolEncoder; decoder := getStakePoolDecoder;
            object := MkStakePool STAKE_POOL_DISCRIMINATOR; object_ok := StakePool_ok; tag := STAKE_POOL_DISCRIMINATOR |}.
  - object_codec_round_trip.
  - object_codec_tag.
Defined.

Definition getStakePoolSize : Z := 137.

End StakePoolAccount.

(** ** Identifying accounts (programs/solans.ts) *)

Module SolansAccount.
Inductive t := Auction | Config | Listing | NameRecord | Offer | ReverseRecord | StakeAccount | StakePool.
End SolansAccount.

#[export] Instance SolansAccount_eq_dec : EqDecision SolansAccount.t.
Proof. solve_decision. Defined.

Definition identifySolansAccount `{Kit} (data : bytes) : result JsError SolansAccount.t :=
  b ← fixEncoderSize getBytesEncoder 8 [218; 94; 247; 242; 126; 233; 131; 81];
  if containsBytes data b 0 then Ok SolansAccount.Auction else
  b ← fixEncoderSize getBytesEncoder 8 [155; 12; 170; 224; 30; 250; 204; 130];
  if containsBytes data b 0 then Ok SolansAccount.Config else
  b ← fixEncoderSize getBytesEncoder 8 [218; 32; 50; 73; 43; 134; 26; 58];
  if containsBytes data b 0 then Ok SolansAccount.Listing else
  b ← fixEncoderSize getBytesEncoder 8 [254; 22; 17; 161; 229; 49; 238; 105];
  if containsBytes data b 0 then Ok SolansAccount.NameRecord else
  b ← fixEncoderSize getBytesEncoder 8 [215; 88; 60; 71; 170; 162; 73; 229];
  if containsBytes data b 0 then Ok SolansAccount.Offer else
  b ← fixEncoderSize getBytesEncoder 8 [125; 98; 59; 20; 159; 18; 85; 123];
  if containsBytes data b 0 then Ok SolansAccount.ReverseRecord else
  b ← fixEncoderSize getBytesEncoder 8 [80; 158; 67; 124; 50; 189; 192; 255];
  if containsBytes data b 0 then Ok SolansAccount.StakeAccount else
  b ← fixEncoderSize getBytesEncoder 8 [121; 34; 206; 21; 79; 127; 255; 28];
  if containsBytes data b 0 then Ok SolansAccount.StakePool else
  Err (failedToIdentifyAccount data).

(** The discriminators, in the order [identifySolansAccount] tries them. *)
Definition account_tags : list (bytes * SolansAccount.t) := [
  ([218; 94; 247; 242; 126; 233; 131; 81], SolansAccount.Auction);
  ([155; 12; 170; 224; 30; 250; 204; 130], SolansAccount.Config);
  ([218; 32; 50; 73; 43; 134; 26; 58], SolansAccount.Listing);
  ([254; 22; 17; 161; 229; 49; 238; 105], SolansAccount.NameRecord);
  ([215; 88; 60; 71; 170; 162; 73; 229], SolansAccount.Offer);
  ([125; 98; 59; 20; 159; 18; 85; 123], SolansAccount.ReverseRecord);
  ([80; 158; 67; 124; 50; 189; 192; 255], SolansAccount.StakeAccount);
  ([121; 34; 206; 21; 79; 127; 255; 28], SolansAccount.StakePool)].

Definition account_codec `{KitSpec} (k : SolansAccount.t) : ObjectCodec :=
  match k with
  | SolansAccount.Auction => AuctionAccount.Auction_codec
  | SolansAccount.Config => ConfigAccount.Config_codec
  | SolansAccount.Listing => ListingAccount.Listing_codec
  | SolansAccount.NameRecord => NameRecordAccount.NameRecord_codec
  | SolansAccount.Offer => OfferAccount.Offer_codec
  | SolansAccount.ReverseRecord => ReverseRecordAccount.ReverseRecord_codec
  | SolansAccount.StakeAccount => StakeAccountAccount.StakeAccount_codec
  | SolansAccount.StakePool => StakePoolAccount.StakePool_codec
  end.

(** ** Laws *)

Section Laws.
Context `{KS : KitSpec}.

Lemma account_tag_length k : length (tag (account_codec k)) = 8%nat.
Proof. by destruct k. Qed.

Lemma identify_account_table data :
  identifySolansAccount data =
    of_option (failedToIdentifyAccount data) (find_tag data account_tags).
Proof.
  unfold identifySolansAccount, account_tags. cbn [find_tag].
  rewrite !identify_step by reflexivity.
  repeat (destruct (bool_decide _); [reflexivity|]). reflexivity.
Qed.

Lemma find_account_tag k data :
  take 8 data = tag (account_codec k) -> find_tag data account_tags = Some k.
Proof. intros Ht. unfold account_tags. cbn [find_tag]. rewrite !Ht. by destruct k. Qed.

(** C34: For each of the eight account types, encoding a valid value and reading the bytes
    back (with anything appended) identifies the account type and decodes the same value
    with its discriminator. *)
Theorem accounts_round_trip k (v : Args (account_codec k)) :
  object_ok (account_codec k) v ->
  exists bs, encoder (account_codec k) v = Ok bs
    /\ forall rest, identifySolansAccount (bs ++ rest) = Ok k
         /\ decode (decoder (account_codec k)) (bs ++ rest) = Ok (object (account_codec k) v).
Proof.
  intros Hv. destruct (object_law _ v Hv) as (bs & He & Hd). exists bs. split; [done|].
  intros rest. split.
  - rewrite identify_account_table, (find_account_tag k); [done|].
    pose proof (tag_law _ v bs He) as Ht. rewrite take_app_le; [done|].
    rewrite <- (take_drop 8 bs), length_app, Ht, account_tag_length. lia.
  - unfold decode. by rewrite Hd.
Qed.

(** identifySolansAccount throws its identification error exactly when the first eight
    bytes are none of the eight account discriminators. *)
Theorem identifySolansAccount_unknown data :
  (forall k, take 8 data <> tag (account_codec k)) <->
  identifySolansAccount data = Err (failedToIdentifyAccount data).
Proof.
  rewrite identify_account_table. split.
  - intros Hk. unfold account_tags. cbn [find_tag].
    rewrite !bool_decide_eq_false_2; [done|..].
    all: [> apply (Hk SolansAccount.StakePool) | apply (Hk SolansAccount.StakeAccount)
          | apply (Hk SolansAccount.ReverseRecord) | apply (Hk SolansAccount.Offer)
          | apply (Hk SolansAccount.NameRecord) | apply (Hk SolansAccount.Listing)
          | apply (Hk SolansAccount.Config) | apply (Hk SolansAccount.Auction) ].
  - intros HE k Ht. by rewrite (find_account_tag k) in HE.
Qed.
End Laws.

(** The encoding of a type of fixed size has the size its [get...Size] returns. *)
Ltac account_size :=
  let v := fresh "v" in let bs := fresh "bs" in let Hok := fresh "Hok" in let He := fresh "He" in
  intros v bs Hok He; eapply tagged_size in He;
  [ | typeclasses eauto | red in Hok; destruct v; cbn in Hok |- *; tauto ];
  rewrite He; reflexivity.

(** For the five account types of fixed size, every encoding has exactly the number of
    bytes the generated size function returns. *)
Theorem account_sizes `{KitSpec} :
  (forall v bs, ConfigAccount.Config_ok v -> ConfigAccount.getConfigEncoder v = Ok bs ->
     Z.of_nat (length bs) = ConfigAccount.getConfigSize)
  /\ (forall v bs, ListingAccount.Listing_ok v -> ListingAccount.getListingEncoder v = Ok bs ->
     Z.of_nat (length bs) = ListingAccount.getListingSize)
  /\ (forall v bs, OfferAccount.Offer_ok v -> OfferAccount.getOfferEncoder v = Ok bs ->
     Z.of_nat (length bs) = OfferAccount.getOfferSize)
  /\ (forall v bs, StakeAccountAccount.StakeAccount_ok v ->
     StakeAccountAccount.getStakeAccountEncoder v = Ok bs ->
     Z.of_nat (length bs) = StakeAccountAccount.getStakeAccountSize)
  /\ (forall v bs, StakePoolAccount.StakePool_ok v ->
     StakePoolAccount.getStakePoolEncoder v = Ok bs ->
     Z.of_nat (length bs) = StakePoolAccount.getStakePoolSize).
Proof. repeat split; account_size. Qed.

(** ** Concrete accounts *)

Definition sample_listing : ListingAccount.ListingArgs :=
  ListingAccount.MkListingArgs (small_addr 1) (replicate 32 5) 1500000000 1760000000 254.

Lemma sample_listing_ok : ListingAccount.Listing_ok sample_listing.
Proof. vm_compute. repeat split; discriminate. Defined.

Definition sample_listing_bytes : bytes :=
  match ListingAccount.getListingEncoder sample_listing with Ok bs => bs | Err _ => [] end.

Lemma accounts_round_trip_witness :
  exists bs, ListingAccount.getListingEncoder sample_listing = Ok bs
    /\ identifySolansAccount bs = Ok SolansAccount.Listing.
Proof.
  destruct (accounts_round_trip SolansAccount.Listing sample_listing sample_listing_ok)
    as (bs & He & Hrest).
  exists bs. split; [exact He|]. destruct (Hrest []) as [Hi _]. rewrite app_nil_r in Hi. exact Hi.
Defined.

Lemma identifySolansAccount_unknown_witness :
  identifySolansAccount [1; 2; 3] = Err (failedToIdentifyAccount [1; 2; 3]).
Proof.
  apply (identifySolansAccount_unknown [1; 2; 3]). intros []; vm_compute; discriminate.
Defined.

Lemma account_sizes_witness : Z.of_nat (length sample_listing_bytes) = 89.
Proof.
  exact (proj1 (proj2 account_sizes) sample_listing sample_listing_bytes sample_listing_ok
    ltac:(vm_compute; reflexivity)).
Defined.
