(* ===== verification/Instruction.v ===== *)
(** * What the generated instruction files share

    Every parse function of src/clients/ts/src/generated/instructions declares
    the closures [getNextAccount] and [getNextOptionalAccount], which walk the
    instruction's account metas.  [ParsedInstruction] states what a parse
    function must do, as a specification [parse_spec] over a list of account
    slots; each generated parser is proved to refine it. *)
From S2P Require Import Prelude JsString Kit Pdas.

(** [instruction.accounts[accountIndex]!], then [accountIndex += 1]: the cursor
    is the rest of the list.  Past the end the source returns [undefined]; no
    parser gets there ([parse_refines] below). *)
Definition undefinedAccount : JsError := MkError (js "undefined").

Definition getNextAccount (metas : list AccountMeta)
    : result JsError (AccountMeta * list AccountMeta) :=
  match metas with
  | accountMeta :: rest => Ok (accountMeta, rest)
  | [] => Err undefinedAccount
  end.

(** An account equal to the program's address stands for an omitted one. *)
Definition getNextOptionalAccount (metas : list AccountMeta)
    : result JsError (option AccountMeta * list AccountMeta) :=
  '(accountMeta, rest) ← getNextAccount metas;
  Ok (if bool_decide (address accountMeta = SOLANS_PROGRAM_ADDRESS) then None
      else Some accountMeta, rest).

(** ** Specification *)

Inductive Slot := Required | Optional.

Definition read_slot (s : Slot) (m : AccountMeta) : option AccountMeta :=
  match s with
  | Required => Some m
  | Optional => if bool_decide (address m = SOLANS_PROGRAM_ADDRESS) then None else Some m
  end.

(** The accounts of an instruction whose accounts are [slots], in order. *)
Definition read_slots (slots : list Slot) (metas : list AccountMeta)
    : list (option AccountMeta) :=
  zip_with read_slot slots metas.

(** What parsing must give: the program, the accounts by slot, the decoded data. *)
Definition parse_spec `{Kit} {O} (slots : list Slot) (d : Decoder O) (ix : Instruction)
    : result JsError (Address * list (option AccountMeta) * O) :=
  let n := length slots in
  let m := length (accounts ix) in
  if (m <? n)%nat then Err (insufficientAccountMetas (Z.of_nat m) (Z.of_nat n))
  else v ← decode d (data ix); Ok (programAddress ix, read_slots slots (accounts ix), v).

(** A generated instruction: the codec of its data, its parse function and what
    the parsed object holds. *)
Record InstructionCodec `{Kit} := {
  data_codec :> ObjectCodec;
  slots : list Slot;
  Parsed : Type;
  parse : Instruction -> result JsError Parsed;
  parsed_program : Parsed -> Address;
  parsed_accounts : Parsed -> list (option AccountMeta);
  parsed_data : Parsed -> Obj data_codec;
  parse_refines : forall ix,
    (fun p => (parsed_program p, parsed_accounts p, parsed_data p)) <$> parse ix
    = parse_spec slots (decoder data_codec) ix;
}.

(** The refinement: enough accounts are walked one by one, too few are refused. *)
Ltac parse_refines_tac :=
  let metas := fresh "metas" in let Hlen := fresh "Hlen" in
  intros [? metas ?]; cbv beta iota delta [parse_spec programAddress accounts data];
  cbn [length];
  match goal with
  | |- _ = (if (?m <? ?n)%nat then _ else _) =>
      destruct (Nat.ltb_spec m n) as [Hlen|Hlen];
      [ repeat (destruct metas as [|? metas]; [reflexivity|]); cbn in Hlen; lia |]
  end;
  repeat (destruct metas as [|? metas]; [exfalso; cbn in Hlen; lia|]);
  clear Hlen.
