(* ===== verification/NameInstructions.v ===== *)
(** * Instructions for names: registration, renewal, records, subdomains, tokenisation

    One Module per file of src/clients/ts/src/generated/instructions: the data
    record with its encoder and decoder, the named accounts, the parsed object
    and the parse function, account by account.  Each Module ends with its
    [InstructionCodec]: the laws of the pair and the refinement of [parse_spec]. *)
From S2P Require Import Prelude JsString Kit Pdas Instruction.

(** ** instructions/registerName.ts *)

Module RegisterName.

Definition REGISTER_NAME_DISCRIMINATOR : bytes := [101; 120; 221; 151; 68; 123; 191; 103].

Record RegisterNameInstructionDataArgs := MkRegisterNameInstructionDataArgs {
  name : jsstring; tld : jsstring; nameHash : bytes; years : Z
}.
Record RegisterNameInstructionData := MkRegisterNameInstructionData { discriminator : bytes; args :> RegisterNameInstructionDataArgs }.

Definition getRegisterNameInstructionDataEncoder `{Kit} : Encoder RegisterNameInstructionDataArgs :=
  transformEncoder (ofObject (getStructEncoder (
     "discriminator" ~> fixEncoderSize getBytesEncoder 8 ;;
     "name" ~> addEncoderSizePrefix getUtf8Encoder getU32Encoder ;;
     "tld" ~> addEncoderSizePrefix getUtf8Encoder getU32Encoder ;;
     "nameHash" ~> fixEncoderSize getBytesEncoder 32 ;;
     "years" ~> getU16Encoder ;; SNil)%fields)
    (fun v : RegisterNameInstructionData => (discriminator v,
      (name v, (tld v, (nameHash v, (years v, tt)))))))
    (fun value => MkRegisterNameInstructionData REGISTER_NAME_DISCRIMINATOR value).

Definition getRegisterNameInstructionDataDecoder `{Kit} : Decoder RegisterNameInstructionData :=
  asObject (getStructDecoder (
     "discriminator" ~> fixDecoderSize getBytesDecoder 8 ;;
     "name" ~> addDecoderSizePrefix getUtf8Decoder getU32Decoder ;;
     "tld" ~> addDecoderSizePrefix getUtf8Decoder getU32Decoder ;;
     "nameHash" ~> fixDecoderSize getBytesDecoder 32 ;;
     "years" ~> getU16Decoder ;; SNil)%fields)
    (fun '(d, (x0, (x1, (x2, (x3, tt))))) =>
       MkRegisterNameInstructionData d (MkRegisterNameInstructionDataArgs x0 x1 x2 x3)).

Definition RegisterName_ok `{Kit} (v : RegisterNameInstructionDataArgs) : Prop :=
  string_ok (name v) /\ string_ok (tld v) /\ length (nameHash v) = 32%nat /\
  unsigned_ok 2 (years v).

Definition RegisterName_codec `{KitSpec} : ObjectCodec.
Proof.
  refine {| encoder := getRegisterNameInstructionDataEncoder; decoder := getRegisterNameInstructionDataDecoder;
            object := MkRegisterNameInstructionData REGISTER_NAME_DISCRIMINATOR; object_ok := RegisterName_ok; tag := REGISTER_NAME_DISCRIMINATOR |}.
  - object_codec_round_trip.
  - object_codec_tag.
Defined.

Module Accounts.
Record t := Mk {
  payer : AccountMeta; owner : AccountMeta; config : AccountMeta; nameRecord : AccountMeta;
  payerTokenAccount : AccountMeta; treasuryTokenAccount : AccountMeta;
  stakingVault : AccountMeta; burnVault : AccountMeta;
  referralTokenAccount : option AccountMeta; paymentMint : AccountMeta;
  tokenProgram : AccountMeta; systemProgram : AccountMeta
}.
End Accounts.

Record ParsedRegisterNameInstruction := MkParsedRegisterNameInstruction {
  programAddress : Address; accounts : Accounts.t; data : RegisterNameInstructionData
}.

Definition parseRegisterNameInstruction `{Kit} (instruction : Instruction)
    : result JsError ParsedRegisterNameInstruction :=
  if (length (Kit.accounts instruction) <? 12)%nat then
    Err (insufficientAccountMetas (Z.of_nat (length (Kit.accounts instruction))) 12)
  else
    '(payer, next) ← getNextAccount (Kit.accounts instruction);
    '(owner, next) ← getNextAccount next;
    '(config, next) ← getNextAccount next;
    '(nameRecord, next) ← getNextAccount next;
    '(payerTokenAccount, next) ← getNextAccount next;
    '(treasuryTokenAccount, next) ← getNextAccount next;
    '(stakingVault, next) ← getNextAccount next;
    '(burnVault, next) ← getNextAccount next;
    '(referralTokenAccount, next) ← getNextOptionalAccount next;
    '(paymentMint, next) ← getNextAccount next;
    '(tokenProgram, next) ← getNextAccount next;
    '(systemProgram, next) ← getNextAccount next;
    data ← decode getRegisterNameInstructionDataDecoder (Kit.data instruction);
    Ok (MkParsedRegisterNameInstruction (Kit.programAddress instruction)
       (Accounts.Mk payer owner config nameRecord payerTokenAccount treasuryTokenAccount stakingVault
        burnVault referralTokenAccount paymentMint tokenProgram systemProgram) data).

Definition codec `{KitSpec} : InstructionCodec.
Proof.
  refine {| data_codec := RegisterName_codec; slots := [Required; Required; Required; Required; Required; Required; Required; Required; Optional; Required; Required; Required];
            parse := parseRegisterNameInstruction; parsed_program := programAddress;
            parsed_data := data : ParsedRegisterNameInstruction -> Obj RegisterName_codec;
            parsed_accounts := fun p =>
      [Some (Accounts.payer (accounts p)); Some (Accounts.owner (accounts p));
       Some (Accounts.config (accounts p)); Some (Accounts.nameRecord (accounts p));
       Some (Accounts.payerTokenAccount (accounts p));
       Some (Accounts.treasuryTokenAccount (accounts p));
       Some (Accounts.stakingVault (accounts p)); Some (Accounts.burnVault (accounts p));
       Accounts.referralTokenAccount (accounts p); Some (Accounts.paymentMint (accounts p));
       Some (Accounts.tokenProgram (accounts p)); Some (Accounts.systemProgram (accounts p))] |}.
  parse_refines_tac. unfold parseRegisterNameInstruction. by destruct (decode _ _).
Defined.

End RegisterName.

(** ** instructions/renewName.ts *)

Module RenewName.

Definition RENEW_NAME_DISCRIMINATOR : bytes := [236; 176; 53; 141; 135; 23; 77; 87].

Record RenewNameInstructionDataArgs := MkRenewNameInstructionDataArgs {
  name : jsstring; tld : jsstring; years : Z
}.
Record RenewNameInstructionData := MkRenewNameInstructionData { discriminator : bytes; args :> RenewNameInstructionDataArgs }.

Definition getRenewNameInstructionDataEncoder `{Kit} : Encoder RenewNameInstructionDataArgs :=
  transformEncoder (ofObject (getStructEncoder (
     "discriminator" ~> fixEncoderSize getBytesEncoder 8 ;;
     "name" ~> addEncoderSizePrefix getUtf8Encoder getU32Encoder ;;
     "tld" ~> addEncoderSizePrefix getUtf8Encoder getU32Encoder ;;
     "years" ~> getU16Encoder ;; SNil)%fields)
    (fun v : RenewNameInstructionData => (discriminator v,
      (name v, (tld v, (years v, tt))))))
    (fun value => MkRenewNameInstructionData RENEW_NAME_DISCRIMINATOR value).

Definition getRenewNameInstructionDataDecoder `{Kit} : Decoder RenewNameInstructionData :=
  asObject (getStructDecoder (
     "discriminator" ~> fixDecoderSize getBytesDecoder 8 ;;
     "name" ~> addDecoderSizePrefix getUtf8Decoder getU32Decoder ;;
     "tld" ~> addDecoderSizePrefix getUtf8Decoder getU32Decoder ;;
     "years" ~> getU16Decoder ;; SNil)%fields)
    (fun '(d, (x0, (x1, (x2, tt)))) =>
       MkRenewNameInstructionData d (MkRenewNameInstructionDataArgs x0 x1 x2)).

Definition RenewName_ok `{Kit} (v : RenewNameInstructionDataArgs) : Prop :=
  string_ok (name v) /\ string_ok (tld v) /\ unsigned_ok 2 (years v).

Definition RenewName_codec `{KitSpec} : ObjectCodec.
Proof.
  refine {| encoder := getRenewNameInstructionDataEncoder; decoder := getRenewNameInstructionDataDecoder;
            object := MkRenewNameInstructionData RENEW_NAME_DISCRIMINATOR; object_ok := RenewName_ok; tag := RENEW_NAME_DISCRIMINATOR |}.
  - object_codec_round_trip.
  - object_codec_tag.
Defined.

Module Accounts.
Record t := Mk {
  payer : AccountMeta; config : AccountMeta; nameRecord : AccountMeta;
  payerTokenAccount : AccountMeta; treasuryTokenAccount : AccountMeta;
  stakingVault : AccountMeta; burnVault : AccountMeta;
  referralTokenAccount : option AccountMeta; paymentMint : AccountMeta;
  tokenProgram : AccountMeta
}.
End Accounts.

Record ParsedRenewNameInstruction := MkParsedRenewNameInstruction {
  programAddress : Address; accounts : Accounts.t; data : RenewNameInstructionData
}.

Definition parseRenewNameInstruction `{Kit} (instruction : Instruction)
    : result JsError ParsedRenewNameInstruction :=
  if (length (Kit.accounts instruction) <? 10)%nat then
    Err (insufficientAccountMetas (Z.of_nat (length (Kit.accounts instruction))) 10)
  else
    '(payer, next) ← getNextAccount (Kit.accounts instruction);
    '(config, next) ← getNextAccount next;
    '(nameRecord, next) ← getNextAccount next;
    '(payerTokenAccount, next) ← getNextAccount next;
    '(treasuryTokenAccount, next) ← getNextAccount next;
    '(stakingVault, next) ← getNextAccount next;
    '(burnVault, next) ← getNextAccount next;
    '(referralTokenAccount, next) ← getNextOptionalAccount next;
    '(paymentMint, next) ← getNextAccount next;
    '(tokenProgram, next) ← getNextAccount next;
    data ← decode getRenewNameInstructionDataDecoder (Kit.data instruction);
    Ok (MkParsedRenewNameInstruction (Kit.programAddress instruction)
       (Accounts.Mk payer config nameRecord payerTokenAccount treasuryTokenAccount stakingVault burnVault
        referralTokenAccount paymentMint tokenProgram) data).

Definition codec `{KitSpec} : InstructionCodec.
Proof.
  refine {| data_codec := RenewName_codec; slots := [Required; Required; Required; Required; Required; Required; Required; Optional; Required; Required];
            parse := parseRenewNameInstruction; parsed_program := programAddress;
            parsed_data := data : ParsedRenewNameInstruction -> Obj RenewName_codec;
            parsed_accounts := fun p =>
      [Some (Accounts.payer (accounts p)); Some (Accounts.config (accounts p));
       Some (Accounts.nameRecord (accounts p)); Some (Accounts.payerTokenAccount (accounts p));
       Some (Accounts.treasuryTokenAccount (accounts p));
       Some (Accounts.stakingVault (accounts p)); Some (Accounts.burnVault (accounts p));
       Accounts.referralTokenAccount (accounts p); Some (Accounts.paymentMint (accounts p));
       Some (Accounts.tokenProgram (accounts p))] |}.
  parse_refines_tac. unfold parseRenewNameInstruction. by destruct (decode _ _).
Defined.

End RenewName.

(** ** instructions/autoRenew.ts *)

Module AutoRenew.

Definition AUTO_RENEW_DISCRIMINATOR : bytes := [95; 201; 47; 51; 62; 31; 63; 37].

Record AutoRenewInstructionDataArgs := MkAutoRenewInstructionDataArgs {
  name : jsstring; tld : jsstring; years : Z
}.
Record AutoRenewInstructionData := MkAutoRenewInstructionData { discriminator : bytes; args :> AutoRenewInstructionDataArgs }.

Definition getAutoRenewInstructionDataEncoder `{Kit} : Encoder AutoRenewInstructionDataArgs :=
  transformEncoder (ofObject (getStructEncoder (
     "discriminator" ~> fixEncoderSize getBytesEncoder 8 ;;
     "name" ~> addEncoderSizePrefix getUtf8Encoder getU32Encoder ;;
     "tld" ~> addEncoderSizePrefix getUtf8Encoder getU32Encoder ;;
     "years" ~> getU16Encoder ;; SNil)%fields)
    (fun v : AutoRenewInstructionData => (discriminator v,
      (name v, (tld v, (years v, tt))))))
    (fun value => MkAutoRenewInstructionData AUTO_RENEW_DISCRIMINATOR value).

Definition getAutoRenewInstructionDataDecoder `{Kit} : Decoder AutoRenewInstructionData :=
  asObject (getStructDecoder (
     "discriminator" ~> fixDecoderSize getBytesDecoder 8 ;;
     "name" ~> addDecoderSizePrefix getUtf8Decoder getU32Decoder ;;
     "tld" ~> addDecoderSizePrefix getUtf8Decoder getU32Decoder ;;
     "years" ~> getU16Decoder ;; SNil)%fields)
    (fun '(d, (x0, (x1, (x2, tt)))) =>
       MkAutoRenewInstructionData d (MkAutoRenewInstructionDataArgs x0 x1 x2)).

Definition AutoRenew_ok `{Kit} (v : AutoRenewInstructionDataArgs) : Prop :=
  string_ok (name v) /\ string_ok (tld v) /\ unsigned_ok 2 (years v).

Definition AutoRenew_codec `{KitSpec} : ObjectCodec.
Proof.
  refine {| encoder := getAutoRenewInstructionDataEncoder; decoder := getAutoRenewInstructionDataDecoder;
            object := MkAutoRenewInstructionData AUTO_RENEW_DISCRIMINATOR; object_ok := AutoRenew_ok; tag := AUTO_RENEW_DISCRIMINATOR |}.
  - object_codec_round_trip.
  - object_codec_tag.
Defined.

Module Accounts.
Record t := Mk {
  keeper : AccountMeta; config : AccountMeta; nameRecord : AccountMeta;
  ownerTokenAccount : AccountMeta; treasuryTokenAccount : AccountMeta;
  stakingVault : AccountMeta; burnVault : AccountMeta; paymentMint : AccountMeta;
  tokenProgram : AccountMeta
}.
End Accounts.

Record ParsedAutoRenewInstruction := MkParsedAutoRenewInstruction {
  programAddress : Address; accounts : Accounts.t; data : AutoRenewInstructionData
}.

Definition parseAutoRenewInstruction `{Kit} (instruction : Instruction)
    : result JsError ParsedAutoRenewInstruction :=
  if (length (Kit.accounts instruction) <? 9)%nat then
    Err (insufficientAccountMetas (Z.of_nat (length (Kit.accounts instruction))) 9)
  else
    '(keeper, next) ← getNextAccount (Kit.accounts instruction);
    '(config, next) ← getNextAccount next;
    '(nameRecord, next) ← getNextAccount next;
    '(ownerTokenAccount, next) ← getNextAccount next;
    '(treasuryTokenAccount, next) ← getNextAccount next;
    '(stakingVault, next) ← getNextAccount next;
    '(burnVault, next) ← getNextAccount next;
    '(paymentMint, next) ← getNextAccount next;
    '(tokenProgram, next) ← getNextAccount next;
    data ← decode getAutoRenewInstructionDataDecoder (Kit.data instruction);
    Ok (MkParsedAutoRenewInstruction (Kit.programAddress instruction)
       (Accounts.Mk keeper config nameRecord ownerTokenAccount treasuryTokenAccount stakingVault burnVault
        paymentMint tokenProgram) data).

Definition codec `{KitSpec} : InstructionCodec.
Proof.
  refine {| data_codec := AutoRenew_codec; slots := [Required; Required; Required; Required; Required; Required; Required; Required; Required];
            parse := parseAutoRenewInstruction; parsed_program := programAddress;
            parsed_data := data : ParsedAutoRenewInstruction -> Obj AutoRenew_codec;
            parsed_accounts := fun p =>
      [Some (Accounts.keeper (accounts p)); Some (Accounts.config (accounts p));
       Some (Accounts.nameRecord (accounts p)); Some (Accounts.ownerTokenAccount (accounts p));
       Some (Accounts.treasuryTokenAccount (accounts p));
       Some (Accounts.stakingVault (accounts p)); Some (Accounts.burnVault (accounts p));
       Some (Accounts.paymentMint (accounts p)); Some (Accounts.tokenProgram (accounts p))] |}.
  parse_refines_tac. unfold parseAutoRenewInstruction. by destruct (decode _ _).
Defined.

End AutoRenew.

(** ** instructions/claimExpired.ts *)

Module ClaimExpired.

Definition CLAIM_EXPIRED_DISCRIMINATOR : bytes := [124; 78; 197; 187; 210; 66; 255; 1].

Record ClaimExpiredInstructionDataArgs := MkClaimExpiredInstructionDataArgs {
  name : jsstring; tld : jsstring; years : Z
}.
Record ClaimExpiredInstructionData := MkClaimExpiredInstructionData { discriminator : bytes; args :> ClaimExpiredInstructionDataArgs }.

Definition getClaimExpiredInstructionDataEncoder `{Kit} : Encoder ClaimExpiredInstructionDataArgs :=
  transformEncoder (ofObject (getStructEncoder (
     "discriminator" ~> fixEncoderSize getBytesEncoder 8 ;;
     "name" ~> addEncoderSizePrefix getUtf8Encoder getU32Encoder ;;
     "tld" ~> addEncoderSizePrefix getUtf8Encoder getU32Encoder ;;
     "years" ~> getU16Encoder ;; SNil)%fields)
    (fun v : ClaimExpiredInstructionData => (discriminator v,
      (name v, (tld v, (years v, tt))))))
    (fun value => MkClaimExpiredInstructionData CLAIM_EXPIRED_DISCRIMINATOR value).

Definition getClaimExpiredInstructionDataDecoder `{Kit} : Decoder ClaimExpiredInstructionData :=
  asObject (getStructDecoder (
     "discriminator" ~> fixDecoderSize getBytesDecoder 8 ;;
     "name" ~> addDecoderSizePrefix getUtf8Decoder getU32Decoder ;;
     "tld" ~> addDecoderSizePrefix getUtf8Decoder getU32Decoder ;;
     "years" ~> getU16Decoder ;; SNil)%fields)
    (fun '(d, (x0, (x1, (x2, tt)))) =>
       MkClaimExpiredInstructionData d (MkClaimExpiredInstructionDataArgs x0 x1 x2)).

Definition ClaimExpired_ok `{Kit} (v : ClaimExpiredInstructionDataArgs) : Prop :=
  string_ok (name v) /\ string_ok (tld v) /\ unsigned_ok 2 (years v).

Definition ClaimExpired_codec `{KitSpec} : ObjectCodec.
Proof.
  refine {| encoder := getClaimExpiredInstructionDataEncoder; decoder := getClaimExpiredInstructionDataDecoder;
            object := MkClaimExpiredInstructionData CLAIM_EXPIRED_DISCRIMINATOR; object_ok := ClaimExpired_ok; tag := CLAIM_EXPIRED_DISCRIMINATOR |}.
  - object_codec_round_trip.
  - object_codec_tag.
Defined.

Module Accounts.
Record t := Mk {
  claimer : AccountMeta; config : AccountMeta; nameRecord : AccountMeta;
  payerTokenAccount : AccountMeta; treasuryTokenAccount : AccountMeta;
  stakingVault : AccountMeta; burnVault : AccountMeta;
  referralTokenAccount : option AccountMeta; paymentMint : AccountMeta;
  tokenProgram : AccountMeta
}.
End Accounts.

Record ParsedClaimExpiredInstruction := MkParsedClaimExpiredInstruction {
  programAddress : Address; accounts : Accounts.t; data : ClaimExpiredInstructionData
}.

Definition parseClaimExpiredInstruction `{Kit} (instruction : Instruction)
    : result JsError ParsedClaimExpiredInstruction :=
  if (length (Kit.accounts instruction) <? 10)%nat then
    Err (insufficientAccountMetas (Z.of_nat (length (Kit.accounts instruction))) 10)
  else
    '(claimer, next) ← getNextAccount (Kit.accounts instruction);
    '(config, next) ← getNextAccount next;
    '(nameRecord, next) ← getNextAccount next;
    '(payerTokenAccount, next) ← getNextAccount next;
    '(treasuryTokenAccount, next) ← getNextAccount next;
    '(stakingVault, next) ← getNextAccount next;
    '(burnVault, next) ← getNextAccount next;
    '(referralTokenAccount, next) ← getNextOptionalAccount next;
    '(paymentMint, next) ← getNextAccount next;
    '(tokenProgram, next) ← getNextAccount next;
    data ← decode getClaimExpiredInstructionDataDecoder (Kit.data instruction);
    Ok (MkParsedClaimExpiredInstruction (Kit.programAddress instruction)
       (Accounts.Mk claimer config nameRecord payerTokenAccount treasuryTokenAccount stakingVault burnVault
        referralTokenAccount paymentMint tokenProgram) data).

Definition codec `{KitSpec} : InstructionCodec.
Proof.
  refine {| data_codec := ClaimExpired_codec; slots := [Required; Required; Required; Required; Required; Required; Required; Optional; Required; Required];
            parse := parseClaimExpiredInstruction; parsed_program := programAddress;
            parsed_data := data : ParsedClaimExpiredInstruction -> Obj ClaimExpired_codec;
            parsed_accounts := fun p =>
      [Some (Accounts.claimer (accounts p)); Some (Accounts.config (accounts p));
       Some (Accounts.nameRecord (accounts p)); Some (Accounts.payerTokenAccount (accounts p));
       Some (Accounts.treasuryTokenAccount (accounts p));
       Some (Accounts.stakingVault (accounts p)); Some (Accounts.burnVault (accounts p));
       Accounts.referralTokenAccount (accounts p); Some (Accounts.paymentMint (accounts p));
       Some (Accounts.tokenProgram (accounts p))] |}.
  parse_refines_tac. unfold parseClaimExpiredInstruction. by destruct (decode _ _).
Defined.

End ClaimExpired.

(** ** instructions/transferName.ts *)

Module TransferName.

Definition TRANSFER_NAME_DISCRIMINATOR : bytes := [32; 215; 182; 130; 12; 106; 157; 75].

Record TransferNameInstructionDataArgs := MkTransferNameInstructionDataArgs {
  newOwner : Address
}.
Record TransferNameInstructionData := MkTransferNameInstructionData { discriminator : bytes; args :> TransferNameInstructionDataArgs }.

Definition getTransferNameInstructionDataEncoder `{Kit} : Encoder TransferNameInstructionDataArgs :=
  transformEncoder (ofObject (getStructEncoder (
     "discriminator" ~> fixEncoderSize getBytesEncoder 8 ;;
     "newOwner" ~> getAddressEncoder ;; SNil)%fields)
    (fun v : TransferNameInstructionData => (discriminator v,
      (newOwner v, tt))))
    (fun value => MkTransferNameInstructionData TRANSFER_NAME_DISCRIMINATOR value).

Definition getTransferNameInstructionDataDecoder `{Kit} : Decoder TransferNameInstructionData :=
  asObject (getStructDecoder (
     "discriminator" ~> fixDecoderSize getBytesDecoder 8 ;;
     "newOwner" ~> getAddressDecoder ;; SNil)%fields)
    (fun '(d, (x0, tt)) =>
       MkTransferNameInstructionData d (MkTransferNameInstructionDataArgs x0)).

Definition TransferName_ok `{Kit} (v : TransferNameInstructionDataArgs) : Prop :=
  address_ok (newOwner v).

Definition TransferName_codec `{KitSpec} : ObjectCodec.
Proof.
  refine {| encoder := getTransferNameInstructionDataEncoder; decoder := getTransferNameInstructionDataDecoder;
            object := MkTransferNameInstructionData TRANSFER_NAME_DISCRIMINATOR; object_ok := TransferName_ok; tag := TRANSFER_NAME_DISCRIMINATOR |}.
  - object_codec_round_trip.
  - object_codec_tag.
Defined.

Module Accounts.
Record t := Mk {
  owner : AccountMeta; nameRecord : AccountMeta
}.
End Accounts.

Record ParsedTransferNameInstruction := MkParsedTransferNameInstruction {
  programAddress : Address; accounts : Accounts.t; data : TransferNameInstructionData
}.

Definition parseTransferNameInstruction `{Kit} (instruction : Instruction)
    : result JsError ParsedTransferNameInstruction :=
  if (length (Kit.accounts instruction) <? 2)%nat then
    Err (insufficientAccountMetas (Z.of_nat (length (Kit.accounts instruction))) 2)
  else
    '(owner, next) ← getNextAccount (Kit.accounts instruction);
    '(nameRecord, next) ← getNextAccount next;
    data ← decode getTransferNameInstructionDataDecoder (Kit.data instruction);
    Ok (MkParsedTransferNameInstruction (Kit.programAddress instruction)
       (Accounts.Mk owner nameRecord) data).

Definition codec `{KitSpec} : InstructionCodec.
Proof.
  refine {| data_codec := TransferName_codec; slots := [Required; Required];
            parse := parseTransferNameInstruction; parsed_program := programAddress;
            parsed_data := data : ParsedTransferNameInstruction -> Obj TransferName_codec;
            parsed_accounts := fun p =>
      [Some (Accounts.owner (accounts p)); Some (Accounts.nameRecord (accounts p))] |}.
  parse_refines_tac. unfold parseTransferNameInstruction. by destruct (decode _ _).
Defined.

End TransferName.

(** ** instructions/lockTransfer.ts *)

Module LockTransfer.

Definition LOCK_TRANSFER_DISCRIMINATOR : bytes := [141; 30; 149; 158; 41; 243; 55; 225].

Record LockTransferInstructionDataArgs := MkLockTransferInstructionDataArgs {
  lock : bool
}.
Record LockTransferInstructionData := MkLockTransferInstructionData { discriminator : bytes; args :> LockTransferInstructionDataArgs }.

Definition getLockTransferInstructionDataEncoder `{Kit} : Encoder LockTransferInstructionDataArgs :=
  transformEncoder (ofObject (getStructEncoder (
     "discriminator" ~> fixEncoderSize getBytesEncoder 8 ;;
     "lock" ~> getBooleanEncoder ;; SNil)%fields)
    (fun v : LockTransferInstructionData => (discriminator v,
      (lock v, tt))))
    (fun value => MkLockTransferInstructionData LOCK_TRANSFER_DISCRIMINATOR value).

Definition getLockTransferInstructionDataDecoder `{Kit} : Decoder LockTransferInstructionData :=
  asObject (getStructDecoder (
     "discriminator" ~> fixDecoderSize getBytesDecoder 8 ;;
     "lock" ~> getBooleanDecoder ;; SNil)%fields)
    (fun '(d, (x0, tt)) =>
       MkLockTransferInstructionData d (MkLockTransferInstructionDataArgs x0)).

Definition LockTransfer_ok `{Kit} (v : LockTransferInstructionDataArgs) : Prop :=
  True.

Definition LockTransfer_codec `{KitSpec} : ObjectCodec.
Proof.
  refine {| encoder := getLockTransferInstructionDataEncoder; decoder := getLockTransferInstructionDataDecoder;
            object := MkLockTransferInstructionData LOCK_TRANSFER_DISCRIMINATOR; object_ok := LockTransfer_ok; tag := LOCK_TRANSFER_DISCRIMINATOR |}.
  - object_codec_round_trip.
  - object_codec_tag.
Defined.

Module Accounts.
Record t := Mk {
  owner : AccountMeta; nameRecord : AccountMeta
}.
End Accounts.

Record ParsedLockTransferInstruction := MkParsedLockTransferInstruction {
  programAddress : Address; accounts : Accounts.t; data : LockTransferInstructionData
}.

Definition parseLockTransferInstruction `{Kit} (instruction : Instruction)
    : result JsError ParsedLockTransferInstruction :=
  if (length (Kit.accounts instruction) <? 2)%nat then
    Err (insufficientAccountMetas (Z.of_nat (length (Kit.accounts instruction))) 2)
  else
    '(owner, next) ← getNextAccount (Kit.accounts instruction);
    '(nameRecord, next) ← getNextAccount next;
    data ← decode getLockTransferInstructionDataDecoder (Kit.data instruction);
    Ok (MkParsedLockTransferInstruction (Kit.programAddress instruction)
       (Accounts.Mk owner nameRecord) data).

Definition codec `{KitSpec} : InstructionCodec.
Proof.
  refine {| data_codec := LockTransfer_codec; slots := [Required; Required];
            parse := parseLockTransferInstruction; parsed_program := programAddress;
            parsed_data := data : ParsedLockTransferInstruction -> Obj LockTransfer_codec;
            parsed_accounts := fun p =>
      [Some (Accounts.owner (accounts p)); Some (Accounts.nameRecord (accounts p))] |}.
  parse_refines_tac. unfold parseLockTransferInstruction. by destruct (decode _ _).
Defined.

End LockTransfer.

(** ** instructions/burnName.ts *)

Module BurnName.

Definition BURN_NAME_DISCRIMINATOR : bytes := [105; 235; 154; 87; 48; 149; 178; 40].

Record BurnNameInstructionDataArgs := MkBurnNameInstructionDataArgs { }.
Record BurnNameInstructionData := MkBurnNameInstructionData { discriminator : bytes; args :> BurnNameInstructionDataArgs }.

Definition getBurnNameInstructionDataEncoder `{Kit} : Encoder BurnNameInstructionDataArgs :=
  transformEncoder (ofObject (getStructEncoder (
     "discriminator" ~> fixEncoderSize getBytesEncoder 8 ;; SNil)%fields)
    (fun v : BurnNameInstructionData => (discriminator v, tt)))
    (fun value => MkBurnNameInstructionData BURN_NAME_DISCRIMINATOR value).

Definition getBurnNameInstructionDataDecoder `{Kit} : Decoder BurnNameInstructionData :=
  asObject (getStructDecoder (
     "discriminator" ~> fixDecoderSize getBytesDecoder 8 ;; SNil)%fields)
    (fun '(d, tt) =>
       MkBurnNameInstructionData d (MkBurnNameInstructionDataArgs)).

Definition BurnName_ok `{Kit} (v : BurnNameInstructionDataArgs) : Prop :=
  True.

Definition BurnName_codec `{KitSpec} : ObjectCodec.
Proof.
  refine {| encoder := getBurnNameInstructionDataEncoder; decoder := getBurnNameInstructionDataDecoder;
            object := MkBurnNameInstructionData BURN_NAME_DISCRIMINATOR; object_ok := BurnName_ok; tag := BURN_NAME_DISCRIMINATOR |}.
  - object_codec_round_trip.
  - object_codec_tag.
Defined.

Module Accounts.
Record t := Mk {
  owner : AccountMeta; nameRecord : AccountMeta
}.
End Accounts.

Record ParsedBurnNameInstruction := MkParsedBurnNameInstruction {
  programAddress : Address; accounts : Accounts.t; data : BurnNameInstructionData
}.

Definition parseBurnNameInstruction `{Kit} (instruction : Instruction)
    : result JsError ParsedBurnNameInstruction :=
  if (length (Kit.accounts instruction) <? 2)%nat then
    Err (insufficientAccountMetas (Z.of_nat (length (Kit.accounts instruction))) 2)
  else
    '(owner, next) ← getNextAccount (Kit.accounts instruction);
    '(nameRecord, next) ← getNextAccount next;
    data ← decode getBurnNameInstructionDataDecoder (Kit.data instruction);
    Ok (MkParsedBurnNameInstruction (Kit.programAddress instruction)
       (Accounts.Mk owner nameRecord) data).

Definition codec `{KitSpec} : InstructionCodec.
Proof.
  refine {| data_codec := BurnName_codec; slots := [Required; Required];
            parse := parseBurnNameInstruction; parsed_program := programAddress;
            parsed_data := data : ParsedBurnNameInstruction -> Obj BurnName_codec;
            parsed_accounts := fun p =>
      [Some (Accounts.owner (accounts p)); Some (Accounts.nameRecord (accounts p))] |}.
  parse_refines_tac. unfold parseBurnNameInstruction. by destruct (decode _ _).
Defined.

End BurnName.

(** ** instructions/updateRecord.ts *)

Module UpdateRecord.

Definition UPDATE_RECORD_DISCRIMINATOR : bytes := [54; 194; 108; 162; 199; 12; 5; 60].

Record UpdateRecordInstructionDataArgs := MkUpdateRecordInstructionDataArgs {
  key : jsstring; value : option jsstring
}.
Record UpdateRecordInstructionData := MkUpdateRecordInstructionData { discriminator : bytes; args :> UpdateRecordInstructionDataArgs }.

Definition getUpdateRecordInstructionDataEncoder `{Kit} : Encoder UpdateRecordInstructionDataArgs :=
  transformEncoder (ofObject (getStructEncoder (
     "discriminator" ~> fixEncoderSize getBytesEncoder 8 ;;
     "key" ~> addEncoderSizePrefix getUtf8Encoder getU32Encoder ;;
     "value" ~> getOptionEncoder (addEncoderSizePrefix getUtf8Encoder getU32Encoder) ;; SNil)%fields)
    (fun v : UpdateRecordInstructionData => (discriminator v,
      (key v, (value v, tt)))))
    (fun value => MkUpdateRecordInstructionData UPDATE_RECORD_DISCRIMINATOR value).

Definition getUpdateRecordInstructionDataDecoder `{Kit} : Decoder UpdateRecordInstructionData :=
  asObject (getStructDecoder (
     "discriminator" ~> fixDecoderSize getBytesDecoder 8 ;;
     "key" ~> addDecoderSizePrefix getUtf8Decoder getU32Decoder ;;
     "value" ~> getOptionDecoder (addDecoderSizePrefix getUtf8Decoder getU32Decoder) ;; SNil)%fields)
    (fun '(d, (x0, (x1, tt))) =>
       MkUpdateRecordInstructionData d (MkUpdateRecordInstructionDataArgs x0 x1)).

Definition UpdateRecord_ok `{Kit} (v : UpdateRecordInstructionDataArgs) : Prop :=
  string_ok (key v) /\ option_ok string_ok (value v).

Definition UpdateRecord_codec `{KitSpec} : ObjectCodec.
Proof.
  refine {| encoder := getUpdateRecordInstructionDataEncoder; decoder := getUpdateRecordInstructionDataDecoder;
            object := MkUpdateRecordInstructionData UPDATE_RECORD_DISCRIMINATOR; object_ok := UpdateRecord_ok; tag := UPDATE_RECORD_DISCRIMINATOR |}.
  - object_codec_round_trip.
  - object_codec_tag.
Defined.

Module Accounts.
Record t := Mk {
  authority : AccountMeta; nameRecord : AccountMeta; nftTokenAccount : option AccountMeta
}.
End Accounts.

Record ParsedUpdateRecordInstruction := MkParsedUpdateRecordInstruction {
  programAddress : Address; accounts : Accounts.t; data : UpdateRecordInstructionData
}.

Definition parseUpdateRecordInstruction `{Kit} (instruction : Instruction)
    : result JsError ParsedUpdateRecordInstruction :=
  if (length (Kit.accounts instruction) <? 3)%nat then
    Err (insufficientAccountMetas (Z.of_nat (length (Kit.accounts instruction))) 3)
  else
    '(authority, next) ← getNextAccount (Kit.accounts instruction);
    '(nameRecord, next) ← getNextAccount next;
    '(nftTokenAccount, next) ← getNextOptionalAccount next;
    data ← decode getUpdateRecordInstructionDataDecoder (Kit.data instruction);
    Ok (MkParsedUpdateRecordInstruction (Kit.programAddress instruction)
       (Accounts.Mk authority nameRecord nftTokenAccount) data).

Definition codec `{KitSpec} : InstructionCodec.
Proof.
  refine {| data_codec := UpdateRecord_codec; slots := [Required; Required; Optional];
            parse := parseUpdateRecordInstruction; parsed_program := programAddress;
            parsed_data := data : ParsedUpdateRecordInstruction -> Obj UpdateRecord_codec;
            parsed_accounts := fun p =>
      [Some (Accounts.authority (accounts p)); Some (Accounts.nameRecord (accounts p));
       Accounts.nftTokenAccount (accounts p)] |}.
  parse_refines_tac. unfold parseUpdateRecordInstruction. by destruct (decode _ _).
Defined.

End UpdateRecord.

(** ** instructions/setController.ts *)

Module SetController.

Definition SET_CONTROLLER_DISCRIMINATOR : bytes := [137; 23; 18; 149; 54; 29; 195; 165].

Record SetControllerInstructionDataArgs := MkSetControllerInstructionDataArgs {
  controller : option Address
}.
Record SetControllerInstructionData := MkSetControllerInstructionData { discriminator : bytes; args :> SetControllerInstructionDataArgs }.

Definition getSetControllerInstructionDataEncoder `{Kit} : Encoder SetControllerInstructionDataArgs :=
  transformEncoder (ofObject (getStructEncoder (
     "discriminator" ~> fixEncoderSize getBytesEncoder 8 ;;
     "controller" ~> getOptionEncoder getAddressEncoder ;; SNil)%fields)
    (fun v : SetControllerInstructionData => (discriminator v,
      (controller v, tt))))
    (fun value => MkSetControllerInstructionData SET_CONTROLLER_DISCRIMINATOR value).

Definition getSetControllerInstructionDataDecoder `{Kit} : Decoder SetControllerInstructionData :=
  asObject (getStructDecoder (
     "discriminator" ~> fixDecoderSize getBytesDecoder 8 ;;
     "controller" ~> getOptionDecoder getAddressDecoder ;; SNil)%fields)
    (fun '(d, (x0, tt)) =>
       MkSetControllerInstructionData d (MkSetControllerInstructionDataArgs x0)).

Definition SetController_ok `{Kit} (v : SetControllerInstructionDataArgs) : Prop :=
  option_ok address_ok (controller v).

Definition SetController_codec `{KitSpec} : ObjectCodec.
Proof.
  refine {| encoder := getSetControllerInstructionDataEncoder; decoder := getSetControllerInstructionDataDecoder;
            object := MkSetControllerInstructionData SET_CONTROLLER_DISCRIMINATOR; object_ok := SetController_ok; tag := SET_CONTROLLER_DISCRIMINATOR |}.
  - object_codec_round_trip.
  - object_codec_tag.
Defined.

Module Accounts.
Record t := Mk {
  owner : AccountMeta; nameRecord : AccountMeta
}.
End Accounts.

Record ParsedSetControllerInstruction := MkParsedSetControllerInstruction {
  programAddress : Address; accounts : Accounts.t; data : SetControllerInstructionData
}.

Definition parseSetControllerInstruction `{Kit} (instruction : Instruction)
    : result JsError ParsedSetControllerInstruction :=
  if (length (Kit.accounts instruction) <? 2)%nat then
    Err (insufficientAccountMetas (Z.of_nat (length (Kit.accounts instruction))) 2)
  else
    '(owner, next) ← getNextAccount (Kit.accounts instruction);
    '(nameRecord, next) ← getNextAccount next;
    data ← decode getSetControllerInstructionDataDecoder (Kit.data instruction);
    Ok (MkParsedSetControllerInstruction (Kit.programAddress instruction)
       (Accounts.Mk owner nameRecord) data).

Definition codec `{KitSpec} : InstructionCodec.
Proof.
  refine {| data_codec := SetController_codec; slots := [Required; Required];
            parse := parseSetControllerInstruction; parsed_program := programAddress;
            parsed_data := data : ParsedSetControllerInstruction -> Obj SetController_codec;
            parsed_accounts := fun p =>
      [Some (Accounts.owner (accounts p)); Some (Accounts.nameRecord (accounts p))] |}.
  parse_refines_tac. unfold parseSetControllerInstruction. by destruct (decode _ _).
Defined.

End SetController.

(** ** instructions/setResolver.ts *)

Module SetResolver.

Definition SET_RESOLVER_DISCRIMINATOR : bytes := [137; 108; 27; 51; 202; 16; 33; 119].

Record SetResolverInstructionDataArgs := MkSetResolverInstructionDataArgs {
  resolver : option Address
}.
Record SetResolverInstructionData := MkSetResolverInstructionData { discriminator : bytes; args :> SetResolverInstructionDataArgs }.

Definition getSetResolverInstructionDataEncoder `{Kit} : Encoder SetResolverInstructionDataArgs :=
  transformEncoder (ofObject (getStructEncoder (
     "discriminator" ~> fixEncoderSize getBytesEncoder 8 ;;
     "resolver" ~> getOptionEncoder getAddressEncoder ;; SNil)%fields)
    (fun v : SetResolverInstructionData => (discriminator v,
      (resolver v, tt))))
    (fun value => MkSetResolverInstructionData SET_RESOLVER_DISCRIMINATOR value).

Definition getSetResolverInstructionDataDecoder `{Kit} : Decoder SetResolverInstructionData :=
  asObject (getStructDecoder (
     "discriminator" ~> fixDecoderSize getBytesDecoder 8 ;;
     "resolver" ~> getOptionDecoder getAddressDecoder ;; SNil)%fields)
    (fun '(d, (x0, tt)) =>
       MkSetResolverInstructionData d (MkSetResolverInstructionDataArgs x0)).

Definition SetResolver_ok `{Kit} (v : SetResolverInstructionDataArgs) : Prop :=
  option_ok address_ok (resolver v).

Definition SetResolver_codec `{KitSpec} : ObjectCodec.
Proof.
  refine {| encoder := getSetResolverInstructionDataEncoder; decoder := getSetResolverInstructionDataDecoder;
            object := MkSetResolverInstructionData SET_RESOLVER_DISCRIMINATOR; object_ok := SetResolver_ok; tag := SET_RESOLVER_DISCRIMINATOR |}.
  - object_codec_round_trip.
  - object_codec_tag.
Defined.

Module Accounts.
Record t := Mk {
  authority : AccountMeta; nameRecord : AccountMeta; nftTokenAccount : option AccountMeta
}.
End Accounts.

Record ParsedSetResolverInstruction := MkParsedSetResolverInstruction {
  programAddress : Address; accounts : Accounts.t; data : SetResolverInstructionData
}.

Definition parseSetResolverInstruction `{Kit} (instruction : Instruction)
    : result JsError ParsedSetResolverInstruction :=
  if (length (Kit.accounts instruction) <? 3)%nat then
    Err (insufficientAccountMetas (Z.of_nat (length (Kit.accounts instruction))) 3)
  else
    '(authority, next) ← getNextAccount (Kit.accounts instruction);
    '(nameRecord, next) ← getNextAccount next;
    '(nftTokenAccount, next) ← getNextOptionalAccount next;
    data ← decode getSetResolverInstructionDataDecoder (Kit.data instruction);
    Ok (MkParsedSetResolverInstruction (Kit.programAddress instruction)
       (Accounts.Mk authority nameRecord nftTokenAccount) data).

Definition codec `{KitSpec} : InstructionCodec.
Proof.
  refine {| data_codec := SetResolver_codec; slots := [Required; Required; Optional];
            parse := parseSetResolverInstruction; parsed_program := programAddress;
            parsed_data := data : ParsedSetResolverInstruction -> Obj SetResolver_codec;
            parsed_accounts := fun p =>
      [Some (Accounts.authority (accounts p)); Some (Accounts.nameRecord (accounts p));
       Accounts.nftTokenAccount (accounts p)] |}.
  parse_refines_tac. unfold parseSetResolverInstruction. by destruct (decode _ _).
Defined.

End SetResolver.

(** ** instructions/setHosting.ts *)

Module SetHosting.

Definition SET_HOSTING_DISCRIMINATOR : bytes := [213; 38; 154; 154; 19; 200; 116; 114].

Record SetHostingInstructionDataArgs := MkSetHostingInstructionDataArgs {
  hostingRef : option jsstring
}.
Record SetHostingInstructionData := MkSetHostingInstructionData { discriminator : bytes; args :> SetHostingInstructionDataArgs }.

Definition getSetHostingInstructionDataEncoder `{Kit} : Encoder SetHostingInstructionDataArgs :=
  transformEncoder (ofObject (getStructEncoder (
     "discriminator" ~> fixEncoderSize getBytesEncoder 8 ;;
     "hostingRef" ~> getOptionEncoder (addEncoderSizePrefix getUtf8Encoder getU32Encoder) ;; SNil)%fields)
    (fun v : SetHostingInstructionData => (discriminator v,
      (hostingRef v, tt))))
    (fun value => MkSetHostingInstructionData SET_HOSTING_DISCRIMINATOR value).

Definition getSetHostingInstructionDataDecoder `{Kit} : Decoder SetHostingInstructionData :=
  asObject (getStructDecoder (
     "discriminator" ~> fixDecoderSize getBytesDecoder 8 ;;
     "hostingRef" ~> getOptionDecoder (addDecoderSizePrefix getUtf8Decoder getU32Decoder) ;; SNil)%fields)
    (fun '(d, (x0, tt)) =>
       MkSetHostingInstructionData d (MkSetHostingInstructionDataArgs x0)).

Definition SetHosting_ok `{Kit} (v : SetHostingInstructionDataArgs) : Prop :=
  option_ok string_ok (hostingRef v).

Definition SetHosting_codec `{KitSpec} : ObjectCodec.
Proof.
  refine {| encoder := getSetHostingInstructionDataEncoder; decoder := getSetHostingInstructionDataDecoder;
            object := MkSetHostingInstructionData SET_HOSTING_DISCRIMINATOR; object_ok := SetHosting_ok; tag := SET_HOSTING_DISCRIMINATOR |}.
  - object_codec_round_trip.
  - object_codec_tag.
Defined.

Module Accounts.
Record t := Mk {
  authority : AccountMeta; nameRecord : AccountMeta; nftTokenAccount : option AccountMeta
}.
End Accounts.

Record ParsedSetHostingInstruction := MkParsedSetHostingInstruction {
  programAddress : Address; accounts : Accounts.t; data : SetHostingInstructionData
}.

Definition parseSetHostingInstruction `{Kit} (instruction : Instruction)
    : result JsError ParsedSetHostingInstruction :=
  if (length (Kit.accounts instruction) <? 3)%nat then
    Err (insufficientAccountMetas (Z.of_nat (length (Kit.accounts instruction))) 3)
  else
    '(authority, next) ← getNextAccount (Kit.accounts instruction);
    '(nameRecord, next) ← getNextAccount next;
    '(nftTokenAccount, next) ← getNextOptionalAccount next;
    data ← decode getSetHostingInstructionDataDecoder (Kit.data instruction);
    Ok (MkParsedSetHostingInstruction (Kit.programAddress instruction)
       (Accounts.Mk authority nameRecord nftTokenAccount) data).

Definition codec `{KitSpec} : InstructionCodec.
Proof.
  refine {| data_codec := SetHosting_codec; slots := [Required; Required; Optional];
            parse := parseSetHostingInstruction; parsed_program := programAddress;
            parsed_data := data : ParsedSetHostingInstruction -> Obj SetHosting_codec;
            parsed_accounts := fun p =>
      [Some (Accounts.authority (accounts p)); Some (Accounts.nameRecord (accounts p));
       Accounts.nftTokenAccount (accounts p)] |}.
  parse_refines_tac. unfold parseSetHostingInstruction. by destruct (decode _ _).
Defined.

End SetHosting.

(** ** instructions/setReverse.ts *)

Module SetReverse.

Definition SET_REVERSE_DISCRIMINATOR : bytes := [75; 137; 158; 195; 18; 45; 48; 16].

Record SetReverseInstructionDataArgs := MkSetReverseInstructionDataArgs {
  name : jsstring
}.
Record SetReverseInstructionData := MkSetReverseInstructionData { discriminator : bytes; args :> SetReverseInstructionDataArgs }.

Definition getSetReverseInstructionDataEncoder `{Kit} : Encoder SetReverseInstructionDataArgs :=
  transformEncoder (ofObject (getStructEncoder (
     "discriminator" ~> fixEncoderSize getBytesEncoder 8 ;;
     "name" ~> addEncoderSizePrefix getUtf8Encoder getU32Encoder ;; SNil)%fields)
    (fun v : SetReverseInstructionData => (discriminator v,
      (name v, tt))))
    (fun value => MkSetReverseInstructionData SET_REVERSE_DISCRIMINATOR value).

Definition getSetReverseInstructionDataDecoder `{Kit} : Decoder SetReverseInstructionData :=
  asObject (getStructDecoder (
     "discriminator" ~> fixDecoderSize getBytesDecoder 8 ;;
     "name" ~> addDecoderSizePrefix getUtf8Decoder getU32Decoder ;; SNil)%fields)
    (fun '(d, (x0, tt)) =>
       MkSetReverseInstructionData d (MkSetReverseInstructionDataArgs x0)).

Definition SetReverse_ok `{Kit} (v : SetReverseInstructionDataArgs) : Prop :=
  string_ok (name v).

Definition SetReverse_codec `{KitSpec} : ObjectCodec.
Proof.
  refine {| encoder := getSetReverseInstructionDataEncoder; decoder := getSetReverseInstructionDataDecoder;
            object := MkSetReverseInstructionData SET_REVERSE_DISCRIMINATOR; object_ok := SetReverse_ok; tag := SET_REVERSE_DISCRIMINATOR |}.
  - object_codec_round_trip.
  - object_codec_tag.
Defined.

Module Accounts.
Record t := Mk {
  owner : AccountMeta; nameRecord : AccountMeta; reverseRecord : AccountMeta;
  systemProgram : AccountMeta
}.
End Accounts.

Record ParsedSetReverseInstruction := MkParsedSetReverseInstruction {
  programAddress : Address; accounts : Accounts.t; data : SetReverseInstructionData
}.

Definition parseSetReverseInstruction `{Kit} (instruction : Instruction)
    : result JsError ParsedSetReverseInstruction :=
  if (length (Kit.accounts instruction) <? 4)%nat then
    Err (insufficientAccountMetas (Z.of_nat (length (Kit.accounts instruction))) 4)
  else
    '(owner, next) ← getNextAccount (Kit.accounts instruction);
    '(nameRecord, next) ← getNextAccount next;
    '(reverseRecord, next) ← getNextAccount next;
    '(systemProgram, next) ← getNextAccount next;
    data ← decode getSetReverseInstructionDataDecoder (Kit.data instruction);
    Ok (MkParsedSetReverseInstruction (Kit.programAddress instruction)
       (Accounts.Mk owner nameRecord reverseRecord systemProgram) data).

Definition codec `{KitSpec} : InstructionCodec.
Proof.
  refine {| data_codec := SetReverse_codec; slots := [Required; Required; Required; Required];
            parse := parseSetReverseInstruction; parsed_program := programAddress;
            parsed_data := data : ParsedSetReverseInstruction -> Obj SetReverse_codec;
            parsed_accounts := fun p =>
      [Some (Accounts.owner (accounts p)); Some (Accounts.nameRecord (accounts p));
       Some (Accounts.reverseRecord (accounts p)); Some (Accounts.systemProgram (accounts p))] |}.
  parse_refines_tac. unfold parseSetReverseInstruction. by destruct (decode _ _).
Defined.

End SetReverse.

(** ** instructions/resolve.ts *)

Module Resolve.

Definition RESOLVE_DISCRIMINATOR : bytes := [246; 150; 236; 206; 108; 63; 58; 10].

Record ResolveInstructionDataArgs := MkResolveInstructionDataArgs {
  nameHash : bytes; recordKey : option jsstring
}.
Record ResolveInstructionData := MkResolveInstructionData { discriminator : bytes; args :> ResolveInstructionDataArgs }.

Definition getResolveInstructionDataEncoder `{Kit} : Encoder ResolveInstructionDataArgs :=
  transformEncoder (ofObject (getStructEncoder (
     "discriminator" ~> fixEncoderSize getBytesEncoder 8 ;;
     "nameHash" ~> fixEncoderSize getBytesEncoder 32 ;;
     "recordKey" ~> getOptionEncoder (addEncoderSizePrefix getUtf8Encoder getU32Encoder) ;; SNil)%fields)
    (fun v : ResolveInstructionData => (discriminator v,
      (nameHash v, (recordKey v, tt)))))
    (fun value => MkResolveInstructionData RESOLVE_DISCRIMINATOR value).

Definition getResolveInstructionDataDecoder `{Kit} : Decoder ResolveInstructionData :=
  asObject (getStructDecoder (
     "discriminator" ~> fixDecoderSize getBytesDecoder 8 ;;
     "nameHash" ~> fixDecoderSize getBytesDecoder 32 ;;
     "recordKey" ~> getOptionDecoder (addDecoderSizePrefix getUtf8Decoder getU32Decoder) ;; SNil)%fields)
    (fun '(d, (x0, (x1, tt))) =>
       MkResolveInstructionData d (MkResolveInstructionDataArgs x0 x1)).

Definition Resolve_ok `{Kit} (v : ResolveInstructionDataArgs) : Prop :=
  length (nameHash v) = 32%nat /\ option_ok string_ok (recordKey v).

Definition Resolve_codec `{KitSpec} : ObjectCodec.
Proof.
  refine {| encoder := getResolveInstructionDataEncoder; decoder := getResolveInstructionDataDecoder;
            object := MkResolveInstructionData RESOLVE_DISCRIMINATOR; object_ok := Resolve_ok; tag := RESOLVE_DISCRIMINATOR |}.
  - object_codec_round_trip.
  - object_codec_tag.
Defined.

Module Accounts.
Record t := Mk {
  nameRecord : AccountMeta
}.
End Accounts.

Record ParsedResolveInstruction := MkParsedResolveInstruction {
  programAddress : Address; accounts : Accounts.t; data : ResolveInstructionData
}.

Definition parseResolveInstruction `{Kit} (instruction : Instruction)
    : result JsError ParsedResolveInstruction :=
  if (length (Kit.accounts instruction) <? 1)%nat then
    Err (insufficientAccountMetas (Z.of_nat (length (Kit.accounts instruction))) 1)
  else
    '(nameRecord, next) ← getNextAccount (Kit.accounts instruction);
    data ← decode getResolveInstructionDataDecoder (Kit.data instruction);
    Ok (MkParsedResolveInstruction (Kit.programAddress instruction)
       (Accounts.Mk nameRecord) data).

Definition codec `{KitSpec} : InstructionCodec.
Proof.
  refine {| data_codec := Resolve_codec; slots := [Required];
            parse := parseResolveInstruction; parsed_program := programAddress;
            parsed_data := data : ParsedResolveInstruction -> Obj Resolve_codec;
            parsed_accounts := fun p =>
      [Some (Accounts.nameRecord (accounts p))] |}.
  parse_refines_tac. unfold parseResolveInstruction. by destruct (decode _ _).
Defined.

End Resolve.

(** ** instructions/wrapSubdomain.ts *)

Module WrapSubdomain.

Definition WRAP_SUBDOMAIN_DISCRIMINATOR : bytes := [176; 182; 82; 241; 229; 46; 229; 5].

Record WrapSubdomainInstructionDataArgs := MkWrapSubdomainInstructionDataArgs {
  label : jsstring; nameHash : bytes
}.
Record WrapSubdomainInstructionData := MkWrapSubdomainInstructionData { discriminator : bytes; args :> WrapSubdomainInstructionDataArgs }.

Definition getWrapSubdomainInstructionDataEncoder `{Kit} : Encoder WrapSubdomainInstructionDataArgs :=
  transformEncoder (ofObject (getStructEncoder (
     "discriminator" ~> fixEncoderSize getBytesEncoder 8 ;;
     "label" ~> addEncoderSizePrefix getUtf8Encoder getU32Encoder ;;
     "nameHash" ~> fixEncoderSize getBytesEncoder 32 ;; SNil)%fields)
    (fun v : WrapSubdomainInstructionData => (discriminator v,
      (label v, (nameHash v, tt)))))
    (fun value => MkWrapSubdomainInstructionData WRAP_SUBDOMAIN_DISCRIMINATOR value).

Definition getWrapSubdomainInstructionDataDecoder `{Kit} : Decoder WrapSubdomainInstructionData :=
  asObject (getStructDecoder (
     "discriminator" ~> fixDecoderSize getBytesDecoder 8 ;;
     "label" ~> addDecoderSizePrefix getUtf8Decoder getU32Decoder ;;
     "nameHash" ~> fixDecoderSize getBytesDecoder 32 ;; SNil)%fields)
    (fun '(d, (x0, (x1, tt))) =>
       MkWrapSubdomainInstructionData d (MkWrapSubdomainInstructionDataArgs x0 x1)).

Definition WrapSubdomain_ok `{Kit} (v : WrapSubdomainInstructionDataArgs) : Prop :=
  string_ok (label v) /\ length (nameHash v) = 32%nat.

Definition WrapSubdomain_codec `{KitSpec} : ObjectCodec.
Proof.
  refine {| encoder := getWrapSubdomainInstructionDataEncoder; decoder := getWrapSubdomainInstructionDataDecoder;
            object := MkWrapSubdomainInstructionData WRAP_SUBDOMAIN_DISCRIMINATOR; object_ok := WrapSubdomain_ok; tag := WRAP_SUBDOMAIN_DISCRIMINATOR |}.
  - object_codec_round_trip.
  - object_codec_tag.
Defined.

Module Accounts.
Record t := Mk {
  owner : AccountMeta; subdomainOwner : AccountMeta; parentName : AccountMeta;
  nameRecord : AccountMeta; systemProgram : AccountMeta
}.
End Accounts.

Record ParsedWrapSubdomainInstruction := MkParsedWrapSubdomainInstruction {
  programAddress : Address; accounts : Accounts.t; data : WrapSubdomainInstructionData
}.

Definition parseWrapSubdomainInstruction `{Kit} (instruction : Instruction)
    : result JsError ParsedWrapSubdomainInstruction :=
  if (length (Kit.accounts instruction) <? 5)%nat then
    Err (insufficientAccountMetas (Z.of_nat (length (Kit.accounts instruction))) 5)
  else
    '(owner, next) ← getNextAccount (Kit.accounts instruction);
    '(subdomainOwner, next) ← getNextAccount next;
    '(parentName, next) ← getNextAccount next;
    '(nameRecord, next) ← getNextAccount next;
    '(systemProgram, next) ← getNextAccount next;
    data ← decode getWrapSubdomainInstructionDataDecoder (Kit.data instruction);
    Ok (MkParsedWrapSubdomainInstruction (Kit.programAddress instruction)
       (Accounts.Mk owner subdomainOwner parentName nameRecord systemProgram) data).

Definition codec `{KitSpec} : InstructionCodec.
Proof.
  refine {| data_codec := WrapSubdomain_codec; slots := [Required; Required; Required; Required; Required];
            parse := parseWrapSubdomainInstruction; parsed_program := programAddress;
            parsed_data := data : ParsedWrapSubdomainInstruction -> Obj WrapSubdomain_codec;
            parsed_accounts := fun p =>
      [Some (Accounts.owner (accounts p)); Some (Accounts.subdomainOwner (accounts p));
       Some (Accounts.parentName (accounts p)); Some (Accounts.nameRecord (accounts p));
       Some (Accounts.systemProgram (accounts p))] |}.
  parse_refines_tac. unfold parseWrapSubdomainInstruction. by destruct (decode _ _).
Defined.

End WrapSubdomain.

(** ** instructions/revokeSubdomain.ts *)

Module RevokeSubdomain.

Definition REVOKE_SUBDOMAIN_DISCRIMINATOR : bytes := [161; 15; 96; 214; 145; 88; 83; 118].

Record RevokeSubdomainInstructionDataArgs := MkRevokeSubdomainInstructionDataArgs { }.
Record RevokeSubdomainInstructionData := MkRevokeSubdomainInstructionData { discriminator : bytes; args :> RevokeSubdomainInstructionDataArgs }.

Definition getRevokeSubdomainInstructionDataEncoder `{Kit} : Encoder RevokeSubdomainInstructionDataArgs :=
  transformEncoder (ofObject (getStructEncoder (
     "discriminator" ~> fixEncoderSize getBytesEncoder 8 ;; SNil)%fields)
    (fun v : RevokeSubdomainInstructionData => (discriminator v, tt)))
    (fun value => MkRevokeSubdomainInstructionData REVOKE_SUBDOMAIN_DISCRIMINATOR value).

Definition getRevokeSubdomainInstructionDataDecoder `{Kit} : Decoder RevokeSubdomainInstructionData :=
  asObject (getStructDecoder (
     "discriminator" ~> fixDecoderSize getBytesDecoder 8 ;; SNil)%fields)
    (fun '(d, tt) =>
       MkRevokeSubdomainInstructionData d (MkRevokeSubdomainInstructionDataArgs)).

Definition RevokeSubdomain_ok `{Kit} (v : RevokeSubdomainInstructionDataArgs) : Prop :=
  True.

Definition RevokeSubdomain_codec `{KitSpec} : ObjectCodec.
Proof.
  refine {| encoder := getRevokeSubdomainInstructionDataEncoder; decoder := getRevokeSubdomainInstructionDataDecoder;
            object := MkRevokeSubdomainInstructionData REVOKE_SUBDOMAIN_DISCRIMINATOR; object_ok := RevokeSubdomain_ok; tag := REVOKE_SUBDOMAIN_DISCRIMINATOR |}.
  - object_codec_round_trip.
  - object_codec_tag.
Defined.

Module Accounts.
Record t := Mk {
  owner : AccountMeta; parentName : AccountMeta; nameRecord : AccountMeta
}.
End Accounts.

Record ParsedRevokeSubdomainInstruction := MkParsedRevokeSubdomainInstruction {
  programAddress : Address; accounts : Accounts.t; data : RevokeSubdomainInstructionData
}.

Definition parseRevokeSubdomainInstruction `{Kit} (instruction : Instruction)
    : result JsError ParsedRevokeSubdomainInstruction :=
  if (length (Kit.accounts instruction) <? 3)%nat then
    Err (insufficientAccountMetas (Z.of_nat (length (Kit.accounts instruction))) 3)
  else
    '(owner, next) ← getNextAccount (Kit.accounts instruction);
    '(parentName, next) ← getNextAccount next;
    '(nameRecord, next) ← getNextAccount next;
    data ← decode getRevokeSubdomainInstructionDataDecoder (Kit.data instruction);
    Ok (MkParsedRevokeSubdomainInstruction (Kit.programAddress instruction)
       (Accounts.Mk owner parentName nameRecord) data).

Definition codec `{KitSpec} : InstructionCodec.
Proof.
  refine {| data_codec := RevokeSubdomain_codec; slots := [Required; Required; Required];
            parse := parseRevokeSubdomainInstruction; parsed_program := programAddress;
            parsed_data := data : ParsedRevokeSubdomainInstruction -> Obj RevokeSubdomain_codec;
            parsed_accounts := fun p =>
      [Some (Accounts.owner (accounts p)); Some (Accounts.parentName (accounts p));
       Some (Accounts.nameRecord (accounts p))] |}.
  parse_refines_tac. unfold parseRevokeSubdomainInstruction. by destruct (decode _ _).
Defined.

End RevokeSubdomain.

(** ** instructions/tokenizeName.ts *)

Module TokenizeName.

Definition TOKENIZE_NAME_DISCRIMINATOR : bytes := [161; 164; 31; 49; 167; 4; 117; 23].

Record TokenizeNameInstructionDataArgs := MkTokenizeNameInstructionDataArgs {
  name : jsstring
}.
Record TokenizeNameInstructionData := MkTokenizeNameInstructionData { discriminator : bytes; args :> TokenizeNameInstructionDataArgs }.

Definition getTokenizeNameInstructionDataEncoder `{Kit} : Encoder TokenizeNameInstructionDataArgs :=
  transformEncoder (ofObject (getStructEncoder (
     "discriminator" ~> fixEncoderSize getBytesEncoder 8 ;;
     "name" ~> addEncoderSizePrefix getUtf8Encoder getU32Encoder ;; SNil)%fields)
    (fun v : TokenizeNameInstructionData => (discriminator v,
      (name v, tt))))
    (fun value => MkTokenizeNameInstructionData TOKENIZE_NAME_DISCRIMINATOR value).

Definition getTokenizeNameInstructionDataDecoder `{Kit} : Decoder TokenizeNameInstructionData :=
  asObject (getStructDecoder (
     "discriminator" ~> fixDecoderSize getBytesDecoder 8 ;;
     "name" ~> addDecoderSizePrefix getUtf8Decoder getU32Decoder ;; SNil)%fields)
    (fun '(d, (x0, tt)) =>
       MkTokenizeNameInstructionData d (MkTokenizeNameInstructionDataArgs x0)).

Definition TokenizeName_ok `{Kit} (v : TokenizeNameInstructionDataArgs) : Prop :=
  string_ok (name v).

Definition TokenizeName_codec `{KitSpec} : ObjectCodec.
Proof.
  refine {| encoder := getTokenizeNameInstructionDataEncoder; decoder := getTokenizeNameInstructionDataDecoder;
            object := MkTokenizeNameInstructionData TOKENIZE_NAME_DISCRIMINATOR; object_ok := TokenizeName_ok; tag := TOKENIZE_NAME_DISCRIMINATOR |}.
  - object_codec_round_trip.
  - object_codec_tag.
Defined.

Module Accounts.
Record t := Mk {
  owner : AccountMeta; nameRecord : AccountMeta; mint : AccountMeta; tokenAccount : AccountMeta;
  metadata : AccountMeta; masterEdition : AccountMeta; tokenProgram : AccountMeta;
  associatedTokenProgram : AccountMeta; metadataProgram : AccountMeta;
  systemProgram : AccountMeta; rent : AccountMeta
}.
End Accounts.

Record ParsedTokenizeNameInstruction := MkParsedTokenizeNameInstruction {
  programAddress : Address; accounts : Accounts.t; data : TokenizeNameInstructionData
}.

Definition parseTokenizeNameInstruction `{Kit} (instruction : Instruction)
    : result JsError ParsedTokenizeNameInstruction :=
  if (length (Kit.accounts instruction) <? 11)%nat then
    Err (insufficientAccountMetas (Z.of_nat (length (Kit.accounts instruction))) 11)
  else
    '(owner, next) ← getNextAccount (Kit.accounts instruction);
    '(nameRecord, next) ← getNextAccount next;
    '(mint, next) ← getNextAccount next;
    '(tokenAccount, next) ← getNextAccount next;
    '(metadata, next) ← getNextAccount next;
    '(masterEdition, next) ← getNextAccount next;
    '(tokenProgram, next) ← getNextAccount next;
    '(associatedTokenProgram, next) ← getNextAccount next;
    '(metadataProgram, next) ← getNextAccount next;
    '(systemProgram, next) ← getNextAccount next;
    '(rent, next) ← getNextAccount next;
    data ← decode getTokenizeNameInstructionDataDecoder (Kit.data instruction);
    Ok (MkParsedTokenizeNameInstruction (Kit.programAddress instruction)
       (Accounts.Mk owner nameRecord mint tokenAccount metadata masterEdition tokenProgram
        associatedTokenProgram metadataProgram systemProgram rent) data).

Definition codec `{KitSpec} : InstructionCodec.
Proof.
  refine {| data_codec := TokenizeName_codec; slots := [Required; Required; Required; Required; Required; Required; Required; Required; Required; Required; Required];
            parse := parseTokenizeNameInstruction; parsed_program := programAddress;
            parsed_data := data : ParsedTokenizeNameInstruction -> Obj TokenizeName_codec;
            parsed_accounts := fun p =>
      [Some (Accounts.owner (accounts p)); Some (Accounts.nameRecord (accounts p));
       Some (Accounts.mint (accounts p)); Some (Accounts.tokenAccount (accounts p));
       Some (Accounts.metadata (accounts p)); Some (Accounts.masterEdition (accounts p));
       Some (Accounts.tokenProgram (accounts p));
       Some (Accounts.associatedTokenProgram (accounts p));
       Some (Accounts.metadataProgram (accounts p)); Some (Accounts.systemProgram (accounts p));
       Some (Accounts.rent (accounts p))] |}.
  parse_refines_tac. unfold parseTokenizeNameInstruction. by destruct (decode _ _).
Defined.

End TokenizeName.

(** ** instructions/redeemName.ts *)

Module RedeemName.

Definition REDEEM_NAME_DISCRIMINATOR : bytes := [54; 86; 206; 50; 162; 148; 156; 25].

Record RedeemNameInstructionDataArgs := MkRedeemNameInstructionDataArgs { }.
Record RedeemNameInstructionData := MkRedeemNameInstructionData { discriminator : bytes; args :> RedeemNameInstructionDataArgs }.

Definition getRedeemNameInstructionDataEncoder `{Kit} : Encoder RedeemNameInstructionDataArgs :=
  transformEncoder (ofObject (getStructEncoder (
     "discriminator" ~> fixEncoderSize getBytesEncoder 8 ;; SNil)%fields)
    (fun v : RedeemNameInstructionData => (discriminator v, tt)))
    (fun value => MkRedeemNameInstructionData REDEEM_NAME_DISCRIMINATOR value).

Definition getRedeemNameInstructionDataDecoder `{Kit} : Decoder RedeemNameInstructionData :=
  asObject (getStructDecoder (
     "discriminator" ~> fixDecoderSize getBytesDecoder 8 ;; SNil)%fields)
    (fun '(d, tt) =>
       MkRedeemNameInstructionData d (MkRedeemNameInstructionDataArgs)).

Definition RedeemName_ok `{Kit} (v : RedeemNameInstructionDataArgs) : Prop :=
  True.

Definition RedeemName_codec `{KitSpec} : ObjectCodec.
Proof.
  refine {| encoder := getRedeemNameInstructionDataEncoder; decoder := getRedeemNameInstructionDataDecoder;
            object := MkRedeemNameInstructionData REDEEM_NAME_DISCRIMINATOR; object_ok := RedeemName_ok; tag := REDEEM_NAME_DISCRIMINATOR |}.
  - object_codec_round_trip.
  - object_codec_tag.
Defined.

Module Accounts.
Record t := Mk {
  redeemer : AccountMeta; nameRecord : AccountMeta; mint : AccountMeta;
  tokenAccount : AccountMeta; metadata : AccountMeta; masterEdition : AccountMeta;
  tokenProgram : AccountMeta; metadataProgram : AccountMeta
}.
End Accounts.

Record ParsedRedeemNameInstruction := MkParsedRedeemNameInstruction {
  programAddress : Address; accounts : Accounts.t; data : RedeemNameInstructionData
}.

Definition parseRedeemNameInstruction `{Kit} (instruction : Instruction)
    : result JsError ParsedRedeemNameInstruction :=
  if (length (Kit.accounts instruction) <? 8)%nat then
    Err (insufficientAccountMetas (Z.of_nat (length (Kit.accounts instruction))) 8)
  else
    '(redeemer, next) ← getNextAccount (Kit.accounts instruction);
    '(nameRecord, next) ← getNextAccount next;
    '(mint, next) ← getNextAccount next;
    '(tokenAccount, next) ← getNextAccount next;
    '(metadata, next) ← getNextAccount next;
    '(masterEdition, next) ← getNextAccount next;
    '(tokenProgram, next) ← getNextAccount next;
    '(metadataProgram, next) ← getNextAccount next;
    data ← decode getRedeemNameInstructionDataDecoder (Kit.data instruction);
    Ok (MkParsedRedeemNameInstruction (Kit.programAddress instruction)
       (Accounts.Mk redeemer nameRecord mint tokenAccount metadata masterEdition tokenProgram metadataProgram) data).

Definition codec `{KitSpec} : InstructionCodec.
Proof.
  refine {| data_codec := RedeemName_codec; slots := [Required; Required; Required; Required; Required; Required; Required; Required];
            parse := parseRedeemNameInstruction; parsed_program := programAddress;
            parsed_data := data : ParsedRedeemNameInstruction -> Obj RedeemName_codec;
            parsed_accounts := fun p =>
      [Some (Accounts.redeemer (accounts p)); Some (Accounts.nameRecord (accounts p));
       Some (Accounts.mint (accounts p)); Some (Accounts.tokenAccount (accounts p));
       Some (Accounts.metadata (accounts p)); Some (Accounts.masterEdition (accounts p));
       Some (Accounts.tokenProgram (accounts p)); Some (Accounts.metadataProgram (accounts p))] |}.
  parse_refines_tac. unfold parseRedeemNameInstruction. by destruct (decode _ _).
Defined.

End RedeemName.
