(* ===== verification/MarketInstructions.v ===== *)
(** * Instructions for the marketplace: listings, offers and auctions

    One Module per file of src/clients/ts/src/generated/instructions: the data
    record with its encoder and decoder, the named accounts, the parsed object
    and the parse function, account by account.  Each Module ends with its
    [InstructionCodec]: the laws of the pair and the refinement of [parse_spec]. *)
From S2P Require Import Prelude JsString Kit Pdas Instruction.

(** ** instructions/listName.ts *)

Module ListName.

Definition LIST_NAME_DISCRIMINATOR : bytes := [246; 122; 32; 41; 48; 9; 211; 11].

Record ListNameInstructionDataArgs := MkListNameInstructionDataArgs {
  price : Z; durationSeconds : Z
}.
Record ListNameInstructionData := MkListNameInstructionData { discriminator : bytes; args :> ListNameInstructionDataArgs }.

Definition getListNameInstructionDataEncoder `{Kit} : Encoder ListNameInstructionDataArgs :=
  transformEncoder (ofObject (getStructEncoder (
     "discriminator" ~> fixEncoderSize getBytesEncoder 8 ;;
     "price" ~> getU64Encoder ;;
     "durationSeconds" ~> getI64Encoder ;; SNil)%fields)
    (fun v : ListNameInstructionData => (discriminator v,
      (price v, (durationSeconds v, tt)))))
    (fun value => MkListNameInstructionData LIST_NAME_DISCRIMINATOR value).

Definition getListNameInstructionDataDecoder `{Kit} : Decoder ListNameInstructionData :=
  asObject (getStructDecoder (
     "discriminator" ~> fixDecoderSize getBytesDecoder 8 ;;
     "price" ~> getU64Decoder ;;
     "durationSeconds" ~> getI64Decoder ;; SNil)%fields)
    (fun '(d, (x0, (x1, tt))) =>
       MkListNameInstructionData d (MkListNameInstructionDataArgs x0 x1)).

Definition ListName_ok `{Kit} (v : ListNameInstructionDataArgs) : Prop :=
  unsigned_ok 8 (price v) /\ i64_ok (durationSeconds v).

Definition ListName_codec `{KitSpec} : ObjectCodec.
Proof.
  refine {| encoder := getListNameInstructionDataEncoder; decoder := getListNameInstructionDataDecoder;
            object := MkListNameInstructionData LIST_NAME_DISCRIMINATOR; object_ok := ListName_ok; tag := LIST_NAME_DISCRIMINATOR |}.
  - object_codec_round_trip.
  - object_codec_tag.
Defined.

Module Accounts.
Record t := Mk {
  owner : AccountMeta; nameRecord : AccountMeta; listing : AccountMeta;
  systemProgram : AccountMeta
}.
End Accounts.

Record ParsedListNameInstruction := MkParsedListNameInstruction {
  programAddress : Address; accounts : Accounts.t; data : ListNameInstructionData
}.

Definition parseListNameInstruction `{Kit} (instruction : Instruction)
    : result JsError ParsedListNameInstruction :=
  if (length (Kit.accounts instruction) <? 4)%nat then
    Err (insufficientAccountMetas (Z.of_nat (length (Kit.accounts instruction))) 4)
  else
    '(owner, next) ← getNextAccount (Kit.accounts instruction);
    '(nameRecord, next) ← getNextAccount next;
    '(listing, next) ← getNextAccount next;
    '(systemProgram, next) ← getNextAccount next;
    data ← decode getListNameInstructionDataDecoder (Kit.data instruction);
    Ok (MkParsedListNameInstruction (Kit.programAddress instruction)
       (Accounts.Mk owner nameRecord listing systemProgram) data).

Definition codec `{KitSpec} : InstructionCodec.
Proof.
  refine {| data_codec := ListName_codec; slots := [Required; Required; Required; Required];
            parse := parseListNameInstruction; parsed_program := programAddress;
            parsed_data := data : ParsedListNameInstruction -> Obj ListName_codec;
            parsed_accounts := fun p =>
      [Some (Accounts.owner (accounts p)); Some (Accounts.nameRecord (accounts p));
       Some (Accounts.listing (accounts p)); Some (Accounts.systemProgram (accounts p))] |}.
  parse_refines_tac. unfold parseListNameInstruction. by destruct (decode _ _).
Defined.

End ListName.

(** ** instructions/updateListing.ts *)

Module UpdateListing.

Definition UPDATE_LISTING_DISCRIMINATOR : bytes := [192; 174; 210; 68; 116; 40; 242; 253].

Record UpdateListingInstructionDataArgs := MkUpdateListingInstructionDataArgs {
  price : Z; durationSeconds : Z
}.
Record UpdateListingInstructionData := MkUpdateListingInstructionData { discriminator : bytes; args :> UpdateListingInstructionDataArgs }.

Definition getUpdateListingInstructionDataEncoder `{Kit} : Encoder UpdateListingInstructionDataArgs :=
  transformEncoder (ofObject (getStructEncoder (
     "discriminator" ~> fixEncoderSize getBytesEncoder 8 ;;
     "price" ~> getU64Encoder ;;
     "durationSeconds" ~> getI64Encoder ;; SNil)%fields)
    (fun v : UpdateListingInstructionData => (discriminator v,
      (price v, (durationSeconds v, tt)))))
    (fun value => MkUpdateListingInstructionData UPDATE_LISTING_DISCRIMINATOR value).

Definition getUpdateListingInstructionDataDecoder `{Kit} : Decoder UpdateListingInstructionData :=
  asObject (getStructDecoder (
     "discriminator" ~> fixDecoderSize getBytesDecoder 8 ;;
     "price" ~> getU64Decoder ;;
     "durationSeconds" ~> getI64Decoder ;; SNil)%fields)
    (fun '(d, (x0, (x1, tt))) =>
       MkUpdateListingInstructionData d (MkUpdateListingInstructionDataArgs x0 x1)).

Definition UpdateListing_ok `{Kit} (v : UpdateListingInstructionDataArgs) : Prop :=
  unsigned_ok 8 (price v) /\ i64_ok (durationSeconds v).

Definition UpdateListing_codec `{KitSpec} : ObjectCodec.
Proof.
  refine {| encoder := getUpdateListingInstructionDataEncoder; decoder := getUpdateListingInstructionDataDecoder;
            object := MkUpdateListingInstructionData UPDATE_LISTING_DISCRIMINATOR; object_ok := UpdateListing_ok; tag := UPDATE_LISTING_DISCRIMINATOR |}.
  - object_codec_round_trip.
  - object_codec_tag.
Defined.

Module Accounts.
Record t := Mk {
  seller : AccountMeta; listing : AccountMeta
}.
End Accounts.

Record ParsedUpdateListingInstruction := MkParsedUpdateListingInstruction {
  programAddress : Address; accounts : Accounts.t; data : UpdateListingInstructionData
}.

Definition parseUpdateListingInstruction `{Kit} (instruction : Instruction)
    : result JsError ParsedUpdateListingInstruction :=
  if (length (Kit.accounts instruction) <? 2)%nat then
    Err (insufficientAccountMetas (Z.of_nat (length (Kit.accounts instruction))) 2)
  else
    '(seller, next) ← getNextAccount (Kit.accounts instruction);
    '(listing, next) ← getNextAccount next;
    data ← decode getUpdateListingInstructionDataDecoder (Kit.data instruction);
    Ok (MkParsedUpdateListingInstruction (Kit.programAddress instruction)
       (Accounts.Mk seller listing) data).

Definition codec `{KitSpec} : InstructionCodec.
Proof.
  refine {| data_codec := UpdateListing_codec; slots := [Required; Required];
            parse := parseUpdateListingInstruction; parsed_program := programAddress;
            parsed_data := data : ParsedUpdateListingInstruction -> Obj UpdateListing_codec;
            parsed_accounts := fun p =>
      [Some (Accounts.seller (accounts p)); Some (Accounts.listing (accounts p))] |}.
  parse_refines_tac. unfold parseUpdateListingInstruction. by destruct (decode _ _).
Defined.

End UpdateListing.

(** ** instructions/cancelListing.ts *)

Module CancelListing.

Definition CANCEL_LISTING_DISCRIMINATOR : bytes := [41; 183; 50; 232; 230; 233; 157; 70].

Record CancelListingInstructionDataArgs := MkCancelListingInstructionDataArgs { }.
Record CancelListingInstructionData := MkCancelListingInstructionData { discriminator : bytes; args :> CancelListingInstructionDataArgs }.

Definition getCancelListingInstructionDataEncoder `{Kit} : Encoder CancelListingInstructionDataArgs :=
  transformEncoder (ofObject (getStructEncoder (
     "discriminator" ~> fixEncoderSize getBytesEncoder 8 ;; SNil)%fields)
    (fun v : CancelListingInstructionData => (discriminator v, tt)))
    (fun value => MkCancelListingInstructionData CANCEL_LISTING_DISCRIMINATOR value).

Definition getCancelListingInstructionDataDecoder `{Kit} : Decoder CancelListingInstructionData :=
  asObject (getStructDecoder (
     "discriminator" ~> fixDecoderSize getBytesDecoder 8 ;; SNil)%fields)
    (fun '(d, tt) =>
       MkCancelListingInstructionData d (MkCancelListingInstructionDataArgs)).

Definition CancelListing_ok `{Kit} (v : CancelListingInstructionDataArgs) : Prop :=
  True.

Definition CancelListing_codec `{KitSpec} : ObjectCodec.
Proof.
  refine {| encoder := getCancelListingInstructionDataEncoder; decoder := getCancelListingInstructionDataDecoder;
            object := MkCancelListingInstructionData CANCEL_LISTING_DISCRIMINATOR; object_ok := CancelListing_ok; tag := CANCEL_LISTING_DISCRIMINATOR |}.
  - object_codec_round_trip.
  - object_codec_tag.
Defined.

Module Accounts.
Record t := Mk {
  canceller : AccountMeta; seller : AccountMeta; nameRecord : AccountMeta; listing : AccountMeta
}.
End Accounts.

Record ParsedCancelListingInstruction := MkParsedCancelListingInstruction {
  programAddress : Address; accounts : Accounts.t; data : CancelListingInstructionData
}.

Definition parseCancelListingInstruction `{Kit} (instruction : Instruction)
    : result JsError ParsedCancelListingInstruction :=
  if (length (Kit.accounts instruction) <? 4)%nat then
    Err (insufficientAccountMetas (Z.of_nat (length (Kit.accounts instruction))) 4)
  else
    '(canceller, next) ← getNextAccount (Kit.accounts instruction);
    '(seller, next) ← getNextAccount next;
    '(nameRecord, next) ← getNextAccount next;
    '(listing, next) ← getNextAccount next;
    data ← decode getCancelListingInstructionDataDecoder (Kit.data instruction);
    Ok (MkParsedCancelListingInstruction (Kit.programAddress instruction)
       (Accounts.Mk canceller seller nameRecord listing) data).

Definition codec `{KitSpec} : InstructionCodec.
Proof.
  refine {| data_codec := CancelListing_codec; slots := [Required; Required; Required; Required];
            parse := parseCancelListingInstruction; parsed_program := programAddress;
            parsed_data := data : ParsedCancelListingInstruction -> Obj CancelListing_codec;
            parsed_accounts := fun p =>
      [Some (Accounts.canceller (accounts p)); Some (Accounts.seller (accounts p));
       Some (Accounts.nameRecord (accounts p)); Some (Accounts.listing (accounts p))] |}.
  parse_refines_tac. unfold parseCancelListingInstruction. by destruct (decode _ _).
Defined.

End CancelListing.

(** ** instructions/buyName.ts *)

Module BuyName.

Definition BUY_NAME_DISCRIMINATOR : bytes := [51; 244; 250; 246; 119; 54; 246; 23].

Record BuyNameInstructionDataArgs := MkBuyNameInstructionDataArgs {
  expectedPrice : Z
}.
Record BuyNameInstructionData := MkBuyNameInstructionData { discriminator : bytes; args :> BuyNameInstructionDataArgs }.

Definition getBuyNameInstructionDataEncoder `{Kit} : Encoder BuyNameInstructionDataArgs :=
  transformEncoder (ofObject (getStructEncoder (
     "discriminator" ~> fixEncoderSize getBytesEncoder 8 ;;
     "expectedPrice" ~> getU64Encoder ;; SNil)%fields)
    (fun v : BuyNameInstructionData => (discriminator v,
      (expectedPrice v, tt))))
    (fun value => MkBuyNameInstructionData BUY_NAME_DISCRIMINATOR value).

Definition getBuyNameInstructionDataDecoder `{Kit} : Decoder BuyNameInstructionData :=
  asObject (getStructDecoder (
     "discriminator" ~> fixDecoderSize getBytesDecoder 8 ;;
     "expectedPrice" ~> getU64Decoder ;; SNil)%fields)
    (fun '(d, (x0, tt)) =>
       MkBuyNameInstructionData d (MkBuyNameInstructionDataArgs x0)).

Definition BuyName_ok `{Kit} (v : BuyNameInstructionDataArgs) : Prop :=
  unsigned_ok 8 (expectedPrice v).

Definition BuyName_codec `{KitSpec} : ObjectCodec.
Proof.
  refine {| encoder := getBuyNameInstructionDataEncoder; decoder := getBuyNameInstructionDataDecoder;
            object := MkBuyNameInstructionData BUY_NAME_DISCRIMINATOR; object_ok := BuyName_ok; tag := BUY_NAME_DISCRIMINATOR |}.
  - object_codec_round_trip.
  - object_codec_tag.
Defined.

Module Accounts.
Record t := Mk {
  buyer : AccountMeta; seller : AccountMeta; solTreasury : AccountMeta; config : AccountMeta;
  nameRecord : AccountMeta; listing : AccountMeta; systemProgram : AccountMeta
}.
End Accounts.

Record ParsedBuyNameInstruction := MkParsedBuyNameInstruction {
  programAddress : Address; accounts : Accounts.t; data : BuyNameInstructionData
}.

Definition parseBuyNameInstruction `{Kit} (instruction : Instruction)
    : result JsError ParsedBuyNameInstruction :=
  if (length (Kit.accounts instruction) <? 7)%nat then
    Err (insufficientAccountMetas (Z.of_nat (length (Kit.accounts instruction))) 7)
  else
    '(buyer, next) ← getNextAccount (Kit.accounts instruction);
    '(seller, next) ← getNextAccount next;
    '(solTreasury, next) ← getNextAccount next;
    '(config, next) ← getNextAccount next;
    '(nameRecord, next) ← getNextAccount next;
    '(listing, next) ← getNextAccount next;
    '(systemProgram, next) ← getNextAccount next;
    data ← decode getBuyNameInstructionDataDecoder (Kit.data instruction);
    Ok (MkParsedBuyNameInstruction (Kit.programAddress instruction)
       (Accounts.Mk buyer seller solTreasury config nameRecord listing systemProgram) data).

Definition codec `{KitSpec} : InstructionCodec.
Proof.
  refine {| data_codec := BuyName_codec; slots := [Required; Required; Required; Required; Required; Required; Required];
            parse := parseBuyNameInstruction; parsed_program := programAddress;
            parsed_data := data : ParsedBuyNameInstruction -> Obj BuyName_codec;
            parsed_accounts := fun p =>
      [Some (Accounts.buyer (accounts p)); Some (Accounts.seller (accounts p));
       Some (Accounts.solTreasury (accounts p)); Some (Accounts.config (accounts p));
       Some (Accounts.nameRecord (accounts p)); Some (Accounts.listing (accounts p));
       Some (Accounts.systemProgram (accounts p))] |}.
  parse_refines_tac. unfold parseBuyNameInstruction. by destruct (decode _ _).
Defined.

End BuyName.

(** ** instructions/makeOffer.ts *)

Module MakeOffer.

Definition MAKE_OFFER_DISCRIMINATOR : bytes := [214; 98; 97; 35; 59; 12; 44; 178].

Record MakeOfferInstructionDataArgs := MkMakeOfferInstructionDataArgs {
  amount : Z; durationSeconds : Z
}.
Record MakeOfferInstructionData := MkMakeOfferInstructionData { discriminator : bytes; args :> MakeOfferInstructionDataArgs }.

Definition getMakeOfferInstructionDataEncoder `{Kit} : Encoder MakeOfferInstructionDataArgs :=
  transformEncoder (ofObject (getStructEncoder (
     "discriminator" ~> fixEncoderSize getBytesEncoder 8 ;;
     "amount" ~> getU64Encoder ;;
     "durationSeconds" ~> getI64Encoder ;; SNil)%fields)
    (fun v : MakeOfferInstructionData => (discriminator v,
      (amount v, (durationSeconds v, tt)))))
    (fun value => MkMakeOfferInstructionData MAKE_OFFER_DISCRIMINATOR value).

Definition getMakeOfferInstructionDataDecoder `{Kit} : Decoder MakeOfferInstructionData :=
  asObject (getStructDecoder (
     "discriminator" ~> fixDecoderSize getBytesDecoder 8 ;;
     "amount" ~> getU64Decoder ;;
     "durationSeconds" ~> getI64Decoder ;; SNil)%fields)
    (fun '(d, (x0, (x1, tt))) =>
       MkMakeOfferInstructionData d (MkMakeOfferInstructionDataArgs x0 x1)).

Definition MakeOffer_ok `{Kit} (v : MakeOfferInstructionDataArgs) : Prop :=
  unsigned_ok 8 (amount v) /\ i64_ok (durationSeconds v).

Definition MakeOffer_codec `{KitSpec} : ObjectCodec.
Proof.
  refine {| encoder := getMakeOfferInstructionDataEncoder; decoder := getMakeOfferInstructionDataDecoder;
            object := MkMakeOfferInstructionData MAKE_OFFER_DISCRIMINATOR; object_ok := MakeOffer_ok; tag := MAKE_OFFER_DISCRIMINATOR |}.
  - object_codec_round_trip.
  - object_codec_tag.
Defined.

Module Accounts.
Record t := Mk {
  buyer : AccountMeta; nameRecord : AccountMeta; offer : AccountMeta; systemProgram : AccountMeta
}.
End Accounts.

Record ParsedMakeOfferInstruction := MkParsedMakeOfferInstruction {
  programAddress : Address; accounts : Accounts.t; data : MakeOfferInstructionData
}.

Definition parseMakeOfferInstruction `{Kit} (instruction : Instruction)
    : result JsError ParsedMakeOfferInstruction :=
  if (length (Kit.accounts instruction) <? 4)%nat then
    Err (insufficientAccountMetas (Z.of_nat (length (Kit.accounts instruction))) 4)
  else
    '(buyer, next) ← getNextAccount (Kit.accounts instruction);
    '(nameRecord, next) ← getNextAccount next;
    '(offer, next) ← getNextAccount next;
    '(systemProgram, next) ← getNextAccount next;
    data ← decode getMakeOfferInstructionDataDecoder (Kit.data instruction);
    Ok (MkParsedMakeOfferInstruction (Kit.programAddress instruction)
       (Accounts.Mk buyer nameRecord offer systemProgram) data).

Definition codec `{KitSpec} : InstructionCodec.
Proof.
  refine {| data_codec := MakeOffer_codec; slots := [Required; Required; Required; Required];
            parse := parseMakeOfferInstruction; parsed_program := programAddress;
            parsed_data := data : ParsedMakeOfferInstruction -> Obj MakeOffer_codec;
            parsed_accounts := fun p =>
      [Some (Accounts.buyer (accounts p)); Some (Accounts.nameRecord (accounts p));
       Some (Accounts.offer (accounts p)); Some (Accounts.systemProgram (accounts p))] |}.
  parse_refines_tac. unfold parseMakeOfferInstruction. by destruct (decode _ _).
Defined.

End MakeOffer.

(** ** instructions/cancelOffer.ts *)

Module CancelOffer.

Definition CANCEL_OFFER_DISCRIMINATOR : bytes := [92; 203; 223; 40; 92; 89; 53; 119].

Record CancelOfferInstructionDataArgs := MkCancelOfferInstructionDataArgs { }.
Record CancelOfferInstructionData := MkCancelOfferInstructionData { discriminator : bytes; args :> CancelOfferInstructionDataArgs }.

Definition getCancelOfferInstructionDataEncoder `{Kit} : Encoder CancelOfferInstructionDataArgs :=
  transformEncoder (ofObject (getStructEncoder (
     "discriminator" ~> fixEncoderSize getBytesEncoder 8 ;; SNil)%fields)
    (fun v : CancelOfferInstructionData => (discriminator v, tt)))
    (fun value => MkCancelOfferInstructionData CANCEL_OFFER_DISCRIMINATOR value).

Definition getCancelOfferInstructionDataDecoder `{Kit} : Decoder CancelOfferInstructionData :=
  asObject (getStructDecoder (
     "discriminator" ~> fixDecoderSize getBytesDecoder 8 ;; SNil)%fields)
    (fun '(d, tt) =>
       MkCancelOfferInstructionData d (MkCancelOfferInstructionDataArgs)).

Definition CancelOffer_ok `{Kit} (v : CancelOfferInstructionDataArgs) : Prop :=
  True.

Definition CancelOffer_codec `{KitSpec} : ObjectCodec.
Proof.
  refine {| encoder := getCancelOfferInstructionDataEncoder; decoder := getCancelOfferInstructionDataDecoder;
            object := MkCancelOfferInstructionData CANCEL_OFFER_DISCRIMINATOR; object_ok := CancelOffer_ok; tag := CANCEL_OFFER_DISCRIMINATOR |}.
  - object_codec_round_trip.
  - object_codec_tag.
Defined.

Module Accounts.
Record t := Mk {
  canceller : AccountMeta; buyer : AccountMeta; nameRecord : option AccountMeta;
  offer : AccountMeta
}.
End Accounts.

Record ParsedCancelOfferInstruction := MkParsedCancelOfferInstruction {
  programAddress : Address; accounts : Accounts.t; data : CancelOfferInstructionData
}.

Definition parseCancelOfferInstruction `{Kit} (instruction : Instruction)
    : result JsError ParsedCancelOfferInstruction :=
  if (length (Kit.accounts instruction) <? 4)%nat then
    Err (insufficientAccountMetas (Z.of_nat (length (Kit.accounts instruction))) 4)
  else
    '(canceller, next) ← getNextAccount (Kit.accounts instruction);
    '(buyer, next) ← getNextAccount next;
    '(nameRecord, next) ← getNextOptionalAccount next;
    '(offer, next) ← getNextAccount next;
    data ← decode getCancelOfferInstructionDataDecoder (Kit.data instruction);
    Ok (MkParsedCancelOfferInstruction (Kit.programAddress instruction)
       (Accounts.Mk canceller buyer nameRecord offer) data).

Definition codec `{KitSpec} : InstructionCodec.
Proof.
  refine {| data_codec := CancelOffer_codec; slots := [Required; Required; Optional; Required];
            parse := parseCancelOfferInstruction; parsed_program := programAddress;
            parsed_data := data : ParsedCancelOfferInstruction -> Obj CancelOffer_codec;
            parsed_accounts := fun p =>
      [Some (Accounts.canceller (accounts p)); Some (Accounts.buyer (accounts p));
       Accounts.nameRecord (accounts p); Some (Accounts.offer (accounts p))] |}.
  parse_refines_tac. unfold parseCancelOfferInstruction. by destruct (decode _ _).
Defined.

End CancelOffer.

(** ** instructions/acceptOffer.ts *)

Module AcceptOffer.

Definition ACCEPT_OFFER_DISCRIMINATOR : bytes := [227; 82; 234; 131; 1; 18; 48; 2].

Record AcceptOfferInstructionDataArgs := MkAcceptOfferInstructionDataArgs { }.
Record AcceptOfferInstructionData := MkAcceptOfferInstructionData { discriminator : bytes; args :> AcceptOfferInstructionDataArgs }.

Definition getAcceptOfferInstructionDataEncoder `{Kit} : Encoder AcceptOfferInstructionDataArgs :=
  transformEncoder (ofObject (getStructEncoder (
     "discriminator" ~> fixEncoderSize getBytesEncoder 8 ;; SNil)%fields)
    (fun v : AcceptOfferInstructionData => (discriminator v, tt)))
    (fun value => MkAcceptOfferInstructionData ACCEPT_OFFER_DISCRIMINATOR value).

Definition getAcceptOfferInstructionDataDecoder `{Kit} : Decoder AcceptOfferInstructionData :=
  asObject (getStructDecoder (
     "discriminator" ~> fixDecoderSize getBytesDecoder 8 ;; SNil)%fields)
    (fun '(d, tt) =>
       MkAcceptOfferInstructionData d (MkAcceptOfferInstructionDataArgs)).

Definition AcceptOffer_ok `{Kit} (v : AcceptOfferInstructionDataArgs) : Prop :=
  True.

Definition AcceptOffer_codec `{KitSpec} : ObjectCodec.
Proof.
  refine {| encoder := getAcceptOfferInstructionDataEncoder; decoder := getAcceptOfferInstructionDataDecoder;
            object := MkAcceptOfferInstructionData ACCEPT_OFFER_DISCRIMINATOR; object_ok := AcceptOffer_ok; tag := ACCEPT_OFFER_DISCRIMINATOR |}.
  - object_codec_round_trip.
  - object_codec_tag.
Defined.

Module Accounts.
Record t := Mk {
  owner : AccountMeta; buyer : AccountMeta; solTreasury : AccountMeta; config : AccountMeta;
  nameRecord : AccountMeta; offer : AccountMeta
}.
End Accounts.

Record ParsedAcceptOfferInstruction := MkParsedAcceptOfferInstruction {
  programAddress : Address; accounts : Accounts.t; data : AcceptOfferInstructionData
}.

Definition parseAcceptOfferInstruction `{Kit} (instruction : Instruction)
    : result JsError ParsedAcceptOfferInstruction :=
  if (length (Kit.accounts instruction) <? 6)%nat then
    Err (insufficientAccountMetas (Z.of_nat (length (Kit.accounts instruction))) 6)
  else
    '(owner, next) ← getNextAccount (Kit.accounts instruction);
    '(buyer, next) ← getNextAccount next;
    '(solTreasury, next) ← getNextAccount next;
    '(config, next) ← getNextAccount next;
    '(nameRecord, next) ← getNextAccount next;
    '(offer, next) ← getNextAccount next;
    data ← decode getAcceptOfferInstructionDataDecoder (Kit.data instruction);
    Ok (MkParsedAcceptOfferInstruction (Kit.programAddress instruction)
       (Accounts.Mk owner buyer solTreasury config nameRecord offer) data).

Definition codec `{KitSpec} : InstructionCodec.
Proof.
  refine {| data_codec := AcceptOffer_codec; slots := [Required; Required; Required; Required; Required; Required];
            parse := parseAcceptOfferInstruction; parsed_program := programAddress;
            parsed_data := data : ParsedAcceptOfferInstruction -> Obj AcceptOffer_codec;
            parsed_accounts := fun p =>
      [Some (Accounts.owner (accounts p)); Some (Accounts.buyer (accounts p));
       Some (Accounts.solTreasury (accounts p)); Some (Accounts.config (accounts p));
       Some (Accounts.nameRecord (accounts p)); Some (Accounts.offer (accounts p))] |}.
  parse_refines_tac. unfold parseAcceptOfferInstruction. by destruct (decode _ _).
Defined.

End AcceptOffer.

(** ** instructions/startAuction.ts *)

Module StartAuction.

Definition START_AUCTION_DISCRIMINATOR : bytes := [255; 2; 149; 136; 148; 125; 65; 195].

Record StartAuctionInstructionDataArgs := MkStartAuctionInstructionDataArgs {
  reservePrice : Z; minIncrement : Z; durationSeconds : Z
}.
Record StartAuctionInstructionData := MkStartAuctionInstructionData { discriminator : bytes; args :> StartAuctionInstructionDataArgs }.

Definition getStartAuctionInstructionDataEncoder `{Kit} : Encoder StartAuctionInstructionDataArgs :=
  transformEncoder (ofObject (getStructEncoder (
     "discriminator" ~> fixEncoderSize getBytesEncoder 8 ;;
     "reservePrice" ~> getU64Encoder ;;
     "minIncrement" ~> getU64Encoder ;;
     "durationSeconds" ~> getI64Encoder ;; SNil)%fields)
    (fun v : StartAuctionInstructionData => (discriminator v,
      (reservePrice v, (minIncrement v, (durationSeconds v, tt))))))
    (fun value => MkStartAuctionInstructionData START_AUCTION_DISCRIMINATOR value).

Definition getStartAuctionInstructionDataDecoder `{Kit} : Decoder StartAuctionInstructionData :=
  asObject (getStructDecoder (
     "discriminator" ~> fixDecoderSize getBytesDecoder 8 ;;
     "reservePrice" ~> getU64Decoder ;;
     "minIncrement" ~> getU64Decoder ;;
     "durationSeconds" ~> getI64Decoder ;; SNil)%fields)
    (fun '(d, (x0, (x1, (x2, tt)))) =>
       MkStartAuctionInstructionData d (MkStartAuctionInstructionDataArgs x0 x1 x2)).

Definition StartAuction_ok `{Kit} (v : StartAuctionInstructionDataArgs) : Prop :=
  unsigned_ok 8 (reservePrice v) /\ unsigned_ok 8 (minIncrement v) /\ i64_ok (durationSeconds v).

Definition StartAuction_codec `{KitSpec} : ObjectCodec.
Proof.
  refine {| encoder := getStartAuctionInstructionDataEncoder; decoder := getStartAuctionInstructionDataDecoder;
            object := MkStartAuctionInstructionData START_AUCTION_DISCRIMINATOR; object_ok := StartAuction_ok; tag := START_AUCTION_DISCRIMINATOR |}.
  - object_codec_round_trip.
  - object_codec_tag.
Defined.

Module Accounts.
Record t := Mk {
  owner : AccountMeta; config : AccountMeta; nameRecord : AccountMeta; auction : AccountMeta;
  solansMint : AccountMeta; bidVault : AccountMeta; tokenProgram : AccountMeta;
  associatedTokenProgram : AccountMeta; systemProgram : AccountMeta
}.
End Accounts.

Record ParsedStartAuctionInstruction := MkParsedStartAuctionInstruction {
  programAddress : Address; accounts : Accounts.t; data : StartAuctionInstructionData
}.

Definition parseStartAuctionInstruction `{Kit} (instruction : Instruction)
    : result JsError ParsedStartAuctionInstruction :=
  if (length (Kit.accounts instruction) <? 9)%nat then
    Err (insufficientAccountMetas (Z.of_nat (length (Kit.accounts instruction))) 9)
  else
    '(owner, next) ← getNextAccount (Kit.accounts instruction);
    '(config, next) ← getNextAccount next;
    '(nameRecord, next) ← getNextAccount next;
    '(auction, next) ← getNextAccount next;
    '(solansMint, next) ← getNextAccount next;
    '(bidVault, next) ← getNextAccount next;
    '(tokenProgram, next) ← getNextAccount next;
    '(associatedTokenProgram, next) ← getNextAccount next;
    '(systemProgram, next) ← getNextAccount next;
    data ← decode getStartAuctionInstructionDataDecoder (Kit.data instruction);
    Ok (MkParsedStartAuctionInstruction (Kit.programAddress instruction)
       (Accounts.Mk owner config nameRecord auction solansMint bidVault tokenProgram associatedTokenProgram
        systemProgram) data).

Definition codec `{KitSpec} : InstructionCodec.
Proof.
  refine {| data_codec := StartAuction_codec; slots := [Required; Required; Required; Required; Required; Required; Required; Required; Required];
            parse := parseStartAuctionInstruction; parsed_program := programAddress;
            parsed_data := data : ParsedStartAuctionInstruction -> Obj StartAuction_codec;
            parsed_accounts := fun p =>
      [Some (Accounts.owner (accounts p)); Some (Accounts.config (accounts p));
       Some (Accounts.nameRecord (accounts p)); Some (Accounts.auction (accounts p));
       Some (Accounts.solansMint (accounts p)); Some (Accounts.bidVault (accounts p));
       Some (Accounts.tokenProgram (accounts p));
       Some (Accounts.associatedTokenProgram (accounts p));
       Some (Accounts.systemProgram (accounts p))] |}.
  parse_refines_tac. unfold parseStartAuctionInstruction. by destruct (decode _ _).
Defined.

End StartAuction.

(** ** instructions/bid.ts *)

Module Bid.

Definition BID_DISCRIMINATOR : bytes := [199; 56; 85; 38; 146; 243; 37; 158].

Record BidInstructionDataArgs := MkBidInstructionDataArgs {
  amount : Z
}.
Record BidInstructionData := MkBidInstructionData { discriminator : bytes; args :> BidInstructionDataArgs }.

Definition getBidInstructionDataEncoder `{Kit} : Encoder BidInstructionDataArgs :=
  transformEncoder (ofObject (getStructEncoder (
     "discriminator" ~> fixEncoderSize getBytesEncoder 8 ;;
     "amount" ~> getU64Encoder ;; SNil)%fields)
    (fun v : BidInstructionData => (discriminator v,
      (amount v, tt))))
    (fun value => MkBidInstructionData BID_DISCRIMINATOR value).

Definition getBidInstructionDataDecoder `{Kit} : Decoder BidInstructionData :=
  asObject (getStructDecoder (
     "discriminator" ~> fixDecoderSize getBytesDecoder 8 ;;
     "amount" ~> getU64Decoder ;; SNil)%fields)
    (fun '(d, (x0, tt)) =>
       MkBidInstructionData d (MkBidInstructionDataArgs x0)).

Definition Bid_ok `{Kit} (v : BidInstructionDataArgs) : Prop :=
  unsigned_ok 8 (amount v).

Definition Bid_codec `{KitSpec} : ObjectCodec.
Proof.
  refine {| encoder := getBidInstructionDataEncoder; decoder := getBidInstructionDataDecoder;
            object := MkBidInstructionData BID_DISCRIMINATOR; object_ok := Bid_ok; tag := BID_DISCRIMINATOR |}.
  - object_codec_round_trip.
  - object_codec_tag.
Defined.

Module Accounts.
Record t := Mk {
  bidder : AccountMeta; auction : AccountMeta; bidderSolansAccount : AccountMeta;
  prevBidderSolansAccount : option AccountMeta; bidVault : AccountMeta;
  solansMint : AccountMeta; tokenProgram : AccountMeta
}.
End Accounts.

Record ParsedBidInstruction := MkParsedBidInstruction {
  programAddress : Address; accounts : Accounts.t; data : BidInstructionData
}.

Definition parseBidInstruction `{Kit} (instruction : Instruction)
    : result JsError ParsedBidInstruction :=
  if (length (Kit.accounts instruction) <? 7)%nat then
    Err (insufficientAccountMetas (Z.of_nat (length (Kit.accounts instruction))) 7)
  else
    '(bidder, next) ← getNextAccount (Kit.accounts instruction);
    '(auction, next) ← getNextAccount next;
    '(bidderSolansAccount, next) ← getNextAccount next;
    '(prevBidderSolansAccount, next) ← getNextOptionalAccount next;
    '(bidVault, next) ← getNextAccount next;
    '(solansMint, next) ← getNextAccount next;
    '(tokenProgram, next) ← getNextAccount next;
    data ← decode getBidInstructionDataDecoder (Kit.data instruction);
    Ok (MkParsedBidInstruction (Kit.programAddress instruction)
       (Accounts.Mk bidder auction bidderSolansAccount prevBidderSolansAccount bidVault solansMint
        tokenProgram) data).

Definition codec `{KitSpec} : InstructionCodec.
Proof.
  refine {| data_codec := Bid_codec; slots := [Required; Required; Required; Optional; Required; Required; Required];
            parse := parseBidInstruction; parsed_program := programAddress;
            parsed_data := data : ParsedBidInstruction -> Obj Bid_codec;
            parsed_accounts := fun p =>
      [Some (Accounts.bidder (accounts p)); Some (Accounts.auction (accounts p));
       Some (Accounts.bidderSolansAccount (accounts p));
       Accounts.prevBidderSolansAccount (accounts p); Some (Accounts.bidVault (accounts p));
       Some (Accounts.solansMint (accounts p)); Some (Accounts.tokenProgram (accounts p))] |}.
  parse_refines_tac. unfold parseBidInstruction. by destruct (decode _ _).
Defined.

End Bid.

(** ** instructions/cancelAuction.ts *)

Module CancelAuction.

Definition CANCEL_AUCTION_DISCRIMINATOR : bytes := [156; 43; 197; 110; 218; 105; 143; 182].

Record CancelAuctionInstructionDataArgs := MkCancelAuctionInstructionDataArgs { }.
Record CancelAuctionInstructionData := MkCancelAuctionInstructionData { discriminator : bytes; args :> CancelAuctionInstructionDataArgs }.

Definition getCancelAuctionInstructionDataEncoder `{Kit} : Encoder CancelAuctionInstructionDataArgs :=
  transformEncoder (ofObject (getStructEncoder (
     "discriminator" ~> fixEncoderSize getBytesEncoder 8 ;; SNil)%fields)
    (fun v : CancelAuctionInstructionData => (discriminator v, tt)))
    (fun value => MkCancelAuctionInstructionData CANCEL_AUCTION_DISCRIMINATOR value).

Definition getCancelAuctionInstructionDataDecoder `{Kit} : Decoder CancelAuctionInstructionData :=
  asObject (getStructDecoder (
     "discriminator" ~> fixDecoderSize getBytesDecoder 8 ;; SNil)%fields)
    (fun '(d, tt) =>
       MkCancelAuctionInstructionData d (MkCancelAuctionInstructionDataArgs)).

Definition CancelAuction_ok `{Kit} (v : CancelAuctionInstructionDataArgs) : Prop :=
  True.

Definition CancelAuction_codec `{KitSpec} : ObjectCodec.
Proof.
  refine {| encoder := getCancelAuctionInstructionDataEncoder; decoder := getCancelAuctionInstructionDataDecoder;
            object := MkCancelAuctionInstructionData CANCEL_AUCTION_DISCRIMINATOR; object_ok := CancelAuction_ok; tag := CANCEL_AUCTION_DISCRIMINATOR |}.
  - object_codec_round_trip.
  - object_codec_tag.
Defined.

Module Accounts.
Record t := Mk {
  seller : AccountMeta; nameRecord : AccountMeta; auction : AccountMeta; bidVault : AccountMeta;
  tokenProgram : AccountMeta
}.
End Accounts.

Record ParsedCancelAuctionInstruction := MkParsedCancelAuctionInstruction {
  programAddress : Address; accounts : Accounts.t; data : CancelAuctionInstructionData
}.

Definition parseCancelAuctionInstruction `{Kit} (instruction : Instruction)
    : result JsError ParsedCancelAuctionInstruction :=
  if (length (Kit.accounts instruction) <? 5)%nat then
    Err (insufficientAccountMetas (Z.of_nat (length (Kit.accounts instruction))) 5)
  else
    '(seller, next) ← getNextAccount (Kit.accounts instruction);
    '(nameRecord, next) ← getNextAccount next;
    '(auction, next) ← getNextAccount next;
    '(bidVault, next) ← getNextAccount next;
    '(tokenProgram, next) ← getNextAccount next;
    data ← decode getCancelAuctionInstructionDataDecoder (Kit.data instruction);
    Ok (MkParsedCancelAuctionInstruction (Kit.programAddress instruction)
       (Accounts.Mk seller nameRecord auction bidVault tokenProgram) data).

Definition codec `{KitSpec} : InstructionCodec.
Proof.
  refine {| data_codec := CancelAuction_codec; slots := [Required; Required; Required; Required; Required];
            parse := parseCancelAuctionInstruction; parsed_program := programAddress;
            parsed_data := data : ParsedCancelAuctionInstruction -> Obj CancelAuction_codec;
            parsed_accounts := fun p =>
      [Some (Accounts.seller (accounts p)); Some (Accounts.nameRecord (accounts p));
       Some (Accounts.auction (accounts p)); Some (Accounts.bidVault (accounts p));
       Some (Accounts.tokenProgram (accounts p))] |}.
  parse_refines_tac. unfold parseCancelAuctionInstruction. by destruct (decode _ _).
Defined.

End CancelAuction.

(** ** instructions/settleAuction.ts *)

Module SettleAuction.

Definition SETTLE_AUCTION_DISCRIMINATOR : bytes := [246; 196; 183; 98; 222; 139; 46; 133].

Record SettleAuctionInstructionDataArgs := MkSettleAuctionInstructionDataArgs { }.
Record SettleAuctionInstructionData := MkSettleAuctionInstructionData { discriminator : bytes; args :> SettleAuctionInstructionDataArgs }.

Definition getSettleAuctionInstructionDataEncoder `{Kit} : Encoder SettleAuctionInstructionDataArgs :=
  transformEncoder (ofObject (getStructEncoder (
     "discriminator" ~> fixEncoderSize getBytesEncoder 8 ;; SNil)%fields)
    (fun v : SettleAuctionInstructionData => (discriminator v, tt)))
    (fun value => MkSettleAuctionInstructionData SETTLE_AUCTION_DISCRIMINATOR value).

Definition getSettleAuctionInstructionDataDecoder `{Kit} : Decoder SettleAuctionInstructionData :=
  asObject (getStructDecoder (
     "discriminator" ~> fixDecoderSize getBytesDecoder 8 ;; SNil)%fields)
    (fun '(d, tt) =>
       MkSettleAuctionInstructionData d (MkSettleAuctionInstructionDataArgs)).

Definition SettleAuction_ok `{Kit} (v : SettleAuctionInstructionDataArgs) : Prop :=
  True.

Definition SettleAuction_codec `{KitSpec} : ObjectCodec.
Proof.
  refine {| encoder := getSettleAuctionInstructionDataEncoder; decoder := getSettleAuctionInstructionDataDecoder;
            object := MkSettleAuctionInstructionData SETTLE_AUCTION_DISCRIMINATOR; object_ok := SettleAuction_ok; tag := SETTLE_AUCTION_DISCRIMINATOR |}.
  - object_codec_round_trip.
  - object_codec_tag.
Defined.

Module Accounts.
Record t := Mk {
  settler : AccountMeta; config : AccountMeta; seller : AccountMeta;
  sellerSolansAccount : option AccountMeta; nameRecord : AccountMeta; auction : AccountMeta;
  bidVault : AccountMeta; solansMint : AccountMeta; tokenProgram : AccountMeta
}.
End Accounts.

Record ParsedSettleAuctionInstruction := MkParsedSettleAuctionInstruction {
  programAddress : Address; accounts : Accounts.t; data : SettleAuctionInstructionData
}.

Definition parseSettleAuctionInstruction `{Kit} (instruction : Instruction)
    : result JsError ParsedSettleAuctionInstruction :=
  if (length (Kit.accounts instruction) <? 9)%nat then
    Err (insufficientAccountMetas (Z.of_nat (length (Kit.accounts instruction))) 9)
  else
    '(settler, next) ← getNextAccount (Kit.accounts instruction);
    '(config, next) ← getNextAccount next;
    '(seller, next) ← getNextAccount next;
    '(sellerSolansAccount, next) ← getNextOptionalAccount next;
    '(nameRecord, next) ← getNextAccount next;
    '(auction, next) ← getNextAccount next;
    '(bidVault, next) ← getNextAccount next;
    '(solansMint, next) ← getNextAccount next;
    '(tokenProgram, next) ← getNextAccount next;
    data ← decode getSettleAuctionInstructionDataDecoder (Kit.data instruction);
    Ok (MkParsedSettleAuctionInstruction (Kit.programAddress instruction)
       (Accounts.Mk settler config seller sellerSolansAccount nameRecord auction bidVault solansMint
        tokenProgram) data).

Definition codec `{KitSpec} : InstructionCodec.
Proof.
  refine {| data_codec := SettleAuction_codec; slots := [Required; Required; Required; Optional; Required; Required; Required; Required; Required];
            parse := parseSettleAuctionInstruction; parsed_program := programAddress;
            parsed_data := data : ParsedSettleAuctionInstruction -> Obj SettleAuction_codec;
            parsed_accounts := fun p =>
      [Some (Accounts.settler (accounts p)); Some (Accounts.config (accounts p));
       Some (Accounts.seller (accounts p)); Accounts.sellerSolansAccount (accounts p);
       Some (Accounts.nameRecord (accounts p)); Some (Accounts.auction (accounts p));
       Some (Accounts.bidVault (accounts p)); Some (Accounts.solansMint (accounts p));
       Some (Accounts.tokenProgram (accounts p))] |}.
  parse_refines_tac. unfold parseSettleAuctionInstruction. by destruct (decode _ _).
Defined.

End SettleAuction.
