(* ===== verification/TokenInstructions.v ===== *)
(** * Instructions for the configuration and the $SOLANS token: payment, buyback and staking

    One Module per file of src/clients/ts/src/generated/instructions: the data
    record with its encoder and decoder, the named accounts, the parsed object
    and the parse function, account by account.  Each Module ends with its
    [InstructionCodec]: the laws of the pair and the refinement of [parse_spec]. *)
From S2P Require Import Prelude JsString Kit Pdas Instruction.

(** ** instructions/initConfig.ts *)

Module InitConfig.

Definition INIT_CONFIG_DISCRIMINATOR : bytes := [23; 235; 115; 232; 168; 96; 1; 231].

Record InitConfigInstructionDataArgs := MkInitConfigInstructionDataArgs {
  price1 : Z; price2 : Z; price3 : Z; price4 : Z; price5plus : Z; priceNumeric : Z;
  gracePeriodSeconds : Z; minYears : Z; maxYears : Z; solTreasury : Address;
  marketplaceFeeBps : Z; stakingFeeBps : Z; referralFeeBps : Z; burnFeeBps : Z
}.
Record InitConfigInstructionData := MkInitConfigInstructionData { discriminator : bytes; args :> InitConfigInstructionDataArgs }.

Definition getInitConfigInstructionDataEncoder `{Kit} : Encoder InitConfigInstructionDataArgs :=
  transformEncoder (ofObject (getStructEncoder (
     "discriminator" ~> fixEncoderSize getBytesEncoder 8 ;;
     "price1" ~> getU64Encoder ;;
     "price2" ~> getU64Encoder ;;
     "price3" ~> getU64Encoder ;;
     "price4" ~> getU64Encoder ;;
     "price5plus" ~> getU64Encoder ;;
     "priceNumeric" ~> getU64Encoder ;;
     "gracePeriodSeconds" ~> getI64Encoder ;;
     "minYears" ~> getU16Encoder ;;
     "maxYears" ~> getU16Encoder ;;
     "solTreasury" ~> getAddressEncoder ;;
     "marketplaceFeeBps" ~> getU16Encoder ;;
     "stakingFeeBps" ~> getU16Encoder ;;
     "referralFeeBps" ~> getU16Encoder ;;
     "burnFeeBps" ~> getU16Encoder ;; SNil)%fields)
    (fun v : InitConfigInstructionData => (discriminator v,
      (price1 v, (price2 v, (price3 v, (price4 v, (price5plus v, (priceNumeric v,
      (gracePeriodSeconds v, (minYears v, (maxYears v, (solTreasury v, (marketplaceFeeBps v,
      (stakingFeeBps v, (referralFeeBps v, (burnFeeBps v, tt)))))))))))))))))
    (fun value => MkInitConfigInstructionData INIT_CONFIG_DISCRIMINATOR value).

Definition getInitConfigInstructionDataDecoder `{Kit} : Decoder InitConfigInstructionData :=
  asObject (getStructDecoder (
     "discriminator" ~> fixDecoderSize getBytesDecoder 8 ;;
     "price1" ~> getU64Decoder ;;
     "price2" ~> getU64Decoder ;;
     "price3" ~> getU64Decoder ;;
     "price4" ~> getU64Decoder ;;
     "price5plus" ~> getU64Decoder ;;
     "priceNumeric" ~> getU64Decoder ;;
     "gracePeriodSeconds" ~> getI64Decoder ;;
     "minYears" ~> getU16Decoder ;;
     "maxYears" ~> getU16Decoder ;;
     "solTreasury" ~> getAddressDecoder ;;
     "marketplaceFeeBps" ~> getU16Decoder ;;
     "stakingFeeBps" ~> getU16Decoder ;;
     "referralFeeBps" ~> getU16Decoder ;;
     "burnFeeBps" ~> getU16Decoder ;; SNil)%fields)
    (fun '(d, (x0, (x1, (x2, (x3, (x4, (x5, (x6, (x7, (x8, (x9, (x10, (x11, (x12, (x13, tt))))))))))))))) =>
       MkInitConfigInstructionData d (MkInitConfigInstructionDataArgs x0 x1 x2 x3 x4 x5 x6 x7 x8 x9 x10 x11 x12 x13)).

Definition InitConfig_ok `{Kit} (v : InitConfigInstructionDataArgs) : Prop :=
  unsigned_ok 8 (price1 v) /\ unsigned_ok 8 (price2 v) /\ unsigned_ok 8 (price3 v) /\
  unsigned_ok 8 (price4 v) /\ unsigned_ok 8 (price5plus v) /\ unsigned_ok 8 (priceNumeric v) /\
  i64_ok (gracePeriodSeconds v) /\ unsigned_ok 2 (minYears v) /\ unsigned_ok 2 (maxYears v) /\
  address_ok (solTreasury v) /\ unsigned_ok 2 (marketplaceFeeBps v) /\
  unsigned_ok 2 (stakingFeeBps v) /\ unsigned_ok 2 (referralFeeBps v) /\
  unsigned_ok 2 (burnFeeBps v).

Definition InitConfig_codec `{KitSpec} : ObjectCodec.
Proof.
  refine {| encoder := getInitConfigInstructionDataEncoder; decoder := getInitConfigInstructionDataDecoder;
            object := MkInitConfigInstructionData INIT_CONFIG_DISCRIMINATOR; object_ok := InitConfig_ok; tag := INIT_CONFIG_DISCRIMINATOR |}.
  - object_codec_round_trip.
  - object_codec_tag.
Defined.

Module Accounts.
Record t := Mk {
  admin : AccountMeta; config : AccountMeta; paymentMint : AccountMeta;
  treasuryTokenAccount : AccountMeta; stakingVault : AccountMeta; burnVault : AccountMeta;
  tokenProgram : AccountMeta; systemProgram : AccountMeta
}.
End Accounts.

Record ParsedInitConfigInstruction := MkParsedInitConfigInstruction {
  programAddress : Address; accounts : Accounts.t; data : InitConfigInstructionData
}.

Definition parseInitConfigInstruction `{Kit} (instruction : Instruction)
    : result JsError ParsedInitConfigInstruction :=
  if (length (Kit.accounts instruction) <? 8)%nat then
    Err (insufficientAccountMetas (Z.of_nat (length (Kit.accounts instruction))) 8)
  else
    '(admin, next) ← getNextAccount (Kit.accounts instruction);
    '(config, next) ← getNextAccount next;
    '(paymentMint, next) ← getNextAccount next;
    '(treasuryTokenAccount, next) ← getNextAccount next;
    '(stakingVault, next) ← getNextAccount next;
    '(burnVault, next) ← getNextAccount next;
    '(tokenProgram, next) ← getNextAccount next;
    '(systemProgram, next) ← getNextAccount next;
    data ← decode getInitConfigInstructionDataDecoder (Kit.data instruction);
    Ok (MkParsedInitConfigInstruction (Kit.programAddress instruction)
       (Accounts.Mk admin config paymentMint treasuryTokenAccount stakingVault burnVault tokenProgram
        systemProgram) data).

Definition codec `{KitSpec} : InstructionCodec.
Proof.
  refine {| data_codec := InitConfig_codec; slots := [Required; Required; Required; Required; Required; Required; Required; Required];
            parse := parseInitConfigInstruction; parsed_program := programAddress;
            parsed_data := data : ParsedInitConfigInstruction -> Obj InitConfig_codec;
            parsed_accounts := fun p =>
      [Some (Accounts.admin (accounts p)); Some (Accounts.config (accounts p));
       Some (Accounts.paymentMint (accounts p));
       Some (Accounts.treasuryTokenAccount (accounts p));
       Some (Accounts.stakingVault (accounts p)); Some (Accounts.burnVault (accounts p));
       Some (Accounts.tokenProgram (accounts p)); Some (Accounts.systemProgram (accounts p))] |}.
  parse_refines_tac. unfold parseInitConfigInstruction. by destruct (decode _ _).
Defined.

End InitConfig.

(** ** instructions/updateConfig.ts *)

Module UpdateConfig.

Definition UPDATE_CONFIG_DISCRIMINATOR : bytes := [29; 158; 252; 191; 10; 83; 219; 99].

Record UpdateConfigInstructionDataArgs := MkUpdateConfigInstructionDataArgs {
  price1 : Z; price2 : Z; price3 : Z; price4 : Z; price5plus : Z; priceNumeric : Z;
  gracePeriodSeconds : Z; minYears : Z; maxYears : Z; solTreasury : Address;
  marketplaceFeeBps : Z; stakingFeeBps : Z; referralFeeBps : Z; burnFeeBps : Z
}.
Record UpdateConfigInstructionData := MkUpdateConfigInstructionData { discriminator : bytes; args :> UpdateConfigInstructionDataArgs }.

Definition getUpdateConfigInstructionDataEncoder `{Kit} : Encoder UpdateConfigInstructionDataArgs :=
  transformEncoder (ofObject (getStructEncoder (
     "discriminator" ~> fixEncoderSize getBytesEncoder 8 ;;
     "price1" ~> getU64Encoder ;;
     "price2" ~> getU64Encoder ;;
     "price3" ~> getU64Encoder ;;
     "price4" ~> getU64Encoder ;;
     "price5plus" ~> getU64Encoder ;;
     "priceNumeric" ~> getU64Encoder ;;
     "gracePeriodSeconds" ~> getI64Encoder ;;
     "minYears" ~> getU16Encoder ;;
     "maxYears" ~> getU16Encoder ;;
     "solTreasury" ~> getAddressEncoder ;;
     "marketplaceFeeBps" ~> getU16Encoder ;;
     "stakingFeeBps" ~> getU16Encoder ;;
     "referralFeeBps" ~> getU16Encoder ;;
     "burnFeeBps" ~> getU16Encoder ;; SNil)%fields)
    (fun v : UpdateConfigInstructionData => (discriminator v,
      (price1 v, (price2 v, (price3 v, (price4 v, (price5plus v, (priceNumeric v,
      (gracePeriodSeconds v, (minYears v, (maxYears v, (solTreasury v, (marketplaceFeeBps v,
      (stakingFeeBps v, (referralFeeBps v, (burnFeeBps v, tt)))))))))))))))))
    (fun value => MkUpdateConfigInstructionData UPDATE_CONFIG_DISCRIMINATOR value).

Definition getUpdateConfigInstructionDataDecoder `{Kit} : Decoder UpdateConfigInstructionData :=
  asObject (getStructDecoder (
     "discriminator" ~> fixDecoderSize getBytesDecoder 8 ;;
     "price1" ~> getU64Decoder ;;
     "price2" ~> getU64Decoder ;;
     "price3" ~> getU64Decoder ;;
     "price4" ~> getU64Decoder ;;
     "price5plus" ~> getU64Decoder ;;
     "priceNumeric" ~> getU64Decoder ;;
     "gracePeriodSeconds" ~> getI64Decoder ;;
     "minYears" ~> getU16Decoder ;;
     "maxYears" ~> getU16Decoder ;;
     "solTreasury" ~> getAddressDecoder ;;
     "marketplaceFeeBps" ~> getU16Decoder ;;
     "stakingFeeBps" ~> getU16Decoder ;;
     "referralFeeBps" ~> getU16Decoder ;;
     "burnFeeBps" ~> getU16Decoder ;; SNil)%fields)
    (fun '(d, (x0, (x1, (x2, (x3, (x4, (x5, (x6, (x7, (x8, (x9, (x10, (x11, (x12, (x13, tt))))))))))))))) =>
       MkUpdateConfigInstructionData d (MkUpdateConfigInstructionDataArgs x0 x1 x2 x3 x4 x5 x6 x7 x8 x9 x10 x11 x12 x13)).

Definition UpdateConfig_ok `{Kit} (v : UpdateConfigInstructionDataArgs) : Prop :=
  unsigned_ok 8 (price1 v) /\ unsigned_ok 8 (price2 v) /\ unsigned_ok 8 (price3 v) /\
  unsigned_ok 8 (price4 v) /\ unsigned_ok 8 (price5plus v) /\ unsigned_ok 8 (priceNumeric v) /\
  i64_ok (gracePeriodSeconds v) /\ unsigned_ok 2 (minYears v) /\ unsigned_ok 2 (maxYears v) /\
  address_ok (solTreasury v) /\ unsigned_ok 2 (marketplaceFeeBps v) /\
  unsigned_ok 2 (stakingFeeBps v) /\ unsigned_ok 2 (referralFeeBps v) /\
  unsigned_ok 2 (burnFeeBps v).

Definition UpdateConfig_codec `{KitSpec} : ObjectCodec.
Proof.
  refine {| encoder := getUpdateConfigInstructionDataEncoder; decoder := getUpdateConfigInstructionDataDecoder;
            object := MkUpdateConfigInstructionData UPDATE_CONFIG_DISCRIMINATOR; object_ok := UpdateConfig_ok; tag := UPDATE_CONFIG_DISCRIMINATOR |}.
  - object_codec_round_trip.
  - object_codec_tag.
Defined.

Module Accounts.
Record t := Mk {
  admin : AccountMeta; config : AccountMeta
}.
End Accounts.

Record ParsedUpdateConfigInstruction := MkParsedUpdateConfigInstruction {
  programAddress : Address; accounts : Accounts.t; data : UpdateConfigInstructionData
}.

Definition parseUpdateConfigInstruction `{Kit} (instruction : Instruction)
    : result JsError ParsedUpdateConfigInstruction :=
  if (length (Kit.accounts instruction) <? 2)%nat then
    Err (insufficientAccountMetas (Z.of_nat (length (Kit.accounts instruction))) 2)
  else
    '(admin, next) ← getNextAccount (Kit.accounts instruction);
    '(config, next) ← getNextAccount next;
    data ← decode getUpdateConfigInstructionDataDecoder (Kit.data instruction);
    Ok (MkParsedUpdateConfigInstruction (Kit.programAddress instruction)
       (Accounts.Mk admin config) data).

Definition codec `{KitSpec} : InstructionCodec.
Proof.
  refine {| data_codec := UpdateConfig_codec; slots := [Required; Required];
            parse := parseUpdateConfigInstruction; parsed_program := programAddress;
            parsed_data := data : ParsedUpdateConfigInstruction -> Obj UpdateConfig_codec;
            parsed_accounts := fun p =>
      [Some (Accounts.admin (accounts p)); Some (Accounts.config (accounts p))] |}.
  parse_refines_tac. unfold parseUpdateConfigInstruction. by destruct (decode _ _).
Defined.

End UpdateConfig.

(** ** instructions/transferAdmin.ts *)

Module TransferAdmin.

Definition TRANSFER_ADMIN_DISCRIMINATOR : bytes := [42; 242; 66; 106; 228; 10; 111; 156].

Record TransferAdminInstructionDataArgs := MkTransferAdminInstructionDataArgs {
  newAdmin : Address
}.
Record TransferAdminInstructionData := MkTransferAdminInstructionData { discriminator : bytes; args :> TransferAdminInstructionDataArgs }.

Definition getTransferAdminInstructionDataEncoder `{Kit} : Encoder TransferAdminInstructionDataArgs :=
  transformEncoder (ofObject (getStructEncoder (
     "discriminator" ~> fixEncoderSize getBytesEncoder 8 ;;
     "newAdmin" ~> getAddressEncoder ;; SNil)%fields)
    (fun v : TransferAdminInstructionData => (discriminator v,
      (newAdmin v, tt))))
    (fun value => MkTransferAdminInstructionData TRANSFER_ADMIN_DISCRIMINATOR value).

Definition getTransferAdminInstructionDataDecoder `{Kit} : Decoder TransferAdminInstructionData :=
  asObject (getStructDecoder (
     "discriminator" ~> fixDecoderSize getBytesDecoder 8 ;;
     "newAdmin" ~> getAddressDecoder ;; SNil)%fields)
    (fun '(d, (x0, tt)) =>
       MkTransferAdminInstructionData d (MkTransferAdminInstructionDataArgs x0)).

Definition TransferAdmin_ok `{Kit} (v : TransferAdminInstructionDataArgs) : Prop :=
  address_ok (newAdmin v).

Definition TransferAdmin_codec `{KitSpec} : ObjectCodec.
Proof.
  refine {| encoder := getTransferAdminInstructionDataEncoder; decoder := getTransferAdminInstructionDataDecoder;
            object := MkTransferAdminInstructionData TRANSFER_ADMIN_DISCRIMINATOR; object_ok := TransferAdmin_ok; tag := TRANSFER_ADMIN_DISCRIMINATOR |}.
  - object_codec_round_trip.
  - object_codec_tag.
Defined.

Module Accounts.
Record t := Mk {
  admin : AccountMeta; config : AccountMeta
}.
End Accounts.

Record ParsedTransferAdminInstruction := MkParsedTransferAdminInstruction {
  programAddress : Address; accounts : Accounts.t; data : TransferAdminInstructionData
}.

Definition parseTransferAdminInstruction `{Kit} (instruction : Instruction)
    : result JsError ParsedTransferAdminInstruction :=
  if (length (Kit.accounts instruction) <? 2)%nat then
    Err (insufficientAccountMetas (Z.of_nat (length (Kit.accounts instruction))) 2)
  else
    '(admin, next) ← getNextAccount (Kit.accounts instruction);
    '(config, next) ← getNextAccount next;
    data ← decode getTransferAdminInstructionDataDecoder (Kit.data instruction);
    Ok (MkParsedTransferAdminInstruction (Kit.programAddress instruction)
       (Accounts.Mk admin config) data).

Definition codec `{KitSpec} : InstructionCodec.
Proof.
  refine {| data_codec := TransferAdmin_codec; slots := [Required; Required];
            parse := parseTransferAdminInstruction; parsed_program := programAddress;
            parsed_data := data : ParsedTransferAdminInstruction -> Obj TransferAdmin_codec;
            parsed_accounts := fun p =>
      [Some (Accounts.admin (accounts p)); Some (Accounts.config (accounts p))] |}.
  parse_refines_tac. unfold parseTransferAdminInstruction. by destruct (decode _ _).
Defined.

End TransferAdmin.

(** ** instructions/initBurnPool.ts *)

Module InitBurnPool.

Definition INIT_BURN_POOL_DISCRIMINATOR : bytes := [133; 239; 244; 64; 49; 161; 219; 25].

Record InitBurnPoolInstructionDataArgs := MkInitBurnPoolInstructionDataArgs { }.
Record InitBurnPoolInstructionData := MkInitBurnPoolInstructionData { discriminator : bytes; args :> InitBurnPoolInstructionDataArgs }.

Definition getInitBurnPoolInstructionDataEncoder `{Kit} : Encoder InitBurnPoolInstructionDataArgs :=
  transformEncoder (ofObject (getStructEncoder (
     "discriminator" ~> fixEncoderSize getBytesEncoder 8 ;; SNil)%fields)
    (fun v : InitBurnPoolInstructionData => (discriminator v, tt)))
    (fun value => MkInitBurnPoolInstructionData INIT_BURN_POOL_DISCRIMINATOR value).

Definition getInitBurnPoolInstructionDataDecoder `{Kit} : Decoder InitBurnPoolInstructionData :=
  asObject (getStructDecoder (
     "discriminator" ~> fixDecoderSize getBytesDecoder 8 ;; SNil)%fields)
    (fun '(d, tt) =>
       MkInitBurnPoolInstructionData d (MkInitBurnPoolInstructionDataArgs)).

Definition InitBurnPool_ok `{Kit} (v : InitBurnPoolInstructionDataArgs) : Prop :=
  True.

Definition InitBurnPool_codec `{KitSpec} : ObjectCodec.
Proof.
  refine {| encoder := getInitBurnPoolInstructionDataEncoder; decoder := getInitBurnPoolInstructionDataDecoder;
            object := MkInitBurnPoolInstructionData INIT_BURN_POOL_DISCRIMINATOR; object_ok := InitBurnPool_ok; tag := INIT_BURN_POOL_DISCRIMINATOR |}.
  - object_codec_round_trip.
  - object_codec_tag.
Defined.

Module Accounts.
Record t := Mk {
  admin : AccountMeta; config : AccountMeta; solansMint : AccountMeta; paymentMint : AccountMeta;
  burnVault : AccountMeta; tokenProgram : AccountMeta; associatedTokenProgram : AccountMeta;
  systemProgram : AccountMeta
}.
End Accounts.

Record ParsedInitBurnPoolInstruction := MkParsedInitBurnPoolInstruction {
  programAddress : Address; accounts : Accounts.t; data : InitBurnPoolInstructionData
}.

Definition parseInitBurnPoolInstruction `{Kit} (instruction : Instruction)
    : result JsError ParsedInitBurnPoolInstruction :=
  if (length (Kit.accounts instruction) <? 8)%nat then
    Err (insufficientAccountMetas (Z.of_nat (length (Kit.accounts instruction))) 8)
  else
    '(admin, next) ← getNextAccount (Kit.accounts instruction);
    '(config, next) ← getNextAccount next;
    '(solansMint, next) ← getNextAccount next;
    '(paymentMint, next) ← getNextAccount next;
    '(burnVault, next) ← getNextAccount next;
    '(tokenProgram, next) ← getNextAccount next;
    '(associatedTokenProgram, next) ← getNextAccount next;
    '(systemProgram, next) ← getNextAccount next;
    data ← decode getInitBurnPoolInstructionDataDecoder (Kit.data instruction);
    Ok (MkParsedInitBurnPoolInstruction (Kit.programAddress instruction)
       (Accounts.Mk admin config solansMint paymentMint burnVault tokenProgram associatedTokenProgram
        systemProgram) data).

Definition codec `{KitSpec} : InstructionCodec.
Proof.
  refine {| data_codec := InitBurnPool_codec; slots := [Required; Required; Required; Required; Required; Required; Required; Required];
            parse := parseInitBurnPoolInstruction; parsed_program := programAddress;
            parsed_data := data : ParsedInitBurnPoolInstruction -> Obj InitBurnPool_codec;
            parsed_accounts := fun p =>
      [Some (Accounts.admin (accounts p)); Some (Accounts.config (accounts p));
       Some (Accounts.solansMint (accounts p)); Some (Accounts.paymentMint (accounts p));
       Some (Accounts.burnVault (accounts p)); Some (Accounts.tokenProgram (accounts p));
       Some (Accounts.associatedTokenProgram (accounts p));
       Some (Accounts.systemProgram (accounts p))] |}.
  parse_refines_tac. unfold parseInitBurnPoolInstruction. by destruct (decode _ _).
Defined.

End InitBurnPool.

(** ** instructions/setSolansParams.ts *)

Module SetSolansParams.

Definition SET_SOLANS_PARAMS_DISCRIMINATOR : bytes := [91; 68; 181; 191; 248; 118; 235; 102].

Record SetSolansParamsInstructionDataArgs := MkSetSolansParamsInstructionDataArgs {
  solansRate : Z; solansDiscountBps : Z
}.
Record SetSolansParamsInstructionData := MkSetSolansParamsInstructionData { discriminator : bytes; args :> SetSolansParamsInstructionDataArgs }.

Definition getSetSolansParamsInstructionDataEncoder `{Kit} : Encoder SetSolansParamsInstructionDataArgs :=
  transformEncoder (ofObject (getStructEncoder (
     "discriminator" ~> fixEncoderSize getBytesEncoder 8 ;;
     "solansRate" ~> getU64Encoder ;;
     "solansDiscountBps" ~> getU16Encoder ;; SNil)%fields)
    (fun v : SetSolansParamsInstructionData => (discriminator v,
      (solansRate v, (solansDiscountBps v, tt)))))
    (fun value => MkSetSolansParamsInstructionData SET_SOLANS_PARAMS_DISCRIMINATOR value).

Definition getSetSolansParamsInstructionDataDecoder `{Kit} : Decoder SetSolansParamsInstructionData :=
  asObject (getStructDecoder (
     "discriminator" ~> fixDecoderSize getBytesDecoder 8 ;;
     "solansRate" ~> getU64Decoder ;;
     "solansDiscountBps" ~> getU16Decoder ;; SNil)%fields)
    (fun '(d, (x0, (x1, tt))) =>
       MkSetSolansParamsInstructionData d (MkSetSolansParamsInstructionDataArgs x0 x1)).

Definition SetSolansParams_ok `{Kit} (v : SetSolansParamsInstructionDataArgs) : Prop :=
  unsigned_ok 8 (solansRate v) /\ unsigned_ok 2 (solansDiscountBps v).

Definition SetSolansParams_codec `{KitSpec} : ObjectCodec.
Proof.
  refine {| encoder := getSetSolansParamsInstructionDataEncoder; decoder := getSetSolansParamsInstructionDataDecoder;
            object := MkSetSolansParamsInstructionData SET_SOLANS_PARAMS_DISCRIMINATOR; object_ok := SetSolansParams_ok; tag := SET_SOLANS_PARAMS_DISCRIMINATOR |}.
  - object_codec_round_trip.
  - object_codec_tag.
Defined.

Module Accounts.
Record t := Mk {
  admin : AccountMeta; config : AccountMeta
}.
End Accounts.

Record ParsedSetSolansParamsInstruction := MkParsedSetSolansParamsInstruction {
  programAddress : Address; accounts : Accounts.t; data : SetSolansParamsInstructionData
}.

Definition parseSetSolansParamsInstruction `{Kit} (instruction : Instruction)
    : result JsError ParsedSetSolansParamsInstruction :=
  if (length (Kit.accounts instruction) <? 2)%nat then
    Err (insufficientAccountMetas (Z.of_nat (length (Kit.accounts instruction))) 2)
  else
    '(admin, next) ← getNextAccount (Kit.accounts instruction);
    '(config, next) ← getNextAccount next;
    data ← decode getSetSolansParamsInstructionDataDecoder (Kit.data instruction);
    Ok (MkParsedSetSolansParamsInstruction (Kit.programAddress instruction)
       (Accounts.Mk admin config) data).

Definition codec `{KitSpec} : InstructionCodec.
Proof.
  refine {| data_codec := SetSolansParams_codec; slots := [Required; Required];
            parse := parseSetSolansParamsInstruction; parsed_program := programAddress;
            parsed_data := data : ParsedSetSolansParamsInstruction -> Obj SetSolansParams_codec;
            parsed_accounts := fun p =>
      [Some (Accounts.admin (accounts p)); Some (Accounts.config (accounts p))] |}.
  parse_refines_tac. unfold parseSetSolansParamsInstruction. by destruct (decode _ _).
Defined.

End SetSolansParams.

(** ** instructions/registerWithSolans.ts *)

Module RegisterWithSolans.

Definition REGISTER_WITH_SOLANS_DISCRIMINATOR : bytes := [16; 245; 158; 68; 101; 91; 138; 215].

Record RegisterWithSolansInstructionDataArgs := MkRegisterWithSolansInstructionDataArgs {
  name : jsstring; tld : jsstring; nameHash : bytes; years : Z
}.
Record RegisterWithSolansInstructionData := MkRegisterWithSolansInstructionData { discriminator : bytes; args :> RegisterWithSolansInstructionDataArgs }.

Definition getRegisterWithSolansInstructionDataEncoder `{Kit} : Encoder RegisterWithSolansInstructionDataArgs :=
  transformEncoder (ofObject (getStructEncoder (
     "discriminator" ~> fixEncoderSize getBytesEncoder 8 ;;
     "name" ~> addEncoderSizePrefix getUtf8Encoder getU32Encoder ;;
     "tld" ~> addEncoderSizePrefix getUtf8Encoder getU32Encoder ;;
     "nameHash" ~> fixEncoderSize getBytesEncoder 32 ;;
     "years" ~> getU16Encoder ;; SNil)%fields)
    (fun v : RegisterWithSolansInstructionData => (discriminator v,
      (name v, (tld v, (nameHash v, (years v, tt)))))))
    (fun value => MkRegisterWithSolansInstructionData REGISTER_WITH_SOLANS_DISCRIMINATOR value).

Definition getRegisterWithSolansInstructionDataDecoder `{Kit} : Decoder RegisterWithSolansInstructionData :=
  asObject (getStructDecoder (
     "discriminator" ~> fixDecoderSize getBytesDecoder 8 ;;
     "name" ~> addDecoderSizePrefix getUtf8Decoder getU32Decoder ;;
     "tld" ~> addDecoderSizePrefix getUtf8Decoder getU32Decoder ;;
     "nameHash" ~> fixDecoderSize getBytesDecoder 32 ;;
     "years" ~> getU16Decoder ;; SNil)%fields)
    (fun '(d, (x0, (x1, (x2, (x3, tt))))) =>
       MkRegisterWithSolansInstructionData d (MkRegisterWithSolansInstructionDataArgs x0 x1 x2 x3)).

Definition RegisterWithSolans_ok `{Kit} (v : RegisterWithSolansInstructionDataArgs) : Prop :=
  string_ok (name v) /\ string_ok (tld v) /\ length (nameHash v) = 32%nat /\
  unsigned_ok 2 (years v).

Definition RegisterWithSolans_codec `{KitSpec} : ObjectCodec.
Proof.
  refine {| encoder := getRegisterWithSolansInstructionDataEncoder; decoder := getRegisterWithSolansInstructionDataDecoder;
            object := MkRegisterWithSolansInstructionData REGISTER_WITH_SOLANS_DISCRIMINATOR; object_ok := RegisterWithSolans_ok; tag := REGISTER_WITH_SOLANS_DISCRIMINATOR |}.
  - object_codec_round_trip.
  - object_codec_tag.
Defined.

Module Accounts.
Record t := Mk {
  payer : AccountMeta; owner : AccountMeta; config : AccountMeta; nameRecord : AccountMeta;
  payerSolansAccount : AccountMeta; solansMint : AccountMeta; tokenProgram : AccountMeta;
  systemProgram : AccountMeta
}.
End Accounts.

Record ParsedRegisterWithSolansInstruction := MkParsedRegisterWithSolansInstruction {
  programAddress : Address; accounts : Accounts.t; data : RegisterWithSolansInstructionData
}.

Definition parseRegisterWithSolansInstruction `{Kit} (instruction : Instruction)
    : result JsError ParsedRegisterWithSolansInstruction :=
  if (length (Kit.accounts instruction) <? 8)%nat then
    Err (insufficientAccountMetas (Z.of_nat (length (Kit.accounts instruction))) 8)
  else
    '(payer, next) ← getNextAccount (Kit.accounts instruction);
    '(owner, next) ← getNextAccount next;
    '(config, next) ← getNextAccount next;
    '(nameRecord, next) ← getNextAccount next;
    '(payerSolansAccount, next) ← getNextAccount next;
    '(solansMint, next) ← getNextAccount next;
    '(tokenProgram, next) ← getNextAccount next;
    '(systemProgram, next) ← getNextAccount next;
    data ← decode getRegisterWithSolansInstructionDataDecoder (Kit.data instruction);
    Ok (MkParsedRegisterWithSolansInstruction (Kit.programAddress instruction)
       (Accounts.Mk payer owner config nameRecord payerSolansAccount solansMint tokenProgram systemProgram) data).

Definition codec `{KitSpec} : InstructionCodec.
Proof.
  refine {| data_codec := RegisterWithSolans_codec; slots := [Required; Required; Required; Required; Required; Required; Required; Required];
            parse := parseRegisterWithSolansInstruction; parsed_program := programAddress;
            parsed_data := data : ParsedRegisterWithSolansInstruction -> Obj RegisterWithSolans_codec;
            parsed_accounts := fun p =>
      [Some (Accounts.payer (accounts p)); Some (Accounts.owner (accounts p));
       Some (Accounts.config (accounts p)); Some (Accounts.nameRecord (accounts p));
       Some (Accounts.payerSolansAccount (accounts p)); Some (Accounts.solansMint (accounts p));
       Some (Accounts.tokenProgram (accounts p)); Some (Accounts.systemProgram (accounts p))] |}.
  parse_refines_tac. unfold parseRegisterWithSolansInstruction. by destruct (decode _ _).
Defined.

End RegisterWithSolans.

(** ** instructions/renewWithSolans.ts *)

Module RenewWithSolans.

Definition RENEW_WITH_SOLANS_DISCRIMINATOR : bytes := [216; 153; 16; 43; 181; 31; 35; 80].

Record RenewWithSolansInstructionDataArgs := MkRenewWithSolansInstructionDataArgs {
  name : jsstring; tld : jsstring; years : Z
}.
Record RenewWithSolansInstructionData := MkRenewWithSolansInstructionData { discriminator : bytes; args :> RenewWithSolansInstructionDataArgs }.

Definition getRenewWithSolansInstructionDataEncoder `{Kit} : Encoder RenewWithSolansInstructionDataArgs :=
  transformEncoder (ofObject (getStructEncoder (
     "discriminator" ~> fixEncoderSize getBytesEncoder 8 ;;
     "name" ~> addEncoderSizePrefix getUtf8Encoder getU32Encoder ;;
     "tld" ~> addEncoderSizePrefix getUtf8Encoder getU32Encoder ;;
     "years" ~> getU16Encoder ;; SNil)%fields)
    (fun v : RenewWithSolansInstructionData => (discriminator v,
      (name v, (tld v, (years v, tt))))))
    (fun value => MkRenewWithSolansInstructionData RENEW_WITH_SOLANS_DISCRIMINATOR value).

Definition getRenewWithSolansInstructionDataDecoder `{Kit} : Decoder RenewWithSolansInstructionData :=
  asObject (getStructDecoder (
     "discriminator" ~> fixDecoderSize getBytesDecoder 8 ;;
     "name" ~> addDecoderSizePrefix getUtf8Decoder getU32Decoder ;;
     "tld" ~> addDecoderSizePrefix getUtf8Decoder getU32Decoder ;;
     "years" ~> getU16Decoder ;; SNil)%fields)
    (fun '(d, (x0, (x1, (x2, tt)))) =>
       MkRenewWithSolansInstructionData d (MkRenewWithSolansInstructionDataArgs x0 x1 x2)).

Definition RenewWithSolans_ok `{Kit} (v : RenewWithSolansInstructionDataArgs) : Prop :=
  string_ok (name v) /\ string_ok (tld v) /\ unsigned_ok 2 (years v).

Definition RenewWithSolans_codec `{KitSpec} : ObjectCodec.
Proof.
  refine {| encoder := getRenewWithSolansInstructionDataEncoder; decoder := getRenewWithSolansInstructionDataDecoder;
            object := MkRenewWithSolansInstructionData RENEW_WITH_SOLANS_DISCRIMINATOR; object_ok := RenewWithSolans_ok; tag := RENEW_WITH_SOLANS_DISCRIMINATOR |}.
  - object_codec_round_trip.
  - object_codec_tag.
Defined.

Module Accounts.
Record t := Mk {
  payer : AccountMeta; config : AccountMeta; nameRecord : AccountMeta;
  payerSolansAccount : AccountMeta; solansMint : AccountMeta; tokenProgram : AccountMeta
}.
End Accounts.

Record ParsedRenewWithSolansInstruction := MkParsedRenewWithSolansInstruction {
  programAddress : Address; accounts : Accounts.t; data : RenewWithSolansInstructionData
}.

Definition parseRenewWithSolansInstruction `{Kit} (instruction : Instruction)
    : result JsError ParsedRenewWithSolansInstruction :=
  if (length (Kit.accounts instruction) <? 6)%nat then
    Err (insufficientAccountMetas (Z.of_nat (length (Kit.accounts instruction))) 6)
  else
    '(payer, next) ← getNextAccount (Kit.accounts instruction);
    '(config, next) ← getNextAccount next;
    '(nameRecord, next) ← getNextAccount next;
    '(payerSolansAccount, next) ← getNextAccount next;
    '(solansMint, next) ← getNextAccount next;
    '(tokenProgram, next) ← getNextAccount next;
    data ← decode getRenewWithSolansInstructionDataDecoder (Kit.data instruction);
    Ok (MkParsedRenewWithSolansInstruction (Kit.programAddress instruction)
       (Accounts.Mk payer config nameRecord payerSolansAccount solansMint tokenProgram) data).

Definition codec `{KitSpec} : InstructionCodec.
Proof.
  refine {| data_codec := RenewWithSolans_codec; slots := [Required; Required; Required; Required; Required; Required];
            parse := parseRenewWithSolansInstruction; parsed_program := programAddress;
            parsed_data := data : ParsedRenewWithSolansInstruction -> Obj RenewWithSolans_codec;
            parsed_accounts := fun p =>
      [Some (Accounts.payer (accounts p)); Some (Accounts.config (accounts p));
       Some (Accounts.nameRecord (accounts p)); Some (Accounts.payerSolansAccount (accounts p));
       Some (Accounts.solansMint (accounts p)); Some (Accounts.tokenProgram (accounts p))] |}.
  parse_refines_tac. unfold parseRenewWithSolansInstruction. by destruct (decode _ _).
Defined.

End RenewWithSolans.

(** ** instructions/buybackBurn.ts *)

Module BuybackBurn.

Definition BUYBACK_BURN_DISCRIMINATOR : bytes := [20; 254; 58; 252; 209; 32; 111; 97].

Record BuybackBurnInstructionDataArgs := MkBuybackBurnInstructionDataArgs {
  solansAmount : Z
}.
Record BuybackBurnInstructionData := MkBuybackBurnInstructionData { discriminator : bytes; args :> BuybackBurnInstructionDataArgs }.

Definition getBuybackBurnInstructionDataEncoder `{Kit} : Encoder BuybackBurnInstructionDataArgs :=
  transformEncoder (ofObject (getStructEncoder (
     "discriminator" ~> fixEncoderSize getBytesEncoder 8 ;;
     "solansAmount" ~> getU64Encoder ;; SNil)%fields)
    (fun v : BuybackBurnInstructionData => (discriminator v,
      (solansAmount v, tt))))
    (fun value => MkBuybackBurnInstructionData BUYBACK_BURN_DISCRIMINATOR value).

Definition getBuybackBurnInstructionDataDecoder `{Kit} : Decoder BuybackBurnInstructionData :=
  asObject (getStructDecoder (
     "discriminator" ~> fixDecoderSize getBytesDecoder 8 ;;
     "solansAmount" ~> getU64Decoder ;; SNil)%fields)
    (fun '(d, (x0, tt)) =>
       MkBuybackBurnInstructionData d (MkBuybackBurnInstructionDataArgs x0)).

Definition BuybackBurn_ok `{Kit} (v : BuybackBurnInstructionDataArgs) : Prop :=
  unsigned_ok 8 (solansAmount v).

Definition BuybackBurn_codec `{KitSpec} : ObjectCodec.
Proof.
  refine {| encoder := getBuybackBurnInstructionDataEncoder; decoder := getBuybackBurnInstructionDataDecoder;
            object := MkBuybackBurnInstructionData BUYBACK_BURN_DISCRIMINATOR; object_ok := BuybackBurn_ok; tag := BUYBACK_BURN_DISCRIMINATOR |}.
  - object_codec_round_trip.
  - object_codec_tag.
Defined.

Module Accounts.
Record t := Mk {
  keeper : AccountMeta; config : AccountMeta; burnVault : AccountMeta;
  keeperPaymentAccount : AccountMeta; keeperSolansAccount : AccountMeta;
  solansMint : AccountMeta; paymentMint : AccountMeta; tokenProgram : AccountMeta
}.
End Accounts.

Record ParsedBuybackBurnInstruction := MkParsedBuybackBurnInstruction {
  programAddress : Address; accounts : Accounts.t; data : BuybackBurnInstructionData
}.

Definition parseBuybackBurnInstruction `{Kit} (instruction : Instruction)
    : result JsError ParsedBuybackBurnInstruction :=
  if (length (Kit.accounts instruction) <? 8)%nat then
    Err (insufficientAccountMetas (Z.of_nat (length (Kit.accounts instruction))) 8)
  else
    '(keeper, next) ← getNextAccount (Kit.accounts instruction);
    '(config, next) ← getNextAccount next;
    '(burnVault, next) ← getNextAccount next;
    '(keeperPaymentAccount, next) ← getNextAccount next;
    '(keeperSolansAccount, next) ← getNextAccount next;
    '(solansMint, next) ← getNextAccount next;
    '(paymentMint, next) ← getNextAccount next;
    '(tokenProgram, next) ← getNextAccount next;
    data ← decode getBuybackBurnInstructionDataDecoder (Kit.data instruction);
    Ok (MkParsedBuybackBurnInstruction (Kit.programAddress instruction)
       (Accounts.Mk keeper config burnVault keeperPaymentAccount keeperSolansAccount solansMint paymentMint
        tokenProgram) data).

Definition codec `{KitSpec} : InstructionCodec.
Proof.
  refine {| data_codec := BuybackBurn_codec; slots := [Required; Required; Required; Required; Required; Required; Required; Required];
            parse := parseBuybackBurnInstruction; parsed_program := programAddress;
            parsed_data := data : ParsedBuybackBurnInstruction -> Obj BuybackBurn_codec;
            parsed_accounts := fun p =>
      [Some (Accounts.keeper (accounts p)); Some (Accounts.config (accounts p));
       Some (Accounts.burnVault (accounts p));
       Some (Accounts.keeperPaymentAccount (accounts p));
       Some (Accounts.keeperSolansAccount (accounts p));
       Some (Accounts.solansMint (accounts p)); Some (Accounts.paymentMint (accounts p));
       Some (Accounts.tokenProgram (accounts p))] |}.
  parse_refines_tac. unfold parseBuybackBurnInstruction. by destruct (decode _ _).
Defined.

End BuybackBurn.

(** ** instructions/initStakePool.ts *)

Module InitStakePool.

Definition INIT_STAKE_POOL_DISCRIMINATOR : bytes := [145; 69; 167; 211; 154; 130; 73; 50].

Record InitStakePoolInstructionDataArgs := MkInitStakePoolInstructionDataArgs { }.
Record InitStakePoolInstructionData := MkInitStakePoolInstructionData { discriminator : bytes; args :> InitStakePoolInstructionDataArgs }.

Definition getInitStakePoolInstructionDataEncoder `{Kit} : Encoder InitStakePoolInstructionDataArgs :=
  transformEncoder (ofObject (getStructEncoder (
     "discriminator" ~> fixEncoderSize getBytesEncoder 8 ;; SNil)%fields)
    (fun v : InitStakePoolInstructionData => (discriminator v, tt)))
    (fun value => MkInitStakePoolInstructionData INIT_STAKE_POOL_DISCRIMINATOR value).

Definition getInitStakePoolInstructionDataDecoder `{Kit} : Decoder InitStakePoolInstructionData :=
  asObject (getStructDecoder (
     "discriminator" ~> fixDecoderSize getBytesDecoder 8 ;; SNil)%fields)
    (fun '(d, tt) =>
       MkInitStakePoolInstructionData d (MkInitStakePoolInstructionDataArgs)).

Definition InitStakePool_ok `{Kit} (v : InitStakePoolInstructionDataArgs) : Prop :=
  True.

Definition InitStakePool_codec `{KitSpec} : ObjectCodec.
Proof.
  refine {| encoder := getInitStakePoolInstructionDataEncoder; decoder := getInitStakePoolInstructionDataDecoder;
            object := MkInitStakePoolInstructionData INIT_STAKE_POOL_DISCRIMINATOR; object_ok := InitStakePool_ok; tag := INIT_STAKE_POOL_DISCRIMINATOR |}.
  - object_codec_round_trip.
  - object_codec_tag.
Defined.

Module Accounts.
Record t := Mk {
  admin : AccountMeta; config : AccountMeta; stakePool : AccountMeta; solansMint : AccountMeta;
  paymentMint : AccountMeta; stakeVault : AccountMeta; rewardVault : AccountMeta;
  tokenProgram : AccountMeta; associatedTokenProgram : AccountMeta; systemProgram : AccountMeta
}.
End Accounts.

Record ParsedInitStakePoolInstruction := MkParsedInitStakePoolInstruction {
  programAddress : Address; accounts : Accounts.t; data : InitStakePoolInstructionData
}.

Definition parseInitStakePoolInstruction `{Kit} (instruction : Instruction)
    : result JsError ParsedInitStakePoolInstruction :=
  if (length (Kit.accounts instruction) <? 10)%nat then
    Err (insufficientAccountMetas (Z.of_nat (length (Kit.accounts instruction))) 10)
  else
    '(admin, next) ← getNextAccount (Kit.accounts instruction);
    '(config, next) ← getNextAccount next;
    '(stakePool, next) ← getNextAccount next;
    '(solansMint, next) ← getNextAccount next;
    '(paymentMint, next) ← getNextAccount next;
    '(stakeVault, next) ← getNextAccount next;
    '(rewardVault, next) ← getNextAccount next;
    '(tokenProgram, next) ← getNextAccount next;
    '(associatedTokenProgram, next) ← getNextAccount next;
    '(systemProgram, next) ← getNextAccount next;
    data ← decode getInitStakePoolInstructionDataDecoder (Kit.data instruction);
    Ok (MkParsedInitStakePoolInstruction (Kit.programAddress instruction)
       (Accounts.Mk admin config stakePool solansMint paymentMint stakeVault rewardVault tokenProgram
        associatedTokenProgram systemProgram) data).

Definition codec `{KitSpec} : InstructionCodec.
Proof.
  refine {| data_codec := InitStakePool_codec; slots := [Required; Required; Required; Required; Required; Required; Required; Required; Required; Required];
            parse := parseInitStakePoolInstruction; parsed_program := programAddress;
            parsed_data := data : ParsedInitStakePoolInstruction -> Obj InitStakePool_codec;
            parsed_accounts := fun p =>
      [Some (Accounts.admin (accounts p)); Some (Accounts.config (accounts p));
       Some (Accounts.stakePool (accounts p)); Some (Accounts.solansMint (accounts p));
       Some (Accounts.paymentMint (accounts p)); Some (Accounts.stakeVault (accounts p));
       Some (Accounts.rewardVault (accounts p)); Some (Accounts.tokenProgram (accounts p));
       Some (Accounts.associatedTokenProgram (accounts p));
       Some (Accounts.systemProgram (accounts p))] |}.
  parse_refines_tac. unfold parseInitStakePoolInstruction. by destruct (decode _ _).
Defined.

End InitStakePool.

(** ** instructions/stake.ts *)

Module Stake.

Definition STAKE_DISCRIMINATOR : bytes := [206; 176; 202; 18; 200; 209; 179; 108].

Record StakeInstructionDataArgs := MkStakeInstructionDataArgs {
  amount : Z
}.
Record StakeInstructionData := MkStakeInstructionData { discriminator : bytes; args :> StakeInstructionDataArgs }.

Definition getStakeInstructionDataEncoder `{Kit} : Encoder StakeInstructionDataArgs :=
  transformEncoder (ofObject (getStructEncoder (
     "discriminator" ~> fixEncoderSize getBytesEncoder 8 ;;
     "amount" ~> getU64Encoder ;; SNil)%fields)
    (fun v : StakeInstructionData => (discriminator v,
      (amount v, tt))))
    (fun value => MkStakeInstructionData STAKE_DISCRIMINATOR value).

Definition getStakeInstructionDataDecoder `{Kit} : Decoder StakeInstructionData :=
  asObject (getStructDecoder (
     "discriminator" ~> fixDecoderSize getBytesDecoder 8 ;;
     "amount" ~> getU64Decoder ;; SNil)%fields)
    (fun '(d, (x0, tt)) =>
       MkStakeInstructionData d (MkStakeInstructionDataArgs x0)).

Definition Stake_ok `{Kit} (v : StakeInstructionDataArgs) : Prop :=
  unsigned_ok 8 (amount v).

Definition Stake_codec `{KitSpec} : ObjectCodec.
Proof.
  refine {| encoder := getStakeInstructionDataEncoder; decoder := getStakeInstructionDataDecoder;
            object := MkStakeInstructionData STAKE_DISCRIMINATOR; object_ok := Stake_ok; tag := STAKE_DISCRIMINATOR |}.
  - object_codec_round_trip.
  - object_codec_tag.
Defined.

Module Accounts.
Record t := Mk {
  staker : AccountMeta; config : AccountMeta; stakePool : AccountMeta; stakeAccount : AccountMeta;
  stakerTokenAccount : AccountMeta; stakerRewardAccount : AccountMeta; stakeVault : AccountMeta;
  rewardVault : AccountMeta; solansMint : AccountMeta; paymentMint : AccountMeta;
  tokenProgram : AccountMeta; systemProgram : AccountMeta
}.
End Accounts.

Record ParsedStakeInstruction := MkParsedStakeInstruction {
  programAddress : Address; accounts : Accounts.t; data : StakeInstructionData
}.

Definition parseStakeInstruction `{Kit} (instruction : Instruction)
    : result JsError ParsedStakeInstruction :=
  if (length (Kit.accounts instruction) <? 12)%nat then
    Err (insufficientAccountMetas (Z.of_nat (length (Kit.accounts instruction))) 12)
  else
    '(staker, next) ← getNextAccount (Kit.accounts instruction);
    '(config, next) ← getNextAccount next;
    '(stakePool, next) ← getNextAccount next;
    '(stakeAccount, next) ← getNextAccount next;
    '(stakerTokenAccount, next) ← getNextAccount next;
    '(stakerRewardAccount, next) ← getNextAccount next;
    '(stakeVault, next) ← getNextAccount next;
    '(rewardVault, next) ← getNextAccount next;
    '(solansMint, next) ← getNextAccount next;
    '(paymentMint, next) ← getNextAccount next;
    '(tokenProgram, next) ← getNextAccount next;
    '(systemProgram, next) ← getNextAccount next;
    data ← decode getStakeInstructionDataDecoder (Kit.data instruction);
    Ok (MkParsedStakeInstruction (Kit.programAddress instruction)
       (Accounts.Mk staker config stakePool stakeAccount stakerTokenAccount stakerRewardAccount stakeVault
        rewardVault solansMint paymentMint tokenProgram systemProgram) data).

Definition codec `{KitSpec} : InstructionCodec.
Proof.
  refine {| data_codec := Stake_codec; slots := [Required; Required; Required; Required; Required; Required; Required; Required; Required; Required; Required; Required];
            parse := parseStakeInstruction; parsed_program := programAddress;
            parsed_data := data : ParsedStakeInstruction -> Obj Stake_codec;
            parsed_accounts := fun p =>
      [Some (Accounts.staker (accounts p)); Some (Accounts.config (accounts p));
       Some (Accounts.stakePool (accounts p)); Some (Accounts.stakeAccount (accounts p));
       Some (Accounts.stakerTokenAccount (accounts p));
       Some (Accounts.stakerRewardAccount (accounts p));
       Some (Accounts.stakeVault (accounts p)); Some (Accounts.rewardVault (accounts p));
       Some (Accounts.solansMint (accounts p)); Some (Accounts.paymentMint (accounts p));
       Some (Accounts.tokenProgram (accounts p)); Some (Accounts.systemProgram (accounts p))] |}.
  parse_refines_tac. unfold parseStakeInstruction. by destruct (decode _ _).
Defined.

End Stake.

(** ** instructions/unstake.ts *)

Module Unstake.

Definition UNSTAKE_DISCRIMINATOR : bytes := [90; 95; 107; 42; 205; 124; 50; 225].

Record UnstakeInstructionDataArgs := MkUnstakeInstructionDataArgs {
  amount : Z
}.
Record UnstakeInstructionData := MkUnstakeInstructionData { discriminator : bytes; args :> UnstakeInstructionDataArgs }.

Definition getUnstakeInstructionDataEncoder `{Kit} : Encoder UnstakeInstructionDataArgs :=
  transformEncoder (ofObject (getStructEncoder (
     "discriminator" ~> fixEncoderSize getBytesEncoder 8 ;;
     "amount" ~> getU64Encoder ;; SNil)%fields)
    (fun v : UnstakeInstructionData => (discriminator v,
      (amount v, tt))))
    (fun value => MkUnstakeInstructionData UNSTAKE_DISCRIMINATOR value).

Definition getUnstakeInstructionDataDecoder `{Kit} : Decoder UnstakeInstructionData :=
  asObject (getStructDecoder (
     "discriminator" ~> fixDecoderSize getBytesDecoder 8 ;;
     "amount" ~> getU64Decoder ;; SNil)%fields)
    (fun '(d, (x0, tt)) =>
       MkUnstakeInstructionData d (MkUnstakeInstructionDataArgs x0)).

Definition Unstake_ok `{Kit} (v : UnstakeInstructionDataArgs) : Prop :=
  unsigned_ok 8 (amount v).

Definition Unstake_codec `{KitSpec} : ObjectCodec.
Proof.
  refine {| encoder := getUnstakeInstructionDataEncoder; decoder := getUnstakeInstructionDataDecoder;
            object := MkUnstakeInstructionData UNSTAKE_DISCRIMINATOR; object_ok := Unstake_ok; tag := UNSTAKE_DISCRIMINATOR |}.
  - object_codec_round_trip.
  - object_codec_tag.
Defined.

Module Accounts.
Record t := Mk {
  staker : AccountMeta; config : AccountMeta; stakePool : AccountMeta; stakeAccount : AccountMeta;
  stakerTokenAccount : AccountMeta; stakerRewardAccount : AccountMeta; stakeVault : AccountMeta;
  rewardVault : AccountMeta; solansMint : AccountMeta; paymentMint : AccountMeta;
  tokenProgram : AccountMeta
}.
End Accounts.

Record ParsedUnstakeInstruction := MkParsedUnstakeInstruction {
  programAddress : Address; accounts : Accounts.t; data : UnstakeInstructionData
}.

Definition parseUnstakeInstruction `{Kit} (instruction : Instruction)
    : result JsError ParsedUnstakeInstruction :=
  if (length (Kit.accounts instruction) <? 11)%nat then
    Err (insufficientAccountMetas (Z.of_nat (length (Kit.accounts instruction))) 11)
  else
    '(staker, next) ← getNextAccount (Kit.accounts instruction);
    '(config, next) ← getNextAccount next;
    '(stakePool, next) ← getNextAccount next;
    '(stakeAccount, next) ← getNextAccount next;
    '(stakerTokenAccount, next) ← getNextAccount next;
    '(stakerRewardAccount, next) ← getNextAccount next;
    '(stakeVault, next) ← getNextAccount next;
    '(rewardVault, next) ← getNextAccount next;
    '(solansMint, next) ← getNextAccount next;
    '(paymentMint, next) ← getNextAccount next;
    '(tokenProgram, next) ← getNextAccount next;
    data ← decode getUnstakeInstructionDataDecoder (Kit.data instruction);
    Ok (MkParsedUnstakeInstruction (Kit.programAddress instruction)
       (Accounts.Mk staker config stakePool stakeAccount stakerTokenAccount stakerRewardAccount stakeVault
        rewardVault solansMint paymentMint tokenProgram) data).

Definition codec `{KitSpec} : InstructionCodec.
Proof.
  refine {| data_codec := Unstake_codec; slots := [Required; Required; Required; Required; Required; Required; Required; Required; Required; Required; Required];
            parse := parseUnstakeInstruction; parsed_program := programAddress;
            parsed_data := data : ParsedUnstakeInstruction -> Obj Unstake_codec;
            parsed_accounts := fun p =>
      [Some (Accounts.staker (accounts p)); Some (Accounts.config (accounts p));
       Some (Accounts.stakePool (accounts p)); Some (Accounts.stakeAccount (accounts p));
       Some (Accounts.stakerTokenAccount (accounts p));
       Some (Accounts.stakerRewardAccount (accounts p));
       Some (Accounts.stakeVault (accounts p)); Some (Accounts.rewardVault (accounts p));
       Some (Accounts.solansMint (accounts p)); Some (Accounts.paymentMint (accounts p));
       Some (Accounts.tokenProgram (accounts p))] |}.
  parse_refines_tac. unfold parseUnstakeInstruction. by destruct (decode _ _).
Defined.

End Unstake.

(** ** instructions/claimRewards.ts *)

Module ClaimRewards.

Definition CLAIM_REWARDS_DISCRIMINATOR : bytes := [4; 144; 132; 71; 116; 23; 151; 80].

Record ClaimRewardsInstructionDataArgs := MkClaimRewardsInstructionDataArgs { }.
Record ClaimRewardsInstructionData := MkClaimRewardsInstructionData { discriminator : bytes; args :> ClaimRewardsInstructionDataArgs }.

Definition getClaimRewardsInstructionDataEncoder `{Kit} : Encoder ClaimRewardsInstructionDataArgs :=
  transformEncoder (ofObject (getStructEncoder (
     "discriminator" ~> fixEncoderSize getBytesEncoder 8 ;; SNil)%fields)
    (fun v : ClaimRewardsInstructionData => (discriminator v, tt)))
    (fun value => MkClaimRewardsInstructionData CLAIM_REWARDS_DISCRIMINATOR value).

Definition getClaimRewardsInstructionDataDecoder `{Kit} : Decoder ClaimRewardsInstructionData :=
  asObject (getStructDecoder (
     "discriminator" ~> fixDecoderSize getBytesDecoder 8 ;; SNil)%fields)
    (fun '(d, tt) =>
       MkClaimRewardsInstructionData d (MkClaimRewardsInstructionDataArgs)).

Definition ClaimRewards_ok `{Kit} (v : ClaimRewardsInstructionDataArgs) : Prop :=
  True.

Definition ClaimRewards_codec `{KitSpec} : ObjectCodec.
Proof.
  refine {| encoder := getClaimRewardsInstructionDataEncoder; decoder := getClaimRewardsInstructionDataDecoder;
            object := MkClaimRewardsInstructionData CLAIM_REWARDS_DISCRIMINATOR; object_ok := ClaimRewards_ok; tag := CLAIM_REWARDS_DISCRIMINATOR |}.
  - object_codec_round_trip.
  - object_codec_tag.
Defined.

Module Accounts.
Record t := Mk {
  staker : AccountMeta; config : AccountMeta; stakePool : AccountMeta; stakeAccount : AccountMeta;
  stakerRewardAccount : AccountMeta; rewardVault : AccountMeta; paymentMint : AccountMeta;
  tokenProgram : AccountMeta
}.
End Accounts.

Record ParsedClaimRewardsInstruction := MkParsedClaimRewardsInstruction {
  programAddress : Address; accounts : Accounts.t; data : ClaimRewardsInstructionData
}.

Definition parseClaimRewardsInstruction `{Kit} (instruction : Instruction)
    : result JsError ParsedClaimRewardsInstruction :=
  if (length (Kit.accounts instruction) <? 8)%nat then
    Err (insufficientAccountMetas (Z.of_nat (length (Kit.accounts instruction))) 8)
  else
    '(staker, next) ← getNextAccount (Kit.accounts instruction);
    '(config, next) ← getNextAccount next;
    '(stakePool, next) ← getNextAccount next;
    '(stakeAccount, next) ← getNextAccount next;
    '(stakerRewardAccount, next) ← getNextAccount next;
    '(rewardVault, next) ← getNextAccount next;
    '(paymentMint, next) ← getNextAccount next;
    '(tokenProgram, next) ← getNextAccount next;
    data ← decode getClaimRewardsInstructionDataDecoder (Kit.data instruction);
    Ok (MkParsedClaimRewardsInstruction (Kit.programAddress instruction)
       (Accounts.Mk staker config stakePool stakeAccount stakerRewardAccount rewardVault paymentMint
        tokenProgram) data).

Definition codec `{KitSpec} : InstructionCodec.
Proof.
  refine {| data_codec := ClaimRewards_codec; slots := [Required; Required; Required; Required; Required; Required; Required; Required];
            parse := parseClaimRewardsInstruction; parsed_program := programAddress;
            parsed_data := data : ParsedClaimRewardsInstruction -> Obj ClaimRewards_codec;
            parsed_accounts := fun p =>
      [Some (Accounts.staker (accounts p)); Some (Accounts.config (accounts p));
       Some (Accounts.stakePool (accounts p)); Some (Accounts.stakeAccount (accounts p));
       Some (Accounts.stakerRewardAccount (accounts p));
       Some (Accounts.rewardVault (accounts p)); Some (Accounts.paymentMint (accounts p));
       Some (Accounts.tokenProgram (accounts p))] |}.
  parse_refines_tac. unfold parseClaimRewardsInstruction. by destruct (decode _ _).
Defined.

End ClaimRewards.
