(* ===== verification/Program.v ===== *)
(** * Identifying and parsing the program's instructions

    src/clients/ts/src/generated/programs/solans.ts: the instruction kinds,
    [identifySolansInstruction] (a cascade of discriminator tests) and
    [parseSolansInstruction] (dispatch to the kind's parser).  The theorems lift
    the laws of the forty codecs to these two functions.  [assertIsInstructionWithAccounts]
    is not modelled: an [Instruction] of the model always has its accounts. *)
From S2P Require Import Prelude JsString Kit SmallKit Pdas Instruction.
From S2P Require Import NameInstructions MarketInstructions TokenInstructions.

Module SolansInstruction.
Inductive t :=
| AcceptOffer
| AutoRenew
| Bid
| BurnName
| BuyName
| BuybackBurn
| CancelAuction
| CancelListing
| CancelOffer
| ClaimExpired
| ClaimRewards
| InitBurnPool
| InitConfig
| InitStakePool
| ListName
| LockTransfer
| MakeOffer
| RedeemName
| RegisterName
| RegisterWithSolans
| RenewName
| RenewWithSolans
| Resolve
| RevokeSubdomain
| SetController
| SetHosting
| SetResolver
| SetReverse
| SetSolansParams
| SettleAuction
| Stake
| StartAuction
| TokenizeName
| TransferAdmin
| TransferName
| Unstake
| UpdateConfig
| UpdateListing
| UpdateRecord
| WrapSubdomain.
End SolansInstruction.

#[export] Instance SolansInstruction_eq_dec : EqDecision SolansInstruction.t.
Proof. solve_decision. Defined.

Definition identifySolansInstruction `{Kit} (data : bytes)
    : result JsError SolansInstruction.t :=
  b ← fixEncoderSize getBytesEncoder 8 [227; 82; 234; 131; 1; 18; 48; 2];
  if containsBytes data b 0 then Ok SolansInstruction.AcceptOffer else
  b ← fixEncoderSize getBytesEncoder 8 [95; 201; 47; 51; 62; 31; 63; 37];
  if containsBytes data b 0 then Ok SolansInstruction.AutoRenew else
  b ← fixEncoderSize getBytesEncoder 8 [199; 56; 85; 38; 146; 243; 37; 158];
  if containsBytes data b 0 then Ok SolansInstruction.Bid else
  b ← fixEncoderSize getBytesEncoder 8 [105; 235; 154; 87; 48; 149; 178; 40];
  if containsBytes data b 0 then Ok SolansInstruction.BurnName else
  b ← fixEncoderSize getBytesEncoder 8 [51; 244; 250; 246; 119; 54; 246; 23];
  if containsBytes data b 0 then Ok SolansInstruction.BuyName else
  b ← fixEncoderSize getBytesEncoder 8 [20; 254; 58; 252; 209; 32; 111; 97];
  if containsBytes data b 0 then Ok SolansInstruction.BuybackBurn else
  b ← fixEncoderSize getBytesEncoder 8 [156; 43; 197; 110; 218; 105; 143; 182];
  if containsBytes data b 0 then Ok SolansInstruction.CancelAuction else
  b ← fixEncoderSize getBytesEncoder 8 [41; 183; 50; 232; 230; 233; 157; 70];
  if containsBytes data b 0 then Ok SolansInstruction.CancelListing else
  b ← fixEncoderSize getBytesEncoder 8 [92; 203; 223; 40; 92; 89; 53; 119];
  if containsBytes data b 0 then Ok SolansInstruction.CancelOffer else
  b ← fixEncoderSize getBytesEncoder 8 [124; 78; 197; 187; 210; 66; 255; 1];
  if containsBytes data b 0 then Ok SolansInstruction.ClaimExpired else
  b ← fixEncoderSize getBytesEncoder 8 [4; 144; 132; 71; 116; 23; 151; 80];
  if containsBytes data b 0 then Ok SolansInstruction.ClaimRewards else
  b ← fixEncoderSize getBytesEncoder 8 [133; 239; 244; 64; 49; 161; 219; 25];
  if containsBytes data b 0 then Ok SolansInstruction.InitBurnPool else
  b ← fixEncoderSize getBytesEncoder 8 [23; 235; 115; 232; 168; 96; 1; 231];
  if containsBytes data b 0 then Ok SolansInstruction.InitConfig else
  b ← fixEncoderSize getBytesEncoder 8 [145; 69; 167; 211; 154; 130; 73; 50];
  if containsBytes data b 0 then Ok SolansInstruction.InitStakePool else
  b ← fixEncoderSize getBytesEncoder 8 [246; 122; 32; 41; 48; 9; 211; 11];
  if containsBytes data b 0 then Ok SolansInstruction.ListName else
  b ← fixEncoderSize getBytesEncoder 8 [141; 30; 149; 158; 41; 243; 55; 225];
  if containsBytes data b 0 then Ok SolansInstruction.LockTransfer else
  b ← fixEncoderSize getBytesEncoder 8 [214; 98; 97; 35; 59; 12; 44; 178];
  if containsBytes data b 0 then Ok SolansInstruction.MakeOffer else
  b ← fixEncoderSize getBytesEncoder 8 [54; 86; 206; 50; 162; 148; 156; 25];
  if containsBytes data b 0 then Ok SolansInstruction.RedeemName else
  b ← fixEncoderSize getBytesEncoder 8 [101; 120; 221; 151; 68; 123; 191; 103];
  if containsBytes data b 0 then Ok SolansInstruction.RegisterName else
  b ← fixEncoderSize getBytesEncoder 8 [16; 245; 158; 68; 101; 91; 138; 215];
  if containsBytes data b 0 then Ok SolansInstruction.RegisterWithSolans else
  b ← fixEncoderSize getBytesEncoder 8 [236; 176; 53; 141; 135; 23; 77; 87];
  if containsBytes data b 0 then Ok SolansInstruction.RenewName else
  b ← fixEncoderSize getBytesEncoder 8 [216; 153; 16; 43; 181; 31; 35; 80];
  if containsBytes data b 0 then Ok SolansInstruction.RenewWithSolans else
  b ← fixEncoderSize getBytesEncoder 8 [246; 150; 236; 206; 108; 63; 58; 10];
  if containsBytes data b 0 then Ok SolansInstruction.Resolve else
  b ← fixEncoderSize getBytesEncoder 8 [161; 15; 96; 214; 145; 88; 83; 118];
  if containsBytes data b 0 then Ok SolansInstruction.RevokeSubdomain else
  b ← fixEncoderSize getBytesEncoder 8 [137; 23; 18; 149; 54; 29; 195; 165];
  if containsBytes data b 0 then Ok SolansInstruction.SetController else
  b ← fixEncoderSize getBytesEncoder 8 [213; 38; 154; 154; 19; 200; 116; 114];
  if containsBytes data b 0 then Ok SolansInstruction.SetHosting else
  b ← fixEncoderSize getBytesEncoder 8 [137; 108; 27; 51; 202; 16; 33; 119];
  if containsBytes data b 0 then Ok SolansInstruction.SetResolver else
  b ← fixEncoderSize getBytesEncoder 8 [75; 137; 158; 195; 18; 45; 48; 16];
  if containsBytes data b 0 then Ok SolansInstruction.SetReverse else
  b ← fixEncoderSize getBytesEncoder 8 [91; 68; 181; 191; 248; 118; 235; 102];
  if containsBytes data b 0 then Ok SolansInstruction.SetSolansParams else
  b ← fixEncoderSize getBytesEncoder 8 [246; 196; 183; 98; 222; 139; 46; 133];
  if containsBytes data b 0 then Ok SolansInstruction.SettleAuction else
  b ← fixEncoderSize getBytesEncoder 8 [206; 176; 202; 18; 200; 209; 179; 108];
  if containsBytes data b 0 then Ok SolansInstruction.Stake else
  b ← fixEncoderSize getBytesEncoder 8 [255; 2; 149; 136; 148; 125; 65; 195];
  if containsBytes data b 0 then Ok SolansInstruction.StartAuction else
  b ← fixEncoderSize getBytesEncoder 8 [161; 164; 31; 49; 167; 4; 117; 23];
  if containsBytes data b 0 then Ok SolansInstruction.TokenizeName else
  b ← fixEncoderSize getBytesEncoder 8 [42; 242; 66; 106; 228; 10; 111; 156];
  if containsBytes data b 0 then Ok SolansInstruction.TransferAdmin else
  b ← fixEncoderSize getBytesEncoder 8 [32; 215; 182; 130; 12; 106; 157; 75];
  if containsBytes data b 0 then Ok SolansInstruction.TransferName else
  b ← fixEncoderSize getBytesEncoder 8 [90; 95; 107; 42; 205; 124; 50; 225];
  if containsBytes data b 0 then Ok SolansInstruction.Unstake else
  b ← fixEncoderSize getBytesEncoder 8 [29; 158; 252; 191; 10; 83; 219; 99];
  if containsBytes data b 0 then Ok SolansInstruction.UpdateConfig else
  b ← fixEncoderSize getBytesEncoder 8 [192; 174; 210; 68; 116; 40; 242; 253];
  if containsBytes data b 0 then Ok SolansInstruction.UpdateListing else
  b ← fixEncoderSize getBytesEncoder 8 [54; 194; 108; 162; 199; 12; 5; 60];
  if containsBytes data b 0 then Ok SolansInstruction.UpdateRecord else
  b ← fixEncoderSize getBytesEncoder 8 [176; 182; 82; 241; 229; 46; 229; 5];
  if containsBytes data b 0 then Ok SolansInstruction.WrapSubdomain else
  Err (failedToIdentifyInstruction data).

(** The discriminators, in the order they are tried. *)
Definition instruction_tags : list (bytes * SolansInstruction.t) := [
  ([227; 82; 234; 131; 1; 18; 48; 2], SolansInstruction.AcceptOffer);
  ([95; 201; 47; 51; 62; 31; 63; 37], SolansInstruction.AutoRenew);
  ([199; 56; 85; 38; 146; 243; 37; 158], SolansInstruction.Bid);
  ([105; 235; 154; 87; 48; 149; 178; 40], SolansInstruction.BurnName);
  ([51; 244; 250; 246; 119; 54; 246; 23], SolansInstruction.BuyName);
  ([20; 254; 58; 252; 209; 32; 111; 97], SolansInstruction.BuybackBurn);
  ([156; 43; 197; 110; 218; 105; 143; 182], SolansInstruction.CancelAuction);
  ([41; 183; 50; 232; 230; 233; 157; 70], SolansInstruction.CancelListing);
  ([92; 203; 223; 40; 92; 89; 53; 119], SolansInstruction.CancelOffer);
  ([124; 78; 197; 187; 210; 66; 255; 1], SolansInstruction.ClaimExpired);
  ([4; 144; 132; 71; 116; 23; 151; 80], SolansInstruction.ClaimRewards);
  ([133; 239; 244; 64; 49; 161; 219; 25], SolansInstruction.InitBurnPool);
  ([23; 235; 115; 232; 168; 96; 1; 231], SolansInstruction.InitConfig);
  ([145; 69; 167; 211; 154; 130; 73; 50], SolansInstruction.InitStakePool);
  ([246; 122; 32; 41; 48; 9; 211; 11], SolansInstruction.ListName);
  ([141; 30; 149; 158; 41; 243; 55; 225], SolansInstruction.LockTransfer);
  ([214; 98; 97; 35; 59; 12; 44; 178], SolansInstruction.MakeOffer);
  ([54; 86; 206; 50; 162; 148; 156; 25], SolansInstruction.RedeemName);
  ([101; 120; 221; 151; 68; 123; 191; 103], SolansInstruction.RegisterName);
  ([16; 245; 158; 68; 101; 91; 138; 215], SolansInstruction.RegisterWithSolans);
  ([236; 176; 53; 141; 135; 23; 77; 87], SolansInstruction.RenewName);
  ([216; 153; 16; 43; 181; 31; 35; 80], SolansInstruction.RenewWithSolans);
  ([246; 150; 236; 206; 108; 63; 58; 10], SolansInstruction.Resolve);
  ([161; 15; 96; 214; 145; 88; 83; 118], SolansInstruction.RevokeSubdomain);
  ([137; 23; 18; 149; 54; 29; 195; 165], SolansInstruction.SetController);
  ([213; 38; 154; 154; 19; 200; 116; 114], SolansInstruction.SetHosting);
  ([137; 108; 27; 51; 202; 16; 33; 119], SolansInstruction.SetResolver);
  ([75; 137; 158; 195; 18; 45; 48; 16], SolansInstruction.SetReverse);
  ([91; 68; 181; 191; 248; 118; 235; 102], SolansInstruction.SetSolansParams);
  ([246; 196; 183; 98; 222; 139; 46; 133], SolansInstruction.SettleAuction);
  ([206; 176; 202; 18; 200; 209; 179; 108], SolansInstruction.Stake);
  ([255; 2; 149; 136; 148; 125; 65; 195], SolansInstruction.StartAuction);
  ([161; 164; 31; 49; 167; 4; 117; 23], SolansInstruction.TokenizeName);
  ([42; 242; 66; 106; 228; 10; 111; 156], SolansInstruction.TransferAdmin);
  ([32; 215; 182; 130; 12; 106; 157; 75], SolansInstruction.TransferName);
  ([90; 95; 107; 42; 205; 124; 50; 225], SolansInstruction.Unstake);
  ([29; 158; 252; 191; 10; 83; 219; 99], SolansInstruction.UpdateConfig);
  ([192; 174; 210; 68; 116; 40; 242; 253], SolansInstruction.UpdateListing);
  ([54; 194; 108; 162; 199; 12; 5; 60], SolansInstruction.UpdateRecord);
  ([176; 182; 82; 241; 229; 46; 229; 5], SolansInstruction.WrapSubdomain)].

(** The tagged union: [instructionType] with the parsed object of its kind. *)
Inductive ParsedSolansInstruction :=
| ParsedAcceptOffer (p : AcceptOffer.ParsedAcceptOfferInstruction)
| ParsedAutoRenew (p : AutoRenew.ParsedAutoRenewInstruction)
| ParsedBid (p : Bid.ParsedBidInstruction)
| ParsedBurnName (p : BurnName.ParsedBurnNameInstruction)
| ParsedBuyName (p : BuyName.ParsedBuyNameInstruction)
| ParsedBuybackBurn (p : BuybackBurn.ParsedBuybackBurnInstruction)
| ParsedCancelAuction (p : CancelAuction.ParsedCancelAuctionInstruction)
| ParsedCancelListing (p : CancelListing.ParsedCancelListingInstruction)
| ParsedCancelOffer (p : CancelOffer.ParsedCancelOfferInstruction)
| ParsedClaimExpired (p : ClaimExpired.ParsedClaimExpiredInstruction)
| ParsedClaimRewards (p : ClaimRewards.ParsedClaimRewardsInstruction)
| ParsedInitBurnPool (p : InitBurnPool.ParsedInitBurnPoolInstruction)
| ParsedInitConfig (p : InitConfig.ParsedInitConfigInstruction)
| ParsedInitStakePool (p : InitStakePool.ParsedInitStakePoolInstruction)
| ParsedListName (p : ListName.ParsedListNameInstruction)
| ParsedLockTransfer (p : LockTransfer.ParsedLockTransferInstruction)
| ParsedMakeOffer (p : MakeOffer.ParsedMakeOfferInstruction)
| ParsedRedeemName (p : RedeemName.ParsedRedeemNameInstruction)
| ParsedRegisterName (p : RegisterName.ParsedRegisterNameInstruction)
| ParsedRegisterWithSolans (p : RegisterWithSolans.ParsedRegisterWithSolansInstruction)
| ParsedRenewName (p : RenewName.ParsedRenewNameInstruction)
| ParsedRenewWithSolans (p : RenewWithSolans.ParsedRenewWithSolansInstruction)
| ParsedResolve (p : Resolve.ParsedResolveInstruction)
| ParsedRevokeSubdomain (p : RevokeSubdomain.ParsedRevokeSubdomainInstruction)
| ParsedSetController (p : SetController.ParsedSetControllerInstruction)
| ParsedSetHosting (p : SetHosting.ParsedSetHostingInstruction)
| ParsedSetResolver (p : SetResolver.ParsedSetResolverInstruction)
| ParsedSetReverse (p : SetReverse.ParsedSetReverseInstruction)
| ParsedSetSolansParams (p : SetSolansParams.ParsedSetSolansParamsInstruction)
| ParsedSettleAuction (p : SettleAuction.ParsedSettleAuctionInstruction)
| ParsedStake (p : Stake.ParsedStakeInstruction)
| ParsedStartAuction (p : StartAuction.ParsedStartAuctionInstruction)
| ParsedTokenizeName (p : TokenizeName.ParsedTokenizeNameInstruction)
| ParsedTransferAdmin (p : TransferAdmin.ParsedTransferAdminInstruction)
| ParsedTransferName (p : TransferName.ParsedTransferNameInstruction)
| ParsedUnstake (p : Unstake.ParsedUnstakeInstruction)
| ParsedUpdateConfig (p : UpdateConfig.ParsedUpdateConfigInstruction)
| ParsedUpdateListing (p : UpdateListing.ParsedUpdateListingInstruction)
| ParsedUpdateRecord (p : UpdateRecord.ParsedUpdateRecordInstruction)
| ParsedWrapSubdomain (p : WrapSubdomain.ParsedWrapSubdomainInstruction).

Definition parseSolansInstruction `{Kit} (instruction : Instruction)
    : result JsError ParsedSolansInstruction :=
  instructionType ← identifySolansInstruction (data instruction);
  match instructionType with
  | SolansInstruction.AcceptOffer => p ← AcceptOffer.parseAcceptOfferInstruction instruction; Ok (ParsedAcceptOffer p)
  | SolansInstruction.AutoRenew => p ← AutoRenew.parseAutoRenewInstruction instruction; Ok (ParsedAutoRenew p)
  | SolansInstruction.Bid => p ← Bid.parseBidInstruction instruction; Ok (ParsedBid p)
  | SolansInstruction.BurnName => p ← BurnName.parseBurnNameInstruction instruction; Ok (ParsedBurnName p)
  | SolansInstruction.BuyName => p ← BuyName.parseBuyNameInstruction instruction; Ok (ParsedBuyName p)
  | SolansInstruction.BuybackBurn => p ← BuybackBurn.parseBuybackBurnInstruction instruction; Ok (ParsedBuybackBurn p)
  | SolansInstruction.CancelAuction => p ← CancelAuction.parseCancelAuctionInstruction instruction; Ok (ParsedCancelAuction p)
  | SolansInstruction.CancelListing => p ← CancelListing.parseCancelListingInstruction instruction; Ok (ParsedCancelListing p)
  | SolansInstruction.CancelOffer => p ← CancelOffer.parseCancelOfferInstruction instruction; Ok (ParsedCancelOffer p)
  | SolansInstruction.ClaimExpired => p ← ClaimExpired.parseClaimExpiredInstruction instruction; Ok (ParsedClaimExpired p)
  | SolansInstruction.ClaimRewards => p ← ClaimRewards.parseClaimRewardsInstruction instruction; Ok (ParsedClaimRewards p)
  | SolansInstruction.InitBurnPool => p ← InitBurnPool.parseInitBurnPoolInstruction instruction; Ok (ParsedInitBurnPool p)
  | SolansInstruction.InitConfig => p ← InitConfig.parseInitConfigInstruction instruction; Ok (ParsedInitConfig p)
  | SolansInstruction.InitStakePool => p ← InitStakePool.parseInitStakePoolInstruction instruction; Ok (ParsedInitStakePool p)
  | SolansInstruction.ListName => p ← ListName.parseListNameInstruction instruction; Ok (ParsedListName p)
  | SolansInstruction.LockTransfer => p ← LockTransfer.parseLockTransferInstruction instruction; Ok (ParsedLockTransfer p)
  | SolansInstruction.MakeOffer => p ← MakeOffer.parseMakeOfferInstruction instruction; Ok (ParsedMakeOffer p)
  | SolansInstruction.RedeemName => p ← RedeemName.parseRedeemNameInstruction instruction; Ok (ParsedRedeemName p)
  | SolansInstruction.RegisterName => p ← RegisterName.parseRegisterNameInstruction instruction; Ok (ParsedRegisterName p)
  | SolansInstruction.RegisterWithSolans => p ← RegisterWithSolans.parseRegisterWithSolansInstruction instruction; Ok (ParsedRegisterWithSolans p)
  | SolansInstruction.RenewName => p ← RenewName.parseRenewNameInstruction instruction; Ok (ParsedRenewName p)
  | SolansInstruction.RenewWithSolans => p ← RenewWithSolans.parseRenewWithSolansInstruction instruction; Ok (ParsedRenewWithSolans p)
  | SolansInstruction.Resolve => p ← Resolve.parseResolveInstruction instruction; Ok (ParsedResolve p)
  | SolansInstruction.RevokeSubdomain => p ← RevokeSubdomain.parseRevokeSubdomainInstruction instruction; Ok (ParsedRevokeSubdomain p)
  | SolansInstruction.SetController => p ← SetController.parseSetControllerInstruction instruction; Ok (ParsedSetController p)
  | SolansInstruction.SetHosting => p ← SetHosting.parseSetHostingInstruction instruction; Ok (ParsedSetHosting p)
  | SolansInstruction.SetResolver => p ← SetResolver.parseSetResolverInstruction instruction; Ok (ParsedSetResolver p)
  | SolansInstruction.SetReverse => p ← SetReverse.parseSetReverseInstruction instruction; Ok (ParsedSetReverse p)
  | SolansInstruction.SetSolansParams => p ← SetSolansParams.parseSetSolansParamsInstruction instruction; Ok (ParsedSetSolansParams p)
  | SolansInstruction.SettleAuction => p ← SettleAuction.parseSettleAuctionInstruction instruction; Ok (ParsedSettleAuction p)
  | SolansInstruction.Stake => p ← Stake.parseStakeInstruction instruction; Ok (ParsedStake p)
  | SolansInstruction.StartAuction => p ← StartAuction.parseStartAuctionInstruction instruction; Ok (ParsedStartAuction p)
  | SolansInstruction.TokenizeName => p ← TokenizeName.parseTokenizeNameInstruction instruction; Ok (ParsedTokenizeName p)
  | SolansInstruction.TransferAdmin => p ← TransferAdmin.parseTransferAdminInstruction instruction; Ok (ParsedTransferAdmin p)
  | SolansInstruction.TransferName => p ← TransferName.parseTransferNameInstruction instruction; Ok (ParsedTransferName p)
  | SolansInstruction.Unstake => p ← Unstake.parseUnstakeInstruction instruction; Ok (ParsedUnstake p)
  | SolansInstruction.UpdateConfig => p ← UpdateConfig.parseUpdateConfigInstruction instruction; Ok (ParsedUpdateConfig p)
  | SolansInstruction.UpdateListing => p ← UpdateListing.parseUpdateListingInstruction instruction; Ok (ParsedUpdateListing p)
  | SolansInstruction.UpdateRecord => p ← UpdateRecord.parseUpdateRecordInstruction instruction; Ok (ParsedUpdateRecord p)
  | SolansInstruction.WrapSubdomain => p ← WrapSubdomain.parseWrapSubdomainInstruction instruction; Ok (ParsedWrapSubdomain p)
  end.

Definition instruction_codec `{KitSpec} (k : SolansInstruction.t) : InstructionCodec :=
  match k with
  | SolansInstruction.AcceptOffer => AcceptOffer.codec
  | SolansInstruction.AutoRenew => AutoRenew.codec
  | SolansInstruction.Bid => Bid.codec
  | SolansInstruction.BurnName => BurnName.codec
  | SolansInstruction.BuyName => BuyName.codec
  | SolansInstruction.BuybackBurn => BuybackBurn.codec
  | SolansInstruction.CancelAuction => CancelAuction.codec
  | SolansInstruction.CancelListing => CancelListing.codec
  | SolansInstruction.CancelOffer => CancelOffer.codec
  | SolansInstruction.ClaimExpired => ClaimExpired.codec
  | SolansInstruction.ClaimRewards => ClaimRewards.codec
  | SolansInstruction.InitBurnPool => InitBurnPool.codec
  | SolansInstruction.InitConfig => InitConfig.codec
  | SolansInstruction.InitStakePool => InitStakePool.codec
  | SolansInstruction.ListName => ListName.codec
  | SolansInstruction.LockTransfer => LockTransfer.codec
  | SolansInstruction.MakeOffer => MakeOffer.codec
  | SolansInstruction.RedeemName => RedeemName.codec
  | SolansInstruction.RegisterName => RegisterName.codec
  | SolansInstruction.RegisterWithSolans => RegisterWithSolans.codec
  | SolansInstruction.RenewName => RenewName.codec
  | SolansInstruction.RenewWithSolans => RenewWithSolans.codec
  | SolansInstruction.Resolve => Resolve.codec
  | SolansInstruction.RevokeSubdomain => RevokeSubdomain.codec
  | SolansInstruction.SetController => SetController.codec
  | SolansInstruction.SetHosting => SetHosting.codec
  | SolansInstruction.SetResolver => SetResolver.codec
  | SolansInstruction.SetReverse => SetReverse.codec
  | SolansInstruction.SetSolansParams => SetSolansParams.codec
  | SolansInstruction.SettleAuction => SettleAuction.codec
  | SolansInstruction.Stake => Stake.codec
  | SolansInstruction.StartAuction => StartAuction.codec
  | SolansInstruction.TokenizeName => TokenizeName.codec
  | SolansInstruction.TransferAdmin => TransferAdmin.codec
  | SolansInstruction.TransferName => TransferName.codec
  | SolansInstruction.Unstake => Unstake.codec
  | SolansInstruction.UpdateConfig => UpdateConfig.codec
  | SolansInstruction.UpdateListing => UpdateListing.codec
  | SolansInstruction.UpdateRecord => UpdateRecord.codec
  | SolansInstruction.WrapSubdomain => WrapSubdomain.codec
  end.

Definition inject `{KitSpec} (k : SolansInstruction.t) : Parsed (instruction_codec k) -> ParsedSolansInstruction :=
  match k with
  | SolansInstruction.AcceptOffer => ParsedAcceptOffer
  | SolansInstruction.AutoRenew => ParsedAutoRenew
  | SolansInstruction.Bid => ParsedBid
  | SolansInstruction.BurnName => ParsedBurnName
  | SolansInstruction.BuyName => ParsedBuyName
  | SolansInstruction.BuybackBurn => ParsedBuybackBurn
  | SolansInstruction.CancelAuction => ParsedCancelAuction
  | SolansInstruction.CancelListing => ParsedCancelListing
  | SolansInstruction.CancelOffer => ParsedCancelOffer
  | SolansInstruction.ClaimExpired => ParsedClaimExpired
  | SolansInstruction.ClaimRewards => ParsedClaimRewards
  | SolansInstruction.InitBurnPool => ParsedInitBurnPool
  | SolansInstruction.InitConfig => ParsedInitConfig
  | SolansInstruction.InitStakePool => ParsedInitStakePool
  | SolansInstruction.ListName => ParsedListName
  | SolansInstruction.LockTransfer => ParsedLockTransfer
  | SolansInstruction.MakeOffer => ParsedMakeOffer
  | SolansInstruction.RedeemName => ParsedRedeemName
  | SolansInstruction.RegisterName => ParsedRegisterName
  | SolansInstruction.RegisterWithSolans => ParsedRegisterWithSolans
  | SolansInstruction.RenewName => ParsedRenewName
  | SolansInstruction.RenewWithSolans => ParsedRenewWithSolans
  | SolansInstruction.Resolve => ParsedResolve
  | SolansInstruction.RevokeSubdomain => ParsedRevokeSubdomain
  | SolansInstruction.SetController => ParsedSetController
  | SolansInstruction.SetHosting => ParsedSetHosting
  | SolansInstruction.SetResolver => ParsedSetResolver
  | SolansInstruction.SetReverse => ParsedSetReverse
  | SolansInstruction.SetSolansParams => ParsedSetSolansParams
  | SolansInstruction.SettleAuction => ParsedSettleAuction
  | SolansInstruction.Stake => ParsedStake
  | SolansInstruction.StartAuction => ParsedStartAuction
  | SolansInstruction.TokenizeName => ParsedTokenizeName
  | SolansInstruction.TransferAdmin => ParsedTransferAdmin
  | SolansInstruction.TransferName => ParsedTransferName
  | SolansInstruction.Unstake => ParsedUnstake
  | SolansInstruction.UpdateConfig => ParsedUpdateConfig
  | SolansInstruction.UpdateListing => ParsedUpdateListing
  | SolansInstruction.UpdateRecord => ParsedUpdateRecord
  | SolansInstruction.WrapSubdomain => ParsedWrapSubdomain
  end.

Definition instructionType (p : ParsedSolansInstruction) : SolansInstruction.t :=
  match p with
  | ParsedAcceptOffer _ => SolansInstruction.AcceptOffer
  | ParsedAutoRenew _ => SolansInstruction.AutoRenew
  | ParsedBid _ => SolansInstruction.Bid
  | ParsedBurnName _ => SolansInstruction.BurnName
  | ParsedBuyName _ => SolansInstruction.BuyName
  | ParsedBuybackBurn _ => SolansInstruction.BuybackBurn
  | ParsedCancelAuction _ => SolansInstruction.CancelAuction
  | ParsedCancelListing _ => SolansInstruction.CancelListing
  | ParsedCancelOffer _ => SolansInstruction.CancelOffer
  | ParsedClaimExpired _ => SolansInstruction.ClaimExpired
  | ParsedClaimRewards _ => SolansInstruction.ClaimRewards
  | ParsedInitBurnPool _ => SolansInstruction.InitBurnPool
  | ParsedInitConfig _ => SolansInstruction.InitConfig
  | ParsedInitStakePool _ => SolansInstruction.InitStakePool
  | ParsedListName _ => SolansInstruction.ListName
  | ParsedLockTransfer _ => SolansInstruction.LockTransfer
  | ParsedMakeOffer _ => SolansInstruction.MakeOffer
  | ParsedRedeemName _ => SolansInstruction.RedeemName
  | ParsedRegisterName _ => SolansInstruction.RegisterName
  | ParsedRegisterWithSolans _ => SolansInstruction.RegisterWithSolans
  | ParsedRenewName _ => SolansInstruction.RenewName
  | ParsedRenewWithSolans _ => SolansInstruction.RenewWithSolans
  | ParsedResolve _ => SolansInstruction.Resolve
  | ParsedRevokeSubdomain _ => SolansInstruction.RevokeSubdomain
  | ParsedSetController _ => SolansInstruction.SetController
  | ParsedSetHosting _ => SolansInstruction.SetHosting
  | ParsedSetResolver _ => SolansInstruction.SetResolver
  | ParsedSetReverse _ => SolansInstruction.SetReverse
  | ParsedSetSolansParams _ => SolansInstruction.SetSolansParams
  | ParsedSettleAuction _ => SolansInstruction.SettleAuction
  | ParsedStake _ => SolansInstruction.Stake
  | ParsedStartAuction _ => SolansInstruction.StartAuction
  | ParsedTokenizeName _ => SolansInstruction.TokenizeName
  | ParsedTransferAdmin _ => SolansInstruction.TransferAdmin
  | ParsedTransferName _ => SolansInstruction.TransferName
  | ParsedUnstake _ => SolansInstruction.Unstake
  | ParsedUpdateConfig _ => SolansInstruction.UpdateConfig
  | ParsedUpdateListing _ => SolansInstruction.UpdateListing
  | ParsedUpdateRecord _ => SolansInstruction.UpdateRecord
  | ParsedWrapSubdomain _ => SolansInstruction.WrapSubdomain
  end.

(** ** Laws *)

Section Laws.
Context `{KS : KitSpec}.

Lemma instruction_tag_length k : length (tag (instruction_codec k)) = 8%nat.
Proof. by destruct k. Qed.

Lemma identify_instruction_table data :
  identifySolansInstruction data =
    of_option (failedToIdentifyInstruction data) (find_tag data instruction_tags).
Proof.
  unfold identifySolansInstruction, instruction_tags. cbn [find_tag].
  rewrite !identify_step by reflexivity.
  repeat (destruct (bool_decide _); [reflexivity|]). reflexivity.
Qed.

Lemma find_instruction_tag k data :
  take 8 data = tag (instruction_codec k) -> find_tag data instruction_tags = Some k.
Proof. intros Ht. unfold instruction_tags. cbn [find_tag]. rewrite !Ht. by destruct k. Qed.

(** Identification looks at the first eight bytes only. *)
Lemma identify_encoded k bs rest :
  take 8 bs = tag (instruction_codec k) ->
  identifySolansInstruction (bs ++ rest) = Ok k.
Proof.
  intros Ht. rewrite identify_instruction_table, (find_instruction_tag k); [done|].
  rewrite take_app_le; [done|].
  rewrite <- (take_drop 8 bs), length_app, Ht, instruction_tag_length. lia.
Qed.

(** Parsing is identification followed by the kind's parser. *)
Lemma parse_dispatch ix :
  parseSolansInstruction ix =
    (k ← identifySolansInstruction (data ix);
     inject k <$> parse (instruction_codec k) ix).
Proof.
  unfold parseSolansInstruction.
  destruct (identifySolansInstruction (data ix)) as [k|e]; [|done].
  destruct k; cbn [mbind result_bind];
    match goal with
    | |- mbind _ ?m = fmap _ ?m' => change m' with m; destruct m; reflexivity
    end.
Qed.

Lemma inject_type k p : instructionType (inject k p) = k.
Proof. by destruct k. Qed.

(** Parsing an encoded instruction with enough accounts. *)
Lemma parsed_instruction k (v : Args (instruction_codec k)) program metas bs rest :
  object_ok (instruction_codec k) v ->
  (length (slots (instruction_codec k)) <= length metas)%nat ->
  encoder (instruction_codec k) v = Ok bs ->
  exists p, parseSolansInstruction
      {| programAddress := program; accounts := metas; data := bs ++ rest |} = Ok (inject k p)
    /\ parsed_program _ p = program
    /\ parsed_accounts _ p = read_slots (slots (instruction_codec k)) metas
    /\ parsed_data _ p = object (instruction_codec k) v.
Proof.
  intros Hv Hlen He. destruct (object_law _ v Hv) as (bs' & He' & Hd).
  rewrite He in He'. injection He' as <-.
  rewrite parse_dispatch. cbn [data].
  rewrite (identify_encoded k) by exact (tag_law _ v bs He). cbn [mbind result_bind].
  pose proof (parse_refines (instruction_codec k)
    {| programAddress := program; accounts := metas; data := bs ++ rest |}) as HP.
  unfold parse_spec in HP. cbn [accounts data programAddress] in HP.
  rewrite (proj2 (Nat.ltb_ge _ _) Hlen) in HP. unfold decode in HP. rewrite Hd in HP.
  destruct (parse _ _) as [p|]; [|done]. cbn in HP. injection HP as H1 H2 H3.
  by exists p.
Qed.

(** C19: For each of the forty instructions, encoding valid arguments and parsing the bytes
    (with anything appended) with enough accounts identifies the same instruction and
    returns the same arguments, with each account at its position and optional accounts
    omitted when they hold the program's address. *)
Theorem instructions_round_trip k (v : Args (instruction_codec k)) program metas :
  object_ok (instruction_codec k) v ->
  (length (slots (instruction_codec k)) <= length metas)%nat ->
  exists bs, encoder (instruction_codec k) v = Ok bs
    /\ forall rest, exists p,
         parseSolansInstruction
           {| programAddress := program; accounts := metas; data := bs ++ rest |}
         = Ok (inject k p)
         /\ parsed_program _ p = program
         /\ parsed_accounts _ p = read_slots (slots (instruction_codec k)) metas
         /\ parsed_data _ p = object (instruction_codec k) v.
Proof.
  intros Hv Hlen. destruct (object_law _ v Hv) as (bs & He & _).
  exists bs. split; [done|]. intros rest. by apply parsed_instruction.
Qed.

Lemma identified_tag ix k :
  take 8 (data ix) = tag (instruction_codec k) ->
  identifySolansInstruction (data ix) = Ok k.
Proof. intros Ht. by rewrite identify_instruction_table, (find_instruction_tag k). Qed.

Lemma unidentified data :
  (forall k, take 8 data <> tag (instruction_codec k)) ->
  find_tag data instruction_tags = None.
Proof.
  intros Hk. assert (HF : Forall (fun '(t, k) => t = tag (instruction_codec k)) instruction_tags)
    by (unfold instruction_tags; repeat constructor).
  induction HF as [|[t k] l Ht _ IH]; [done|]. cbn [find_tag].
  rewrite bool_decide_eq_false_2 by (rewrite Ht; apply Hk). apply IH.
Qed.

(** ParseSolansInstruction throws the identification error when the first eight bytes
    are no instruction's discriminator, the insufficient-accounts error with both counts
    when accounts are missing, and otherwise the decoder's error. *)
Theorem instructions_rejected ix :
  ((forall k, take 8 (data ix) <> tag (instruction_codec k)) ->
   parseSolansInstruction ix = Err (failedToIdentifyInstruction (data ix)))
  /\ (forall k, take 8 (data ix) = tag (instruction_codec k) ->
     ((length (accounts ix) < length (slots (instruction_codec k)))%nat ->
      parseSolansInstruction ix
      = Err (insufficientAccountMetas (Z.of_nat (length (accounts ix)))
               (Z.of_nat (length (slots (instruction_codec k))))))
     /\ ((length (slots (instruction_codec k)) <= length (accounts ix))%nat ->
         forall e, decode (decoder (instruction_codec k)) (data ix) = Err e ->
         parseSolansInstruction ix = Err e)).
Proof.
  rewrite parse_dispatch. split.
  - intros Hk. by rewrite identify_instruction_table, unidentified.
  - intros k Ht. rewrite (identified_tag ix k Ht). cbn [mbind result_bind].
    pose proof (parse_refines (instruction_codec k) ix) as HP. unfold parse_spec in HP.
    split.
    + intros Hlen. rewrite (proj2 (Nat.ltb_lt _ _) Hlen) in HP.
      destruct (parse _ _); [done|]. cbn in HP |- *. by injection HP as ->.
    + intros Hlen e He. rewrite (proj2 (Nat.ltb_ge _ _) Hlen), He in HP.
      destruct (parse _ _); [done|]. cbn in HP |- *. by injection HP as ->.
Qed.
End Laws.

(** ** Concrete instructions *)

Definition sample_price : ListName.ListNameInstructionDataArgs :=
  ListName.MkListNameInstructionDataArgs 1500000000 1760000000.

Definition sample_metas : list AccountMeta :=
  replicate 12 {| address := small_addr 1; role := READONLY |}.

Lemma instructions_round_trip_witness :
  exists bs p, encoder (instruction_codec SolansInstruction.ListName) sample_price = Ok bs
    /\ parseSolansInstruction
         {| programAddress := SOLANS_PROGRAM_ADDRESS; accounts := sample_metas; data := bs |}
       = Ok (inject SolansInstruction.ListName p).
Proof.
  destruct (instructions_round_trip SolansInstruction.ListName sample_price
    SOLANS_PROGRAM_ADDRESS sample_metas) as (bs & He & Hrest).
  - vm_compute. repeat split; discriminate.
  - vm_compute. lia.
  - destruct (Hrest []) as (p & Hp & _). rewrite app_nil_r in Hp.
    exists bs, p. split; [exact He|exact Hp].
Defined.

Lemma instructions_rejected_witness :
  parseSolansInstruction
    {| programAddress := SOLANS_PROGRAM_ADDRESS; accounts := []; data := [1; 2; 3] |}
  = Err (failedToIdentifyInstruction [1; 2; 3]).
Proof.
  apply (proj1 (instructions_rejected
    {| programAddress := SOLANS_PROGRAM_ADDRESS; accounts := []; data := [1; 2; 3] |})).
  intros k. destruct k; vm_compute; discriminate.
Defined.
