(* ===== verification/ProgramAccounts.v ===== *)
(** * The accounts the program declares

    One definition per handler of programs/solans/src/instructions: the fields of
    its [#[derive(Accounts)]] struct in order, each with whether it must sign
    ([Signer], or an account [init] creates at a fresh key), whether it is written
    ([mut], [init], [init_if_needed]) and whether it is optional ([Option]).  Names
    are in the client's spelling. *)
From S2P Require Import Prelude JsString Kit Pdas Instruction Program.

Record AccountDecl := MkDecl {
  declName : string; declSigner : bool; declMut : bool; declOptional : bool
}.

Definition slot_of (d : AccountDecl) : Slot := if declOptional d then Optional else Required.

Definition RegisterName_accounts : list AccountDecl :=
  [MkDecl "payer" true true false;
   MkDecl "owner" false false false;
   MkDecl "config" false false false;
   MkDecl "nameRecord" false true false;
   MkDecl "payerTokenAccount" false true false;
   MkDecl "treasuryTokenAccount" false true false;
   MkDecl "stakingVault" false true false;
   MkDecl "burnVault" false true false;
   MkDecl "referralTokenAccount" false true true;
   MkDecl "paymentMint" false false false;
   MkDecl "tokenProgram" false false false;
   MkDecl "systemProgram" false false false]%string.

Definition RenewName_accounts : list AccountDecl :=
  [MkDecl "payer" true true false;
   MkDecl "config" false false false;
   MkDecl "nameRecord" false true false;
   MkDecl "payerTokenAccount" false true false;
   MkDecl "treasuryTokenAccount" false true false;
   MkDecl "stakingVault" false true false;
   MkDecl "burnVault" false true false;
   MkDecl "referralTokenAccount" false true true;
   MkDecl "paymentMint" false false false;
   MkDecl "tokenProgram" false false false]%string.

Definition AutoRenew_accounts : list AccountDecl :=
  [MkDecl "keeper" true true false;
   MkDecl "config" false false false;
   MkDecl "nameRecord" false true false;
   MkDecl "ownerTokenAccount" false true false;
   MkDecl "treasuryTokenAccount" false true false;
   MkDecl "stakingVault" false true false;
   MkDecl "burnVault" false true false;
   MkDecl "paymentMint" false false false;
   MkDecl "tokenProgram" false false false]%string.

Definition ClaimExpired_accounts : list AccountDecl :=
  [MkDecl "claimer" true true false;
   MkDecl "config" false false false;
   MkDecl "nameRecord" false true false;
   MkDecl "payerTokenAccount" false true false;
   MkDecl "treasuryTokenAccount" false true false;
   MkDecl "stakingVault" false true false;
   MkDecl "burnVault" false true false;
   MkDecl "referralTokenAccount" false true true;
   MkDecl "paymentMint" false false false;
   MkDecl "tokenProgram" false false false]%string.

Definition TransferName_accounts : list AccountDecl :=
  [MkDecl "owner" true false false;
   MkDecl "nameRecord" false true false]%string.

Definition LockTransfer_accounts : list AccountDecl :=
  [MkDecl "owner" true false false;
   MkDecl "nameRecord" false true false]%string.

Definition BurnName_accounts : list AccountDecl :=
  [MkDecl "owner" true true false;
   MkDecl "nameRecord" false true false]%string.

Definition UpdateRecord_accounts : list AccountDecl :=
  [MkDecl "authority" true false false;
   MkDecl "nameRecord" false true false;
   MkDecl "nftTokenAccount" false false true]%string.

Definition SetController_accounts : list AccountDecl :=
  [MkDecl "owner" true false false;
   MkDecl "nameRecord" false true false]%string.

Definition SetResolver_accounts : list AccountDecl :=
  [MkDecl "authority" true false false;
   MkDecl "nameRecord" false true false;
   MkDecl "nftTokenAccount" false false true]%string.

Definition SetHosting_accounts : list AccountDecl :=
  [MkDecl "authority" true false false;
   MkDecl "nameRecord" false true false;
   MkDecl "nftTokenAccount" false false true]%string.

Definition SetReverse_accounts : list AccountDecl :=
  [MkDecl "owner" true true false;
   MkDecl "nameRecord" false true false;
   MkDecl "reverseRecord" false true false;
   MkDecl "systemProgram" false false false]%string.

Definition Resolve_accounts : list AccountDecl :=
  [MkDecl "nameRecord" false false false]%string.

Definition WrapSubdomain_accounts : list AccountDecl :=
  [MkDecl "owner" true true false;
   MkDecl "subdomainOwner" false false false;
   MkDecl "parentName" false false false;
   MkDecl "nameRecord" false true false;
   MkDecl "systemProgram" false false false]%string.

Definition RevokeSubdomain_accounts : list AccountDecl :=
  [MkDecl "owner" true true false;
   MkDecl "parentName" false false false;
   MkDecl "nameRecord" false true false]%string.

Definition TokenizeName_accounts : list AccountDecl :=
  [MkDecl "owner" true true false;
   MkDecl "nameRecord" false true false;
   MkDecl "mint" true true false;
   MkDecl "tokenAccount" false true false;
   MkDecl "metadata" false true false;
   MkDecl "masterEdition" false true false;
   MkDecl "tokenProgram" false false false;
   MkDecl "associatedTokenProgram" false false false;
   MkDecl "metadataProgram" false false false;
   MkDecl "systemProgram" false false false;
   MkDecl "rent" false false false]%string.

Definition RedeemName_accounts : list AccountDecl :=
  [MkDecl "redeemer" true true false;
   MkDecl "nameRecord" false true false;
   MkDecl "mint" false true false;
   MkDecl "tokenAccount" false true false;
   MkDecl "metadata" false true false;
   MkDecl "masterEdition" false true false;
   MkDecl "tokenProgram" false false false;
   MkDecl "metadataProgram" false false false]%string.

Definition ListName_accounts : list AccountDecl :=
  [MkDecl "owner" true true false;
   MkDecl "nameRecord" false true false;
   MkDecl "listing" false true false;
   MkDecl "systemProgram" false false false]%string.

Definition UpdateListing_accounts : list AccountDecl :=
  [MkDecl "seller" true false false;
   MkDecl "listing" false true false]%string.

Definition CancelListing_accounts : list AccountDecl :=
  [MkDecl "canceller" true false false;
   MkDecl "seller" false true false;
   MkDecl "nameRecord" false true false;
   MkDecl "listing" false true false]%string.

Definition BuyName_accounts : list AccountDecl :=
  [MkDecl "buyer" true true false;
   MkDecl "seller" false true false;
   MkDecl "solTreasury" false true false;
   MkDecl "config" false false false;
   MkDecl "nameRecord" false true false;
   MkDecl "listing" false true false;
   MkDecl "systemProgram" false false false]%string.

Definition MakeOffer_accounts : list AccountDecl :=
  [MkDecl "buyer" true true false;
   MkDecl "nameRecord" false false false;
   MkDecl "offer" false true false;
   MkDecl "systemProgram" false false false]%string.

Definition CancelOffer_accounts : list AccountDecl :=
  [MkDecl "canceller" true false false;
   MkDecl "buyer" false true false;
   MkDecl "nameRecord" false false true;
   MkDecl "offer" false true false]%string.

Definition AcceptOffer_accounts : list AccountDecl :=
  [MkDecl "owner" true false false;
   MkDecl "buyer" false true false;
   MkDecl "solTreasury" false true false;
   MkDecl "config" false false false;
   MkDecl "nameRecord" false true false;
   MkDecl "offer" false true false]%string.

Definition StartAuction_accounts : list AccountDecl :=
  [MkDecl "owner" true true false;
   MkDecl "config" false false false;
   MkDecl "nameRecord" false true false;
   MkDecl "auction" false true false;
   MkDecl "solansMint" false false false;
   MkDecl "bidVault" false true false;
   MkDecl "tokenProgram" false false false;
   MkDecl "associatedTokenProgram" false false false;
   MkDecl "systemProgram" false false false]%string.

Definition Bid_accounts : list AccountDecl :=
  [MkDecl "bidder" true true false;
   MkDecl "auction" false true false;
   MkDecl "bidderSolansAccount" false true false;
   MkDecl "prevBidderSolansAccount" false true true;
   MkDecl "bidVault" false true false;
   MkDecl "solansMint" false false false;
   MkDecl "tokenProgram" false false false]%string.

Definition CancelAuction_accounts : list AccountDecl :=
  [MkDecl "seller" true true false;
   MkDecl "nameRecord" false true false;
   MkDecl "auction" false true false;
   MkDecl "bidVault" false true false;
   MkDecl "tokenProgram" false false false]%string.

Definition SettleAuction_accounts : list AccountDecl :=
  [MkDecl "settler" true false false;
   MkDecl "config" false false false;
   MkDecl "seller" false true false;
   MkDecl "sellerSolansAccount" false true true;
   MkDecl "nameRecord" false true false;
   MkDecl "auction" false true false;
   MkDecl "bidVault" false true false;
   MkDecl "solansMint" false true false;
   MkDecl "tokenProgram" false false false]%string.

Definition InitConfig_accounts : list AccountDecl :=
  [MkDecl "admin" true true false;
   MkDecl "config" false true false;
   MkDecl "paymentMint" false false false;
   MkDecl "treasuryTokenAccount" false false false;
   MkDecl "stakingVault" false false false;
   MkDecl "burnVault" false false false;
   MkDecl "tokenProgram" false false false;
   MkDecl "systemProgram" false false false]%string.

Definition UpdateConfig_accounts : list AccountDecl :=
  [MkDecl "admin" true false false;
   MkDecl "config" false true false]%string.

Definition TransferAdmin_accounts : list AccountDecl :=
  [MkDecl "admin" true false false;
   MkDecl "config" false true false]%string.

Definition InitBurnPool_accounts : list AccountDecl :=
  [MkDecl "admin" true true false;
   MkDecl "config" false true false;
   MkDecl "solansMint" false false false;
   MkDecl "paymentMint" false false false;
   MkDecl "burnVault" false true false;
   MkDecl "tokenProgram" false false false;
   MkDecl "associatedTokenProgram" false false false;
   MkDecl "systemProgram" false false false]%string.

Definition SetSolansParams_accounts : list AccountDecl :=
  [MkDecl "admin" true false false;
   MkDecl "config" false true false]%string.

Definition RegisterWithSolans_accounts : list AccountDecl :=
  [MkDecl "payer" true true false;
   MkDecl "owner" false false false;
   MkDecl "config" false false false;
   MkDecl "nameRecord" false true false;
   MkDecl "payerSolansAccount" false true false;
   MkDecl "solansMint" false true false;
   MkDecl "tokenProgram" false false false;
   MkDecl "systemProgram" false false false]%string.

Definition RenewWithSolans_accounts : list AccountDecl :=
  [MkDecl "payer" true true false;
   MkDecl "config" false false false;
   MkDecl "nameRecord" false true false;
   MkDecl "payerSolansAccount" false true false;
   MkDecl "solansMint" false true false;
   MkDecl "tokenProgram" false false false]%string.

Definition BuybackBurn_accounts : list AccountDecl :=
  [MkDecl "keeper" true false false;
   MkDecl "config" false false false;
   MkDecl "burnVault" false true false;
   MkDecl "keeperPaymentAccount" false true false;
   MkDecl "keeperSolansAccount" false true false;
   MkDecl "solansMint" false true false;
   MkDecl "paymentMint" false false false;
   MkDecl "tokenProgram" false false false]%string.

Definition InitStakePool_accounts : list AccountDecl :=
  [MkDecl "admin" true true false;
   MkDecl "config" false true false;
   MkDecl "stakePool" false true false;
   MkDecl "solansMint" false false false;
   MkDecl "paymentMint" false false false;
   MkDecl "stakeVault" false true false;
   MkDecl "rewardVault" false true false;
   MkDecl "tokenProgram" false false false;
   MkDecl "associatedTokenProgram" false false false;
   MkDecl "systemProgram" false false false]%string.

Definition Stake_accounts : list AccountDecl :=
  [MkDecl "staker" true true false;
   MkDecl "config" false false false;
   MkDecl "stakePool" false true false;
   MkDecl "stakeAccount" false true false;
   MkDecl "stakerTokenAccount" false true false;
   MkDecl "stakerRewardAccount" false true false;
   MkDecl "stakeVault" false true false;
   MkDecl "rewardVault" false true false;
   MkDecl "solansMint" false false false;
   MkDecl "paymentMint" false false false;
   MkDecl "tokenProgram" false false false;
   MkDecl "systemProgram" false false false]%string.

Definition Unstake_accounts : list AccountDecl :=
  [MkDecl "staker" true false false;
   MkDecl "config" false false false;
   MkDecl "stakePool" false true false;
   MkDecl "stakeAccount" false true false;
   MkDecl "stakerTokenAccount" false true false;
   MkDecl "stakerRewardAccount" false true false;
   MkDecl "stakeVault" false true false;
   MkDecl "rewardVault" false true false;
   MkDecl "solansMint" false false false;
   MkDecl "paymentMint" false false false;
   MkDecl "tokenProgram" false false false]%string.

Definition ClaimRewards_accounts : list AccountDecl :=
  [MkDecl "staker" true false false;
   MkDecl "config" false false false;
   MkDecl "stakePool" false true false;
   MkDecl "stakeAccount" false true false;
   MkDecl "stakerRewardAccount" false true false;
   MkDecl "rewardVault" false true false;
   MkDecl "paymentMint" false false false;
   MkDecl "tokenProgram" false false false]%string.

Definition declared (k : SolansInstruction.t) : list AccountDecl :=
  match k with
  | SolansInstruction.RegisterName => RegisterName_accounts
  | SolansInstruction.RenewName => RenewName_accounts
  | SolansInstruction.AutoRenew => AutoRenew_accounts
  | SolansInstruction.ClaimExpired => ClaimExpired_accounts
  | SolansInstruction.TransferName => TransferName_accounts
  | SolansInstruction.LockTransfer => LockTransfer_accounts
  | SolansInstruction.BurnName => BurnName_accounts
  | SolansInstruction.UpdateRecord => UpdateRecord_accounts
  | SolansInstruction.SetController => SetController_accounts
  | SolansInstruction.SetResolver => SetResolver_accounts
  | SolansInstruction.SetHosting => SetHosting_accounts
  | SolansInstruction.SetReverse => SetReverse_accounts
  | SolansInstruction.Resolve => Resolve_accounts
  | SolansInstruction.WrapSubdomain => WrapSubdomain_accounts
  | SolansInstruction.RevokeSubdomain => RevokeSubdomain_accounts
  | SolansInstruction.TokenizeName => TokenizeName_accounts
  | SolansInstruction.RedeemName => RedeemName_accounts
  | SolansInstruction.ListName => ListName_accounts
  | SolansInstruction.UpdateListing => UpdateListing_accounts
  | SolansInstruction.CancelListing => CancelListing_accounts
  | SolansInstruction.BuyName => BuyName_accounts
  | SolansInstruction.MakeOffer => MakeOffer_accounts
  | SolansInstruction.CancelOffer => CancelOffer_accounts
  | SolansInstruction.AcceptOffer => AcceptOffer_accounts
  | SolansInstruction.StartAuction => StartAuction_accounts
  | SolansInstruction.Bid => Bid_accounts
  | SolansInstruction.CancelAuction => CancelAuction_accounts
  | SolansInstruction.SettleAuction => SettleAuction_accounts
  | SolansInstruction.InitConfig => InitConfig_accounts
  | SolansInstruction.UpdateConfig => UpdateConfig_accounts
  | SolansInstruction.TransferAdmin => TransferAdmin_accounts
  | SolansInstruction.InitBurnPool => InitBurnPool_accounts
  | SolansInstruction.SetSolansParams => SetSolansParams_accounts
  | SolansInstruction.RegisterWithSolans => RegisterWithSolans_accounts
  | SolansInstruction.RenewWithSolans => RenewWithSolans_accounts
  | SolansInstruction.BuybackBurn => BuybackBurn_accounts
  | SolansInstruction.InitStakePool => InitStakePool_accounts
  | SolansInstruction.Stake => Stake_accounts
  | SolansInstruction.Unstake => Unstake_accounts
  | SolansInstruction.ClaimRewards => ClaimRewards_accounts
  end.

(** The parsers expect the declared accounts, optional where the program's are. *)
Lemma declared_slots `{KitSpec} k : map slot_of (declared k) = slots (instruction_codec k).
Proof. by destruct k. Qed.
