(* ===== verification/ProgramClient.v ===== *)
(** * What the generated instruction builders share

    The builders of src/clients/ts/src/generated/instructions turn an input object
    into an [Instruction]: they collect the accounts, derive the missing ones,
    make an account meta of each and encode the arguments.  [ProgramClientCore] is
    the part of @solana/kit's program-client-core they call.  [InstructionBuilder]
    states what a builder owes: it builds the accounts the program declares, at the
    addresses given or derived, with the declared roles, and the encoded arguments.
    Each generated builder is proved to meet it. *)
From S2P Require Import Prelude JsString Kit SmallKit Pdas Instruction Program ProgramAccounts.

(** [TransactionSigner]: of a signer the builders read the address. *)
Record TransactionSigner := MkSigner { signerAddress : Address }.

(** The value of a [ResolvedInstructionAccount]. *)
Inductive ResolvedValue :=
| VAddress (a : Address)
| VPda (pda : ProgramDerivedAddress)
| VSigner (s : TransactionSigner).

Record ResolvedInstructionAccount := MkResolved {
  value : option ResolvedValue;
  isWritable : bool;
}.

(** [!account.value]: nothing, or the empty string. *)
Definition missing (v : option ResolvedValue) : bool :=
  match v with None | Some (VAddress []) => true | _ => false end.

Class ProgramClientCore := {
  getAccountMetaFactory : Address -> jsstring ->
    jsstring -> ResolvedInstructionAccount -> result JsError AccountMeta;
  getAddressFromResolvedInstructionAccount : jsstring -> option ResolvedValue ->
    result JsError Address;
  getNonNullResolvedInstructionInput : forall {T}, jsstring -> option T -> result JsError T;
}.

(** ** Documented behaviour *)

Definition role_of (signer writable : bool) : AccountRole :=
  match signer, writable with
  | true, true => WRITABLE_SIGNER
  | true, false => READONLY_SIGNER
  | false, true => WRITABLE
  | false, false => READONLY
  end.

Definition value_address (v : ResolvedValue) : Address :=
  match v with VAddress a => a | VPda (a, _) => a | VSigner s => signerAddress s end.

Definition is_signer (v : ResolvedValue) : bool :=
  match v with VSigner _ => true | _ => false end.

(** With the strategy [programId] a missing account is the program itself. *)
Class ProgramClientSpec (P : ProgramClientCore) : Prop := {
  meta_missing : forall pa name r, missing (value r) = true ->
    getAccountMetaFactory pa (js "programId") name r
    = Ok {| address := pa; role := READONLY |};
  meta_present : forall pa name v w, missing (Some v) = false ->
    getAccountMetaFactory pa (js "programId") name (MkResolved (Some v) w)
    = Ok {| address := value_address v; role := role_of (is_signer v) w |};
  resolved_address : forall name v,
    getAddressFromResolvedInstructionAccount name (Some v) = Ok (value_address v);
  non_null : forall T name (x : T), getNonNullResolvedInstructionInput name (Some x) = Ok x;
}.

(** ** Building blocks of the generated code *)

(** [if (!accounts.x.value) { accounts.x.value = ...; }] *)
Definition default_value (r : ResolvedInstructionAccount) (m : result JsError ResolvedValue)
    : result JsError ResolvedInstructionAccount :=
  if missing (value r) then v ← m; Ok (MkResolved (Some v) (isWritable r)) else Ok r.

(** An address input, [null] when it is not given. *)
Definition fromAddress (o : option Address) (writable : bool) : ResolvedInstructionAccount :=
  MkResolved (VAddress <$> o) writable.

Definition fromSigner (s : TransactionSigner) (writable : bool) : ResolvedInstructionAccount :=
  MkResolved (Some (VSigner s)) writable.

(** ** Specification *)

(** The address given, if any: the empty string counts as nothing. *)
Definition given (o : option Address) : option Address :=
  match o with Some [] => None | _ => o end.

Definition or_default (o : option Address) (m : result JsError Address) : result JsError Address :=
  match given o with Some a => Ok a | None => m end.

Definition meta_spec (programAddress : Address) (d : AccountDecl) (a : option Address)
    : AccountMeta :=
  match a with
  | Some a => {| address := a; role := role_of (declSigner d) (declMut d) |}
  | None => {| address := programAddress; role := READONLY |}
  end.

(** The instruction a builder owes: declared accounts at these addresses. *)
Definition build_spec (decls : list AccountDecl) (addresses : result JsError (list (option Address)))
    (data : result JsError bytes) (programAddress : Address) : result JsError Instruction :=
  accs ← addresses;
  bs ← data;
  Ok {| programAddress := programAddress;
        accounts := zip_with (meta_spec programAddress) decls accs; data := bs |}.

Record InstructionBuilder `{KitSpec} `{ProgramClientSpec} := {
  kind : SolansInstruction.t;
  Input : Type;
  args_of : Input -> Args (instruction_codec kind);
  addresses : Input -> result JsError (list (option Address));
  build : Input -> option Address -> result JsError Instruction;
  addresses_length : forall input l, addresses input = Ok l -> length l = length (declared kind);
  build_refines : forall input programAddress, build input programAddress
    = build_spec (declared kind) (addresses input) (encoder (instruction_codec kind) (args_of input))
        (default SOLANS_PROGRAM_ADDRESS programAddress);
}.

(** ** Laws for the refinement proofs *)

(** An account defaulted to [a]: a value of that address that is not a signer. *)
Definition resolved_as (r : ResolvedInstructionAccount) (a : Address) (w : bool) : Prop :=
  exists v, r = MkResolved (Some v) w /\ missing (Some v) = false /\ is_signer v = false
    /\ value_address v = a.

Section Laws.
Context `{PS : ProgramClientSpec}.

Lemma bind_assoc {A B C} (m : result JsError A) (f : A -> result JsError B)
    (g : B -> result JsError C) : (m ≫= f) ≫= g = m ≫= (fun x => f x ≫= g).
Proof. by destruct m. Qed.

Lemma default_pda {B} o w (m : result JsError ProgramDerivedAddress)
    (k : ResolvedInstructionAccount -> result JsError B) (k' : Address -> result JsError B) :
  (forall r a, resolved_as r a w -> k r = k' a) ->
  (r ← default_value (fromAddress o w) (p ← m; Ok (VPda p)); k r)
  = (a ← or_default o (p ← m; Ok p.1); k' a).
Proof.
  intros Hk. unfold default_value, fromAddress, or_default.
  destruct o as [[|u a]|]; cbn.
  - destruct m as [[a b]|]; cbn; [|done]. apply Hk. by exists (VPda (a, b)).
  - apply Hk. by exists (VAddress (u :: a)).
  - destruct m as [[a b]|]; cbn; [|done]. apply Hk. by exists (VPda (a, b)).
Qed.

Lemma default_const {B} o w u c
    (k : ResolvedInstructionAccount -> result JsError B) (k' : Address -> result JsError B) :
  (forall r a, resolved_as r a w -> k r = k' a) ->
  (r ← default_value (fromAddress o w) (Ok (VAddress (u :: c))); k r)
  = (a ← or_default o (Ok (u :: c)); k' a).
Proof.
  intros Hk. unfold default_value, fromAddress, or_default.
  destruct o as [[|x a]|]; cbn; apply Hk; by eexists.
Qed.

Lemma meta_resolved pa name r a w : resolved_as r a w ->
  getAccountMetaFactory pa (js "programId") name r
  = Ok {| address := a; role := role_of false w |}.
Proof. intros (v & -> & Hm & Hs & <-). by rewrite meta_present, Hs. Qed.

Lemma meta_signer pa name s w :
  getAccountMetaFactory pa (js "programId") name (fromSigner s w)
  = Ok {| address := signerAddress s; role := role_of true w |}.
Proof. unfold fromSigner. by rewrite meta_present. Qed.

Lemma meta_address pa name o w :
  getAccountMetaFactory pa (js "programId") name (fromAddress o w)
  = Ok (match given o with
        | Some a => {| address := a; role := role_of false w |}
        | None => {| address := pa; role := READONLY |}
        end).
Proof.
  unfold fromAddress. destruct o as [[|u a]|]; cbn; [by apply meta_missing| |by apply meta_missing].
  by rewrite meta_present.
Qed.

Lemma resolved_as_address name r a w : resolved_as r a w ->
  getAddressFromResolvedInstructionAccount name (value r) = Ok a.
Proof. intros (v & -> & _ & _ & <-). apply resolved_address. Qed.

Lemma signer_address name s w :
  getAddressFromResolvedInstructionAccount name (value (fromSigner s w)) = Ok (signerAddress s).
Proof. apply resolved_address. Qed.

Lemma given_address name a w :
  getAddressFromResolvedInstructionAccount name (value (fromAddress (Some a) w)) = Ok a.
Proof. apply resolved_address. Qed.
End Laws.

(** The refinement of a generated builder: default by default, then the metas. *)
Ltac builder_step :=
  match goal with
  | |- _ = mbind _ (mbind _ (or_default ?o ?m)) => rewrite (bind_assoc (or_default o m))
  | |- mbind _ (default_value _ _) = _ =>
      first [ apply default_pda | apply default_const ];
      let r := fresh "r" in let a := fresh "a" in let Hr := fresh "Hr" in
      intros r a Hr; cbn beta
  | |- context [getNonNullResolvedInstructionInput _ (Some _)] =>
      rewrite non_null; cbn [mbind result_bind]
  | |- context [getAddressFromResolvedInstructionAccount _ (value (fromSigner _ _))] =>
      rewrite signer_address; cbn [mbind result_bind]
  | |- context [getAddressFromResolvedInstructionAccount _ (value (fromAddress (Some _) _))] =>
      rewrite given_address; cbn [mbind result_bind]
  | Hr : resolved_as ?r _ _ |- context [getAddressFromResolvedInstructionAccount _ (value ?r)] =>
      rewrite (resolved_as_address _ r _ _ Hr); cbn [mbind result_bind]
  | |- mbind _ (getAccountMetaFactory _ _ _ (fromSigner _ _)) = _ =>
      rewrite meta_signer; cbn [mbind result_bind]
  | |- mbind _ (getAccountMetaFactory _ _ _ (fromAddress _ _)) = _ =>
      rewrite meta_address; cbn [mbind result_bind]
  | Hr : resolved_as ?r _ _ |- mbind _ (getAccountMetaFactory _ _ _ ?r) = _ =>
      rewrite (meta_resolved _ _ r _ _ Hr); cbn [mbind result_bind]
  end.

Tactic Notation "builder_refines" smart_global(code) smart_global(spec) :=
  intros input programAddress; unfold build_spec, code, spec; cbv zeta;
  repeat builder_step; reflexivity.

(** The number of addresses is the number of declared accounts. *)
Tactic Notation "builder_length" smart_global(spec) :=
  let H := fresh "H" in
  intros input l H; unfold spec in H;
  repeat (apply result_bind_Ok in H as (? & _ & H)); injection H as <-; reflexivity.
