(* ===== verification/NameBuilders.v ===== *)
(** * Builders of the instructions for names: registration, renewal, records, subdomains, tokenisation

    For each file of src/clients/ts/src/generated/instructions: the input objects,
    the builders ([get...Instruction] and, where accounts are derived,
    [get...InstructionAsync]), the addresses a call must use, and the proof that
    the builder meets [InstructionBuilder]. *)
From S2P Require Import Prelude JsString Kit Pdas Instruction NameInstructions Program ProgramAccounts.
From S2P Require Import ProgramClient.

(** ** instructions/registerName.ts *)

Module RegisterNameBuilder.

Module Async.
Record RegisterNameAsyncInput := MkInput {
  payer : TransactionSigner; owner : Address; config : option Address;
  nameRecord : option Address; payerTokenAccount : Address; treasuryTokenAccount : Address;
  stakingVault : Address; burnVault : Address; referralTokenAccount : option Address;
  paymentMint : Address; tokenProgram : option Address; systemProgram : option Address;
  args : RegisterName.RegisterNameInstructionDataArgs
}.
End Async.

Definition getRegisterNameInstructionAsync `{Kit} `{ProgramClientCore} (input : Async.RegisterNameAsyncInput)
    (programAddress : option Address) : result JsError Instruction :=
  let programAddress := default SOLANS_PROGRAM_ADDRESS programAddress in
  let payer := fromSigner (Async.payer input) true in
  let owner := fromAddress (Some (Async.owner input)) false in
  let config := fromAddress (Async.config input) false in
  let nameRecord := fromAddress (Async.nameRecord input) true in
  let payerTokenAccount := fromAddress (Some (Async.payerTokenAccount input)) true in
  let treasuryTokenAccount := fromAddress (Some (Async.treasuryTokenAccount input)) true in
  let stakingVault := fromAddress (Some (Async.stakingVault input)) true in
  let burnVault := fromAddress (Some (Async.burnVault input)) true in
  let referralTokenAccount := fromAddress (Async.referralTokenAccount input) true in
  let paymentMint := fromAddress (Some (Async.paymentMint input)) false in
  let tokenProgram := fromAddress (Async.tokenProgram input) false in
  let systemProgram := fromAddress (Async.systemProgram input) false in
  let args := Async.args input in
  config ← default_value config
      (pda ← findConfigPda None;
       Ok (VPda pda));
  nameRecord ← default_value nameRecord
      (pda ← (nameHash ← getNonNullResolvedInstructionInput (js "nameHash") (Some (RegisterName.nameHash args));
         findNameRecordPda {| Pdas.nameHash := nameHash |} None);
       Ok (VPda pda));
  tokenProgram ← default_value tokenProgram (Ok (VAddress (js "TokenkegQfeZyiNwAJbNbGKPFXCWuBvf9Ss623VQ5DA")));
  systemProgram ← default_value systemProgram (Ok (VAddress (js "11111111111111111111111111111111")));
  let getAccountMeta := getAccountMetaFactory programAddress (js "programId") in
  payer ← getAccountMeta (js "payer") payer;
  owner ← getAccountMeta (js "owner") owner;
  config ← getAccountMeta (js "config") config;
  nameRecord ← getAccountMeta (js "nameRecord") nameRecord;
  payerTokenAccount ← getAccountMeta (js "payerTokenAccount") payerTokenAccount;
  treasuryTokenAccount ← getAccountMeta (js "treasuryTokenAccount") treasuryTokenAccount;
  stakingVault ← getAccountMeta (js "stakingVault") stakingVault;
  burnVault ← getAccountMeta (js "burnVault") burnVault;
  referralTokenAccount ← getAccountMeta (js "referralTokenAccount") referralTokenAccount;
  paymentMint ← getAccountMeta (js "paymentMint") paymentMint;
  tokenProgram ← getAccountMeta (js "tokenProgram") tokenProgram;
  systemProgram ← getAccountMeta (js "systemProgram") systemProgram;
  data ← RegisterName.getRegisterNameInstructionDataEncoder args;
  Ok {| programAddress := programAddress;
        accounts := [payer; owner; config; nameRecord; payerTokenAccount; treasuryTokenAccount;
          stakingVault; burnVault; referralTokenAccount; paymentMint; tokenProgram;
          systemProgram];
        data := data |}.

Definition getRegisterNameInstructionAsync_addresses `{Kit} (input : Async.RegisterNameAsyncInput)
    : result JsError (list (option Address)) :=
  config ← or_default (Async.config input)
      (pda ← findConfigPda None;
       Ok pda.1);
  nameRecord ← or_default (Async.nameRecord input)
      (pda ← findNameRecordPda {| Pdas.nameHash := RegisterName.nameHash (Async.args input) |} None;
       Ok pda.1);
  tokenProgram ← or_default (Async.tokenProgram input) (Ok (js "TokenkegQfeZyiNwAJbNbGKPFXCWuBvf9Ss623VQ5DA"));
  systemProgram ← or_default (Async.systemProgram input) (Ok (js "11111111111111111111111111111111"));
  Ok [Some (signerAddress (Async.payer input)); given (Some (Async.owner input)); Some config;
      Some nameRecord; given (Some (Async.payerTokenAccount input));
      given (Some (Async.treasuryTokenAccount input));
      given (Some (Async.stakingVault input)); given (Some (Async.burnVault input));
      given (Async.referralTokenAccount input); given (Some (Async.paymentMint input));
      Some tokenProgram; Some systemProgram].

Definition getRegisterNameInstructionAsync_builder `{KS : KitSpec} `{PS : ProgramClientSpec} : InstructionBuilder.
Proof.
  refine {| kind := SolansInstruction.RegisterName; Input := Async.RegisterNameAsyncInput;
            args_of := Async.args : Async.RegisterNameAsyncInput -> Args (instruction_codec SolansInstruction.RegisterName);
            addresses := getRegisterNameInstructionAsync_addresses; build := getRegisterNameInstructionAsync |}.
  - builder_length getRegisterNameInstructionAsync_addresses.
  - builder_refines getRegisterNameInstructionAsync getRegisterNameInstructionAsync_addresses.
Defined.

Module Sync.
Record RegisterNameInput := MkInput {
  payer : TransactionSigner; owner : Address; config : Address; nameRecord : Address;
  payerTokenAccount : Address; treasuryTokenAccount : Address; stakingVault : Address;
  burnVault : Address; referralTokenAccount : option Address; paymentMint : Address;
  tokenProgram : option Address; systemProgram : option Address;
  args : RegisterName.RegisterNameInstructionDataArgs
}.
End Sync.

Definition getRegisterNameInstruction `{Kit} `{ProgramClientCore} (input : Sync.RegisterNameInput)
    (programAddress : option Address) : result JsError Instruction :=
  let programAddress := default SOLANS_PROGRAM_ADDRESS programAddress in
  let payer := fromSigner (Sync.payer input) true in
  let owner := fromAddress (Some (Sync.owner input)) false in
  let config := fromAddress (Some (Sync.config input)) false in
  let nameRecord := fromAddress (Some (Sync.nameRecord input)) true in
  let payerTokenAccount := fromAddress (Some (Sync.payerTokenAccount input)) true in
  let treasuryTokenAccount := fromAddress (Some (Sync.treasuryTokenAccount input)) true in
  let stakingVault := fromAddress (Some (Sync.stakingVault input)) true in
  let burnVault := fromAddress (Some (Sync.burnVault input)) true in
  let referralTokenAccount := fromAddress (Sync.referralTokenAccount input) true in
  let paymentMint := fromAddress (Some (Sync.paymentMint input)) false in
  let tokenProgram := fromAddress (Sync.tokenProgram input) false in
  let systemProgram := fromAddress (Sync.systemProgram input) false in
  let args := Sync.args input in
  tokenProgram ← default_value tokenProgram (Ok (VAddress (js "TokenkegQfeZyiNwAJbNbGKPFXCWuBvf9Ss623VQ5DA")));
  systemProgram ← default_value systemProgram (Ok (VAddress (js "11111111111111111111111111111111")));
  let getAccountMeta := getAccountMetaFactory programAddress (js "programId") in
  payer ← getAccountMeta (js "payer") payer;
  owner ← getAccountMeta (js "owner") owner;
  config ← getAccountMeta (js "config") config;
  nameRecord ← getAccountMeta (js "nameRecord") nameRecord;
  payerTokenAccount ← getAccountMeta (js "payerTokenAccount") payerTokenAccount;
  treasuryTokenAccount ← getAccountMeta (js "treasuryTokenAccount") treasuryTokenAccount;
  stakingVault ← getAccountMeta (js "stakingVault") stakingVault;
  burnVault ← getAccountMeta (js "burnVault") burnVault;
  referralTokenAccount ← getAccountMeta (js "referralTokenAccount") referralTokenAccount;
  paymentMint ← getAccountMeta (js "paymentMint") paymentMint;
  tokenProgram ← getAccountMeta (js "tokenProgram") tokenProgram;
  systemProgram ← getAccountMeta (js "systemProgram") systemProgram;
  data ← RegisterName.getRegisterNameInstructionDataEncoder args;
  Ok {| programAddress := programAddress;
        accounts := [payer; owner; config; nameRecord; payerTokenAccount; treasuryTokenAccount;
          stakingVault; burnVault; referralTokenAccount; paymentMint; tokenProgram;
          systemProgram];
        data := data |}.

Definition getRegisterNameInstruction_addresses `{Kit} (input : Sync.RegisterNameInput)
    : result JsError (list (option Address)) :=
  tokenProgram ← or_default (Sync.tokenProgram input) (Ok (js "TokenkegQfeZyiNwAJbNbGKPFXCWuBvf9Ss623VQ5DA"));
  systemProgram ← or_default (Sync.systemProgram input) (Ok (js "11111111111111111111111111111111"));
  Ok [Some (signerAddress (Sync.payer input)); given (Some (Sync.owner input));
      given (Some (Sync.config input)); given (Some (Sync.nameRecord input));
      given (Some (Sync.payerTokenAccount input));
      given (Some (Sync.treasuryTokenAccount input));
      given (Some (Sync.stakingVault input)); given (Some (Sync.burnVault input));
      given (Sync.referralTokenAccount input); given (Some (Sync.paymentMint input));
      Some tokenProgram; Some systemProgram].

Definition getRegisterNameInstruction_builder `{KS : KitSpec} `{PS : ProgramClientSpec} : InstructionBuilder.
Proof.
  refine {| kind := SolansInstruction.RegisterName; Input := Sync.RegisterNameInput;
            args_of := Sync.args : Sync.RegisterNameInput -> Args (instruction_codec SolansInstruction.RegisterName);
            addresses := getRegisterNameInstruction_addresses; build := getRegisterNameInstruction |}.
  - builder_length getRegisterNameInstruction_addresses.
  - builder_refines getRegisterNameInstruction getRegisterNameInstruction_addresses.
Defined.

End RegisterNameBuilder.

(** ** instructions/renewName.ts *)

Module RenewNameBuilder.

Module Async.
Record RenewNameAsyncInput := MkInput {
  payer : TransactionSigner; config : option Address; nameRecord : Address;
  payerTokenAccount : Address; treasuryTokenAccount : Address; stakingVault : Address;
  burnVault : Address; referralTokenAccount : option Address; paymentMint : Address;
  tokenProgram : option Address; args : RenewName.RenewNameInstructionDataArgs
}.
End Async.

Definition getRenewNameInstructionAsync `{Kit} `{ProgramClientCore} (input : Async.RenewNameAsyncInput)
    (programAddress : option Address) : result JsError Instruction :=
  let programAddress := default SOLANS_PROGRAM_ADDRESS programAddress in
  let payer := fromSigner (Async.payer input) true in
  let config := fromAddress (Async.config input) false in
  let nameRecord := fromAddress (Some (Async.nameRecord input)) true in
  let payerTokenAccount := fromAddress (Some (Async.payerTokenAccount input)) true in
  let treasuryTokenAccount := fromAddress (Some (Async.treasuryTokenAccount input)) true in
  let stakingVault := fromAddress (Some (Async.stakingVault input)) true in
  let burnVault := fromAddress (Some (Async.burnVault input)) true in
  let referralTokenAccount := fromAddress (Async.referralTokenAccount input) true in
  let paymentMint := fromAddress (Some (Async.paymentMint input)) false in
  let tokenProgram := fromAddress (Async.tokenProgram input) false in
  let args := Async.args input in
  config ← default_value config
      (pda ← findConfigPda None;
       Ok (VPda pda));
  tokenProgram ← default_value tokenProgram (Ok (VAddress (js "TokenkegQfeZyiNwAJbNbGKPFXCWuBvf9Ss623VQ5DA")));
  let getAccountMeta := getAccountMetaFactory programAddress (js "programId") in
  payer ← getAccountMeta (js "payer") payer;
  config ← getAccountMeta (js "config") config;
  nameRecord ← getAccountMeta (js "nameRecord") nameRecord;
  payerTokenAccount ← getAccountMeta (js "payerTokenAccount") payerTokenAccount;
  treasuryTokenAccount ← getAccountMeta (js "treasuryTokenAccount") treasuryTokenAccount;
  stakingVault ← getAccountMeta (js "stakingVault") stakingVault;
  burnVault ← getAccountMeta (js "burnVault") burnVault;
  referralTokenAccount ← getAccountMeta (js "referralTokenAccount") referralTokenAccount;
  paymentMint ← getAccountMeta (js "paymentMint") paymentMint;
  tokenProgram ← getAccountMeta (js "tokenProgram") tokenProgram;
  data ← RenewName.getRenewNameInstructionDataEncoder args;
  Ok {| programAddress := programAddress;
        accounts := [payer; config; nameRecord; payerTokenAccount; treasuryTokenAccount; stakingVault;
          burnVault; referralTokenAccount; paymentMint; tokenProgram];
        data := data |}.

Definition getRenewNameInstructionAsync_addresses `{Kit} (input : Async.RenewNameAsyncInput)
    : result JsError (list (option Address)) :=
  config ← or_default (Async.config input)
      (pda ← findConfigPda None;
       Ok pda.1);
  tokenProgram ← or_default (Async.tokenProgram input) (Ok (js "TokenkegQfeZyiNwAJbNbGKPFXCWuBvf9Ss623VQ5DA"));
  Ok [Some (signerAddress (Async.payer input)); Some config;
      given (Some (Async.nameRecord input)); given (Some (Async.payerTokenAccount input));
      given (Some (Async.treasuryTokenAccount input));
      given (Some (Async.stakingVault input)); given (Some (Async.burnVault input));
      given (Async.referralTokenAccount input); given (Some (Async.paymentMint input));
      Some tokenProgram].

Definition getRenewNameInstructionAsync_builder `{KS : KitSpec} `{PS : ProgramClientSpec} : InstructionBuilder.
Proof.
  refine {| kind := SolansInstruction.RenewName; Input := Async.RenewNameAsyncInput;
            args_of := Async.args : Async.RenewNameAsyncInput -> Args (instruction_codec SolansInstruction.RenewName);
            addresses := getRenewNameInstructionAsync_addresses; build := getRenewNameInstructionAsync |}.
  - builder_length getRenewNameInstructionAsync_addresses.
  - builder_refines getRenewNameInstructionAsync getRenewNameInstructionAsync_addresses.
Defined.

Module Sync.
Record RenewNameInput := MkInput {
  payer : TransactionSigner; config : Address; nameRecord : Address; payerTokenAccount : Address;
  treasuryTokenAccount : Address; stakingVault : Address; burnVault : Address;
  referralTokenAccount : option Address; paymentMint : Address; tokenProgram : option Address;
  args : RenewName.RenewNameInstructionDataArgs
}.
End Sync.

Definition getRenewNameInstruction `{Kit} `{ProgramClientCore} (input : Sync.RenewNameInput)
    (programAddress : option Address) : result JsError Instruction :=
  let programAddress := default SOLANS_PROGRAM_ADDRESS programAddress in
  let payer := fromSigner (Sync.payer input) true in
  let config := fromAddress (Some (Sync.config input)) false in
  let nameRecord := fromAddress (Some (Sync.nameRecord input)) true in
  let payerTokenAccount := fromAddress (Some (Sync.payerTokenAccount input)) true in
  let treasuryTokenAccount := fromAddress (Some (Sync.treasuryTokenAccount input)) true in
  let stakingVault := fromAddress (Some (Sync.stakingVault input)) true in
  let burnVault := fromAddress (Some (Sync.burnVault input)) true in
  let referralTokenAccount := fromAddress (Sync.referralTokenAccount input) true in
  let paymentMint := fromAddress (Some (Sync.paymentMint input)) false in
  let tokenProgram := fromAddress (Sync.tokenProgram input) false in
  let args := Sync.args input in
  tokenProgram ← default_value tokenProgram (Ok (VAddress (js "TokenkegQfeZyiNwAJbNbGKPFXCWuBvf9Ss623VQ5DA")));
  let getAccountMeta := getAccountMetaFactory programAddress (js "programId") in
  payer ← getAccountMeta (js "payer") payer;
  config ← getAccountMeta (js "config") config;
  nameRecord ← getAccountMeta (js "nameRecord") nameRecord;
  payerTokenAccount ← getAccountMeta (js "payerTokenAccount") payerTokenAccount;
  treasuryTokenAccount ← getAccountMeta (js "treasuryTokenAccount") treasuryTokenAccount;
  stakingVault ← getAccountMeta (js "stakingVault") stakingVault;
  burnVault ← getAccountMeta (js "burnVault") burnVault;
  referralTokenAccount ← getAccountMeta (js "referralTokenAccount") referralTokenAccount;
  paymentMint ← getAccountMeta (js "paymentMint") paymentMint;
  tokenProgram ← getAccountMeta (js "tokenProgram") tokenProgram;
  data ← RenewName.getRenewNameInstructionDataEncoder args;
  Ok {| programAddress := programAddress;
        accounts := [payer; config; nameRecord; payerTokenAccount; treasuryTokenAccount; stakingVault;
          burnVault; referralTokenAccount; paymentMint; tokenProgram];
        data := data |}.

Definition getRenewNameInstruction_addresses `{Kit} (input : Sync.RenewNameInput)
    : result JsError (list (option Address)) :=
  tokenProgram ← or_default (Sync.tokenProgram input) (Ok (js "TokenkegQfeZyiNwAJbNbGKPFXCWuBvf9Ss623VQ5DA"));
  Ok [Some (signerAddress (Sync.payer input)); given (Some (Sync.config input));
      given (Some (Sync.nameRecord input)); given (Some (Sync.payerTokenAccount input));
      given (Some (Sync.treasuryTokenAccount input));
      given (Some (Sync.stakingVault input)); given (Some (Sync.burnVault input));
      given (Sync.referralTokenAccount input); given (Some (Sync.paymentMint input));
      Some tokenProgram].

Definition getRenewNameInstruction_builder `{KS : KitSpec} `{PS : ProgramClientSpec} : InstructionBuilder.
Proof.
  refine {| kind := SolansInstruction.RenewName; Input := Sync.RenewNameInput;
            args_of := Sync.args : Sync.RenewNameInput -> Args (instruction_codec SolansInstruction.RenewName);
            addresses := getRenewNameInstruction_addresses; build := getRenewNameInstruction |}.
  - builder_length getRenewNameInstruction_addresses.
  - builder_refines getRenewNameInstruction getRenewNameInstruction_addresses.
Defined.

End RenewNameBuilder.

(** ** instructions/autoRenew.ts *)

Module AutoRenewBuilder.

Module Async.
Record AutoRenewAsyncInput := MkInput {
  keeper : TransactionSigner; config : option Address; nameRecord : Address;
  ownerTokenAccount : Address; treasuryTokenAccount : Address; stakingVault : Address;
  burnVault : Address; paymentMint : Address; tokenProgram : option Address;
  args : AutoRenew.AutoRenewInstructionDataArgs
}.
End Async.

Definition getAutoRenewInstructionAsync `{Kit} `{ProgramClientCore} (input : Async.AutoRenewAsyncInput)
    (programAddress : option Address) : result JsError Instruction :=
  let programAddress := default SOLANS_PROGRAM_ADDRESS programAddress in
  let keeper := fromSigner (Async.keeper input) true in
  let config := fromAddress (Async.config input) false in
  let nameRecord := fromAddress (Some (Async.nameRecord input)) true in
  let ownerTokenAccount := fromAddress (Some (Async.ownerTokenAccount input)) true in
  let treasuryTokenAccount := fromAddress (Some (Async.treasuryTokenAccount input)) true in
  let stakingVault := fromAddress (Some (Async.stakingVault input)) true in
  let burnVault := fromAddress (Some (Async.burnVault input)) true in
  let paymentMint := fromAddress (Some (Async.paymentMint input)) false in
  let tokenProgram := fromAddress (Async.tokenProgram input) false in
  let args := Async.args input in
  config ← default_value config
      (pda ← findConfigPda None;
       Ok (VPda pda));
  tokenProgram ← default_value tokenProgram (Ok (VAddress (js "TokenkegQfeZyiNwAJbNbGKPFXCWuBvf9Ss623VQ5DA")));
  let getAccountMeta := getAccountMetaFactory programAddress (js "programId") in
  keeper ← getAccountMeta (js "keeper") keeper;
  config ← getAccountMeta (js "config") config;
  nameRecord ← getAccountMeta (js "nameRecord") nameRecord;
  ownerTokenAccount ← getAccountMeta (js "ownerTokenAccount") ownerTokenAccount;
  treasuryTokenAccount ← getAccountMeta (js "treasuryTokenAccount") treasuryTokenAccount;
  stakingVault ← getAccountMeta (js "stakingVault") stakingVault;
  burnVault ← getAccountMeta (js "burnVault") burnVault;
  paymentMint ← getAccountMeta (js "paymentMint") paymentMint;
  tokenProgram ← getAccountMeta (js "tokenProgram") tokenProgram;
  data ← AutoRenew.getAutoRenewInstructionDataEncoder args;
  Ok {| programAddress := programAddress;
        accounts := [keeper; config; nameRecord; ownerTokenAccount; treasuryTokenAccount; stakingVault;
          burnVault; paymentMint; tokenProgram];
        data := data |}.

Definition getAutoRenewInstructionAsync_addresses `{Kit} (input : Async.AutoRenewAsyncInput)
    : result JsError (list (option Address)) :=
  config ← or_default (Async.config input)
      (pda ← findConfigPda None;
       Ok pda.1);
  tokenProgram ← or_default (Async.tokenProgram input) (Ok (js "TokenkegQfeZyiNwAJbNbGKPFXCWuBvf9Ss623VQ5DA"));
  Ok [Some (signerAddress (Async.keeper input)); Some config;
      given (Some (Async.nameRecord input)); given (Some (Async.ownerTokenAccount input));
      given (Some (Async.treasuryTokenAccount input));
      given (Some (Async.stakingVault input)); given (Some (Async.burnVault input));
      given (Some (Async.paymentMint input)); Some tokenProgram].

Definition getAutoRenewInstructionAsync_builder `{KS : KitSpec} `{PS : ProgramClientSpec} : InstructionBuilder.
Proof.
  refine {| kind := SolansInstruction.AutoRenew; Input := Async.AutoRenewAsyncInput;
            args_of := Async.args : Async.AutoRenewAsyncInput -> Args (instruction_codec SolansInstruction.AutoRenew);
            addresses := getAutoRenewInstructionAsync_addresses; build := getAutoRenewInstructionAsync |}.
  - builder_length getAutoRenewInstructionAsync_addresses.
  - builder_refines getAutoRenewInstructionAsync getAutoRenewInstructionAsync_addresses.
Defined.

Module Sync.
Record AutoRenewInput := MkInput {
  keeper : TransactionSigner; config : Address; nameRecord : Address; ownerTokenAccount : Address;
  treasuryTokenAccount : Address; stakingVault : Address; burnVault : Address;
  paymentMint : Address; tokenProgram : option Address;
  args : AutoRenew.AutoRenewInstructionDataArgs
}.
End Sync.

Definition getAutoRenewInstruction `{Kit} `{ProgramClientCore} (input : Sync.AutoRenewInput)
    (programAddress : option Address) : result JsError Instruction :=
  let programAddress := default SOLANS_PROGRAM_ADDRESS programAddress in
  let keeper := fromSigner (Sync.keeper input) true in
  let config := fromAddress (Some (Sync.config input)) false in
  let nameRecord := fromAddress (Some (Sync.nameRecord input)) true in
  let ownerTokenAccount := fromAddress (Some (Sync.ownerTokenAccount input)) true in
  let treasuryTokenAccount := fromAddress (Some (Sync.treasuryTokenAccount input)) true in
  let stakingVault := fromAddress (Some (Sync.stakingVault input)) true in
  let burnVault := fromAddress (Some (Sync.burnVault input)) true in
  let paymentMint := fromAddress (Some (Sync.paymentMint input)) false in
  let tokenProgram := fromAddress (Sync.tokenProgram input) false in
  let args := Sync.args input in
  tokenProgram ← default_value tokenProgram (Ok (VAddress (js "TokenkegQfeZyiNwAJbNbGKPFXCWuBvf9Ss623VQ5DA")));
  let getAccountMeta := getAccountMetaFactory programAddress (js "programId") in
  keeper ← getAccountMeta (js "keeper") keeper;
  config ← getAccountMeta (js "config") config;
  nameRecord ← getAccountMeta (js "nameRecord") nameRecord;
  ownerTokenAccount ← getAccountMeta (js "ownerTokenAccount") ownerTokenAccount;
  treasuryTokenAccount ← getAccountMeta (js "treasuryTokenAccount") treasuryTokenAccount;
  stakingVault ← getAccountMeta (js "stakingVault") stakingVault;
  burnVault ← getAccountMeta (js "burnVault") burnVault;
  paymentMint ← getAccountMeta (js "paymentMint") paymentMint;
  tokenProgram ← getAccountMeta (js "tokenProgram") tokenProgram;
  data ← AutoRenew.getAutoRenewInstructionDataEncoder args;
  Ok {| programAddress := programAddress;
        accounts := [keeper; config; nameRecord; ownerTokenAccount; treasuryTokenAccount; stakingVault;
          burnVault; paymentMint; tokenProgram];
        data := data |}.

Definition getAutoRenewInstruction_addresses `{Kit} (input : Sync.AutoRenewInput)
    : result JsError (list (option Address)) :=
  tokenProgram ← or_default (Sync.tokenProgram input) (Ok (js "TokenkegQfeZyiNwAJbNbGKPFXCWuBvf9Ss623VQ5DA"));
  Ok [Some (signerAddress (Sync.keeper input)); given (Some (Sync.config input));
      given (Some (Sync.nameRecord input)); given (Some (Sync.ownerTokenAccount input));
      given (Some (Sync.treasuryTokenAccount input));
      given (Some (Sync.stakingVault input)); given (Some (Sync.burnVault input));
      given (Some (Sync.paymentMint input)); Some tokenProgram].

Definition getAutoRenewInstruction_builder `{KS : KitSpec} `{PS : ProgramClientSpec} : InstructionBuilder.
Proof.
  refine {| kind := SolansInstruction.AutoRenew; Input := Sync.AutoRenewInput;
            args_of := Sync.args : Sync.AutoRenewInput -> Args (instruction_codec SolansInstruction.AutoRenew);
            addresses := getAutoRenewInstruction_addresses; build := getAutoRenewInstruction |}.
  - builder_length getAutoRenewInstruction_addresses.
  - builder_refines getAutoRenewInstruction getAutoRenewInstruction_addresses.
Defined.

End AutoRenewBuilder.

(** ** instructions/claimExpired.ts *)

Module ClaimExpiredBuilder.

Module Async.
Record ClaimExpiredAsyncInput := MkInput {
  claimer : TransactionSigner; config : option Address; nameRecord : Address;
  payerTokenAccount : Address; treasuryTokenAccount : Address; stakingVault : Address;
  burnVault : Address; referralTokenAccount : option Address; paymentMint : Address;
  tokenProgram : option Address; args : ClaimExpired.ClaimExpiredInstructionDataArgs
}.
End Async.

Definition getClaimExpiredInstructionAsync `{Kit} `{ProgramClientCore} (input : Async.ClaimExpiredAsyncInput)
    (programAddress : option Address) : result JsError Instruction :=
  let programAddress := default SOLANS_PROGRAM_ADDRESS programAddress in
  let claimer := fromSigner (Async.claimer input) true in
  let config := fromAddress (Async.config input) false in
  let nameRecord := fromAddress (Some (Async.nameRecord input)) true in
  let payerTokenAccount := fromAddress (Some (Async.payerTokenAccount input)) true in
  let treasuryTokenAccount := fromAddress (Some (Async.treasuryTokenAccount input)) true in
  let stakingVault := fromAddress (Some (Async.stakingVault input)) true in
  let burnVault := fromAddress (Some (Async.burnVault input)) true in
  let referralTokenAccount := fromAddress (Async.referralTokenAccount input) true in
  let paymentMint := fromAddress (Some (Async.paymentMint input)) false in
  let tokenProgram := fromAddress (Async.tokenProgram input) false in
  let args := Async.args input in
  config ← default_value config
      (pda ← findConfigPda None;
       Ok (VPda pda));
  tokenProgram ← default_value tokenProgram (Ok (VAddress (js "TokenkegQfeZyiNwAJbNbGKPFXCWuBvf9Ss623VQ5DA")));
  let getAccountMeta := getAccountMetaFactory programAddress (js "programId") in
  claimer ← getAccountMeta (js "claimer") claimer;
  config ← getAccountMeta (js "config") config;
  nameRecord ← getAccountMeta (js "nameRecord") nameRecord;
  payerTokenAccount ← getAccountMeta (js "payerTokenAccount") payerTokenAccount;
  treasuryTokenAccount ← getAccountMeta (js "treasuryTokenAccount") treasuryTokenAccount;
  stakingVault ← getAccountMeta (js "stakingVault") stakingVault;
  burnVault ← getAccountMeta (js "burnVault") burnVault;
  referralTokenAccount ← getAccountMeta (js "referralTokenAccount") referralTokenAccount;
  paymentMint ← getAccountMeta (js "paymentMint") paymentMint;
  tokenProgram ← getAccountMeta (js "tokenProgram") tokenProgram;
  data ← ClaimExpired.getClaimExpiredInstructionDataEncoder args;
  Ok {| programAddress := programAddress;
        accounts := [claimer; config; nameRecord; payerTokenAccount; treasuryTokenAccount; stakingVault;
          burnVault; referralTokenAccount; paymentMint; tokenProgram];
        data := data |}.

Definition getClaimExpiredInstructionAsync_addresses `{Kit} (input : Async.ClaimExpiredAsyncInput)
    : result JsError (list (option Address)) :=
  config ← or_default (Async.config input)
      (pda ← findConfigPda None;
       Ok pda.1);
  tokenProgram ← or_default (Async.tokenProgram input) (Ok (js "TokenkegQfeZyiNwAJbNbGKPFXCWuBvf9Ss623VQ5DA"));
  Ok [Some (signerAddress (Async.claimer input)); Some config;
      given (Some (Async.nameRecord input)); given (Some (Async.payerTokenAccount input));
      given (Some (Async.treasuryTokenAccount input));
      given (Some (Async.stakingVault input)); given (Some (Async.burnVault input));
      given (Async.referralTokenAccount input); given (Some (Async.paymentMint input));
      Some tokenProgram].

Definition getClaimExpiredInstructionAsync_builder `{KS : KitSpec} `{PS : ProgramClientSpec} : InstructionBuilder.
Proof.
  refine {| kind := SolansInstruction.ClaimExpired; Input := Async.ClaimExpiredAsyncInput;
            args_of := Async.args : Async.ClaimExpiredAsyncInput -> Args (instruction_codec SolansInstruction.ClaimExpired);
            addresses := getClaimExpiredInstructionAsync_addresses; build := getClaimExpiredInstructionAsync |}.
  - builder_length getClaimExpiredInstructionAsync_addresses.
  - builder_refines getClaimExpiredInstructionAsync getClaimExpiredInstructionAsync_addresses.
Defined.

Module Sync.
Record ClaimExpiredInput := MkInput {
  claimer : TransactionSigner; config : Address; nameRecord : Address;
  payerTokenAccount : Address; treasuryTokenAccount : Address; stakingVault : Address;
  burnVault : Address; referralTokenAccount : option Address; paymentMint : Address;
  tokenProgram : option Address; args : ClaimExpired.ClaimExpiredInstructionDataArgs
}.
End Sync.

Definition getClaimExpiredInstruction `{Kit} `{ProgramClientCore} (input : Sync.ClaimExpiredInput)
    (programAddress : option Address) : result JsError Instruction :=
  let programAddress := default SOLANS_PROGRAM_ADDRESS programAddress in
  let claimer := fromSigner (Sync.claimer input) true in
  let config := fromAddress (Some (Sync.config input)) false in
  let nameRecord := fromAddress (Some (Sync.nameRecord input)) true in
  let payerTokenAccount := fromAddress (Some (Sync.payerTokenAccount input)) true in
  let treasuryTokenAccount := fromAddress (Some (Sync.treasuryTokenAccount input)) true in
  let stakingVault := fromAddress (Some (Sync.stakingVault input)) true in
  let burnVault := fromAddress (Some (Sync.burnVault input)) true in
  let referralTokenAccount := fromAddress (Sync.referralTokenAccount input) true in
  let paymentMint := fromAddress (Some (Sync.paymentMint input)) false in
  let tokenProgram := fromAddress (Sync.tokenProgram input) false in
  let args := Sync.args input in
  tokenProgram ← default_value tokenProgram (Ok (VAddress (js "TokenkegQfeZyiNwAJbNbGKPFXCWuBvf9Ss623VQ5DA")));
  let getAccountMeta := getAccountMetaFactory programAddress (js "programId") in
  claimer ← getAccountMeta (js "claimer") claimer;
  config ← getAccountMeta (js "config") config;
  nameRecord ← getAccountMeta (js "nameRecord") nameRecord;
  payerTokenAccount ← getAccountMeta (js "payerTokenAccount") payerTokenAccount;
  treasuryTokenAccount ← getAccountMeta (js "treasuryTokenAccount") treasuryTokenAccount;
  stakingVault ← getAccountMeta (js "stakingVault") stakingVault;
  burnVault ← getAccountMeta (js "burnVault") burnVault;
  referralTokenAccount ← getAccountMeta (js "referralTokenAccount") referralTokenAccount;
  paymentMint ← getAccountMeta (js "paymentMint") paymentMint;
  tokenProgram ← getAccountMeta (js "tokenProgram") tokenProgram;
  data ← ClaimExpired.getClaimExpiredInstructionDataEncoder args;
  Ok {| programAddress := programAddress;
        accounts := [claimer; config; nameRecord; payerTokenAccount; treasuryTokenAccount; stakingVault;
          burnVault; referralTokenAccount; paymentMint; tokenProgram];
        data := data |}.

Definition getClaimExpiredInstruction_addresses `{Kit} (input : Sync.ClaimExpiredInput)
    : result JsError (list (option Address)) :=
  tokenProgram ← or_default (Sync.tokenProgram input) (Ok (js "TokenkegQfeZyiNwAJbNbGKPFXCWuBvf9Ss623VQ5DA"));
  Ok [Some (signerAddress (Sync.claimer input)); given (Some (Sync.config input));
      given (Some (Sync.nameRecord input)); given (Some (Sync.payerTokenAccount input));
      given (Some (Sync.treasuryTokenAccount input));
      given (Some (Sync.stakingVault input)); given (Some (Sync.burnVault input));
      given (Sync.referralTokenAccount input); given (Some (Sync.paymentMint input));
      Some tokenProgram].

Definition getClaimExpiredInstruction_builder `{KS : KitSpec} `{PS : ProgramClientSpec} : InstructionBuilder.
Proof.
  refine {| kind := SolansInstruction.ClaimExpired; Input := Sync.ClaimExpiredInput;
            args_of := Sync.args : Sync.ClaimExpiredInput -> Args (instruction_codec SolansInstruction.ClaimExpired);
            addresses := getClaimExpiredInstruction_addresses; build := getClaimExpiredInstruction |}.
  - builder_length getClaimExpiredInstruction_addresses.
  - builder_refines getClaimExpiredInstruction getClaimExpiredInstruction_addresses.
Defined.

End ClaimExpiredBuilder.

(** ** instructions/transferName.ts *)

Module TransferNameBuilder.

Module Sync.
Record TransferNameInput := MkInput {
  owner : TransactionSigner; nameRecord : Address;
  args : TransferName.TransferNameInstructionDataArgs
}.
End Sync.

Definition getTransferNameInstruction `{Kit} `{ProgramClientCore} (input : Sync.TransferNameInput)
    (programAddress : option Address) : result JsError Instruction :=
  let programAddress := default SOLANS_PROGRAM_ADDRESS programAddress in
  let owner := fromSigner (Sync.owner input) false in
  let nameRecord := fromAddress (Some (Sync.nameRecord input)) true in
  let args := Sync.args input in
  let getAccountMeta := getAccountMetaFactory programAddress (js "programId") in
  owner ← getAccountMeta (js "owner") owner;
  nameRecord ← getAccountMeta (js "nameRecord") nameRecord;
  data ← TransferName.getTransferNameInstructionDataEncoder args;
  Ok {| programAddress := programAddress;
        accounts := [owner; nameRecord];
        data := data |}.

Definition getTransferNameInstruction_addresses `{Kit} (input : Sync.TransferNameInput)
    : result JsError (list (option Address)) :=
  Ok [Some (signerAddress (Sync.owner input)); given (Some (Sync.nameRecord input))].

Definition getTransferNameInstruction_builder `{KS : KitSpec} `{PS : ProgramClientSpec} : InstructionBuilder.
Proof.
  refine {| kind := SolansInstruction.TransferName; Input := Sync.TransferNameInput;
            args_of := Sync.args : Sync.TransferNameInput -> Args (instruction_codec SolansInstruction.TransferName);
            addresses := getTransferNameInstruction_addresses; build := getTransferNameInstruction |}.
  - builder_length getTransferNameInstruction_addresses.
  - builder_refines getTransferNameInstruction getTransferNameInstruction_addresses.
Defined.

End TransferNameBuilder.

(** ** instructions/lockTransfer.ts *)

Module LockTransferBuilder.

Module Sync.
Record LockTransferInput := MkInput {
  owner : TransactionSigner; nameRecord : Address;
  args : LockTransfer.LockTransferInstructionDataArgs
}.
End Sync.

Definition getLockTransferInstruction `{Kit} `{ProgramClientCore} (input : Sync.LockTransferInput)
    (programAddress : option Address) : result JsError Instruction :=
  let programAddress := default SOLANS_PROGRAM_ADDRESS programAddress in
  let owner := fromSigner (Sync.owner input) false in
  let nameRecord := fromAddress (Some (Sync.nameRecord input)) true in
  let args := Sync.args input in
  let getAccountMeta := getAccountMetaFactory programAddress (js "programId") in
  owner ← getAccountMeta (js "owner") owner;
  nameRecord ← getAccountMeta (js "nameRecord") nameRecord;
  data ← LockTransfer.getLockTransferInstructionDataEncoder args;
  Ok {| programAddress := programAddress;
        accounts := [owner; nameRecord];
        data := data |}.

Definition getLockTransferInstruction_addresses `{Kit} (input : Sync.LockTransferInput)
    : result JsError (list (option Address)) :=
  Ok [Some (signerAddress (Sync.owner input)); given (Some (Sync.nameRecord input))].

Definition getLockTransferInstruction_builder `{KS : KitSpec} `{PS : ProgramClientSpec} : InstructionBuilder.
Proof.
  refine {| kind := SolansInstruction.LockTransfer; Input := Sync.LockTransferInput;
            args_of := Sync.args : Sync.LockTransferInput -> Args (instruction_codec SolansInstruction.LockTransfer);
            addresses := getLockTransferInstruction_addresses; build := getLockTransferInstruction |}.
  - builder_length getLockTransferInstruction_addresses.
  - builder_refines getLockTransferInstruction getLockTransferInstruction_addresses.
Defined.

End LockTransferBuilder.

(** ** instructions/burnName.ts *)

Module BurnNameBuilder.

Module Sync.
Record BurnNameInput := MkInput {
  owner : TransactionSigner; nameRecord : Address
}.
End Sync.

Definition getBurnNameInstruction `{Kit} `{ProgramClientCore} (input : Sync.BurnNameInput)
    (programAddress : option Address) : result JsError Instruction :=
  let programAddress := default SOLANS_PROGRAM_ADDRESS programAddress in
  let owner := fromSigner (Sync.owner input) true in
  let nameRecord := fromAddress (Some (Sync.nameRecord input)) true in
  let getAccountMeta := getAccountMetaFactory programAddress (js "programId") in
  owner ← getAccountMeta (js "owner") owner;
  nameRecord ← getAccountMeta (js "nameRecord") nameRecord;
  data ← BurnName.getBurnNameInstructionDataEncoder BurnName.MkBurnNameInstructionDataArgs;
  Ok {| programAddress := programAddress;
        accounts := [owner; nameRecord];
        data := data |}.

Definition getBurnNameInstruction_addresses `{Kit} (input : Sync.BurnNameInput)
    : result JsError (list (option Address)) :=
  Ok [Some (signerAddress (Sync.owner input)); given (Some (Sync.nameRecord input))].

Definition getBurnNameInstruction_builder `{KS : KitSpec} `{PS : ProgramClientSpec} : InstructionBuilder.
Proof.
  refine {| kind := SolansInstruction.BurnName; Input := Sync.BurnNameInput;
            args_of := (fun _ => BurnName.MkBurnNameInstructionDataArgs) : Sync.BurnNameInput -> Args (instruction_codec SolansInstruction.BurnName);
            addresses := getBurnNameInstruction_addresses; build := getBurnNameInstruction |}.
  - builder_length getBurnNameInstruction_addresses.
  - builder_refines getBurnNameInstruction getBurnNameInstruction_addresses.
Defined.

End BurnNameBuilder.

(** ** instructions/updateRecord.ts *)

Module UpdateRecordBuilder.

Module Sync.
Record UpdateRecordInput := MkInput {
  authority : TransactionSigner; nameRecord : Address; nftTokenAccount : option Address;
  args : UpdateRecord.UpdateRecordInstructionDataArgs
}.
End Sync.

Definition getUpdateRecordInstruction `{Kit} `{ProgramClientCore} (input : Sync.UpdateRecordInput)
    (programAddress : option Address) : result JsError Instruction :=
  let programAddress := default SOLANS_PROGRAM_ADDRESS programAddress in
  let authority := fromSigner (Sync.authority input) false in
  let nameRecord := fromAddress (Some (Sync.nameRecord input)) true in
  let nftTokenAccount := fromAddress (Sync.nftTokenAccount input) false in
  let args := Sync.args input in
  let getAccountMeta := getAccountMetaFactory programAddress (js "programId") in
  authority ← getAccountMeta (js "authority") authority;
  nameRecord ← getAccountMeta (js "nameRecord") nameRecord;
  nftTokenAccount ← getAccountMeta (js "nftTokenAccount") nftTokenAccount;
  data ← UpdateRecord.getUpdateRecordInstructionDataEncoder args;
  Ok {| programAddress := programAddress;
        accounts := [authority; nameRecord; nftTokenAccount];
        data := data |}.

Definition getUpdateRecordInstruction_addresses `{Kit} (input : Sync.UpdateRecordInput)
    : result JsError (list (option Address)) :=
  Ok [Some (signerAddress (Sync.authority input)); given (Some (Sync.nameRecord input));
      given (Sync.nftTokenAccount input)].

Definition getUpdateRecordInstruction_builder `{KS : KitSpec} `{PS : ProgramClientSpec} : InstructionBuilder.
Proof.
  refine {| kind := SolansInstruction.UpdateRecord; Input := Sync.UpdateRecordInput;
            args_of := Sync.args : Sync.UpdateRecordInput -> Args (instruction_codec SolansInstruction.UpdateRecord);
            addresses := getUpdateRecordInstruction_addresses; build := getUpdateRecordInstruction |}.
  - builder_length getUpdateRecordInstruction_addresses.
  - builder_refines getUpdateRecordInstruction getUpdateRecordInstruction_addresses.
Defined.

End UpdateRecordBuilder.

(** ** instructions/setController.ts *)

Module SetControllerBuilder.

Module Sync.
Record SetControllerInput := MkInput {
  owner : TransactionSigner; nameRecord : Address;
  args : SetController.SetControllerInstructionDataArgs
}.
End Sync.

Definition getSetControllerInstruction `{Kit} `{ProgramClientCore} (input : Sync.SetControllerInput)
    (programAddress : option Address) : result JsError Instruction :=
  let programAddress := default SOLANS_PROGRAM_ADDRESS programAddress in
  let owner := fromSigner (Sync.owner input) false in
  let nameRecord := fromAddress (Some (Sync.nameRecord input)) true in
  let args := Sync.args input in
  let getAccountMeta := getAccountMetaFactory programAddress (js "programId") in
  owner ← getAccountMeta (js "owner") owner;
  nameRecord ← getAccountMeta (js "nameRecord") nameRecord;
  data ← SetController.getSetControllerInstructionDataEncoder args;
  Ok {| programAddress := programAddress;
        accounts := [owner; nameRecord];
        data := data |}.

Definition getSetControllerInstruction_addresses `{Kit} (input : Sync.SetControllerInput)
    : result JsError (list (option Address)) :=
  Ok [Some (signerAddress (Sync.owner input)); given (Some (Sync.nameRecord input))].

Definition getSetControllerInstruction_builder `{KS : KitSpec} `{PS : ProgramClientSpec} : InstructionBuilder.
Proof.
  refine {| kind := SolansInstruction.SetController; Input := Sync.SetControllerInput;
            args_of := Sync.args : Sync.SetControllerInput -> Args (instruction_codec SolansInstruction.SetController);
            addresses := getSetControllerInstruction_addresses; build := getSetControllerInstruction |}.
  - builder_length getSetControllerInstruction_addresses.
  - builder_refines getSetControllerInstruction getSetControllerInstruction_addresses.
Defined.

End SetControllerBuilder.

(** ** instructions/setResolver.ts *)

Module SetResolverBuilder.

Module Sync.
Record SetResolverInput := MkInput {
  authority : TransactionSigner; nameRecord : Address; nftTokenAccount : option Address;
  args : SetResolver.SetResolverInstructionDataArgs
}.
End Sync.

Definition getSetResolverInstruction `{Kit} `{ProgramClientCore} (input : Sync.SetResolverInput)
    (programAddress : option Address) : result JsError Instruction :=
  let programAddress := default SOLANS_PROGRAM_ADDRESS programAddress in
  let authority := fromSigner (Sync.authority input) false in
  let nameRecord := fromAddress (Some (Sync.nameRecord input)) true in
  let nftTokenAccount := fromAddress (Sync.nftTokenAccount input) false in
  let args := Sync.args input in
  let getAccountMeta := getAccountMetaFactory programAddress (js "programId") in
  authority ← getAccountMeta (js "authority") authority;
  nameRecord ← getAccountMeta (js "nameRecord") nameRecord;
  nftTokenAccount ← getAccountMeta (js "nftTokenAccount") nftTokenAccount;
  data ← SetResolver.getSetResolverInstructionDataEncoder args;
  Ok {| programAddress := programAddress;
        accounts := [authority; nameRecord; nftTokenAccount];
        data := data |}.

Definition getSetResolverInstruction_addresses `{Kit} (input : Sync.SetResolverInput)
    : result JsError (list (option Address)) :=
  Ok [Some (signerAddress (Sync.authority input)); given (Some (Sync.nameRecord input));
      given (Sync.nftTokenAccount input)].

Definition getSetResolverInstruction_builder `{KS : KitSpec} `{PS : ProgramClientSpec} : InstructionBuilder.
Proof.
  refine {| kind := SolansInstruction.SetResolver; Input := Sync.SetResolverInput;
            args_of := Sync.args : Sync.SetResolverInput -> Args (instruction_codec SolansInstruction.SetResolver);
            addresses := getSetResolverInstruction_addresses; build := getSetResolverInstruction |}.
  - builder_length getSetResolverInstruction_addresses.
  - builder_refines getSetResolverInstruction getSetResolverInstruction_addresses.
Defined.

End SetResolverBuilder.

(** ** instructions/setHosting.ts *)

Module SetHostingBuilder.

Module Sync.
Record SetHostingInput := MkInput {
  authority : TransactionSigner; nameRecord : Address; nftTokenAccount : option Address;
  args : SetHosting.SetHostingInstructionDataArgs
}.
End Sync.

Definition getSetHostingInstruction `{Kit} `{ProgramClientCore} (input : Sync.SetHostingInput)
    (programAddress : option Address) : result JsError Instruction :=
  let programAddress := default SOLANS_PROGRAM_ADDRESS programAddress in
  let authority := fromSigner (Sync.authority input) false in
  let nameRecord := fromAddress (Some (Sync.nameRecord input)) true in
  let nftTokenAccount := fromAddress (Sync.nftTokenAccount input) false in
  let args := Sync.args input in
  let getAccountMeta := getAccountMetaFactory programAddress (js "programId") in
  authority ← getAccountMeta (js "authority") authority;
  nameRecord ← getAccountMeta (js "nameRecord") nameRecord;
  nftTokenAccount ← getAccountMeta (js "nftTokenAccount") nftTokenAccount;
  data ← SetHosting.getSetHostingInstructionDataEncoder args;
  Ok {| programAddress := programAddress;
        accounts := [authority; nameRecord; nftTokenAccount];
        data := data |}.

Definition getSetHostingInstruction_addresses `{Kit} (input : Sync.SetHostingInput)
    : result JsError (list (option Address)) :=
  Ok [Some (signerAddress (Sync.authority input)); given (Some (Sync.nameRecord input));
      given (Sync.nftTokenAccount input)].

Definition getSetHostingInstruction_builder `{KS : KitSpec} `{PS : ProgramClientSpec} : InstructionBuilder.
Proof.
  refine {| kind := SolansInstruction.SetHosting; Input := Sync.SetHostingInput;
            args_of := Sync.args : Sync.SetHostingInput -> Args (instruction_codec SolansInstruction.SetHosting);
            addresses := getSetHostingInstruction_addresses; build := getSetHostingInstruction |}.
  - builder_length getSetHostingInstruction_addresses.
  - builder_refines getSetHostingInstruction getSetHostingInstruction_addresses.
Defined.

End SetHostingBuilder.

(** ** instructions/setReverse.ts *)

Module SetReverseBuilder.

Module Async.
Record SetReverseAsyncInput := MkInput {
  owner : TransactionSigner; nameRecord : Address; reverseRecord : option Address;
  systemProgram : option Address; args : SetReverse.SetReverseInstructionDataArgs
}.
End Async.

Definition getSetReverseInstructionAsync `{Kit} `{ProgramClientCore} (input : Async.SetReverseAsyncInput)
    (programAddress : option Address) : result JsError Instruction :=
  let programAddress := default SOLANS_PROGRAM_ADDRESS programAddress in
  let owner := fromSigner (Async.owner input) true in
  let nameRecord := fromAddress (Some (Async.nameRecord input)) true in
  let reverseRecord := fromAddress (Async.reverseRecord input) true in
  let systemProgram := fromAddress (Async.systemProgram input) false in
  let args := Async.args input in
  reverseRecord ← default_value reverseRecord
      (pda ← (owner ← getAddressFromResolvedInstructionAccount (js "owner") (value owner);
         findReverseRecordPda {| Pdas.owner := owner |} None);
       Ok (VPda pda));
  systemProgram ← default_value systemProgram (Ok (VAddress (js "11111111111111111111111111111111")));
  let getAccountMeta := getAccountMetaFactory programAddress (js "programId") in
  owner ← getAccountMeta (js "owner") owner;
  nameRecord ← getAccountMeta (js "nameRecord") nameRecord;
  reverseRecord ← getAccountMeta (js "reverseRecord") reverseRecord;
  systemProgram ← getAccountMeta (js "systemProgram") systemProgram;
  data ← SetReverse.getSetReverseInstructionDataEncoder args;
  Ok {| programAddress := programAddress;
        accounts := [owner; nameRecord; reverseRecord; systemProgram];
        data := data |}.

Definition getSetReverseInstructionAsync_addresses `{Kit} (input : Async.SetReverseAsyncInput)
    : result JsError (list (option Address)) :=
  reverseRecord ← or_default (Async.reverseRecord input)
      (pda ← findReverseRecordPda {| Pdas.owner := (signerAddress (Async.owner input)) |} None;
       Ok pda.1);
  systemProgram ← or_default (Async.systemProgram input) (Ok (js "11111111111111111111111111111111"));
  Ok [Some (signerAddress (Async.owner input)); given (Some (Async.nameRecord input));
      Some reverseRecord; Some systemProgram].

Definition getSetReverseInstructionAsync_builder `{KS : KitSpec} `{PS : ProgramClientSpec} : InstructionBuilder.
Proof.
  refine {| kind := SolansInstruction.SetReverse; Input := Async.SetReverseAsyncInput;
            args_of := Async.args : Async.SetReverseAsyncInput -> Args (instruction_codec SolansInstruction.SetReverse);
            addresses := getSetReverseInstructionAsync_addresses; build := getSetReverseInstructionAsync |}.
  - builder_length getSetReverseInstructionAsync_addresses.
  - builder_refines getSetReverseInstructionAsync getSetReverseInstructionAsync_addresses.
Defined.

Module Sync.
Record SetReverseInput := MkInput {
  owner : TransactionSigner; nameRecord : Address; reverseRecord : Address;
  systemProgram : option Address; args : SetReverse.SetReverseInstructionDataArgs
}.
End Sync.

Definition getSetReverseInstruction `{Kit} `{ProgramClientCore} (input : Sync.SetReverseInput)
    (programAddress : option Address) : result JsError Instruction :=
  let programAddress := default SOLANS_PROGRAM_ADDRESS programAddress in
  let owner := fromSigner (Sync.owner input) true in
  let nameRecord := fromAddress (Some (Sync.nameRecord input)) true in
  let reverseRecord := fromAddress (Some (Sync.reverseRecord input)) true in
  let systemProgram := fromAddress (Sync.systemProgram input) false in
  let args := Sync.args input in
  systemProgram ← default_value systemProgram (Ok (VAddress (js "11111111111111111111111111111111")));
  let getAccountMeta := getAccountMetaFactory programAddress (js "programId") in
  owner ← getAccountMeta (js "owner") owner;
  nameRecord ← getAccountMeta (js "nameRecord") nameRecord;
  reverseRecord ← getAccountMeta (js "reverseRecord") reverseRecord;
  systemProgram ← getAccountMeta (js "systemProgram") systemProgram;
  data ← SetReverse.getSetReverseInstructionDataEncoder args;
  Ok {| programAddress := programAddress;
        accounts := [owner; nameRecord; reverseRecord; systemProgram];
        data := data |}.

Definition getSetReverseInstruction_addresses `{Kit} (input : Sync.SetReverseInput)
    : result JsError (list (option Address)) :=
  systemProgram ← or_default (Sync.systemProgram input) (Ok (js "11111111111111111111111111111111"));
  Ok [Some (signerAddress (Sync.owner input)); given (Some (Sync.nameRecord input));
      given (Some (Sync.reverseRecord input)); Some systemProgram].

Definition getSetReverseInstruction_builder `{KS : KitSpec} `{PS : ProgramClientSpec} : InstructionBuilder.
Proof.
  refine {| kind := SolansInstruction.SetReverse; Input := Sync.SetReverseInput;
            args_of := Sync.args : Sync.SetReverseInput -> Args (instruction_codec SolansInstruction.SetReverse);
            addresses := getSetReverseInstruction_addresses; build := getSetReverseInstruction |}.
  - builder_length getSetReverseInstruction_addresses.
  - builder_refines getSetReverseInstruction getSetReverseInstruction_addresses.
Defined.

End SetReverseBuilder.

(** ** instructions/resolve.ts *)

Module ResolveBuilder.

Module Sync.
Record ResolveInput := MkInput {
  nameRecord : Address; args : Resolve.ResolveInstructionDataArgs
}.
End Sync.

Definition getResolveInstruction `{Kit} `{ProgramClientCore} (input : Sync.ResolveInput)
    (programAddress : option Address) : result JsError Instruction :=
  let programAddress := default SOLANS_PROGRAM_ADDRESS programAddress in
  let nameRecord := fromAddress (Some (Sync.nameRecord input)) false in
  let args := Sync.args input in
  let getAccountMeta := getAccountMetaFactory programAddress (js "programId") in
  nameRecord ← getAccountMeta (js "nameRecord") nameRecord;
  data ← Resolve.getResolveInstructionDataEncoder args;
  Ok {| programAddress := programAddress;
        accounts := [nameRecord];
        data := data |}.

Definition getResolveInstruction_addresses `{Kit} (input : Sync.ResolveInput)
    : result JsError (list (option Address)) :=
  Ok [given (Some (Sync.nameRecord input))].

Definition getResolveInstruction_builder `{KS : KitSpec} `{PS : ProgramClientSpec} : InstructionBuilder.
Proof.
  refine {| kind := SolansInstruction.Resolve; Input := Sync.ResolveInput;
            args_of := Sync.args : Sync.ResolveInput -> Args (instruction_codec SolansInstruction.Resolve);
            addresses := getResolveInstruction_addresses; build := getResolveInstruction |}.
  - builder_length getResolveInstruction_addresses.
  - builder_refines getResolveInstruction getResolveInstruction_addresses.
Defined.

End ResolveBuilder.

(** ** instructions/wrapSubdomain.ts *)

Module WrapSubdomainBuilder.

Module Async.
Record WrapSubdomainAsyncInput := MkInput {
  owner : TransactionSigner; subdomainOwner : Address; parentName : Address;
  nameRecord : option Address; systemProgram : option Address;
  args : WrapSubdomain.WrapSubdomainInstructionDataArgs
}.
End Async.

Definition getWrapSubdomainInstructionAsync `{Kit} `{ProgramClientCore} (input : Async.WrapSubdomainAsyncInput)
    (programAddress : option Address) : result JsError Instruction :=
  let programAddress := default SOLANS_PROGRAM_ADDRESS programAddress in
  let owner := fromSigner (Async.owner input) true in
  let subdomainOwner := fromAddress (Some (Async.subdomainOwner input)) false in
  let parentName := fromAddress (Some (Async.parentName input)) false in
  let nameRecord := fromAddress (Async.nameRecord input) true in
  let systemProgram := fromAddress (Async.systemProgram input) false in
  let args := Async.args input in
  nameRecord ← default_value nameRecord
      (pda ← (nameHash ← getNonNullResolvedInstructionInput (js "nameHash") (Some (WrapSubdomain.nameHash args));
         findNameRecordPda {| Pdas.nameHash := nameHash |} None);
       Ok (VPda pda));
  systemProgram ← default_value systemProgram (Ok (VAddress (js "11111111111111111111111111111111")));
  let getAccountMeta := getAccountMetaFactory programAddress (js "programId") in
  owner ← getAccountMeta (js "owner") owner;
  subdomainOwner ← getAccountMeta (js "subdomainOwner") subdomainOwner;
  parentName ← getAccountMeta (js "parentName") parentName;
  nameRecord ← getAccountMeta (js "nameRecord") nameRecord;
  systemProgram ← getAccountMeta (js "systemProgram") systemProgram;
  data ← WrapSubdomain.getWrapSubdomainInstructionDataEncoder args;
  Ok {| programAddress := programAddress;
        accounts := [owner; subdomainOwner; parentName; nameRecord; systemProgram];
        data := data |}.

Definition getWrapSubdomainInstructionAsync_addresses `{Kit} (input : Async.WrapSubdomainAsyncInput)
    : result JsError (list (option Address)) :=
  nameRecord ← or_default (Async.nameRecord input)
      (pda ← findNameRecordPda {| Pdas.nameHash := WrapSubdomain.nameHash (Async.args input) |} None;
       Ok pda.1);
  systemProgram ← or_default (Async.systemProgram input) (Ok (js "11111111111111111111111111111111"));
  Ok [Some (signerAddress (Async.owner input)); given (Some (Async.subdomainOwner input));
      given (Some (Async.parentName input)); Some nameRecord; Some systemProgram].

Definition getWrapSubdomainInstructionAsync_builder `{KS : KitSpec} `{PS : ProgramClientSpec} : InstructionBuilder.
Proof.
  refine {| kind := SolansInstruction.WrapSubdomain; Input := Async.WrapSubdomainAsyncInput;
            args_of := Async.args : Async.WrapSubdomainAsyncInput -> Args (instruction_codec SolansInstruction.WrapSubdomain);
            addresses := getWrapSubdomainInstructionAsync_addresses; build := getWrapSubdomainInstructionAsync |}.
  - builder_length getWrapSubdomainInstructionAsync_addresses.
  - builder_refines getWrapSubdomainInstructionAsync getWrapSubdomainInstructionAsync_addresses.
Defined.

Module Sync.
Record WrapSubdomainInput := MkInput {
  owner : TransactionSigner; subdomainOwner : Address; parentName : Address; nameRecord : Address;
  systemProgram : option Address; args : WrapSubdomain.WrapSubdomainInstructionDataArgs
}.
End Sync.

Definition getWrapSubdomainInstruction `{Kit} `{ProgramClientCore} (input : Sync.WrapSubdomainInput)
    (programAddress : option Address) : result JsError Instruction :=
  let programAddress := default SOLANS_PROGRAM_ADDRESS programAddress in
  let owner := fromSigner (Sync.owner input) true in
  let subdomainOwner := fromAddress (Some (Sync.subdomainOwner input)) false in
  let parentName := fromAddress (Some (Sync.parentName input)) false in
  let nameRecord := fromAddress (Some (Sync.nameRecord input)) true in
  let systemProgram := fromAddress (Sync.systemProgram input) false in
  let args := Sync.args input in
  systemProgram ← default_value systemProgram (Ok (VAddress (js "11111111111111111111111111111111")));
  let getAccountMeta := getAccountMetaFactory programAddress (js "programId") in
  owner ← getAccountMeta (js "owner") owner;
  subdomainOwner ← getAccountMeta (js "subdomainOwner") subdomainOwner;
  parentName ← getAccountMeta (js "parentName") parentName;
  nameRecord ← getAccountMeta (js "nameRecord") nameRecord;
  systemProgram ← getAccountMeta (js "systemProgram") systemProgram;
  data ← WrapSubdomain.getWrapSubdomainInstructionDataEncoder args;
  Ok {| programAddress := programAddress;
        accounts := [owner; subdomainOwner; parentName; nameRecord; systemProgram];
        data := data |}.

Definition getWrapSubdomainInstruction_addresses `{Kit} (input : Sync.WrapSubdomainInput)
    : result JsError (list (option Address)) :=
  systemProgram ← or_default (Sync.systemProgram input) (Ok (js "11111111111111111111111111111111"));
  Ok [Some (signerAddress (Sync.owner input)); given (Some (Sync.subdomainOwner input));
      given (Some (Sync.parentName input)); given (Some (Sync.nameRecord input));
      Some systemProgram].

Definition getWrapSubdomainInstruction_builder `{KS : KitSpec} `{PS : ProgramClientSpec} : InstructionBuilder.
Proof.
  refine {| kind := SolansInstruction.WrapSubdomain; Input := Sync.WrapSubdomainInput;
            args_of := Sync.args : Sync.WrapSubdomainInput -> Args (instruction_codec SolansInstruction.WrapSubdomain);
            addresses := getWrapSubdomainInstruction_addresses; build := getWrapSubdomainInstruction |}.
  - builder_length getWrapSubdomainInstruction_addresses.
  - builder_refines getWrapSubdomainInstruction getWrapSubdomainInstruction_addresses.
Defined.

End WrapSubdomainBuilder.

(** ** instructions/revokeSubdomain.ts *)

Module RevokeSubdomainBuilder.

Module Sync.
Record RevokeSubdomainInput := MkInput {
  owner : TransactionSigner; parentName : Address; nameRecord : Address
}.
End Sync.

Definition getRevokeSubdomainInstruction `{Kit} `{ProgramClientCore} (input : Sync.RevokeSubdomainInput)
    (programAddress : option Address) : result JsError Instruction :=
  let programAddress := default SOLANS_PROGRAM_ADDRESS programAddress in
  let owner := fromSigner (Sync.owner input) true in
  let parentName := fromAddress (Some (Sync.parentName input)) false in
  let nameRecord := fromAddress (Some (Sync.nameRecord input)) true in
  let getAccountMeta := getAccountMetaFactory programAddress (js "programId") in
  owner ← getAccountMeta (js "owner") owner;
  parentName ← getAccountMeta (js "parentName") parentName;
  nameRecord ← getAccountMeta (js "nameRecord") nameRecord;
  data ← RevokeSubdomain.getRevokeSubdomainInstructionDataEncoder RevokeSubdomain.MkRevokeSubdomainInstructionDataArgs;
  Ok {| programAddress := programAddress;
        accounts := [owner; parentName; nameRecord];
        data := data |}.

Definition getRevokeSubdomainInstruction_addresses `{Kit} (input : Sync.RevokeSubdomainInput)
    : result JsError (list (option Address)) :=
  Ok [Some (signerAddress (Sync.owner input)); given (Some (Sync.parentName input));
      given (Some (Sync.nameRecord input))].

Definition getRevokeSubdomainInstruction_builder `{KS : KitSpec} `{PS : ProgramClientSpec} : InstructionBuilder.
Proof.
  refine {| kind := SolansInstruction.RevokeSubdomain; Input := Sync.RevokeSubdomainInput;
            args_of := (fun _ => RevokeSubdomain.MkRevokeSubdomainInstructionDataArgs) : Sync.RevokeSubdomainInput -> Args (instruction_codec SolansInstruction.RevokeSubdomain);
            addresses := getRevokeSubdomainInstruction_addresses; build := getRevokeSubdomainInstruction |}.
  - builder_length getRevokeSubdomainInstruction_addresses.
  - builder_refines getRevokeSubdomainInstruction getRevokeSubdomainInstruction_addresses.
Defined.

End RevokeSubdomainBuilder.

(** ** instructions/tokenizeName.ts *)

Module TokenizeNameBuilder.

Module Async.
Record TokenizeNameAsyncInput := MkInput {
  owner : TransactionSigner; nameRecord : Address; mint : TransactionSigner;
  tokenAccount : option Address; metadata : option Address; masterEdition : option Address;
  tokenProgram : option Address; associatedTokenProgram : option Address;
  metadataProgram : option Address; systemProgram : option Address; rent : option Address;
  args : TokenizeName.TokenizeNameInstructionDataArgs
}.
End Async.

Definition getTokenizeNameInstructionAsync `{Kit} `{ProgramClientCore} (input : Async.TokenizeNameAsyncInput)
    (programAddress : option Address) : result JsError Instruction :=
  let programAddress := default SOLANS_PROGRAM_ADDRESS programAddress in
  let owner := fromSigner (Async.owner input) true in
  let nameRecord := fromAddress (Some (Async.nameRecord input)) true in
  let mint := fromSigner (Async.mint input) true in
  let tokenAccount := fromAddress (Async.tokenAccount input) true in
  let metadata := fromAddress (Async.metadata input) true in
  let masterEdition := fromAddress (Async.masterEdition input) true in
  let tokenProgram := fromAddress (Async.tokenProgram input) false in
  let associatedTokenProgram := fromAddress (Async.associatedTokenProgram input) false in
  let metadataProgram := fromAddress (Async.metadataProgram input) false in
  let systemProgram := fromAddress (Async.systemProgram input) false in
  let rent := fromAddress (Async.rent input) false in
  let args := Async.args input in
  tokenAccount ← default_value tokenAccount
      (pda ← (ownerAddress ← getAddressFromResolvedInstructionAccount (js "owner") (value owner);
         seed1 ← getAddressEncoder ownerAddress;
         seed2 ← getBytesEncoder [6; 221; 246; 225; 215; 101; 161; 147; 217; 203; 225; 70; 206; 235; 121; 172; 28; 180; 133; 237; 95; 91; 55; 145; 58; 140; 245; 133; 126; 255; 0; 169];
         mintAddress ← getAddressFromResolvedInstructionAccount (js "mint") (value mint);
         seed3 ← getAddressEncoder mintAddress;
         getProgramDerivedAddress (js "ATokenGPvbdGVxr1b2hvZbsiqW5xWH25efTNsLJA8knL") [seed1; seed2; seed3]);
       Ok (VPda pda));
  metadataProgram ← default_value metadataProgram (Ok (VAddress (js "metaqbxxUerdq28cj1RbAWkYQm3ybzjb6a8bt518x1s")));
  metadata ← default_value metadata
      (pda ← (seedProgram ← getAddressFromResolvedInstructionAccount (js "metadataProgram") (value metadataProgram);
         seedMint ← getAddressFromResolvedInstructionAccount (js "mint") (value mint);
         programAddress_ ← getAddressFromResolvedInstructionAccount (js "metadataProgram") (value metadataProgram);
         findMetadataPda {| metadataProgram := seedProgram; mint := seedMint |} (Some programAddress_));
       Ok (VPda pda));
  masterEdition ← default_value masterEdition
      (pda ← (seedProgram ← getAddressFromResolvedInstructionAccount (js "metadataProgram") (value metadataProgram);
         seedMint ← getAddressFromResolvedInstructionAccount (js "mint") (value mint);
         programAddress_ ← getAddressFromResolvedInstructionAccount (js "metadataProgram") (value metadataProgram);
         findMasterEditionPda {| metadataProgram := seedProgram; mint := seedMint |} (Some programAddress_));
       Ok (VPda pda));
  tokenProgram ← default_value tokenProgram (Ok (VAddress (js "TokenkegQfeZyiNwAJbNbGKPFXCWuBvf9Ss623VQ5DA")));
  associatedTokenProgram ← default_value associatedTokenProgram (Ok (VAddress (js "ATokenGPvbdGVxr1b2hvZbsiqW5xWH25efTNsLJA8knL")));
  systemProgram ← default_value systemProgram (Ok (VAddress (js "11111111111111111111111111111111")));
  rent ← default_value rent (Ok (VAddress (js "SysvarRent111111111111111111111111111111111")));
  let getAccountMeta := getAccountMetaFactory programAddress (js "programId") in
  owner ← getAccountMeta (js "owner") owner;
  nameRecord ← getAccountMeta (js "nameRecord") nameRecord;
  mint ← getAccountMeta (js "mint") mint;
  tokenAccount ← getAccountMeta (js "tokenAccount") tokenAccount;
  metadata ← getAccountMeta (js "metadata") metadata;
  masterEdition ← getAccountMeta (js "masterEdition") masterEdition;
  tokenProgram ← getAccountMeta (js "tokenProgram") tokenProgram;
  associatedTokenProgram ← getAccountMeta (js "associatedTokenProgram") associatedTokenProgram;
  metadataProgram ← getAccountMeta (js "metadataProgram") metadataProgram;
  systemProgram ← getAccountMeta (js "systemProgram") systemProgram;
  rent ← getAccountMeta (js "rent") rent;
  data ← TokenizeName.getTokenizeNameInstructionDataEncoder args;
  Ok {| programAddress := programAddress;
        accounts := [owner; nameRecord; mint; tokenAccount; metadata; masterEdition; tokenProgram;
          associatedTokenProgram; metadataProgram; systemProgram; rent];
        data := data |}.

Definition getTokenizeNameInstructionAsync_addresses `{Kit} (input : Async.TokenizeNameAsyncInput)
    : result JsError (list (option Address)) :=
  tokenAccount ← or_default (Async.tokenAccount input)
      (pda ← (seed1 ← getAddressEncoder (signerAddress (Async.owner input));
         seed2 ← getBytesEncoder [6; 221; 246; 225; 215; 101; 161; 147; 217; 203; 225; 70; 206; 235; 121; 172; 28; 180; 133; 237; 95; 91; 55; 145; 58; 140; 245; 133; 126; 255; 0; 169];
         seed3 ← getAddressEncoder (signerAddress (Async.mint input));
         getProgramDerivedAddress (js "ATokenGPvbdGVxr1b2hvZbsiqW5xWH25efTNsLJA8knL") [seed1; seed2; seed3]);
       Ok pda.1);
  metadataProgram ← or_default (Async.metadataProgram input) (Ok (js "metaqbxxUerdq28cj1RbAWkYQm3ybzjb6a8bt518x1s"));
  metadata ← or_default (Async.metadata input)
      (pda ← findMetadataPda {| metadataProgram := metadataProgram; mint := (signerAddress (Async.mint input)) |} (Some metadataProgram);
       Ok pda.1);
  masterEdition ← or_default (Async.masterEdition input)
      (pda ← findMasterEditionPda {| metadataProgram := metadataProgram; mint := (signerAddress (Async.mint input)) |} (Some metadataProgram);
       Ok pda.1);
  tokenProgram ← or_default (Async.tokenProgram input) (Ok (js "TokenkegQfeZyiNwAJbNbGKPFXCWuBvf9Ss623VQ5DA"));
  associatedTokenProgram ← or_default (Async.associatedTokenProgram input) (Ok (js "ATokenGPvbdGVxr1b2hvZbsiqW5xWH25efTNsLJA8knL"));
  systemProgram ← or_default (Async.systemProgram input) (Ok (js "11111111111111111111111111111111"));
  rent ← or_default (Async.rent input) (Ok (js "SysvarRent111111111111111111111111111111111"));
  Ok [Some (signerAddress (Async.owner input)); given (Some (Async.nameRecord input));
      Some (signerAddress (Async.mint input)); Some tokenAccount; Some metadata;
      Some masterEdition; Some tokenProgram; Some associatedTokenProgram;
      Some metadataProgram; Some systemProgram; Some rent].

Definition getTokenizeNameInstructionAsync_builder `{KS : KitSpec} `{PS : ProgramClientSpec} : InstructionBuilder.
Proof.
  refine {| kind := SolansInstruction.TokenizeName; Input := Async.TokenizeNameAsyncInput;
            args_of := Async.args : Async.TokenizeNameAsyncInput -> Args (instruction_codec SolansInstruction.TokenizeName);
            addresses := getTokenizeNameInstructionAsync_addresses; build := getTokenizeNameInstructionAsync |}.
  - builder_length getTokenizeNameInstructionAsync_addresses.
  - builder_refines getTokenizeNameInstructionAsync getTokenizeNameInstructionAsync_addresses.
Defined.

Module Sync.
Record TokenizeNameInput := MkInput {
  owner : TransactionSigner; nameRecord : Address; mint : TransactionSigner;
  tokenAccount : Address; metadata : Address; masterEdition : Address;
  tokenProgram : option Address; associatedTokenProgram : option Address;
  metadataProgram : option Address; systemProgram : option Address; rent : option Address;
  args : TokenizeName.TokenizeNameInstructionDataArgs
}.
End Sync.

Definition getTokenizeNameInstruction `{Kit} `{ProgramClientCore} (input : Sync.TokenizeNameInput)
    (programAddress : option Address) : result JsError Instruction :=
  let programAddress := default SOLANS_PROGRAM_ADDRESS programAddress in
  let owner := fromSigner (Sync.owner input) true in
  let nameRecord := fromAddress (Some (Sync.nameRecord input)) true in
  let mint := fromSigner (Sync.mint input) true in
  let tokenAccount := fromAddress (Some (Sync.tokenAccount input)) true in
  let metadata := fromAddress (Some (Sync.metadata input)) true in
  let masterEdition := fromAddress (Some (Sync.masterEdition input)) true in
  let tokenProgram := fromAddress (Sync.tokenProgram input) false in
  let associatedTokenProgram := fromAddress (Sync.associatedTokenProgram input) false in
  let metadataProgram := fromAddress (Sync.metadataProgram input) false in
  let systemProgram := fromAddress (Sync.systemProgram input) false in
  let rent := fromAddress (Sync.rent input) false in
  let args := Sync.args input in
  metadataProgram ← default_value metadataProgram (Ok (VAddress (js "metaqbxxUerdq28cj1RbAWkYQm3ybzjb6a8bt518x1s")));
  tokenProgram ← default_value tokenProgram (Ok (VAddress (js "TokenkegQfeZyiNwAJbNbGKPFXCWuBvf9Ss623VQ5DA")));
  associatedTokenProgram ← default_value associatedTokenProgram (Ok (VAddress (js "ATokenGPvbdGVxr1b2hvZbsiqW5xWH25efTNsLJA8knL")));
  systemProgram ← default_value systemProgram (Ok (VAddress (js "11111111111111111111111111111111")));
  rent ← default_value rent (Ok (VAddress (js "SysvarRent111111111111111111111111111111111")));
  let getAccountMeta := getAccountMetaFactory programAddress (js "programId") in
  owner ← getAccountMeta (js "owner") owner;
  nameRecord ← getAccountMeta (js "nameRecord") nameRecord;
  mint ← getAccountMeta (js "mint") mint;
  tokenAccount ← getAccountMeta (js "tokenAccount") tokenAccount;
  metadata ← getAccountMeta (js "metadata") metadata;
  masterEdition ← getAccountMeta (js "masterEdition") masterEdition;
  tokenProgram ← getAccountMeta (js "tokenProgram") tokenProgram;
  associatedTokenProgram ← getAccountMeta (js "associatedTokenProgram") associatedTokenProgram;
  metadataProgram ← getAccountMeta (js "metadataProgram") metadataProgram;
  systemProgram ← getAccountMeta (js "systemProgram") systemProgram;
  rent ← getAccountMeta (js "rent") rent;
  data ← TokenizeName.getTokenizeNameInstructionDataEncoder args;
  Ok {| programAddress := programAddress;
        accounts := [owner; nameRecord; mint; tokenAccount; metadata; masterEdition; tokenProgram;
          associatedTokenProgram; metadataProgram; systemProgram; rent];
        data := data |}.

Definition getTokenizeNameInstruction_addresses `{Kit} (input : Sync.TokenizeNameInput)
    : result JsError (list (option Address)) :=
  metadataProgram ← or_default (Sync.metadataProgram input) (Ok (js "metaqbxxUerdq28cj1RbAWkYQm3ybzjb6a8bt518x1s"));
  tokenProgram ← or_default (Sync.tokenProgram input) (Ok (js "TokenkegQfeZyiNwAJbNbGKPFXCWuBvf9Ss623VQ5DA"));
  associatedTokenProgram ← or_default (Sync.associatedTokenProgram input) (Ok (js "ATokenGPvbdGVxr1b2hvZbsiqW5xWH25efTNsLJA8knL"));
  systemProgram ← or_default (Sync.systemProgram input) (Ok (js "11111111111111111111111111111111"));
  rent ← or_default (Sync.rent input) (Ok (js "SysvarRent111111111111111111111111111111111"));
  Ok [Some (signerAddress (Sync.owner input)); given (Some (Sync.nameRecord input));
      Some (signerAddress (Sync.mint input)); given (Some (Sync.tokenAccount input));
      given (Some (Sync.metadata input)); given (Some (Sync.masterEdition input));
      Some tokenProgram; Some associatedTokenProgram; Some metadataProgram;
      Some systemProgram; Some rent].

Definition getTokenizeNameInstruction_builder `{KS : KitSpec} `{PS : ProgramClientSpec} : InstructionBuilder.
Proof.
  refine {| kind := SolansInstruction.TokenizeName; Input := Sync.TokenizeNameInput;
            args_of := Sync.args : Sync.TokenizeNameInput -> Args (instruction_codec SolansInstruction.TokenizeName);
            addresses := getTokenizeNameInstruction_addresses; build := getTokenizeNameInstruction |}.
  - builder_length getTokenizeNameInstruction_addresses.
  - builder_refines getTokenizeNameInstruction getTokenizeNameInstruction_addresses.
Defined.

End TokenizeNameBuilder.

(** ** instructions/redeemName.ts *)

Module RedeemNameBuilder.

Module Async.
Record RedeemNameAsyncInput := MkInput {
  redeemer : TransactionSigner; nameRecord : Address; mint : Address; tokenAccount : Address;
  metadata : option Address; masterEdition : option Address; tokenProgram : option Address;
  metadataProgram : option Address
}.
End Async.

Definition getRedeemNameInstructionAsync `{Kit} `{ProgramClientCore} (input : Async.RedeemNameAsyncInput)
    (programAddress : option Address) : result JsError Instruction :=
  let programAddress := default SOLANS_PROGRAM_ADDRESS programAddress in
  let redeemer := fromSigner (Async.redeemer input) true in
  let nameRecord := fromAddress (Some (Async.nameRecord input)) true in
  let mint := fromAddress (Some (Async.mint input)) true in
  let tokenAccount := fromAddress (Some (Async.tokenAccount input)) true in
  let metadata := fromAddress (Async.metadata input) true in
  let masterEdition := fromAddress (Async.masterEdition input) true in
  let tokenProgram := fromAddress (Async.tokenProgram input) false in
  let metadataProgram := fromAddress (Async.metadataProgram input) false in
  metadataProgram ← default_value metadataProgram (Ok (VAddress (js "metaqbxxUerdq28cj1RbAWkYQm3ybzjb6a8bt518x1s")));
  metadata ← default_value metadata
      (pda ← (seedProgram ← getAddressFromResolvedInstructionAccount (js "metadataProgram") (value metadataProgram);
         seedMint ← getAddressFromResolvedInstructionAccount (js "mint") (value mint);
         programAddress_ ← getAddressFromResolvedInstructionAccount (js "metadataProgram") (value metadataProgram);
         findMetadataPda {| metadataProgram := seedProgram; mint := seedMint |} (Some programAddress_));
       Ok (VPda pda));
  masterEdition ← default_value masterEdition
      (pda ← (seedProgram ← getAddressFromResolvedInstructionAccount (js "metadataProgram") (value metadataProgram);
         seedMint ← getAddressFromResolvedInstructionAccount (js "mint") (value mint);
         programAddress_ ← getAddressFromResolvedInstructionAccount (js "metadataProgram") (value metadataProgram);
         findMasterEditionPda {| metadataProgram := seedProgram; mint := seedMint |} (Some programAddress_));
       Ok (VPda pda));
  tokenProgram ← default_value tokenProgram (Ok (VAddress (js "TokenkegQfeZyiNwAJbNbGKPFXCWuBvf9Ss623VQ5DA")));
  let getAccountMeta := getAccountMetaFactory programAddress (js "programId") in
  redeemer ← getAccountMeta (js "redeemer") redeemer;
  nameRecord ← getAccountMeta (js "nameRecord") nameRecord;
  mint ← getAccountMeta (js "mint") mint;
  tokenAccount ← getAccountMeta (js "tokenAccount") tokenAccount;
  metadata ← getAccountMeta (js "metadata") metadata;
  masterEdition ← getAccountMeta (js "masterEdition") masterEdition;
  tokenProgram ← getAccountMeta (js "tokenProgram") tokenProgram;
  metadataProgram ← getAccountMeta (js "metadataProgram") metadataProgram;
  data ← RedeemName.getRedeemNameInstructionDataEncoder RedeemName.MkRedeemNameInstructionDataArgs;
  Ok {| programAddress := programAddress;
        accounts := [redeemer; nameRecord; mint; tokenAccount; metadata; masterEdition; tokenProgram;
          metadataProgram];
        data := data |}.

Definition getRedeemNameInstructionAsync_addresses `{Kit} (input : Async.RedeemNameAsyncInput)
    : result JsError (list (option Address)) :=
  metadataProgram ← or_default (Async.metadataProgram input) (Ok (js "metaqbxxUerdq28cj1RbAWkYQm3ybzjb6a8bt518x1s"));
  metadata ← or_default (Async.metadata input)
      (pda ← findMetadataPda {| metadataProgram := metadataProgram; mint := (Async.mint input) |} (Some metadataProgram);
       Ok pda.1);
  masterEdition ← or_default (Async.masterEdition input)
      (pda ← findMasterEditionPda {| metadataProgram := metadataProgram; mint := (Async.mint input) |} (Some metadataProgram);
       Ok pda.1);
  tokenProgram ← or_default (Async.tokenProgram input) (Ok (js "TokenkegQfeZyiNwAJbNbGKPFXCWuBvf9Ss623VQ5DA"));
  Ok [Some (signerAddress (Async.redeemer input)); given (Some (Async.nameRecord input));
      given (Some (Async.mint input)); given (Some (Async.tokenAccount input));
      Some metadata; Some masterEdition; Some tokenProgram; Some metadataProgram].

Definition getRedeemNameInstructionAsync_builder `{KS : KitSpec} `{PS : ProgramClientSpec} : InstructionBuilder.
Proof.
  refine {| kind := SolansInstruction.RedeemName; Input := Async.RedeemNameAsyncInput;
            args_of := (fun _ => RedeemName.MkRedeemNameInstructionDataArgs) : Async.RedeemNameAsyncInput -> Args (instruction_codec SolansInstruction.RedeemName);
            addresses := getRedeemNameInstructionAsync_addresses; build := getRedeemNameInstructionAsync |}.
  - builder_length getRedeemNameInstructionAsync_addresses.
  - builder_refines getRedeemNameInstructionAsync getRedeemNameInstructionAsync_addresses.
Defined.

Module Sync.
Record RedeemNameInput := MkInput {
  redeemer : TransactionSigner; nameRecord : Address; mint : Address; tokenAccount : Address;
  metadata : Address; masterEdition : Address; tokenProgram : option Address;
  metadataProgram : option Address
}.
End Sync.

Definition getRedeemNameInstruction `{Kit} `{ProgramClientCore} (input : Sync.RedeemNameInput)
    (programAddress : option Address) : result JsError Instruction :=
  let programAddress := default SOLANS_PROGRAM_ADDRESS programAddress in
  let redeemer := fromSigner (Sync.redeemer input) true in
  let nameRecord := fromAddress (Some (Sync.nameRecord input)) true in
  let mint := fromAddress (Some (Sync.mint input)) true in
  let tokenAccount := fromAddress (Some (Sync.tokenAccount input)) true in
  let metadata := fromAddress (Some (Sync.metadata input)) true in
  let masterEdition := fromAddress (Some (Sync.masterEdition input)) true in
  let tokenProgram := fromAddress (Sync.tokenProgram input) false in
  let metadataProgram := fromAddress (Sync.metadataProgram input) false in
  metadataProgram ← default_value metadataProgram (Ok (VAddress (js "metaqbxxUerdq28cj1RbAWkYQm3ybzjb6a8bt518x1s")));
  tokenProgram ← default_value tokenProgram (Ok (VAddress (js "TokenkegQfeZyiNwAJbNbGKPFXCWuBvf9Ss623VQ5DA")));
  let getAccountMeta := getAccountMetaFactory programAddress (js "programId") in
  redeemer ← getAccountMeta (js "redeemer") redeemer;
  nameRecord ← getAccountMeta (js "nameRecord") nameRecord;
  mint ← getAccountMeta (js "mint") mint;
  tokenAccount ← getAccountMeta (js "tokenAccount") tokenAccount;
  metadata ← getAccountMeta (js "metadata") metadata;
  masterEdition ← getAccountMeta (js "masterEdition") masterEdition;
  tokenProgram ← getAccountMeta (js "tokenProgram") tokenProgram;
  metadataProgram ← getAccountMeta (js "metadataProgram") metadataProgram;
  data ← RedeemName.getRedeemNameInstructionDataEncoder RedeemName.MkRedeemNameInstructionDataArgs;
  Ok {| programAddress := programAddress;
        accounts := [redeemer; nameRecord; mint; tokenAccount; metadata; masterEdition; tokenProgram;
          metadataProgram];
        data := data |}.

Definition getRedeemNameInstruction_addresses `{Kit} (input : Sync.RedeemNameInput)
    : result JsError (list (option Address)) :=
  metadataProgram ← or_default (Sync.metadataProgram input) (Ok (js "metaqbxxUerdq28cj1RbAWkYQm3ybzjb6a8bt518x1s"));
  tokenProgram ← or_default (Sync.tokenProgram input) (Ok (js "TokenkegQfeZyiNwAJbNbGKPFXCWuBvf9Ss623VQ5DA"));
  Ok [Some (signerAddress (Sync.redeemer input)); given (Some (Sync.nameRecord input));
      given (Some (Sync.mint input)); given (Some (Sync.tokenAccount input));
      given (Some (Sync.metadata input)); given (Some (Sync.masterEdition input));
      Some tokenProgram; Some metadataProgram].

Definition getRedeemNameInstruction_builder `{KS : KitSpec} `{PS : ProgramClientSpec} : InstructionBuilder.
Proof.
  refine {| kind := SolansInstruction.RedeemName; Input := Sync.RedeemNameInput;
            args_of := (fun _ => RedeemName.MkRedeemNameInstructionDataArgs) : Sync.RedeemNameInput -> Args (instruction_codec SolansInstruction.RedeemName);
            addresses := getRedeemNameInstruction_addresses; build := getRedeemNameInstruction |}.
  - builder_length getRedeemNameInstruction_addresses.
  - builder_refines getRedeemNameInstruction getRedeemNameInstruction_addresses.
Defined.

End RedeemNameBuilder.
