(* ===== verification/MarketBuilders.v ===== *)
(** * Builders of the instructions for the marketplace: listings, offers and auctions

    For each file of src/clients/ts/src/generated/instructions: the input objects,
    the builders ([get...Instruction] and, where accounts are derived,
    [get...InstructionAsync]), the addresses a call must use, and the proof that
    the builder meets [InstructionBuilder]. *)
From S2P Require Import Prelude JsString Kit Pdas Instruction MarketInstructions Program ProgramAccounts.
From S2P Require Import ProgramClient.

(** ** instructions/listName.ts *)

Module ListNameBuilder.

Module Sync.
Record ListNameInput := MkInput {
  owner : TransactionSigner; nameRecord : Address; listing : Address;
  systemProgram : option Address; args : ListName.ListNameInstructionDataArgs
}.
End Sync.

Definition getListNameInstruction `{Kit} `{ProgramClientCore} (input : Sync.ListNameInput)
    (programAddress : option Address) : result JsError Instruction :=
  let programAddress := default SOLANS_PROGRAM_ADDRESS programAddress in
  let owner := fromSigner (Sync.owner input) true in
  let nameRecord := fromAddress (Some (Sync.nameRecord input)) true in
  let listing := fromAddress (Some (Sync.listing input)) true in
  let systemProgram := fromAddress (Sync.systemProgram input) false in
  let args := Sync.args input in
  systemProgram ← default_value systemProgram (Ok (VAddress (js "11111111111111111111111111111111")));
  let getAccountMeta := getAccountMetaFactory programAddress (js "programId") in
  owner ← getAccountMeta (js "owner") owner;
  nameRecord ← getAccountMeta (js "nameRecord") nameRecord;
  listing ← getAccountMeta (js "listing") listing;
  systemProgram ← getAccountMeta (js "systemProgram") systemProgram;
  data ← ListName.getListNameInstructionDataEncoder args;
  Ok {| programAddress := programAddress;
        accounts := [owner; nameRecord; listing; systemProgram];
        data := data |}.

Definition getListNameInstruction_addresses `{Kit} (input : Sync.ListNameInput)
    : result JsError (list (option Address)) :=
  systemProgram ← or_default (Sync.systemProgram input) (Ok (js "11111111111111111111111111111111"));
  Ok [Some (signerAddress (Sync.owner input)); given (Some (Sync.nameRecord input));
      given (Some (Sync.listing input)); Some systemProgram].

Definition getListNameInstruction_builder `{KS : KitSpec} `{PS : ProgramClientSpec} : InstructionBuilder.
Proof.
  refine {| kind := SolansInstruction.ListName; Input := Sync.ListNameInput;
            args_of := Sync.args : Sync.ListNameInput -> Args (instruction_codec SolansInstruction.ListName);
            addresses := getListNameInstruction_addresses; build := getListNameInstruction |}.
  - builder_length getListNameInstruction_addresses.
  - builder_refines getListNameInstruction getListNameInstruction_addresses.
Defined.

End ListNameBuilder.

(** ** instructions/updateListing.ts *)

Module UpdateListingBuilder.

Module Sync.
Record UpdateListingInput := MkInput {
  seller : TransactionSigner; listing : Address;
  args : UpdateListing.UpdateListingInstructionDataArgs
}.
End Sync.

Definition getUpdateListingInstruction `{Kit} `{ProgramClientCore} (input : Sync.UpdateListingInput)
    (programAddress : option Address) : result JsError Instruction :=
  let programAddress := default SOLANS_PROGRAM_ADDRESS programAddress in
  let seller := fromSigner (Sync.seller input) false in
  let listing := fromAddress (Some (Sync.listing input)) true in
  let args := Sync.args input in
  let getAccountMeta := getAccountMetaFactory programAddress (js "programId") in
  seller ← getAccountMeta (js "seller") seller;
  listing ← getAccountMeta (js "listing") listing;
  data ← UpdateListing.getUpdateListingInstructionDataEncoder args;
  Ok {| programAddress := programAddress;
        accounts := [seller; listing];
        data := data |}.

Definition getUpdateListingInstruction_addresses `{Kit} (input : Sync.UpdateListingInput)
    : result JsError (list (option Address)) :=
  Ok [Some (signerAddress (Sync.seller input)); given (Some (Sync.listing input))].

Definition getUpdateListingInstruction_builder `{KS : KitSpec} `{PS : ProgramClientSpec} : InstructionBuilder.
Proof.
  refine {| kind := SolansInstruction.UpdateListing; Input := Sync.UpdateListingInput;
            args_of := Sync.args : Sync.UpdateListingInput -> Args (instruction_codec SolansInstruction.UpdateListing);
            addresses := getUpdateListingInstruction_addresses; build := getUpdateListingInstruction |}.
  - builder_length getUpdateListingInstruction_addresses.
  - builder_refines getUpdateListingInstruction getUpdateListingInstruction_addresses.
Defined.

End UpdateListingBuilder.

(** ** instructions/cancelListing.ts *)

Module CancelListingBuilder.

Module Sync.
Record CancelListingInput := MkInput {
  canceller : TransactionSigner; seller : Address; nameRecord : Address; listing : Address
}.
End Sync.

Definition getCancelListingInstruction `{Kit} `{ProgramClientCore} (input : Sync.CancelListingInput)
    (programAddress : option Address) : result JsError Instruction :=
  let programAddress := default SOLANS_PROGRAM_ADDRESS programAddress in
  let canceller := fromSigner (Sync.canceller input) false in
  let seller := fromAddress (Some (Sync.seller input)) true in
  let nameRecord := fromAddress (Some (Sync.nameRecord input)) true in
  let listing := fromAddress (Some (Sync.listing input)) true in
  let getAccountMeta := getAccountMetaFactory programAddress (js "programId") in
  canceller ← getAccountMeta (js "canceller") canceller;
  seller ← getAccountMeta (js "seller") seller;
  nameRecord ← getAccountMeta (js "nameRecord") nameRecord;
  listing ← getAccountMeta (js "listing") listing;
  data ← CancelListing.getCancelListingInstructionDataEncoder CancelListing.MkCancelListingInstructionDataArgs;
  Ok {| programAddress := programAddress;
        accounts := [canceller; seller; nameRecord; listing];
        data := data |}.

Definition getCancelListingInstruction_addresses `{Kit} (input : Sync.CancelListingInput)
    : result JsError (list (option Address)) :=
  Ok [Some (signerAddress (Sync.canceller input)); given (Some (Sync.seller input));
      given (Some (Sync.nameRecord input)); given (Some (Sync.listing input))].

Definition getCancelListingInstruction_builder `{KS : KitSpec} `{PS : ProgramClientSpec} : InstructionBuilder.
Proof.
  refine {| kind := SolansInstruction.CancelListing; Input := Sync.CancelListingInput;
            args_of := (fun _ => CancelListing.MkCancelListingInstructionDataArgs) : Sync.CancelListingInput -> Args (instruction_codec SolansInstruction.CancelListing);
            addresses := getCancelListingInstruction_addresses; build := getCancelListingInstruction |}.
  - builder_length getCancelListingInstruction_addresses.
  - builder_refines getCancelListingInstruction getCancelListingInstruction_addresses.
Defined.

End CancelListingBuilder.

(** ** instructions/buyName.ts *)

Module BuyNameBuilder.

Module Async.
Record BuyNameAsyncInput := MkInput {
  buyer : TransactionSigner; seller : Address; solTreasury : Address; config : option Address;
  nameRecord : Address; listing : Address; systemProgram : option Address;
  args : BuyName.BuyNameInstructionDataArgs
}.
End Async.

Definition getBuyNameInstructionAsync `{Kit} `{ProgramClientCore} (input : Async.BuyNameAsyncInput)
    (programAddress : option Address) : result JsError Instruction :=
  let programAddress := default SOLANS_PROGRAM_ADDRESS programAddress in
  let buyer := fromSigner (Async.buyer input) true in
  let seller := fromAddress (Some (Async.seller input)) true in
  let solTreasury := fromAddress (Some (Async.solTreasury input)) true in
  let config := fromAddress (Async.config input) false in
  let nameRecord := fromAddress (Some (Async.nameRecord input)) true in
  let listing := fromAddress (Some (Async.listing input)) true in
  let systemProgram := fromAddress (Async.systemProgram input) false in
  let args := Async.args input in
  config ← default_value config
      (pda ← findConfigPda None;
       Ok (VPda pda));
  systemProgram ← default_value systemProgram (Ok (VAddress (js "11111111111111111111111111111111")));
  let getAccountMeta := getAccountMetaFactory programAddress (js "programId") in
  buyer ← getAccountMeta (js "buyer") buyer;
  seller ← getAccountMeta (js "seller") seller;
  solTreasury ← getAccountMeta (js "solTreasury") solTreasury;
  config ← getAccountMeta (js "config") config;
  nameRecord ← getAccountMeta (js "nameRecord") nameRecord;
  listing ← getAccountMeta (js "listing") listing;
  systemProgram ← getAccountMeta (js "systemProgram") systemProgram;
  data ← BuyName.getBuyNameInstructionDataEncoder args;
  Ok {| programAddress := programAddress;
        accounts := [buyer; seller; solTreasury; config; nameRecord; listing; systemProgram];
        data := data |}.

Definition getBuyNameInstructionAsync_addresses `{Kit} (input : Async.BuyNameAsyncInput)
    : result JsError (list (option Address)) :=
  config ← or_default (Async.config input)
      (pda ← findConfigPda None;
       Ok pda.1);
  systemProgram ← or_default (Async.systemProgram input) (Ok (js "11111111111111111111111111111111"));
  Ok [Some (signerAddress (Async.buyer input)); given (Some (Async.seller input));
      given (Some (Async.solTreasury input)); Some config;
      given (Some (Async.nameRecord input)); given (Some (Async.listing input));
      Some systemProgram].

Definition getBuyNameInstructionAsync_builder `{KS : KitSpec} `{PS : ProgramClientSpec} : InstructionBuilder.
Proof.
  refine {| kind := SolansInstruction.BuyName; Input := Async.BuyNameAsyncInput;
            args_of := Async.args : Async.BuyNameAsyncInput -> Args (instruction_codec SolansInstruction.BuyName);
            addresses := getBuyNameInstructionAsync_addresses; build := getBuyNameInstructionAsync |}.
  - builder_length getBuyNameInstructionAsync_addresses.
  - builder_refines getBuyNameInstructionAsync getBuyNameInstructionAsync_addresses.
Defined.

Module Sync.
Record BuyNameInput := MkInput {
  buyer : TransactionSigner; seller : Address; solTreasury : Address; config : Address;
  nameRecord : Address; listing : Address; systemProgram : option Address;
  args : BuyName.BuyNameInstructionDataArgs
}.
End Sync.

Definition getBuyNameInstruction `{Kit} `{ProgramClientCore} (input : Sync.BuyNameInput)
    (programAddress : option Address) : result JsError Instruction :=
  let programAddress := default SOLANS_PROGRAM_ADDRESS programAddress in
  let buyer := fromSigner (Sync.buyer input) true in
  let seller := fromAddress (Some (Sync.seller input)) true in
  let solTreasury := fromAddress (Some (Sync.solTreasury input)) true in
  let config := fromAddress (Some (Sync.config input)) false in
  let nameRecord := fromAddress (Some (Sync.nameRecord input)) true in
  let listing := fromAddress (Some (Sync.listing input)) true in
  let systemProgram := fromAddress (Sync.systemProgram input) false in
  let args := Sync.args input in
  systemProgram ← default_value systemProgram (Ok (VAddress (js "11111111111111111111111111111111")));
  let getAccountMeta := getAccountMetaFactory programAddress (js "programId") in
  buyer ← getAccountMeta (js "buyer") buyer;
  seller ← getAccountMeta (js "seller") seller;
  solTreasury ← getAccountMeta (js "solTreasury") solTreasury;
  config ← getAccountMeta (js "config") config;
  nameRecord ← getAccountMeta (js "nameRecord") nameRecord;
  listing ← getAccountMeta (js "listing") listing;
  systemProgram ← getAccountMeta (js "systemProgram") systemProgram;
  data ← BuyName.getBuyNameInstructionDataEncoder args;
  Ok {| programAddress := programAddress;
        accounts := [buyer; seller; solTreasury; config; nameRecord; listing; systemProgram];
        data := data |}.

Definition getBuyNameInstruction_addresses `{Kit} (input : Sync.BuyNameInput)
    : result JsError (list (option Address)) :=
  systemProgram ← or_default (Sync.systemProgram input) (Ok (js "11111111111111111111111111111111"));
  Ok [Some (signerAddress (Sync.buyer input)); given (Some (Sync.seller input));
      given (Some (Sync.solTreasury input)); given (Some (Sync.config input));
      given (Some (Sync.nameRecord input)); given (Some (Sync.listing input));
      Some systemProgram].

Definition getBuyNameInstruction_builder `{KS : KitSpec} `{PS : ProgramClientSpec} : InstructionBuilder.
Proof.
  refine {| kind := SolansInstruction.BuyName; Input := Sync.BuyNameInput;
            args_of := Sync.args : Sync.BuyNameInput -> Args (instruction_codec SolansInstruction.BuyName);
            addresses := getBuyNameInstruction_addresses; build := getBuyNameInstruction |}.
  - builder_length getBuyNameInstruction_addresses.
  - builder_refines getBuyNameInstruction getBuyNameInstruction_addresses.
Defined.

End BuyNameBuilder.

(** ** instructions/makeOffer.ts *)

Module MakeOfferBuilder.

Module Sync.
Record MakeOfferInput := MkInput {
  buyer : TransactionSigner; nameRecord : Address; offer : Address;
  systemProgram : option Address; args : MakeOffer.MakeOfferInstructionDataArgs
}.
End Sync.

Definition getMakeOfferInstruction `{Kit} `{ProgramClientCore} (input : Sync.MakeOfferInput)
    (programAddress : option Address) : result JsError Instruction :=
  let programAddress := default SOLANS_PROGRAM_ADDRESS programAddress in
  let buyer := fromSigner (Sync.buyer input) true in
  let nameRecord := fromAddress (Some (Sync.nameRecord input)) false in
  let offer := fromAddress (Some (Sync.offer input)) true in
  let systemProgram := fromAddress (Sync.systemProgram input) false in
  let args := Sync.args input in
  systemProgram ← default_value systemProgram (Ok (VAddress (js "11111111111111111111111111111111")));
  let getAccountMeta := getAccountMetaFactory programAddress (js "programId") in
  buyer ← getAccountMeta (js "buyer") buyer;
  nameRecord ← getAccountMeta (js "nameRecord") nameRecord;
  offer ← getAccountMeta (js "offer") offer;
  systemProgram ← getAccountMeta (js "systemProgram") systemProgram;
  data ← MakeOffer.getMakeOfferInstructionDataEncoder args;
  Ok {| programAddress := programAddress;
        accounts := [buyer; nameRecord; offer; systemProgram];
        data := data |}.

Definition getMakeOfferInstruction_addresses `{Kit} (input : Sync.MakeOfferInput)
    : result JsError (list (option Address)) :=
  systemProgram ← or_default (Sync.systemProgram input) (Ok (js "11111111111111111111111111111111"));
  Ok [Some (signerAddress (Sync.buyer input)); given (Some (Sync.nameRecord input));
      given (Some (Sync.offer input)); Some systemProgram].

Definition getMakeOfferInstruction_builder `{KS : KitSpec} `{PS : ProgramClientSpec} : InstructionBuilder.
Proof.
  refine {| kind := SolansInstruction.MakeOffer; Input := Sync.MakeOfferInput;
            args_of := Sync.args : Sync.MakeOfferInput -> Args (instruction_codec SolansInstruction.MakeOffer);
            addresses := getMakeOfferInstruction_addresses; build := getMakeOfferInstruction |}.
  - builder_length getMakeOfferInstruction_addresses.
  - builder_refines getMakeOfferInstruction getMakeOfferInstruction_addresses.
Defined.

End MakeOfferBuilder.

(** ** instructions/cancelOffer.ts *)

Module CancelOfferBuilder.

Module Sync.
Record CancelOfferInput := MkInput {
  canceller : TransactionSigner; buyer : Address; nameRecord : option Address; offer : Address
}.
End Sync.

Definition getCancelOfferInstruction `{Kit} `{ProgramClientCore} (input : Sync.CancelOfferInput)
    (programAddress : option Address) : result JsError Instruction :=
  let programAddress := default SOLANS_PROGRAM_ADDRESS programAddress in
  let canceller := fromSigner (Sync.canceller input) false in
  let buyer := fromAddress (Some (Sync.buyer input)) true in
  let nameRecord := fromAddress (Sync.nameRecord input) false in
  let offer := fromAddress (Some (Sync.offer input)) true in
  let getAccountMeta := getAccountMetaFactory programAddress (js "programId") in
  canceller ← getAccountMeta (js "canceller") canceller;
  buyer ← getAccountMeta (js "buyer") buyer;
  nameRecord ← getAccountMeta (js "nameRecord") nameRecord;
  offer ← getAccountMeta (js "offer") offer;
  data ← CancelOffer.getCancelOfferInstructionDataEncoder CancelOffer.MkCancelOfferInstructionDataArgs;
  Ok {| programAddress := programAddress;
        accounts := [canceller; buyer; nameRecord; offer];
        data := data |}.

Definition getCancelOfferInstruction_addresses `{Kit} (input : Sync.CancelOfferInput)
    : result JsError (list (option Address)) :=
  Ok [Some (signerAddress (Sync.canceller input)); given (Some (Sync.buyer input));
      given (Sync.nameRecord input); given (Some (Sync.offer input))].

Definition getCancelOfferInstruction_builder `{KS : KitSpec} `{PS : ProgramClientSpec} : InstructionBuilder.
Proof.
  refine {| kind := SolansInstruction.CancelOffer; Input := Sync.CancelOfferInput;
            args_of := (fun _ => CancelOffer.MkCancelOfferInstructionDataArgs) : Sync.CancelOfferInput -> Args (instruction_codec SolansInstruction.CancelOffer);
            addresses := getCancelOfferInstruction_addresses; build := getCancelOfferInstruction |}.
  - builder_length getCancelOfferInstruction_addresses.
  - builder_refines getCancelOfferInstruction getCancelOfferInstruction_addresses.
Defined.

End CancelOfferBuilder.

(** ** instructions/acceptOffer.ts *)

Module AcceptOfferBuilder.

Module Async.
Record AcceptOfferAsyncInput := MkInput {
  owner : TransactionSigner; buyer : Address; solTreasury : Address; config : option Address;
  nameRecord : Address; offer : Address
}.
End Async.

Definition getAcceptOfferInstructionAsync `{Kit} `{ProgramClientCore} (input : Async.AcceptOfferAsyncInput)
    (programAddress : option Address) : result JsError Instruction :=
  let programAddress := default SOLANS_PROGRAM_ADDRESS programAddress in
  let owner := fromSigner (Async.owner input) false in
  let buyer := fromAddress (Some (Async.buyer input)) true in
  let solTreasury := fromAddress (Some (Async.solTreasury input)) true in
  let config := fromAddress (Async.config input) false in
  let nameRecord := fromAddress (Some (Async.nameRecord input)) true in
  let offer := fromAddress (Some (Async.offer input)) true in
  config ← default_value config
      (pda ← findConfigPda None;
       Ok (VPda pda));
  let getAccountMeta := getAccountMetaFactory programAddress (js "programId") in
  owner ← getAccountMeta (js "owner") owner;
  buyer ← getAccountMeta (js "buyer") buyer;
  solTreasury ← getAccountMeta (js "solTreasury") solTreasury;
  config ← getAccountMeta (js "config") config;
  nameRecord ← getAccountMeta (js "nameRecord") nameRecord;
  offer ← getAccountMeta (js "offer") offer;
  data ← AcceptOffer.getAcceptOfferInstructionDataEncoder AcceptOffer.MkAcceptOfferInstructionDataArgs;
  Ok {| programAddress := programAddress;
        accounts := [owner; buyer; solTreasury; config; nameRecord; offer];
        data := data |}.

Definition getAcceptOfferInstructionAsync_addresses `{Kit} (input : Async.AcceptOfferAsyncInput)
    : result JsError (list (option Address)) :=
  config ← or_default (Async.config input)
      (pda ← findConfigPda None;
       Ok pda.1);
  Ok [Some (signerAddress (Async.owner input)); given (Some (Async.buyer input));
      given (Some (Async.solTreasury input)); Some config;
      given (Some (Async.nameRecord input)); given (Some (Async.offer input))].

Definition getAcceptOfferInstructionAsync_builder `{KS : KitSpec} `{PS : ProgramClientSpec} : InstructionBuilder.
Proof.
  refine {| kind := SolansInstruction.AcceptOffer; Input := Async.AcceptOfferAsyncInput;
            args_of := (fun _ => AcceptOffer.MkAcceptOfferInstructionDataArgs) : Async.AcceptOfferAsyncInput -> Args (instruction_codec SolansInstruction.AcceptOffer);
            addresses := getAcceptOfferInstructionAsync_addresses; build := getAcceptOfferInstructionAsync |}.
  - builder_length getAcceptOfferInstructionAsync_addresses.
  - builder_refines getAcceptOfferInstructionAsync getAcceptOfferInstructionAsync_addresses.
Defined.

Module Sync.
Record AcceptOfferInput := MkInput {
  owner : TransactionSigner; buyer : Address; solTreasury : Address; config : Address;
  nameRecord : Address; offer : Address
}.
End Sync.

Definition getAcceptOfferInstruction `{Kit} `{ProgramClientCore} (input : Sync.AcceptOfferInput)
    (programAddress : option Address) : result JsError Instruction :=
  let programAddress := default SOLANS_PROGRAM_ADDRESS programAddress in
  let owner := fromSigner (Sync.owner input) false in
  let buyer := fromAddress (Some (Sync.buyer input)) true in
  let solTreasury := fromAddress (Some (Sync.solTreasury input)) true in
  let config := fromAddress (Some (Sync.config input)) false in
  let nameRecord := fromAddress (Some (Sync.nameRecord input)) true in
  let offer := fromAddress (Some (Sync.offer input)) true in
  let getAccountMeta := getAccountMetaFactory programAddress (js "programId") in
  owner ← getAccountMeta (js "owner") owner;
  buyer ← getAccountMeta (js "buyer") buyer;
  solTreasury ← getAccountMeta (js "solTreasury") solTreasury;
  config ← getAccountMeta (js "config") config;
  nameRecord ← getAccountMeta (js "nameRecord") nameRecord;
  offer ← getAccountMeta (js "offer") offer;
  data ← AcceptOffer.getAcceptOfferInstructionDataEncoder AcceptOffer.MkAcceptOfferInstructionDataArgs;
  Ok {| programAddress := programAddress;
        accounts := [owner; buyer; solTreasury; config; nameRecord; offer];
        data := data |}.

Definition getAcceptOfferInstruction_addresses `{Kit} (input : Sync.AcceptOfferInput)
    : result JsError (list (option Address)) :=
  Ok [Some (signerAddress (Sync.owner input)); given (Some (Sync.buyer input));
      given (Some (Sync.solTreasury input)); given (Some (Sync.config input));
      given (Some (Sync.nameRecord input)); given (Some (Sync.offer input))].

Definition getAcceptOfferInstruction_builder `{KS : KitSpec} `{PS : ProgramClientSpec} : InstructionBuilder.
Proof.
  refine {| kind := SolansInstruction.AcceptOffer; Input := Sync.AcceptOfferInput;
            args_of := (fun _ => AcceptOffer.MkAcceptOfferInstructionDataArgs) : Sync.AcceptOfferInput -> Args (instruction_codec SolansInstruction.AcceptOffer);
            addresses := getAcceptOfferInstruction_addresses; build := getAcceptOfferInstruction |}.
  - builder_length getAcceptOfferInstruction_addresses.
  - builder_refines getAcceptOfferInstruction getAcceptOfferInstruction_addresses.
Defined.

End AcceptOfferBuilder.

(** ** instructions/startAuction.ts *)

Module StartAuctionBuilder.

Module Async.
Record StartAuctionAsyncInput := MkInput {
  owner : TransactionSigner; config : option Address; nameRecord : Address; auction : Address;
  solansMint : Address; bidVault : option Address; tokenProgram : option Address;
  associatedTokenProgram : option Address; systemProgram : option Address;
  args : StartAuction.StartAuctionInstructionDataArgs
}.
End Async.

Definition getStartAuctionInstructionAsync `{Kit} `{ProgramClientCore} (input : Async.StartAuctionAsyncInput)
    (programAddress : option Address) : result JsError Instruction :=
  let programAddress := default SOLANS_PROGRAM_ADDRESS programAddress in
  let owner := fromSigner (Async.owner input) true in
  let config := fromAddress (Async.config input) false in
  let nameRecord := fromAddress (Some (Async.nameRecord input)) true in
  let auction := fromAddress (Some (Async.auction input)) true in
  let solansMint := fromAddress (Some (Async.solansMint input)) false in
  let bidVault := fromAddress (Async.bidVault input) true in
  let tokenProgram := fromAddress (Async.tokenProgram input) false in
  let associatedTokenProgram := fromAddress (Async.associatedTokenProgram input) false in
  let systemProgram := fromAddress (Async.systemProgram input) false in
  let args := Async.args input in
  config ← default_value config
      (pda ← findConfigPda None;
       Ok (VPda pda));
  tokenProgram ← default_value tokenProgram (Ok (VAddress (js "TokenkegQfeZyiNwAJbNbGKPFXCWuBvf9Ss623VQ5DA")));
  bidVault ← default_value bidVault
      (pda ← (auctionAddress ← getAddressFromResolvedInstructionAccount (js "auction") (value auction);
         seed1 ← getAddressEncoder auctionAddress;
         tokenProgramAddress ← getAddressFromResolvedInstructionAccount (js "tokenProgram") (value tokenProgram);
         seed2 ← getAddressEncoder tokenProgramAddress;
         solansMintAddress ← getAddressFromResolvedInstructionAccount (js "solansMint") (value solansMint);
         seed3 ← getAddressEncoder solansMintAddress;
         getProgramDerivedAddress (js "ATokenGPvbdGVxr1b2hvZbsiqW5xWH25efTNsLJA8knL") [seed1; seed2; seed3]);
       Ok (VPda pda));
  associatedTokenProgram ← default_value associatedTokenProgram (Ok (VAddress (js "ATokenGPvbdGVxr1b2hvZbsiqW5xWH25efTNsLJA8knL")));
  systemProgram ← default_value systemProgram (Ok (VAddress (js "11111111111111111111111111111111")));
  let getAccountMeta := getAccountMetaFactory programAddress (js "programId") in
  owner ← getAccountMeta (js "owner") owner;
  config ← getAccountMeta (js "config") config;
  nameRecord ← getAccountMeta (js "nameRecord") nameRecord;
  auction ← getAccountMeta (js "auction") auction;
  solansMint ← getAccountMeta (js "solansMint") solansMint;
  bidVault ← getAccountMeta (js "bidVault") bidVault;
  tokenProgram ← getAccountMeta (js "tokenProgram") tokenProgram;
  associatedTokenProgram ← getAccountMeta (js "associatedTokenProgram") associatedTokenProgram;
  systemProgram ← getAccountMeta (js "systemProgram") systemProgram;
  data ← StartAuction.getStartAuctionInstructionDataEncoder args;
  Ok {| programAddress := programAddress;
        accounts := [owner; config; nameRecord; auction; solansMint; bidVault; tokenProgram;
          associatedTokenProgram; systemProgram];
        data := data |}.

Definition getStartAuctionInstructionAsync_addresses `{Kit} (input : Async.StartAuctionAsyncInput)
    : result JsError (list (option Address)) :=
  config ← or_default (Async.config input)
      (pda ← findConfigPda None;
       Ok pda.1);
  tokenProgram ← or_default (Async.tokenProgram input) (Ok (js "TokenkegQfeZyiNwAJbNbGKPFXCWuBvf9Ss623VQ5DA"));
  bidVault ← or_default (Async.bidVault input)
      (pda ← (seed1 ← getAddressEncoder (Async.auction input);
         seed2 ← getAddressEncoder tokenProgram;
         seed3 ← getAddressEncoder (Async.solansMint input);
         getProgramDerivedAddress (js "ATokenGPvbdGVxr1b2hvZbsiqW5xWH25efTNsLJA8knL") [seed1; seed2; seed3]);
       Ok pda.1);
  associatedTokenProgram ← or_default (Async.associatedTokenProgram input) (Ok (js "ATokenGPvbdGVxr1b2hvZbsiqW5xWH25efTNsLJA8knL"));
  systemProgram ← or_default (Async.systemProgram input) (Ok (js "11111111111111111111111111111111"));
  Ok [Some (signerAddress (Async.owner input)); Some config;
      given (Some (Async.nameRecord input)); given (Some (Async.auction input));
      given (Some (Async.solansMint input)); Some bidVault; Some tokenProgram;
      Some associatedTokenProgram; Some systemProgram].

Definition getStartAuctionInstructionAsync_builder `{KS : KitSpec} `{PS : ProgramClientSpec} : InstructionBuilder.
Proof.
  refine {| kind := SolansInstruction.StartAuction; Input := Async.StartAuctionAsyncInput;
            args_of := Async.args : Async.StartAuctionAsyncInput -> Args (instruction_codec SolansInstruction.StartAuction);
            addresses := getStartAuctionInstructionAsync_addresses; build := getStartAuctionInstructionAsync |}.
  - builder_length getStartAuctionInstructionAsync_addresses.
  - builder_refines getStartAuctionInstructionAsync getStartAuctionInstructionAsync_addresses.
Defined.

Module Sync.
Record StartAuctionInput := MkInput {
  owner : TransactionSigner; config : Address; nameRecord : Address; auction : Address;
  solansMint : Address; bidVault : Address; tokenProgram : option Address;
  associatedTokenProgram : option Address; systemProgram : option Address;
  args : StartAuction.StartAuctionInstructionDataArgs
}.
End Sync.

Definition getStartAuctionInstruction `{Kit} `{ProgramClientCore} (input : Sync.StartAuctionInput)
    (programAddress : option Address) : result JsError Instruction :=
  let programAddress := default SOLANS_PROGRAM_ADDRESS programAddress in
  let owner := fromSigner (Sync.owner input) true in
  let config := fromAddress (Some (Sync.config input)) false in
  let nameRecord := fromAddress (Some (Sync.nameRecord input)) true in
  let auction := fromAddress (Some (Sync.auction input)) true in
  let solansMint := fromAddress (Some (Sync.solansMint input)) false in
  let bidVault := fromAddress (Some (Sync.bidVault input)) true in
  let tokenProgram := fromAddress (Sync.tokenProgram input) false in
  let associatedTokenProgram := fromAddress (Sync.associatedTokenProgram input) false in
  let systemProgram := fromAddress (Sync.systemProgram input) false in
  let args := Sync.args input in
  tokenProgram ← default_value tokenProgram (Ok (VAddress (js "TokenkegQfeZyiNwAJbNbGKPFXCWuBvf9Ss623VQ5DA")));
  associatedTokenProgram ← default_value associatedTokenProgram (Ok (VAddress (js "ATokenGPvbdGVxr1b2hvZbsiqW5xWH25efTNsLJA8knL")));
  systemProgram ← default_value systemProgram (Ok (VAddress (js "11111111111111111111111111111111")));
  let getAccountMeta := getAccountMetaFactory programAddress (js "programId") in
  owner ← getAccountMeta (js "owner") owner;
  config ← getAccountMeta (js "config") config;
  nameRecord ← getAccountMeta (js "nameRecord") nameRecord;
  auction ← getAccountMeta (js "auction") auction;
  solansMint ← getAccountMeta (js "solansMint") solansMint;
  bidVault ← getAccountMeta (js "bidVault") bidVault;
  tokenProgram ← getAccountMeta (js "tokenProgram") tokenProgram;
  associatedTokenProgram ← getAccountMeta (js "associatedTokenProgram") associatedTokenProgram;
  systemProgram ← getAccountMeta (js "systemProgram") systemProgram;
  data ← StartAuction.getStartAuctionInstructionDataEncoder args;
  Ok {| programAddress := programAddress;
        accounts := [owner; config; nameRecord; auction; solansMint; bidVault; tokenProgram;
          associatedTokenProgram; systemProgram];
        data := data |}.

Definition getStartAuctionInstruction_addresses `{Kit} (input : Sync.StartAuctionInput)
    : result JsError (list (option Address)) :=
  tokenProgram ← or_default (Sync.tokenProgram input) (Ok (js "TokenkegQfeZyiNwAJbNbGKPFXCWuBvf9Ss623VQ5DA"));
  associatedTokenProgram ← or_default (Sync.associatedTokenProgram input) (Ok (js "ATokenGPvbdGVxr1b2hvZbsiqW5xWH25efTNsLJA8knL"));
  systemProgram ← or_default (Sync.systemProgram input) (Ok (js "11111111111111111111111111111111"));
  Ok [Some (signerAddress (Sync.owner input)); given (Some (Sync.config input));
      given (Some (Sync.nameRecord input)); given (Some (Sync.auction input));
      given (Some (Sync.solansMint input)); given (Some (Sync.bidVault input));
      Some tokenProgram; Some associatedTokenProgram; Some systemProgram].

Definition getStartAuctionInstruction_builder `{KS : KitSpec} `{PS : ProgramClientSpec} : InstructionBuilder.
Proof.
  refine {| kind := SolansInstruction.StartAuction; Input := Sync.StartAuctionInput;
            args_of := Sync.args : Sync.StartAuctionInput -> Args (instruction_codec SolansInstruction.StartAuction);
            addresses := getStartAuctionInstruction_addresses; build := getStartAuctionInstruction |}.
  - builder_length getStartAuctionInstruction_addresses.
  - builder_refines getStartAuctionInstruction getStartAuctionInstruction_addresses.
Defined.

End StartAuctionBuilder.

(** ** instructions/bid.ts *)

Module BidBuilder.

Module Sync.
Record BidInput := MkInput {
  bidder : TransactionSigner; auction : Address; bidderSolansAccount : Address;
  prevBidderSolansAccount : option Address; bidVault : Address; solansMint : Address;
  tokenProgram : option Address; args : Bid.BidInstructionDataArgs
}.
End Sync.

Definition getBidInstruction `{Kit} `{ProgramClientCore} (input : Sync.BidInput)
    (programAddress : option Address) : result JsError Instruction :=
  let programAddress := default SOLANS_PROGRAM_ADDRESS programAddress in
  let bidder := fromSigner (Sync.bidder input) true in
  let auction := fromAddress (Some (Sync.auction input)) true in
  let bidderSolansAccount := fromAddress (Some (Sync.bidderSolansAccount input)) true in
  let prevBidderSolansAccount := fromAddress (Sync.prevBidderSolansAccount input) true in
  let bidVault := fromAddress (Some (Sync.bidVault input)) true in
  let solansMint := fromAddress (Some (Sync.solansMint input)) false in
  let tokenProgram := fromAddress (Sync.tokenProgram input) false in
  let args := Sync.args input in
  tokenProgram ← default_value tokenProgram (Ok (VAddress (js "TokenkegQfeZyiNwAJbNbGKPFXCWuBvf9Ss623VQ5DA")));
  let getAccountMeta := getAccountMetaFactory programAddress (js "programId") in
  bidder ← getAccountMeta (js "bidder") bidder;
  auction ← getAccountMeta (js "auction") auction;
  bidderSolansAccount ← getAccountMeta (js "bidderSolansAccount") bidderSolansAccount;
  prevBidderSolansAccount ← getAccountMeta (js "prevBidderSolansAccount") prevBidderSolansAccount;
  bidVault ← getAccountMeta (js "bidVault") bidVault;
  solansMint ← getAccountMeta (js "solansMint") solansMint;
  tokenProgram ← getAccountMeta (js "tokenProgram") tokenProgram;
  data ← Bid.getBidInstructionDataEncoder args;
  Ok {| programAddress := programAddress;
        accounts := [bidder; auction; bidderSolansAccount; prevBidderSolansAccount; bidVault; solansMint;
          tokenProgram];
        data := data |}.

Definition getBidInstruction_addresses `{Kit} (input : Sync.BidInput)
    : result JsError (list (option Address)) :=
  tokenProgram ← or_default (Sync.tokenProgram input) (Ok (js "TokenkegQfeZyiNwAJbNbGKPFXCWuBvf9Ss623VQ5DA"));
  Ok [Some (signerAddress (Sync.bidder input)); given (Some (Sync.auction input));
      given (Some (Sync.bidderSolansAccount input));
      given (Sync.prevBidderSolansAccount input); given (Some (Sync.bidVault input));
      given (Some (Sync.solansMint input)); Some tokenProgram].

Definition getBidInstruction_builder `{KS : KitSpec} `{PS : ProgramClientSpec} : InstructionBuilder.
Proof.
  refine {| kind := SolansInstruction.Bid; Input := Sync.BidInput;
            args_of := Sync.args : Sync.BidInput -> Args (instruction_codec SolansInstruction.Bid);
            addresses := getBidInstruction_addresses; build := getBidInstruction |}.
  - builder_length getBidInstruction_addresses.
  - builder_refines getBidInstruction getBidInstruction_addresses.
Defined.

End BidBuilder.

(** ** instructions/cancelAuction.ts *)

Module CancelAuctionBuilder.

Module Sync.
Record CancelAuctionInput := MkInput {
  seller : TransactionSigner; nameRecord : Address; auction : Address; bidVault : Address;
  tokenProgram : option Address
}.
End Sync.

Definition getCancelAuctionInstruction `{Kit} `{ProgramClientCore} (input : Sync.CancelAuctionInput)
    (programAddress : option Address) : result JsError Instruction :=
  let programAddress := default SOLANS_PROGRAM_ADDRESS programAddress in
  let seller := fromSigner (Sync.seller input) true in
  let nameRecord := fromAddress (Some (Sync.nameRecord input)) true in
  let auction := fromAddress (Some (Sync.auction input)) true in
  let bidVault := fromAddress (Some (Sync.bidVault input)) true in
  let tokenProgram := fromAddress (Sync.tokenProgram input) false in
  tokenProgram ← default_value tokenProgram (Ok (VAddress (js "TokenkegQfeZyiNwAJbNbGKPFXCWuBvf9Ss623VQ5DA")));
  let getAccountMeta := getAccountMetaFactory programAddress (js "programId") in
  seller ← getAccountMeta (js "seller") seller;
  nameRecord ← getAccountMeta (js "nameRecord") nameRecord;
  auction ← getAccountMeta (js "auction") auction;
  bidVault ← getAccountMeta (js "bidVault") bidVault;
  tokenProgram ← getAccountMeta (js "tokenProgram") tokenProgram;
  data ← CancelAuction.getCancelAuctionInstructionDataEncoder CancelAuction.MkCancelAuctionInstructionDataArgs;
  Ok {| programAddress := programAddress;
        accounts := [seller; nameRecord; auction; bidVault; tokenProgram];
        data := data |}.

Definition getCancelAuctionInstruction_addresses `{Kit} (input : Sync.CancelAuctionInput)
    : result JsError (list (option Address)) :=
  tokenProgram ← or_default (Sync.tokenProgram input) (Ok (js "TokenkegQfeZyiNwAJbNbGKPFXCWuBvf9Ss623VQ5DA"));
  Ok [Some (signerAddress (Sync.seller input)); given (Some (Sync.nameRecord input));
      given (Some (Sync.auction input)); given (Some (Sync.bidVault input));
      Some tokenProgram].

Definition getCancelAuctionInstruction_builder `{KS : KitSpec} `{PS : ProgramClientSpec} : InstructionBuilder.
Proof.
  refine {| kind := SolansInstruction.CancelAuction; Input := Sync.CancelAuctionInput;
            args_of := (fun _ => CancelAuction.MkCancelAuctionInstructionDataArgs) : Sync.CancelAuctionInput -> Args (instruction_codec SolansInstruction.CancelAuction);
            addresses := getCancelAuctionInstruction_addresses; build := getCancelAuctionInstruction |}.
  - builder_length getCancelAuctionInstruction_addresses.
  - builder_refines getCancelAuctionInstruction getCancelAuctionInstruction_addresses.
Defined.

End CancelAuctionBuilder.

(** ** instructions/settleAuction.ts *)

Module SettleAuctionBuilder.

Module Async.
Record SettleAuctionAsyncInput := MkInput {
  settler : TransactionSigner; config : option Address; seller : Address;
  sellerSolansAccount : option Address; nameRecord : Address; auction : Address;
  bidVault : Address; solansMint : Address; tokenProgram : option Address
}.
End Async.

Definition getSettleAuctionInstructionAsync `{Kit} `{ProgramClientCore} (input : Async.SettleAuctionAsyncInput)
    (programAddress : option Address) : result JsError Instruction :=
  let programAddress := default SOLANS_PROGRAM_ADDRESS programAddress in
  let settler := fromSigner (Async.settler input) false in
  let config := fromAddress (Async.config input) false in
  let seller := fromAddress (Some (Async.seller input)) true in
  let sellerSolansAccount := fromAddress (Async.sellerSolansAccount input) true in
  let nameRecord := fromAddress (Some (Async.nameRecord input)) true in
  let auction := fromAddress (Some (Async.auction input)) true in
  let bidVault := fromAddress (Some (Async.bidVault input)) true in
  let solansMint := fromAddress (Some (Async.solansMint input)) true in
  let tokenProgram := fromAddress (Async.tokenProgram input) false in
  config ← default_value config
      (pda ← findConfigPda None;
       Ok (VPda pda));
  tokenProgram ← default_value tokenProgram (Ok (VAddress (js "TokenkegQfeZyiNwAJbNbGKPFXCWuBvf9Ss623VQ5DA")));
  let getAccountMeta := getAccountMetaFactory programAddress (js "programId") in
  settler ← getAccountMeta (js "settler") settler;
  config ← getAccountMeta (js "config") config;
  seller ← getAccountMeta (js "seller") seller;
  sellerSolansAccount ← getAccountMeta (js "sellerSolansAccount") sellerSolansAccount;
  nameRecord ← getAccountMeta (js "nameRecord") nameRecord;
  auction ← getAccountMeta (js "auction") auction;
  bidVault ← getAccountMeta (js "bidVault") bidVault;
  solansMint ← getAccountMeta (js "solansMint") solansMint;
  tokenProgram ← getAccountMeta (js "tokenProgram") tokenProgram;
  data ← SettleAuction.getSettleAuctionInstructionDataEncoder SettleAuction.MkSettleAuctionInstructionDataArgs;
  Ok {| programAddress := programAddress;
        accounts := [settler; config; seller; sellerSolansAccount; nameRecord; auction; bidVault;
          solansMint; tokenProgram];
        data := data |}.

Definition getSettleAuctionInstructionAsync_addresses `{Kit} (input : Async.SettleAuctionAsyncInput)
    : result JsError (list (option Address)) :=
  config ← or_default (Async.config input)
      (pda ← findConfigPda None;
       Ok pda.1);
  tokenProgram ← or_default (Async.tokenProgram input) (Ok (js "TokenkegQfeZyiNwAJbNbGKPFXCWuBvf9Ss623VQ5DA"));
  Ok [Some (signerAddress (Async.settler input)); Some config;
      given (Some (Async.seller input)); given (Async.sellerSolansAccount input);
      given (Some (Async.nameRecord input)); given (Some (Async.auction input));
      given (Some (Async.bidVault input)); given (Some (Async.solansMint input));
      Some tokenProgram].

Definition getSettleAuctionInstructionAsync_builder `{KS : KitSpec} `{PS : ProgramClientSpec} : InstructionBuilder.
Proof.
  refine {| kind := SolansInstruction.SettleAuction; Input := Async.SettleAuctionAsyncInput;
            args_of := (fun _ => SettleAuction.MkSettleAuctionInstructionDataArgs) : Async.SettleAuctionAsyncInput -> Args (instruction_codec SolansInstruction.SettleAuction);
            addresses := getSettleAuctionInstructionAsync_addresses; build := getSettleAuctionInstructionAsync |}.
  - builder_length getSettleAuctionInstructionAsync_addresses.
  - builder_refines getSettleAuctionInstructionAsync getSettleAuctionInstructionAsync_addresses.
Defined.

Module Sync.
Record SettleAuctionInput := MkInput {
  settler : TransactionSigner; config : Address; seller : Address;
  sellerSolansAccount : option Address; nameRecord : Address; auction : Address;
  bidVault : Address; solansMint : Address; tokenProgram : option Address
}.
End Sync.

Definition getSettleAuctionInstruction `{Kit} `{ProgramClientCore} (input : Sync.SettleAuctionInput)
    (programAddress : option Address) : result JsError Instruction :=
  let programAddress := default SOLANS_PROGRAM_ADDRESS programAddress in
  let settler := fromSigner (Sync.settler input) false in
  let config := fromAddress (Some (Sync.config input)) false in
  let seller := fromAddress (Some (Sync.seller input)) true in
  let sellerSolansAccount := fromAddress (Sync.sellerSolansAccount input) true in
  let nameRecord := fromAddress (Some (Sync.nameRecord input)) true in
  let auction := fromAddress (Some (Sync.auction input)) true in
  let bidVault := fromAddress (Some (Sync.bidVault input)) true in
  let solansMint := fromAddress (Some (Sync.solansMint input)) true in
  let tokenProgram := fromAddress (Sync.tokenProgram input) false in
  tokenProgram ← default_value tokenProgram (Ok (VAddress (js "TokenkegQfeZyiNwAJbNbGKPFXCWuBvf9Ss623VQ5DA")));
  let getAccountMeta := getAccountMetaFactory programAddress (js "programId") in
  settler ← getAccountMeta (js "settler") settler;
  config ← getAccountMeta (js "config") config;
  seller ← getAccountMeta (js "seller") seller;
  sellerSolansAccount ← getAccountMeta (js "sellerSolansAccount") sellerSolansAccount;
  nameRecord ← getAccountMeta (js "nameRecord") nameRecord;
  auction ← getAccountMeta (js "auction") auction;
  bidVault ← getAccountMeta (js "bidVault") bidVault;
  solansMint ← getAccountMeta (js "solansMint") solansMint;
  tokenProgram ← getAccountMeta (js "tokenProgram") tokenProgram;
  data ← SettleAuction.getSettleAuctionInstructionDataEncoder SettleAuction.MkSettleAuctionInstructionDataArgs;
  Ok {| programAddress := programAddress;
        accounts := [settler; config; seller; sellerSolansAccount; nameRecord; auction; bidVault;
          solansMint; tokenProgram];
        data := data |}.

Definition getSettleAuctionInstruction_addresses `{Kit} (input : Sync.SettleAuctionInput)
    : result JsError (list (option Address)) :=
  tokenProgram ← or_default (Sync.tokenProgram input) (Ok (js "TokenkegQfeZyiNwAJbNbGKPFXCWuBvf9Ss623VQ5DA"));
  Ok [Some (signerAddress (Sync.settler input)); given (Some (Sync.config input));
      given (Some (Sync.seller input)); given (Sync.sellerSolansAccount input);
      given (Some (Sync.nameRecord input)); given (Some (Sync.auction input));
      given (Some (Sync.bidVault input)); given (Some (Sync.solansMint input));
      Some tokenProgram].

Definition getSettleAuctionInstruction_builder `{KS : KitSpec} `{PS : ProgramClientSpec} : InstructionBuilder.
Proof.
  refine {| kind := SolansInstruction.SettleAuction; Input := Sync.SettleAuctionInput;
            args_of := (fun _ => SettleAuction.MkSettleAuctionInstructionDataArgs) : Sync.SettleAuctionInput -> Args (instruction_codec SolansInstruction.SettleAuction);
            addresses := getSettleAuctionInstruction_addresses; build := getSettleAuctionInstruction |}.
  - builder_length getSettleAuctionInstruction_addresses.
  - builder_refines getSettleAuctionInstruction getSettleAuctionInstruction_addresses.
Defined.

End SettleAuctionBuilder.
