(* ===== verification/TokenBuilders.v ===== *)
(** * Builders of the instructions for the configuration and the $SOLANS token: payment, buyback and staking

    For each file of src/clients/ts/src/generated/instructions: the input objects,
    the builders ([get...Instruction] and, where accounts are derived,
    [get...InstructionAsync]), the addresses a call must use, and the proof that
    the builder meets [InstructionBuilder]. *)
From S2P Require Import Prelude JsString Kit Pdas Instruction TokenInstructions Program ProgramAccounts.
From S2P Require Import ProgramClient.

(** ** instructions/initConfig.ts *)

Module InitConfigBuilder.

Module Async.
Record InitConfigAsyncInput := MkInput {
  admin : TransactionSigner; config : option Address; paymentMint : Address;
  treasuryTokenAccount : Address; stakingVault : Address; burnVault : Address;
  tokenProgram : option Address; systemProgram : option Address;
  args : InitConfig.InitConfigInstructionDataArgs
}.
End Async.

Definition getInitConfigInstructionAsync `{Kit} `{ProgramClientCore} (input : Async.InitConfigAsyncInput)
    (programAddress : option Address) : result JsError Instruction :=
  let programAddress := default SOLANS_PROGRAM_ADDRESS programAddress in
  let admin := fromSigner (Async.admin input) true in
  let config := fromAddress (Async.config input) true in
  let paymentMint := fromAddress (Some (Async.paymentMint input)) false in
  let treasuryTokenAccount := fromAddress (Some (Async.treasuryTokenAccount input)) false in
  let stakingVault := fromAddress (Some (Async.stakingVault input)) false in
  let burnVault := fromAddress (Some (Async.burnVault input)) false in
  let tokenProgram := fromAddress (Async.tokenProgram input) false in
  let systemProgram := fromAddress (Async.systemProgram input) false in
  let args := Async.args input in
  config ← default_value config
      (pda ← findConfigPda None;
       Ok (VPda pda));
  tokenProgram ← default_value tokenProgram (Ok (VAddress (js "TokenkegQfeZyiNwAJbNbGKPFXCWuBvf9Ss623VQ5DA")));
  systemProgram ← default_value systemProgram (Ok (VAddress (js "11111111111111111111111111111111")));
  let getAccountMeta := getAccountMetaFactory programAddress (js "programId") in
  admin ← getAccountMeta (js "admin") admin;
  config ← getAccountMeta (js "config") config;
  paymentMint ← getAccountMeta (js "paymentMint") paymentMint;
  treasuryTokenAccount ← getAccountMeta (js "treasuryTokenAccount") treasuryTokenAccount;
  stakingVault ← getAccountMeta (js "stakingVault") stakingVault;
  burnVault ← getAccountMeta (js "burnVault") burnVault;
  tokenProgram ← getAccountMeta (js "tokenProgram") tokenProgram;
  systemProgram ← getAccountMeta (js "systemProgram") systemProgram;
  data ← InitConfig.getInitConfigInstructionDataEncoder args;
  Ok {| programAddress := programAddress;
        accounts := [admin; config; paymentMint; treasuryTokenAccount; stakingVault; burnVault;
          tokenProgram; systemProgram];
        data := data |}.

Definition getInitConfigInstructionAsync_addresses `{Kit} (input : Async.InitConfigAsyncInput)
    : result JsError (list (option Address)) :=
  config ← or_default (Async.config input)
      (pda ← findConfigPda None;
       Ok pda.1);
  tokenProgram ← or_default (Async.tokenProgram input) (Ok (js "TokenkegQfeZyiNwAJbNbGKPFXCWuBvf9Ss623VQ5DA"));
  systemProgram ← or_default (Async.systemProgram input) (Ok (js "11111111111111111111111111111111"));
  Ok [Some (signerAddress (Async.admin input)); Some config;
      given (Some (Async.paymentMint input));
      given (Some (Async.treasuryTokenAccount input));
      given (Some (Async.stakingVault input)); given (Some (Async.burnVault input));
      Some tokenProgram; Some systemProgram].

Definition getInitConfigInstructionAsync_builder `{KS : KitSpec} `{PS : ProgramClientSpec} : InstructionBuilder.
Proof.
  refine {| kind := SolansInstruction.InitConfig; Input := Async.InitConfigAsyncInput;
            args_of := Async.args : Async.InitConfigAsyncInput -> Args (instruction_codec SolansInstruction.InitConfig);
            addresses := getInitConfigInstructionAsync_addresses; build := getInitConfigInstructionAsync |}.
  - builder_length getInitConfigInstructionAsync_addresses.
  - builder_refines getInitConfigInstructionAsync getInitConfigInstructionAsync_addresses.
Defined.

Module Sync.
Record InitConfigInput := MkInput {
  admin : TransactionSigner; config : Address; paymentMint : Address;
  treasuryTokenAccount : Address; stakingVault : Address; burnVault : Address;
  tokenProgram : option Address; systemProgram : option Address;
  args : InitConfig.InitConfigInstructionDataArgs
}.
End Sync.

Definition getInitConfigInstruction `{Kit} `{ProgramClientCore} (input : Sync.InitConfigInput)
    (programAddress : option Address) : result JsError Instruction :=
  let programAddress := default SOLANS_PROGRAM_ADDRESS programAddress in
  let admin := fromSigner (Sync.admin input) true in
  let config := fromAddress (Some (Sync.config input)) true in
  let paymentMint := fromAddress (Some (Sync.paymentMint input)) false in
  let treasuryTokenAccount := fromAddress (Some (Sync.treasuryTokenAccount input)) false in
  let stakingVault := fromAddress (Some (Sync.stakingVault input)) false in
  let burnVault := fromAddress (Some (Sync.burnVault input)) false in
  let tokenProgram := fromAddress (Sync.tokenProgram input) false in
  let systemProgram := fromAddress (Sync.systemProgram input) false in
  let args := Sync.args input in
  tokenProgram ← default_value tokenProgram (Ok (VAddress (js "TokenkegQfeZyiNwAJbNbGKPFXCWuBvf9Ss623VQ5DA")));
  systemProgram ← default_value systemProgram (Ok (VAddress (js "11111111111111111111111111111111")));
  let getAccountMeta := getAccountMetaFactory programAddress (js "programId") in
  admin ← getAccountMeta (js "admin") admin;
  config ← getAccountMeta (js "config") config;
  paymentMint ← getAccountMeta (js "paymentMint") paymentMint;
  treasuryTokenAccount ← getAccountMeta (js "treasuryTokenAccount") treasuryTokenAccount;
  stakingVault ← getAccountMeta (js "stakingVault") stakingVault;
  burnVault ← getAccountMeta (js "burnVault") burnVault;
  tokenProgram ← getAccountMeta (js "tokenProgram") tokenProgram;
  systemProgram ← getAccountMeta (js "systemProgram") systemProgram;
  data ← InitConfig.getInitConfigInstructionDataEncoder args;
  Ok {| programAddress := programAddress;
        accounts := [admin; config; paymentMint; treasuryTokenAccount; stakingVault; burnVault;
          tokenProgram; systemProgram];
        data := data |}.

Definition getInitConfigInstruction_addresses `{Kit} (input : Sync.InitConfigInput)
    : result JsError (list (option Address)) :=
  tokenProgram ← or_default (Sync.tokenProgram input) (Ok (js "TokenkegQfeZyiNwAJbNbGKPFXCWuBvf9Ss623VQ5DA"));
  systemProgram ← or_default (Sync.systemProgram input) (Ok (js "11111111111111111111111111111111"));
  Ok [Some (signerAddress (Sync.admin input)); given (Some (Sync.config input));
      given (Some (Sync.paymentMint input));
      given (Some (Sync.treasuryTokenAccount input));
      given (Some (Sync.stakingVault input)); given (Some (Sync.burnVault input));
      Some tokenProgram; Some systemProgram].

Definition getInitConfigInstruction_builder `{KS : KitSpec} `{PS : ProgramClientSpec} : InstructionBuilder.
Proof.
  refine {| kind := SolansInstruction.InitConfig; Input := Sync.InitConfigInput;
            args_of := Sync.args : Sync.InitConfigInput -> Args (instruction_codec SolansInstruction.InitConfig);
            addresses := getInitConfigInstruction_addresses; build := getInitConfigInstruction |}.
  - builder_length getInitConfigInstruction_addresses.
  - builder_refines getInitConfigInstruction getInitConfigInstruction_addresses.
Defined.

End InitConfigBuilder.

(** ** instructions/updateConfig.ts *)

Module UpdateConfigBuilder.

Module Async.
Record UpdateConfigAsyncInput := MkInput {
  admin : TransactionSigner; config : option Address;
  args : UpdateConfig.UpdateConfigInstructionDataArgs
}.
End Async.

Definition getUpdateConfigInstructionAsync `{Kit} `{ProgramClientCore} (input : Async.UpdateConfigAsyncInput)
    (programAddress : option Address) : result JsError Instruction :=
  let programAddress := default SOLANS_PROGRAM_ADDRESS programAddress in
  let admin := fromSigner (Async.admin input) false in
  let config := fromAddress (Async.config input) true in
  let args := Async.args input in
  config ← default_value config
      (pda ← findConfigPda None;
       Ok (VPda pda));
  let getAccountMeta := getAccountMetaFactory programAddress (js "programId") in
  admin ← getAccountMeta (js "admin") admin;
  config ← getAccountMeta (js "config") config;
  data ← UpdateConfig.getUpdateConfigInstructionDataEncoder args;
  Ok {| programAddress := programAddress;
        accounts := [admin; config];
        data := data |}.

Definition getUpdateConfigInstructionAsync_addresses `{Kit} (input : Async.UpdateConfigAsyncInput)
    : result JsError (list (option Address)) :=
  config ← or_default (Async.config input)
      (pda ← findConfigPda None;
       Ok pda.1);
  Ok [Some (signerAddress (Async.admin input)); Some config].

Definition getUpdateConfigInstructionAsync_builder `{KS : KitSpec} `{PS : ProgramClientSpec} : InstructionBuilder.
Proof.
  refine {| kind := SolansInstruction.UpdateConfig; Input := Async.UpdateConfigAsyncInput;
            args_of := Async.args : Async.UpdateConfigAsyncInput -> Args (instruction_codec SolansInstruction.UpdateConfig);
            addresses := getUpdateConfigInstructionAsync_addresses; build := getUpdateConfigInstructionAsync |}.
  - builder_length getUpdateConfigInstructionAsync_addresses.
  - builder_refines getUpdateConfigInstructionAsync getUpdateConfigInstructionAsync_addresses.
Defined.

Module Sync.
Record UpdateConfigInput := MkInput {
  admin : TransactionSigner; config : Address; args : UpdateConfig.UpdateConfigInstructionDataArgs
}.
End Sync.

Definition getUpdateConfigInstruction `{Kit} `{ProgramClientCore} (input : Sync.UpdateConfigInput)
    (programAddress : option Address) : result JsError Instruction :=
  let programAddress := default SOLANS_PROGRAM_ADDRESS programAddress in
  let admin := fromSigner (Sync.admin input) false in
  let config := fromAddress (Some (Sync.config input)) true in
  let args := Sync.args input in
  let getAccountMeta := getAccountMetaFactory programAddress (js "programId") in
  admin ← getAccountMeta (js "admin") admin;
  config ← getAccountMeta (js "config") config;
  data ← UpdateConfig.getUpdateConfigInstructionDataEncoder args;
  Ok {| programAddress := programAddress;
        accounts := [admin; config];
        data := data |}.

Definition getUpdateConfigInstruction_addresses `{Kit} (input : Sync.UpdateConfigInput)
    : result JsError (list (option Address)) :=
  Ok [Some (signerAddress (Sync.admin input)); given (Some (Sync.config input))].

Definition getUpdateConfigInstruction_builder `{KS : KitSpec} `{PS : ProgramClientSpec} : InstructionBuilder.
Proof.
  refine {| kind := SolansInstruction.UpdateConfig; Input := Sync.UpdateConfigInput;
            args_of := Sync.args : Sync.UpdateConfigInput -> Args (instruction_codec SolansInstruction.UpdateConfig);
            addresses := getUpdateConfigInstruction_addresses; build := getUpdateConfigInstruction |}.
  - builder_length getUpdateConfigInstruction_addresses.
  - builder_refines getUpdateConfigInstruction getUpdateConfigInstruction_addresses.
Defined.

End UpdateConfigBuilder.

(** ** instructions/transferAdmin.ts *)

Module TransferAdminBuilder.

Module Async.
Record TransferAdminAsyncInput := MkInput {
  admin : TransactionSigner; config : option Address;
  args : TransferAdmin.TransferAdminInstructionDataArgs
}.
End Async.

Definition getTransferAdminInstructionAsync `{Kit} `{ProgramClientCore} (input : Async.TransferAdminAsyncInput)
    (programAddress : option Address) : result JsError Instruction :=
  let programAddress := default SOLANS_PROGRAM_ADDRESS programAddress in
  let admin := fromSigner (Async.admin input) false in
  let config := fromAddress (Async.config input) true in
  let args := Async.args input in
  config ← default_value config
      (pda ← findConfigPda None;
       Ok (VPda pda));
  let getAccountMeta := getAccountMetaFactory programAddress (js "programId") in
  admin ← getAccountMeta (js "admin") admin;
  config ← getAccountMeta (js "config") config;
  data ← TransferAdmin.getTransferAdminInstructionDataEncoder args;
  Ok {| programAddress := programAddress;
        accounts := [admin; config];
        data := data |}.

Definition getTransferAdminInstructionAsync_addresses `{Kit} (input : Async.TransferAdminAsyncInput)
    : result JsError (list (option Address)) :=
  config ← or_default (Async.config input)
      (pda ← findConfigPda None;
       Ok pda.1);
  Ok [Some (signerAddress (Async.admin input)); Some config].

Definition getTransferAdminInstructionAsync_builder `{KS : KitSpec} `{PS : ProgramClientSpec} : InstructionBuilder.
Proof.
  refine {| kind := SolansInstruction.TransferAdmin; Input := Async.TransferAdminAsyncInput;
            args_of := Async.args : Async.TransferAdminAsyncInput -> Args (instruction_codec SolansInstruction.TransferAdmin);
            addresses := getTransferAdminInstructionAsync_addresses; build := getTransferAdminInstructionAsync |}.
  - builder_length getTransferAdminInstructionAsync_addresses.
  - builder_refines getTransferAdminInstructionAsync getTransferAdminInstructionAsync_addresses.
Defined.

Module Sync.
Record TransferAdminInput := MkInput {
  admin : TransactionSigner; config : Address;
  args : TransferAdmin.TransferAdminInstructionDataArgs
}.
End Sync.

Definition getTransferAdminInstruction `{Kit} `{ProgramClientCore} (input : Sync.TransferAdminInput)
    (programAddress : option Address) : result JsError Instruction :=
  let programAddress := default SOLANS_PROGRAM_ADDRESS programAddress in
  let admin := fromSigner (Sync.admin input) false in
  let config := fromAddress (Some (Sync.config input)) true in
  let args := Sync.args input in
  let getAccountMeta := getAccountMetaFactory programAddress (js "programId") in
  admin ← getAccountMeta (js "admin") admin;
  config ← getAccountMeta (js "config") config;
  data ← TransferAdmin.getTransferAdminInstructionDataEncoder args;
  Ok {| programAddress := programAddress;
        accounts := [admin; config];
        data := data |}.

Definition getTransferAdminInstruction_addresses `{Kit} (input : Sync.TransferAdminInput)
    : result JsError (list (option Address)) :=
  Ok [Some (signerAddress (Sync.admin input)); given (Some (Sync.config input))].

Definition getTransferAdminInstruction_builder `{KS : KitSpec} `{PS : ProgramClientSpec} : InstructionBuilder.
Proof.
  refine {| kind := SolansInstruction.TransferAdmin; Input := Sync.TransferAdminInput;
            args_of := Sync.args : Sync.TransferAdminInput -> Args (instruction_codec SolansInstruction.TransferAdmin);
            addresses := getTransferAdminInstruction_addresses; build := getTransferAdminInstruction |}.
  - builder_length getTransferAdminInstruction_addresses.
  - builder_refines getTransferAdminInstruction getTransferAdminInstruction_addresses.
Defined.

End TransferAdminBuilder.

(** ** instructions/initBurnPool.ts *)

Module InitBurnPoolBuilder.

Module Async.
Record InitBurnPoolAsyncInput := MkInput {
  admin : TransactionSigner; config : option Address; solansMint : Address; paymentMint : Address;
  burnVault : option Address; tokenProgram : option Address;
  associatedTokenProgram : option Address; systemProgram : option Address
}.
End Async.

Definition getInitBurnPoolInstructionAsync `{Kit} `{ProgramClientCore} (input : Async.InitBurnPoolAsyncInput)
    (programAddress : option Address) : result JsError Instruction :=
  let programAddress := default SOLANS_PROGRAM_ADDRESS programAddress in
  let admin := fromSigner (Async.admin input) true in
  let config := fromAddress (Async.config input) true in
  let solansMint := fromAddress (Some (Async.solansMint input)) false in
  let paymentMint := fromAddress (Some (Async.paymentMint input)) false in
  let burnVault := fromAddress (Async.burnVault input) true in
  let tokenProgram := fromAddress (Async.tokenProgram input) false in
  let associatedTokenProgram := fromAddress (Async.associatedTokenProgram input) false in
  let systemProgram := fromAddress (Async.systemProgram input) false in
  config ← default_value config
      (pda ← findConfigPda None;
       Ok (VPda pda));
  tokenProgram ← default_value tokenProgram (Ok (VAddress (js "TokenkegQfeZyiNwAJbNbGKPFXCWuBvf9Ss623VQ5DA")));
  burnVault ← default_value burnVault
      (pda ← (configAddress ← getAddressFromResolvedInstructionAccount (js "config") (value config);
         seed1 ← getAddressEncoder configAddress;
         tokenProgramAddress ← getAddressFromResolvedInstructionAccount (js "tokenProgram") (value tokenProgram);
         seed2 ← getAddressEncoder tokenProgramAddress;
         paymentMintAddress ← getAddressFromResolvedInstructionAccount (js "paymentMint") (value paymentMint);
         seed3 ← getAddressEncoder paymentMintAddress;
         getProgramDerivedAddress (js "ATokenGPvbdGVxr1b2hvZbsiqW5xWH25efTNsLJA8knL") [seed1; seed2; seed3]);
       Ok (VPda pda));
  associatedTokenProgram ← default_value associatedTokenProgram (Ok (VAddress (js "ATokenGPvbdGVxr1b2hvZbsiqW5xWH25efTNsLJA8knL")));
  systemProgram ← default_value systemProgram (Ok (VAddress (js "11111111111111111111111111111111")));
  let getAccountMeta := getAccountMetaFactory programAddress (js "programId") in
  admin ← getAccountMeta (js "admin") admin;
  config ← getAccountMeta (js "config") config;
  solansMint ← getAccountMeta (js "solansMint") solansMint;
  paymentMint ← getAccountMeta (js "paymentMint") paymentMint;
  burnVault ← getAccountMeta (js "burnVault") burnVault;
  tokenProgram ← getAccountMeta (js "tokenProgram") tokenProgram;
  associatedTokenProgram ← getAccountMeta (js "associatedTokenProgram") associatedTokenProgram;
  systemProgram ← getAccountMeta (js "systemProgram") systemProgram;
  data ← InitBurnPool.getInitBurnPoolInstructionDataEncoder InitBurnPool.MkInitBurnPoolInstructionDataArgs;
  Ok {| programAddress := programAddress;
        accounts := [admin; config; solansMint; paymentMint; burnVault; tokenProgram;
          associatedTokenProgram; systemProgram];
        data := data |}.

Definition getInitBurnPoolInstructionAsync_addresses `{Kit} (input : Async.InitBurnPoolAsyncInput)
    : result JsError (list (option Address)) :=
  config ← or_default (Async.config input)
      (pda ← findConfigPda None;
       Ok pda.1);
  tokenProgram ← or_default (Async.tokenProgram input) (Ok (js "TokenkegQfeZyiNwAJbNbGKPFXCWuBvf9Ss623VQ5DA"));
  burnVault ← or_default (Async.burnVault input)
      (pda ← (seed1 ← getAddressEncoder config;
         seed2 ← getAddressEncoder tokenProgram;
         seed3 ← getAddressEncoder (Async.paymentMint input);
         getProgramDerivedAddress (js "ATokenGPvbdGVxr1b2hvZbsiqW5xWH25efTNsLJA8knL") [seed1; seed2; seed3]);
       Ok pda.1);
  associatedTokenProgram ← or_default (Async.associatedTokenProgram input) (Ok (js "ATokenGPvbdGVxr1b2hvZbsiqW5xWH25efTNsLJA8knL"));
  systemProgram ← or_default (Async.systemProgram input) (Ok (js "11111111111111111111111111111111"));
  Ok [Some (signerAddress (Async.admin input)); Some config;
      given (Some (Async.solansMint input)); given (Some (Async.paymentMint input));
      Some burnVault; Some tokenProgram; Some associatedTokenProgram; Some systemProgram].

Definition getInitBurnPoolInstructionAsync_builder `{KS : KitSpec} `{PS : ProgramClientSpec} : InstructionBuilder.
Proof.
  refine {| kind := SolansInstruction.InitBurnPool; Input := Async.InitBurnPoolAsyncInput;
            args_of := (fun _ => InitBurnPool.MkInitBurnPoolInstructionDataArgs) : Async.InitBurnPoolAsyncInput -> Args (instruction_codec SolansInstruction.InitBurnPool);
            addresses := getInitBurnPoolInstructionAsync_addresses; build := getInitBurnPoolInstructionAsync |}.
  - builder_length getInitBurnPoolInstructionAsync_addresses.
  - builder_refines getInitBurnPoolInstructionAsync getInitBurnPoolInstructionAsync_addresses.
Defined.

Module Sync.
Record InitBurnPoolInput := MkInput {
  admin : TransactionSigner; config : Address; solansMint : Address; paymentMint : Address;
  burnVault : Address; tokenProgram : option Address; associatedTokenProgram : option Address;
  systemProgram : option Address
}.
End Sync.

Definition getInitBurnPoolInstruction `{Kit} `{ProgramClientCore} (input : Sync.InitBurnPoolInput)
    (programAddress : option Address) : result JsError Instruction :=
  let programAddress := default SOLANS_PROGRAM_ADDRESS programAddress in
  let admin := fromSigner (Sync.admin input) true in
  let config := fromAddress (Some (Sync.config input)) true in
  let solansMint := fromAddress (Some (Sync.solansMint input)) false in
  let paymentMint := fromAddress (Some (Sync.paymentMint input)) false in
  let burnVault := fromAddress (Some (Sync.burnVault input)) true in
  let tokenProgram := fromAddress (Sync.tokenProgram input) false in
  let associatedTokenProgram := fromAddress (Sync.associatedTokenProgram input) false in
  let systemProgram := fromAddress (Sync.systemProgram input) false in
  tokenProgram ← default_value tokenProgram (Ok (VAddress (js "TokenkegQfeZyiNwAJbNbGKPFXCWuBvf9Ss623VQ5DA")));
  associatedTokenProgram ← default_value associatedTokenProgram (Ok (VAddress (js "ATokenGPvbdGVxr1b2hvZbsiqW5xWH25efTNsLJA8knL")));
  systemProgram ← default_value systemProgram (Ok (VAddress (js "11111111111111111111111111111111")));
  let getAccountMeta := getAccountMetaFactory programAddress (js "programId") in
  admin ← getAccountMeta (js "admin") admin;
  config ← getAccountMeta (js "config") config;
  solansMint ← getAccountMeta (js "solansMint") solansMint;
  paymentMint ← getAccountMeta (js "paymentMint") paymentMint;
  burnVault ← getAccountMeta (js "burnVault") burnVault;
  tokenProgram ← getAccountMeta (js "tokenProgram") tokenProgram;
  associatedTokenProgram ← getAccountMeta (js "associatedTokenProgram") associatedTokenProgram;
  systemProgram ← getAccountMeta (js "systemProgram") systemProgram;
  data ← InitBurnPool.getInitBurnPoolInstructionDataEncoder InitBurnPool.MkInitBurnPoolInstructionDataArgs;
  Ok {| programAddress := programAddress;
        accounts := [admin; config; solansMint; paymentMint; burnVault; tokenProgram;
          associatedTokenProgram; systemProgram];
        data := data |}.

Definition getInitBurnPoolInstruction_addresses `{Kit} (input : Sync.InitBurnPoolInput)
    : result JsError (list (option Address)) :=
  tokenProgram ← or_default (Sync.tokenProgram input) (Ok (js "TokenkegQfeZyiNwAJbNbGKPFXCWuBvf9Ss623VQ5DA"));
  associatedTokenProgram ← or_default (Sync.associatedTokenProgram input) (Ok (js "ATokenGPvbdGVxr1b2hvZbsiqW5xWH25efTNsLJA8knL"));
  systemProgram ← or_default (Sync.systemProgram input) (Ok (js "11111111111111111111111111111111"));
  Ok [Some (signerAddress (Sync.admin input)); given (Some (Sync.config input));
      given (Some (Sync.solansMint input)); given (Some (Sync.paymentMint input));
      given (Some (Sync.burnVault input)); Some tokenProgram; Some associatedTokenProgram;
      Some systemProgram].

Definition getInitBurnPoolInstruction_builder `{KS : KitSpec} `{PS : ProgramClientSpec} : InstructionBuilder.
Proof.
  refine {| kind := SolansInstruction.InitBurnPool; Input := Sync.InitBurnPoolInput;
            args_of := (fun _ => InitBurnPool.MkInitBurnPoolInstructionDataArgs) : Sync.InitBurnPoolInput -> Args (instruction_codec SolansInstruction.InitBurnPool);
            addresses := getInitBurnPoolInstruction_addresses; build := getInitBurnPoolInstruction |}.
  - builder_length getInitBurnPoolInstruction_addresses.
  - builder_refines getInitBurnPoolInstruction getInitBurnPoolInstruction_addresses.
Defined.

End InitBurnPoolBuilder.

(** ** instructions/setSolansParams.ts *)

Module SetSolansParamsBuilder.

Module Async.
Record SetSolansParamsAsyncInput := MkInput {
  admin : TransactionSigner; config : option Address;
  args : SetSolansParams.SetSolansParamsInstructionDataArgs
}.
End Async.

Definition getSetSolansParamsInstructionAsync `{Kit} `{ProgramClientCore} (input : Async.SetSolansParamsAsyncInput)
    (programAddress : option Address) : result JsError Instruction :=
  let programAddress := default SOLANS_PROGRAM_ADDRESS programAddress in
  let admin := fromSigner (Async.admin input) false in
  let config := fromAddress (Async.config input) true in
  let args := Async.args input in
  config ← default_value config
      (pda ← findConfigPda None;
       Ok (VPda pda));
  let getAccountMeta := getAccountMetaFactory programAddress (js "programId") in
  admin ← getAccountMeta (js "admin") admin;
  config ← getAccountMeta (js "config") config;
  data ← SetSolansParams.getSetSolansParamsInstructionDataEncoder args;
  Ok {| programAddress := programAddress;
        accounts := [admin; config];
        data := data |}.

Definition getSetSolansParamsInstructionAsync_addresses `{Kit} (input : Async.SetSolansParamsAsyncInput)
    : result JsError (list (option Address)) :=
  config ← or_default (Async.config input)
      (pda ← findConfigPda None;
       Ok pda.1);
  Ok [Some (signerAddress (Async.admin input)); Some config].

Definition getSetSolansParamsInstructionAsync_builder `{KS : KitSpec} `{PS : ProgramClientSpec} : InstructionBuilder.
Proof.
  refine {| kind := SolansInstruction.SetSolansParams; Input := Async.SetSolansParamsAsyncInput;
            args_of := Async.args : Async.SetSolansParamsAsyncInput -> Args (instruction_codec SolansInstruction.SetSolansParams);
            addresses := getSetSolansParamsInstructionAsync_addresses; build := getSetSolansParamsInstructionAsync |}.
  - builder_length getSetSolansParamsInstructionAsync_addresses.
  - builder_refines getSetSolansParamsInstructionAsync getSetSolansParamsInstructionAsync_addresses.
Defined.

Module Sync.
Record SetSolansParamsInput := MkInput {
  admin : TransactionSigner; config : Address;
  args : SetSolansParams.SetSolansParamsInstructionDataArgs
}.
End Sync.

Definition getSetSolansParamsInstruction `{Kit} `{ProgramClientCore} (input : Sync.SetSolansParamsInput)
    (programAddress : option Address) : result JsError Instruction :=
  let programAddress := default SOLANS_PROGRAM_ADDRESS programAddress in
  let admin := fromSigner (Sync.admin input) false in
  let config := fromAddress (Some (Sync.config input)) true in
  let args := Sync.args input in
  let getAccountMeta := getAccountMetaFactory programAddress (js "programId") in
  admin ← getAccountMeta (js "admin") admin;
  config ← getAccountMeta (js "config") config;
  data ← SetSolansParams.getSetSolansParamsInstructionDataEncoder args;
  Ok {| programAddress := programAddress;
        accounts := [admin; config];
        data := data |}.

Definition getSetSolansParamsInstruction_addresses `{Kit} (input : Sync.SetSolansParamsInput)
    : result JsError (list (option Address)) :=
  Ok [Some (signerAddress (Sync.admin input)); given (Some (Sync.config input))].

Definition getSetSolansParamsInstruction_builder `{KS : KitSpec} `{PS : ProgramClientSpec} : InstructionBuilder.
Proof.
  refine {| kind := SolansInstruction.SetSolansParams; Input := Sync.SetSolansParamsInput;
            args_of := Sync.args : Sync.SetSolansParamsInput -> Args (instruction_codec SolansInstruction.SetSolansParams);
            addresses := getSetSolansParamsInstruction_addresses; build := getSetSolansParamsInstruction |}.
  - builder_length getSetSolansParamsInstruction_addresses.
  - builder_refines getSetSolansParamsInstruction getSetSolansParamsInstruction_addresses.
Defined.

End SetSolansParamsBuilder.

(** ** instructions/registerWithSolans.ts *)

Module RegisterWithSolansBuilder.

Module Async.
Record RegisterWithSolansAsyncInput := MkInput {
  payer : TransactionSigner; owner : Address; config : option Address;
  nameRecord : option Address; payerSolansAccount : Address; solansMint : Address;
  tokenProgram : option Address; systemProgram : option Address;
  args : RegisterWithSolans.RegisterWithSolansInstructionDataArgs
}.
End Async.

Definition getRegisterWithSolansInstructionAsync `{Kit} `{ProgramClientCore} (input : Async.RegisterWithSolansAsyncInput)
    (programAddress : option Address) : result JsError Instruction :=
  let programAddress := default SOLANS_PROGRAM_ADDRESS programAddress in
  let payer := fromSigner (Async.payer input) true in
  let owner := fromAddress (Some (Async.owner input)) false in
  let config := fromAddress (Async.config input) false in
  let nameRecord := fromAddress (Async.nameRecord input) true in
  let payerSolansAccount := fromAddress (Some (Async.payerSolansAccount input)) true in
  let solansMint := fromAddress (Some (Async.solansMint input)) true in
  let tokenProgram := fromAddress (Async.tokenProgram input) false in
  let systemProgram := fromAddress (Async.systemProgram input) false in
  let args := Async.args input in
  config ← default_value config
      (pda ← findConfigPda None;
       Ok (VPda pda));
  nameRecord ← default_value nameRecord
      (pda ← (nameHash ← getNonNullResolvedInstructionInput (js "nameHash") (Some (RegisterWithSolans.nameHash args));
         findNameRecordPda {| Pdas.nameHash := nameHash |} None);
       Ok (VPda pda));
  tokenProgram ← default_value tokenProgram (Ok (VAddress (js "TokenkegQfeZyiNwAJbNbGKPFXCWuBvf9Ss623VQ5DA")));
  systemProgram ← default_value systemProgram (Ok (VAddress (js "11111111111111111111111111111111")));
  let getAccountMeta := getAccountMetaFactory programAddress (js "programId") in
  payer ← getAccountMeta (js "payer") payer;
  owner ← getAccountMeta (js "owner") owner;
  config ← getAccountMeta (js "config") config;
  nameRecord ← getAccountMeta (js "nameRecord") nameRecord;
  payerSolansAccount ← getAccountMeta (js "payerSolansAccount") payerSolansAccount;
  solansMint ← getAccountMeta (js "solansMint") solansMint;
  tokenProgram ← getAccountMeta (js "tokenProgram") tokenProgram;
  systemProgram ← getAccountMeta (js "systemProgram") systemProgram;
  data ← RegisterWithSolans.getRegisterWithSolansInstructionDataEncoder args;
  Ok {| programAddress := programAddress;
        accounts := [payer; owner; config; nameRecord; payerSolansAccount; solansMint; tokenProgram;
          systemProgram];
        data := data |}.

Definition getRegisterWithSolansInstructionAsync_addresses `{Kit} (input : Async.RegisterWithSolansAsyncInput)
    : result JsError (list (option Address)) :=
  config ← or_default (Async.config input)
      (pda ← findConfigPda None;
       Ok pda.1);
  nameRecord ← or_default (Async.nameRecord input)
      (pda ← findNameRecordPda {| Pdas.nameHash := RegisterWithSolans.nameHash (Async.args input) |} None;
       Ok pda.1);
  tokenProgram ← or_default (Async.tokenProgram input) (Ok (js "TokenkegQfeZyiNwAJbNbGKPFXCWuBvf9Ss623VQ5DA"));
  systemProgram ← or_default (Async.systemProgram input) (Ok (js "11111111111111111111111111111111"));
  Ok [Some (signerAddress (Async.payer input)); given (Some (Async.owner input)); Some config;
      Some nameRecord; given (Some (Async.payerSolansAccount input));
      given (Some (Async.solansMint input)); Some tokenProgram; Some systemProgram].

Definition getRegisterWithSolansInstructionAsync_builder `{KS : KitSpec} `{PS : ProgramClientSpec} : InstructionBuilder.
Proof.
  refine {| kind := SolansInstruction.RegisterWithSolans; Input := Async.RegisterWithSolansAsyncInput;
            args_of := Async.args : Async.RegisterWithSolansAsyncInput -> Args (instruction_codec SolansInstruction.RegisterWithSolans);
            addresses := getRegisterWithSolansInstructionAsync_addresses; build := getRegisterWithSolansInstructionAsync |}.
  - builder_length getRegisterWithSolansInstructionAsync_addresses.
  - builder_refines getRegisterWithSolansInstructionAsync getRegisterWithSolansInstructionAsync_addresses.
Defined.

Module Sync.
Record RegisterWithSolansInput := MkInput {
  payer : TransactionSigner; owner : Address; config : Address; nameRecord : Address;
  payerSolansAccount : Address; solansMint : Address; tokenProgram : option Address;
  systemProgram : option Address;
  args : RegisterWithSolans.RegisterWithSolansInstructionDataArgs
}.
End Sync.

Definition getRegisterWithSolansInstruction `{Kit} `{ProgramClientCore} (input : Sync.RegisterWithSolansInput)
    (programAddress : option Address) : result JsError Instruction :=
  let programAddress := default SOLANS_PROGRAM_ADDRESS programAddress in
  let payer := fromSigner (Sync.payer input) true in
  let owner := fromAddress (Some (Sync.owner input)) false in
  let config := fromAddress (Some (Sync.config input)) false in
  let nameRecord := fromAddress (Some (Sync.nameRecord input)) true in
  let payerSolansAccount := fromAddress (Some (Sync.payerSolansAccount input)) true in
  let solansMint := fromAddress (Some (Sync.solansMint input)) true in
  let tokenProgram := fromAddress (Sync.tokenProgram input) false in
  let systemProgram := fromAddress (Sync.systemProgram input) false in
  let args := Sync.args input in
  tokenProgram ← default_value tokenProgram (Ok (VAddress (js "TokenkegQfeZyiNwAJbNbGKPFXCWuBvf9Ss623VQ5DA")));
  systemProgram ← default_value systemProgram (Ok (VAddress (js "11111111111111111111111111111111")));
  let getAccountMeta := getAccountMetaFactory programAddress (js "programId") in
  payer ← getAccountMeta (js "payer") payer;
  owner ← getAccountMeta (js "owner") owner;
  config ← getAccountMeta (js "config") config;
  nameRecord ← getAccountMeta (js "nameRecord") nameRecord;
  payerSolansAccount ← getAccountMeta (js "payerSolansAccount") payerSolansAccount;
  solansMint ← getAccountMeta (js "solansMint") solansMint;
  tokenProgram ← getAccountMeta (js "tokenProgram") tokenProgram;
  systemProgram ← getAccountMeta (js "systemProgram") systemProgram;
  data ← RegisterWithSolans.getRegisterWithSolansInstructionDataEncoder args;
  Ok {| programAddress := programAddress;
        accounts := [payer; owner; config; nameRecord; payerSolansAccount; solansMint; tokenProgram;
          systemProgram];
        data := data |}.

Definition getRegisterWithSolansInstruction_addresses `{Kit} (input : Sync.RegisterWithSolansInput)
    : result JsError (list (option Address)) :=
  tokenProgram ← or_default (Sync.tokenProgram input) (Ok (js "TokenkegQfeZyiNwAJbNbGKPFXCWuBvf9Ss623VQ5DA"));
  systemProgram ← or_default (Sync.systemProgram input) (Ok (js "11111111111111111111111111111111"));
  Ok [Some (signerAddress (Sync.payer input)); given (Some (Sync.owner input));
      given (Some (Sync.config input)); given (Some (Sync.nameRecord input));
      given (Some (Sync.payerSolansAccount input)); given (Some (Sync.solansMint input));
      Some tokenProgram; Some systemProgram].

Definition getRegisterWithSolansInstruction_builder `{KS : KitSpec} `{PS : ProgramClientSpec} : InstructionBuilder.
Proof.
  refine {| kind := SolansInstruction.RegisterWithSolans; Input := Sync.RegisterWithSolansInput;
            args_of := Sync.args : Sync.RegisterWithSolansInput -> Args (instruction_codec SolansInstruction.RegisterWithSolans);
            addresses := getRegisterWithSolansInstruction_addresses; build := getRegisterWithSolansInstruction |}.
  - builder_length getRegisterWithSolansInstruction_addresses.
  - builder_refines getRegisterWithSolansInstruction getRegisterWithSolansInstruction_addresses.
Defined.

End RegisterWithSolansBuilder.

(** ** instructions/renewWithSolans.ts *)

Module RenewWithSolansBuilder.

Module Async.
Record RenewWithSolansAsyncInput := MkInput {
  payer : TransactionSigner; config : option Address; nameRecord : Address;
  payerSolansAccount : Address; solansMint : Address; tokenProgram : option Address;
  args : RenewWithSolans.RenewWithSolansInstructionDataArgs
}.
End Async.

Definition getRenewWithSolansInstructionAsync `{Kit} `{ProgramClientCore} (input : Async.RenewWithSolansAsyncInput)
    (programAddress : option Address) : result JsError Instruction :=
  let programAddress := default SOLANS_PROGRAM_ADDRESS programAddress in
  let payer := fromSigner (Async.payer input) true in
  let config := fromAddress (Async.config input) false in
  let nameRecord := fromAddress (Some (Async.nameRecord input)) true in
  let payerSolansAccount := fromAddress (Some (Async.payerSolansAccount input)) true in
  let solansMint := fromAddress (Some (Async.solansMint input)) true in
  let tokenProgram := fromAddress (Async.tokenProgram input) false in
  let args := Async.args input in
  config ← default_value config
      (pda ← findConfigPda None;
       Ok (VPda pda));
  tokenProgram ← default_value tokenProgram (Ok (VAddress (js "TokenkegQfeZyiNwAJbNbGKPFXCWuBvf9Ss623VQ5DA")));
  let getAccountMeta := getAccountMetaFactory programAddress (js "programId") in
  payer ← getAccountMeta (js "payer") payer;
  config ← getAccountMeta (js "config") config;
  nameRecord ← getAccountMeta (js "nameRecord") nameRecord;
  payerSolansAccount ← getAccountMeta (js "payerSolansAccount") payerSolansAccount;
  solansMint ← getAccountMeta (js "solansMint") solansMint;
  tokenProgram ← getAccountMeta (js "tokenProgram") tokenProgram;
  data ← RenewWithSolans.getRenewWithSolansInstructionDataEncoder args;
  Ok {| programAddress := programAddress;
        accounts := [payer; config; nameRecord; payerSolansAccount; solansMint; tokenProgram];
        data := data |}.

Definition getRenewWithSolansInstructionAsync_addresses `{Kit} (input : Async.RenewWithSolansAsyncInput)
    : result JsError (list (option Address)) :=
  config ← or_default (Async.config input)
      (pda ← findConfigPda None;
       Ok pda.1);
  tokenProgram ← or_default (Async.tokenProgram input) (Ok (js "TokenkegQfeZyiNwAJbNbGKPFXCWuBvf9Ss623VQ5DA"));
  Ok [Some (signerAddress (Async.payer input)); Some config;
      given (Some (Async.nameRecord input));
      given (Some (Async.payerSolansAccount input));
      given (Some (Async.solansMint input)); Some tokenProgram].

Definition getRenewWithSolansInstructionAsync_builder `{KS : KitSpec} `{PS : ProgramClientSpec} : InstructionBuilder.
Proof.
  refine {| kind := SolansInstruction.RenewWithSolans; Input := Async.RenewWithSolansAsyncInput;
            args_of := Async.args : Async.RenewWithSolansAsyncInput -> Args (instruction_codec SolansInstruction.RenewWithSolans);
            addresses := getRenewWithSolansInstructionAsync_addresses; build := getRenewWithSolansInstructionAsync |}.
  - builder_length getRenewWithSolansInstructionAsync_addresses.
  - builder_refines getRenewWithSolansInstructionAsync getRenewWithSolansInstructionAsync_addresses.
Defined.

Module Sync.
Record RenewWithSolansInput := MkInput {
  payer : TransactionSigner; config : Address; nameRecord : Address; payerSolansAccount : Address;
  solansMint : Address; tokenProgram : option Address;
  args : RenewWithSolans.RenewWithSolansInstructionDataArgs
}.
End Sync.

Definition getRenewWithSolansInstruction `{Kit} `{ProgramClientCore} (input : Sync.RenewWithSolansInput)
    (programAddress : option Address) : result JsError Instruction :=
  let programAddress := default SOLANS_PROGRAM_ADDRESS programAddress in
  let payer := fromSigner (Sync.payer input) true in
  let config := fromAddress (Some (Sync.config input)) false in
  let nameRecord := fromAddress (Some (Sync.nameRecord input)) true in
  let payerSolansAccount := fromAddress (Some (Sync.payerSolansAccount input)) true in
  let solansMint := fromAddress (Some (Sync.solansMint input)) true in
  let tokenProgram := fromAddress (Sync.tokenProgram input) false in
  let args := Sync.args input in
  tokenProgram ← default_value tokenProgram (Ok (VAddress (js "TokenkegQfeZyiNwAJbNbGKPFXCWuBvf9Ss623VQ5DA")));
  let getAccountMeta := getAccountMetaFactory programAddress (js "programId") in
  payer ← getAccountMeta (js "payer") payer;
  config ← getAccountMeta (js "config") config;
  nameRecord ← getAccountMeta (js "nameRecord") nameRecord;
  payerSolansAccount ← getAccountMeta (js "payerSolansAccount") payerSolansAccount;
  solansMint ← getAccountMeta (js "solansMint") solansMint;
  tokenProgram ← getAccountMeta (js "tokenProgram") tokenProgram;
  data ← RenewWithSolans.getRenewWithSolansInstructionDataEncoder args;
  Ok {| programAddress := programAddress;
        accounts := [payer; config; nameRecord; payerSolansAccount; solansMint; tokenProgram];
        data := data |}.

Definition getRenewWithSolansInstruction_addresses `{Kit} (input : Sync.RenewWithSolansInput)
    : result JsError (list (option Address)) :=
  tokenProgram ← or_default (Sync.tokenProgram input) (Ok (js "TokenkegQfeZyiNwAJbNbGKPFXCWuBvf9Ss623VQ5DA"));
  Ok [Some (signerAddress (Sync.payer input)); given (Some (Sync.config input));
      given (Some (Sync.nameRecord input)); given (Some (Sync.payerSolansAccount input));
      given (Some (Sync.solansMint input)); Some tokenProgram].

Definition getRenewWithSolansInstruction_builder `{KS : KitSpec} `{PS : ProgramClientSpec} : InstructionBuilder.
Proof.
  refine {| kind := SolansInstruction.RenewWithSolans; Input := Sync.RenewWithSolansInput;
            args_of := Sync.args : Sync.RenewWithSolansInput -> Args (instruction_codec SolansInstruction.RenewWithSolans);
            addresses := getRenewWithSolansInstruction_addresses; build := getRenewWithSolansInstruction |}.
  - builder_length getRenewWithSolansInstruction_addresses.
  - builder_refines getRenewWithSolansInstruction getRenewWithSolansInstruction_addresses.
Defined.

End RenewWithSolansBuilder.

(** ** instructions/buybackBurn.ts *)

Module BuybackBurnBuilder.

Module Async.
Record BuybackBurnAsyncInput := MkInput {
  keeper : TransactionSigner; config : option Address; burnVault : Address;
  keeperPaymentAccount : Address; keeperSolansAccount : Address; solansMint : Address;
  paymentMint : Address; tokenProgram : option Address;
  args : BuybackBurn.BuybackBurnInstructionDataArgs
}.
End Async.

Definition getBuybackBurnInstructionAsync `{Kit} `{ProgramClientCore} (input : Async.BuybackBurnAsyncInput)
    (programAddress : option Address) : result JsError Instruction :=
  let programAddress := default SOLANS_PROGRAM_ADDRESS programAddress in
  let keeper := fromSigner (Async.keeper input) false in
  let config := fromAddress (Async.config input) false in
  let burnVault := fromAddress (Some (Async.burnVault input)) true in
  let keeperPaymentAccount := fromAddress (Some (Async.keeperPaymentAccount input)) true in
  let keeperSolansAccount := fromAddress (Some (Async.keeperSolansAccount input)) true in
  let solansMint := fromAddress (Some (Async.solansMint input)) true in
  let paymentMint := fromAddress (Some (Async.paymentMint input)) false in
  let tokenProgram := fromAddress (Async.tokenProgram input) false in
  let args := Async.args input in
  config ← default_value config
      (pda ← findConfigPda None;
       Ok (VPda pda));
  tokenProgram ← default_value tokenProgram (Ok (VAddress (js "TokenkegQfeZyiNwAJbNbGKPFXCWuBvf9Ss623VQ5DA")));
  let getAccountMeta := getAccountMetaFactory programAddress (js "programId") in
  keeper ← getAccountMeta (js "keeper") keeper;
  config ← getAccountMeta (js "config") config;
  burnVault ← getAccountMeta (js "burnVault") burnVault;
  keeperPaymentAccount ← getAccountMeta (js "keeperPaymentAccount") keeperPaymentAccount;
  keeperSolansAccount ← getAccountMeta (js "keeperSolansAccount") keeperSolansAccount;
  solansMint ← getAccountMeta (js "solansMint") solansMint;
  paymentMint ← getAccountMeta (js "paymentMint") paymentMint;
  tokenProgram ← getAccountMeta (js "tokenProgram") tokenProgram;
  data ← BuybackBurn.getBuybackBurnInstructionDataEncoder args;
  Ok {| programAddress := programAddress;
        accounts := [keeper; config; burnVault; keeperPaymentAccount; keeperSolansAccount; solansMint;
          paymentMint; tokenProgram];
        data := data |}.

Definition getBuybackBurnInstructionAsync_addresses `{Kit} (input : Async.BuybackBurnAsyncInput)
    : result JsError (list (option Address)) :=
  config ← or_default (Async.config input)
      (pda ← findConfigPda None;
       Ok pda.1);
  tokenProgram ← or_default (Async.tokenProgram input) (Ok (js "TokenkegQfeZyiNwAJbNbGKPFXCWuBvf9Ss623VQ5DA"));
  Ok [Some (signerAddress (Async.keeper input)); Some config;
      given (Some (Async.burnVault input));
      given (Some (Async.keeperPaymentAccount input));
      given (Some (Async.keeperSolansAccount input));
      given (Some (Async.solansMint input)); given (Some (Async.paymentMint input));
      Some tokenProgram].

Definition getBuybackBurnInstructionAsync_builder `{KS : KitSpec} `{PS : ProgramClientSpec} : InstructionBuilder.
Proof.
  refine {| kind := SolansInstruction.BuybackBurn; Input := Async.BuybackBurnAsyncInput;
            args_of := Async.args : Async.BuybackBurnAsyncInput -> Args (instruction_codec SolansInstruction.BuybackBurn);
            addresses := getBuybackBurnInstructionAsync_addresses; build := getBuybackBurnInstructionAsync |}.
  - builder_length getBuybackBurnInstructionAsync_addresses.
  - builder_refines getBuybackBurnInstructionAsync getBuybackBurnInstructionAsync_addresses.
Defined.

Module Sync.
Record BuybackBurnInput := MkInput {
  keeper : TransactionSigner; config : Address; burnVault : Address;
  keeperPaymentAccount : Address; keeperSolansAccount : Address; solansMint : Address;
  paymentMint : Address; tokenProgram : option Address;
  args : BuybackBurn.BuybackBurnInstructionDataArgs
}.
End Sync.

Definition getBuybackBurnInstruction `{Kit} `{ProgramClientCore} (input : Sync.BuybackBurnInput)
    (programAddress : option Address) : result JsError Instruction :=
  let programAddress := default SOLANS_PROGRAM_ADDRESS programAddress in
  let keeper := fromSigner (Sync.keeper input) false in
  let config := fromAddress (Some (Sync.config input)) false in
  let burnVault := fromAddress (Some (Sync.burnVault input)) true in
  let keeperPaymentAccount := fromAddress (Some (Sync.keeperPaymentAccount input)) true in
  let keeperSolansAccount := fromAddress (Some (Sync.keeperSolansAccount input)) true in
  let solansMint := fromAddress (Some (Sync.solansMint input)) true in
  let paymentMint := fromAddress (Some (Sync.paymentMint input)) false in
  let tokenProgram := fromAddress (Sync.tokenProgram input) false in
  let args := Sync.args input in
  tokenProgram ← default_value tokenProgram (Ok (VAddress (js "TokenkegQfeZyiNwAJbNbGKPFXCWuBvf9Ss623VQ5DA")));
  let getAccountMeta := getAccountMetaFactory programAddress (js "programId") in
  keeper ← getAccountMeta (js "keeper") keeper;
  config ← getAccountMeta (js "config") config;
  burnVault ← getAccountMeta (js "burnVault") burnVault;
  keeperPaymentAccount ← getAccountMeta (js "keeperPaymentAccount") keeperPaymentAccount;
  keeperSolansAccount ← getAccountMeta (js "keeperSolansAccount") keeperSolansAccount;
  solansMint ← getAccountMeta (js "solansMint") solansMint;
  paymentMint ← getAccountMeta (js "paymentMint") paymentMint;
  tokenProgram ← getAccountMeta (js "tokenProgram") tokenProgram;
  data ← BuybackBurn.getBuybackBurnInstructionDataEncoder args;
  Ok {| programAddress := programAddress;
        accounts := [keeper; config; burnVault; keeperPaymentAccount; keeperSolansAccount; solansMint;
          paymentMint; tokenProgram];
        data := data |}.

Definition getBuybackBurnInstruction_addresses `{Kit} (input : Sync.BuybackBurnInput)
    : result JsError (list (option Address)) :=
  tokenProgram ← or_default (Sync.tokenProgram input) (Ok (js "TokenkegQfeZyiNwAJbNbGKPFXCWuBvf9Ss623VQ5DA"));
  Ok [Some (signerAddress (Sync.keeper input)); given (Some (Sync.config input));
      given (Some (Sync.burnVault input)); given (Some (Sync.keeperPaymentAccount input));
      given (Some (Sync.keeperSolansAccount input)); given (Some (Sync.solansMint input));
      given (Some (Sync.paymentMint input)); Some tokenProgram].

Definition getBuybackBurnInstruction_builder `{KS : KitSpec} `{PS : ProgramClientSpec} : InstructionBuilder.
Proof.
  refine {| kind := SolansInstruction.BuybackBurn; Input := Sync.BuybackBurnInput;
            args_of := Sync.args : Sync.BuybackBurnInput -> Args (instruction_codec SolansInstruction.BuybackBurn);
            addresses := getBuybackBurnInstruction_addresses; build := getBuybackBurnInstruction |}.
  - builder_length getBuybackBurnInstruction_addresses.
  - builder_refines getBuybackBurnInstruction getBuybackBurnInstruction_addresses.
Defined.

End BuybackBurnBuilder.

(** ** instructions/initStakePool.ts *)

Module InitStakePoolBuilder.

Module Async.
Record InitStakePoolAsyncInput := MkInput {
  admin : TransactionSigner; config : option Address; stakePool : option Address;
  solansMint : Address; paymentMint : Address; stakeVault : option Address;
  rewardVault : option Address; tokenProgram : option Address;
  associatedTokenProgram : option Address; systemProgram : option Address
}.
End Async.

Definition getInitStakePoolInstructionAsync `{Kit} `{ProgramClientCore} (input : Async.InitStakePoolAsyncInput)
    (programAddress : option Address) : result JsError Instruction :=
  let programAddress := default SOLANS_PROGRAM_ADDRESS programAddress in
  let admin := fromSigner (Async.admin input) true in
  let config := fromAddress (Async.config input) true in
  let stakePool := fromAddress (Async.stakePool input) true in
  let solansMint := fromAddress (Some (Async.solansMint input)) false in
  let paymentMint := fromAddress (Some (Async.paymentMint input)) false in
  let stakeVault := fromAddress (Async.stakeVault input) true in
  let rewardVault := fromAddress (Async.rewardVault input) true in
  let tokenProgram := fromAddress (Async.tokenProgram input) false in
  let associatedTokenProgram := fromAddress (Async.associatedTokenProgram input) false in
  let systemProgram := fromAddress (Async.systemProgram input) false in
  config ← default_value config
      (pda ← findConfigPda None;
       Ok (VPda pda));
  stakePool ← default_value stakePool
      (pda ← findStakePoolPda None;
       Ok (VPda pda));
  tokenProgram ← default_value tokenProgram (Ok (VAddress (js "TokenkegQfeZyiNwAJbNbGKPFXCWuBvf9Ss623VQ5DA")));
  stakeVault ← default_value stakeVault
      (pda ← (stakePoolAddress ← getAddressFromResolvedInstructionAccount (js "stakePool") (value stakePool);
         seed1 ← getAddressEncoder stakePoolAddress;
         tokenProgramAddress ← getAddressFromResolvedInstructionAccount (js "tokenProgram") (value tokenProgram);
         seed2 ← getAddressEncoder tokenProgramAddress;
         solansMintAddress ← getAddressFromResolvedInstructionAccount (js "solansMint") (value solansMint);
         seed3 ← getAddressEncoder solansMintAddress;
         getProgramDerivedAddress (js "ATokenGPvbdGVxr1b2hvZbsiqW5xWH25efTNsLJA8knL") [seed1; seed2; seed3]);
       Ok (VPda pda));
  rewardVault ← default_value rewardVault
      (pda ← (stakePoolAddress ← getAddressFromResolvedInstructionAccount (js "stakePool") (value stakePool);
         seed1 ← getAddressEncoder stakePoolAddress;
         tokenProgramAddress ← getAddressFromResolvedInstructionAccount (js "tokenProgram") (value tokenProgram);
         seed2 ← getAddressEncoder tokenProgramAddress;
         paymentMintAddress ← getAddressFromResolvedInstructionAccount (js "paymentMint") (value paymentMint);
         seed3 ← getAddressEncoder paymentMintAddress;
         getProgramDerivedAddress (js "ATokenGPvbdGVxr1b2hvZbsiqW5xWH25efTNsLJA8knL") [seed1; seed2; seed3]);
       Ok (VPda pda));
  associatedTokenProgram ← default_value associatedTokenProgram (Ok (VAddress (js "ATokenGPvbdGVxr1b2hvZbsiqW5xWH25efTNsLJA8knL")));
  systemProgram ← default_value systemProgram (Ok (VAddress (js "11111111111111111111111111111111")));
  let getAccountMeta := getAccountMetaFactory programAddress (js "programId") in
  admin ← getAccountMeta (js "admin") admin;
  config ← getAccountMeta (js "config") config;
  stakePool ← getAccountMeta (js "stakePool") stakePool;
  solansMint ← getAccountMeta (js "solansMint") solansMint;
  paymentMint ← getAccountMeta (js "paymentMint") paymentMint;
  stakeVault ← getAccountMeta (js "stakeVault") stakeVault;
  rewardVault ← getAccountMeta (js "rewardVault") rewardVault;
  tokenProgram ← getAccountMeta (js "tokenProgram") tokenProgram;
  associatedTokenProgram ← getAccountMeta (js "associatedTokenProgram") associatedTokenProgram;
  systemProgram ← getAccountMeta (js "systemProgram") systemProgram;
  data ← InitStakePool.getInitStakePoolInstructionDataEncoder InitStakePool.MkInitStakePoolInstructionDataArgs;
  Ok {| programAddress := programAddress;
        accounts := [admin; config; stakePool; solansMint; paymentMint; stakeVault; rewardVault;
          tokenProgram; associatedTokenProgram; systemProgram];
        data := data |}.

Definition getInitStakePoolInstructionAsync_addresses `{Kit} (input : Async.InitStakePoolAsyncInput)
    : result JsError (list (option Address)) :=
  config ← or_default (Async.config input)
      (pda ← findConfigPda None;
       Ok pda.1);
  stakePool ← or_default (Async.stakePool input)
      (pda ← findStakePoolPda None;
       Ok pda.1);
  tokenProgram ← or_default (Async.tokenProgram input) (Ok (js "TokenkegQfeZyiNwAJbNbGKPFXCWuBvf9Ss623VQ5DA"));
  stakeVault ← or_default (Async.stakeVault input)
      (pda ← (seed1 ← getAddressEncoder stakePool;
         seed2 ← getAddressEncoder tokenProgram;
         seed3 ← getAddressEncoder (Async.solansMint input);
         getProgramDerivedAddress (js "ATokenGPvbdGVxr1b2hvZbsiqW5xWH25efTNsLJA8knL") [seed1; seed2; seed3]);
       Ok pda.1);
  rewardVault ← or_default (Async.rewardVault input)
      (pda ← (seed1 ← getAddressEncoder stakePool;
         seed2 ← getAddressEncoder tokenProgram;
         seed3 ← getAddressEncoder (Async.paymentMint input);
         getProgramDerivedAddress (js "ATokenGPvbdGVxr1b2hvZbsiqW5xWH25efTNsLJA8knL") [seed1; seed2; seed3]);
       Ok pda.1);
  associatedTokenProgram ← or_default (Async.associatedTokenProgram input) (Ok (js "ATokenGPvbdGVxr1b2hvZbsiqW5xWH25efTNsLJA8knL"));
  systemProgram ← or_default (Async.systemProgram input) (Ok (js "11111111111111111111111111111111"));
  Ok [Some (signerAddress (Async.admin input)); Some config; Some stakePool;
      given (Some (Async.solansMint input)); given (Some (Async.paymentMint input));
      Some stakeVault; Some rewardVault; Some tokenProgram; Some associatedTokenProgram;
      Some systemProgram].

Definition getInitStakePoolInstructionAsync_builder `{KS : KitSpec} `{PS : ProgramClientSpec} : InstructionBuilder.
Proof.
  refine {| kind := SolansInstruction.InitStakePool; Input := Async.InitStakePoolAsyncInput;
            args_of := (fun _ => InitStakePool.MkInitStakePoolInstructionDataArgs) : Async.InitStakePoolAsyncInput -> Args (instruction_codec SolansInstruction.InitStakePool);
            addresses := getInitStakePoolInstructionAsync_addresses; build := getInitStakePoolInstructionAsync |}.
  - builder_length getInitStakePoolInstructionAsync_addresses.
  - builder_refines getInitStakePoolInstructionAsync getInitStakePoolInstructionAsync_addresses.
Defined.

Module Sync.
Record InitStakePoolInput := MkInput {
  admin : TransactionSigner; config : Address; stakePool : Address; solansMint : Address;
  paymentMint : Address; stakeVault : Address; rewardVault : Address;
  tokenProgram : option Address; associatedTokenProgram : option Address;
  systemProgram : option Address
}.
End Sync.

Definition getInitStakePoolInstruction `{Kit} `{ProgramClientCore} (input : Sync.InitStakePoolInput)
    (programAddress : option Address) : result JsError Instruction :=
  let programAddress := default SOLANS_PROGRAM_ADDRESS programAddress in
  let admin := fromSigner (Sync.admin input) true in
  let config := fromAddress (Some (Sync.config input)) true in
  let stakePool := fromAddress (Some (Sync.stakePool input)) true in
  let solansMint := fromAddress (Some (Sync.solansMint input)) false in
  let paymentMint := fromAddress (Some (Sync.paymentMint input)) false in
  let stakeVault := fromAddress (Some (Sync.stakeVault input)) true in
  let rewardVault := fromAddress (Some (Sync.rewardVault input)) true in
  let tokenProgram := fromAddress (Sync.tokenProgram input) false in
  let associatedTokenProgram := fromAddress (Sync.associatedTokenProgram input) false in
  let systemProgram := fromAddress (Sync.systemProgram input) false in
  tokenProgram ← default_value tokenProgram (Ok (VAddress (js "TokenkegQfeZyiNwAJbNbGKPFXCWuBvf9Ss623VQ5DA")));
  associatedTokenProgram ← default_value associatedTokenProgram (Ok (VAddress (js "ATokenGPvbdGVxr1b2hvZbsiqW5xWH25efTNsLJA8knL")));
  systemProgram ← default_value systemProgram (Ok (VAddress (js "11111111111111111111111111111111")));
  let getAccountMeta := getAccountMetaFactory programAddress (js "programId") in
  admin ← getAccountMeta (js "admin") admin;
  config ← getAccountMeta (js "config") config;
  stakePool ← getAccountMeta (js "stakePool") stakePool;
  solansMint ← getAccountMeta (js "solansMint") solansMint;
  paymentMint ← getAccountMeta (js "paymentMint") paymentMint;
  stakeVault ← getAccountMeta (js "stakeVault") stakeVault;
  rewardVault ← getAccountMeta (js "rewardVault") rewardVault;
  tokenProgram ← getAccountMeta (js "tokenProgram") tokenProgram;
  associatedTokenProgram ← getAccountMeta (js "associatedTokenProgram") associatedTokenProgram;
  systemProgram ← getAccountMeta (js "systemProgram") systemProgram;
  data ← InitStakePool.getInitStakePoolInstructionDataEncoder InitStakePool.MkInitStakePoolInstructionDataArgs;
  Ok {| programAddress := programAddress;
        accounts := [admin; config; stakePool; solansMint; paymentMint; stakeVault; rewardVault;
          tokenProgram; associatedTokenProgram; systemProgram];
        data := data |}.

Definition getInitStakePoolInstruction_addresses `{Kit} (input : Sync.InitStakePoolInput)
    : result JsError (list (option Address)) :=
  tokenProgram ← or_default (Sync.tokenProgram input) (Ok (js "TokenkegQfeZyiNwAJbNbGKPFXCWuBvf9Ss623VQ5DA"));
  associatedTokenProgram ← or_default (Sync.associatedTokenProgram input) (Ok (js "ATokenGPvbdGVxr1b2hvZbsiqW5xWH25efTNsLJA8knL"));
  systemProgram ← or_default (Sync.systemProgram input) (Ok (js "11111111111111111111111111111111"));
  Ok [Some (signerAddress (Sync.admin input)); given (Some (Sync.config input));
      given (Some (Sync.stakePool input)); given (Some (Sync.solansMint input));
      given (Some (Sync.paymentMint input)); given (Some (Sync.stakeVault input));
      given (Some (Sync.rewardVault input)); Some tokenProgram;
      Some associatedTokenProgram; Some systemProgram].

Definition getInitStakePoolInstruction_builder `{KS : KitSpec} `{PS : ProgramClientSpec} : InstructionBuilder.
Proof.
  refine {| kind := SolansInstruction.InitStakePool; Input := Sync.InitStakePoolInput;
            args_of := (fun _ => InitStakePool.MkInitStakePoolInstructionDataArgs) : Sync.InitStakePoolInput -> Args (instruction_codec SolansInstruction.InitStakePool);
            addresses := getInitStakePoolInstruction_addresses; build := getInitStakePoolInstruction |}.
  - builder_length getInitStakePoolInstruction_addresses.
  - builder_refines getInitStakePoolInstruction getInitStakePoolInstruction_addresses.
Defined.

End InitStakePoolBuilder.

(** ** instructions/stake.ts *)

Module StakeBuilder.

Module Async.
Record StakeAsyncInput := MkInput {
  staker : TransactionSigner; config : option Address; stakePool : option Address;
  stakeAccount : option Address; stakerTokenAccount : Address; stakerRewardAccount : Address;
  stakeVault : Address; rewardVault : Address; solansMint : Address; paymentMint : Address;
  tokenProgram : option Address; systemProgram : option Address;
  args : Stake.StakeInstructionDataArgs
}.
End Async.

Definition getStakeInstructionAsync `{Kit} `{ProgramClientCore} (input : Async.StakeAsyncInput)
    (programAddress : option Address) : result JsError Instruction :=
  let programAddress := default SOLANS_PROGRAM_ADDRESS programAddress in
  let staker := fromSigner (Async.staker input) true in
  let config := fromAddress (Async.config input) false in
  let stakePool := fromAddress (Async.stakePool input) true in
  let stakeAccount := fromAddress (Async.stakeAccount input) true in
  let stakerTokenAccount := fromAddress (Some (Async.stakerTokenAccount input)) true in
  let stakerRewardAccount := fromAddress (Some (Async.stakerRewardAccount input)) true in
  let stakeVault := fromAddress (Some (Async.stakeVault input)) true in
  let rewardVault := fromAddress (Some (Async.rewardVault input)) true in
  let solansMint := fromAddress (Some (Async.solansMint input)) false in
  let paymentMint := fromAddress (Some (Async.paymentMint input)) false in
  let tokenProgram := fromAddress (Async.tokenProgram input) false in
  let systemProgram := fromAddress (Async.systemProgram input) false in
  let args := Async.args input in
  config ← default_value config
      (pda ← findConfigPda None;
       Ok (VPda pda));
  stakePool ← default_value stakePool
      (pda ← findStakePoolPda None;
       Ok (VPda pda));
  stakeAccount ← default_value stakeAccount
      (pda ← (staker ← getAddressFromResolvedInstructionAccount (js "staker") (value staker);
         findStakeAccountPda {| Pdas.staker := staker |} None);
       Ok (VPda pda));
  tokenProgram ← default_value tokenProgram (Ok (VAddress (js "TokenkegQfeZyiNwAJbNbGKPFXCWuBvf9Ss623VQ5DA")));
  systemProgram ← default_value systemProgram (Ok (VAddress (js "11111111111111111111111111111111")));
  let getAccountMeta := getAccountMetaFactory programAddress (js "programId") in
  staker ← getAccountMeta (js "staker") staker;
  config ← getAccountMeta (js "config") config;
  stakePool ← getAccountMeta (js "stakePool") stakePool;
  stakeAccount ← getAccountMeta (js "stakeAccount") stakeAccount;
  stakerTokenAccount ← getAccountMeta (js "stakerTokenAccount") stakerTokenAccount;
  stakerRewardAccount ← getAccountMeta (js "stakerRewardAccount") stakerRewardAccount;
  stakeVault ← getAccountMeta (js "stakeVault") stakeVault;
  rewardVault ← getAccountMeta (js "rewardVault") rewardVault;
  solansMint ← getAccountMeta (js "solansMint") solansMint;
  paymentMint ← getAccountMeta (js "paymentMint") paymentMint;
  tokenProgram ← getAccountMeta (js "tokenProgram") tokenProgram;
  systemProgram ← getAccountMeta (js "systemProgram") systemProgram;
  data ← Stake.getStakeInstructionDataEncoder args;
  Ok {| programAddress := programAddress;
        accounts := [staker; config; stakePool; stakeAccount; stakerTokenAccount; stakerRewardAccount;
          stakeVault; rewardVault; solansMint; paymentMint; tokenProgram;
          systemProgram];
        data := data |}.

Definition getStakeInstructionAsync_addresses `{Kit} (input : Async.StakeAsyncInput)
    : result JsError (list (option Address)) :=
  config ← or_default (Async.config input)
      (pda ← findConfigPda None;
       Ok pda.1);
  stakePool ← or_default (Async.stakePool input)
      (pda ← findStakePoolPda None;
       Ok pda.1);
  stakeAccount ← or_default (Async.stakeAccount input)
      (pda ← findStakeAccountPda {| Pdas.staker := (signerAddress (Async.staker input)) |} None;
       Ok pda.1);
  tokenProgram ← or_default (Async.tokenProgram input) (Ok (js "TokenkegQfeZyiNwAJbNbGKPFXCWuBvf9Ss623VQ5DA"));
  systemProgram ← or_default (Async.systemProgram input) (Ok (js "11111111111111111111111111111111"));
  Ok [Some (signerAddress (Async.staker input)); Some config; Some stakePool; Some stakeAccount;
      given (Some (Async.stakerTokenAccount input));
      given (Some (Async.stakerRewardAccount input));
      given (Some (Async.stakeVault input)); given (Some (Async.rewardVault input));
      given (Some (Async.solansMint input)); given (Some (Async.paymentMint input));
      Some tokenProgram; Some systemProgram].

Definition getStakeInstructionAsync_builder `{KS : KitSpec} `{PS : ProgramClientSpec} : InstructionBuilder.
Proof.
  refine {| kind := SolansInstruction.Stake; Input := Async.StakeAsyncInput;
            args_of := Async.args : Async.StakeAsyncInput -> Args (instruction_codec SolansInstruction.Stake);
            addresses := getStakeInstructionAsync_addresses; build := getStakeInstructionAsync |}.
  - builder_length getStakeInstructionAsync_addresses.
  - builder_refines getStakeInstructionAsync getStakeInstructionAsync_addresses.
Defined.

Module Sync.
Record StakeInput := MkInput {
  staker : TransactionSigner; config : Address; stakePool : Address; stakeAccount : Address;
  stakerTokenAccount : Address; stakerRewardAccount : Address; stakeVault : Address;
  rewardVault : Address; solansMint : Address; paymentMint : Address;
  tokenProgram : option Address; systemProgram : option Address;
  args : Stake.StakeInstructionDataArgs
}.
End Sync.

Definition getStakeInstruction `{Kit} `{ProgramClientCore} (input : Sync.StakeInput)
    (programAddress : option Address) : result JsError Instruction :=
  let programAddress := default SOLANS_PROGRAM_ADDRESS programAddress in
  let staker := fromSigner (Sync.staker input) true in
  let config := fromAddress (Some (Sync.config input)) false in
  let stakePool := fromAddress (Some (Sync.stakePool input)) true in
  let stakeAccount := fromAddress (Some (Sync.stakeAccount input)) true in
  let stakerTokenAccount := fromAddress (Some (Sync.stakerTokenAccount input)) true in
  let stakerRewardAccount := fromAddress (Some (Sync.stakerRewardAccount input)) true in
  let stakeVault := fromAddress (Some (Sync.stakeVault input)) true in
  let rewardVault := fromAddress (Some (Sync.rewardVault input)) true in
  let solansMint := fromAddress (Some (Sync.solansMint input)) false in
  let paymentMint := fromAddress (Some (Sync.paymentMint input)) false in
  let tokenProgram := fromAddress (Sync.tokenProgram input) false in
  let systemProgram := fromAddress (Sync.systemProgram input) false in
  let args := Sync.args input in
  tokenProgram ← default_value tokenProgram (Ok (VAddress (js "TokenkegQfeZyiNwAJbNbGKPFXCWuBvf9Ss623VQ5DA")));
  systemProgram ← default_value systemProgram (Ok (VAddress (js "11111111111111111111111111111111")));
  let getAccountMeta := getAccountMetaFactory programAddress (js "programId") in
  staker ← getAccountMeta (js "staker") staker;
  config ← getAccountMeta (js "config") config;
  stakePool ← getAccountMeta (js "stakePool") stakePool;
  stakeAccount ← getAccountMeta (js "stakeAccount") stakeAccount;
  stakerTokenAccount ← getAccountMeta (js "stakerTokenAccount") stakerTokenAccount;
  stakerRewardAccount ← getAccountMeta (js "stakerRewardAccount") stakerRewardAccount;
  stakeVault ← getAccountMeta (js "stakeVault") stakeVault;
  rewardVault ← getAccountMeta (js "rewardVault") rewardVault;
  solansMint ← getAccountMeta (js "solansMint") solansMint;
  paymentMint ← getAccountMeta (js "paymentMint") paymentMint;
  tokenProgram ← getAccountMeta (js "tokenProgram") tokenProgram;
  systemProgram ← getAccountMeta (js "systemProgram") systemProgram;
  data ← Stake.getStakeInstructionDataEncoder args;
  Ok {| programAddress := programAddress;
        accounts := [staker; config; stakePool; stakeAccount; stakerTokenAccount; stakerRewardAccount;
          stakeVault; rewardVault; solansMint; paymentMint; tokenProgram;
          systemProgram];
        data := data |}.

Definition getStakeInstruction_addresses `{Kit} (input : Sync.StakeInput)
    : result JsError (list (option Address)) :=
  tokenProgram ← or_default (Sync.tokenProgram input) (Ok (js "TokenkegQfeZyiNwAJbNbGKPFXCWuBvf9Ss623VQ5DA"));
  systemProgram ← or_default (Sync.systemProgram input) (Ok (js "11111111111111111111111111111111"));
  Ok [Some (signerAddress (Sync.staker input)); given (Some (Sync.config input));
      given (Some (Sync.stakePool input)); given (Some (Sync.stakeAccount input));
      given (Some (Sync.stakerTokenAccount input));
      given (Some (Sync.stakerRewardAccount input)); given (Some (Sync.stakeVault input));
      given (Some (Sync.rewardVault input)); given (Some (Sync.solansMint input));
      given (Some (Sync.paymentMint input)); Some tokenProgram; Some systemProgram].

Definition getStakeInstruction_builder `{KS : KitSpec} `{PS : ProgramClientSpec} : InstructionBuilder.
Proof.
  refine {| kind := SolansInstruction.Stake; Input := Sync.StakeInput;
            args_of := Sync.args : Sync.StakeInput -> Args (instruction_codec SolansInstruction.Stake);
            addresses := getStakeInstruction_addresses; build := getStakeInstruction |}.
  - builder_length getStakeInstruction_addresses.
  - builder_refines getStakeInstruction getStakeInstruction_addresses.
Defined.

End StakeBuilder.

(** ** instructions/unstake.ts *)

Module UnstakeBuilder.

Module Async.
Record UnstakeAsyncInput := MkInput {
  staker : TransactionSigner; config : option Address; stakePool : option Address;
  stakeAccount : option Address; stakerTokenAccount : Address; stakerRewardAccount : Address;
  stakeVault : Address; rewardVault : Address; solansMint : Address; paymentMint : Address;
  tokenProgram : option Address; args : Unstake.UnstakeInstructionDataArgs
}.
End Async.

Definition getUnstakeInstructionAsync `{Kit} `{ProgramClientCore} (input : Async.UnstakeAsyncInput)
    (programAddress : option Address) : result JsError Instruction :=
  let programAddress := default SOLANS_PROGRAM_ADDRESS programAddress in
  let staker := fromSigner (Async.staker input) false in
  let config := fromAddress (Async.config input) false in
  let stakePool := fromAddress (Async.stakePool input) true in
  let stakeAccount := fromAddress (Async.stakeAccount input) true in
  let stakerTokenAccount := fromAddress (Some (Async.stakerTokenAccount input)) true in
  let stakerRewardAccount := fromAddress (Some (Async.stakerRewardAccount input)) true in
  let stakeVault := fromAddress (Some (Async.stakeVault input)) true in
  let rewardVault := fromAddress (Some (Async.rewardVault input)) true in
  let solansMint := fromAddress (Some (Async.solansMint input)) false in
  let paymentMint := fromAddress (Some (Async.paymentMint input)) false in
  let tokenProgram := fromAddress (Async.tokenProgram input) false in
  let args := Async.args input in
  config ← default_value config
      (pda ← findConfigPda None;
       Ok (VPda pda));
  stakePool ← default_value stakePool
      (pda ← findStakePoolPda None;
       Ok (VPda pda));
  stakeAccount ← default_value stakeAccount
      (pda ← (staker ← getAddressFromResolvedInstructionAccount (js "staker") (value staker);
         findStakeAccountPda {| Pdas.staker := staker |} None);
       Ok (VPda pda));
  tokenProgram ← default_value tokenProgram (Ok (VAddress (js "TokenkegQfeZyiNwAJbNbGKPFXCWuBvf9Ss623VQ5DA")));
  let getAccountMeta := getAccountMetaFactory programAddress (js "programId") in
  staker ← getAccountMeta (js "staker") staker;
  config ← getAccountMeta (js "config") config;
  stakePool ← getAccountMeta (js "stakePool") stakePool;
  stakeAccount ← getAccountMeta (js "stakeAccount") stakeAccount;
  stakerTokenAccount ← getAccountMeta (js "stakerTokenAccount") stakerTokenAccount;
  stakerRewardAccount ← getAccountMeta (js "stakerRewardAccount") stakerRewardAccount;
  stakeVault ← getAccountMeta (js "stakeVault") stakeVault;
  rewardVault ← getAccountMeta (js "rewardVault") rewardVault;
  solansMint ← getAccountMeta (js "solansMint") solansMint;
  paymentMint ← getAccountMeta (js "paymentMint") paymentMint;
  tokenProgram ← getAccountMeta (js "tokenProgram") tokenProgram;
  data ← Unstake.getUnstakeInstructionDataEncoder args;
  Ok {| programAddress := programAddress;
        accounts := [staker; config; stakePool; stakeAccount; stakerTokenAccount; stakerRewardAccount;
          stakeVault; rewardVault; solansMint; paymentMint; tokenProgram];
        data := data |}.

Definition getUnstakeInstructionAsync_addresses `{Kit} (input : Async.UnstakeAsyncInput)
    : result JsError (list (option Address)) :=
  config ← or_default (Async.config input)
      (pda ← findConfigPda None;
       Ok pda.1);
  stakePool ← or_default (Async.stakePool input)
      (pda ← findStakePoolPda None;
       Ok pda.1);
  stakeAccount ← or_default (Async.stakeAccount input)
      (pda ← findStakeAccountPda {| Pdas.staker := (signerAddress (Async.staker input)) |} None;
       Ok pda.1);
  tokenProgram ← or_default (Async.tokenProgram input) (Ok (js "TokenkegQfeZyiNwAJbNbGKPFXCWuBvf9Ss623VQ5DA"));
  Ok [Some (signerAddress (Async.staker input)); Some config; Some stakePool; Some stakeAccount;
      given (Some (Async.stakerTokenAccount input));
      given (Some (Async.stakerRewardAccount input));
      given (Some (Async.stakeVault input)); given (Some (Async.rewardVault input));
      given (Some (Async.solansMint input)); given (Some (Async.paymentMint input));
      Some tokenProgram].

Definition getUnstakeInstructionAsync_builder `{KS : KitSpec} `{PS : ProgramClientSpec} : InstructionBuilder.
Proof.
  refine {| kind := SolansInstruction.Unstake; Input := Async.UnstakeAsyncInput;
            args_of := Async.args : Async.UnstakeAsyncInput -> Args (instruction_codec SolansInstruction.Unstake);
            addresses := getUnstakeInstructionAsync_addresses; build := getUnstakeInstructionAsync |}.
  - builder_length getUnstakeInstructionAsync_addresses.
  - builder_refines getUnstakeInstructionAsync getUnstakeInstructionAsync_addresses.
Defined.

Module Sync.
Record UnstakeInput := MkInput {
  staker : TransactionSigner; config : Address; stakePool : Address; stakeAccount : Address;
  stakerTokenAccount : Address; stakerRewardAccount : Address; stakeVault : Address;
  rewardVault : Address; solansMint : Address; paymentMint : Address;
  tokenProgram : option Address; args : Unstake.UnstakeInstructionDataArgs
}.
End Sync.

Definition getUnstakeInstruction `{Kit} `{ProgramClientCore} (input : Sync.UnstakeInput)
    (programAddress : option Address) : result JsError Instruction :=
  let programAddress := default SOLANS_PROGRAM_ADDRESS programAddress in
  let staker := fromSigner (Sync.staker input) false in
  let config := fromAddress (Some (Sync.config input)) false in
  let stakePool := fromAddress (Some (Sync.stakePool input)) true in
  let stakeAccount := fromAddress (Some (Sync.stakeAccount input)) true in
  let stakerTokenAccount := fromAddress (Some (Sync.stakerTokenAccount input)) true in
  let stakerRewardAccount := fromAddress (Some (Sync.stakerRewardAccount input)) true in
  let stakeVault := fromAddress (Some (Sync.stakeVault input)) true in
  let rewardVault := fromAddress (Some (Sync.rewardVault input)) true in
  let solansMint := fromAddress (Some (Sync.solansMint input)) false in
  let paymentMint := fromAddress (Some (Sync.paymentMint input)) false in
  let tokenProgram := fromAddress (Sync.tokenProgram input) false in
  let args := Sync.args input in
  tokenProgram ← default_value tokenProgram (Ok (VAddress (js "TokenkegQfeZyiNwAJbNbGKPFXCWuBvf9Ss623VQ5DA")));
  let getAccountMeta := getAccountMetaFactory programAddress (js "programId") in
  staker ← getAccountMeta (js "staker") staker;
  config ← getAccountMeta (js "config") config;
  stakePool ← getAccountMeta (js "stakePool") stakePool;
  stakeAccount ← getAccountMeta (js "stakeAccount") stakeAccount;
  stakerTokenAccount ← getAccountMeta (js "stakerTokenAccount") stakerTokenAccount;
  stakerRewardAccount ← getAccountMeta (js "stakerRewardAccount") stakerRewardAccount;
  stakeVault ← getAccountMeta (js "stakeVault") stakeVault;
  rewardVault ← getAccountMeta (js "rewardVault") rewardVault;
  solansMint ← getAccountMeta (js "solansMint") solansMint;
  paymentMint ← getAccountMeta (js "paymentMint") paymentMint;
  tokenProgram ← getAccountMeta (js "tokenProgram") tokenProgram;
  data ← Unstake.getUnstakeInstructionDataEncoder args;
  Ok {| programAddress := programAddress;
        accounts := [staker; config; stakePool; stakeAccount; stakerTokenAccount; stakerRewardAccount;
          stakeVault; rewardVault; solansMint; paymentMint; tokenProgram];
        data := data |}.

Definition getUnstakeInstruction_addresses `{Kit} (input : Sync.UnstakeInput)
    : result JsError (list (option Address)) :=
  tokenProgram ← or_default (Sync.tokenProgram input) (Ok (js "TokenkegQfeZyiNwAJbNbGKPFXCWuBvf9Ss623VQ5DA"));
  Ok [Some (signerAddress (Sync.staker input)); given (Some (Sync.config input));
      given (Some (Sync.stakePool input)); given (Some (Sync.stakeAccount input));
      given (Some (Sync.stakerTokenAccount input));
      given (Some (Sync.stakerRewardAccount input)); given (Some (Sync.stakeVault input));
      given (Some (Sync.rewardVault input)); given (Some (Sync.solansMint input));
      given (Some (Sync.paymentMint input)); Some tokenProgram].

Definition getUnstakeInstruction_builder `{KS : KitSpec} `{PS : ProgramClientSpec} : InstructionBuilder.
Proof.
  refine {| kind := SolansInstruction.Unstake; Input := Sync.UnstakeInput;
            args_of := Sync.args : Sync.UnstakeInput -> Args (instruction_codec SolansInstruction.Unstake);
            addresses := getUnstakeInstruction_addresses; build := getUnstakeInstruction |}.
  - builder_length getUnstakeInstruction_addresses.
  - builder_refines getUnstakeInstruction getUnstakeInstruction_addresses.
Defined.

End UnstakeBuilder.

(** ** instructions/claimRewards.ts *)

Module ClaimRewardsBuilder.

Module Async.
Record ClaimRewardsAsyncInput := MkInput {
  staker : TransactionSigner; config : option Address; stakePool : option Address;
  stakeAccount : option Address; stakerRewardAccount : Address; rewardVault : Address;
  paymentMint : Address; tokenProgram : option Address
}.
End Async.

Definition getClaimRewardsInstructionAsync `{Kit} `{ProgramClientCore} (input : Async.ClaimRewardsAsyncInput)
    (programAddress : option Address) : result JsError Instruction :=
  let programAddress := default SOLANS_PROGRAM_ADDRESS programAddress in
  let staker := fromSigner (Async.staker input) false in
  let config := fromAddress (Async.config input) false in
  let stakePool := fromAddress (Async.stakePool input) true in
  let stakeAccount := fromAddress (Async.stakeAccount input) true in
  let stakerRewardAccount := fromAddress (Some (Async.stakerRewardAccount input)) true in
  let rewardVault := fromAddress (Some (Async.rewardVault input)) true in
  let paymentMint := fromAddress (Some (Async.paymentMint input)) false in
  let tokenProgram := fromAddress (Async.tokenProgram input) false in
  config ← default_value config
      (pda ← findConfigPda None;
       Ok (VPda pda));
  stakePool ← default_value stakePool
      (pda ← findStakePoolPda None;
       Ok (VPda pda));
  stakeAccount ← default_value stakeAccount
      (pda ← (staker ← getAddressFromResolvedInstructionAccount (js "staker") (value staker);
         findStakeAccountPda {| Pdas.staker := staker |} None);
       Ok (VPda pda));
  tokenProgram ← default_value tokenProgram (Ok (VAddress (js "TokenkegQfeZyiNwAJbNbGKPFXCWuBvf9Ss623VQ5DA")));
  let getAccountMeta := getAccountMetaFactory programAddress (js "programId") in
  staker ← getAccountMeta (js "staker") staker;
  config ← getAccountMeta (js "config") config;
  stakePool ← getAccountMeta (js "stakePool") stakePool;
  stakeAccount ← getAccountMeta (js "stakeAccount") stakeAccount;
  stakerRewardAccount ← getAccountMeta (js "stakerRewardAccount") stakerRewardAccount;
  rewardVault ← getAccountMeta (js "rewardVault") rewardVault;
  paymentMint ← getAccountMeta (js "paymentMint") paymentMint;
  tokenProgram ← getAccountMeta (js "tokenProgram") tokenProgram;
  data ← ClaimRewards.getClaimRewardsInstructionDataEncoder ClaimRewards.MkClaimRewardsInstructionDataArgs;
  Ok {| programAddress := programAddress;
        accounts := [staker; config; stakePool; stakeAccount; stakerRewardAccount; rewardVault;
          paymentMint; tokenProgram];
        data := data |}.

Definition getClaimRewardsInstructionAsync_addresses `{Kit} (input : Async.ClaimRewardsAsyncInput)
    : result JsError (list (option Address)) :=
  config ← or_default (Async.config input)
      (pda ← findConfigPda None;
       Ok pda.1);
  stakePool ← or_default (Async.stakePool input)
      (pda ← findStakePoolPda None;
       Ok pda.1);
  stakeAccount ← or_default (Async.stakeAccount input)
      (pda ← findStakeAccountPda {| Pdas.staker := (signerAddress (Async.staker input)) |} None;
       Ok pda.1);
  tokenProgram ← or_default (Async.tokenProgram input) (Ok (js "TokenkegQfeZyiNwAJbNbGKPFXCWuBvf9Ss623VQ5DA"));
  Ok [Some (signerAddress (Async.staker input)); Some config; Some stakePool; Some stakeAccount;
      given (Some (Async.stakerRewardAccount input));
      given (Some (Async.rewardVault input)); given (Some (Async.paymentMint input));
      Some tokenProgram].

Definition getClaimRewardsInstructionAsync_builder `{KS : KitSpec} `{PS : ProgramClientSpec} : InstructionBuilder.
Proof.
  refine {| kind := SolansInstruction.ClaimRewards; Input := Async.ClaimRewardsAsyncInput;
            args_of := (fun _ => ClaimRewards.MkClaimRewardsInstructionDataArgs) : Async.ClaimRewardsAsyncInput -> Args (instruction_codec SolansInstruction.ClaimRewards);
            addresses := getClaimRewardsInstructionAsync_addresses; build := getClaimRewardsInstructionAsync |}.
  - builder_length getClaimRewardsInstructionAsync_addresses.
  - builder_refines getClaimRewardsInstructionAsync getClaimRewardsInstructionAsync_addresses.
Defined.

Module Sync.
Record ClaimRewardsInput := MkInput {
  staker : TransactionSigner; config : Address; stakePool : Address; stakeAccount : Address;
  stakerRewardAccount : Address; rewardVault : Address; paymentMint : Address;
  tokenProgram : option Address
}.
End Sync.

Definition getClaimRewardsInstruction `{Kit} `{ProgramClientCore} (input : Sync.ClaimRewardsInput)
    (programAddress : option Address) : result JsError Instruction :=
  let programAddress := default SOLANS_PROGRAM_ADDRESS programAddress in
  let staker := fromSigner (Sync.staker input) false in
  let config := fromAddress (Some (Sync.config input)) false in
  let stakePool := fromAddress (Some (Sync.stakePool input)) true in
  let stakeAccount := fromAddress (Some (Sync.stakeAccount input)) true in
  let stakerRewardAccount := fromAddress (Some (Sync.stakerRewardAccount input)) true in
  let rewardVault := fromAddress (Some (Sync.rewardVault input)) true in
  let paymentMint := fromAddress (Some (Sync.paymentMint input)) false in
  let tokenProgram := fromAddress (Sync.tokenProgram input) false in
  tokenProgram ← default_value tokenProgram (Ok (VAddress (js "TokenkegQfeZyiNwAJbNbGKPFXCWuBvf9Ss623VQ5DA")));
  let getAccountMeta := getAccountMetaFactory programAddress (js "programId") in
  staker ← getAccountMeta (js "staker") staker;
  config ← getAccountMeta (js "config") config;
  stakePool ← getAccountMeta (js "stakePool") stakePool;
  stakeAccount ← getAccountMeta (js "stakeAccount") stakeAccount;
  stakerRewardAccount ← getAccountMeta (js "stakerRewardAccount") stakerRewardAccount;
  rewardVault ← getAccountMeta (js "rewardVault") rewardVault;
  paymentMint ← getAccountMeta (js "paymentMint") paymentMint;
  tokenProgram ← getAccountMeta (js "tokenProgram") tokenProgram;
  data ← ClaimRewards.getClaimRewardsInstructionDataEncoder ClaimRewards.MkClaimRewardsInstructionDataArgs;
  Ok {| programAddress := programAddress;
        accounts := [staker; config; stakePool; stakeAccount; stakerRewardAccount; rewardVault;
          paymentMint; tokenProgram];
        data := data |}.

Definition getClaimRewardsInstruction_addresses `{Kit} (input : Sync.ClaimRewardsInput)
    : result JsError (list (option Address)) :=
  tokenProgram ← or_default (Sync.tokenProgram input) (Ok (js "TokenkegQfeZyiNwAJbNbGKPFXCWuBvf9Ss623VQ5DA"));
  Ok [Some (signerAddress (Sync.staker input)); given (Some (Sync.config input));
      given (Some (Sync.stakePool input)); given (Some (Sync.stakeAccount input));
      given (Some (Sync.stakerRewardAccount input));
      given (Some (Sync.rewardVault input)); given (Some (Sync.paymentMint input));
      Some tokenProgram].

Definition getClaimRewardsInstruction_builder `{KS : KitSpec} `{PS : ProgramClientSpec} : InstructionBuilder.
Proof.
  refine {| kind := SolansInstruction.ClaimRewards; Input := Sync.ClaimRewardsInput;
            args_of := (fun _ => ClaimRewards.MkClaimRewardsInstructionDataArgs) : Sync.ClaimRewardsInput -> Args (instruction_codec SolansInstruction.ClaimRewards);
            addresses := getClaimRewardsInstruction_addresses; build := getClaimRewardsInstruction |}.
  - builder_length getClaimRewardsInstruction_addresses.
  - builder_refines getClaimRewardsInstruction getClaimRewardsInstruction_addresses.
Defined.

End ClaimRewardsBuilder.
