(* ===== verification/Builders.v ===== *)
(** * The instruction builders together

    The sixty-four builders of the generated client by name, and what they all
    guarantee: the instruction built parses back to the arguments, its accounts
    are those the program declares, at the addresses given or derived, with the
    declared signer and writable roles. *)
From S2P Require Import Prelude JsString Kit SmallKit Pdas Instruction NameInstructions.
From S2P Require Import MarketInstructions TokenInstructions Program ProgramAccounts ProgramClient.
From S2P Require Import NameBuilders MarketBuilders TokenBuilders.

Module Builder.
Inductive t :=
| RegisterNameAsync
| RegisterName
| RenewNameAsync
| RenewName
| AutoRenewAsync
| AutoRenew
| ClaimExpiredAsync
| ClaimExpired
| TransferName
| LockTransfer
| BurnName
| UpdateRecord
| SetController
| SetResolver
| SetHosting
| SetReverseAsync
| SetReverse
| Resolve
| WrapSubdomainAsync
| WrapSubdomain
| RevokeSubdomain
| TokenizeNameAsync
| TokenizeName
| RedeemNameAsync
| RedeemName
| ListName
| UpdateListing
| CancelListing
| BuyNameAsync
| BuyName
| MakeOffer
| CancelOffer
| AcceptOfferAsync
| AcceptOffer
| StartAuctionAsync
| StartAuction
| Bid
| CancelAuction
| SettleAuctionAsync
| SettleAuction
| InitConfigAsync
| InitConfig
| UpdateConfigAsync
| UpdateConfig
| TransferAdminAsync
| TransferAdmin
| InitBurnPoolAsync
| InitBurnPool
| SetSolansParamsAsync
| SetSolansParams
| RegisterWithSolansAsync
| RegisterWithSolans
| RenewWithSolansAsync
| RenewWithSolans
| BuybackBurnAsync
| BuybackBurn
| InitStakePoolAsync
| InitStakePool
| StakeAsync
| Stake
| UnstakeAsync
| Unstake
| ClaimRewardsAsync
| ClaimRewards.
End Builder.

Definition builder `{KS : KitSpec} `{PS : ProgramClientSpec} (b : Builder.t) : InstructionBuilder :=
  match b with
  | Builder.RegisterNameAsync => RegisterNameBuilder.getRegisterNameInstructionAsync_builder
  | Builder.RegisterName => RegisterNameBuilder.getRegisterNameInstruction_builder
  | Builder.RenewNameAsync => RenewNameBuilder.getRenewNameInstructionAsync_builder
  | Builder.RenewName => RenewNameBuilder.getRenewNameInstruction_builder
  | Builder.AutoRenewAsync => AutoRenewBuilder.getAutoRenewInstructionAsync_builder
  | Builder.AutoRenew => AutoRenewBuilder.getAutoRenewInstruction_builder
  | Builder.ClaimExpiredAsync => ClaimExpiredBuilder.getClaimExpiredInstructionAsync_builder
  | Builder.ClaimExpired => ClaimExpiredBuilder.getClaimExpiredInstruction_builder
  | Builder.TransferName => TransferNameBuilder.getTransferNameInstruction_builder
  | Builder.LockTransfer => LockTransferBuilder.getLockTransferInstruction_builder
  | Builder.BurnName => BurnNameBuilder.getBurnNameInstruction_builder
  | Builder.UpdateRecord => UpdateRecordBuilder.getUpdateRecordInstruction_builder
  | Builder.SetController => SetControllerBuilder.getSetControllerInstruction_builder
  | Builder.SetResolver => SetResolverBuilder.getSetResolverInstruction_builder
  | Builder.SetHosting => SetHostingBuilder.getSetHostingInstruction_builder
  | Builder.SetReverseAsync => SetReverseBuilder.getSetReverseInstructionAsync_builder
  | Builder.SetReverse => SetReverseBuilder.getSetReverseInstruction_builder
  | Builder.Resolve => ResolveBuilder.getResolveInstruction_builder
  | Builder.WrapSubdomainAsync => WrapSubdomainBuilder.getWrapSubdomainInstructionAsync_builder
  | Builder.WrapSubdomain => WrapSubdomainBuilder.getWrapSubdomainInstruction_builder
  | Builder.RevokeSubdomain => RevokeSubdomainBuilder.getRevokeSubdomainInstruction_builder
  | Builder.TokenizeNameAsync => TokenizeNameBuilder.getTokenizeNameInstructionAsync_builder
  | Builder.TokenizeName => TokenizeNameBuilder.getTokenizeNameInstruction_builder
  | Builder.RedeemNameAsync => RedeemNameBuilder.getRedeemNameInstructionAsync_builder
  | Builder.RedeemName => RedeemNameBuilder.getRedeemNameInstruction_builder
  | Builder.ListName => ListNameBuilder.getListNameInstruction_builder
  | Builder.UpdateListing => UpdateListingBuilder.getUpdateListingInstruction_builder
  | Builder.CancelListing => CancelListingBuilder.getCancelListingInstruction_builder
  | Builder.BuyNameAsync => BuyNameBuilder.getBuyNameInstructionAsync_builder
  | Builder.BuyName => BuyNameBuilder.getBuyNameInstruction_builder
  | Builder.MakeOffer => MakeOfferBuilder.getMakeOfferInstruction_builder
  | Builder.CancelOffer => CancelOfferBuilder.getCancelOfferInstruction_builder
  | Builder.AcceptOfferAsync => AcceptOfferBuilder.getAcceptOfferInstructionAsync_builder
  | Builder.AcceptOffer => AcceptOfferBuilder.getAcceptOfferInstruction_builder
  | Builder.StartAuctionAsync => StartAuctionBuilder.getStartAuctionInstructionAsync_builder
  | Builder.StartAuction => StartAuctionBuilder.getStartAuctionInstruction_builder
  | Builder.Bid => BidBuilder.getBidInstruction_builder
  | Builder.CancelAuction => CancelAuctionBuilder.getCancelAuctionInstruction_builder
  | Builder.SettleAuctionAsync => SettleAuctionBuilder.getSettleAuctionInstructionAsync_builder
  | Builder.SettleAuction => SettleAuctionBuilder.getSettleAuctionInstruction_builder
  | Builder.InitConfigAsync => InitConfigBuilder.getInitConfigInstructionAsync_builder
  | Builder.InitConfig => InitConfigBuilder.getInitConfigInstruction_builder
  | Builder.UpdateConfigAsync => UpdateConfigBuilder.getUpdateConfigInstructionAsync_builder
  | Builder.UpdateConfig => UpdateConfigBuilder.getUpdateConfigInstruction_builder
  | Builder.TransferAdminAsync => TransferAdminBuilder.getTransferAdminInstructionAsync_builder
  | Builder.TransferAdmin => TransferAdminBuilder.getTransferAdminInstruction_builder
  | Builder.InitBurnPoolAsync => InitBurnPoolBuilder.getInitBurnPoolInstructionAsync_builder
  | Builder.InitBurnPool => InitBurnPoolBuilder.getInitBurnPoolInstruction_builder
  | Builder.SetSolansParamsAsync => SetSolansParamsBuilder.getSetSolansParamsInstructionAsync_builder
  | Builder.SetSolansParams => SetSolansParamsBuilder.getSetSolansParamsInstruction_builder
  | Builder.RegisterWithSolansAsync => RegisterWithSolansBuilder.getRegisterWithSolansInstructionAsync_builder
  | Builder.RegisterWithSolans => RegisterWithSolansBuilder.getRegisterWithSolansInstruction_builder
  | Builder.RenewWithSolansAsync => RenewWithSolansBuilder.getRenewWithSolansInstructionAsync_builder
  | Builder.RenewWithSolans => RenewWithSolansBuilder.getRenewWithSolansInstruction_builder
  | Builder.BuybackBurnAsync => BuybackBurnBuilder.getBuybackBurnInstructionAsync_builder
  | Builder.BuybackBurn => BuybackBurnBuilder.getBuybackBurnInstruction_builder
  | Builder.InitStakePoolAsync => InitStakePoolBuilder.getInitStakePoolInstructionAsync_builder
  | Builder.InitStakePool => InitStakePoolBuilder.getInitStakePoolInstruction_builder
  | Builder.StakeAsync => StakeBuilder.getStakeInstructionAsync_builder
  | Builder.Stake => StakeBuilder.getStakeInstruction_builder
  | Builder.UnstakeAsync => UnstakeBuilder.getUnstakeInstructionAsync_builder
  | Builder.Unstake => UnstakeBuilder.getUnstakeInstruction_builder
  | Builder.ClaimRewardsAsync => ClaimRewardsBuilder.getClaimRewardsInstructionAsync_builder
  | Builder.ClaimRewards => ClaimRewardsBuilder.getClaimRewardsInstruction_builder
  end.


(** ** Laws of every builder *)

Section Laws.
Context `{KS : KitSpec} `{PS : ProgramClientSpec}.

Lemma meta_spec_lookup pa decls addrs i d a :
  decls !! i = Some d -> addrs !! i = Some (Some a) ->
  zip_with (meta_spec pa) decls addrs !! i
  = Some {| address := a; role := role_of (declSigner d) (declMut d) |}.
Proof. intros Hd Ha. by rewrite lookup_zip_with, Hd, Ha. Qed.

Lemma meta_spec_omitted pa decls addrs i d :
  decls !! i = Some d -> addrs !! i = Some None ->
  zip_with (meta_spec pa) decls addrs !! i = Some {| address := pa; role := READONLY |}.
Proof. intros Hd Ha. by rewrite lookup_zip_with, Hd, Ha. Qed.

(** What a builder returns when it returns. *)
Lemma built (b : InstructionBuilder) input pa ix : build b input pa = Ok ix ->
  exists addrs bs, addresses b input = Ok addrs
    /\ encoder (instruction_codec (kind b)) (args_of b input) = Ok bs
    /\ length addrs = length (declared (kind b))
    /\ ix = {| programAddress := default SOLANS_PROGRAM_ADDRESS pa;
               accounts := zip_with (meta_spec (default SOLANS_PROGRAM_ADDRESS pa))
                 (declared (kind b)) addrs;
               data := bs |}.
Proof.
  rewrite build_refines. unfold build_spec. intros HB.
  apply result_bind_Ok in HB as (addrs & Ha & HB). apply result_bind_Ok in HB as (bs & Hb & HB).
  injection HB as <-. exists addrs, bs. split_and!; [done..|by apply (addresses_length b input)|done].
Qed.

Lemma declared_length k : length (declared k) = length (slots (instruction_codec k)).
Proof. rewrite <-declared_slots. by rewrite length_map. Qed.

(** C25: What each of the sixty-four generated builders returns parses back to the arguments
    it was given; its accounts are those the program declares, in order, at the addresses
    given or derived, with the declared signer and writable roles, an omitted optional
    account being the program's address. *)
Theorem built_instructions_parse (b : Builder.t) input ix :
  object_ok (instruction_codec (kind (builder b))) (args_of (builder b) input) ->
  build (builder b) input None = Ok ix ->
  exists addrs p, addresses (builder b) input = Ok addrs
    /\ parseSolansInstruction ix = Ok (inject (kind (builder b)) p)
    /\ parsed_program _ p = SOLANS_PROGRAM_ADDRESS
    /\ parsed_data _ p = object (instruction_codec (kind (builder b))) (args_of (builder b) input)
    /\ parsed_accounts _ p
       = read_slots (slots (instruction_codec (kind (builder b)))) (accounts ix)
    /\ length (accounts ix) = length (declared (kind (builder b)))
    /\ forall i d, declared (kind (builder b)) !! i = Some d ->
         (forall a, addrs !! i = Some (Some a) -> accounts ix !! i
            = Some {| address := a; role := role_of (declSigner d) (declMut d) |})
         /\ (addrs !! i = Some None -> accounts ix !! i
            = Some {| address := SOLANS_PROGRAM_ADDRESS; role := READONLY |}).
Proof.
  intros Hok HB. apply built in HB as (addrs & bs & Ha & Hb & Hlen & ->).
  set (B := builder b) in *. cbn [accounts programAddress default].
  assert (Hl : length (zip_with (meta_spec SOLANS_PROGRAM_ADDRESS) (declared (kind B)) addrs)
    = length (declared (kind B))) by (rewrite length_zip_with; lia).
  destruct (parsed_instruction (kind B) (args_of B input) SOLANS_PROGRAM_ADDRESS
    (zip_with (meta_spec SOLANS_PROGRAM_ADDRESS) (declared (kind B)) addrs) bs [] Hok)
    as (p & HP & Hprog & Haccs & Hdata); [by rewrite Hl, declared_length|done|].
  rewrite app_nil_r in HP. exists addrs, p. split_and!; try done.
  intros i d Hd. split; [intros a|]; [by apply meta_spec_lookup|intros; by apply (meta_spec_omitted _ _ _ _ d)].
Qed.

(** On encodable arguments a builder fails only with the error of an address
    derivation, and otherwise returns an instruction for the program address asked for whose
    data starts with its discriminator. *)
Theorem builders_fail_only_on_derivation (b : Builder.t) input pa :
  object_ok (instruction_codec (kind (builder b))) (args_of (builder b) input) ->
  (forall e, build (builder b) input pa = Err e <-> addresses (builder b) input = Err e)
  /\ (is_Ok (addresses (builder b) input) = true -> exists ix,
        build (builder b) input pa = Ok ix
        /\ programAddress ix = default SOLANS_PROGRAM_ADDRESS pa
        /\ take 8 (data ix) = tag (instruction_codec (kind (builder b)))).
Proof.
  intros Hok. rewrite build_refines. unfold build_spec.
  destruct (object_law _ _ Hok) as (bs & He & _).
  pose proof (tag_law _ _ _ He) as Ht. rewrite He.
  destruct (addresses (builder b) input) as [addrs|e']; cbn [mbind result_bind is_Ok].
  - split; [done|]. intros _. eexists. split; [reflexivity|]. by split.
  - split; [intros e; split; by intros [= ->]|done].
Qed.
End Laws.

(** ** Concrete builders *)

(** A program-client core with the documented behaviour. *)
#[export] Instance SmallCore : ProgramClientCore := {
  getAccountMetaFactory := fun pa strategy name r =>
    match value r with
    | Some v => if missing (Some v) then Ok {| address := pa; role := READONLY |}
                else Ok {| address := value_address v; role := role_of (is_signer v) (isWritable r) |}
    | None => Ok {| address := pa; role := READONLY |}
    end;
  getAddressFromResolvedInstructionAccount := fun name v =>
    of_option (MkError (js "Unexpected resolved instruction input")) (value_address <$> v);
  getNonNullResolvedInstructionInput := fun T name v =>
    of_option (MkError (js "Unexpected resolved instruction input")) v;
}.

#[export] Instance SmallCore_spec : ProgramClientSpec SmallCore.
Proof.
  split; try done.
  - intros pa name [[v|] w] Hm; cbn in *; [by rewrite Hm|done].
  - intros pa name v w Hm. cbn in *. by rewrite Hm.
Qed.

(** An update of a record by its owner, the NFT account omitted. *)
Definition sample_update : Input (builder Builder.UpdateRecord) :=
  UpdateRecordBuilder.Sync.MkInput (MkSigner (small_addr 1)) (small_addr 2) None
    (UpdateRecord.MkUpdateRecordInstructionDataArgs (js "url") (Some (js "https://alex.example"))).

Definition built_update (pa : option Address) : Instruction :=
  match build (builder Builder.UpdateRecord) sample_update pa with
  | Ok ix => ix
  | Err _ => {| programAddress := []; accounts := []; data := [] |}
  end.

Lemma sample_update_ok :
  object_ok (instruction_codec SolansInstruction.UpdateRecord)
    (args_of (builder Builder.UpdateRecord) sample_update).
Proof. vm_compute. repeat split; try discriminate; by left. Defined.

Lemma built_instructions_parse_witness :
  exists p, parseSolansInstruction (built_update None)
    = Ok (inject SolansInstruction.UpdateRecord p)
    /\ accounts (built_update None) !! 0%nat
       = Some {| address := small_addr 1; role := READONLY_SIGNER |}.
Proof.
  destruct (built_instructions_parse Builder.UpdateRecord sample_update (built_update None)
    sample_update_ok ltac:(vm_compute; reflexivity))
    as (addrs & p & Ha & HP & _ & _ & _ & _ & Hacc).
  exists p. split; [exact HP|].
  refine (proj1 (Hacc 0%nat (MkDecl "authority" true false false) _) (small_addr 1) _).
  - vm_compute. reflexivity.
  - vm_compute in Ha. injection Ha as <-. vm_compute. reflexivity.
Defined.

Lemma builders_fail_only_on_derivation_witness :
  exists ix, build (builder Builder.UpdateRecord) sample_update None = Ok ix
    /\ programAddress ix = SOLANS_PROGRAM_ADDRESS.
Proof.
  destruct (proj2 (builders_fail_only_on_derivation Builder.UpdateRecord sample_update None
    sample_update_ok) ltac:(vm_compute; reflexivity)) as (ix & HB & Hp & _).
  exists ix. split; [exact HB|exact Hp].
Defined.

(** Under another program address an omitted optional account is that address,
    which the parser, comparing with SOLANS_PROGRAM_ADDRESS, takes for an account. *)
Lemma override_breaks_optional_accounts :
  let ix := built_update (Some (small_addr 5)) in
  exists p, UpdateRecord.parseUpdateRecordInstruction ix = Ok p
    /\ UpdateRecord.Accounts.nftTokenAccount (UpdateRecord.accounts p)
       = Some {| address := small_addr 5; role := READONLY |}.
Proof. eexists. split; vm_compute; reflexivity. Qed.
