(* ===== verification/HashName.v ===== *)
(** * Name hashes and the addresses derived from them

    src/clients/ts/src/hashName.ts.  A top-level name hashes flat
    (keccak of [name.tld]); a subdomain folds its label into its parent's hash,
    root first.  The theorems relate the client's hashes to the program's
    ([compute_name_hash], [compute_subdomain_hash] of OnChain.v), show that two
    paths with the same hash are the same path unless keccak itself collides,
    and that the client derives its accounts from the program's seeds. *)
From S2P Require Import Prelude JsString Errors OnChain Kit SmallKit Pdas Normalize.

Section Hash.
Context `{Keccak, Unicode, Kit}.

Definition computeNameHash (name tld : jsstring) : bytes :=
  keccak_256 (textEncode (name ++ js "." ++ tld)).

Definition computeSubdomainHash (parentHash : bytes) (label : jsstring) : bytes :=
  let labelBytes := textEncode label in
  keccak_256 ([0] ++ parentHash ++ labelBytes).

Record NameInfo := MkNameInfo {
  labels : list jsstring;
  tld : jsstring;
  hash : bytes;
  parentHash : option bytes;
  depth : Z;
}.

(** The loop of [nameInfo] from [i = length - 2] down to 0: [rest] holds the
    labels still to fold, root-most first. *)
Fixpoint foldHash (rest : list jsstring) (hash : bytes) (parentHash : option bytes)
    : bytes * option bytes :=
  match rest with
  | [] => (hash, parentHash)
  | label :: rest => foldHash rest (computeSubdomainHash hash label) (Some hash)
  end.

(** [labels] is never empty ([split] returns at least one string); the last
    case, where the source would hash [undefined], is unreachable. *)
Definition nameInfo (input : jsstring) (tldOverride : option jsstring)
    : result JsError NameInfo :=
  '(labels, tld) ← parsePath input tldOverride;
  match rev labels with
  | root :: rest =>
      let '(hash, parentHash) := foldHash rest (computeNameHash root tld) None in
      Ok (MkNameInfo labels tld hash parentHash (Z.of_nat (length labels) - 1))
  | [] => Error (js "unreachable")
  end.

(** [nameParts]: label, tld and hash of a single-label name. *)
Definition nameParts (input : jsstring) (tldOverride : option jsstring)
    : result JsError (jsstring * jsstring * bytes) :=
  '(name, tld) ← parseName input tldOverride;
  Ok (name, tld, computeNameHash name tld).

Definition nameHashFor (input : jsstring) (tldOverride : option jsstring)
    : result JsError bytes :=
  info ← nameInfo input tldOverride; Ok (hash info).

Definition LISTING_SEED : bytes := textEncode (js "listing").
Definition OFFER_SEED : bytes := textEncode (js "offer").
Definition AUCTION_SEED : bytes := textEncode (js "auction").

Definition findNameRecord (input : jsstring) (tldOverride : option jsstring)
    : result JsError ProgramDerivedAddress :=
  h ← nameHashFor input tldOverride;
  findNameRecordPda {| nameHash := h |} None.

Definition findListing (input : jsstring) (tldOverride : option jsstring)
    : result JsError ProgramDerivedAddress :=
  h ← nameHashFor input tldOverride;
  getProgramDerivedAddress SOLANS_PROGRAM_ADDRESS [LISTING_SEED; h].

Definition findOffer (input : jsstring) (buyer : Address) (tldOverride : option jsstring)
    : result JsError ProgramDerivedAddress :=
  h ← nameHashFor input tldOverride;
  b ← getAddressEncoder buyer;
  getProgramDerivedAddress SOLANS_PROGRAM_ADDRESS [OFFER_SEED; h; b].

Definition findAuction (input : jsstring) (tldOverride : option jsstring)
    : result JsError ProgramDerivedAddress :=
  h ← nameHashFor input tldOverride;
  getProgramDerivedAddress SOLANS_PROGRAM_ADDRESS [AUCTION_SEED; h].
End Hash.

(** ** The program's seeds (constants.rs) *)

Definition CONFIG_SEED : bytes := js "config".
Definition NAME_SEED : bytes := js "name".
Definition REVERSE_SEED : bytes := js "reverse".
Definition PROGRAM_LISTING_SEED : bytes := js "listing".
Definition PROGRAM_OFFER_SEED : bytes := js "offer".
Definition STAKE_POOL_SEED : bytes := js "stake_pool".
Definition STAKE_SEED : bytes := js "stake".
Definition PROGRAM_AUCTION_SEED : bytes := js "auction".

(** ** The program's hash of a path

    What the program stores as [name_hash] of a path of labels, leaf first:
    registering the root computes [compute_name_hash], wrapping each subdomain
    computes [compute_subdomain_hash] from the parent's stored hash. *)
Fixpoint program_hash `{Keccak} (labels : list (list Z)) (tld : list Z) : bytes :=
  match labels with
  | [] => []
  | [root] => compute_name_hash root tld
  | label :: parent => compute_subdomain_hash (program_hash parent tld) label
  end.

(** ** Encoding of parsed labels *)

Lemma canonical_encode l :
  canonical_label (codePoints l) -> textEncode l = as_bytes (codePoints l).
Proof. intros [_ H _ _ _]. by apply textEncode_well_formed, allowed_well_formed. Qed.

Lemma allowed_tld_ascii t : In t ALLOWED_TLDS -> forallb is_ascii t = true.
Proof. intros H. cbn in H. by repeat destruct H as [<-|H]. Qed.

(** The text a top-level name hashes. *)
Lemma root_preimage name tld :
  canonical_label (codePoints name) -> In tld ALLOWED_TLDS ->
  textEncode (name ++ js "." ++ tld) = as_bytes (codePoints name) ++ js "." ++ as_bytes tld.
Proof.
  intros [_ Hn _ _ _] Ht. apply allowed_tld_ascii in Ht as Ha.
  assert (Hr : forallb is_ascii (js "." ++ tld) = true) by (rewrite forallb_app, Ha; done).
  assert (Hc : codePoints (name ++ js "." ++ tld) = codePoints name ++ js "." ++ tld).
  { rewrite codePoints_app, (codePoints_ascii (js "." ++ tld)); done. }
  assert (Hw : well_formed (name ++ js "." ++ tld) = true).
  { unfold well_formed. rewrite Hc, forallb_app. apply andb_true_iff. split.
    - by apply allowed_well_formed.
    - rewrite forallb_forall in Hr |- *. intros c Hin. apply Hr in Hin.
      unfold is_ascii, is_scalar, is_surrogate in *. bool_prop.
      rewrite (proj2 (Z.leb_le _ _)), (proj2 (Z.leb_le _ _)), (proj2 (Z.leb_gt 0xD800 c)) by lia.
      done. }
  rewrite textEncode_well_formed, Hc by done. unfold as_bytes. by rewrite !flat_map_app.
Qed.

Section Parity.
Context `{KS : KeccakSpec} `{Unicode}.

Lemma computeNameHash_program name tld :
  canonical_label (codePoints name) -> In tld ALLOWED_TLDS ->
  computeNameHash name tld = compute_name_hash (codePoints name) tld.
Proof.
  intros Hn Ht. unfold computeNameHash, compute_name_hash.
  rewrite hashv_concat, root_preimage by done. cbn [List.concat]. by rewrite app_nil_r.
Qed.

Lemma computeSubdomainHash_program parent label :
  canonical_label (codePoints label) ->
  computeSubdomainHash parent label = compute_subdomain_hash parent (codePoints label).
Proof.
  intros Hl. unfold computeSubdomainHash, compute_subdomain_hash.
  rewrite hashv_concat, canonical_encode by done. cbn [List.concat]. by rewrite app_nil_r.
Qed.

(** The loop computes the program's hash of the path folded so far; the second
    component is the hash one level up. *)
Lemma foldHash_program rest folded tld parent :
  folded <> [] -> Forall (fun l => canonical_label (codePoints l)) rest ->
  foldHash rest (program_hash (map codePoints folded) tld) parent =
    (program_hash (map codePoints (rev rest ++ folded)) tld,
     match rest with
     | [] => parent
     | _ => Some (program_hash (map codePoints (tail (rev rest ++ folded))) tld)
     end).
Proof.
  revert folded parent. induction rest as [|l rest IH]; intros folded parent Hf Hr; [done|].
  inversion_clear Hr as [|? ? Hl Hrest]. cbn [foldHash].
  assert (Hstep : computeSubdomainHash (program_hash (map codePoints folded) tld) l
                  = program_hash (map codePoints (l :: folded)) tld).
  { rewrite computeSubdomainHash_program by done. by destruct folded. }
  rewrite Hstep, IH by done. cbn [rev]. rewrite <- app_assoc. cbn [app].
  destruct rest as [|l' rest]; [done|]. done.
Qed.

Lemma nameInfo_Ok input o info :
  nameInfo input o = Ok info ->
  parsePath input o = Ok (labels info, tld info)
  /\ labels info <> [] /\ (length (labels info) <= 5)%nat
  /\ Forall (fun l => canonical_label (codePoints l)) (labels info)
  /\ In (tld info) ALLOWED_TLDS
  /\ hash info = program_hash (map codePoints (labels info)) (tld info)
  /\ parentHash info = match labels info with
                       | [] | [_] => None
                       | _ :: parent => Some (program_hash (map codePoints parent) (tld info))
                       end
  /\ depth info = Z.of_nat (length (labels info)) - 1.
Proof.
  unfold nameInfo. intros HI. apply result_bind_Ok in HI as ([ls t] & HP & HI).
  assert (HP' := HP). apply parsePath_Ok in HP' as (r & t0 & Hs & Ho & -> & Hlen & Hls).
  assert (Ht : In t ALLOWED_TLDS).
  { eapply overrideTld_allowed; [|done]. by eapply splitTld_allowed. }
  destruct (rev (split 46 r)) as [|root rest] eqn:Hrev; [done|].
  assert (Hsp : split 46 r = rev rest ++ [root])
    by (rewrite <- (rev_involutive (split 46 r)), Hrev; done).
  rewrite Hsp in *. apply Forall_app in Hls as [Hrest Hroot].
  inversion_clear Hroot as [|? ? Hroot' _].
  assert (Hh : computeNameHash root t = program_hash (map codePoints [root]) t)
    by by apply computeNameHash_program.
  assert (Hrest' := List.Forall_rev Hrest). rewrite rev_involutive in Hrest'.
  rewrite Hh, foldHash_program in HI by done.
  injection HI as <-. cbn [labels tld hash parentHash depth].
  split; [done|]. split; [by destruct (rev rest)|]. split; [done|].
  split; [apply Forall_app; auto|]. split; [done|]. split; [done|]. split; [|done].
  destruct rest as [|l rest]; [done|].
  assert (Hne : rev (l :: rest) <> []) by (cbn; by destruct (rev rest)).
  destruct (rev (l :: rest)) as [|x [|y xs]]; done.
Qed.

(** C17: When nameInfo accepts an input, the hash, the parent hash and the depth it returns
    are those the program computes by compute_name_hash and compute_subdomain_hash over the
    labels, and every label and the TLD pass the program's validation. *)
Theorem nameInfo_matches_program input o info :
  nameInfo input o = Ok info ->
  hash info = program_hash (map codePoints (labels info)) (tld info)
  /\ parentHash info = match labels info with
                       | [] | [_] => None
                       | _ :: parent => Some (program_hash (map codePoints parent) (tld info))
                       end
  /\ depth info = Z.of_nat (length (labels info)) - 1
  /\ 0 <= depth info <= MAX_SUBDOMAIN_DEPTH
  /\ Forall (fun l => validate_name (codePoints l) = Ok tt) (labels info)
  /\ validate_tld (tld info) = Ok tt.
Proof.
  intros HI. apply nameInfo_Ok in HI as (_ & Hne & Hlen & Hls & Ht & Hh & Hp & Hd).
  split; [done|]. split; [done|]. split; [done|].
  split; [unfold MAX_SUBDOMAIN_DEPTH; destruct (labels info); [done|cbn in *; lia]|].
  split; [|by apply allowed_tld_validate].
  eapply List.Forall_impl; [|exact Hls]. intros l. apply validate_name_canonical.
Qed.

Lemma nameInfo_total input o ls t :
  parsePath input o = Ok (ls, t) -> exists info, nameInfo input o = Ok info
    /\ labels info = ls /\ tld info = t.
Proof.
  intros HP. assert (Hne : rev ls <> []).
  { apply parsePath_sound in HP as [Hlen _]. destruct ls; [cbn in Hlen; lia|].
    cbn. by destruct (rev ls). }
  unfold nameInfo. rewrite HP. cbn [mbind result_bind].
  destruct (rev ls) as [|root rest]; [done|].
  destruct (foldHash _ _ _) as [h p]. by eexists.
Qed.

(** A single-label name is a path of one label, with the same hash. *)
Lemma nameParts_nameInfo input o label tld h :
  nameParts input o = Ok (label, tld, h) -> nameInfo input o = Ok (MkNameInfo [label] tld h None 0).
Proof.
  unfold nameParts. intros HN. apply result_bind_Ok in HN as ([n t] & HP & HN).
  injection HN as <- <- <-. apply parseName_parsePath in HP.
  unfold nameInfo. by rewrite HP.
Qed.

(** The dotted name of a child of an accepted name is accepted, with the hash the
    program computes from the parent's. *)
Lemma nameInfo_child `{!UnicodeSpec H} parent o p l :
  nameInfo parent o = Ok p -> (length (labels p) <= 4)%nat ->
  canonical_label (codePoints l) -> Forall no_brackets (l :: labels p) ->
  exists c, nameInfo (l ++ js "." ++ join (js ".") (labels p ++ [tld p])) None = Ok c
    /\ labels c = l :: labels p /\ tld c = tld p
    /\ hash c = computeSubdomainHash (hash p) l.
Proof.
  intros HP Hlen Hl Hb. apply nameInfo_Ok in HP as (_ & Hne & _ & Hls & Ht & Hh & _).
  destruct (nameInfo_total (join (js ".") ((l :: labels p) ++ [tld p])) None (l :: labels p) (tld p))
    as (c & HC & HL & HT).
  { apply parsePath_join; [done|cbn; lia|by constructor|done..]. }
  exists c. split_and!; [|done..|].
  - rewrite <- HC. cbn [app join]. destruct (labels p ++ [tld p]) eqn:E; [by destruct (labels p)|done].
  - apply nameInfo_Ok in HC as (_ & _ & _ & _ & _ & -> & _). rewrite HL, HT, Hh.
    rewrite computeSubdomainHash_program by done. by destruct (labels p).
Qed.

(** Two different inputs of keccak with the same digest. *)
Definition keccak_collision : Prop := exists m1 m2, m1 <> m2 /\ keccak_256 m1 = keccak_256 m2.

Lemma keccak_eq m1 m2 : keccak_256 m1 = keccak_256 m2 -> m1 = m2 \/ keccak_collision.
Proof.
  intros E. destruct (decide (m1 = m2)) as [|N]; [by left|]. right. by exists m1, m2.
Qed.

Lemma program_hash_length ls tld : ls <> [] -> length (program_hash ls tld) = 32%nat.
Proof.
  destruct ls as [|l [|l' ls]]; [done|..]; intros _; cbn [program_hash];
    unfold compute_name_hash, compute_subdomain_hash; rewrite hashv_concat; apply keccak_length.
Qed.

(** What a path hashes: a top-level preimage starts with its label, a
    subdomain's with a zero byte. *)
Definition preimage (ls : list (list Z)) (tld : list Z) : bytes :=
  match ls with
  | [] => []
  | [root] => as_bytes root ++ js "." ++ as_bytes tld
  | label :: parent => 0 :: program_hash parent tld ++ as_bytes label
  end.

Lemma program_hash_preimage ls tld : ls <> [] ->
  program_hash ls tld = keccak_256 (preimage ls tld).
Proof.
  destruct ls as [|l [|l' ls]]; [done|..]; intros _; cbn [program_hash preimage];
    unfold compute_name_hash, compute_subdomain_hash; rewrite hashv_concat;
    cbn [List.concat app]; by rewrite app_nil_r.
Qed.

Lemma allowed_codepoints cs : Forall allowed_char cs -> Forall is_codepoint cs.
Proof.
  intros Hcs. eapply List.Forall_impl; [|exact Hcs].
  intros c Hc. by apply is_scalar_codepoint, allowed_scalar.
Qed.

(** No byte of an encoded label is 0 or a dot. *)
Lemma utf8_char_not b c :
  is_codepoint c -> 0 <= b < 0x80 -> In b (utf8_char c) -> b = c.
Proof.
  unfold is_codepoint, utf8_char. intros Hc Hb Hin.
  repeat case_match; bool_prop; cbn in Hin;
    repeat destruct Hin as [Hin|Hin]; try done; try lia;
    Z.to_euclidean_division_equations; lia.
Qed.

Lemma as_bytes_not b cs :
  0 <= b < 0x80 -> Forall is_codepoint cs -> ~ In b cs -> ~ In b (as_bytes cs).
Proof.
  intros Hb Hcs Hn Hin. apply in_flat_map in Hin as (c & Hc & Hin).
  apply utf8_char_not in Hin as ->; [done| |done]. by eapply Forall_In in Hcs.
Qed.

Lemma canonical_bytes_not b cs :
  canonical_label cs -> b = 0 \/ b = 46 -> ~ In b (as_bytes cs).
Proof.
  intros [_ Hcs _ _ _] Hb. apply as_bytes_not; [lia|by apply allowed_codepoints|].
  intros Hin. eapply Forall_In in Hcs; [|exact Hin]. unfold allowed_char in Hcs. lia.
Qed.

(** Splitting at the first separator is unique. *)
Lemma first_separator (b : Z) (s1 t1 s2 t2 : bytes) :
  ~ In b s1 -> ~ In b s2 -> s1 ++ b :: t1 = s2 ++ b :: t2 -> s1 = s2 /\ t1 = t2.
Proof.
  revert s2. induction s1 as [|x s1 IH]; intros [|y s2] H1 H2 E; cbn in *.
  - by injection E.
  - injection E as -> _. destruct H2. by left.
  - injection E as -> _. destruct H1. by left.
  - injection E as -> E. destruct (IH s2) as [-> ->]; auto.
Qed.

Lemma canonical_as_bytes_inj cs ds :
  canonical_label cs -> canonical_label ds -> as_bytes cs = as_bytes ds -> cs = ds.
Proof. intros [_ H1 _ _ _] [_ H2 _ _ _]. apply as_bytes_inj; by apply allowed_codepoints. Qed.

Lemma allowed_tld_bytes t : In t ALLOWED_TLDS -> as_bytes t = t.
Proof. intros Ht. cbn in Ht. by repeat destruct Ht as [<-|Ht]. Qed.

(** The two kinds of preimage are disjoint and each determines its path, up to
    a collision among the parents. *)
Lemma program_hash_inj ls1 ls2 t1 t2 :
  ls1 <> [] -> ls2 <> [] -> Forall canonical_label ls1 -> Forall canonical_label ls2 ->
  In t1 ALLOWED_TLDS -> In t2 ALLOWED_TLDS ->
  program_hash ls1 t1 = program_hash ls2 t2 ->
  (ls1 = ls2 /\ t1 = t2) \/ keccak_collision.
Proof.
  intros N1 N2 C1 C2 T1 T2. revert ls2 N2 C2.
  induction ls1 as [|l1 p1 IH]; [done|]. intros [|l2 p2] N2 C2 E; [done|].
  rewrite !program_hash_preimage in E by done.
  apply keccak_eq in E as [E|]; [|by right].
  inversion_clear C1 as [|? ? Hl1 Hp1]. inversion_clear C2 as [|? ? Hl2 Hp2].
  destruct p1 as [|q1 p1], p2 as [|q2 p2]; cbn [preimage] in E.
  - rewrite (allowed_tld_bytes t1), (allowed_tld_bytes t2) in E by done. cbn [js app] in E.
    apply first_separator in E as [E ->]; [|by (apply canonical_bytes_not; [done|by right])..].
    left. apply canonical_as_bytes_inj in E as ->; done.
  - exfalso. apply (canonical_bytes_not 0 l1); [done|by left|].
    destruct (as_bytes l1) eqn:El; [|injection E as -> _; by left].
    destruct Hl1 as [Hb _ _ _ _]. rewrite El in Hb. cbn in Hb. lia.
  - exfalso. apply (canonical_bytes_not 0 l2); [done|by left|].
    destruct (as_bytes l2) eqn:El; [|injection E as <- _; by left].
    destruct Hl2 as [Hb _ _ _ _]. rewrite El in Hb. cbn in Hb. lia.
  - injection E as E. apply app_eq_length_inv in E as [EP EL];
      [|exact (eq_trans (program_hash_length (q1 :: p1) t1 ltac:(done))
                 (eq_sym (program_hash_length (q2 :: p2) t2 ltac:(done))))].
    destruct (IH ltac:(done) Hp1 (q2 :: p2)) as [[-> ->]|]; [done..| |by right].
    left. apply canonical_as_bytes_inj in EL as ->; done.
Qed.

(** Two accepted names with the same hash have the same labels and TLD, or exhibit a
    collision of keccak-256: top-level names and subdomains of any depth never share a
    record address otherwise. *)
Theorem nameInfo_hash_injective input1 o1 info1 input2 o2 info2 :
  nameInfo input1 o1 = Ok info1 -> nameInfo input2 o2 = Ok info2 ->
  hash info1 = hash info2 ->
  (map codePoints (labels info1) = map codePoints (labels info2) /\ tld info1 = tld info2)
  \/ keccak_collision.
Proof.
  intros H1 H2. apply nameInfo_Ok in H1 as (_ & N1 & _ & C1 & T1 & -> & _).
  apply nameInfo_Ok in H2 as (_ & N2 & _ & C2 & T2 & -> & _).
  apply program_hash_inj; [..|done|done].
  - by destruct (labels info1).
  - by destruct (labels info2).
  - by apply List.Forall_map.
  - by apply List.Forall_map.
Qed.
End Parity.

Section Addresses.
Context `{HK : KeccakSpec} `{HKit : KitSpec} `{Unicode}.

Lemma findNameRecord_hash h : length h = 32%nat ->
  findNameRecordPda {| nameHash := h |} None =
    getProgramDerivedAddress SOLANS_PROGRAM_ADDRESS [NAME_SEED; h].
Proof.
  intros Hh. unfold findNameRecordPda. cbn [default Pdas.nameHash].
  rewrite bytes_enc. cbn [mbind result_bind].
  by rewrite (fix_enc _ _ 32 h h) by (apply bytes_enc || done).
Qed.

Lemma nameInfo_hash_length input o info :
  nameInfo input o = Ok info -> length (hash info) = 32%nat.
Proof.
  intros HI. apply nameInfo_Ok in HI as (_ & Hne & _ & _ & _ & -> & _).
  apply program_hash_length. by destruct (labels info).
Qed.

(** Every address the client derives (record, listing, auction, offer, config, stake
    pool, reverse record, stake) uses the seeds of the program's constants and the name's
    hash, and an invalid name fails before any derivation. *)
Theorem client_addresses_use_program_seeds input o :
  match nameInfo input o with
  | Err e =>
      findNameRecord input o = Err e /\ findListing input o = Err e
      /\ findAuction input o = Err e /\ forall buyer, findOffer input buyer o = Err e
  | Ok info =>
      let pda := getProgramDerivedAddress SOLANS_PROGRAM_ADDRESS in
      findNameRecord input o = pda [NAME_SEED; hash info]
      /\ findListing input o = pda [PROGRAM_LISTING_SEED; hash info]
      /\ findAuction input o = pda [PROGRAM_AUCTION_SEED; hash info]
      /\ forall buyer, findOffer input buyer o =
           (b ← getAddressEncoder buyer; pda [PROGRAM_OFFER_SEED; hash info; b])
  end
  /\ findConfigPda None = getProgramDerivedAddress SOLANS_PROGRAM_ADDRESS [CONFIG_SEED]
  /\ findStakePoolPda None = getProgramDerivedAddress SOLANS_PROGRAM_ADDRESS [STAKE_POOL_SEED]
  /\ (forall a, findReverseRecordPda {| owner := a |} None =
        (b ← getAddressEncoder a;
         getProgramDerivedAddress SOLANS_PROGRAM_ADDRESS [REVERSE_SEED; b]))
  /\ (forall a, findStakeAccountPda {| staker := a |} None =
        (b ← getAddressEncoder a;
         getProgramDerivedAddress SOLANS_PROGRAM_ADDRESS [STAKE_SEED; b])).
Proof.
  split.
  - unfold findNameRecord, findListing, findAuction, findOffer, nameHashFor.
    destruct (nameInfo input o) as [info|e] eqn:HI; cbn [mbind result_bind]; [|done].
    split; [by apply findNameRecord_hash; eapply nameInfo_hash_length|]. done.
  - unfold findConfigPda, findStakePoolPda, findReverseRecordPda, findStakeAccountPda.
    rewrite !bytes_enc. done.
Qed.
End Addresses.

(** ** Concrete inputs

    A stand-in for keccak (the first 32 bytes of the message), to evaluate the
    functions above. *)
#[export] Instance SmallKeccak : Keccak := {
  keccak_256 := fun m => take 32 (m ++ replicate 32 0);
  hashv := fun parts => take 32 (List.concat parts ++ replicate 32 0);
}.

#[export] Instance SmallKeccak_spec : KeccakSpec SmallKeccak.
Proof.
  split; [done|]. intros m. change (length (take 32 (m ++ replicate 32 0)) = 32%nat).
  rewrite length_take, length_app, length_replicate. lia.
Qed.

#[local] Existing Instance SmallUnicode.

Definition sample_info : NameInfo :=
  MkNameInfo [js "pay"; js "alex"] (js "sol")
    ([0] ++ js "alex.sol" ++ replicate 23 0)
    (Some (js "alex.sol" ++ replicate 24 0)) 1.

Lemma sample_nameInfo : nameInfo (js "Pay.alex.SOL ") None = Ok sample_info.
Proof. vm_compute. reflexivity. Defined.

Lemma nameInfo_matches_program_witness :
  nameInfo (js "Pay.alex.SOL ") None = Ok sample_info
  /\ hash sample_info = program_hash [js "pay"; js "alex"] (js "sol").
Proof.
  split; [vm_compute; reflexivity|].
  apply (nameInfo_matches_program (js "Pay.alex.SOL ") None). vm_compute. reflexivity.
Defined.

Lemma nameInfo_hash_injective_witness :
  (map codePoints (labels sample_info) = map codePoints (labels sample_info)
   /\ tld sample_info = tld sample_info) \/ keccak_collision.
Proof.
  apply (nameInfo_hash_injective (js "Pay.alex.SOL ") None sample_info (js "pay.alex") None);
    vm_compute; reflexivity.
Defined.

Lemma client_addresses_use_program_seeds_witness :
  findListing (js "Pay.alex.SOL ") None
  = getProgramDerivedAddress SOLANS_PROGRAM_ADDRESS [PROGRAM_LISTING_SEED; hash sample_info].
Proof.
  pose proof (proj1 (client_addresses_use_program_seeds (js "Pay.alex.SOL ") None)) as HS.
  rewrite sample_nameInfo in HS. exact (proj1 (proj2 HS)).
Defined.
