(* ===== verification/Staking.v ===== *)
(** * The staking pool (programs/solans/src/state/stake.rs)

    The pool's reward accounting: [sync] credits new deposits of the reward
    vault to the accumulated reward per share, [accrued] and [pending] give a
    position's reward. *)
From S2P Require Import Prelude JsString Errors OnChain.

Record StakePool := MkStakePool {
  total_staked : Z;
  acc_reward_per_share : Z;
  last_reward_balance : Z;
}.

Record StakeAccount := MkStakeAccount { amount : Z; reward_debt : Z }.

Definition sync (self : StakePool) (reward_vault_amount : Z) : Result StakePool :=
  acc ← (if total_staked self >? 0 then
           let delta := saturating_sub reward_vault_amount (last_reward_balance self) in
           if delta >? 0 then
             v ← checked_u128 (delta * ACC_SCALE);
             add ← checked_div_u128 v (total_staked self);
             checked_u128 (acc_reward_per_share self + add)
           else Ok (acc_reward_per_share self)
         else Ok (acc_reward_per_share self));
  Ok (MkStakePool (total_staked self) acc reward_vault_amount).

Definition accrued (self : StakePool) (amount : Z) : Result Z :=
  v ← checked_u128 (amount * acc_reward_per_share self);
  checked_div_u128 v ACC_SCALE.

(** [... as u64] keeps the low 64 bits. *)
Definition pending (self : StakePool) (stake : StakeAccount) : Result Z :=
  a ← accrued self (amount stake);
  Ok (saturating_sub a (reward_debt stake) mod 2 ^ 64).

(** Integers in range, as the account's types keep them. *)
Definition pool_ok (p : StakePool) : Prop :=
  is_u64 (total_staked p) /\ is_u128 (acc_reward_per_share p) /\ is_u64 (last_reward_balance p).
Definition stake_ok (s : StakeAccount) : Prop := is_u64 (amount s) /\ is_u128 (reward_debt s).

(** What [sync] computes when it does not overflow. *)
Lemma sync_Ok p v p' : pool_ok p -> is_u64 v -> sync p v = Ok p' ->
  total_staked p' = total_staked p /\ last_reward_balance p' = v
  /\ acc_reward_per_share p' = acc_reward_per_share p
       + (if total_staked p >? 0
          then Z.max 0 (v - last_reward_balance p) * ACC_SCALE / total_staked p else 0).
Proof.
  unfold sync, saturating_sub. intros (Ht & _ & _) Hv HS.
  apply result_bind_Ok in HS as (acc & Hacc & HS). injection HS as <-. cbn.
  split; [done|]. split; [done|].
  destruct (total_staked p >? 0) eqn:Hpos; bool_prop; [|injection Hacc as <-; lia].
  destruct (Z.max 0 _ >? 0) eqn:Hd; bool_prop.
  - apply result_bind_Ok in Hacc as (x & Hx & Hacc). apply checked_Ok in Hx as [<- _].
    unfold checked_div_u128 in Hacc. rewrite (proj2 (Z.eqb_neq _ 0)) in Hacc by lia.
    cbn in Hacc. by apply checked_Ok in Hacc as [<- _].
  - injection Hacc as <-. replace (Z.max 0 (v - last_reward_balance p)) with 0 by lia.
    rewrite Z.mul_0_l, Z.div_0_l; lia.
Qed.

Lemma sync_u128 p v p' : pool_ok p -> sync p v = Ok p' -> is_u128 (acc_reward_per_share p').
Proof.
  unfold sync. intros (_ & Ha & _) HS.
  apply result_bind_Ok in HS as (acc & Hacc & HS). injection HS as <-. cbn.
  destruct (_ >? 0); [|by injection Hacc as <-].
  destruct (_ >? 0); [|by injection Hacc as <-].
  apply result_bind_Ok in Hacc as (x & _ & Hacc). apply result_bind_Ok in Hacc as (y & _ & Hacc).
  by apply checked_Ok in Hacc as [-> Hacc].
Qed.

Lemma accrued_Ok p a v : accrued p a = Ok v -> v = a * acc_reward_per_share p / ACC_SCALE.
Proof.
  unfold accrued. intros HA. apply result_bind_Ok in HA as (x & Hx & HA).
  apply checked_Ok in Hx as [<- _]. unfold checked_div_u128 in HA. cbn in HA. by injection HA as <-.
Qed.
