(* ===== verification/Client.v ===== *)
(** * The read client of the SDK

    src/clients/sdk/src/client.ts.  [fetchAccount] is the [AccountFetcher] a
    [SolansClient] is built with: the data of the account at an address, [None]
    when it does not exist, an error when the transport fails.  One call of the
    client is modelled against one state of the chain.  A subdomain is valid
    only while its chain of parents is: [live] is the specification [resolve]
    is proved to decide. *)
From S2P Require Import Prelude JsString Errors OnChain Kit SmallKit Pdas Accounts Normalize.
From S2P Require Import HashName Staking.
Import NameRecordAccount ConfigAccount.

Definition SOLANS_RATE_SCALE : Z := 1000000.
Definition BPS_DENOMINATOR : Z := 10000.

(** ** Prices *)

Definition priceForLen (cfg : ConfigArgs) (len : Z) : Z :=
  if len =? 1 then price1 cfg
  else if len =? 2 then price2 cfg
  else if len =? 3 then price3 cfg
  else if len =? 4 then price4 cfg
  else price5plus cfg.

(** [/^\d+$/.test(label)] *)
Definition allDigits (label : jsstring) : bool :=
  negb (bool_decide (label = [])) && forallb (fun u => (48 <=? u) && (u <=? 57)) label.

Definition priceForLabel (cfg : ConfigArgs) (label : jsstring) : Z :=
  let cps := codePoints label in
  let isAscii := forallb (fun c => c <? 128) cps in
  if negb isAscii then priceForLen cfg (Z.of_nat (length cps)) * 2
  else if (Z.of_nat (length label) <=? 4) && allDigits label then priceNumeric cfg
  else priceForLen cfg (Z.of_nat (length label)).

(** Awaiting [resolve] and computing on its result. *)
Definition await_map {A B} (f : A -> B) (m : option (result JsError A))
    : option (result JsError B) :=
  match m with Some r => Some (f <$> r) | None => None end.

Section Client.
Context `{Keccak, Unicode, Kit}.
Variable fetchAccount : Address -> result JsError (option bytes).

(** [decodeX(acct).data] *)
Definition decodeNameRecord (data : bytes) : result JsError NameRecord :=
  decode getNameRecordDecoder data.

(** The loop of [resolve]: follow [cursor.parent] until the root.  [Some (Ok b)]:
    the loop ended, the chain being valid when [b]; [None]: out of fuel. *)
Fixpoint walkParents (fuel : nat) (cursor : NameRecord) : option (result JsError bool) :=
  match parent cursor with
  | None => Some (Ok true)
  | Some p =>
      match fuel with
      | O => None
      | S fuel =>
          match fetchAccount p with
          | Err e => Some (Err e)
          | Ok None => Some (Ok false)
          | Ok (Some pacct) =>
              match decodeNameRecord pacct with
              | Err e => Some (Err e)
              | Ok prec =>
                  if negb (registeredAt prec =? parentRegisteredAt cursor) then Some (Ok false)
                  else walkParents fuel prec
              end
          end
      end
  end.

(** [depth] is a u8: a chain that gets shallower at each step has at most 255. *)
Definition resolve_fuel : nat := 255.

Definition resolve (name : jsstring) : option (result JsError (option NameRecord)) :=
  match findNameRecord name None with
  | Err e => Some (Err e)
  | Ok (pda, _) =>
      match fetchAccount pda with
      | Err e => Some (Err e)
      | Ok None => Some (Ok None)
      | Ok (Some acct) =>
          match decodeNameRecord acct with
          | Err e => Some (Err e)
          | Ok leaf =>
              await_map (fun valid : bool => if valid then Some leaf else None)
                (walkParents resolve_fuel leaf)
          end
      end
  end.

(** [.find((r) => r.key === key)?.value ?? null] *)
Definition findRecord (key : jsstring) (l : list Record_) : option jsstring :=
  value <$> List.find (fun r => bool_decide (Accounts.key r = key)) l.

Definition recordsOf (rec : option NameRecord) : list Record_ :=
  match rec with Some r => records r | None => [] end.

Definition getRecords (name : jsstring) : option (result JsError (list Record_)) :=
  await_map recordsOf (resolve name).

(** A hosting ref that is the empty string is falsy. *)
Definition contentOf (rec : option NameRecord) : option jsstring :=
  match rec with
  | None => None
  | Some r =>
      match hostingRef r with
      | Some (u :: s) => Some (u :: s)
      | _ =>
          match findRecord (js "content") (records r) with
          | Some v => Some v
          | None => findRecord (js "url") (records r)
          end
      end
  end.

Definition contentRef (name : jsstring) : option (result JsError (option jsstring)) :=
  await_map contentOf (resolve name).

Definition getRecord (name key : jsstring) : option (result JsError (option jsstring)) :=
  await_map (findRecord key) (getRecords name).

(** [chain] defaults to SOL. *)
Definition getAddress (name : jsstring) (chain : option jsstring)
    : option (result JsError (option jsstring)) :=
  getRecord name (js "address." ++ default (js "SOL") chain).

(** [acct.exists ? decode(acct).data : null] *)
Definition fetchDecoded {T} (d : Decoder T) (pda : result JsError ProgramDerivedAddress)
    : result JsError (option T) :=
  '(pda, _) ← pda;
  acct ← fetchAccount pda;
  match acct with
  | Some data => v ← decode d data; Ok (Some v)
  | None => Ok None
  end.

Definition getListing (name : jsstring) :=
  fetchDecoded ListingAccount.getListingDecoder (findListing name None).
Definition getOffer (name : jsstring) (buyer : Address) :=
  fetchDecoded OfferAccount.getOfferDecoder (findOffer name buyer None).
Definition getAuction (name : jsstring) :=
  fetchDecoded AuctionAccount.getAuctionDecoder (findAuction name None).
Definition getConfig : result JsError (option ConfigAccount.Config) :=
  fetchDecoded getConfigDecoder (findConfigPda None).
Definition getStakePool :=
  fetchDecoded StakePoolAccount.getStakePoolDecoder (findStakePoolPda None).
Definition getStake (staker : Address) :=
  fetchDecoded StakeAccountAccount.getStakeAccountDecoder
    (findStakeAccountPda {| staker := staker |} None).

Definition notConfigured : JsError := MkError (js "pay-in-$SOLANS is not configured").

(** bigint division truncates. *)
Definition quoteSolansFee (usdcFee : Z) : result JsError Z :=
  getConfig ≫= fun cfg : option ConfigAccount.Config =>
  match cfg with
  | None => Err notConfigured
  | Some cfg =>
      if solansRate cfg =? 0 then Err notConfigured
      else
        let gross := Z.quot (usdcFee * solansRate cfg) SOLANS_RATE_SCALE in
        Ok (Z.quot (gross * (BPS_DENOMINATOR - solansDiscountBps cfg)) BPS_DENOMINATOR)
  end.

Definition quoteName (label : jsstring) (years : option Z) : result JsError Z :=
  getConfig ≫= fun cfg : option ConfigAccount.Config =>
  match cfg with
  | None => Err (MkError (js "registry config is not initialized"))
  | Some cfg => Ok (priceForLabel cfg label * default 1 years)
  end.

Definition quoteBuyback (solansAmount : Z) : result JsError Z :=
  getConfig ≫= fun cfg : option ConfigAccount.Config =>
  match cfg with
  | None => Err notConfigured
  | Some cfg =>
      if solansRate cfg =? 0 then Err notConfigured
      else Ok (Z.quot (solansAmount * SOLANS_RATE_SCALE) (solansRate cfg))
  end.

(** [data.subarray(64, 72)] read as a little-endian integer. *)
Definition tokenAmount (data : bytes) : Z := le_val (take 8 (drop 64 data)).

(** The accumulated reward per share once the vault's balance is credited. *)
Definition creditedAcc (pool : StakePoolAccount.StakePoolArgs) (bal : Z) : Z :=
  let last := StakePoolAccount.lastRewardBalance pool in
  let delta := if bal >? last then bal - last else 0 in
  StakePoolAccount.accRewardPerShare pool
  + Z.quot (delta * 1000000000000) (StakePoolAccount.totalStaked pool).

Definition claimable (stake : StakeAccountAccount.StakeAccountArgs) (accPerShare : Z) : Z :=
  let accrued := Z.quot (StakeAccountAccount.amount stake * accPerShare) 1000000000000 in
  let debt := StakeAccountAccount.rewardDebt stake in
  if accrued >? debt then accrued - debt else 0.

(** [Promise.all] reads the pool and the stake; when both reads fail the model
    reports the pool's error. *)
Definition pendingReward (staker : Address) : result JsError Z :=
  getStakePool ≫= fun pool : option StakePoolAccount.StakePool =>
  getStake staker ≫= fun stake : option StakeAccountAccount.StakeAccount =>
  match pool, stake with
  | Some pool, Some stake =>
      let pool := StakePoolAccount.args pool in
      let stake := StakeAccountAccount.args stake in
      if StakeAccountAccount.amount stake =? 0 then Ok 0
      else if StakePoolAccount.totalStaked pool >? 0 then
        fetchAccount (StakePoolAccount.rewardVault pool) ≫= fun rv : option bytes =>
        match rv with
        | Some data => Ok (claimable stake (creditedAcc pool (tokenAmount data)))
        | None => Ok (claimable stake (StakePoolAccount.accRewardPerShare pool))
        end
      else Ok (claimable stake (StakePoolAccount.accRewardPerShare pool))
  | _, _ => Ok 0
  end.

Definition reverseLookup (owner : Address) : result JsError (option jsstring) :=
  '(rpda, _) ← findReverseRecordPda {| Pdas.owner := owner |} None;
  rev ← fetchAccount rpda;
  match rev with
  | None => Ok None
  | Some data =>
      rev ← decode ReverseRecordAccount.getReverseRecordDecoder data;
      let r := ReverseRecordAccount.args rev in
      '(npda, _) ← findNameRecordPda {| Pdas.nameHash := ReverseRecordAccount.nameHash r |} None;
      fwd ← fetchAccount npda;
      match fwd with
      | None => Ok None
      | Some data =>
          rec ← decodeNameRecord data;
          if negb (bool_decide (NameRecordAccount.owner (NameRecordAccount.args rec) = owner)) then Ok None
          else Ok (Some (ReverseRecordAccount.name r ++ js "." ++ ReverseRecordAccount.tld r))
      end
  end.
End Client.

(** ** Prices and quotes agree with the program *)

(** The configuration the client decoded and the program's are the same values. *)
Record config_mirrors (c : ConfigArgs) (p : OnChain.Config) : Prop := {
  mirror_p1 : price1 c = price_1 p; mirror_p2 : price2 c = price_2 p;
  mirror_p3 : price3 c = price_3 p; mirror_p4 : price4 c = price_4 p;
  mirror_p5 : price5plus c = price_5plus p;
  mirror_pn : priceNumeric c = price_numeric p;
  mirror_rate : solansRate c = solans_rate p;
  mirror_discount : solansDiscountBps c = solans_discount_bps p;
}.

Lemma codePoints_all_ascii s :
  forallb is_ascii (codePoints s) = true -> codePoints s = s.
Proof.
  intros Hs. apply codePoints_ascii. revert Hs.
  remember (length s) as n eqn:Hn. revert s Hn.
  induction n as [n IH] using lt_wf_ind; intros s -> Hs.
  destruct s as [|u r]; [done|]. cbn [codePoints] in Hs.
  assert (Hone : forallb is_ascii (u :: codePoints r) = true -> forallb is_ascii (u :: r) = true).
  { cbn. intros Hs'. bool_prop. apply andb_true_iff. split; [done|].
    by apply (IH (length r)); cbn; [lia|..]. }
  destruct (is_hi u) eqn:Hu; [|by apply Hone].
  destruct r as [|v r']; [by apply Hone|].
  destruct (is_lo v) eqn:Hv; [|by apply Hone].
  exfalso. cbn in Hs. bool_prop. unfold is_ascii, is_hi, is_lo, combine_surrogates in *.
  bool_prop. lia.
Qed.

Lemma as_bytes_ascii s : forallb is_ascii s = true -> as_bytes s = s.
Proof.
  intros Hs. rewrite <- (textEncode_ascii s Hs) at 2. unfold textEncode.
  rewrite codePoints_ascii by done. f_equal. rewrite <- (map_id s) at 1. apply map_ext_in.
  intros c Hc. rewrite forallb_forall in Hs. apply Hs in Hc.
  unfold is_ascii, is_surrogate in *. bool_prop. by rewrite (proj2 (Z.leb_gt 0xD800 c)) by lia.
Qed.

Lemma forallb_ascii_nonneg s :
  Forall (fun c => 0 <= c) s -> forallb (fun c => c <? 128) s = forallb is_ascii s.
Proof.
  induction 1 as [|c s Hc _ IH]; [done|]. cbn. rewrite IH. unfold is_ascii.
  by rewrite (proj2 (Z.leb_le 0 c)).
Qed.

Lemma priceForLen_mirrors c p n : config_mirrors c p -> priceForLen c n = price_for_len p n.
Proof. intros []. unfold priceForLen, price_for_len. repeat case_match; congruence. Qed.

Lemma price_for_len_u64 p n : config_ok p -> is_u64 (price_for_len p n).
Proof. intros []. unfold price_for_len. by repeat case_match. Qed.

Lemma priceForLabel_price c p label :
  config_mirrors c p -> config_ok p -> canonical_label (codePoints label) ->
  price_for_label p (codePoints label) = Z.min U64_MAX (priceForLabel c label).
Proof.
  intros Hm Hp Hl. assert (Hne := canonical_nonempty _ Hl). destruct Hl as [_ Hcs _ _ _].
  unfold price_for_label, priceForLabel.
  rewrite forallb_ascii_nonneg
    by (eapply List.Forall_impl; [|exact Hcs]; unfold allowed_char; lia).
  destruct (forallb is_ascii (codePoints label)) eqn:Ha; cbn [negb].
  - rewrite codePoints_all_ascii in * by done. rewrite as_bytes_ascii by done.
    unfold allDigits. rewrite bool_decide_eq_false_2 by done. cbn [negb andb].
    change (forallb is_ascii_digit label) with
      (forallb (fun u => (48 <=? u) && (u <=? 57)) label).
    destruct (_ && _).
    + rewrite (mirror_pn _ _ Hm). destruct (ok_pn _ Hp). lia.
    + rewrite (priceForLen_mirrors _ p) by done.
      pose proof (price_for_len_u64 p (Z.of_nat (length label)) Hp) as [? ?]. lia.
  - unfold saturating_mul_u64. by rewrite (priceForLen_mirrors _ p).
Qed.

Lemma price_for_label_u64 p label : config_ok p -> is_u64 (price_for_label p label).
Proof.
  intros Hp. unfold price_for_label. destruct (negb _).
  - pose proof (price_for_len_u64 p (Z.of_nat (length label)) Hp) as [? ?].
    unfold saturating_mul_u64, is_u64, U64_MAX in *. lia.
  - destruct (_ && _); [by destruct Hp|]. by apply price_for_len_u64.
Qed.

(** For a label the program accepts, priceForLabel is the program's price_for_label up
    to its saturation at 2^64 - 1, on the emoji, the numeric and the length tiers. *)
Theorem priceForLabel_matches_program c p label :
  config_mirrors c p -> config_ok p -> validate_name (codePoints label) = Ok tt ->
  price_for_label p (codePoints label) = Z.min U64_MAX (priceForLabel c label)
  /\ 0 <= priceForLabel c label.
Proof.
  intros Hm Hp Hl. apply validate_name_canonical in Hl.
  pose proof (priceForLabel_price c p label Hm Hp Hl) as HE.
  pose proof (price_for_label_u64 p (codePoints label) Hp) as [H0 _]. lia.
Qed.

Section Quotes.
Context `{Keccak, Unicode, Kit}.
Variable fetchAccount : Address -> result JsError (option bytes).

(** quoteSolansFee and quoteBuyback compute the amounts of the program's solans_fee and
    buyback_usdc: equal when the program's fits in 64 bits, and the program rejects exactly
    the quotes that do not. *)
Theorem quotes_match_program c p amount :
  getConfig fetchAccount = Ok (Some c) -> config_mirrors (ConfigAccount.args c) p ->
  config_ok p -> is_u64 amount -> solans_rate p <> 0 ->
  (exists v, quoteSolansFee fetchAccount amount = Ok v /\ solans_fee p amount = checked_u64 v)
  /\ exists v, quoteBuyback fetchAccount amount = Ok v /\ buyback_usdc p amount = checked_u64 v.
Proof.
  intros Hc Hm Hp Ha Hr. unfold quoteSolansFee, quoteBuyback. rewrite Hc.
  cbn [mbind result_bind]. destruct Hm as [_ _ _ _ _ _ Hrate Hdisc], Hp as [_ _ _ _ _ _ _ _ _ _ ok_rate ok_disc].
  rewrite Hrate, Hdisc, (proj2 (Z.eqb_neq _ 0)) by done.
  unfold is_u64, U64_MAX in *.
  assert (HM : 0 <= amount * solans_rate p <= (2 ^ 64 - 1) * (2 ^ 64 - 1))
    by (clear - Ha ok_rate; nia).
  split; eexists; (split; [reflexivity|]).
  - unfold solans_fee, checked_u128, checked_div_u128.
    rewrite (proj2 (checked_Ok 0 U128_MAX _ (amount * solans_rate p)))
      by (unfold U128_MAX; lia).
    cbn [mbind result_bind]. unfold OnChain.SOLANS_RATE_SCALE, OnChain.BPS_DENOMINATOR in *.
    unfold SOLANS_RATE_SCALE, BPS_DENOMINATOR, saturating_sub.
    rewrite (Z.quot_div_nonneg (amount * solans_rate p)) by lia. cbn [Z.eqb mbind result_bind].
    assert (Z.max 0 (10000 - solans_discount_bps p) = 10000 - solans_discount_bps p) as -> by lia.
    set (gross := amount * solans_rate p / 1000000).
    assert (Hg : 0 <= gross /\ 1000000 * gross <= (2 ^ 64 - 1) * (2 ^ 64 - 1)).
    { subst gross. split; [apply Z.div_pos; lia|].
      pose proof (Z.mul_div_le (amount * solans_rate p) 1000000 ltac:(lia)). lia. }
    rewrite (proj2 (checked_Ok 0 U128_MAX _ (gross * (10000 - solans_discount_bps p))))
      by (unfold U128_MAX; clear - Hg ok_disc; nia).
    cbn [mbind result_bind].
    assert (0 <= gross * (10000 - solans_discount_bps p)) by (clear - Hg ok_disc; nia).
    by rewrite Z.quot_div_nonneg by lia.
  - unfold buyback_usdc, checked_u128, checked_div_u128.
    unfold OnChain.SOLANS_RATE_SCALE, SOLANS_RATE_SCALE.
    rewrite (proj2 (checked_Ok 0 U128_MAX _ (amount * 1000000))) by (unfold U128_MAX; lia).
    cbn [mbind result_bind]. rewrite (proj2 (Z.eqb_neq _ 0)) by done.
    cbn [mbind result_bind]. by rewrite Z.quot_div_nonneg by lia.
Qed.
End Quotes.

(** ** Resolution *)

Section Resolution.
Context `{Keccak, Unicode, Kit}.
Variable fetchAccount : Address -> result JsError (option bytes).

(** The record stored at an address. *)
Definition recordAt (a : Address) (r : NameRecord) : Prop :=
  exists data, fetchAccount a = Ok (Some data) /\ decodeNameRecord data = Ok r.

(** A record is live when every ancestor exists and was not registered anew
    since its child was created. *)
Inductive live : NameRecord -> Prop :=
| live_root (r : NameRecord) : parent r = None -> live r
| live_sub (r : NameRecord) p (pr : NameRecord) : parent r = Some p -> recordAt p pr ->
    registeredAt pr = parentRegisteredAt r -> live pr -> live r.

(** Its subtree is dead when an ancestor is gone, or was registered anew. *)
Inductive dead : NameRecord -> Prop :=
| dead_burned (r : NameRecord) p : parent r = Some p -> fetchAccount p = Ok None -> dead r
| dead_renewed (r : NameRecord) p (pr : NameRecord) : parent r = Some p -> recordAt p pr ->
    registeredAt pr <> parentRegisteredAt r -> dead r
| dead_sub (r : NameRecord) p (pr : NameRecord) : parent r = Some p -> recordAt p pr ->
    registeredAt pr = parentRegisteredAt r -> dead pr -> dead r.

(** What the program maintains ([wrap_subdomain]): a subdomain is one level
    below its parent, at most [MAX_SUBDOMAIN_DEPTH] below the root. *)
Definition depths_ordered : Prop :=
  forall a (r : NameRecord), recordAt a r -> 0 <= depth r <= OnChain.MAX_SUBDOMAIN_DEPTH
    /\ forall p, parent r = Some p -> 1 <= depth r
         /\ forall pr : NameRecord, recordAt p pr -> depth pr + 1 = depth r.

Lemma recordAt_fun a r r' : recordAt a r -> recordAt a r' -> r = r'.
Proof.
  intros (d & Hf & Hd) (d' & Hf' & Hd'). rewrite Hf in Hf'. injection Hf' as <-.
  rewrite Hd in Hd'. by injection Hd'.
Qed.

(** One turn of the loop. *)
Lemma walk_step fuel (r : NameRecord) p (pr : NameRecord) : parent r = Some p -> recordAt p pr ->
  walkParents fetchAccount (S fuel) r =
    if negb (registeredAt pr =? parentRegisteredAt r) then Some (Ok false)
    else walkParents fetchAccount fuel pr.
Proof. intros Hp (d & Hf & Hd). cbn. by rewrite Hp, Hf, Hd. Qed.

Lemma walk_live fuel r : walkParents fetchAccount fuel r = Some (Ok true) -> live r.
Proof.
  revert r. induction fuel as [|fuel IH]; intros r HW.
  - cbn in HW. destruct (parent r) eqn:Hp; [done|]. by apply live_root.
  - cbn in HW. destruct (parent r) as [p|] eqn:Hp; [|by apply live_root].
    destruct (fetchAccount p) as [[d|]|e] eqn:Hf; [|done..].
    destruct (decodeNameRecord d) as [pr|e] eqn:Hd; [|done].
    destruct (negb _) eqn:Hr; [done|]. bool_prop.
    eapply live_sub; [exact Hp|by exists d|done|by apply IH].
Qed.

Lemma walk_dead fuel r : walkParents fetchAccount fuel r = Some (Ok false) -> dead r.
Proof.
  revert r. induction fuel as [|fuel IH]; intros r HW; cbn in HW.
  - by destruct (parent r).
  - destruct (parent r) as [p|] eqn:Hp; [|done].
    destruct (fetchAccount p) as [[d|]|e] eqn:Hf; [|by eapply dead_burned|done].
    destruct (decodeNameRecord d) as [pr|e] eqn:Hd; [|done].
    destruct (negb _) eqn:Hr; bool_prop.
    + eapply dead_renewed; [exact Hp|by exists d|done].
    + eapply dead_sub; [exact Hp|by exists d|done|by apply IH].
Qed.

Lemma live_walk fuel r : live r -> walkParents fetchAccount fuel r <> None ->
  walkParents fetchAccount fuel r = Some (Ok true).
Proof.
  intros Hl. revert fuel. induction Hl as [r Hp|r p pr Hp Hr Hreg _ IH]; intros fuel.
  - by destruct fuel; cbn; rewrite Hp.
  - destruct fuel as [|fuel]; [by cbn; rewrite Hp|].
    rewrite (walk_step fuel r p pr), Hreg, Z.eqb_refl by done. apply IH.
Qed.

Lemma dead_walk fuel r : dead r -> walkParents fetchAccount fuel r <> None ->
  walkParents fetchAccount fuel r = Some (Ok false).
Proof.
  intros Hl. revert fuel.
  induction Hl as [r p Hp Hf|r p pr Hp Hr Hreg|r p pr Hp Hr Hreg _ IH];
    intros [|fuel]; try by cbn; rewrite Hp.
  - cbn. by rewrite Hp, Hf.
  - rewrite (walk_step fuel r p pr), (proj2 (Z.eqb_neq _ _)) by done. done.
  - rewrite (walk_step fuel r p pr), Hreg, Z.eqb_refl by done. apply IH.
Qed.

(** Depth bounds the walk. *)
Lemma walk_terminates fuel a (r : NameRecord) : depths_ordered -> recordAt a r ->
  depth r <= Z.of_nat fuel -> walkParents fetchAccount fuel r <> None.
Proof.
  intros HD. revert a r. induction fuel as [|fuel IH]; intros a r Ha Hle;
    destruct (HD a r Ha) as [Hr Hpar]; cbn;
    destruct (parent r) as [p|] eqn:Hp; try done;
    destruct (Hpar p eq_refl) as [Hpos Hlvl]; [lia|].
  destruct (fetchAccount p) as [[d|]|e] eqn:Hf; [|done..].
  destruct (decodeNameRecord d) as [pr|e] eqn:Hd; [|done].
  assert (Hpr : recordAt p pr) by (by exists d). specialize (Hlvl pr Hpr).
  destruct (negb _); [done|]. apply (IH p); [done|lia].
Qed.

(** More fuel does not change a walk that ended. *)
Lemma walk_more fuel r out : walkParents fetchAccount fuel r = Some out ->
  walkParents fetchAccount (S fuel) r = Some out.
Proof.
  revert r. induction fuel as [|fuel IH]; intros r HW.
  - cbn in *. by destruct (parent r).
  - cbn [walkParents] in HW |- *. destruct (parent r) as [p|]; [|done].
    destruct (fetchAccount p) as [[d|]|e]; [|done..].
    destruct (decodeNameRecord d) as [pr|e]; [|done]. destruct (negb _); [done|].
    by apply IH in HW.
Qed.

(** C33: The parent walk of resolve ends: on a chain whose subdomain depths the program
    maintains, as many steps as the record's depth reach the outcome and further steps do
    not change it; on a record that is its own parent the walk would never end. *)
Theorem resolution_ends a r : recordAt a r ->
  (depths_ordered -> forall fuel, depth r <= Z.of_nat fuel ->
     exists out, forall more, walkParents fetchAccount (fuel + more) r = Some out)
  /\ (parent r = Some a -> registeredAt r = parentRegisteredAt r ->
     forall fuel, walkParents fetchAccount fuel r = None).
Proof.
  intros Hr. split.
  - intros HD fuel Hf. destruct (walkParents fetchAccount fuel r) as [out|] eqn:HW;
      [|by apply (walk_terminates fuel a) in HW].
    exists out. intros more. induction more as [|more IH]; [by rewrite Nat.add_0_r|].
    rewrite Nat.add_succ_r. by apply walk_more.
  - intros Hp Hreg fuel. induction fuel as [|fuel IH]; [by cbn; rewrite Hp|].
    by rewrite (walk_step fuel r a r), Hreg, Z.eqb_refl.
Qed.

(** What [resolve] does once the leaf is decoded. *)
Lemma resolve_leaf name pda bump leaf :
  findNameRecord name None = Ok (pda, bump) -> recordAt pda leaf ->
  resolve fetchAccount name =
    await_map (fun valid : bool => if valid then Some leaf else None)
      (walkParents fetchAccount resolve_fuel leaf).
Proof. intros Hp (d & Hf & Hd). unfold resolve. by rewrite Hp, Hf, Hd. Qed.

Lemma resolve_inv name r :
  resolve fetchAccount name = Some (Ok r) ->
  exists pda bump, findNameRecord name None = Ok (pda, bump) /\
    ((fetchAccount pda = Ok None /\ r = None)
     \/ exists leaf valid, recordAt pda leaf
          /\ walkParents fetchAccount resolve_fuel leaf = Some (Ok valid)
          /\ r = if valid then Some leaf else None).
Proof.
  unfold resolve. destruct (findNameRecord name None) as [[pda bump]|e]; [|done].
  destruct (fetchAccount pda) as [[d|]|e] eqn:Hf; [|intros [= <-]; eauto 6|done].
  destruct (decodeNameRecord d) as [leaf|e] eqn:Hd; [|done].
  destruct (walkParents _ _ _) as [[valid|e]|] eqn:HW; [|done..].
  cbn. intros [= <-]. exists pda, bump. split; [done|]. right.
  exists leaf, valid. split; [by exists d|]. done.
Qed.

Lemma resolve_total name : depths_ordered -> resolve fetchAccount name <> None.
Proof.
  intros HD. unfold resolve.
  destruct (findNameRecord name None) as [[pda bump]|e]; [|done].
  destruct (fetchAccount pda) as [[d|]|e] eqn:Hf; [|done..].
  destruct (decodeNameRecord d) as [leaf|e] eqn:Hd; [|done].
  assert (Hl : recordAt pda leaf) by (by exists d).
  pose proof (walk_terminates resolve_fuel pda leaf HD Hl) as HW.
  destruct (walkParents _ _ _); [done|]. intros _. apply HW; [|done].
  destruct (HD pda leaf Hl) as [Hr _]. unfold resolve_fuel, OnChain.MAX_SUBDOMAIN_DEPTH in *. lia.
Qed.

(** C15: Client.resolve always ends and decides liveness: on a chain whose subdomain depths
    the program maintains, it returns the leaf record exactly when every ancestor exists and
    was not registered anew since its child was created, and null exactly when the record is
    missing or an ancestor is gone or re-registered. *)
Theorem resolve_decides_liveness name :
  depths_ordered ->
  exists outcome, resolve fetchAccount name = Some outcome
    /\ (forall leaf, outcome = Ok (Some leaf) <->
          exists pda bump, findNameRecord name None = Ok (pda, bump)
            /\ recordAt pda leaf /\ live leaf)
    /\ (outcome = Ok None <->
          exists pda bump, findNameRecord name None = Ok (pda, bump)
            /\ (fetchAccount pda = Ok None \/ exists leaf, recordAt pda leaf /\ dead leaf)).
Proof.
  intros HD. pose proof (resolve_total name HD) as HT.
  assert (HW : forall pda leaf, recordAt pda leaf ->
            walkParents fetchAccount resolve_fuel leaf <> None).
  { intros pda leaf Hl. eapply walk_terminates; [done..|].
    destruct (HD pda leaf Hl) as [Hr _].
    unfold resolve_fuel, OnChain.MAX_SUBDOMAIN_DEPTH in *. lia. }
  destruct (resolve fetchAccount name) as [outcome|] eqn:HR; [|done].
  exists outcome. split; [done|]. split; [intros leaf|]; split.
  - intros ->. apply resolve_inv in HR as (pda & bump & Hp & [[_ ?]|(l & v & Hl & Hv & Hr)]); [done|].
    destruct v; [|done]. injection Hr as <-. exists pda, bump.
    split; [done|]. split; [done|]. by eapply walk_live.
  - intros (pda & bump & Hp & Hl & Hlive).
    rewrite (resolve_leaf _ _ _ _ Hp Hl), (live_walk _ _ Hlive) in HR by by eapply HW.
    by injection HR.
  - intros ->. apply resolve_inv in HR as (pda & bump & Hp & [[? _]|(l & v & Hl & Hv & Hr)]);
      exists pda, bump; (split; [done|]); [by left|].
    destruct v; [done|]. right. exists l. split; [done|]. by eapply walk_dead.
  - intros (pda & bump & Hp & [Hf|(l & Hl & Hdead)]).
    + unfold resolve in HR. rewrite Hp, Hf in HR. by injection HR.
    + rewrite (resolve_leaf _ _ _ _ Hp Hl), (dead_walk _ _ Hdead) in HR by by eapply HW.
      by injection HR.
Qed.

(** On a name that resolves, getRecords, getRecord, getAddress and contentRef read the
    resolved record; contentRef prefers a non-empty hosting reference, then the content
    record, then the url record. *)
Theorem record_lookups_follow_resolve name leaf :
  resolve fetchAccount name = Some (Ok (Some leaf)) ->
  getRecords fetchAccount name = Some (Ok (records leaf))
  /\ (forall key, getRecord fetchAccount name key = Some (Ok (findRecord key (records leaf))))
  /\ getAddress fetchAccount name None
      = Some (Ok (findRecord (js "address.SOL") (records leaf)))
  /\ contentRef fetchAccount name = Some (Ok (contentOf (Some leaf)))
  /\ (forall ref, hostingRef leaf = Some ref -> ref <> [] ->
       contentRef fetchAccount name = Some (Ok (Some ref)))
  /\ (hostingRef leaf = None \/ hostingRef leaf = Some [] ->
       contentRef fetchAccount name
       = Some (Ok (match findRecord (js "content") (records leaf) with
                   | Some v => Some v
                   | None => findRecord (js "url") (records leaf)
                   end))).
Proof.
  intros HR. unfold getAddress, getRecord, contentRef, getRecords. rewrite HR. cbn.
  split; [done|]. split; [done|]. split; [done|]. split; [done|]. split.
  - by intros [|u ref] -> ?.
  - by intros [-> | ->].
Qed.

(** A name reverseLookup returns is that of the wallet's reverse record, and the record
    its hash points at exists and is owned by that wallet: stale reverse records yield null. *)
Theorem reverseLookup_round_trips owner primary :
  reverseLookup fetchAccount owner = Ok (Some primary) ->
  exists rpda rbump rdata rev npda nbump rec,
    findReverseRecordPda {| Pdas.owner := owner |} None = Ok (rpda, rbump)
    /\ fetchAccount rpda = Ok (Some rdata)
    /\ decode ReverseRecordAccount.getReverseRecordDecoder rdata = Ok rev
    /\ primary = dotted (ReverseRecordAccount.name (ReverseRecordAccount.args rev))
                    (ReverseRecordAccount.tld (ReverseRecordAccount.args rev))
    /\ findNameRecordPda {| Pdas.nameHash := ReverseRecordAccount.nameHash
                               (ReverseRecordAccount.args rev) |} None = Ok (npda, nbump)
    /\ recordAt npda rec
    /\ NameRecordAccount.owner rec = owner.
Proof.
  unfold reverseLookup. intros HR.
  apply result_bind_Ok in HR as ([rpda rbump] & Hr & HR).
  apply result_bind_Ok in HR as ([rdata|] & Hf & HR); [|done].
  apply result_bind_Ok in HR as (rev & Hd & HR).
  apply result_bind_Ok in HR as ([npda nbump] & Hn & HR).
  apply result_bind_Ok in HR as ([ndata|] & Hfn & HR); [|done].
  apply result_bind_Ok in HR as (rec & Hdn & HR).
  destruct (negb _) eqn:Ho; [done|]. bool_prop. injection HR as <-.
  exists rpda, rbump, rdata, rev, npda, nbump, rec.
  split; [done|]. split; [done|]. split; [done|]. split; [done|]. split; [done|].
  split; [by exists ndata|done].
Qed.

(** The program's view of the accounts the client decoded. *)
Definition chain_pool (p : StakePoolAccount.StakePoolArgs) : Staking.StakePool :=
  MkStakePool (StakePoolAccount.totalStaked p) (StakePoolAccount.accRewardPerShare p)
    (StakePoolAccount.lastRewardBalance p).
Definition chain_stake (s : StakeAccountAccount.StakeAccountArgs) : Staking.StakeAccount :=
  Staking.MkStakeAccount (StakeAccountAccount.amount s) (StakeAccountAccount.rewardDebt s).

Lemma creditedAcc_sync p v p' : pool_ok (chain_pool p) -> is_u64 v ->
  sync (chain_pool p) v = Ok p' ->
  acc_reward_per_share p' =
    if StakePoolAccount.totalStaked p >? 0 then creditedAcc p v
    else StakePoolAccount.accRewardPerShare p.
Proof.
  intros Hp Hv HS. apply sync_Ok in HS as (_ & _ & ->); [|done..]. cbn.
  destruct (_ >? 0) eqn:Hpos; bool_prop; [|lia]. unfold creditedAcc, ACC_SCALE.
  f_equal. destruct (v >? _) eqn:Hd; bool_prop.
  - rewrite Z.quot_div_nonneg by lia. f_equal. lia.
  - replace (Z.max 0 _) with 0 by lia. rewrite Z.mul_0_l, Z.quot_0_l, Z.div_0_l; lia.
Qed.

Lemma claimable_pending s p v : stake_ok (chain_stake s) ->
  is_u128 (acc_reward_per_share p) -> pending p (chain_stake s) = Ok v ->
  v = claimable s (acc_reward_per_share p) mod 2 ^ 64.
Proof.
  unfold pending, stake_ok, is_u64, is_u128. cbn. intros [Ha _] Hacc HP.
  apply result_bind_Ok in HP as (x & Hx & HP). apply accrued_Ok in Hx as ->.
  injection HP as <-. unfold claimable, saturating_sub, ACC_SCALE.
  rewrite Z.quot_div_nonneg by nia. f_equal. destruct (_ >? _) eqn:Hd; bool_prop; lia.
Qed.

(** C36: pendingReward returns what the program would credit: when the pool's sync with the
    vault balance and the stake's pending reward succeed on chain, the client's number is
    the same modulo 2^64. *)
Theorem pendingReward_matches_program staker pool stake vault p' v :
  getStakePool fetchAccount = Ok (Some pool) ->
  getStake fetchAccount staker = Ok (Some stake) ->
  fetchAccount (StakePoolAccount.rewardVault (StakePoolAccount.args pool)) = Ok (Some vault) ->
  pool_ok (chain_pool (StakePoolAccount.args pool)) ->
  stake_ok (chain_stake (StakeAccountAccount.args stake)) ->
  is_u64 (tokenAmount vault) ->
  sync (chain_pool (StakePoolAccount.args pool)) (tokenAmount vault) = Ok p' ->
  pending p' (chain_stake (StakeAccountAccount.args stake)) = Ok v ->
  exists reward, pendingReward fetchAccount staker = Ok reward /\ v = reward mod 2 ^ 64.
Proof.
  intros Hpool Hstake Hvault Hpok Hsok Hv HS HP.
  assert (Hacc : is_u128 (acc_reward_per_share p')) by by eapply sync_u128.
  apply claimable_pending in HP as ->; [|done..].
  rewrite (creditedAcc_sync _ _ _ Hpok Hv HS). unfold pendingReward. rewrite Hpool.
  cbn [mbind result_bind]. rewrite Hstake. cbn [mbind result_bind].
  destruct (StakeAccountAccount.amount _ =? 0) eqn:Hz; bool_prop.
  - exists 0. split; [done|]. unfold claimable. rewrite Hz, Z.mul_0_l, Z.quot_0_l by lia.
    destruct Hsok as [_ [Hd _]]. cbn [chain_stake reward_debt] in Hd.
    destruct (0 >? StakeAccountAccount.rewardDebt _) eqn:Hg; bool_prop; [lia|done].
  - destruct (_ >? 0); [rewrite Hvault; cbn [mbind result_bind]|]; eexists; split; reflexivity.
Qed.
End Resolution.

(** ** A concrete chain

    alex.sol with the subdomain pay.alex.sol, a configuration, a reverse record
    and one stake, encoded by the generated encoders. *)
Section Sample.
#[local] Existing Instance SmallUnicode.

Definition encoded {T} (e : Encoder T) (v : T) : bytes :=
  match e v with Ok bs => bs | Err _ => [] end.
Definition pda_of (r : result JsError ProgramDerivedAddress) : Address :=
  match r with Ok (a, _) => a | Err _ => [] end.

Definition alex_pda : Address := pda_of (findNameRecord (js "alex.sol") None).
Definition pay_pda : Address := pda_of (findNameRecord (js "pay.alex.sol") None).

Definition alex_record : NameRecordArgs :=
  MkNameRecordArgs (small_addr 1) None (replicate 32 5) (js "sol") 1000 31537000
    [MkRecord (js "address.SOL") (js "Wa11et"); MkRecord (js "url") (js "https://alex.example")]
    None None false true None None 0 0 false 255.
Definition pay_record : NameRecordArgs :=
  MkNameRecordArgs (small_addr 2) None (replicate 32 6) (js "sol") 2000 0 [] None None false
    false None (Some alex_pda) 1000 1 false 255.
Definition sample_client_config : ConfigArgs :=
  MkConfigArgs (small_addr 1) (small_addr 1) (small_addr 1) 1000000000 200000000 50000000
    10000000 1000000 500000000 7776000 1 10 (small_addr 1) 200 (small_addr 1) (small_addr 1)
    2500 1000 500 (small_addr 1) 2000000 1000 255.
Definition sample_pool : StakePoolAccount.StakePoolArgs :=
  StakePoolAccount.MkStakePoolArgs (small_addr 1) (small_addr 3) (small_addr 4) 500
    2000000000 100 255.
Definition sample_stake : StakeAccountAccount.StakeAccountArgs :=
  StakeAccountAccount.MkStakeAccountArgs (small_addr 2) 200 0 255.
Definition sample_reverse : ReverseRecordAccount.ReverseRecordArgs :=
  ReverseRecordAccount.MkReverseRecordArgs (small_addr 1)
    (match nameInfo (js "alex.sol") None with Ok i => hash i | Err _ => [] end)
    (js "alex") (js "sol") 255.

Definition sample_accounts : list (Address * bytes) := [
  (alex_pda, encoded getNameRecordEncoder alex_record);
  (pay_pda, encoded getNameRecordEncoder pay_record);
  (pda_of (findConfigPda None), encoded getConfigEncoder sample_client_config);
  (pda_of (findStakePoolPda None),
    encoded StakePoolAccount.getStakePoolEncoder sample_pool);
  (pda_of (findStakeAccountPda {| staker := small_addr 2 |} None),
    encoded StakeAccountAccount.getStakeAccountEncoder sample_stake);
  (pda_of (findReverseRecordPda {| Pdas.owner := small_addr 1 |} None),
    encoded ReverseRecordAccount.getReverseRecordEncoder sample_reverse);
  (small_addr 4, replicate 64 0 ++ le_bytes 8 700 ++ replicate 93 0)
].

Definition sample_fetch (a : Address) : result JsError (option bytes) :=
  Ok (snd <$> List.find (fun '(k, _) => bool_decide (k = a)) sample_accounts).

Lemma sample_mirrors : config_mirrors sample_client_config sample_config.
Proof. split; reflexivity. Defined.

Lemma priceForLabel_matches_program_witness :
  validate_name (codePoints (js "1234")) = Ok tt
  /\ price_for_label sample_config (js "1234")
     = Z.min U64_MAX (priceForLabel sample_client_config (js "1234")).
Proof.
  split; [vm_compute; reflexivity|].
  apply (priceForLabel_matches_program _ _ (js "1234") sample_mirrors sample_config_ok).
  vm_compute. reflexivity.
Defined.

Lemma quotes_match_program_witness :
  exists v, quoteSolansFee sample_fetch 1000001 = Ok v
    /\ solans_fee sample_config 1000001 = checked_u64 v.
Proof.
  refine (proj1 (quotes_match_program sample_fetch
    (MkConfig CONFIG_DISCRIMINATOR sample_client_config) sample_config 1000001 _ _ _ _ _)).
  - vm_compute. reflexivity.
  - exact sample_mirrors.
  - exact sample_config_ok.
  - by_compute.
  - by_compute.
Defined.

Definition alex_object : NameRecord := MkNameRecord NAME_RECORD_DISCRIMINATOR alex_record.
Definition pay_object : NameRecord := MkNameRecord NAME_RECORD_DISCRIMINATOR pay_record.

Lemma sample_resolves : resolve sample_fetch (js "pay.alex.sol") = Some (Ok (Some pay_object)).
Proof. vm_compute. reflexivity. Defined.

Lemma record_lookups_follow_resolve_witness :
  resolve sample_fetch (js "alex.sol") = Some (Ok (Some alex_object))
  /\ getAddress sample_fetch (js "alex.sol") None = Some (Ok (Some (js "Wa11et"))).
Proof.
  assert (HR : resolve sample_fetch (js "alex.sol") = Some (Ok (Some alex_object)))
    by (vm_compute; reflexivity).
  split; [exact HR|].
  exact (proj1 (proj2 (proj2 (record_lookups_follow_resolve sample_fetch (js "alex.sol")
    alex_object HR)))).
Defined.

(** A chain holding just these two names. *)
Definition alex_bytes : bytes := encoded getNameRecordEncoder alex_record.
Definition pay_bytes : bytes := encoded getNameRecordEncoder pay_record.

Definition names_fetch (a : Address) : result JsError (option bytes) :=
  Ok (if bool_decide (a = alex_pda) then Some alex_bytes
      else if bool_decide (a = pay_pda) then Some pay_bytes
      else None).

Lemma alex_decodes : decodeNameRecord alex_bytes = Ok alex_object.
Proof. vm_compute. reflexivity. Defined.
Lemma pay_decodes : decodeNameRecord pay_bytes = Ok pay_object.
Proof. vm_compute. reflexivity. Defined.

#[local] Opaque alex_pda pay_pda alex_bytes pay_bytes decodeNameRecord.
Lemma names_records a r : recordAt names_fetch a r ->
  (a = alex_pda /\ r = alex_object) \/ (a = pay_pda /\ r = pay_object).
Proof.
  intros (d & Hf & Hd). unfold names_fetch in Hf. injection Hf as Hf.
  destruct (bool_decide (a = alex_pda)) eqn:E1.
  - left. apply (inj Some) in Hf as <-. bool_prop. split; [exact E1|].
    rewrite alex_decodes in Hd. congruence.
  - right. destruct (bool_decide (a = pay_pda)) eqn:E2; [|discriminate Hf].
    apply (inj Some) in Hf as <-. bool_prop. split; [exact E2|].
    rewrite pay_decodes in Hd. congruence.
Defined.
#[local] Transparent alex_pda pay_pda alex_bytes pay_bytes decodeNameRecord.

Lemma names_depths : depths_ordered names_fetch.
Proof.
  assert (Hne : alex_pda <> pay_pda) by (vm_compute; discriminate).
  intros a r [[-> ->]|[-> ->]]%names_records.
  - split; [by_compute|]. intros p Hp. change (None = Some p) in Hp. discriminate Hp.
  - split; [by_compute|]. intros p Hp. change (Some alex_pda = Some p) in Hp.
    apply (inj Some) in Hp as <-. split; [by_compute|].
    intros pr [[_ ->]|[Hbad _]]%names_records; [reflexivity|].
    destruct (Hne Hbad).
Defined.

Lemma resolve_decides_liveness_witness :
  exists outcome, resolve names_fetch (js "pay.alex.sol") = Some outcome
    /\ (outcome = Ok (Some pay_object) <->
          exists pda bump, findNameRecord (js "pay.alex.sol") None = Ok (pda, bump)
            /\ recordAt names_fetch pda pay_object /\ live names_fetch pay_object).
Proof.
  destruct (resolve_decides_liveness names_fetch (js "pay.alex.sol") names_depths)
    as (outcome & HR & Hlive & _).
  exists outcome. split; [exact HR|]. exact (Hlive pay_object).
Defined.

Lemma resolution_ends_witness :
  exists out, forall more, walkParents names_fetch (1 + more) pay_object = Some out.
Proof.
  destruct (resolution_ends names_fetch pay_pda pay_object) as [HE _].
  - exists pay_bytes. split; [vm_compute; reflexivity|exact pay_decodes].
  - apply (HE names_depths 1%nat). vm_compute. discriminate.
Defined.

Lemma reverseLookup_round_trips_witness :
  exists primary, primary = js "alex.sol"
    /\ reverseLookup sample_fetch (small_addr 1) = Ok (Some primary)
    /\ exists npda rec, recordAt sample_fetch npda rec /\ NameRecordAccount.owner rec = small_addr 1.
Proof.
  assert (HR : reverseLookup sample_fetch (small_addr 1) = Ok (Some (js "alex.sol")))
    by (vm_compute; reflexivity).
  exists (js "alex.sol"). split; [reflexivity|]. split; [exact HR|].
  destruct (reverseLookup_round_trips sample_fetch (small_addr 1) (js "alex.sol") HR)
    as (_ & _ & _ & _ & npda & _ & rec & _ & _ & _ & _ & _ & Hrec & Hown).
  exists npda, rec. split; [exact Hrec|exact Hown].
Defined.

Lemma pendingReward_matches_program_witness :
  exists reward, pendingReward sample_fetch (small_addr 2) = Ok reward /\ 240 = reward mod 2 ^ 64.
Proof.
  refine (pendingReward_matches_program sample_fetch (small_addr 2)
    (StakePoolAccount.MkStakePool StakePoolAccount.STAKE_POOL_DISCRIMINATOR sample_pool)
    (StakeAccountAccount.MkStakeAccount StakeAccountAccount.STAKE_ACCOUNT_DISCRIMINATOR sample_stake)
    (replicate 64 0 ++ le_bytes 8 700 ++ replicate 93 0)
    (MkStakePool 500 (2000000000 + 1200000000000) 700) 240 _ _ _ _ _ _ _ _).
  - vm_compute. reflexivity.
  - vm_compute. reflexivity.
  - vm_compute. reflexivity.
  - by_compute.
  - by_compute.
  - by_compute.
  - vm_compute. reflexivity.
  - vm_compute. reflexivity.
Defined.
End Sample.
