(* ===== verification/Renewal.v ===== *)
(** * The program's renewal handlers

    programs/solans/src/instructions: renew_name.rs and auto_renew.rs.  The
    token transfers of [distribute_fee] are the token program's; [charge amount]
    stands for their outcome. *)
From S2P Require Import Prelude JsString Errors OnChain.

(** The fields of a [NameRecord] that renewal reads and writes. *)
Record Renewable := MkRenewable { name_hash : bytes; expires_at : Z }.

Section Renewal.
Context `{Keccak}.
Variable charge : Z -> Result unit.

Definition extend (nr : Renewable) (years now : Z) : Result Renewable :=
  let base := Z.max (expires_at nr) now in
  secs ← years_to_secs years;
  e ← checked_i64 (base + secs);
  Ok (MkRenewable (name_hash nr) e).

Definition renew_name (config : Config) (nr : Renewable) (name tld : list Z) (years now : Z)
    : Result Renewable :=
  _ ← validate_name name;
  _ ← validate_tld tld;
  _ ← require (bool_decide (name_hash nr = compute_name_hash name tld)) NameMismatch;
  _ ← validate_years years (min_years config) (max_years config);
  amount ← checked_u64 (price_for_label config name * years);
  _ ← charge amount;
  extend nr years now.

Definition auto_renew (config : Config) (nr : Renewable) (name tld : list Z) (years now : Z)
    : Result Renewable :=
  _ ← validate_name name;
  _ ← validate_tld tld;
  _ ← require (bool_decide (name_hash nr = compute_name_hash name tld)) NameMismatch;
  _ ← validate_years years (min_years config) (max_years config);
  _ ← require (years =? 1) InvalidYears;
  amount ← checked_u64 (price_for_label config name * years);
  window_opens ← checked_i64 (expires_at nr - RENEWAL_WINDOW_SECONDS);
  _ ← require (window_opens <=? now) AutoRenewTooEarly;
  _ ← charge amount;
  extend nr years now.
End Renewal.

Lemma require_true b e : b = true -> require b e = Ok tt.
Proof. by intros ->. Qed.
