(* ===== verification/Keeper.v ===== *)
(** * The auto-renew keeper

    src/services/keeper/src/keeper.ts.  All effects are injected ([ProcessDeps]),
    so a name is processed by a function of the outside world [W].  [logged] runs
    the same effects and records each call with its outcome; [episode] lists the
    possible traces of one name, and the theorems read the keeper's guarantees
    off it: when it renews, whom it notifies, what a sweep counts. *)
From S2P Require Import Prelude JsString Errors OnChain Kit SmallKit Accounts Normalize.
From S2P Require Import HashName Client Renewal.
Import NameRecordAccount.

Inductive KeeperEvent :=
| Renewed (name : jsstring) (expiresAt : Z) (signature : option jsstring)
| RenewalFailed (name : jsstring) (error : jsstring)
| NoDelegation (name : jsstring) (expiresAt : Z)
| ExpiringSoon (name : jsstring) (expiresAt : Z).

Definition dueForRenewal (expiresAt now windowSecs : Z) : bool := now >=? expiresAt - windowSecs.

Record Delegation := MkDelegation { delegate : option Address; amount : Z }.

Inductive ProcessResult := renewed | skipped | failed.

Record ProcessDeps (W : Type) := MkDeps {
  resolve : jsstring -> Eff W (option NameRecord);
  ownerDelegation : Address -> Eff W (option Delegation);
  quote : jsstring -> Z -> Eff W Z;
  renew : jsstring -> jsstring -> Z -> Eff W (option jsstring);
  notify : KeeperEvent -> Eff W unit;
  configPda : Address;
  now : Z;
  windowSecs : Z;
  notifyWindowSecs : Z;
  years : Z;
}.
Arguments MkDeps {W}.
Arguments resolve {W}. Arguments ownerDelegation {W}. Arguments quote {W}.
Arguments renew {W}. Arguments notify {W}. Arguments configPda {W}. Arguments now {W}.
Arguments windowSecs {W}. Arguments notifyWindowSecs {W}. Arguments years {W}.

Record Tally := MkTally { renewed_count : Z; skipped_count : Z; failed_count : Z }.

(** [tally[r] += 1] *)
Definition bump (r : ProcessResult) (t : Tally) : Tally :=
  match r with
  | renewed => MkTally (renewed_count t + 1) (skipped_count t) (failed_count t)
  | skipped => MkTally (renewed_count t) (skipped_count t + 1) (failed_count t)
  | failed => MkTally (renewed_count t) (skipped_count t) (failed_count t + 1)
  end.

(** [!del || del.delegate !== deps.configPda || del.amount < fee], negated. *)
Definition covers (del : option Delegation) (pda : Address) (fee : Z) : bool :=
  match del with
  | None => false
  | Some d => bool_decide (delegate d = Some pda) && negb (amount d <? fee)
  end.

Section Keeper.
Context `{Unicode} {W : Type}.

Definition processName (name : jsstring) (deps : ProcessDeps W) : Eff W ProcessResult :=
  resolve deps name ≫= fun rec : option NameRecord =>
  match rec with
  | None => mret skipped
  | Some rec =>
      lift (parseName name None) ≫= fun '(label, tld) =>
      let exp := expiresAt (NameRecordAccount.args rec) in
      if negb (dueForRenewal exp (now deps) (windowSecs deps)) then
        (if dueForRenewal exp (now deps) (notifyWindowSecs deps)
         then notify deps (ExpiringSoon name exp) else mret tt) ≫= fun _ => mret skipped
      else
        quote deps label (years deps) ≫= fun fee =>
        ownerDelegation deps (owner (NameRecordAccount.args rec)) ≫= fun del =>
        if negb (covers del (configPda deps) fee) then
          notify deps (NoDelegation name exp) ≫= fun _ => mret skipped
        else
          eff_catch
            (renew deps label tld (years deps) ≫= fun signature =>
             resolve deps name ≫= fun after : option NameRecord =>
             notify deps (Renewed name
               (match after with
                | Some a => expiresAt (NameRecordAccount.args a)
                | None => exp
                end) signature) ≫= fun _ => mret renewed)
            (fun err =>
             notify deps (RenewalFailed name (message err)) ≫= fun _ => mret failed)
  end.

(** The loop of [runOnce] over the rest of the watchlist. *)
Fixpoint sweep (watchlist : list jsstring) (deps : ProcessDeps W) (tally : Tally)
    : Eff W Tally :=
  match watchlist with
  | [] => mret tally
  | name :: rest =>
      eff_catch
        (processName name deps ≫= fun r => mret (bump r tally))
        (fun err =>
         notify deps (RenewalFailed name (message err)) ≫= fun _ => mret (bump failed tally))
      ≫= fun tally => sweep rest deps tally
  end.

Definition runOnce (watchlist : list jsstring) (deps : ProcessDeps W) : Eff W Tally :=
  sweep watchlist deps (MkTally 0 0 0).
End Keeper.

(** ** Traces *)

(** A call of an injected effect, with its outcome. *)
Inductive Call :=
| CResolve (name : jsstring) (r : result JsError (option NameRecord))
| COwnerDelegation (owner : Address) (r : result JsError (option Delegation))
| CQuote (label : jsstring) (years : Z) (r : result JsError Z)
| CRenew (label tld : jsstring) (years : Z) (r : result JsError (option jsstring))
| CNotify (event : KeeperEvent) (r : result JsError unit).

Definition log_call {W A} (mk : result JsError A -> Call) (m : Eff W A)
    : Eff (W * list Call) A :=
  fun '(w, log) => let '(w', r) := m w in ((w', log ++ [mk r]), r).

(** The same effects, every call recorded. *)
Definition logged {W} (deps : ProcessDeps W) : ProcessDeps (W * list Call) :=
  {| resolve := fun n => log_call (CResolve n) (resolve deps n);
     ownerDelegation := fun o => log_call (COwnerDelegation o) (ownerDelegation deps o);
     quote := fun l y => log_call (CQuote l y) (quote deps l y);
     renew := fun l t y => log_call (CRenew l t y) (renew deps l t y);
     notify := fun e => log_call (CNotify e) (notify deps e);
     configPda := configPda deps; now := now deps; windowSecs := windowSecs deps;
     notifyWindowSecs := notifyWindowSecs deps; years := years deps |}.

(** The constants of [ProcessDeps]. *)
Record Settings := MkSettings {
  s_configPda : Address; s_now : Z; s_windowSecs : Z; s_notifyWindowSecs : Z; s_years : Z;
}.
Definition settings {W} (deps : ProcessDeps W) : Settings :=
  MkSettings (configPda deps) (now deps) (windowSecs deps) (notifyWindowSecs deps) (years deps).

Section Traces.
Context `{Unicode}.
Variable s : Settings.

Definition exp (rec : NameRecord) : Z := expiresAt (NameRecordAccount.args rec).
Definition in_window (rec : NameRecord) : bool :=
  dueForRenewal (exp rec) (s_now s) (s_windowSecs s).
Definition in_notify_window (rec : NameRecord) : bool :=
  dueForRenewal (exp rec) (s_now s) (s_notifyWindowSecs s).

(** The body of the [try]: the calls made, and how it ends. *)
Inductive attempt (name label tld : jsstring) (rec : NameRecord)
    : list Call -> result JsError unit -> Prop :=
| renew_throws e : attempt name label tld rec [CRenew label tld (s_years s) (Err e)] (Err e)
| reresolve_throws sig e : attempt name label tld rec
    [CRenew label tld (s_years s) (Ok sig); CResolve name (Err e)] (Err e)
| renew_done sig after r : attempt name label tld rec
    [CRenew label tld (s_years s) (Ok sig); CResolve name (Ok after);
     CNotify (Renewed name (match after with Some a => exp a | None => exp rec end) sig) r] r.

(** What [processName name] can do: its calls in order, and its outcome. *)
Inductive episode (name : jsstring) : list Call -> result JsError ProcessResult -> Prop :=
| resolve_throws e : episode name [CResolve name (Err e)] (Err e)
| unregistered : episode name [CResolve name (Ok None)] (Ok skipped)
| bad_name rec e : parseName name None = Err e ->
    episode name [CResolve name (Ok (Some rec))] (Err e)
| early rec label tld : parseName name None = Ok (label, tld) ->
    in_window rec = false -> in_notify_window rec = false ->
    episode name [CResolve name (Ok (Some rec))] (Ok skipped)
| heads_up rec label tld r : parseName name None = Ok (label, tld) ->
    in_window rec = false -> in_notify_window rec = true ->
    episode name [CResolve name (Ok (Some rec)); CNotify (ExpiringSoon name (exp rec)) r]
      (_ ← r; Ok skipped)
| quote_throws rec label tld e : parseName name None = Ok (label, tld) ->
    in_window rec = true ->
    episode name [CResolve name (Ok (Some rec)); CQuote label (s_years s) (Err e)] (Err e)
| delegation_throws rec label tld fee e : parseName name None = Ok (label, tld) ->
    in_window rec = true ->
    episode name [CResolve name (Ok (Some rec)); CQuote label (s_years s) (Ok fee);
                  COwnerDelegation (owner (NameRecordAccount.args rec)) (Err e)] (Err e)
| not_covered rec label tld fee del r : parseName name None = Ok (label, tld) ->
    in_window rec = true -> covers del (s_configPda s) fee = false ->
    episode name [CResolve name (Ok (Some rec)); CQuote label (s_years s) (Ok fee);
                  COwnerDelegation (owner (NameRecordAccount.args rec)) (Ok del);
                  CNotify (NoDelegation name (exp rec)) r] (_ ← r; Ok skipped)
| renewal_done rec label tld fee del tr : parseName name None = Ok (label, tld) ->
    in_window rec = true -> covers del (s_configPda s) fee = true ->
    attempt name label tld rec tr (Ok tt) ->
    episode name ([CResolve name (Ok (Some rec)); CQuote label (s_years s) (Ok fee);
                   COwnerDelegation (owner (NameRecordAccount.args rec)) (Ok del)] ++ tr)
      (Ok renewed)
| renewal_failed rec label tld fee del tr e r : parseName name None = Ok (label, tld) ->
    in_window rec = true -> covers del (s_configPda s) fee = true ->
    attempt name label tld rec tr (Err e) ->
    episode name ([CResolve name (Ok (Some rec)); CQuote label (s_years s) (Ok fee);
                   COwnerDelegation (owner (NameRecordAccount.args rec)) (Ok del)] ++ tr
                  ++ [CNotify (RenewalFailed name (message e)) r]) (_ ← r; Ok failed).
End Traces.

Section TraceLemmas.
Context `{Unicode} {W : Type}.
Variable deps : ProcessDeps W.

Lemma log_bind {A B} (mk : result JsError A -> Call) (m : Eff W A)
    (f : A -> Eff (W * list Call) B) w log :
  (log_call mk m ≫= f) (w, log) =
    match m w with
    | (w', Ok a) => f a (w', log ++ [mk (Ok a)])
    | (w', Err e) => ((w', log ++ [mk (Err e)]), Err e)
    end.
Proof. unfold log_call, mbind, eff_bind. by destruct (m w) as [w' [a|e]]. Qed.

(** Ending on a notification. *)
Lemma log_then {A B} (mk : result JsError A -> Call) (m : Eff W A) (b : B) w log :
  exists w' r, (log_call mk m ≫= fun _ => mret b) (w, log) = ((w', log ++ [mk r]), _ ← r; Ok b).
Proof. rewrite log_bind. destruct (m w) as [w' r]. exists w', r. by destruct r. Qed.

Lemma attempt_trace name label tld rec w log :
  exists w' tr r,
    (log_call (CRenew label tld (years deps)) (renew deps label tld (years deps)) ≫= fun sig =>
     log_call (CResolve name) (resolve deps name) ≫= fun after : option NameRecord =>
     log_call (CNotify (Renewed name
         (match after with Some a => exp a | None => exp rec end) sig))
       (notify deps (Renewed name
         (match after with Some a => exp a | None => exp rec end) sig))
     ≫= fun _ => mret renewed) (w, log)
    = ((w', log ++ tr), _ ← r; Ok renewed)
    /\ attempt (settings deps) name label tld rec tr r.
Proof.
  rewrite log_bind. destruct (renew deps label tld (years deps) w) as [w1 [sig|e]];
    [|eexists _, _, (Err e); split; [reflexivity|apply renew_throws]].
  rewrite log_bind. destruct (resolve deps name w1) as [w2 [after|e]];
    [|eexists _, _, (Err e); rewrite <- app_assoc; split; [reflexivity|apply reresolve_throws]].
  match goal with |- context [(log_call ?mk ?m ≫= _) (?w, ?l)] =>
    destruct (log_then mk m renewed w l) as (w3 & r & ->) end.
  exists w3, (CRenew label tld (years deps) (Ok sig) :: CResolve name (Ok after) ::
    [CNotify (Renewed name (match after with Some a => exp a | None => exp rec end) sig) r]), r.
  rewrite <- !app_assoc. split; [reflexivity|]. apply renew_done.
Qed.

Lemma processName_trace name w log :
  exists w' tr r, processName name (logged deps) (w, log) = ((w', log ++ tr), r)
    /\ episode (settings deps) name tr r.
Proof.
  unfold processName.
  cbn [logged resolve ownerDelegation quote renew notify configPda now windowSecs
       notifyWindowSecs years].
  rewrite log_bind. destruct (resolve deps name w) as [w1 [[rec|]|e]];
    [|eexists _, _, _; split; [reflexivity|constructor]..].
  unfold lift at 1. unfold mbind at 1, eff_bind at 1.
  destruct (parseName name None) as [[label tld]|e] eqn:Hp;
    [|eexists _, _, _; split; [reflexivity|by constructor]].
  destruct (dueForRenewal _ (now deps) (windowSecs deps)) eqn:Hdue; cbn [negb].
  2: { destruct (dueForRenewal _ (now deps) (notifyWindowSecs deps)) eqn:Hnot.
    - match goal with |- context [(log_call ?mk ?m ≫= _) (?w, ?l)] =>
        destruct (log_then mk m skipped w l) as (w2 & r & ->) end.
      rewrite <- app_assoc. eexists _, _, _. split; [reflexivity|]. by eapply heads_up.
    - eexists _, _, _. split; [reflexivity|]. by eapply early. }
  rewrite log_bind. destruct (quote deps label (years deps) w1) as [w2 [fee|e]].
  2: { rewrite <- app_assoc. eexists _, _, _. split; [reflexivity|]. by eapply quote_throws. }
  rewrite log_bind.
  destruct (ownerDelegation deps _ w2) as [w3 [del|e]].
  2: { rewrite <- !app_assoc. eexists _, _, _. split; [reflexivity|].
       by eapply delegation_throws. }
  destruct (covers del (configPda deps) fee) eqn:Hcov; cbn [negb].
  2: { match goal with |- context [(log_call ?mk ?m ≫= _) (?w, ?l)] =>
         destruct (log_then mk m skipped w l) as (w4 & r & ->) end.
       rewrite <- !app_assoc. eexists _, _, _. split; [reflexivity|]. by eapply not_covered. }
  unfold eff_catch.
  match goal with |- context [match ?m (?w, ?l) with _ => _ end] =>
    destruct (attempt_trace name label tld rec w l) as (w4 & tr & r & HT & Hatt) end.
  unfold exp in HT. rewrite HT. destruct r as [[]|e]; cbn [mbind result_bind].
  - rewrite <- !app_assoc. eexists _, _, _. split; [reflexivity|]. by eapply renewal_done.
  - match goal with |- context [(log_call ?mk ?m ≫= _) (?w, ?l)] =>
      destruct (log_then mk m failed w l) as (w5 & r & ->) end.
    rewrite <- !app_assoc. eexists _, _, _. split; [reflexivity|]. by eapply renewal_failed.
Qed.
End TraceLemmas.

(** ** What the keeper guarantees *)

Definition event_name (e : KeeperEvent) : jsstring :=
  match e with
  | Renewed n _ _ | RenewalFailed n _ | NoDelegation n _ | ExpiringSoon n _ => n
  end.

Definition is_renew (c : Call) : bool := match c with CRenew _ _ _ _ => true | _ => false end.
Definition is_renewal (c : Call) : bool :=
  match c with CRenew _ _ _ (Ok _) => true | _ => false end.
Definition count (f : Call -> bool) (l : list Call) : Z := Z.of_nat (length (List.filter f l)).

Lemma count_app f l1 l2 : count f (l1 ++ l2) = count f l1 + count f l2.
Proof. unfold count. rewrite List.filter_app, length_app. lia. Qed.

Lemma covers_true del pda fee : covers del pda fee = true ->
  exists d, del = Some d /\ delegate d = Some pda /\ fee <= amount d.
Proof.
  destruct del as [d|]; cbn; [|done]. intros Hc. bool_prop. by exists d.
Qed.

(** A list of three calls and one to come. *)
Lemma fourth_call (a b c d x : Call) (tl pre post : list Call) :
  a :: b :: c :: d :: tl = pre ++ x :: post ->
  is_renew x = true -> is_renew a = false -> is_renew b = false -> is_renew c = false ->
  forallb (fun y => negb (is_renew y)) tl = true ->
  pre = [a; b; c] /\ x = d /\ post = tl.
Proof.
  intros E Hx Ha Hb Hc Ht.
  destruct pre as [|p1 [|p2 [|p3 pre]]]; cbn in E; injection E; intros; subst; try congruence.
  destruct pre as [|p4 pre]; cbn in *; injection H as -> ->; [done|].
  rewrite forallb_app in Ht. bool_prop. cbn in *. by rewrite Hx in *.
Qed.

Lemma no_renewal_call (l pre post : list Call) x :
  forallb (fun y => negb (is_renew y)) l = true -> is_renew x = true ->
  l = pre ++ x :: post -> False.
Proof.
  intros Hl Hx ->. rewrite forallb_app in Hl. bool_prop. cbn in *. by rewrite Hx in *.
Qed.

Section Episodes.
Context `{Unicode}.
Variable s : Settings.

(** The shape of an episode around its renewal call. *)
Lemma episode_renew name tr r pre label tld y o post :
  episode s name tr r -> tr = pre ++ CRenew label tld y o :: post ->
  (exists rec fee d,
     pre = [CResolve name (Ok (Some rec)); CQuote label (s_years s) (Ok fee);
            COwnerDelegation (owner (NameRecordAccount.args rec)) (Ok (Some d))]
     /\ parseName name None = Ok (label, tld) /\ y = s_years s
     /\ dueForRenewal (exp rec) (s_now s) (s_windowSecs s) = true
     /\ delegate d = Some (s_configPda s) /\ fee <= amount d)
  /\ forallb (fun c => negb (is_renew c)) post = true.
Proof.
  intros HE Htr. inversion HE; subst tr;
    try (exfalso; eapply no_renewal_call; [| |eassumption]; reflexivity).
  all: match goal with C : covers _ _ _ = true |- _ => apply covers_true in C as (d & -> & Hd & Hf) end.
  all: match goal with A : attempt _ _ _ _ _ _ _ |- _ => inversion A; subst end.
  all: match goal with E : _ = _ ++ CRenew _ _ _ _ :: _ |- _ =>
         apply fourth_call in E as (-> & E & ->); [|reflexivity..]; injection E; intros; subst end.
  all: split; [eexists _, _, _; repeat (split; [done|]); done|done].
Qed.

(** Calls counted over an episode. *)
Lemma episode_counts name tr r : episode s name tr r ->
  0 <= count is_renewal tr <= count is_renew tr /\ count is_renew tr <= 1
  /\ (r = Ok renewed -> count is_renewal tr = 1)
  /\ (r = Ok skipped -> count is_renew tr = 0).
Proof.
  intros HE. inversion HE; subst;
    try match goal with A : attempt _ _ _ _ _ _ _ |- _ => inversion A; subst end;
    try match goal with |- context [mbind _ ?r] => destruct r end;
    cbn; repeat split; try done; lia.
Qed.

(** A due name that is processed without an error ends on a delivered event. *)
Lemma episode_notified name tr r rec :
  episode s name tr (Ok r) -> head tr = Some (CResolve name (Ok (Some rec))) ->
  dueForRenewal (exp rec) (s_now s) (s_windowSecs s) = true ->
  exists ev, last tr = Some (CNotify ev (Ok tt)) /\ event_name ev = name
    /\ match r with
       | renewed => exists e sig, ev = Renewed name e sig
       | skipped => ev = NoDelegation name (exp rec)
       | failed => exists m, ev = RenewalFailed name m
       end.
Proof.
  intros HE Hh Hdue. inversion HE; subst; cbn in Hh; try congruence;
    injection Hh as ->; unfold in_window in *; try congruence;
    repeat match goal with
    | B : mbind _ ?r = Ok _ |- _ => destruct r as [[]|]; [injection B as <-|discriminate B]
    | A : attempt _ _ _ _ _ _ (Ok _) |- _ => inversion A; subst; clear A
    end.
  - eexists. split; [reflexivity|]. done.
  - eexists. split; [reflexivity|]. split; [done|]. by eexists _, _.
  - eexists. rewrite app_assoc, last_snoc. split; [reflexivity|]. split; [done|]. by eexists.
Qed.
End Episodes.

Section Guarantees.
Context `{Unicode} {W : Type}.
Variable deps : ProcessDeps W.

(** C18: Whenever processName calls renew, the name resolved, its expiry is inside the
    renewal window, the fee was quoted for the parsed label, and the owner's delegation to
    the Config PDA covers that fee; renew is called at most once. *)
Theorem renews_only_due_and_delegated name w w' log r pre label tld y o post :
  processName name (logged deps) (w, []) = ((w', log), r) ->
  log = pre ++ CRenew label tld y o :: post ->
  (exists rec fee d,
     pre = [CResolve name (Ok (Some rec)); CQuote label (years deps) (Ok fee);
            COwnerDelegation (owner (NameRecordAccount.args rec)) (Ok (Some d))]
     /\ parseName name None = Ok (label, tld) /\ y = years deps
     /\ dueForRenewal (exp rec) (now deps) (windowSecs deps) = true
     /\ delegate d = Some (configPda deps) /\ fee <= amount d)
  /\ forallb (fun c => negb (is_renew c)) post = true.
Proof.
  intros HP Hlog. destruct (processName_trace deps name w []) as (w2 & tr & r2 & HT & HE).
  rewrite HP in HT. injection HT as -> -> ->. cbn [app] in Hlog.
  exact (episode_renew (settings deps) name tr r2 pre label tld y o post HE Hlog).
Qed.

(** Whenever processName returns for a name that resolved inside its renewal window,
    its last act was a notification of the owner about that name: renewed, no-delegation or
    renewal-failed according to the result. *)
Theorem due_names_are_notified name w w' log r rec :
  processName name (logged deps) (w, []) = ((w', log), Ok r) ->
  head log = Some (CResolve name (Ok (Some rec))) ->
  dueForRenewal (exp rec) (now deps) (windowSecs deps) = true ->
  exists ev, last log = Some (CNotify ev (Ok tt)) /\ event_name ev = name
    /\ match r with
       | renewed => exists e sig, ev = Renewed name e sig
       | skipped => ev = NoDelegation name (exp rec)
       | failed => exists m, ev = RenewalFailed name m
       end.
Proof.
  intros HP. destruct (processName_trace deps name w []) as (w2 & tr & r2 & HT & HE).
  rewrite HP in HT. injection HT as -> -> <-. cbn [app].
  by apply (episode_notified (settings deps)).
Qed.

Definition total (t : Tally) : Z := renewed_count t + skipped_count t + failed_count t.

(** One name of the sweep: its result is counted, whatever threw. *)
Lemma sweep_step name rest tally w log :
  (forall ev, no_throw (notify deps ev)) ->
  exists w' tr r,
    sweep (name :: rest) (logged deps) tally (w, log)
    = sweep rest (logged deps) (bump r tally) (w', log ++ tr)
    /\ 0 <= count is_renewal tr <= count is_renew tr /\ count is_renew tr <= 1
    /\ (r = renewed -> count is_renewal tr = 1) /\ (r = skipped -> count is_renew tr = 0).
Proof.
  intros HN. cbn [sweep]. rewrite eff_bind_run. unfold eff_catch. rewrite eff_bind_run.
  destruct (processName_trace deps name w log) as (w1 & tr & res & HT & HE).
  apply episode_counts in HE as (HC1 & HC2 & HC3 & HC4).
  rewrite HT. destruct res as [r|e].
  - exists w1, tr, r. split; [done|]. split; [done|]. split; [done|].
    split; intros ->; auto.
  - cbn [logged notify]. rewrite log_bind.
    destruct (no_throw_Ok _ w1 (HN (RenewalFailed name (message e)))) as (w2 & [] & ->).
    exists w2, (tr ++ [CNotify (RenewalFailed name (message e)) (Ok tt)]), failed.
    rewrite app_assoc, !count_app. split; [done|].
    change (count is_renewal [CNotify _ _]) with 0. change (count is_renew [CNotify _ _]) with 0.
    split; [lia|]. split; [lia|]. by split.
Qed.

Lemma sweep_counts watchlist tally w log :
  (forall ev, no_throw (notify deps ev)) ->
  exists w' tr t,
    sweep watchlist (logged deps) tally (w, log) = ((w', log ++ tr), Ok t)
    /\ total t = total tally + Z.of_nat (length watchlist)
    /\ renewed_count tally <= renewed_count t /\ skipped_count tally <= skipped_count t
    /\ failed_count tally <= failed_count t
    /\ renewed_count t - renewed_count tally <= count is_renewal tr
    /\ count is_renewal tr <= count is_renew tr
    /\ count is_renew tr <= renewed_count t - renewed_count tally
                            + (failed_count t - failed_count tally).
Proof.
  intros HN. revert tally w log. induction watchlist as [|name rest IH]; intros tally w log.
  - exists w, [], tally. rewrite app_nil_r. split; [done|].
    change (count is_renewal []) with 0. change (count is_renew []) with 0. cbn [length]. lia.
  - destruct (sweep_step name rest tally w log HN) as (w1 & tr1 & r & -> & C1 & C2 & C3 & C4).
    destruct (IH (bump r tally) w1 (log ++ tr1)) as (w2 & tr2 & t & -> & HIH).
    exists w2, (tr1 ++ tr2), t. rewrite app_assoc, !count_app. split; [done|].
    unfold total in *. cbn [length]. rewrite Nat2Z.inj_succ.
    destruct r; cbn [bump renewed_count skipped_count failed_count] in HIH;
      [specialize (C3 eq_refl)|specialize (C4 eq_refl)|]; lia.
Qed.

(** If notifications do not throw, runOnce ends with a tally that counts each watched
    name once, and the number of renew calls is at least the renewed count and at most
    renewed plus failed. *)
Theorem runOnce_counts_every_name watchlist w :
  (forall ev, no_throw (notify deps ev)) ->
  exists w' log t,
    runOnce watchlist (logged deps) (w, []) = ((w', log), Ok t)
    /\ renewed_count t + skipped_count t + failed_count t = Z.of_nat (length watchlist)
    /\ 0 <= renewed_count t /\ 0 <= skipped_count t /\ 0 <= failed_count t
    /\ renewed_count t <= count is_renewal log
    /\ count is_renew log <= renewed_count t + failed_count t.
Proof.
  intros HN. destruct (sweep_counts watchlist (MkTally 0 0 0) w [] HN)
    as (w' & tr & t & HS & HT & Hcounts). cbn in *.
  exists w', tr, t. split; [done|]. unfold total in HT. cbn in HT. lia.
Qed.

(** processName does not throw when the resolve, quote and delegation lookups and the
    notifications do not and the name parses, whatever renew does. *)
Theorem processName_throws_only_on_lookups name :
  no_throw (resolve deps name) ->
  (forall l y, no_throw (quote deps l y)) -> (forall o, no_throw (ownerDelegation deps o)) ->
  (forall ev, no_throw (notify deps ev)) ->
  is_Ok (parseName name None) = true ->
  no_throw (processName name deps).
Proof.
  intros HR HQ HO HN HP w. unfold processName. rewrite eff_bind_run.
  destruct (no_throw_Ok _ w HR) as (w1 & [rec|] & ->); [|done].
  apply is_Ok_true in HP as ([label tld] & HP). rewrite eff_bind_run. unfold lift. rewrite HP.
  destruct (negb (dueForRenewal _ _ _)).
  { destruct (dueForRenewal _ _ _); [|done]. rewrite eff_bind_run.
    by destruct (no_throw_Ok _ w1 (HN (ExpiringSoon name (expiresAt rec)))) as (? & [] & ->). }
  rewrite eff_bind_run. destruct (no_throw_Ok _ w1 (HQ label (years deps))) as (w2 & fee & ->).
  rewrite eff_bind_run.
  destruct (no_throw_Ok _ w2 (HO (owner (NameRecordAccount.args rec)))) as (w3 & del & ->).
  destruct (negb (covers _ _ _)).
  { rewrite eff_bind_run.
    by destruct (no_throw_Ok _ w3 (HN (NoDelegation name (expiresAt rec)))) as (? & [] & ->). }
  unfold eff_catch. destruct ((renew deps label tld (years deps) ≫= _) w3) as [w4 [r|e]]; [done|].
  rewrite eff_bind_run.
  by destruct (no_throw_Ok _ w4 (HN (RenewalFailed name (message e)))) as (? & [] & ->).
Qed.
End Guarantees.

(** ** The keeper and the program *)

(** The keeper's window is the program's. *)
Lemma window_agrees exp now : is_i64 exp ->
  0 <= exp -> dueForRenewal exp now RENEWAL_WINDOW_SECONDS = true ->
  exists opens, checked_i64 (exp - RENEWAL_WINDOW_SECONDS) = Ok opens /\ (opens <=? now) = true.
Proof.
  unfold is_i64, dueForRenewal, RENEWAL_WINDOW_SECONDS, I64_MIN, I64_MAX. intros He Hp Hd.
  bool_prop. exists (exp - 2592000). split.
  - apply checked_Ok. unfold I64_MIN, I64_MAX. lia.
  - apply Z.leb_le. lia.
Qed.

Section Acceptance.
Context `{HK : KeccakSpec} `{Unicode} `{Kit}.

(** A renewal the keeper attempts with its default window and term is accepted by the
    program's auto_renew: the label, hash, window, fee and delegation checks the keeper made
    imply those of the handler, which extends the record by one year from the later of its
    expiry and now. *)
Lemma attempted_renewals_are_accepted s c p charge nr name label tld rec d fee chain_now :
  parseName name None = Ok (label, tld) ->
  dueForRenewal (exp rec) (s_now s) (s_windowSecs s) = true ->
  s_windowSecs s = RENEWAL_WINDOW_SECONDS -> s_years s = 1 ->
  fee = priceForLabel c label * s_years s -> fee <= amount d ->
  config_mirrors c p -> config_ok p -> min_years p <= 1 <= max_years p ->
  name_hash nr = computeNameHash label tld -> expires_at nr = exp rec ->
  0 <= exp rec -> s_now s <= chain_now ->
  Z.max (exp rec) chain_now + SECONDS_PER_YEAR <= I64_MAX ->
  (forall a, a <= amount d -> charge a = Ok tt) ->
  auto_renew charge p nr (codePoints label) tld (s_years s) chain_now
  = Ok (MkRenewable (name_hash nr) (Z.max (exp rec) chain_now + SECONDS_PER_YEAR)).
Proof.
  intros HP Hdue Hwin Hyears -> Hfee Hm Hp Hterm Hhash Hexp Hpos Hnow Hmax Hcharge.
  rewrite Hyears in *. rewrite Z.mul_1_r in Hfee.
  unfold parseName in HP. destruct (splitTld _) as [l0 t0] eqn:Hs.
  apply result_bind_Ok in HP as (t1 & Ho & HP). apply result_bind_Ok in HP as (n & Hv & HP).
  injection HP as -> ->. apply validateLabel_Ok in Hv as [-> Hl].
  assert (Ht : In tld ALLOWED_TLDS)
    by (eapply overrideTld_allowed; [|exact Ho]; by eapply splitTld_allowed).
  unfold auto_renew. rewrite (proj2 (validate_name_canonical _) Hl). cbn [mbind result_bind].
  rewrite (proj1 (allowed_tld_validate _) Ht). cbn [mbind result_bind].
  rewrite (require_true (bool_decide (_ = _)))
    by (apply bool_decide_eq_true; rewrite Hhash; by apply computeNameHash_program).
  cbn [mbind result_bind]. unfold validate_years.
  rewrite (require_true (_ && _)) by (apply andb_true_iff; split; apply Z.leb_le; lia).
  cbn [mbind result_bind Z.eqb require].
  rewrite Z.mul_1_r, (priceForLabel_price c p l0 Hm Hp Hl).
  assert (Hprice : is_u64 (Z.min U64_MAX (priceForLabel c l0))).
  { rewrite <- (priceForLabel_price c p l0 Hm Hp Hl). by apply price_for_label_u64. }
  unfold checked_u64. rewrite (proj2 (checked_Ok 0 U64_MAX _ _) (conj eq_refl Hprice)).
  cbn [mbind result_bind].
  rewrite Hexp. rewrite Hwin in Hdue.
  destruct (window_agrees (exp rec) chain_now) as (opens & -> & Hopens).
  { unfold is_i64, I64_MIN, I64_MAX, SECONDS_PER_YEAR in *. lia. }
  { done. }
  { unfold dueForRenewal in *. bool_prop. rewrite Z.geb_leb. apply Z.leb_le. lia. }
  cbn [mbind result_bind]. rewrite (require_true (opens <=? chain_now)) by done. cbn [mbind result_bind].
  rewrite Hcharge by (eapply Z.le_trans; [apply Z.le_min_r|done]). cbn [mbind result_bind].
  unfold extend, years_to_secs, checked_i64, SECONDS_PER_YEAR, I64_MAX, I64_MIN in *.
  rewrite Hexp.
  rewrite (proj2 (checked_Ok (- 2 ^ 63) (2 ^ 63 - 1) (1 * 31536000) 31536000)) by lia.
  cbn [mbind result_bind].
  by rewrite (proj2 (checked_Ok (- 2 ^ 63) (2 ^ 63 - 1) _
    (Z.max (exp rec) chain_now + 31536000))) by lia.
Qed.

(** [auto_renew] accepts no term but one year. *)
Theorem auto_renew_only_one_year charge p nr name tld years chain_now :
  years <> 1 -> is_Ok (auto_renew charge p nr name tld years chain_now) = false.
Proof.
  intros Hy. unfold auto_renew.
  do 4 (match goal with |- is_Ok (?m ≫= _) = false => destruct m; [|done] end;
        cbn [mbind result_bind]).
  by rewrite (proj2 (Z.eqb_neq years 1)).
Qed.
End Acceptance.

(** On a subdomain path processName makes one call, resolve, and never renews: it is
    skipped when unregistered and throws otherwise, since parseName takes single labels. *)
Theorem subdomains_never_renewed `{Unicode} {W} (deps : ProcessDeps W) name labels tld w :
  parsePath name None = Ok (labels, tld) -> (2 <= length labels)%nat ->
  exists w' c e, processName name (logged deps) (w, []) = ((w', [c]), e)
    /\ ((exists r, c = CResolve name r /\ match r with
                   | Ok (Some _) => is_Ok e = false
                   | Ok None => e = Ok skipped
                   | Err err => e = Err err
                   end)).
Proof.
  intros HP Hlen.
  destruct (parseName name None) as [[l t]|err] eqn:HN.
  { apply parseName_parsePath in HN. rewrite HP in HN. injection HN as -> _. cbn in Hlen. lia. }
  destruct (processName_trace deps name w []) as (w' & tr & r & HT & HE).
  inversion HE; subst; try congruence; cbn [app] in HT; eexists w', _, _;
    (split; [exact HT|]); by eexists.
Qed.

(** The documentation of [processName] says it never throws; it does when a
    lookup throws, and the error of a notification after a successful renewal
    is reported as a failed renewal. *)
Section Counterexamples.
#[local] Existing Instance SmallUnicode.

Definition sample_record (expires : Z) : NameRecord :=
  MkNameRecord NAME_RECORD_DISCRIMINATOR
    (MkNameRecordArgs (small_addr 1) None (replicate 32 0) (js "sol") 0 expires [] None None
       false false None None 0 0 false 255).

(** A world that counts the calls of [resolve]; the third and later ones fail. *)
Definition flaky (fail_from : Z) : ProcessDeps Z :=
  {| resolve := fun _ w =>
       (w + 1, if w <? fail_from then Ok (Some (sample_record 1000)) else Err (MkError (js "rpc")));
     ownerDelegation := fun _ w => (w, Ok (Some (MkDelegation (Some (small_addr 2)) 5000000)));
     quote := fun _ _ w => (w, Ok 1000000);
     renew := fun _ _ _ w => (w, Ok (Some (js "sig")));
     notify := fun _ w => (w, Ok tt);
     configPda := small_addr 2; now := 900; windowSecs := RENEWAL_WINDOW_SECONDS;
     notifyWindowSecs := 2 * RENEWAL_WINDOW_SECONDS; years := 1 |}.

Lemma processName_can_throw :
  processName (js "alex.sol") (flaky 0) 0 = (1, Err (MkError (js "rpc"))).
Proof. vm_compute. reflexivity. Qed.

Lemma renewal_done_reported_failed :
  exists tr, processName (js "alex.sol") (logged (flaky 1)) (0, []) = ((2, tr), Ok failed)
    /\ In (CRenew (js "alex") (js "sol") 1 (Ok (Some (js "sig")))) tr
    /\ last tr = Some (CNotify (RenewalFailed (js "alex.sol") (js "rpc")) (Ok tt)).
Proof.
  eexists. split; [vm_compute; reflexivity|]. split; [|reflexivity].
  do 3 right. by left.
Qed.

(** A run that renews alex.sol, and its calls. *)
Definition sample_trace : list Call := [
  CResolve (js "alex.sol") (Ok (Some (sample_record 1000)));
  CQuote (js "alex") 1 (Ok 1000000);
  COwnerDelegation (small_addr 1) (Ok (Some (MkDelegation (Some (small_addr 2)) 5000000)));
  CRenew (js "alex") (js "sol") 1 (Ok (Some (js "sig")));
  CResolve (js "alex.sol") (Ok (Some (sample_record 1000)));
  CNotify (Renewed (js "alex.sol") 1000 (Some (js "sig"))) (Ok tt)].

Lemma sample_run :
  processName (js "alex.sol") (logged (flaky 5)) (0, []) = ((2, sample_trace), Ok renewed).
Proof. vm_compute. reflexivity. Defined.

Lemma flaky_notifies n : forall ev, no_throw (notify (flaky n) ev).
Proof. intros ev w. reflexivity. Defined.

Lemma renews_only_due_and_delegated_witness :
  exists rec fee d,
    take 3 sample_trace = [CResolve (js "alex.sol") (Ok (Some rec)); CQuote (js "alex") 1 (Ok fee);
      COwnerDelegation (owner (NameRecordAccount.args rec)) (Ok (Some d))]
    /\ delegate d = Some (small_addr 2) /\ fee <= amount d.
Proof.
  destruct (renews_only_due_and_delegated (flaky 5) (js "alex.sol") 0 2 sample_trace (Ok renewed)
    (take 3 sample_trace) (js "alex") (js "sol") 1 (Ok (Some (js "sig"))) (drop 4 sample_trace)
    sample_run eq_refl) as [(rec & fee & d & Hpre & _ & _ & _ & Hd & Hfee) _].
  exists rec, fee, d. split; [exact Hpre|]. split; [exact Hd|exact Hfee].
Defined.

Lemma due_names_are_notified_witness :
  exists ev, last sample_trace = Some (CNotify ev (Ok tt)) /\ event_name ev = js "alex.sol".
Proof.
  destruct (due_names_are_notified (flaky 5) (js "alex.sol") 0 2 sample_trace renewed
    (sample_record 1000) sample_run eq_refl eq_refl) as (ev & Hl & Hn & _).
  exists ev. split; [exact Hl|exact Hn].
Defined.

Lemma runOnce_counts_every_name_witness :
  exists w' log t,
    runOnce [js "alex.sol"; js "bad..name"] (logged (flaky 3)) (0, []) = ((w', log), Ok t)
    /\ renewed_count t + skipped_count t + failed_count t = 2.
Proof.
  destruct (runOnce_counts_every_name (flaky 3) [js "alex.sol"; js "bad..name"] 0
    (flaky_notifies 3)) as (w' & log & t & HR & HC & _).
  exists w', log, t. split; [exact HR|exact HC].
Defined.

(** Lookups that never throw; [renew] always does. *)
Definition steady : ProcessDeps unit :=
  {| resolve := fun _ w => (w, Ok (Some (sample_record 1000)));
     ownerDelegation := fun _ w => (w, Ok (Some (MkDelegation (Some (small_addr 2)) 5000000)));
     quote := fun _ _ w => (w, Ok 1000000);
     renew := fun _ _ _ w => (w, Err (MkError (js "blockhash not found")));
     notify := fun _ w => (w, Ok tt);
     configPda := small_addr 2; now := 900; windowSecs := RENEWAL_WINDOW_SECONDS;
     notifyWindowSecs := 2 * RENEWAL_WINDOW_SECONDS; years := 1 |}.

Lemma processName_throws_only_on_lookups_witness :
  no_throw (processName (js "alex.sol") steady).
Proof.
  apply (processName_throws_only_on_lookups steady (js "alex.sol")).
  - intros w. reflexivity.
  - intros l y w. reflexivity.
  - intros o w. reflexivity.
  - intros ev w. reflexivity.
  - vm_compute. reflexivity.
Defined.

Definition sample_settings : Settings :=
  MkSettings (small_addr 2) 900 RENEWAL_WINDOW_SECONDS (2 * RENEWAL_WINDOW_SECONDS) 1.

Lemma attempted_renewals_are_accepted_witness :
  auto_renew (fun a => if a <=? 20000000 then Ok tt else Err MathOverflow) sample_config
    (MkRenewable (computeNameHash (js "alex") (js "sol")) 1000) (codePoints (js "alex"))
    (js "sol") 1 950
  = Ok (MkRenewable (computeNameHash (js "alex") (js "sol")) (1000 + SECONDS_PER_YEAR)).
Proof.
  refine (attempted_renewals_are_accepted sample_settings sample_client_config sample_config
    (fun a => if a <=? 20000000 then Ok tt else Err MathOverflow)
    (MkRenewable (computeNameHash (js "alex") (js "sol")) 1000) (js "alex.sol")
    (js "alex") (js "sol") (sample_record 1000) (MkDelegation (Some (small_addr 2)) 20000000)
    10000000 950 _ _ _ _ _ _ _ _ _ _ _ _ _ _ _).
  - vm_compute. reflexivity.
  - vm_compute. reflexivity.
  - reflexivity.
  - reflexivity.
  - vm_compute. reflexivity.
  - vm_compute. discriminate.
  - exact sample_mirrors.
  - exact sample_config_ok.
  - vm_compute. split; discriminate.
  - reflexivity.
  - reflexivity.
  - vm_compute. discriminate.
  - vm_compute. discriminate.
  - vm_compute. discriminate.
  - intros a Ha. change (a <= 20000000) in Ha. by rewrite (proj2 (Z.leb_le a 20000000)).
Defined.

Lemma auto_renew_only_one_year_witness :
  is_Ok (auto_renew (fun _ => Ok tt) sample_config
    (MkRenewable (computeNameHash (js "alex") (js "sol")) 1000) (js "alex") (js "sol") 2 950)
  = false.
Proof. apply auto_renew_only_one_year. discriminate. Defined.

Lemma subdomains_never_renewed_witness :
  exists w' c e, processName (js "pay.alex.sol") (logged (flaky 5)) (0, []) = ((w', [c]), e).
Proof.
  destruct (subdomains_never_renewed (flaky 5) (js "pay.alex.sol") [js "pay"; js "alex"]
    (js "sol") 0) as (w' & c & e & HP & _); [vm_compute; reflexivity|cbn; lia|].
  exists w', c, e. exact HP.
Defined.
End Counterexamples.
