(* ===== verification/IndexParse.v ===== *)
(** * From instructions to index events

    src/services/indexer/src/parse.ts.  A program instruction is decoded with the
    generated client into an [IndexEvent], or [None] when it is not the
    program's, not known, or not tracked.  [event_of] states what each tracked
    kind yields; the parser is proved to be identification, tracking, then
    [event_of] of the generated parser's result. *)
From S2P Require Import Prelude JsString Kit SmallKit Pdas Instruction NameInstructions.
From S2P Require Import MarketInstructions TokenInstructions.
From S2P Require Import Program.

Inductive IndexEvent :=
| Register (nameRecord : Address) (fullName name tld : jsstring) (owner : Address)
    (nameHash : jsstring) (years : Z)
| Renew (nameRecord : Address) (name tld : jsstring) (years : Z)
| Subdomain (nameRecord parent owner : Address) (label nameHash : jsstring)
| Transfer (nameRecord newOwner : Address)
| Burn (nameRecord : Address)
| List (nameRecord seller : Address) (priceLamports : jsstring)
| Unlist (nameRecord : Address)
| Buy (nameRecord newOwner : Address).

#[export] Instance IndexEvent_eq_dec : EqDecision IndexEvent.
Proof. solve_decision. Defined.

(** Two lower-case hexadecimal digits per byte. *)
Definition hex_digit (n : Z) : Z := if n <? 10 then 48 + n else 87 + n.
Definition hex (b : bytes) : jsstring :=
  flat_map (fun x => [hex_digit (x / 16); hex_digit (x mod 16)]) b.

Definition metasFromAddresses (addresses : list Address) : list AccountMeta :=
  map (fun a => {| address := a; role := READONLY |}) addresses.

Definition fullNameOf (name tld : jsstring) : jsstring := name ++ js "." ++ tld.

Definition parseSolansInstruction `{Kit} (ix : Instruction)
    : result JsError (option IndexEvent) :=
  if negb (bool_decide (programAddress ix = SOLANS_PROGRAM_ADDRESS)) then Ok None
  else match identifySolansInstruction (data ix) with
  | Err _ => Ok None
  | Ok kind =>
    match kind with
    | SolansInstruction.RegisterName =>
        p ← RegisterName.parseRegisterNameInstruction ix;
        let a := RegisterName.accounts p in
        let d := RegisterName.args (RegisterName.data p) in
        Ok (Some (Register (address (RegisterName.Accounts.nameRecord a))
          (fullNameOf (RegisterName.name d) (RegisterName.tld d))
          (RegisterName.name d) (RegisterName.tld d)
          (address (RegisterName.Accounts.owner a))
          (hex (RegisterName.nameHash d)) (RegisterName.years d)))
    | SolansInstruction.RegisterWithSolans =>
        p ← RegisterWithSolans.parseRegisterWithSolansInstruction ix;
        let a := RegisterWithSolans.accounts p in
        let d := RegisterWithSolans.args (RegisterWithSolans.data p) in
        Ok (Some (Register (address (RegisterWithSolans.Accounts.nameRecord a))
          (fullNameOf (RegisterWithSolans.name d) (RegisterWithSolans.tld d))
          (RegisterWithSolans.name d) (RegisterWithSolans.tld d)
          (address (RegisterWithSolans.Accounts.owner a))
          (hex (RegisterWithSolans.nameHash d)) (RegisterWithSolans.years d)))
    | SolansInstruction.RenewName =>
        p ← RenewName.parseRenewNameInstruction ix;
        let d := RenewName.args (RenewName.data p) in
        Ok (Some (Renew (address (RenewName.Accounts.nameRecord (RenewName.accounts p)))
          (RenewName.name d) (RenewName.tld d) (RenewName.years d)))
    | SolansInstruction.RenewWithSolans =>
        p ← RenewWithSolans.parseRenewWithSolansInstruction ix;
        let d := RenewWithSolans.args (RenewWithSolans.data p) in
        Ok (Some (Renew
          (address (RenewWithSolans.Accounts.nameRecord (RenewWithSolans.accounts p)))
          (RenewWithSolans.name d) (RenewWithSolans.tld d) (RenewWithSolans.years d)))
    | SolansInstruction.WrapSubdomain =>
        p ← WrapSubdomain.parseWrapSubdomainInstruction ix;
        let a := WrapSubdomain.accounts p in
        let d := WrapSubdomain.args (WrapSubdomain.data p) in
        Ok (Some (Subdomain (address (WrapSubdomain.Accounts.nameRecord a))
          (address (WrapSubdomain.Accounts.parentName a))
          (address (WrapSubdomain.Accounts.subdomainOwner a))
          (WrapSubdomain.label d) (hex (WrapSubdomain.nameHash d))))
    | SolansInstruction.TransferName =>
        p ← TransferName.parseTransferNameInstruction ix;
        Ok (Some (Transfer
          (address (TransferName.Accounts.nameRecord (TransferName.accounts p)))
          (TransferName.newOwner (TransferName.args (TransferName.data p)))))
    | SolansInstruction.BurnName =>
        p ← BurnName.parseBurnNameInstruction ix;
        Ok (Some (Burn (address (BurnName.Accounts.nameRecord (BurnName.accounts p)))))
    | SolansInstruction.ListName =>
        p ← ListName.parseListNameInstruction ix;
        let a := ListName.accounts p in
        Ok (Some (List (address (ListName.Accounts.nameRecord a))
          (address (ListName.Accounts.owner a))
          (toString (ListName.price (ListName.args (ListName.data p))))))
    | SolansInstruction.CancelListing =>
        p ← CancelListing.parseCancelListingInstruction ix;
        Ok (Some (Unlist (address (CancelListing.Accounts.nameRecord (CancelListing.accounts p)))))
    | SolansInstruction.BuyName =>
        p ← BuyName.parseBuyNameInstruction ix;
        let a := BuyName.accounts p in
        Ok (Some (Buy (address (BuyName.Accounts.nameRecord a))
          (address (BuyName.Accounts.buyer a))))
    | _ => Ok None
    end
  end.

(** ** What the parser means *)

(** The kinds the indexer tracks. *)
Definition tracked (k : SolansInstruction.t) : bool :=
  match k with
  | SolansInstruction.RegisterName | SolansInstruction.RegisterWithSolans
  | SolansInstruction.RenewName | SolansInstruction.RenewWithSolans
  | SolansInstruction.WrapSubdomain | SolansInstruction.TransferName
  | SolansInstruction.BurnName | SolansInstruction.ListName
  | SolansInstruction.CancelListing | SolansInstruction.BuyName => true
  | _ => false
  end.

(** The i-th account of a parsed instruction. *)
Definition account_at (metas : list AccountMeta) (i : nat) : Address :=
  match metas !! i with Some m => address m | None => [] end.

(** The event of a tracked kind, from its arguments and its accounts by position. *)
Definition event_spec `{KitSpec} (k : SolansInstruction.t) (metas : list AccountMeta)
    : Args (instruction_codec k) -> option IndexEvent :=
  let acc := account_at metas in
  match k with
  | SolansInstruction.RegisterName => fun v : RegisterName.RegisterNameInstructionDataArgs =>
      Some (Register (acc 3%nat) (fullNameOf (RegisterName.name v) (RegisterName.tld v))
        (RegisterName.name v) (RegisterName.tld v) (acc 1%nat)
        (hex (RegisterName.nameHash v)) (RegisterName.years v))
  | SolansInstruction.RegisterWithSolans =>
      fun v : RegisterWithSolans.RegisterWithSolansInstructionDataArgs =>
      Some (Register (acc 3%nat)
        (fullNameOf (RegisterWithSolans.name v) (RegisterWithSolans.tld v))
        (RegisterWithSolans.name v) (RegisterWithSolans.tld v) (acc 1%nat)
        (hex (RegisterWithSolans.nameHash v)) (RegisterWithSolans.years v))
  | SolansInstruction.RenewName => fun v : RenewName.RenewNameInstructionDataArgs =>
      Some (Renew (acc 2%nat) (RenewName.name v) (RenewName.tld v) (RenewName.years v))
  | SolansInstruction.RenewWithSolans =>
      fun v : RenewWithSolans.RenewWithSolansInstructionDataArgs =>
      Some (Renew (acc 2%nat) (RenewWithSolans.name v) (RenewWithSolans.tld v)
        (RenewWithSolans.years v))
  | SolansInstruction.WrapSubdomain => fun v : WrapSubdomain.WrapSubdomainInstructionDataArgs =>
      Some (Subdomain (acc 3%nat) (acc 2%nat) (acc 1%nat) (WrapSubdomain.label v)
        (hex (WrapSubdomain.nameHash v)))
  | SolansInstruction.TransferName => fun v : TransferName.TransferNameInstructionDataArgs =>
      Some (Transfer (acc 1%nat) (TransferName.newOwner v))
  | SolansInstruction.BurnName => fun _ => Some (Burn (acc 1%nat))
  | SolansInstruction.ListName => fun v : ListName.ListNameInstructionDataArgs =>
      Some (List (acc 1%nat) (acc 0%nat) (toString (ListName.price v)))
  | SolansInstruction.CancelListing => fun _ => Some (Unlist (acc 2%nat))
  | SolansInstruction.BuyName => fun _ => Some (Buy (acc 4%nat) (acc 0%nat))
  | _ => fun _ => None
  end.

(** ** Laws *)

Section Laws.
Context `{KS : KitSpec}.

Definition own (metas : list AccountMeta) (bs : bytes) : Instruction :=
  {| programAddress := SOLANS_PROGRAM_ADDRESS; accounts := metas; data := bs |}.

(** What the generated parser of a kind returns on an encoded instruction. *)
Lemma parsed_encoded k v metas bs rest :
  object_ok (instruction_codec k) v ->
  (length (slots (instruction_codec k)) <= length metas)%nat ->
  encoder (instruction_codec k) v = Ok bs ->
  exists p, parse (instruction_codec k) (own metas (bs ++ rest)) = Ok p
    /\ parsed_accounts _ p = read_slots (slots (instruction_codec k)) metas
    /\ parsed_data _ p = object (instruction_codec k) v.
Proof.
  intros Hv Hlen He. destruct (object_law _ v Hv) as (bs' & He' & Hd).
  rewrite He in He'. injection He' as <-.
  pose proof (parse_refines (instruction_codec k) (own metas (bs ++ rest))) as HP.
  unfold parse_spec, decode in HP. cbn [own accounts data programAddress] in HP.
  rewrite (proj2 (Nat.ltb_ge _ _) Hlen), Hd in HP.
  destruct (parse _ _) as [p|]; [|done]. cbn in HP. injection HP as _ H2 H3. by exists p.
Qed.

(** A required account of a parsed instruction is the one at its position. *)
Lemma slot_address l metas parsed i m :
  parsed = read_slots l metas -> parsed !! i = Some (Some m) ->
  account_at metas i = address m.
Proof.
  intros -> Hi. unfold read_slots in Hi. apply lookup_zip_with_Some in Hi as (s & x & Hm & _ & Hx).
  unfold account_at. rewrite Hx. f_equal. unfold read_slot in Hm.
  destruct s; [|destruct (bool_decide _)]; by simplify_eq.
Qed.

Lemma encoded_event k v metas bs rest :
  object_ok (instruction_codec k) v ->
  (length (slots (instruction_codec k)) <= length metas)%nat ->
  encoder (instruction_codec k) v = Ok bs ->
  parseSolansInstruction (own metas (bs ++ rest)) = Ok (event_spec k metas v).
Proof.
  intros Hv Hlen He. pose proof (tag_law _ v bs He) as Ht.
  destruct (parsed_encoded k v metas bs rest Hv Hlen He) as (p & HP & HA & HD).
  unfold parseSolansInstruction. cbn [own programAddress data].
  rewrite bool_decide_eq_true_2 by done. cbn [negb].
  rewrite (identify_encoded k bs rest Ht).
  pose proof (fun i m => slot_address _ metas _ i m HA) as Hacc.
  destruct k; try reflexivity;
    match goal with |- mbind _ ?m = _ => change m with
      (parse (instruction_codec ltac:(match type of HP with
         parse (instruction_codec ?k) _ = _ => exact k end)) (own metas (bs ++ rest))) end;
    rewrite HP; cbn [mbind result_bind event_spec];
    first
      [ change (RegisterName.data p = RegisterName.MkRegisterNameInstructionData
          RegisterName.REGISTER_NAME_DISCRIMINATOR v) in HD
      | change (RegisterWithSolans.data p = RegisterWithSolans.MkRegisterWithSolansInstructionData
          RegisterWithSolans.REGISTER_WITH_SOLANS_DISCRIMINATOR v) in HD
      | change (RenewName.data p = RenewName.MkRenewNameInstructionData
          RenewName.RENEW_NAME_DISCRIMINATOR v) in HD
      | change (RenewWithSolans.data p = RenewWithSolans.MkRenewWithSolansInstructionData
          RenewWithSolans.RENEW_WITH_SOLANS_DISCRIMINATOR v) in HD
      | change (WrapSubdomain.data p = WrapSubdomain.MkWrapSubdomainInstructionData
          WrapSubdomain.WRAP_SUBDOMAIN_DISCRIMINATOR v) in HD
      | change (TransferName.data p = TransferName.MkTransferNameInstructionData
          TransferName.TRANSFER_NAME_DISCRIMINATOR v) in HD
      | change (ListName.data p = ListName.MkListNameInstructionData
          ListName.LIST_NAME_DISCRIMINATOR v) in HD
      | idtac ];
    rewrite ?HD; repeat match goal with
      | |- context [account_at metas ?i] => rewrite (Hacc i _ eq_refl)
      end; reflexivity.
Qed.

(** C31: The indexer's parser returns, for any instruction encoded by the generated client
    with enough accounts, the event its kind calls for (accounts by position, arguments as
    encoded), and null for the kinds it does not track. *)
Theorem indexer_decodes_encoded k v metas bs rest :
  object_ok (instruction_codec k) v ->
  (length (slots (instruction_codec k)) <= length metas)%nat ->
  encoder (instruction_codec k) v = Ok bs ->
  parseSolansInstruction (own metas (bs ++ rest)) = Ok (event_spec k metas v).
Proof. apply encoded_event. Qed.

(** An error of the kind's parser is thrown. *)
Lemma tracked_fails ix k e :
  programAddress ix = SOLANS_PROGRAM_ADDRESS -> take 8 (data ix) = tag (instruction_codec k) ->
  tracked k = true -> parse (instruction_codec k) ix = Err e ->
  parseSolansInstruction ix = Err e.
Proof.
  intros Hp Ht Htr HP. unfold parseSolansInstruction.
  rewrite bool_decide_eq_true_2 by done. cbn [negb]. rewrite (identified_tag ix k Ht).
  destruct k; try discriminate Htr;
    match goal with |- mbind _ ?m = _ =>
      match type of HP with ?t = _ => change m with t end; by rewrite HP
    end.
Qed.

(** The indexer's parser returns null for another program's instruction, an unknown
    discriminator and an untracked kind, and throws for a tracked instruction that lacks
    accounts or whose data does not decode. *)
Theorem indexer_ignores_or_throws ix :
  (programAddress ix <> SOLANS_PROGRAM_ADDRESS -> parseSolansInstruction ix = Ok None)
  /\ ((forall k, take 8 (data ix) <> tag (instruction_codec k)) ->
      parseSolansInstruction ix = Ok None)
  /\ (programAddress ix = SOLANS_PROGRAM_ADDRESS ->
      forall k, take 8 (data ix) = tag (instruction_codec k) ->
      (tracked k = false -> parseSolansInstruction ix = Ok None)
      /\ (tracked k = true ->
          (length (accounts ix) < length (slots (instruction_codec k)))%nat ->
          parseSolansInstruction ix
          = Err (insufficientAccountMetas (Z.of_nat (length (accounts ix)))
                   (Z.of_nat (length (slots (instruction_codec k))))))
      /\ (tracked k = true ->
          (length (slots (instruction_codec k)) <= length (accounts ix))%nat ->
          forall e, decode (decoder (instruction_codec k)) (data ix) = Err e ->
          parseSolansInstruction ix = Err e)).
Proof.
  split; [|split].
  - intros Hne. unfold parseSolansInstruction. by rewrite bool_decide_eq_false_2.
  - intros Hk. unfold parseSolansInstruction. destruct (negb _); [done|].
    rewrite identify_instruction_table, unidentified by done. done.
  - intros Hp k Ht. pose proof (parse_refines (instruction_codec k) ix) as HR.
    unfold parse_spec in HR. split; [|split].
    + intros Htr. unfold parseSolansInstruction. rewrite bool_decide_eq_true_2 by done.
      cbn [negb]. rewrite (identified_tag ix k Ht). by destruct k.
    + intros Htr Hlen. apply (tracked_fails ix k); [done..|].
      rewrite (proj2 (Nat.ltb_lt _ _) Hlen) in HR.
      destruct (parse _ _); [done|]. cbn in HR. by injection HR as ->.
    + intros Htr Hlen e He. apply (tracked_fails ix k); [done..|].
      rewrite (proj2 (Nat.ltb_ge _ _) Hlen), He in HR.
      destruct (parse _ _); [done|]. cbn in HR. by injection HR as ->.
Qed.
End Laws.

(** ** Concrete instructions *)

Definition sample_price : ListName.ListNameInstructionDataArgs :=
  ListName.MkListNameInstructionDataArgs 1500000000 1760000000.

Definition sample_metas : list AccountMeta :=
  metasFromAddresses (map small_addr [1; 2; 3; 4; 5; 1; 2; 3; 4; 5; 1; 2]).

Definition sample_data : bytes :=
  match encoder (instruction_codec SolansInstruction.ListName) sample_price with
  | Ok bs => bs
  | Err _ => []
  end.

Lemma indexer_decodes_encoded_witness :
  parseSolansInstruction (own sample_metas (sample_data ++ [0]))
  = Ok (Some (List (small_addr 2) (small_addr 1) (js "1500000000"))).
Proof.
  refine (indexer_decodes_encoded SolansInstruction.ListName sample_price sample_metas
    sample_data [0] _ _ _).
  - vm_compute. repeat split; discriminate.
  - vm_compute. lia.
  - vm_compute. reflexivity.
Defined.

Lemma indexer_ignores_or_throws_witness :
  parseSolansInstruction {| programAddress := small_addr 1; accounts := []; data := [] |} = Ok None.
Proof.
  apply (proj1 (indexer_ignores_or_throws
    {| programAddress := small_addr 1; accounts := []; data := [] |})).
  vm_compute. discriminate.
Defined.
