(* ===== verification/JsNumber.v ===== *)
(** * JavaScript numbers

    A [number] is an IEEE 754 binary64, [spec_float] of the Standard Library with
    53 bits and exponents below 1024.  [Number(s)], [BigInt(s)], [BigInt(x)],
    [Math.round], [Array.prototype.sort] with [(a, b) => a - b] and the printing
    of a number follow ECMA-262.  The lemmas: integers below 2^53 are exact, their
    sums too, they print and read back as their digits; [<=] is a total preorder
    on what is not NaN, and the sort orders by it. *)
From Stdlib Require Import SpecFloat Sorted.
From S2P Require Import Prelude JsString.

Abbreviation number := spec_float.

#[export] Instance number_eq_dec : EqDecision number.
Proof. solve_decision. Defined.

Definition number_of_Z (z : Z) : number := binary_normalize 53 1024 z 0 false.
Definition number_add : number -> number -> number := SFadd 53 1024.
Definition number_sub : number -> number -> number := SFsub 53 1024.
Definition number_mul : number -> number -> number := SFmul 53 1024.
Definition number_div : number -> number -> number := SFdiv 53 1024.

Definition is_nan (x : number) : bool := match x with S754_nan => true | _ => false end.

(** A finite number or an infinity in its canonical form. *)
Definition ordered (x : number) : bool := negb (is_nan x) && valid_binary 53 1024 x.

(** ** Integers *)

(** The integer a number is, if it is one ([Number.isInteger]). *)
Definition toInteger (x : number) : option Z :=
  match x with
  | S754_zero _ => Some 0
  | S754_finite s m e =>
      if 0 <=? e then Some (cond_Zopp s (Z.pos m * 2 ^ e))
      else if Z.pos m mod 2 ^ (- e) =? 0 then Some (cond_Zopp s (Z.pos m / 2 ^ (- e)))
      else None
  | _ => None
  end.

(** [BigInt(x)] of a number. *)
Definition BigInt_of_number (x : number) : result JsError Z :=
  of_option (MkError (js "The number cannot be converted to a BigInt")) (toInteger x).

(** [Math.round(x)]: the nearest integer, ties upward. *)
Definition Math_round (x : number) : number :=
  match x with
  | S754_finite s m e =>
      if 0 <=? e then x
      else
        let r := (2 * cond_Zopp s (Z.pos m) + 2 ^ (- e)) / 2 ^ (- e + 1) in
        if r =? 0 then S754_zero s else number_of_Z r
  | _ => x
  end.

(** ** Decimal conversions *)

(** The rational p / q, for positive p and q, rounded to a number. *)
Definition number_ratio (p q : Z) : number :=
  let '(m, e, l) := SFdiv_core_binary 53 1024 p 0 q 0 in binary_round_aux 53 1024 false m e l.

(** [n * 10^k], rounded. *)
Definition decimal (n k : Z) : number :=
  if n =? 0 then S754_zero false
  else if 0 <=? k then number_of_Z (n * 10 ^ k)
  else number_ratio n (10 ^ (- k)).

Definition is_digit (u : Z) : bool := (48 <=? u) && (u <=? 57).

(** The leading digits of a text, and what follows them. *)
Fixpoint spanDigits (s : jsstring) : jsstring * jsstring :=
  match s with
  | u :: r => if is_digit u then let '(d, rest) := spanDigits r in (u :: d, rest) else ([], s)
  | [] => ([], [])
  end.

Definition digits_value (s : jsstring) : Z := fold_left (fun n u => 10 * n + (u - 48)) s 0.

(** The value of a digit in a literal with a base. *)
Definition base_digit (u : Z) : Z :=
  if is_digit u then u - 48
  else if (97 <=? u) && (u <=? 102) then u - 87
  else if (65 <=? u) && (u <=? 70) then u - 55
  else 16.

(** [0x], [0o] and [0b] literals. *)
Definition base_literal (s : jsstring) : option Z :=
  match s with
  | 48 :: p :: d =>
      let base := if (p =? 120) || (p =? 88) then 16
                  else if (p =? 111) || (p =? 79) then 8
                  else if (p =? 98) || (p =? 66) then 2 else 0 in
      if negb (bool_decide (d = [])) && forallb (fun u => base_digit u <? base) d
      then Some (fold_left (fun n u => base * n + base_digit u) d 0) else None
  | _ => None
  end.

(** The exponent part of a decimal literal; [None]: not one. *)
Definition exponent_part (s : jsstring) : option Z :=
  match s with
  | [] => Some 0
  | u :: r =>
      if (u =? 101) || (u =? 69) then
        let '(neg, r) := match r with
                         | 43 :: r => (false, r)
                         | 45 :: r => (true, r)
                         | _ => (false, r)
                         end in
        let '(d, rest) := spanDigits r in
        if bool_decide (d = []) || negb (bool_decide (rest = [])) then None
        else Some (cond_Zopp neg (digits_value d))
      else None
  end.

(** An unsigned decimal literal. *)
Definition unsigned_literal (s : jsstring) : number :=
  if bool_decide (s = js "Infinity") then S754_infinity false
  else
    let '(ip, r) := spanDigits s in
    let '(fp, r) := match r with 46 :: r => spanDigits r | _ => ([], r) end in
    match exponent_part r with
    | Some e =>
        if bool_decide (ip = []) && bool_decide (fp = []) then S754_nan
        else decimal (digits_value (ip ++ fp)) (e - Z.of_nat (length fp))
    | None => S754_nan
    end.

(** [Number(s)] of a string. *)
Definition Number (s : jsstring) : number :=
  let s := trim s in
  match s with
  | [] => S754_zero false
  | u :: r =>
      match base_literal s with
      | Some n => number_of_Z n
      | None =>
          if u =? 43 then unsigned_literal r
          else if u =? 45 then SFopp (unsigned_literal r)
          else unsigned_literal s
      end
  end.

Definition notABigInt (s : jsstring) : JsError :=
  MkError (js "Cannot convert " ++ s ++ js " to a BigInt").

(** [BigInt(s)] of a string. *)
Definition BigInt (s : jsstring) : result JsError Z :=
  let t := trim s in
  let digits d := if negb (bool_decide (d = [])) && forallb is_digit d
                  then Ok (digits_value d) else Err (notABigInt s) in
  match t with
  | [] => Ok 0
  | u :: r =>
      match base_literal t with
      | Some n => Ok n
      | None =>
          if u =? 43 then digits r
          else if u =? 45 then Z.opp <$> digits r
          else digits t
      end
  end.

(** ** Printing *)

(** A positive number p / q as [0.d1 d2 ... * 10^n] with d1 not zero: n. *)
Fixpoint small_exponent (fuel : nat) (p q : Z) : Z :=
  match fuel with
  | O => 0
  | S fuel => if q <=? p then 1 else small_exponent fuel (10 * p) q - 1
  end.
Definition decimal_exponent (p q : Z) : Z :=
  if q <=? p then Z.of_nat (length (toString (p / q))) else small_exponent 400 p q.

(** The shortest digits that read back as [x] = p / q, trying k digits and more. *)
Fixpoint shortest_digits (fuel : nat) (x : number) (p q n k : Z) : Z * Z :=
  let '(p', q') := if n <=? k then (p * 10 ^ (k - n), q) else (p, q * 10 ^ (n - k)) in
  let lo := p' / q' in
  let hi := lo + 1 in
  let lo_ok := bool_decide (decimal lo (n - k) = x) in
  let hi_ok := (hi <? 10 ^ k) && bool_decide (decimal hi (n - k) = x) in
  let up := (q' <? 2 * (p' mod q')) || ((2 * (p' mod q') =? q') && Z.odd lo) in
  match fuel with
  | O => (lo, k)
  | S fuel =>
      if lo_ok && negb (hi_ok && up) then (lo, k)
      else if hi_ok then (hi, k)
      else shortest_digits fuel x p q n (k + 1)
  end.

(** The text of the digits [d], k of them, times 10^(n-k). *)
Definition layout (d : jsstring) (k n : Z) : jsstring :=
  if (k <=? n) && (n <=? 21) then d ++ replicate (Z.to_nat (n - k)) 48
  else if (0 <? n) && (n <=? 21) then take (Z.to_nat n) d ++ js "." ++ drop (Z.to_nat n) d
  else if (-6 <? n) && (n <=? 0) then js "0." ++ replicate (Z.to_nat (- n)) 48 ++ d
  else
    take 1 d ++ (if k =? 1 then [] else js "." ++ drop 1 d)
    ++ js "e" ++ (if 0 <=? n - 1 then js "+" else js "-") ++ toString (Z.abs (n - 1)).

Definition positive_toString (m : positive) (e : Z) : jsstring :=
  let '(p, q) := if 0 <=? e then (Z.pos m * 2 ^ e, 1) else (Z.pos m, 2 ^ (- e)) in
  let n := decimal_exponent p q in
  let '(d, k) := shortest_digits 17 (S754_finite false m e) p q n 1 in
  layout (toString d) k n.

(** [String(x)]; an integer below 2^53 prints as its digits. *)
Definition number_toString (x : number) : jsstring :=
  match x with
  | S754_nan => js "NaN"
  | S754_zero _ => js "0"
  | S754_infinity s => (if s then js "-" else []) ++ js "Infinity"
  | S754_finite s m e =>
      match toInteger x with
      | Some z => if Z.abs z <? 2 ^ 53 then toString z
                  else (if s then js "-" else []) ++ positive_toString m e
      | None => (if s then js "-" else []) ++ positive_toString m e
      end
  end.

(** ** Sorting *)

(** [(a, b) => a - b] puts [a] before [b]. *)
Definition before (a b : number) : bool := SFltb (number_sub a b) (S754_zero false).

(** Stable, as Array.prototype.sort: an element goes after those not above it. *)
Fixpoint insert_number (x : number) (l : list number) : list number :=
  match l with
  | [] => [x]
  | y :: l' => if before x y then x :: l else y :: insert_number x l'
  end.
Definition sortNumbers (l : list number) : list number :=
  fold_left (fun acc x => insert_number x acc) l [].

Example number_prints :
  number_toString (Number (js "0.005")) = js "0.005"
  /\ number_toString (number_add (Number (js "0.1")) (Number (js "0.2")))
     = js "0.30000000000000004"
  /\ number_toString (Number (js "1e21")) = js "1e+21"
  /\ number_toString (number_div (Number (js "1")) (Number (js "1000000000"))) = js "1e-9"
  /\ number_toString (Number (js "123456789012345680000")) = js "123456789012345680000"
  /\ number_toString (Number (js "-2.5e-3")) = js "-0.0025"
  /\ number_toString (Number (js "5e-324")) = js "5e-324"
  /\ number_toString (Number (js "1.7976931348623157e308")) = js "1.7976931348623157e+308"
  /\ number_toString (Number (js " 0x1F ")) = js "31"
  /\ Number (js "1.2.3") = S754_nan /\ Number (js "") = S754_zero false.
Proof. by_compute. Qed.

(** ** Exact results *)

Lemma iter_pos_iter {A} (f : A -> A) n x : SpecFloat.iter_pos f n x = Nat.iter (Pos.to_nat n) f x.
Proof.
  revert x; induction n as [n IH|n IH|]; intros x; cbn [SpecFloat.iter_pos]; [| |done].
  - rewrite !IH, Pos2Nat.inj_xI, <- Nat.iter_add.
    replace (S (2 * Pos.to_nat n)) with (S (Pos.to_nat n + Pos.to_nat n))%nat by lia.
    by rewrite Nat.iter_succ_r.
  - rewrite !IH, Pos2Nat.inj_xO, <- Nat.iter_add. f_equal. lia.
Qed.

Lemma shr_1_double m : 0 < m ->
  shr_1 {| shr_m := 2 * m; shr_r := false; shr_s := false |}
  = {| shr_m := m; shr_r := false; shr_s := false |}.
Proof. destruct m; [lia|done|lia]. Qed.

Lemma shr_exact n m : 0 < m ->
  Nat.iter n shr_1 {| shr_m := m * 2 ^ Z.of_nat n; shr_r := false; shr_s := false |}
  = {| shr_m := m; shr_r := false; shr_s := false |}.
Proof.
  intros Hm. induction n as [|n IH]; [by rewrite Z.mul_1_r|].
  rewrite Nat.iter_succ_r, Nat2Z.inj_succ, Z.pow_succ_r, (Z.mul_comm 2), Z.mul_assoc,
    (Z.mul_comm _ 2) by lia.
  by rewrite shr_1_double by lia.
Qed.

Lemma digits2_log2 m : Z.pos (digits2_pos m) = Z.log2 (Z.pos m) + 1.
Proof.
  induction m as [m IH|m IH|]; cbn [digits2_pos]; [| |done].
  - rewrite Pos2Z.inj_succ, IH, Pos2Z.inj_xI, Z.log2_succ_double by lia. lia.
  - rewrite Pos2Z.inj_succ, IH, Pos2Z.inj_xO, Z.log2_double by lia. lia.
Qed.

Lemma log2_shift p k : 0 < p -> 0 <= k -> Z.log2 (p * 2 ^ k) = Z.log2 p + k.
Proof. intros. rewrite Z.log2_mul_pow2 by lia. lia. Qed.

Lemma fexp_spec e : fexp 53 1024 e = Z.max (e - 53) (-1074).
Proof. unfold fexp, emin. lia. Qed.

Lemma Zdigits2_log2 P : 0 < P -> Zdigits2 P = Z.log2 P + 1.
Proof. destruct P; [lia| |lia]. intros _. apply digits2_log2. Qed.

(** A 53-bit mantissa followed by zeros loses nothing. *)
Lemma round_aux_exact s P k E : Z.log2 P = 52 -> 0 < P -> -1074 <= E <= 971 -> 0 <= k ->
  binary_round_aux 53 1024 s (P * 2 ^ k) (E - k) loc_Exact = S754_finite s (Z.to_pos P) E.
Proof.
  intros HP HP0 HE Hk. unfold binary_round_aux, shr_fexp.
  rewrite Zdigits2_log2, log2_shift, fexp_spec, HP by (try lia; nia).
  replace (Z.max (52 + k + 1 + (E - k) - 53) (-1074) - (E - k)) with k by lia.
  assert (HS : shr (shr_record_of_loc (P * 2 ^ k) loc_Exact) (E - k) k
               = ({| shr_m := P; shr_r := false; shr_s := false |}, E)).
  { cbn [shr_record_of_loc]. unfold shr. destruct k as [|k|k]; [|..|lia].
    - rewrite Z.mul_1_r. f_equal. lia.
    - rewrite iter_pos_iter. pose proof (shr_exact (Pos.to_nat k) P HP0) as HS.
      rewrite positive_nat_Z in HS. rewrite HS. f_equal. lia. }
  rewrite HS. cbn [loc_of_shr_record round_nearest_even shr_m].
  rewrite Zdigits2_log2, fexp_spec, HP by lia.
  replace (Z.max (52 + 1 + E - 53) (-1074) - E) with 0 by lia.
  cbn [shr shr_record_of_loc shr_m].
  destruct P as [|P|P]; [lia| |lia].
  replace (E <=? 1024 - 53) with true by (symmetry; apply Z.leb_le; lia). done.
Qed.

Lemma iter_xO_shift m n : Z.pos (Pos.iter xO m n) = Z.pos m * 2 ^ Z.pos n.
Proof.
  induction n using Pos.peano_ind; [cbn; lia|].
  rewrite Pos.iter_succ, Pos2Z.inj_succ, Pos2Z.inj_xO, IHn, Z.pow_succ_r by lia. lia.
Qed.

(** The number an integer of at most 53 bits is. *)
Definition exact (s : bool) (p : Z) : number :=
  S754_finite s (Z.to_pos (p * 2 ^ (52 - Z.log2 p))) (Z.log2 p - 52).

Lemma round_exact s m e p : 0 < p < 2 ^ 53 -> e <= 0 -> Z.pos m = p * 2 ^ (- e) ->
  binary_round 53 1024 s m e = exact s p.
Proof.
  intros Hp He Hm. unfold binary_round, exact, shl_align.
  assert (HL : 0 <= Z.log2 p <= 52).
  { split; [apply Z.log2_nonneg|]. apply Z.lt_succ_r, Z.log2_lt_pow2; lia. }
  rewrite digits2_log2, fexp_spec, Hm, log2_shift by lia.
  replace (Z.max (Z.log2 p + - e + 1 + e - 53) (-1074)) with (Z.log2 p - 52) by lia.
  assert (HP : Z.log2 (p * 2 ^ (52 - Z.log2 p)) = 52) by (rewrite log2_shift; lia).
  assert (HP0 : 0 < p * 2 ^ (52 - Z.log2 p)) by (apply Z.mul_pos_pos; [|apply Z.pow_pos_nonneg]; lia).
  destruct (Z.log2 p - 52 - e) as [|d|d] eqn:Hd.
  - rewrite Hm. replace e with (Z.log2 p - 52 - 0) at 2 by lia.
    replace (p * 2 ^ (- e)) with (p * 2 ^ (52 - Z.log2 p) * 2 ^ 0)
      by (rewrite Z.mul_1_r; do 2 f_equal; lia).
    apply round_aux_exact; lia.
  - rewrite Hm. replace e with (Z.log2 p - 52 - Z.pos d) at 2 by lia.
    replace (p * 2 ^ (- e)) with (p * 2 ^ (52 - Z.log2 p) * 2 ^ Z.pos d)
      by (rewrite <- Z.mul_assoc, <- Z.pow_add_r by lia; do 2 f_equal; lia).
    apply round_aux_exact; lia.
  - rewrite iter_xO_shift, Hm, <- Z.mul_assoc, <- Z.pow_add_r by lia.
    replace (- e + Z.pos d) with (52 - Z.log2 p) by lia.
    rewrite <- (round_aux_exact s (p * 2 ^ (52 - Z.log2 p)) 0) by lia.
    f_equal; lia.
Qed.

(** A 53-bit integer as a number. *)
Definition of_small (z : Z) : number :=
  if z =? 0 then S754_zero false else exact (z <? 0) (Z.abs z).

Lemma normalize_exact z k : Z.abs z < 2 ^ 53 -> 0 <= k ->
  binary_normalize 53 1024 (z * 2 ^ k) (- k) false = of_small z.
Proof.
  intros Hz Hk. unfold of_small.
  assert (0 < 2 ^ k) by (apply Z.pow_pos_nonneg; lia).
  destruct z as [|p|p]; [done| |].
  - replace (Z.pos p =? 0) with false by done. replace (Z.pos p <? 0) with false by done.
    unfold binary_normalize. destruct (Z.pos p * 2 ^ k) eqn:E; [nia| |nia].
    apply round_exact; [lia..|]. rewrite Z.opp_involutive. lia.
  - replace (Z.neg p =? 0) with false by done. replace (Z.neg p <? 0) with true by done.
    unfold binary_normalize. destruct (Z.neg p * 2 ^ k) eqn:E; [nia|nia|].
    apply round_exact; [lia..|]. rewrite Z.opp_involutive. lia.
Qed.

Lemma number_of_Z_small z : Z.abs z < 2 ^ 53 -> number_of_Z z = of_small z.
Proof. intros Hz. rewrite <- (normalize_exact z 0) by lia. unfold number_of_Z. f_equal. lia. Qed.

Lemma toInteger_small z : Z.abs z < 2 ^ 53 -> toInteger (of_small z) = Some z.
Proof.
  intros Hz. unfold of_small, exact. destruct (Z.eqb_spec z 0) as [->|Hz0]; [done|].
  cbn [toInteger].
  assert (HL : 0 <= Z.log2 (Z.abs z) <= 52).
  { split; [apply Z.log2_nonneg|]. apply Z.lt_succ_r, Z.log2_lt_pow2; lia. }
  set (L := Z.log2 (Z.abs z)) in *.
  assert (HP0 : 0 < 2 ^ (52 - L)) by (apply Z.pow_pos_nonneg; lia).
  rewrite Z2Pos.id by nia.
  assert (HS : cond_Zopp (z <? 0) (Z.abs z) = z).
  { unfold cond_Zopp. destruct (Z.ltb_spec z 0); lia. }
  destruct (Z.leb_spec 0 (L - 52)).
  - replace (52 - L) with 0 by lia. replace (L - 52) with 0 by lia. by rewrite !Z.mul_1_r, HS.
  - replace (- (L - 52)) with (52 - L) by lia.
    rewrite Z.mod_mul, Z.eqb_refl, Z.div_mul, HS by lia. done.
Qed.

Lemma small_form z : z <> 0 -> Z.abs z < 2 ^ 53 ->
  exists m, of_small z = S754_finite (z <? 0) m (Z.log2 (Z.abs z) - 52)
  /\ cond_Zopp (z <? 0) (Z.pos m) = z * 2 ^ (52 - Z.log2 (Z.abs z))
  /\ 0 <= 52 - Z.log2 (Z.abs z).
Proof.
  intros H0 Hz. unfold of_small, exact. replace (z =? 0) with false by lia.
  assert (HL : 0 <= Z.log2 (Z.abs z) <= 52).
  { split; [apply Z.log2_nonneg|]. apply Z.lt_succ_r, Z.log2_lt_pow2; lia. }
  assert (HP0 : 0 < 2 ^ (52 - Z.log2 (Z.abs z))) by (apply Z.pow_pos_nonneg; lia).
  eexists. split_and!; [done| |lia]. rewrite Z2Pos.id by nia.
  unfold cond_Zopp. destruct (Z.ltb_spec z 0); nia.
Qed.

Lemma align_shift m e ez : ez <= e -> Z.pos (shl_align m e ez).1 = Z.pos m * 2 ^ (e - ez).
Proof.
  intros H. unfold shl_align. destruct (ez - e) as [|p|p] eqn:E; [|lia|].
  - replace (e - ez) with 0 by lia. cbn [fst]. lia.
  - replace (e - ez) with (Z.pos p) by lia. apply iter_xO_shift.
Qed.

Lemma cond_Zopp_mul s x y : cond_Zopp s (x * y) = cond_Zopp s x * y.
Proof. destruct s; cbn; lia. Qed.

(** Sums of integers below 2^53 are exact. *)
Lemma number_add_small a b : Z.abs a < 2 ^ 53 -> Z.abs b < 2 ^ 53 -> Z.abs (a + b) < 2 ^ 53 ->
  number_add (of_small a) (of_small b) = of_small (a + b).
Proof.
  intros Ha Hb Hab.
  destruct (Z.eq_dec a 0) as [->|Ha0].
  { destruct (Z.eq_dec b 0) as [->|Hb0]; [done|].
    destruct (small_form b Hb0 Hb) as (m & E & _). rewrite Z.add_0_l, E. done. }
  destruct (Z.eq_dec b 0) as [->|Hb0].
  { destruct (small_form a Ha0 Ha) as (m & E & _). rewrite Z.add_0_r, E. done. }
  destruct (small_form a Ha0 Ha) as (m1 & -> & H1 & HL1).
  destruct (small_form b Hb0 Hb) as (m2 & -> & H2 & HL2).
  unfold number_add, SFadd. cbv zeta.
  set (L1 := Z.log2 (Z.abs a)) in *. set (L2 := Z.log2 (Z.abs b)) in *.
  rewrite !align_shift, !cond_Zopp_mul, H1, H2, <- !Z.mul_assoc, <- !Z.pow_add_r by lia.
  set (ez := Z.min (L1 - 52) (L2 - 52)).
  replace (52 - L1 + (L1 - 52 - ez)) with (- ez) by lia.
  replace (52 - L2 + (L2 - 52 - ez)) with (- ez) by lia.
  rewrite <- Z.mul_add_distr_r. replace ez with (- - ez) at 2 by lia.
  apply normalize_exact; lia.
Qed.

Lemma Math_round_small z : Z.abs z < 2 ^ 53 -> Math_round (of_small z) = of_small z.
Proof.
  intros Hz. destruct (Z.eq_dec z 0) as [->|H0]; [done|].
  destruct (small_form z H0 Hz) as (m & -> & HM & HL). unfold Math_round.
  destruct (Z.leb_spec 0 (Z.log2 (Z.abs z) - 52)) as [|He]; [done|].
  replace (- (Z.log2 (Z.abs z) - 52)) with (52 - Z.log2 (Z.abs z)) by lia. rewrite HM.
  set (k := 52 - Z.log2 (Z.abs z)) in *. assert (HP : 0 < 2 ^ k) by (apply Z.pow_pos_nonneg; lia).
  rewrite Z.pow_add_r by lia.
  replace ((2 * (z * 2 ^ k) + 2 ^ k) / (2 ^ k * 2 ^ 1)) with z.
  - replace (z =? 0) with false by lia. rewrite number_of_Z_small by done.
    destruct (small_form z H0 Hz) as (m' & -> & HM' & _). fold k in HM'. rewrite <- HM in HM'. f_equal.
    unfold cond_Zopp in *. destruct (z <? 0); lia.
  - apply (Z.div_unique_pos _ _ _ (2 ^ k)); lia.
Qed.

(** Products of integers below 2^53 that stay below are exact. *)
Lemma number_mul_small a b : 0 < a -> 0 < b -> a * b < 2 ^ 53 ->
  number_mul (of_small a) (of_small b) = of_small (a * b).
Proof.
  intros Ha Hb Hab. assert (a < 2 ^ 53 /\ b < 2 ^ 53) as [Ha' Hb'] by nia.
  destruct (small_form a ltac:(lia) ltac:(lia)) as (m1 & -> & H1 & HL1).
  destruct (small_form b ltac:(lia) ltac:(lia)) as (m2 & -> & H2 & HL2).
  rewrite !Z.abs_eq in * by lia.
  replace (a <? 0) with false in * by lia. replace (b <? 0) with false in * by lia.
  cbn [cond_Zopp] in H1, H2. unfold number_mul, SFmul.
  pose proof (Z.log2_mul_below a b Ha Hb). assert (0 < a * b) by nia.
  assert (Z.log2 (a * b) < 53) by (apply Z.log2_lt_pow2; lia).
  pose proof (Z.log2_nonneg (a * b)).
  unfold of_small, exact. replace (a * b =? 0) with false by nia.
  replace (a * b <? 0) with false by nia. rewrite Z.abs_eq by nia.
  rewrite <- (round_aux_exact _ (a * b * 2 ^ (52 - Z.log2 (a * b)))
    (52 + Z.log2 (a * b) - Z.log2 a - Z.log2 b)); [|rewrite log2_shift; lia| |lia|lia].
  2: { apply Z.mul_pos_pos; [|apply Z.pow_pos_nonneg]; lia. }
  cbn [xorb]. rewrite Pos2Z.inj_mul, H1, H2. f_equal; [|lia].
  rewrite <- (Z.mul_assoc (a * b)), <- Z.pow_add_r by lia.
  replace (52 - Z.log2 (a * b) + (52 + Z.log2 (a * b) - Z.log2 a - Z.log2 b))
    with (52 - Z.log2 a + (52 - Z.log2 b)) by lia.
  rewrite Z.pow_add_r by lia. ring.
Qed.

Lemma number_toString_small z : Z.abs z < 2 ^ 53 -> number_toString (of_small z) = toString z.
Proof.
  intros Hz. destruct (Z.eq_dec z 0) as [->|H0]; [done|].
  pose proof (toInteger_small z Hz) as HI.
  destruct (small_form z H0 Hz) as (m & E & _). rewrite E in *. unfold number_toString.
  rewrite HI. by replace (Z.abs z <? 2 ^ 53) with true by lia.
Qed.

(** ** Order *)

(** The value of a number in units of 2^-1074; an infinity is out of range. *)
Definition scaled (x : number) : Z :=
  match x with
  | S754_finite s m e => cond_Zopp s (Z.pos m * 2 ^ (e + 1074))
  | S754_infinity s => cond_Zopp s (2 ^ 2200)
  | _ => 0
  end.

Lemma bounded_spec m e : bounded 53 1024 m e = true ->
  Z.pos m < 2 ^ 53 /\ -1074 <= e <= 971 /\ (-1074 < e -> 2 ^ 52 <= Z.pos m).
Proof.
  unfold bounded, canonical_mantissa. rewrite andb_true_iff, Z.eqb_eq, Z.leb_le.
  rewrite digits2_log2, fexp_spec. intros [HC HE].
  split_and!; [apply Z.log2_lt_pow2; lia|lia..|].
  intros H. apply Z.log2_le_pow2; lia.
Qed.

Lemma scaled_bound m e : bounded 53 1024 m e = true -> 0 < Z.pos m * 2 ^ (e + 1074) < 2 ^ 2200.
Proof.
  intros H. apply bounded_spec in H as (Hm & He & _).
  assert (0 < 2 ^ (e + 1074)) by (apply Z.pow_pos_nonneg; lia). split; [nia|].
  apply Z.lt_le_trans with (2 ^ 53 * 2 ^ (e + 1074)); [nia|].
  rewrite <- Z.pow_add_r by lia. apply Z.pow_le_mono_r; lia.
Qed.

(** A larger exponent is a larger number. *)
Lemma exponent_order m1 e1 m2 e2 : bounded 53 1024 m1 e1 = true -> bounded 53 1024 m2 e2 = true ->
  e1 < e2 -> Z.pos m1 * 2 ^ (e1 + 1074) < Z.pos m2 * 2 ^ (e2 + 1074).
Proof.
  intros H1 H2 He. apply bounded_spec in H1 as (Hm1 & He1 & _), H2 as (_ & He2 & Hm2).
  specialize (Hm2 ltac:(lia)).
  assert (Hd : exists d, 0 <= d /\ e2 + 1074 = e1 + 1074 + d + 1)
    by (exists (e2 - e1 - 1); lia). destruct Hd as (d & Hd & ->).
  assert (Ha : 0 <= e1 + 1074) by lia. generalize dependent (e1 + 1074). intros a Ha.
  rewrite !Z.pow_add_r by lia.
  assert (0 < 2 ^ a) by (apply Z.pow_pos_nonneg; lia).
  assert (0 < 2 ^ d) by (apply Z.pow_pos_nonneg; lia).
  apply Z.lt_le_trans with (2 ^ 53 * 2 ^ a); [nia|].
  change (2 ^ 53) with (2 ^ 52 * 2). change (2 ^ 1) with 2.
  replace (Z.pos m2 * (2 ^ a * 2 ^ d * 2)) with (Z.pos m2 * 2 ^ d * 2 * 2 ^ a) by ring.
  apply Z.mul_le_mono_nonneg_r; nia.
Qed.

Lemma positive_compare m1 e1 m2 e2 :
  bounded 53 1024 m1 e1 = true -> bounded 53 1024 m2 e2 = true ->
  match e1 ?= e2 with Lt => Lt | Gt => Gt | Eq => Pos.compare_cont Eq m1 m2 end
  = (Z.pos m1 * 2 ^ (e1 + 1074) ?= Z.pos m2 * 2 ^ (e2 + 1074)).
Proof.
  intros H1 H2. destruct (Z.compare_spec e1 e2) as [->|He|He]; symmetry.
  - apply bounded_spec in H2 as (_ & He2 & _).
    rewrite <- Zmult_compare_compat_r; [done|]. apply Z.lt_gt, Z.pow_pos_nonneg; lia.
  - apply Z.compare_lt_iff. by apply exponent_order.
  - apply Z.compare_gt_iff. by apply exponent_order.
Qed.

Lemma compare_scaled x y : ordered x = true -> ordered y = true ->
  SFcompare x y = Some (scaled x ?= scaled y).
Proof.
  unfold ordered. rewrite !andb_true_iff. intros [Nx Vx] [Ny Vy].
  assert (HB : 0 < 2 ^ 2200) by (apply Z.pow_pos_nonneg; lia).
  destruct x as [sx|sx| |sx mx ex], y as [sy|sy| |sy my ey]; try done;
    cbn [valid_binary scaled SFcompare] in *; f_equal;
    try (pose proof (scaled_bound _ _ Vx)); try (pose proof (scaled_bound _ _ Vy));
    try pose proof (positive_compare _ _ _ _ Vx Vy) as HC;
    generalize dependent (2 ^ 2200); intros B; intros;
    destruct sx; try destruct sy; cbn [cond_Zopp]; try done;
    try (symmetry; first [apply Z.compare_lt_iff | apply Z.compare_gt_iff | apply Z.compare_eq_iff];
         lia).
  rewrite Z.compare_opp, (Z.compare_antisym (Z.pos mx * _)), <- HC.
  by destruct (ex ?= ey).
Qed.

Lemma SFleb_scaled x y : ordered x = true -> ordered y = true ->
  SFleb x y = (scaled x <=? scaled y).
Proof.
  intros Hx Hy. unfold SFleb. rewrite compare_scaled by done. unfold Z.leb.
  by destruct (scaled x ?= scaled y).
Qed.

Lemma SFltb_scaled x y : ordered x = true -> ordered y = true ->
  SFltb x y = (scaled x <? scaled y).
Proof.
  intros Hx Hy. unfold SFltb. rewrite compare_scaled by done. unfold Z.ltb.
  by destruct (scaled x ?= scaled y).
Qed.

(** ** The sign of a difference *)

Lemma shr_1_half r : 0 <= shr_m r -> shr_m (shr_1 r) = shr_m r / 2.
Proof.
  destruct r as [m r s]. cbn [shr_m]. destruct m as [|m|m]; [done| |lia]. intros _.
  destruct m as [m|m|]; cbn; [| |done].
  - by rewrite Pos2Z.inj_xI, Z.add_comm, Z.mul_comm, Z.div_add by lia.
  - by rewrite Pos2Z.inj_xO, Z.mul_comm, Z.div_mul by lia.
Qed.

Lemma shr_iter_half n r : 0 <= shr_m r -> shr_m (Nat.iter n shr_1 r) = shr_m r / 2 ^ Z.of_nat n.
Proof.
  intros Hr. induction n as [|n IH]; [cbn; by rewrite Z.div_1_r|].
  change (Nat.iter (S n) shr_1 r) with (shr_1 (Nat.iter n shr_1 r)).
  rewrite shr_1_half; rewrite IH; [|apply Z.div_pos; [done|apply Z.pow_pos_nonneg; lia]].
  rewrite Z.div_div, Nat2Z.inj_succ, Z.pow_succ_r, Z.mul_comm by (try apply Z.pow_pos_nonneg; lia). done.
Qed.

(** Rounding leaves a mantissa whose exponent is in range positive. *)
Lemma shr_fexp_positive M e l : 0 < M -> -1074 <= e ->
  0 < shr_m (shr_fexp 53 1024 M e l).1 /\ -1074 <= (shr_fexp 53 1024 M e l).2.
Proof.
  intros HM He. unfold shr_fexp. rewrite Zdigits2_log2, fexp_spec by done.
  assert (Hl : shr_m (shr_record_of_loc M l) = M) by (by destruct l as [|[]]).
  unfold shr. destruct (Z.max _ _ - e) as [|n|n] eqn:Hn; cbn [fst snd]; rewrite ?Hl; [lia| |lia].
  rewrite iter_pos_iter, shr_iter_half, Hl, positive_nat_Z by lia.
  split; [|lia]. apply Z.div_str_pos. split; [apply Z.pow_pos_nonneg; lia|].
  transitivity (2 ^ Z.log2 M); [apply Z.pow_le_mono_r; lia|]. by apply Z.log2_spec.
Qed.

(** What a nonzero mantissa in range rounds to. *)
Definition signed (s : bool) (x : number) : Prop :=
  x = S754_infinity s \/ exists m e, x = S754_finite s m e.

Lemma round_aux_signed s M e : 0 < M -> -1074 <= e ->
  signed s (binary_round_aux 53 1024 s M e loc_Exact).
Proof.
  intros HM He. unfold binary_round_aux.
  pose proof (shr_fexp_positive M e loc_Exact HM He) as H1.
  destruct (shr_fexp 53 1024 M e loc_Exact) as [r1 e1]. cbn [fst snd] in H1.
  assert (HR : 0 < round_nearest_even (shr_m r1) (loc_of_shr_record r1)).
  { unfold round_nearest_even. destruct (loc_of_shr_record r1) as [|[]]; try lia.
    destruct (Z.even (shr_m r1)); lia. }
  pose proof (shr_fexp_positive _ e1 loc_Exact HR ltac:(lia)) as H2.
  destruct (shr_fexp 53 1024 _ e1 loc_Exact) as [r2 e2]. cbn [fst snd] in H2.
  destruct (shr_m r2) as [|m|m]; [lia| |lia].
  destruct (e2 <=? 1024 - 53); [right; eauto|by left].
Qed.

Lemma round_signed s m e : -1074 <= e -> signed s (binary_round 53 1024 s m e).
Proof.
  intros He. unfold binary_round, shl_align. rewrite fexp_spec.
  destruct (_ - e) as [|p|p] eqn:E; apply round_aux_signed; lia.
Qed.

Lemma normalize_sign M e : -1074 <= e ->
  SFltb (binary_normalize 53 1024 M e false) (S754_zero false) = (M <? 0).
Proof.
  intros He. destruct M as [|m|m]; cbn [binary_normalize]; [done|..];
    destruct (round_signed false m e He) as [->|(? & ? & ->)] || idtac; try done;
    destruct (round_signed true m e He) as [->|(? & ? & ->)]; done.
Qed.

(** The comparator of the sort orders numbers. *)
Lemma before_scaled x y : ordered x = true -> ordered y = true ->
  before x y = (scaled x <? scaled y).
Proof.
  intros Hx Hy. unfold before, number_sub.
  assert (HB : 0 < 2 ^ 2200) by (apply Z.pow_pos_nonneg; lia).
  pose proof Hx as Hx'. pose proof Hy as Hy'. unfold ordered in Hx', Hy'.
  apply andb_true_iff in Hx' as [Nx Vx], Hy' as [Ny Vy].
  destruct x as [sx|sx| |sx mx ex], y as [sy|sy| |sy my ey]; try done;
    cbn [valid_binary] in *;
    try (pose proof (scaled_bound _ _ Vx)); try (pose proof (scaled_bound _ _ Vy));
    try (cbn [scaled]; generalize dependent (2 ^ 2200); intros B; intros;
         destruct sx; try destruct sy; cbn -[Z.mul Z.pow Z.add Z.ltb Z.opp];
         symmetry; first [apply Z.ltb_lt | apply Z.ltb_ge]; lia).
  clear Hx Hy Nx Ny. apply bounded_spec in Vx as (_ & Ex & _), Vy as (_ & Ey & _).
  unfold SFsub. cbv zeta. rewrite normalize_sign by lia. cbn [scaled].
  rewrite !align_shift, !cond_Zopp_mul by lia.
  set (ez := Z.min ex ey).
  replace (ex + 1074) with (ex - ez + (ez + 1074)) by lia.
  replace (ey + 1074) with (ey - ez + (ez + 1074)) by lia.
  rewrite (Z.pow_add_r 2 (ex - ez)), (Z.pow_add_r 2 (ey - ez)), !Z.mul_assoc by lia.
  assert (0 < 2 ^ (ez + 1074)) by (apply Z.pow_pos_nonneg; lia).
  generalize dependent (2 ^ (ez + 1074)). intros K HK.
  generalize (cond_Zopp sx (Z.pos mx) * 2 ^ (ex - ez)), (cond_Zopp sy (Z.pos my) * 2 ^ (ey - ez)).
  clear - HK. intros u v.
  destruct (Z.ltb_spec (u - v) 0); symmetry; [apply Z.ltb_lt|apply Z.ltb_ge]; nia.
Qed.

(** ** The sort *)

Definition ascending : list number -> Prop := Sorted (fun x y => SFleb x y = true).

Lemma insert_number_in x l y : In y (insert_number x l) <-> y = x \/ In y l.
Proof.
  induction l as [|z l IH]; cbn; [naive_solver|]. destruct (before x z); cbn; rewrite ?IH; naive_solver.
Qed.

Lemma insert_number_ascending x l : ordered x = true -> Forall (fun y => ordered y = true) l ->
  ascending l -> ascending (insert_number x l).
Proof.
  intros Hx Hl HS. induction HS as [|z l HS IH HH]; cbn; [by repeat constructor|].
  apply List.Forall_cons_iff in Hl as [Hz Hl]. specialize (IH Hl).
  destruct (before x z) eqn:E; rewrite before_scaled in E by done; bool_prop.
  - constructor; [by constructor|]. constructor. rewrite SFleb_scaled by done. lia.
  - constructor; [done|]. destruct HH as [|w l Hw]; cbn.
    + constructor. rewrite SFleb_scaled by done. lia.
    + destruct (before x w); constructor; [rewrite SFleb_scaled by done; lia|done].
Qed.

Lemma sortNumbers_app l : forall acc, Forall (fun y => ordered y = true) (acc ++ l) -> ascending acc ->
  ascending (fold_left (fun acc x => insert_number x acc) l acc)
  /\ forall y, In y (fold_left (fun acc x => insert_number x acc) l acc) <-> In y acc \/ In y l.
Proof.
  induction l as [|x l IH]; intros acc HF HA; cbn; [split; [done|intros; tauto]|].
  apply Forall_app in HF as [Hacc HF]. apply List.Forall_cons_iff in HF as [Hx HF].
  destruct (IH (insert_number x acc)) as [H1 H2].
  - apply Forall_app. split; [|done]. apply List.Forall_forall. intros y Hy.
    apply insert_number_in in Hy as [->|Hy]; [done|]. apply (Forall_In _ _ _ Hacc Hy).
  - by apply insert_number_ascending.
  - split; [done|]. intros y. rewrite H2, insert_number_in. cbn. split; intros Hy; intuition auto.
Qed.

(** Sorting orders the numbers and keeps them. *)
Lemma sortNumbers_spec l : Forall (fun y => ordered y = true) l ->
  ascending (sortNumbers l) /\ forall y, In y (sortNumbers l) <-> In y l.
Proof.
  intros H. destruct (sortNumbers_app l [] H) as [H1 H2]; [constructor|].
  split; [done|]. intros y. rewrite H2. cbn. tauto.
Qed.

(** ** Reading back an integer *)

(** The text [d] is the decimal digits of [n]. *)
Definition digits_of (d : jsstring) (n : Z) : Prop :=
  d <> [] /\ forallb is_digit d = true
  /\ forall m, fold_left (fun n u => 10 * n + (u - 48)) d m = m * 10 ^ Z.of_nat (length d) + n.

Lemma digits_fuel_spec fuel : forall n acc k,
  0 <= n < 2 ^ Z.of_nat fuel -> (0 < fuel)%nat ->
  (acc = [] /\ k = 0 \/ digits_of acc k) ->
  digits_of (digits_fuel fuel n acc) (n * 10 ^ Z.of_nat (length acc) + k).
Proof.
  induction fuel as [|fuel IH]; intros n acc k Hn Hf Hacc; [lia|].
  rewrite Nat2Z.inj_succ, Z.pow_succ_r in Hn by lia. cbn [digits_fuel].
  assert (Hcons : forall u, 0 <= u < 10 -> digits_of (48 + u :: acc) (u * 10 ^ Z.of_nat (length acc) + k)).
  { intros u Hu. split; [done|]. cbn [forallb fold_left length]. split.
    - apply andb_true_iff. split; [unfold is_digit; apply andb_true_iff; split; apply Z.leb_le; lia|].
      destruct Hacc as [[-> _]|(_ & H & _)]; [reflexivity|exact H].
    - intros m. rewrite Nat2Z.inj_succ, Z.pow_succ_r by lia.
      destruct Hacc as [[-> ->]|(_ & _ & ->)]; [cbn; lia|]. ring. }
  destruct (Z.ltb_spec n 10) as [H|H]; [apply Hcons; lia|].
  assert (0 <= n mod 10 < 10) by (apply Z.mod_pos_bound; lia).
  pose proof (Z.div_mod n 10 ltac:(lia)) as HD.
  assert (Hd : n / 10 < 2 ^ Z.of_nat fuel) by (apply Z.div_lt_upper_bound; lia).
  assert (fuel <> 0)%nat by (intros ->; cbn in Hn; lia).
  specialize (IH (n / 10) (48 + n mod 10 :: acc) (n mod 10 * 10 ^ Z.of_nat (length acc) + k)).
  cbn [length] in IH. rewrite Nat2Z.inj_succ, Z.pow_succ_r in IH by lia.
  replace (n * 10 ^ Z.of_nat (length acc) + k) with
    (n / 10 * (10 * 10 ^ Z.of_nat (length acc)) + (n mod 10 * 10 ^ Z.of_nat (length acc) + k))
    by (rewrite HD at 3; ring).
  apply IH; [|lia|right; by apply Hcons]. split; [apply Z.div_pos; lia|done].
Qed.

Lemma toString_digits n : 0 <= n -> digits_of (toString n) n.
Proof.
  intros Hn. unfold toString. replace (n <? 0) with false by lia.
  pose proof (digits_fuel_spec (S (Z.to_nat (Z.log2 n))) n [] 0) as H.
  rewrite Z.mul_1_r, Z.add_0_r in H. apply H; [|lia|by left].
  rewrite Nat2Z.inj_succ, Z2Nat.id by apply Z.log2_nonneg. split; [done|].
  destruct (Z.eq_dec n 0) as [->|]; [done|]. apply Z.log2_spec. lia.
Qed.

Lemma digits_of_value d n : digits_of d n -> digits_value d = n.
Proof. intros (_ & _ & H). unfold digits_value. rewrite H. lia. Qed.

Lemma digits_not_white d : forallb is_digit d = true -> Forall (fun u => is_white u = false) d.
Proof.
  intros H. apply List.Forall_forall. intros u Hu.
  rewrite forallb_forall in H. apply H in Hu. unfold is_digit in Hu. unfold is_white.
  apply not_true_is_false. intros E. apply existsb_exists in E as (w & Hw & E). bool_prop. subst w.
  unfold WHITESPACE in Hw. cbn [In] in Hw. lia.
Qed.

Lemma digits_trim d : forallb is_digit d = true -> trim d = d.
Proof. intros H. by apply trim_id, digits_not_white. Qed.

Lemma digits_base_literal d : forallb is_digit d = true -> base_literal d = None.
Proof.
  intros H. destruct d as [|u [|p r]]; try done.
  - unfold base_literal. destruct u as [|u|u]; try done; repeat (destruct u as [u|u|]; try done).
  - assert (Hp : is_digit p = true) by (cbn in H; bool_prop; done).
    unfold is_digit in Hp. bool_prop. unfold base_literal.
    destruct (Z.eq_dec u 48) as [->|Hu]; [|destruct u as [|u|u]; try done; repeat (destruct u as [u|u|]; try done); done].
    replace (p =? 120) with false by lia. replace (p =? 88) with false by lia.
    replace (p =? 111) with false by lia. replace (p =? 79) with false by lia.
    replace (p =? 98) with false by lia. replace (p =? 66) with false by lia. cbn [orb].
    destruct r as [|v r]; [done|]. cbn [forallb]. cbn in H. bool_prop.
    unfold base_digit. match goal with H : is_digit v = true |- _ => rewrite H; unfold is_digit in H end.
    bool_prop. by replace (v - 48 <? 0) with false by lia.
Qed.

Lemma spanDigits_all d : forallb is_digit d = true -> spanDigits d = (d, []).
Proof.
  induction d as [|u d IH]; cbn; [done|]. intros H. bool_prop.
  match goal with H : is_digit u = true |- _ => rewrite H end. by rewrite IH.
Qed.

Lemma digits_head u r : forallb is_digit (u :: r) = true ->
  48 <= u <= 57 /\ (u =? 43) = false /\ (u =? 45) = false.
Proof. cbn. unfold is_digit. intros H. bool_prop. lia. Qed.

Lemma digits_value_from d : forall m,
  fold_left (fun n u => 10 * n + (u - 48)) d m = m * 10 ^ Z.of_nat (length d) + digits_value d.
Proof.
  unfold digits_value. induction d as [|u d IH]; intros m; cbn [fold_left length]; [lia|].
  rewrite IH, (IH (10 * 0 + _)), Nat2Z.inj_succ, Z.pow_succ_r by lia. ring.
Qed.

Lemma digits_value_app a b :
  digits_value (a ++ b) = digits_value a * 10 ^ Z.of_nat (length b) + digits_value b.
Proof. unfold digits_value at 1. rewrite fold_left_app. apply digits_value_from. Qed.

Lemma digits_value_bound d : forallb is_digit d = true ->
  0 <= digits_value d < 10 ^ Z.of_nat (length d).
Proof.
  induction d as [|u d IH]; [done|]. cbn [forallb]. intros H. bool_prop.
  change (u :: d) with ([u] ++ d). rewrite digits_value_app, length_app, Nat2Z.inj_add, Z.pow_add_r by lia.
  specialize (IH ltac:(done)). unfold is_digit in *. bool_prop. unfold digits_value at 1 3. cbn. nia.
Qed.

Lemma BigInt_digits d : d <> [] -> forallb is_digit d = true -> BigInt d = Ok (digits_value d).
Proof.
  intros H0 Hd. unfold BigInt. cbv zeta. rewrite digits_trim by done. destruct d as [|u r]; [done|].
  rewrite (digits_base_literal (u :: r) Hd), Hd.
  destruct (digits_head _ _ Hd) as (_ & -> & ->). by rewrite bool_decide_false by done.
Qed.

Lemma BigInt_minus d : d <> [] -> forallb is_digit d = true -> BigInt (45 :: d) = Ok (- digits_value d).
Proof.
  intros H0 Hd. unfold BigInt. cbv zeta. rewrite trim_id.
  - destruct d as [|u r]; [done|]. cbn [base_literal Z.eqb Pos.eqb]. rewrite Hd.
    by rewrite bool_decide_false by done.
  - constructor; [done|]. by apply digits_not_white.
Qed.

(** [BigInt] and [Number] read the digits a bigint prints. *)
Lemma BigInt_toString n : 0 <= n -> BigInt (toString n) = Ok n.
Proof.
  intros Hn. pose proof (toString_digits n Hn) as HD.
  rewrite BigInt_digits by apply HD. f_equal. by apply digits_of_value.
Qed.

Lemma Number_toString n : 0 <= n -> Number (toString n) = number_of_Z n.
Proof.
  intros Hn. pose proof (toString_digits n Hn) as HD. pose proof (digits_of_value _ _ HD) as HV.
  destruct HD as (H0 & Hd & _). unfold Number. cbv zeta. rewrite digits_trim by done.
  destruct (toString n) as [|u r] eqn:E; [done|].
  rewrite (digits_base_literal (u :: r) Hd).
  destruct (digits_head _ _ Hd) as (Hu & -> & ->). unfold unsigned_literal.
  rewrite bool_decide_false by (intros [=]; lia). rewrite spanDigits_all by done.
  cbn [exponent_part]. rewrite bool_decide_false by done. cbn [andb].
  rewrite app_nil_r, HV. unfold decimal. cbn [length Z.of_nat Z.sub Z.leb Z.compare].
  destruct (Z.eqb_spec n 0) as [->|]; [done|]. f_equal. cbn. lia.
Qed.
