(* ===== verification/IndexStore.v ===== *)
(** * The index store

    src/services/indexer/src/store.ts.  [IndexStore] is the interface a backend
    implements, with the laws its clients rely on; [MemoryStore] is the
    in-memory backend, a [Map] in insertion order.  [applyEvent] folds one event
    into any store; its theorems are proved against the interface. *)
From Stdlib Require Import SpecFloat.
From S2P Require Import Prelude JsString JsNumber Errors OnChain Renewal Kit SmallKit IndexParse.

Definition YEAR : Z := 31536000.

Record ListedInfo := MkListed { priceLamports : jsstring; seller : Address }.

Record NameEntry := MkEntry {
  nameRecord : Address;
  fullName : option jsstring;
  name : jsstring;
  tld : option jsstring;
  owner : option Address;
  nameHash : option jsstring;
  parent : option Address;
  registeredAt : option Z;
  expiresAt : option Z;
  active : bool;
  listed : option ListedInfo;
  lastSig : option jsstring;
  lastSlot : option Z;
}.

#[export] Instance ListedInfo_eq_dec : EqDecision ListedInfo.
Proof. solve_decision. Defined.
#[export] Instance NameEntry_eq_dec : EqDecision NameEntry.
Proof. solve_decision. Defined.

Record EventMeta := MkMeta { sig : option jsstring; slot : option Z; ts : option Z }.

(** [Boolean(s)] of an optional string. *)
Definition truthy (s : option jsstring) : bool :=
  match s with Some (_ :: _) => true | _ => false end.

(** [e.fullName?.toLowerCase().startsWith(p) || e.name.toLowerCase().startsWith(p)] *)
Definition matches `{Unicode} (p : jsstring) (e : NameEntry) : bool :=
  match fullName e with Some f => startsWith p (toLowerCase f) | None => false end
  || startsWith p (toLowerCase (name e)).

Definition owned_by (o : Address) (e : NameEntry) : bool :=
  bool_decide (owner e = Some o) && active e.

(** The integer [l.slice] makes of a number: truncated toward zero, NaN as 0, then counted
    from the end where it is negative and clamped to the length. *)
Definition sliceIndex (len : Z) (x : number) : Z :=
  match x with
  | S754_zero _ | S754_nan => 0
  | S754_infinity s => if s then 0 else len
  | S754_finite s m e =>
      let n := cond_Zopp s (if 0 <=? e then Z.pos m * 2 ^ e else Z.pos m / 2 ^ (- e)) in
      if n <? 0 then Z.max 0 (len + n) else Z.min n len
  end.

(** [l.slice(0, end)] *)
Definition slice0 {A} (stop : number) (l : list A) : list A :=
  take (Z.to_nat (sliceIndex (Z.of_nat (length l)) stop)) l.

(** ** The interface *)

Class IndexStore (S : Type) := {
  upsert : NameEntry -> S -> S;
  getByRecord : Address -> S -> option NameEntry;
  getByName : jsstring -> S -> option NameEntry;
  byOwner : Address -> S -> list NameEntry;
  search : Unicode -> jsstring -> option number -> S -> list NameEntry;
  watchlist : S -> list jsstring;
  listings : S -> list NameEntry;
  all : S -> list NameEntry;
}.

(** What a client may rely on: a map keyed by [nameRecord], and queries over
    its entries. *)
Class IndexStoreLaws (S : Type) `{IndexStore S} (good : S -> Prop) : Prop := {
  good_upsert : forall e s, good s -> good (upsert e s);
  get_upsert_same : forall e s, getByRecord (nameRecord e) (upsert e s) = Some e;
  get_upsert_other : forall e s a, a <> nameRecord e ->
    getByRecord a (upsert e s) = getByRecord a s;
  all_get : forall s e, good s -> In e (all s) <-> getByRecord (nameRecord e) s = Some e;
  get_key : forall s a e, good s -> getByRecord a s = Some e -> nameRecord e = a;
  byOwner_spec : forall s o, byOwner o s = List.filter (owned_by o) (all s);
  search_spec : forall U q limit s, search U q limit s =
    slice0 (default (number_of_Z 50) limit)
      (List.filter (fun e => active e && matches (toLowerCase q) e) (all s));
  listings_spec : forall s, listings s =
    List.filter (fun e => active e && match listed e with Some _ => true | None => false end) (all s);
  watchlist_spec : forall s n, In n (watchlist s) <->
    exists e, In e (all s) /\ active e = true /\ truthy (fullName e) = true /\ fullName e = Some n;
  getByName_spec : forall s n e, getByName n s = Some e -> In e (all s) /\ fullName e = Some n;
  getByName_none : forall s n, getByName n s = None ->
    forall e, In e (all s) -> fullName e <> Some n;
}.

(** ** The in-memory store *)

(** [Map.set]: an existing key keeps its place. *)
Fixpoint map_set (k : Address) (v : NameEntry) (l : list (Address * NameEntry))
    : list (Address * NameEntry) :=
  match l with
  | [] => [(k, v)]
  | (k', v') :: r => if bool_decide (k = k') then (k, v) :: r else (k', v') :: map_set k v r
  end.

Fixpoint map_get (k : Address) (l : list (Address * NameEntry)) : option NameEntry :=
  match l with
  | [] => None
  | (k', v) :: r => if bool_decide (k = k') then Some v else map_get k r
  end.

Record MemoryStore := MkStore { byRecord : list (Address * NameEntry) }.

Definition values (s : MemoryStore) : list NameEntry := map snd (byRecord s).

Definition mem_watchlist (s : MemoryStore) : list jsstring :=
  map (fun e => default [] (fullName e))
    (List.filter (fun e => active e && truthy (fullName e)) (values s)).

(** [search(prefix, limit = 50)] *)
Definition mem_search `{Unicode} (prefix : jsstring) (limit : option number) (s : MemoryStore)
    : list NameEntry :=
  let p := toLowerCase prefix in
  slice0 (default (number_of_Z 50) limit) (List.filter (fun e => active e && matches p e) (values s)).

Definition mem_getByName (n : jsstring) (s : MemoryStore) : option NameEntry :=
  List.find (fun e => bool_decide (fullName e = Some n)) (values s).

Definition mem_listings (s : MemoryStore) : list NameEntry :=
  List.filter (fun e => active e && match listed e with Some _ => true | None => false end)
    (values s).

#[export] Instance MemoryIndexStore : IndexStore MemoryStore := {
  upsert := fun entry s => MkStore (map_set (nameRecord entry) entry (byRecord s));
  getByRecord := fun a s => map_get a (byRecord s);
  getByName := mem_getByName;
  byOwner := fun o s => List.filter (owned_by o) (values s);
  search := fun U => mem_search;
  watchlist := mem_watchlist;
  listings := mem_listings;
  all := values;
}.

(** ** Applying an event *)

Section Apply.
Context {S : Type} `{IndexStore S}.

(** [{ ...e, expiresAt, lastSig, lastSlot }] and the like. *)
Definition stamp (m : EventMeta) (e : NameEntry) : NameEntry :=
  MkEntry (nameRecord e) (fullName e) (name e) (tld e) (owner e) (nameHash e) (parent e)
    (registeredAt e) (expiresAt e) (active e) (listed e) (sig m) (slot m).
Definition with_expiry (x : Z) (e : NameEntry) : NameEntry :=
  MkEntry (nameRecord e) (fullName e) (name e) (tld e) (owner e) (nameHash e) (parent e)
    (registeredAt e) (Some x) (active e) (listed e) (lastSig e) (lastSlot e).
Definition with_owner (o : Address) (e : NameEntry) : NameEntry :=
  MkEntry (nameRecord e) (fullName e) (name e) (tld e) (Some o) (nameHash e) (parent e)
    (registeredAt e) (expiresAt e) (active e) (listed e) (lastSig e) (lastSlot e).
Definition inactive (e : NameEntry) : NameEntry :=
  MkEntry (nameRecord e) (fullName e) (name e) (tld e) (owner e) (nameHash e) (parent e)
    (registeredAt e) (expiresAt e) false (listed e) (lastSig e) (lastSlot e).
Definition with_listed (l : option ListedInfo) (e : NameEntry) : NameEntry :=
  MkEntry (nameRecord e) (fullName e) (name e) (tld e) (owner e) (nameHash e) (parent e)
    (registeredAt e) (expiresAt e) (active e) l (lastSig e) (lastSlot e).

(** [if (e) await store.upsert(...)] *)
Definition update (a : Address) (f : NameEntry -> NameEntry) (s : S) : S :=
  match getByRecord a s with Some e => upsert (f e) s | None => s end.

Definition applyEvent (s : S) (ev : IndexEvent) (m : EventMeta) : S :=
  match ev with
  | Register nr full n t o h y =>
      upsert (MkEntry nr (Some full) n (Some t) (Some o) (Some h) None (ts m)
        (match ts m with Some x => Some (x + y * YEAR) | None => None end) true None
        (sig m) (slot m)) s
  | Renew nr n t y =>
      let e := getByRecord nr s in
      let base := match e ≫= expiresAt with
                  | Some x => x
                  | None => default 0 (ts m)
                  end in
      let e := match e with
               | Some e => e
               | None => MkEntry nr (Some (fullNameOf n t)) n (Some t) None None None None None
                           true None None None
               end in
      upsert (stamp m (with_expiry (base + y * YEAR) e)) s
  | Subdomain nr par o label h =>
      let p := getByRecord par s in
      let full := match p ≫= fullName with
                  | Some (u :: f) => Some (label ++ js "." ++ u :: f)
                  | _ => None
                  end in
      upsert (MkEntry nr full label (p ≫= tld) (Some o) (Some h) (Some par) (ts m) None true
        None (sig m) (slot m)) s
  | Transfer nr o => update nr (fun e => stamp m (with_owner o e)) s
  | Burn nr => update nr (fun e => stamp m (inactive e)) s
  | List nr sel price => update nr (fun e => stamp m (with_listed (Some (MkListed price sel)) e)) s
  | Unlist nr => update nr (fun e => stamp m (with_listed None e)) s
  | Buy nr o => update nr (fun e => stamp m (with_listed None (with_owner o e))) s
  end.

(** A history of events, oldest first. *)
Definition applyAll (s : S) (evs : list (IndexEvent * EventMeta)) : S :=
  fold_left (fun s '(ev, m) => applyEvent s ev m) evs s.
End Apply.

(** The record an event is about. *)
Definition event_record (ev : IndexEvent) : Address :=
  match ev with
  | Register nr _ _ _ _ _ _ | Renew nr _ _ _ | Subdomain nr _ _ _ _ | Transfer nr _
  | Burn nr | List nr _ _ | Unlist nr | Buy nr _ => nr
  end.

(** ** The in-memory store satisfies the interface *)

(** Keys are distinct and each is its entry's record. *)
Record store_ok (s : MemoryStore) : Prop := {
  keys_distinct : NoDup (map fst (byRecord s));
  keys_match : Forall (fun '(k, e) => nameRecord e = k) (byRecord s);
}.

Lemma map_get_set_same k v l : map_get k (map_set k v l) = Some v.
Proof.
  induction l as [|[k' v'] l IH]; cbn; [by rewrite bool_decide_eq_true_2|].
  destruct (bool_decide (k = k')) eqn:E; cbn; [by rewrite bool_decide_eq_true_2|].
  by rewrite E.
Qed.

Lemma map_get_set_other k a v l : a <> k -> map_get a (map_set k v l) = map_get a l.
Proof.
  intros Hne. induction l as [|[k' v'] l IH]; cbn; [by rewrite bool_decide_eq_false_2|].
  destruct (bool_decide (k = k')) eqn:E; cbn; bool_prop.
  - subst k'. by rewrite bool_decide_eq_false_2.
  - by rewrite IH.
Qed.

Lemma map_set_keys k v l :
  map fst (map_set k v l) = if bool_decide (k ∈ map fst l) then map fst l else map fst l ++ [k].
Proof.
  induction l as [|[k' v'] l IH]; cbn; [done|].
  destruct (bool_decide (k = k')) eqn:E; bool_prop.
  - subst k'. cbn. by rewrite bool_decide_eq_true_2 by apply list_elem_of_here.
  - cbn. rewrite IH. destruct (decide (k ∈ map fst l)) as [Hin|Hin].
    + by rewrite !bool_decide_eq_true_2 by (by apply list_elem_of_further || done).
    + rewrite !bool_decide_eq_false_2; [done| |done]. rewrite elem_of_cons. by intros [?|?].
Qed.

Lemma map_get_In k e l : NoDup (map fst l) -> In (k, e) l -> map_get k l = Some e.
Proof.
  induction l as [|[k' v'] l IH]; cbn; [done|]. intros Hnd [Heq|Hin].
  - injection Heq as -> ->. by rewrite bool_decide_eq_true_2.
  - apply NoDup_cons in Hnd as [Hk Hnd]. rewrite bool_decide_eq_false_2; [by apply IH|].
    intros ->. apply Hk, list_elem_of_In. by apply (in_map fst) in Hin.
Qed.

Lemma map_get_found k e l : map_get k l = Some e -> In (k, e) l.
Proof.
  induction l as [|[k' v'] l IH]; cbn; [done|]. destruct (bool_decide _) eqn:E; bool_prop.
  - intros [= ->]. subst. by left.
  - intros Hg. right. by apply IH.
Qed.

Lemma map_set_ok k v l :
  nameRecord v = k -> Forall (fun '(k, e) => nameRecord e = k) l ->
  Forall (fun '(k, e) => nameRecord e = k) (map_set k v l).
Proof.
  intros Hk. induction 1 as [|[k' v'] l Hkv Hl IH]; cbn; [by repeat constructor|].
  destruct (bool_decide _); by constructor.
Qed.

#[export] Instance memory_store_laws : IndexStoreLaws MemoryStore store_ok.
Proof.
  split.
  - intros e s [Hd Hm]. split; cbn; [|by apply map_set_ok].
    rewrite map_set_keys. destruct (bool_decide _) eqn:E; [done|]. bool_prop.
    apply NoDup_app. split; [done|]. split; [|apply NoDup_singleton].
    intros x Hx Hk. by apply list_elem_of_singleton in Hk as ->.
  - intros e s. apply map_get_set_same.
  - intros e s a Ha. by apply map_get_set_other.
  - intros s e Hok. destruct Hok as [Hd Hm]. cbn. unfold values. rewrite in_map_iff. split.
    + intros ([k e'] & <- & Hin). pose proof (Forall_In _ _ _ Hm Hin) as Hk. cbn in Hk |- *.
      rewrite Hk. by apply map_get_In.
    + intros Hg. apply map_get_found in Hg. by exists (nameRecord e, e).
  - intros s a e [Hd Hm] Hg. apply map_get_found in Hg. by eapply Forall_In in Hm; [|exact Hg].
  - done.
  - done.
  - done.
  - intros s n. cbn. unfold mem_watchlist. rewrite in_map_iff. split.
    + intros (e & Hn & Hin). apply filter_In in Hin as [Hin Hb]. bool_prop. exists e.
      repeat split; [done..|]. destruct (fullName e); [by subst|done].
    + intros (e & Hin & Ha & Ht & Hn). exists e. rewrite Hn. split; [done|].
      apply filter_In. by rewrite Ha, Ht.
  - intros s n e Hf. apply find_some in Hf as [Hin Hb]. by bool_prop.
  - intros s n Hf e Hin Hn. eapply find_none in Hf; [|exact Hin].
    cbn in Hf. by rewrite bool_decide_eq_true_2 in Hf.
Qed.

(** ** Laws of [applyEvent] over any store *)

(** What [applyEvent] leaves for the event's own record: a function of the entry
    and of the parent's entry found in the store. *)
Definition entry_after (ev : IndexEvent) (m : EventMeta) (e p : option NameEntry)
    : option NameEntry :=
  match ev with
  | Register nr full n t o h y =>
      Some (MkEntry nr (Some full) n (Some t) (Some o) (Some h) None (ts m)
        ((fun x => x + y * YEAR) <$> ts m) true None (sig m) (slot m))
  | Renew nr n t y =>
      let base := match e ≫= expiresAt with Some x => x | None => default 0 (ts m) end in
      Some (stamp m (with_expiry (base + y * YEAR) (default
        (MkEntry nr (Some (fullNameOf n t)) n (Some t) None None None None None true
           None None None) e)))
  | Subdomain nr par o label h =>
      let full := match p ≫= fullName with
                  | Some (u :: f) => Some (label ++ js "." ++ u :: f)
                  | _ => None
                  end in
      Some (MkEntry nr full label (p ≫= tld) (Some o) (Some h) (Some par) (ts m) None true
        None (sig m) (slot m))
  | Transfer _ o => (fun e => stamp m (with_owner o e)) <$> e
  | Burn _ => (fun e => stamp m (inactive e)) <$> e
  | List _ sel price => (fun e => stamp m (with_listed (Some (MkListed price sel)) e)) <$> e
  | Unlist _ => (fun e => stamp m (with_listed None e)) <$> e
  | Buy _ o => (fun e => stamp m (with_listed None (with_owner o e))) <$> e
  end.

(** The record whose entry an event reads besides its own. *)
Definition event_parent (ev : IndexEvent) : Address :=
  match ev with Subdomain _ par _ _ _ => par | _ => event_record ev end.

(** The event sets every field of its record's entry. *)
Definition creates (ev : IndexEvent) : bool :=
  match ev with Register _ _ _ _ _ _ _ | Subdomain _ _ _ _ _ => true | _ => false end.

(** The owner an event gives its record, if it changes it. *)
Definition new_owner (ev : IndexEvent) : option Address :=
  match ev with
  | Register _ _ _ _ o _ _ | Subdomain _ _ o _ _ | Transfer _ o | Buy _ o => Some o
  | _ => None
  end.

(** The listing an event leaves, if it changes it. *)
Definition new_listing (ev : IndexEvent) : option (option ListedInfo) :=
  match ev with
  | List _ sel price => Some (Some (MkListed price sel))
  | Register _ _ _ _ _ _ _ | Subdomain _ _ _ _ _ | Unlist _ | Buy _ _ => Some None
  | _ => None
  end.

(** Field-wise reading of [entry_after]. *)
Lemma entry_after_fields ev m e p e' :
  entry_after ev m e p = Some e' ->
  owner e' = match new_owner ev with Some o => Some o | None => e ≫= owner end
  /\ listed e' = match new_listing ev with Some l => l | None => e ≫= listed end
  /\ active e' = match ev with
                 | Burn _ => false
                 | _ => creates ev || match e with Some e => active e | None => true end
                 end.
Proof. destruct ev, e; cbn; intros [= <-]; done. Qed.

Lemma entry_after_known ev m e p : is_Some e -> is_Some (entry_after ev m e p).
Proof. intros [x ->]. destruct ev; cbn; eauto. Qed.

Section Laws.
Context {S : Type} `{IndexStore S} {good : S -> Prop}.
Context `{!IndexStoreLaws S good}.

Lemma get_upsert a e (s : S) : nameRecord e = a -> getByRecord a (upsert e s) = Some e.
Proof. intros <-. by apply get_upsert_same. Qed.

Lemma update_get a (f : NameEntry -> NameEntry) (s : S) :
  good s -> (forall e, nameRecord (f e) = nameRecord e) ->
  getByRecord a (update a f s) = f <$> getByRecord a s.
Proof.
  intros Hs Hf. unfold update. destruct (getByRecord a s) as [e|] eqn:E; [|by rewrite E].
  apply get_upsert. rewrite Hf. by apply (get_key s).
Qed.

Lemma update_good a f (s : S) : good s -> good (update a f s).
Proof.
  intros Hs. unfold update. destruct (getByRecord a s); [|done].
  by apply (good_upsert).
Qed.

Lemma applyEvent_good s ev m : good s -> good (applyEvent s ev m).
Proof.
  intros Hs. destruct ev; cbn; try (by apply update_good);
    by apply (good_upsert).
Qed.

Lemma renewed_record nr m (s : S) n t x :
  good s ->
  nameRecord (stamp m (with_expiry x
    match getByRecord nr s with
    | Some e => e
    | None => MkEntry nr (Some (fullNameOf n t)) n (Some t) None None None None None
                true None None None
    end)) = nr.
Proof.
  intros Hs. destruct (getByRecord nr s) eqn:E; [|done].
  by apply (get_key) in E.
Qed.

(** The entry an event leaves at its record. *)
Lemma applyEvent_own (s : S) ev m : good s ->
  getByRecord (event_record ev) (applyEvent s ev m)
  = entry_after ev m (getByRecord (event_record ev) s) (getByRecord (event_parent ev) s).
Proof.
  intros Hs. destruct ev; cbn [event_record event_parent applyEvent entry_after];
    try (by apply update_get).
  - rewrite get_upsert by done. by destruct (ts m).
  - rewrite get_upsert by by apply renewed_record. by destruct (getByRecord _ s).
  - by rewrite get_upsert.
Qed.

(** No other record changes. *)
Lemma applyEvent_frame (s : S) ev m a : good s -> a <> event_record ev ->
  getByRecord a (applyEvent s ev m) = getByRecord a s.
Proof.
  intros Hs Ha. destruct ev; cbn [applyEvent event_record] in *; unfold update;
    try (destruct (getByRecord _ s) as [e|] eqn:E; [|done]; apply (get_key s) in E; [|done]);
    apply get_upsert_other; try (cbn; congruence); by rewrite renewed_record.
Qed.

Lemma applyEvent_get (s : S) ev m a : good s ->
  getByRecord a (applyEvent s ev m) =
  if bool_decide (a = event_record ev)
  then entry_after ev m (getByRecord a s) (getByRecord (event_parent ev) s)
  else getByRecord a s.
Proof.
  intros Hs. destruct (bool_decide _) eqn:E; bool_prop.
  - subst a. by apply applyEvent_own.
  - by apply applyEvent_frame.
Qed.

Lemma applyAll_app (s : S) evs1 evs2 : applyAll s (evs1 ++ evs2) = applyAll (applyAll s evs1) evs2.
Proof. apply fold_left_app. Qed.

Lemma applyAll_cons (s : S) ev m evs : applyAll s ((ev, m) :: evs) = applyAll (applyEvent s ev m) evs.
Proof. done. Qed.

Lemma applyAll_good evs : forall s, good s -> good (applyAll s evs).
Proof.
  induction evs as [|[ev m] evs IH]; [done|]. intros s Hs. apply IH. by apply applyEvent_good.
Qed.

(** A field that only the events of [sets] change. *)
Definition field_law {B} (field : NameEntry -> B) (sets : IndexEvent -> option B) : Prop :=
  forall ev m e p e', entry_after ev m (Some e) p = Some e' ->
  field e' = default (field e) (sets ev).

(** The events of [evs] about [a] leave the field alone. *)
Definition untouched {B} (sets : IndexEvent -> option B) (a : Address)
    (evs : list (IndexEvent * EventMeta)) : Prop :=
  Forall (fun '(ev, _) => event_record ev = a -> sets ev = None) evs.

Lemma field_kept {B} (field : NameEntry -> B) sets a evs :
  field_law field sets -> untouched sets a evs ->
  forall (s : S) e, good s -> getByRecord a s = Some e ->
  exists e', getByRecord a (applyAll s evs) = Some e' /\ field e' = field e.
Proof.
  intros Hlaw. induction 1 as [|[ev m] evs Hev _ IH]; intros s e Hs He; [by exists e|].
  rewrite applyAll_cons. pose proof (applyEvent_get s ev m a Hs) as Hg.
  destruct (bool_decide _) eqn:E in Hg; bool_prop.
  - rewrite He in Hg. destruct (entry_after_known ev m (Some e)
      (getByRecord (event_parent ev) s) ltac:(eauto)) as [e1 He1].
    rewrite He1 in Hg. apply Hlaw in He1. rewrite (Hev (eq_sym E)) in He1. cbn in He1.
    rewrite <-He1. apply IH; [by apply applyEvent_good|done].
  - apply IH; [by apply applyEvent_good|congruence].
Qed.

Lemma owner_law : field_law owner (fun ev => Some <$> new_owner ev).
Proof. intros ev m e p e' H1. apply entry_after_fields in H1 as (-> & _). by destruct (new_owner ev). Qed.

Lemma listed_law : field_law listed new_listing.
Proof. intros ev m e p e' H1. apply entry_after_fields in H1 as (_ & -> & _). by destruct ev. Qed.

(** Whether an event sets [active], and to what. *)
Definition new_active (ev : IndexEvent) : option bool :=
  match ev with
  | Register _ _ _ _ _ _ _ | Subdomain _ _ _ _ _ => Some true
  | Burn _ => Some false
  | _ => None
  end.

Lemma active_law : field_law active new_active.
Proof. intros ev m e p e' H1. apply entry_after_fields in H1 as (_ & _ & ->). by destruct ev. Qed.

(** The last event that sets a field of a known record decides it. *)
Lemma last_write {B} (field : NameEntry -> B) sets (s : S) pre ev m post a b :
  field_law field sets -> (forall ev m p e', creates ev = true ->
    entry_after ev m None p = Some e' -> forall x, sets ev = Some x -> field e' = x) ->
  good s -> event_record ev = a -> sets ev = Some b ->
  creates ev = true \/ is_Some (getByRecord a (applyAll s pre)) ->
  untouched sets a post ->
  exists e, getByRecord a (applyAll s (pre ++ (ev, m) :: post)) = Some e /\ field e = b.
Proof.
  intros Hlaw Hnew Hs Ha Hb Hknown Hpost.
  rewrite applyAll_app, applyAll_cons. pose proof (applyAll_good pre s Hs) as Hs1.
  set (s1 := applyAll s pre) in *.
  assert (exists e1, getByRecord a (applyEvent s1 ev m) = Some e1 /\ field e1 = b)
    as (e1 & He1 & Hf).
  { subst a. rewrite (applyEvent_own s1 ev m Hs1).
    destruct (getByRecord (event_record ev) s1) as [e0|] eqn:E0.
    - destruct (entry_after_known ev m (Some e0) (getByRecord (event_parent ev) s1)
        ltac:(eauto)) as [e1 He1].
      rewrite He1. exists e1. split; [done|]. apply Hlaw in He1. by rewrite He1, Hb.
    - destruct Hknown as [Hc|[? [=]]].
      destruct (entry_after ev m None (getByRecord (event_parent ev) s1)) as [e1|] eqn:He1.
      + exists e1. split; [done|]. by eapply Hnew.
      + by destruct ev. }
  destruct (field_kept field sets a post Hlaw Hpost _ e1 (applyEvent_good s1 ev m Hs1) He1)
    as (e & He & Hfe).
  exists e. split; [done|]. by rewrite Hfe.
Qed.
End Laws.

(** ** What the index answers after a history of events *)

(** Two backends that satisfy the IndexStore laws and agree on getByRecord agree after
    any history of events on every query: entries, owner listings, marketplace listings and
    the watchlist. *)
Theorem backends_agree {S1 S2 : Type} `{IndexStore S1, IndexStore S2}
    (good1 : S1 -> Prop) (good2 : S2 -> Prop)
    `{!IndexStoreLaws S1 good1, !IndexStoreLaws S2 good2} (s1 : S1) (s2 : S2) evs :
  good1 s1 -> good2 s2 ->
  (forall a, getByRecord a s1 = getByRecord a s2) ->
  let t1 := applyAll s1 evs in
  let t2 := applyAll s2 evs in
  (forall a, getByRecord a t1 = getByRecord a t2)
  /\ (forall e, In e (all t1) <-> In e (all t2))
  /\ (forall o e, In e (byOwner o t1) <-> In e (byOwner o t2))
  /\ (forall e, In e (listings t1) <-> In e (listings t2))
  /\ (forall n, In n (watchlist t1) <-> In n (watchlist t2)).
Proof.
  intros Hs1 Hs2 Heq t1 t2.
  assert (Hget : forall a, getByRecord a t1 = getByRecord a t2).
  { subst t1 t2. revert s1 s2 Hs1 Hs2 Heq. induction evs as [|[ev m] evs IH]; [done|].
    intros s1 s2 Hs1 Hs2 Heq. rewrite !applyAll_cons. apply IH.
    - by apply applyEvent_good.
    - by apply applyEvent_good.
    - intros a. rewrite !applyEvent_get by done. by rewrite !Heq. }
  assert (Hall : forall e, In e (all t1) <-> In e (all t2)).
  { intros e. rewrite (all_get t1), (all_get t2) by by apply applyAll_good. by rewrite Hget. }
  split_and!; [done|done| | |].
  - intros o e. rewrite !byOwner_spec, !filter_In. by rewrite Hall.
  - intros e. rewrite !listings_spec, !filter_In. by rewrite Hall.
  - intros n. rewrite !watchlist_spec. setoid_rewrite Hall. done.
Qed.

Section History.
Context {S : Type} `{IndexStore S} {good : S -> Prop}.
Context `{!IndexStoreLaws S good}.

(** The store after a history in which [ev] is followed by [post]. *)
Definition after (s : S) pre ev m post : S := applyAll s (pre ++ (ev, m) :: post).

Lemma after_good s pre ev m post : good s -> good (after s pre ev m post).
Proof. apply applyAll_good. Qed.

(** Over any store that satisfies the IndexStore laws, the owner of an entry after a
    history is the one set by the last register, subdomain, transfer or buy event on its
    record, and byOwner lists the entry under that owner alone, while it is active. *)
Theorem last_owner_wins (s : S) pre ev m post a o :
  good s -> event_record ev = a -> new_owner ev = Some o ->
  creates ev = true \/ is_Some (getByRecord a (applyAll s pre)) ->
  untouched new_owner a post ->
  exists e, getByRecord a (after s pre ev m post) = Some e /\ owner e = Some o
    /\ forall o', In e (byOwner o' (after s pre ev m post)) <-> o' = o /\ active e = true.
Proof.
  intros Hs Ha Ho Hk Hpost.
  destruct (last_write owner (fun ev => Some <$> new_owner ev) s pre ev m post a (Some o)
    owner_law) as (e & He & Hoe); [|done|done|by rewrite Ho|done| |].
  - intros ev' m' p e' Hc He' x Hx. apply entry_after_fields in He' as (-> & _).
    destruct (new_owner ev'); cbn in Hx; by simplify_eq.
  - eapply Forall_impl; [exact Hpost|]. intros [ev' m'] Hev E. by rewrite (Hev E).
  - exists e. split; [done|]. split; [done|]. intros o'.
    pose proof (after_good s pre ev m post Hs) as Ht.
    rewrite byOwner_spec, filter_In, (all_get _ e Ht), (get_key _ a e Ht He).
    unfold owned_by. rewrite Hoe, andb_true_iff, bool_decide_eq_true.
    split; [intros (_ & [= ->] & ?)|intros [-> ?]]; done.
Qed.

(** The listing shown on an entry is the one left by the last list, unlist, buy,
    register or subdomain event on its record, and listings returns the entry exactly when
    it is active and listed. *)
Theorem last_listing_wins (s : S) pre ev m post a l :
  good s -> event_record ev = a -> new_listing ev = Some l ->
  creates ev = true \/ is_Some (getByRecord a (applyAll s pre)) ->
  untouched new_listing a post ->
  exists e, getByRecord a (after s pre ev m post) = Some e /\ listed e = l
    /\ (In e (listings (after s pre ev m post)) <-> active e = true /\ l <> None).
Proof.
  intros Hs Ha Ho Hk Hpost.
  destruct (last_write listed new_listing s pre ev m post a l listed_law)
    as (e & He & Hoe); [|done..|].
  - intros ev' m' p e' Hc He' x Hx. apply entry_after_fields in He' as (_ & -> & _).
    by destruct (new_listing ev'); simplify_eq.
  - exists e. split; [done|]. split; [done|].
    pose proof (after_good s pre ev m post Hs) as Ht.
    rewrite listings_spec, filter_In, (all_get _ e Ht), (get_key _ a e Ht He), Hoe.
    rewrite andb_true_iff. destruct l; naive_solver.
Qed.

(** C39: After a burn event on a known record that is not registered again, the entry is
    inactive: no owner listing, no marketplace listing and no search returns it, and every
    name on the watchlist belongs to another active record. *)
Theorem burned_names_leave_the_index (s : S) pre m post a :
  good s -> is_Some (getByRecord a (applyAll s pre)) ->
  untouched new_active a post ->
  let t := after s pre (Burn a) m post in
  exists e, getByRecord a t = Some e /\ active e = false
    /\ (forall o, ~ In e (byOwner o t)) /\ ~ In e (listings t)
    /\ (forall U q limit, ~ In e (search U q limit t))
    /\ (forall n, In n (watchlist t) -> exists e', In e' (all t) /\ nameRecord e' <> a
          /\ active e' = true /\ fullName e' = Some n).
Proof.
  intros Hs Hk Hpost t.
  destruct (last_write active new_active s pre (Burn a) m post a false active_law)
    as (e & He & Hact); [|done..|by right|done|].
  { intros ev m' p e' Hc He' x Hx. apply entry_after_fields in He' as (_ & _ & ->).
    destruct ev; try discriminate Hc; by injection Hx. }
  pose proof (after_good s pre (Burn a) m post Hs) as Ht. fold t in Ht.
  change (getByRecord a t = Some e) in He.
  exists e. split; [done|]. split; [done|]. split_and!.
  - intros o. rewrite byOwner_spec, filter_In. unfold owned_by. rewrite Hact, andb_false_r.
    by intros [_ ?].
  - rewrite listings_spec, filter_In, Hact. by intros [_ ?].
  - intros U q limit. rewrite search_spec. unfold slice0. intros Hin.
    apply list_elem_of_In, elem_of_take in Hin as (i & Hi & _).
    apply list_elem_of_lookup_2, list_elem_of_In, filter_In in Hi. rewrite Hact in Hi.
    by destruct Hi.
  - intros n. rewrite watchlist_spec. intros (e' & Hin & Ha' & _ & Hn). exists e'.
    split; [done|]. split; [|done]. intros Hr. apply (all_get _ _ Ht) in Hin.
    rewrite Hr in Hin. congruence.
Qed.

(** Delivering an event twice leaves what delivering it once leaves, except
    for a renewal (its years are added again) and a subdomain that names
    itself as its parent. *)
Definition replayable (ev : IndexEvent) : bool :=
  match ev with
  | Renew _ _ _ _ => false
  | Subdomain nr par _ _ _ => negb (bool_decide (nr = par))
  | _ => true
  end.

(** Delivering an event twice leaves every entry as delivering it once does, except for
    a renewal, which adds its years again. *)
Theorem redelivery (s : S) ev m : good s ->
  (replayable ev = true ->
   forall a, getByRecord a (applyEvent (applyEvent s ev m) ev m)
     = getByRecord a (applyEvent s ev m))
  /\ (forall nr n t y, ev = Renew nr n t y -> exists e1 e2 x,
        getByRecord nr (applyEvent s ev m) = Some e1 /\ expiresAt e1 = Some x
        /\ getByRecord nr (applyEvent (applyEvent s ev m) ev m) = Some e2
        /\ expiresAt e2 = Some (x + y * YEAR)).
Proof.
  intros Hs. pose proof (applyEvent_good s ev m Hs) as Hs1. split.
  - intros Hr a. rewrite (applyEvent_get _ ev m a Hs1), (applyEvent_get s ev m a Hs).
    destruct (bool_decide (a = event_record ev)) eqn:Ea; [|done].
    rewrite (applyEvent_get s ev m (event_parent ev) Hs). bool_prop. subst a.
    destruct ev as [| | nr par o l h | | | | |]; try discriminate Hr; cbn;
      try (by destruct (getByRecord _ s)); [done|].
    cbn in Hr. rewrite bool_decide_eq_false_2; [done|]. intros ->.
    by rewrite bool_decide_eq_true_2 in Hr.
  - intros nr n t y ->. pose proof (applyEvent_own s (Renew nr n t y) m Hs) as H1.
    pose proof (applyEvent_own _ (Renew nr n t y) m Hs1) as H2. cbn [event_record] in *.
    rewrite H1 in H2. do 3 eexists. split; [exact H1|]. split; [reflexivity|].
    split; [exact H2|]. reflexivity.
Qed.

(** ** Expiry: the index against the program *)

(** The program's record after the renewals of [a] in a history, each run at
    the block time the event carries. *)
Fixpoint chain_replay (a : Address) (r : Renewable) (evs : list (IndexEvent * EventMeta))
    : Result Renewable :=
  match evs with
  | [] => Ok r
  | (Renew nr _ _ y, m) :: evs =>
      if bool_decide (nr = a)
      then r' ← extend r y (default 0 (ts m)); chain_replay a r' evs
      else chain_replay a r evs
  | _ :: evs => chain_replay a r evs
  end.

(** Every renewal of [a] lands before the record lapses. *)
Fixpoint in_time (a : Address) (r : Renewable) (evs : list (IndexEvent * EventMeta)) : Prop :=
  match evs with
  | [] => True
  | (Renew nr _ _ y, m) :: evs =>
      if bool_decide (nr = a)
      then default 0 (ts m) <= expires_at r
           /\ match extend r y (default 0 (ts m)) with Ok r' => in_time a r' evs | Err _ => True end
      else in_time a r evs
  | _ :: evs => in_time a r evs
  end.

Lemma extend_Ok r y now r' : extend r y now = Ok r' ->
  expires_at r' = Z.max (expires_at r) now + y * YEAR.
Proof.
  unfold extend, years_to_secs, checked_i64. intros H1.
  apply result_bind_Ok in H1 as (secs & Hsecs & H1). apply checked_Ok in Hsecs as [<- _].
  apply result_bind_Ok in H1 as (e & He & H1). apply checked_Ok in He as [<- _].
  injection H1 as <-. done.
Qed.

Lemma expiry_kept ev m e p e' : (forall nr n t y, ev <> Renew nr n t y) -> creates ev = false ->
  entry_after ev m (Some e) p = Some e' -> expiresAt e' = expiresAt e.
Proof. destruct ev; cbn; intros Hr Hc [= <-]; try done. by edestruct Hr. Qed.

Lemma expiry_replay a evs :
  untouched (fun ev => if creates ev then Some tt else None) a evs ->
  forall (s : S) e x r r', good s -> getByRecord a s = Some e -> expiresAt e = Some x ->
  x <= expires_at r -> chain_replay a r evs = Ok r' ->
  exists e' x', getByRecord a (applyAll s evs) = Some e' /\ expiresAt e' = Some x'
    /\ x' <= expires_at r' /\ (x = expires_at r -> in_time a r evs -> x' = expires_at r').
Proof.
  induction 1 as [|[ev m] evs Hev _ IH]; intros s e x r r' Hs He Hx Hle Hr.
  { injection Hr as <-. by exists e, x. }
  rewrite applyAll_cons. pose proof (applyEvent_get s ev m a Hs) as Hg.
  pose proof (applyEvent_good s ev m Hs) as Hs1.
  destruct (bool_decide (a = event_record ev)) eqn:Ea.
  - rewrite He in Hg. bool_prop.
    destruct (entry_after_known ev m (Some e) (getByRecord (event_parent ev) s)
      ltac:(eauto)) as [e1 He1].
    rewrite He1 in Hg. specialize (Hev (eq_sym Ea)).
    destruct ev as [| nr n t y | | | | | |]; try discriminate Hev; cbn [chain_replay in_time] in *;
      try (apply expiry_kept in He1; [|done..]; eapply IH; eauto; congruence).
    cbn [event_record] in Ea. subst a. rewrite bool_decide_eq_true_2 in Hr |- * by done.
    apply result_bind_Ok in Hr as (r1 & Hr1 & Hr). cbn in He1. injection He1 as <-.
    pose proof (extend_Ok _ _ _ _ Hr1) as Hx1. rewrite Hr1.
    destruct (IH _ _ (x + y * YEAR) r1 r' Hs1 Hg) as (e' & x' & ? & ? & ? & Heq);
      [by cbn; rewrite Hx|lia|done|]. exists e', x'. split_and!; [done..|].
    intros -> [Ht Hin]. apply Heq; [lia|done].
  - rewrite He in Hg. destruct ev as [| nr n t y | | | | | |];
      try (eapply IH; [exact Hs1|exact Hg|exact Hx|exact Hle|exact Hr]).
    cbn [chain_replay in_time event_record] in *. bool_prop.
    rewrite bool_decide_eq_false_2 in Hr |- * by congruence.
    eapply IH; [exact Hs1|exact Hg|exact Hx|exact Hle|exact Hr].
Qed.

(** C40: After a registration and any history of renewals the program accepted at the
    events' block times, the indexed expiry is at most the program's, and equal to it when
    every renewal came before the record lapsed. *)
Theorem indexed_expiry_never_ahead_of_chain (s : S) nr full n t o h y m t0 evs hash r :
  good s -> ts m = Some t0 ->
  untouched (fun ev => if creates ev then Some tt else None) nr evs ->
  chain_replay nr (MkRenewable hash (t0 + y * YEAR)) evs = Ok r ->
  exists e x, getByRecord nr (after s [] (Register nr full n t o h y) m evs) = Some e
    /\ expiresAt e = Some x /\ x <= expires_at r
    /\ (in_time nr (MkRenewable hash (t0 + y * YEAR)) evs -> x = expires_at r).
Proof.
  intros Hs Hts Hpost Hr.
  pose proof (applyEvent_own s (Register nr full n t o h y) m Hs) as Hg.
  cbn [event_record entry_after] in Hg. rewrite Hts in Hg.
  destruct (expiry_replay nr evs Hpost _ _ (t0 + y * YEAR) (MkRenewable hash (t0 + y * YEAR)) r
    (applyEvent_good s _ m Hs) Hg eq_refl ltac:(done) Hr) as (e & x & ? & ? & ? & Heq).
  exists e, x. split_and!; [done..|]. intros Hin. by apply Heq.
Qed.
End History.

(** ** Concrete histories *)

Definition empty_store : MemoryStore := MkStore [].

Lemma empty_store_ok : store_ok empty_store.
Proof. split; constructor. Qed.

Definition at_time (t : Z) : EventMeta := MkMeta (Some (js "5sig")) (Some 7) (Some t).
Definition register_alex : IndexEvent :=
  Register (js "A1ex") (js "alex.sol") (js "alex") (js "sol") (js "Wa11et") (js "00ff") 1.
Definition register_bob : IndexEvent :=
  Register (js "B0b") (js "bob.web3") (js "bob") (js "web3") (js "Wa11et") (js "ff00") 2.
Definition alex_known : list (IndexEvent * EventMeta) := [(register_alex, at_time 1000)].

(** Decide a closed [untouched] statement. *)
Ltac untouched_tac := repeat constructor; cbn; try done; try (intros [=]).

(** A second backend: a log of entries, the newest of a record counting. *)
Definition log_get (a : Address) (l : list NameEntry) : option NameEntry :=
  List.find (fun e => bool_decide (nameRecord e = a)) l.

Definition log_all (l : list NameEntry) : list NameEntry :=
  List.filter (fun e => bool_decide (log_get (nameRecord e) l = Some e)) l.

#[export] Instance LogIndexStore : IndexStore (list NameEntry) := {
  upsert := cons;
  getByRecord := log_get;
  getByName := fun n l => List.find (fun e => bool_decide (fullName e = Some n)) (log_all l);
  byOwner := fun o l => List.filter (owned_by o) (log_all l);
  search := fun U q limit l => slice0 (default (number_of_Z 50) limit)
    (List.filter (fun e => active e && matches (toLowerCase q) e) (log_all l));
  watchlist := fun l => omap fullName
    (List.filter (fun e => active e && truthy (fullName e)) (log_all l));
  listings := fun l => List.filter
    (fun e => active e && match listed e with Some _ => true | None => false end) (log_all l);
  all := log_all;
}.

Definition log_ok (l : list NameEntry) : Prop := True.
Definition empty_log : list NameEntry := [].

Lemma log_get_key l a e : log_get a l = Some e -> nameRecord e = a /\ In e l.
Proof. intros Hf. apply find_some in Hf as [Hin Hb]. by bool_prop. Qed.

#[export] Instance log_store_laws : IndexStoreLaws (list NameEntry) log_ok.
Proof.
  split; try done.
  - intros e l. cbn. by rewrite bool_decide_eq_true_2.
  - intros e l a Ha. cbn. by rewrite bool_decide_eq_false_2 by congruence.
  - intros l e _. cbn. unfold log_all. rewrite filter_In, bool_decide_eq_true. split; [by intros []|].
    intros Hg. split; [by apply log_get_key in Hg as []|done].
  - intros l a e _ Hg. by apply log_get_key in Hg as [].
  - intros l n. cbn. rewrite <-list_elem_of_In, list_elem_of_omap.
    setoid_rewrite list_elem_of_In. setoid_rewrite filter_In.
    setoid_rewrite andb_true_iff. naive_solver.
  - intros l n e Hf. apply find_some in Hf as [Hin Hb]. by bool_prop.
  - intros l n Hf e Hin Hn. eapply find_none in Hf; [|exact Hin].
    cbn in Hf. by rewrite bool_decide_eq_true_2 in Hf.
Qed.

Lemma backends_agree_witness :
  getByRecord (js "A1ex") (applyAll empty_store alex_known)
  = getByRecord (js "A1ex") (applyAll empty_log alex_known).
Proof.
  exact (proj1 (backends_agree store_ok log_ok empty_store empty_log alex_known empty_store_ok
    I (fun a => eq_refl)) (js "A1ex")).
Defined.

Lemma last_owner_wins_witness :
  exists e, getByRecord (js "A1ex") (after empty_store alex_known (Buy (js "A1ex") (js "Buyer"))
      (at_time 1500) [(Burn (js "B0b"), at_time 1600)]) = Some e /\ owner e = Some (js "Buyer").
Proof.
  destruct (last_owner_wins empty_store alex_known (Buy (js "A1ex") (js "Buyer"))
    (at_time 1500) [(Burn (js "B0b"), at_time 1600)] (js "A1ex") (js "Buyer") empty_store_ok)
    as (e & He & Ho & _);
    [reflexivity|reflexivity|right; vm_compute; eauto|untouched_tac|].
  exists e. split; [exact He|exact Ho].
Defined.

Lemma last_listing_wins_witness :
  exists e, listed e = Some (MkListed (js "5000") (js "Wa11et")) /\ active e = true
    /\ In e (listings (after empty_store alex_known
         (List (js "A1ex") (js "Wa11et") (js "5000")) (at_time 1500) [])).
Proof.
  destruct (last_listing_wins empty_store alex_known
    (List (js "A1ex") (js "Wa11et") (js "5000")) (at_time 1500) [] (js "A1ex")
    (Some (MkListed (js "5000") (js "Wa11et"))) empty_store_ok) as (e & He & Hl & Hin);
    [reflexivity|reflexivity|right; vm_compute; eauto|constructor|].
  assert (active e = true) as Ha by (vm_compute in He; by injection He as <-).
  exists e. split; [exact Hl|]. split; [exact Ha|]. apply Hin. by split.
Defined.

Lemma burned_names_leave_the_index_witness :
  exists e, getByRecord (js "A1ex") (after empty_store alex_known (Burn (js "A1ex"))
      (at_time 1500) [(register_bob, at_time 1700)]) = Some e /\ active e = false.
Proof.
  destruct (burned_names_leave_the_index empty_store alex_known (at_time 1500)
    [(register_bob, at_time 1700)] (js "A1ex") empty_store_ok) as (e & He & Ha & _);
    [vm_compute; eauto|untouched_tac|]. exists e. split; [exact He|exact Ha].
Defined.

Lemma redelivery_witness :
  getByRecord (js "A1ex") (applyEvent (applyEvent empty_store register_alex (at_time 1000))
      register_alex (at_time 1000))
    = getByRecord (js "A1ex") (applyEvent empty_store register_alex (at_time 1000)).
Proof.
  apply (redelivery empty_store register_alex (at_time 1000) empty_store_ok). reflexivity.
Defined.

Lemma indexed_expiry_never_ahead_of_chain_witness :
  exists e x, getByRecord (js "A1ex") (after empty_store [] register_alex (at_time 1000)
      [(Renew (js "A1ex") (js "alex") (js "sol") 1, at_time 99000000)]) = Some e
    /\ expiresAt e = Some x /\ x <= 99000000 + 31536000.
Proof.
  destruct (indexed_expiry_never_ahead_of_chain empty_store (js "A1ex") (js "alex.sol") (js "alex")
    (js "sol") (js "Wa11et") (js "00ff") 1 (at_time 1000) 1000
    [(Renew (js "A1ex") (js "alex") (js "sol") 1, at_time 99000000)] [1;2]
    (MkRenewable [1;2] (99000000 + 31536000)) empty_store_ok) as (e & x & He & Hx & Hle & _);
    [reflexivity|untouched_tac|reflexivity|]. exists e, x. by split_and!.
Defined.

(** A lapsed renewal: the program counts from the block time, the index from the
    lapsed expiry, so the indexed expiry stays behind. *)
Lemma lapsed_renewal_indexed_early :
  (expiresAt <$> getByRecord (js "A1ex") (after empty_store [] register_alex (at_time 1000)
     [(Renew (js "A1ex") (js "alex") (js "sol") 1, at_time 99000000)]))
  = Some (Some 63073000)
  /\ chain_replay (js "A1ex") (MkRenewable [] (1000 + YEAR))
       [(Renew (js "A1ex") (js "alex") (js "sol") 1, at_time 99000000)]
     = Ok (MkRenewable [] 130536000).
Proof. split; reflexivity. Qed.
