(* ===== verification/IndexApp.v ===== *)
(** * The indexer service

    src/services/indexer/src/app.ts: Helius transactions are flattened to raw
    instructions, decoded ([IndexParse]) and folded into an injected store
    ([IndexStore]); the routes that read the store answer from it.  The calls of
    [onApplied] are logged.  A request is one step here; the whole process, with its
    hooks and metrics, and requests that interleave are in IndexService.v. *)
From S2P Require Import Prelude JsString Kit SmallKit Pdas Instruction NameInstructions Program.
From S2P Require Import IndexParse IndexStore.

Inductive HeliusInstruction :=
| MkHelius (programId : option jsstring) (accounts : option (list jsstring))
    (data : option jsstring) (innerInstructions : option (list HeliusInstruction)).

Record HeliusTx := MkTx {
  signature : option jsstring;
  txSlot : option Z;
  timestamp : option Z;
  instructions : option (list HeliusInstruction);
}.

(** Map a fallible function over a list, concatenating the results. *)
Fixpoint concatR {A B} (f : A -> result JsError (list B)) (l : list A) : result JsError (list B) :=
  match l with
  | [] => Ok []
  | a :: l' => bs ← f a; rest ← concatR f l'; Ok (bs ++ rest)
  end.

(** What the service calls of @solana/kit besides [Kit]: the error of
    [address(s)] and [getBase58Encoder().encode]. *)
Class AppKit := {
  invalidAddress : jsstring -> JsError;
  base58Encode : jsstring -> result JsError bytes;
}.

Section App.
Context `{Kit} `{AppKit}.

(** [address(s)] *)
Definition toAddress (s : jsstring) : result JsError Address :=
  if isAddress s then Ok s else Err (invalidAddress s).

(** The entry pushed for one instruction, its inner ones aside. *)
Definition rawInstruction (ix : HeliusInstruction) : result JsError (list Instruction) :=
  let 'MkHelius programId accounts data _ := ix in
  match programId, data with
  | Some ((_ :: _) as p), Some ((_ :: _) as d) =>
      prog ← toAddress p;
      accs ← mapR (fun a => x ← toAddress a; Ok {| address := x; role := READONLY |})
        (default [] accounts);
      bs ← base58Encode d;
      Ok [{| programAddress := prog; accounts := accs; data := bs |}]
  | _, _ => Ok []
  end.

(** [walk], on one instruction: itself, then its inner instructions. *)
Fixpoint walk (ix : HeliusInstruction) : result JsError (list Instruction) :=
  own ← rawInstruction ix;
  let 'MkHelius _ _ _ inner := ix in
  rest ← match inner with None => Ok [] | Some l => concatR walk l end;
  Ok (own ++ rest).

Definition rawInstructionsOf (tx : HeliusTx) : result JsError (list Instruction) :=
  concatR walk (default [] (instructions tx)).

Definition metaOf (tx : HeliusTx) : EventMeta := MkMeta (signature tx) (txSlot tx) (timestamp tx).

Section Ingest.
Context {S : Type} `{IndexStore S}.

(** The store and the calls of [onApplied]. *)
Definition Indexer : Type := S * list IndexEvent.

Definition applyOne (m : EventMeta) (ev : IndexEvent) : Eff Indexer unit :=
  fun '(s, log) => ((applyEvent s ev m, log ++ [ev]), Ok tt).

(** The inner loop over a transaction's instructions. *)
Fixpoint ingestRaw (m : EventMeta) (raws : list Instruction) (applied : Z) : Eff Indexer Z :=
  match raws with
  | [] => mret applied
  | raw :: raws =>
      ev ← lift (parseSolansInstruction raw);
      match ev with
      | Some ev => _ ← applyOne m ev; ingestRaw m raws (applied + 1)
      | None => ingestRaw m raws applied
      end
  end.

Fixpoint ingestTxs (txs : list HeliusTx) (applied : Z) : Eff Indexer Z :=
  match txs with
  | [] => mret applied
  | tx :: txs =>
      raws ← lift (rawInstructionsOf tx);
      applied ← ingestRaw (metaOf tx) raws applied;
      ingestTxs txs applied
  end.

Definition ingestHeliusTxs (txs : list HeliusTx) : Eff Indexer Z := ingestTxs txs 0.

(** ** Routes *)

Inductive Reply := Indexed (n : Z) | BadRequest (error : jsstring) | NotFound (error : jsstring)
  | Entry (e : NameEntry) | Entries (l : list NameEntry) | Names (l : list jsstring).

(** [req.body]: a batch or a single transaction. *)
Definition webhook (body : list HeliusTx + HeliusTx) : Indexer -> Indexer * Reply :=
  fun w =>
  let txs := match body with inl l => l | inr tx => [tx] end in
  match ingestHeliusTxs txs w with
  | (w', Ok n) => (w', Indexed n)
  | (w', Err e) => (w', BadRequest (message e))
  end.

Definition ownerRoute (pubkey : jsstring) (s : S) : Reply :=
  match toAddress pubkey with
  | Ok o => Entries (byOwner o s)
  | Err _ => BadRequest (js "invalid pubkey")
  end.

Definition nameRoute (n : jsstring) (s : S) : Reply :=
  match getByName n s with Some e => Entry e | None => NotFound (js "not indexed") end.

Definition watchlistRoute (s : S) : Reply := Names (watchlist s).
Definition listingsRoute (s : S) : Reply := Entries (listings s).
End Ingest.
End App.

(** ** What the service means *)

(** An instruction followed by all it contains, in the order of execution. *)
Fixpoint preorder (ix : HeliusInstruction) : list HeliusInstruction :=
  let 'MkHelius _ _ _ inner := ix in
  ix :: match inner with None => [] | Some l => flat_map preorder l end.

(** The values before the first error, and that error. *)
Fixpoint until_error {A} (l : list (result JsError A)) : list A * option JsError :=
  match l with
  | [] => ([], None)
  | Ok a :: l => let '(xs, e) := until_error l in (a :: xs, e)
  | Err e :: _ => ([], Some e)
  end.

Section Spec.
Context `{Kit} `{AppKit}.

Definition decoded_instruction (m : EventMeta) (raw : Instruction)
    : list (result JsError (IndexEvent * EventMeta)) :=
  match parseSolansInstruction raw with
  | Ok (Some ev) => [Ok (ev, m)]
  | Ok None => []
  | Err e => [Err e]
  end.

(** The events of a transaction; a malformed address or base58 text anywhere
    in it is an error before any of them. *)
Definition decoded_tx (tx : HeliusTx) : list (result JsError (IndexEvent * EventMeta)) :=
  match rawInstructionsOf tx with
  | Ok raws => flat_map (decoded_instruction (metaOf tx)) raws
  | Err e => [Err e]
  end.

Definition decoded (txs : list HeliusTx) := flat_map decoded_tx txs.

(** A nested induction principle for instruction trees. *)
Lemma helius_ind' (P : HeliusInstruction -> Prop) :
  (forall p a d inner, Forall P (default [] inner) -> P (MkHelius p a d inner)) ->
  forall ix, P ix.
Proof.
  intros IH. fix go 1. intros [p a d [l|]]; apply IH; cbn; [|constructor].
  induction l as [|ix l IHl]; constructor; [apply go|exact IHl].
Qed.

Lemma concatR_app {A B} (f : A -> result JsError (list B)) l1 l2 :
  concatR f (l1 ++ l2) = (x ← concatR f l1; y ← concatR f l2; Ok (x ++ y)).
Proof.
  induction l1 as [|a l1 IH]; cbn; [by destruct (concatR f l2)|].
  destruct (f a) as [bs|]; cbn; [|done]. rewrite IH. destruct (concatR f l1); cbn; [|done].
  destruct (concatR f l2); cbn; [by rewrite app_assoc|done].
Qed.

Lemma concatR_flat_map {A B C} (f : A -> result JsError (list B)) (g : A -> list C)
    (h : C -> result JsError (list B)) l :
  Forall (fun a => f a = concatR h (g a)) l -> concatR f l = concatR h (flat_map g l).
Proof.
  induction 1 as [|a l Ha _ IH]; cbn; [done|]. rewrite Ha, IH, concatR_app. done.
Qed.

Lemma walk_preorder ix : walk ix = concatR rawInstruction (preorder ix).
Proof.
  induction ix as [p a d inner IH] using helius_ind'.
  cbn [walk preorder concatR]. destruct (rawInstruction _) as [own|]; cbn; [|done].
  destruct inner as [l|]; cbn in *; [|done].
  by rewrite (concatR_flat_map _ _ _ _ IH).
Qed.

(** Flattening a Helius transaction yields its instructions in execution order, each
    followed by all it contains at any depth, and fails exactly when a programId, an account
    or the base58 data of one of them is malformed. *)
Theorem rawInstructionsOf_preorder tx :
  rawInstructionsOf tx
  = concatR rawInstruction (flat_map preorder (default [] (instructions tx))).
Proof.
  unfold rawInstructionsOf. apply concatR_flat_map, List.Forall_forall.
  intros ix _. apply walk_preorder.
Qed.

Context {S : Type} `{IndexStore S}.

Lemma until_error_app {A} (l1 l2 : list (result JsError A)) :
  until_error (l1 ++ l2) = match until_error l1 with
                           | (xs, Some e) => (xs, Some e)
                           | (xs, None) => let '(ys, e) := until_error l2 in (xs ++ ys, e)
                           end.
Proof.
  induction l1 as [|[a|e] l1 IH]; cbn; [by destruct (until_error l2)| |done].
  rewrite IH. destruct (until_error l1) as [xs [e|]]; [done|]. by destruct (until_error l2).
Qed.

(** The outcome of ingesting a stream of decoded instructions. *)
Definition ingested (applied : Z) (stream : list (result JsError (IndexEvent * EventMeta)))
    : Eff (Indexer (S := S)) Z := fun '(s, log) =>
  let '(evs, err) := until_error stream in
  ((applyAll s evs, log ++ map fst evs),
   match err with None => Ok (applied + Z.of_nat (length evs)) | Some e => Err e end).

Lemma ingestRaw_stream m raws : forall applied w,
  ingestRaw m raws applied w = ingested applied (flat_map (decoded_instruction m) raws) w.
Proof.
  induction raws as [|raw raws IH]; intros applied [s log]; cbn [ingestRaw flat_map].
  { unfold ingested. cbn. by rewrite app_nil_r, Z.add_0_r. }
  rewrite eff_bind_run. unfold lift, decoded_instruction at 1.
  destruct (parseSolansInstruction raw) as [[ev|]|e]; cbn [app].
  - rewrite eff_bind_run. cbn [applyOne]. rewrite IH. unfold ingested. cbn [until_error].
    destruct (until_error _) as [evs [e|]]; cbn; rewrite <-app_assoc; do 2 f_equal. lia.
  - apply IH.
  - unfold ingested. cbn. by rewrite app_nil_r.
Qed.

Lemma ingested_app l1 l2 applied w :
  ingested applied (l1 ++ l2) w
  = (n ← ingested applied l1; ingested n l2) w.
Proof.
  destruct w as [s log]. rewrite eff_bind_run. unfold ingested. rewrite until_error_app.
  destruct (until_error l1) as [xs [e|]]; [done|]. destruct (until_error l2) as [ys e].
  rewrite applyAll_app, map_app, app_assoc, length_app. do 2 f_equal. destruct e; [done|].
  f_equal. lia.
Qed.

Lemma ingestTxs_stream txs : forall applied w,
  ingestTxs txs applied w = ingested applied (decoded txs) w.
Proof.
  induction txs as [|tx txs IH]; intros applied [s log].
  { unfold ingested. cbn. by rewrite app_nil_r, Z.add_0_r. }
  cbn [ingestTxs]. rewrite eff_bind_run. unfold lift, decoded. cbn [flat_map].
  unfold decoded_tx at 1. destruct (rawInstructionsOf tx) as [raws|e].
  - rewrite ingested_app, !eff_bind_run, ingestRaw_stream.
    destruct (ingested applied _ (s, log)) as [w [n|e]]; [apply IH|done].
  - unfold ingested. cbn. by rewrite app_nil_r.
Qed.

(** C30: The webhook applies to the store exactly the events decoded from the batch in order
    up to the first error, reports each to onApplied, and replies with their number, or with
    the error while keeping what was applied before it. *)
Theorem webhook_applies_the_decoded_prefix body (s : S) log :
  let txs := match body with inl l => l | inr tx => [tx] end in
  let '(evs, err) := until_error (decoded txs) in
  webhook body (s, log)
  = ((applyAll s evs, log ++ map fst evs),
     match err with
     | None => Indexed (Z.of_nat (length evs))
     | Some e => BadRequest (message e)
     end).
Proof.
  intros txs. unfold webhook, ingestHeliusTxs. fold txs. rewrite ingestTxs_stream.
  unfold ingested. by destruct (until_error (decoded txs)) as [evs [e|]].
Qed.
End Spec.

(** ** End to end: an encoded instruction posted to the webhook *)

Section Encoded.
Context `{KS : KitSpec} `{AK : !AppKit} {S : Type} `{IndexStore S}.

Lemma toAddress_valid a : isAddress a = true -> toAddress a = Ok a.
Proof. unfold toAddress. by intros ->. Qed.

Lemma accounts_valid accs :
  forallb isAddress accs = true ->
  mapR (fun a => x ← toAddress a; Ok {| address := x; role := READONLY |}) accs
  = Ok (metasFromAddresses accs).
Proof.
  induction accs as [|a accs IH]; cbn; [done|]. intros [Ha Haccs]%andb_true_iff.
  rewrite toAddress_valid by done. cbn. by rewrite IH.
Qed.

Lemma rawInstruction_truthy p accs d bs inner :
  p <> [] -> d <> [] -> isAddress p = true -> forallb isAddress accs = true ->
  base58Encode d = Ok bs ->
  rawInstruction (MkHelius (Some p) (Some accs) (Some d) inner)
  = Ok [{| programAddress := p; accounts := metasFromAddresses accs; data := bs |}].
Proof.
  intros Hp Hd Hpa Ha Hb. destruct p as [|u p]; [done|]. destruct d as [|w d]; [done|].
  cbn [rawInstruction default]. rewrite toAddress_valid by done. cbn [mbind result_bind].
  rewrite accounts_valid by done. cbn [mbind result_bind]. by rewrite Hb.
Qed.

Lemma single_instruction p accs d bs sg sl t :
  p <> [] -> d <> [] -> isAddress p = true -> forallb isAddress accs = true ->
  base58Encode d = Ok bs ->
  rawInstructionsOf (MkTx sg sl t (Some [MkHelius (Some p) (Some accs) (Some d) None]))
  = Ok [{| programAddress := p; accounts := metasFromAddresses accs; data := bs |}].
Proof.
  intros Hp Hd Hpa Ha Hb. unfold rawInstructionsOf.
  cbn [instructions default concatR walk from_option id].
  by rewrite (rawInstruction_truthy p accs d bs None).
Qed.

(** Posting a Helius transaction with one instruction encoded by the generated client
    (base58 data, valid addresses) applies that instruction's event to the store and replies
    indexed 1, or leaves the store as it is and replies indexed 0 for an untracked kind. *)
Theorem webhook_indexes_encoded_instruction k v accs bs d sg sl t (s : S) log :
  object_ok (instruction_codec k) v ->
  (length (slots (instruction_codec k)) <= length accs)%nat ->
  encoder (instruction_codec k) v = Ok bs ->
  isAddress SOLANS_PROGRAM_ADDRESS = true -> forallb isAddress accs = true ->
  d <> [] -> base58Encode d = Ok bs ->
  let tx := MkTx sg sl t
    (Some [MkHelius (Some SOLANS_PROGRAM_ADDRESS) (Some accs) (Some d) None]) in
  webhook (inr tx) (s, log)
  = match event_spec k (metasFromAddresses accs) v with
    | Some ev => ((applyEvent s ev (MkMeta sg sl t), log ++ [ev]), Indexed 1)
    | None => ((s, log), Indexed 0)
    end.
Proof.
  intros Hv Hlen He Hp Ha Hd Hb tx.
  assert (Hraw : rawInstructionsOf tx = Ok [own (metasFromAddresses accs) bs]).
  { by apply single_instruction. }
  pose proof (encoded_event k v (metasFromAddresses accs) bs [] Hv) as HP.
  rewrite app_nil_r in HP.
  unfold webhook, ingestHeliusTxs. rewrite ingestTxs_stream. unfold decoded. cbn [flat_map].
  unfold decoded_tx. rewrite Hraw. cbn [flat_map]. unfold decoded_instruction.
  rewrite HP by (try done; by unfold metasFromAddresses; rewrite length_map).
  destruct (event_spec _ _ _) as [ev|]; cbn; by rewrite ?app_nil_r.
Qed.
End Encoded.

(** ** Concrete services *)

#[export] Instance SmallAppKit : AppKit := {
  invalidAddress := fun s => MkError (js "Expected base58 encoded address");
  base58Encode := fun s => of_option (MkError (js "Invalid base58 string")) (base58_decode s);
}.

Definition sample_transfer : TransferName.TransferNameInstructionDataArgs :=
  TransferName.MkTransferNameInstructionDataArgs (small_addr 2).

Definition sample_accounts : list Address :=
  map small_addr [1; 3; 4; 5; 1; 1; 1; 1; 1; 1; 1; 1; 1; 1].

Definition sample_bytes : bytes :=
  match encoder TransferName.codec sample_transfer with Ok bs => bs | Err _ => [] end.

Definition sample_tx : HeliusTx := MkTx None None (Some 1000)
  (Some [MkHelius (Some SOLANS_PROGRAM_ADDRESS) (Some sample_accounts)
    (Some (base58_encode sample_bytes)) None]).

Lemma webhook_indexes_encoded_instruction_witness :
  webhook (inr sample_tx) (empty_store, [])
  = (applyEvent empty_store (Transfer (small_addr 3) (small_addr 2)) (MkMeta None None (Some 1000)),
     [Transfer (small_addr 3) (small_addr 2)], Indexed 1).
Proof.
  apply (webhook_indexes_encoded_instruction SolansInstruction.TransferName sample_transfer
    sample_accounts sample_bytes (base58_encode sample_bytes) None None (Some 1000)
    empty_store []).
  - vm_compute. repeat split.
  - vm_compute. lia.
  - vm_compute. reflexivity.
  - vm_compute. reflexivity.
  - vm_compute. reflexivity.
  - vm_compute. discriminate.
  - vm_compute. reflexivity.
Defined.

(** A batch whose second transaction is malformed: the first stays applied, the
    reply is an error. *)
Lemma partial_batch :
  let bad := MkTx None None None (Some [MkHelius (Some (js "0")) None (Some (js "1")) None]) in
  webhook (inl [sample_tx; bad]) (empty_store, [])
  = ((fst (webhook (inr sample_tx) (empty_store, []))),
     BadRequest (js "Expected base58 encoded address")).
Proof. vm_compute. reflexivity. Qed.
