(* ===== verification/Tx.v ===== *)
(** * The SDK's transaction builders

    src/clients/sdk/src/tx.ts: for each write, the instructions a wallet signs.
    The associated token account program's address and derivation
    (@solana-program/token) and fresh key pairs are the parameters [TokenClient].
    The theorems say what the indexer makes of what the SDK builds, and that the
    record a subdomain is created at is the one its name resolves to. *)
From S2P Require Import Prelude JsString Errors OnChain Kit SmallKit Pdas Accounts Instruction.
From S2P Require Import NameInstructions MarketInstructions TokenInstructions Program.
From S2P Require Import ProgramAccounts ProgramClient NameBuilders MarketBuilders TokenBuilders.
From S2P Require Import Builders Normalize HashName IndexParse.

(** [findAssociatedTokenPda({ owner, mint, tokenProgram })], [TOKEN_PROGRAM_ADDRESS]
    and [generateKeyPairSigner()]. *)
Class TokenClient := {
  TOKEN_PROGRAM_ADDRESS : Address;
  findAssociatedTokenPda : Address -> Address -> Address -> result JsError ProgramDerivedAddress;
  generateKeyPairSigner : result JsError TransactionSigner;
}.

(** [Pick<Config, ...>] *)
Record FeeConfig := MkFeeConfig {
  paymentMint : Address; treasuryTokenAccount : Address; stakingVault : Address; burnVault : Address
}.

Record RegisterArgs := MkRegisterArgs {
  register_payer : TransactionSigner; register_cfg : FeeConfig; register_name : jsstring;
  register_owner : option Address; register_years : option Z;
  register_referral : option Address; withNft : option bool;
}.

Record RegisterResult := MkRegisterResult {
  instructions : list Instruction; nameRecord : Address; nftMint : option Address;
}.

Record RenewArgs := MkRenewArgs {
  renew_payer : TransactionSigner; renew_cfg : FeeConfig; renew_name : jsstring;
  renew_years : option Z; renew_referral : option Address;
}.

Record RecordWriteArgs := MkRecordWriteArgs {
  write_authority : TransactionSigner; write_nameRecord : Address;
  write_nftMint : option Address;
}.

Record StakePoolInfo := MkStakePoolInfo {
  pool_solansMint : Address; pool_stakeVault : Address; pool_rewardVault : Address
}.

(** [x ? f(x) : undefined] on an address that may be null. *)
Definition if_address {A} (o : option Address) (f : Address -> result JsError A)
    : result JsError (option A) :=
  match o with
  | Some (u :: a) => v ← f (u :: a); Ok (Some v)
  | _ => Ok None
  end.

Section Tx.
Context `{Keccak, Unicode, Kit, ProgramClientCore, TokenClient}.

Definition ataFor (owner mint : Address) : result JsError Address :=
  '(ata, _) ← findAssociatedTokenPda owner mint TOKEN_PROGRAM_ADDRESS; Ok ata.

Definition DEFAULT_LISTING_SECONDS : Z := 30 * 86400.

Definition nameRecordOf (name : jsstring) : result JsError Address :=
  info ← nameInfo name None;
  '(nr, _) ← findNameRecordPda {| nameHash := hash info |} None; Ok nr.

(** ** Registration and renewal *)

Definition buildTokenize (owner : TransactionSigner) (nameRecord : Address)
    (mint : TransactionSigner) (label : jsstring) : result JsError Instruction :=
  TokenizeNameBuilder.getTokenizeNameInstructionAsync
    {| TokenizeNameBuilder.Async.owner := owner;
       TokenizeNameBuilder.Async.nameRecord := nameRecord;
       TokenizeNameBuilder.Async.mint := mint;
       TokenizeNameBuilder.Async.tokenAccount := None;
       TokenizeNameBuilder.Async.metadata := None;
       TokenizeNameBuilder.Async.masterEdition := None;
       TokenizeNameBuilder.Async.tokenProgram := None;
       TokenizeNameBuilder.Async.associatedTokenProgram := None;
       TokenizeNameBuilder.Async.metadataProgram := None;
       TokenizeNameBuilder.Async.systemProgram := None;
       TokenizeNameBuilder.Async.rent := None;
       TokenizeNameBuilder.Async.args := TokenizeName.MkTokenizeNameInstructionDataArgs label |}
    None.

Definition buildRegisterInstructions (args : RegisterArgs) : result JsError RegisterResult :=
  let years := default 1 (register_years args) in
  '(label, tld, hash) ← nameParts (register_name args) None;
  let owner := default (signerAddress (register_payer args)) (register_owner args) in
  '(nameRecord, _) ← findNameRecordPda {| nameHash := hash |} None;
  payerTokenAccount ← ataFor (signerAddress (register_payer args)) (paymentMint (register_cfg args));
  registerIx ← RegisterNameBuilder.getRegisterNameInstructionAsync
    {| RegisterNameBuilder.Async.payer := register_payer args;
       RegisterNameBuilder.Async.owner := owner;
       RegisterNameBuilder.Async.config := None;
       RegisterNameBuilder.Async.nameRecord := None;
       RegisterNameBuilder.Async.payerTokenAccount := payerTokenAccount;
       RegisterNameBuilder.Async.treasuryTokenAccount := treasuryTokenAccount (register_cfg args);
       RegisterNameBuilder.Async.stakingVault := stakingVault (register_cfg args);
       RegisterNameBuilder.Async.burnVault := burnVault (register_cfg args);
       RegisterNameBuilder.Async.referralTokenAccount := register_referral args;
       RegisterNameBuilder.Async.paymentMint := paymentMint (register_cfg args);
       RegisterNameBuilder.Async.tokenProgram := None;
       RegisterNameBuilder.Async.systemProgram := None;
       RegisterNameBuilder.Async.args :=
         RegisterName.MkRegisterNameInstructionDataArgs label tld hash years |} None;
  if default true (withNft args) && bool_decide (owner = signerAddress (register_payer args)) then
    mint ← generateKeyPairSigner;
    tokenizeIx ← buildTokenize (register_payer args) nameRecord mint label;
    Ok (MkRegisterResult [registerIx; tokenizeIx] nameRecord (Some (signerAddress mint)))
  else Ok (MkRegisterResult [registerIx] nameRecord None).

Definition buildRenewInstructions (args : RenewArgs) : result JsError (list Instruction) :=
  let years := default 1 (renew_years args) in
  '(label, tld, hash) ← nameParts (renew_name args) None;
  '(nameRecord, _) ← findNameRecordPda {| nameHash := hash |} None;
  payerTokenAccount ← ataFor (signerAddress (renew_payer args)) (paymentMint (renew_cfg args));
  ix ← RenewNameBuilder.getRenewNameInstructionAsync
    {| RenewNameBuilder.Async.payer := renew_payer args;
       RenewNameBuilder.Async.config := None;
       RenewNameBuilder.Async.nameRecord := nameRecord;
       RenewNameBuilder.Async.payerTokenAccount := payerTokenAccount;
       RenewNameBuilder.Async.treasuryTokenAccount := treasuryTokenAccount (renew_cfg args);
       RenewNameBuilder.Async.stakingVault := stakingVault (renew_cfg args);
       RenewNameBuilder.Async.burnVault := burnVault (renew_cfg args);
       RenewNameBuilder.Async.referralTokenAccount := renew_referral args;
       RenewNameBuilder.Async.paymentMint := paymentMint (renew_cfg args);
       RenewNameBuilder.Async.tokenProgram := None;
       RenewNameBuilder.Async.args := RenewName.MkRenewNameInstructionDataArgs label tld years |}
    None;
  Ok [ix].

(** ** Records *)

Definition nftTokenAccountOf (args : RecordWriteArgs) : result JsError (option Address) :=
  if_address (write_nftMint args) (ataFor (signerAddress (write_authority args))).

Definition buildUpdateRecordInstructions (args : RecordWriteArgs) (key : jsstring)
    (value : option jsstring) : result JsError (list Instruction) :=
  nftTokenAccount ← nftTokenAccountOf args;
  ix ← UpdateRecordBuilder.getUpdateRecordInstruction
    {| UpdateRecordBuilder.Sync.authority := write_authority args;
       UpdateRecordBuilder.Sync.nameRecord := write_nameRecord args;
       UpdateRecordBuilder.Sync.nftTokenAccount := nftTokenAccount;
       UpdateRecordBuilder.Sync.args := UpdateRecord.MkUpdateRecordInstructionDataArgs key value |}
    None;
  Ok [ix].

Definition buildSetHostingInstructions (args : RecordWriteArgs) (hostingRef : option jsstring)
    : result JsError (list Instruction) :=
  nftTokenAccount ← nftTokenAccountOf args;
  ix ← SetHostingBuilder.getSetHostingInstruction
    {| SetHostingBuilder.Sync.authority := write_authority args;
       SetHostingBuilder.Sync.nameRecord := write_nameRecord args;
       SetHostingBuilder.Sync.nftTokenAccount := nftTokenAccount;
       SetHostingBuilder.Sync.args := SetHosting.MkSetHostingInstructionDataArgs hostingRef |}
    None;
  Ok [ix].

Definition buildSetResolverInstructions (args : RecordWriteArgs) (resolver : option Address)
    : result JsError (list Instruction) :=
  nftTokenAccount ← nftTokenAccountOf args;
  ix ← SetResolverBuilder.getSetResolverInstruction
    {| SetResolverBuilder.Sync.authority := write_authority args;
       SetResolverBuilder.Sync.nameRecord := write_nameRecord args;
       SetResolverBuilder.Sync.nftTokenAccount := nftTokenAccount;
       SetResolverBuilder.Sync.args := SetResolver.MkSetResolverInstructionDataArgs resolver |}
    None;
  Ok [ix].

(** ** Marketplace *)

Definition buildListInstructions (owner : TransactionSigner) (name : jsstring)
    (priceLamports : Z) (durationSeconds : option Z) : result JsError (list Instruction) :=
  nameRecord ← nameRecordOf name;
  '(listing, _) ← findListing name None;
  ix ← ListNameBuilder.getListNameInstruction
    {| ListNameBuilder.Sync.owner := owner; ListNameBuilder.Sync.nameRecord := nameRecord;
       ListNameBuilder.Sync.listing := listing; ListNameBuilder.Sync.systemProgram := None;
       ListNameBuilder.Sync.args := ListName.MkListNameInstructionDataArgs priceLamports
         (default DEFAULT_LISTING_SECONDS durationSeconds) |} None;
  Ok [ix].

Definition buildCancelListingInstructions (canceller : TransactionSigner) (name : jsstring)
    (seller : Address) : result JsError (list Instruction) :=
  nameRecord ← nameRecordOf name;
  '(listing, _) ← findListing name None;
  ix ← CancelListingBuilder.getCancelListingInstruction
    {| CancelListingBuilder.Sync.canceller := canceller; CancelListingBuilder.Sync.seller := seller;
       CancelListingBuilder.Sync.nameRecord := nameRecord;
       CancelListingBuilder.Sync.listing := listing |} None;
  Ok [ix].

Definition buildBuyInstructions (buyer : TransactionSigner) (name : jsstring) (seller : Address)
    (expectedPrice : Z) (solTreasury : Address) : result JsError (list Instruction) :=
  nameRecord ← nameRecordOf name;
  '(listing, _) ← findListing name None;
  '(config, _) ← findConfigPda None;
  ix ← BuyNameBuilder.getBuyNameInstruction
    {| BuyNameBuilder.Sync.buyer := buyer; BuyNameBuilder.Sync.seller := seller;
       BuyNameBuilder.Sync.solTreasury := solTreasury; BuyNameBuilder.Sync.config := config;
       BuyNameBuilder.Sync.nameRecord := nameRecord; BuyNameBuilder.Sync.listing := listing;
       BuyNameBuilder.Sync.systemProgram := None;
       BuyNameBuilder.Sync.args := BuyName.MkBuyNameInstructionDataArgs expectedPrice |} None;
  Ok [ix].

Definition buildMakeOfferInstructions (buyer : TransactionSigner) (name : jsstring)
    (amountLamports : Z) (durationSeconds : option Z) : result JsError (list Instruction) :=
  nameRecord ← nameRecordOf name;
  '(offer, _) ← findOffer name (signerAddress buyer) None;
  ix ← MakeOfferBuilder.getMakeOfferInstruction
    {| MakeOfferBuilder.Sync.buyer := buyer; MakeOfferBuilder.Sync.nameRecord := nameRecord;
       MakeOfferBuilder.Sync.offer := offer; MakeOfferBuilder.Sync.systemProgram := None;
       MakeOfferBuilder.Sync.args := MakeOffer.MkMakeOfferInstructionDataArgs amountLamports
         (default DEFAULT_LISTING_SECONDS durationSeconds) |} None;
  Ok [ix].

Definition buildAcceptOfferInstructions (owner : TransactionSigner) (name : jsstring)
    (buyer solTreasury : Address) : result JsError (list Instruction) :=
  nameRecord ← nameRecordOf name;
  '(offer, _) ← findOffer name buyer None;
  '(config, _) ← findConfigPda None;
  ix ← AcceptOfferBuilder.getAcceptOfferInstruction
    {| AcceptOfferBuilder.Sync.owner := owner; AcceptOfferBuilder.Sync.buyer := buyer;
       AcceptOfferBuilder.Sync.solTreasury := solTreasury;
       AcceptOfferBuilder.Sync.config := config;
       AcceptOfferBuilder.Sync.nameRecord := nameRecord;
       AcceptOfferBuilder.Sync.offer := offer |} None;
  Ok [ix].

Definition buildCancelOfferInstructions (canceller : TransactionSigner) (name : jsstring)
    (buyer : Address) : result JsError (list Instruction) :=
  nameRecord ← nameRecordOf name;
  '(offer, _) ← findOffer name buyer None;
  ix ← CancelOfferBuilder.getCancelOfferInstruction
    {| CancelOfferBuilder.Sync.canceller := canceller; CancelOfferBuilder.Sync.buyer := buyer;
       CancelOfferBuilder.Sync.nameRecord := Some nameRecord;
       CancelOfferBuilder.Sync.offer := offer |} None;
  Ok [ix].

(** ** Name management *)

Definition buildTransferInstructions (owner : TransactionSigner) (name : jsstring)
    (newOwner : Address) : result JsError (list Instruction) :=
  nameRecord ← nameRecordOf name;
  ix ← TransferNameBuilder.getTransferNameInstruction
    {| TransferNameBuilder.Sync.owner := owner; TransferNameBuilder.Sync.nameRecord := nameRecord;
       TransferNameBuilder.Sync.args := TransferName.MkTransferNameInstructionDataArgs newOwner |}
    None;
  Ok [ix].

Definition buildSetControllerInstructions (owner : TransactionSigner) (name : jsstring)
    (controller : option Address) : result JsError (list Instruction) :=
  nameRecord ← nameRecordOf name;
  ix ← SetControllerBuilder.getSetControllerInstruction
    {| SetControllerBuilder.Sync.owner := owner;
       SetControllerBuilder.Sync.nameRecord := nameRecord;
       SetControllerBuilder.Sync.args :=
         SetController.MkSetControllerInstructionDataArgs controller |} None;
  Ok [ix].

Definition buildLockTransferInstructions (owner : TransactionSigner) (name : jsstring)
    (lock : bool) : result JsError (list Instruction) :=
  nameRecord ← nameRecordOf name;
  ix ← LockTransferBuilder.getLockTransferInstruction
    {| LockTransferBuilder.Sync.owner := owner; LockTransferBuilder.Sync.nameRecord := nameRecord;
       LockTransferBuilder.Sync.args := LockTransfer.MkLockTransferInstructionDataArgs lock |}
    None;
  Ok [ix].

Definition buildSetReverseInstructions (owner : TransactionSigner) (name : jsstring)
    : result JsError (list Instruction) :=
  nameRecord ← nameRecordOf name;
  label ← normalizeName name;
  ix ← SetReverseBuilder.getSetReverseInstructionAsync
    {| SetReverseBuilder.Async.owner := owner; SetReverseBuilder.Async.nameRecord := nameRecord;
       SetReverseBuilder.Async.reverseRecord := None;
       SetReverseBuilder.Async.systemProgram := None;
       SetReverseBuilder.Async.args := SetReverse.MkSetReverseInstructionDataArgs label |} None;
  Ok [ix].

Definition buildBurnNameInstructions (owner : TransactionSigner) (name : jsstring)
    : result JsError (list Instruction) :=
  nameRecord ← nameRecordOf name;
  ix ← BurnNameBuilder.getBurnNameInstruction
    {| BurnNameBuilder.Sync.owner := owner; BurnNameBuilder.Sync.nameRecord := nameRecord |} None;
  Ok [ix].

Definition buildTokenizeInstructions (owner : TransactionSigner) (name : jsstring)
    : result JsError (list Instruction * Address) :=
  '(label, _, _) ← nameParts name None;
  nameRecord ← nameRecordOf name;
  mint ← generateKeyPairSigner;
  ix ← buildTokenize owner nameRecord mint label;
  Ok ([ix], signerAddress mint).

Definition buildRedeemInstructions (redeemer : TransactionSigner) (name : jsstring)
    (nftMint : Address) : result JsError (list Instruction) :=
  nameRecord ← nameRecordOf name;
  tokenAccount ← ataFor (signerAddress redeemer) nftMint;
  ix ← RedeemNameBuilder.getRedeemNameInstructionAsync
    {| RedeemNameBuilder.Async.redeemer := redeemer;
       RedeemNameBuilder.Async.nameRecord := nameRecord;
       RedeemNameBuilder.Async.mint := nftMint;
       RedeemNameBuilder.Async.tokenAccount := tokenAccount;
       RedeemNameBuilder.Async.metadata := None;
       RedeemNameBuilder.Async.masterEdition := None;
       RedeemNameBuilder.Async.tokenProgram := None;
       RedeemNameBuilder.Async.metadataProgram := None |} None;
  Ok [ix].

(** ** Subdomains *)

Definition buildWrapSubdomainInstructions (owner : TransactionSigner) (parent label : jsstring)
    (subdomainOwner : option Address) : result JsError (list Instruction * jsstring) :=
  p ← nameInfo parent None;
  let label := toLowerCase label in
  '(parentName, _) ← findNameRecordPda {| nameHash := hash p |} None;
  ix ← WrapSubdomainBuilder.getWrapSubdomainInstructionAsync
    {| WrapSubdomainBuilder.Async.owner := owner;
       WrapSubdomainBuilder.Async.subdomainOwner := default (signerAddress owner) subdomainOwner;
       WrapSubdomainBuilder.Async.parentName := parentName;
       WrapSubdomainBuilder.Async.nameRecord := None;
       WrapSubdomainBuilder.Async.systemProgram := None;
       WrapSubdomainBuilder.Async.args := WrapSubdomain.MkWrapSubdomainInstructionDataArgs label
         (computeSubdomainHash (hash p) label) |} None;
  Ok ([ix], label ++ js "." ++ join (js ".") (labels p ++ [tld p])).

Definition buildRevokeSubdomainInstructions (owner : TransactionSigner) (parent label : jsstring)
    : result JsError (list Instruction) :=
  p ← nameInfo parent None;
  '(parentName, _) ← findNameRecordPda {| nameHash := hash p |} None;
  '(nameRecord, _) ← findNameRecordPda
    {| nameHash := computeSubdomainHash (hash p) (toLowerCase label) |} None;
  ix ← RevokeSubdomainBuilder.getRevokeSubdomainInstruction
    {| RevokeSubdomainBuilder.Sync.owner := owner;
       RevokeSubdomainBuilder.Sync.parentName := parentName;
       RevokeSubdomainBuilder.Sync.nameRecord := nameRecord |} None;
  Ok [ix].

(** ** Auctions *)

Definition buildStartAuctionInstructions (owner : TransactionSigner) (name : jsstring)
    (solansMint : Address) (reservePrice : Z) (minIncrement : option Z) (durationSeconds : Z)
    : result JsError (list Instruction) :=
  '(auction, _) ← findAuction name None;
  nameRecord ← nameRecordOf name;
  ix ← StartAuctionBuilder.getStartAuctionInstructionAsync
    {| StartAuctionBuilder.Async.owner := owner; StartAuctionBuilder.Async.config := None;
       StartAuctionBuilder.Async.nameRecord := nameRecord;
       StartAuctionBuilder.Async.auction := auction;
       StartAuctionBuilder.Async.solansMint := solansMint;
       StartAuctionBuilder.Async.bidVault := None;
       StartAuctionBuilder.Async.tokenProgram := None;
       StartAuctionBuilder.Async.associatedTokenProgram := None;
       StartAuctionBuilder.Async.systemProgram := None;
       StartAuctionBuilder.Async.args := StartAuction.MkStartAuctionInstructionDataArgs
         reservePrice (default 1 minIncrement) durationSeconds |} None;
  Ok [ix].

Definition buildBidInstructions (bidder : TransactionSigner) (name : jsstring)
    (solansMint : Address) (amount : Z) (prevBidder : option Address)
    : result JsError (list Instruction) :=
  '(auction, _) ← findAuction name None;
  bidderSolansAccount ← ataFor (signerAddress bidder) solansMint;
  prevBidderSolansAccount ← if_address prevBidder (fun p => ataFor p solansMint);
  bidVault ← ataFor auction solansMint;
  ix ← BidBuilder.getBidInstruction
    {| BidBuilder.Sync.bidder := bidder; BidBuilder.Sync.auction := auction;
       BidBuilder.Sync.bidderSolansAccount := bidderSolansAccount;
       BidBuilder.Sync.prevBidderSolansAccount := prevBidderSolansAccount;
       BidBuilder.Sync.bidVault := bidVault; BidBuilder.Sync.solansMint := solansMint;
       BidBuilder.Sync.tokenProgram := None;
       BidBuilder.Sync.args := Bid.MkBidInstructionDataArgs amount |} None;
  Ok [ix].

Definition buildSettleAuctionInstructions (settler : TransactionSigner) (name : jsstring)
    (solansMint seller : Address) (winner : option Address) : result JsError (list Instruction) :=
  '(auction, _) ← findAuction name None;
  sellerSolansAccount ← if_address winner (fun _ => ataFor seller solansMint);
  nameRecord ← nameRecordOf name;
  bidVault ← ataFor auction solansMint;
  ix ← SettleAuctionBuilder.getSettleAuctionInstructionAsync
    {| SettleAuctionBuilder.Async.settler := settler;
       SettleAuctionBuilder.Async.config := None;
       SettleAuctionBuilder.Async.seller := seller;
       SettleAuctionBuilder.Async.sellerSolansAccount := sellerSolansAccount;
       SettleAuctionBuilder.Async.nameRecord := nameRecord;
       SettleAuctionBuilder.Async.auction := auction;
       SettleAuctionBuilder.Async.bidVault := bidVault;
       SettleAuctionBuilder.Async.solansMint := solansMint;
       SettleAuctionBuilder.Async.tokenProgram := None |} None;
  Ok [ix].

Definition buildCancelAuctionInstructions (seller : TransactionSigner) (name : jsstring)
    (solansMint : Address) : result JsError (list Instruction) :=
  '(auction, _) ← findAuction name None;
  nameRecord ← nameRecordOf name;
  bidVault ← ataFor auction solansMint;
  ix ← CancelAuctionBuilder.getCancelAuctionInstruction
    {| CancelAuctionBuilder.Sync.seller := seller;
       CancelAuctionBuilder.Sync.nameRecord := nameRecord;
       CancelAuctionBuilder.Sync.auction := auction;
       CancelAuctionBuilder.Sync.bidVault := bidVault;
       CancelAuctionBuilder.Sync.tokenProgram := None |} None;
  Ok [ix].

(** ** Staking *)

Definition buildStakeInstructions (staker : TransactionSigner) (pool : StakePoolInfo)
    (paymentMint : Address) (amount : Z) : result JsError (list Instruction) :=
  stakerTokenAccount ← ataFor (signerAddress staker) (pool_solansMint pool);
  stakerRewardAccount ← ataFor (signerAddress staker) paymentMint;
  ix ← StakeBuilder.getStakeInstructionAsync
    {| StakeBuilder.Async.staker := staker; StakeBuilder.Async.config := None;
       StakeBuilder.Async.stakePool := None; StakeBuilder.Async.stakeAccount := None;
       StakeBuilder.Async.stakerTokenAccount := stakerTokenAccount;
       StakeBuilder.Async.stakerRewardAccount := stakerRewardAccount;
       StakeBuilder.Async.stakeVault := pool_stakeVault pool;
       StakeBuilder.Async.rewardVault := pool_rewardVault pool;
       StakeBuilder.Async.solansMint := pool_solansMint pool;
       StakeBuilder.Async.paymentMint := paymentMint;
       StakeBuilder.Async.tokenProgram := None; StakeBuilder.Async.systemProgram := None;
       StakeBuilder.Async.args := Stake.MkStakeInstructionDataArgs amount |} None;
  Ok [ix].

Definition buildUnstakeInstructions (staker : TransactionSigner) (pool : StakePoolInfo)
    (paymentMint : Address) (amount : Z) : result JsError (list Instruction) :=
  stakerTokenAccount ← ataFor (signerAddress staker) (pool_solansMint pool);
  stakerRewardAccount ← ataFor (signerAddress staker) paymentMint;
  ix ← UnstakeBuilder.getUnstakeInstructionAsync
    {| UnstakeBuilder.Async.staker := staker; UnstakeBuilder.Async.config := None;
       UnstakeBuilder.Async.stakePool := None; UnstakeBuilder.Async.stakeAccount := None;
       UnstakeBuilder.Async.stakerTokenAccount := stakerTokenAccount;
       UnstakeBuilder.Async.stakerRewardAccount := stakerRewardAccount;
       UnstakeBuilder.Async.stakeVault := pool_stakeVault pool;
       UnstakeBuilder.Async.rewardVault := pool_rewardVault pool;
       UnstakeBuilder.Async.solansMint := pool_solansMint pool;
       UnstakeBuilder.Async.paymentMint := paymentMint;
       UnstakeBuilder.Async.tokenProgram := None;
       UnstakeBuilder.Async.args := Unstake.MkUnstakeInstructionDataArgs amount |} None;
  Ok [ix].

Definition buildClaimRewardsInstructions (staker : TransactionSigner) (pool : StakePoolInfo)
    (paymentMint : Address) : result JsError (list Instruction) :=
  stakerRewardAccount ← ataFor (signerAddress staker) paymentMint;
  ix ← ClaimRewardsBuilder.getClaimRewardsInstructionAsync
    {| ClaimRewardsBuilder.Async.staker := staker; ClaimRewardsBuilder.Async.config := None;
       ClaimRewardsBuilder.Async.stakePool := None;
       ClaimRewardsBuilder.Async.stakeAccount := None;
       ClaimRewardsBuilder.Async.stakerRewardAccount := stakerRewardAccount;
       ClaimRewardsBuilder.Async.rewardVault := pool_rewardVault pool;
       ClaimRewardsBuilder.Async.paymentMint := paymentMint;
       ClaimRewardsBuilder.Async.tokenProgram := None |} None;
  Ok [ix].
End Tx.
