(* ===== verification/TxLaws.v ===== *)
(** * What the SDK's transactions do

    The twenty-seven builders of Tx.v as one type of writes.  [indexed] says what
    the indexer must make of a write; [sdk_writes_are_indexed] proves it of the
    instructions the SDK builds.  The other theorems: what registration returns,
    and that a subdomain's instructions name the record its name resolves to. *)
From S2P Require Import Prelude JsString Errors OnChain Kit SmallKit Pdas Instruction.
From S2P Require Import NameInstructions MarketInstructions TokenInstructions Program.
From S2P Require Import ProgramAccounts ProgramClient NameBuilders MarketBuilders TokenBuilders.
From S2P Require Import Builders Normalize HashName IndexParse Tx.

(** ** The writes *)

Module Write.
Inductive t :=
| Register (args : RegisterArgs)
| Renew (args : RenewArgs)
| UpdateRecord (args : RecordWriteArgs) (key : jsstring) (value : option jsstring)
| SetHosting (args : RecordWriteArgs) (hostingRef : option jsstring)
| SetResolver (args : RecordWriteArgs) (resolver : option Address)
| List (owner : TransactionSigner) (name : jsstring) (price : Z) (duration : option Z)
| CancelListing (canceller : TransactionSigner) (name : jsstring) (seller : Address)
| Buy (buyer : TransactionSigner) (name : jsstring) (seller : Address) (price : Z) (treasury : Address)
| MakeOffer (buyer : TransactionSigner) (name : jsstring) (amount : Z) (duration : option Z)
| AcceptOffer (owner : TransactionSigner) (name : jsstring) (buyer treasury : Address)
| CancelOffer (canceller : TransactionSigner) (name : jsstring) (buyer : Address)
| Transfer (owner : TransactionSigner) (name : jsstring) (newOwner : Address)
| SetController (owner : TransactionSigner) (name : jsstring) (controller : option Address)
| LockTransfer (owner : TransactionSigner) (name : jsstring) (lock : bool)
| SetReverse (owner : TransactionSigner) (name : jsstring)
| BurnName (owner : TransactionSigner) (name : jsstring)
| Tokenize (owner : TransactionSigner) (name : jsstring)
| Redeem (redeemer : TransactionSigner) (name : jsstring) (nftMint : Address)
| WrapSubdomain (owner : TransactionSigner) (parent label : jsstring) (subdomainOwner : option Address)
| RevokeSubdomain (owner : TransactionSigner) (parent label : jsstring)
| StartAuction (owner : TransactionSigner) (name : jsstring) (solansMint : Address)
    (reservePrice : Z) (minIncrement : option Z) (duration : Z)
| Bid (bidder : TransactionSigner) (name : jsstring) (solansMint : Address) (amount : Z)
    (prevBidder : option Address)
| SettleAuction (settler : TransactionSigner) (name : jsstring) (solansMint seller : Address)
    (winner : option Address)
| CancelAuction (seller : TransactionSigner) (name : jsstring) (solansMint : Address)
| Stake (staker : TransactionSigner) (pool : StakePoolInfo) (paymentMint : Address) (amount : Z)
| Unstake (staker : TransactionSigner) (pool : StakePoolInfo) (paymentMint : Address) (amount : Z)
| ClaimRewards (staker : TransactionSigner) (pool : StakePoolInfo) (paymentMint : Address).
End Write.

Section Writes.
Context `{Keccak, Unicode, Kit, ProgramClientCore, TokenClient}.

(** The instructions a write sends. *)
Definition instructionsOf (w : Write.t) : result JsError (list Instruction) :=
  match w with
  | Write.Register a => instructions <$> buildRegisterInstructions a
  | Write.Renew a => buildRenewInstructions a
  | Write.UpdateRecord a k v => buildUpdateRecordInstructions a k v
  | Write.SetHosting a r => buildSetHostingInstructions a r
  | Write.SetResolver a r => buildSetResolverInstructions a r
  | Write.List o n p d => buildListInstructions o n p d
  | Write.CancelListing c n s => buildCancelListingInstructions c n s
  | Write.Buy b n s p t => buildBuyInstructions b n s p t
  | Write.MakeOffer b n a d => buildMakeOfferInstructions b n a d
  | Write.AcceptOffer o n b t => buildAcceptOfferInstructions o n b t
  | Write.CancelOffer c n b => buildCancelOfferInstructions c n b
  | Write.Transfer o n no => buildTransferInstructions o n no
  | Write.SetController o n c => buildSetControllerInstructions o n c
  | Write.LockTransfer o n l => buildLockTransferInstructions o n l
  | Write.SetReverse o n => buildSetReverseInstructions o n
  | Write.BurnName o n => buildBurnNameInstructions o n
  | Write.Tokenize o n => fst <$> buildTokenizeInstructions o n
  | Write.Redeem r n m => buildRedeemInstructions r n m
  | Write.WrapSubdomain o p l so => fst <$> buildWrapSubdomainInstructions o p l so
  | Write.RevokeSubdomain o p l => buildRevokeSubdomainInstructions o p l
  | Write.StartAuction o n m r i d => buildStartAuctionInstructions o n m r i d
  | Write.Bid b n m a p => buildBidInstructions b n m a p
  | Write.SettleAuction s n m se wi => buildSettleAuctionInstructions s n m se wi
  | Write.CancelAuction s n m => buildCancelAuctionInstructions s n m
  | Write.Stake s p m a => buildStakeInstructions s p m a
  | Write.Unstake s p m a => buildUnstakeInstructions s p m a
  | Write.ClaimRewards s p m => buildClaimRewardsInstructions s p m
  end.

(** ** What a write means to the indexer *)

Definition registrant (a : RegisterArgs) : Address :=
  default (signerAddress (register_payer a)) (register_owner a).

(** A registration also tokenizes for a payer who keeps the name. *)
Definition tokenizes (a : RegisterArgs) : bool :=
  default true (withNft a) && bool_decide (registrant a = signerAddress (register_payer a)).

(** At the record that [name] resolves to; nothing when there is none. *)
Definition at_record (name : jsstring) (event : Address -> IndexEvent) : list (option IndexEvent) :=
  match findNameRecord name None with
  | Ok (nr, _) => [Some (event nr)]
  | Err _ => []
  end.

Definition child_record (p : NameInfo) (label : jsstring) : result JsError ProgramDerivedAddress :=
  findNameRecordPda {| nameHash := computeSubdomainHash (hash p) label |} None.

(** One entry per instruction: the event, or [None] where nothing is recorded. *)
Definition indexed (w : Write.t) : list (option IndexEvent) :=
  match w with
  | Write.Register a =>
      match nameParts (register_name a) None with
      | Ok (label, tld, h) =>
          at_record (register_name a) (fun nr => Register nr (fullNameOf label tld) label tld
            (registrant a) (hex h) (default 1 (register_years a)))
          ++ (if tokenizes a then [None] else [])
      | Err _ => []
      end
  | Write.Renew a =>
      match nameParts (renew_name a) None with
      | Ok (label, tld, _) =>
          at_record (renew_name a) (fun nr => Renew nr label tld (default 1 (renew_years a)))
      | Err _ => []
      end
  | Write.WrapSubdomain o parent label so =>
      match nameInfo parent None with
      | Ok p =>
          match child_record p (toLowerCase label) with
          | Ok (child, _) => at_record parent (fun nr => Subdomain child nr
              (default (signerAddress o) so) (toLowerCase label)
              (hex (computeSubdomainHash (hash p) (toLowerCase label))))
          | Err _ => []
          end
      | Err _ => []
      end
  | Write.Transfer _ n newOwner => at_record n (fun nr => Transfer nr newOwner)
  | Write.BurnName _ n => at_record n Burn
  | Write.List o n price _ => at_record n (fun nr => List nr (signerAddress o) (toString price))
  | Write.CancelListing _ n _ => at_record n Unlist
  | Write.Buy b n _ _ _ => at_record n (fun nr => Buy nr (signerAddress b))
  | _ => [None]
  end.

(** Arguments the codecs keep: numbers at their width, well-formed text, addresses. *)
Definition encodable (w : Write.t) : Prop :=
  let name_ok n := forall l t h, nameParts n None = Ok (l, t, h) -> string_ok l in
  match w with
  | Write.Register a => name_ok (register_name a) /\ unsigned_ok 2 (default 1 (register_years a))
      /\ address_ok (registrant a)
  | Write.Renew a => name_ok (renew_name a) /\ unsigned_ok 2 (default 1 (renew_years a))
  | Write.WrapSubdomain o _ label so => string_ok (toLowerCase label)
      /\ address_ok (default (signerAddress o) so)
  | Write.Transfer _ _ newOwner => address_ok newOwner
  | Write.List _ _ price d => unsigned_ok 8 price /\ i64_ok (default DEFAULT_LISTING_SECONDS d)
  | Write.Buy _ _ _ price _ => unsigned_ok 8 price
  | _ => True
  end.
End Writes.

(** ** Laws *)

(** Follow a computation that returned: one hypothesis per step. *)
Ltac unbind HB :=
  repeat match type of HB with
  | mbind _ _ = Ok _ =>
      let Hx := fresh "Hx" in apply result_bind_Ok in HB as (? & Hx & HB)
  | fmap _ _ = Ok _ =>
      let Hx := fresh "Hx" in apply result_fmap_Ok in HB as (? & HB & Hx); subst
  | (match ?x with pair _ _ => _ end) = Ok _ => destruct x
  end.

(** The addresses of a builder, unfolded. *)
Ltac unfold_addresses Ha :=
  match type of Ha with
  | ?f ?i = Ok ?l => let f := eval hnf in f in change (f i = Ok l) in Ha; cbv beta in Ha
  end.

Section Laws.
Context `{KS : KeccakSpec} `{HU : Unicode} `{HKit : KitSpec} `{PS : ProgramClientSpec}.
Context `{TC : TokenClient}.

(** An instruction of an untracked kind records nothing, whatever its arguments. *)
Lemma built_untracked (b : Builder.t) input ix :
  build (builder b) input None = Ok ix -> tracked (kind (builder b)) = false ->
  IndexParse.parseSolansInstruction ix = Ok None.
Proof.
  intros HB Htr. apply built in HB as (addrs & bs & _ & He & _ & ->).
  apply tag_law in He. unfold IndexParse.parseSolansInstruction. cbn [programAddress default].
  rewrite bool_decide_eq_true_2 by done. cbn [negb].
  rewrite (identified_tag _ (kind (builder b))) by exact He. by destruct (kind (builder b)).
Qed.

(** A tracked one yields its event, at the addresses the builder used. *)
Lemma built_event (b : Builder.t) input ix :
  build (builder b) input None = Ok ix ->
  object_ok (instruction_codec (kind (builder b))) (args_of (builder b) input) ->
  exists addrs metas, addresses (builder b) input = Ok addrs
    /\ (forall i a, addrs !! i = Some (Some a) -> account_at metas i = a)
    /\ IndexParse.parseSolansInstruction ix
       = Ok (event_spec (kind (builder b)) metas (args_of (builder b) input)).
Proof.
  intros HB Hok. apply built in HB as (addrs & bs & Ha & He & Hlen & ->).
  eexists addrs, _. split; [done|]. split; cycle 1.
  - cbn [default]. rewrite <- (app_nil_r bs). apply encoded_event; [done| |done].
    rewrite <- declared_length, length_zip_with. lia.
  - intros i a Hi. unfold account_at. rewrite lookup_zip_with, Hi.
    destruct (declared _ !! i) as [d|] eqn:Hd; [done|].
    apply lookup_ge_None in Hd. apply lookup_lt_Some in Hi. lia.
Qed.

Lemma built_account (b : Builder.t) input ix :
  build (builder b) input None = Ok ix -> exists addrs, addresses (builder b) input = Ok addrs
    /\ forall i d a, declared (kind (builder b)) !! i = Some d -> addrs !! i = Some (Some a) ->
         accounts ix !! i = Some {| address := a; role := role_of (declSigner d) (declMut d) |}.
Proof.
  intros HB. apply built in HB as (addrs & bs & Ha & _ & _ & ->). exists addrs. split; [done|].
  intros i d a Hd Hi. by apply meta_spec_lookup.
Qed.

Lemma address_cons a : isAddress a = true -> exists u r, a = u :: r.
Proof. intros Ha. destruct a as [|u r]; [by rewrite empty_address in Ha|eauto]. Qed.

Lemma nameRecordOf_findNameRecord name nr :
  nameRecordOf name = Ok nr <-> exists bump, findNameRecord name None = Ok (nr, bump).
Proof.
  unfold nameRecordOf, findNameRecord, nameHashFor.
  destruct (nameInfo name None) as [info|e]; cbn [mbind result_bind]; [|naive_solver].
  destruct (findNameRecordPda _ None) as [[a b]|e]; cbn [mbind result_bind]; naive_solver.
Qed.

Lemma record_valid h a bump : findNameRecordPda h None = Ok (a, bump) -> isAddress a = true.
Proof.
  unfold findNameRecordPda. intros HP. unbind HP. by eapply pda_address.
Qed.

Lemma nameParts_record name l t h pda :
  nameParts name None = Ok (l, t, h) -> findNameRecordPda {| nameHash := h |} None = Ok pda ->
  findNameRecord name None = Ok pda.
Proof.
  intros HN HP. unfold findNameRecord, nameHashFor.
  by rewrite (nameParts_nameInfo _ _ _ _ _ HN).
Qed.

Lemma at_name name nr event : nameRecordOf name = Ok nr ->
  (exists u r, nr = u :: r) /\ at_record name event = [Some (event nr)].
Proof.
  intros HN. apply nameRecordOf_findNameRecord in HN as (bump & HN). unfold at_record.
  rewrite HN. split; [|done]. unfold findNameRecord in HN. unbind HN.
  by eapply address_cons, record_valid.
Qed.

Lemma computeSubdomainHash_length h label : length (computeSubdomainHash h label) = 32%nat.
Proof. apply keccak_length. Qed.

Lemma nameParts_ok name l t h : nameParts name None = Ok (l, t, h) ->
  string_ok t /\ length h = 32%nat.
Proof.
  intros HN. pose proof (nameParts_nameInfo _ _ _ _ _ HN) as HI. split.
  - apply nameInfo_Ok in HI as (_ & _ & _ & _ & Ht & _). cbn [tld] in Ht.
    destruct Ht as [<-|[<-|[<-|[]]]]; by_compute.
  - by apply nameInfo_hash_length in HI.
Qed.

(** [H]: the instruction of builder [b] was built. *)
Tactic Notation "built_by" constr(b) "in" hyp(HB) :=
  match type of HB with
  | ?f ?i None = Ok ?ix => change (build (builder b) i None = Ok ix) in HB
  end.

(** A write whose single instruction has an untracked kind. *)
Tactic Notation "untracked_write" constr(b) "in" hyp(HB) :=
  unbind HB; injection HB as <-; cbn [map fst];
  match goal with
  | Hix : _ None = Ok ?ix |- [IndexParse.parseSolansInstruction ?ix] = _ =>
      built_by b in Hix; by rewrite (built_untracked _ _ _ Hix eq_refl)
  end.

(** The instruction of a tracked write: its event, then the addresses it used. *)
Tactic Notation "tracked_write" constr(b) :=
  match goal with
  | Hix : _ None = Ok ?ix |- context [IndexParse.parseSolansInstruction ?ix] =>
      let addrs := fresh "addrs" in let metas := fresh "metas" in
      let Ha := fresh "Ha" in let Hacc := fresh "Hacc" in
      built_by b in Hix; apply built_event in Hix as (addrs & metas & Ha & Hacc & Hix);
      [ rewrite Hix; unfold_addresses Ha; unbind Ha; injection Ha as <-; 
let k := eval hnf in (kind (builder b)) in change (kind (builder b)) with k;
        cbn [event_spec];
        repeat match goal with
        | |- context [account_at metas ?i] => rewrite (Hacc i _ eq_refl)
        end | ]
  end.

(** The record an omitted [nameRecord] account is derived to. *)
Lemma derived_record h nr bump y :
  findNameRecordPda {| nameHash := h |} None = Ok (nr, bump) ->
  or_default None (pda ← findNameRecordPda {| nameHash := h |} None; Ok pda.1) = Ok y -> y = nr.
Proof. intros HP. unfold or_default, given. rewrite HP. by intros [= <-]. Qed.

Lemma derived_pda m y : or_default None (pda ← m; Ok pda.1) = Ok y ->
  exists bump : Z, m = Ok (y, bump).
Proof.
  unfold or_default, given. destruct m as [[a bump]|e]; cbn; [|done]. intros [= ->]. by exists bump.
Qed.

Lemma transfer_indexed o n newOwner ixs :
  address_ok newOwner -> buildTransferInstructions o n newOwner = Ok ixs ->
  map IndexParse.parseSolansInstruction ixs = map Ok (at_record n (fun nr => Transfer nr newOwner)).
Proof.
  intros Hok HS. unfold buildTransferInstructions in HS. unbind HS. injection HS as <-. cbn [map].
  destruct (at_name _ _ (fun nr => Transfer nr newOwner) Hx) as [(u & r & ->) ->].
  by tracked_write Builder.TransferName.
Qed.

Lemma burn_indexed o n ixs : buildBurnNameInstructions o n = Ok ixs ->
  map IndexParse.parseSolansInstruction ixs = map Ok (at_record n Burn).
Proof.
  intros HS. unfold buildBurnNameInstructions in HS. unbind HS. injection HS as <-. cbn [map].
  destruct (at_name _ _ Burn Hx) as [(u & r & ->) ->].
  by tracked_write Builder.BurnName.
Qed.

Lemma list_indexed o n price d ixs :
  unsigned_ok 8 price -> i64_ok (default DEFAULT_LISTING_SECONDS d) ->
  buildListInstructions o n price d = Ok ixs ->
  map IndexParse.parseSolansInstruction ixs
  = map Ok (at_record n (fun nr => List nr (signerAddress o) (toString price))).
Proof.
  intros Hp Hd HS. unfold buildListInstructions in HS. unbind HS. injection HS as <-. cbn [map].
  destruct (at_name _ _ (fun nr => List nr (signerAddress o) (toString price)) Hx)
    as [(u & r & ->) ->].
  by tracked_write Builder.ListName.
Qed.

Lemma cancel_listing_indexed c n seller ixs : buildCancelListingInstructions c n seller = Ok ixs ->
  map IndexParse.parseSolansInstruction ixs = map Ok (at_record n Unlist).
Proof.
  intros HS. unfold buildCancelListingInstructions in HS. unbind HS. injection HS as <-. cbn [map].
  destruct (at_name _ _ Unlist Hx) as [(u & r & ->) ->].
  by tracked_write Builder.CancelListing.
Qed.

Lemma buy_indexed b n seller price treasury ixs : unsigned_ok 8 price ->
  buildBuyInstructions b n seller price treasury = Ok ixs ->
  map IndexParse.parseSolansInstruction ixs
  = map Ok (at_record n (fun nr => Buy nr (signerAddress b))).
Proof.
  intros Hp HS. unfold buildBuyInstructions in HS. unbind HS. injection HS as <-. cbn [map].
  destruct (at_name _ _ (fun nr => Buy nr (signerAddress b)) Hx) as [(u & r & ->) ->].
  by tracked_write Builder.BuyName.
Qed.

Lemma renew_indexed a ixs :
  encodable (Write.Renew a) -> buildRenewInstructions a = Ok ixs ->
  map IndexParse.parseSolansInstruction ixs = map Ok (indexed (Write.Renew a)).
Proof.
  intros [Hn Hy] HS. unfold buildRenewInstructions in HS. unbind HS. injection HS as <-.
  cbn [map indexed]. match goal with H : nameParts _ _ = _ |- _ => rename H into HN end.
  rewrite HN. unfold at_record. rewrite (nameParts_record _ _ _ _ _ HN Hx0).
  destruct (address_cons _ (record_valid _ _ _ Hx0)) as (u & r & ->).
  destruct (nameParts_ok _ _ _ _ HN) as [Ht _]. specialize (Hn _ _ _ HN).
  by tracked_write Builder.RenewNameAsync.
Qed.

Lemma register_indexed a ixs :
  encodable (Write.Register a) -> instructions <$> buildRegisterInstructions a = Ok ixs ->
  map IndexParse.parseSolansInstruction ixs = map Ok (indexed (Write.Register a)).
Proof.
  intros (Hn & Hy & Ho) HS. unbind HS. unfold buildRegisterInstructions in HS. unbind HS.
  match goal with H : nameParts _ _ = _ |- _ => rename H into HN end.
  match goal with H : findNameRecordPda _ _ = _ |- _ => rename H into HP end.
  cbn [indexed]. rewrite HN. unfold at_record. rewrite (nameParts_record _ _ _ _ _ HN HP).
  destruct (nameParts_ok _ _ _ _ HN) as [Ht Hh]. specialize (Hn _ _ _ HN).
  fold (registrant a) in HS. change (default true (withNft a) && _) with (tokenizes a) in HS.
  destruct (address_cons _ (record_valid _ _ _ HP)) as (u & r & ->).
  destruct (address_cons _ Ho) as (u' & r' & Hreg).
  match goal with H : RegisterNameBuilder.getRegisterNameInstructionAsync _ _ = _ |- _ =>
    rename H into HR end.
  match type of HN with _ = Ok (?l, ?t, ?h) =>
  match type of HR with _ = Ok ?ix =>
    assert (HE : IndexParse.parseSolansInstruction ix = Ok (Some (Register (u :: r)
      (fullNameOf l t) l t (registrant a) (hex h) (default 1 (register_years a))))) end end.
  { fold (registrant a) in HR. rewrite Hreg in HR.
    tracked_write Builder.RegisterNameAsync; [|done].
    match goal with H : or_default _ (mbind _ (findNameRecordPda _ _)) = Ok _ |- _ =>
      apply (derived_record _ _ _ _ HP) in H as -> end.
    by rewrite Hreg. }
  destruct (tokenizes a); unbind HS; injection HS as <-; cbn [instructions map app]; rewrite HE; [|done].
  match goal with H : buildTokenize _ _ _ _ = _ |- _ => rename H into HT end.
  unfold buildTokenize in HT. built_by Builder.TokenizeNameAsync in HT.
  by rewrite (built_untracked _ _ _ HT eq_refl).
Qed.

Lemma wrap_indexed o parent label so ixs :
  encodable (Write.WrapSubdomain o parent label so) ->
  fst <$> buildWrapSubdomainInstructions o parent label so = Ok ixs ->
  map IndexParse.parseSolansInstruction ixs = map Ok (indexed (Write.WrapSubdomain o parent label so)).
Proof.
  intros (Hl & Ho) HS. unbind HS. unfold buildWrapSubdomainInstructions in HS. unbind HS.
  injection HS as <-. cbn [fst map indexed].
  match goal with H : nameInfo _ _ = _ |- _ => rename H into HN end.
  match goal with H : findNameRecordPda _ _ = _ |- _ => rename H into HP end.
  rewrite HN. unfold child_record, at_record, findNameRecord, nameHashFor. rewrite HN.
  cbn [mbind result_bind]. rewrite HP. destruct (address_cons _ (record_valid _ _ _ HP)) as (u & r & ->).
  destruct (address_cons _ Ho) as (u' & r' & Hso). rewrite Hso in *.
  tracked_write Builder.WrapSubdomainAsync.
  - match goal with H : or_default _ (mbind _ (findNameRecordPda _ _)) = Ok _ |- _ =>
      apply derived_pda in H as [bump HC] end.
    cbn in HC. by rewrite HC.
  - split; [done|]. by apply (computeSubdomainHash_length).
Qed.

(** C20: For each of the SDK's twenty-seven writes, the instructions it builds decode at the
    indexer to exactly the events the write calls for, at the record its name resolves to
    (the child's record for a subdomain), one entry per instruction and nothing for the
    kinds not tracked. *)
Theorem sdk_writes_are_indexed w ixs :
  encodable w -> instructionsOf w = Ok ixs ->
  map IndexParse.parseSolansInstruction ixs = map Ok (indexed w).
Proof.
  intros Hw HS. destruct w; cbn [instructionsOf indexed] in *.
  - by apply register_indexed.
  - by apply renew_indexed.
  - unfold buildUpdateRecordInstructions in HS. untracked_write Builder.UpdateRecord in HS.
  - unfold buildSetHostingInstructions in HS. untracked_write Builder.SetHosting in HS.
  - unfold buildSetResolverInstructions in HS. untracked_write Builder.SetResolver in HS.
  - destruct Hw. by eapply list_indexed.
  - by eapply cancel_listing_indexed.
  - by eapply buy_indexed.
  - unfold buildMakeOfferInstructions in HS. untracked_write Builder.MakeOffer in HS.
  - unfold buildAcceptOfferInstructions in HS. untracked_write Builder.AcceptOffer in HS.
  - unfold buildCancelOfferInstructions in HS. untracked_write Builder.CancelOffer in HS.
  - by eapply transfer_indexed.
  - unfold buildSetControllerInstructions in HS. untracked_write Builder.SetController in HS.
  - unfold buildLockTransferInstructions in HS. untracked_write Builder.LockTransfer in HS.
  - unfold buildSetReverseInstructions in HS. untracked_write Builder.SetReverseAsync in HS.
  - by eapply burn_indexed.
  - unbind HS. unfold buildTokenizeInstructions, buildTokenize in HS.
    untracked_write Builder.TokenizeNameAsync in HS.
  - unfold buildRedeemInstructions in HS. untracked_write Builder.RedeemNameAsync in HS.
  - by apply wrap_indexed.
  - unfold buildRevokeSubdomainInstructions in HS. untracked_write Builder.RevokeSubdomain in HS.
  - unfold buildStartAuctionInstructions in HS. untracked_write Builder.StartAuctionAsync in HS.
  - unfold buildBidInstructions in HS. untracked_write Builder.Bid in HS.
  - unfold buildSettleAuctionInstructions in HS. untracked_write Builder.SettleAuctionAsync in HS.
  - unfold buildCancelAuctionInstructions in HS. untracked_write Builder.CancelAuction in HS.
  - unfold buildStakeInstructions in HS. untracked_write Builder.StakeAsync in HS.
  - unfold buildUnstakeInstructions in HS. untracked_write Builder.UnstakeAsync in HS.
  - unfold buildClaimRewardsInstructions in HS. untracked_write Builder.ClaimRewardsAsync in HS.
Qed.

(** The accounts of an instruction, by position. *)
Tactic Notation "accounts_of" constr(b) "in" hyp(HB) :=
  built_by b in HB;
  let addrs := fresh "addrs" in let Ha := fresh "Ha" in
  apply built_account in HB as (addrs & Ha & HB); unfold_addresses Ha; unbind Ha;
  injection Ha as <-.

(** BuildRegisterInstructions returns the record the name resolves to, and adds the
    tokenization, signed by the payer and a fresh mint for that record, exactly when the
    payer is the owner and the NFT was not declined. *)
Theorem registration_tokenizes_for_its_payer a r :
  buildRegisterInstructions a = Ok r ->
  (exists bump, findNameRecord (register_name a) None = Ok (nameRecord r, bump))
  /\ if tokenizes a then exists reg tok mint, instructions r = [reg; tok]
       /\ generateKeyPairSigner = Ok mint /\ nftMint r = Some (signerAddress mint)
       /\ accounts tok !! 0%nat
          = Some {| address := signerAddress (register_payer a); role := WRITABLE_SIGNER |}
       /\ accounts tok !! 1%nat = Some {| address := nameRecord r; role := WRITABLE |}
       /\ accounts tok !! 2%nat = Some {| address := signerAddress mint; role := WRITABLE_SIGNER |}
     else exists reg, instructions r = [reg] /\ nftMint r = None.
Proof.
  intros HS. unfold buildRegisterInstructions in HS. unbind HS.
  match goal with H : nameParts _ _ = _ |- _ => rename H into HN end.
  match goal with H : findNameRecordPda _ _ = _ |- _ => rename H into HP end.
  destruct (address_cons _ (record_valid _ _ _ HP)) as (u & k & ->).
  pose proof (nameParts_record _ _ _ _ _ HN HP) as HR.
  change (default true (withNft a) && _) with (tokenizes a) in HS.
  destruct (tokenizes a); unbind HS; injection HS as <-; cbn [nameRecord instructions nftMint];
    (split; [by eexists|]); [|by eexists].
  match goal with H : buildTokenize _ _ _ _ = _ |- _ => rename H into HT end.
  unfold buildTokenize in HT. accounts_of Builder.TokenizeNameAsync in HT.
  eexists _, _, _. split_and!; [done..| | |];
    match goal with |- _ !! ?i = _ => by rewrite (HT i _ _ eq_refl eq_refl) end.
Qed.

(** C27: The dotted name a subdomain's creation returns parses to the lower-cased label
    followed by the parent's labels, and its record address is the one the creation writes
    and the revocation closes; for a label the program accepts, under a parent below the
    depth limit, where neither the label nor the parent's labels contain the angle brackets
    U+2329 and U+232A, which the program accepts and the client's normalization rewrites. *)
Theorem subdomains_are_at_their_names `{!UnicodeSpec HU} o o' parent p label so ixs child ixs' :
  nameInfo parent None = Ok p -> depth p < MAX_SUBDOMAIN_DEPTH ->
  validate_name (codePoints (toLowerCase label)) = Ok tt ->
  Forall no_brackets (toLowerCase label :: labels p) ->
  buildWrapSubdomainInstructions o parent label so = Ok (ixs, child) ->
  buildRevokeSubdomainInstructions o' parent label = Ok ixs' ->
  exists c nr bump wrap revoke,
    nameInfo child None = Ok c /\ labels c = toLowerCase label :: labels p /\ tld c = tld p
    /\ findNameRecord child None = Ok (nr, bump)
    /\ ixs = [wrap] /\ account_at (accounts wrap) 3 = nr
    /\ ixs' = [revoke] /\ account_at (accounts revoke) 2 = nr.
Proof.
  intros HN Hd Hv Hb HW HRv. apply validate_name_canonical in Hv.
  pose proof (nameInfo_Ok _ _ _ HN) as (_ & _ & _ & _ & _ & _ & _ & Hdepth).
  unfold MAX_SUBDOMAIN_DEPTH in Hd.
  destruct (nameInfo_child _ _ _ _ HN ltac:(lia) Hv Hb) as (c & HC & HL & HT & HH).
  assert (HF : findNameRecord _ None = _)
    by (unfold findNameRecord, nameHashFor; rewrite HC; cbn [mbind result_bind];
        rewrite HH; reflexivity).
  unfold buildWrapSubdomainInstructions in HW. rewrite HN in HW.
  cbn [mbind result_bind] in HW. cbv zeta in HW. unbind HW. injection HW as <- <-.
  unfold buildRevokeSubdomainInstructions in HRv. rewrite HN in HRv.
  cbn [mbind result_bind] in HRv. unbind HRv.  injection HRv as <-.
  match goal with
  | HW : WrapSubdomainBuilder.getWrapSubdomainInstructionAsync _ _ = _,
    HR : RevokeSubdomainBuilder.getRevokeSubdomainInstruction _ _ = _,
    HP : findNameRecordPda {| nameHash := computeSubdomainHash _ _ |} None = Ok (_, ?z) |- _ =>
      accounts_of Builder.WrapSubdomainAsync in HW; accounts_of Builder.RevokeSubdomain in HR;
      destruct (address_cons _ (record_valid _ _ _ HP)) as (u & r & ->);
      exists c, (u :: r), z; do 2 eexists; split_and!; [done..|exact (eq_trans HF HP)|done| |done|];
      [ match goal with D : or_default _ (mbind _ (findNameRecordPda _ _)) = Ok _ |- _ =>
          apply (derived_record _ _ _ _ HP) in D as -> end;
        unfold account_at; by rewrite (HW 3%nat _ _ eq_refl eq_refl)
      | unfold account_at; by rewrite (HR 2%nat _ _ eq_refl eq_refl) ]
  end.
Qed.
End Laws.

(** ** Concrete writes *)

#[export] Instance SmallTokenClient : TokenClient := {
  TOKEN_PROGRAM_ADDRESS := js "TokenkegQfeZyiNwAJbNbGKPFXCWuBvf9Ss623VQ5DA";
  findAssociatedTokenPda := fun owner mint program =>
    getProgramDerivedAddress program [firstn 16 owner; firstn 16 mint];
  generateKeyPairSigner := Ok (MkSigner (small_addr 4));
}.

Section Sample.
#[local] Existing Instance SmallUnicode.

Definition sample_payer : TransactionSigner := MkSigner (small_addr 1).

Definition sample_register : RegisterArgs :=
  {| register_payer := sample_payer;
     register_cfg := MkFeeConfig (small_addr 2) (small_addr 3) (small_addr 4) (small_addr 5);
     register_name := js "Alex.SOL"; register_owner := None; register_years := Some 2;
     register_referral := None; withNft := None |}.

Definition ok_of {A} (d : A) (m : result JsError A) : A :=
  match m with Ok a => a | Err _ => d end.

Definition sample_registered : RegisterResult :=
  ok_of (MkRegisterResult [] [] None) (buildRegisterInstructions sample_register).

Lemma sample_register_encodable : encodable (Write.Register sample_register).
Proof.
  split; [|split; [vm_compute; split; [discriminate|reflexivity]|vm_compute; reflexivity]].
  intros l t h E. vm_compute in E. injection E as <- _ _. vm_compute. split; reflexivity.
Defined.

Definition sample_event : IndexEvent :=
  match indexed (Write.Register sample_register) with
  | Some e :: _ => e
  | _ => Burn []
  end.

Lemma sample_sent :
  instructionsOf (Write.Register sample_register) = Ok (instructions sample_registered).
Proof. vm_compute. reflexivity. Qed.

Lemma sample_indexed : indexed (Write.Register sample_register) = [Some sample_event; None].
Proof. vm_compute. reflexivity. Qed.

Lemma sdk_writes_are_indexed_witness :
  map IndexParse.parseSolansInstruction (instructions sample_registered)
  = map Ok [Some sample_event; None].
Proof.
  rewrite <- sample_indexed.
  exact (sdk_writes_are_indexed (Write.Register sample_register) (instructions sample_registered)
    sample_register_encodable sample_sent).
Defined.

Lemma sample_built : buildRegisterInstructions sample_register = Ok sample_registered.
Proof. vm_compute. reflexivity. Qed.

Lemma registration_tokenizes_for_its_payer_witness :
  exists bump, findNameRecord (register_name sample_register) None
    = Ok (nameRecord sample_registered, bump).
Proof.
  pose proof (registration_tokenizes_for_its_payer sample_register sample_registered) as HR.
  specialize (HR sample_built). destruct HR as [HR _]. exact HR.
Defined.

Definition sample_wrapped : list Instruction * jsstring :=
  ok_of ([], []) (buildWrapSubdomainInstructions sample_payer (js "alex.sol") (js "Pay") None).

Definition sample_revoked : list Instruction :=
  ok_of [] (buildRevokeSubdomainInstructions sample_payer (js "alex.sol") (js "Pay")).

Definition sample_parent : NameInfo :=
  ok_of (MkNameInfo [] [] [] None 0) (nameInfo (js "alex.sol") None).

Lemma subdomains_are_at_their_names_witness :
  exists c nr bump, nameInfo (js "pay.alex.sol") None = Ok c
    /\ findNameRecord (js "pay.alex.sol") None = Ok (nr, bump).
Proof.
  destruct (subdomains_are_at_their_names sample_payer sample_payer (js "alex.sol") sample_parent
    (js "Pay") None (fst sample_wrapped) (js "pay.alex.sol") sample_revoked)
    as (c & nr & bump & _ & _ & HC & _ & _ & HF & _).
  - vm_compute. reflexivity.
  - vm_compute. reflexivity.
  - vm_compute. reflexivity.
  - repeat constructor; vm_compute; reflexivity.
  - vm_compute. reflexivity.
  - vm_compute. reflexivity.
  - exists c, nr, bump. split; [exact HC|exact HF].
Defined.
End Sample.
