(* ===== verification/JsDate.v ===== *)
(** * Dates

    The printing of a moment in UTC that the services use: [toISOString] of a [Date]
    built from a whole number of seconds. *)
From S2P Require Import Prelude JsString.

(** [new Date(Number(s) * 1000).toISOString()] for an integer of seconds: the civil
    date of the day, and a RangeError beyond the 8.64e15 milliseconds of a Date
    (where Number(s) is still exact). *)
Definition invalidTime : JsError := MkError (js "Invalid time value").

(** Year, month and day of a day since 1970-01-01, in the Gregorian calendar. *)
Definition civil (days : Z) : Z * Z * Z :=
  let z := days + 719468 in
  let era := z / 146097 in
  let doe := z mod 146097 in
  let yoe := (doe - doe / 1460 + doe / 36524 - doe / 146096) / 365 in
  let doy := doe - (365 * yoe + yoe / 4 - yoe / 100) in
  let mp := (5 * doy + 2) / 153 in
  let m := if mp <? 10 then mp + 3 else mp - 9 in
  (yoe + era * 400 + (if m <=? 2 then 1 else 0), m, doy - (153 * mp + 2) / 5 + 1).

(** [n] in at least [w] digits. *)
Definition padded (w : nat) (n : Z) : jsstring :=
  let d := toString n in replicate (w - length d) 48 ++ d.

Definition isoYear (y : Z) : jsstring :=
  if (0 <=? y) && (y <=? 9999) then padded 4 y
  else if y <? 0 then js "-" ++ padded 6 (- y) else js "+" ++ padded 6 y.

Definition isoString (seconds : Z) : result JsError jsstring :=
  if Z.abs seconds >? 8640000000000 then Err invalidTime
  else
    let '(y, m, d) := civil (seconds / 86400) in
    let t := seconds mod 86400 in
    Ok (isoYear y ++ js "-" ++ padded 2 m ++ js "-" ++ padded 2 d ++ js "T"
        ++ padded 2 (t / 3600) ++ js ":" ++ padded 2 (t / 60 mod 60) ++ js ":"
        ++ padded 2 (t mod 60) ++ js ".000Z").
