(* ===== verification/Json.v ===== *)
(** * JSON.stringify and JSON.parse

    The resolver stores in its cache the text of a value and reads it back.  The
    values are null, booleans, strings, arrays and objects with fixed field names;
    no number is cached, so [stringify] and [parse] are modelled on these.  The
    parser accepts the white space and the escapes of the JSON grammar.  Reading
    back the text of a value gives the value. *)
From S2P Require Import Prelude JsString.

Inductive Json :=
| JNull
| JBool (b : bool)
| JString (s : jsstring)
| JArray (items : list Json)
| JObject (fields : list (jsstring * Json)).

Section JsonInd.
Variable P : Json -> Prop.
Hypothesis Hnull : P JNull.
Hypothesis Hbool : forall b, P (JBool b).
Hypothesis Hstring : forall s, P (JString s).
Hypothesis Harray : forall l, Forall P l -> P (JArray l).
Hypothesis Hobject : forall l, Forall (fun f => P f.2) l -> P (JObject l).

Fixpoint Json_nested_ind (v : Json) : P v :=
  match v with
  | JNull => Hnull
  | JBool b => Hbool b
  | JString s => Hstring s
  | JArray l => Harray l ((fix go l : Forall P l := match l with
      | [] => List.Forall_nil P
      | x :: l => @List.Forall_cons _ P x l (Json_nested_ind x) (go l) end) l)
  | JObject l => Hobject l ((fix go l : Forall (fun f => P f.2) l := match l with
      | [] => List.Forall_nil _
      | f :: l => @List.Forall_cons _ (fun f => P f.2) f l (Json_nested_ind f.2) (go l) end) l)
  end.
End JsonInd.

(** ** Printing *)

(** One lower-case hexadecimal digit. *)
Definition hexDigit (n : Z) : Z := if n <? 10 then 48 + n else 87 + n.

(** [\uXXXX] *)
Definition unicodeEscape (u : Z) : jsstring :=
  [92; 117; hexDigit (u / 4096); hexDigit (u / 256 mod 16); hexDigit (u / 16 mod 16);
   hexDigit (u mod 16)].

(** One code unit that is not half of a surrogate pair. *)
Definition quoteUnit (u : Z) : jsstring :=
  if u =? 8 then [92; 98]
  else if u =? 9 then [92; 116]
  else if u =? 10 then [92; 110]
  else if u =? 12 then [92; 102]
  else if u =? 13 then [92; 114]
  else if u =? 34 then [92; 34]
  else if u =? 92 then [92; 92]
  else if (u <? 32) || is_surrogate u then unicodeEscape u
  else [u].

(** The escaped characters of a string: pairs of surrogates are kept, lone ones escaped. *)
Fixpoint quoteUnits (s : jsstring) : jsstring :=
  match s with
  | [] => []
  | u :: r =>
      match r with
      | v :: r' => if is_hi u && is_lo v then u :: v :: quoteUnits r'
                   else quoteUnit u ++ quoteUnits r
      | [] => quoteUnit u
      end
  end.

Definition quoteString (s : jsstring) : jsstring := 34 :: quoteUnits s ++ [34].

(** [JSON.stringify(v)] *)
Fixpoint stringify (v : Json) : jsstring :=
  match v with
  | JNull => js "null"
  | JBool true => js "true"
  | JBool false => js "false"
  | JString s => quoteString s
  | JArray l => js "[" ++ join (js ",") (map stringify l) ++ js "]"
  | JObject l =>
      js "{" ++ join (js ",") (map (fun '(k, x) => quoteString k ++ js ":" ++ stringify x) l) ++ js "}"
  end.

(** [JSON.stringify(v, null, 2)]: a container's items, one per line, two spaces
    deeper than its brackets. *)
Definition newline : jsstring := [10].

Definition block (opening closing indent : jsstring) (items : list jsstring) : jsstring :=
  match items with
  | [] => opening ++ closing
  | _ => opening ++ newline ++ join (js "," ++ newline) (map (app (indent ++ js "  ")) items)
         ++ newline ++ indent ++ closing
  end.

Definition field (f : jsstring * jsstring) : jsstring := quoteString f.1 ++ js ": " ++ f.2.

Fixpoint pretty (indent : jsstring) (v : Json) : jsstring :=
  match v with
  | JArray l => block (js "[") (js "]") indent (map (pretty (indent ++ js "  ")) l)
  | JObject l =>
      block (js "{") (js "}") indent
        (map (fun '(k, x) => field (k, pretty (indent ++ js "  ") x)) l)
  | _ => stringify v
  end.

(** ** Parsing *)

Definition SyntaxError : JsError := MkError (js "Unexpected token in JSON").

Definition is_space (u : Z) : bool := (u =? 32) || (u =? 9) || (u =? 10) || (u =? 13).

Fixpoint skipSpace (s : jsstring) : jsstring :=
  match s with
  | u :: r => if is_space u then skipSpace r else s
  | [] => []
  end.

Definition hexValue (u : Z) : option Z :=
  if (48 <=? u) && (u <=? 57) then Some (u - 48)
  else if (97 <=? u) && (u <=? 102) then Some (u - 87)
  else if (65 <=? u) && (u <=? 70) then Some (u - 55)
  else None.

(** The character a one-letter escape stands for. *)
Definition unescape (u : Z) : option Z :=
  if (u =? 34) || (u =? 92) || (u =? 47) then Some u
  else if u =? 98 then Some 8
  else if u =? 102 then Some 12
  else if u =? 110 then Some 10
  else if u =? 114 then Some 13
  else if u =? 116 then Some 9
  else None.

(** The characters of a string after its opening quote, and what follows it. *)
Fixpoint parseUnits (s : jsstring) : option (jsstring * jsstring) :=
  match s with
  | [] => None
  | u :: r =>
      if u =? 34 then Some ([], r)
      else if u =? 92 then
        match r with
        | [] => None
        | e :: r =>
            if e =? 117 then
              match r with
              | a :: b :: c :: d :: r =>
                  a ← hexValue a; b ← hexValue b; c ← hexValue c; d ← hexValue d;
                  '(t, rest) ← parseUnits r;
                  Some (a * 4096 + b * 256 + c * 16 + d :: t, rest)
              | _ => None
              end
            else c ← unescape e; '(t, rest) ← parseUnits r; Some (c :: t, rest)
        end
      else if u <? 32 then None
      else '(t, rest) ← parseUnits r; Some (u :: t, rest)
  end.

(** One value, with fuel for the nesting and the items of arrays and objects. *)
Fixpoint parseValue (fuel : nat) (s : jsstring) : option (Json * jsstring) :=
  match fuel with
  | O => None
  | S fuel =>
      match skipSpace s with
      | 110 :: 117 :: 108 :: 108 :: r => Some (JNull, r)
      | 116 :: 114 :: 117 :: 101 :: r => Some (JBool true, r)
      | 102 :: 97 :: 108 :: 115 :: 101 :: r => Some (JBool false, r)
      | 34 :: r => '(t, rest) ← parseUnits r; Some (JString t, rest)
      | 91 :: r =>
          match skipSpace r with
          | 93 :: rest => Some (JArray [], rest)
          | r => '(l, rest) ← parseItems fuel r; Some (JArray l, rest)
          end
      | 123 :: r =>
          match skipSpace r with
          | 125 :: rest => Some (JObject [], rest)
          | r => '(l, rest) ← parseFields fuel r; Some (JObject l, rest)
          end
      | _ => None
      end
  end
with parseItems (fuel : nat) (s : jsstring) : option (list Json * jsstring) :=
  match fuel with
  | O => None
  | S fuel =>
      '(v, r) ← parseValue fuel s;
      match skipSpace r with
      | 93 :: rest => Some ([v], rest)
      | 44 :: r => '(l, rest) ← parseItems fuel r; Some (v :: l, rest)
      | _ => None
      end
  end
with parseFields (fuel : nat) (s : jsstring) : option (list (jsstring * Json) * jsstring) :=
  match fuel with
  | O => None
  | S fuel =>
      match skipSpace s with
      | 34 :: r =>
          '(k, r) ← parseUnits r;
          match skipSpace r with
          | 58 :: r =>
              '(v, r) ← parseValue fuel r;
              match skipSpace r with
              | 125 :: rest => Some ([(k, v)], rest)
              | 44 :: r => '(l, rest) ← parseFields fuel r; Some ((k, v) :: l, rest)
              | _ => None
              end
          | _ => None
          end
      | _ => None
      end
  end.

(** [JSON.parse(text)]: each call consumes a character of what it is given or more,
    so two calls per character are enough. *)
Definition parse (text : jsstring) : result JsError Json :=
  match parseValue (2 * length text + 2) text with
  | Some (v, rest) => match skipSpace rest with [] => Ok v | _ => Err SyntaxError end
  | None => Err SyntaxError
  end.

(** ** Round trip *)

(** Strings of non-negative units throughout. *)
Definition nonneg (s : jsstring) : Prop := Forall (fun u => 0 <= u) s.

Fixpoint json_ok (v : Json) : Prop :=
  match v with
  | JNull | JBool _ => True
  | JString s => nonneg s
  | JArray l => (fix go l := match l with [] => True | x :: l => json_ok x /\ go l end) l
  | JObject l => (fix go l := match l with
      | [] => True | (k, x) :: l => nonneg k /\ json_ok x /\ go l end) l
  end.

Lemma hexValue_hexDigit n : 0 <= n < 16 -> hexValue (hexDigit n) = Some n.
Proof.
  intros Hn. unfold hexDigit, hexValue. destruct (Z.ltb_spec n 10).
  - rewrite (proj2 (Z.leb_le 48 _)), (proj2 (Z.leb_le _ 57)) by lia. cbn. f_equal. lia.
  - rewrite (proj2 (Z.leb_gt (87 + n) 57)), andb_false_r by lia.
    rewrite (proj2 (Z.leb_le 97 _)), (proj2 (Z.leb_le _ 102)) by lia. cbn. f_equal. lia.
Qed.

Lemma parse_unicodeEscape u X : 0 <= u < 65536 ->
  parseUnits (unicodeEscape u ++ X) = ('(t, rest) ← parseUnits X; Some (u :: t, rest)).
Proof.
  intros Hu. cbn [unicodeEscape app parseUnits Z.eqb Pos.eqb].
  rewrite !hexValue_hexDigit by (Z.to_euclidean_division_equations; lia). cbn [mbind option_bind].
  destruct (parseUnits X) as [[t rest]|]; cbn; [|done]. do 3 f_equal.
  Z.to_euclidean_division_equations. lia.
Qed.

Lemma parse_plain u X : u <> 34 -> u <> 92 -> 32 <= u ->
  parseUnits (u :: X) = ('(t, rest) ← parseUnits X; Some (u :: t, rest)).
Proof.
  intros H1 H2 H3. cbn [parseUnits]. by rewrite (proj2 (Z.eqb_neq u 34)), (proj2 (Z.eqb_neq u 92)),
    (proj2 (Z.ltb_ge u 32)) by lia.
Qed.

Lemma parse_quoteUnit u X : 0 <= u ->
  parseUnits (quoteUnit u ++ X) = ('(t, rest) ← parseUnits X; Some (u :: t, rest)).
Proof.
  intros Hu. unfold quoteUnit.
  repeat match goal with |- context [if u =? ?n then _ else _] =>
    destruct (Z.eqb_spec u n) as [->|?]; [reflexivity|] end.
  destruct (Z.ltb_spec u 32); cbn [orb]; [apply parse_unicodeEscape; lia|].
  destruct (is_surrogate u) eqn:Hs; [|by apply parse_plain].
  unfold is_surrogate in Hs. bool_prop. apply parse_unicodeEscape. lia.
Qed.

Lemma parse_quoteUnits s rest : nonneg s ->
  parseUnits (quoteUnits s ++ 34 :: rest) = Some (s, rest).
Proof.
  remember (length s) as n eqn:Hn. revert s Hn.
  induction n as [n IH] using lt_wf_ind; intros s -> Hs.
  destruct s as [|u r]; [done|]. inversion_clear Hs as [|? ? Hu Hr].
  assert (Hone : quoteUnits (u :: r) = quoteUnit u ++ quoteUnits r ->
    parseUnits (quoteUnits (u :: r) ++ 34 :: rest) = Some (u :: r, rest)).
  { intros ->. rewrite <- app_assoc, parse_quoteUnit by done.
    by rewrite (IH (length r)) by (done || (cbn; lia)). }
  destruct r as [|v r']; [apply Hone; cbn; by rewrite app_nil_r|].
  destruct (is_hi u && is_lo v) eqn:Hp; [|apply Hone; cbn; by rewrite Hp].
  cbn [quoteUnits]. rewrite Hp. inversion_clear Hr as [|? ? Hv Hr'].
  unfold is_hi, is_lo in Hp. bool_prop. cbn [app].
  rewrite !parse_plain, (IH (length r')) by (done || (cbn; lia)). done.
Qed.

Definition spaces (ws : jsstring) : Prop := forallb is_space ws = true.

Lemma skipSpace_app ws X : spaces ws -> skipSpace (ws ++ X) = skipSpace X.
Proof.
  unfold spaces. induction ws as [|u ws IH]; [done|]. cbn. intros H. bool_prop.
  match goal with H : is_space u = true |- _ => rewrite H end. by apply IH.
Qed.

Lemma skipSpace_idem s : skipSpace (skipSpace s) = skipSpace s.
Proof. induction s as [|u s IH]; [done|]. cbn. destruct (is_space u) eqn:E; [done|]. cbn. by rewrite E. Qed.

(** A text of a value, whatever follows it. *)
Definition reads (t : jsstring) (v : Json) : Prop := forall fuel rest,
  (2 * length t <= fuel)%nat -> parseValue fuel (t ++ rest) = Some (v, rest).

Definition field_reads (t : jsstring) (f : jsstring * Json) : Prop :=
  exists ws vt, t = ws ++ quoteString f.1 ++ 58 :: vt /\ spaces ws /\ nonneg f.1 /\ reads vt f.2.

Lemma parseValue_skip fuel s : parseValue fuel (skipSpace s) = parseValue fuel s.
Proof. destruct fuel; [done|]. cbn [parseValue]. by rewrite skipSpace_idem. Qed.
Lemma parseItems_skip fuel s : parseItems fuel (skipSpace s) = parseItems fuel s.
Proof. destruct fuel; [done|]. cbn [parseItems]. by rewrite parseValue_skip. Qed.
Lemma parseFields_skip fuel s : parseFields fuel (skipSpace s) = parseFields fuel s.
Proof. destruct fuel; [done|]. cbn [parseFields]. by rewrite skipSpace_idem. Qed.

Lemma reads_indented ws t v : spaces ws -> reads t v -> reads (ws ++ t) v.
Proof.
  intros Hw Ht fuel rest Hf. rewrite length_app in Hf.
  rewrite <- app_assoc, <- parseValue_skip, skipSpace_app, parseValue_skip by done. apply Ht. lia.
Qed.

(** A value does not start with a closing bracket. *)
Lemma reads_starts t v X rest : reads t v -> skipSpace (t ++ X) <> 93 :: rest.
Proof.
  intros Ht E. specialize (Ht (S (2 * length t)) X ltac:(lia)). cbn [parseValue] in Ht.
  by rewrite E in Ht.
Qed.

Lemma length_join_cons (x y : jsstring) l :
  length (join (js ",") (x :: y :: l)) = (length x + 1 + length (join (js ",") (y :: l)))%nat.
Proof. change (join (js ",") (x :: y :: l)) with (x ++ js "," ++ join (js ",") (y :: l)). rewrite !length_app. cbn. lia. Qed.

Lemma join_cons_app (x y : jsstring) l X :
  join (js ",") (x :: y :: l) ++ X = x ++ 44 :: join (js ",") (y :: l) ++ X.
Proof. cbn [join]. by rewrite <- !app_assoc. Qed.

Lemma items_read ws rest : spaces ws -> forall ts vs fuel, Forall2 reads ts vs -> ts <> [] ->
  (2 * length (join (js ",") ts) + 1 <= fuel)%nat ->
  parseItems fuel (join (js ",") ts ++ ws ++ 93 :: rest) = Some (vs, rest).
Proof.
  intros Hw. induction ts as [|t ts IH]; intros vs fuel Hall Hne Hf; [done|].
  inversion_clear Hall as [|? v ? vs' Ht Hts]. destruct fuel as [|fuel]; [lia|]. cbn [parseItems].
  destruct ts as [|t' ts]; [inversion Hts; subst|].
  - cbn [join] in *. rewrite Ht by lia. cbn [mbind option_bind]. by rewrite skipSpace_app.
  - rewrite length_join_cons in Hf. rewrite join_cons_app, Ht by lia.
    cbn [mbind option_bind skipSpace is_space Z.eqb Pos.eqb orb]. by rewrite (IH vs') by (done || lia).
Qed.

Lemma fields_read ws rest : spaces ws -> forall ts fs fuel, Forall2 field_reads ts fs -> ts <> [] ->
  (2 * length (join (js ",") ts) + 1 <= fuel)%nat ->
  parseFields fuel (join (js ",") ts ++ ws ++ 125 :: rest) = Some (fs, rest).
Proof.
  intros Hw.
  assert (Hone : forall t k x fuel X, field_reads t (k, x) -> (2 * length t <= S fuel)%nat ->
    parseFields (S fuel) (t ++ X) =
      match skipSpace X with
      | 125 :: rest => Some ([(k, x)], rest)
      | 44 :: r => '(l, rest) ← parseFields fuel r; Some ((k, x) :: l, rest)
      | _ => None
      end).
  { intros t k x n X (ws' & vt & -> & Hws & Hk & Hx) Hn. cbn [fst snd] in *.
    rewrite !length_app in Hn. cbn [length] in Hn.
    rewrite <- !app_assoc. cbn [parseFields]. rewrite skipSpace_app by done. unfold quoteString.
    cbn [app skipSpace is_space Z.eqb Pos.eqb orb]. rewrite <- app_assoc. cbn [app].
    rewrite parse_quoteUnits by done. cbn [mbind option_bind skipSpace is_space Z.eqb Pos.eqb orb].
    by rewrite Hx by lia. }
  induction ts as [|t ts IH]; intros fs fuel Hall Hne Hf; [done|].
  inversion_clear Hall as [|? [k x] ? fs' Ht Hts]. destruct fuel as [|fuel]; [lia|].
  destruct ts as [|t' ts]; [inversion Hts; subst|].
  - cbn [join] in *. rewrite (Hone t k x) by (done || lia). by rewrite skipSpace_app.
  - rewrite length_join_cons in Hf. rewrite join_cons_app, (Hone t k x) by (done || lia).
    cbn [skipSpace is_space Z.eqb Pos.eqb orb]. by rewrite (IH fs') by (done || lia).
Qed.

Lemma array_opens fuel r : (forall rest, skipSpace r <> 93 :: rest) ->
  parseValue (S fuel) (91 :: r) = '(l, rest) ← parseItems fuel r; Some (JArray l, rest).
Proof.
  intros H. rewrite <- (parseItems_skip fuel r). cbn [parseValue skipSpace is_space Z.eqb Pos.eqb orb].
  destruct (skipSpace r) as [|u t]; [done|].
  destruct u as [|p|p]; try done. repeat (destruct p as [p|p|]; try done). by destruct (H t).
Qed.

Lemma object_opens fuel r : (forall rest, skipSpace r <> 125 :: rest) ->
  parseValue (S fuel) (123 :: r) = '(l, rest) ← parseFields fuel r; Some (JObject l, rest).
Proof.
  intros H. rewrite <- (parseFields_skip fuel r). cbn [parseValue skipSpace is_space Z.eqb Pos.eqb orb].
  destruct (skipSpace r) as [|u t]; [done|].
  destruct u as [|p|p]; try done. repeat (destruct p as [p|p|]; try done). by destruct (H t).
Qed.

(** The texts of the items, with white space before each and before the bracket. *)
Lemma array_reads ts vs ws : Forall2 reads ts vs -> ts <> [] -> spaces ws ->
  reads (91 :: join (js ",") ts ++ ws ++ [93]) (JArray vs).
Proof.
  intros Hall Hne Hw fuel rest Hf. cbn [length] in Hf. rewrite !length_app in Hf. cbn [length] in Hf.
  destruct fuel as [|fuel]; [lia|]. cbn [app]. rewrite <- !app_assoc. cbn [app].
  rewrite array_opens; [by rewrite (items_read ws rest Hw ts vs) by (done || lia)|]. intros rest'. destruct ts as [|t ts]; [done|]. inversion_clear Hall as [|? v ? vs' Ht Hts].
  destruct ts as [|t' ts]; [cbn [join]|rewrite join_cons_app]; by eapply reads_starts.
Qed.

Lemma object_reads ts fs ws : Forall2 field_reads ts fs -> ts <> [] -> spaces ws ->
  reads (123 :: join (js ",") ts ++ ws ++ [125]) (JObject fs).
Proof.
  intros Hall Hne Hw fuel rest Hf. cbn [length] in Hf. rewrite !length_app in Hf. cbn [length] in Hf.
  destruct fuel as [|fuel]; [lia|]. cbn [app]. rewrite <- !app_assoc. cbn [app].
  rewrite object_opens; [by rewrite (fields_read ws rest Hw ts fs) by (done || lia)|]. intros rest'. destruct ts as [|t ts]; [done|].
  inversion_clear Hall as [|? f ? fs' (ws' & vt & -> & Hws & _) Hts].
  destruct ts as [|t' ts]; [cbn [join]|rewrite join_cons_app]; rewrite <- !app_assoc;
    by rewrite skipSpace_app.
Qed.

Lemma json_ok_array l : json_ok (JArray l) <-> Forall json_ok l.
Proof.
  cbn. induction l as [|x l IH]; [done|]. by rewrite List.Forall_cons_iff, <- IH.
Qed.

Lemma json_ok_object l :
  json_ok (JObject l) <-> Forall (fun f => nonneg f.1 /\ json_ok f.2) l.
Proof.
  cbn. induction l as [|[k x] l IH]; [done|]. rewrite List.Forall_cons_iff, <- IH. cbn. tauto.
Qed.

Ltac reads_atom := let fuel := fresh in let rest := fresh in let Hf := fresh in
  intros fuel rest Hf; destruct fuel as [|fuel]; [cbn in Hf; lia|].

Lemma string_reads s : nonneg s -> reads (quoteString s) (JString s).
Proof.
  intros Hs. reads_atom. unfold quoteString.
  cbn [app parseValue skipSpace is_space Z.eqb Pos.eqb orb].
  rewrite <- app_assoc. cbn [app]. by rewrite parse_quoteUnits.
Qed.

Lemma Forall2_map_reads {A B} (P : A -> B -> Prop) (f : B -> A) l :
  Forall (fun x => P (f x) x) l -> Forall2 P (map f l) l.
Proof. induction 1; constructor; done. Qed.

Lemma stringify_reads v : json_ok v -> reads (stringify v) v.
Proof.
  induction v as [|b|s|l IH|l IH] using Json_nested_ind; intros Hok.
  - by reads_atom.
  - destruct b; by reads_atom.
  - by apply string_reads.
  - apply json_ok_array in Hok. destruct l as [|x l]; [by reads_atom|].
    apply (array_reads (map stringify (x :: l)) _ []); [|done|done].
    apply Forall2_map_reads. rewrite List.Forall_forall in *. eauto.
  - apply json_ok_object in Hok. destruct l as [|f l]; [by reads_atom|].
    apply (object_reads (map (fun '(k, x) => quoteString k ++ js ":" ++ stringify x) (f :: l)) _ []);
      [|done|done].
    apply Forall2_map_reads. rewrite List.Forall_forall in *. intros [k x] Hin.
    destruct (Hok _ Hin). exists [], (stringify x). split_and!; [done..|]. by apply (IH (k, x)).
Qed.

(** A block is its items with the line break and the indentation before each. *)
Lemma block_items o c ind t ts :
  block o c ind (t :: ts)
  = o ++ join (js ",") (map (app (newline ++ ind ++ js "  ")) (t :: ts)) ++ (newline ++ ind) ++ c.
Proof.
  unfold block. f_equal. rewrite <- (app_assoc newline ind c), (app_assoc newline (join _ _)). f_equal.
  revert t. induction ts as [|t' ts IH]; intros t; [cbn [map join]; by rewrite <- !app_assoc|].
  change (map (app (ind ++ js "  ")) (t :: t' :: ts))
    with (((ind ++ js "  ") ++ t) :: map (app (ind ++ js "  ")) (t' :: ts)).
  change (join (js ",") (map (app (newline ++ ind ++ js "  ")) (t :: t' :: ts)))
    with (((newline ++ ind ++ js "  ") ++ t) ++ js ","
      ++ join (js ",") (map (app (newline ++ ind ++ js "  ")) (t' :: ts))).
  rewrite <- IH. cbn [map join]. by rewrite <- !app_assoc.
Qed.

Lemma spaces_app a b : spaces a -> spaces b -> spaces (a ++ b).
Proof. unfold spaces. rewrite forallb_app. by intros -> ->. Qed.

Lemma pretty_reads v : json_ok v -> forall ind, spaces ind -> reads (pretty ind v) v.
Proof.
  induction v as [|b|s|l IH|l IH] using Json_nested_ind; intros Hok ind Hi.
  - by reads_atom.
  - destruct b; by reads_atom.
  - by apply string_reads.
  - apply json_ok_array in Hok. destruct l as [|x l]; [by reads_atom|].
    change (reads (block (js "[") (js "]") ind (map (pretty (ind ++ js "  ")) (x :: l))) (JArray (x :: l))).
    cbn [map]. rewrite block_items. apply array_reads; [|done|by apply spaces_app].
    change (pretty (ind ++ js "  ") x :: map (pretty (ind ++ js "  ")) l)
      with (map (pretty (ind ++ js "  ")) (x :: l)). rewrite map_map.
    apply Forall2_map_reads. rewrite List.Forall_forall in *. intros y Hin.
    apply reads_indented; [by repeat apply spaces_app|]. apply (IH y Hin); [eauto|by apply spaces_app].
  - apply json_ok_object in Hok. destruct l as [|f l]; [by reads_atom|].
    set (pr := fun '(k, x) => field (k, pretty (ind ++ js "  ") x)).
    change (reads (block (js "{") (js "}") ind (map pr (f :: l))) (JObject (f :: l))).
    cbn [map]. rewrite block_items. apply object_reads; [|done|by apply spaces_app].
    change (pr f :: map pr l) with (map pr (f :: l)). rewrite map_map.
    apply Forall2_map_reads. rewrite List.Forall_forall in *. intros [k x] Hin.
    destruct (Hok _ Hin) as [Hk Hx].
    exists (newline ++ ind ++ js "  "), (js " " ++ pretty (ind ++ js "  ") x).
    split_and!; [done|by repeat apply spaces_app|done|]. apply reads_indented; [done|].
    apply (IH (k, x) Hin); [done|by apply spaces_app].
Qed.

(** Reading back the text of a value. *)
Lemma parse_stringify v : json_ok v -> parse (stringify v) = Ok v.
Proof.
  intros Hok. unfold parse. rewrite <- (app_nil_r (stringify v)) at 2.
  by rewrite stringify_reads by (done || lia).
Qed.

(** Reading back the text of a value, compact or indented, with white space after it,
    gives the value: quotes, control characters and lone surrogates are escaped and
    unescaped, arrays and objects keep their order. *)
Theorem json_round_trip v ws :
  json_ok v -> spaces ws ->
  parse (stringify v ++ ws) = Ok v /\ parse (pretty [] v ++ ws) = Ok v.
Proof.
  intros Hok Hws. unfold parse.
  rewrite stringify_reads, pretty_reads by (done || rewrite length_app; lia).
  rewrite <- (app_nil_r ws), skipSpace_app by done. done.
Qed.

Definition sample_json : Json :=
  JObject [(js "name", JString (js "a" ++ [34; 10; 0xD83D; 0xDE00; 0xDC00])); (js "owner", JNull);
           (js "records", JArray [JObject []; JBool true; JArray []])].

Lemma json_round_trip_witness : parse (stringify sample_json ++ [10]) = Ok sample_json
  /\ parse (pretty [] sample_json ++ [10]) = Ok sample_json.
Proof.
  apply (json_round_trip sample_json [10]); [|reflexivity].
  unfold sample_json. vm_compute. repeat (split || constructor); discriminate.
Defined.
