(* ===== verification/Hosting.v ===== *)
(** * Hosting references

    src/clients/sdk/src/hosting.ts: the URL a content reference is served from.
    The regular expressions are modelled as the predicates they decide: without
    the u flag the i flag folds ASCII letters only, [.] excludes the four line
    terminators, [$] is the end of the string. *)
From S2P Require Import Prelude JsString.

Record Gateways := MkGateways { ipfs : jsstring; arweave : jsstring }.

Definition DEFAULT_GATEWAYS : Gateways :=
  MkGateways (js "https://ipfs.io") (js "https://arweave.net").

Definition slash : Z := 47.

Fixpoint dropSlashes (s : jsstring) : jsstring :=
  match s with
  | u :: r => if u =? slash then dropSlashes r else s
  | [] => []
  end.

(** [s.replace(/\/+$/, "")] *)
Definition trimEnd (s : jsstring) : jsstring := rev (dropSlashes (rev s)).

(** [s.replace(/^\/+|\/+$/g, "")] *)
Definition stripSlashes (s : jsstring) : jsstring := trimEnd (dropSlashes s).

(** The text after a scheme, its letters in either case: [/^scheme(...)/i]. *)
Fixpoint afterScheme (scheme s : jsstring) : option jsstring :=
  match scheme, s with
  | [], _ => Some s
  | c :: scheme, u :: r => if ascii_lower u =? c then afterScheme scheme r else None
  | _ :: _, [] => None
  end.

(** [/^https?:\/\//i.test(r)] *)
Definition isHttp (r : jsstring) : bool :=
  bool_decide (is_Some (afterScheme (js "http://") r))
  || bool_decide (is_Some (afterScheme (js "https://") r)).

Definition lineTerminator (u : Z) : bool :=
  (u =? 10) || (u =? 13) || (u =? 0x2028) || (u =? 0x2029).

(** The group of [/^scheme:\/\/(.+)$/i]. *)
Definition schemeRef (scheme r : jsstring) : option jsstring :=
  match afterScheme scheme r with
  | Some (u :: p) => if existsb lineTerminator (u :: p) then None else Some (u :: p)
  | _ => None
  end.

Definition in_range (a b u : Z) : bool := (a <=? u) && (u <=? b).

(** [/^[A-Za-z0-9_-]{43}$/] *)
Definition isArweaveId (r : jsstring) : bool :=
  (length r =? 43)%nat
  && forallb (fun u => in_range 65 90 u || in_range 97 122 u || in_range 48 57 u
                       || (u =? 95) || (u =? 45)) r.

(** [[1-9A-HJ-NP-Za-km-z]] *)
Definition base58Char (u : Z) : bool :=
  in_range 49 57 u || in_range 65 72 u || in_range 74 78 u || in_range 80 90 u
  || in_range 97 107 u || in_range 109 122 u.

(** [/^(Qm[1-9A-HJ-NP-Za-km-z]{44,}|ba[a-z2-7]{40,})$/] *)
Definition isCid (r : jsstring) : bool :=
  match r with
  | a :: b :: t =>
      ((a =? 81) && (b =? 109) && (44 <=? length t)%nat && forallb base58Char t)
      || ((a =? 98) && (b =? 97) && (40 <=? length t)%nat
          && forallb (fun u => in_range 97 122 u || in_range 50 55 u) t)
  | _ => false
  end.

Definition hostingUrl (ref : option jsstring) (subPath : jsstring) (gateways : Gateways)
    : option jsstring :=
  match trim <$> ref with
  | None | Some [] => None
  | Some r =>
      let sub := match subPath with [] => [] | _ => js "/" ++ stripSlashes subPath end in
      if isHttp r then Some (trimEnd r ++ sub)
      else match schemeRef (js "ipfs://") r with
      | Some m => Some (trimEnd (ipfs gateways) ++ js "/ipfs/" ++ stripSlashes m ++ sub)
      | None =>
          match schemeRef (js "ar://") r with
          | Some m => Some (trimEnd (arweave gateways) ++ js "/" ++ stripSlashes m ++ sub)
          | None =>
              if isArweaveId r then Some (trimEnd (arweave gateways) ++ js "/" ++ r ++ sub)
              else if isCid r then Some (trimEnd (ipfs gateways) ++ js "/ipfs/" ++ r ++ sub)
              else None
          end
      end
  end.

(** ** Theorems *)

Lemma dropSlashes_spec s : exists n, s = replicate n slash ++ dropSlashes s.
Proof.
  induction s as [|u r [n IH]]; [by exists 0%nat|]. cbn [dropSlashes].
  destruct (Z.eqb_spec u slash) as [->|_]; [|by exists 0%nat].
  exists (S n). cbn. by rewrite <- IH.
Qed.

Lemma dropSlashes_head s : head (dropSlashes s) <> Some slash.
Proof.
  induction s as [|u r IH]; [done|]. cbn [dropSlashes].
  destruct (Z.eqb_spec u slash) as [->|Hu]; [done|]. by intros [= ->].
Qed.

Lemma trimEnd_last s : last (trimEnd s) <> Some slash.
Proof.
  unfold trimEnd. pose proof (dropSlashes_head (rev s)) as H.
  destruct (dropSlashes (rev s)) as [|u r]; [done|]. cbn. by rewrite last_snoc.
Qed.

(** The characters of a bare reference. *)
Definition plain_ref (r : jsstring) : Prop :=
  Forall (fun u => in_range 65 90 u || in_range 97 122 u || in_range 48 57 u
                   || (u =? 95) || (u =? 45) = true) r.

Lemma plain_ref_char u r : plain_ref r -> In u r ->
  is_white u = false /\ u <> slash /\ u <> 58 /\ lineTerminator u = false.
Proof.
  intros Hr Hu. eapply Forall_In in Hr; [|done]. unfold in_range, slash, lineTerminator in *.
  assert (H : 65 <= u <= 90 \/ 97 <= u <= 122 \/ 48 <= u <= 57 \/ u = 95 \/ u = 45).
  { rewrite !orb_true_iff, !andb_true_iff, !Z.leb_le, !Z.eqb_eq in Hr. lia. }
  split; [|rewrite !orb_false_iff, !Z.eqb_neq; lia].
  unfold is_white, WHITESPACE. cbn [existsb]. rewrite !orb_false_iff, !Z.eqb_neq. lia.
Qed.

Lemma arweave_plain r : isArweaveId r = true -> plain_ref r.
Proof.
  unfold isArweaveId. intros H. apply andb_true_iff in H as [_ H]. by apply forallb_Forall_iff in H.
Qed.

Lemma cid_plain r : isCid r = true -> plain_ref r.
Proof.
  unfold isCid. destruct r as [|a [|b t]]; [done..|]. intros H.
  apply orb_true_iff in H as [H|H]; bool_prop; subst; apply List.Forall_cons; try done;
    apply List.Forall_cons; try done;
    match goal with H : forallb _ t = true |- _ => apply forallb_Forall_iff in H;
      eapply List.Forall_impl; [|exact H] end;
    intros u Hu; cbn beta in *; unfold base58Char, in_range in *;
    rewrite !orb_true_iff, !andb_true_iff, !Z.leb_le in *; rewrite ?Z.eqb_eq; lia.
Qed.

Lemma dropSlashes_plain r : plain_ref r -> dropSlashes r = r.
Proof.
  intros Hr. destruct r as [|u t]; [done|]. cbn.
  destruct (plain_ref_char u (u :: t) Hr) as (_ & Hu & _); [by left|].
  by rewrite (proj2 (Z.eqb_neq _ _)).
Qed.

Lemma stripSlashes_plain r : plain_ref r -> stripSlashes r = r.
Proof.
  intros Hr. unfold stripSlashes, trimEnd. rewrite (dropSlashes_plain r) by done.
  rewrite dropSlashes_plain by (apply List.Forall_rev; exact Hr). apply rev_involutive.
Qed.

Lemma trim_plain p r : Forall (fun u => is_white u = false) p -> plain_ref r ->
  trim (p ++ r) = p ++ r.
Proof.
  intros Hp Hr. apply trim_id, Forall_app. split; [done|].
  apply List.Forall_forall. intros u Hu. by apply (plain_ref_char u r).
Qed.

(** A bare reference has no colon, so no scheme. *)
Lemma afterScheme_colon scheme r : In 58 scheme -> Forall (fun u => ascii_lower u <> 58) r ->
  afterScheme scheme r = None.
Proof.
  intros Hc Hr. revert scheme Hc. induction Hr as [|u r Hu _ IH]; intros [|c scheme] Hc; try done.
  cbn. destruct (Z.eqb_spec (ascii_lower u) c) as [<-|_]; [|done].
  apply IH. by destruct Hc.
Qed.

Lemma plain_no_scheme r : plain_ref r ->
  isHttp r = false /\ schemeRef (js "ipfs://") r = None /\ schemeRef (js "ar://") r = None.
Proof.
  intros Hr. assert (Hl : Forall (fun u => ascii_lower u <> 58) r).
  { apply List.Forall_forall. intros u Hu. destruct (plain_ref_char u r Hr Hu) as (_ & _ & H58 & _).
    unfold ascii_lower. destruct (_ && _) eqn:E; [bool_prop; lia|done]. }
  unfold isHttp, schemeRef. rewrite !afterScheme_colon by (try done; cbn; tauto). done.
Qed.

Lemma plain_group r : plain_ref r -> r <> [] -> existsb lineTerminator r = false.
Proof.
  intros Hr Hne. apply not_true_is_false. intros H. apply existsb_exists in H as (u & Hu & H).
  apply (plain_ref_char u r Hr) in Hu as (_ & _ & _ & Hl). congruence.
Qed.

Ltac by_forall := repeat (apply List.Forall_cons; [reflexivity|]); apply List.Forall_nil.

(** hostingUrl appends the sub-path after one slash, keeps every reference that is not
    an http(s) URL under a configured gateway, and gives a bare Arweave id or CID the URL of
    its ar:// or ipfs:// form. *)
Theorem hosting_urls r subPath g :
  (subPath <> [] -> hostingUrl (Some r) subPath g
     = (fun u => u ++ slash :: stripSlashes subPath) <$> hostingUrl (Some r) [] g)
  /\ (isHttp (trim r) = false -> forall u, hostingUrl (Some r) [] g = Some u ->
      exists base path, In base [ipfs g; arweave g] /\ u = trimEnd base ++ slash :: path
        /\ last (trimEnd base) <> Some slash)
  /\ (isArweaveId r = true ->
      hostingUrl (Some (js "ar://" ++ r)) subPath g = hostingUrl (Some r) subPath g)
  /\ (isCid r = true -> isArweaveId r = false ->
      hostingUrl (Some (js "ipfs://" ++ r)) subPath g = hostingUrl (Some r) subPath g).
Proof.
  unfold hostingUrl. cbn [fmap option_fmap option_map]. split; [|split; [|split]].
  - intros Hs. destruct (trim r) as [|c t]; [done|]. destruct subPath as [|v sub]; [done|].
    repeat case_match; cbn [fmap option_fmap option_map]; rewrite <- ?app_assoc; done.
  - intros Hweb u. destruct (trim r) as [|c t]; [done|]. rewrite Hweb.
    intros HU. repeat case_match; try discriminate HU; injection HU as <-;
      (eexists _, _; split; [|split; [reflexivity|apply trimEnd_last]]); cbn; tauto.
  - intros Ha. apply arweave_plain in Ha as Hp. pose proof (plain_no_scheme r Hp) as (N1 & N2 & N3).
    pose proof (trim_plain [] r ltac:(constructor) Hp) as T1. cbn [app] in T1.
    pose proof (trim_plain (js "ar://") r ltac:(by_forall) Hp) as T2. rewrite T1, T2. destruct r as [|c t]; [done|]. rewrite N1, N2, N3, Ha.
    change (schemeRef (js "ar://") (js "ar://" ++ c :: t))
      with (if existsb lineTerminator (c :: t) then None else Some (c :: t)).
    by rewrite plain_group, (stripSlashes_plain (c :: t)) by done.
  - intros Hc Ha. apply cid_plain in Hc as Hp. pose proof (plain_no_scheme r Hp) as (N1 & N2 & N3).
    pose proof (trim_plain [] r ltac:(constructor) Hp) as T1. cbn [app] in T1.
    pose proof (trim_plain (js "ipfs://") r ltac:(by_forall) Hp) as T2. rewrite T1, T2. destruct r as [|c t]; [done|]. rewrite N1, N2, N3, Ha, Hc.
    change (schemeRef (js "ipfs://") (js "ipfs://" ++ c :: t))
      with (if existsb lineTerminator (c :: t) then None else Some (c :: t)).
    by rewrite plain_group, (stripSlashes_plain (c :: t)) by done.
Qed.

Lemma hosting_urls_witness :
  hostingUrl (Some (js " https://alex.example/ ")) (js "/a/") DEFAULT_GATEWAYS
  = Some (js "https://alex.example/a").
Proof.
  rewrite (proj1 (hosting_urls (js " https://alex.example/ ") (js "/a/") DEFAULT_GATEWAYS)
    ltac:(discriminate)).
  vm_compute. reflexivity.
Defined.
