(* ===== verification/Pinning.v ===== *)
(** * Pinning and record keys

    clients/sdk/src/pinata.ts: the upload of a file to IPFS, over an injected [fetch];
    records.ts: the conventional keys of records; and the part of cli/src/index.ts that
    reads the file to pin. *)
From S2P Require Import Prelude JsString OnChain Hosting.

(** ** records.ts *)

(** The properties of [RecordKeys] and their values. *)
Definition RecordKeys : list (jsstring * jsstring) :=
  map (fun '(p, k) => (js p, js k))
    [("addressSol", "address.SOL"); ("addressEth", "address.ETH"); ("addressBtc", "address.BTC");
     ("url", "url"); ("avatar", "avatar"); ("content", "content"); ("twitter", "twitter");
     ("github", "github"); ("email", "email"); ("notice", "notice"); ("keywords", "keywords")]%string.

(** The type [RecordKey]. *)
Definition RecordKey (key : jsstring) : bool :=
  existsb (fun kv => bool_decide (kv.2 = key)) RecordKeys
  || startsWith (js "address.") key || startsWith (js "custom.") key.

(** ** pinata.ts *)

Definition PINATA_PIN_URL : jsstring := js "https://api.pinata.cloud/pinning/pinFileToIPFS".

(** The request made: one file of a form, posted with the JWT. *)
Record PinRequest := MkPinRequest {
  requestUrl : jsstring; requestMethod : jsstring; authorization : jsstring;
  partName : jsstring; partBytes : bytes; partFilename : jsstring
}.

(** A response, with what [await res.text()] and the [IpfsHash] of [await res.json()] give. *)
Record PinResponse := MkPinResponse {
  ok : bool; responseStatus : Z; text : result JsError jsstring;
  IpfsHash : result JsError (option jsstring)
}.

Class PinHost (W : Type) := {
  pinFetch : PinRequest -> Eff W PinResponse;
  readFile : jsstring -> Eff W bytes;
}.

Section Pin.
Context {W : Type} `{PinHost W}.

Definition pinRequest (jwt : jsstring) (content : bytes) (filename : option jsstring) : PinRequest :=
  MkPinRequest PINATA_PIN_URL (js "POST") (js "Bearer " ++ jwt) (js "file") content
    (default (js "index.html") filename).

Definition pinBytes (jwt : jsstring) (content : bytes) (filename : option jsstring) : Eff W jsstring :=
  res ← pinFetch (pinRequest jwt content filename);
  if negb (ok res) then
    t ← lift (text res);
    lift (Err (MkError (js "Pinata pin failed: " ++ toString (responseStatus res) ++ js " " ++ t)))
  else
    hash ← lift (IpfsHash res);
    match hash with
    | Some (u :: h) => mret (u :: h)
    | _ => lift (Err (MkError (js "Pinata response missing IpfsHash")))
    end.

(** What follows the last separator, trailing ones aside ([basename] of node:path, on POSIX). *)
Fixpoint untilSlash (s : jsstring) : jsstring :=
  match s with u :: r => if u =? slash then [] else u :: untilSlash r | [] => [] end.
Definition basename (path : jsstring) : jsstring :=
  reverse (untilSlash (dropSlashes (reverse path))).

(** [pinFileToIpfs] of the command line. *)
Definition pinFileToIpfs (jwt file : jsstring) : Eff W jsstring :=
  content ← readFile file;
  pinBytes jwt content (Some (basename file)).

(** A pin succeeds exactly when the service accepted the file and named its hash; every
    refusal is an error with the service's status and text. *)
Theorem pinned_or_refused jwt content filename w w1 res :
  pinFetch (pinRequest jwt content filename) w = (w1, Ok res) ->
  (forall cid, pinBytes jwt content filename w = (w1, Ok cid)
     <-> ok res = true /\ IpfsHash res = Ok (Some cid) /\ cid <> [])
  /\ (forall t, ok res = false -> text res = Ok t ->
      pinBytes jwt content filename w
      = (w1, Err (MkError (js "Pinata pin failed: " ++ toString (responseStatus res) ++ js " " ++ t)))).
Proof.
  intros HF. unfold pinBytes. split.
  - intros cid. rewrite eff_bind_run, HF. destruct (ok res); cbn [negb].
    + rewrite eff_bind_run. unfold lift, mret, eff_ret. destruct (IpfsHash res) as [[[|u h]|]|e];
        split; intros HE; naive_solver.
    + rewrite eff_bind_run. unfold lift. destruct (text res); split; naive_solver.
  - intros t Ho Ht. rewrite eff_bind_run, HF, Ho. cbn [negb]. by rewrite eff_bind_run, Ht.
Qed.

(** The successful upload, step by step. *)
Lemma pinned_file jwt file w w' cid : pinFileToIpfs jwt file w = (w', Ok cid) ->
  exists w1 content res, readFile file w = (w1, Ok content)
    /\ pinFetch (pinRequest jwt content (Some (basename file))) w1 = (w', Ok res)
    /\ ok res = true /\ IpfsHash res = Ok (Some cid) /\ cid <> [].
Proof.
  unfold pinFileToIpfs. rewrite eff_bind_run. destruct (readFile file w) as [w1 [content|e]]; [|done].
  intros HP. destruct (pinFetch (pinRequest jwt content (Some (basename file))) w1) as [w2 [res|e]] eqn:HF.
  - assert (w2 = w') as ->.
    { revert HP. unfold pinBytes. rewrite eff_bind_run, HF. unfold lift, mret, eff_ret.
      repeat case_match; rewrite ?eff_bind_run; repeat case_match; naive_solver. }
    exists w1, content, res. split; [done|]. split; [done|]. by apply (pinned_or_refused _ _ _ _ _ _ HF).
  - revert HP. unfold pinBytes. by rewrite eff_bind_run, HF.
Qed.
End Pin.

Lemma basename_examples :
  basename (js "/home/alex/site/index.html") = js "index.html"
  /\ basename (js "page.html") = js "page.html" /\ basename (js "dir/site/") = js "site".
Proof. vm_compute. done. Qed.

(** The conventional keys differ, and every name of a chain's address is a key. *)
Lemma record_keys : NoDup (map snd RecordKeys) /\ forallb (fun kv => RecordKey kv.2) RecordKeys = true
  /\ forall chain, RecordKey (js "address." ++ chain) = true.
Proof.
  split_and!; [apply (bool_decide_unpack _); vm_compute; exact I|vm_compute; reflexivity|].
  intros chain. unfold RecordKey. assert (startsWith (js "address.") (js "address." ++ chain) = true) as ->
    by (apply bool_decide_eq_true_2, take_app_length). by rewrite orb_true_r.
Qed.
