(* ===== verification/Resolver.v ===== *)
(** * The resolver service

    src/services/resolver/src: the read-through cache (cache.ts), the routes (app.ts)
    and the DNS-over-HTTPS messages (doh.ts).  A handler is a [Prog]: a tree of the
    awaited calls it makes, so that one request can be run alone ([run]) or step by
    step among others ([Step] in ResolverLaws.v).  The router, the metrics and the
    responses around the handlers are in ResolverService.v.  dns-packet and Node's base64url decoder are
    parameters. *)
From stdpp Require Import gmap.
From S2P Require Import Prelude JsString Kit Pdas Accounts Normalize JsDate Json Hosting IndexApp.
Import NameRecordAccount.

(** ** cache.ts *)

(** [MemoryCache.store]: the value and its expiry, in milliseconds. *)
Abbreviation Store := (gmap jsstring (jsstring * Z)).

Definition cacheGet (now : Z) (key : jsstring) (store : Store) : Store * option jsstring :=
  match store !! key with
  | None => (store, None)
  | Some (value, expiresAt) =>
      if now >=? expiresAt then (delete key store, None) else (store, Some value)
  end.

Definition cacheSet (now : Z) (key value : jsstring) (ttlSeconds : Z) (store : Store) : Store :=
  <[key := (value, now + ttlSeconds * 1000)]> store.

(** ** What a handler awaits *)

(** The calls of the [Resolver] interface and their answers. *)
Inductive Call :=
| Resolve (name : jsstring)
| ReverseLookup (owner : Address)
| GetRecords (name : jsstring)
| ContentRef (name : jsstring).

Definition answer (c : Call) : Type :=
  match c with
  | Resolve _ => option NameRecord
  | ReverseLookup _ => option jsstring
  | GetRecords _ => list Record_
  | ContentRef _ => option jsstring
  end.

(** What [fetchContent] resolves to. *)
Record Upstream := MkUpstream { status : Z; upstreamType : option jsstring; content : bytes }.

(** A handler: each constructor but the first two is an awaited call, or the
    increment of the cache counter, followed by the rest of the handler. *)
Inductive Prog (A : Type) : Type :=
| Ret (a : A)
| Throw (e : JsError)
| Get (key : jsstring) (k : option jsstring -> Prog A)
| Set_ (key value : jsstring) (ttl : Z) (k : Prog A)
| Count (hit : bool) (k : Prog A)
| Ask (c : Call) (k : result JsError (answer c) -> Prog A)
| Fetch (url : jsstring) (k : result JsError Upstream -> Prog A).
Arguments Ret {A} a.
Arguments Throw {A} e.
Arguments Get {A} key k.
Arguments Set_ {A} key value ttl k.
Arguments Count {A} hit k.
Arguments Ask {A} c k.
Arguments Fetch {A} url k.

#[export] Instance prog_ret : MRet Prog := @Ret.

#[export] Instance prog_bind : MBind Prog := fun A B f =>
  fix bind (p : Prog A) : Prog B :=
    match p with
    | Ret a => f a
    | Throw e => Throw e
    | Get key k => Get key (fun r => bind (k r))
    | Set_ key v ttl k => Set_ key v ttl (bind k)
    | Count hit k => Count hit (bind k)
    | Ask c k => Ask c (fun r => bind (k r))
    | Fetch url k => Fetch url (fun r => bind (k r))
    end.

(** [try { p } catch (e) { h e }] *)
Fixpoint prog_catch {A} (p : Prog A) (h : JsError -> Prog A) : Prog A :=
  match p with
  | Ret a => Ret a
  | Throw e => h e
  | Get key k => Get key (fun r => prog_catch (k r) h)
  | Set_ key v ttl k => Set_ key v ttl (prog_catch k h)
  | Count hit k => Count hit (prog_catch k h)
  | Ask c k => Ask c (fun r => prog_catch (k r) h)
  | Fetch url k => Fetch url (fun r => prog_catch (k r) h)
  end.

Definition from_result {A} (r : result JsError A) : Prog A :=
  match r with Ok a => Ret a | Err e => Throw e end.

(** [await resolver.x(...)], [await fetchContent(url)] *)
Definition ask (c : Call) : Prog (answer c) := Ask c from_result.
Definition fetch (url : jsstring) : Prog Upstream := Fetch url from_result.

(** ** Replies *)

Record DnsAnswer := MkDnsAnswer { answerName : jsstring; ttl : Z; answerData : jsstring }.

(** The bodies sent: a JSON value, the DNS JSON object, or bytes. *)
Inductive Body :=
| BJson (j : Json)
| BDns (status : Z) (name type : jsstring) (answers : list DnsAnswer)
| BBytes (b : bytes).

Record Reply := MkReply { code : Z; contentType : option jsstring; body : Body }.

Definition errorReply (code : Z) (message : jsstring) : Reply :=
  MkReply code None (BJson (JObject [(js "error", JString message)])).

Definition nullable (o : option jsstring) : Json :=
  match o with Some s => JString s | None => JNull end.

(** [!j] *)
Definition falsy (j : Json) : bool :=
  match j with JNull | JBool false | JString [] => true | _ => false end.

Definition recordJson (r : Record_) : Json :=
  JObject [(js "key", JString (key r)); (js "value", JString (value r))].

(** [s.includes(p)] *)
Fixpoint includes (p s : jsstring) : bool :=
  startsWith p s || match s with [] => false | _ :: r => includes p r end.

(** ** doh.ts *)

Record DnsQuestion := MkQuestion { qname : jsstring; qtype : jsstring }.
Record DnsTxt := MkTxt { txtName : jsstring; txtTtl : Z; txtData : list jsstring }.

(** A message given to [dnsPacket.encode], and what [decode] gives of a query. *)
Record DnsMessage := MkMessage {
  messageType : jsstring; messageId : Z; flags : Z;
  questions : list DnsQuestion; answers : list DnsTxt
}.

Class DnsPacket := {
  AUTHORITATIVE_ANSWER : Z;
  dnsEncode : DnsMessage -> result JsError bytes;
  (** id and questions; the type of a question may be missing *)
  dnsDecode : bytes -> result JsError (option Z * option (list (jsstring * option jsstring)));
}.

(** Node's [Buffer.from(s, "base64url")], and [s.toUpperCase()]. *)
Class NodeText := {
  base64url : jsstring -> bytes;
  toUpperCase : jsstring -> jsstring;
}.

Record DohQuery := MkQuery { id : Z; queryName : jsstring; queryType : jsstring }.

Definition RCODE_NXDOMAIN : Z := 3.

Definition recordText (r : Record_) : jsstring := key r ++ js "=" ++ value r.

Section Doh.
Context `{DnsPacket}.

Definition decodeDohQuery (b : bytes) : result JsError DohQuery :=
  '(id, qs) ← dnsDecode b;
  let q := match qs with Some (q :: _) => Some q | _ => None end in
  Ok (MkQuery (default 0 id) (default [] (fst <$> q))
        (default (js "TXT") (q ≫= snd))).

(** The message [encodeDohResponse] encodes. *)
Definition dohMessage (query : DohQuery) (records : list Record_) : DnsMessage :=
  let answers := if bool_decide (queryType query = js "TXT")
    then map (fun r => MkTxt (queryName query) 60 [recordText r]) records else [] in
  {| messageType := js "response"; messageId := id query;
     flags := Z.lor AUTHORITATIVE_ANSWER
       (if (length records =? 0)%nat then RCODE_NXDOMAIN else 0);
     questions := [MkQuestion (queryName query) (queryType query)];
     answers := answers |}.

Definition encodeDohResponse (query : DohQuery) (records : list Record_) : result JsError bytes :=
  dnsEncode (dohMessage query records).
End Doh.

(** ** app.ts *)

Record BuildOpts := MkOpts { gateways : Gateways; hasCache : bool; cacheTtl : Z }.

Section App.
Context `{Unicode} `{Kit} `{AppKit} `{DnsPacket} `{NodeText}.

Definition serialize (input : jsstring) (d : NameRecord) : result JsError Json :=
  '(name, tld) ← parseName input None;
  expires ← isoString (expiresAt d);
  Ok (JObject [
    (js "name", JString (name ++ js "." ++ tld));
    (js "owner", JString (owner d));
    (js "controller", nullable (controller d));
    (js "expiresAt", JString expires);
    (js "transferLocked", JBool (transferLocked d));
    (js "reverseSet", JBool (reverseSet d));
    (js "resolver", nullable (resolver d));
    (js "hostingRef", nullable (hostingRef d));
    (js "nftMint", nullable (nftMint d));
    (js "tokenized", JBool (bool_decide (is_Some (nftMint d))));
    (js "listed", JBool (listed d));
    (js "records", JArray (map recordJson (records d)))]).

Section Routes.
Variable opts : BuildOpts.

(** Read-through: a hit is parsed; a miss is produced and stored. *)
Definition cached (key : jsstring) (produce : Prog Json) : Prog Json :=
  if negb (hasCache opts) then produce
  else Get key (fun hit =>
    match hit with
    | Some text => Count true (from_result (parse text))
    | None => Count false (value ← produce;
                           Set_ key (stringify value) (cacheTtl opts) (Ret value))
    end).

(** The records of a cached JSON value.  The source casts it unchecked; a text this
    service stored always has the shape (ResolverLaws.v). *)
Definition castError : JsError := MkError (js "records is not iterable").

Definition jsonRecord (j : Json) : result JsError Record_ :=
  match j with
  | JObject [(_, JString k); (_, JString v)] => Ok (MkRecord k v)
  | _ => Err castError
  end.

Definition jsonRecords (j : Json) : result JsError (list Record_) :=
  match j with
  | JArray l => mapR jsonRecord l
  | _ => Err castError
  end.

Definition fetchRecords (name : jsstring) : Prog Json :=
  l ← ask (GetRecords name); Ret (JArray (map recordJson l)).

Definition recordsOf (name : jsstring) : Prog Json :=
  cached (js "records:" ++ name) (fetchRecords name).

Definition notRegistered : Reply := errorReply 404 (js "not registered").

Definition fetchResolve (name : jsstring) : Prog Json :=
  rec ← ask (Resolve name);
  match rec with
  | Some d => from_result (serialize name d)
  | None => Ret JNull
  end.

(** [GET /resolve/:name] *)
Definition resolveRoute (name : jsstring) : Prog Reply :=
  prog_catch
    (body ← cached (js "resolve:" ++ name) (fetchResolve name);
     Ret (if falsy body then notRegistered else MkReply 200 None (BJson body)))
    (fun e => Ret (errorReply 400 (message e))).

Definition fetchReverse (pubkey : jsstring) : Prog Json :=
  a ← from_result (toAddress pubkey);
  n ← ask (ReverseLookup a);
  Ret (nullable n).

(** [GET /reverse/:pubkey] *)
Definition reverseRoute (pubkey : jsstring) : Prog Reply :=
  prog_catch
    (name ← cached (js "reverse:" ++ pubkey) (fetchReverse pubkey);
     Ret (if falsy name then errorReply 404 (js "no reverse record")
          else MkReply 200 None
            (BJson (JObject [(js "pubkey", JString pubkey); (js "name", name)]))))
    (fun e => Ret (errorReply 400 (message e))).

(** [binaryDoh(queryBytes)] *)
Definition binaryDoh (queryBytes : bytes) : Prog Reply :=
  match decodeDohQuery queryBytes with
  | Err _ => Ret (errorReply 400 (js "malformed DNS message"))
  | Ok q =>
      j ← prog_catch (recordsOf (queryName q)) (fun _ => Ret (JArray []));
      records ← from_result (jsonRecords j);
      b ← from_result (encodeDohResponse q records);
      Ret (MkReply 200 (Some (js "application/dns-message")) (BBytes b))
  end.

(** [POST /dns-query] *)
Definition dnsPostRoute (body : bytes) : Prog Reply := binaryDoh body.

(** The JSON variant of [GET /dns-query?name=&type=] *)
Definition jsonDoh (name : jsstring) (type : option jsstring) : Prog Reply :=
  let type := toUpperCase (default (js "TXT") type) in
  found ← prog_catch (j ← recordsOf name; Ret (inr j))
    (fun e => Ret (inl (errorReply 400 (message e))));
  match found with
  | inl reply => Ret reply
  | inr j =>
      records ← from_result (jsonRecords j);
      Ret (MkReply 200 (Some (js "application/dns-json"))
        (BDns (if (length records =? 0)%nat then 3 else 0) name type
           (if bool_decide (type = js "TXT")
            then map (fun r => MkDnsAnswer name 60 (recordText r)) records else [])))
  end.

(** [GET /dns-query] *)
Definition dnsGetRoute (accept : option jsstring) (name type dns : option jsstring) : Prog Reply :=
  match dns with
  | Some (u :: d) => binaryDoh (base64url (u :: d))
  | _ =>
      if includes (js "application/dns-message") (default [] accept)
      then Ret (errorReply 400 (js "missing ?dns"))
      else match name with
      | Some (u :: n) => jsonDoh (u :: n) type
      | _ => Ret (errorReply 400 (js "missing ?name"))
      end
  end.

(** [serveSite(name, subPath)], for [GET /site/:name] and [GET /site/:name/*] *)
Definition siteRoute (name subPath : jsstring) : Prog Reply :=
  Ask (ContentRef name) (fun r =>
    match r with
    | Err e => Ret (errorReply 400 (message e))
    | Ok (Some ((_ :: _) as ref)) =>
        match hostingUrl (Some ref) subPath (gateways opts) with
        | Some ((_ :: _) as url) =>
            prog_catch
              (res ← fetch url;
               Ret (MkReply (status res)
                 (match upstreamType res with Some ((_ :: _) as t) => Some t | _ => None end)
                 (BBytes (content res))))
              (fun _ => Ret (errorReply 502 (js "upstream gateway fetch failed")))
        | _ => Ret (errorReply 422 (js "unsupported content ref: " ++ ref))
        end
    | Ok _ => Ret (errorReply 404 (js "no hosted content"))
    end).

(** [GET /health] *)
Definition healthRoute : Prog Reply := Ret (MkReply 200 None (BJson (JObject [(js "ok", JBool true)]))).
End Routes.

(** The requests the app routes. *)
Inductive Request :=
| GetHealth
| GetResolve (name : jsstring)
| GetReverse (pubkey : jsstring)
| GetDns (accept name type dns : option jsstring)
| PostDns (body : bytes)
| GetSite (name subPath : jsstring).

Definition handle (opts : BuildOpts) (r : Request) : Prog Reply :=
  match r with
  | GetHealth => healthRoute
  | GetResolve name => resolveRoute opts name
  | GetReverse pubkey => reverseRoute opts pubkey
  | GetDns accept name type dns => dnsGetRoute opts accept name type dns
  | PostDns body => dnsPostRoute opts body
  | GetSite name subPath => siteRoute opts name subPath
  end.
End App.
