(* ===== verification/ResolverLaws.v ===== *)
(** * What the resolver's handlers do

    [run] runs a handler alone, against one state of the chain and the clock: every
    route replies, caching is transparent, the two DNS variants agree, and a
    registered subdomain cannot be looked up.  [Step] interleaves the awaited calls
    of any number of requests while time passes and answers change: what the cache
    serves is still an answer the resolver gave, stored less than the TTL ago. *)
From stdpp Require Import gmap.
From S2P Require Import Prelude JsString Kit SmallKit Pdas Accounts Normalize JsDate Json Hosting IndexApp.
From S2P Require Import Resolver.
Import NameRecordAccount.

(** ** One request alone *)

Record Env := MkEnv {
  now : Z;
  replyOf : forall c, result JsError (answer c);
  upstreamOf : jsstring -> result JsError Upstream;
}.

Fixpoint run {A} (env : Env) (p : Prog A) (s : Store) : Store * result JsError A :=
  match p with
  | Ret a => (s, Ok a)
  | Throw e => (s, Err e)
  | Get key k => let '(s, r) := cacheGet (now env) key s in run env (k r) s
  | Set_ key v ttl k => run env k (cacheSet (now env) key v ttl s)
  | Count _ k => run env k s
  | Ask c k => run env (k (replyOf env c)) s
  | Fetch url k => run env (k (upstreamOf env url)) s
  end.

Lemma run_bind {A B} env (p : Prog A) (f : A -> Prog B) s :
  run env (p ≫= f) s = match run env p s with
                       | (s, Ok a) => run env (f a) s
                       | (s, Err e) => (s, Err e)
                       end.
Proof.
  revert s. induction p as [a|e|key k IH|key v ttl k IH|hit k IH|c k IH|url k IH]; intros s; cbn;
    try done; try apply IH. destruct (cacheGet _ _ _). apply IH.
Qed.

Lemma run_catch {A} env (p : Prog A) h s :
  run env (prog_catch p h) s = match run env p s with
                               | (s, Ok a) => (s, Ok a)
                               | (s, Err e) => run env (h e) s
                               end.
Proof.
  revert s. induction p as [a|e|key k IH|key v ttl k IH|hit k IH|c k IH|url k IH]; intros s; cbn;
    try done; try apply IH. destruct (cacheGet _ _ _). apply IH.
Qed.

Lemma run_from_result {A} env (r : result JsError A) s : run env (from_result r) s = (s, r).
Proof. by destruct r. Qed.

(** ** Answers and cached texts *)

(** Answers of strings of code units. *)
Definition record_ok (r : Record_) : Prop := nonneg (key r) /\ nonneg (value r).

Definition name_record_ok (d : NameRecord) : Prop :=
  nonneg (owner d) /\ option_ok nonneg (controller d) /\ option_ok nonneg (resolver d)
  /\ option_ok nonneg (hostingRef d) /\ option_ok nonneg (nftMint d) /\ Forall record_ok (records d).

Definition answer_ok (c : Call) : answer c -> Prop :=
  match c with
  | Resolve _ => option_ok name_record_ok
  | ReverseLookup _ => option_ok nonneg
  | GetRecords _ => Forall record_ok
  | ContentRef _ => option_ok nonneg
  end.

Definition result_ok (c : Call) (r : result JsError (answer c)) : Prop :=
  match r with Ok a => answer_ok c a | Err _ => True end.

Section Laws.
Context `{HU : Unicode} `{HK : Kit} `{HA : !AppKit} `{HD : DnsPacket} `{HN : NodeText}.

Lemma nonneg_toString n : nonneg (toString n).
Proof.
  assert (Hd : forall fuel n acc, 0 <= n -> nonneg acc -> nonneg (digits_fuel fuel n acc)).
  { induction fuel as [|f IH]; intros m acc Hm Hacc; cbn; [done|].
    destruct (Z.ltb_spec m 10); [apply List.Forall_cons; [lia|done]|].
    apply IH; [apply Z.div_pos; lia|]. apply List.Forall_cons; [|done].
    pose proof (Z.mod_pos_bound m 10). lia. }
  unfold toString. destruct (Z.ltb_spec n 0).
  - apply List.Forall_cons; [lia|]. apply Hd; [lia|constructor].
  - apply Hd; [lia|constructor].
Qed.

Lemma nonneg_padded w n : nonneg (padded w n).
Proof.
  unfold padded. apply Forall_app. split; [|apply nonneg_toString].
  apply Forall_replicate. lia.
Qed.

Lemma nonneg_app s t : nonneg s -> nonneg t -> nonneg (s ++ t).
Proof. intros. by apply Forall_app. Qed.

Lemma nonneg_js s : nonneg (js s).
Proof. induction s as [|a s IH]; cbn; constructor; [lia|done]. Qed.

Lemma forallb_forall_nonneg s : forallb (fun u => 0 <=? u) s = true -> nonneg s.
Proof.
  intros H. apply forallb_Forall_iff in H. eapply List.Forall_impl; [|exact H].
  intros u Hu. by apply Z.leb_le.
Qed.

Lemma isoString_nonneg n s : isoString n = Ok s -> nonneg s.
Proof.
  unfold isoString, isoYear. destruct (_ >? _); [done|].
  destruct (civil _) as [[y m] d]. intros HS. apply Ok_inj in HS as <-.
  repeat case_match; repeat match goal with
    | |- nonneg (padded _ _) => apply nonneg_padded
    | |- nonneg (js _) => apply nonneg_js
    | |- nonneg (_ ++ _) => apply nonneg_app
    end.
Qed.

Lemma allowed_tld_nonneg t : In t ALLOWED_TLDS -> nonneg t.
Proof. intros [<-|[<-|[<-|[]]]]; apply nonneg_js. Qed.

Lemma label_nonneg l : canonical_label (codePoints l) -> nonneg l.
Proof.
  intros Hl. apply List.Forall_forall. intros u Hu.
  destruct (label_unit_cases l u Hl Hu) as [H|H].
  - unfold is_surrogate in H. bool_prop. lia.
  - unfold allowed_char in H. lia.
Qed.

Lemma nullable_ok o : option_ok nonneg o -> json_ok (nullable o).
Proof. by destruct o. Qed.

Lemma records_ok l : Forall record_ok l -> json_ok (JArray (map recordJson l)).
Proof.
  intros Hl. apply json_ok_array, List.Forall_map. eapply List.Forall_impl; [|exact Hl].
  intros r [Hk Hv]. cbn. repeat split; try done; apply (nonneg_js "key") || apply (nonneg_js "value").
Qed.

Lemma serialize_ok n d j : name_record_ok d -> serialize n d = Ok j -> json_ok j /\ falsy j = false.
Proof.
  intros (Ho & Hc & Hr & Hh & Hm & Hrec). unfold serialize. intros HS.
  apply result_bind_Ok in HS as ([name tld] & HP & HS).
  apply result_bind_Ok in HS as (iso & HI & HS). apply Ok_inj in HS as <-. split; [|done].
  apply parseName_parsePath in HP. pose proof HP as HP'.
  apply parsePath_Ok in HP as (rest & t0 & Hs & Hov & _ & _ & Hls). inversion_clear Hls as [|? ? Hl _].
  assert (Ht : In tld ALLOWED_TLDS) by (eapply overrideTld_allowed; [|exact Hov]; by eapply splitTld_allowed).
  apply json_ok_object.
  repeat (apply List.Forall_cons; [split; [apply nonneg_js|]|]); try apply List.Forall_nil;
    cbn [snd]; try done; try (by apply nullable_ok); try (by apply records_ok).
  - apply nonneg_app; [by apply label_nonneg|]. apply nonneg_app; [apply (nonneg_js ".")|].
    by apply allowed_tld_nonneg.
  - by eapply isoString_nonneg.
Qed.

(** ** Caching is transparent *)

(** What is stored under each key. *)
Inductive producer : jsstring -> Prog Json -> Prop :=
| producer_resolve n : producer (js "resolve:" ++ n) (fetchResolve n)
| producer_reverse pk : producer (js "reverse:" ++ pk) (fetchReverse pk)
| producer_records n : producer (js "records:" ++ n) (fetchRecords n).

Lemma producer_functional key p p' : producer key p -> producer key p' -> p = p'.
Proof. intros H H'. inversion H; subst; inversion H'; by subst. Qed.

(** The JSON value of a key, for one state of the chain. *)
Definition produced (env : Env) (p : Prog Json) : result JsError Json := (run env p ∅).2.

Definition env_ok (env : Env) : Prop := forall c, result_ok c (replyOf env c).

Lemma producer_pure env key p s : producer key p -> run env p s = (s, produced env p).
Proof.
  intros H. unfold produced. inversion H; subst; unfold fetchResolve, fetchReverse, fetchRecords, ask.
  - cbn. destruct (replyOf env _) as [[d|]|e]; cbn; [|done..]. by rewrite !run_from_result.
  - cbn. destruct (toAddress pk) as [a|e]; cbn; [|done].
    by destruct (replyOf env _) as [o|e].
  - cbn. by destruct (replyOf env _).
Qed.

Lemma producer_json env key p j : env_ok env -> producer key p -> produced env p = Ok j -> json_ok j.
Proof.
  intros Henv H. unfold produced. inversion H; subst; unfold fetchResolve, fetchReverse, fetchRecords, ask; cbn.
  - pose proof (Henv (Resolve n)) as Ha. destruct (replyOf env _) as [[d|]|e]; cbn; [| |done].
    + rewrite run_from_result. apply serialize_ok. exact Ha.
    + by intros [= <-].
  - destruct (toAddress pk) as [a|e]; cbn; [|done].
    pose proof (Henv (ReverseLookup a)) as Ha. destruct (replyOf env _) as [o|e]; cbn; [|done].
    intros HE. apply Ok_inj in HE as <-. by apply nullable_ok.
  - pose proof (Henv (GetRecords n)) as Ha. destruct (replyOf env _) as [l|e]; cbn; [|done].
    intros HE. apply Ok_inj in HE as <-. by apply records_ok.
Qed.

(** Every unexpired entry is what its key produces in this state of the chain. *)
Definition consistent (env : Env) (s : Store) : Prop :=
  forall key text exp, s !! key = Some (text, exp) -> now env < exp ->
  exists p j, producer key p /\ produced env p = Ok j /\ text = stringify j /\ json_ok j.

Lemma cached_run opts env key p s :
  env_ok env -> producer key p -> consistent env s ->
  exists s', run env (cached opts key p) s = (s', produced env p) /\ consistent env s'.
Proof.
  intros Henv Hp Hs. unfold cached. destruct (hasCache opts); cbn [negb];
    [|rewrite (producer_pure _ _ _ _ Hp); by exists s]. cbn [run].
  assert (Hmiss : forall s1, consistent env s1 -> exists s', run env
    (Count false (value ← p; Set_ key (stringify value) (cacheTtl opts) (Ret value))) s1
    = (s', produced env p) /\ consistent env s').
  { intros s1 Hs1. cbn [run]. rewrite run_bind, (producer_pure _ _ _ _ Hp).
    destruct (produced env p) as [j|e] eqn:HP; [|by exists s1]. cbn [run]. eexists. split; [done|].
    intros key' text exp Hk Hexp. unfold cacheSet in Hk. destruct (decide (key = key')) as [<-|Hne].
    - rewrite lookup_insert_eq in Hk. injection Hk as <- <-. exists p, j. split_and!; [done..|].
      by eapply producer_json.
    - rewrite lookup_insert_ne in Hk by done. by apply (Hs1 key' text exp). }
  unfold cacheGet. destruct (s !! key) as [[text exp]|] eqn:Hk; [|by apply Hmiss].
  destruct (Z.geb_spec (now env) exp).
  - apply Hmiss. intros key' text' exp' Hk' Hexp. apply lookup_delete_Some in Hk' as [_ Hk'].
    by apply (Hs key' text' exp').
  - destruct (Hs key text exp Hk ltac:(lia)) as (p' & j & Hp' & HP & -> & Hj).
    rewrite (producer_functional _ _ _ Hp Hp') in *. exists s. split; [|done].
    cbn [run]. by rewrite run_from_result, parse_stringify, HP.
Qed.

Lemma jsonRecords_map l : jsonRecords (JArray (map recordJson l)) = Ok l.
Proof.
  cbn. induction l as [|[k v] l IH]; [done|]. cbn. by rewrite IH.
Qed.
Definition uncached (opts : BuildOpts) : BuildOpts := MkOpts (gateways opts) false (cacheTtl opts).

Lemma uncached_run opts env key p s : producer key p ->
  run env (cached (uncached opts) key p) s = (s, produced env p).
Proof. intros Hp. unfold cached. cbn [hasCache uncached negb]. by eapply producer_pure. Qed.

(** C35: While the chain's answers stay the same, every route replies with a cache exactly
    as it does without one, and leaves the cache consistent with those answers. *)
Theorem caching_is_transparent opts env req s :
  env_ok env -> consistent env s ->
  exists s', run env (handle opts req) s = (s', (run env (handle (uncached opts) req) ∅).2)
    /\ consistent env s'.
Proof.
  intros Henv Hs.
  assert (Hread : forall key p, producer key p -> exists s', consistent env s'
    /\ run env (cached opts key p) s = (s', produced env p)
    /\ run env (cached (uncached opts) key p) ∅ = (∅, produced env p)).
  { intros key p Hp. destruct (cached_run opts env key p s Henv Hp Hs) as (s' & HR & Hs').
    exists s'. split_and!; [done..|]. by apply uncached_run. }
  assert (Hdns : forall b, exists s', run env (binaryDoh opts b) s
    = (s', (run env (binaryDoh (uncached opts) b) ∅).2) /\ consistent env s').
  { intros b. unfold binaryDoh, recordsOf. destruct (decodeDohQuery b) as [q|]; [|by exists s].
    destruct (Hread _ _ (producer_records (queryName q))) as (s' & Hs' & H1 & H2). exists s'.
    rewrite !run_bind, !run_catch, H1, H2. split; [|done].
    destruct (produced env _) as [j|e]; cbn [run]; rewrite !run_bind, !run_from_result;
      (destruct (jsonRecords _); [|done]); rewrite !run_bind, !run_from_result;
      by destruct (encodeDohResponse _ _). }
  destruct req as [|n|pk|accept n type dns|b|n sub]; cbn [handle].
  - by exists s.
  - unfold resolveRoute. destruct (Hread _ _ (producer_resolve n)) as (s' & Hs' & H1 & H2).
    exists s'. rewrite !run_catch, !run_bind, H1, H2. split; [|done].
    by destruct (produced env _).
  - unfold reverseRoute. destruct (Hread _ _ (producer_reverse pk)) as (s' & Hs' & H1 & H2).
    exists s'. rewrite !run_catch, !run_bind, H1, H2. split; [|done].
    by destruct (produced env _).
  - unfold dnsGetRoute. destruct dns as [[|u d]|]; [| |]; try apply Hdns;
      (destruct (includes _ _); [by exists s|]); (destruct n as [[|v n]|]; [by exists s| |by exists s]);
      unfold jsonDoh, recordsOf;
      destruct (Hread _ _ (producer_records (v :: n))) as (s' & Hs' & H1 & H2); exists s';
      rewrite !run_bind, !run_catch, !run_bind, H1, H2; (split; [|done]);
      (destruct (produced env _) as [j|e]; [|done]); cbn [run];
      rewrite !run_bind, !run_from_result; by destruct (jsonRecords j).
  - apply Hdns.
  - exists s. split; [|done]. unfold siteRoute. cbn [run].
    destruct (replyOf env (ContentRef n)) as [[[|u r]|]|e]; try done.
    destruct (hostingUrl _ _ _) as [[|v url]|]; try done.
    rewrite !run_catch, !run_bind. cbn [run fetch]. rewrite !run_from_result. by destruct (upstreamOf env _).
Qed.
(** ** Replies *)

(** GET /resolve/:name replies 400 with parseName's error for every registered
    subdomain: the record resolves, but serializing it parses the path as a single label. *)
Theorem registered_subdomains_are_refused opts env name d labels tld s :
  parsePath name None = Ok (labels, tld) -> (2 <= length labels)%nat ->
  replyOf env (Resolve name) = Ok (Some d) ->
  exists e, parseName name None = Err e
    /\ run env (resolveRoute (uncached opts) name) s = (s, Ok (errorReply 400 (message e))).
Proof.
  intros HP Hlen Hd. destruct (parseName name None) as [[n t]|e] eqn:HName.
  { apply parseName_parsePath in HName. rewrite HP in HName. injection HName as -> _. cbn in Hlen. lia. }
  exists e. split; [done|]. unfold resolveRoute. rewrite run_catch, run_bind.
  rewrite (uncached_run _ _ _ _ _ (producer_resolve name)).
  assert (HE : produced env (fetchResolve name) = Err e).
  { unfold produced, fetchResolve, ask. cbn. rewrite Hd. cbn. unfold serialize. by rewrite HName. }
  by rewrite HE.
Qed.

Definition dns_reply (b : bytes) : Reply := MkReply 200 (Some (js "application/dns-message")) (BBytes b).

(** The JSON and the binary variant of a DNS query carry the same answers (name, TTL
    and key=value text) and the same NXDOMAIN, given exactly when the name has no records;
    when the records cannot be read, the JSON variant replies 400 and the binary one
    NXDOMAIN. *)
Theorem doh_variants_agree opts env q type b s s' :
  decodeDohQuery b = Ok q -> queryType q = toUpperCase (default (js "TXT") type) ->
  (forall l, run env (recordsOf opts (queryName q)) s = (s', Ok (JArray (map recordJson l))) ->
     let m := dohMessage q l in
     run env (binaryDoh opts b) s = (s', dns_reply <$> dnsEncode m)
     /\ exists status answers',
          run env (jsonDoh opts (queryName q) type) s
          = (s', Ok (MkReply 200 (Some (js "application/dns-json"))
                      (BDns status (queryName q) (queryType q) answers')))
          /\ flags m = Z.lor AUTHORITATIVE_ANSWER status
          /\ (status = 3 <-> l = [])
          /\ map (fun a => (answerName a, ttl a, [answerData a])) answers'
             = map (fun a => (txtName a, txtTtl a, txtData a)) (answers m))
  /\ (forall e, run env (recordsOf opts (queryName q)) s = (s', Err e) ->
     run env (binaryDoh opts b) s = (s', dns_reply <$> dnsEncode (dohMessage q []))
     /\ run env (jsonDoh opts (queryName q) type) s = (s', Ok (errorReply 400 (message e)))).
Proof.
  intros Hq Ht. assert (Henc : forall m (s1 : Store), run env
    (b ← from_result (dnsEncode m); Ret (dns_reply b)) s1 = (s1, dns_reply <$> dnsEncode m))
    by (intros m s1; by destruct (dnsEncode m)).
  split.
  - intros l HR m. split.
    + unfold binaryDoh. rewrite Hq, run_bind, run_catch, HR. cbn [run].
      rewrite run_bind, run_from_result, jsonRecords_map. apply Henc.
    + unfold jsonDoh. do 2 eexists. split_and!.
      * rewrite run_bind, run_catch, run_bind, HR. cbn [run].
        rewrite run_bind, run_from_result, jsonRecords_map, <- Ht. reflexivity.
      * done.
      * by destruct l.
      * cbn [m dohMessage answers]. destruct (bool_decide _); [|done]. by rewrite !map_map.
  - intros e HR. split.
    + unfold binaryDoh. rewrite Hq, run_bind, run_catch, HR. cbn [run].
      rewrite run_bind. apply Henc.
    + unfold jsonDoh. rewrite run_bind, run_catch, run_bind, HR. done.
Qed.

(** The statuses of a request that needs no DNS encoding. *)
Definition expected_code (env : Env) (req : Request) (c : Z) : Prop :=
  match req with
  | GetHealth => c = 200
  | GetResolve _ | GetReverse _ => In c [200; 400; 404]
  | GetDns _ _ _ _ | PostDns _ => In c [200; 400]
  | GetSite _ _ => In c [400; 404; 422; 502] \/ exists url u, upstreamOf env url = Ok u /\ c = status u
  end.

Lemma catch_replies {A} env (p : Prog A) (f : A -> Reply) g s (P : Reply -> Prop) :
  (forall a, P (f a)) -> (forall e, P (g e)) ->
  exists s' r, run env (prog_catch (a ← p; Ret (f a)) (fun e => Ret (g e))) s = (s', Ok r) /\ P r.
Proof.
  intros Hf Hg. rewrite run_catch, run_bind. destruct (run env p s) as [s' [a|e]]; cbn; eauto.
Qed.

(** What reading the records of a name gives, through the cache or not. *)
Lemma records_read opts env name s : env_ok env -> consistent env s ->
  exists s', run env (recordsOf opts name) s
    = (s', (fun l => JArray (map recordJson l)) <$> replyOf env (GetRecords name)).
Proof.
  intros Henv Hs.
  destruct (cached_run opts env _ _ s Henv (producer_records name) Hs) as (s' & HR & _).
  exists s'. unfold recordsOf. rewrite HR. f_equal. unfold produced, fetchRecords, ask. cbn.
  by destruct (replyOf env _).
Qed.

Lemma binary_replies opts env b s :
  env_ok env -> consistent env s -> (forall m, is_Ok (dnsEncode m) = true) ->
  exists s' r, run env (binaryDoh opts b) s = (s', Ok r) /\ In (code r) [200; 400].
Proof.
  intros Henv Hs Henc. unfold binaryDoh.
  destruct (decodeDohQuery b) as [q|]; [|eexists _, _; split; [done|cbn; tauto]].
  destruct (records_read opts env (queryName q) s Henv Hs) as [s' HR].
  assert (HJ : exists l, run env (prog_catch (recordsOf opts (queryName q)) (fun _ => Ret (JArray []))) s
    = (s', Ok (JArray (map recordJson l)))).
  { rewrite run_catch, HR. destruct (replyOf env _) as [l|e]; [by exists l|by exists []]. }
  destruct HJ as [l HJ]. rewrite run_bind, HJ, run_bind, run_from_result, jsonRecords_map, run_bind,
    run_from_result. specialize (Henc (dohMessage q l)). unfold encodeDohResponse.
  destruct (dnsEncode _); [|done]. eexists _, _. split; [done|]. cbn. tauto.
Qed.

Lemma json_replies opts env name type s :
  env_ok env -> consistent env s ->
  exists s' r, run env (jsonDoh opts name type) s = (s', Ok r) /\ In (code r) [200; 400].
Proof.
  intros Henv Hs. unfold jsonDoh. destruct (records_read opts env name s Henv Hs) as [s' HR].
  rewrite run_bind, run_catch, run_bind, HR. destruct (replyOf env _) as [l|e].
  - cbn [fmap result_fmap run]. rewrite run_bind, run_from_result, jsonRecords_map.
    eexists _, _. split; [done|]. cbn. tauto.
  - eexists _, _. split; [done|]. cbn. tauto.
Qed.

Lemma site_replies opts env name sub s : exists r,
  run env (siteRoute opts name sub) s = (s, Ok r)
  /\ (In (code r) [400; 404; 422; 502]
      \/ exists url u, upstreamOf env url = Ok u /\ code r = status u).
Proof.
  unfold siteRoute. cbn [run].
  destruct (replyOf env (ContentRef name)) as [[[|u r]|]|e];
    try (eexists; split; [done|cbn; tauto]).
  destruct (hostingUrl _ _ _) as [[|v url]|]; try (eexists; split; [done|cbn; tauto]).
  rewrite run_catch, run_bind. cbn [run fetch]. rewrite run_from_result.
  destruct (upstreamOf env (v :: url)) as [x|] eqn:HUp; eexists; (split; [done|]); cbn; [|tauto].
  right. by exists (v :: url), x.
Qed.

(** No handler throws when DNS messages encode and the cache holds what this service
    stored: each route replies with one of its documented statuses, or the gateway's for
    hosted content. *)
Theorem requests_are_answered opts env req s :
  env_ok env -> consistent env s -> (forall m, is_Ok (dnsEncode m) = true) ->
  exists s' r, run env (handle opts req) s = (s', Ok r) /\ expected_code env req (code r).
Proof.
  intros Henv Hs Henc.
  destruct req as [|n|pk|accept n type dns|b|n sub]; cbn [handle expected_code].
  - by eexists _, _.
  - apply catch_replies; [intros a; destruct (falsy a)|]; cbn; tauto.
  - apply catch_replies; [intros a; destruct (falsy a)|]; cbn; tauto.
  - unfold dnsGetRoute. repeat case_match; try (by apply binary_replies); try (by apply json_replies);
      (eexists _, _; split; [done|cbn; tauto]).
  - by apply binary_replies.
  - exists s. apply site_replies.
Qed.
End Laws.

(** ** Requests interleaved *)

(** A call that was answered, and when. *)
Record Answered := MkAnswered { at_ : Z; call : Call; reply : result JsError (answer call) }.

(** The process: the clock, the cache, the handlers in flight (by number), the
    answers the resolver gave so far. *)
Record Config := MkConfig {
  clock : Z; store : Store; threads : list (Prog Reply); seen : list Answered
}.

Section Interleaving.
Context `{HU : Unicode} `{HK : Kit} `{HA : !AppKit} `{HD : DnsPacket} `{HN : NodeText}.
Variable opts : BuildOpts.

(** One step: time passes, a request arrives, or a handler in flight completes one of
    its awaited calls.  Answers of the resolver and of gateways are arbitrary. *)
Inductive Step : Config -> Config -> Prop :=
| StepTime t s ths h t' : t <= t' -> Step (MkConfig t s ths h) (MkConfig t' s ths h)
| StepArrive t s ths h req :
    Step (MkConfig t s ths h) (MkConfig t s (ths ++ [handle opts req]) h)
| StepGet t s ths h i key k s' r :
    ths !! i = Some (Get key k) -> cacheGet t key s = (s', r) ->
    Step (MkConfig t s ths h) (MkConfig t s' (<[i := k r]> ths) h)
| StepSet t s ths h i key v ttl k :
    ths !! i = Some (Set_ key v ttl k) ->
    Step (MkConfig t s ths h) (MkConfig t (cacheSet t key v ttl s) (<[i := k]> ths) h)
| StepCount t s ths h i hit k :
    ths !! i = Some (Count hit k) -> Step (MkConfig t s ths h) (MkConfig t s (<[i := k]> ths) h)
| StepAsk t s ths h i c k r :
    ths !! i = Some (Ask c k) -> result_ok c r ->
    Step (MkConfig t s ths h) (MkConfig t s (<[i := k r]> ths) (MkAnswered t c r :: h))
| StepFetch t s ths h i url k r :
    ths !! i = Some (Fetch url k) ->
    Step (MkConfig t s ths h) (MkConfig t s (<[i := k r]> ths) h).

Inductive reachable : Config -> Prop :=
| reachable_start t : reachable (MkConfig t ∅ [] [])
| reachable_step c c' : reachable c -> Step c c' -> reachable c'.

(** The JSON value under a key comes from an answer given at time [t]. *)
Inductive observed (h : list Answered) (t : Z) : jsstring -> Json -> Prop :=
| observed_record n d j : In (MkAnswered t (Resolve n) (Ok (Some d))) h -> serialize n d = Ok j ->
    observed h t (js "resolve:" ++ n) j
| observed_absent n : In (MkAnswered t (Resolve n) (Ok None)) h ->
    observed h t (js "resolve:" ++ n) JNull
| observed_reverse pk o : In (MkAnswered t (ReverseLookup pk) (Ok o)) h ->
    observed h t (js "reverse:" ++ pk) (nullable o)
| observed_records n l : In (MkAnswered t (GetRecords n) (Ok l)) h ->
    observed h t (js "records:" ++ n) (JArray (map recordJson l)).

Lemma observed_more h h' t key j : incl h h' -> observed h t key j -> observed h' t key j.
Proof.
  intros Hi H. destruct H as [n d j Hin HS|n Hin|pk o Hin|n l Hin]; apply Hi in Hin.
  - by eapply observed_record.
  - by apply observed_absent.
  - by apply observed_reverse.
  - by apply observed_records.
Qed.

(** Whatever it awaits, a handler stores only values observed, for the TTL set. *)
Fixpoint stores_observed {A} (h : list Answered) (p : Prog A) : Prop :=
  match p with
  | Ret _ | Throw _ => True
  | Get key k => forall r, stores_observed h (k r)
  | Set_ key v ttl k =>
      (exists t j, observed h t key j /\ v = stringify j) /\ ttl = cacheTtl opts
      /\ stores_observed h k
  | Count _ k => stores_observed h k
  | Ask c k => forall t r, stores_observed (MkAnswered t c r :: h) (k r)
  | Fetch _ k => forall r, stores_observed h (k r)
  end.

Lemma stores_observed_more {A} h h' (p : Prog A) :
  incl h h' -> stores_observed h p -> stores_observed h' p.
Proof.
  revert h h'. induction p as [a|e|key k IH|key v ttl k IH|hit k IH|c k IH|url k IH];
    intros h h' Hi; cbn; eauto.
  - intros ((t & j & Ho & Hv) & Ht & Hk). split; [|eauto]. exists t, j. split; [|done].
    by eapply observed_more.
  - intros Hk t r. eapply IH; [|apply Hk]. intros x [<-|Hx]; [by left|]. right. auto.
Qed.

Lemma stores_observed_bind {A B} h (p : Prog A) (f : A -> Prog B) :
  stores_observed h p -> (forall h' a, incl h h' -> stores_observed h' (f a)) ->
  stores_observed h (p ≫= f).
Proof.
  revert h. induction p as [a|e|key k IH|key v ttl k IH|hit k IH|c k IH|url k IH];
    intros h Hp Hf; cbn in *; eauto using incl_refl.
  - naive_solver.
  - intros t r. apply IH; [apply Hp|]. intros h' a Hi. apply Hf. intros x Hx. apply Hi. by right.
Qed.

Lemma stores_observed_catch {A} h (p : Prog A) f :
  stores_observed h p -> (forall h' e, incl h h' -> stores_observed h' (f e)) ->
  stores_observed h (prog_catch p f).
Proof.
  revert h. induction p as [a|e|key k IH|key v ttl k IH|hit k IH|c k IH|url k IH];
    intros h Hp Hf; cbn in *; eauto using incl_refl.
  - naive_solver.
  - intros t r. apply IH; [apply Hp|]. intros h' a Hi. apply Hf. intros x Hx. apply Hi. by right.
Qed.

Lemma stores_observed_result {A} h (r : result JsError A) : stores_observed h (from_result r).
Proof. by destruct r. Qed.

Lemma producer_stores h key p : producer key p ->
  stores_observed h (value ← p; Set_ key (stringify value) (cacheTtl opts) (Ret value)).
Proof.
  assert (Hin : forall a (h' : list Answered), In a (a :: h')) by (intros; by left).
  intros H. inversion H; subst; unfold fetchResolve, fetchReverse, fetchRecords, ask.
  - intros t [[d|]|e]; cbn;
      [|split; [exists t, JNull; split; [by apply observed_absent|done]|done]|done].
    destruct (serialize n d) as [j|e] eqn:HS; cbn; [|done].
    split; [|done]. exists t, j. split; [|done]. by eapply observed_record.
  - unfold toAddress. destruct (isAddress pk); [|done]. intros t [o|e]; cbn; [|done].
    split; [|done]. exists t, (nullable o). split; [|done]. by apply observed_reverse.
  - intros t [l|e]; cbn; [|done]. split; [|done]. exists t, (JArray (map recordJson l)). split; [|done].
    by apply observed_records.
Qed.

Lemma producer_alone h key p : producer key p -> stores_observed h p.
Proof.
  intros H. inversion H; subst; unfold fetchResolve, fetchReverse, fetchRecords, ask.
  - intros t [[d|]|e]; cbn; [|done..]. apply stores_observed_result.
  - unfold toAddress. destruct (isAddress pk); [|done]. by intros t [o|e].
  - by intros t [l|e].
Qed.

Lemma cached_stores h key p : producer key p -> stores_observed h (cached opts key p).
Proof.
  intros Hp. unfold cached. destruct (hasCache opts); cbn [negb]; [|by eapply producer_alone].
  intros [text|]; [apply stores_observed_result|]. cbn. by apply producer_stores.
Qed.

Lemma handle_stores h req : stores_observed h (handle opts req).
Proof.
  assert (Hread : forall h n, stores_observed h (recordsOf opts n))
    by (intros; apply cached_stores; constructor).
  assert (Hbin : forall h b, stores_observed h (binaryDoh opts b)).
  { intros h' b. unfold binaryDoh. destruct (decodeDohQuery b); [|done].
    apply stores_observed_bind; [by apply stores_observed_catch|]. intros h2 j _.
    apply stores_observed_bind; [apply stores_observed_result|]. intros h3 l _.
    apply stores_observed_bind; [apply stores_observed_result|]. done. }
  assert (Hjson : forall h n type, stores_observed h (jsonDoh opts n type)).
  { intros h' n type. apply stores_observed_bind.
    - apply stores_observed_catch; [|done]. by apply stores_observed_bind.
    - intros h1 [r|j] _; [done|]. by apply stores_observed_bind; [apply stores_observed_result|]. }
  destruct req as [|n|pk|accept n type dns|b|n sub]; cbn [handle]; [done| | | |apply Hbin|].
  - apply stores_observed_catch; [|done]. apply stores_observed_bind; [|done].
    apply cached_stores. constructor.
  - apply stores_observed_catch; [|done]. apply stores_observed_bind; [|done].
    apply cached_stores. constructor.
  - unfold dnsGetRoute. repeat case_match; try done; apply Hbin || apply Hjson.
  - unfold siteRoute. intros t [[[|u r]|]|e]; try done.
    destruct (hostingUrl _ _ _) as [[|v url]|]; try done. apply stores_observed_catch; [|done].
    apply stores_observed_bind; [|done]. intros r'. apply stores_observed_result.
Qed.

(** Running a request alone is one of its schedules. *)
Lemma run_schedule env (p : Prog Reply) s ths h :
  env_ok env -> reachable (MkConfig (now env) s (ths ++ [p]) h) ->
  exists p' h', reachable (MkConfig (now env) (run env p s).1 (ths ++ [p']) h').
Proof.
  intros Henv. assert (Hlast : forall q : Prog Reply, (ths ++ [q]) !! length ths = Some q)
    by (intros q; by apply list_lookup_middle).
  assert (Hput : forall q q' : Prog Reply, <[length ths := q']> (ths ++ [q]) = ths ++ [q'])
    by (intros q q'; rewrite <- (Nat.add_0_r (length ths)), insert_app_r; done).
  revert s h. induction p as [a|e|key k IH|key v ttl k IH|hit k IH|c k IH|url k IH];
    intros s h HR; cbn [run].
  - by eexists _, _.
  - by eexists _, _.
  - destruct (cacheGet (now env) key s) as [s' r] eqn:HG. apply (IH r s' h).
    eapply reachable_step; [exact HR|]. rewrite <- (Hput (Get key k) (k r)). by eapply StepGet.
  - apply (IH _ h). eapply reachable_step; [exact HR|].
    rewrite <- (Hput (Set_ key v ttl k) k). by eapply StepSet.
  - apply (IH _ h). eapply reachable_step; [exact HR|].
    rewrite <- (Hput (Count hit k) k). by eapply StepCount.
  - eapply IH, reachable_step; [exact HR|].
    rewrite <- (Hput (Ask c k) (k (replyOf env c))). eapply StepAsk; [apply Hlast|apply Henv].
  - eapply IH, reachable_step; [exact HR|].
    rewrite <- (Hput (Fetch url k) (k (upstreamOf env url))). eapply StepFetch. apply Hlast.
Qed.

(** What holds of every reachable process. *)
Record sound (c : Config) : Prop := {
  sound_seen : Forall (fun a => at_ a <= clock c /\ result_ok (call a) (reply a)) (seen c);
  sound_store : forall key text exp, store c !! key = Some (text, exp) ->
    exists t ts j, observed (seen c) t key j /\ text = stringify j /\ t <= ts <= clock c
      /\ exp = ts + cacheTtl opts * 1000;
  sound_threads : Forall (stores_observed (seen c)) (threads c);
}.

Lemma observed_sound h now t key j :
  Forall (fun a => at_ a <= now /\ result_ok (call a) (reply a)) h ->
  observed h t key j -> t <= now /\ json_ok j.
Proof.
  intros Hh H. destruct H as [n d j Hin HS|n Hin|pk o Hin|n l Hin];
    eapply Forall_In in Hh; try exact Hin; cbn in Hh; destruct Hh as [Ht Hok]; (split; [done|]).
  - by eapply serialize_ok.
  - done.
  - by apply nullable_ok.
  - by apply records_ok.
Qed.

Lemma sound_step c c' : sound c -> Step c c' -> sound c'.
Proof.
  intros [Hseen Hstore Hths] HS. destruct HS as [t s ths h t' Ht|t s ths h req
    |t s ths h i key k s' r Hi HG|t s ths h i key v ttl k Hi|t s ths h i hit k Hi
    |t s ths h i c k r Hi Hr|t s ths h i url k r Hi]; cbn in *;
    try (pose proof (proj1 (Forall_lookup _ _) Hths i _ Hi) as Hp; cbn in Hp).
  - split; cbn; [|intros key text exp Hk|done].
    + eapply List.Forall_impl; [|exact Hseen]. intros a [? ?]. split; [lia|done].
    + destruct (Hstore key text exp Hk) as (t0 & ts & j & ? & ? & ? & ?). exists t0, ts, j.
      split_and!; try done; lia.
  - split; cbn; [done..|]. apply Forall_app. split; [done|]. constructor; [|done].
    apply handle_stores.
  - split; cbn; [done| |by apply Forall_insert].
    intros key' text exp Hk. apply (Hstore key' text exp). unfold cacheGet in HG.
    destruct (s !! key) as [[v e]|]; [|by injection HG as <- <-].
    destruct (t >=? e); injection HG as <- <-; [|done]. by apply lookup_delete_Some in Hk as [_ Hk].
  - destruct Hp as ((t0 & j & Ho & Hv) & -> & Hk). split; cbn; [done| |by apply Forall_insert].
    intros key' text exp Hl. unfold cacheSet in Hl. destruct (decide (key = key')) as [<-|Hne].
    + rewrite lookup_insert_eq in Hl. injection Hl as <- <-. exists t0, t, j.
      destruct (observed_sound _ _ _ _ _ Hseen Ho) as [? _]. split_and!; try done; lia.
    + rewrite lookup_insert_ne in Hl by done. by apply (Hstore key' text exp).
  - split; cbn; [done..|]. by apply Forall_insert.
  - assert (Hi' : incl h (MkAnswered t c r :: h)) by (intros x Hx; by right).
    split; cbn.
    + constructor; [|done]. cbn. split; [lia|done].
    + intros key text exp Hk. destruct (Hstore key text exp Hk) as (t0 & ts & j & ? & ? & ? & ?).
      exists t0, ts, j. split_and!; try done; try lia. by eapply observed_more.
    + apply Forall_insert; [|apply Hp]. eapply List.Forall_impl; [|exact Hths].
      intros p. by apply stores_observed_more.
  - split; cbn; [done..|]. by apply Forall_insert.
Qed.

Lemma reachable_sound c : reachable c -> sound c.
Proof.
  induction 1 as [t|c c' _ IH HS]; [|by eapply sound_step].
  split; cbn; [constructor| |constructor]. intros key text exp Hk. by rewrite lookup_empty in Hk.
Qed.

(** C21: However the awaited calls of any number of requests interleave while time passes
    and answers change, a text the resolver's cache serves parses to a value the resolver
    answered for that very name or key, and was stored less than the TTL before. *)
Theorem cache_hits_are_recent c key s text :
  reachable c -> cacheGet (clock c) key (store c) = (s, Some text) ->
  exists t ts j, observed (seen c) t key j /\ parse text = Ok j
    /\ t <= ts <= clock c /\ clock c < ts + cacheTtl opts * 1000.
Proof.
  intros Hc HG. apply reachable_sound in Hc as [Hseen Hstore _]. unfold cacheGet in HG.
  destruct (store c !! key) as [[v e]|] eqn:Hk; [|done].
  destruct (Z.geb_spec (clock c) e); [done|]. injection HG as <- <-.
  destruct (Hstore key v e Hk) as (t & ts & j & Ho & -> & Hts & ->).
  destruct (observed_sound _ _ _ _ _ Hseen Ho) as [_ Hj].
  exists t, ts, j. split_and!; try done; try lia. by apply parse_stringify.
Qed.
End Interleaving.

(** ** Concrete requests *)

#[export] Instance SmallDns : DnsPacket := {
  AUTHORITATIVE_ANSWER := 1024;
  dnsEncode := fun m => Ok [messageId m; flags m; Z.of_nat (length (answers m))];
  dnsDecode := fun b => match b with
    | i :: _ => Ok (Some i, Some [(js "alex.sol", Some (js "TXT"))])
    | [] => Err (MkError (js "Header must be 12 bytes"))
    end;
}.

#[export] Instance SmallNodeText : NodeText := {
  base64url := fun s => s;
  toUpperCase := map (fun u => if (97 <=? u) && (u <=? 122) then u - 32 else u);
}.

Section Sample.
#[local] Existing Instance SmallUnicode.

Definition sample_opts : BuildOpts := MkOpts DEFAULT_GATEWAYS true 30.

Definition sample_child : NameRecord :=
  MkNameRecord [] (MkNameRecordArgs (small_addr 1) None [] (js "sol") 0 1767225599
    [MkRecord (js "url") (js "https://alex.example")] None None false false None None 0 1 false 255).

Definition sample_env : Env := {|
  now := 5000;
  replyOf := fun c => match c return result JsError (answer c) with
    | Resolve n => Ok (if bool_decide (n = js "pay.alex.sol") then Some sample_child else None)
    | ReverseLookup _ => Ok (Some (js "alex.sol"))
    | GetRecords _ => Ok (records sample_child)
    | ContentRef _ => Err (MkError (js "offline"))
    end;
  upstreamOf := fun _ => Err (MkError (js "offline"));
|}.

Lemma sample_env_ok : env_ok sample_env.
Proof.
  assert (Hr : Forall record_ok (records sample_child)).
  { apply List.Forall_cons; [|constructor]. split; [apply (nonneg_js "url")|].
    apply (nonneg_js "https://alex.example"). }
  intros [n|a|n|n]; [|apply (nonneg_js "alex.sol")|exact Hr|done].
  cbn [replyOf sample_env result_ok answer_ok]. destruct (bool_decide _); [|done].
  split; [|by split_and!].
  apply forallb_forall_nonneg. vm_compute. reflexivity.
Qed.

Lemma empty_consistent env : consistent env ∅.
Proof. intros key text exp Hk. by rewrite lookup_empty in Hk. Qed.

Lemma isoString_examples :
  map isoString [0; 951782399; 1767225599; -62135596800; 8640000000001]
  = [Ok (js "1970-01-01T00:00:00.000Z"); Ok (js "2000-02-28T23:59:59.000Z");
     Ok (js "2025-12-31T23:59:59.000Z"); Ok (js "0001-01-01T00:00:00.000Z"); Err invalidTime].
Proof. vm_compute. reflexivity. Qed.

Lemma caching_is_transparent_witness :
  exists s', run sample_env (handle sample_opts (GetReverse (small_addr 1))) ∅
    = (s', (run sample_env (handle (uncached sample_opts) (GetReverse (small_addr 1))) ∅).2).
Proof.
  destruct (caching_is_transparent sample_opts sample_env (GetReverse (small_addr 1)) ∅
    sample_env_ok (empty_consistent sample_env)) as (s' & HR & _).
  exists s'. exact HR.
Defined.

Lemma registered_subdomains_are_refused_witness :
  exists e, run sample_env (resolveRoute (uncached sample_opts) (js "pay.alex.sol")) ∅
    = (∅, Ok (errorReply 400 (message e))).
Proof.
  destruct (registered_subdomains_are_refused sample_opts sample_env (js "pay.alex.sol")
    sample_child [js "pay"; js "alex"] (js "sol") ∅) as (e & _ & HR).
  - vm_compute. reflexivity.
  - cbn. lia.
  - vm_compute. reflexivity.
  - exists e. exact HR.
Defined.

Definition sample_query : DohQuery := MkQuery 7 (js "alex.sol") (js "TXT").

Lemma doh_variants_agree_witness :
  run sample_env (binaryDoh (uncached sample_opts) [7]) ∅
  = (∅, dns_reply <$> dnsEncode (dohMessage sample_query (records sample_child))).
Proof.
  destruct (doh_variants_agree (uncached sample_opts) sample_env sample_query (Some (js "txt")) [7] ∅ ∅)
    as [HA _].
  - vm_compute. reflexivity.
  - vm_compute. reflexivity.
  - refine (proj1 (HA (records sample_child) _)). vm_compute. reflexivity.
Defined.

Lemma requests_are_answered_witness :
  exists s' r, run sample_env (handle sample_opts (PostDns [7])) ∅ = (s', Ok r)
    /\ In (code r) [200; 400].
Proof.
  exact (requests_are_answered sample_opts sample_env (PostDns [7]) ∅ sample_env_ok
    (empty_consistent sample_env) (fun m => eq_refl)).
Defined.

(** A reverse lookup at second 5, asked again ten seconds later. *)
Definition sample_request : Request := GetReverse (small_addr 1).

Definition sample_store : Store := (run sample_env (handle sample_opts sample_request) ∅).1.

Lemma sample_reachable : exists ths h, reachable sample_opts (MkConfig 15000 sample_store ths h).
Proof.
  destruct (run_schedule sample_opts sample_env (handle sample_opts sample_request) ∅ [] []
    sample_env_ok) as (p & h & HR).
  - eapply (reachable_step _ (MkConfig 5000 ∅ [] [])); [apply reachable_start|].
    apply (StepArrive sample_opts 5000 ∅ [] [] sample_request).
  - exists ([] ++ [p]), h. eapply reachable_step; [exact HR|].
    apply (StepTime sample_opts 5000). lia.
Qed.

Lemma sample_hit : cacheGet 15000 (js "reverse:" ++ small_addr 1) sample_store
  = (sample_store, Some (stringify (JString (js "alex.sol")))).
Proof. vm_compute. reflexivity. Qed.

Lemma cache_hits_are_recent_witness :
  exists t ts, t <= ts <= 15000 /\ 15000 < ts + 30 * 1000.
Proof.
  destruct sample_reachable as (ths & h & HR).
  destruct (cache_hits_are_recent sample_opts (MkConfig 15000 sample_store ths h)
    (js "reverse:" ++ small_addr 1) sample_store (stringify (JString (js "alex.sol"))) HR sample_hit)
    as (t & ts & j & _ & _ & H1 & H2).
  exists t, ts. split; [exact H1|exact H2].
Defined.
End Sample.
