(* ===== verification/Observability.v ===== *)
(** * Prometheus metrics

    src/services/observability/src/index.ts: counters, gauges and histograms, the
    registry that holds them and the text it exposes.  A metric is an object shared
    by reference: names being unique in a registry, the model of a registry holds
    the metrics' values and an operation names its metric. *)
From Stdlib Require Import SpecFloat.
From S2P Require Import Prelude JsString JsNumber.

(** ** Labels *)

(** [string | number] *)
Inductive LabelValue := LString (s : jsstring) | LNumber (x : number).

(** The own properties of a label object. *)
Abbreviation Labels := (list (jsstring * LabelValue)).

(** [String(v)], [`${v}`] *)
Definition labelString (v : LabelValue) : jsstring :=
  match v with LString s => s | LNumber x => number_toString x end.

(** The order of [Array.prototype.sort] on strings: by code units. *)
Fixpoint units_leb (a b : jsstring) : bool :=
  match a, b with
  | [], _ => true
  | _ :: _, [] => false
  | x :: a, y :: b => (x <? y) || ((x =? y) && units_leb a b)
  end.

Fixpoint insert_label {A} (l : jsstring * A) (ls : list (jsstring * A)) : list (jsstring * A) :=
  match ls with
  | [] => [l]
  | m :: ls' => if units_leb l.1 m.1 then l :: ls else m :: insert_label l ls'
  end.

(** The properties in the order of [Object.keys(labels).sort()]. *)
Definition sortLabels {A} (ls : list (jsstring * A)) : list (jsstring * A) :=
  foldr insert_label [] ls.

(** [`${k}\x00${labels[k]}`] joined by [\x01]. *)
Definition seriesKey (labels : Labels) : jsstring :=
  join [1] (map (fun '(k, v) => k ++ [0] ++ labelString v) (sortLabels labels)).

(** [s.replace(/c/g, r)] for one character [c]. *)
Definition replaceAll (c : Z) (r s : jsstring) : jsstring :=
  flat_map (fun u => if u =? c then r else [u]) s.

Definition escapeLabelValue (v : jsstring) : jsstring :=
  replaceAll 34 [92; 34] (replaceAll 10 [92; 110] (replaceAll 92 [92; 92] v)).

Definition renderLabel (kv : jsstring * LabelValue) : jsstring :=
  kv.1 ++ js "=" ++ dquote ++ escapeLabelValue (labelString kv.2) ++ dquote.

Definition renderLabels (labels : Labels) : jsstring :=
  match sortLabels labels with
  | [] => []
  | sorted => js "{" ++ join (js ",") (map renderLabel sorted) ++ js "}"
  end.

(** [{ ...labels, [k]: v }] *)
Fixpoint setLabel (k : jsstring) (v : LabelValue) (labels : Labels) : Labels :=
  match labels with
  | [] => [(k, v)]
  | (k', v') :: ls => if bool_decide (k' = k) then (k, v) :: ls else (k', v') :: setLabel k v ls
  end.

(** ** Metrics *)

Record Slot := MkSlot { slot_labels : Labels; slot_value : number }.
Record HistogramSeries := MkHistogramSeries {
  series_labels : Labels; counts : list Z; sum : number; count : Z
}.

(** A [Map] from series keys, in insertion order. *)
Abbreviation Series A := (list (jsstring * A)).

Fixpoint lookupSeries {A} (key : jsstring) (m : Series A) : option A :=
  match m with
  | [] => None
  | (k, x) :: m => if bool_decide (k = key) then Some x else lookupSeries key m
  end.

(** Update the entry of a key; a new one goes last. *)
Fixpoint updateSeries {A} (key : jsstring) (fresh : A) (f : A -> A) (m : Series A) : Series A :=
  match m with
  | [] => [(key, f fresh)]
  | (k, x) :: m => if bool_decide (k = key) then (k, f x) :: m else (k, x) :: updateSeries key fresh f m
  end.

Inductive ScalarType := counter | gauge.

Record ScalarMetric := MkScalar {
  name : jsstring; help : jsstring; type : ScalarType; series : Series Slot
}.

Record Histogram := MkHistogram {
  histogram_name : jsstring; histogram_help : jsstring; buckets : list number;
  histogram_series : Series HistogramSeries
}.

(** [this.slot(labels).value = f(value)] *)
Definition with_slot (labels : Labels) (f : number -> number) (m : ScalarMetric) : ScalarMetric :=
  MkScalar (name m) (help m) (type m)
    (updateSeries (seriesKey labels) (MkSlot labels (S754_zero false))
      (fun s => MkSlot (slot_labels s) (f (slot_value s))) (series m)).

Definition negativeIncrement : JsError := MkError (js "counter increments must be >= 0").

Definition counter_inc (value : number) (labels : Labels) (m : ScalarMetric)
    : result JsError ScalarMetric :=
  if SFltb value (S754_zero false) then Err negativeIncrement
  else Ok (with_slot labels (fun v => number_add v value) m).

Definition gauge_set (value : number) (labels : Labels) (m : ScalarMetric) : ScalarMetric :=
  with_slot labels (fun _ => value) m.
Definition gauge_inc (value : number) (labels : Labels) (m : ScalarMetric) : ScalarMetric :=
  with_slot labels (fun v => number_add v value) m.
Definition gauge_dec (value : number) (labels : Labels) (m : ScalarMetric) : ScalarMetric :=
  with_slot labels (fun v => number_sub v value) m.

Definition DEFAULT_BUCKETS : list number :=
  map (fun s => Number (js s)) ["0.005"; "0.01"; "0.025"; "0.05"; "0.1"; "0.25"; "0.5"; "1"; "2.5";
    "5"; "10"]%string.

Definition newHistogram (name help : jsstring) (buckets : option (list number)) : Histogram :=
  MkHistogram name help (sortNumbers (default DEFAULT_BUCKETS buckets)) [].

Definition observe (value : number) (labels : Labels) (h : Histogram) : Histogram :=
  MkHistogram (histogram_name h) (histogram_help h) (buckets h)
    (updateSeries (seriesKey labels)
      (MkHistogramSeries labels (map (fun _ => 0) (buckets h)) (S754_zero false) 0)
      (fun s => MkHistogramSeries (series_labels s)
        (zip_with (fun b c => if SFleb value b then c + 1 else c) (buckets h) (counts s))
        (number_add (sum s) value) (count s + 1))
      (histogram_series h)).

(** ** Exposition *)

(** [`${name}${renderLabels(labels)} ${value}`] *)
Definition sampleLine (name : jsstring) (labels : Labels) (value : jsstring) : jsstring :=
  name ++ renderLabels labels ++ js " " ++ value.

Definition header (name help type : jsstring) : list jsstring :=
  [js "# HELP " ++ name ++ js " " ++ help; js "# TYPE " ++ name ++ js " " ++ type].

Definition newline : jsstring := [10].

Definition exposeScalar (m : ScalarMetric) : jsstring :=
  join newline (header (name m) (help m) (match type m with counter => js "counter" | gauge => js "gauge" end)
    ++ map (fun '(_, s) => sampleLine (name m) (slot_labels s) (number_toString (slot_value s)))
        (series m)).

Definition histogramLines (h : Histogram) (s : HistogramSeries) : list jsstring :=
  zip_with (fun b c => sampleLine (histogram_name h ++ js "_bucket")
      (setLabel (js "le") (LNumber b) (series_labels s)) (toString c)) (buckets h) (counts s)
  ++ [sampleLine (histogram_name h ++ js "_bucket")
        (setLabel (js "le") (LString (js "+Inf")) (series_labels s)) (toString (count s));
      sampleLine (histogram_name h ++ js "_sum") (series_labels s) (number_toString (sum s));
      sampleLine (histogram_name h ++ js "_count") (series_labels s) (toString (count s))].

Definition exposeHistogram (h : Histogram) : jsstring :=
  join newline (header (histogram_name h) (histogram_help h) (js "histogram")
    ++ flat_map (fun '(_, s) => histogramLines h s) (histogram_series h)).

(** ** The registry *)

Inductive Metric := Scalar (m : ScalarMetric) | Hist (h : Histogram).

Definition metric_name (m : Metric) : jsstring :=
  match m with Scalar m => name m | Hist h => histogram_name h end.

Definition exposeMetric (m : Metric) : jsstring :=
  match m with Scalar m => exposeScalar m | Hist h => exposeHistogram h end.

Abbreviation Registry := (list Metric).

Definition alreadyRegistered (n : jsstring) : JsError :=
  MkError (js "metric already registered: " ++ n).

Definition register (metric : Metric) (r : Registry) : result JsError Registry :=
  if existsb (fun m => bool_decide (metric_name m = metric_name metric)) r
  then Err (alreadyRegistered (metric_name metric))
  else Ok (r ++ [metric]).

Definition expose (r : Registry) : jsstring :=
  join (newline ++ newline) (map exposeMetric r) ++ newline.

(** The content type of an exposition. *)
Definition CONTENT_TYPE : jsstring := js "text/plain; version=0.0.4; charset=utf-8".

(** What the services do with a registry and the metrics it returned. *)
Inductive Op :=
| RegisterCounter (name help : jsstring)
| RegisterGauge (name help : jsstring)
| RegisterHistogram (name help : jsstring) (buckets : option (list number))
| CounterInc (name : jsstring) (value : number) (labels : Labels)
| GaugeSet (name : jsstring) (value : number) (labels : Labels)
| GaugeInc (name : jsstring) (value : number) (labels : Labels)
| GaugeDec (name : jsstring) (value : number) (labels : Labels)
| Observe (name : jsstring) (value : number) (labels : Labels).

(** Apply a method to the metric of that name; methods are called on metrics of
    their class only. *)
Definition on_metric (n : jsstring) (f : Metric -> result JsError Metric) (r : Registry)
    : result JsError Registry :=
  mapR (fun m => if bool_decide (metric_name m = n) then f m else Ok m) r.

Definition lift_scalar (t : ScalarType) (f : ScalarMetric -> result JsError ScalarMetric)
    (m : Metric) : result JsError Metric :=
  match m with
  | Scalar s => match type s, t with
                | counter, counter | gauge, gauge => Scalar <$> f s
                | _, _ => Ok m
                end
  | Hist _ => Ok m
  end.

Definition on_scalar (n : jsstring) (t : ScalarType) (f : ScalarMetric -> result JsError ScalarMetric)
    : Registry -> result JsError Registry :=
  on_metric n (lift_scalar t f).

Definition apply (op : Op) (r : Registry) : result JsError Registry :=
  match op with
  | RegisterCounter n h => register (Scalar (MkScalar n h counter [])) r
  | RegisterGauge n h => register (Scalar (MkScalar n h gauge [])) r
  | RegisterHistogram n h bs => register (Hist (newHistogram n h bs)) r
  | CounterInc n v l => on_scalar n counter (counter_inc v l) r
  | GaugeSet n v l => on_scalar n gauge (fun m => Ok (gauge_set v l m)) r
  | GaugeInc n v l => on_scalar n gauge (fun m => Ok (gauge_inc v l m)) r
  | GaugeDec n v l => on_scalar n gauge (fun m => Ok (gauge_dec v l m)) r
  | Observe n v l =>
      on_metric n (fun m => match m with Hist h => Ok (Hist (observe v l h)) | Scalar _ => Ok m end) r
  end.

(** A call that throws leaves the registry as it was. *)
Definition step (r : Registry) (op : Op) : Registry :=
  match apply op r with Ok r' => r' | Err _ => r end.

Definition run (ops : list Op) : Registry := fold_left step ops [].
