(* ===== verification/ObservabilityLaws.v ===== *)
(** * What a scrape reads, and what the metrics say

    Theorems on Observability.v: the exposed text, read back as the Prometheus
    format prescribes, is the registry's samples; two label sets share a series
    exactly when they are the same; histograms and counters are functions of the
    calls made since their registration. *)
From Stdlib Require Import SpecFloat.
From stdpp Require Import sorting.
From S2P Require Import Prelude JsString JsNumber Observability.

(** ** What a scraper reads

    Prometheus' text format: comment and empty lines are skipped; a sample is a
    name, labels in braces and a value; in a label value a backslash escapes a
    backslash, a quote or stands with [n] for a line feed. *)
Fixpoint spanUntil (stop : Z -> bool) (s : jsstring) : jsstring * jsstring :=
  match s with
  | [] => ([], [])
  | u :: r => if stop u then ([], s) else let '(a, b) := spanUntil stop r in (u :: a, b)
  end.

Fixpoint parseQuoted (s : jsstring) : option (jsstring * jsstring) :=
  match s with
  | [] => None
  | u :: r =>
      if u =? 34 then Some ([], r)
      else if u =? 92 then
        match r with
        | [] => None
        | e :: r =>
            c ← (if e =? 92 then Some 92 else if e =? 34 then Some 34
                 else if e =? 110 then Some 10 else None);
            '(v, rest) ← parseQuoted r; Some (c :: v, rest)
        end
      else '(v, rest) ← parseQuoted r; Some (u :: v, rest)
  end.

Fixpoint parseLabels (fuel : nat) (s : jsstring) : option (list (jsstring * jsstring) * jsstring) :=
  match fuel with
  | O => None
  | S fuel =>
      let '(k, r) := spanUntil (Z.eqb 61) s in
      match r with
      | 61 :: 34 :: r =>
          '(v, r) ← parseQuoted r;
          match r with
          | 44 :: r => '(ls, r) ← parseLabels fuel r; Some ((k, v) :: ls, r)
          | 125 :: r => Some ([(k, v)], r)
          | _ => None
          end
      | _ => None
      end
  end.

Record Sample := MkSample {
  sample_name : jsstring; sample_labels : list (jsstring * jsstring); sample_value : jsstring
}.

Definition parseSample (s : jsstring) : option Sample :=
  let '(n, r) := spanUntil (fun u => (u =? 123) || (u =? 32)) s in
  match r with
  | 123 :: r =>
      '(ls, r) ← parseLabels (length r) r;
      match r with 32 :: v => Some (MkSample n ls v) | _ => None end
  | 32 :: v => Some (MkSample n [] v)
  | _ => None
  end.

Fixpoint parseLines (lines : list jsstring) : option (list Sample) :=
  match lines with
  | [] => Some []
  | l :: lines =>
      match l with
      | [] => parseLines lines
      | u :: _ =>
          if u =? 35 then parseLines lines
          else s ← parseSample l; ss ← parseLines lines; Some (s :: ss)
      end
  end.

Definition parseExposition (s : jsstring) : option (list Sample) := parseLines (split 10 s).

(** The samples a metric has. *)
Definition labelTexts (labels : Labels) : list (jsstring * jsstring) :=
  map (fun kv => (kv.1, labelString kv.2)) (sortLabels labels).

Definition sampleOf (name : jsstring) (labels : Labels) (value : jsstring) : Sample :=
  MkSample name (labelTexts labels) value.

Definition histogramSamples (h : Histogram) (s : HistogramSeries) : list Sample :=
  zip_with (fun b c => sampleOf (histogram_name h ++ js "_bucket")
      (setLabel (js "le") (LNumber b) (series_labels s)) (toString c)) (buckets h) (counts s)
  ++ [sampleOf (histogram_name h ++ js "_bucket")
        (setLabel (js "le") (LString (js "+Inf")) (series_labels s)) (toString (count s));
      sampleOf (histogram_name h ++ js "_sum") (series_labels s) (number_toString (sum s));
      sampleOf (histogram_name h ++ js "_count") (series_labels s) (toString (count s))].

Definition samples (m : Metric) : list Sample :=
  match m with
  | Scalar m => map (fun '(_, s) => sampleOf (name m) (slot_labels s)
      (number_toString (slot_value s))) (series m)
  | Hist h => flat_map (fun '(_, s) => histogramSamples h s) (histogram_series h)
  end.

(** Names the format admits: no line feed, brace or space, no leading [#]. *)
Definition name_ok (n : jsstring) : bool :=
  match n with
  | [] => false
  | u :: _ => negb (u =? 35) && forallb (fun u => negb ((u =? 10) || (u =? 123) || (u =? 32))) n
  end.
Definition key_ok (k : jsstring) : bool := forallb (fun u => negb ((u =? 10) || (u =? 61))) k.
Definition labels_ok (labels : Labels) : bool := forallb (fun kv => key_ok kv.1) labels.
Definition help_ok (h : jsstring) : bool := forallb (fun u => negb (u =? 10)) h.

Definition exposable (m : Metric) : bool :=
  match m with
  | Scalar m => name_ok (name m) && help_ok (help m)
      && forallb (fun '(_, s) => labels_ok (slot_labels s)) (series m)
  | Hist h => name_ok (histogram_name h) && help_ok (histogram_help h)
      && forallb (fun '(_, s) => labels_ok (series_labels s)) (histogram_series h)
  end.

(** ** Label values *)

(** The three replacements act as one pass. *)
Definition escapeUnit (u : Z) : jsstring :=
  if u =? 92 then [92; 92] else if u =? 10 then [92; 110] else if u =? 34 then [92; 34] else [u].

Lemma escape_units v : escapeLabelValue v = flat_map escapeUnit v.
Proof.
  unfold escapeLabelValue, replaceAll. induction v as [|u v IH]; [done|]. cbn [flat_map].
  rewrite !flat_map_app, IH. f_equal. unfold escapeUnit.
  destruct (Z.eqb_spec u 92) as [->|]; [done|]. cbn.
  destruct (Z.eqb_spec u 10) as [->|]; [done|]. cbn. by destruct (Z.eqb_spec u 34) as [->|].
Qed.

Lemma parseQuoted_escape v rest :
  parseQuoted (escapeLabelValue v ++ 34 :: rest) = Some (v, rest).
Proof.
  rewrite escape_units. induction v as [|u v IH]; [done|]. cbn [flat_map].
  rewrite <- app_assoc. unfold escapeUnit at 1.
  destruct (Z.eqb_spec u 92) as [->|H1]; [cbn; by rewrite IH|].
  destruct (Z.eqb_spec u 10) as [->|H2]; [cbn; by rewrite IH|].
  destruct (Z.eqb_spec u 34) as [->|H3]; [cbn; by rewrite IH|].
  cbn. replace (u =? 34) with false by lia. replace (u =? 92) with false by lia. by rewrite IH.
Qed.

Lemma escape_no_newline v : ~ In 10 (escapeLabelValue v).
Proof.
  rewrite escape_units. intros H. apply in_flat_map in H as (u & _ & H). unfold escapeUnit in H.
  destruct (u =? 92); [cbn in H; lia|]. destruct (Z.eqb_spec u 10); [cbn in H; lia|].
  destruct (u =? 34); cbn in H; lia.
Qed.

Lemma spanUntil_app stop a r : forallb (fun u => negb (stop u)) a = true ->
  match r with [] => True | u :: _ => stop u = true end -> spanUntil stop (a ++ r) = (a, r).
Proof.
  intros Ha Hr. induction a as [|u a IH]; cbn.
  - destruct r as [|u r]; [done|]. cbn. by rewrite Hr.
  - cbn in Ha. bool_prop. match goal with H : stop u = false |- _ => rewrite H end.
    by rewrite IH.
Qed.

Lemma parseLabels_render ls rest : forall fuel, ls <> [] -> labels_ok ls = true ->
  (length ls <= fuel)%nat ->
  parseLabels fuel (join (js ",") (map renderLabel ls) ++ 125 :: rest)
  = Some (map (fun kv => (kv.1, labelString kv.2)) ls, rest).
Proof.
  induction ls as [|[k v] ls IH]; intros [|fuel] H0 Hk Hf; try done; cbn in Hf; [lia|].
  cbn [labels_ok forallb fst] in Hk. unfold labels_ok in Hk. cbn [forallb fst] in Hk. bool_prop.
  assert (Hspan : forall X, spanUntil (Z.eqb 61) (k ++ 61 :: X) = (k, 61 :: X)).
  { intros X. apply spanUntil_app; [|done].
    match goal with H : key_ok k = true |- _ => rename H into Hkey end. unfold key_ok in Hkey.
    rewrite forallb_forall in *. intros u Hu. apply Hkey in Hu. bool_prop.
    apply negb_true_iff. rewrite Z.eqb_sym. by apply Z.eqb_neq. }
  cbn [parseLabels].
  assert (Hcase : join (js ",") (map renderLabel ((k, v) :: ls)) ++ 125 :: rest
    = k ++ 61 :: 34 :: escapeLabelValue (labelString v)
      ++ 34 :: match ls with [] => 125 :: rest
               | _ => 44 :: join (js ",") (map renderLabel ls) ++ 125 :: rest end).
  { cbn [map join]. change (renderLabel (k, v))
      with (k ++ [61] ++ [34] ++ escapeLabelValue (labelString v) ++ [34]).
    change (js ",") with [44]. destruct ls as [|l ls']; cbn [map]; by rewrite <- !app_assoc. }
  rewrite Hcase, Hspan, parseQuoted_escape. cbn [mbind option_bind map fst snd].
  destruct ls as [|l ls]; [done|]. rewrite IH; [done..|lia].
Qed.

Lemma insert_label_perm {A} (l : jsstring * A) ls : insert_label l ls ≡ₚ l :: ls.
Proof.
  induction ls as [|m ls IH]; cbn; [done|]. destruct (units_leb l.1 m.1); [done|].
  rewrite IH. constructor.
Qed.

Lemma sortLabels_perm {A} (ls : list (jsstring * A)) : sortLabels ls ≡ₚ ls.
Proof. induction ls as [|l ls IH]; cbn; [done|]. by rewrite insert_label_perm, IH. Qed.

Lemma labels_ok_perm ls ls' : ls ≡ₚ ls' -> labels_ok ls = labels_ok ls'.
Proof.
  unfold labels_ok. induction 1 as [| | |? ? ? _ IH1 _ IH2]; cbn.
  - done.
  - by f_equal.
  - by rewrite !andb_assoc, (andb_comm (key_ok _)).
  - congruence.
Qed.

Lemma setLabel_ok k v labels : key_ok k = true -> labels_ok labels = true ->
  labels_ok (setLabel k v labels) = true.
Proof.
  unfold labels_ok. intros Hk. induction labels as [|[k' v'] ls IH]; cbn;
    [intros _; by apply andb_true_iff|].
  intros H. bool_prop. destruct (bool_decide (k' = k)); cbn; apply andb_true_iff; auto.
Qed.

Lemma renderLabel_length l : (1 <= length (renderLabel l))%nat.
Proof. unfold renderLabel. rewrite !length_app. change (length (js "=")) with 1%nat. lia. Qed.

Lemma join_length ls : (length ls <= length (join (js ",") (map renderLabel ls)))%nat.
Proof.
  induction ls as [|l ls IH]; [done|]. pose proof (renderLabel_length l).
  destruct ls as [|l' ls]; cbn [map join length] in *; [lia|]. rewrite !length_app. lia.
Qed.

Lemma parseSample_line n labels v : name_ok n = true -> labels_ok labels = true ->
  parseSample (sampleLine n labels v) = Some (sampleOf n labels v).
Proof.
  intros Hn Hl. unfold parseSample, sampleLine, sampleOf, renderLabels, labelTexts.
  assert (Hspan : forall X, match X with [] => True | u :: _ => (u =? 123) || (u =? 32) = true end ->
    spanUntil (fun u => (u =? 123) || (u =? 32)) (n ++ X) = (n, X)).
  { intros X HX. apply spanUntil_app; [|done]. unfold name_ok in Hn. destruct n; [done|]. bool_prop.
    rewrite forallb_forall in *. intros w Hw.
    match goal with H : forall x, _ |- _ => apply H in Hw end. bool_prop.
    match goal with |- ?b = true => destruct b eqn:E; [done|exfalso; bool_prop; lia] end. }
  pose proof (labels_ok_perm _ _ (sortLabels_perm labels)) as Hs. rewrite Hl in Hs.
  destruct (sortLabels labels) as [|l ls] eqn:E.
  - by rewrite Hspan.
  - change (js "{") with [123]. change (js "}") with [125]. change (js " ") with [32].
    rewrite <- !app_assoc. cbn [app]. rewrite Hspan by done.
    cbn [app]. rewrite parseLabels_render; [done..|].
    rewrite length_app. pose proof (join_length (l :: ls)). lia.
Qed.

(** ** Lines *)

Definition one_line (s : jsstring) : Prop := Forall (fun u => u <> 10) s.

Lemma one_line_In s : one_line s -> ~ In 10 s.
Proof. intros H Hin. exact (Forall_In _ _ _ H Hin eq_refl). Qed.

Lemma one_line_app a b : one_line (a ++ b) <-> one_line a /\ one_line b.
Proof. apply Forall_app. Qed.

Lemma one_line_forallb s : forallb (fun u => negb (u =? 10)) s = true -> one_line s.
Proof.
  intros H. apply forallb_Forall_iff in H. eapply List.Forall_impl; [|exact H].
  intros u Hu. by apply Z.eqb_neq, negb_true_iff.
Qed.

Lemma one_line_toString z : one_line (toString z).
Proof.
  assert (Hd : forall n, 0 <= n -> one_line (toString n)).
  { intros n Hn. destruct (toString_digits n Hn) as (_ & H & _). apply one_line_forallb.
    rewrite forallb_forall in *. intros u Hu. apply H in Hu. unfold is_digit in Hu. bool_prop.
    apply negb_true_iff, Z.eqb_neq. lia. }
  destruct (Z_lt_le_dec z 0) as [H|H]; [|by apply Hd].
  unfold toString. replace (z <? 0) with true by lia. apply List.Forall_cons; [done|].
  specialize (Hd (- z) ltac:(lia)). unfold toString in Hd. by replace (- z <? 0) with false in Hd by lia.
Qed.

Ltac one_line :=
  repeat match goal with
  | |- one_line (if ?b then _ else _) => destruct b
  | |- one_line (_ ++ _) => apply one_line_app; split
  | |- one_line (take _ _) => apply Forall_take
  | |- one_line (drop _ _) => apply Forall_drop
  | |- one_line (replicate _ _) => apply Forall_replicate; lia
  | |- one_line (toString _) => apply one_line_toString
  | |- one_line (js _) => by apply one_line_forallb
  | |- one_line [] => constructor
  end; auto.

Lemma one_line_layout d k n : one_line d -> one_line (layout d k n).
Proof. intros Hd. unfold layout. one_line. Qed.

Lemma one_line_number x : one_line (number_toString x).
Proof.
  assert (HP : forall m e, one_line (positive_toString m e)).
  { intros m e. unfold positive_toString. destruct (0 <=? e);
      (destruct (shortest_digits _ _ _ _ _ _) as [d k]; apply one_line_layout, one_line_toString). }
  destruct x as [s|s| |s m e]; cbn [number_toString]; try destruct (toInteger _); one_line.
Qed.

Lemma one_line_labels labels : labels_ok labels = true -> one_line (renderLabels labels).
Proof.
  intros Hl. unfold renderLabels. pose proof (labels_ok_perm _ _ (sortLabels_perm labels)) as Hs.
  rewrite Hl in Hs. destruct (sortLabels labels) as [|l ls]; [constructor|].
  apply one_line_app. split; [by apply one_line_forallb|]. apply one_line_app.
  split; [|by apply one_line_forallb].
  induction (l :: ls) as [|[k v] xs IH]; [constructor|].
  unfold labels_ok in Hs. cbn [forallb fst] in Hs. bool_prop. specialize (IH ltac:(done)).
  assert (HR : one_line (renderLabel (k, v))).
  { unfold renderLabel. cbn [fst snd].
    repeat (apply one_line_app; split); try (by apply one_line_forallb).
    - apply one_line_forallb. rewrite forallb_forall. intros u Hu.
      match goal with H : key_ok k = true |- _ => unfold key_ok in H; rewrite forallb_forall in H;
        apply H in Hu end. bool_prop. apply negb_true_iff, Z.eqb_neq. done.
    - apply List.Forall_forall. intros u Hu ->. exact (escape_no_newline _ Hu). }
  cbn [map join]. destruct xs as [|x xs]; cbn [map] in *; [done|].
  apply one_line_app. split; [done|]. apply one_line_app. split; [by apply one_line_forallb|done].
Qed.

Lemma name_one_line n : name_ok n = true -> one_line n.
Proof.
  unfold name_ok. destruct n as [|u n]; [done|]. intros H. bool_prop. apply one_line_forallb.
  rewrite forallb_forall in *. intros w Hw.
  match goal with H : forall x, _ |- _ => apply H in Hw end. bool_prop.
  apply negb_true_iff, Z.eqb_neq. done.
Qed.

Lemma one_line_sample n labels v : name_ok n = true -> labels_ok labels = true -> one_line v ->
  one_line (sampleLine n labels v).
Proof.
  intros. unfold sampleLine. repeat (apply one_line_app; split);
    auto using name_one_line, one_line_labels. by apply one_line_forallb.
Qed.

Lemma name_ok_suffix n s : name_ok n = true ->
  forallb (fun u => negb ((u =? 10) || (u =? 123) || (u =? 32))) s = true -> name_ok (n ++ s) = true.
Proof.
  unfold name_ok. destruct n as [|u n]; [done|]. intros H Hs. cbn [app]. bool_prop.
  apply andb_true_iff. split; [by apply negb_true_iff, Z.eqb_neq|].
  change (u :: n ++ s) with ((u :: n) ++ s). rewrite forallb_app. by apply andb_true_iff.
Qed.

Lemma split_append c a b : split c (a ++ c :: b) = split c a ++ split c b.
Proof.
  induction a as [|u a IH]; cbn; [by rewrite Z.eqb_refl|].
  destruct (u =? c); [by rewrite IH|]. rewrite IH.
  destruct (split c a) as [|p ps] eqn:E; [by apply split_nonempty in E|done].
Qed.

Lemma parseLines_app a b x y : parseLines a = Some x -> parseLines b = Some y ->
  parseLines (a ++ b) = Some (x ++ y).
Proof.
  revert x. induction a as [|l a IH]; intros x Ha Hb; cbn in *; [by injection Ha as <-|].
  destruct l as [|u l]; [by apply IH|]. destruct (u =? 35); [by apply IH|].
  destruct (parseSample _) as [s|]; [|done]. cbn in *.
  destruct (parseLines a) as [ss|]; [|done]. cbn in Ha. injection Ha as <-.
  by rewrite (IH ss).
Qed.

(** A list of lines that are samples. *)
Definition sample_lines (ls : list jsstring) (ss : list Sample) : Prop :=
  Forall one_line ls /\ parseLines ls = Some ss.

Lemma sample_lines_app a b x y : sample_lines a x -> sample_lines b y ->
  sample_lines (a ++ b) (x ++ y).
Proof.
  intros [H1 H2] [H3 H4]. split; [by apply Forall_app|by apply parseLines_app].
Qed.

Lemma sample_lines_one n labels v : name_ok n = true -> labels_ok labels = true -> one_line v ->
  sample_lines [sampleLine n labels v] [sampleOf n labels v].
Proof.
  intros Hn Hl Hv. split; [repeat constructor; by apply one_line_sample|].
  cbn [parseLines]. pose proof (parseSample_line n labels v Hn Hl) as HP.
  destruct (sampleLine n labels v) as [|u r] eqn:E.
  - unfold sampleLine in E. by destruct n.
  - assert ((u =? 35) = false) as ->.
    { unfold name_ok in Hn. unfold sampleLine in E. destruct n as [|w n]; [done|].
      cbn [app] in E. injection E as -> _. bool_prop. by apply Z.eqb_neq. }
    by rewrite HP.
Qed.

Lemma sample_lines_flat {A} (f : A -> list jsstring) (g : A -> list Sample) (l : list A) :
  Forall (fun x => sample_lines (f x) (g x)) l -> sample_lines (flat_map f l) (flat_map g l).
Proof. induction 1; cbn; [split; [constructor|done]|]. by apply sample_lines_app. Qed.

Lemma header_lines n h t : name_ok n = true -> help_ok h = true -> one_line t ->
  sample_lines (header n h t) [].
Proof.
  intros Hn Hh Ht. split; [|done]. repeat constructor; unfold header;
    repeat (apply one_line_app; split); auto using name_one_line; (by apply one_line_forallb).
Qed.

Lemma metric_lines_parse ls ss : sample_lines ls ss -> ls <> [] ->
  parseLines (split 10 (join newline ls)) = Some ss.
Proof.
  intros [H1 H2] H0. unfold newline. rewrite split_join; [done..|].
  eapply List.Forall_impl; [|exact H1]. intros l. apply one_line_In.
Qed.

Lemma histogram_lines_parse h s : name_ok (histogram_name h) = true ->
  labels_ok (series_labels s) = true ->
  sample_lines (histogramLines h s) (histogramSamples h s).
Proof.
  intros Hn Hl. unfold histogramLines, histogramSamples.
  assert (Hle : key_ok (js "le") = true) by done.
  apply sample_lines_app.
  - assert (HB : name_ok (histogram_name h ++ js "_bucket") = true) by by apply name_ok_suffix.
    generalize (histogram_name h ++ js "_bucket") HB. intros n Hb.
    generalize (counts s). induction (buckets h) as [|b bs IH]; intros [|c cs]; cbn [zip_with];
      try (split; [constructor|done]).
    apply (sample_lines_app [_] _ [_]); [|apply IH].
    apply sample_lines_one; auto using setLabel_ok, one_line_toString.
  - apply (sample_lines_app [_] _ [_]); [|apply (sample_lines_app [_] _ [_])];
      apply sample_lines_one; auto using setLabel_ok, one_line_toString, one_line_number;
      by apply name_ok_suffix.
Qed.

Lemma sample_lines_map {A} (f : A -> jsstring) (g : A -> Sample) (l : list A) :
  Forall (fun x => sample_lines [f x] [g x]) l -> sample_lines (map f l) (map g l).
Proof.
  induction 1; cbn; [split; [constructor|done]|]. by apply (sample_lines_app [_] _ [_]).
Qed.

Lemma exposeMetric_parse m : exposable m = true ->
  parseLines (split 10 (exposeMetric m)) = Some (samples m).
Proof.
  intros H. destruct m as [m|h]; cbn [exposable exposeMetric samples] in *; bool_prop;
    match goal with H : forallb _ _ = true |- _ => apply forallb_Forall_iff in H; rename H into HF end;
    (apply metric_lines_parse; [|done]); apply (sample_lines_app _ _ []).
  - apply header_lines; [done..|]. destruct (type m); by apply one_line_forallb.
  - apply sample_lines_map. eapply List.Forall_impl; [|exact HF]. intros [k s] Hs.
    apply sample_lines_one; auto using one_line_number.
  - apply header_lines; [done..|]. by apply one_line_forallb.
  - apply sample_lines_flat. eapply List.Forall_impl; [|exact HF]. intros [k s] Hs.
    by apply histogram_lines_parse.
Qed.

(** C32: Parsing the exposition text of a registry gives back its samples: every metric
    name, label and value as recorded, escapes undone, histograms as their buckets, sum and
    count; for metrics with well-formed names and label keys and a HELP text without a line
    feed, as all those of the services are. *)
Theorem scraped_samples_are_the_metrics r :
  forallb exposable r = true -> parseExposition (expose r) = Some (flat_map samples r).
Proof.
  unfold parseExposition, expose. change newline with [10].
  induction r as [|m r IH]; intros H; [done|]. cbn [forallb flat_map] in *. bool_prop.
  match goal with H : exposable m = true |- _ => apply exposeMetric_parse in H; rename H into HM end.
  destruct r as [|m' r]; cbn [map join].
  - rewrite split_append. by apply parseLines_app.
  - rewrite <- !app_assoc. cbn [app]. rewrite split_append. apply parseLines_app; [done|].
    cbn [split Z.eqb Z.compare]. cbn [parseLines]. by apply IH.
Qed.

(** ** Series *)

#[export] Instance units_leb_trans : Transitive (fun a b => units_leb a b = true).
Proof.
  intros a. induction a as [|x a IH]; intros [|y b] [|z c]; cbn; try done.
  rewrite !orb_true_iff, !andb_true_iff, !Z.ltb_lt, !Z.eqb_eq.
  intros [H|[-> H]] [H'|[-> H']]; [left; lia|by left|by left|right; eauto].
Qed.

Lemma units_leb_total a b : units_leb a b = false -> units_leb b a = true.
Proof.
  revert b. induction a as [|x a IH]; intros [|y b]; cbn; try done.
  rewrite orb_false_iff, orb_true_iff, andb_false_iff, andb_true_iff, Z.ltb_ge, Z.ltb_lt, Z.eqb_eq, Z.eqb_neq.
  intros [H [H'|H']]; [left; lia|]. destruct (Z.eq_dec y x); [right; auto|left; lia].
Qed.

Lemma units_leb_antisym a b : units_leb a b = true -> units_leb b a = true -> a = b.
Proof.
  revert b. induction a as [|x a IH]; intros [|y b]; cbn; try done.
  rewrite !orb_true_iff, !andb_true_iff, !Z.ltb_lt, !Z.eqb_eq.
  intros [H|[-> H]] [H'|[H' H'']]; try lia. f_equal. auto.
Qed.

Section SortLabels.
Context {A : Type}.
Let before_eq (x y : jsstring * A) : Prop := units_leb x.1 y.1 = true.

#[local] Instance before_eq_trans : Transitive before_eq.
Proof. intros x y z. unfold before_eq. apply units_leb_trans. Qed.

Lemma insert_label_sorted (l : jsstring * A) ls :
  Sorted before_eq ls -> Sorted before_eq (insert_label l ls).
Proof.
  induction 1 as [|m ls HS IH HH]; cbn; [by repeat constructor|].
  destruct (units_leb l.1 m.1) eqn:E; [by repeat constructor|]. apply units_leb_total in E.
  constructor; [done|]. destruct HH as [|w ls Hw]; cbn; [by constructor|].
  destruct (units_leb l.1 w.1); by constructor.
Qed.

Lemma sortLabels_sorted (ls : list (jsstring * A)) : Sorted before_eq (sortLabels ls).
Proof. induction ls as [|l ls IH]; cbn; [constructor|by apply insert_label_sorted]. Qed.

(** The order of the properties of an object does not matter. *)
Lemma sortLabels_unique (ls ls' : list (jsstring * A)) :
  NoDup ls.*1 -> ls ≡ₚ ls' -> sortLabels ls = sortLabels ls'.
Proof.
  intros HN HP. apply (Sorted_unique_strong before_eq); try apply sortLabels_sorted.
  - intros [k v] [k' v'] H1 H2 H3 H4. unfold before_eq in *. cbn in *.
    pose proof (units_leb_antisym _ _ H3 H4) as <-.
    rewrite sortLabels_perm in H1, H2. rewrite <- HP in H2.
    apply list_elem_of_lookup in H1 as [i Hi], H2 as [j Hj].
    assert (i = j) as <-; [|congruence].
    eapply NoDup_lookup; [exact HN|..]; rewrite list_lookup_fmap; [by rewrite Hi|by rewrite Hj].
  - by rewrite !sortLabels_perm.
Qed.
End SortLabels.

(** The labels as the texts they are shown as. *)
Definition texts (labels : Labels) : list (jsstring * jsstring) :=
  map (fun kv => (kv.1, labelString kv.2)) labels.

Lemma sortLabels_texts labels : texts (sortLabels labels) = sortLabels (texts labels).
Proof.
  unfold texts. induction labels as [|l ls IH]; [done|]. cbn [sortLabels foldr map].
  change (foldr insert_label [] ls) with (sortLabels ls).
  change (foldr insert_label [] (map ?f ls)) with (sortLabels (map f ls)). rewrite <- IH.
  generalize (sortLabels ls). intros xs. induction xs as [|m xs IHx]; [done|].
  cbn. destruct (units_leb l.1 m.1); [done|]. cbn. by rewrite IHx.
Qed.

Definition seriesText (l : list (jsstring * jsstring)) : jsstring :=
  join [1] (map (fun kv => kv.1 ++ [0] ++ kv.2) l).

Lemma seriesKey_texts labels : seriesKey labels = seriesText (sortLabels (texts labels)).
Proof.
  unfold seriesKey, seriesText. rewrite <- sortLabels_texts. unfold texts. rewrite map_map.
  f_equal. apply map_ext. by intros [k v].
Qed.

(** No separator of [seriesKey] in a label's name or text. *)
Definition plain_text (s : jsstring) : Prop := ~ In 0 s /\ ~ In 1 s.
Definition plain_labels (labels : Labels) : Prop :=
  Forall (fun kv => plain_text kv.1 /\ plain_text kv.2) (texts labels).

Lemma seriesText_inj l l' :
  Forall (fun kv => plain_text kv.1 /\ plain_text kv.2) l ->
  Forall (fun kv => plain_text kv.1 /\ plain_text kv.2) l' ->
  seriesText l = seriesText l' -> l = l'.
Proof.
  assert (Hsplit : forall l, l <> [] -> Forall (fun kv => plain_text kv.1 /\ plain_text kv.2) l ->
    split 1 (seriesText l) = map (fun kv => kv.1 ++ [0] ++ kv.2) l).
  { intros x H0 HF. apply split_join; [by destruct x|]. apply List.Forall_map.
    eapply List.Forall_impl; [|exact HF]. intros [k v] [[_ Hk] [_ Hv]] Hin. cbn in *.
    apply in_app_iff in Hin as [?|[?|?]]; [done|lia|done]. }
  assert (Hne : forall kv x, seriesText (kv :: x) <> []).
  { intros [k v] x. unfold seriesText. cbn. destruct x; cbn; by destruct k. }
  intros H1 H2 HE. destruct l as [|kv l].
  { destruct l' as [|kv' l']; [done|]. symmetry in HE. by apply Hne in HE. }
  destruct l' as [|kv' l']; [by apply Hne in HE|].
  pose proof (f_equal (split 1) HE) as HM. rewrite !Hsplit in HM by done. clear HE Hsplit Hne.
  revert H1 H2 HM. generalize (kv :: l), (kv' :: l'). clear kv kv' l l'.
  induction l as [|[k v] l IH]; intros [|[k' v'] l'] H1 H2 HM; cbn in HM; try done.
  apply List.Forall_cons_iff in H1 as [[[Hk _] _] H1], H2 as [[[Hk' _] _] H2].
  injection HM as HM HT. cbn [fst snd] in *.
  pose proof (f_equal (split 0) HM) as HS. rewrite !split_app in HS by done. injection HS as <- HS.
  apply app_inv_head in HM. injection HM as <-. f_equal. by apply IH.
Qed.

(** Two label sets share a series exactly when they are the same labels with the same
    texts in any order, for labels free of the two separator characters. *)
Theorem series_are_label_sets labels labels' :
  NoDup labels.*1 -> plain_labels labels -> plain_labels labels' ->
  (seriesKey labels = seriesKey labels' <-> texts labels ≡ₚ texts labels').
Proof.
  intros HN H1 H2. unfold plain_labels in *. rewrite !seriesKey_texts. split.
  - intros HE. apply seriesText_inj in HE.
    + by rewrite <- (sortLabels_perm (texts labels)), HE, sortLabels_perm.
    + by rewrite sortLabels_perm.
    + by rewrite sortLabels_perm.
  - intros HP. f_equal. apply sortLabels_unique; [|done].
    assert ((texts labels).*1 = labels.*1) as ->; [|done].
    clear. unfold texts. induction labels as [|[k v] l IH]; [done|]. cbn. f_equal. exact IH.

Qed.

(** ** A registry's metrics after a history *)

Definition find (n : jsstring) (r : Registry) : option Metric :=
  List.find (fun m => bool_decide (metric_name m = n)) r.

Definition names (r : Registry) : list jsstring := map metric_name r.

(** What an operation makes of the metric [n]. *)
Definition act (n : jsstring) (m : Metric) (op : Op) : Metric :=
  let scalar n' t f :=
    if bool_decide (n' = n) then
      match m with
      | Scalar s => match type s, t with
                    | counter, counter | gauge, gauge =>
                        match f s with Ok s' => Scalar s' | Err _ => m end
                    | _, _ => m
                    end
      | Hist _ => m
      end
    else m in
  match op with
  | CounterInc n' v l => scalar n' counter (counter_inc v l)
  | GaugeSet n' v l => scalar n' gauge (fun s => Ok (gauge_set v l s))
  | GaugeInc n' v l => scalar n' gauge (fun s => Ok (gauge_inc v l s))
  | GaugeDec n' v l => scalar n' gauge (fun s => Ok (gauge_dec v l s))
  | Observe n' v l =>
      if bool_decide (n' = n) then
        match m with Hist h => Hist (observe v l h) | Scalar _ => m end
      else m
  | _ => m
  end.

(** The registry a method call leaves. *)
Definition or_unchanged (r : Registry) (o : result JsError Registry) : Registry :=
  match o with Ok r' => r' | Err _ => r end.

Lemma mapR_names n f r r' : (forall m m', f m = Ok m' -> metric_name m' = metric_name m) ->
  on_metric n f r = Ok r' -> names r' = names r.
Proof.
  intros Hf. revert r'. unfold on_metric. induction r as [|m r IH]; intros r' H; cbn [mapR] in H.
  - by apply Ok_inj in H as <-.
  - apply result_bind_Ok in H as (m' & H1 & H). apply result_bind_Ok in H as (rs & H2 & H).
    apply Ok_inj in H as <-. cbn [names map]. f_equal; [|by apply IH].
    destruct (bool_decide _); [by apply Hf|by apply Ok_inj in H1 as <-].
Qed.

Lemma on_metric_find n n' f r m : (forall m m', f m = Ok m' -> metric_name m' = metric_name m) ->
  NoDup (names r) -> find n r = Some m ->
  find n (or_unchanged r (on_metric n' f r))
  = Some (if bool_decide (n' = n) then match f m with Ok m' => m' | Err _ => m end else m).
Proof.
  intros Hf HN HF.
  assert (HO : forall r r', on_metric n' f r = Ok r' -> n' <> n -> find n r' = find n r).
  { clear r HN HF. intros r. unfold on_metric. induction r as [|x r IH]; intros r' H Hn; cbn [mapR] in H.
    - by apply Ok_inj in H as <-.
    - apply result_bind_Ok in H as (x' & H1 & H). apply result_bind_Ok in H as (rs & H2 & H).
      apply Ok_inj in H as <-. unfold find in *. cbn [List.find].
      case_bool_decide as E; [|apply Ok_inj in H1 as <-; by rewrite (IH _ H2 Hn)].
      rewrite !bool_decide_false by (rewrite ?(Hf _ _ H1); congruence). by apply IH. }
  destruct (bool_decide_reflect (n' = n)) as [->|Hn].
  2: { destruct (on_metric n' f r) as [r'|] eqn:E; [|done]. cbn [or_unchanged]. by rewrite (HO _ _ E Hn). }
  clear HO. revert HN HF. unfold on_metric. induction r as [|x r IH]; intros HN HF; [done|].
  unfold find in HF. cbn [List.find] in HF. cbn [names map] in HN. apply NoDup_cons in HN as [Hx HN].
  cbn [mapR]. case_bool_decide as E.
  - injection HF as ->. subst n.
    assert (HR : mapR (fun y => if bool_decide (metric_name y = metric_name m) then f y else Ok y) r = Ok r).
    { clear -Hx. induction r as [|y r IH]; [done|]. cbn [names map] in Hx.
      apply not_elem_of_cons in Hx as [H1 H2]. cbn [mapR].
      rewrite bool_decide_false by congruence. cbn. by rewrite IH. }
    destruct (f m) as [m'|e] eqn:Em; cbn [mbind result_bind].
    + rewrite HR. cbn. rewrite bool_decide_true by exact (Hf _ _ Em). done.
    + cbn. by rewrite bool_decide_true.
  - cbn [mbind result_bind]. specialize (IH HN HF).
    destruct (mapR _ r) as [rs|e]; cbn in *; by rewrite bool_decide_false.
Qed.

Lemma scalar_keeps_name t f (Hf : forall s s', f s = Ok s' -> name s' = name s) m m' :
  lift_scalar t f m = Ok m' -> metric_name m' = metric_name m.
Proof.
  unfold lift_scalar. destruct m as [s|h]; [|by intros [= <-]].
  destruct (type s), t; try (by intros [= <-]);
    (destruct (f s) as [s'|] eqn:E; cbn; [intros [= <-]; by apply Hf|done]).
Qed.

Lemma counter_inc_name v l s s' : counter_inc v l s = Ok s' -> name s' = name s.
Proof. unfold counter_inc. destruct (SFltb _ _); [done|]. by intros [= <-]. Qed.

Lemma observe_name v l m m' :
  match m with Hist h => Ok (Hist (observe v l h)) | Scalar _ => Ok m end = Ok (E := JsError) m' ->
  metric_name m' = metric_name m.
Proof. by destruct m; intros [= <-]. Qed.

#[local] Hint Resolve counter_inc_name : core.

Lemma register_find n x r m : find n r = Some m -> find n (or_unchanged r (register x r)) = Some m.
Proof.
  intros HF. unfold register. destruct (existsb _ r); [done|]. cbn [or_unchanged].
  unfold find in *. induction r as [|y r IH]; [done|]. cbn in *.
  destruct (bool_decide _); [done|by apply IH].
Qed.

Lemma find_step r op n m : NoDup (names r) -> find n r = Some m ->
  find n (step r op) = Some (act n m op).
Proof.
  intros HN HF. change (step r op) with (or_unchanged r (apply op r)).
  destruct op as [| | |n' v l|n' v l|n' v l|n' v l|n' v l]; cbn [apply]; try by apply register_find.
  5: { rewrite (on_metric_find n n' _ r m (observe_name v l) HN HF). cbn [act].
       destruct (bool_decide _); [by destruct m|done]. }
  all: unfold on_scalar; rewrite (on_metric_find n n' _ r m); [|by apply scalar_keeps_name; first [solve [eauto]|by intros ? ? [= <-]]|done..];
    cbn [act]; destruct (bool_decide _); [|done];
    destruct m as [s|]; [|done]; unfold lift_scalar; destruct (type s); try done.
  by destruct (counter_inc v l s).
Qed.

Lemma register_names x r : NoDup (names r) -> NoDup (names (or_unchanged r (register x r))).
Proof.
  intros HN. unfold register. destruct (existsb _ r) eqn:E; [done|]. cbn [or_unchanged].
  unfold names. rewrite map_app. apply NoDup_app. split_and!; [done| |apply NoDup_singleton].
  intros k Hk Hx. apply list_elem_of_singleton in Hx as ->. apply list_elem_of_In, in_map_iff in Hk as (y & Hy & Hin).
  assert (existsb (fun m => bool_decide (metric_name m = metric_name x)) r = true); [|congruence].
  apply existsb_exists. exists y. split; [done|]. by apply bool_decide_eq_true.
Qed.

Lemma step_names r op : NoDup (names r) -> NoDup (names (step r op)).
Proof.
  intros HN. change (step r op) with (or_unchanged r (apply op r)).
  destruct op as [| | |n' v l|n' v l|n' v l|n' v l|n' v l]; cbn [apply]; try by apply register_names.
  all: match goal with |- NoDup (names (or_unchanged _ ?o)) => destruct o as [r'|] eqn:E; [|done] end;
    cbn [or_unchanged]; unfold on_scalar in E; erewrite mapR_names; [done| |exact E];
    first [apply observe_name | apply scalar_keeps_name; first [solve [eauto]|by intros ? ? [= <-]]].
Qed.

Lemma run_names ops : NoDup (names (run ops)).
Proof.
  unfold run. assert (H : forall r, NoDup (names r) -> NoDup (names (fold_left step ops r))).
  { induction ops as [|op ops IH]; intros r Hr; [done|]. cbn. apply IH. by apply step_names. }
  apply H. constructor.
Qed.

Lemma find_after ops : forall r n m, NoDup (names r) -> find n r = Some m ->
  find n (fold_left step ops r) = Some (fold_left (act n) ops m).
Proof.
  induction ops as [|op ops IH]; intros r n m HN HF; [done|]. cbn.
  apply IH; [by apply step_names|by apply find_step].
Qed.

Lemma register_found x r r' : register x r = Ok r' -> find (metric_name x) r' = Some x.
Proof.
  unfold register. destruct (existsb _ r) eqn:E; [done|]. intros [= <-]. unfold find.
  induction r as [|y r IH]; cbn in *; [by rewrite bool_decide_true|].
  apply orb_false_iff in E as [-> E]. by apply IH.
Qed.

(** ** Series after a history *)

Lemma lookup_update {A} key key' fresh (f : A -> A) (m : Series A) :
  lookupSeries key (updateSeries key' fresh f m)
  = if bool_decide (key' = key) then Some (f (default fresh (lookupSeries key m)))
    else lookupSeries key m.
Proof.
  induction m as [|[k x] m IH]; cbn.
  - by destruct (bool_decide_reflect (key' = key)).
  - destruct (bool_decide_reflect (k = key')) as [->|Hk]; cbn.
    + by destruct (bool_decide_reflect (key' = key)).
    + rewrite IH. destruct (bool_decide_reflect (k = key)) as [->|]; [|done].
      by rewrite bool_decide_false by congruence.
Qed.

(** The values observed by [n] at a series. *)
Definition observation (n key : jsstring) (op : Op) : option number :=
  match op with
  | Observe n' v l =>
      if bool_decide (n' = n) && bool_decide (seriesKey l = key) then Some v else None
  | _ => None
  end.
Definition observations (n key : jsstring) (ops : list Op) : list number := omap (observation n key) ops.

(** How many values are at most [b]. *)
Definition at_most (b : number) (obs : list number) : Z :=
  Z.of_nat (length (List.filter (fun v => SFleb v b) obs)).

(** The entry of a series after some observations. *)
Definition tells (bs : list number) (obs : list number) (o : option HistogramSeries) : Prop :=
  match obs with
  | [] => o = None
  | _ => exists s, o = Some s /\ counts s = map (fun b => at_most b obs) bs
      /\ count s = Z.of_nat (length obs) /\ sum s = fold_left number_add obs (S754_zero false)
  end.

Lemma at_most_snoc b obs v : at_most b (obs ++ [v]) = if SFleb v b then at_most b obs + 1 else at_most b obs.
Proof.
  unfold at_most. rewrite List.filter_app, length_app. cbn. destruct (SFleb v b); cbn [length]; lia.
Qed.

Lemma zip_count bs obs v :
  zip_with (fun b c => if SFleb v b then c + 1 else c) bs (map (fun b => at_most b obs) bs)
  = map (fun b => at_most b (obs ++ [v])) bs.
Proof. induction bs as [|b bs IH]; cbn; [done|]. by rewrite IH, at_most_snoc. Qed.

Lemma tells_snoc labels bs obs v o : tells bs obs o ->
  tells bs (obs ++ [v]) (Some ((fun s => MkHistogramSeries (series_labels s)
        (zip_with (fun b c => if SFleb v b then c + 1 else c) bs (counts s))
        (number_add (sum s) v) (count s + 1))
    (default (MkHistogramSeries labels (map (fun _ => 0) bs) (S754_zero false) 0) o))).
Proof.
  intros H.
  unfold tells. destruct (obs ++ [v]) as [|x xs] eqn:E; [by destruct obs|]. rewrite <- E. clear x xs E.
  rewrite fold_left_app, length_app. cbn [fold_left length].
  destruct obs as [|y obs]; cbn [tells] in H; [subst o|destruct H as (s & -> & Hc & Hn & Hs)];
    cbn [default from_option id]; eexists; (split; [reflexivity|]); cbn [counts count sum].
  - change (map (fun _ => 0) bs) with (map (fun b => at_most b []) bs). by rewrite zip_count.
  - rewrite Hc, Hn, Hs, zip_count. split_and!; [done|lia|done].
Qed.

(** The metric being a histogram, its state after a history. *)
Definition observed (n : jsstring) (h : Histogram) (op : Op) : Histogram :=
  match op with
  | Observe n' v l => if bool_decide (n' = n) then observe v l h else h
  | _ => h
  end.

Lemma act_histogram n ops h : fold_left (act n) ops (Hist h) = Hist (fold_left (observed n) ops h).
Proof.
  revert h. induction ops as [|op ops IH]; intros h; [done|]. cbn [fold_left]. rewrite <- IH. f_equal.
  destruct op as [| | |n' v l|n' v l|n' v l|n' v l|n' v l]; cbn [act observed]; try done;
    by destruct (bool_decide _).
Qed.

Lemma observed_tells n name help bs ops key :
  let h := fold_left (observed n) ops (newHistogram name help bs) in
  buckets h = sortNumbers (default DEFAULT_BUCKETS bs) /\ histogram_name h = name
  /\ tells (buckets h) (observations n key ops) (lookupSeries key (histogram_series h)).
Proof.
  induction ops as [|op ops IH] using rev_ind; [done|]. cbv zeta in *.
  rewrite fold_left_app. cbn [fold_left]. unfold observations in *. rewrite omap_app. cbn [omap list_omap].
  set (h := fold_left (observed n) ops (newHistogram name help bs)) in *. destruct IH as (HB & HN & HT).
  destruct op as [| | |n' v l|n' v l|n' v l|n' v l|n' v l]; cbn [observed observation];
    rewrite ?app_nil_r; try done.
  destruct (bool_decide (n' = n)); cbn [andb]; [|by rewrite app_nil_r].
  cbn [observe buckets histogram_name histogram_series]. split_and!; [done..|].
  rewrite lookup_update. destruct (bool_decide (seriesKey l = key)); [|by rewrite app_nil_r].
  by apply tells_snoc.
Qed.

Lemma SFleb_trans x y z : SFleb x y = true -> SFleb y z = true -> SFleb x z = true.
Proof.
  destruct x as [sx|sx| |sx mx ex], y as [sy|sy| |sy my ey], z as [sz|sz| |sz mz ez];
    try destruct sx; try destruct sy; try destruct sz; cbn; try done;
    destruct (Z.compare_spec ex ey), (Z.compare_spec ey ez), (Z.compare_spec ex ez); try lia; try done;
    subst; change (Pos.compare_cont Eq) with Pos.compare;
    repeat match goal with |- context [(?a ?= ?b)%positive] => destruct (Pos.compare_spec a b); subst end;
    cbn; try done; lia.
Qed.

(** After any operations on a registry, a histogram's buckets hold for each label set
    the number of observations at most the bound, its count their number and its sum their
    running sum; the bucket counts never decrease with the bound. *)
Theorem histograms_tell_their_observations ops0 ops n help bs r key :
  register (Hist (newHistogram n help bs)) (run ops0) = Ok r ->
  exists h, find n (fold_left step ops r) = Some (Hist h)
    /\ buckets h = sortNumbers (default DEFAULT_BUCKETS bs)
    /\ tells (buckets h) (observations n key ops) (lookupSeries key (histogram_series h))
    /\ (Forall (fun b => ordered b = true) (default DEFAULT_BUCKETS bs) ->
        forall i j b b', (i < j)%nat -> buckets h !! i = Some b -> buckets h !! j = Some b' ->
          at_most b (observations n key ops) <= at_most b' (observations n key ops)
          <= Z.of_nat (length (observations n key ops))).
Proof.
  intros HR. pose proof (register_found _ _ _ HR) as HF. cbn [metric_name newHistogram] in HF.
  assert (HN : NoDup (names r)).
  { change r with (or_unchanged (run ops0) (Ok r)). rewrite <- HR. apply register_names, run_names. }
  pose proof (observed_tells n n help bs ops key) as (HB & _ & HT).
  eexists. split_and!; [by rewrite (find_after ops r n _ HN HF), act_histogram|done|done|].
  intros HO i j b b' Hij Hi Hj. rewrite HB in Hi, Hj.
  assert (Hbb : SFleb b b' = true).
  { destruct (sortNumbers_spec _ HO) as [HS _]. apply Sorted_StronglySorted in HS.
    - clear -HS Hij Hi Hj. revert i j Hij Hi Hj.
      induction HS as [|x l _ IH HF]; intros [|i] [|j] Hij Hi Hj; cbn in *; try done; try lia.
      + injection Hi as ->. apply list_elem_of_lookup_2, list_elem_of_In in Hj. exact (Forall_In _ _ _ HF Hj).
      + apply (IH i j); [lia|done..].
    - intros x y z. apply SFleb_trans. }
  unfold at_most. split; [|apply inj_le, List.filter_length_le].
  apply inj_le. generalize (observations n key ops). clear -Hbb. intros obs.
  induction obs as [|v obs IH]; cbn; [lia|]. destruct (SFleb v b) eqn:E.
  - rewrite (SFleb_trans _ _ _ E Hbb). cbn. lia.
  - destruct (SFleb v b'); cbn; lia.
Qed.

(** ** Counters *)

(** The increments of the counter [n] at a series that were not refused. *)
Definition increment (n key : jsstring) (op : Op) : option number :=
  match op with
  | CounterInc n' v l =>
      if bool_decide (n' = n) && bool_decide (seriesKey l = key)
         && negb (SFltb v (S754_zero false)) then Some v else None
  | _ => None
  end.
Definition increments (n key : jsstring) (ops : list Op) : list number := omap (increment n key) ops.

Definition totals (incs : list number) (o : option Slot) : Prop :=
  match incs with
  | [] => o = None
  | _ => exists s, o = Some s /\ slot_value s = fold_left number_add incs (S754_zero false)
  end.

Definition counted (n : jsstring) (m : ScalarMetric) (op : Op) : ScalarMetric :=
  match op with
  | CounterInc n' v l =>
      if bool_decide (n' = n) then match counter_inc v l m with Ok m' => m' | Err _ => m end else m
  | _ => m
  end.

Lemma counted_type n m op : type (counted n m op) = type m.
Proof.
  destruct op; cbn [counted]; try done. destruct (bool_decide _); [|done].
  unfold counter_inc. by destruct (SFltb _ _).
Qed.

Lemma act_counter n ops m : type m = counter ->
  fold_left (act n) ops (Scalar m) = Scalar (fold_left (counted n) ops m).
Proof.
  revert m. induction ops as [|op ops IH]; intros m Hm; [done|]. cbn [fold_left].
  rewrite <- IH by (by rewrite counted_type). f_equal.
  destruct op as [| | |n' v l|n' v l|n' v l|n' v l|n' v l]; cbn [act counted]; rewrite ?Hm; try done;
    destruct (bool_decide _); try done. by destruct (counter_inc v l m).
Qed.

Lemma counted_totals n help ops key :
  totals (increments n key ops)
    (lookupSeries key (series (fold_left (counted n) ops (MkScalar n help counter [])))).
Proof.
  induction ops as [|op ops IH] using rev_ind; [done|].
  rewrite fold_left_app. cbn [fold_left]. unfold increments in *. rewrite omap_app. cbn [omap list_omap].
  set (m := fold_left (counted n) ops _) in *.
  destruct op as [| | |n' v l|n' v l|n' v l|n' v l|n' v l]; cbn [counted increment];
    rewrite ?app_nil_r; try done.
  destruct (bool_decide (n' = n)); cbn [andb]; [|by rewrite app_nil_r].
  unfold counter_inc. destruct (SFltb v (S754_zero false)); cbn [negb].
  { by rewrite andb_false_r, app_nil_r. }
  rewrite andb_true_r. cbn [with_slot series]. rewrite lookup_update.
  destruct (bool_decide (seriesKey l = key)); [|by rewrite app_nil_r].
  unfold totals. destruct (omap (increment n key) ops ++ [v]) as [|x xs] eqn:E;
    [by destruct (omap (increment n key) ops)|]. rewrite <- E, fold_left_app.
  eexists. split; [done|]. cbn [slot_value fold_left]. f_equal.
  destruct (omap (increment n key) ops); cbn [totals] in IH; [by rewrite IH|].
  by destruct IH as (s0 & -> & <-).
Qed.

(** Small integers add up exactly. *)
Lemma integer_total zs : forall acc, 0 <= acc -> Forall (fun z => 0 <= z) zs ->
  acc + fold_right Z.add 0 zs < 2 ^ 53 ->
  fold_left number_add (map of_small zs) (of_small acc) = of_small (acc + fold_right Z.add 0 zs).
Proof.
  induction zs as [|z zs IH]; intros acc Ha Hz Ht; cbn [fold_right map fold_left] in *.
  - by rewrite Z.add_0_r.
  - apply List.Forall_cons_iff in Hz as [Hz Hzs].
    assert (0 <= fold_right Z.add 0 zs) by (clear -Hzs; induction Hzs; cbn; lia).
    rewrite number_add_small by lia. rewrite IH by (auto; lia). f_equal. lia.
Qed.

(** A counter holds for each label set the running sum of its increments: the exact total
    of integers below 2^53, printed as its digits. *)
Theorem counters_total_their_increments ops0 ops n help r key :
  register (Scalar (MkScalar n help counter [])) (run ops0) = Ok r ->
  exists c, find n (fold_left step ops r) = Some (Scalar c) /\ type c = counter
    /\ totals (increments n key ops) (lookupSeries key (series c))
    /\ forall zs, increments n key ops = map of_small zs -> zs <> [] -> Forall (fun z => 0 <= z) zs ->
         fold_right Z.add 0 zs < 2 ^ 53 ->
         exists s, lookupSeries key (series c) = Some s
           /\ slot_value s = of_small (fold_right Z.add 0 zs)
           /\ number_toString (slot_value s) = toString (fold_right Z.add 0 zs).
Proof.
  intros HR. pose proof (register_found _ _ _ HR) as HF. cbn [metric_name name] in HF.
  assert (HN : NoDup (names r)).
  { change r with (or_unchanged (run ops0) (Ok r)). rewrite <- HR. apply register_names, run_names. }
  pose proof (counted_totals n help ops key) as HT.
  eexists. split_and!; [by rewrite (find_after ops r n _ HN HF), act_counter| |exact HT|].
  - clear -HF. assert (H : forall m, type m = counter -> type (fold_left (counted n) ops m) = counter).
    { induction ops as [|op ops IH]; intros m Hm; [done|]. apply IH. by rewrite counted_type. }
    by apply H.
  - intros zs HI H0 Hz Ht. rewrite HI in HT. destruct zs as [|z zs]; [done|].
    destruct HT as (s & Hs & HV). exists s. split; [done|].
    assert (HS : slot_value s = of_small (fold_right Z.add 0 (z :: zs))).
    { rewrite HV. change (map of_small (z :: zs)) with (map of_small (z :: zs)).
      exact (integer_total (z :: zs) 0 ltac:(lia) Hz Ht). }
    split; [done|]. rewrite HS. apply number_toString_small.
    assert (0 <= fold_right Z.add 0 (z :: zs)) by (clear -Hz; induction Hz; cbn in *; lia). lia.
Qed.

(** ** Counters incremented by one *)

Definition one : number := number_of_Z 1.

Lemma ones k : replicate k one = map of_small (replicate k 1).
Proof. induction k as [|k IH]; cbn [replicate map]; [done|]. by rewrite IH. Qed.

Lemma ones_total k : fold_right Z.add 0 (replicate k 1) = Z.of_nat k.
Proof. induction k as [|k IH]; cbn [replicate fold_right]; lia. Qed.

(** The counter [n] of the registry reads [z] at a set of labels; a series that was never
    incremented is absent. *)
Definition counter_reads (n : jsstring) (labels : Labels) (z : Z) (r : Registry) : Prop :=
  exists c, find n r = Some (Scalar c) /\ type c = counter
    /\ match lookupSeries (seriesKey labels) (series c) with
       | Some s => 0 < z /\ slot_value s = of_small z /\ number_toString (slot_value s) = toString z
       | None => z = 0
       end.

Lemma counted_ones ops0 ops n help r labels k :
  register (Scalar (MkScalar n help counter [])) (run ops0) = Ok r ->
  increments n (seriesKey labels) ops = replicate k one -> Z.of_nat k < 2 ^ 53 ->
  counter_reads n labels (Z.of_nat k) (fold_left step ops r).
Proof.
  intros HR Hi Hk. destruct (counters_total_their_increments ops0 ops n help r (seriesKey labels) HR)
    as (c & Hf & Ht & HT & HE). exists c. split; [done|]. split; [done|]. rewrite Hi in HT, HE.
  destruct k as [|k].
  - cbn in HT. by rewrite HT.
  - destruct (HE (replicate (S k) 1)) as (s & -> & Hv & Hp).
    + apply ones.
    + done.
    + apply Forall_replicate. lia.
    + by rewrite ones_total.
    + rewrite ones_total in Hv, Hp. split; [lia|done].
Qed.

(** How many label sets of a list have the series of another. *)
Definition same_series (labels : Labels) (l : list Labels) : nat :=
  length (filter (fun l' => seriesKey l' = seriesKey labels) l).

Lemma same_series_app labels l l' :
  same_series labels (l ++ l') = (same_series labels l + same_series labels l')%nat.
Proof. unfold same_series. by rewrite filter_app, length_app. Qed.

#[export] Instance same_series_perm labels : Proper ((≡ₚ) ==> eq) (same_series labels).
Proof. intros l l' Hl. unfold same_series. by rewrite Hl. Qed.

Lemma increments_app n key ops ops' :
  increments n key (ops ++ ops') = increments n key ops ++ increments n key ops'.
Proof. apply omap_app. Qed.

(** An increment of a counter, seen from a series of it. *)
Lemma increments_one n l labels :
  increments n (seriesKey labels) [CounterInc n one l] = replicate (same_series labels [l]) one.
Proof.
  unfold increments, same_series. cbn [omap list_omap increment]. rewrite bool_decide_eq_true_2 by done.
  assert (negb (SFltb one (S754_zero false)) = true) as -> by by vm_compute.
  rewrite filter_cons, filter_nil. cbn [andb].
  destruct (decide (seriesKey l = seriesKey labels)) as [E|E];
    [by rewrite bool_decide_eq_true_2|by rewrite bool_decide_eq_false_2].
Qed.

(** ** Concrete registries *)

Definition sample_ops : list Op := [
  RegisterCounter (js "solans_index_events_total") (js "Indexed SOLANS instructions by type");
  RegisterHistogram (js "latency") (js "Seconds") None].

Definition sample_uses : list Op := [
  CounterInc (js "solans_index_events_total") (number_of_Z 1) [(js "type", LString (js "transfer"))];
  Observe (js "latency") (Number (js "0.3")) [(js "route", LString (js "/a" ++ dquote))];
  CounterInc (js "solans_index_events_total") (number_of_Z 3) [(js "type", LString (js "transfer"))]].

Lemma scraped_samples_are_the_metrics_witness :
  length (flat_map samples (run (sample_ops ++ sample_uses))) = 15%nat
  /\ parseExposition (expose (run (sample_ops ++ sample_uses)))
     = Some (flat_map samples (run (sample_ops ++ sample_uses))).
Proof.
  split; [vm_compute; reflexivity|]. apply scraped_samples_are_the_metrics. vm_compute. reflexivity.
Defined.

Definition sample_key : jsstring := seriesKey [(js "type", LString (js "transfer"))].
Definition route_key : jsstring := seriesKey [(js "route", LString (js "/a" ++ dquote))].

Lemma sample_register :
  register (Scalar (MkScalar (js "solans_index_events_total") (js "help") counter [])) (run [])
  = Ok (run [RegisterCounter (js "solans_index_events_total") (js "help")]).
Proof. vm_compute. reflexivity. Qed.

Lemma sample_increments :
  increments (js "solans_index_events_total") sample_key sample_uses = map of_small [1; 3].
Proof. vm_compute. reflexivity. Qed.

Lemma counters_total_their_increments_witness :
  exists c s, find (js "solans_index_events_total")
      (fold_left step sample_uses (run [RegisterCounter (js "solans_index_events_total") (js "help")]))
    = Some (Scalar c)
  /\ lookupSeries sample_key (series c) = Some s /\ number_toString (slot_value s) = toString 4.
Proof.
  pose proof (counters_total_their_increments [] sample_uses _ _ _ sample_key sample_register) as H.
  destruct H as (c & HF & _ & _ & HT).
  destruct (HT [1; 3] sample_increments) as (s & Hs & _ & HN); [done|repeat constructor; lia|cbn; lia|].
  exists c, s. split; [exact HF|]. split; [exact Hs|exact HN].
Defined.

Lemma sample_register_histogram :
  register (Hist (newHistogram (js "latency") (js "Seconds") None)) (run [])
  = Ok (run [RegisterHistogram (js "latency") (js "Seconds") None]).
Proof. vm_compute. reflexivity. Qed.

Lemma sample_observations :
  observations (js "latency") route_key sample_uses = [Number (js "0.3")].
Proof. vm_compute. reflexivity. Qed.

Lemma histograms_tell_their_observations_witness :
  exists h s, find (js "latency")
      (fold_left step sample_uses (run [RegisterHistogram (js "latency") (js "Seconds") None]))
    = Some (Hist h)
  /\ lookupSeries route_key (histogram_series h) = Some s /\ count s = 1
  /\ counts s = [0; 0; 0; 0; 0; 0; 1; 1; 1; 1; 1].
Proof.
  pose proof (histograms_tell_their_observations [] sample_uses _ _ _ _ route_key
    sample_register_histogram) as H.
  destruct H as (h & HF & HB & HT & _). rewrite sample_observations in HT.
  destruct HT as (s & Hs & HC & HN & _). exists h, s.
  split; [exact HF|]. split; [exact Hs|]. split; [exact HN|].
  rewrite HC, HB. vm_compute. reflexivity.
Defined.

Lemma plain_labels_check labels :
  forallb (fun kv => forallb (fun u => negb ((u =? 0) || (u =? 1))) (kv.1 ++ kv.2)) (texts labels)
  = true -> plain_labels labels.
Proof.
  intros H. apply forallb_Forall_iff in H. eapply List.Forall_impl; [|exact H].
  intros [k v] Hkv. rewrite forallb_forall in Hkv. cbn [fst snd] in *.
  repeat split; intros Hin;
    (assert (He := Hkv _ ltac:(apply in_app_iff; eauto)); by cbn in He).
Qed.

Lemma series_are_label_sets_witness :
  seriesKey [(js "method", LString (js "GET")); (js "status", LNumber (number_of_Z 200))]
  = seriesKey [(js "status", LString (js "200")); (js "method", LString (js "GET"))].
Proof.
  refine (proj2 (series_are_label_sets _ _ _ _ _) _).
  - vm_compute. apply NoDup_cons. split; [|apply NoDup_singleton].
    intros H. apply list_elem_of_singleton in H. discriminate H.
  - apply plain_labels_check. vm_compute. reflexivity.
  - apply plain_labels_check. vm_compute. reflexivity.
  - vm_compute. apply Permutation_swap.
Defined.
