(* ===== verification/ResolverService.v ===== *)
(** * The resolver service as a process

    [buildApp] of src/services/resolver/src/app.ts, complete: the handlers of [Resolver]
    behind Fastify's router, with the registry, the route of /metrics, the hook that counts
    responses and the counter of cache lookups.  Requests in flight interleave at their
    awaits, as in ResolverLaws.v; [Step] adds the registry, the requests that no handler of
    [Resolver] serves, and the responses.  The theorems: the counters tell what was served
    and looked up, and a run of the service is a run of ResolverLaws.v's process, so that
    what is proved of the cache there holds here. *)
From stdpp Require Import gmap.
From Stdlib Require Import SpecFloat.
From S2P Require Import Prelude JsString JsNumber Observability ObservabilityLaws.
From S2P Require Import Kit SmallKit Pdas Accounts Normalize JsDate Json Hosting IndexApp.
From S2P Require Import Resolver ResolverLaws.

(** ** Requests and responses *)

(** What the handler of a route reads of its request. *)
Inductive Route :=
| RMetrics
| RHealth
| RResolve (name : jsstring)
| RReverse (pubkey : jsstring)
| RDnsPost (body : bytes)
| RDnsGet (accept name type dns : option jsstring)
| RSite (name : jsstring)
| RSitePath (name subPath : jsstring).

(** [req.routeOptions.url] *)
Definition routeUrl (r : Route) : jsstring :=
  js match r with
     | RMetrics => "/metrics"
     | RHealth => "/health"
     | RResolve _ => "/resolve/:name"
     | RReverse _ => "/reverse/:pubkey"
     | RDnsPost _ | RDnsGet _ _ _ _ => "/dns-query"
     | RSite _ => "/site/:name"
     | RSitePath _ _ => "/site/:name/*"
     end%string.

(** A request: the route Fastify matched, and the status it refuses the request with itself
    before the handler runs (a body type no parser takes, a body too large). *)
Record HttpRequest := MkHttp { method : jsstring; route : option Route; refused : option Z }.

Inductive Payload :=
| Replied (r : Reply)
| Exposition (text : jsstring)
| Failed (e : JsError)
| ByFastify (status : Z).

(** [reply.statusCode] *)
Definition statusCode (p : Payload) : Z :=
  match p with
  | Replied r => code r
  | Exposition _ => 200
  | Failed _ => 500
  | ByFastify s => s
  end.

(** The content type a handler sets itself. *)
Definition payloadType (p : Payload) : option jsstring :=
  match p with
  | Replied r => contentType r
  | Exposition _ => Some CONTENT_TYPE
  | _ => None
  end.

(** [(req.routeOptions?.url ?? "unknown").split("?")[0]] *)
Definition routeLabel (req : HttpRequest) : jsstring :=
  hd [] (split 63 match route req with Some r => routeUrl r | None => js "unknown" end).

(** A response, and the milliseconds it took. *)
Record Response := MkResponse { request : HttpRequest; payload : Payload; elapsed : number }.

(** ** The metrics *)

Abbreviation REQUESTS := (js "solans_http_requests_total").
Abbreviation DURATION := (js "solans_http_request_duration_seconds").
Abbreviation CACHE := (js "solans_resolver_cache_total").

Definition resolverMetrics : Registry :=
  Observability.run
    [RegisterCounter REQUESTS (js "Resolver HTTP requests handled");
     RegisterHistogram DURATION (js "Resolver HTTP request duration in seconds") None;
     RegisterCounter CACHE (js "Resolver read-through cache lookups")].

Definition requestLabels (r : Response) : Labels :=
  [(js "method", LString (method (request r))); (js "route", LString (routeLabel (request r)));
   (js "status", LNumber (number_of_Z (statusCode (payload r))))].

(** The [onResponse] hook. *)
Definition onResponse (r : Response) : list Op :=
  [CounterInc REQUESTS (number_of_Z 1) (requestLabels r);
   Observe DURATION (number_div (elapsed r) (number_of_Z 1000))
     [(js "method", LString (method (request r))); (js "route", LString (routeLabel (request r)))]].

Definition lookupLabels (hit : bool) : Labels :=
  [(js "result", LString (if hit then js "hit" else js "miss"))].

(** [cacheOps.inc(1, { result })] *)
Definition countLookup (hit : bool) : Op := CounterInc CACHE (number_of_Z 1) (lookupLabels hit).

(** ** Requests in flight *)

(** What serves a request: a handler of [Resolver], the handler of /metrics, or Fastify. *)
Inductive Work :=
| Handling (p : Prog Reply)
| Scraping
| Answering (p : Payload).

(** A thread is kept once its response is sent. *)
Record Thread := MkThread { asked : HttpRequest; work : Work; sent : bool }.

(** The clock and the cache are those of [Config]; [lookups] are the outcomes of the cache
    lookups made so far. *)
Record Service := MkService {
  time : Z; cache : Store; registry : Registry; inFlight : list Thread;
  responses : list Response; answered : list Answered; lookups : list bool
}.

Section Service.
Context `{HU : Unicode} `{HK : Kit} `{HA : !AppKit} `{HD : DnsPacket} `{HN : NodeText}.
Variable opts : BuildOpts.

(** The request of [Resolver] a route serves. *)
Definition requestOf (r : Route) : option Request :=
  match r with
  | RMetrics => None
  | RHealth => Some GetHealth
  | RResolve name => Some (GetResolve name)
  | RReverse pubkey => Some (GetReverse pubkey)
  | RDnsPost body => Some (PostDns body)
  | RDnsGet accept name type dns => Some (GetDns accept name type dns)
  | RSite name => Some (GetSite name [])
  | RSitePath name sub => Some (GetSite name sub)
  end.

Definition serve (req : HttpRequest) : Work :=
  match refused req, route req with
  | Some status, _ => Answering (ByFastify status)
  | None, None => Answering (ByFastify 404)
  | None, Some r =>
      match requestOf r with
      | Some q => Handling (handle opts q)
      | None => Scraping
      end
  end.

Definition continue (t : Thread) (p : Prog Reply) : Thread := MkThread (asked t) (Handling p) (sent t).

(** What a thread that awaits nothing sends. *)
Definition outcome (w : Work) : option Payload :=
  match w with
  | Handling (Ret r) => Some (Replied r)
  | Handling (Throw e) => Some (Failed e)
  | Answering p => Some p
  | _ => None
  end.

(** Time passes; a request arrives; a handler completes an awaited call or counts a lookup;
    the registry is rendered; a response leaves. *)
Inductive Step : Service -> Service -> Prop :=
| StepTime t s r ths out h l t' :
    t <= t' -> Step (MkService t s r ths out h l) (MkService t' s r ths out h l)
| StepArrive t s r ths out h l req :
    Step (MkService t s r ths out h l)
      (MkService t s r (ths ++ [MkThread req (serve req) false]) out h l)
| StepGet t s r ths out h l i th key k s' found :
    ths !! i = Some th -> work th = Handling (Get key k) -> cacheGet t key s = (s', found) ->
    Step (MkService t s r ths out h l)
      (MkService t s' r (<[i := continue th (k found)]> ths) out h
         (l ++ [bool_decide (is_Some found)]))
| StepSet t s r ths out h l i th key v ttl k :
    ths !! i = Some th -> work th = Handling (Set_ key v ttl k) ->
    Step (MkService t s r ths out h l)
      (MkService t (cacheSet t key v ttl s) r (<[i := continue th k]> ths) out h l)
| StepCount t s r ths out h l i th hit k :
    ths !! i = Some th -> work th = Handling (Count hit k) ->
    Step (MkService t s r ths out h l)
      (MkService t s (Observability.step r (countLookup hit)) (<[i := continue th k]> ths) out h l)
| StepAsk t s r ths out h l i th c k a :
    ths !! i = Some th -> work th = Handling (Ask c k) -> result_ok c a ->
    Step (MkService t s r ths out h l)
      (MkService t s r (<[i := continue th (k a)]> ths) out (MkAnswered t c a :: h) l)
| StepFetch t s r ths out h l i th url k a :
    ths !! i = Some th -> work th = Handling (Fetch url k) ->
    Step (MkService t s r ths out h l) (MkService t s r (<[i := continue th (k a)]> ths) out h l)
| StepScrape t s r ths out h l i th :
    ths !! i = Some th -> work th = Scraping ->
    Step (MkService t s r ths out h l)
      (MkService t s r
         (<[i := MkThread (asked th) (Answering (Exposition (expose r))) (sent th)]> ths) out h l)
| StepRespond t s r ths out h l i th p ms :
    ths !! i = Some th -> sent th = false -> outcome (work th) = Some p ->
    let resp := MkResponse (asked th) p ms in
    Step (MkService t s r ths out h l)
      (MkService t s (fold_left Observability.step (onResponse resp) r)
         (<[i := MkThread (asked th) (work th) true]> ths) (out ++ [resp]) h l).

Inductive reachable : Service -> Prop :=
| reachable_start t : reachable (MkService t ∅ resolverMetrics [] [] [] [])
| reachable_step c c' : reachable c -> Step c c' -> reachable c'.

(** ** The process of ResolverLaws.v *)

Definition program (t : Thread) : option (Prog Reply) :=
  match work t with Handling p => Some p | _ => None end.

Definition config (c : Service) : Config :=
  MkConfig (time c) (cache c) (omap program (inFlight c)) (answered c).

Lemma omap_insert {B} (f : Thread -> option B) (ths : list Thread) i t t' :
  ths !! i = Some t ->
  omap f ths = omap f (take i ths) ++ omap f [t] ++ omap f (drop (S i) ths)
  /\ omap f (<[i := t']> ths) = omap f (take i ths) ++ omap f [t'] ++ omap f (drop (S i) ths).
Proof.
  intros Hi. pose proof (lookup_lt_Some _ _ _ Hi) as Hl.
  split; rewrite <- !omap_app; f_equal; cbn [app].
  - by rewrite take_drop_middle.
  - by rewrite insert_take_drop.
Qed.

Lemma omap_insert_Some (ths : list Thread) i t t' p p' :
  ths !! i = Some t -> program t = Some p -> program t' = Some p' ->
  exists j, omap program ths !! j = Some p
    /\ omap program (<[i := t']> ths) = <[j := p']> (omap program ths).
Proof.
  intros Hi Hp Hp'. destruct (omap_insert program ths i t t' Hi) as [H1 H2].
  cbn [omap list_omap] in H1, H2. rewrite Hp in H1. rewrite Hp' in H2. rewrite H1, H2.
  exists (length (omap program (take i ths)) + 0)%nat.
  rewrite insert_app_r, lookup_app_r by lia. split; [|done]. by rewrite Nat.add_comm, Nat.add_sub.
Qed.

Lemma omap_insert_same (ths : list Thread) i t t' :
  ths !! i = Some t -> program t' = program t ->
  omap program (<[i := t']> ths) = omap program ths.
Proof.
  intros Hi Hp. destruct (omap_insert program ths i t t' Hi) as [-> ->].
  cbn [omap list_omap]. by rewrite Hp.
Qed.

Lemma config_step c c' : Step c c' ->
  config c' = config c \/ ResolverLaws.Step opts (config c) (config c').
Proof.
  intros HS. destruct HS as [t s r ths out h l t' Ht|t s r ths out h l req
    |t s r ths out h l i th key k s' found Hi Hw HG|t s r ths out h l i th key v ttl k Hi Hw
    |t s r ths out h l i th hit k Hi Hw|t s r ths out h l i th c k a Hi Hw Ha
    |t s r ths out h l i th url k a Hi Hw|t s r ths out h l i th Hi Hw
    |t s r ths out h l i th p ms Hi Hs Ho];
    unfold config; cbn [time cache inFlight answered].
  - right. by constructor.
  - unfold serve. destruct (refused req), (route req) as [rt|]; cbn [omap list_omap];
      try (left; by rewrite omap_app, app_nil_r).
    destruct (requestOf rt) eqn:Hq; [|left; by rewrite omap_app, app_nil_r].
    right. rewrite omap_app. apply ResolverLaws.StepArrive.
  - right. destruct (omap_insert_Some ths i th (continue th (k found)) (Get key k) (k found) Hi)
      as (j & Hj & ->); [by unfold program; rewrite Hw|done|]. by eapply ResolverLaws.StepGet.
  - right. destruct (omap_insert_Some ths i th (continue th k) (Set_ key v ttl k) k Hi)
      as (j & Hj & ->); [by unfold program; rewrite Hw|done|]. by eapply ResolverLaws.StepSet.
  - right. destruct (omap_insert_Some ths i th (continue th k) (Count hit k) k Hi)
      as (j & Hj & ->); [by unfold program; rewrite Hw|done|]. by eapply ResolverLaws.StepCount.
  - right. destruct (omap_insert_Some ths i th (continue th (k a)) (Ask c k) (k a) Hi)
      as (j & Hj & ->); [by unfold program; rewrite Hw|done|]. by eapply ResolverLaws.StepAsk.
  - right. destruct (omap_insert_Some ths i th (continue th (k a)) (Fetch url k) (k a) Hi)
      as (j & Hj & ->); [by unfold program; rewrite Hw|done|]. by eapply ResolverLaws.StepFetch.
  - left. f_equal. apply (omap_insert_same _ _ _ _ Hi). by unfold program; rewrite Hw.
  - left. f_equal. by apply (omap_insert_same _ _ _ _ Hi).
Qed.

(** Every state of the resolver service, whatever requests are in flight and
    however their awaited calls interleave, is a state of the process ResolverLaws.v proves
    the cache's freshness of: the metrics, the responses and the requests Fastify answers
    itself change nothing of the cache, the clock, the handlers or the answers. *)
Theorem service_runs_the_resolver c :
  reachable c -> ResolverLaws.reachable opts (config c).
Proof.
  induction 1 as [t|c c' _ IH HS]; [constructor|].
  destruct (config_step c c' HS) as [->|HS']; [done|]. by eapply ResolverLaws.reachable_step.
Qed.

(** ** Every lookup is counted *)

(** Each cache lookup is followed by the count of its outcome, and nothing else counts;
    [due] is the outcome to be counted next. *)
Fixpoint counted {A} (due : option bool) (p : Prog A) : Prop :=
  match p, due with
  | Count hit k, Some b => hit = b /\ counted None k
  | Ret _, None | Throw _, None => True
  | Get _ k, None => forall found, counted (Some (bool_decide (is_Some found))) (k found)
  | Set_ _ _ _ k, None => counted None k
  | Ask _ k, None => forall a, counted None (k a)
  | Fetch _ k, None => forall a, counted None (k a)
  | _, _ => False
  end.

Lemma counted_bind {A B} due (p : Prog A) (f : A -> Prog B) :
  counted due p -> (forall a, counted None (f a)) -> counted due (p ≫= f).
Proof. intros Hp Hf. revert due Hp. induction p; intros [b|] Hp; cbn in *; naive_solver. Qed.

Lemma counted_catch {A} due (p : Prog A) h :
  counted due p -> (forall e, counted None (h e)) -> counted due (prog_catch p h).
Proof. intros Hp Hh. revert due Hp. induction p; intros [b|] Hp; cbn in *; naive_solver. Qed.

Lemma counted_result {A} (r : result JsError A) : counted None (from_result r).
Proof. by destruct r. Qed.

Lemma counted_producer key p : producer key p -> counted None p.
Proof.
  intros H. inversion H; subst; unfold fetchResolve, fetchReverse, fetchRecords, ask.
  - intros [[d|]|e]; cbn; [apply counted_result|done..].
  - apply counted_bind; [apply counted_result|]. by intros a [o|e].
  - by intros [l|e].
Qed.

Lemma counted_cached key p : producer key p -> counted None (cached opts key p).
Proof.
  intros Hp. apply counted_producer in Hp. unfold cached. destruct (hasCache opts); cbn [negb]; [|done].
  intros [text|]; cbn; (split; [done|]); [apply counted_result|]. by apply counted_bind.
Qed.

Lemma counted_records name : counted None (recordsOf opts name).
Proof. apply counted_cached, producer_records. Qed.

Lemma counted_binary b : counted None (binaryDoh opts b).
Proof.
  unfold binaryDoh. destruct (decodeDohQuery b) as [q|]; [|done].
  apply counted_bind; [apply counted_catch; [apply counted_records|done]|]. intros j.
  apply counted_bind; [apply counted_result|]. intros l.
  apply counted_bind; [apply counted_result|done].
Qed.

Lemma counted_json name type : counted None (jsonDoh opts name type).
Proof.
  apply counted_bind.
  - apply counted_catch; [|done]. apply counted_bind; [apply counted_records|done].
  - intros [r|j]; [done|]. by apply counted_bind; [apply counted_result|].
Qed.

Lemma handle_counted q : counted None (handle opts q).
Proof.
  destruct q as [|n|pk|accept n type dns|b|n sub]; cbn [handle]; [done| | | |apply counted_binary|].
  - apply counted_catch; [|done]. apply counted_bind; [|done]. apply counted_cached. constructor.
  - apply counted_catch; [|done]. apply counted_bind; [|done]. apply counted_cached. constructor.
  - unfold dnsGetRoute. repeat case_match; try done; apply counted_binary || apply counted_json.
  - unfold siteRoute. intros [[[|u r]|]|e]; try done.
    destruct (hostingUrl _ _ _) as [[|v url]|]; try done. apply counted_catch; [|done].
    apply counted_bind; [|done]. intros r'. apply counted_result.
Qed.

(** The outcomes that threads are about to count. *)
Definition dueOf (t : Thread) : option bool :=
  match work t with Handling (Count hit _) => Some hit | _ => None end.

Definition due (c : Service) : list bool := omap dueOf (inFlight c).

Definition thread_counted (t : Thread) : Prop :=
  match work t with Handling p => counted (dueOf t) p | _ => True end.

Lemma counted_due A d (p : Prog A) :
  counted d p -> d = match p with Count hit _ => Some hit | _ => None end.
Proof. destruct p, d; cbn; try done. by intros [-> _]. Qed.

Lemma continue_counted t d p : counted d p -> thread_counted (continue t p) /\ dueOf (continue t p) = d.
Proof.
  intros Hp. unfold thread_counted, dueOf. cbn [work continue].
  pose proof (counted_due _ _ _ Hp) as Hd. rewrite <- Hd. done.
Qed.

(** The operations on the registry since the start, and the lookups counted. *)
Record told_by (c : Service) (ops : list Op) (done : list bool) : Prop := {
  registry_by : registry c = fold_left Observability.step ops resolverMetrics;
  requests_by labels : increments REQUESTS (seriesKey labels) ops
    = replicate (same_series labels (map requestLabels (responses c))) one;
  lookups_by labels : increments CACHE (seriesKey labels) ops
    = replicate (same_series labels (map lookupLabels done)) one;
  lookups_due : lookups c ≡ₚ done ++ due c;
}.

Record accounted (c : Service) : Prop := {
  accounted_ops : exists ops done, told_by c ops done;
  accounted_threads : Forall thread_counted (inFlight c);
}.

Lemma service_told_more c c' ops more done now outs :
  told_by c ops done -> registry c' = fold_left Observability.step more (registry c) ->
  responses c' = responses c ++ outs ->
  (forall labels, increments REQUESTS (seriesKey labels) more
     = replicate (same_series labels (map requestLabels outs)) one) ->
  (forall labels, increments CACHE (seriesKey labels) more
     = replicate (same_series labels (map lookupLabels now)) one) ->
  lookups c' ≡ₚ (done ++ now) ++ due c' ->
  told_by c' (ops ++ more) (done ++ now).
Proof.
  intros [HR HQ HL _] HR' HO HQ' HL' HE'. split; [| | |exact HE'].
  - by rewrite fold_left_app, <- HR.
  - intros labels. by rewrite increments_app, HQ, HQ', HO, map_app, same_series_app, replicate_add.
  - intros labels. by rewrite increments_app, HL, HL', map_app, same_series_app, replicate_add.
Qed.

(** A step that counts nothing and leaves the lookups due as they are. *)
Lemma accounted_quiet c t s ths h :
  accounted c -> Forall thread_counted ths -> omap dueOf ths = due c ->
  accounted (MkService t s (registry c) ths (responses c) h (lookups c)).
Proof.
  intros [(ops & done & HO) _] HT HE. split; [|done]. exists (ops ++ []), (done ++ []).
  apply (service_told_more c _ ops [] done [] [] HO); cbn; [done|by rewrite app_nil_r|done|done|].
  rewrite app_nil_r. unfold due. cbn [inFlight]. rewrite HE. apply HO.
Qed.

(** The lookups due when the thread [t] becomes [t']. *)
Lemma due_insert (ths : list Thread) i t t' :
  ths !! i = Some t -> exists rest,
    omap dueOf ths ≡ₚ option_list (dueOf t) ++ rest
    /\ omap dueOf (<[i := t']> ths) ≡ₚ option_list (dueOf t') ++ rest.
Proof.
  intros Hi. destruct (omap_insert dueOf ths i t t' Hi) as [-> ->].
  exists (omap dueOf (take i ths) ++ omap dueOf (drop (S i) ths)).
  assert (HE : forall u, omap dueOf [u] = option_list (dueOf u)) by (intros u; cbn; by destruct (dueOf u)).
  rewrite !HE. split; apply Permutation_app_swap_app.
Qed.

Lemma due_same (ths : list Thread) i t t' :
  ths !! i = Some t -> dueOf t' = dueOf t -> omap dueOf (<[i := t']> ths) = omap dueOf ths.
Proof.
  intros Hi HE. destruct (omap_insert dueOf ths i t t' Hi) as [-> ->]. cbn [omap list_omap].
  by rewrite HE.
Qed.

Lemma thread_handling ths i th p :
  Forall thread_counted ths -> ths !! i = Some th -> work th = Handling p -> counted (dueOf th) p.
Proof.
  intros HT Hi Hw. pose proof (proj1 (Forall_lookup _ _) HT i th Hi) as Hp.
  unfold thread_counted in Hp. by rewrite Hw in Hp.
Qed.

(** A handler that completes an awaited call which looks nothing up. *)
Lemma accounted_awaited t s r ths out h l i th k t' s' h' :
  accounted (MkService t s r ths out h l) -> ths !! i = Some th ->
  dueOf th = None -> counted None k ->
  accounted (MkService t' s' r (<[i := continue th k]> ths) out h' l).
Proof.
  intros HC Hi Hd Hk. destruct (continue_counted th _ _ Hk) as [Ht Hd'].
  apply (accounted_quiet _ t' s' _ h' HC).
  - apply Forall_insert; [apply HC|done].
  - apply (due_same _ _ _ _ Hi). by rewrite Hd, Hd'.
Qed.

Lemma serve_counted req b : thread_counted (MkThread req (serve req) b) /\ dueOf (MkThread req (serve req) b) = None.
Proof.
  unfold serve. destruct (refused req); [done|]. destruct (route req) as [r|]; [|done].
  destruct (requestOf r) as [q|]; [|done].
  exact (continue_counted (MkThread req Scraping b) None _ (handle_counted q)).
Qed.

Lemma service_accounted_step c c' : accounted c -> Step c c' -> accounted c'.
Proof.
  intros HC HS. destruct HS as [t s r ths out h l t' Ht|t s r ths out h l req
    |t s r ths out h l i th key k s' found Hi Hw HG|t s r ths out h l i th key v ttl k Hi Hw
    |t s r ths out h l i th hit k Hi Hw|t s r ths out h l i th c k a Hi Hw Ha
    |t s r ths out h l i th url k a Hi Hw|t s r ths out h l i th Hi Hw
    |t s r ths out h l i th p ms Hi Hs Ho];
    try (pose proof (thread_handling _ _ _ _ (accounted_threads _ HC) Hi Hw) as Hp;
         pose proof (counted_due _ _ _ Hp) as Hd; cbn in Hd; rewrite Hd in Hp; cbn in Hp);
    try (by apply (accounted_awaited _ _ _ _ _ _ _ _ _ _ _ _ _ HC Hi Hd)).
  - by apply (accounted_quiet _ t' s ths h HC); [apply HC|].
  - destruct (serve_counted req false) as [Ht Hd]. apply (accounted_quiet _ t s _ h HC).
    + apply Forall_app. split; [apply HC|by constructor].
    + unfold due. cbn [inFlight]. rewrite omap_app. cbn [omap list_omap]. by rewrite Hd, app_nil_r.
  - destruct (continue_counted th _ _ (Hp found)) as [Ht Hd'].
    destruct HC as [(ops & done & HO) HT]. split; [|by apply Forall_insert].
    exists (ops ++ []), (done ++ []). apply (service_told_more _ _ ops [] done [] [] HO);
      cbn [registry responses lookups]; [done|by rewrite app_nil_r|done|done|].
    destruct HO as [_ _ _ HL]. unfold due in *. cbn [inFlight lookups] in *.
    destruct (due_insert ths i th (continue th (k found)) Hi) as (rest & H1 & H2).
    rewrite H1, Hd in HL. rewrite H2, Hd', HL, app_nil_r, <- app_assoc.
    apply Permutation_app_head. cbn. apply Permutation_sym, Permutation_cons_append.
  - destruct (continue_counted th _ _ (proj2 Hp)) as [Ht Hd'].
    destruct HC as [(ops & done & HO) HT]. split; [|by apply Forall_insert].
    exists (ops ++ [countLookup hit]), (done ++ [hit]).
    apply (service_told_more _ _ ops _ done [hit] [] HO); cbn [registry responses lookups map];
      [done|by rewrite app_nil_r|done|intros labels; apply increments_one|].
    destruct HO as [_ _ _ HL]. unfold due in *. cbn [inFlight lookups] in *.
    destruct (due_insert ths i th (continue th k) Hi) as (rest & H1 & H2).
    rewrite H1, Hd in HL. by rewrite H2, Hd', HL, <- app_assoc.
  - apply (accounted_quiet _ t s _ h HC).
    + by apply Forall_insert; [apply HC|].
    + apply (due_same _ _ _ _ Hi). unfold dueOf. by rewrite Hw.
  - pose proof (accounted_threads _ HC) as HT.
    assert (Hd : omap dueOf (<[i := MkThread (asked th) (work th) true]> ths) = omap dueOf ths)
      by by apply (due_same _ _ _ _ Hi).
    destruct HC as [(ops & done & HO) _]. split.
    + exists (ops ++ onResponse resp), (done ++ []).
      apply (service_told_more _ _ ops _ done [] [resp] HO); cbn [registry responses lookups map];
        [done|done|intros labels; apply (increments_one _ _ labels)|done|].
      destruct HO as [_ _ _ HL]. unfold due in *. cbn [inFlight lookups] in *.
      by rewrite Hd, app_nil_r.
    + apply Forall_insert; [done|]. exact (proj1 (Forall_lookup _ _) HT i th Hi).
Qed.

Lemma service_accounted c : reachable c -> accounted c.
Proof.
  induction 1 as [t|c c' _ IH HS]; [|by eapply service_accounted_step]. split; [|constructor].
  exists [], []. by split.
Qed.

Lemma service_told_reads c ops done : told_by c ops done ->
  (forall labels, let n := same_series labels (map requestLabels (responses c)) in
     Z.of_nat n < 2 ^ 53 -> counter_reads REQUESTS labels (Z.of_nat n) (registry c))
  /\ (forall labels, let n := same_series labels (map lookupLabels done) in
     Z.of_nat n < 2 ^ 53 -> counter_reads CACHE labels (Z.of_nat n) (registry c)).
Proof.
  intros [HR HQ HL _]. split; intros labels n Hn; rewrite HR.
  - apply (counted_ones [] (RegisterHistogram DURATION (js "Resolver HTTP request duration in seconds") None
      :: RegisterCounter CACHE (js "Resolver read-through cache lookups") :: ops)
      REQUESTS (js "Resolver HTTP requests handled")
      (Observability.run [RegisterCounter REQUESTS (js "Resolver HTTP requests handled")]) labels);
      [by vm_compute|apply HQ|done].
  - apply (counted_ones [RegisterCounter REQUESTS (js "Resolver HTTP requests handled");
      RegisterHistogram DURATION (js "Resolver HTTP request duration in seconds") None] ops
      CACHE (js "Resolver read-through cache lookups") resolverMetrics labels);
      [by vm_compute|apply HL|done].
Qed.

(** How many of the outcomes are [hit]. *)
Definition outcomes (hit : bool) (l : list bool) : nat := length (filter (fun b => b = hit) l).

Lemma lookup_series hit l : same_series (lookupLabels hit) (map lookupLabels l) = outcomes hit l.
Proof.
  unfold same_series, outcomes. induction l as [|b l IH]; [done|]. cbn [map]. rewrite !filter_cons.
  destruct (decide (seriesKey _ = _)) as [E|E], (decide (b = hit)) as [F|F]; cbn [length];
    rewrite ?IH; try done; [|by subst]. by destruct b, hit.
Qed.

(** C29: At any moment of the resolver process the requests counter reads for each method,
    route and status the number of responses sent, and the lookups counter reads for hits
    and for misses the lookups the cache answered so, less those whose handler is about to
    count them; so every scrape of an idle resolver gives the true hit rate. *)
Theorem counters_tell_responses_and_lookups c :
  reachable c ->
  (forall labels, let n := same_series labels (map requestLabels (responses c)) in
     Z.of_nat n < 2 ^ 53 -> counter_reads REQUESTS labels (Z.of_nat n) (registry c))
  /\ (forall hit, Z.of_nat (outcomes hit (lookups c)) < 2 ^ 53 ->
       counter_reads CACHE (lookupLabels hit)
         (Z.of_nat (outcomes hit (lookups c)) - Z.of_nat (outcomes hit (due c))) (registry c)).
Proof.
  intros HR. destruct (service_accounted c HR) as [(ops & done & HO) _].
  destruct (service_told_reads c ops done HO) as [HQ HL]. split; [exact HQ|]. intros hit Hn.
  assert (HE : outcomes hit (lookups c) = (outcomes hit done + outcomes hit (due c))%nat).
  { unfold outcomes. by rewrite (lookups_due _ _ _ HO), filter_app, length_app. }
  specialize (HL (lookupLabels hit)). cbv zeta in HL. rewrite lookup_series in HL.
  replace (Z.of_nat (outcomes hit (lookups c)) - _) with (Z.of_nat (outcomes hit done)) by lia.
  apply HL. lia.
Qed.

(** ** A schedule of steps that are answered *)

Definition arrive (req : HttpRequest) (c : Service) : Service :=
  MkService (time c) (cache c) (registry c) (inFlight c ++ [MkThread req (serve req) false])
    (responses c) (answered c) (lookups c).

Definition respond (i : nat) (th : Thread) (p : Payload) (c : Service) : Service :=
  let resp := MkResponse (asked th) p (S754_zero false) in
  MkService (time c) (cache c) (fold_left Observability.step (onResponse resp) (registry c))
    (<[i := MkThread (asked th) (work th) true]> (inFlight c)) (responses c ++ [resp])
    (answered c) (lookups c).

(** The next step of the thread number [i], answered as [env] does. *)
Definition advance (env : Env) (c : Service) (i : nat) : Service :=
  match inFlight c !! i with
  | None => c
  | Some th =>
      let put s r p h l :=
        MkService (time c) s r (<[i := continue th p]> (inFlight c)) (responses c) h l in
      match work th with
      | Handling (Get key k) =>
          let '(s, found) := cacheGet (time c) key (cache c) in
          put s (registry c) (k found) (answered c) (lookups c ++ [bool_decide (is_Some found)])
      | Handling (Set_ key v ttl k) =>
          put (cacheSet (time c) key v ttl (cache c)) (registry c) k (answered c) (lookups c)
      | Handling (Count hit k) =>
          put (cache c) (Observability.step (registry c) (countLookup hit)) k (answered c) (lookups c)
      | Handling (Ask q k) =>
          put (cache c) (registry c) (k (replyOf env q))
            (MkAnswered (time c) q (replyOf env q) :: answered c) (lookups c)
      | Handling (Fetch url k) =>
          put (cache c) (registry c) (k (upstreamOf env url)) (answered c) (lookups c)
      | Handling (Ret r) => if sent th then c else respond i th (Replied r) c
      | Handling (Throw e) => if sent th then c else respond i th (Failed e) c
      | Scraping =>
          MkService (time c) (cache c) (registry c)
            (<[i := MkThread (asked th) (Answering (Exposition (expose (registry c)))) (sent th)]>
               (inFlight c)) (responses c) (answered c) (lookups c)
      | Answering p => if sent th then c else respond i th p c
      end
  end.

Lemma service_arrives req c : reachable c -> reachable (arrive req c).
Proof. intros HR. eapply reachable_step; [exact HR|]. destruct c. constructor. Qed.

Lemma service_responds i th p c : reachable c -> inFlight c !! i = Some th -> sent th = false ->
  outcome (work th) = Some p -> reachable (respond i th p c).
Proof.
  intros HR Hi Hs Ho. eapply reachable_step; [exact HR|]. destruct c. by apply StepRespond.
Qed.

Lemma service_advances env c i : env_ok env -> reachable c -> reachable (advance env c i).
Proof.
  intros Henv HR. unfold advance. destruct (inFlight c !! i) as [th|] eqn:Hi; [|done].
  assert (Hsend : forall p, outcome (work th) = Some p ->
    reachable (if sent th then c else respond i th p c))
    by (intros p Ho; destruct (sent th) eqn:Hs; [done|by apply service_responds]).
  destruct c as [t s r ths out h l]. cbn [inFlight time cache registry responses answered lookups] in *.
  destruct (work th) as [[a|e|key k|key v ttl k|hit k|q k|url k]| |p] eqn:Hw; try (by apply Hsend);
    try (eapply reachable_step; [exact HR|]; by econstructor).
  destruct (cacheGet t key s) as [s' found] eqn:HG. eapply reachable_step; [exact HR|].
  by econstructor.
Qed.

Lemma service_schedules env l c : env_ok env -> reachable c -> reachable (fold_left (advance env) l c).
Proof.
  intros Henv. revert c. induction l as [|i l IH]; intros c HR; [done|]. by apply IH, service_advances.
Qed.

Definition start (t : Z) : Service := MkService t ∅ resolverMetrics [] [] [] [].
End Service.

(** ** Concrete services *)

Section Sample.
#[local] Existing Instance SmallUnicode.

Definition get (r : Route) : HttpRequest := MkHttp (js "GET") (Some r) None.

(** Two lookups of the same address in flight at once, a third when they are done, and a
    fourth that has looked the cache up and not yet counted it; a preflight no route takes. *)
Definition scraped : Service :=
  let ask c := arrive sample_opts (get (RReverse (small_addr 1))) c in
  let go c l := fold_left (advance sample_env) l c in
  let both := go (ask (ask (start 5000))) [0; 1; 0; 1; 0; 1; 0; 1; 0; 1]%nat in
  let third := go (ask both) [2; 2; 2]%nat in
  go (ask (arrive sample_opts (MkHttp (js "OPTIONS") None None) third)) [3; 4]%nat.

Lemma scraped_reachable : reachable sample_opts scraped.
Proof.
  repeat ((apply service_schedules; [apply sample_env_ok|]) || apply service_arrives).
  apply reachable_start.
Qed.

Lemma scraped_now : lookups scraped = [false; false; true; true] /\ due scraped = [true]
  /\ map (fun r => statusCode (payload r)) (responses scraped) = [200; 200; 200; 404].
Proof. split; [|split]; vm_compute; reflexivity. Qed.

(** Both handlers in flight missed; of the two hits one is counted. *)
Lemma counters_tell_responses_and_lookups_witness :
  counter_reads CACHE (lookupLabels true) 1 (registry scraped)
  /\ counter_reads CACHE (lookupLabels false) 2 (registry scraped).
Proof.
  destruct (counters_tell_responses_and_lookups sample_opts scraped scraped_reachable) as [_ H].
  destruct scraped_now as (HL & HD & _). rewrite HL, HD in H. split.
  - specialize (H true). vm_compute (Z.of_nat _ - Z.of_nat _) in H. apply H. vm_compute. reflexivity.
  - specialize (H false). vm_compute (Z.of_nat _ - Z.of_nat _) in H. apply H. vm_compute. reflexivity.
Defined.

(** The texts the cache serves in it were answered less than the TTL ago. *)
Lemma service_runs_the_resolver_witness :
  ResolverLaws.reachable sample_opts (config scraped)
  /\ length (ResolverLaws.threads (config scraped)) = 4%nat.
Proof.
  split; [exact (service_runs_the_resolver sample_opts scraped scraped_reachable)|].
  vm_compute. reflexivity.
Defined.
End Sample.
