(* ===== verification/IndexService.v ===== *)
(** * The indexer service as a process

    [buildApp] of src/services/indexer/src/app.ts, complete: the routes with the query
    parsing of /search, the CORS hook, the metrics and the hook that counts responses.
    The injected store is asynchronous: a handler is a [Prog], the tree of the calls it
    awaits, so that requests in flight interleave at their awaits ([Step]).  What Fastify
    itself does is modelled as far as the source relies on it: it runs the hooks around
    the handler of the route it matched and answers 404 where it matched none. *)
From Stdlib Require Import SpecFloat.
From S2P Require Import Prelude JsString JsNumber Observability ObservabilityLaws.
From S2P Require Import Kit SmallKit Pdas Instruction NameInstructions IndexParse IndexStore IndexApp.

(** ** What a handler awaits *)

(** The calls of the [IndexStore] interface and their answers. *)
Inductive Call :=
| Upsert (e : NameEntry)
| GetByRecord (nameRecord : Address)
| GetByName (fullName : jsstring)
| ByOwner (owner : Address)
| SearchFor (prefix : jsstring) (limit : option number)
| Watchlist
| Listings.

Definition answer (c : Call) : Type :=
  match c with
  | Upsert _ => unit
  | GetByRecord _ | GetByName _ => option NameEntry
  | ByOwner _ | SearchFor _ _ | Listings => list NameEntry
  | Watchlist => list jsstring
  end.

(** A handler: it returns, throws, awaits a call of the store, calls [onApplied] or
    [webhookBatches.inc()], or renders the registry. *)
Inductive Prog (A : Type) : Type :=
| Ret (a : A)
| Throw (e : JsError)
| Await (c : Call) (k : result JsError (answer c) -> Prog A)
| Applied (ev : IndexEvent) (k : Prog A)
| Batch (k : Prog A)
| Expose (k : jsstring -> Prog A).
Arguments Ret {A} a.
Arguments Throw {A} e.
Arguments Await {A} c k.
Arguments Applied {A} ev k.
Arguments Batch {A} k.
Arguments Expose {A} k.

#[export] Instance prog_ret : MRet Prog := @Ret.

#[export] Instance prog_bind : MBind Prog := fun A B f =>
  fix bind (p : Prog A) : Prog B :=
    match p with
    | Ret a => f a
    | Throw e => Throw e
    | Await c k => Await c (fun r => bind (k r))
    | Applied ev k => Applied ev (bind k)
    | Batch k => Batch (bind k)
    | Expose k => Expose (fun t => bind (k t))
    end.

(** [try { p } catch (e) { h e }] *)
Fixpoint prog_catch {A} (p : Prog A) (h : JsError -> Prog A) : Prog A :=
  match p with
  | Ret a => Ret a
  | Throw e => h e
  | Await c k => Await c (fun r => prog_catch (k r) h)
  | Applied ev k => Applied ev (prog_catch k h)
  | Batch k => Batch (prog_catch k h)
  | Expose k => Expose (fun t => prog_catch (k t) h)
  end.

Definition from_result {A} (r : result JsError A) : Prog A :=
  match r with Ok a => Ret a | Err e => Throw e end.

(** [await store.x(...)] *)
Definition await (c : Call) : Prog (answer c) := Await c from_result.

(** ** Folding an event into the store *)

(** [if (e) await store.upsert(...)] *)
Definition updateAsync (a : Address) (f : NameEntry -> NameEntry) : Prog unit :=
  e ← await (GetByRecord a);
  match e with Some e => await (Upsert (f e)) | None => Ret tt end.

(** [applyEvent] of store.ts over an asynchronous store. *)
Definition applyEventAsync (ev : IndexEvent) (m : EventMeta) : Prog unit :=
  match ev with
  | Register nr full n t o h y =>
      await (Upsert (MkEntry nr (Some full) n (Some t) (Some o) (Some h) None (ts m)
        (match ts m with Some x => Some (x + y * YEAR) | None => None end) true None
        (sig m) (slot m)))
  | Renew nr n t y =>
      e ← await (GetByRecord nr);
      let base := match e ≫= expiresAt with Some x => x | None => default 0 (ts m) end in
      let e := match e with
               | Some e => e
               | None => MkEntry nr (Some (fullNameOf n t)) n (Some t) None None None None None
                           true None None None
               end in
      await (Upsert (stamp m (with_expiry (base + y * YEAR) e)))
  | Subdomain nr par o label h =>
      p ← await (GetByRecord par);
      let full := match p ≫= fullName with
                  | Some (u :: f) => Some (label ++ js "." ++ u :: f)
                  | _ => None
                  end in
      await (Upsert (MkEntry nr full label (p ≫= tld) (Some o) (Some h) (Some par) (ts m) None
        true None (sig m) (slot m)))
  | Transfer nr o => updateAsync nr (fun e => stamp m (with_owner o e))
  | Burn nr => updateAsync nr (fun e => stamp m (inactive e))
  | List nr sel price =>
      updateAsync nr (fun e => stamp m (with_listed (Some (MkListed price sel)) e))
  | Unlist nr => updateAsync nr (fun e => stamp m (with_listed None e))
  | Buy nr o => updateAsync nr (fun e => stamp m (with_listed None (with_owner o e)))
  end.

(** ** Requests and replies *)

(** What a route's handler reads of its request. *)
Inductive Route :=
| RMetrics
| RHealth
| RWebhook (body : list HeliusTx + HeliusTx)
| RSearch (q limit : option jsstring)
| ROwner (pubkey : jsstring)
| RName (name : jsstring)
| RWatchlist
| RListings.

(** [req.routeOptions.url] *)
Definition routeUrl (r : Route) : jsstring :=
  js match r with
     | RMetrics => "/metrics"
     | RHealth => "/health"
     | RWebhook _ => "/webhook"
     | RSearch _ _ => "/search"
     | ROwner _ => "/owner/:pubkey"
     | RName _ => "/name/:name"
     | RWatchlist => "/watchlist"
     | RListings => "/listings"
     end%string.

(** A request and the route Fastify matched for it. *)
Record Request := MkRequest { method : jsstring; route : option Route }.

Inductive Payload :=
| Answer (r : Reply)
| Results (l : list NameEntry)
| Health
| Exposition (text : jsstring)
| NoContent
| NoRoute
| Failed (e : JsError).

Definition statusCode (p : Payload) : Z :=
  match p with
  | Answer (BadRequest _) => 400
  | Answer (NotFound _) => 404
  | NoContent => 204
  | NoRoute => 404
  | Failed _ => 500
  | _ => 200
  end.

(** The headers set by the CORS hook, and by the handler of /metrics. *)
Definition corsHeaders : list (jsstring * jsstring) :=
  [(js "access-control-allow-origin", js "*");
   (js "access-control-allow-headers", js "content-type");
   (js "access-control-allow-methods", js "GET,POST,OPTIONS")].

Definition headers (p : Payload) : list (jsstring * jsstring) :=
  corsHeaders ++ match p with
                 | Exposition _ => [(js "content-type", CONTENT_TYPE)]
                 | _ => []
                 end.

(** ** The handlers *)

Section Handlers.
Context `{Kit} `{AppKit}.

Fixpoint ingestRawAsync (m : EventMeta) (raws : list Instruction) (applied : Z) : Prog Z :=
  match raws with
  | [] => Ret applied
  | raw :: raws =>
      ev ← from_result (parseSolansInstruction raw);
      match ev with
      | Some ev =>
          _ ← applyEventAsync ev m;
          Applied ev (ingestRawAsync m raws (applied + 1))
      | None => ingestRawAsync m raws applied
      end
  end.

Fixpoint ingestTxsAsync (txs : list HeliusTx) (applied : Z) : Prog Z :=
  match txs with
  | [] => Ret applied
  | tx :: txs =>
      raws ← from_result (rawInstructionsOf tx);
      applied ← ingestRawAsync (metaOf tx) raws applied;
      ingestTxsAsync txs applied
  end.

Definition webhookAsync (body : list HeliusTx + HeliusTx) : Prog Payload :=
  let txs := match body with inl l => l | inr tx => [tx] end in
  prog_catch (Batch (n ← ingestTxsAsync txs 0; Ret (Answer (Indexed n))))
    (fun e => Ret (Answer (BadRequest (message e)))).

(** [limit ? Number(limit) : undefined] *)
Definition limitOf (limit : option jsstring) : option number :=
  match limit with Some (u :: l) => Some (Number (u :: l)) | _ => None end.

Definition searchRoute (q limit : option jsstring) : Prog Payload :=
  match q with
  | Some (u :: q) => l ← await (SearchFor (u :: q) (limitOf limit)); Ret (Results l)
  | _ => Ret (Answer (BadRequest (js "missing ?q")))
  end.

Definition ownerAsync (pubkey : jsstring) : Prog Payload :=
  match toAddress pubkey with
  | Ok o => l ← await (ByOwner o); Ret (Answer (Entries l))
  | Err _ => Ret (Answer (BadRequest (js "invalid pubkey")))
  end.

Definition nameAsync (n : jsstring) : Prog Payload :=
  e ← await (GetByName n);
  Ret (Answer match e with Some e => Entry e | None => NotFound (js "not indexed") end).

Definition handler (r : Route) : Prog Payload :=
  match r with
  | RMetrics => Expose (fun text => Ret (Exposition text))
  | RHealth => Ret Health
  | RWebhook body => webhookAsync body
  | RSearch q limit => searchRoute q limit
  | ROwner pubkey => ownerAsync pubkey
  | RName n => nameAsync n
  | RWatchlist => l ← await Watchlist; Ret (Answer (Names l))
  | RListings => l ← await Listings; Ret (Answer (Entries l))
  end.

(** What a request is answered with: the CORS hook replies to a preflight; a handler
    that throws is answered by Fastify. *)
Definition serve (req : Request) : Prog Payload :=
  if bool_decide (method req = js "OPTIONS") then Ret NoContent
  else match route req with
       | Some r => prog_catch (handler r) (fun e => Ret (Failed e))
       | None => Ret NoRoute
       end.
End Handlers.

(** ** The metrics *)

Abbreviation EVENTS := (js "solans_index_events_total").
Abbreviation REQUESTS := (js "solans_http_requests_total").

Definition indexerMetrics : Registry :=
  run [RegisterCounter REQUESTS (js "Indexer HTTP requests handled");
       RegisterHistogram (js "solans_http_request_duration_seconds")
         (js "Indexer HTTP request duration in seconds") None;
       RegisterCounter EVENTS (js "Indexed SOLANS instructions by type");
       RegisterCounter (js "solans_webhook_batches_total") (js "Helius webhook batches received")].

(** [ev.kind] *)
Definition eventKind (ev : IndexEvent) : jsstring :=
  js match ev with
     | Register _ _ _ _ _ _ _ => "register"
     | Renew _ _ _ _ => "renew"
     | Subdomain _ _ _ _ _ => "subdomain"
     | Transfer _ _ => "transfer"
     | Burn _ => "burn"
     | List _ _ _ => "list"
     | Unlist _ => "unlist"
     | Buy _ _ => "buy"
     end%string.

Definition eventLabels (ev : IndexEvent) : Labels := [(js "type", LString (eventKind ev))].
Definition countEvent (ev : IndexEvent) : Op :=
  CounterInc EVENTS (number_of_Z 1) (eventLabels ev).
Definition countBatch : Op :=
  CounterInc (js "solans_webhook_batches_total") (number_of_Z 1) [].

(** [(req.routeOptions?.url ?? "unknown").split("?")[0]] *)
Definition routeLabel (req : Request) : jsstring :=
  hd [] (split 63 match route req with Some r => routeUrl r | None => js "unknown" end).

(** A response: what was asked, what was answered, the events the handler applied, and the
    milliseconds it took. *)
Record Response := MkResponse {
  request : Request; payload : Payload; applied : list IndexEvent; elapsed : number
}.

Definition requestLabels (r : Response) : Labels :=
  [(js "method", LString (method (request r))); (js "route", LString (routeLabel (request r)));
   (js "status", LNumber (number_of_Z (statusCode (payload r))))].

(** The [onResponse] hook. *)
Definition onResponse (r : Response) : list Op :=
  [CounterInc REQUESTS (number_of_Z 1) (requestLabels r);
   Observe (js "solans_http_request_duration_seconds")
     (number_div (elapsed r) (number_of_Z 1000))
     [(js "method", LString (method (request r))); (js "route", LString (routeLabel (request r)))]].

(** ** Requests in flight *)

(** A handler in flight: what is left of it, and the events it has applied. *)
Record Thread := MkThread { asked : Request; rest : Prog Payload; indexed : list IndexEvent }.

Record Service (S : Type) := MkService {
  store : S; registry : Registry; inFlight : list Thread; responses : list Response
}.
Arguments MkService {S}. Arguments store {S}. Arguments registry {S}.
Arguments inFlight {S}. Arguments responses {S}.

Section Service.
Context `{HU : Unicode} `{HK : Kit} `{HA : !AppKit} {S : Type} `{HI : IndexStore S}.

(** What the store does and answers when a call succeeds. *)
Definition perform (c : Call) (s : S) : S * answer c :=
  match c return S * answer c with
  | Upsert e => (upsert e s, tt)
  | GetByRecord a => (s, getByRecord a s)
  | GetByName n => (s, getByName n s)
  | ByOwner o => (s, byOwner o s)
  | SearchFor p limit => (s, search HU p limit s)
  | Watchlist => (s, watchlist s)
  | Listings => (s, listings s)
  end.

Definition continue (t : Thread) (p : Prog Payload) : Thread := MkThread (asked t) p (indexed t).

(** A request arrives; a handler in flight completes an awaited call, which the store may
    reject before or after its effect, or runs up to its next one; a response leaves. *)
Inductive Step : Service S -> Service S -> Prop :=
| StepArrive s r ths out req :
    Step (MkService s r ths out) (MkService s r (ths ++ [MkThread req (serve req) []]) out)
| StepAnswer s r ths out i t c k :
    ths !! i = Some t -> rest t = Await c k ->
    Step (MkService s r ths out)
      (MkService (perform c s).1 r (<[i := continue t (k (Ok (perform c s).2))]> ths) out)
| StepReject s r ths out i t c k e (done : bool) :
    ths !! i = Some t -> rest t = Await c k ->
    Step (MkService s r ths out)
      (MkService (if done then (perform c s).1 else s) r (<[i := continue t (k (Err e))]> ths) out)
| StepApplied s r ths out i t ev k :
    ths !! i = Some t -> rest t = Applied ev k ->
    Step (MkService s r ths out)
      (MkService s (step r (countEvent ev))
        (<[i := MkThread (asked t) k (indexed t ++ [ev])]> ths) out)
| StepBatch s r ths out i t k :
    ths !! i = Some t -> rest t = Batch k ->
    Step (MkService s r ths out) (MkService s (step r countBatch) (<[i := continue t k]> ths) out)
| StepExpose s r ths out i t k :
    ths !! i = Some t -> rest t = Expose k ->
    Step (MkService s r ths out) (MkService s r (<[i := continue t (k (expose r))]> ths) out)
| StepRespond s r ths out i t p ms :
    ths !! i = Some t -> rest t = Ret p ->
    let resp := MkResponse (asked t) p (indexed t) ms in
    Step (MkService s r ths out)
      (MkService s (fold_left step (onResponse resp) r) (delete i ths) (out ++ [resp])).

Inductive reachable (s0 : S) : Service S -> Prop :=
| reachable_start : reachable s0 (MkService s0 indexerMetrics [] [])
| reachable_step c c' : reachable s0 c -> Step c c' -> reachable s0 c'.

(** The events applied by the handlers that answered and by those in flight. *)
Definition events (c : Service S) : list IndexEvent :=
  flat_map applied (responses c) ++ flat_map indexed (inFlight c).

(** ** A request alone *)

(** The store, the calls of [onApplied] and the registry. *)
Fixpoint alone {A} (p : Prog A) (s : S) (log : list IndexEvent) (r : Registry)
    : S * list IndexEvent * Registry * result JsError A :=
  match p with
  | Ret a => (s, log, r, Ok a)
  | Throw e => (s, log, r, Err e)
  | Await c k => let '(s', a) := perform c s in alone (k (Ok a)) s' log r
  | Applied ev k => alone k s (log ++ [ev]) (step r (countEvent ev))
  | Batch k => alone k s log (step r countBatch)
  | Expose k => alone (k (expose r)) s log r
  end.

Lemma alone_bind {A B} (p : Prog A) (f : A -> Prog B) s log r :
  alone (p ≫= f) s log r
  = match alone p s log r with
    | (s', log', r', Ok a) => alone (f a) s' log' r'
    | (s', log', r', Err e) => (s', log', r', Err e)
    end.
Proof.
  revert s log r. induction p as [a|e|c k IH|ev k IH|k IH|k IH]; intros s log r; cbn;
    try done; try apply IH. destruct (perform c s) as [s' a]. apply IH.
Qed.

Lemma alone_catch {A} (p : Prog A) h s log r :
  alone (prog_catch p h) s log r
  = match alone p s log r with
    | (s', log', r', Ok a) => (s', log', r', Ok a)
    | (s', log', r', Err e) => alone (h e) s' log' r'
    end.
Proof.
  revert s log r. induction p as [a|e|c k IH|ev k IH|k IH|k IH]; intros s log r; cbn;
    try done; try apply IH. destruct (perform c s) as [s' a]. apply IH.
Qed.

Lemma alone_result {A} (o : result JsError A) s log r :
  alone (from_result o) s log r = (s, log, r, o).
Proof. by destruct o. Qed.

Lemma alone_update a f s log r :
  alone (updateAsync a f) s log r = (update a f s, log, r, Ok tt).
Proof. unfold updateAsync, update. cbn. by destruct (getByRecord a s). Qed.

(** Alone, the asynchronous fold of an event is the one of [IndexStore]. *)
Lemma alone_event ev m s log r :
  alone (applyEventAsync ev m) s log r = (applyEvent s ev m, log, r, Ok tt).
Proof. destruct ev; cbn [applyEventAsync applyEvent]; try apply alone_update; done. Qed.

Lemma alone_raw m raws : forall n s log r, exists r',
  alone (ingestRawAsync m raws n) s log r
  = (let '(w, o) := ingestRaw m raws n (s, log) in (w.1, w.2, r', o)).
Proof.
  induction raws as [|raw raws IH]; intros n s log r; cbn [ingestRawAsync ingestRaw]; [by exists r|].
  rewrite alone_bind, alone_result, eff_bind_run. unfold lift.
  destruct (parseSolansInstruction raw) as [[ev|]|e]; [|apply IH|by exists r].
  rewrite alone_bind, alone_event, eff_bind_run. apply IH.
Qed.

Lemma alone_txs txs : forall n s log r, exists r',
  alone (ingestTxsAsync txs n) s log r
  = (let '(w, o) := ingestTxs txs n (s, log) in (w.1, w.2, r', o)).
Proof.
  induction txs as [|tx txs IH]; intros n s log r; cbn [ingestTxsAsync ingestTxs]; [by exists r|].
  rewrite alone_bind, alone_result, eff_bind_run. unfold lift.
  destruct (rawInstructionsOf tx) as [raws|e]; [|by exists r].
  destruct (alone_raw (metaOf tx) raws n s log r) as [r1 H1].
  rewrite alone_bind, H1, eff_bind_run. destruct (ingestRaw _ raws n (s, log)) as [[s1 log1] [n1|e]].
  - apply IH.
  - by exists r1.
Qed.

(** A webhook request served alone, by a store that answers, is the [webhook] of
    [IndexApp]. *)
Theorem webhook_alone body s log r : exists r',
  alone (serve (MkRequest (js "POST") (Some (RWebhook body)))) s log r
  = (let '(w, reply) := webhook body (s, log) in (w.1, w.2, r', Ok (Answer reply))).
Proof.
  unfold serve. rewrite bool_decide_eq_false_2 by done. cbn [route handler].
  unfold webhookAsync, webhook, ingestHeliusTxs. set (txs := match body with inl l => l | inr tx => [tx] end).
  rewrite !alone_catch. cbn [alone]. rewrite alone_bind.
  destruct (alone_txs txs 0 s log (step r countBatch)) as [r1 ->]. exists r1.
  by destruct (ingestTxs txs 0 (s, log)) as [[s1 log1] [n|e]].
Qed.

(** ** What the metrics tell *)

(** The events a handler applies from here on, and what then holds of its outcome. *)
Fixpoint counts {A} (n : Z) (Q : Z -> A -> Prop) (p : Prog A) : Prop :=
  match p with
  | Ret a => Q n a
  | Throw _ => True
  | Await c k => forall r, counts n Q (k r)
  | Applied _ k => counts (n + 1) Q k
  | Batch k => counts n Q k
  | Expose k => forall text, counts n Q (k text)
  end.

Lemma counts_bind {A B} n Q (p : Prog A) (f : A -> Prog B) :
  counts n (fun n' a => counts n' Q (f a)) p -> counts n Q (p ≫= f).
Proof. revert n. induction p; cbn; eauto. Qed.

Lemma counts_catch {A} n Q (p : Prog A) h :
  counts n Q p -> (forall n' e, counts n' Q (h e)) -> counts n Q (prog_catch p h).
Proof. revert n. induction p; cbn; eauto. Qed.

Lemma counts_result {A} n Q (r : result JsError A) :
  (forall a, Q n a) -> counts n Q (from_result r).
Proof. destruct r; cbn; auto. Qed.

(** A webhook that is not refused reports the number of events applied; no other handler
    applies any. *)
Definition told (n : Z) (p : Payload) : Prop :=
  match p with
  | Answer (Indexed m) => m = n
  | Answer (BadRequest _) | Failed _ => True
  | _ => n = 0
  end.

Lemma event_applies_once n ev m : counts n (fun n' _ => n' = n) (applyEventAsync ev m).
Proof.
  assert (HU' : forall a f, counts n (fun n' _ => n' = n) (updateAsync a f)).
  { intros a f. apply counts_bind. intros r. apply counts_result. intros [e|]; [|done].
    intros r'. by apply counts_result. }
  destruct ev; cbn [applyEventAsync]; try apply HU';
    intros r; try (by apply counts_result); apply counts_bind, counts_result; intros p r';
    by apply counts_result.
Qed.

Lemma counts_mono {A} n (Q Q' : Z -> A -> Prop) p :
  (forall n' a, Q n' a -> Q' n' a) -> counts n Q p -> counts n Q' p.
Proof. intros HQ. revert n. induction p; cbn; eauto. Qed.

Lemma raw_counts m raws : forall n, counts n (fun n' a => a = n') (ingestRawAsync m raws n).
Proof.
  induction raws as [|raw raws IH]; intros n; cbn [ingestRawAsync]; [done|].
  apply counts_bind, counts_result. intros [ev|]; [|apply IH].
  apply counts_bind. eapply counts_mono; [|apply event_applies_once]. intros n' _ ->. apply IH.
Qed.

Lemma txs_counts txs : forall n, counts n (fun n' a => a = n') (ingestTxsAsync txs n).
Proof.
  induction txs as [|tx txs IH]; intros n; cbn [ingestTxsAsync]; [done|].
  apply counts_bind, counts_result. intros raws.
  apply counts_bind. eapply counts_mono; [|apply raw_counts]. intros n' a ->. apply IH.
Qed.

Lemma handler_counts r : counts 0 told (handler r).
Proof.
  assert (HA' : forall c (f : answer c -> Payload), (forall a, told 0 (f a)) ->
    counts 0 told (a ← await c; Ret (f a))).
  { intros c f Hf. apply counts_bind. intros x. by apply counts_result. }
  destruct r as [| |body|[[|u q]|] limit|pk|n| |]; cbn [handler searchRoute]; try done;
    try (by apply HA').
  - apply counts_catch; [|done]. cbn [counts]. apply counts_bind.
    eapply counts_mono; [|apply txs_counts]. intros n a ->. done.
  - unfold ownerAsync. destruct (toAddress pk); [by apply HA'|done].
  - apply HA'. by intros [e|].
Qed.

Lemma serve_counts req : counts 0 told (serve req).
Proof.
  unfold serve. destruct (bool_decide _); [done|]. destruct (route req) as [r|]; [|done].
  apply counts_catch; [apply handler_counts|done].
Qed.

(** The operations on the registry since the start. *)
Record told_by (c : Service S) (ops : list Op) : Prop := {
  registry_by : registry c = fold_left step ops indexerMetrics;
  events_by labels : increments EVENTS (seriesKey labels) ops
    = replicate (same_series labels (map eventLabels (events c))) one;
  requests_by labels : increments REQUESTS (seriesKey labels) ops
    = replicate (same_series labels (map requestLabels (responses c))) one;
}.

(** Operations [more] that count [evs] and [outs]. *)
Lemma told_more c c' ops more evs outs :
  told_by c ops -> registry c' = fold_left step more (registry c) ->
  events c' ≡ₚ events c ++ evs -> responses c' = responses c ++ outs ->
  (forall labels, increments EVENTS (seriesKey labels) more
     = replicate (same_series labels (map eventLabels evs)) one) ->
  (forall labels, increments REQUESTS (seriesKey labels) more
     = replicate (same_series labels (map requestLabels outs)) one) ->
  told_by c' (ops ++ more).
Proof.
  intros [HR HE HQ] HR' HP HO HE' HQ'. split.
  - by rewrite fold_left_app, <- HR.
  - intros labels. by rewrite increments_app, HE, HE', HP, map_app, same_series_app, replicate_add.
  - intros labels. by rewrite increments_app, HQ, HQ', HO, map_app, same_series_app, replicate_add.
Qed.

Lemma flat_map_insert (ths : list Thread) i t t' ev :
  ths !! i = Some t -> indexed t' = indexed t ++ ev ->
  flat_map indexed (<[i := t']> ths) ≡ₚ flat_map indexed ths ++ ev.
Proof.
  revert i. induction ths as [|u ths IH]; intros [|i] Hi HE; try done; cbn in *.
  - injection Hi as ->. rewrite HE, <- !app_assoc. f_equiv. apply Permutation_app_comm.
  - rewrite (IH i) by done. by rewrite app_assoc.
Qed.

Lemma flat_map_delete (ths : list Thread) i t :
  ths !! i = Some t -> flat_map indexed ths ≡ₚ indexed t ++ flat_map indexed (delete i ths).
Proof.
  revert i. induction ths as [|u ths IH]; intros [|i] Hi; try done; cbn in *.
  - by injection Hi as ->.
  - rewrite (IH i Hi). apply Permutation_app_swap_app.
Qed.

(** What holds of every reachable service. *)
Record accounted (c : Service S) : Prop := {
  accounted_ops : exists ops, told_by c ops;
  accounted_threads : Forall (fun t => counts (Z.of_nat (length (indexed t))) told (rest t)) (inFlight c);
  accounted_responses : Forall (fun r => told (Z.of_nat (length (applied r))) (payload r)) (responses c);
}.

(** A step of the thread [t] that leaves it at [p] without an event. *)
Lemma accounted_continue s s' r r' ths out i t p more :
  accounted (MkService s r ths out) -> ths !! i = Some t ->
  counts (Z.of_nat (length (indexed t))) told p -> r' = fold_left step more r ->
  (forall labels, increments EVENTS (seriesKey labels) more = []) ->
  (forall labels, increments REQUESTS (seriesKey labels) more = []) ->
  accounted (MkService s' r' (<[i := continue t p]> ths) out).
Proof.
  intros [[ops HO] HT HR] Hi Hp Hr HE HQ. split; cbn in *; [|by apply Forall_insert|done].
  exists (ops ++ more). apply (told_more _ _ ops more [] [] HO); cbn; [done| |by rewrite app_nil_r|done..].
  unfold events. cbn. rewrite (flat_map_insert ths i t _ [] Hi) by (cbn; by rewrite app_nil_r).
  by rewrite !app_nil_r.
Qed.

Lemma accounted_step c c' : accounted c -> Step c c' -> accounted c'.
Proof.
  intros HC HS. destruct HS as [s r ths out req|s r ths out i t c k Hi Hr|s r ths out i t c k e d Hi Hr
    |s r ths out i t ev k Hi Hr|s r ths out i t k Hi Hr|s r ths out i t k Hi Hr
    |s r ths out i t p ms Hi Hr];
    try (pose proof (proj1 (Forall_lookup _ _) (accounted_threads _ HC) i t Hi) as Hp;
         cbn beta in Hp; rewrite Hr in Hp);
    try (by apply (accounted_continue s _ r r ths out i t _ [] HC Hi); [apply Hp|..]).
  - destruct HC as [[ops HO] HT HR]. split; cbn in *; [| |done].
    + exists (ops ++ []). apply (told_more _ _ ops [] [] [] HO); cbn; [done| |by rewrite app_nil_r|done..].
      unfold events. cbn. by rewrite flat_map_app, !app_nil_r.
    + apply Forall_app. split; [done|]. repeat constructor. cbn. apply serve_counts.
  - destruct HC as [[ops HO] HT HR]. split; cbn in *; [| |done].
    + exists (ops ++ [countEvent ev]).
      apply (told_more _ _ ops _ [ev] [] HO); cbn [registry responses map];
        [done| |by rewrite app_nil_r|intros labels; apply increments_one|done].
      unfold events. cbn [responses inFlight]. rewrite (flat_map_insert ths i t _ [ev] Hi) by done.
      by rewrite app_assoc.
    + apply Forall_insert; [done|]. cbn. rewrite length_app, Nat2Z.inj_add. exact Hp.
  - by apply (accounted_continue s _ r _ ths out i t _ [countBatch] HC Hi).
  - destruct HC as [[ops HO] HT HR]. split; cbn in *.
    + exists (ops ++ onResponse resp).
      apply (told_more _ _ ops _ [] [resp] HO); cbn [registry responses map]; [done| |done|done|].
      * unfold events. cbn [responses inFlight]. rewrite (flat_map_delete ths i t Hi), flat_map_app.
        cbn [flat_map]. subst resp. cbn [applied]. rewrite !app_nil_r, <- !app_assoc. done.
      * intros labels. apply (increments_one _ _ labels).
    + by apply Forall_delete.
    + apply Forall_app. split; [done|]. repeat constructor. exact Hp.
Qed.

Lemma reachable_accounted s0 c : reachable s0 c -> accounted c.
Proof.
  induction 1 as [|c c' _ IH HS]; [|by eapply accounted_step]. split; [|by constructor..].
  exists []. split; done.
Qed.

Lemma told_reads c ops labels : told_by c ops ->
  let n := same_series labels (map eventLabels (events c)) in
  let m := same_series labels (map requestLabels (responses c)) in
  (Z.of_nat n < 2 ^ 53 -> counter_reads EVENTS labels (Z.of_nat n) (registry c))
  /\ (Z.of_nat m < 2 ^ 53 -> counter_reads REQUESTS labels (Z.of_nat m) (registry c)).
Proof.
  intros [HR HE HQ] n m. rewrite HR. split; intros Hn.
  - apply (counted_ones [RegisterCounter REQUESTS (js "Indexer HTTP requests handled");
      RegisterHistogram (js "solans_http_request_duration_seconds")
        (js "Indexer HTTP request duration in seconds") None]
      (RegisterCounter (js "solans_webhook_batches_total") (js "Helius webhook batches received") :: ops)
      EVENTS (js "Indexed SOLANS instructions by type")
      (run [RegisterCounter REQUESTS (js "Indexer HTTP requests handled");
        RegisterHistogram (js "solans_http_request_duration_seconds")
          (js "Indexer HTTP request duration in seconds") None;
        RegisterCounter EVENTS (js "Indexed SOLANS instructions by type")]) labels);
      [by vm_compute|apply HE|done].
  - apply (counted_ones [] (RegisterHistogram (js "solans_http_request_duration_seconds")
        (js "Indexer HTTP request duration in seconds") None
      :: RegisterCounter EVENTS (js "Indexed SOLANS instructions by type")
      :: RegisterCounter (js "solans_webhook_batches_total") (js "Helius webhook batches received") :: ops)
      REQUESTS (js "Indexer HTTP requests handled")
      (run [RegisterCounter REQUESTS (js "Indexer HTTP requests handled")]) labels);
      [by vm_compute|apply HQ|done].
Qed.

(** Events of a kind share a series, and only they. *)
Lemma event_series ev ev' :
  seriesKey (eventLabels ev) = seriesKey (eventLabels ev') <-> eventKind ev = eventKind ev'.
Proof.
  split; [|unfold eventLabels; by intros ->]. intros HE.
  unfold seriesKey, eventLabels in HE. cbn in HE. injection HE as HE. by rewrite ?app_nil_r in HE.
Qed.

Lemma events_of_kind ev l :
  same_series (eventLabels ev) (map eventLabels l)
  = length (filter (fun e => eventKind e = eventKind ev) l).
Proof.
  unfold same_series. induction l as [|e l IH]; [done|]. cbn [map]. rewrite !filter_cons.
  destruct (decide (seriesKey (eventLabels e) = _)) as [E|E], (decide (eventKind e = _)) as [F|F];
    cbn [length]; rewrite ?IH; try done; by apply event_series in E || (exfalso; by apply E, event_series).
Qed.

(** C28: At any moment of the indexer process, whatever requests are in flight, however
    their awaited calls interleave and whichever the store rejects: the events counter reads
    for each kind the number of events applied, the requests counter reads for each method,
    route and status the number of responses sent, and every webhook answered as indexed
    reported exactly the events it applied, while no other route applied any. *)
Theorem metrics_tell_what_was_served s0 c :
  reachable s0 c ->
  (forall ev, let n := length (filter (fun e => eventKind e = eventKind ev) (events c)) in
     Z.of_nat n < 2 ^ 53 -> counter_reads EVENTS (eventLabels ev) (Z.of_nat n) (registry c))
  /\ (forall labels, let n := same_series labels (map requestLabels (responses c)) in
     Z.of_nat n < 2 ^ 53 -> counter_reads REQUESTS labels (Z.of_nat n) (registry c))
  /\ Forall (fun r => told (Z.of_nat (length (applied r))) (payload r)) (responses c).
Proof.
  intros HR. destruct (reachable_accounted s0 c HR) as [[ops HO] _ HP]. split_and!; [| |done].
  - intros ev n Hn. subst n. rewrite <- events_of_kind in Hn |- *. by apply (told_reads c ops _ HO).
  - intros labels n Hn. by apply (told_reads c ops labels HO).
Qed.

(** ** Every request is answered *)

Fixpoint never_throws {A} (p : Prog A) : Prop :=
  match p with
  | Ret _ => True
  | Throw _ => False
  | Await c k => forall r, never_throws (k r)
  | Applied _ k | Batch k => never_throws k
  | Expose k => forall text, never_throws (k text)
  end.

Lemma catch_never_throws {A} (p : Prog A) h :
  (forall e, never_throws (h e)) -> never_throws (prog_catch p h).
Proof. intros Hh. induction p; cbn; eauto. Qed.

Lemma serve_never_throws req : never_throws (serve req).
Proof.
  unfold serve. destruct (bool_decide _); [done|]. destruct (route req); [|done].
  by apply catch_never_throws.
Qed.

Lemma threads_never_throw s0 c :
  reachable s0 c -> Forall (fun t => never_throws (rest t)) (inFlight c).
Proof.
  induction 1 as [|c c' _ IH HS]; [constructor|].
  destruct HS as [s r ths out req|s r ths out i t c k Hi Hr|s r ths out i t c k e d Hi Hr
    |s r ths out i t ev k Hi Hr|s r ths out i t k Hi Hr|s r ths out i t k Hi Hr|s r ths out i t p ms Hi Hr];
    cbn [inFlight] in *;
    try (pose proof (proj1 (Forall_lookup _ _) IH i t Hi) as Hp; cbn beta in Hp; rewrite Hr in Hp);
    try (apply Forall_insert; [done|]; cbn; apply Hp).
  - apply Forall_app. split; [done|]. repeat constructor. apply serve_never_throws.
  - by apply Forall_delete.
Qed.

Lemma first_answered s0 p : forall s r q log ths out,
  never_throws p -> reachable s0 (MkService s r (MkThread q p log :: ths) out) ->
  exists s' r' resp, reachable s0 (MkService s' r' ths (out ++ [resp])).
Proof.
  induction p as [a|e|c k IH|ev k IH|k IH|k IH]; intros s r q log ths out Hp HR; cbn [never_throws] in Hp.
  - eexists _, _, _. eapply reachable_step; [exact HR|].
    exact (StepRespond s r (_ :: ths) out 0%nat (MkThread q (Ret a) log) a (S754_zero false) eq_refl eq_refl).
  - done.
  - eapply (IH _ _ _ q log ths out (Hp _)), reachable_step; [exact HR|].
    exact (StepAnswer s r (_ :: ths) out 0%nat (MkThread q (Await c k) log) c k eq_refl eq_refl).
  - eapply (IH _ _ q (log ++ [ev]) ths out Hp), reachable_step; [exact HR|].
    exact (StepApplied s r (_ :: ths) out 0%nat (MkThread q (Applied ev k) log) ev k eq_refl eq_refl).
  - eapply (IH _ _ q log ths out Hp), reachable_step; [exact HR|].
    exact (StepBatch s r (_ :: ths) out 0%nat (MkThread q (Batch k) log) k eq_refl eq_refl).
  - eapply (IH _ _ _ q log ths out (Hp _)), reachable_step; [exact HR|].
    exact (StepExpose s r (_ :: ths) out 0%nat (MkThread q (Expose k) log) k eq_refl eq_refl).
Qed.

(** Whatever the requests in flight have come to, a store that answers lets all of them end,
    each with one response: no handler waits for another or runs forever. *)
Theorem requests_complete s0 c :
  reachable s0 c ->
  exists c' more, reachable s0 c' /\ inFlight c' = [] /\ responses c' = responses c ++ more
    /\ length more = length (inFlight c).
Proof.
  intros HR. pose proof (threads_never_throw s0 c HR) as HT. destruct c as [s r ths out].
  cbn [inFlight responses] in *. revert s r out HR. induction ths as [|[q p log] ths IH]; intros s r out HR.
  - eexists _, []. split; [exact HR|]. by rewrite app_nil_r.
  - apply Forall_cons in HT as [Hp HT].
    destruct (first_answered s0 p s r q log ths out Hp HR) as (s1 & r1 & resp & HR1).
    destruct (IH HT _ _ _ HR1) as (c' & more & HC & Hn & Ho & Hl). exists c', (resp :: more).
    split; [done|]. split; [done|]. cbn [responses length] in *. rewrite Ho, Hl.
    by rewrite <- app_assoc.
Qed.

(** ** A schedule of steps the store answers *)

Definition arrive (req : Request) (c : Service S) : Service S :=
  MkService (store c) (registry c) (inFlight c ++ [MkThread req (serve req) []]) (responses c).

(** The next step of the handler number [i]. *)
Definition advance (i : nat) (c : Service S) : Service S :=
  match inFlight c !! i with
  | None => c
  | Some t =>
      let put p := <[i := continue t p]> (inFlight c) in
      match rest t with
      | Ret p =>
          let resp := MkResponse (asked t) p (indexed t) (S754_zero false) in
          MkService (store c) (fold_left step (onResponse resp) (registry c))
            (delete i (inFlight c)) (responses c ++ [resp])
      | Throw _ => c
      | Await call k =>
          MkService (perform call (store c)).1 (registry c) (put (k (Ok (perform call (store c)).2)))
            (responses c)
      | Applied ev k =>
          MkService (store c) (step (registry c) (countEvent ev))
            (<[i := MkThread (asked t) k (indexed t ++ [ev])]> (inFlight c)) (responses c)
      | Batch k => MkService (store c) (step (registry c) countBatch) (put k) (responses c)
      | Expose k => MkService (store c) (registry c) (put (k (expose (registry c)))) (responses c)
      end
  end.

Definition start (s : S) : Service S := MkService s indexerMetrics [] [].

Lemma arrive_reachable s0 req c : reachable s0 c -> reachable s0 (arrive req c).
Proof. intros HR. eapply reachable_step; [exact HR|]. destruct c. constructor. Qed.

Lemma advance_reachable s0 i c : reachable s0 c -> reachable s0 (advance i c).
Proof.
  intros HR. unfold advance. destruct c as [s r ths out]. cbn [inFlight store registry responses].
  destruct (ths !! i) as [t|] eqn:Hi; [|done].
  destruct (rest t) as [p|e|call k|ev k|k|k] eqn:Ht; try done; (eapply reachable_step; [exact HR|]);
    by econstructor.
Qed.

Lemma schedule_reachable s0 l c : reachable s0 c -> reachable s0 (fold_left (fun c i => advance i c) l c).
Proof. revert c. induction l as [|i l IH]; intros c HR; [done|]. by apply IH, advance_reachable. Qed.
End Service.

(** ** Concrete services *)

#[local] Existing Instance SmallUnicode.

Definition post (tx : HeliusTx) : Request := MkRequest (js "POST") (Some (RWebhook (inr tx))).

(** Two requests in flight, and the order in which their steps complete. *)
Definition served (s : MemoryStore) (first second : Request) (order : list nat) : Service MemoryStore :=
  fold_left (fun c i => advance i c) order (arrive second (arrive first (start s))).

Lemma served_reachable s first second order : reachable s (served s first second order).
Proof. apply schedule_reachable, arrive_reachable, arrive_reachable, reachable_start. Qed.

(** The transfer of a known name, and its burn by the new owner. *)
Definition burn_tx : HeliusTx := MkTx None None (Some 1001)
  (Some [MkHelius (Some SOLANS_PROGRAM_ADDRESS) (Some (map small_addr [2; 3]))
    (Some (base58_encode (match encoder BurnName.codec BurnName.MkBurnNameInstructionDataArgs with
                          | Ok bs => bs | Err _ => [] end))) None]).

Definition known_name : MemoryStore :=
  applyEvent empty_store
    (Register (small_addr 3) (js "alex.sol") (js "alex") (js "sol") (small_addr 1) [] 1)
    (MkMeta None None (Some 0)).

(** Each handler: a batch, a read, a write, an event, a response. *)
Definition one_by_one : list nat := [0; 0; 0; 0; 0; 0; 0; 0; 0; 0]%nat.
Definition interleaved : list nat := [0; 1; 0; 1; 1; 0; 0; 1; 1; 0]%nat.

Definition answers (c : Service MemoryStore) : list Payload := map payload (responses c).
Definition still_active (c : Service MemoryStore) : option bool :=
  active <$> getByRecord (small_addr 3) (store c).

(** The fold of an event reads an entry and writes it back in two awaited calls.  Two
    webhook requests in flight at once can lose an update: a name burned after its transfer
    stays in the index as active, both requests being answered as indexed, whereas one after
    the other, in either order, they leave it inactive. *)
Theorem concurrent_webhooks_lose_updates :
  (exists c, reachable known_name c /\ inFlight c = []
     /\ answers c = [Answer (Indexed 1); Answer (Indexed 1)] /\ still_active c = Some true)
  /\ (forall c, c = served known_name (post sample_tx) (post burn_tx) one_by_one
        \/ c = served known_name (post burn_tx) (post sample_tx) one_by_one ->
      answers c = [Answer (Indexed 1); Answer (Indexed 1)] /\ still_active c = Some false).
Proof.
  split.
  - exists (served known_name (post sample_tx) (post burn_tx) interleaved).
    split; [apply served_reachable|]. vm_compute. done.
  - intros c [->| ->]; vm_compute; done.
Qed.

Definition raced : Service MemoryStore := served known_name (post sample_tx) (post burn_tx) interleaved.

Lemma raced_events : length (filter (fun e => eventKind e = eventKind (Burn (small_addr 3)))
  (events raced)) = 1%nat.
Proof. vm_compute. reflexivity. Qed.

Lemma metrics_tell_what_was_served_witness :
  counter_reads EVENTS [(js "type", LString (js "burn"))] 1 (registry raced).
Proof.
  pose proof (metrics_tell_what_was_served known_name raced
    (served_reachable known_name (post sample_tx) (post burn_tx) interleaved)) as [H _].
  specialize (H (Burn (small_addr 3))). cbv zeta in H. rewrite raced_events in H.
  apply H. vm_compute. reflexivity.
Defined.
