(* ===== verification/AccountFetch.v ===== *)
(** * Fetching accounts

    The helpers of src/clients/ts/src/generated/accounts that read an account from
    an RPC node and decode it, one Module per file.  @solana/kit's account helpers
    are [AccountKit], the node is [AccountRpc].  [AccountClient] states what the
    helpers of a file are made of; the theorem: a fetch returns the value an
    encoded account holds, and throws on a missing one. *)
From S2P Require Import Prelude JsString Kit SmallKit Accounts.

(** [MaybeAccount<T>]; [MaybeEncodedAccount] holds the raw data. *)
Inductive MaybeAccount (T : Type) :=
| Existing (address : Address) (data : T)
| Missing (address : Address).
Arguments Existing {T}. Arguments Missing {T}.
Abbreviation MaybeEncodedAccount := (MaybeAccount bytes).

(** [Account<T>]: an account that exists. *)
Record Account (T : Type) := MkAccount { account_address : Address; account_data : T }.
Arguments MkAccount {T}. Arguments account_address {T}. Arguments account_data {T}.

(** The assertions throw, or narrow the type of their argument. *)
Class AccountKit := {
  decodeAccount : forall {T}, MaybeEncodedAccount -> Decoder T -> result JsError (MaybeAccount T);
  assertAccountExists : forall {T}, MaybeAccount T -> result JsError (Account T);
  assertAccountsExist : forall {T}, list (MaybeAccount T) -> result JsError (list (Account T));
  combineCodec : forall {A B}, Encoder A -> Decoder B -> Encoder A * Decoder B;
}.

(** The accounts that exist. *)
Definition existing {T} (m : MaybeAccount T) : option (Account T) :=
  match m with Existing a d => Some (MkAccount a d) | Missing _ => None end.

Class AccountKitSpec `{Kit} (A : AccountKit) : Prop := {
  decode_missing : forall T a (d : Decoder T), decodeAccount (Missing a) d = Ok (Missing a);
  decode_existing : forall T a bs (d : Decoder T) v, decode d bs = Ok v ->
    decodeAccount (Existing a bs) d = Ok (Existing a v);
  decode_malformed : forall T a bs (d : Decoder T), is_Ok (decode d bs) = false ->
    is_Ok (decodeAccount (Existing a bs) d) = false;
  assert_one : forall T (m : MaybeAccount T) x, assertAccountExists m = Ok x <-> existing m = Some x;
  assert_all : forall T (l : list (MaybeAccount T)) xs,
    assertAccountsExist l = Ok xs <-> map existing l = map Some xs;
  combine_parts : forall A B (e : Encoder A) (d : Decoder B), combineCodec e d = (e, d);
}.

Class AccountRpc (W : Type) := {
  fetchEncodedAccount : Address -> Eff W MaybeEncodedAccount;
  fetchEncodedAccounts : list Address -> Eff W (list MaybeEncodedAccount);
}.

(** The helpers of one file, and how they are made of the codec's decoder. *)
Record AccountClient `{Kit, AccountKit} (W : Type) `{AccountRpc W} (C : ObjectCodec) := {
  discriminatorBytes : result JsError bytes;
  codec : Encoder (Args C) * Decoder (Obj C);
  decodeOf : MaybeEncodedAccount -> result JsError (MaybeAccount (Obj C));
  fetchMaybeOf : Address -> Eff W (MaybeAccount (Obj C));
  fetchOf : Address -> Eff W (Account (Obj C));
  fetchAllMaybeOf : list Address -> Eff W (list (MaybeAccount (Obj C)));
  fetchAllOf : list Address -> Eff W (list (Account (Obj C)));
  discriminator_law : discriminatorBytes = fixEncoderSize getBytesEncoder 8 (tag C);
  codec_law : codec = combineCodec (encoder C) (decoder C);
  decode_law : forall m, decodeOf m = decodeAccount m (decoder C);
  fetchMaybe_law : forall a w, fetchMaybeOf a w = (fetchEncodedAccount a ≫= fun m => lift (decodeOf m)) w;
  fetch_law : forall a w, fetchOf a w = (fetchMaybeOf a ≫= fun m => lift (assertAccountExists m)) w;
  fetchAllMaybe_law : forall l w,
    fetchAllMaybeOf l w = (fetchEncodedAccounts l ≫= fun ms => lift (mapR decodeOf ms)) w;
  fetchAll_law : forall l w,
    fetchAllOf l w = (fetchAllMaybeOf l ≫= fun ms => lift (assertAccountsExist ms)) w;
}.

Ltac account_client := reflexivity.

(** ** accounts/auction.ts *)

Module AuctionFetch.
Definition getAuctionDiscriminatorBytes `{Kit} : result JsError bytes :=
  fixEncoderSize getBytesEncoder 8 AuctionAccount.AUCTION_DISCRIMINATOR.

Definition getAuctionCodec `{Kit, AccountKit} : Encoder AuctionAccount.AuctionArgs * Decoder AuctionAccount.Auction :=
  combineCodec AuctionAccount.getAuctionEncoder AuctionAccount.getAuctionDecoder.

Section Fetch.
Context `{Kit, AccountKit} {W : Type} `{AccountRpc W}.

Definition decodeAuction (encodedAccount : MaybeEncodedAccount)
    : result JsError (MaybeAccount AuctionAccount.Auction) :=
  decodeAccount encodedAccount AuctionAccount.getAuctionDecoder.

Definition fetchMaybeAuction (address : Address) : Eff W (MaybeAccount AuctionAccount.Auction) :=
  fetchEncodedAccount address ≫= fun maybeAccount => lift (decodeAuction maybeAccount).

Definition fetchAuction (address : Address) : Eff W (Account AuctionAccount.Auction) :=
  fetchMaybeAuction address ≫= fun maybeAccount => lift (assertAccountExists maybeAccount).

Definition fetchAllMaybeAuction (addresses : list Address) : Eff W (list (MaybeAccount AuctionAccount.Auction)) :=
  fetchEncodedAccounts addresses ≫= fun maybeAccounts => lift (mapR decodeAuction maybeAccounts).

Definition fetchAllAuction (addresses : list Address) : Eff W (list (Account AuctionAccount.Auction)) :=
  fetchAllMaybeAuction addresses ≫= fun maybeAccounts => lift (assertAccountsExist maybeAccounts).
End Fetch.

Definition client `{KS : KitSpec, AK : AccountKit} {W : Type} `{R : AccountRpc W}
    : AccountClient W AuctionAccount.Auction_codec.
Proof.
  refine (Build_AccountClient _ _ W _ AuctionAccount.Auction_codec getAuctionDiscriminatorBytes getAuctionCodec decodeAuction
    fetchMaybeAuction fetchAuction fetchAllMaybeAuction fetchAllAuction _ _ _ _ _ _ _).
  all: account_client.
Defined.
End AuctionFetch.

(** ** accounts/config.ts *)

Module ConfigFetch.
Definition getConfigDiscriminatorBytes `{Kit} : result JsError bytes :=
  fixEncoderSize getBytesEncoder 8 ConfigAccount.CONFIG_DISCRIMINATOR.

Definition getConfigCodec `{Kit, AccountKit} : Encoder ConfigAccount.ConfigArgs * Decoder ConfigAccount.Config :=
  combineCodec ConfigAccount.getConfigEncoder ConfigAccount.getConfigDecoder.

Section Fetch.
Context `{Kit, AccountKit} {W : Type} `{AccountRpc W}.

Definition decodeConfig (encodedAccount : MaybeEncodedAccount)
    : result JsError (MaybeAccount ConfigAccount.Config) :=
  decodeAccount encodedAccount ConfigAccount.getConfigDecoder.

Definition fetchMaybeConfig (address : Address) : Eff W (MaybeAccount ConfigAccount.Config) :=
  fetchEncodedAccount address ≫= fun maybeAccount => lift (decodeConfig maybeAccount).

Definition fetchConfig (address : Address) : Eff W (Account ConfigAccount.Config) :=
  fetchMaybeConfig address ≫= fun maybeAccount => lift (assertAccountExists maybeAccount).

Definition fetchAllMaybeConfig (addresses : list Address) : Eff W (list (MaybeAccount ConfigAccount.Config)) :=
  fetchEncodedAccounts addresses ≫= fun maybeAccounts => lift (mapR decodeConfig maybeAccounts).

Definition fetchAllConfig (addresses : list Address) : Eff W (list (Account ConfigAccount.Config)) :=
  fetchAllMaybeConfig addresses ≫= fun maybeAccounts => lift (assertAccountsExist maybeAccounts).
End Fetch.

Definition client `{KS : KitSpec, AK : AccountKit} {W : Type} `{R : AccountRpc W}
    : AccountClient W ConfigAccount.Config_codec.
Proof.
  refine (Build_AccountClient _ _ W _ ConfigAccount.Config_codec getConfigDiscriminatorBytes getConfigCodec decodeConfig
    fetchMaybeConfig fetchConfig fetchAllMaybeConfig fetchAllConfig _ _ _ _ _ _ _).
  all: account_client.
Defined.
End ConfigFetch.

(** ** accounts/listing.ts *)

Module ListingFetch.
Definition getListingDiscriminatorBytes `{Kit} : result JsError bytes :=
  fixEncoderSize getBytesEncoder 8 ListingAccount.LISTING_DISCRIMINATOR.

Definition getListingCodec `{Kit, AccountKit} : Encoder ListingAccount.ListingArgs * Decoder ListingAccount.Listing :=
  combineCodec ListingAccount.getListingEncoder ListingAccount.getListingDecoder.

Section Fetch.
Context `{Kit, AccountKit} {W : Type} `{AccountRpc W}.

Definition decodeListing (encodedAccount : MaybeEncodedAccount)
    : result JsError (MaybeAccount ListingAccount.Listing) :=
  decodeAccount encodedAccount ListingAccount.getListingDecoder.

Definition fetchMaybeListing (address : Address) : Eff W (MaybeAccount ListingAccount.Listing) :=
  fetchEncodedAccount address ≫= fun maybeAccount => lift (decodeListing maybeAccount).

Definition fetchListing (address : Address) : Eff W (Account ListingAccount.Listing) :=
  fetchMaybeListing address ≫= fun maybeAccount => lift (assertAccountExists maybeAccount).

Definition fetchAllMaybeListing (addresses : list Address) : Eff W (list (MaybeAccount ListingAccount.Listing)) :=
  fetchEncodedAccounts addresses ≫= fun maybeAccounts => lift (mapR decodeListing maybeAccounts).

Definition fetchAllListing (addresses : list Address) : Eff W (list (Account ListingAccount.Listing)) :=
  fetchAllMaybeListing addresses ≫= fun maybeAccounts => lift (assertAccountsExist maybeAccounts).
End Fetch.

Definition client `{KS : KitSpec, AK : AccountKit} {W : Type} `{R : AccountRpc W}
    : AccountClient W ListingAccount.Listing_codec.
Proof.
  refine (Build_AccountClient _ _ W _ ListingAccount.Listing_codec getListingDiscriminatorBytes getListingCodec decodeListing
    fetchMaybeListing fetchListing fetchAllMaybeListing fetchAllListing _ _ _ _ _ _ _).
  all: account_client.
Defined.
End ListingFetch.

(** ** accounts/nameRecord.ts *)

Module NameRecordFetch.
Definition getNameRecordDiscriminatorBytes `{Kit} : result JsError bytes :=
  fixEncoderSize getBytesEncoder 8 NameRecordAccount.NAME_RECORD_DISCRIMINATOR.

Definition getNameRecordCodec `{Kit, AccountKit} : Encoder NameRecordAccount.NameRecordArgs * Decoder NameRecordAccount.NameRecord :=
  combineCodec NameRecordAccount.getNameRecordEncoder NameRecordAccount.getNameRecordDecoder.

Section Fetch.
Context `{Kit, AccountKit} {W : Type} `{AccountRpc W}.

Definition decodeNameRecord (encodedAccount : MaybeEncodedAccount)
    : result JsError (MaybeAccount NameRecordAccount.NameRecord) :=
  decodeAccount encodedAccount NameRecordAccount.getNameRecordDecoder.

Definition fetchMaybeNameRecord (address : Address) : Eff W (MaybeAccount NameRecordAccount.NameRecord) :=
  fetchEncodedAccount address ≫= fun maybeAccount => lift (decodeNameRecord maybeAccount).

Definition fetchNameRecord (address : Address) : Eff W (Account NameRecordAccount.NameRecord) :=
  fetchMaybeNameRecord address ≫= fun maybeAccount => lift (assertAccountExists maybeAccount).

Definition fetchAllMaybeNameRecord (addresses : list Address) : Eff W (list (MaybeAccount NameRecordAccount.NameRecord)) :=
  fetchEncodedAccounts addresses ≫= fun maybeAccounts => lift (mapR decodeNameRecord maybeAccounts).

Definition fetchAllNameRecord (addresses : list Address) : Eff W (list (Account NameRecordAccount.NameRecord)) :=
  fetchAllMaybeNameRecord addresses ≫= fun maybeAccounts => lift (assertAccountsExist maybeAccounts).
End Fetch.

Definition client `{KS : KitSpec, AK : AccountKit} {W : Type} `{R : AccountRpc W}
    : AccountClient W NameRecordAccount.NameRecord_codec.
Proof.
  refine (Build_AccountClient _ _ W _ NameRecordAccount.NameRecord_codec getNameRecordDiscriminatorBytes getNameRecordCodec decodeNameRecord
    fetchMaybeNameRecord fetchNameRecord fetchAllMaybeNameRecord fetchAllNameRecord _ _ _ _ _ _ _).
  all: account_client.
Defined.
End NameRecordFetch.

(** ** accounts/offer.ts *)

Module OfferFetch.
Definition getOfferDiscriminatorBytes `{Kit} : result JsError bytes :=
  fixEncoderSize getBytesEncoder 8 OfferAccount.OFFER_DISCRIMINATOR.

Definition getOfferCodec `{Kit, AccountKit} : Encoder OfferAccount.OfferArgs * Decoder OfferAccount.Offer :=
  combineCodec OfferAccount.getOfferEncoder OfferAccount.getOfferDecoder.

Section Fetch.
Context `{Kit, AccountKit} {W : Type} `{AccountRpc W}.

Definition decodeOffer (encodedAccount : MaybeEncodedAccount)
    : result JsError (MaybeAccount OfferAccount.Offer) :=
  decodeAccount encodedAccount OfferAccount.getOfferDecoder.

Definition fetchMaybeOffer (address : Address) : Eff W (MaybeAccount OfferAccount.Offer) :=
  fetchEncodedAccount address ≫= fun maybeAccount => lift (decodeOffer maybeAccount).

Definition fetchOffer (address : Address) : Eff W (Account OfferAccount.Offer) :=
  fetchMaybeOffer address ≫= fun maybeAccount => lift (assertAccountExists maybeAccount).

Definition fetchAllMaybeOffer (addresses : list Address) : Eff W (list (MaybeAccount OfferAccount.Offer)) :=
  fetchEncodedAccounts addresses ≫= fun maybeAccounts => lift (mapR decodeOffer maybeAccounts).

Definition fetchAllOffer (addresses : list Address) : Eff W (list (Account OfferAccount.Offer)) :=
  fetchAllMaybeOffer addresses ≫= fun maybeAccounts => lift (assertAccountsExist maybeAccounts).
End Fetch.

Definition client `{KS : KitSpec, AK : AccountKit} {W : Type} `{R : AccountRpc W}
    : AccountClient W OfferAccount.Offer_codec.
Proof.
  refine (Build_AccountClient _ _ W _ OfferAccount.Offer_codec getOfferDiscriminatorBytes getOfferCodec decodeOffer
    fetchMaybeOffer fetchOffer fetchAllMaybeOffer fetchAllOffer _ _ _ _ _ _ _).
  all: account_client.
Defined.
End OfferFetch.

(** ** accounts/reverseRecord.ts *)

Module ReverseRecordFetch.
Definition getReverseRecordDiscriminatorBytes `{Kit} : result JsError bytes :=
  fixEncoderSize getBytesEncoder 8 ReverseRecordAccount.REVERSE_RECORD_DISCRIMINATOR.

Definition getReverseRecordCodec `{Kit, AccountKit} : Encoder ReverseRecordAccount.ReverseRecordArgs * Decoder ReverseRecordAccount.ReverseRecord :=
  combineCodec ReverseRecordAccount.getReverseRecordEncoder ReverseRecordAccount.getReverseRecordDecoder.

Section Fetch.
Context `{Kit, AccountKit} {W : Type} `{AccountRpc W}.

Definition decodeReverseRecord (encodedAccount : MaybeEncodedAccount)
    : result JsError (MaybeAccount ReverseRecordAccount.ReverseRecord) :=
  decodeAccount encodedAccount ReverseRecordAccount.getReverseRecordDecoder.

Definition fetchMaybeReverseRecord (address : Address) : Eff W (MaybeAccount ReverseRecordAccount.ReverseRecord) :=
  fetchEncodedAccount address ≫= fun maybeAccount => lift (decodeReverseRecord maybeAccount).

Definition fetchReverseRecord (address : Address) : Eff W (Account ReverseRecordAccount.ReverseRecord) :=
  fetchMaybeReverseRecord address ≫= fun maybeAccount => lift (assertAccountExists maybeAccount).

Definition fetchAllMaybeReverseRecord (addresses : list Address) : Eff W (list (MaybeAccount ReverseRecordAccount.ReverseRecord)) :=
  fetchEncodedAccounts addresses ≫= fun maybeAccounts => lift (mapR decodeReverseRecord maybeAccounts).

Definition fetchAllReverseRecord (addresses : list Address) : Eff W (list (Account ReverseRecordAccount.ReverseRecord)) :=
  fetchAllMaybeReverseRecord addresses ≫= fun maybeAccounts => lift (assertAccountsExist maybeAccounts).
End Fetch.

Definition client `{KS : KitSpec, AK : AccountKit} {W : Type} `{R : AccountRpc W}
    : AccountClient W ReverseRecordAccount.ReverseRecord_codec.
Proof.
  refine (Build_AccountClient _ _ W _ ReverseRecordAccount.ReverseRecord_codec getReverseRecordDiscriminatorBytes getReverseRecordCodec decodeReverseRecord
    fetchMaybeReverseRecord fetchReverseRecord fetchAllMaybeReverseRecord fetchAllReverseRecord _ _ _ _ _ _ _).
  all: account_client.
Defined.
End ReverseRecordFetch.

(** ** accounts/stakeAccount.ts *)

Module StakeAccountFetch.
Definition getStakeAccountDiscriminatorBytes `{Kit} : result JsError bytes :=
  fixEncoderSize getBytesEncoder 8 StakeAccountAccount.STAKE_ACCOUNT_DISCRIMINATOR.

Definition getStakeAccountCodec `{Kit, AccountKit} : Encoder StakeAccountAccount.StakeAccountArgs * Decoder StakeAccountAccount.StakeAccount :=
  combineCodec StakeAccountAccount.getStakeAccountEncoder StakeAccountAccount.getStakeAccountDecoder.

Section Fetch.
Context `{Kit, AccountKit} {W : Type} `{AccountRpc W}.

Definition decodeStakeAccount (encodedAccount : MaybeEncodedAccount)
    : result JsError (MaybeAccount StakeAccountAccount.StakeAccount) :=
  decodeAccount encodedAccount StakeAccountAccount.getStakeAccountDecoder.

Definition fetchMaybeStakeAccount (address : Address) : Eff W (MaybeAccount StakeAccountAccount.StakeAccount) :=
  fetchEncodedAccount address ≫= fun maybeAccount => lift (decodeStakeAccount maybeAccount).

Definition fetchStakeAccount (address : Address) : Eff W (Account StakeAccountAccount.StakeAccount) :=
  fetchMaybeStakeAccount address ≫= fun maybeAccount => lift (assertAccountExists maybeAccount).

Definition fetchAllMaybeStakeAccount (addresses : list Address) : Eff W (list (MaybeAccount StakeAccountAccount.StakeAccount)) :=
  fetchEncodedAccounts addresses ≫= fun maybeAccounts => lift (mapR decodeStakeAccount maybeAccounts).

Definition fetchAllStakeAccount (addresses : list Address) : Eff W (list (Account StakeAccountAccount.StakeAccount)) :=
  fetchAllMaybeStakeAccount addresses ≫= fun maybeAccounts => lift (assertAccountsExist maybeAccounts).
End Fetch.

Definition client `{KS : KitSpec, AK : AccountKit} {W : Type} `{R : AccountRpc W}
    : AccountClient W StakeAccountAccount.StakeAccount_codec.
Proof.
  refine (Build_AccountClient _ _ W _ StakeAccountAccount.StakeAccount_codec getStakeAccountDiscriminatorBytes getStakeAccountCodec decodeStakeAccount
    fetchMaybeStakeAccount fetchStakeAccount fetchAllMaybeStakeAccount fetchAllStakeAccount _ _ _ _ _ _ _).
  all: account_client.
Defined.
End StakeAccountFetch.

(** ** accounts/stakePool.ts *)

Module StakePoolFetch.
Definition getStakePoolDiscriminatorBytes `{Kit} : result JsError bytes :=
  fixEncoderSize getBytesEncoder 8 StakePoolAccount.STAKE_POOL_DISCRIMINATOR.

Definition getStakePoolCodec `{Kit, AccountKit} : Encoder StakePoolAccount.StakePoolArgs * Decoder StakePoolAccount.StakePool :=
  combineCodec StakePoolAccount.getStakePoolEncoder StakePoolAccount.getStakePoolDecoder.

Section Fetch.
Context `{Kit, AccountKit} {W : Type} `{AccountRpc W}.

Definition decodeStakePool (encodedAccount : MaybeEncodedAccount)
    : result JsError (MaybeAccount StakePoolAccount.StakePool) :=
  decodeAccount encodedAccount StakePoolAccount.getStakePoolDecoder.

Definition fetchMaybeStakePool (address : Address) : Eff W (MaybeAccount StakePoolAccount.StakePool) :=
  fetchEncodedAccount address ≫= fun maybeAccount => lift (decodeStakePool maybeAccount).

Definition fetchStakePool (address : Address) : Eff W (Account StakePoolAccount.StakePool) :=
  fetchMaybeStakePool address ≫= fun maybeAccount => lift (assertAccountExists maybeAccount).

Definition fetchAllMaybeStakePool (addresses : list Address) : Eff W (list (MaybeAccount StakePoolAccount.StakePool)) :=
  fetchEncodedAccounts addresses ≫= fun maybeAccounts => lift (mapR decodeStakePool maybeAccounts).

Definition fetchAllStakePool (addresses : list Address) : Eff W (list (Account StakePoolAccount.StakePool)) :=
  fetchAllMaybeStakePool addresses ≫= fun maybeAccounts => lift (assertAccountsExist maybeAccounts).
End Fetch.

Definition client `{KS : KitSpec, AK : AccountKit} {W : Type} `{R : AccountRpc W}
    : AccountClient W StakePoolAccount.StakePool_codec.
Proof.
  refine (Build_AccountClient _ _ W _ StakePoolAccount.StakePool_codec getStakePoolDiscriminatorBytes getStakePoolCodec decodeStakePool
    fetchMaybeStakePool fetchStakePool fetchAllMaybeStakePool fetchAllStakePool _ _ _ _ _ _ _).
  all: account_client.
Defined.
End StakePoolFetch.

(** ** Laws *)

Section Laws.
Context `{KS : KitSpec} `{AK : AccountKit} `{AS : !AccountKitSpec AK} {W : Type} `{R : AccountRpc W}.

Definition account_client (k : SolansAccount.t) : AccountClient W (account_codec k) :=
  match k with
  | SolansAccount.Auction => AuctionFetch.client
  | SolansAccount.Config => ConfigFetch.client
  | SolansAccount.Listing => ListingFetch.client
  | SolansAccount.NameRecord => NameRecordFetch.client
  | SolansAccount.Offer => OfferFetch.client
  | SolansAccount.ReverseRecord => ReverseRecordFetch.client
  | SolansAccount.StakeAccount => StakeAccountFetch.client
  | SolansAccount.StakePool => StakePoolFetch.client
  end.

(** An account that holds the encoding of [v], with anything after it. *)
Definition holds k (v : Args (account_codec k)) (m : MaybeEncodedAccount) (a : Address) : Prop :=
  object_ok (account_codec k) v
  /\ exists bs rest, encoder (account_codec k) v = Ok bs /\ m = Existing a (bs ++ rest).

Lemma holds_decodes k v m a : holds k v m a ->
  decodeOf _ _ (account_client k) m = Ok (Existing a (object (account_codec k) v)).
Proof.
  intros (Hv & bs & rest & He & ->). rewrite decode_law. apply decode_existing. unfold decode.
  destruct (object_law _ v Hv) as (bs' & He' & Hd). rewrite He in He'. apply Ok_inj in He' as <-.
  by rewrite Hd.
Qed.

(** For each of the eight account types, fetching an address whose account holds an
    encoded value returns that value at that address, one or many at a time; a missing
    account is reported as missing, or throws where it is required. *)
Theorem fetches_return_what_accounts_hold k :
  (forall a w w' v m, fetchEncodedAccount a w = (w', Ok m) -> holds k v m a ->
     fetchOf _ _ (account_client k) a w = (w', Ok (MkAccount a (object (account_codec k) v))))
  /\ (forall a w w', fetchEncodedAccount a w = (w', Ok (Missing a)) ->
     fetchMaybeOf _ _ (account_client k) a w = (w', Ok (Missing a))
     /\ exists e, fetchOf _ _ (account_client k) a w = (w', Err e))
  /\ (forall l w w' ms vs, fetchEncodedAccounts l w = (w', Ok ms) ->
     Forall2 (fun '(v, a) m => holds k v m a) (zip vs l) ms -> length vs = length l ->
     fetchAllOf _ _ (account_client k) l w
     = (w', Ok (zip_with (fun v a => MkAccount a (object (account_codec k) v)) vs l)))
  /\ (forall l w w' ms a, fetchEncodedAccounts l w = (w', Ok ms) -> In (Missing a) ms ->
     exists e, fetchAllOf _ _ (account_client k) l w = (w', Err e)).
Proof.
  split_and!.
  - intros a w w' v m HF Hm.
    rewrite fetch_law, eff_bind_run, fetchMaybe_law, eff_bind_run, HF. unfold lift.
    rewrite (holds_decodes _ _ _ _ Hm). f_equal. by apply assert_one.
  - intros a w w' HF.
    assert (HM : fetchMaybeOf _ _ (account_client k) a w = (w', Ok (Missing a))).
    { rewrite fetchMaybe_law, eff_bind_run, HF. unfold lift. by rewrite decode_law, decode_missing. }
    split; [done|]. rewrite fetch_law, eff_bind_run, HM. unfold lift.
    destruct (assertAccountExists (Missing a)) as [x|e] eqn:E; [by apply assert_one in E|by eexists].
  - intros l w w' ms vs HF HH Hl. rewrite fetchAll_law, eff_bind_run, fetchAllMaybe_law, eff_bind_run, HF.
    unfold lift.
    assert (HD : mapR (decodeOf _ _ (account_client k)) ms
      = Ok (zip_with (fun v a => Existing a (object (account_codec k) v)) vs l)).
    { clear HF. revert l ms Hl HH. induction vs as [|v vs IH]; intros [|a l] ms Hl HH; try done.
      - by inversion HH.
      - inversion HH as [|? m ? ms' Hm HH']; subst. cbn [mapR]. rewrite (holds_decodes _ _ _ _ Hm).
        cbn [mbind result_bind]. rewrite (IH l); [done|cbn in Hl; lia|done]. }
    rewrite HD. f_equal. apply assert_all. clear -Hl. revert l Hl.
    induction vs as [|v vs IH]; intros [|a l] Hl; try done. cbn. f_equal. apply IH. cbn in Hl. lia.
  - intros l w w' ms a HF HM. rewrite fetchAll_law, eff_bind_run, fetchAllMaybe_law, eff_bind_run, HF.
    unfold lift. destruct (mapR _ ms) as [xs|e] eqn:HD; [|by eexists].
    destruct (assertAccountsExist xs) as [ys|e] eqn:HA; [exfalso|by eexists].
    apply assert_all in HA. clear HF. revert xs ys HD HA.
    induction ms as [|m ms IH]; intros xs ys HD HA; [done|]. cbn [mapR] in HD.
    apply result_bind_Ok in HD as (x & Hx & HD). apply result_bind_Ok in HD as (xs' & Hxs & HD).
    apply Ok_inj in HD as <-. destruct ys as [|y ys]; [done|]. cbn in HA. injection HA as HA1 HA2.
    destruct HM as [->|HM]; [|by eapply IH].
    rewrite decode_law, decode_missing in Hx. by apply Ok_inj in Hx as <-.
Qed.
End Laws.

(** ** A concrete node *)

#[export] Instance SmallAccountKit `{Kit} : AccountKit := {
  decodeAccount := fun T m d =>
    match m with
    | Existing a bs => v ← decode d bs; Ok (Existing a v)
    | Missing a => Ok (Missing a)
    end;
  assertAccountExists := fun T m => of_option (MkError (js "account not found")) (existing m);
  assertAccountsExist := fun T l =>
    mapR (fun m => of_option (MkError (js "accounts not found")) (existing m)) l;
  combineCodec := fun A B e d => (e, d);
}.

#[export] Instance SmallAccountKit_spec `{Kit} : AccountKitSpec SmallAccountKit.
Proof.
  split; cbn; try done.
  - intros T a bs d v Hv. by rewrite Hv.
  - intros T a bs d Hd. by destruct (decode d bs).
  - intros T m x. destruct (existing m); cbn; naive_solver.
  - intros T l. induction l as [|m l IH]; intros xs; cbn [mapR map].
    + split; [by intros [= <-]|]. by destruct xs.
    + destruct (existing m) as [x|]; cbn [of_option mbind result_bind]; [|by destruct xs].
      destruct (mapR _ l) as [ys|e]; cbn [mbind result_bind].
      * split; [|destruct xs as [|x' xs]; [done|]; intros [= -> H']; apply IH in H'; congruence].
        intros [= <-]. cbn. f_equal. by apply IH.
      * split; [done|]. destruct xs as [|x' xs]; [done|]. intros [= -> H']. by apply IH in H'.
Qed.

Section Sample.
#[local] Instance SampleRpc : AccountRpc unit := {
  fetchEncodedAccount := fun a => mret (Existing a sample_listing_bytes);
  fetchEncodedAccounts := fun l => mret (map (fun a => Existing a sample_listing_bytes) l);
}.

Lemma fetches_return_what_accounts_hold_witness :
  ListingFetch.fetchListing (small_addr 7) tt
  = (tt, Ok (MkAccount (small_addr 7)
      (ListingAccount.MkListing ListingAccount.LISTING_DISCRIMINATOR sample_listing))).
Proof.
  pose proof (proj1 (fetches_return_what_accounts_hold SolansAccount.Listing) (small_addr 7) tt tt
    sample_listing (Existing (small_addr 7) sample_listing_bytes) eq_refl) as H.
  apply H. split; [exact sample_listing_ok|]. exists sample_listing_bytes, [].
  split; [vm_compute; reflexivity|]. rewrite app_nil_r. reflexivity.
Defined.
End Sample.
