(* ===== verification/Transactions.v ===== *)
(** * Building and sending a transaction

    What the keeper process (services/keeper/src/index.ts) and the command line
    (cli/src/context.ts) share: a message made of a fee payer, a block hash and
    instructions, the RPC node it is sent to, the console, and reads of the chain.
    The node, the wallet's signing and the console are the parameter [Host]. *)
From S2P Require Import Prelude JsString Kit ProgramClient Client AccountFetch JsNumber.

(** The account data an RPC read returns, at one moment. *)
Abbreviation Fetcher := (Address -> result JsError (option bytes)).

(** [createTransactionMessage({ version: 0 })] with a fee payer, a lifetime and
    instructions appended. *)
Record TransactionMessage (B : Type) := MkMessage {
  feePayer : TransactionSigner; lifetime : B; messageInstructions : list Instruction
}.
Arguments MkMessage {B}. Arguments feePayer {B}. Arguments lifetime {B}.
Arguments messageInstructions {B}.

(** The [value] of a [simulateTransaction] response.  Of its [err]: the JSON text
    with bigints printed as strings, and what plain [JSON.stringify] does, which
    throws where the error holds a bigint. *)
Record TransactionError := MkTransactionError {
  errText : jsstring; errStringify : result JsError jsstring
}.
Record Simulation := MkSimulation {
  simulationErr : option TransactionError; logs : list jsstring; unitsConsumed : option Z;
  returnData : option bytes
}.

Class Host (W : Type) := {
  Blockhash : Type;
  SignedTransaction : Type;
  (** The chain as the reads of one call find it. *)
  chain : Eff W Fetcher;
  getLatestBlockhash : Eff W Blockhash;
  signTransactionMessageWithSigners : TransactionMessage Blockhash -> Eff W SignedTransaction;
  simulateTransaction : SignedTransaction -> Eff W Simulation;
  sendAndConfirm : SignedTransaction -> Eff W unit;
  getSignatureFromTransaction : SignedTransaction -> jsstring;
  console_log : jsstring -> Eff W unit;
  console_error : jsstring -> Eff W unit;
}.

(** What an integer codec of @solana/kit encodes a number as. *)
Class NumberCodec := { codecNumber : number -> Z }.
Class NumberCodecSpec (N : NumberCodec) : Prop :=
  codec_integer : forall x z, toInteger x = Some z -> codecNumber x = z.

(** The account reads of the generated helpers, on the chain as it is found. *)
#[export] Instance host_rpc {W} `{Host W} : AccountRpc W := {
  fetchEncodedAccount := fun a =>
    chain ≫= fun fetch => lift (data ← fetch a;
      Ok (match data with Some bs => Existing a bs | None => Missing a end));
  fetchEncodedAccounts := fun l =>
    chain ≫= fun fetch => lift (mapR (fun a => data ← fetch a;
      Ok (match data with Some bs => Existing a bs | None => Missing a end)) l);
}.

Section Host.
Context {W : Type} `{Host W}.

Definition reading {A} (f : Fetcher -> result JsError A) : Eff W A :=
  chain ≫= fun fetch => lift (f fetch).

(** A loop over parents that does not end (never on the program's chains,
    [Client.resolve_decides_liveness]) is an error here. *)
Definition settled_call {A} (o : option (result JsError A)) : result JsError A :=
  default (Err (MkError (js "endless chain of parents"))) o.

(** Print lines in order. *)
Fixpoint console_lines (ls : list jsstring) : Eff W unit :=
  match ls with
  | [] => mret tt
  | l :: ls => console_log l ≫= fun _ => console_lines ls
  end.

Lemma reading_run {A} (f : Fetcher -> result JsError A) w :
  reading f w = match chain w with
                | (w', Ok fetch) => (w', f fetch)
                | (w', Err e) => (w', Err e)
                end.
Proof. done. Qed.
End Host.

(** [mbind] of effects that returned: the states in between. *)
Lemma eff_bind_inv {W A B} (m : Eff W A) (f : A -> Eff W B) w w' b :
  (m ≫= f) w = (w', Ok b) -> exists w1 a, m w = (w1, Ok a) /\ f a w1 = (w', Ok b).
Proof.
  rewrite eff_bind_run. destruct (m w) as [w1 [a|e]]; [eauto|done].
Qed.

Lemma lift_inv {W A} (r : result JsError A) (w w' : W) a :
  lift r w = (w', Ok a) -> w' = w /\ r = Ok a.
Proof. unfold lift. by intros [= -> ->]. Qed.

(** Follow an effect that returned: one hypothesis per step. *)
Ltac uneff HB :=
  repeat match type of HB with
  | mbind _ _ _ = (_, Ok _) =>
      let w1 := fresh "w" in let a := fresh "a" in let Hx := fresh "Hx" in
      apply eff_bind_inv in HB as (w1 & a & Hx & HB);
      try (apply lift_inv in Hx as [-> Hx])
  | (match ?x with pair _ _ => _ end) _ = _ => destruct x
  end.
