(* ===== verification/KeeperProcess.v ===== *)
(** * The keeper process

    src/services/keeper/src: the environment and the wiring of index.ts, the
    notifiers of keeper.ts and the metrics of metrics.ts.  [sweep] is the function
    the interval runs.  The SPL token account decoder (@solana-program/token), the
    webhook's fetch and the clock are parameters.  The notifiers of a fan-out start
    in order and do their effects before their first await, so they are run in
    order.  The theorems: the account whose delegation is checked is the account the
    renewal debits, and a sweep that read the configuration tallies every name. *)
From S2P Require Import Prelude JsString Errors OnChain Kit SmallKit Pdas Accounts Instruction.
From S2P Require Import NameInstructions MarketInstructions TokenInstructions Program.
From S2P Require Import ProgramAccounts ProgramClient NameBuilders MarketBuilders TokenBuilders.
From S2P Require Import Builders Normalize HashName Client Keeper IndexParse Tx TxLaws.
From S2P Require Import JsNumber JsDate Json Observability Transactions.
From Stdlib Require Import SpecFloat.

(** ** Environment *)

(** The variables of [process.env] and [homedir()]. *)
Record Environment := MkEnvironment {
  SOLANS_RPC_URL : option jsstring; SOLANS_WS_URL : option jsstring;
  KEEPER_KEYPAIR : option jsstring; WATCHLIST_FILE : option jsstring;
  WATCHLIST : option jsstring; KEEPER_INTERVAL : option jsstring;
  KEEPER_YEARS : option jsstring; KEEPER_NOTIFY_WINDOW : option jsstring;
  NOTIFY_WEBHOOK_URL : option jsstring; KEEPER_METRICS_PORT : option jsstring;
  homedir : jsstring;
}.

(** A value that is set and not the empty string. *)
Definition truthy (o : option jsstring) : bool :=
  match o with Some (_ :: _) => true | _ => false end.

Definition loadKeypairPath (env : Environment) : jsstring :=
  let path := default (homedir env ++ js "/.config/solana/id.json") (KEEPER_KEYPAIR env) in
  if startsWith (js "~/") path then homedir env ++ js "/" ++ slice_from 2 path else path.

(** [names.add(n)] on a [Set], in insertion order. *)
Definition add_name (names : list jsstring) (n : jsstring) : list jsstring :=
  if existsb (fun m => bool_decide (m = n)) names then names else names ++ [n].

Definition notAnArray : JsError := MkError (js "WATCHLIST_FILE must be a JSON array of names").

(** [file]: the [String(n)] of the items of the JSON array at a path, [None] when
    the JSON is not an array, an error when it cannot be read or parsed. *)
Definition loadWatchlist (env : Environment)
    (file : jsstring -> result JsError (option (list jsstring))) : result JsError (list jsstring) :=
  names ← (if truthy (WATCHLIST_FILE env) then
             parsed ← file (default [] (WATCHLIST_FILE env));
             match parsed with
             | None => Err notAnArray
             | Some items => Ok (fold_left (fun names n => add_name names (trim n)) items [])
             end
           else Ok []);
  let names := fold_left
    (fun names n => if truthy (Some (trim n)) then add_name names (trim n) else names)
    (split 44 (default [] (WATCHLIST env))) names in
  Ok (List.filter (fun n => truthy (Some n)) names).

Definition DAY : Z := 86400.
Definition RENEWAL_WINDOW_SECONDS : Z := 2592000.

Record KeeperOptions := MkKeeperOptions {
  rpcUrl : jsstring; wsUrl : jsstring; intervalSecs : number; option_years : number;
  option_notifyWindowSecs : Z; metricsPort : number
}.

(** [rpcUrl.replace(/^http/, "ws")] *)
Definition httpToWs (url : jsstring) : jsstring :=
  if startsWith (js "http") url then js "ws" ++ slice_from 4 url else url.

(** [Number(process.env.X ?? d)] *)
Definition env_number (v : option jsstring) (d : Z) : number :=
  match v with Some s => Number s | None => number_of_Z d end.

Definition keeperOptions (env : Environment) : result JsError KeeperOptions :=
  let rpcUrl := default (js "https://api.devnet.solana.com") (SOLANS_RPC_URL env) in
  let wsUrl := default (httpToWs rpcUrl) (SOLANS_WS_URL env) in
  window ← BigInt_of_number (env_number (KEEPER_NOTIFY_WINDOW env) 60);
  Ok (MkKeeperOptions rpcUrl wsUrl (env_number (KEEPER_INTERVAL env) 3600)
    (env_number (KEEPER_YEARS env) 1) (window * DAY) (env_number (KEEPER_METRICS_PORT env) 0)).

(** ** Notifiers *)

Definition event_type (e : KeeperEvent) : jsstring :=
  match e with
  | Renewed _ _ _ => js "renewed"
  | RenewalFailed _ _ => js "renewal-failed"
  | NoDelegation _ _ => js "no-delegation"
  | ExpiringSoon _ _ => js "expiring-soon"
  end.

(** The [expiresAt] property, when the event has one. *)
Definition event_expiry (e : KeeperEvent) : option Z :=
  match e with
  | Renewed _ x _ | NoDelegation _ x | ExpiringSoon _ x => Some x
  | RenewalFailed _ _ => None
  end.

Definition describe (e : KeeperEvent) : result JsError jsstring :=
  whenText ← match event_expiry e with
             | Some x => iso ← isoString x; Ok (js " (expires " ++ iso ++ js ")")
             | None => Ok []
             end;
  let why := match e with
             | RenewalFailed _ error => js ": " ++ error
             | Renewed _ _ signature =>
                 if truthy signature then js " [" ++ default [] signature ++ js "]" else []
             | _ => []
             end in
  Ok (event_type e ++ js " " ++ event_name e ++ whenText ++ why).

(** [JSON.stringify] of the event, bigints as strings, an undefined signature left out. *)
Definition event_json (e : KeeperEvent) : Json :=
  JObject ([(js "type", JString (event_type e)); (js "name", JString (event_name e))]
    ++ match event_expiry e with
       | Some x => [(js "expiresAt", JString (toString x))]
       | None => []
       end
    ++ match e with
       | RenewalFailed _ error => [(js "error", JString error)]
       | Renewed _ _ (Some signature) => [(js "signature", JString signature)]
       | _ => []
       end).

(** The parts of the world the process touches besides [Host]. *)
Class KeeperHost (W : Type) := {
  (** [fetch(url, { method: "POST", ... body })] *)
  postJson : jsstring -> jsstring -> Eff W unit;
  (** [Date.now()] *)
  dateNow : Eff W Z;
  (** The process's metrics. *)
  metricsOf : W -> Registry;
  setMetrics : Registry -> W -> W;
}.

(** An account of the token program: its decoder is @solana-program/token's. *)
Record Token := MkToken { token_delegate : option Address; delegatedAmount : Z }.
Class TokenDecoder := { getTokenDecoder : Decoder Token }.

(** An associated token account is at an address. *)
Class TokenClientSpec `{Kit} (T : TokenClient) : Prop :=
  ata_address : forall owner mint program a bump,
    findAssociatedTokenPda owner mint program = Ok (a, bump) -> isAddress a = true.

Definition buildKeeperMetrics : Registry :=
  run [RegisterCounter (js "solans_keeper_events_total") (js "Keeper events by type");
       RegisterCounter (js "solans_keeper_sweeps_total") (js "Completed keeper sweeps")].

(** The status, content type and body the metrics server answers. *)
Definition metricsReply (registry : Registry) (url : option jsstring)
    : Z * option jsstring * jsstring :=
  let under p := match url with Some u => startsWith p u | None => false end in
  if under (js "/metrics")
  then (200, Some CONTENT_TYPE, expose registry)
  else if under (js "/health")
  then (200, Some (js "application/json"), stringify (JObject [(js "ok", JBool true)]))
  else (404, None, []).

Section Process.
Context `{Keccak, Unicode, Kit, ProgramClientCore, TokenClient, TokenDecoder}.
Context {W : Type} `{Host W, KeeperHost W}.

(** A method call on a metric. *)
Definition metric (op : Op) : Eff W unit := fun w =>
  match apply op (metricsOf w) with
  | Ok r => (setMetrics r w, Ok tt)
  | Err e => (w, Err e)
  end.

Abbreviation Notifier := (KeeperEvent -> Eff W unit).

Definition ConsoleNotifier : Notifier := fun e =>
  lift (describe e) ≫= fun text => console_log (js "[keeper] " ++ text).

Definition WebhookNotifier (url : jsstring) : Notifier := fun e =>
  postJson url (stringify (event_json e)).

Definition MetricsNotifier : Notifier := fun e =>
  metric (CounterInc (js "solans_keeper_events_total") (number_of_Z 1)
    [(js "type", LString (event_type e))]).

(** [Promise.allSettled]: a sink that fails is ignored. *)
Fixpoint MultiNotifier (sinks : list Notifier) : Notifier := fun e w =>
  match sinks with
  | [] => (w, Ok tt)
  | s :: sinks => MultiNotifier sinks e (s e w).1
  end.

Definition sinks (webhook : option jsstring) (metrics : bool) : list Notifier :=
  ConsoleNotifier :: (if truthy webhook then [WebhookNotifier (default [] webhook)] else [])
  ++ (if metrics then [MetricsNotifier] else []).

(** ** The effects given to [runOnce] *)

Definition paymentAccount (owner mint : Address) : result JsError Address :=
  '(ata, _) ← findAssociatedTokenPda owner mint TOKEN_PROGRAM_ADDRESS; Ok ata.

Definition ownerDelegation (owner paymentMint : Address) : Eff W (option Delegation) :=
  lift (paymentAccount owner paymentMint) ≫= fun ata =>
  reading (fun fetch => fetch ata) ≫= fun acct : option bytes =>
  match acct with
  | None => mret None
  | Some data =>
      lift (decode getTokenDecoder data) ≫= fun token =>
      mret (Some (MkDelegation (token_delegate token) (delegatedAmount token)))
  end.

Definition ownerAta (cfg : ConfigAccount.Config) (nameRecord : Address) : Eff W Address :=
  reading (fun fetch => fetch nameRecord) ≫= fun acct : option bytes =>
  match acct with
  | None => throw (MkError (js "name record vanished"))
  | Some data =>
      lift (decodeNameRecord data) ≫= fun rec =>
      lift (paymentAccount (NameRecordAccount.owner (NameRecordAccount.args rec)) (ConfigAccount.paymentMint (ConfigAccount.args cfg)))
  end.

Variable keeper : TransactionSigner.
Variable years : Z.

(** The instruction of [renew]. *)
Definition renewInstruction (cfg : ConfigAccount.Config) (label tld : jsstring) : Eff W Instruction :=
  lift (nameParts (label ++ js "." ++ tld) None) ≫= fun '(_, _, hash) =>
  lift (findNameRecordPda {| nameHash := hash |} None) ≫= fun '(nameRecord, _) =>
  ownerAta cfg nameRecord ≫= fun ownerTokenAccount =>
  lift (AutoRenewBuilder.getAutoRenewInstructionAsync
    {| AutoRenewBuilder.Async.keeper := keeper; AutoRenewBuilder.Async.config := None;
       AutoRenewBuilder.Async.nameRecord := nameRecord;
       AutoRenewBuilder.Async.ownerTokenAccount := ownerTokenAccount;
       AutoRenewBuilder.Async.treasuryTokenAccount := ConfigAccount.treasuryTokenAccount (ConfigAccount.args cfg);
       AutoRenewBuilder.Async.stakingVault := ConfigAccount.stakingVault (ConfigAccount.args cfg);
       AutoRenewBuilder.Async.burnVault := ConfigAccount.burnVault (ConfigAccount.args cfg);
       AutoRenewBuilder.Async.paymentMint := ConfigAccount.paymentMint (ConfigAccount.args cfg);
       AutoRenewBuilder.Async.tokenProgram := None;
       AutoRenewBuilder.Async.args := AutoRenew.MkAutoRenewInstructionDataArgs label tld years |} None).

Definition renew (cfg : ConfigAccount.Config) (label tld : jsstring) : Eff W (option jsstring) :=
  renewInstruction cfg label tld ≫= fun ix =>
  getLatestBlockhash ≫= fun latestBlockhash =>
  signTransactionMessageWithSigners (MkMessage keeper latestBlockhash [ix]) ≫= fun signed =>
  sendAndConfirm signed ≫= fun _ =>
  mret (Some (getSignatureFromTransaction signed)).

Variable webhook : option jsstring.
Variable metrics : bool.
Variable configPda : Address.
Variable notifyWindowSecs : Z.

(** The [ProcessDeps] of a sweep. *)
Definition deps (cfg : ConfigAccount.Config) (now : Z) : ProcessDeps W :=
  {| Keeper.resolve := fun n => reading (fun fetch => settled_call (Client.resolve fetch n));
     Keeper.ownerDelegation := fun owner => ownerDelegation owner (ConfigAccount.paymentMint (ConfigAccount.args cfg));
     Keeper.quote := fun label y => reading (fun fetch => quoteName fetch label (Some y));
     Keeper.renew := fun label tld _ => renew cfg label tld;
     Keeper.notify := MultiNotifier (sinks webhook metrics);
     Keeper.configPda := configPda;
     Keeper.now := now / 1000;
     Keeper.windowSecs := RENEWAL_WINDOW_SECONDS;
     Keeper.notifyWindowSecs := notifyWindowSecs;
     Keeper.years := years |}.

(** [sweep()] over the dependencies it gives [runOnce]; returns the tally, [None] when the
    registry has no config. *)
Definition sweepWith (depsOf : ConfigAccount.Config -> Z -> ProcessDeps W) (watchlist : list jsstring)
    : Eff W (option Tally) :=
  reading getConfig ≫= fun cfg : option ConfigAccount.Config =>
  match cfg with
  | None =>
      console_error (js "keeper: registry config not initialized; skipping sweep") ≫= fun _ => mret None
  | Some cfg =>
      dateNow ≫= fun now =>
      runOnce watchlist (depsOf cfg now) ≫= fun tally =>
      (if metrics then metric (CounterInc (js "solans_keeper_sweeps_total") (number_of_Z 1) [])
       else mret tt) ≫= fun _ =>
      console_error (js "keeper: sweep done " ++ [8212] ++ js " renewed " ++ toString (renewed_count tally)
        ++ js ", skipped " ++ toString (skipped_count tally)
        ++ js ", failed " ++ toString (failed_count tally)) ≫= fun _ =>
      mret (Some tally)
  end.

Definition sweep : list jsstring -> Eff W (option Tally) := sweepWith deps.
End Process.

(** ** The watchlist *)

Lemma add_name_In names n m : In m (add_name names n) <-> In m names \/ m = n.
Proof.
  unfold add_name. destruct (existsb _ names) eqn:E.
  - apply existsb_exists in E as (x & Hx & Hn). bool_prop. subst. naive_solver.
  - rewrite in_app_iff. cbn. naive_solver.
Qed.

Lemma add_name_NoDup names n : NoDup names -> NoDup (add_name names n).
Proof.
  intros HN. unfold add_name. destruct (existsb _ names) eqn:E; [done|].
  apply NoDup_app. split_and!; [done| |apply NoDup_singleton].
  intros x Hx Hn. apply list_elem_of_singleton in Hn as ->. apply list_elem_of_In in Hx.
  assert (existsb (fun m => bool_decide (m = n)) names = true); [|congruence].
  apply existsb_exists. exists n. split; [done|by apply bool_decide_eq_true].
Qed.

(** Adding the trimmed items that pass a test. *)
Lemma add_names (keep : jsstring -> bool) items : forall names, NoDup names ->
  let r := fold_left (fun names n => if keep (trim n) then add_name names (trim n) else names)
    items names in
  NoDup r /\ forall m, In m r <-> In m names \/ exists n, In n items /\ trim n = m /\ keep m = true.
Proof.
  induction items as [|n items IH]; intros names HN; cbn [fold_left].
  { split; [done|]. intros m. split; [by left|]. by intros [?|(? & [] & _)]. }
  destruct (keep (trim n)) eqn:E.
  - destruct (IH _ (add_name_NoDup names (trim n) HN)) as [H1 H2]. split; [done|]. intros m.
    rewrite H2, add_name_In. cbn [In]. split.
    + intros [[?| ->]|(x & ? & ?)]; [by left|right; exists n; by auto|right; exists x; by auto].
    + intros [?|(x & [->|?] & <- & ?)]; [by left; left|by left; right|right; eauto].
  - destruct (IH _ HN) as [H1 H2]. split; [done|]. intros m. rewrite H2. cbn [In]. split.
    + intros [?|(x & ? & ?)]; [by left|right; eauto].
    + intros [?|(x & [->|?] & <- & ?)]; [by left|congruence|right; eauto].
Qed.

(** The watchlist holds each trimmed, non-empty name of the file and of the variable
    once. *)
Theorem watchlist_has_each_name_once env file names : loadWatchlist env file = Ok names ->
  exists items,
    (if truthy (WATCHLIST_FILE env)
     then file (default [] (WATCHLIST_FILE env)) = Ok (Some items) else items = [])
    /\ NoDup names
    /\ forall m, In m names <-> m <> []
         /\ exists n, (In n items \/ In n (split 44 (default [] (WATCHLIST env)))) /\ trim n = m.
Proof.
  unfold loadWatchlist. intros HL. apply result_bind_Ok in HL as (ns & HF & HL).
  assert (HT : forall m, truthy (Some m) = true <-> m <> []) by (by intros []).
  assert (HI : exists items, (if truthy (WATCHLIST_FILE env)
      then file (default [] (WATCHLIST_FILE env)) = Ok (Some items) else items = [])
    /\ ns = fold_left (fun names n => if true then add_name names (trim n) else names) items []).
  { destruct (truthy (WATCHLIST_FILE env)).
    - apply result_bind_Ok in HF as ([items|] & HF & HN); [|done]. apply Ok_inj in HN as <-. by exists items.
    - apply Ok_inj in HF as <-. by exists []. }
  destruct HI as (items & HI & ->). exists items. split; [done|]. apply Ok_inj in HL as <-.
  destruct (add_names (fun _ => true) items [] (NoDup_nil_2)) as [N1 I1].
  destruct (add_names (fun n => truthy (Some n)) (split 44 (default [] (WATCHLIST env))) _ N1) as [N2 I2].
  split; [by apply NoDup_ListNoDup, List.NoDup_filter, NoDup_ListNoDup|].
  intros m. rewrite List.filter_In, HT, I2, I1. split.
  - intros [[[[]|(n & Hn & <- & _)]|(n & Hn & <- & _)] H0]; (split; [done|]); eauto.
  - intros [H0 (n & [Hn|Hn] & <-)]; (split; [|done]); [left; right|right]; exists n;
      split_and!; try done. by apply HT.
Qed.

(** ** Guarantees *)

Section Guarantees.
Context `{KS : KeccakSpec} `{HU : Unicode} `{HUS : !UnicodeSpec HU} `{HKit : KitSpec} `{PS : ProgramClientSpec}.
Context `{TC : TokenClient} `{TS : !TokenClientSpec TC} `{TD : TokenDecoder}.
Context {W : Type} `{HH : Host W} `{HP : KeeperHost W}.

Lemma reading_stable {A} (f : Fetcher -> result JsError A) fetch w w' a :
  (forall w, exists w', chain w = (w', Ok fetch)) -> reading f w = (w', Ok a) -> f fetch = Ok a.
Proof.
  intros HS. rewrite reading_run. destruct (HS w) as (w1 & ->). by intros [= _ ->].
Qed.

Lemma resolved_leaf fetch name rec : Client.resolve fetch name = Some (Ok (Some rec)) ->
  exists nr bump data, findNameRecord name None = Ok (nr, bump)
    /\ fetch nr = Ok (Some data) /\ decodeNameRecord data = Ok rec.
Proof.
  unfold Client.resolve. destruct (findNameRecord name None) as [[nr bump]|e]; [|done].
  destruct (fetch nr) as [[data|]|e] eqn:Hf; try done.
  destruct (decodeNameRecord data) as [leaf|e] eqn:Hd; [|done].
  destruct (walkParents _ _ _) as [[[|]|e]|]; cbn; try done.
  intros [= <-]. exists nr, bump, data. done.
Qed.

(** What the keeper asks the builder of auto_renew for. *)
Definition renewal_input (keeper : TransactionSigner) (years : Z) (cfg : ConfigAccount.Config)
    (label tld : jsstring) (nameRecord ownerTokenAccount : Address)
    : AutoRenewBuilder.Async.AutoRenewAsyncInput :=
  {| AutoRenewBuilder.Async.keeper := keeper; AutoRenewBuilder.Async.config := None;
     AutoRenewBuilder.Async.nameRecord := nameRecord;
     AutoRenewBuilder.Async.ownerTokenAccount := ownerTokenAccount;
     AutoRenewBuilder.Async.treasuryTokenAccount := ConfigAccount.treasuryTokenAccount (ConfigAccount.args cfg);
     AutoRenewBuilder.Async.stakingVault := ConfigAccount.stakingVault (ConfigAccount.args cfg);
     AutoRenewBuilder.Async.burnVault := ConfigAccount.burnVault (ConfigAccount.args cfg);
     AutoRenewBuilder.Async.paymentMint := ConfigAccount.paymentMint (ConfigAccount.args cfg);
     AutoRenewBuilder.Async.tokenProgram := None;
     AutoRenewBuilder.Async.args := AutoRenew.MkAutoRenewInstructionDataArgs label tld years |}.

Lemma renewal_parts fetch keeper years cfg name label tld rec ix (w w' : W) :
  (forall w, exists w', chain w = (w', Ok fetch)) ->
  Client.resolve fetch name = Some (Ok (Some rec)) ->
  parseName name None = Ok (label, tld) -> no_brackets label ->
  renewInstruction keeper years cfg label tld w = (w', Ok ix) ->
  exists u nr bump v ata,
    findNameRecord name None = Ok (u :: nr, bump)
    /\ paymentAccount (NameRecordAccount.owner (NameRecordAccount.args rec))
         (ConfigAccount.paymentMint (ConfigAccount.args cfg)) = Ok (v :: ata)
    /\ build (builder Builder.AutoRenewAsync)
         (renewal_input keeper years cfg label tld (u :: nr) (v :: ata)) None = Ok ix.
Proof.
  intros HS HR HPn Hb HI.
  destruct (resolved_leaf _ _ _ HR) as (nr & bump & bs & HF & Hfetch & Hdec).
  pose proof (parseName_again _ _ _ _ HPn Hb) as HA.
  assert (HN : nameParts (label ++ js "." ++ tld) None = nameParts name None).
  { unfold nameParts. change (label ++ js "." ++ tld) with (dotted label tld). by rewrite HA, HPn. }
  unfold renewInstruction in HI. rewrite HN in HI.
  assert (HNP : nameParts name None = Ok (label, tld, computeNameHash label tld))
    by (unfold nameParts; by rewrite HPn).
  rewrite HNP in HI. uneff HI.
  injection Hx as <- <- <-.
  pose proof (nameParts_record _ _ _ _ _ HNP Hx0) as HF'. rewrite HF in HF'. injection HF' as <- <-.
  unfold ownerAta in Hx1. uneff Hx1.
  pose proof (reading_stable _ _ _ _ _ HS Hx) as Hacct. cbv beta in Hacct.
  rewrite Hfetch in Hacct. injection Hacct as <-. uneff Hx1.
  rewrite Hdec in Hx2. injection Hx2 as <-.
  apply lift_inv in Hx1 as [_ Hata].
  destruct (address_cons _ (record_valid _ _ _ Hx0)) as (u & k & ->).
  assert (HC : exists v l, a = v :: l).
  { unfold paymentAccount in Hata. unbind Hata. injection Hata as <-.
    by eapply address_cons, ata_address. }
  destruct HC as (v & l & ->). exists u, k, bump, v, l. split; [done|]. split; [done|].
  apply lift_inv in HI as [_ HI]. exact HI.
Qed.

(** C23: The account whose delegation the keeper checks is the account its renewal debits:
    the auto_renew instruction built for a resolved name pays from the payment account of
    the record's owner, at the name's record, and the delegation checked is what that
    account's data on the same chain holds. *)
Theorem checked_delegation_is_debited fetch keeper years cfg name label tld rec ix (w w' : W) :
  (forall w, exists w', chain w = (w', Ok fetch)) ->
  Client.resolve fetch name = Some (Ok (Some rec)) ->
  parseName name None = Ok (label, tld) -> no_brackets label ->
  renewInstruction keeper years cfg label tld w = (w', Ok ix) ->
  exists nr bump ata,
    findNameRecord name None = Ok (nr, bump)
    /\ paymentAccount (NameRecordAccount.owner (NameRecordAccount.args rec))
         (ConfigAccount.paymentMint (ConfigAccount.args cfg)) = Ok ata
    /\ account_at (accounts ix) 0 = signerAddress keeper
    /\ account_at (accounts ix) 2 = nr
    /\ account_at (accounts ix) 3 = ata
    /\ AutoRenew.getAutoRenewInstructionDataEncoder
         (AutoRenew.MkAutoRenewInstructionDataArgs label tld years) = Ok (data ix)
    /\ forall u u' del,
         ownerDelegation (NameRecordAccount.owner (NameRecordAccount.args rec))
           (ConfigAccount.paymentMint (ConfigAccount.args cfg)) u = (u', Ok (Some del)) ->
         exists bs token, fetch ata = Ok (Some bs) /\ decode getTokenDecoder bs = Ok token
           /\ delegate del = token_delegate token /\ amount del = delegatedAmount token.
Proof.
  intros HS HR HPn Hb HI.
  destruct (renewal_parts _ _ _ _ _ _ _ _ _ _ _ HS HR HPn Hb HI)
    as (u & k & bump & v & l & HF & Hata & HB).
  exists (u :: k), bump, (v :: l). split; [done|]. split; [done|].
  pose proof HB as HD. apply built in HD as (addrs & dat & _ & HE & _ & Hix).
  apply built_account in HB as (addrs' & Ha & HB). unfold_addresses Ha. unbind Ha. injection Ha as <-.
  unfold account_at.
  rewrite (HB 0%nat _ _ eq_refl eq_refl), (HB 2%nat _ _ eq_refl eq_refl), (HB 3%nat _ _ eq_refl eq_refl).
  split_and!; [done..| |].
  - rewrite Hix. exact HE.
  - intros u0 u' del HO. unfold ownerDelegation in HO. rewrite Hata in HO. uneff HO.
    match goal with H : Ok (v :: l) = Ok ?a |- _ => injection H as <- end.
    match goal with H : reading (fun fetch => fetch (v :: l)) _ = _ |- _ =>
      pose proof (reading_stable _ _ _ _ _ HS H) as Hd end. cbv beta in Hd.
    case_match; [|done]. uneff HO. injection HO as _ <-. eexists _, _. done.
Qed.

Lemma MultiNotifier_settles sinks e : no_throw (W := W) (MultiNotifier sinks e).
Proof. induction sinks as [|s sinks IH]; intros w; [done|]. apply IH. Qed.

Lemma runOnce_total (d : ProcessDeps W) watchlist : (forall e, no_throw (Keeper.notify d e)) ->
  forall tally w, exists w' t, Keeper.sweep watchlist d tally w = (w', Ok t)
    /\ total t = total tally + Z.of_nat (length watchlist)
    /\ renewed_count tally <= renewed_count t /\ skipped_count tally <= skipped_count t
    /\ failed_count tally <= failed_count t.
Proof.
  intros HN. induction watchlist as [|name rest IH]; intros tally w.
  - exists w, tally. cbn. split_and!; [done|lia..].
  - cbn [Keeper.sweep]. rewrite eff_bind_run. unfold eff_catch. rewrite eff_bind_run.
    assert (HT : forall r, total (bump r tally) = total tally + 1) by (intros []; unfold total; cbn; lia).
    assert (HL : forall r, renewed_count tally <= renewed_count (bump r tally)
      /\ skipped_count tally <= skipped_count (bump r tally)
      /\ failed_count tally <= failed_count (bump r tally)) by (intros []; cbn; lia).
    assert (HGo : forall r w2, exists w' t, Keeper.sweep rest d (bump r tally) w2 = (w', Ok t)
      /\ total t = total tally + Z.of_nat (length (name :: rest))
      /\ renewed_count tally <= renewed_count t /\ skipped_count tally <= skipped_count t
      /\ failed_count tally <= failed_count t).
    { intros r w2. destruct (IH (bump r tally) w2) as (w' & t & -> & HS & HC).
      exists w', t. specialize (HT r). specialize (HL r). cbn [length]. split_and!; [done|lia..]. }
    destruct (processName name d w) as [w1 [r|e]]; [apply HGo|]. rewrite eff_bind_run.
    destruct (no_throw_Ok _ w1 (HN (RenewalFailed name (message e)))) as (w2 & [] & ->). apply HGo.
Qed.

Lemma metric_no_throw n l : no_throw (W := W) (metric (CounterInc n (number_of_Z 1) l)).
Proof.
  intros w. unfold metric. cbn [apply]. unfold on_scalar, on_metric.
  assert (H : forall r, is_Ok (mapR (fun m => if bool_decide (metric_name m = n)
    then lift_scalar counter (counter_inc (number_of_Z 1) l) m else Ok m) r) = true).
  { induction r as [|m r IH]; [done|]. cbn [mapR]. apply is_Ok_true in IH as (r' & ->).
    destruct (bool_decide _); [|done]. destruct m as [s|h]; [|done]. unfold lift_scalar.
    by destruct (type s). }
  specialize (H (metricsOf w)). destruct (mapR _ _); [done|]. done.
Qed.

(** A sweep fails only when the configuration cannot be read, with that error: without
    a configuration it does nothing, and otherwise it ends with a tally that counts every
    watched name once, whatever resolving, renewing and notifying do. *)
Theorem sweeps_throw_only_without_config metrics depsOf watchlist (w w1 : W) cfg :
  (forall cfg now e, no_throw (Keeper.notify (depsOf cfg now) e)) ->
  no_throw dateNow -> (forall s, no_throw (console_error s)) -> reading getConfig w = (w1, cfg) ->
  match cfg with
  | Err e => sweepWith metrics depsOf watchlist w = (w1, Err e)
  | Ok None => exists w', sweepWith metrics depsOf watchlist w = (w', Ok None)
  | Ok (Some _) => exists w' t, sweepWith metrics depsOf watchlist w = (w', Ok (Some t))
      /\ renewed_count t + skipped_count t + failed_count t = Z.of_nat (length watchlist)
      /\ 0 <= renewed_count t /\ 0 <= skipped_count t /\ 0 <= failed_count t
  end.
Proof.
  intros HN HD HC HR. unfold sweepWith. rewrite eff_bind_run, HR. destruct cfg as [[cfg|]|e]; [| |done].
  - rewrite eff_bind_run. destruct (no_throw_Ok _ w1 HD) as (w2 & now & ->). rewrite eff_bind_run.
    destruct (runOnce_total (depsOf cfg now) watchlist (HN cfg now) (MkTally 0 0 0) w2) as (w3 & t & HS & HT & Hc).
    unfold runOnce. rewrite HS. rewrite eff_bind_run.
    assert (HM : no_throw (W := W) (if metrics
      then metric (CounterInc (js "solans_keeper_sweeps_total") (number_of_Z 1) []) else mret tt))
      by (destruct metrics; [apply metric_no_throw|done]).
    destruct (no_throw_Ok _ w3 HM) as (w4 & [] & ->). rewrite eff_bind_run.
    match goal with |- context [console_error ?x w4] =>
      destruct (no_throw_Ok _ w4 (HC x)) as (w5 & [] & ->) end.
    exists w5, t. unfold total in HT. cbn in HT, Hc. split_and!; [done|lia..].
  - rewrite eff_bind_run.
    match goal with |- context [console_error ?x w1] =>
      destruct (no_throw_Ok _ w1 (HC x)) as (w2 & [] & ->) end. by exists w2.
Qed.
End Guarantees.

(** ** A concrete process *)

#[export] Instance SmallTokenClient_spec : TokenClientSpec SmallTokenClient.
Proof. intros owner mint program a bump H. exact (pda_address _ _ _ _ H). Qed.

Section Sample.
#[local] Existing Instance SmallUnicode.

(** The owner's token account delegates 20000000 units. *)
Definition sample_ata : Address :=
  match paymentAccount (small_addr 1) (small_addr 1) with Ok a => a | Err _ => [] end.
Definition process_fetch (a : Address) : result JsError (option bytes) :=
  if bool_decide (a = sample_ata) then Ok (Some (le_bytes 8 20000000)) else sample_fetch a.

#[local] Instance SmallTokenDecoder : TokenDecoder := {
  getTokenDecoder := fun bs => Ok (MkToken (Some (small_addr 2)) (le_val (take 8 bs)), drop 8 bs)
}.

(** The world is the metrics and the lines printed. *)
#[local] Instance SampleHost : Host (Registry * list jsstring) := {
  Blockhash := unit; SignedTransaction := TransactionMessage unit;
  chain := mret process_fetch; getLatestBlockhash := mret tt;
  signTransactionMessageWithSigners := fun m => mret m;
  simulateTransaction := fun _ => mret (MkSimulation None [] None None);
  sendAndConfirm := fun _ => mret tt; getSignatureFromTransaction := fun _ => js "sig";
  console_log := fun l '(r, ls) => ((r, ls ++ [l]), Ok tt);
  console_error := fun l '(r, ls) => ((r, ls ++ [l]), Ok tt);
}.
#[local] Instance SampleKeeperHost : KeeperHost (Registry * list jsstring) := {
  postJson := fun _ body '(r, ls) => ((r, ls ++ [body]), Err (MkError (js "fetch failed")));
  dateNow := mret 31000000000; metricsOf := fst; setMetrics := fun r w => (r, w.2)
}.

Definition sample_cfg : ConfigAccount.Config :=
  ConfigAccount.MkConfig ConfigAccount.CONFIG_DISCRIMINATOR sample_client_config.
Definition sample_keeper : TransactionSigner := MkSigner (small_addr 9).
Definition sample_start : Registry * list jsstring := (buildKeeperMetrics, []).

Definition sample_watch : list jsstring := [js "alex.sol"; js "pay.alex.sol"; js "nobody.sol"].

(** One name renewed, a subdomain refused, an unregistered name skipped; the webhook
    fails each time. *)
Definition sample_sweep : (Registry * list jsstring) * result JsError (option Tally) :=
  sweep sample_keeper 1 (Some (js "https://hook.example")) true (small_addr 2) 5184000
    sample_watch sample_start.

Lemma sample_sweep_tally : sample_sweep.2 = Ok (Some (MkTally 1 1 1)).
Proof. vm_compute. reflexivity. Qed.

Lemma sample_config_read :
  reading getConfig sample_start = (sample_start, Ok (Some sample_cfg)).
Proof. vm_compute. reflexivity. Qed.

Lemma sweeps_throw_only_without_config_witness :
  exists w' t, sample_sweep = (w', Ok (Some t))
    /\ renewed_count t + skipped_count t + failed_count t = 3.
Proof.
  pose proof (sweeps_throw_only_without_config true
    (deps sample_keeper 1 (Some (js "https://hook.example")) true (small_addr 2) 5184000)
    sample_watch sample_start sample_start (Ok (Some sample_cfg))) as H.
  destruct H as (w' & t & HS & HT & _).
  - intros cfg now e. apply MultiNotifier_settles.
  - intros w. reflexivity.
  - intros s [r ls]. reflexivity.
  - exact sample_config_read.
  - exists w', t. split; [exact HS|exact HT].
Defined.

Lemma process_resolves :
  Client.resolve process_fetch (js "Alex.sol") = Some (Ok (Some alex_object)).
Proof. vm_compute. reflexivity. Qed.
Lemma process_parses : parseName (js "Alex.sol") None = Ok (js "alex", js "sol").
Proof. vm_compute. reflexivity. Qed.

Definition sample_instruction : Instruction :=
  match (renewInstruction sample_keeper 1 sample_cfg (js "alex") (js "sol") sample_start).2 with
  | Ok ix => ix
  | Err _ => {| programAddress := []; accounts := []; data := [] |}
  end.

Lemma sample_instruction_built :
  renewInstruction sample_keeper 1 sample_cfg (js "alex") (js "sol") sample_start
  = (sample_start, Ok sample_instruction).
Proof. vm_compute. reflexivity. Qed.

Lemma checked_delegation_is_debited_witness :
  account_at (accounts sample_instruction) 3 = sample_ata
  /\ account_at (accounts sample_instruction) 2 = alex_pda.
Proof.
  pose proof (checked_delegation_is_debited process_fetch sample_keeper 1 sample_cfg (js "Alex.sol")
    (js "alex") (js "sol") alex_object sample_instruction sample_start sample_start) as H.
  destruct H as (nr & bump & ata & HF & HA & _ & HN & HT & _).
  - intros w. exists w. reflexivity.
  - exact process_resolves.
  - exact process_parses.
  - vm_compute. reflexivity.
  - exact sample_instruction_built.
  - split.
    + rewrite HT. assert (HE : paymentAccount (small_addr 1) (small_addr 1) = Ok sample_ata)
        by (vm_compute; reflexivity).
      assert (HA' : paymentAccount (small_addr 1) (small_addr 1) = Ok ata) by exact HA.
      rewrite HE in HA'. apply Ok_inj in HA'. symmetry. exact HA'.
    + rewrite HN. assert (HE : findNameRecord (js "Alex.sol") None = Ok (alex_pda, bump)).
      { rewrite HF. f_equal. f_equal.
        assert (HB : findNameRecord (js "Alex.sol") None = findNameRecord (js "alex.sol") None)
          by (vm_compute; reflexivity).
        unfold alex_pda. rewrite <- HB, HF. reflexivity. }
      rewrite HF in HE. apply Ok_inj in HE. exact (f_equal fst HE).
Defined.

Definition sample_environment : Environment :=
  MkEnvironment None None None (Some (js "names.json")) (Some (js "alex.sol, ,bob.sol")) None None
    None None None (js "/home/k").

Lemma watchlist_has_each_name_once_witness :
  exists names, loadWatchlist sample_environment (fun _ => Ok (Some [js " alex.sol"; []])) = Ok names
    /\ NoDup names /\ length names = 2%nat.
Proof.
  exists [js "alex.sol"; js "bob.sol"].
  assert (HL : loadWatchlist sample_environment (fun _ => Ok (Some [js " alex.sol"; []]))
    = Ok [js "alex.sol"; js "bob.sol"]) by (vm_compute; reflexivity).
  destruct (watchlist_has_each_name_once _ _ _ HL) as (_ & _ & HN & _).
  split; [exact HL|]. split; [exact HN|reflexivity].
Defined.
End Sample.
