(* ===== verification/Servers.v ===== *)
(** * The entry points of the services

    src/services/indexer/src/server.ts, src/services/resolver/src/server.ts and [main] of
    src/services/keeper/src/index.ts: what each process reads of its environment, what it
    starts, and how it ends.  The sockets, the files and the printing of errors are a host
    parameter.  The theorems: the resolver caches exactly when its TTL is a positive
    number, and the keeper's process goes on through every failure of a sweep but an
    unreadable configuration. *)
From Stdlib Require Import SpecFloat.
From S2P Require Import Prelude JsString Errors OnChain Kit SmallKit Pdas Accounts Instruction.
From S2P Require Import ProgramClient Builders HashName Client Keeper IndexParse Tx TxLaws JsNumber Observability.
From S2P Require Import Transactions Hosting Resolver KeeperProcess.

(** How a process comes to rest: it exited with a code, a server listens, a timer of so many
    milliseconds is set, nothing is left to do, or a rejection nobody handles ended it. *)
Inductive Ending :=
| Exited (code : Z)
| Listening
| Every (ms : number)
| Idle
| Unhandled (e : JsError).

Class ServerHost (W : Type) := {
  (** [app.listen({ port, host: "0.0.0.0" })]: the address bound *)
  listen : number -> Eff W jsstring;
  (** [console.error(err)] *)
  console_error_value : JsError -> Eff W unit;
  (** the socket of [startMetricsServer]; [metricsReply] is what it answers *)
  serveMetrics : number -> Eff W unit;
  (** [JSON.parse(readFileSync(path, "utf8"))] as [loadWatchlist] reads it *)
  watchlistFile : jsstring -> result JsError (option (list jsstring));
  (** [createKeyPairSignerFromBytes(new Uint8Array(JSON.parse(readFileSync(path, "utf8"))))] *)
  loadKeyPair : jsstring -> Eff W TransactionSigner;
}.

(** [x > 0] *)
Definition positive (x : number) : bool := SFltb (S754_zero false) x.

(** ** What the servers read of the environment *)

Record ResolverEnvironment := MkResolverEnvironment {
  RESOLVER_RPC_URL : option jsstring; RESOLVER_PORT : option jsstring;
  RESOLVER_CACHE_TTL : option jsstring; IPFS_GATEWAY : option jsstring;
  ARWEAVE_GATEWAY : option jsstring;
}.

Definition resolverRpcUrl (env : ResolverEnvironment) : jsstring :=
  default (js "https://api.devnet.solana.com") (RESOLVER_RPC_URL env).
Definition resolverPort (env : ResolverEnvironment) : number := env_number (RESOLVER_PORT env) 8787.
Definition resolverTtl (env : ResolverEnvironment) : number := env_number (RESOLVER_CACHE_TTL env) 30.
Definition resolverGateways (env : ResolverEnvironment) : Gateways :=
  MkGateways (default (js "https://ipfs.io") (IPFS_GATEWAY env))
    (default (js "https://arweave.net") (ARWEAVE_GATEWAY env)).

(** The options given to [buildApp]; [None] for a TTL that caches but is not a whole number
    of seconds, which the cache of Resolver.v does not count. *)
Definition resolverOptions (env : ResolverEnvironment) : option BuildOpts :=
  let ttl := resolverTtl env in
  if positive ttl
  then seconds ← toInteger ttl; Some (MkOpts (resolverGateways env) true seconds)
  else Some (MkOpts (resolverGateways env) false (default 0 (toInteger ttl))).

Definition indexerPort (PORT : option jsstring) : number := env_number PORT 8788.

(** ** Start-up *)

Section Entry.
Context `{Keccak, Unicode, Kit, ProgramClientCore, TokenClient, TokenDecoder}.
Context {W : Type} `{Host W, KeeperHost W, ServerHost W}.

(** [p.catch((err) => { console.error(err); process.exit(1); })]; [quit] is what comes of the
    process then. *)
Definition exitOnError {A} (quit : Ending -> A) (p : Eff W A) : Eff W A :=
  eff_catch p (fun e => console_error_value e ≫= fun _ => mret (quit (Exited 1))).

Definition indexerMain (PORT : option jsstring) : Eff W Ending :=
  exitOnError (fun e => e)
    (listen (indexerPort PORT) ≫= fun addr =>
     console_log (js "SOLANS indexer listening on " ++ addr) ≫= fun _ => mret Listening).

Definition resolverMain (env : ResolverEnvironment) : Eff W Ending :=
  exitOnError (fun e => e)
    (listen (resolverPort env) ≫= fun addr =>
     console_log (js "SOLANS resolver listening on " ++ addr ++ js " (rpc: " ++ resolverRpcUrl env
       ++ js ")") ≫= fun _ => mret Listening).

(** ** The keeper *)

(** The dependencies of a sweep for a term that is any number: [quoteName] throws where
    [BigInt] does, before anything is renewed. *)
Definition keeperDeps (keeper : TransactionSigner) (years : number) (webhook : option jsstring)
    (metrics : bool) (configPda : Address) (window : Z) (cfg : ConfigAccount.Config) (now : Z)
    : ProcessDeps W :=
  match toInteger years with
  | Some y => deps keeper y webhook metrics configPda window cfg now
  | None =>
      let d := deps keeper 0 webhook metrics configPda window cfg now in
      {| Keeper.resolve := Keeper.resolve d;
         Keeper.ownerDelegation := Keeper.ownerDelegation d;
         Keeper.quote := fun label _ =>
           reading (fun fetch => quoteName fetch label None) ≫= fun _ => lift (BigInt_of_number years);
         Keeper.renew := Keeper.renew d; Keeper.notify := Keeper.notify d;
         Keeper.configPda := Keeper.configPda d; Keeper.now := Keeper.now d;
         Keeper.windowSecs := Keeper.windowSecs d;
         Keeper.notifyWindowSecs := Keeper.notifyWindowSecs d; Keeper.years := Keeper.years d |}
  end.

(** The [sweep] that [main] closes over. *)
Definition keeperSweep (env : Environment) (o : KeeperOptions) (keeper : TransactionSigner)
    (configPda : Address) : list jsstring -> Eff W (option Tally) :=
  let metrics := positive (metricsPort o) in
  sweepWith metrics (keeperDeps keeper (option_years o) (NOTIFY_WEBHOOK_URL env) metrics configPda
    (option_notifyWindowSecs o)).

(** [buildKeeperMetrics()] and [startMetricsServer], when a port is set. *)
Definition startMetrics (port : number) : Eff W unit :=
  if positive port then
    (fun w => (setMetrics buildKeeperMetrics w, Ok tt)) ≫= fun _ =>
    serveMetrics port ≫= fun _ =>
    console_error (js "keeper: metrics on http://0.0.0.0:" ++ number_toString port ++ js "/metrics")
  else mret tt.

Definition banner (o : KeeperOptions) (keeper : TransactionSigner) (watchlist : list jsstring) : jsstring :=
  js "keeper: watching " ++ toString (Z.of_nat (length watchlist)) ++ js " name(s) on " ++ rpcUrl o
  ++ js " as " ++ signerAddress keeper
  ++ (if positive (intervalSecs o) then js ", every " ++ number_toString (intervalSecs o) ++ js "s"
      else js ", once").

(** What [main] leaves: how it ended, and the callback of the timer it set. *)
Abbreviation Started := (Ending * Eff W (option Tally))%type.
Definition ended (e : Ending) : Started := (e, mret None).

(** [main] from the watchlist on. *)
Definition startKeeper (env : Environment) (o : KeeperOptions) : Eff W Started :=
  lift (loadWatchlist env watchlistFile) ≫= fun watchlist =>
  match watchlist with
  | [] =>
      console_error (js "keeper: empty watchlist (set WATCHLIST_FILE or WATCHLIST). Nothing to do.")
        ≫= fun _ => mret (ended (Exited 1))
  | _ =>
      loadKeyPair (loadKeypairPath env) ≫= fun keeper =>
      lift (findConfigPda None) ≫= fun '(configPda, _) =>
      startMetrics (metricsPort o) ≫= fun _ =>
      console_error (banner o keeper watchlist) ≫= fun _ =>
      let sweep := keeperSweep env o keeper configPda watchlist in
      sweep ≫= fun _ =>
      mret (if positive (intervalSecs o)
            then (Every (number_mul (intervalSecs o) (number_of_Z 1000)), sweep)
            else ended Idle)
  end.

(** [main().catch(...)] *)
Definition keeperMain (env : Environment) : Eff W Started :=
  exitOnError ended (lift (keeperOptions env) ≫= startKeeper env).

(** [n] ticks of the interval, when each sweep ends before the next begins: nobody awaits
    their promises, so the process ends at the first that rejects. *)
Fixpoint ticks (ms : number) (sweep : Eff W (option Tally)) (n : nat) : Eff W Ending := fun w =>
  match n with
  | O => (w, Ok (Every ms))
  | S n =>
      match sweep w with
      | (w', Ok _) => ticks ms sweep n w'
      | (w', Err e) => (w', Ok (Unhandled e))
      end
  end.

(** The process up to [n] ticks. *)
Definition keeperProcess (env : Environment) (n : nat) : Eff W Ending :=
  keeperMain env ≫= fun '(e, sweep) =>
  match e with Every ms => ticks ms sweep n | e => mret e end.
End Entry.

(** ** The resolver's settings *)

Lemma positive_Z z : 0 <= z < 2 ^ 53 -> positive (number_of_Z z) = (0 <? z).
Proof.
  intros Hz. rewrite number_of_Z_small by lia. unfold positive.
  destruct (Z.ltb_spec 0 z) as [Hp|Hp]; [|by replace z with 0 by lia].
  destruct (small_form z) as (m & HF & _); [lia..|].
  rewrite HF. replace (z <? 0) with false by lia. done.
Qed.

(** A resolver whose RESOLVER_CACHE_TTL is a decimal number of seconds caches for that long,
    and not at all when it is 0; unset, it caches for 30 seconds. *)
Theorem resolver_caches_for_its_ttl env :
  (RESOLVER_CACHE_TTL env = None ->
     resolverOptions env = Some (MkOpts (resolverGateways env) true 30))
  /\ forall z, 0 <= z < 2 ^ 53 -> RESOLVER_CACHE_TTL env = Some (toString z) ->
     resolverOptions env = Some (MkOpts (resolverGateways env) (0 <? z) z).
Proof.
  unfold resolverOptions, resolverTtl, env_number. split.
  - intros ->. reflexivity.
  - intros z Hz ->. rewrite Number_toString, positive_Z by lia.
    rewrite number_of_Z_small, toInteger_small by lia. by destruct (0 <? z).
Qed.

(** ** The keeper's process *)

Section Guarantees.
Context `{KS : KeccakSpec} `{HU : Unicode} `{HK : Kit} `{PC : ProgramClientCore}.
Context `{TC : TokenClient} `{TD : TokenDecoder}.
Context {W : Type} `{HH : Host W} `{HP : KeeperHost W} `{HS : ServerHost W}.

Lemma keeperDeps_notify keeper years webhook metrics pda window cfg now e :
  no_throw (W := W) (Keeper.notify (keeperDeps keeper years webhook metrics pda window cfg now) e).
Proof. unfold keeperDeps. destruct (toInteger years); apply MultiNotifier_settles. Qed.

(** A process with a timer was started with a name to watch, and its timer sweeps. *)
Lemma timer_sweeps env w w1 ms sweep :
  keeperMain env w = (w1, Ok (Every ms, sweep)) ->
  exists o keeper pda watchlist,
    loadWatchlist env watchlistFile = Ok watchlist /\ watchlist <> []
    /\ positive (intervalSecs o) = true
    /\ ms = number_mul (intervalSecs o) (number_of_Z 1000)
    /\ sweep = keeperSweep env o keeper pda watchlist.
Proof.
  unfold keeperMain, exitOnError, eff_catch. intros HM.
  match type of HM with match ?m w with _ => _ end = _ => destruct (m w) as [w2 [st|e]] eqn:HE end.
  - injection HM as -> ->. apply eff_bind_inv in HE as (w2 & o & _ & HE).
    apply eff_bind_inv in HE as (w3 & watchlist & HL & HE). apply lift_inv in HL as [_ HL].
    destruct watchlist as [|name watchlist]; uneff HE; [done|].
    cbv zeta in HE. apply eff_bind_inv in HE as (w6 & t & _ & HE).
    destruct (positive (intervalSecs o)) eqn:HI; [|done]. injection HE as _ <- <-.
    by exists o, a, l, (name :: watchlist).
  - apply eff_bind_inv in HM as (w3 & u & _ & HM). unfold ended in HM. injection HM as _ HM. done.
Qed.

(** A sweep rejects exactly when the configuration cannot be read, with that error. *)
Lemma sweep_rejects env o keeper pda watchlist w w' e :
  no_throw dateNow -> (forall s, no_throw (console_error s)) ->
  keeperSweep env o keeper pda watchlist w = (w', Err e) <-> reading getConfig w = (w', Err e).
Proof.
  intros HD HC. destruct (reading getConfig w) as [w1 cfg] eqn:HR. unfold keeperSweep.
  pose proof (sweeps_throw_only_without_config (positive (metricsPort o))
    (keeperDeps keeper (option_years o) (NOTIFY_WEBHOOK_URL env) (positive (metricsPort o)) pda
      (option_notifyWindowSecs o)) watchlist w w1 cfg
    (fun cfg now e => keeperDeps_notify _ _ _ _ _ _ cfg now e) HD HC HR) as H.
  destruct cfg as [[cfg|]|e'].
  - destruct H as (w2 & t & -> & _). by split.
  - destruct H as (w2 & ->). by split.
  - rewrite H. split; by intros [= -> ->].
Qed.

Lemma ticks_app ms (sweep : Eff W (option Tally)) k n w w' :
  ticks ms sweep k w = (w', Ok (Every ms)) -> ticks ms sweep (k + n) w = ticks ms sweep n w'.
Proof.
  revert w. induction k as [|k IH]; intros w; cbn [ticks Nat.add]; [by intros [= ->]|].
  destruct (sweep w) as [w1 [t|e]]; [apply IH|done].
Qed.

(** C24: A keeper that reached its interval was given a name to watch, and its process goes
    on for any number of sweeps, whatever the chain, the signer, the transactions and the
    notifiers do, unless the configuration cannot be read when one begins: that error, which
    nothing handles, ends it. *)
Theorem keeper_runs_until_config_unread env w w1 ms sweep n :
  no_throw dateNow -> (forall s, no_throw (console_error s)) ->
  keeperMain env w = (w1, Ok (Every ms, sweep)) ->
  (exists watchlist, loadWatchlist env watchlistFile = Ok watchlist /\ watchlist <> [])
  /\ ((exists w', ticks ms sweep n w1 = (w', Ok (Every ms)))
      \/ (exists k wk w' e, (k < n)%nat /\ ticks ms sweep k w1 = (wk, Ok (Every ms))
           /\ reading getConfig wk = (w', Err e)
           /\ ticks ms sweep n w1 = (w', Ok (Unhandled e))))
  /\ (forall k wk w' e, (k < n)%nat -> ticks ms sweep k w1 = (wk, Ok (Every ms)) ->
       reading getConfig wk = (w', Err e) -> ticks ms sweep n w1 = (w', Ok (Unhandled e))).
Proof.
  intros HD HC HM. destruct (timer_sweeps _ _ _ _ _ HM) as (o & keeper & pda & watchlist & HL & HW & _ & _ & ->).
  set (sweep := keeperSweep env o keeper pda watchlist). split_and!; [by exists watchlist| |].
  - clear HM. revert w1. induction n as [|n IH]; intros w1; [left; by exists w1|]. cbn [ticks].
    destruct (sweep w1) as [w2 [t|e]] eqn:HE.
    + destruct (IH w2) as [HI|(k & wk & w' & e & Hk & HT & HR & HU')]; [by left|]. right.
      exists (S k), wk, w', e. split_and!; [lia| |done|done]. cbn [ticks]. by rewrite HE.
    + right. exists 0%nat, w1, w2, e. split_and!; [lia|done| |done]. by apply sweep_rejects in HE.
  - intros k wk w' e Hk HT HR. replace n with (k + S (n - S k))%nat by lia.
    rewrite (ticks_app _ _ _ _ _ _ HT). cbn [ticks].
    assert (sweep wk = (w', Err e)) as -> by by apply sweep_rejects. done.
Qed.
End Guarantees.

(** ** A concrete keeper *)

Section Sample.
#[local] Existing Instance SmallUnicode.
#[local] Existing Instance SmallTokenDecoder.
#[local] Existing Instance SampleKeeperHost.

(** A chain that cannot be read once five lines are printed. *)
#[local] Instance FailingHost : Host (Registry * list jsstring) := {
  Blockhash := unit; SignedTransaction := TransactionMessage unit;
  chain := fun w => (w, Ok (if (length w.2 <? 5)%nat then process_fetch
                            else fun _ => Err (MkError (js "fetch failed"))));
  getLatestBlockhash := mret tt;
  signTransactionMessageWithSigners := fun m => mret m;
  simulateTransaction := fun _ => mret (MkSimulation None [] None None);
  sendAndConfirm := fun _ => mret tt; getSignatureFromTransaction := fun _ => js "sig";
  console_log := fun l '(r, ls) => ((r, ls ++ [l]), Ok tt);
  console_error := fun l '(r, ls) => ((r, ls ++ [l]), Ok tt);
}.
#[local] Instance SampleServerHost : ServerHost (Registry * list jsstring) := {
  listen := fun _ => mret (js "http://0.0.0.0:8787");
  console_error_value := fun e => console_error (message e);
  serveMetrics := fun _ => mret tt;
  watchlistFile := fun _ => Err (MkError (js "ENOENT"));
  loadKeyPair := fun _ => mret sample_keeper;
}.

Definition keeper_environment (watch : jsstring) : Environment :=
  MkEnvironment None None None None (Some watch) (Some (js "60")) None None None None (js "/home/k").

Definition watching : Environment := keeper_environment (js "nobody.sol,bob.sol").

Definition first_sweep : (Registry * list jsstring) * (Ending * Eff (Registry * list jsstring) (option Tally)) :=
  match keeperMain watching ([], []) with
  | (w, Ok st) => (w, st)
  | (w, Err _) => (w, ended Idle)
  end.

Definition sixty_seconds : number := number_of_Z 60000.

Lemma sample_ending : fst <$> (keeperMain watching ([], [])).2 = Ok (Every sixty_seconds).
Proof. vm_compute. reflexivity. Qed.

Lemma sample_started :
  keeperMain watching ([], []) = (first_sweep.1, Ok (Every sixty_seconds, first_sweep.2.2)).
Proof.
  pose proof sample_ending as HE. unfold first_sweep.
  destruct (keeperMain watching ([], [])) as [w [[e sweep]|e]]; [|done].
  apply Ok_inj in HE. cbn in *. by rewrite HE.
Qed.

Lemma sample_unread : reading getConfig
    (ticks sixty_seconds first_sweep.2.2 3 first_sweep.1).1
  = ((ticks sixty_seconds first_sweep.2.2 3 first_sweep.1).1, Err (MkError (js "fetch failed"))).
Proof. vm_compute. reflexivity. Qed.

Lemma sample_three : (ticks sixty_seconds first_sweep.2.2 3 first_sweep.1).2 = Ok (Every sixty_seconds).
Proof. vm_compute. reflexivity. Qed.

(** The fourth tick finds the chain unreadable, and the process ends there. *)
Lemma keeper_runs_until_config_unread_witness :
  (ticks sixty_seconds first_sweep.2.2 5 first_sweep.1).2
  = Ok (Unhandled (MkError (js "fetch failed"))).
Proof.
  destruct (keeper_runs_until_config_unread watching ([], []) first_sweep.1 sixty_seconds
    first_sweep.2.2 5) as (_ & _ & H).
  - intros w. reflexivity.
  - intros s [r ls]. reflexivity.
  - exact sample_started.
  - rewrite (H 3%nat _ _ _ ltac:(lia)
      (eq_trans (surjective_pairing _) (f_equal (pair _) sample_three)) sample_unread). reflexivity.
Defined.

(** A keeper with nothing to watch says so and exits. *)
Lemma nothing_to_watch : keeperProcess (keeper_environment (js " , ")) 5 ([], [])
  = (([], [js "keeper: empty watchlist (set WATCHLIST_FILE or WATCHLIST). Nothing to do."]),
     Ok (Exited 1)).
Proof. vm_compute. reflexivity. Qed.

(** A term that is no integer fails every quote: the resolved name counts as failed. *)
Lemma fractional_term_fails :
  (keeperSweep (keeper_environment []) (MkKeeperOptions [] [] (number_of_Z 0) (Number (js "1.5")) 0
     (number_of_Z 0)) sample_keeper (small_addr 2) sample_watch ([], [])).2
  = Ok (Some (MkTally 0 1 2)).
Proof. vm_compute. reflexivity. Qed.
End Sample.
