(* ===== verification/Cli.v ===== *)
(** * The command line

    src/cli/src/context.ts and the commands of src/cli/src/index.ts that send a
    transaction.  A command prepares instructions from its arguments, options and
    reads of the chain; [runCommand] signs, simulates and sends them, reports the
    signature and prints what follows.  A command takes its arguments and the
    record of its options; what of them can be typed is in CliProgram.v.  The wallet file, the file system, [fetch] (Pinning.v) and the token
    program's instructions are parameters. *)
From S2P Require Import Prelude JsString Errors OnChain Kit SmallKit Pdas Accounts Instruction.
From S2P Require Import NameInstructions MarketInstructions TokenInstructions Program.
From S2P Require Import ProgramAccounts ProgramClient NameBuilders MarketBuilders TokenBuilders.
From S2P Require Import Builders Normalize HashName Client IndexParse Tx JsNumber AccountFetch.
From S2P Require Import Transactions Hosting Pinning.

(** ** context.ts *)

Record GlobalOpts := MkGlobalOpts {
  cluster : option jsstring; url : option jsstring; ws : option jsstring;
  keypair : option jsstring; simulate : bool; json : bool
}.

(** [process.env] and [homedir()]. *)
Record CliEnvironment := MkCliEnvironment {
  SOLANS_CLUSTER : option jsstring; SOLANS_RPC_URL : option jsstring;
  SOLANS_WS_URL : option jsstring; SOLANS_KEYPAIR : option jsstring;
  PINATA_JWT : option jsstring; homedir : jsstring
}.

(** [a ?? b] *)
Definition coalesce {A} (a b : option A) : option A := match a with Some x => Some x | None => b end.

(** A string that is not empty. *)
Definition present (o : option jsstring) : option jsstring :=
  match o with Some (u :: s) => Some (u :: s) | _ => None end.

Definition clusterName (env : CliEnvironment) (opts : GlobalOpts) : jsstring :=
  default (js "devnet") (coalesce (cluster opts) (SOLANS_CLUSTER env)).

(** [rpc.replace(/^http/, "ws")] *)
Definition httpToWs (url : jsstring) : jsstring :=
  if startsWith (js "http") url then js "ws" ++ slice_from 4 url else url.

Record Urls := MkUrls { rpcUrl : jsstring; wsUrl : jsstring }.

Definition resolveUrls (env : CliEnvironment) (opts : GlobalOpts) : result JsError Urls :=
  match present (coalesce (url opts) (SOLANS_RPC_URL env)) with
  | Some rpc => Ok (MkUrls rpc (default (httpToWs rpc) (coalesce (ws opts) (SOLANS_WS_URL env))))
  | None =>
      let c := clusterName env opts in
      if bool_decide (c = js "local") || bool_decide (c = js "localnet")
      then Ok (MkUrls (js "http://127.0.0.1:8899") (js "ws://127.0.0.1:8900"))
      else if bool_decide (c = js "devnet")
      then Ok (MkUrls (js "https://api.devnet.solana.com") (js "wss://api.devnet.solana.com"))
      else if bool_decide (c = js "mainnet") || bool_decide (c = js "mainnet-beta")
      then Ok (MkUrls (js "https://api.mainnet-beta.solana.com") (js "wss://api.mainnet-beta.solana.com"))
      else Err (MkError (js "Unknown cluster: " ++ c))
  end.

(** The path [loadSigner] reads. *)
Definition signerPath (env : CliEnvironment) (opts : GlobalOpts) : jsstring :=
  let path := default (homedir env ++ js "/.config/solana/id.json")
    (coalesce (keypair opts) (SOLANS_KEYPAIR env)) in
  if startsWith (js "~/") path then homedir env ++ js "/" ++ slice_from 2 path else path.

Record Ctx := MkCtx { urls : Urls; signer : TransactionSigner; opts : GlobalOpts }.

(** What a command touches besides [Host]. *)
Class CliHost (W : Type) := {
  (** The key pair in a file of the Solana CLI. *)
  readSigner : jsstring -> Eff W TransactionSigner;
  (** The upload of [host-upload]. *)
  cli_pin :: PinHost W;
}.

(** [address(s)] of @solana/kit, the token program's instructions and the text
    decoder. *)
Class CliKit := {
  toAddress : jsstring -> result JsError Address;
  getApproveInstruction : Address -> Address -> TransactionSigner -> Z -> result JsError Instruction;
  getRevokeInstruction : Address -> TransactionSigner -> result JsError Instruction;
  (** [new TextDecoder().decode] *)
  textDecode : bytes -> jsstring;
}.

(** [address] returns its argument, when it is an address. *)
Class CliKitSpec `{Kit} (C : CliKit) : Prop :=
  toAddress_Ok : forall s a, toAddress s = Ok a <-> a = s /\ isAddress s = true.

(** ** Amounts *)

Definition LAMPORTS_PER_SOL : Z := 1000000000.

(** The whole part, then the first nine digits of the fraction padded with zeros. *)
Definition solToLamports (sol : jsstring) : result JsError Z :=
  let parts := split 46 (trim sol) in
  let whole := default [] (parts !! 0%nat) in
  let frac := default [] (parts !! 1%nat) in
  w ← BigInt (default (js "0") (present (Some whole)));
  f ← BigInt (slice_to 9 (frac ++ js "000000000"));
  Ok (w * LAMPORTS_PER_SOL + f).

Definition lamportsToSol (l : Z) : jsstring :=
  number_toString (number_div (number_of_Z l) (number_of_Z LAMPORTS_PER_SOL)).

(** [BigInt(Math.round(Number(days) * 86_400))] *)
Definition daysToSeconds (days : jsstring) : result JsError Z :=
  BigInt_of_number (Math_round (number_mul (Number days) (number_of_Z 86400))).

(** ** Commands that send a transaction, with their arguments and options *)

Record InitConfigOptions := MkInitConfigOptions {
  o_mint : jsstring; o_treasury : jsstring; o_price1 : jsstring; o_price2 : jsstring;
  o_price3 : jsstring; o_price4 : jsstring; o_price5 : jsstring; o_priceNumeric : jsstring;
  o_grace : jsstring; o_minYears : jsstring; o_maxYears : jsstring;
  o_solTreasury : option jsstring; o_feeBps : jsstring; o_stakingVault : option jsstring;
  o_burnVault : option jsstring; o_stakingBps : jsstring; o_referralBps : jsstring;
  o_burnBps : jsstring
}.

Record UpdateConfigOptions := MkUpdateConfigOptions {
  u_price1 : option jsstring; u_price2 : option jsstring; u_price3 : option jsstring;
  u_price4 : option jsstring; u_price5 : option jsstring; u_priceNumeric : option jsstring;
  u_grace : option jsstring; u_minYears : option jsstring; u_maxYears : option jsstring;
  u_solTreasury : option jsstring; u_feeBps : option jsstring; u_stakingBps : option jsstring;
  u_referralBps : option jsstring; u_burnBps : option jsstring
}.

Record RegisterOptions := MkRegisterOptions {
  r_owner : option jsstring; r_years : jsstring; r_referrer : option jsstring;
  r_paySolans : bool; r_nft : bool
}.

Record RenewOptions := MkRenewOptions {
  n_years : jsstring; n_referrer : option jsstring; n_paySolans : bool
}.

Record ClaimOptions := MkClaimOptions { c_years : jsstring; c_referrer : option jsstring }.

Module Command.
Inductive t :=
| InitConfig (o : InitConfigOptions)
| UpdateConfig (o : UpdateConfigOptions)
| TransferAdmin (newAdmin : jsstring)
| Register (name : jsstring) (o : RegisterOptions)
| Renew (name : jsstring) (o : RenewOptions)
| AutoRenewEnable (amount : jsstring)
| AutoRenewDisable
| AutoRenew (name years : jsstring)
| Claim (name : jsstring) (o : ClaimOptions)
| RecordSet (name key value : jsstring)
| RecordDelete (name key : jsstring)
| SetController (name controller : jsstring)
| SetResolver (name program : jsstring)
| SetHosting (name cid : jsstring)
| HostUpload (name file : jsstring)
| Transfer (name newOwner : jsstring)
| Lock (name : jsstring) (unlock : bool)
| SetReverse (name : jsstring)
| Burn (name : jsstring)
| Tokenize (name : jsstring)
| Redeem (name : jsstring)
| SubdomainCreate (parent label : jsstring) (owner : option jsstring)
| SubdomainRevoke (parent label : jsstring)
| List (name priceSol days : jsstring)
| Unlist (name : jsstring)
| UpdateListing (name priceSol days : jsstring)
| Buy (name : jsstring)
| Offer (name priceSol days : jsstring)
| AcceptOffer (name buyer : jsstring)
| CancelOffer (name : jsstring) (buyer : option jsstring)
| AuctionStart (name reserve increment days : jsstring)
| Bid (name amount : jsstring)
| AuctionSettle (name : jsstring)
| AuctionCancel (name : jsstring)
| StakeInit (solansMint : jsstring)
| Stake (amount : jsstring)
| Unstake (amount : jsstring)
| StakeClaim
| BurnInit (solansMint : jsstring)
| SolansParams (rate discountBps : jsstring)
| Buyback (solansAmount : jsstring).
End Command.

Section Cli.
Context `{Keccak, Unicode, Kit, ProgramClientCore, TokenClient, AccountKit, NumberCodec, CliKit}.
Context {W : Type} `{Hst : Host W, CliHost W}.

Definition makeContext (env : CliEnvironment) (opts : GlobalOpts) : Eff W Ctx :=
  urls ← lift (resolveUrls env opts);
  signer ← readSigner (signerPath env opts);
  mret (MkCtx urls signer opts).

Definition getConfig : Eff W (Account ConfigAccount.Config) :=
  '(configPda, _) ← lift (findConfigPda None);
  ConfigFetch.fetchConfig configPda.

Definition ataFor (owner mint : Address) : result JsError Address :=
  '(ata, _) ← findAssociatedTokenPda owner mint TOKEN_PROGRAM_ADDRESS; Ok ata.

Definition messageOf (ctx : Ctx) (blockhash : Blockhash) (instructions : list Instruction)
    : TransactionMessage Blockhash := MkMessage (signer ctx) blockhash instructions.

Definition sendInstructions (ctx : Ctx) (instructions : list Instruction)
    : Eff W (option jsstring) :=
  latestBlockhash ← getLatestBlockhash;
  signedTx ← signTransactionMessageWithSigners (messageOf ctx latestBlockhash instructions);
  sim ← simulateTransaction signedTx;
  match simulationErr sim with
  | Some err =>
      console_error ([10007] ++ js " simulation failed: " ++ errText err) ≫= fun _ =>
      foldr (fun line k => console_error (js "    " ++ line) ≫= fun _ => k)
        (throw (MkError (js "transaction simulation failed"))) (logs sim)
  | None =>
      console_error (js "  simulated OK (" ++ default (js "?") (toString <$> unitsConsumed sim)
        ++ js " CU)") ≫= fun _ =>
      if simulate (opts ctx) then
        console_error (js "  --simulate set: not sending.") ≫= fun _ => mret None
      else
        sendAndConfirm signedTx ≫= fun _ => mret (Some (getSignatureFromTransaction signedTx))
  end.

Definition simulateReturnData (ctx : Ctx) (instructions : list Instruction)
    : Eff W (option bytes) :=
  latestBlockhash ← getLatestBlockhash;
  signedTx ← signTransactionMessageWithSigners (messageOf ctx latestBlockhash instructions);
  sim ← simulateTransaction signedTx;
  match simulationErr sim with
  | Some err =>
      foldr (fun line k => console_error (js "    " ++ line) ≫= fun _ => k)
        (lift (text ← errStringify err; Err (MkError (js "simulation failed: " ++ text)))) (logs sim)
  | None => mret (returnData sim)
  end.

(** The lines [reportSig] prints. *)
Definition reportLines (env : CliEnvironment) (ctx : Ctx) (sig : option jsstring) : list jsstring :=
  match present sig with
  | None => []
  | Some sig =>
      ([10003] ++ js " " ++ sig) ::
      (let c := clusterName env (opts ctx) in
       if bool_decide (c = js "local") || bool_decide (c = js "localnet") then []
       else [js "  https://explorer.solana.com/tx/" ++ sig ++ js "?cluster="
             ++ (if bool_decide (c = js "mainnet") then js "mainnet-beta" else c)])
  end.

Definition reportSig (env : CliEnvironment) (ctx : Ctx) (sig : option jsstring) : Eff W unit :=
  console_lines (reportLines env ctx sig).

(** ** Commands of index.ts that send a transaction *)

(** The instructions to send, and the lines printed once they are sent. *)
Record Prepared := MkPrepared { toSend : list Instruction; afterwards : result JsError (list jsstring) }.
Definition send (ix : Instruction) : Prepared := MkPrepared [ix] (Ok []).
Definition send_then (ix : Instruction) (line : jsstring) : Prepared := MkPrepared [ix] (Ok [line]).

(** [o ? address(o) : undefined] *)
Definition optionAddress (o : option jsstring) : result JsError (option Address) :=
  match present o with Some s => a ← toAddress s; Ok (Some a) | None => Ok None end.

(** [o ? address(o) : d] *)
Definition addressOr (o : option jsstring) (d : Address) : result JsError Address :=
  match present o with Some s => toAddress s | None => Ok d end.

(** [s.toLowerCase() === "none" ? null : address(s)] *)
Definition noneOrAddress (s : jsstring) : result JsError (option Address) :=
  if bool_decide (toLowerCase s = js "none") then Ok None else a ← toAddress s; Ok (Some a).

(** [Number(s)], as the integer it encodes to. *)
Definition numberArg (s : jsstring) : Z := codecNumber (Number s).

Definition nameRecordPda (name : jsstring) : result JsError Address :=
  hash ← nameHashFor name None;
  '(pda, _) ← findNameRecordPda {| nameHash := hash |} None; Ok pda.

Abbreviation cfg_of a := (ConfigAccount.args (account_data a)) (only parsing).

Definition clientResolve (name : jsstring) : Eff W (option NameRecordAccount.NameRecord) :=
  reading (fun fetch => settled_call (Client.resolve fetch name)).

Definition nftTokenAccountIfTokenized (ctx : Ctx) (name : jsstring) : Eff W (option Address) :=
  rec ← clientResolve name;
  let mint := match rec with Some r => NameRecordAccount.nftMint (NameRecordAccount.args r) | None => None end in
  lift (if_address mint (ataFor (signerAddress (signer ctx)))).

Definition initConfig (ctx : Ctx) (o : InitConfigOptions) : Eff W Prepared :=
  lift (
    paymentMint ← toAddress (o_mint o);
    treasury ← toAddress (o_treasury o);
    stakingVault ← match present (o_stakingVault o) with
                   | Some s => toAddress s | None => toAddress (o_treasury o) end;
    burnVault ← match present (o_burnVault o) with
                | Some s => toAddress s | None => toAddress (o_treasury o) end;
    price1 ← BigInt (o_price1 o); price2 ← BigInt (o_price2 o); price3 ← BigInt (o_price3 o);
    price4 ← BigInt (o_price4 o); price5 ← BigInt (o_price5 o);
    priceNumeric ← BigInt (o_priceNumeric o); grace ← BigInt (o_grace o);
    solTreasury ← addressOr (o_solTreasury o) (signerAddress (signer ctx));
    send <$> InitConfigBuilder.getInitConfigInstructionAsync
      {| InitConfigBuilder.Async.admin := signer ctx; InitConfigBuilder.Async.config := None;
         InitConfigBuilder.Async.paymentMint := paymentMint;
         InitConfigBuilder.Async.treasuryTokenAccount := treasury;
         InitConfigBuilder.Async.stakingVault := stakingVault;
         InitConfigBuilder.Async.burnVault := burnVault;
         InitConfigBuilder.Async.tokenProgram := None; InitConfigBuilder.Async.systemProgram := None;
         InitConfigBuilder.Async.args := InitConfig.MkInitConfigInstructionDataArgs price1 price2 price3
           price4 price5 priceNumeric grace (numberArg (o_minYears o)) (numberArg (o_maxYears o))
           solTreasury (numberArg (o_feeBps o)) (numberArg (o_stakingBps o))
           (numberArg (o_referralBps o)) (numberArg (o_burnBps o)) |} None).

(** [o ? BigInt(o) : d], [o ? Number(o) : d] *)
Definition bigintOr (o : option jsstring) (d : Z) : result JsError Z :=
  match present o with Some s => BigInt s | None => Ok d end.
Definition numberOr (o : option jsstring) (d : Z) : Z :=
  match present o with Some s => numberArg s | None => d end.

Definition updateConfigArgs (o : UpdateConfigOptions) (d : ConfigAccount.ConfigArgs)
    : result JsError UpdateConfig.UpdateConfigInstructionDataArgs :=
  price1 ← bigintOr (u_price1 o) (ConfigAccount.price1 d);
  price2 ← bigintOr (u_price2 o) (ConfigAccount.price2 d);
  price3 ← bigintOr (u_price3 o) (ConfigAccount.price3 d);
  price4 ← bigintOr (u_price4 o) (ConfigAccount.price4 d);
  price5plus ← bigintOr (u_price5 o) (ConfigAccount.price5plus d);
  priceNumeric ← bigintOr (u_priceNumeric o) (ConfigAccount.priceNumeric d);
  grace ← bigintOr (u_grace o) (ConfigAccount.gracePeriodSeconds d);
  solTreasury ← addressOr (u_solTreasury o) (ConfigAccount.solTreasury d);
  Ok (UpdateConfig.MkUpdateConfigInstructionDataArgs price1 price2 price3 price4 price5plus
    priceNumeric grace (numberOr (u_minYears o) (ConfigAccount.minYears d))
    (numberOr (u_maxYears o) (ConfigAccount.maxYears d)) solTreasury
    (numberOr (u_feeBps o) (ConfigAccount.marketplaceFeeBps d))
    (numberOr (u_stakingBps o) (ConfigAccount.stakingFeeBps d))
    (numberOr (u_referralBps o) (ConfigAccount.referralFeeBps d))
    (numberOr (u_burnBps o) (ConfigAccount.burnFeeBps d))).

Definition updateConfig (ctx : Ctx) (o : UpdateConfigOptions) : Eff W Prepared :=
  cfg ← getConfig;
  lift (args ← updateConfigArgs o (cfg_of cfg);
        send <$> UpdateConfigBuilder.getUpdateConfigInstructionAsync
          {| UpdateConfigBuilder.Async.admin := signer ctx; UpdateConfigBuilder.Async.config := None;
             UpdateConfigBuilder.Async.args := args |} None).

Definition transferAdmin (ctx : Ctx) (newAdmin : jsstring) : Eff W Prepared :=
  lift (a ← toAddress newAdmin;
        ix ← TransferAdminBuilder.getTransferAdminInstructionAsync
          {| TransferAdminBuilder.Async.admin := signer ctx; TransferAdminBuilder.Async.config := None;
             TransferAdminBuilder.Async.args := TransferAdmin.MkTransferAdminInstructionDataArgs a |} None;
        Ok (send_then ix (js "  admin -> " ++ newAdmin))).

(** *** Registration and renewal *)

Definition registerInstruction (ctx : Ctx) (cfg : ConfigAccount.ConfigArgs) (o : RegisterOptions)
    (owner : Address) (label tld : jsstring) (hash : bytes) : result JsError Instruction :=
  if r_paySolans o then
    payerSolansAccount ← ataFor (signerAddress (signer ctx)) (ConfigAccount.solansMint cfg);
    RegisterWithSolansBuilder.getRegisterWithSolansInstructionAsync
      {| RegisterWithSolansBuilder.Async.payer := signer ctx;
         RegisterWithSolansBuilder.Async.owner := owner;
         RegisterWithSolansBuilder.Async.config := None;
         RegisterWithSolansBuilder.Async.nameRecord := None;
         RegisterWithSolansBuilder.Async.payerSolansAccount := payerSolansAccount;
         RegisterWithSolansBuilder.Async.solansMint := ConfigAccount.solansMint cfg;
         RegisterWithSolansBuilder.Async.tokenProgram := None;
         RegisterWithSolansBuilder.Async.systemProgram := None;
         RegisterWithSolansBuilder.Async.args :=
           RegisterWithSolans.MkRegisterWithSolansInstructionDataArgs label tld hash
             (numberArg (r_years o)) |} None
  else
    payerTokenAccount ← ataFor (signerAddress (signer ctx)) (ConfigAccount.paymentMint cfg);
    referral ← optionAddress (r_referrer o);
    RegisterNameBuilder.getRegisterNameInstructionAsync
      {| RegisterNameBuilder.Async.payer := signer ctx;
         RegisterNameBuilder.Async.owner := owner;
         RegisterNameBuilder.Async.config := None;
         RegisterNameBuilder.Async.nameRecord := None;
         RegisterNameBuilder.Async.payerTokenAccount := payerTokenAccount;
         RegisterNameBuilder.Async.treasuryTokenAccount := ConfigAccount.treasuryTokenAccount cfg;
         RegisterNameBuilder.Async.stakingVault := ConfigAccount.stakingVault cfg;
         RegisterNameBuilder.Async.burnVault := ConfigAccount.burnVault cfg;
         RegisterNameBuilder.Async.referralTokenAccount := referral;
         RegisterNameBuilder.Async.paymentMint := ConfigAccount.paymentMint cfg;
         RegisterNameBuilder.Async.tokenProgram := None;
         RegisterNameBuilder.Async.systemProgram := None;
         RegisterNameBuilder.Async.args := RegisterName.MkRegisterNameInstructionDataArgs label tld hash
           (numberArg (r_years o)) |} None.

Definition tokenizeInstruction (ctx : Ctx) (nameRecord : Address) (mint : TransactionSigner)
    (label : jsstring) : result JsError Instruction :=
  TokenizeNameBuilder.getTokenizeNameInstructionAsync
    {| TokenizeNameBuilder.Async.owner := signer ctx;
       TokenizeNameBuilder.Async.nameRecord := nameRecord;
       TokenizeNameBuilder.Async.mint := mint;
       TokenizeNameBuilder.Async.tokenAccount := None;
       TokenizeNameBuilder.Async.metadata := None;
       TokenizeNameBuilder.Async.masterEdition := None;
       TokenizeNameBuilder.Async.tokenProgram := None;
       TokenizeNameBuilder.Async.associatedTokenProgram := None;
       TokenizeNameBuilder.Async.metadataProgram := None;
       TokenizeNameBuilder.Async.systemProgram := None;
       TokenizeNameBuilder.Async.rent := None;
       TokenizeNameBuilder.Async.args := TokenizeName.MkTokenizeNameInstructionDataArgs label |} None.

Definition register (ctx : Ctx) (name : jsstring) (o : RegisterOptions) : Eff W Prepared :=
  cfg ← getConfig;
  lift (
    '(label, tld, hash) ← nameParts name None;
    owner ← addressOr (r_owner o) (signerAddress (signer ctx));
    '(nameRecord, _) ← findNameRecordPda {| nameHash := hash |} None;
    registerIx ← registerInstruction ctx (cfg_of cfg) o owner label tld hash;
    let line (minted : bool) := label ++ js "." ++ tld ++ js " -> " ++ nameRecord
      ++ (if minted then js " (NFT minted)" else []) in
    if r_nft o && bool_decide (owner = signerAddress (signer ctx)) then
      mint ← generateKeyPairSigner;
      tokenizeIx ← tokenizeInstruction ctx nameRecord mint label;
      Ok (MkPrepared [registerIx; tokenizeIx] (Ok [js "  " ++ line true]))
    else Ok (MkPrepared [registerIx] (Ok [js "  " ++ line false]))).

Definition renew (ctx : Ctx) (name : jsstring) (o : RenewOptions) : Eff W Prepared :=
  cfg ← getConfig;
  lift (
    '(label, tld, hash) ← nameParts name None;
    '(nameRecord, _) ← findNameRecordPda {| nameHash := hash |} None;
    send <$> (if n_paySolans o then
      payerSolansAccount ← ataFor (signerAddress (signer ctx)) (ConfigAccount.solansMint (cfg_of cfg));
      RenewWithSolansBuilder.getRenewWithSolansInstructionAsync
        {| RenewWithSolansBuilder.Async.payer := signer ctx;
           RenewWithSolansBuilder.Async.config := None;
           RenewWithSolansBuilder.Async.nameRecord := nameRecord;
           RenewWithSolansBuilder.Async.payerSolansAccount := payerSolansAccount;
           RenewWithSolansBuilder.Async.solansMint := ConfigAccount.solansMint (cfg_of cfg);
           RenewWithSolansBuilder.Async.tokenProgram := None;
           RenewWithSolansBuilder.Async.args := RenewWithSolans.MkRenewWithSolansInstructionDataArgs label
             tld (numberArg (n_years o)) |} None
    else
      payerTokenAccount ← ataFor (signerAddress (signer ctx)) (ConfigAccount.paymentMint (cfg_of cfg));
      referral ← optionAddress (n_referrer o);
      RenewNameBuilder.getRenewNameInstructionAsync
        {| RenewNameBuilder.Async.payer := signer ctx; RenewNameBuilder.Async.config := None;
           RenewNameBuilder.Async.nameRecord := nameRecord;
           RenewNameBuilder.Async.payerTokenAccount := payerTokenAccount;
           RenewNameBuilder.Async.treasuryTokenAccount := ConfigAccount.treasuryTokenAccount (cfg_of cfg);
           RenewNameBuilder.Async.stakingVault := ConfigAccount.stakingVault (cfg_of cfg);
           RenewNameBuilder.Async.burnVault := ConfigAccount.burnVault (cfg_of cfg);
           RenewNameBuilder.Async.referralTokenAccount := referral;
           RenewNameBuilder.Async.paymentMint := ConfigAccount.paymentMint (cfg_of cfg);
           RenewNameBuilder.Async.tokenProgram := None;
           RenewNameBuilder.Async.args := RenewName.MkRenewNameInstructionDataArgs label tld
             (numberArg (n_years o)) |} None)).

Definition autoRenewEnable (ctx : Ctx) (amount : jsstring) : Eff W Prepared :=
  cfg ← getConfig;
  lift (
    '(config, _) ← findConfigPda None;
    source ← ataFor (signerAddress (signer ctx)) (ConfigAccount.paymentMint (cfg_of cfg));
    n ← BigInt amount;
    ix ← getApproveInstruction source config (signer ctx) n;
    Ok (send_then ix (js "  auto-renew enabled (delegated " ++ amount ++ js " to the Config PDA)"))).

Definition autoRenewDisable (ctx : Ctx) : Eff W Prepared :=
  cfg ← getConfig;
  lift (source ← ataFor (signerAddress (signer ctx)) (ConfigAccount.paymentMint (cfg_of cfg));
        send <$> getRevokeInstruction source (signer ctx)).

Definition autoRenew (ctx : Ctx) (name years : jsstring) : Eff W Prepared :=
  cfg ← getConfig;
  '(label, tld, hash) ← lift (nameParts name None);
  rec ← clientResolve name;
  match rec with
  | None => throw (MkError (name ++ js " is not registered"))
  | Some rec => lift (
      '(nameRecord, _) ← findNameRecordPda {| nameHash := hash |} None;
      ownerTokenAccount ← ataFor (NameRecordAccount.owner (NameRecordAccount.args rec))
        (ConfigAccount.paymentMint (cfg_of cfg));
      send <$> AutoRenewBuilder.getAutoRenewInstructionAsync
        {| AutoRenewBuilder.Async.keeper := signer ctx; AutoRenewBuilder.Async.config := None;
           AutoRenewBuilder.Async.nameRecord := nameRecord;
           AutoRenewBuilder.Async.ownerTokenAccount := ownerTokenAccount;
           AutoRenewBuilder.Async.treasuryTokenAccount := ConfigAccount.treasuryTokenAccount (cfg_of cfg);
           AutoRenewBuilder.Async.stakingVault := ConfigAccount.stakingVault (cfg_of cfg);
           AutoRenewBuilder.Async.burnVault := ConfigAccount.burnVault (cfg_of cfg);
           AutoRenewBuilder.Async.paymentMint := ConfigAccount.paymentMint (cfg_of cfg);
           AutoRenewBuilder.Async.tokenProgram := None;
           AutoRenewBuilder.Async.args := AutoRenew.MkAutoRenewInstructionDataArgs label tld
             (numberArg years) |} None)
  end.

Definition claim (ctx : Ctx) (name : jsstring) (o : ClaimOptions) : Eff W Prepared :=
  cfg ← getConfig;
  lift (
    '(label, tld, hash) ← nameParts name None;
    '(nameRecord, _) ← findNameRecordPda {| nameHash := hash |} None;
    payerTokenAccount ← ataFor (signerAddress (signer ctx)) (ConfigAccount.paymentMint (cfg_of cfg));
    referral ← optionAddress (c_referrer o);
    send <$> ClaimExpiredBuilder.getClaimExpiredInstructionAsync
      {| ClaimExpiredBuilder.Async.claimer := signer ctx; ClaimExpiredBuilder.Async.config := None;
         ClaimExpiredBuilder.Async.nameRecord := nameRecord;
         ClaimExpiredBuilder.Async.payerTokenAccount := payerTokenAccount;
         ClaimExpiredBuilder.Async.treasuryTokenAccount := ConfigAccount.treasuryTokenAccount (cfg_of cfg);
         ClaimExpiredBuilder.Async.stakingVault := ConfigAccount.stakingVault (cfg_of cfg);
         ClaimExpiredBuilder.Async.burnVault := ConfigAccount.burnVault (cfg_of cfg);
         ClaimExpiredBuilder.Async.referralTokenAccount := referral;
         ClaimExpiredBuilder.Async.paymentMint := ConfigAccount.paymentMint (cfg_of cfg);
         ClaimExpiredBuilder.Async.tokenProgram := None;
         ClaimExpiredBuilder.Async.args := ClaimExpired.MkClaimExpiredInstructionDataArgs label tld
           (numberArg (c_years o)) |} None).

(** *** Records and management *)

(** [update_record] with a value, or [null] to delete. *)
Definition recordWrite (ctx : Ctx) (name key : jsstring) (value : option jsstring) : Eff W Prepared :=
  nameRecord ← lift (nameRecordPda name);
  nftTokenAccount ← nftTokenAccountIfTokenized ctx name;
  lift (send <$> UpdateRecordBuilder.getUpdateRecordInstruction
    {| UpdateRecordBuilder.Sync.authority := signer ctx;
       UpdateRecordBuilder.Sync.nameRecord := nameRecord;
       UpdateRecordBuilder.Sync.nftTokenAccount := nftTokenAccount;
       UpdateRecordBuilder.Sync.args := UpdateRecord.MkUpdateRecordInstructionDataArgs key value |} None).

Definition recordSet (ctx : Ctx) (name key value : jsstring) : Eff W Prepared :=
  recordWrite ctx name key (Some value).
Definition recordDelete (ctx : Ctx) (name key : jsstring) : Eff W Prepared :=
  recordWrite ctx name key None.

Definition setController (ctx : Ctx) (name controller : jsstring) : Eff W Prepared :=
  lift (
    nameRecord ← nameRecordPda name;
    value ← noneOrAddress controller;
    send <$> SetControllerBuilder.getSetControllerInstruction
      {| SetControllerBuilder.Sync.owner := signer ctx;
         SetControllerBuilder.Sync.nameRecord := nameRecord;
         SetControllerBuilder.Sync.args := SetController.MkSetControllerInstructionDataArgs value |} None).

Definition setResolver (ctx : Ctx) (name resolver : jsstring) : Eff W Prepared :=
  nameRecord ← lift (nameRecordPda name);
  nftTokenAccount ← nftTokenAccountIfTokenized ctx name;
  lift (
    value ← noneOrAddress resolver;
    send <$> SetResolverBuilder.getSetResolverInstruction
      {| SetResolverBuilder.Sync.authority := signer ctx;
         SetResolverBuilder.Sync.nameRecord := nameRecord;
         SetResolverBuilder.Sync.nftTokenAccount := nftTokenAccount;
         SetResolverBuilder.Sync.args := SetResolver.MkSetResolverInstructionDataArgs value |} None).

(** The instruction of [set-hosting] and [host-upload]. *)
Definition hostingInstruction (ctx : Ctx) (nameRecord : Address) (nftTokenAccount : option Address)
    (ref : option jsstring) : result JsError Instruction :=
  SetHostingBuilder.getSetHostingInstruction
    {| SetHostingBuilder.Sync.authority := signer ctx;
       SetHostingBuilder.Sync.nameRecord := nameRecord;
       SetHostingBuilder.Sync.nftTokenAccount := nftTokenAccount;
       SetHostingBuilder.Sync.args := SetHosting.MkSetHostingInstructionDataArgs ref |} None.

Definition setHosting (ctx : Ctx) (name cid : jsstring) : Eff W Prepared :=
  nameRecord ← lift (nameRecordPda name);
  nftTokenAccount ← nftTokenAccountIfTokenized ctx name;
  lift (send <$> hostingInstruction ctx nameRecord nftTokenAccount
    (if bool_decide (toLowerCase cid = js "none") then None else Some cid)).

Definition hostUpload (env : CliEnvironment) (ctx : Ctx) (name file : jsstring) : Eff W Prepared :=
  match present (PINATA_JWT env) with
  | None => throw (MkError (js "set PINATA_JWT to pin to IPFS (https://pinata.cloud)"))
  | Some jwt =>
      cid ← pinFileToIpfs jwt file;
      let ref := js "ipfs://" ++ cid in
      nameRecord ← lift (nameRecordPda name);
      nftTokenAccount ← nftTokenAccountIfTokenized ctx name;
      lift (
        ix ← hostingInstruction ctx nameRecord nftTokenAccount (Some ref);
        Ok (MkPrepared [ix] (Ok [js "  pinned " ++ file ++ js " -> " ++ ref;
          js "  url: " ++ default (js "null") (hostingUrl (Some ref) [] DEFAULT_GATEWAYS)])))
  end.

Definition transfer (ctx : Ctx) (name newOwner : jsstring) : Eff W Prepared :=
  lift (
    nameRecord ← nameRecordPda name;
    a ← toAddress newOwner;
    send <$> TransferNameBuilder.getTransferNameInstruction
      {| TransferNameBuilder.Sync.owner := signer ctx; TransferNameBuilder.Sync.nameRecord := nameRecord;
         TransferNameBuilder.Sync.args := TransferName.MkTransferNameInstructionDataArgs a |} None).

Definition lock (ctx : Ctx) (name : jsstring) (unlock : bool) : Eff W Prepared :=
  lift (
    nameRecord ← nameRecordPda name;
    send <$> LockTransferBuilder.getLockTransferInstruction
      {| LockTransferBuilder.Sync.owner := signer ctx; LockTransferBuilder.Sync.nameRecord := nameRecord;
         LockTransferBuilder.Sync.args := LockTransfer.MkLockTransferInstructionDataArgs (negb unlock) |}
      None).

Definition setReverse (ctx : Ctx) (name : jsstring) : Eff W Prepared :=
  lift (
    nameRecord ← nameRecordPda name;
    label ← normalizeName name;
    send <$> SetReverseBuilder.getSetReverseInstructionAsync
      {| SetReverseBuilder.Async.owner := signer ctx; SetReverseBuilder.Async.nameRecord := nameRecord;
         SetReverseBuilder.Async.reverseRecord := None; SetReverseBuilder.Async.systemProgram := None;
         SetReverseBuilder.Async.args := SetReverse.MkSetReverseInstructionDataArgs label |} None).

Definition burn (ctx : Ctx) (name : jsstring) : Eff W Prepared :=
  lift (
    nameRecord ← nameRecordPda name;
    send <$> BurnNameBuilder.getBurnNameInstruction
      {| BurnNameBuilder.Sync.owner := signer ctx; BurnNameBuilder.Sync.nameRecord := nameRecord |} None).

(** *** NFT *)

Definition tokenize (ctx : Ctx) (name : jsstring) : Eff W Prepared :=
  lift (
    '(label, tld, hash) ← nameParts name None;
    '(nameRecord, _) ← findNameRecordPda {| nameHash := hash |} None;
    mint ← generateKeyPairSigner;
    ix ← tokenizeInstruction ctx nameRecord mint label;
    Ok (send_then ix (js "  " ++ label ++ js "." ++ tld ++ js " tokenized -> NFT mint "
      ++ signerAddress mint))).

Definition redeem (ctx : Ctx) (name : jsstring) : Eff W Prepared :=
  nameRecord ← lift (nameRecordPda name);
  rec ← clientResolve name;
  let mint := match rec with Some r => NameRecordAccount.nftMint (NameRecordAccount.args r) | None => None end in
  match present mint with
  | None => throw (MkError (name ++ js " is not tokenized"))
  | Some mint => lift (
      tokenAccount ← ataFor (signerAddress (signer ctx)) mint;
      ix ← RedeemNameBuilder.getRedeemNameInstructionAsync
        {| RedeemNameBuilder.Async.redeemer := signer ctx;
           RedeemNameBuilder.Async.nameRecord := nameRecord; RedeemNameBuilder.Async.mint := mint;
           RedeemNameBuilder.Async.tokenAccount := tokenAccount;
           RedeemNameBuilder.Async.metadata := None; RedeemNameBuilder.Async.masterEdition := None;
           RedeemNameBuilder.Async.tokenProgram := None;
           RedeemNameBuilder.Async.metadataProgram := None |} None;
      Ok (send_then ix (js "  " ++ name ++ js " redeemed -> owner " ++ signerAddress (signer ctx))))
  end.

(** *** Subdomains *)

Definition subdomainCreate (ctx : Ctx) (parent label : jsstring) (owner : option jsstring)
    : Eff W Prepared :=
  lift (
    p ← nameInfo parent None;
    let childLabel := toLowerCase label in
    let childHash := computeSubdomainHash (hash p) childLabel in
    '(parentName, _) ← findNameRecordPda {| nameHash := hash p |} None;
    subdomainOwner ← addressOr owner (signerAddress (signer ctx));
    ix ← WrapSubdomainBuilder.getWrapSubdomainInstructionAsync
      {| WrapSubdomainBuilder.Async.owner := signer ctx;
         WrapSubdomainBuilder.Async.subdomainOwner := subdomainOwner;
         WrapSubdomainBuilder.Async.parentName := parentName;
         WrapSubdomainBuilder.Async.nameRecord := None;
         WrapSubdomainBuilder.Async.systemProgram := None;
         WrapSubdomainBuilder.Async.args :=
           WrapSubdomain.MkWrapSubdomainInstructionDataArgs childLabel childHash |} None;
    Ok (MkPrepared [ix]
      ('(childPda, _) ← findNameRecordPda {| nameHash := childHash |} None;
       Ok [js "  " ++ childLabel ++ js "." ++ join (js ".") (labels p) ++ js "." ++ tld p ++ js " -> "
           ++ childPda]))).

Definition subdomainRevoke (ctx : Ctx) (parent label : jsstring) : Eff W Prepared :=
  lift (
    p ← nameInfo parent None;
    '(parentName, _) ← findNameRecordPda {| nameHash := hash p |} None;
    '(nameRecord, _) ← findNameRecordPda
      {| nameHash := computeSubdomainHash (hash p) (toLowerCase label) |} None;
    send <$> RevokeSubdomainBuilder.getRevokeSubdomainInstruction
      {| RevokeSubdomainBuilder.Sync.owner := signer ctx;
         RevokeSubdomainBuilder.Sync.parentName := parentName;
         RevokeSubdomainBuilder.Sync.nameRecord := nameRecord |} None).

(** *** Marketplace *)

Definition listName (ctx : Ctx) (name priceSol days : jsstring) : Eff W Prepared :=
  lift (
    nameRecord ← nameRecordPda name;
    '(listing, _) ← findListing name None;
    price ← solToLamports priceSol;
    durationSeconds ← daysToSeconds days;
    ix ← ListNameBuilder.getListNameInstruction
      {| ListNameBuilder.Sync.owner := signer ctx; ListNameBuilder.Sync.nameRecord := nameRecord;
         ListNameBuilder.Sync.listing := listing; ListNameBuilder.Sync.systemProgram := None;
         ListNameBuilder.Sync.args := ListName.MkListNameInstructionDataArgs price durationSeconds |} None;
    Ok (send_then ix (js "  listed " ++ name ++ js " for " ++ priceSol ++ js " SOL"))).

Definition unlist (ctx : Ctx) (name : jsstring) : Eff W Prepared :=
  nameRecord ← lift (nameRecordPda name);
  '(listing, _) ← lift (findListing name None);
  l ← reading (fun fetch => getListing fetch name);
  match l with
  | None => throw (MkError (name ++ js " is not listed"))
  | Some l => lift (send <$> CancelListingBuilder.getCancelListingInstruction
      {| CancelListingBuilder.Sync.canceller := signer ctx;
         CancelListingBuilder.Sync.seller := ListingAccount.seller (ListingAccount.args l);
         CancelListingBuilder.Sync.nameRecord := nameRecord;
         CancelListingBuilder.Sync.listing := listing |} None)
  end.

Definition updateListing (ctx : Ctx) (name priceSol days : jsstring) : Eff W Prepared :=
  lift (
    '(listing, _) ← findListing name None;
    price ← solToLamports priceSol;
    durationSeconds ← daysToSeconds days;
    send <$> UpdateListingBuilder.getUpdateListingInstruction
      {| UpdateListingBuilder.Sync.seller := signer ctx; UpdateListingBuilder.Sync.listing := listing;
         UpdateListingBuilder.Sync.args :=
           UpdateListing.MkUpdateListingInstructionDataArgs price durationSeconds |} None).

Definition buy (ctx : Ctx) (name : jsstring) : Eff W Prepared :=
  nameRecord ← lift (nameRecordPda name);
  '(listing, _) ← lift (findListing name None);
  l ← reading (fun fetch => getListing fetch name);
  match l with
  | None => throw (MkError (name ++ js " is not listed"))
  | Some l =>
      cfg ← getConfig;
      lift (
        ix ← BuyNameBuilder.getBuyNameInstruction
          {| BuyNameBuilder.Sync.buyer := signer ctx;
             BuyNameBuilder.Sync.seller := ListingAccount.seller (ListingAccount.args l);
             BuyNameBuilder.Sync.solTreasury := ConfigAccount.solTreasury (cfg_of cfg);
             BuyNameBuilder.Sync.config := account_address cfg;
             BuyNameBuilder.Sync.nameRecord := nameRecord; BuyNameBuilder.Sync.listing := listing;
             BuyNameBuilder.Sync.systemProgram := None;
             BuyNameBuilder.Sync.args := BuyName.MkBuyNameInstructionDataArgs
               (ListingAccount.price (ListingAccount.args l)) |} None;
        Ok (send_then ix (js "  bought " ++ name ++ js " for "
          ++ lamportsToSol (ListingAccount.price (ListingAccount.args l)) ++ js " SOL")))
  end.

Definition offerCommand (ctx : Ctx) (name priceSol days : jsstring) : Eff W Prepared :=
  lift (
    nameRecord ← nameRecordPda name;
    '(offer, _) ← findOffer name (signerAddress (signer ctx)) None;
    amount ← solToLamports priceSol;
    durationSeconds ← daysToSeconds days;
    ix ← MakeOfferBuilder.getMakeOfferInstruction
      {| MakeOfferBuilder.Sync.buyer := signer ctx; MakeOfferBuilder.Sync.nameRecord := nameRecord;
         MakeOfferBuilder.Sync.offer := offer; MakeOfferBuilder.Sync.systemProgram := None;
         MakeOfferBuilder.Sync.args := MakeOffer.MkMakeOfferInstructionDataArgs amount durationSeconds |}
      None;
    Ok (send_then ix (js "  offered " ++ priceSol ++ js " SOL on " ++ name))).

Definition acceptOffer (ctx : Ctx) (name buyer : jsstring) : Eff W Prepared :=
  nameRecord ← lift (nameRecordPda name);
  bidder ← lift (toAddress buyer);
  '(offer, _) ← lift (findOffer name bidder None);
  cfg ← getConfig;
  lift (
    ix ← AcceptOfferBuilder.getAcceptOfferInstruction
      {| AcceptOfferBuilder.Sync.owner := signer ctx; AcceptOfferBuilder.Sync.buyer := bidder;
         AcceptOfferBuilder.Sync.solTreasury := ConfigAccount.solTreasury (cfg_of cfg);
         AcceptOfferBuilder.Sync.config := account_address cfg;
         AcceptOfferBuilder.Sync.nameRecord := nameRecord;
         AcceptOfferBuilder.Sync.offer := offer |} None;
    Ok (send_then ix (js "  accepted " ++ buyer ++ js "'s offer on " ++ name))).

Definition cancelOffer (ctx : Ctx) (name : jsstring) (buyer : option jsstring) : Eff W Prepared :=
  lift (
    bidder ← addressOr buyer (signerAddress (signer ctx));
    nameRecord ← nameRecordPda name;
    '(offer, _) ← findOffer name bidder None;
    send <$> CancelOfferBuilder.getCancelOfferInstruction
      {| CancelOfferBuilder.Sync.canceller := signer ctx; CancelOfferBuilder.Sync.buyer := bidder;
         CancelOfferBuilder.Sync.nameRecord := Some nameRecord;
         CancelOfferBuilder.Sync.offer := offer |} None).

(** *** Auctions *)

Definition auctionStart (ctx : Ctx) (name reserve increment days : jsstring) : Eff W Prepared :=
  cfg ← getConfig;
  lift (
    nameRecord ← nameRecordPda name;
    '(auction, _) ← findAuction name None;
    reservePrice ← BigInt reserve;
    minIncrement ← BigInt increment;
    durationSeconds ← daysToSeconds days;
    ix ← StartAuctionBuilder.getStartAuctionInstructionAsync
      {| StartAuctionBuilder.Async.owner := signer ctx; StartAuctionBuilder.Async.config := None;
         StartAuctionBuilder.Async.nameRecord := nameRecord;
         StartAuctionBuilder.Async.auction := auction;
         StartAuctionBuilder.Async.solansMint := ConfigAccount.solansMint (cfg_of cfg);
         StartAuctionBuilder.Async.bidVault := None; StartAuctionBuilder.Async.tokenProgram := None;
         StartAuctionBuilder.Async.associatedTokenProgram := None;
         StartAuctionBuilder.Async.systemProgram := None;
         StartAuctionBuilder.Async.args := StartAuction.MkStartAuctionInstructionDataArgs reservePrice
           minIncrement durationSeconds |} None;
    Ok (send_then ix (js "  auction open for " ++ name ++ js " (reserve " ++ reserve ++ js " $SOLANS)"))).

Definition noAuction (name : jsstring) : JsError := MkError (js "no auction for " ++ name).

Definition bid (ctx : Ctx) (name amount : jsstring) : Eff W Prepared :=
  cfg ← getConfig;
  let solansMint := ConfigAccount.solansMint (cfg_of cfg) in
  '(auction, _) ← lift (findAuction name None);
  a ← reading (fun fetch => getAuction fetch name);
  match a with
  | None => throw (noAuction name)
  | Some a => lift (
      bidderSolansAccount ← ataFor (signerAddress (signer ctx)) solansMint;
      prevBidderSolansAccount ← if_address (AuctionAccount.highestBidder (AuctionAccount.args a))
        (fun p => ataFor p solansMint);
      bidVault ← ataFor auction solansMint;
      amount ← BigInt amount;
      send <$> BidBuilder.getBidInstruction
        {| BidBuilder.Sync.bidder := signer ctx; BidBuilder.Sync.auction := auction;
           BidBuilder.Sync.bidderSolansAccount := bidderSolansAccount;
           BidBuilder.Sync.prevBidderSolansAccount := prevBidderSolansAccount;
           BidBuilder.Sync.bidVault := bidVault; BidBuilder.Sync.solansMint := solansMint;
           BidBuilder.Sync.tokenProgram := None;
           BidBuilder.Sync.args := Bid.MkBidInstructionDataArgs amount |} None)
  end.

Definition auctionSettle (ctx : Ctx) (name : jsstring) : Eff W Prepared :=
  cfg ← getConfig;
  let solansMint := ConfigAccount.solansMint (cfg_of cfg) in
  nameRecord ← lift (nameRecordPda name);
  '(auction, _) ← lift (findAuction name None);
  a ← reading (fun fetch => getAuction fetch name);
  match a with
  | None => throw (noAuction name)
  | Some a => lift (
      let a := AuctionAccount.args a in
      let winner := AuctionAccount.highestBidder a in
      sellerSolansAccount ← if_address winner (fun _ => ataFor (AuctionAccount.seller a) solansMint);
      bidVault ← ataFor auction solansMint;
      ix ← SettleAuctionBuilder.getSettleAuctionInstructionAsync
        {| SettleAuctionBuilder.Async.settler := signer ctx; SettleAuctionBuilder.Async.config := None;
           SettleAuctionBuilder.Async.seller := AuctionAccount.seller a;
           SettleAuctionBuilder.Async.sellerSolansAccount := sellerSolansAccount;
           SettleAuctionBuilder.Async.nameRecord := nameRecord;
           SettleAuctionBuilder.Async.auction := auction;
           SettleAuctionBuilder.Async.bidVault := bidVault;
           SettleAuctionBuilder.Async.solansMint := solansMint;
           SettleAuctionBuilder.Async.tokenProgram := None |} None;
      Ok (send_then ix (match present winner with
                        | Some winner => js "  " ++ name ++ js " -> " ++ winner
                        | None => js "  " ++ name ++ js " unsold (no bids)" end)))
  end.

Definition auctionCancel (ctx : Ctx) (name : jsstring) : Eff W Prepared :=
  cfg ← getConfig;
  lift (
    nameRecord ← nameRecordPda name;
    '(auction, _) ← findAuction name None;
    bidVault ← ataFor auction (ConfigAccount.solansMint (cfg_of cfg));
    send <$> CancelAuctionBuilder.getCancelAuctionInstruction
      {| CancelAuctionBuilder.Sync.seller := signer ctx; CancelAuctionBuilder.Sync.nameRecord := nameRecord;
         CancelAuctionBuilder.Sync.auction := auction; CancelAuctionBuilder.Sync.bidVault := bidVault;
         CancelAuctionBuilder.Sync.tokenProgram := None |} None).

(** *** Staking *)

Definition stakeInit (ctx : Ctx) (solansMint : jsstring) : Eff W Prepared :=
  cfg ← getConfig;
  lift (
    mint ← toAddress solansMint;
    send <$> InitStakePoolBuilder.getInitStakePoolInstructionAsync
      {| InitStakePoolBuilder.Async.admin := signer ctx; InitStakePoolBuilder.Async.config := None;
         InitStakePoolBuilder.Async.stakePool := None; InitStakePoolBuilder.Async.solansMint := mint;
         InitStakePoolBuilder.Async.paymentMint := ConfigAccount.paymentMint (cfg_of cfg);
         InitStakePoolBuilder.Async.stakeVault := None; InitStakePoolBuilder.Async.rewardVault := None;
         InitStakePoolBuilder.Async.tokenProgram := None;
         InitStakePoolBuilder.Async.associatedTokenProgram := None;
         InitStakePoolBuilder.Async.systemProgram := None |} None).

Definition stakePoolAndConfig : Eff W (ConfigAccount.ConfigArgs * StakePoolAccount.StakePoolArgs) :=
  cfg ← getConfig;
  pool ← reading (fun fetch => getStakePool fetch);
  match pool with
  | None => throw (MkError (js "staking pool not initialized (run stake-init)"))
  | Some pool => mret (cfg_of cfg, StakePoolAccount.args pool)
  end.

Definition stake (ctx : Ctx) (amount : jsstring) : Eff W Prepared :=
  '(cfg, pool) ← stakePoolAndConfig;
  lift (
    stakerTokenAccount ← ataFor (signerAddress (signer ctx)) (StakePoolAccount.solansMint pool);
    stakerRewardAccount ← ataFor (signerAddress (signer ctx)) (ConfigAccount.paymentMint cfg);
    amount ← BigInt amount;
    send <$> StakeBuilder.getStakeInstructionAsync
      {| StakeBuilder.Async.staker := signer ctx; StakeBuilder.Async.config := None;
         StakeBuilder.Async.stakePool := None; StakeBuilder.Async.stakeAccount := None;
         StakeBuilder.Async.stakerTokenAccount := stakerTokenAccount;
         StakeBuilder.Async.stakerRewardAccount := stakerRewardAccount;
         StakeBuilder.Async.stakeVault := StakePoolAccount.stakeVault pool;
         StakeBuilder.Async.rewardVault := StakePoolAccount.rewardVault pool;
         StakeBuilder.Async.solansMint := StakePoolAccount.solansMint pool;
         StakeBuilder.Async.paymentMint := ConfigAccount.paymentMint cfg;
         StakeBuilder.Async.tokenProgram := None; StakeBuilder.Async.systemProgram := None;
         StakeBuilder.Async.args := Stake.MkStakeInstructionDataArgs amount |} None).

Definition unstake (ctx : Ctx) (amount : jsstring) : Eff W Prepared :=
  '(cfg, pool) ← stakePoolAndConfig;
  lift (
    stakerTokenAccount ← ataFor (signerAddress (signer ctx)) (StakePoolAccount.solansMint pool);
    stakerRewardAccount ← ataFor (signerAddress (signer ctx)) (ConfigAccount.paymentMint cfg);
    amount ← BigInt amount;
    send <$> UnstakeBuilder.getUnstakeInstructionAsync
      {| UnstakeBuilder.Async.staker := signer ctx; UnstakeBuilder.Async.config := None;
         UnstakeBuilder.Async.stakePool := None; UnstakeBuilder.Async.stakeAccount := None;
         UnstakeBuilder.Async.stakerTokenAccount := stakerTokenAccount;
         UnstakeBuilder.Async.stakerRewardAccount := stakerRewardAccount;
         UnstakeBuilder.Async.stakeVault := StakePoolAccount.stakeVault pool;
         UnstakeBuilder.Async.rewardVault := StakePoolAccount.rewardVault pool;
         UnstakeBuilder.Async.solansMint := StakePoolAccount.solansMint pool;
         UnstakeBuilder.Async.paymentMint := ConfigAccount.paymentMint cfg;
         UnstakeBuilder.Async.tokenProgram := None;
         UnstakeBuilder.Async.args := Unstake.MkUnstakeInstructionDataArgs amount |} None).

Definition stakeClaim (ctx : Ctx) : Eff W Prepared :=
  '(cfg, pool) ← stakePoolAndConfig;
  lift (
    stakerRewardAccount ← ataFor (signerAddress (signer ctx)) (ConfigAccount.paymentMint cfg);
    send <$> ClaimRewardsBuilder.getClaimRewardsInstructionAsync
      {| ClaimRewardsBuilder.Async.staker := signer ctx; ClaimRewardsBuilder.Async.config := None;
         ClaimRewardsBuilder.Async.stakePool := None; ClaimRewardsBuilder.Async.stakeAccount := None;
         ClaimRewardsBuilder.Async.stakerRewardAccount := stakerRewardAccount;
         ClaimRewardsBuilder.Async.rewardVault := StakePoolAccount.rewardVault pool;
         ClaimRewardsBuilder.Async.paymentMint := ConfigAccount.paymentMint cfg;
         ClaimRewardsBuilder.Async.tokenProgram := None |} None).

(** *** Buyback *)

Definition burnInit (ctx : Ctx) (solansMint : jsstring) : Eff W Prepared :=
  cfg ← getConfig;
  lift (
    mint ← toAddress solansMint;
    send <$> InitBurnPoolBuilder.getInitBurnPoolInstructionAsync
      {| InitBurnPoolBuilder.Async.admin := signer ctx; InitBurnPoolBuilder.Async.config := None;
         InitBurnPoolBuilder.Async.solansMint := mint;
         InitBurnPoolBuilder.Async.paymentMint := ConfigAccount.paymentMint (cfg_of cfg);
         InitBurnPoolBuilder.Async.burnVault := None; InitBurnPoolBuilder.Async.tokenProgram := None;
         InitBurnPoolBuilder.Async.associatedTokenProgram := None;
         InitBurnPoolBuilder.Async.systemProgram := None |} None).

Definition solansParams (ctx : Ctx) (rate discountBps : jsstring) : Eff W Prepared :=
  lift (
    solansRate ← BigInt rate;
    send <$> SetSolansParamsBuilder.getSetSolansParamsInstructionAsync
      {| SetSolansParamsBuilder.Async.admin := signer ctx; SetSolansParamsBuilder.Async.config := None;
         SetSolansParamsBuilder.Async.args :=
           SetSolansParams.MkSetSolansParamsInstructionDataArgs solansRate (numberArg discountBps) |} None).

Definition buyback (ctx : Ctx) (solansAmount : jsstring) : Eff W Prepared :=
  cfg ← getConfig;
  lift (
    keeperPaymentAccount ← ataFor (signerAddress (signer ctx)) (ConfigAccount.paymentMint (cfg_of cfg));
    keeperSolansAccount ← ataFor (signerAddress (signer ctx)) (ConfigAccount.solansMint (cfg_of cfg));
    amount ← BigInt solansAmount;
    send <$> BuybackBurnBuilder.getBuybackBurnInstructionAsync
      {| BuybackBurnBuilder.Async.keeper := signer ctx; BuybackBurnBuilder.Async.config := None;
         BuybackBurnBuilder.Async.burnVault := ConfigAccount.burnVault (cfg_of cfg);
         BuybackBurnBuilder.Async.keeperPaymentAccount := keeperPaymentAccount;
         BuybackBurnBuilder.Async.keeperSolansAccount := keeperSolansAccount;
         BuybackBurnBuilder.Async.solansMint := ConfigAccount.solansMint (cfg_of cfg);
         BuybackBurnBuilder.Async.paymentMint := ConfigAccount.paymentMint (cfg_of cfg);
         BuybackBurnBuilder.Async.tokenProgram := None;
         BuybackBurnBuilder.Async.args := BuybackBurn.MkBuybackBurnInstructionDataArgs amount |} None).

(** ** The program's commands *)

(** [program.command(...)]: a command that sends, with its arguments and options. *)
Definition prepare (env : CliEnvironment) (ctx : Ctx) (c : Command.t) : Eff W Prepared :=
  match c with
  | Command.InitConfig o => initConfig ctx o
  | Command.UpdateConfig o => updateConfig ctx o
  | Command.TransferAdmin a => transferAdmin ctx a
  | Command.Register n o => register ctx n o
  | Command.Renew n o => renew ctx n o
  | Command.AutoRenewEnable a => autoRenewEnable ctx a
  | Command.AutoRenewDisable => autoRenewDisable ctx
  | Command.AutoRenew n y => autoRenew ctx n y
  | Command.Claim n o => claim ctx n o
  | Command.RecordSet n k v => recordSet ctx n k v
  | Command.RecordDelete n k => recordDelete ctx n k
  | Command.SetController n c => setController ctx n c
  | Command.SetResolver n r => setResolver ctx n r
  | Command.SetHosting n cid => setHosting ctx n cid
  | Command.HostUpload n f => hostUpload env ctx n f
  | Command.Transfer n a => transfer ctx n a
  | Command.Lock n unlock => lock ctx n unlock
  | Command.SetReverse n => setReverse ctx n
  | Command.Burn n => burn ctx n
  | Command.Tokenize n => tokenize ctx n
  | Command.Redeem n => redeem ctx n
  | Command.SubdomainCreate p l o => subdomainCreate ctx p l o
  | Command.SubdomainRevoke p l => subdomainRevoke ctx p l
  | Command.List n p d => listName ctx n p d
  | Command.Unlist n => unlist ctx n
  | Command.UpdateListing n p d => updateListing ctx n p d
  | Command.Buy n => buy ctx n
  | Command.Offer n p d => offerCommand ctx n p d
  | Command.AcceptOffer n b => acceptOffer ctx n b
  | Command.CancelOffer n b => cancelOffer ctx n b
  | Command.AuctionStart n r i d => auctionStart ctx n r i d
  | Command.Bid n a => bid ctx n a
  | Command.AuctionSettle n => auctionSettle ctx n
  | Command.AuctionCancel n => auctionCancel ctx n
  | Command.StakeInit m => stakeInit ctx m
  | Command.Stake a => stake ctx a
  | Command.Unstake a => unstake ctx a
  | Command.StakeClaim => stakeClaim ctx
  | Command.BurnInit m => burnInit ctx m
  | Command.SolansParams r d => solansParams ctx r d
  | Command.Buyback a => buyback ctx a
  end.

(** An action: the context, the instructions, the transaction, its signature, and
    what the command prints after it. *)
Definition runCommand (env : CliEnvironment) (opts : GlobalOpts) (c : Command.t) : Eff W unit :=
  ctx ← makeContext env opts;
  p ← prepare env ctx c;
  sig ← sendInstructions ctx (toSend p);
  reportSig env ctx sig ≫= fun _ =>
  lines ← lift (afterwards p);
  console_lines lines.

End Cli.
