(* ===== verification/CliRead.v ===== *)
(** * The command line: commands that read

    The commands of src/cli/src/index.ts that send nothing: they read accounts, or
    simulate the on-chain resolver, and print lines or JSON.  [runProgram] is the
    whole program once argv is parsed: a command, and the exit code. *)
From S2P Require Import Prelude JsString Errors OnChain Kit Pdas Accounts Instruction.
From S2P Require Import NameInstructions ProgramAccounts ProgramClient NameBuilders Builders.
From S2P Require Import Normalize HashName Client IndexParse Tx JsNumber JsDate Json AccountFetch Transactions Hosting.
From S2P Require Import Cli.

(** ** Output *)

(** The values of a command's output object: JSON, or an integer. *)
Inductive Shown := Plain (v : Json) | Numeric (n : Z).

Definition shown (v : Shown) : jsstring :=
  match v with Plain v => pretty (js "  ") v | Numeric n => toString n end.

Definition printObject (fields : list (jsstring * Shown)) : jsstring :=
  block (js "{") (js "}") [] (map (fun '(k, v) => field (k, shown v)) fields).

Definition text (s : jsstring) : Shown := Plain (JString s).
Definition nullable (o : option jsstring) : Json := match o with Some s => JString s | None => JNull end.
Definition bool_text (b : bool) : jsstring := if b then js "true" else js "false".

Module ReadCommand.
Inductive t :=
| Host (name : jsstring)
| AuctionInfo (name : jsstring)
| StakeInfo
| Resolve (name : jsstring)
| ResolveCpi (name : jsstring) (key : option jsstring)
| Info (name : jsstring)
| ReverseLookup (pubkey : jsstring).
End ReadCommand.

Section Read.
Context `{Keccak, Unicode, Kit, ProgramClientCore, TokenClient, AccountKit, NumberCodec, CliKit}.
Context {W : Type} `{Hst : Host W, CliHost W}.

Definition host (ctx : Ctx) (name : jsstring) : Eff W (list jsstring) :=
  ref ← reading (fun fetch => settled_call (contentRef fetch name));
  mret match present ref with
  | None => [name ++ js ": no hosted content"]
  | Some ref =>
      let url := hostingUrl (Some ref) [] DEFAULT_GATEWAYS in
      if json (opts ctx) then
        [printObject [(js "name", text name); (js "ref", text ref); (js "url", Plain (nullable url))]]
      else [js "  ref: " ++ ref; js "  url: " ++ default (js "(unsupported ref)") url]
  end.

Definition auctionInfo (ctx : Ctx) (name : jsstring) : Eff W (list jsstring) :=
  a ← reading (fun fetch => getAuction fetch name);
  mret match a with
  | None => [js "no auction"]
  | Some a =>
      let a := AuctionAccount.args a in
      let bidder := AuctionAccount.highestBidder a in
      let highestBid := toString (AuctionAccount.highestBid a) in
      let reservePrice := toString (AuctionAccount.reservePrice a) in
      let minIncrement := toString (AuctionAccount.minIncrement a) in
      let endTime := toString (AuctionAccount.endTime a) in
      if json (opts ctx) then
        [printObject [(js "seller", text (AuctionAccount.seller a));
          (js "highestBidder", Plain (nullable bidder)); (js "highestBid", text highestBid);
          (js "reservePrice", text reservePrice); (js "minIncrement", text minIncrement);
          (js "endTime", text endTime)]]
      else
        [js "  seller:    " ++ AuctionAccount.seller a;
         js "  highest:   " ++ highestBid ++ js " by " ++ default (js "(none)") bidder;
         js "  reserve:   " ++ reservePrice ++ js " (+" ++ minIncrement ++ js " increment)";
         js "  ends at:   " ++ endTime]
  end.

Definition stakeInfo (ctx : Ctx) : Eff W (list jsstring) :=
  pool ← reading (fun fetch => getStakePool fetch);
  match pool with
  | None => mret [js "staking pool not initialized"]
  | Some pool =>
      stake ← reading (fun fetch => getStake fetch (signerAddress (signer ctx)));
      pending ← reading (fun fetch => pendingReward fetch (signerAddress (signer ctx)));
      let totalStaked := toString (StakePoolAccount.totalStaked (StakePoolAccount.args pool)) in
      let myStake := toString (default 0
        ((fun s => StakeAccountAccount.amount (StakeAccountAccount.args s)) <$> stake)) in
      let pendingReward := toString pending in
      mret (if json (opts ctx) then
        [printObject [(js "totalStaked", text totalStaked); (js "myStake", text myStake);
          (js "pendingReward", text pendingReward)]]
      else [js "  total staked: " ++ totalStaked; js "  my stake:     " ++ myStake;
            js "  pending:      " ++ pendingReward])
  end.

(** *** Records *)

Definition hasNft (d : NameRecordAccount.NameRecordArgs) : bool :=
  bool_decide (NameRecordAccount.nftMint d <> None).

Definition recordFields (r : Record_) : Json :=
  JObject [(js "key", JString (Accounts.key r)); (js "value", JString (Accounts.value r))].

(** The object [showRecord] prints, with a listing's price and expiry. *)
Definition recordObject (fullName : jsstring) (pda : Address) (d : NameRecordAccount.NameRecordArgs)
    (expires : jsstring) (listing : option (jsstring * jsstring)) (full : option jsstring)
    : list (jsstring * Shown) :=
  [(js "name", text fullName); (js "pda", text pda); (js "owner", text (NameRecordAccount.owner d));
   (js "controller", Plain (nullable (NameRecordAccount.controller d)));
   (js "expiresAt", text expires);
   (js "transferLocked", Plain (JBool (NameRecordAccount.transferLocked d)));
   (js "reverseSet", Plain (JBool (NameRecordAccount.reverseSet d)));
   (js "resolver", Plain (nullable (NameRecordAccount.resolver d)));
   (js "hostingRef", Plain (nullable (NameRecordAccount.hostingRef d)));
   (js "tokenized", Plain (JBool (hasNft d)));
   (js "nftMint", Plain (nullable (NameRecordAccount.nftMint d)));
   (js "parent", Plain (nullable (NameRecordAccount.parent d)));
   (js "depth", Numeric (NameRecordAccount.depth d));
   (js "listed", Plain (JBool (NameRecordAccount.listed d)));
   (js "records", Plain (JArray (map recordFields (NameRecordAccount.records d))))]
  ++ match listing with
     | Some (price, until) => [(js "listingPriceSol", text price); (js "listingExpiresAt", text until)]
     | None => []
     end
  ++ match full with
     | Some registered =>
         [(js "registeredAt", text registered);
          (js "nameHash", text (hex (NameRecordAccount.nameHash d)));
          (js "bump", Numeric (NameRecordAccount.bump d))]
     | None => []
     end.

(** A line where an optional field is there and is not empty. *)
Definition optional_line (o : option jsstring) (line : jsstring -> jsstring) : list jsstring :=
  match present o with Some s => [line s] | None => [] end.

Definition recordLines (fullName : jsstring) (pda : Address) (d : NameRecordAccount.NameRecordArgs)
    (expires : jsstring) (listing : option (jsstring * jsstring)) : list jsstring :=
  [fullName;
   js "  pda:        " ++ pda;
   js "  owner:      " ++ NameRecordAccount.owner d;
   js "  controller: " ++ default (js "(none)") (NameRecordAccount.controller d);
   js "  expires:    " ++ expires;
   js "  locked:     " ++ bool_text (NameRecordAccount.transferLocked d) ++ js "   reverseSet: "
     ++ bool_text (NameRecordAccount.reverseSet d)]
  ++ optional_line (NameRecordAccount.parent d) (fun p => js "  parent:     " ++ p ++ js "   (depth "
       ++ toString (NameRecordAccount.depth d) ++ js ")")
  ++ optional_line (NameRecordAccount.resolver d) (app (js "  resolver:   "))
  ++ optional_line (NameRecordAccount.hostingRef d) (app (js "  hosting:    "))
  ++ optional_line (NameRecordAccount.nftMint d) (app (js "  tokenized:  NFT mint "))
  ++ match listing with
     | Some (price, until) => [js "  listed:     " ++ price ++ js " SOL (until " ++ until ++ js ")"]
     | None => []
     end
  ++ match NameRecordAccount.records d with
     | [] => [js "  records:    (none)"]
     | rs => map (fun r => js "  record:     " ++ Accounts.key r ++ js " = " ++ Accounts.value r) rs
     end.

(** Price in SOL and expiry of the listing of a listed name. *)
Definition listingOf (name : jsstring) (d : NameRecordAccount.NameRecordArgs)
    : Eff W (option (jsstring * jsstring)) :=
  if NameRecordAccount.listed d then
    l ← reading (fun fetch => getListing fetch name);
    match l with
    | None => mret None
    | Some l =>
        until ← lift (isoString (ListingAccount.expiresAt (ListingAccount.args l)));
        mret (Some (lamportsToSol (ListingAccount.price (ListingAccount.args l)), until))
    end
  else mret None.

Definition showRecord (ctx : Ctx) (name : jsstring) (full : bool) : Eff W (list jsstring) :=
  info ← lift (nameInfo name None);
  let fullName := join (js ".") (labels info) ++ js "." ++ tld info in
  '(pda, _) ← lift (findNameRecordPda {| nameHash := hash info |} None);
  d ← clientResolve name;
  match d with
  | None => mret [if json (opts ctx)
                  then stringify (JObject [(js "name", JString fullName); (js "registered", JBool false)])
                  else fullName ++ js " is not registered"]
  | Some d =>
      let d := NameRecordAccount.args d in
      expires ← lift (isoString (NameRecordAccount.expiresAt d));
      listing ← listingOf name d;
      registered ← (if full then lift (Some <$> isoString (NameRecordAccount.registeredAt d))
                    else mret None);
      mret (if json (opts ctx)
            then [printObject (recordObject fullName pda d expires listing registered)]
            else recordLines fullName pda d expires listing)
  end.

Definition resolveCpi (ctx : Ctx) (name : jsstring) (recordKey : option jsstring)
    : Eff W (list jsstring) :=
  '(_, _, hash) ← lift (nameParts name None);
  '(nameRecord, _) ← lift (findNameRecordPda {| nameHash := hash |} None);
  ix ← lift (ResolveBuilder.getResolveInstruction
    {| ResolveBuilder.Sync.nameRecord := nameRecord;
       ResolveBuilder.Sync.args := Resolve.MkResolveInstructionDataArgs hash recordKey |} None);
  data ← simulateReturnData ctx [ix];
  match default [] data, present recordKey with
  | [], Some k => mret [js "  " ++ k ++ js ": (unset)"]
  | [], None => mret [js "  (no data)"]
  | data, Some k => mret [js "  " ++ k ++ js ": " ++ textDecode data]
  | data, None => lift ('(owner, _) ← getAddressDecoder data; Ok [js "  owner: " ++ owner])
  end.

Definition reverse (ctx : Ctx) (pubkey : jsstring) : Eff W (list jsstring) :=
  a ← lift (toAddress pubkey);
  name ← reading (fun fetch => reverseLookup fetch a);
  mret [if json (opts ctx)
        then stringify (JObject [(js "pubkey", JString pubkey); (js "name", nullable name)])
        else match present name with
             | Some name => pubkey ++ js " -> " ++ name
             | None => pubkey ++ js " has no valid reverse record"
             end].

(** The lines a reading command prints. *)
Definition linesOf (ctx : Ctx) (c : ReadCommand.t) : Eff W (list jsstring) :=
  match c with
  | ReadCommand.Host name => host ctx name
  | ReadCommand.AuctionInfo name => auctionInfo ctx name
  | ReadCommand.StakeInfo => stakeInfo ctx
  | ReadCommand.Resolve name => showRecord ctx name false
  | ReadCommand.ResolveCpi name key => resolveCpi ctx name key
  | ReadCommand.Info name => showRecord ctx name true
  | ReadCommand.ReverseLookup pubkey => reverse ctx pubkey
  end.

Definition readCommand (env : CliEnvironment) (opts : GlobalOpts) (c : ReadCommand.t) : Eff W unit :=
  ctx ← makeContext env opts;
  lines ← linesOf ctx c;
  console_lines lines.

(** [program.parseAsync(...).catch(...)]: the exit code; an error's message is
    printed and the code is 1. *)
Definition runProgram (env : CliEnvironment) (opts : GlobalOpts) (c : Command.t + ReadCommand.t)
    : Eff W Z := fun w =>
  match (match c with inl c => runCommand env opts c | inr c => readCommand env opts c end) w with
  | (w', Ok _) => (w', Ok 0)
  | (w', Err e) => (console_error (js "Error: " ++ message e) ≫= fun _ => mret 1) w'
  end.
End Read.
