(* ===== verification/CliProgram.v ===== *)
(** * The command line: what can be typed

    The declarations of src/cli/src/index.ts: the path, the arguments and the options of
    each of the forty-eight commands, and what its action reads of them.  Commander itself
    is outside the repository: a command line it accepted for a declaration is a [Line], the
    arguments by position and what was given for each option; its documented defaults and
    checks are [valueOf] and [accepts].  The theorem: each accepted line runs one command,
    with the defaults written in the source, and each command, with any arguments and
    options, can be typed. *)
From stdpp Require Import strings.
From S2P Require Import Prelude JsString Errors OnChain Kit Pdas Accounts Instruction.
From S2P Require Import ProgramClient Builders HashName IndexParse Tx JsNumber AccountFetch Transactions.
From S2P Require Import Cli CliRead.
Open Scope list_scope.

(** ** Options and lines *)

(** What an option holds: the text given for it, or a boolean. *)
Inductive Value := VText (s : jsstring) | VFlag (b : bool).

(** [--x <v>] with or without a default, [requiredOption], [--x], and [--no-x]. *)
Inductive Kind := Valued (default : option string) | Required | Switch | Negated.

(** An option: its flag, the property of the options object it sets, its kind. *)
Record Opt := MkOpt { flag : string; property : string; kind : Kind }.

Record Declaration := MkDeclaration {
  path : list string; arguments : list string; optional : list string; options : list Opt
}.

(** The arguments of a line, and what it gives for each property. *)
Record Line := MkLine { args : list (option jsstring); given : string -> option Value }.

(** The property of an option, from what was given for it. *)
Definition valueOf (k : Kind) (v : option Value) : option Value :=
  match v, k with
  | Some v, _ => Some v
  | None, Valued (Some d) => Some (VText (js d))
  | None, Negated => Some (VFlag true)
  | None, _ => None
  end.

(** What commander lets through for an option. *)
Definition typed (k : Kind) (v : option Value) : bool :=
  match k, v with
  | Valued _, None | Switch, None | Negated, None => true
  | Valued _, Some (VText _) | Required, Some (VText _) => true
  | Switch, Some (VFlag b) => b
  | Negated, Some (VFlag b) => negb b
  | _, _ => false
  end.

Fixpoint fits (required optional : list string) (args : list (option jsstring)) : bool :=
  match required, optional, args with
  | _ :: required, _, Some _ :: args => fits required optional args
  | [], _ :: optional, _ :: args => fits [] optional args
  | [], [], [] => true
  | _, _, _ => false
  end.

Definition accepts (d : Declaration) (l : Line) : bool :=
  fits (arguments d) (optional d) (args l)
  && forallb (fun o => typed (kind o) (given l (property o))) (options d).

(** The options object an action is called with. *)
Definition optionsOf (d : Declaration) (l : Line) (p : string) : option Value :=
  match List.find (fun o => String.eqb (property o) p) (options d) with
  | Some o => valueOf (kind o) (given l p)
  | None => None
  end.

(** The text of a property, and whether it is [true]. *)
Definition textOf (v : option Value) : option jsstring :=
  match v with Some (VText s) => Some s | _ => None end.
Definition isTrue (v : option Value) : bool :=
  match v with Some (VFlag b) => b | _ => false end.
(** [v !== false] *)
Definition notFalse (v : option Value) : bool :=
  match v with Some (VFlag b) => b | _ => true end.

(** ** The commands *)

(** A command: its declaration, and what its action makes of the arguments and options;
    [None] for a line commander does not let through. *)
Record Entry := MkEntry {
  declaration : Declaration;
  action : list (option jsstring) -> (string -> option Value) -> option (Command.t + ReadCommand.t)
}.

Definition opt (f p : string) (d : option string) : Opt := MkOpt f p (Valued d).
Definition required (f p : string) : Opt := MkOpt f p Required.
Definition switch (f p : string) : Opt := MkOpt f p Switch.

(** The options of the program, read by [makeContext] through [optsWithGlobals]. *)
Definition globals : Declaration := MkDeclaration [] [] []
  [opt "--cluster" "cluster" None; opt "--url" "url" None; opt "--ws" "ws" None;
   opt "--keypair" "keypair" None; switch "--simulate" "simulate"; switch "--json" "json"].

Definition globalOpts (l : Line) : GlobalOpts :=
  let o := optionsOf globals l in
  MkGlobalOpts (textOf (o "cluster"%string)) (textOf (o "url"%string)) (textOf (o "ws"%string))
    (textOf (o "keypair"%string)) (isTrue (o "simulate"%string)) (isTrue (o "json"%string)).

(** A command without options of its own. *)
Definition plain (path arguments : list string) (f : list jsstring -> option (Command.t + ReadCommand.t)) : Entry :=
  MkEntry (MkDeclaration path arguments [] []) (fun args _ => mapM id args ≫= f).

Open Scope string_scope.
Module Declared.
Definition initConfig : Entry :=
  MkEntry (MkDeclaration ["init-config"] [] []
    [required "--mint" "mint"; required "--treasury" "treasury";
     opt "--price1" "price1" (Some "1000000000"); opt "--price2" "price2" (Some "200000000");
     opt "--price3" "price3" (Some "50000000"); opt "--price4" "price4" (Some "10000000");
     opt "--price5" "price5" (Some "1000000"); opt "--price-numeric" "priceNumeric" (Some "500000000");
     opt "--grace" "grace" (Some "7776000"); opt "--min-years" "minYears" (Some "1");
     opt "--max-years" "maxYears" (Some "10"); opt "--sol-treasury" "solTreasury" None;
     opt "--fee-bps" "feeBps" (Some "200"); opt "--staking-vault" "stakingVault" None;
     opt "--burn-vault" "burnVault" None; opt "--staking-bps" "stakingBps" (Some "2500");
     opt "--referral-bps" "referralBps" (Some "1000"); opt "--burn-bps" "burnBps" (Some "500")])
  (fun args o => match args with
   | [] =>
       mint ← textOf (o "mint"); treasury ← textOf (o "treasury");
       price1 ← textOf (o "price1"); price2 ← textOf (o "price2"); price3 ← textOf (o "price3");
       price4 ← textOf (o "price4"); price5 ← textOf (o "price5");
       priceNumeric ← textOf (o "priceNumeric"); grace ← textOf (o "grace");
       minYears ← textOf (o "minYears"); maxYears ← textOf (o "maxYears");
       feeBps ← textOf (o "feeBps"); stakingBps ← textOf (o "stakingBps");
       referralBps ← textOf (o "referralBps"); burnBps ← textOf (o "burnBps");
       Some (inl (Command.InitConfig (MkInitConfigOptions mint treasury price1 price2 price3 price4
         price5 priceNumeric grace minYears maxYears (textOf (o "solTreasury")) feeBps
         (textOf (o "stakingVault")) (textOf (o "burnVault")) stakingBps referralBps burnBps)))
   | _ => None
   end).

Definition updateConfig : Entry :=
  MkEntry (MkDeclaration ["update-config"] [] []
    [opt "--price1" "price1" None; opt "--price2" "price2" None; opt "--price3" "price3" None;
     opt "--price4" "price4" None; opt "--price5" "price5" None;
     opt "--price-numeric" "priceNumeric" None; opt "--grace" "grace" None;
     opt "--min-years" "minYears" None; opt "--max-years" "maxYears" None;
     opt "--sol-treasury" "solTreasury" None; opt "--fee-bps" "feeBps" None;
     opt "--staking-bps" "stakingBps" None; opt "--referral-bps" "referralBps" None;
     opt "--burn-bps" "burnBps" None])
  (fun args o => match args with
   | [] =>
       Some (inl (Command.UpdateConfig (MkUpdateConfigOptions (textOf (o "price1"))
         (textOf (o "price2")) (textOf (o "price3")) (textOf (o "price4")) (textOf (o "price5"))
         (textOf (o "priceNumeric")) (textOf (o "grace")) (textOf (o "minYears"))
         (textOf (o "maxYears")) (textOf (o "solTreasury")) (textOf (o "feeBps"))
         (textOf (o "stakingBps")) (textOf (o "referralBps")) (textOf (o "burnBps")))))
   | _ => None
   end).

Definition transferAdmin : Entry := plain ["transfer-admin"] ["newAdmin"] (fun a =>
  match a with [newAdmin] => Some (inl (Command.TransferAdmin newAdmin)) | _ => None end).

Definition register : Entry :=
  MkEntry (MkDeclaration ["register"] ["name"] []
    [opt "--owner" "owner" None; opt "--years" "years" (Some "1"); opt "--referrer" "referrer" None;
     switch "--pay-solans" "paySolans"; MkOpt "--no-nft" "nft" Negated])
  (fun args o => match args with
   | [Some name] =>
       years ← textOf (o "years");
       Some (inl (Command.Register name (MkRegisterOptions (textOf (o "owner")) years
         (textOf (o "referrer")) (isTrue (o "paySolans")) (notFalse (o "nft")))))
   | _ => None
   end).

Definition renew : Entry :=
  MkEntry (MkDeclaration ["renew"] ["name"] []
    [opt "--years" "years" (Some "1"); opt "--referrer" "referrer" None;
     switch "--pay-solans" "paySolans"])
  (fun args o => match args with
   | [Some name] =>
       years ← textOf (o "years");
       Some (inl (Command.Renew name
         (MkRenewOptions years (textOf (o "referrer")) (isTrue (o "paySolans")))))
   | _ => None
   end).

Definition autoRenewEnable : Entry := plain ["auto-renew-enable"] ["amount"] (fun a =>
  match a with [amount] => Some (inl (Command.AutoRenewEnable amount)) | _ => None end).

Definition autoRenewDisable : Entry := plain ["auto-renew-disable"] [] (fun a =>
  match a with [] => Some (inl Command.AutoRenewDisable) | _ => None end).

Definition autoRenew : Entry :=
  MkEntry (MkDeclaration ["auto-renew"] ["name"] [] [opt "--years" "years" (Some "1")])
  (fun args o => match args with
   | [Some name] => years ← textOf (o "years"); Some (inl (Command.AutoRenew name years))
   | _ => None
   end).

Definition claim : Entry :=
  MkEntry (MkDeclaration ["claim"] ["name"] []
    [opt "--years" "years" (Some "1"); opt "--referrer" "referrer" None])
  (fun args o => match args with
   | [Some name] =>
       years ← textOf (o "years");
       Some (inl (Command.Claim name (MkClaimOptions years (textOf (o "referrer")))))
   | _ => None
   end).

Definition recordSet : Entry := plain ["record"; "set"] ["name"; "key"; "value"] (fun a =>
  match a with [name; key; value] => Some (inl (Command.RecordSet name key value)) | _ => None end).

Definition recordDelete : Entry := plain ["record"; "delete"] ["name"; "key"] (fun a =>
  match a with [name; key] => Some (inl (Command.RecordDelete name key)) | _ => None end).

Definition setController : Entry := plain ["set-controller"] ["name"; "controller"] (fun a =>
  match a with [name; controller] => Some (inl (Command.SetController name controller)) | _ => None end).

Definition setResolver : Entry := plain ["set-resolver"] ["name"; "program"] (fun a =>
  match a with [name; resolver] => Some (inl (Command.SetResolver name resolver)) | _ => None end).

Definition setHosting : Entry := plain ["set-hosting"] ["name"; "cid"] (fun a =>
  match a with [name; cid] => Some (inl (Command.SetHosting name cid)) | _ => None end).

Definition host : Entry := plain ["host"] ["name"] (fun a =>
  match a with [name] => Some (inr (ReadCommand.Host name)) | _ => None end).

Definition hostUpload : Entry := plain ["host-upload"] ["name"; "file"] (fun a =>
  match a with [name; file] => Some (inl (Command.HostUpload name file)) | _ => None end).

Definition transfer : Entry := plain ["transfer"] ["name"; "newOwner"] (fun a =>
  match a with [name; newOwner] => Some (inl (Command.Transfer name newOwner)) | _ => None end).

Definition lock : Entry :=
  MkEntry (MkDeclaration ["lock"] ["name"] [] [switch "--unlock" "unlock"])
  (fun args o => match args with
   | [Some name] => Some (inl (Command.Lock name (isTrue (o "unlock"))))
   | _ => None
   end).

Definition setReverse : Entry := plain ["set-reverse"] ["name"] (fun a =>
  match a with [name] => Some (inl (Command.SetReverse name)) | _ => None end).

Definition burn : Entry := plain ["burn"] ["name"] (fun a =>
  match a with [name] => Some (inl (Command.Burn name)) | _ => None end).

Definition tokenize : Entry := plain ["tokenize"] ["name"] (fun a =>
  match a with [name] => Some (inl (Command.Tokenize name)) | _ => None end).

Definition redeem : Entry := plain ["redeem"] ["name"] (fun a =>
  match a with [name] => Some (inl (Command.Redeem name)) | _ => None end).

Definition subdomainCreate : Entry :=
  MkEntry (MkDeclaration ["subdomain"; "create"] ["parent"; "label"] [] [opt "--owner" "owner" None])
  (fun args o => match args with
   | [Some parent; Some label] => Some (inl (Command.SubdomainCreate parent label (textOf (o "owner"))))
   | _ => None
   end).

Definition subdomainRevoke : Entry := plain ["subdomain"; "revoke"] ["parent"; "label"] (fun a =>
  match a with [parent; label] => Some (inl (Command.SubdomainRevoke parent label)) | _ => None end).

Definition list_ : Entry :=
  MkEntry (MkDeclaration ["list"] ["name"; "priceSol"] [] [opt "--days" "days" (Some "30")])
  (fun args o => match args with
   | [Some name; Some price] =>
       days ← textOf (o "days"); Some (inl (Command.List name price days))
   | _ => None
   end).

Definition unlist : Entry := plain ["unlist"] ["name"] (fun a =>
  match a with [name] => Some (inl (Command.Unlist name)) | _ => None end).

Definition updateListing : Entry :=
  MkEntry (MkDeclaration ["update-listing"] ["name"; "priceSol"] [] [opt "--days" "days" (Some "30")])
  (fun args o => match args with
   | [Some name; Some price] =>
       days ← textOf (o "days"); Some (inl (Command.UpdateListing name price days))
   | _ => None
   end).

Definition buy : Entry := plain ["buy"] ["name"] (fun a =>
  match a with [name] => Some (inl (Command.Buy name)) | _ => None end).

Definition offer : Entry :=
  MkEntry (MkDeclaration ["offer"] ["name"; "priceSol"] [] [opt "--days" "days" (Some "30")])
  (fun args o => match args with
   | [Some name; Some price] =>
       days ← textOf (o "days"); Some (inl (Command.Offer name price days))
   | _ => None
   end).

Definition acceptOffer : Entry := plain ["accept-offer"] ["name"; "buyer"] (fun a =>
  match a with [name; buyer] => Some (inl (Command.AcceptOffer name buyer)) | _ => None end).

Definition cancelOffer : Entry :=
  MkEntry (MkDeclaration ["cancel-offer"] ["name"] [] [opt "--buyer" "buyer" None])
  (fun args o => match args with
   | [Some name] => Some (inl (Command.CancelOffer name (textOf (o "buyer"))))
   | _ => None
   end).

Definition auctionStart : Entry :=
  MkEntry (MkDeclaration ["auction-start"] ["name"] []
    [required "--reserve" "reserve"; opt "--increment" "increment" (Some "1");
     opt "--days" "days" (Some "3")])
  (fun args o => match args with
   | [Some name] =>
       reserve ← textOf (o "reserve"); increment ← textOf (o "increment"); days ← textOf (o "days");
       Some (inl (Command.AuctionStart name reserve increment days))
   | _ => None
   end).

Definition bid : Entry := plain ["bid"] ["name"; "amount"] (fun a =>
  match a with [name; amount] => Some (inl (Command.Bid name amount)) | _ => None end).

Definition auctionSettle : Entry := plain ["auction-settle"] ["name"] (fun a =>
  match a with [name] => Some (inl (Command.AuctionSettle name)) | _ => None end).

Definition auctionCancel : Entry := plain ["auction-cancel"] ["name"] (fun a =>
  match a with [name] => Some (inl (Command.AuctionCancel name)) | _ => None end).

Definition auctionInfo : Entry := plain ["auction-info"] ["name"] (fun a =>
  match a with [name] => Some (inr (ReadCommand.AuctionInfo name)) | _ => None end).

Definition stakeInit : Entry := plain ["stake-init"] ["solansMint"] (fun a =>
  match a with [mint] => Some (inl (Command.StakeInit mint)) | _ => None end).

Definition stake : Entry := plain ["stake"] ["amount"] (fun a =>
  match a with [amount] => Some (inl (Command.Stake amount)) | _ => None end).

Definition unstake : Entry := plain ["unstake"] ["amount"] (fun a =>
  match a with [amount] => Some (inl (Command.Unstake amount)) | _ => None end).

Definition stakeClaim : Entry := plain ["stake-claim"] [] (fun a =>
  match a with [] => Some (inl Command.StakeClaim) | _ => None end).

Definition stakeInfo : Entry := plain ["stake-info"] [] (fun a =>
  match a with [] => Some (inr ReadCommand.StakeInfo) | _ => None end).

Definition burnInit : Entry := plain ["burn-init"] ["solansMint"] (fun a =>
  match a with [mint] => Some (inl (Command.BurnInit mint)) | _ => None end).

Definition solansParams : Entry :=
  MkEntry (MkDeclaration ["solans-params"] [] []
    [required "--rate" "rate"; required "--discount-bps" "discountBps"])
  (fun args o => match args with
   | [] => rate ← textOf (o "rate"); discount ← textOf (o "discountBps");
           Some (inl (Command.SolansParams rate discount))
   | _ => None
   end).

Definition buyback : Entry := plain ["buyback"] ["solansAmount"] (fun a =>
  match a with [amount] => Some (inl (Command.Buyback amount)) | _ => None end).

Definition resolve : Entry := plain ["resolve"] ["name"] (fun a =>
  match a with [name] => Some (inr (ReadCommand.Resolve name)) | _ => None end).

Definition resolveCpi : Entry :=
  MkEntry (MkDeclaration ["resolve-cpi"] ["name"] ["key"] [])
  (fun args _ => match args with
   | [Some name; key] => Some (inr (ReadCommand.ResolveCpi name key))
   | _ => None
   end).

Definition info : Entry := plain ["info"] ["name"] (fun a =>
  match a with [name] => Some (inr (ReadCommand.Info name)) | _ => None end).

Definition reverseLookup : Entry := plain ["reverse-lookup"] ["pubkey"] (fun a =>
  match a with [pubkey] => Some (inr (ReadCommand.ReverseLookup pubkey)) | _ => None end).
End Declared.
Close Scope string_scope.

(** [program], in the order of the file. *)
Definition program : list Entry :=
  [Declared.initConfig; Declared.updateConfig; Declared.transferAdmin; Declared.register;
   Declared.renew; Declared.autoRenewEnable; Declared.autoRenewDisable; Declared.autoRenew;
   Declared.claim; Declared.recordSet; Declared.recordDelete; Declared.setController;
   Declared.setResolver; Declared.setHosting; Declared.host; Declared.hostUpload;
   Declared.transfer; Declared.lock; Declared.setReverse; Declared.burn; Declared.tokenize;
   Declared.redeem; Declared.subdomainCreate; Declared.subdomainRevoke; Declared.list_;
   Declared.unlist; Declared.updateListing; Declared.buy; Declared.offer;
   Declared.acceptOffer; Declared.cancelOffer; Declared.auctionStart; Declared.bid;
   Declared.auctionSettle; Declared.auctionCancel; Declared.auctionInfo; Declared.stakeInit;
   Declared.stake; Declared.unstake; Declared.stakeClaim; Declared.stakeInfo;
   Declared.burnInit; Declared.solansParams; Declared.buyback; Declared.resolve;
   Declared.resolveCpi; Declared.info; Declared.reverseLookup].

(** The command of a line typed for an entry. *)
Definition commandOf (e : Entry) (l : Line) : option (Command.t + ReadCommand.t) :=
  action e (args l) (optionsOf (declaration e) l).

(** The entry of a path. *)
Definition entryAt (p : list string) : option Entry :=
  List.find (fun e => bool_decide (path (declaration e) = p)) program.

(** ** Every line runs a command *)

#[local] Arguments textOf : simpl never.
#[local] Arguments valueOf : simpl never.
#[local] Arguments typed : simpl never.

(** A required option, or one with a default, has a text. *)
Lemma text_given k v : typed k v = true ->
  match k with Required | Valued (Some _) => True | _ => False end ->
  exists s, textOf (valueOf k v) = Some s.
Proof. destruct k as [[d|]| | |], v as [[s|b]|]; cbn; try done; eauto. Qed.

Lemma accepted_lines_run e l : In e program -> accepts (declaration e) l = true ->
  exists c, commandOf e l = Some c.
Proof.
  intros He HA. unfold accepts in HA. apply andb_true_iff in HA as [HF HO].
  destruct l as [argv given]. cbn [CliProgram.args CliProgram.given] in *.
  assert (HX : forall p k, In (p, k) (map (fun o => (property o, kind o)) (options (declaration e))) ->
    match k with Required | Valued (Some _) => True | _ => False end ->
    exists s, textOf (valueOf k (given p)) = Some s).
  { intros p k Hin Hk. apply in_map_iff in Hin as ([f p' k'] & [= <- <-] & Hin).
    rewrite forallb_forall in HO. by apply text_given; [apply (HO _ Hin)|]. }
  clear HO. unfold program in He. cbn [In] in He.
  unfold commandOf, optionsOf. cbn [CliProgram.args CliProgram.given].
  repeat (destruct He as [<-|He]; [|]); [..|done]; cbn in HF, HX |- *.
  all: repeat (destruct argv as [|[?|] argv]; try discriminate HF; cbn in HF |- *).
  all: repeat match goal with
    | |- exists c, textOf (valueOf ?k (_ ?p)) ≫= _ = Some c =>
        let s := fresh "s" in let HS := fresh "HS" in
        destruct (HX p k ltac:(repeat first [left; reflexivity|right]) I) as [s HS]; rewrite HS; cbn
    | |- exists c, Some ?x = Some c => exists x; reflexivity
    end.
Qed.

(** ** Every command can be typed *)

(** The options of a line that gives the listed ones. *)
Definition giving (l : list (string * option Value)) (p : string) : option Value :=
  match List.find (fun x => String.eqb (fst x) p) l with Some (_, v) => v | None => None end.

Definition texts (l : list (string * jsstring)) : list (string * option Value) :=
  map (fun '(p, s) => (p, Some (VText s))) l.

Definition maybe (p : string) (o : option jsstring) : string * option Value := (p, VText <$> o).
Definition given_switch (p : string) (b : bool) : string * option Value :=
  (p, if b then Some (VFlag true) else None).

Open Scope string_scope.
(** A line that gives every option of a command. *)
Definition lineOf (c : Command.t + ReadCommand.t) : Entry * Line :=
  let plainly e a := (e, MkLine (map Some a) (fun _ => None)) in
  match c with
  | inl c => match c with
    | Command.InitConfig o =>
        (Declared.initConfig, MkLine [] (giving (texts
          [("mint", o_mint o); ("treasury", o_treasury o); ("price1", o_price1 o);
           ("price2", o_price2 o); ("price3", o_price3 o); ("price4", o_price4 o);
           ("price5", o_price5 o); ("priceNumeric", o_priceNumeric o); ("grace", o_grace o);
           ("minYears", o_minYears o); ("maxYears", o_maxYears o); ("feeBps", o_feeBps o);
           ("stakingBps", o_stakingBps o); ("referralBps", o_referralBps o);
           ("burnBps", o_burnBps o)]
          ++ [maybe "solTreasury" (o_solTreasury o); maybe "stakingVault" (o_stakingVault o);
              maybe "burnVault" (o_burnVault o)])%list))
    | Command.UpdateConfig o =>
        (Declared.updateConfig, MkLine [] (giving
          [maybe "price1" (u_price1 o); maybe "price2" (u_price2 o); maybe "price3" (u_price3 o);
           maybe "price4" (u_price4 o); maybe "price5" (u_price5 o);
           maybe "priceNumeric" (u_priceNumeric o); maybe "grace" (u_grace o);
           maybe "minYears" (u_minYears o); maybe "maxYears" (u_maxYears o);
           maybe "solTreasury" (u_solTreasury o); maybe "feeBps" (u_feeBps o);
           maybe "stakingBps" (u_stakingBps o); maybe "referralBps" (u_referralBps o);
           maybe "burnBps" (u_burnBps o)]))
    | Command.TransferAdmin a => plainly Declared.transferAdmin [a]
    | Command.Register n o =>
        (Declared.register, MkLine [Some n] (giving
          [maybe "owner" (r_owner o); ("years", Some (VText (r_years o)));
           maybe "referrer" (r_referrer o); given_switch "paySolans" (r_paySolans o);
           ("nft", if r_nft o then None else Some (VFlag false))]))
    | Command.Renew n o =>
        (Declared.renew, MkLine [Some n] (giving
          [("years", Some (VText (n_years o))); maybe "referrer" (n_referrer o);
           given_switch "paySolans" (n_paySolans o)]))
    | Command.AutoRenewEnable a => plainly Declared.autoRenewEnable [a]
    | Command.AutoRenewDisable => plainly Declared.autoRenewDisable []
    | Command.AutoRenew n y =>
        (Declared.autoRenew, MkLine [Some n] (giving (texts [("years", y)])))
    | Command.Claim n o =>
        (Declared.claim, MkLine [Some n] (giving
          [("years", Some (VText (c_years o))); maybe "referrer" (c_referrer o)]))
    | Command.RecordSet n k v => plainly Declared.recordSet [n; k; v]
    | Command.RecordDelete n k => plainly Declared.recordDelete [n; k]
    | Command.SetController n c => plainly Declared.setController [n; c]
    | Command.SetResolver n r => plainly Declared.setResolver [n; r]
    | Command.SetHosting n cid => plainly Declared.setHosting [n; cid]
    | Command.HostUpload n f => plainly Declared.hostUpload [n; f]
    | Command.Transfer n a => plainly Declared.transfer [n; a]
    | Command.Lock n unlock =>
        (Declared.lock, MkLine [Some n] (giving [given_switch "unlock" unlock]))
    | Command.SetReverse n => plainly Declared.setReverse [n]
    | Command.Burn n => plainly Declared.burn [n]
    | Command.Tokenize n => plainly Declared.tokenize [n]
    | Command.Redeem n => plainly Declared.redeem [n]
    | Command.SubdomainCreate p l o =>
        (Declared.subdomainCreate, MkLine [Some p; Some l] (giving [maybe "owner" o]))
    | Command.SubdomainRevoke p l => plainly Declared.subdomainRevoke [p; l]
    | Command.List n p d =>
        (Declared.list_, MkLine [Some n; Some p] (giving (texts [("days", d)])))
    | Command.Unlist n => plainly Declared.unlist [n]
    | Command.UpdateListing n p d =>
        (Declared.updateListing, MkLine [Some n; Some p] (giving (texts [("days", d)])))
    | Command.Buy n => plainly Declared.buy [n]
    | Command.Offer n p d =>
        (Declared.offer, MkLine [Some n; Some p] (giving (texts [("days", d)])))
    | Command.AcceptOffer n b => plainly Declared.acceptOffer [n; b]
    | Command.CancelOffer n b =>
        (Declared.cancelOffer, MkLine [Some n] (giving [maybe "buyer" b]))
    | Command.AuctionStart n r i d =>
        (Declared.auctionStart, MkLine [Some n] (giving
          (texts [("reserve", r); ("increment", i); ("days", d)])))
    | Command.Bid n a => plainly Declared.bid [n; a]
    | Command.AuctionSettle n => plainly Declared.auctionSettle [n]
    | Command.AuctionCancel n => plainly Declared.auctionCancel [n]
    | Command.StakeInit m => plainly Declared.stakeInit [m]
    | Command.Stake a => plainly Declared.stake [a]
    | Command.Unstake a => plainly Declared.unstake [a]
    | Command.StakeClaim => plainly Declared.stakeClaim []
    | Command.BurnInit m => plainly Declared.burnInit [m]
    | Command.SolansParams r d =>
        (Declared.solansParams, MkLine [] (giving (texts [("rate", r); ("discountBps", d)])))
    | Command.Buyback a => plainly Declared.buyback [a]
    end
  | inr c => match c with
    | ReadCommand.Host n => plainly Declared.host [n]
    | ReadCommand.AuctionInfo n => plainly Declared.auctionInfo [n]
    | ReadCommand.StakeInfo => plainly Declared.stakeInfo []
    | ReadCommand.Resolve n => plainly Declared.resolve [n]
    | ReadCommand.ResolveCpi n k => (Declared.resolveCpi, MkLine [Some n; k] (fun _ => None))
    | ReadCommand.Info n => plainly Declared.info [n]
    | ReadCommand.ReverseLookup pk => plainly Declared.reverseLookup [pk]
    end
  end.
Close Scope string_scope.

Lemma text_maybe o : textOf (valueOf (Valued None) (VText <$> o)) = o.
Proof. by destruct o. Qed.
Lemma typed_maybe o : typed (Valued None) (VText <$> o) = true.
Proof. by destruct o. Qed.
Lemma true_switch (b : bool) : isTrue (valueOf Switch (if b then Some (VFlag true) else None)) = b.
Proof. by destruct b. Qed.
Lemma typed_switch (b : bool) : typed Switch (if b then Some (VFlag true) else None) = true.
Proof. by destruct b. Qed.
Lemma notFalse_negated (b : bool) : notFalse (valueOf Negated (if b then None else Some (VFlag false))) = b.
Proof. by destruct b. Qed.
Lemma typed_negated (b : bool) : typed Negated (if b then None else Some (VFlag false)) = true.
Proof. by destruct b. Qed.

Lemma text_typed k s : textOf (valueOf k (Some (VText s))) = Some s.
Proof. done. Qed.

Lemma commands_typed c : let '(e, l) := lineOf c in
  In e program /\ accepts (declaration e) l = true /\ commandOf e l = Some c.
Proof.
  destruct c as [c|c]; destruct c; cbn [lineOf]; (split; [unfold program; cbn; tauto|]);
    unfold commandOf, optionsOf, accepts; cbn -[valueOf textOf typed isTrue notFalse];
    rewrite ?typed_maybe, ?typed_switch, ?typed_negated; (split; [reflexivity|]);
    rewrite ?text_maybe, ?true_switch, ?notFalse_negated, ?text_typed; cbn;
    rewrite ?text_typed; cbn; try reflexivity; by destruct o.
Qed.

Lemma paths_distinct : NoDup (map (fun e => path (declaration e)) program).
Proof. apply (bool_decide_eq_true_1 _). vm_compute. reflexivity. Qed.

(** The properties of an entry's options are distinct, and distinct from the program's. *)
Lemma properties_distinct e : In e program ->
  NoDup (map property (options (declaration e) ++ options globals)).
Proof.
  assert (H : forallb (fun e => bool_decide
    (NoDup (map property (options (declaration e) ++ options globals)))) program = true)
    by (vm_compute; reflexivity).
  rewrite forallb_forall in H. intros He. by apply (bool_decide_eq_true_1 _), H.
Qed.

(** The command line has a path of its own for each command; the options of a
    command set properties distinct from each other and from the program's own; every line
    commander accepts for a path runs exactly one command, and each of the forty-eight
    commands, with any arguments and options, is what some accepted line runs. *)
Theorem lines_are_commands :
  NoDup (map (fun e => path (declaration e)) program)
  /\ (forall e, In e program -> NoDup (map property (options (declaration e) ++ options globals)))
  /\ (forall e l, In e program -> accepts (declaration e) l = true ->
       exists c, commandOf e l = Some c)
  /\ (forall c, exists e l, In e program /\ accepts (declaration e) l = true /\ commandOf e l = Some c).
Proof.
  split_and!; [apply paths_distinct|apply properties_distinct|apply accepted_lines_run|].
  intros c. pose proof (commands_typed c) as H. destruct (lineOf c) as [e l]. by exists e, l.
Qed.

(** ** The defaults *)

Lemma lines_are_commands_witness :
  exists c, commandOf Declared.unlist (MkLine [Some (js "alex.sol")] (fun _ => None)) = Some c.
Proof.
  destruct lines_are_commands as (_ & _ & H & _). apply H.
  - unfold program. cbn. tauto.
  - reflexivity.
Defined.

(** A line that gives arguments and no options. *)
Definition bare (arguments : list string) : Line := MkLine (map (fun a => Some (js a)) arguments) (fun _ => None).

Open Scope string_scope.
Lemma bare_lines :
  commandOf Declared.register (bare ["alex.sol"])
    = Some (inl (Command.Register (js "alex.sol") (MkRegisterOptions None (js "1") None false true)))
  /\ commandOf Declared.list_ (bare ["alex.sol"; "1.5"])
    = Some (inl (Command.List (js "alex.sol") (js "1.5") (js "30")))
  /\ accepts (declaration Declared.auctionStart) (bare ["alex.sol"]) = false
  /\ accepts (declaration Declared.resolveCpi) (MkLine [Some (js "alex.sol"); None] (fun _ => None)) = true
  /\ globalOpts (bare []) = MkGlobalOpts None None None None false false.
Proof. repeat split; vm_compute; reflexivity. Qed.
Close Scope string_scope.
