(* ===== verification/CliLaws.v ===== *)
(** * The command line: laws

    What the commands that send a transaction send.  [sdkWrite] says which call of
    the SDK (clients/sdk/src/tx.ts) a command stands for, with which arguments; the
    theorem is that both make the same instructions.  Then: nothing is sent before
    its simulation succeeds, or at all with --simulate; and the amounts a user types
    are the integers that are encoded. *)
From S2P Require Import Prelude JsString Errors OnChain Kit SmallKit Pdas Accounts Instruction.
From S2P Require Import NameInstructions MarketInstructions TokenInstructions Program.
From S2P Require Import ProgramAccounts ProgramClient NameBuilders MarketBuilders TokenBuilders.
From S2P Require Import Builders Normalize HashName Client IndexParse Tx TxLaws JsNumber AccountFetch.
From S2P Require Import Transactions Hosting Pinning Cli.

(** ** The SDK's call for a command *)

Section Sdk.
Context `{Keccak, Unicode, Kit, ProgramClientCore, TokenClient, AccountKit, NumberCodec, CliKit}.
Variable fetch : Fetcher.
Variable ctx : Ctx.

(** [getConfig(ctx)] where the chain holds what [fetch] reads. *)
Definition configIn : result JsError (Account ConfigAccount.Config) :=
  '(pda, _) ← findConfigPda None;
  data ← fetch pda;
  m ← ConfigFetch.decodeConfig (match data with Some bs => Existing pda bs | None => Missing pda end);
  assertAccountExists m.

Definition fees (cfg : ConfigAccount.ConfigArgs) : FeeConfig :=
  MkFeeConfig (ConfigAccount.paymentMint cfg) (ConfigAccount.treasuryTokenAccount cfg)
    (ConfigAccount.stakingVault cfg) (ConfigAccount.burnVault cfg).

Definition poolInfo (p : StakePoolAccount.StakePoolArgs) : StakePoolInfo :=
  MkStakePoolInfo (StakePoolAccount.solansMint p) (StakePoolAccount.stakeVault p)
    (StakePoolAccount.rewardVault p).

Definition mintOf (name : jsstring) : result JsError (option Address) :=
  rec ← settled_call (resolve fetch name);
  Ok (match rec with Some r => NameRecordAccount.nftMint (NameRecordAccount.args r) | None => None end).

Definition recordTarget (name : jsstring) : result JsError RecordWriteArgs :=
  nr ← nameRecordPda name; mint ← mintOf name; Ok (MkRecordWriteArgs (signer ctx) nr mint).

(** An account a command needs. *)
Definition required {A} (r : result JsError (option A)) : result JsError A :=
  o ← r; of_option (MkError (js "missing")) o.

Definition poolAndConfig : result JsError (StakePoolInfo * Address) :=
  cfg ← configIn; pool ← required (getStakePool fetch);
  Ok (poolInfo (StakePoolAccount.args pool), ConfigAccount.paymentMint (ConfigAccount.args (account_data cfg))).

(** [None]: the SDK has no call for the command. *)
Definition sdkWrite (c : Command.t) : result JsError (option Write.t) :=
  let s := signer ctx in
  let me := signerAddress s in
  let solans cfg := ConfigAccount.solansMint (ConfigAccount.args (account_data cfg)) in
  match c with
  | Command.Register n o =>
      if r_paySolans o then Ok None else
      cfg ← configIn; owner ← addressOr (r_owner o) me; referral ← optionAddress (r_referrer o);
      Ok (Some (Write.Register (MkRegisterArgs s (fees (ConfigAccount.args (account_data cfg))) n (Some owner)
        (Some (numberArg (r_years o))) referral (Some (r_nft o)))))
  | Command.Renew n o =>
      if n_paySolans o then Ok None else
      cfg ← configIn; referral ← optionAddress (n_referrer o);
      Ok (Some (Write.Renew (MkRenewArgs s (fees (ConfigAccount.args (account_data cfg))) n
        (Some (numberArg (n_years o))) referral)))
  | Command.RecordSet n k v => a ← recordTarget n; Ok (Some (Write.UpdateRecord a k (Some v)))
  | Command.RecordDelete n k => a ← recordTarget n; Ok (Some (Write.UpdateRecord a k None))
  | Command.SetHosting n cid => a ← recordTarget n; Ok (Some (Write.SetHosting a
      (if bool_decide (toLowerCase cid = js "none") then None else Some cid)))
  | Command.SetResolver n r =>
      a ← recordTarget n; value ← noneOrAddress r; Ok (Some (Write.SetResolver a value))
  | Command.SetController n k => value ← noneOrAddress k; Ok (Some (Write.SetController s n value))
  | Command.Transfer n a => newOwner ← toAddress a; Ok (Some (Write.Transfer s n newOwner))
  | Command.Lock n unlock => Ok (Some (Write.LockTransfer s n (negb unlock)))
  | Command.SetReverse n => Ok (Some (Write.SetReverse s n))
  | Command.Burn n => Ok (Some (Write.BurnName s n))
  | Command.Tokenize n => Ok (Some (Write.Tokenize s n))
  | Command.Redeem n => mint ← required (mintOf n); Ok (Some (Write.Redeem s n mint))
  | Command.SubdomainCreate p l o =>
      owner ← addressOr o me; Ok (Some (Write.WrapSubdomain s p l (Some owner)))
  | Command.SubdomainRevoke p l => Ok (Some (Write.RevokeSubdomain s p l))
  | Command.List n price days =>
      p ← solToLamports price; d ← daysToSeconds days; Ok (Some (Write.List s n p (Some d)))
  | Command.Unlist n =>
      l ← required (getListing fetch n);
      Ok (Some (Write.CancelListing s n (ListingAccount.seller (ListingAccount.args l))))
  | Command.Buy n =>
      l ← required (getListing fetch n); cfg ← configIn;
      Ok (Some (Write.Buy s n (ListingAccount.seller (ListingAccount.args l))
        (ListingAccount.price (ListingAccount.args l))
        (ConfigAccount.solTreasury (ConfigAccount.args (account_data cfg)))))
  | Command.Offer n price days =>
      p ← solToLamports price; d ← daysToSeconds days; Ok (Some (Write.MakeOffer s n p (Some d)))
  | Command.AcceptOffer n b =>
      buyer ← toAddress b; cfg ← configIn;
      Ok (Some (Write.AcceptOffer s n buyer
        (ConfigAccount.solTreasury (ConfigAccount.args (account_data cfg)))))
  | Command.CancelOffer n b => buyer ← addressOr b me; Ok (Some (Write.CancelOffer s n buyer))
  | Command.AuctionStart n r i days =>
      cfg ← configIn; reserve ← BigInt r; increment ← BigInt i; d ← daysToSeconds days;
      Ok (Some (Write.StartAuction s n (solans cfg) reserve (Some increment) d))
  | Command.Bid n amount =>
      cfg ← configIn; a ← required (getAuction fetch n); v ← BigInt amount;
      Ok (Some (Write.Bid s n (solans cfg) v (AuctionAccount.highestBidder (AuctionAccount.args a))))
  | Command.AuctionSettle n =>
      cfg ← configIn; a ← required (getAuction fetch n);
      Ok (Some (Write.SettleAuction s n (solans cfg) (AuctionAccount.seller (AuctionAccount.args a))
        (AuctionAccount.highestBidder (AuctionAccount.args a))))
  | Command.AuctionCancel n => cfg ← configIn; Ok (Some (Write.CancelAuction s n (solans cfg)))
  | Command.Stake amount =>
      '(pool, mint) ← poolAndConfig; v ← BigInt amount; Ok (Some (Write.Stake s pool mint v))
  | Command.Unstake amount =>
      '(pool, mint) ← poolAndConfig; v ← BigInt amount; Ok (Some (Write.Unstake s pool mint v))
  | Command.StakeClaim => '(pool, mint) ← poolAndConfig; Ok (Some (Write.ClaimRewards s pool mint))
  | _ => Ok None
  end.

(** The write of a command that was prepared makes the instructions it sends. *)
Definition sends_write (c : Command.t) (ixs : list Instruction) : Prop :=
  match sdkWrite c with
  | Ok (Some write) => instructionsOf write = Ok ixs
  | Ok None => True
  | Err _ => False
  end.
End Sdk.

Section Laws.
Context `{KS : KeccakSpec} `{HU : Unicode} `{HKit : KitSpec} `{PS : ProgramClientSpec}.
Context `{TC : TokenClient} `{AK : AccountKit} `{AS : !AccountKitSpec AK} `{NC : NumberCodec} `{CK : CliKit}.
Context {W : Type} `{HH : Host W, CH : CliHost W}.

(** ** Reads of a chain that stays as it is *)

Section Stable.
Variable fetch : Fetcher.
Hypothesis Hstable : forall w w' f, chain w = (w', Ok f) -> f = fetch.

Lemma reading_inv {T} (f : Fetcher -> result JsError T) w w' a :
  reading f w = (w', Ok a) -> f fetch = Ok a.
Proof.
  rewrite reading_run. destruct (chain w) as [w1 [g|e]] eqn:HC; [|done].
  by rewrite (Hstable _ _ _ HC) => [[_ ->]].
Qed.

Lemma clientResolve_inv name w w' rec :
  clientResolve name w = (w', Ok rec) -> settled_call (resolve fetch name) = Ok rec.
Proof. intros HR. by apply reading_inv in HR. Qed.

Lemma decoded_existing {T} a bs (d : Decoder T) m x :
  decodeAccount (Existing a bs) d = Ok m -> assertAccountExists m = Ok x -> account_address x = a.
Proof.
  intros HD HA. destruct (decode d bs) as [v|e] eqn:HB.
  - rewrite (decode_existing _ _ _ _ _ HB) in HD. apply Ok_inj in HD as <-.
    apply assert_one in HA. by injection HA as <-.
  - pose proof (decode_malformed T a bs d) as HM. rewrite HB, HD in HM. by specialize (HM eq_refl).
Qed.

Lemma getConfig_inv w w' cfg : getConfig w = (w', Ok cfg) ->
  configIn fetch = Ok cfg /\ exists bump, findConfigPda None = Ok (account_address cfg, bump).
Proof.
  intros HC. unfold getConfig in HC. uneff HC.
  unfold ConfigFetch.fetchConfig, ConfigFetch.fetchMaybeConfig in HC. uneff HC. uneff Hx0.
  apply lift_inv in HC as [-> HC]. apply lift_inv in Hx0 as [-> Hx0].
  cbn [fetchEncodedAccount host_rpc] in Hx1. uneff Hx1.
  apply lift_inv in Hx1 as [-> Hx1]. apply Hstable in Hx2 as ->. unbind Hx1.
  apply Ok_inj in Hx1 as <-. unfold configIn. rewrite Hx. cbn [mbind result_bind].
  rewrite Hx2. cbn [mbind result_bind]. rewrite Hx0. cbn [mbind result_bind]. split; [done|].
  exists z. repeat f_equal. destruct x as [bs|].
  - symmetry. by eapply decoded_existing.
  - unfold ConfigFetch.decodeConfig in Hx0. rewrite decode_missing in Hx0.
    apply Ok_inj in Hx0 as <-. by apply assert_one in HC.
Qed.

Lemma stakePool_inv w w' cfg pool : stakePoolAndConfig w = (w', Ok (cfg, pool)) ->
  poolAndConfig fetch = Ok (poolInfo pool, ConfigAccount.paymentMint cfg).
Proof.
  intros HP. unfold stakePoolAndConfig in HP. uneff HP. apply getConfig_inv in Hx as [Hx _].
  apply reading_inv in Hx0. destruct a0 as [p|]; [|done]. injection HP as _ <- <-.
  unfold poolAndConfig. rewrite Hx. cbn [mbind result_bind]. unfold required. by rewrite Hx0.
Qed.

(** ** A prepared command and the SDK's call *)

Lemma ataFor_same owner mint : Cli.ataFor owner mint = Tx.ataFor owner mint.
Proof. done. Qed.

Lemma nameRecordPda_same name : nameRecordPda name = nameRecordOf name.
Proof.
  unfold nameRecordPda, nameRecordOf, nameHashFor. by destruct (nameInfo name None).
Qed.

Lemma nameParts_nameRecordOf name l t h nr bump : nameParts name None = Ok (l, t, h) ->
  findNameRecordPda {| nameHash := h |} None = Ok (nr, bump) -> nameRecordOf name = Ok nr.
Proof.
  intros HN HP. unfold nameRecordOf. rewrite (nameParts_nameInfo _ _ _ _ _ HN).
  cbn [mbind result_bind hash]. by rewrite HP.
Qed.

Lemma tokenize_same ctx nr mint label :
  tokenizeInstruction ctx nr mint label = buildTokenize (signer ctx) nr mint label.
Proof. done. Qed.

(** What the reads of a prepared command found. *)
Ltac found :=
  repeat match goal with
  | H : getConfig _ = (_, Ok _) |- _ =>
      let Ha := fresh "Hcfg" in let Hb := fresh "Hpda" in
      apply getConfig_inv in H as [Ha (? & Hb)]
  | H : stakePoolAndConfig _ = (_, Ok _) |- _ => apply stakePool_inv in H
  | H : clientResolve _ _ = (_, Ok _) |- _ => apply clientResolve_inv in H
  | H : reading _ _ = (_, Ok _) |- _ => apply reading_inv in H
  | H : lift _ _ = (_, Ok _) |- _ => apply lift_inv in H as [? H]
  | H : context [nameRecordPda _] |- _ => rewrite nameRecordPda_same in H
  | H : context [Cli.ataFor _ _] |- _ => rewrite ataFor_same in H
  | H : context [tokenizeInstruction _ _ _ _] |- _ => rewrite tokenize_same in H
  end.

(** Compute with the results in hand. *)
Ltac given_results :=
  repeat (first
    [ match goal with H : ?m = Ok _ |- context [?m] => rewrite H end
    | rewrite nameRecordPda_same
    | progress cbn [mbind result_bind fmap result_fmap default from_option id required of_option
        poolInfo pool_solansMint pool_stakeVault pool_rewardVault fees Tx.paymentMint
        Tx.treasuryTokenAccount Tx.stakingVault Tx.burnVault write_authority write_nameRecord
        register_payer register_cfg register_name register_owner register_years register_referral
        withNft renew_payer renew_cfg renew_name renew_years renew_referral] ]).

Variable ctx : Ctx.

(** The instructions of the command, once prepared, are the SDK's. *)
Definition faithful (c : Command.t) : Prop := forall env w w' p,
  prepare env ctx c w = (w', Ok p) -> sends_write fetch ctx c (toSend p).

(** The account of the NFT that authorizes a write to a record. *)
Lemma target_found name nr w w' nft : nameRecordOf name = Ok nr ->
  nftTokenAccountIfTokenized ctx name w = (w', Ok nft) ->
  exists mint, recordTarget fetch ctx name = Ok (MkRecordWriteArgs (signer ctx) nr mint)
    /\ nftTokenAccountOf (MkRecordWriteArgs (signer ctx) nr mint) = Ok nft.
Proof.
  intros HN HP. unfold nftTokenAccountIfTokenized in HP. uneff HP. found.
  eexists. split; [|exact HP]. unfold recordTarget, mintOf. by given_results.
Qed.

(** Follow a command that was prepared. *)
Ltac prepared HP :=
  uneff HP; found;
  repeat match type of HP with (match ?o with Some _ => _ | None => _ end) _ = _ =>
    destruct o; [|done]; uneff HP; found end;
  unbind HP; found;
  try (apply Ok_inj in HP; subst).

(** Prepare, read back what was found, and compare with the SDK's builder. *)
Tactic Notation "same_call" reference(command) reference(builder) :=
  let HP := fresh "HP" in
  intros env w w' p HP; cbn [prepare] in HP; unfold command in HP; prepared HP;
  unfold sends_write; cbn [sdkWrite]; given_results; cbn [instructionsOf]; unfold builder;
  given_results; try done.

Tactic Notation "same_record" reference(command) reference(builder) :=
  let HP := fresh "HP" in let HT := fresh "HT" in let HN := fresh "HN" in
  intros env w w' p HP; cbn [prepare] in HP; unfold command, recordWrite, hostingInstruction in HP; prepared HP;
  match goal with H : nftTokenAccountIfTokenized _ _ _ = _ |- _ =>
    eapply target_found in H as (? & HT & HN); [|eassumption] end;
  unfold sends_write; cbn [sdkWrite]; given_results; cbn [instructionsOf]; unfold builder;
  given_results; try done.

(** The record of a name whose parts are at hand. *)
Ltac given_record :=
  match goal with
  | H : nameParts ?n None = Ok (?l, ?t, ?h), H' : findNameRecordPda {| nameHash := ?h |} None = Ok _ |- _ =>
      rewrite (nameParts_nameRecordOf _ _ _ _ _ _ H H')
  end.

Lemma present_Some o s : present o = Some s -> o = Some s.
Proof. by destruct o as [[|u t]|]. Qed.

Lemma transfer_faithful name a : faithful (Command.Transfer name a).
Proof. same_call transfer buildTransferInstructions. Qed.
Lemma setController_faithful name k : faithful (Command.SetController name k).
Proof. same_call setController buildSetControllerInstructions. Qed.
Lemma lock_faithful name b : faithful (Command.Lock name b).
Proof. same_call lock buildLockTransferInstructions. Qed.
Lemma setReverse_faithful name : faithful (Command.SetReverse name).
Proof. same_call setReverse buildSetReverseInstructions. Qed.
Lemma burn_faithful name : faithful (Command.Burn name).
Proof. same_call burn buildBurnNameInstructions. Qed.
Lemma recordSet_faithful name k v : faithful (Command.RecordSet name k v).
Proof. same_record recordSet buildUpdateRecordInstructions. Qed.
Lemma recordDelete_faithful name k : faithful (Command.RecordDelete name k).
Proof. same_record recordDelete buildUpdateRecordInstructions. Qed.
Lemma setHosting_faithful name cid : faithful (Command.SetHosting name cid).
Proof. same_record setHosting buildSetHostingInstructions. Qed.
Lemma setResolver_faithful name r : faithful (Command.SetResolver name r).
Proof. same_record setResolver buildSetResolverInstructions. Qed.
Lemma redeem_faithful name : faithful (Command.Redeem name).
Proof.
  intros env w w' p HP. cbn [prepare] in HP. unfold redeem in HP. uneff HP. found.
  destruct (present _) as [mint|] eqn:HM; [|done]. prepared HP.
  unfold sends_write. cbn [sdkWrite]. unfold mintOf. given_results.
  apply present_Some in HM as ->. given_results. cbn [instructionsOf].
  unfold buildRedeemInstructions. by given_results.
Qed.
Lemma tokenize_faithful name : faithful (Command.Tokenize name).
Proof.
  same_call tokenize buildTokenizeInstructions.
  by given_record; given_results.
Qed.
Lemma subdomainCreate_faithful par l o : faithful (Command.SubdomainCreate par l o).
Proof. same_call subdomainCreate buildWrapSubdomainInstructions. Qed.
Lemma subdomainRevoke_faithful par l : faithful (Command.SubdomainRevoke par l).
Proof. same_call subdomainRevoke buildRevokeSubdomainInstructions. Qed.
Lemma listName_faithful name price days : faithful (Command.List name price days).
Proof. same_call listName buildListInstructions. Qed.
Lemma unlist_faithful name : faithful (Command.Unlist name).
Proof. same_call unlist buildCancelListingInstructions. Qed.
Lemma buy_faithful name : faithful (Command.Buy name).
Proof. same_call buy buildBuyInstructions. Qed.
Lemma offerCommand_faithful name price days : faithful (Command.Offer name price days).
Proof. same_call offerCommand buildMakeOfferInstructions. Qed.
Lemma acceptOffer_faithful name b : faithful (Command.AcceptOffer name b).
Proof. same_call acceptOffer buildAcceptOfferInstructions. Qed.
Lemma cancelOffer_faithful name b : faithful (Command.CancelOffer name b).
Proof. same_call cancelOffer buildCancelOfferInstructions. Qed.
Lemma auctionStart_faithful name r i d : faithful (Command.AuctionStart name r i d).
Proof. same_call auctionStart buildStartAuctionInstructions. Qed.
Lemma bid_faithful name a : faithful (Command.Bid name a).
Proof.
  same_call bid buildBidInstructions.
  match goal with
  | H : if_address ?o _ = Ok ?x |- context [if_address ?o ?g] =>
      change (if_address o g = Ok x) in H
  end. by given_results.
Qed.
Lemma auctionSettle_faithful name : faithful (Command.AuctionSettle name).
Proof. same_call auctionSettle buildSettleAuctionInstructions. Qed.
Lemma auctionCancel_faithful name : faithful (Command.AuctionCancel name).
Proof. same_call auctionCancel buildCancelAuctionInstructions. Qed.
Lemma stake_faithful a : faithful (Command.Stake a).
Proof. same_call stake buildStakeInstructions. Qed.
Lemma unstake_faithful a : faithful (Command.Unstake a).
Proof. same_call unstake buildUnstakeInstructions. Qed.
Lemma stakeClaim_faithful : faithful (Command.StakeClaim).
Proof. same_call stakeClaim buildClaimRewardsInstructions. Qed.
Lemma renew_faithful name o : faithful (Command.Renew name o).
Proof.
  destruct (n_paySolans o) eqn:HO.
  - intros env w w' p _. unfold sends_write. cbn [sdkWrite]. by rewrite HO.
  - intros env w w' p HP. cbn [prepare] in HP. unfold renew in HP. rewrite HO in HP. prepared HP.
    unfold sends_write. cbn [sdkWrite]. rewrite HO. given_results. cbn [instructionsOf].
    unfold buildRenewInstructions. by given_results.
Qed.
Lemma register_faithful name o : faithful (Command.Register name o).
Proof.
  destruct (r_paySolans o) eqn:HO.
  { intros env w w' p _. unfold sends_write. cbn [sdkWrite]. by rewrite HO. }
  intros env w w' p HP. cbn [prepare] in HP. unfold register, registerInstruction in HP.
  rewrite HO in HP. uneff HP. found. unbind HP. found. unbind Hx2. found.
  unfold sends_write. cbn [sdkWrite]. rewrite HO. given_results. cbn [instructionsOf].
  unfold buildRegisterInstructions. given_results.
  destruct (r_nft o && bool_decide (x0 = signerAddress (signer ctx))).
  - unbind HP. found. apply Ok_inj in HP as <-. by given_results.
  - by apply Ok_inj in HP as <-.
Qed.

(** A command without a call. *)
Ltac easy_none := intros ? ? ? ? _; exact I.

Lemma sends_write_faithful c : faithful c.
Proof.
  destruct c; [ easy_none | easy_none | easy_none | apply register_faithful |
    apply renew_faithful | easy_none | easy_none | easy_none | easy_none |
    apply recordSet_faithful | apply recordDelete_faithful | apply setController_faithful |
    apply setResolver_faithful | apply setHosting_faithful | easy_none |
    apply transfer_faithful | apply lock_faithful | apply setReverse_faithful |
    apply burn_faithful | apply tokenize_faithful | apply redeem_faithful |
    apply subdomainCreate_faithful | apply subdomainRevoke_faithful | apply listName_faithful |
    apply unlist_faithful | easy_none | apply buy_faithful | apply offerCommand_faithful |
    apply acceptOffer_faithful | apply cancelOffer_faithful | apply auctionStart_faithful |
    apply bid_faithful | apply auctionSettle_faithful | apply auctionCancel_faithful |
    easy_none | apply stake_faithful | apply unstake_faithful | apply stakeClaim_faithful |
    easy_none | easy_none | easy_none ].
Qed.

(** C22: While the chain's reads stay the same, every command of the CLI that has a
    counterpart in the SDK sends exactly the instructions the SDK's builder makes for the
    arguments, the options and the accounts read; no such command prepares anything when the
    SDK's arguments cannot be formed. *)
Theorem commands_send_sdk_instructions c env w w' p :
  prepare env ctx c w = (w', Ok p) ->
  match sdkWrite fetch ctx c with
  | Ok (Some write) => instructionsOf write = Ok (toSend p)
  | Ok None => True
  | Err _ => False
  end.
Proof. exact (sends_write_faithful c env w w' p). Qed.
End Stable.

(** ** Sending *)

(** The same host with another way to send. *)
Definition with_send (send' : @SignedTransaction W HH -> Eff W unit) : Host W := {|
  Blockhash := @Blockhash W HH; SignedTransaction := @SignedTransaction W HH;
  chain := chain; getLatestBlockhash := getLatestBlockhash;
  signTransactionMessageWithSigners := signTransactionMessageWithSigners;
  simulateTransaction := simulateTransaction; sendAndConfirm := send';
  getSignatureFromTransaction := getSignatureFromTransaction;
  console_log := console_log; console_error := console_error
|}.

Lemma eff_bind_ext {A B} (m : Eff W A) (f g : A -> Eff W B) w :
  (forall w1 a, m w = (w1, Ok a) -> f a w1 = g a w1) -> (m ≫= f) w = (m ≫= g) w.
Proof. intros HE. rewrite !eff_bind_run. destruct (m w) as [w1 [a|e]]; [by apply HE|done]. Qed.

Lemma sendInstructions_unsent send' ctx ixs w :
  simulate (opts ctx) = true
  \/ (forall tx w w' s, simulateTransaction tx w = (w', Ok s) -> simulationErr s <> None) ->
  sendInstructions (Hst := with_send send') ctx ixs w = sendInstructions ctx ixs w.
Proof.
  intros HS. apply eff_bind_ext. intros w1 bh _. apply eff_bind_ext. intros w2 tx _.
  apply eff_bind_ext. intros w3 s Hs. destruct (simulationErr s) as [e|] eqn:HE; [done|].
  destruct HS as [->|HS]; [done|]. by apply HS in Hs.
Qed.

(** C38: With --simulate, or when every simulation reports an error, running any command of
    the CLI does the same whatever sending a transaction would do: nothing is sent. *)
Theorem nothing_sent_unsimulated send' env o c w :
  simulate o = true
  \/ (forall tx w w' s, simulateTransaction tx w = (w', Ok s) -> simulationErr s <> None) ->
  runCommand (Hst := with_send send') env o c w = runCommand env o c w.
Proof.
  intros HS. apply eff_bind_ext. intros w1 ctx HC.
  assert (Ho : opts ctx = o) by (unfold makeContext in HC; uneff HC; by injection HC as _ <-).
  transitivity ((p ← prepare env ctx c;
    sig ← sendInstructions (Hst := with_send send') ctx (toSend p);
    reportSig env ctx sig ≫= fun _ => lines ← lift (afterwards p); console_lines lines) w1).
  { by destruct c. }
  apply eff_bind_ext. intros w2 p _. rewrite !eff_bind_run, sendInstructions_unsent by by rewrite Ho.
  done.
Qed.

(** What [host-upload] sends is the hosting reference of the content it pinned: the file
    named, uploaded with the JWT of the environment; without one nothing is read or sent. *)
Theorem host_upload_sets_what_it_pinned env ctx name file w w' p :
  hostUpload env ctx name file w = (w', Ok p) ->
  exists jwt w1 w2 content res cid record nft ix,
    PINATA_JWT env = Some jwt /\ readFile file w = (w1, Ok content)
    /\ pinFetch (pinRequest jwt content (Some (basename file))) w1 = (w2, Ok res)
    /\ IpfsHash res = Ok (Some cid) /\ cid <> [] /\ nameRecordPda name = Ok record
    /\ hostingInstruction ctx record nft (Some (js "ipfs://" ++ cid)) = Ok ix /\ toSend p = [ix].
Proof.
  unfold hostUpload. destruct (PINATA_JWT env) as [[|u jwt]|]; cbn [present]; [done| |done].
  intros HB. uneff HB. apply pinned_file in Hx as (wr & content & res & HR & HF & _ & HH' & Hne).
  apply lift_inv in HB as [-> HB]. unbind HB. apply Ok_inj in HB as <-.
  by eexists (u :: jwt), wr, _, content, res, _, _, _, _.
Qed.
End Laws.

(** ** Amounts *)

Section Amounts.
Context `{NC : NumberCodec} `{NS : !NumberCodecSpec NC}.

Lemma digits_no_dot d : forallb is_digit d = true -> ~ In 46 d.
Proof. rewrite forallb_forall. intros H HI. by apply H in HI. Qed.

Lemma digits_zeros n : digits_value (replicate n 48) = 0.
Proof. induction n as [|n IH]; [done|]. exact IH. Qed.

(** The first nine digits of a fraction padded with zeros: its billionths. *)
Lemma fraction_billionths f : forallb is_digit f = true ->
  digits_value (slice_to 9 (f ++ js "000000000"))
  = digits_value f * LAMPORTS_PER_SOL / 10 ^ Z.of_nat (length f).
Proof.
  intros Hf. unfold slice_to, LAMPORTS_PER_SOL. change (Z.to_nat 9) with 9%nat.
  change (js "000000000") with (replicate 9 48).
  destruct (Nat.le_gt_cases (length f) 9) as [Hl|Hl].
  - rewrite take_app_ge, take_replicate, Nat.min_l by lia.
    rewrite digits_value_app, digits_zeros, length_replicate.
    change 1000000000 with (10 ^ 9).
    replace (10 ^ 9) with (10 ^ Z.of_nat (9 - length f) * 10 ^ Z.of_nat (length f))
      by (rewrite <- Z.pow_add_r by lia; f_equal; lia).
    rewrite Z.mul_assoc, Z.div_mul by (apply Z.pow_nonzero; lia). lia.
  - rewrite take_app_le by lia. rewrite <- (take_drop 9 f) at 2.
    rewrite digits_value_app, length_drop.
    assert (Hd : forallb is_digit (drop 9 f) = true)
      by (rewrite <- (take_drop 9 f), forallb_app in Hf; by bool_prop).
    pose proof (digits_value_bound _ Hd) as HB. rewrite length_drop in HB.
    replace (Z.of_nat (length f)) with (Z.of_nat (length f - 9) + 9) by lia.
    rewrite Z.pow_add_r by lia. change (10 ^ 9) with 1000000000.
    rewrite Z.div_mul_cancel_r by (try apply Z.pow_nonzero; lia).
    rewrite Z.div_add_l by (apply Z.pow_nonzero; lia). rewrite Z.div_small by done. lia.
Qed.

Lemma solToLamports_parts s w f wn : trim s = s -> ~ In 46 w -> ~ In 46 f ->
  s = w ++ 46 :: f -> BigInt (default (js "0") (present (Some w))) = Ok wn -> forallb is_digit f = true ->
  solToLamports s
  = Ok (wn * LAMPORTS_PER_SOL + digits_value f * LAMPORTS_PER_SOL / 10 ^ Z.of_nat (length f)).
Proof.
  intros Ht Hw Hf -> HW Hd. unfold solToLamports. rewrite Ht, split_app, split_absent by done.
  cbn [lookup list_lookup default from_option id]. rewrite HW. cbn [mbind result_bind].
  rewrite BigInt_digits.
  - cbn [mbind result_bind]. by rewrite fraction_billionths.
  - unfold slice_to. intros E. apply (f_equal length) in E. rewrite length_take, length_app in E.
    cbn in E. lia.
  - unfold slice_to.
    assert (HA : forallb is_digit (f ++ js "000000000") = true) by (by rewrite forallb_app, Hd).
    rewrite <- (take_drop (Z.to_nat 9) (f ++ _)), forallb_app in HA. by bool_prop.
Qed.

(** C37: Amounts in decimal are encoded as written: SOL with any fraction is the lamports
    rounded down, whole days are seconds, and numbers below 2^53 are themselves; a negative
    SOL amount adds its fraction instead of subtracting it, so -0.5 is read as +0.5. *)
Theorem amounts_read_as_written :
  (forall w f, forallb is_digit w = true -> forallb is_digit f = true ->
     solToLamports (w ++ js "." ++ f)
     = Ok (digits_value w * LAMPORTS_PER_SOL
           + digits_value f * LAMPORTS_PER_SOL / 10 ^ Z.of_nat (length f)))
  /\ (forall w f, forallb is_digit w = true -> w <> [] -> forallb is_digit f = true ->
     solToLamports (js "-" ++ w ++ js "." ++ f)
     = Ok (- (digits_value w * LAMPORTS_PER_SOL)
           + digits_value f * LAMPORTS_PER_SOL / 10 ^ Z.of_nat (length f)))
  /\ (forall n, 0 <= n -> n * 86400 < 2 ^ 53 -> daysToSeconds (toString n) = Ok (n * 86400))
  /\ forall n, 0 <= n < 2 ^ 53 -> numberArg (toString n) = n.
Proof.
  split_and!.
  - intros w f Hw Hf. eapply solToLamports_parts; try done; [|by apply digits_no_dot..| ].
    + apply trim_id. apply Forall_app. split; [by apply digits_not_white|].
      constructor; [done|by apply digits_not_white].
    + destruct w as [|u w]; [done|]. by apply BigInt_digits.
  - intros w f Hw H0 Hf. rewrite <- Z.mul_opp_l.
    apply (solToLamports_parts (js "-" ++ w ++ js "." ++ f) (45 :: w) f); try done.
    + apply trim_id. constructor; [done|]. apply Forall_app. split; [by apply digits_not_white|].
      constructor; [done|by apply digits_not_white].
    + cbn. intros [E|E]; [done|]. by apply digits_no_dot in Hw.
    + by apply digits_no_dot.
    + by apply BigInt_minus.
  - intros n Hn Hb. unfold daysToSeconds. rewrite Number_toString by done.
    rewrite !number_of_Z_small by lia.
    destruct (Z.eq_dec n 0) as [->|]; [by vm_compute|].
    rewrite number_mul_small by lia. rewrite Math_round_small by lia.
    unfold BigInt_of_number. by rewrite toInteger_small by lia.
  - intros n Hn. unfold numberArg. rewrite Number_toString, number_of_Z_small by lia.
    apply codec_integer. apply toInteger_small. lia.
Qed.

End Amounts.

(** ** Concrete commands *)

#[export] Instance SmallNumberCodec : NumberCodec := {
  codecNumber := fun x => default 0 (toInteger x)
}.
#[export] Instance SmallNumberCodec_spec : NumberCodecSpec SmallNumberCodec.
Proof. intros x z Hz. cbn. by rewrite Hz. Qed.

Section Sample.
#[local] Existing Instance SmallUnicode.

(** The world is the list of lines printed and transactions sent. *)
#[local] Instance SampleHost : Host (list jsstring) := {
  Blockhash := unit; SignedTransaction := TransactionMessage unit;
  chain := mret sample_fetch; getLatestBlockhash := mret tt;
  signTransactionMessageWithSigners := fun m => mret m;
  simulateTransaction := fun _ => mret (MkSimulation None [] (Some 1400) None);
  sendAndConfirm := fun _ w => (w ++ [js "(sent)"], Ok tt);
  getSignatureFromTransaction := fun _ => js "5ig";
  console_log := fun l w => (w ++ [l], Ok tt);
  console_error := fun l w => (w ++ [l], Ok tt);
}.
#[local] Instance SampleCliHost : CliHost (list jsstring) := {
  readSigner := fun _ => mret (MkSigner (small_addr 1));
  cli_pin := {| pinFetch := fun _ => mret (MkPinResponse true 200 (Ok []) (Ok (Some (js "bafy"))));
                readFile := fun _ => mret [] |};
}.
#[local] Instance SampleCliKit : CliKit := {
  toAddress := fun s => if isAddress s then Ok s else Err (MkError (js "not an address"));
  getApproveInstruction := fun _ _ _ _ => Err (MkError []);
  getRevokeInstruction := fun _ _ => Err (MkError []);
  textDecode := fun bs => bs;
}.

Definition sample_ctx (o : GlobalOpts) : Ctx :=
  MkCtx (MkUrls (js "http://127.0.0.1:8899") (js "ws://127.0.0.1:8900")) (MkSigner (small_addr 1)) o.
Definition sample_opts (sim : bool) : GlobalOpts :=
  MkGlobalOpts (Some (js "localnet")) None None None sim false.
Definition sample_env : CliEnvironment :=
  MkCliEnvironment None None None None None (js "/home/alex").

Definition sample_command : Command.t :=
  Command.Register (js "Alex.SOL") (MkRegisterOptions None (js "2") None false true).
Definition sample_prepared : list jsstring * result JsError Prepared :=
  prepare sample_env (sample_ctx (sample_opts false)) sample_command [].
Definition prepared_of (r : list jsstring * result JsError Prepared) : Prepared :=
  match snd r with Ok p => p | Err _ => MkPrepared [] (Ok []) end.
Definition sample_to_send : Prepared := prepared_of sample_prepared.

Lemma sample_prepares :
  prepare sample_env (sample_ctx (sample_opts false)) sample_command [] = ([], Ok sample_to_send).
Proof. vm_compute. reflexivity. Qed.

Lemma sample_sdk_write : match sdkWrite sample_fetch (sample_ctx (sample_opts false)) sample_command with
  | Ok (Some (Write.Register a)) => register_years a = Some 2
  | _ => False
  end.
Proof. vm_compute. reflexivity. Qed.

Lemma sample_chain (w w' : list jsstring) f : chain w = (w', Ok f) -> f = sample_fetch.
Proof. by intros [= _ <-]. Qed.

Lemma commands_send_sdk_instructions_witness :
  exists write,
    sdkWrite sample_fetch (sample_ctx (sample_opts false)) sample_command = Ok (Some write)
    /\ instructionsOf write = Ok (toSend sample_to_send).
Proof.
  pose proof (commands_send_sdk_instructions sample_fetch sample_chain
    (sample_ctx (sample_opts false)) sample_command sample_env [] [] sample_to_send sample_prepares) as HS.
  pose proof sample_sdk_write as HW.
  destruct (sdkWrite sample_fetch (sample_ctx (sample_opts false)) sample_command) as [[write|]|e];
    [|destruct HW|destruct HW].
  exists write. split; [reflexivity|exact HS].
Defined.

Definition sample_run (sim : bool) : list jsstring * result JsError unit :=
  runCommand sample_env (sample_opts sim) (Command.Transfer (js "alex.sol") (small_addr 2)) [].

Lemma sample_sends : (sample_run false).1
  = [js "  simulated OK (1400 CU)"; js "(sent)"; [10003] ++ js " 5ig"].
Proof. vm_compute. reflexivity. Qed.

Lemma sample_simulates : (sample_run true).1
  = [js "  simulated OK (1400 CU)"; js "  --simulate set: not sending."].
Proof. vm_compute. reflexivity. Qed.

Lemma nothing_sent_unsimulated_witness :
  (runCommand (Hst := with_send (fun _ w => (w ++ [js "(sent elsewhere)"], Ok tt)))
    sample_env (sample_opts true) (Command.Transfer (js "alex.sol") (small_addr 2)) []).1
  = [js "  simulated OK (1400 CU)"; js "  --simulate set: not sending."].
Proof.
  pose proof (nothing_sent_unsimulated (fun _ w => (w ++ [js "(sent elsewhere)"], Ok tt))
    sample_env (sample_opts true) (Command.Transfer (js "alex.sol") (small_addr 2)) []) as HN.
  specialize (HN (or_introl eq_refl)). apply (f_equal fst) in HN.
  exact (eq_trans HN sample_simulates).
Defined.

Lemma amounts_read_as_written_witness :
  solToLamports (js "1.5") = Ok 1500000000 /\ solToLamports (js "-0.5") = Ok 500000000
  /\ daysToSeconds (js "30") = Ok 2592000 /\ numberArg (js "10") = 10.
Proof.
  pose proof (amounts_read_as_written (NC := SmallNumberCodec)) as (HP & HM & HD & HN).
  split_and!.
  - exact (HP (js "1") (js "5") eq_refl eq_refl).
  - refine (HM (js "0") (js "5") eq_refl _ eq_refl). discriminate.
  - exact (HD 30 ltac:(lia) ltac:(lia)).
  - exact (HN 10 ltac:(lia)).
Defined.
End Sample.
