(* ===== verification/Runtime.v ===== *)
(** * The Solana runtime, as the program uses it

    The program (programs/solans/src) runs on a runtime that is not in the
    repository: the System, SPL Token, Associated Token and Metaplex programs it
    invokes, the lamports of accounts, and the derivation of program addresses.
    [Runtime] and [Addresses] are their interfaces; [RuntimeSpec] and
    [AddressesSpec] the documented behaviour theorems rely on.  [ChainError] is
    what an instruction fails with. *)
From stdpp Require Import gmap.
From S2P Require Import Prelude JsString Errors OnChain.

(** ** Errors of an instruction *)

(** Anchor's own errors, raised by the constraints of an account struct. *)
Inductive AnchorError : Type :=
| AccountNotInitialized
| AccountDiscriminatorMismatch
| AccountNotSystemOwned
| InvalidProgramId
| AccountNotAssociatedTokenAccount
| ConstraintSeeds
| ConstraintTokenMint
| ConstraintTokenOwner
| ConstraintTokenTokenProgram
| ConstraintMintTokenProgram.

Inductive ChainError : Type :=
| Custom (e : SolansError)
| Anchor (e : AnchorError)
| InvokedProgramFailed.

#[export] Instance AnchorError_eq_dec : EqDecision AnchorError.
Proof. solve_decision. Defined.
#[export] Instance ChainError_eq_dec : EqDecision ChainError.
Proof. solve_decision. Defined.

Abbreviation Chain := (result ChainError).

(** The [?] of a handler on a [Result] of the crate. *)
Definition custom {A} (r : Result A) : Chain A :=
  match r with Ok a => Ok a | Err e => Err (Custom e) end.

(** [require!(cond, err)], and a constraint Anchor checks. *)
Definition ensure (cond : bool) (e : SolansError) : Chain unit := custom (require cond e).
Definition anchor (cond : bool) (e : AnchorError) : Chain unit :=
  if cond then Ok tt else Err (Anchor e).

(** ** Program addresses *)

(** [declare_id!] of lib.rs. *)
Definition ID : Pubkey :=
  [144; 71; 195; 9; 81; 110; 10; 12; 194; 49; 245; 155; 10; 122; 31; 169; 12; 11; 126; 201;
   81; 21; 6; 89; 151; 161; 84; 204; 200; 130; 220; 54].

Class Addresses := {
  find_program_address : list bytes -> Pubkey -> Pubkey * Z;
  create_program_address : list bytes -> Pubkey -> option Pubkey;
  get_associated_token_address : Pubkey -> Pubkey -> Pubkey -> Pubkey;
}.

(** The address found is the one its bump creates. *)
Class AddressesSpec (A : Addresses) : Prop := {
  find_creates : forall seeds program a bump,
    find_program_address seeds program = (a, bump) ->
    create_program_address (seeds ++ [[bump]]) program = Some a;
}.

(** ** The ledger *)

Record TokenAccount := MkTokenAccount {
  ta_mint : Pubkey; ta_owner : Pubkey; ta_amount : Z; ta_program : Pubkey;
  ta_delegate : option Pubkey
}.

Definition with_amount (t : TokenAccount) (z : Z) : TokenAccount :=
  MkTokenAccount (ta_mint t) (ta_owner t) z (ta_program t) (ta_delegate t).

Record Mint := MkMint { decimals : Z; mint_program : Pubkey }.

(** The invocations (CPIs) the program makes.  [CreateAccount] is what Anchor's
    [init] does, [CreateAssociated] and [CreateMint] its [init] of token accounts
    and mints. *)
Inductive Invocation : Type :=
| Transfer (from to : Pubkey) (amount : Z)
| CreateAccount (payer address : Pubkey) (space : Z)
| TransferChecked (program from mint to authority : Pubkey) (amount decimals : Z)
| Burn (program mint from authority : Pubkey) (amount : Z)
| CloseAccount (program account destination authority : Pubkey)
| CreateAssociated (payer authority mint program address : Pubkey)
| CreateMint (payer address : Pubkey) (decimals : Z) (authority freeze_authority : Pubkey)
| MintTo (program mint to authority : Pubkey) (amount : Z)
| CreateMetadata (program metadata mint mint_authority payer update_authority : Pubkey)
    (name symbol uri : list Z) (seller_fee_basis_points : Z) (is_mutable : bool)
| CreateMasterEdition (program edition mint update_authority mint_authority payer metadata : Pubkey)
    (max_supply : option Z)
| BurnNft (program metadata owner mint token edition : Pubkey).

Class Runtime := {
  Ledger : Type;
  lamports : Ledger -> Pubkey -> Z;
  set_lamports : Ledger -> Pubkey -> Z -> Ledger;
  system_owned : Ledger -> Pubkey -> bool;
  token_account : Ledger -> Pubkey -> option TokenAccount;
  mint_account : Ledger -> Pubkey -> option Mint;
  (** [invoke l signer i]: the ledger after [i], signed by the transaction's signers and by
      the program address [signer]; [None] when the invoked program fails. *)
  invoke : Ledger -> option Pubkey -> Invocation -> option Ledger;
  TOKEN_PROGRAM_ID : Pubkey;
  TOKEN_2022_PROGRAM_ID : Pubkey;
  METADATA_PROGRAM_ID : Pubkey;
}.

(** The accounts whose lamports an invocation may lower. *)
Definition pays (i : Invocation) : list Pubkey :=
  match i with
  | Transfer from _ _ => [from]
  | CreateAccount payer _ _ | CreateAssociated payer _ _ _ _ | CreateMint payer _ _ _ _ => [payer]
  | CloseAccount _ account _ _ => [account]
  | CreateMetadata _ _ _ _ payer _ _ _ _ _ _ | CreateMasterEdition _ _ _ _ _ payer _ _ => [payer]
  | BurnNft _ metadata _ _ token edition => [metadata; token; edition]
  | TransferChecked _ _ _ _ _ _ _ | Burn _ _ _ _ _ | MintTo _ _ _ _ _ => []
  end.

(** Lamports: never negative; a write is read back; an invocation takes them from its
    payers only; a transfer moves exactly its amount, and never more than there is; a new
    account is rent-exempt. *)
Class RuntimeSpec (R : Runtime) : Prop := {
  lamports_nonneg : forall l a, 0 <= lamports l a;
  lamports_set : forall l a z b, 0 <= z ->
    lamports (set_lamports l a z) b = if decide (a = b) then z else lamports l b;
  lamports_created : forall l s payer a space l',
    invoke l s (CreateAccount payer a space) = Some l' -> 0 < lamports l' a;
  invoke_frame : forall l s i l' a, invoke l s i = Some l' -> a ∉ pays i ->
    lamports l a <= lamports l' a;
  transfer_moves : forall l s from to amount l', 0 <= amount ->
    invoke l s (Transfer from to amount) = Some l' -> from <> to ->
    amount <= lamports l from
    /\ lamports l' from = lamports l from - amount
    /\ lamports l' to = lamports l to + amount;
  system_owned_set : forall l a z b, system_owned (set_lamports l a z) b = system_owned l b;
}.

(** ** Tokens

    The classic token program: its accounts have no extensions, so only the owner, or a
    delegate it approved, takes tokens out or closes one.  (Token-2022 mints may name a
    permanent delegate or charge fees, and promise less.)  [TokenAccount] has no
    [close_authority] and no [is_native]: the accounts described are those without either.
    The program opens its vaults with neither, unless a registry charges in wrapped SOL,
    whose accounts follow their lamports and close whatever they hold. *)
Section Tokens.
Context `{Runtime}.

Definition plain (t : TokenAccount) : Prop :=
  ta_program t = TOKEN_PROGRAM_ID /\ ta_delegate t = None.

(** The token accounts an invocation may debit or close, and on whose authority. *)
Definition spends (i : Invocation) : list Pubkey :=
  match i with
  | TransferChecked _ from _ _ _ _ _ | Burn _ _ from _ _ => [from]
  | CloseAccount _ account _ _ => [account]
  | BurnNft _ _ _ _ token _ => [token]
  | _ => []
  end.
Definition authorities (i : Invocation) : list Pubkey :=
  match i with
  | TransferChecked _ _ _ _ authority _ _ | Burn _ _ _ authority _
  | CloseAccount _ _ _ authority => [authority]
  | BurnNft _ _ owner _ _ _ => [owner]
  | _ => []
  end.

(** [t'] is [t] with possibly more tokens. *)
Definition grown (t t' : TokenAccount) : Prop :=
  exists z, t' = with_amount t z /\ ta_amount t <= z.

Lemma grown_refl t : grown t t.
Proof. exists (ta_amount t). split; [by destruct t|lia]. Qed.

Lemma grown_trans t1 t2 t3 : grown t1 t2 -> grown t2 t3 -> grown t1 t3.
Proof. intros (y & -> & Hy) (z & -> & Hz). exists z. split; [done|]. cbn in Hz. lia. Qed.

Lemma grown_add t z : 0 <= z -> grown t (with_amount t (ta_amount t + z)).
Proof. intros Hz. exists (ta_amount t + z). split; [done|lia]. Qed.

Lemma grown_plain t t' : grown t t' -> plain t -> plain t'.
Proof. by intros (z & -> & _). Qed.

Lemma grown_owner t t' : grown t t' -> ta_owner t' = ta_owner t.
Proof. by intros (z & -> & _). Qed.

Lemma grown_amount t t' : grown t t' -> ta_amount t <= ta_amount t'.
Proof. by intros (z & -> & ?). Qed.

(** From [l] to [l'], plain accounts grow, but for those in [spent] that [auths] own. *)
Definition guarded (spent auths : list Pubkey) (l l' : Ledger) : Prop :=
  forall a t, token_account l a = Some t -> plain t -> a ∉ spent \/ ta_owner t ∉ auths ->
    exists t', token_account l' a = Some t' /\ grown t t'.
End Tokens.

Class TokenSpec (R : Runtime) : Prop := {
  token_guarded : forall l s i l', invoke l s i = Some l' ->
    guarded (spends i) (authorities i) l l';
  token_paid : forall l s p from m to z d l' t, 0 <= z ->
    invoke l s (TransferChecked p from m to (ta_owner t) z d) = Some l' ->
    token_account l from = Some t -> plain t -> from <> to ->
    z <= ta_amount t /\ token_account l' from = Some (with_amount t (ta_amount t - z));
  token_received : forall l s p from m to au z d l' t, 0 <= z ->
    invoke l s (TransferChecked p from m to au z d) = Some l' ->
    token_account l to = Some t -> plain t -> from <> to ->
    token_account l' to = Some (with_amount t (ta_amount t + z));
  token_burnt : forall l s p m from z l' t, 0 <= z ->
    invoke l s (Burn p m from (ta_owner t) z) = Some l' ->
    token_account l from = Some t -> plain t ->
    z <= ta_amount t /\ token_account l' from = Some (with_amount t (ta_amount t - z));
  token_closed : forall l s p a d au l' t,
    invoke l s (CloseAccount p a d au) = Some l' ->
    token_account l a = Some t -> plain t -> ta_amount t = 0;
  token_opened : forall l s payer au m p a l',
    invoke l s (CreateAssociated payer au m p a) = Some l' ->
    token_account l a = None /\ token_account l' a = Some (MkTokenAccount m au 0 p None);
  token_set_lamports : forall l a z b, token_account (set_lamports l a z) b = token_account l b;
}.
