(* ===== verification/ChainState.v ===== *)
(** * The program's accounts

    programs/solans/src/state: the account types, one Module each; the chain's state
    [World]; what Anchor does for an account struct ([load], [init], [close], address
    and token constraints); and the shared helpers of utils.rs.

    Anchor validates a struct in this order, which the handlers of the following
    files spell out: it loads the accounts in declaration order, creates those marked
    [init], checks the constraints, runs the handler, and writes back.  A failed
    instruction leaves the chain unchanged: handlers return the new [World] or an
    error. *)
From stdpp Require Import gmap.
From S2P Require Import Prelude JsString Errors OnChain Runtime.

(** ** Account types *)

Definition TLD_MAX_LEN : Z := 8.
Definition MAX_RECORDS : Z := 16.
Definition KEY_MAX_LEN : Z := 32.
Definition VALUE_MAX_LEN : Z := 200.
Definition HOSTING_MAX_LEN : Z := 80.
Definition MAX_FEE_BPS : Z := 1000.
Definition AUCTION_EXTENSION_SECONDS : Z := 300.
Definition MPL_NAME_MAX_LEN : Z := 32.

Definition CONFIG_SEED : bytes := js "config".
Definition NAME_SEED : bytes := js "name".
Definition REVERSE_SEED : bytes := js "reverse".
Definition LISTING_SEED : bytes := js "listing".
Definition OFFER_SEED : bytes := js "offer".
Definition STAKE_POOL_SEED : bytes := js "stake_pool".
Definition STAKE_SEED : bytes := js "stake".
Definition AUCTION_SEED : bytes := js "auction".

(** [s.len()] of a Rust string: its UTF-8 length. *)
Definition len (s : list Z) : Z := Z.of_nat (length (as_bytes s)).

(** A key -> value record of a name (the source's Record). *)
Record Entry := MkEntry { key : list Z; value : list Z }.

Module NameRecord.
Record t := mk {
  owner : Pubkey; controller : option Pubkey; name_hash : bytes; tld : list Z;
  registered_at : Z; expires_at : Z; records : list Entry; resolver : option Pubkey;
  hosting_ref : option (list Z); transfer_locked : bool; reverse_set : bool;
  nft_mint : option Pubkey; parent : option Pubkey; parent_registered_at : Z; depth : Z;
  listed : bool; bump : Z
}.

(** [#[derive(InitSpace)]]: the bytes of the largest value. *)
Definition INIT_SPACE : Z :=
  32 + (1 + 32) + 32 + (4 + TLD_MAX_LEN) + 8 + 8
  + (4 + MAX_RECORDS * ((4 + KEY_MAX_LEN) + (4 + VALUE_MAX_LEN)))
  + (1 + 32) + (1 + 4 + HOSTING_MAX_LEN) + 1 + 1 + (1 + 32) + (1 + 32) + 8 + 1 + 1 + 1.

(** Assignments to one field. *)
Definition set_expires_at (v : Z) (n : t) : t :=
  mk (owner n) (controller n) (name_hash n) (tld n) (registered_at n) v (records n) (resolver n)
     (hosting_ref n) (transfer_locked n) (reverse_set n) (nft_mint n) (parent n)
     (parent_registered_at n) (depth n) (listed n) (bump n).
Definition set_controller (v : option Pubkey) (n : t) : t :=
  mk (owner n) v (name_hash n) (tld n) (registered_at n) (expires_at n) (records n) (resolver n)
     (hosting_ref n) (transfer_locked n) (reverse_set n) (nft_mint n) (parent n)
     (parent_registered_at n) (depth n) (listed n) (bump n).
Definition set_records (v : list Entry) (n : t) : t :=
  mk (owner n) (controller n) (name_hash n) (tld n) (registered_at n) (expires_at n) v (resolver n)
     (hosting_ref n) (transfer_locked n) (reverse_set n) (nft_mint n) (parent n)
     (parent_registered_at n) (depth n) (listed n) (bump n).
Definition set_resolver (v : option Pubkey) (n : t) : t :=
  mk (owner n) (controller n) (name_hash n) (tld n) (registered_at n) (expires_at n) (records n) v
     (hosting_ref n) (transfer_locked n) (reverse_set n) (nft_mint n) (parent n)
     (parent_registered_at n) (depth n) (listed n) (bump n).
Definition set_hosting_ref (v : option (list Z)) (n : t) : t :=
  mk (owner n) (controller n) (name_hash n) (tld n) (registered_at n) (expires_at n) (records n)
     (resolver n) v (transfer_locked n) (reverse_set n) (nft_mint n) (parent n)
     (parent_registered_at n) (depth n) (listed n) (bump n).
Definition set_transfer_locked (v : bool) (n : t) : t :=
  mk (owner n) (controller n) (name_hash n) (tld n) (registered_at n) (expires_at n) (records n)
     (resolver n) (hosting_ref n) v (reverse_set n) (nft_mint n) (parent n)
     (parent_registered_at n) (depth n) (listed n) (bump n).
Definition set_reverse_set (v : bool) (n : t) : t :=
  mk (owner n) (controller n) (name_hash n) (tld n) (registered_at n) (expires_at n) (records n)
     (resolver n) (hosting_ref n) (transfer_locked n) v (nft_mint n) (parent n)
     (parent_registered_at n) (depth n) (listed n) (bump n).
Definition set_nft_mint (v : option Pubkey) (n : t) : t :=
  mk (owner n) (controller n) (name_hash n) (tld n) (registered_at n) (expires_at n) (records n)
     (resolver n) (hosting_ref n) (transfer_locked n) (reverse_set n) v (parent n)
     (parent_registered_at n) (depth n) (listed n) (bump n).
Definition set_listed (v : bool) (n : t) : t :=
  mk (owner n) (controller n) (name_hash n) (tld n) (registered_at n) (expires_at n) (records n)
     (resolver n) (hosting_ref n) (transfer_locked n) (reverse_set n) (nft_mint n) (parent n)
     (parent_registered_at n) (depth n) v (bump n).

(** [owner = v; controller = None; reverse_set = false], as every change of owner does. *)
Definition set_owner (v : Pubkey) (n : t) : t :=
  mk v None (name_hash n) (tld n) (registered_at n) (expires_at n) (records n) (resolver n)
     (hosting_ref n) (transfer_locked n) false (nft_mint n) (parent n)
     (parent_registered_at n) (depth n) (listed n) (bump n).

(** [upsert_record]: overwrites the first record of the key in place, or appends. *)
Fixpoint overwrite (k v : list Z) (rs : list Entry) : option (list Entry) :=
  match rs with
  | [] => None
  | r :: rs' => if bool_decide (key r = k) then Some (MkEntry (key r) v :: rs')
                else cons r <$> overwrite k v rs'
  end.

Definition upsert_record (k v : list Z) (n : t) : Result t :=
  match overwrite k v (records n) with
  | Some rs => Ok (set_records rs n)
  | None =>
      _ ← require (Z.of_nat (length (records n)) <? MAX_RECORDS) TooManyRecords;
      Ok (set_records (records n ++ [MkEntry k v]) n)
  end.

Definition delete_record (k : list Z) (n : t) : Result t :=
  let rs := List.filter (fun r => negb (bool_decide (key r = k))) (records n) in
  _ ← require (negb (length rs =? length (records n))%nat) RecordNotFound;
  Ok (set_records rs n).
End NameRecord.

Module ReverseRecord.
Record t := mk { owner : Pubkey; name_hash : bytes; name : list Z; tld : list Z; bump : Z }.
Definition INIT_SPACE : Z := 32 + 32 + (4 + NAME_MAX_LEN) + (4 + TLD_MAX_LEN) + 1.
End ReverseRecord.

Module Listing.
Record t := mk { seller : Pubkey; name_hash : bytes; price : Z; expires_at : Z; bump : Z }.
Definition INIT_SPACE : Z := 32 + 32 + 8 + 8 + 1.
End Listing.

Module Offer.
Record t := mk { buyer : Pubkey; name_hash : bytes; amount : Z; expires_at : Z; bump : Z }.
Definition INIT_SPACE : Z := 32 + 32 + 8 + 8 + 1.
End Offer.

Module Auction.
Record t := mk {
  seller : Pubkey; name_hash : bytes; bid_vault : Pubkey; highest_bidder : option Pubkey;
  highest_bid : Z; reserve_price : Z; min_increment : Z; end_time : Z; bump : Z
}.
Definition INIT_SPACE : Z := 32 + 32 + 32 + (1 + 32) + 8 + 8 + 8 + 8 + 1.
End Auction.

Module StakePool.
Record t := mk {
  solans_mint : Pubkey; stake_vault : Pubkey; reward_vault : Pubkey; total_staked : Z;
  acc_reward_per_share : Z; last_reward_balance : Z; bump : Z
}.
Definition INIT_SPACE : Z := 32 + 32 + 32 + 8 + 16 + 8 + 1.
End StakePool.

Module StakeAccount.
Record t := mk { owner : Pubkey; amount : Z; reward_debt : Z; bump : Z }.
Definition INIT_SPACE : Z := 32 + 8 + 16 + 1.
End StakeAccount.

Definition Config_INIT_SPACE : Z :=
  32 * 3 + 8 * 5 + 8 + 8 + 2 + 2 + 32 + 2 + 32 + 32 + 2 + 2 + 2 + 32 + 8 + 2 + 1.

(** ** The chain *)

Inductive Account : Type :=
| AConfig (c : Config)
| AName (n : NameRecord.t)
| AReverse (r : ReverseRecord.t)
| AListing (l : Listing.t)
| AOffer (o : Offer.t)
| AAuction (a : Auction.t)
| AStakePool (p : StakePool.t)
| AStake (s : StakeAccount.t).

(** events.rs, emitted for indexers. *)
Inductive Event : Type :=
| NameListed (name_hash : bytes) (seller : Pubkey) (price expires_at : Z)
| ListingCancelled (name_hash : bytes) (seller : Pubkey)
| NameSold (name_hash : bytes) (seller buyer : Pubkey) (price fee : Z)
| OfferMade (name_hash : bytes) (buyer : Pubkey) (amount expires_at : Z)
| OfferAccepted (name_hash : bytes) (seller buyer : Pubkey) (amount fee : Z)
| OfferCancelled (name_hash : bytes) (buyer : Pubkey)
| RegisteredWithSolans (name_hash : bytes) (payer : Pubkey) (solans_burned : Z)
| RenewedWithSolans (name_hash : bytes) (payer : Pubkey) (solans_burned : Z)
| BuybackBurn (keeper : Pubkey) (solans_burned usdc_reimbursed : Z)
| AuctionStarted (name_hash : bytes) (seller : Pubkey) (reserve_price end_time : Z)
| BidPlaced (name_hash : bytes) (bidder : Pubkey) (amount end_time : Z)
| AuctionSettled (name_hash : bytes) (seller : Pubkey) (winner : option Pubkey) (amount fee : Z)
| AuctionCancelled (name_hash : bytes) (seller : Pubkey)
| AdminTransferred (old_admin new_admin : Pubkey).

(** The accounts of the program by address, the ledger of everything else, the events
    emitted (latest last) and the clock's unix timestamp. *)
Record World `{Runtime} := MkWorld {
  accounts : gmap Pubkey Account;
  ledger : Ledger;
  events : list Event;
  now : Z;
}.

Section State.
Context `{Runtime, Addresses}.

Definition put (a : Pubkey) (x : Account) (w : World) : World :=
  MkWorld _ (<[a := x]> (accounts w)) (ledger w) (events w) (now w).
Definition remove (a : Pubkey) (w : World) : World :=
  MkWorld _ (delete a (accounts w)) (ledger w) (events w) (now w).
Definition with_ledger (l : Ledger) (w : World) : World :=
  MkWorld _ (accounts w) l (events w) (now w).
Definition emit (e : Event) (w : World) : World :=
  MkWorld _ (accounts w) (ledger w) (events w ++ [e]) (now w).

(** *** Loading accounts *)

(** [Account<'info, T>]: the account exists and holds a [T]. *)
Definition load {A} (pick : Account -> option A) (a : Pubkey) (w : World) : Chain A :=
  match accounts w !! a with
  | None => Err (Anchor AccountNotInitialized)
  | Some x => of_option (Anchor AccountDiscriminatorMismatch) (pick x)
  end.

Definition pick_config (x : Account) := match x with AConfig c => Some c | _ => None end.
Definition pick_name (x : Account) := match x with AName n => Some n | _ => None end.
Definition pick_reverse (x : Account) := match x with AReverse r => Some r | _ => None end.
Definition pick_listing (x : Account) := match x with AListing l => Some l | _ => None end.
Definition pick_offer (x : Account) := match x with AOffer o => Some o | _ => None end.
Definition pick_auction (x : Account) := match x with AAuction a => Some a | _ => None end.
Definition pick_stake_pool (x : Account) := match x with AStakePool p => Some p | _ => None end.
Definition pick_stake (x : Account) := match x with AStake s => Some s | _ => None end.

(** [Option<Account<'info, T>>], an omitted account being [None]. *)
Definition load_opt {A} (pick : Account -> option A) (a : option Pubkey) (w : World)
    : Chain (option A) :=
  match a with None => Ok None | Some a => Some <$> load pick a w end.

(** [InterfaceAccount<'info, TokenAccount>] and [InterfaceAccount<'info, Mint>]. *)
Definition load_token (a : Pubkey) (w : World) : Chain TokenAccount :=
  of_option (Anchor AccountNotInitialized) (token_account (ledger w) a).
Definition load_token_opt (a : option Pubkey) (w : World) : Chain (option TokenAccount) :=
  match a with None => Ok None | Some a => Some <$> load_token a w end.
Definition load_mint (a : Pubkey) (w : World) : Chain Mint :=
  of_option (Anchor AccountNotInitialized) (mint_account (ledger w) a).

(** [SystemAccount<'info>] and [Interface<'info, TokenInterface>]. *)
Definition system_account (a : Pubkey) (w : World) : Chain unit :=
  anchor (system_owned (ledger w) a) AccountNotSystemOwned.
Definition token_interface (program : Pubkey) : Chain unit :=
  anchor (bool_decide (program = TOKEN_PROGRAM_ID) || bool_decide (program = TOKEN_2022_PROGRAM_ID))
    InvalidProgramId.

(** *** Constraints *)

(** [seeds = [..], bump = b] on an existing account. *)
Definition seeds_bump (a : Pubkey) (seeds : list bytes) (b : Z) : Chain unit :=
  anchor (bool_decide (create_program_address (seeds ++ [[b]]) ID = Some a)) ConstraintSeeds.

(** [token::mint], [token::authority], [token::token_program] and [mint::token_program]. *)
Definition token_mint_is (t : TokenAccount) (mint : Pubkey) : Chain unit :=
  anchor (bool_decide (ta_mint t = mint)) ConstraintTokenMint.
Definition token_authority_is (t : TokenAccount) (authority : Pubkey) : Chain unit :=
  anchor (bool_decide (ta_owner t = authority)) ConstraintTokenOwner.
Definition token_program_is (t : TokenAccount) (program : Pubkey) : Chain unit :=
  anchor (bool_decide (ta_program t = program)) ConstraintTokenTokenProgram.
Definition mint_program_is (m : Mint) (program : Pubkey) : Chain unit :=
  anchor (bool_decide (mint_program m = program)) ConstraintMintTokenProgram.

(** [token::mint = m, token::authority = o, token::token_program = p]. *)
Definition wallet_token (t : TokenAccount) (mint authority program : Pubkey) : Chain unit :=
  _ ← token_mint_is t mint;
  _ ← token_authority_is t authority;
  token_program_is t program.

(** *** Creating and closing accounts *)

Definition run (signer : option Pubkey) (i : Invocation) (w : World) : Chain World :=
  match invoke (ledger w) signer i with
  | Some l => Ok (with_ledger l w)
  | None => Err InvokedProgramFailed
  end.

(** [init, payer, space, seeds, bump]: the bump found and the world with the account
    funded; the handler writes its data.  The System program refuses an address in use. *)
Definition init (a payer : Pubkey) (space : Z) (seeds : list bytes) (w : World)
    : Chain (Z * World) :=
  let '(expected, b) := find_program_address seeds ID in
  _ ← anchor (bool_decide (expected = a)) ConstraintSeeds;
  _ ← (match accounts w !! a with
       | Some _ => Err InvokedProgramFailed
       | None => Ok tt
       end);
  w ← run None (CreateAccount payer a space) w;
  Ok (b, w).

(** [init] of an associated token account. *)
Definition init_associated (a payer authority mint program : Pubkey) (w : World) : Chain World :=
  _ ← anchor (bool_decide (get_associated_token_address authority mint program = a))
        AccountNotAssociatedTokenAccount;
  run None (CreateAssociated payer authority mint program a) w.

(** [close = destination]: after the handler, the lamports move and the data goes. *)
Definition close (a destination : Pubkey) (w : World) : World :=
  let l := set_lamports (ledger w) destination (lamports (ledger w) destination + lamports (ledger w) a) in
  remove a (with_ledger (set_lamports l a 0) w).
End State.
