(* ===== verification/ProgramUtils.v ===== *)
(** * The program's shared helpers

    programs/solans/src/utils.rs on the chain's state: who may manage a name, moving
    lamports and tokens, initializing a record, distributing a fee.  [FeeAccounts]
    are the token accounts of the instructions that charge in the payment mint. *)
From stdpp Require Import gmap.
From S2P Require Import Prelude JsString Errors OnChain Runtime ChainState.

Section Utils.
Context `{Runtime, Addresses}.

(** Record-level authority: the holder of the NFT while tokenized, else the owner. *)
Definition name_authority_ok (nr : NameRecord.t) (signer : Pubkey)
    (nft_token_account : option TokenAccount) : bool :=
  match NameRecord.nft_mint nr with
  | Some mint =>
      match nft_token_account with
      | Some ta => bool_decide (ta_mint ta = mint) && bool_decide (ta_owner ta = signer)
                     && (ta_amount ta =? 1)
      | None => false
      end
  | None => bool_decide (NameRecord.owner nr = signer)
  end.

(** Both balances are read before either is written. *)
Definition move_lamports (from to : Pubkey) (amount : Z) (w : World) : Chain World :=
  if amount =? 0 then Ok w
  else
    let from_balance := lamports (ledger w) from in
    let to_balance := lamports (ledger w) to in
    f ← custom (checked_u64 (from_balance - amount));
    t ← custom (checked_u64 (to_balance + amount));
    Ok (with_ledger (set_lamports (set_lamports (ledger w) from f) to t) w).

Definition transfer_tokens_signed (program from to mint : Pubkey) (decimals : Z)
    (authority : Pubkey) (signer : option Pubkey) (amount : Z) (w : World) : Chain World :=
  if amount =? 0 then Ok w
  else run signer (TransferChecked program from mint to authority amount decimals) w.

(** The same, signed by a wallet. *)
Definition transfer_tokens (program from to mint : Pubkey) (decimals : Z) (authority : Pubkey)
    (amount : Z) (w : World) : Chain World :=
  transfer_tokens_signed program from to mint decimals authority None amount w.

Definition burn_tokens_signed (program mint from authority : Pubkey) (signer : option Pubkey)
    (amount : Z) (w : World) : Chain World :=
  if amount =? 0 then Ok w else run signer (Burn program mint from authority amount) w.

Definition burn_tokens (program mint from authority : Pubkey) (amount : Z) (w : World)
    : Chain World :=
  burn_tokens_signed program mint from authority None amount w.

Definition close_token_account (program account destination authority : Pubkey)
    (signer : option Pubkey) (w : World) : Chain World :=
  run signer (CloseAccount program account destination authority) w.

(** [signer_seeds]: the address the program signs as. *)
Definition sign (seeds : list bytes) (b : Z) : option Pubkey :=
  create_program_address (seeds ++ [[b]]) ID.

Definition init_top_level_record (owner : Pubkey) (name_hash : bytes) (tld : list Z)
    (now expires_at bump : Z) : NameRecord.t :=
  NameRecord.mk owner None name_hash tld now expires_at [] None None false false None None 0 0
    false bump.
End Utils.

(** ** Fees in the payment mint *)

Module FeeAccounts.
Record t := mk {
  payer_token_account : Pubkey; treasury_token_account : Pubkey; staking_vault : Pubkey;
  burn_vault : Pubkey; referral_token_account : option Pubkey; payment_mint : Pubkey;
  token_program : Pubkey
}.

Record loaded := mk_loaded {
  payer_account : TokenAccount; treasury : TokenAccount; staking : TokenAccount;
  burn : TokenAccount; referral : option TokenAccount; mint : Mint
}.

Section FeeAccounts.
Context `{Runtime, Addresses}.

Definition load (f : t) (w : World) : Chain loaded :=
  payer_account ← load_token (payer_token_account f) w;
  treasury ← load_token (treasury_token_account f) w;
  staking ← load_token (staking_vault f) w;
  burn ← load_token (burn_vault f) w;
  referral ← load_token_opt (referral_token_account f) w;
  mint ← load_mint (payment_mint f) w;
  _ ← token_interface (token_program f);
  Ok (mk_loaded payer_account treasury staking burn referral mint).

(** The constraints on [treasury], the two vaults, the referrer and the mint. *)
Definition check_destinations (f : t) (l : loaded) (config : Config) : Chain unit :=
  _ ← ensure (bool_decide (treasury_token_account f = OnChain.treasury_token_account config))
        InvalidTreasury;
  _ ← token_program_is (treasury l) (token_program f);
  _ ← ensure (bool_decide (staking_vault f = OnChain.staking_vault config)) InvalidTreasury;
  _ ← token_program_is (staking l) (token_program f);
  _ ← ensure (bool_decide (burn_vault f = OnChain.burn_vault config)) InvalidTreasury;
  _ ← token_program_is (burn l) (token_program f);
  _ ← (match referral l with
       | Some r => _ ← token_mint_is r (payment_mint f); token_program_is r (token_program f)
       | None => Ok tt
       end);
  ensure (bool_decide (payment_mint f = OnChain.payment_mint config)) InvalidMint.

Definition check (f : t) (l : loaded) (payer : Pubkey) (config : Config) : Chain unit :=
  _ ← wallet_token (payer_account l) (payment_mint f) payer (token_program f);
  check_destinations f l config.
End FeeAccounts.
End FeeAccounts.

Section Fees.
Context `{Runtime, Addresses}.

(** Staking share, burn share, referral share (to the treasury without a referrer), then
    the treasury's, all from the payer. *)
Definition distribute_fee (f : FeeAccounts.t) (decimals : Z) (authority : Pubkey) (amount : Z)
    (config : Config) (w : World) : Chain World :=
  let '(treasury_share, staking_share, referral_share, burn_share) := fee_split config amount in
  let pay to share w :=
    transfer_tokens (FeeAccounts.token_program f) (FeeAccounts.payer_token_account f) to
      (FeeAccounts.payment_mint f) decimals authority share w in
  w ← pay (FeeAccounts.staking_vault f) staking_share w;
  w ← pay (FeeAccounts.burn_vault f) burn_share w;
  '(treasury_share, w) ← (match FeeAccounts.referral_token_account f with
       | Some r => w ← pay r referral_share w; Ok (treasury_share, w)
       | None => t ← custom (checked_u64 (treasury_share + referral_share)); Ok (t, w)
       end);
  pay (FeeAccounts.treasury_token_account f) treasury_share w.

(** Signed by a program address, without a referrer. *)
Definition distribute_fee_signed (f : FeeAccounts.t) (decimals : Z) (authority : Pubkey)
    (signer : option Pubkey) (amount : Z) (config : Config) (w : World) : Chain World :=
  let '(treasury_share, staking_share, referral_share, burn_share) := fee_split config amount in
  let pay to share w :=
    transfer_tokens_signed (FeeAccounts.token_program f) (FeeAccounts.payer_token_account f) to
      (FeeAccounts.payment_mint f) decimals authority signer share w in
  treasury_total ← custom (checked_u64 (treasury_share + referral_share));
  w ← pay (FeeAccounts.staking_vault f) staking_share w;
  w ← pay (FeeAccounts.burn_vault f) burn_share w;
  pay (FeeAccounts.treasury_token_account f) treasury_total w.
End Fees.
