(* ===== verification/Registration.v ===== *)
(** * Registering and renewing names

    programs/solans/src/instructions: register_name.rs, register_with_solans.rs,
    renew_name.rs, renew_with_solans.rs, auto_renew.rs and claim_expired.rs, one Module
    each: the account struct [t] and the [handler]. *)
From stdpp Require Import gmap.
From S2P Require Import Prelude JsString Errors OnChain Runtime ChainState ProgramUtils.

(** ** Shared by the handlers *)

Section Shared.
Context `{Runtime, Addresses, Keccak}.

(** [validate_name], [validate_tld] and the hash match. *)
Definition check_name (name tld name_hash : list Z) : Chain unit :=
  _ ← custom (validate_name name);
  _ ← custom (validate_tld tld);
  ensure (bool_decide (compute_name_hash name tld = name_hash)) NameMismatch.

(** The fee of [years] of a label. *)
Definition term_price (config : Config) (name : list Z) (years : Z) : Chain Z :=
  custom (checked_u64 (price_for_label config name * years)).

(** [base + years_to_secs(years)]. *)
Definition expiry_after (base years : Z) : Chain Z :=
  secs ← custom (years_to_secs years);
  custom (checked_i64 (base + secs)).

(** The extension every renewal makes: from the later of the expiry and now. *)
Definition extend (nr : NameRecord.t) (years now : Z) : Chain NameRecord.t :=
  e ← expiry_after (Z.max (NameRecord.expires_at nr) now) years;
  Ok (NameRecord.set_expires_at e nr).
End Shared.

(** The $SOLANS accounts of the pay-in instructions. *)
Module SolansAccounts.
Record t := mk {
  payer_solans_account : Pubkey; solans_mint : Pubkey; token_program : Pubkey
}.

Section SolansAccounts.
Context `{Runtime, Addresses}.

Definition load (s : t) (w : World) : Chain (TokenAccount * Mint) :=
  account ← load_token (payer_solans_account s) w;
  mint ← load_mint (solans_mint s) w;
  _ ← token_interface (token_program s);
  Ok (account, mint).

Definition check (s : t) (account : TokenAccount) (mint : Mint) (payer : Pubkey)
    (config : Config) : Chain unit :=
  _ ← wallet_token account (solans_mint s) payer (token_program s);
  _ ← ensure (bool_decide (solans_mint s = OnChain.solans_mint config)) InvalidMint;
  mint_program_is mint (token_program s).
End SolansAccounts.
End SolansAccounts.

Module RegisterName.
Record t := mk {
  payer : Pubkey; owner : Pubkey; config : Pubkey; name_record : Pubkey; fees : FeeAccounts.t
}.

Definition handler `{Runtime, Addresses, Keccak} (acc : t)
    (name tld name_hash : list Z) (years : Z) (w : World) : Chain World :=
  cfg ← load pick_config (config acc) w;
  tokens ← FeeAccounts.load (fees acc) w;
  '(bump, w) ← init (name_record acc) (payer acc) (8 + NameRecord.INIT_SPACE)
                 [NAME_SEED; name_hash] w;
  _ ← seeds_bump (config acc) [CONFIG_SEED] (OnChain.bump cfg);
  _ ← FeeAccounts.check (fees acc) tokens (payer acc) cfg;
  _ ← check_name name tld name_hash;
  _ ← custom (validate_years years (min_years cfg) (max_years cfg));
  amount ← term_price cfg name years;
  w ← distribute_fee (fees acc) (decimals (FeeAccounts.mint tokens)) (payer acc) amount cfg w;
  expires_at ← expiry_after (now w) years;
  Ok (put (name_record acc)
        (AName (init_top_level_record (owner acc) name_hash tld (now w) expires_at bump)) w).
End RegisterName.

Module RegisterWithSolans.
Record t := mk {
  payer : Pubkey; owner : Pubkey; config : Pubkey; name_record : Pubkey;
  solans : SolansAccounts.t
}.

Definition handler `{Runtime, Addresses, Keccak} (acc : t)
    (name tld name_hash : list Z) (years : Z) (w : World) : Chain World :=
  cfg ← load pick_config (config acc) w;
  '(account, mint) ← SolansAccounts.load (solans acc) w;
  '(bump, w) ← init (name_record acc) (payer acc) (8 + NameRecord.INIT_SPACE)
                 [NAME_SEED; name_hash] w;
  _ ← seeds_bump (config acc) [CONFIG_SEED] (OnChain.bump cfg);
  _ ← SolansAccounts.check (solans acc) account mint (payer acc) cfg;
  _ ← check_name name tld name_hash;
  _ ← ensure (solans_enabled cfg) SolansNotConfigured;
  _ ← custom (validate_years years (min_years cfg) (max_years cfg));
  usdc_fee ← term_price cfg name years;
  solans_burned ← custom (solans_fee cfg usdc_fee);
  w ← burn_tokens (SolansAccounts.token_program (solans acc))
        (SolansAccounts.solans_mint (solans acc))
        (SolansAccounts.payer_solans_account (solans acc)) (payer acc) solans_burned w;
  expires_at ← expiry_after (now w) years;
  Ok (emit (RegisteredWithSolans name_hash (payer acc) solans_burned)
        (put (name_record acc)
          (AName (init_top_level_record (owner acc) name_hash tld (now w) expires_at bump)) w)).
End RegisterWithSolans.

Module RenewName.
Record t := mk {
  payer : Pubkey; config : Pubkey; name_record : Pubkey; fees : FeeAccounts.t
}.

Definition handler `{Runtime, Addresses, Keccak} (acc : t) (name tld : list Z)
    (years : Z) (w : World) : Chain World :=
  cfg ← load pick_config (config acc) w;
  nr ← load pick_name (name_record acc) w;
  tokens ← FeeAccounts.load (fees acc) w;
  _ ← seeds_bump (config acc) [CONFIG_SEED] (OnChain.bump cfg);
  _ ← FeeAccounts.check (fees acc) tokens (payer acc) cfg;
  _ ← check_name name tld (NameRecord.name_hash nr);
  _ ← custom (validate_years years (min_years cfg) (max_years cfg));
  amount ← term_price cfg name years;
  w ← distribute_fee (fees acc) (decimals (FeeAccounts.mint tokens)) (payer acc) amount cfg w;
  nr ← extend nr years (now w);
  Ok (put (name_record acc) (AName nr) w).
End RenewName.

Module RenewWithSolans.
Record t := mk {
  payer : Pubkey; config : Pubkey; name_record : Pubkey; solans : SolansAccounts.t
}.

Definition handler `{Runtime, Addresses, Keccak} (acc : t) (name tld : list Z)
    (years : Z) (w : World) : Chain World :=
  cfg ← load pick_config (config acc) w;
  nr ← load pick_name (name_record acc) w;
  '(account, mint) ← SolansAccounts.load (solans acc) w;
  _ ← seeds_bump (config acc) [CONFIG_SEED] (OnChain.bump cfg);
  _ ← SolansAccounts.check (solans acc) account mint (payer acc) cfg;
  _ ← check_name name tld (NameRecord.name_hash nr);
  _ ← ensure (solans_enabled cfg) SolansNotConfigured;
  _ ← custom (validate_years years (min_years cfg) (max_years cfg));
  usdc_fee ← term_price cfg name years;
  solans_burned ← custom (solans_fee cfg usdc_fee);
  w ← burn_tokens (SolansAccounts.token_program (solans acc))
        (SolansAccounts.solans_mint (solans acc))
        (SolansAccounts.payer_solans_account (solans acc)) (payer acc) solans_burned w;
  nr ← extend nr years (now w);
  Ok (emit (RenewedWithSolans (NameRecord.name_hash nr) (payer acc) solans_burned)
        (put (name_record acc) (AName nr) w)).
End RenewWithSolans.

(** The payer's account is the owner's; [fees] has no referrer. *)
Module AutoRenew.
Record t := mk {
  keeper : Pubkey; config : Pubkey; name_record : Pubkey; owner_token_account : Pubkey;
  treasury_token_account : Pubkey; staking_vault : Pubkey; burn_vault : Pubkey;
  payment_mint : Pubkey; token_program : Pubkey
}.

Definition fees (acc : t) : FeeAccounts.t :=
  FeeAccounts.mk (owner_token_account acc) (treasury_token_account acc) (staking_vault acc)
    (burn_vault acc) None (payment_mint acc) (token_program acc).

Definition handler `{Runtime, Addresses, Keccak} (acc : t) (name tld : list Z)
    (years : Z) (w : World) : Chain World :=
  cfg ← load pick_config (config acc) w;
  nr ← load pick_name (name_record acc) w;
  tokens ← FeeAccounts.load (fees acc) w;
  _ ← seeds_bump (config acc) [CONFIG_SEED] (OnChain.bump cfg);
  _ ← ensure (bool_decide (ta_owner (FeeAccounts.payer_account tokens) = NameRecord.owner nr))
        NotOwner;
  _ ← token_mint_is (FeeAccounts.payer_account tokens) (payment_mint acc);
  _ ← token_program_is (FeeAccounts.payer_account tokens) (token_program acc);
  _ ← FeeAccounts.check_destinations (fees acc) tokens cfg;
  _ ← check_name name tld (NameRecord.name_hash nr);
  _ ← custom (validate_years years (min_years cfg) (max_years cfg));
  _ ← ensure (years =? 1) InvalidYears;
  amount ← term_price cfg name years;
  window_opens ← custom (checked_i64 (NameRecord.expires_at nr - RENEWAL_WINDOW_SECONDS));
  _ ← ensure (window_opens <=? now w) AutoRenewTooEarly;
  w ← distribute_fee_signed (fees acc) (decimals (FeeAccounts.mint tokens)) (config acc)
        (sign [CONFIG_SEED] (OnChain.bump cfg)) amount cfg w;
  nr ← extend nr years (now w);
  Ok (put (name_record acc) (AName nr) w).
End AutoRenew.

Module ClaimExpired.
Record t := mk {
  claimer : Pubkey; config : Pubkey; name_record : Pubkey; fees : FeeAccounts.t
}.

Definition handler `{Runtime, Addresses, Keccak} (acc : t) (name tld : list Z)
    (years : Z) (w : World) : Chain World :=
  cfg ← load pick_config (config acc) w;
  nr ← load pick_name (name_record acc) w;
  tokens ← FeeAccounts.load (fees acc) w;
  _ ← seeds_bump (config acc) [CONFIG_SEED] (OnChain.bump cfg);
  _ ← FeeAccounts.check (fees acc) tokens (claimer acc) cfg;
  _ ← custom (validate_name name);
  _ ← custom (validate_tld tld);
  _ ← ensure (bool_decide (NameRecord.parent nr = None)) Subdomain;
  _ ← ensure (bool_decide (NameRecord.name_hash nr = compute_name_hash name tld)) NameMismatch;
  grace_end ← custom (checked_i64 (NameRecord.expires_at nr + grace_period_seconds cfg));
  _ ← ensure (grace_end <? now w) NotExpired;
  _ ← custom (validate_years years (min_years cfg) (max_years cfg));
  amount ← term_price cfg name years;
  w ← distribute_fee (fees acc) (decimals (FeeAccounts.mint tokens)) (claimer acc) amount cfg w;
  expires_at ← expiry_after (now w) years;
  Ok (put (name_record acc)
        (AName (init_top_level_record (claimer acc) (NameRecord.name_hash nr)
                  (NameRecord.tld nr) (now w) expires_at (NameRecord.bump nr))) w).
End ClaimExpired.
