(* ===== verification/Ownership.v ===== *)
(** * Managing a name

    programs/solans/src/instructions: transfer_name.rs, lock_transfer.rs,
    set_controller.rs, set_resolver.rs, set_hosting.rs, update_record.rs,
    set_reverse.rs, burn_name.rs, wrap_subdomain.rs, revoke_subdomain.rs,
    resolve.rs, tokenize_name.rs and redeem_name.rs. *)
From stdpp Require Import gmap.
From S2P Require Import Prelude JsString Errors OnChain Runtime ChainState ProgramUtils.

(** ** Structural changes, by the owner *)

(** [has_one = owner @ NotOwner]. *)
Definition has_owner (nr : NameRecord.t) (owner : Pubkey) : Chain unit :=
  ensure (bool_decide (NameRecord.owner nr = owner)) NotOwner.

(** [nft_mint.is_none()] and [!listed], which most handlers require first. *)
Definition not_tokenized (nr : NameRecord.t) : Chain unit :=
  ensure (bool_decide (NameRecord.nft_mint nr = None)) Tokenized.
Definition not_listed (nr : NameRecord.t) : Chain unit := ensure (negb (NameRecord.listed nr)) Listed.
Definition top_level (nr : NameRecord.t) : Chain unit :=
  ensure (bool_decide (NameRecord.parent nr = None)) Subdomain.

Module TransferName.
Record t := mk { owner : Pubkey; name_record : Pubkey }.

Definition handler `{Runtime} (acc : t) (new_owner : Pubkey) (w : World) : Chain World :=
  nr ← load pick_name (name_record acc) w;
  _ ← has_owner nr (owner acc);
  _ ← not_tokenized nr;
  _ ← not_listed nr;
  _ ← ensure (negb (NameRecord.transfer_locked nr)) TransferLocked;
  Ok (put (name_record acc) (AName (NameRecord.set_owner new_owner nr)) w).
End TransferName.

Module LockTransfer.
Record t := mk { owner : Pubkey; name_record : Pubkey }.

Definition handler `{Runtime} (acc : t) (lock : bool) (w : World) : Chain World :=
  nr ← load pick_name (name_record acc) w;
  _ ← has_owner nr (owner acc);
  _ ← not_tokenized nr;
  _ ← not_listed nr;
  Ok (put (name_record acc) (AName (NameRecord.set_transfer_locked lock nr)) w).
End LockTransfer.

Module SetController.
Record t := mk { owner : Pubkey; name_record : Pubkey }.

Definition handler `{Runtime} (acc : t) (controller : option Pubkey) (w : World)
    : Chain World :=
  nr ← load pick_name (name_record acc) w;
  _ ← has_owner nr (owner acc);
  _ ← not_tokenized nr;
  _ ← not_listed nr;
  Ok (put (name_record acc) (AName (NameRecord.set_controller controller nr)) w).
End SetController.

Module BurnName.
Record t := mk { owner : Pubkey; name_record : Pubkey }.

Definition handler `{Runtime} (acc : t) (w : World) : Chain World :=
  nr ← load pick_name (name_record acc) w;
  _ ← has_owner nr (owner acc);
  _ ← not_tokenized nr;
  _ ← not_listed nr;
  Ok (close (name_record acc) (owner acc) w).
End BurnName.

(** ** Records, by the owner or NFT holder, or the controller *)

Module SetResolver.
Record t := mk { authority : Pubkey; name_record : Pubkey; nft_token_account : option Pubkey }.

Definition handler `{Runtime} (acc : t) (resolver : option Pubkey) (w : World)
    : Chain World :=
  nr ← load pick_name (name_record acc) w;
  nft_ta ← load_token_opt (nft_token_account acc) w;
  _ ← not_listed nr;
  _ ← ensure (name_authority_ok nr (authority acc) nft_ta) NotAuthorized;
  Ok (put (name_record acc) (AName (NameRecord.set_resolver resolver nr)) w).
End SetResolver.

(** The authority or the [controller]. *)
Definition manages (nr : NameRecord.t) (authority : Pubkey) (nft_ta : option TokenAccount) : bool :=
  name_authority_ok nr authority nft_ta
  || bool_decide (NameRecord.controller nr = Some authority).

Module SetHosting.
Record t := mk { authority : Pubkey; name_record : Pubkey; nft_token_account : option Pubkey }.

Definition handler `{Runtime} (acc : t) (hosting_ref : option (list Z)) (w : World)
    : Chain World :=
  nr ← load pick_name (name_record acc) w;
  nft_ta ← load_token_opt (nft_token_account acc) w;
  _ ← not_listed nr;
  _ ← ensure (manages nr (authority acc) nft_ta) NotAuthorized;
  _ ← (match hosting_ref with
       | Some h => ensure (len h <=? HOSTING_MAX_LEN) RecordTooLong
       | None => Ok tt
       end);
  Ok (put (name_record acc) (AName (NameRecord.set_hosting_ref hosting_ref nr)) w).
End SetHosting.

Module UpdateRecord.
Record t := mk { authority : Pubkey; name_record : Pubkey; nft_token_account : option Pubkey }.

Definition handler `{Runtime} (acc : t) (key : list Z) (value : option (list Z)) (w : World)
    : Chain World :=
  nr ← load pick_name (name_record acc) w;
  nft_ta ← load_token_opt (nft_token_account acc) w;
  _ ← not_listed nr;
  _ ← ensure (manages nr (authority acc) nft_ta) NotAuthorized;
  _ ← ensure (len key <=? KEY_MAX_LEN) RecordTooLong;
  nr ← (match value with
        | Some v =>
            _ ← ensure (len v <=? VALUE_MAX_LEN) RecordTooLong;
            custom (NameRecord.upsert_record key v nr)
        | None => custom (NameRecord.delete_record key nr)
        end);
  Ok (put (name_record acc) (AName nr) w).
End UpdateRecord.

(** [init_if_needed]: the owner's reverse record is created or overwritten. *)
Module SetReverse.
Record t := mk { owner : Pubkey; name_record : Pubkey; reverse_record : Pubkey }.

Definition handler `{Runtime, Addresses, Keccak} (acc : t) (name : list Z) (w : World)
    : Chain World :=
  nr ← load pick_name (name_record acc) w;
  let seeds := [REVERSE_SEED; owner acc] in
  let '(expected, bump) := find_program_address seeds ID in
  w ← (match accounts w !! reverse_record acc with
       | None => snd <$> init (reverse_record acc) (owner acc) (8 + ReverseRecord.INIT_SPACE) seeds w
       | Some x =>
           _ ← of_option (Anchor AccountDiscriminatorMismatch) (pick_reverse x);
           _ ← anchor (bool_decide (expected = reverse_record acc)) ConstraintSeeds;
           Ok w
       end);
  _ ← has_owner nr (owner acc);
  _ ← not_tokenized nr;
  _ ← not_listed nr;
  _ ← top_level nr;
  _ ← ensure (bool_decide (compute_name_hash name (NameRecord.tld nr) = NameRecord.name_hash nr))
        NameMismatch;
  let reverse := ReverseRecord.mk (owner acc) (NameRecord.name_hash nr) name (NameRecord.tld nr) bump in
  Ok (put (name_record acc) (AName (NameRecord.set_reverse_set true nr))
        (put (reverse_record acc) (AReverse reverse) w)).
End SetReverse.

(** ** Subdomains *)

Module WrapSubdomain.
Record t := mk {
  owner : Pubkey; subdomain_owner : Pubkey; parent_name : Pubkey; name_record : Pubkey
}.

Definition handler `{Runtime, Addresses, Keccak} (acc : t) (label name_hash : list Z)
    (w : World) : Chain World :=
  parent ← load pick_name (parent_name acc) w;
  '(bump, w) ← init (name_record acc) (owner acc) (8 + NameRecord.INIT_SPACE)
                 [NAME_SEED; name_hash] w;
  _ ← seeds_bump (parent_name acc) [NAME_SEED; NameRecord.name_hash parent]
        (NameRecord.bump parent);
  _ ← has_owner parent (owner acc);
  _ ← not_tokenized parent;
  _ ← not_listed parent;
  _ ← ensure (now w <=? NameRecord.expires_at parent) ParentExpired;
  _ ← custom (validate_name label);
  depth ← custom (checked 0 255 (NameRecord.depth parent + 1));
  _ ← ensure (depth <=? MAX_SUBDOMAIN_DEPTH) TooDeep;
  _ ← ensure (bool_decide (compute_subdomain_hash (NameRecord.name_hash parent) label = name_hash))
        NameMismatch;
  Ok (put (name_record acc)
        (AName (NameRecord.mk (subdomain_owner acc) None name_hash (NameRecord.tld parent) (now w)
                  (NameRecord.expires_at parent) [] None None false false None
                  (Some (parent_name acc)) (NameRecord.registered_at parent) depth false bump)) w).
End WrapSubdomain.

Module RevokeSubdomain.
Record t := mk { owner : Pubkey; parent_name : Pubkey; name_record : Pubkey }.

Definition handler `{Runtime, Addresses} (acc : t) (w : World) : Chain World :=
  parent ← load pick_name (parent_name acc) w;
  nr ← load pick_name (name_record acc) w;
  _ ← seeds_bump (parent_name acc) [NAME_SEED; NameRecord.name_hash parent]
        (NameRecord.bump parent);
  _ ← has_owner parent (owner acc);
  _ ← seeds_bump (name_record acc) [NAME_SEED; NameRecord.name_hash nr] (NameRecord.bump nr);
  _ ← ensure (bool_decide (NameRecord.parent nr = Some (parent_name acc))) NotParent;
  _ ← not_tokenized nr;
  Ok (close (name_record acc) (owner acc) w).
End RevokeSubdomain.

(** ** The on-chain view: the return data *)

Module Resolve.
Record t := mk { name_record : Pubkey }.

Definition handler `{Runtime} (acc : t) (name_hash : bytes) (record_key : option (list Z))
    (w : World) : Chain bytes :=
  nr ← load pick_name (name_record acc) w;
  _ ← ensure (bool_decide (NameRecord.name_hash nr = name_hash)) NameMismatch;
  _ ← ensure (now w <=? NameRecord.expires_at nr) NameExpired;
  Ok (match record_key with
      | Some k =>
          match List.find (fun r => bool_decide (key r = k)) (NameRecord.records nr) with
          | Some r => as_bytes (value r)
          | None => []
          end
      | None => NameRecord.owner nr
      end).
End Resolve.

(** ** Tokenization *)

(** [while nft_name.len() > MPL_NAME_MAX_LEN { nft_name.pop(); }]. *)
Fixpoint cap_name (fuel : nat) (s : list Z) : list Z :=
  match fuel with
  | O => s
  | S fuel => if len s >? MPL_NAME_MAX_LEN then cap_name fuel (removelast s) else s
  end.

Module TokenizeName.
Record t := mk {
  owner : Pubkey; name_record : Pubkey; mint : Pubkey; token_account : Pubkey;
  metadata : Pubkey; master_edition : Pubkey
}.

Definition handler `{Runtime, Addresses, Keccak} (acc : t) (name : list Z) (w : World)
    : Chain World :=
  nr ← load pick_name (name_record acc) w;
  w ← run None (CreateMint (owner acc) (mint acc) 0 (name_record acc) (name_record acc)) w;
  w ← init_associated (token_account acc) (owner acc) (owner acc) (mint acc) TOKEN_PROGRAM_ID w;
  _ ← seeds_bump (name_record acc) [NAME_SEED; NameRecord.name_hash nr] (NameRecord.bump nr);
  _ ← has_owner nr (owner acc);
  let metadata_seeds := [js "metadata"; METADATA_PROGRAM_ID; mint acc] in
  _ ← anchor (bool_decide (fst (find_program_address metadata_seeds METADATA_PROGRAM_ID)
                           = metadata acc)) ConstraintSeeds;
  _ ← anchor (bool_decide (fst (find_program_address (metadata_seeds ++ [js "edition"])
                                  METADATA_PROGRAM_ID) = master_edition acc)) ConstraintSeeds;
  _ ← not_tokenized nr;
  _ ← not_listed nr;
  _ ← top_level nr;
  _ ← ensure (bool_decide (compute_name_hash name (NameRecord.tld nr) = NameRecord.name_hash nr))
        NameMismatch;
  let full := name ++ js "." ++ NameRecord.tld nr in
  let nft_name := cap_name (length full) full in
  let signer := sign [NAME_SEED; NameRecord.name_hash nr] (NameRecord.bump nr) in
  w ← run signer (MintTo TOKEN_PROGRAM_ID (mint acc) (token_account acc) (name_record acc) 1) w;
  w ← run signer (CreateMetadata METADATA_PROGRAM_ID (metadata acc) (mint acc) (name_record acc)
        (owner acc) (name_record acc) nft_name (js "SOLANS") [] 0 true) w;
  w ← run signer (CreateMasterEdition METADATA_PROGRAM_ID (master_edition acc) (mint acc)
        (name_record acc) (name_record acc) (owner acc) (metadata acc) (Some 0)) w;
  Ok (put (name_record acc) (AName (NameRecord.set_nft_mint (Some (mint acc)) nr)) w).
End TokenizeName.

Module RedeemName.
Record t := mk {
  redeemer : Pubkey; name_record : Pubkey; mint : Pubkey; token_account : Pubkey;
  metadata : Pubkey; master_edition : Pubkey
}.

(** The token account and the mint are the classic Token program's. *)
Definition handler `{Runtime, Addresses} (acc : t) (w : World) : Chain World :=
  nr ← load pick_name (name_record acc) w;
  m ← load_mint (mint acc) w;
  _ ← anchor (bool_decide (mint_program m = TOKEN_PROGRAM_ID)) InvalidProgramId;
  ta ← load_token (token_account acc) w;
  _ ← anchor (bool_decide (ta_program ta = TOKEN_PROGRAM_ID)) InvalidProgramId;
  _ ← seeds_bump (name_record acc) [NAME_SEED; NameRecord.name_hash nr] (NameRecord.bump nr);
  _ ← ensure (ta_amount ta =? 1) NotAuthorized;
  _ ← token_mint_is ta (mint acc);
  _ ← token_authority_is ta (redeemer acc);
  let metadata_seeds := [js "metadata"; METADATA_PROGRAM_ID; mint acc] in
  _ ← anchor (bool_decide (fst (find_program_address metadata_seeds METADATA_PROGRAM_ID)
                           = metadata acc)) ConstraintSeeds;
  _ ← anchor (bool_decide (fst (find_program_address (metadata_seeds ++ [js "edition"])
                                  METADATA_PROGRAM_ID) = master_edition acc)) ConstraintSeeds;
  _ ← ensure (bool_decide (NameRecord.nft_mint nr = Some (mint acc))) InvalidNftMint;
  w ← run None (BurnNft METADATA_PROGRAM_ID (metadata acc) (redeemer acc) (mint acc)
        (token_account acc) (master_edition acc)) w;
  Ok (put (name_record acc)
        (AName (NameRecord.set_nft_mint None (NameRecord.set_owner (redeemer acc) nr))) w).
End RedeemName.
