(* ===== verification/Market.v ===== *)
(** * The marketplace: listings and offers

    programs/solans/src/instructions: list_name.rs, cancel_listing.rs,
    update_listing.rs, buy_name.rs, make_offer.rs, accept_offer.rs and
    cancel_offer.rs.  Prices are in lamports; a listing leaves the name with its
    seller and freezes it, an offer holds its amount in its own account. *)
From stdpp Require Import gmap.
From S2P Require Import Prelude JsString Errors OnChain Runtime ChainState ProgramUtils Ownership.

(** [(price as u128 * bps / 10_000) as u64]. *)
Definition marketplace_fee (config : Config) (price : Z) : Chain Z :=
  v ← custom (checked_u128 (price * marketplace_fee_bps config));
  q ← custom (checked_div_u128 v BPS_DENOMINATOR);
  Ok (q mod 2 ^ 64).

(** The fee and what remains for the seller. *)
Definition sale_split (config : Config) (price : Z) : Chain (Z * Z) :=
  fee ← marketplace_fee config price;
  rest ← custom (checked_u64 (price - fee));
  Ok (fee, rest).

(** [now.checked_add(duration_seconds)]. *)
Definition deadline `{Runtime} (w : World) (duration_seconds : Z) : Chain Z :=
  custom (checked_i64 (now w + duration_seconds)).

Section Seeds.
Context `{Runtime, Addresses}.

(** [seeds = [NAME_SEED, nr.name_hash], bump = nr.bump] and its like. *)
Definition name_seeds (a : Pubkey) (nr : NameRecord.t) : Chain unit :=
  seeds_bump a [NAME_SEED; NameRecord.name_hash nr] (NameRecord.bump nr).
Definition listing_seeds (a : Pubkey) (l : Listing.t) : Chain unit :=
  seeds_bump a [LISTING_SEED; Listing.name_hash l] (Listing.bump l).
Definition offer_seeds (a : Pubkey) (o : Offer.t) : Chain unit :=
  seeds_bump a [OFFER_SEED; Offer.name_hash o; Offer.buyer o] (Offer.bump o).
Definition config_seeds (a : Pubkey) (c : Config) : Chain unit :=
  seeds_bump a [CONFIG_SEED] (OnChain.bump c).

(** [if amount > 0 { transfer(..) }] of lamports, signed by the payer. *)
Definition pay_lamports (from to : Pubkey) (amount : Z) (w : World) : Chain World :=
  if amount >? 0 then run None (Transfer from to amount) w else Ok w.
End Seeds.

Module ListName.
Record t := mk { owner : Pubkey; name_record : Pubkey; listing : Pubkey }.

Definition handler `{Runtime, Addresses} (acc : t) (price duration_seconds : Z) (w : World)
    : Chain World :=
  nr ← load pick_name (name_record acc) w;
  '(bump, w) ← init (listing acc) (owner acc) (8 + Listing.INIT_SPACE)
                 [LISTING_SEED; NameRecord.name_hash nr] w;
  _ ← name_seeds (name_record acc) nr;
  _ ← has_owner nr (owner acc);
  _ ← not_tokenized nr;
  _ ← ensure (negb (NameRecord.transfer_locked nr)) TransferLocked;
  _ ← not_listed nr;
  _ ← ensure (duration_seconds >? 0) ListingExpired;
  expires_at ← deadline w duration_seconds;
  let name_hash := NameRecord.name_hash nr in
  Ok (emit (NameListed name_hash (owner acc) price expires_at)
        (put (name_record acc) (AName (NameRecord.set_listed true nr))
          (put (listing acc) (AListing (Listing.mk (owner acc) name_hash price expires_at bump)) w))).
End ListName.

Module CancelListing.
Record t := mk { canceller : Pubkey; seller : Pubkey; name_record : Pubkey; listing : Pubkey }.

Definition handler `{Runtime, Addresses} (acc : t) (w : World) : Chain World :=
  _ ← system_account (seller acc) w;
  nr ← load pick_name (name_record acc) w;
  l ← load pick_listing (listing acc) w;
  _ ← ensure (bool_decide (seller acc = Listing.seller l)) NotSeller;
  _ ← name_seeds (name_record acc) nr;
  _ ← ensure (bool_decide (NameRecord.name_hash nr = Listing.name_hash l)) NotListed;
  _ ← listing_seeds (listing acc) l;
  _ ← ensure (bool_decide (canceller acc = Listing.seller l) || (Listing.expires_at l <? now w))
        NotSeller;
  Ok (close (listing acc) (seller acc)
        (emit (ListingCancelled (Listing.name_hash l) (Listing.seller l))
          (put (name_record acc) (AName (NameRecord.set_listed false nr)) w))).
End CancelListing.

Module UpdateListing.
Record t := mk { seller : Pubkey; listing : Pubkey }.

Definition handler `{Runtime, Addresses} (acc : t) (price duration_seconds : Z) (w : World)
    : Chain World :=
  l ← load pick_listing (listing acc) w;
  _ ← listing_seeds (listing acc) l;
  _ ← ensure (bool_decide (Listing.seller l = seller acc)) NotSeller;
  _ ← ensure (duration_seconds >? 0) ListingExpired;
  expires_at ← deadline w duration_seconds;
  Ok (put (listing acc)
        (AListing (Listing.mk (Listing.seller l) (Listing.name_hash l) price expires_at
                     (Listing.bump l))) w).
End UpdateListing.

Module BuyName.
Record t := mk {
  buyer : Pubkey; seller : Pubkey; sol_treasury : Pubkey; config : Pubkey;
  name_record : Pubkey; listing : Pubkey
}.

Definition handler `{Runtime, Addresses} (acc : t) (expected_price : Z) (w : World)
    : Chain World :=
  _ ← system_account (seller acc) w;
  _ ← system_account (sol_treasury acc) w;
  cfg ← load pick_config (config acc) w;
  nr ← load pick_name (name_record acc) w;
  l ← load pick_listing (listing acc) w;
  _ ← ensure (bool_decide (seller acc = Listing.seller l)) NotSeller;
  _ ← ensure (bool_decide (sol_treasury acc = OnChain.sol_treasury cfg)) InvalidTreasury;
  _ ← config_seeds (config acc) cfg;
  _ ← name_seeds (name_record acc) nr;
  _ ← ensure (bool_decide (NameRecord.name_hash nr = Listing.name_hash l)) NotListed;
  _ ← listing_seeds (listing acc) l;
  _ ← ensure (NameRecord.listed nr) NotListed;
  _ ← ensure (bool_decide (NameRecord.owner nr = Listing.seller l)) NotSeller;
  _ ← ensure (negb (bool_decide (buyer acc = Listing.seller l))) SelfPurchase;
  _ ← ensure (now w <=? Listing.expires_at l) ListingExpired;
  _ ← ensure (expected_price =? Listing.price l) PriceMismatch;
  '(fee, to_seller) ← sale_split cfg (Listing.price l);
  w ← pay_lamports (buyer acc) (seller acc) to_seller w;
  w ← pay_lamports (buyer acc) (sol_treasury acc) fee w;
  let nr' := NameRecord.set_listed false (NameRecord.set_owner (buyer acc) nr) in
  Ok (close (listing acc) (seller acc)
        (emit (NameSold (NameRecord.name_hash nr) (Listing.seller l) (buyer acc)
                 (Listing.price l) fee)
          (put (name_record acc) (AName nr') w))).
End BuyName.

(** ** Offers *)

Module MakeOffer.
Record t := mk { buyer : Pubkey; name_record : Pubkey; offer : Pubkey }.

Definition handler `{Runtime, Addresses} (acc : t) (amount duration_seconds : Z) (w : World)
    : Chain World :=
  nr ← load pick_name (name_record acc) w;
  let name_hash := NameRecord.name_hash nr in
  '(bump, w) ← init (offer acc) (buyer acc) (8 + Offer.INIT_SPACE)
                 [OFFER_SEED; name_hash; buyer acc] w;
  _ ← name_seeds (name_record acc) nr;
  _ ← ensure (duration_seconds >? 0) OfferExpired;
  expires_at ← deadline w duration_seconds;
  let o := Offer.mk (buyer acc) name_hash amount expires_at bump in
  w ← run None (Transfer (buyer acc) (offer acc) amount) w;
  Ok (emit (OfferMade name_hash (buyer acc) amount expires_at) (put (offer acc) (AOffer o) w)).
End MakeOffer.

Module AcceptOffer.
Record t := mk {
  owner : Pubkey; buyer : Pubkey; sol_treasury : Pubkey; config : Pubkey;
  name_record : Pubkey; offer : Pubkey
}.

Definition handler `{Runtime, Addresses} (acc : t) (w : World) : Chain World :=
  _ ← system_account (buyer acc) w;
  _ ← system_account (sol_treasury acc) w;
  cfg ← load pick_config (config acc) w;
  nr ← load pick_name (name_record acc) w;
  o ← load pick_offer (offer acc) w;
  _ ← ensure (bool_decide (buyer acc = Offer.buyer o)) NotOfferer;
  _ ← ensure (bool_decide (sol_treasury acc = OnChain.sol_treasury cfg)) InvalidTreasury;
  _ ← config_seeds (config acc) cfg;
  _ ← name_seeds (name_record acc) nr;
  _ ← has_owner nr (owner acc);
  _ ← ensure (bool_decide (NameRecord.name_hash nr = Offer.name_hash o)) NotOfferer;
  _ ← offer_seeds (offer acc) o;
  _ ← not_tokenized nr;
  _ ← not_listed nr;
  _ ← ensure (now w <=? Offer.expires_at o) OfferExpired;
  _ ← ensure (negb (bool_decide (Offer.buyer o = owner acc))) SelfPurchase;
  '(fee, to_owner) ← sale_split cfg (Offer.amount o);
  w ← move_lamports (offer acc) (owner acc) to_owner w;
  w ← move_lamports (offer acc) (sol_treasury acc) fee w;
  Ok (close (offer acc) (buyer acc)
        (emit (OfferAccepted (NameRecord.name_hash nr) (owner acc) (Offer.buyer o)
                 (Offer.amount o) fee)
          (put (name_record acc) (AName (NameRecord.set_owner (Offer.buyer o) nr)) w))).
End AcceptOffer.

Module CancelOffer.
Record t := mk {
  canceller : Pubkey; buyer : Pubkey; name_record : option Pubkey; offer : Pubkey
}.

(** Whether the record presented makes the canceller the owner of the offer's name. *)
Definition is_owner (o : Offer.t) (canceller : Pubkey) (nr : option NameRecord.t) : bool :=
  match nr with
  | Some nr => bool_decide (NameRecord.name_hash nr = Offer.name_hash o)
                 && bool_decide (NameRecord.owner nr = canceller)
  | None => false
  end.

Definition handler `{Runtime, Addresses} (acc : t) (w : World) : Chain World :=
  _ ← system_account (buyer acc) w;
  nr ← load_opt pick_name (name_record acc) w;
  o ← load pick_offer (offer acc) w;
  _ ← ensure (bool_decide (buyer acc = Offer.buyer o)) NotOfferer;
  _ ← (match name_record acc, nr with
       | Some a, Some nr => name_seeds a nr
       | _, _ => Ok tt
       end);
  _ ← offer_seeds (offer acc) o;
  _ ← ensure (bool_decide (canceller acc = Offer.buyer o) || is_owner o (canceller acc) nr
              || (Offer.expires_at o <? now w)) NotOfferer;
  Ok (close (offer acc) (buyer acc)
        (emit (OfferCancelled (Offer.name_hash o) (Offer.buyer o)) w)).
End CancelOffer.
