(* ===== verification/Auctions.v ===== *)
(** * Auctions

    programs/solans/src/instructions: start_auction.rs, bid.rs, settle_auction.rs and
    cancel_auction.rs.  Bids are in $SOLANS, held in a vault the auction's address
    owns; a higher bid refunds the one it replaces. *)
From stdpp Require Import gmap.
From S2P Require Import Prelude JsString Errors OnChain Runtime ChainState ProgramUtils Ownership.
From S2P Require Import Market.

Section Shared.
Context `{Runtime, Addresses}.

Definition auction_seeds (a : Pubkey) (x : Auction.t) : Chain unit :=
  seeds_bump a [AUCTION_SEED; Auction.name_hash x] (Auction.bump x).

(** The auction's own signature. *)
Definition auction_signer (x : Auction.t) : option Pubkey :=
  sign [AUCTION_SEED; Auction.name_hash x] (Auction.bump x).
End Shared.

Module StartAuction.
Record t := mk {
  owner : Pubkey; config : Pubkey; name_record : Pubkey; auction : Pubkey;
  solans_mint : Pubkey; bid_vault : Pubkey; token_program : Pubkey
}.

Definition handler `{Runtime, Addresses} (acc : t)
    (reserve_price min_increment duration_seconds : Z) (w : World) : Chain World :=
  cfg ← load pick_config (config acc) w;
  nr ← load pick_name (name_record acc) w;
  m ← load_mint (solans_mint acc) w;
  _ ← token_interface (token_program acc);
  let name_hash := NameRecord.name_hash nr in
  '(bump, w) ← init (auction acc) (owner acc) (8 + Auction.INIT_SPACE) [AUCTION_SEED; name_hash] w;
  w ← init_associated (bid_vault acc) (owner acc) (auction acc) (solans_mint acc)
        (token_program acc) w;
  _ ← config_seeds (config acc) cfg;
  _ ← name_seeds (name_record acc) nr;
  _ ← has_owner nr (owner acc);
  _ ← ensure (bool_decide (solans_mint acc = OnChain.solans_mint cfg)) InvalidMint;
  _ ← mint_program_is m (token_program acc);
  _ ← ensure (solans_enabled cfg) SolansNotConfigured;
  _ ← not_tokenized nr;
  _ ← top_level nr;
  _ ← ensure (negb (NameRecord.transfer_locked nr)) TransferLocked;
  _ ← not_listed nr;
  _ ← ensure (duration_seconds >? 0) AuctionEnded;
  end_time ← deadline w duration_seconds;
  let x := Auction.mk (owner acc) name_hash (bid_vault acc) None 0 reserve_price min_increment
             end_time bump in
  Ok (emit (AuctionStarted name_hash (owner acc) reserve_price end_time)
        (put (name_record acc) (AName (NameRecord.set_listed true nr))
          (put (auction acc) (AAuction x) w))).
End StartAuction.

Module Bid.
Record t := mk {
  bidder : Pubkey; auction : Pubkey; bidder_solans_account : Pubkey;
  prev_bidder_solans_account : option Pubkey; bid_vault : Pubkey; solans_mint : Pubkey;
  token_program : Pubkey
}.

(** The constraints on the account to refund. *)
Definition check_refund `{Runtime} (acc : t) (x : Auction.t)
    (prev : option TokenAccount) : Chain unit :=
  match prev with
  | Some p =>
      _ ← ensure (bool_decide (Auction.highest_bidder x = Some (ta_owner p))) WrongRefundAccount;
      _ ← token_mint_is p (solans_mint acc);
      token_program_is p (token_program acc)
  | None => Ok tt
  end.

Definition min_required (x : Auction.t) : Chain Z :=
  match Auction.highest_bidder x with
  | Some _ => custom (checked_u64 (Auction.highest_bid x + Auction.min_increment x))
  | None => Ok (Auction.reserve_price x)
  end.

(** A bid in the last [AUCTION_EXTENSION_SECONDS] moves the end. *)
Definition extended_end (x : Auction.t) (now : Z) : Chain Z :=
  min_end ← custom (checked_i64 (now + AUCTION_EXTENSION_SECONDS));
  Ok (if Auction.end_time x <? min_end then min_end else Auction.end_time x).

Definition handler `{Runtime, Addresses} (acc : t) (amount : Z) (w : World) : Chain World :=
  x ← load pick_auction (auction acc) w;
  from ← load_token (bidder_solans_account acc) w;
  prev ← load_token_opt (prev_bidder_solans_account acc) w;
  vault ← load_token (bid_vault acc) w;
  m ← load_mint (solans_mint acc) w;
  _ ← token_interface (token_program acc);
  _ ← auction_seeds (auction acc) x;
  _ ← wallet_token from (solans_mint acc) (bidder acc) (token_program acc);
  _ ← check_refund acc x prev;
  _ ← ensure (bool_decide (bid_vault acc = Auction.bid_vault x)) InvalidTreasury;
  _ ← token_mint_is vault (solans_mint acc);
  _ ← token_program_is vault (token_program acc);
  _ ← mint_program_is m (token_program acc);
  _ ← ensure (now w <? Auction.end_time x) AuctionEnded;
  _ ← ensure (negb (bool_decide (bidder acc = Auction.seller x))) SelfBid;
  required ← min_required x;
  _ ← ensure ((amount >? 0) && (required <=? amount)) BidTooLow;
  w ← (match Auction.highest_bidder x with
       | Some _ =>
           prev ← of_option (Custom WrongRefundAccount) (prev_bidder_solans_account acc);
           transfer_tokens_signed (token_program acc) (bid_vault acc) prev (solans_mint acc)
             (decimals m) (auction acc) (auction_signer x) (Auction.highest_bid x) w
       | None => Ok w
       end);
  w ← transfer_tokens (token_program acc) (bidder_solans_account acc) (bid_vault acc)
        (solans_mint acc) (decimals m) (bidder acc) amount w;
  end_time ← extended_end x (now w);
  let x' := Auction.mk (Auction.seller x) (Auction.name_hash x) (Auction.bid_vault x)
              (Some (bidder acc)) amount (Auction.reserve_price x) (Auction.min_increment x)
              end_time (Auction.bump x) in
  Ok (emit (BidPlaced (Auction.name_hash x) (bidder acc) amount end_time)
        (put (auction acc) (AAuction x') w)).
End Bid.

Module SettleAuction.
Record t := mk {
  settler : Pubkey; config : Pubkey; seller : Pubkey; seller_solans_account : option Pubkey;
  name_record : Pubkey; auction : Pubkey; bid_vault : Pubkey; solans_mint : Pubkey;
  token_program : Pubkey
}.

(** The seller's payment, the fee burned, the name to the winner. *)
Definition pay_out `{Runtime, Addresses} (acc : t) (cfg : Config) (x : Auction.t) (m : Mint)
    (nr : NameRecord.t) (w : World) : Chain (Z * NameRecord.t * World) :=
  match Auction.highest_bidder x with
  | Some winner_key =>
      '(fee, to_seller) ← sale_split cfg (Auction.highest_bid x);
      seller_solans ← of_option (Custom InvalidTreasury) (seller_solans_account acc);
      w ← transfer_tokens_signed (token_program acc) (bid_vault acc) seller_solans
            (solans_mint acc) (decimals m) (auction acc) (auction_signer x) to_seller w;
      w ← burn_tokens_signed (token_program acc) (solans_mint acc) (bid_vault acc)
            (auction acc) (auction_signer x) fee w;
      Ok (fee, NameRecord.set_owner winner_key nr, w)
  | None => Ok (0, nr, w)
  end.

Definition handler `{Runtime, Addresses} (acc : t) (w : World) : Chain World :=
  cfg ← load pick_config (config acc) w;
  _ ← system_account (seller acc) w;
  payout ← load_token_opt (seller_solans_account acc) w;
  nr ← load pick_name (name_record acc) w;
  x ← load pick_auction (auction acc) w;
  vault ← load_token (bid_vault acc) w;
  m ← load_mint (solans_mint acc) w;
  _ ← token_interface (token_program acc);
  _ ← config_seeds (config acc) cfg;
  _ ← ensure (bool_decide (seller acc = Auction.seller x)) NotSeller;
  _ ← (match payout with
       | Some p => wallet_token p (solans_mint acc) (seller acc) (token_program acc)
       | None => Ok tt
       end);
  _ ← name_seeds (name_record acc) nr;
  _ ← ensure (bool_decide (NameRecord.name_hash nr = Auction.name_hash x)) NameMismatch;
  _ ← auction_seeds (auction acc) x;
  _ ← ensure (bool_decide (bid_vault acc = Auction.bid_vault x)) InvalidTreasury;
  _ ← token_mint_is vault (solans_mint acc);
  _ ← token_program_is vault (token_program acc);
  _ ← mint_program_is m (token_program acc);
  _ ← ensure (Auction.end_time x <=? now w) AuctionActive;
  '(fee, nr, w) ← pay_out acc cfg x m nr w;
  w ← close_token_account (token_program acc) (bid_vault acc) (seller acc) (auction acc)
        (auction_signer x) w;
  Ok (close (auction acc) (seller acc)
        (emit (AuctionSettled (Auction.name_hash x) (Auction.seller x) (Auction.highest_bidder x)
                 (Auction.highest_bid x) fee)
          (put (name_record acc) (AName (NameRecord.set_listed false nr)) w))).
End SettleAuction.

Module CancelAuction.
Record t := mk {
  seller : Pubkey; name_record : Pubkey; auction : Pubkey; bid_vault : Pubkey;
  token_program : Pubkey
}.

Definition handler `{Runtime, Addresses} (acc : t) (w : World) : Chain World :=
  nr ← load pick_name (name_record acc) w;
  x ← load pick_auction (auction acc) w;
  vault ← load_token (bid_vault acc) w;
  _ ← token_interface (token_program acc);
  _ ← name_seeds (name_record acc) nr;
  _ ← ensure (bool_decide (NameRecord.name_hash nr = Auction.name_hash x)) NameMismatch;
  _ ← auction_seeds (auction acc) x;
  _ ← ensure (bool_decide (Auction.seller x = seller acc)) NotSeller;
  _ ← ensure (bool_decide (bid_vault acc = Auction.bid_vault x)) InvalidTreasury;
  _ ← token_program_is vault (token_program acc);
  _ ← ensure (bool_decide (Auction.highest_bidder x = None)) AuctionHasBids;
  w ← close_token_account (token_program acc) (bid_vault acc) (seller acc) (auction acc)
        (auction_signer x) w;
  Ok (close (auction acc) (seller acc)
        (emit (AuctionCancelled (Auction.name_hash x) (seller acc))
          (put (name_record acc) (AName (NameRecord.set_listed false nr)) w))).
End CancelAuction.
