(* ===== verification/Administration.v ===== *)
(** * Configuration and the burn pool

    programs/solans/src/instructions: init_config.rs, update_config.rs,
    transfer_admin.rs, init_burn_pool.rs, set_solans_params.rs and buyback_burn.rs. *)
From stdpp Require Import gmap.
From S2P Require Import Prelude JsString Errors OnChain Runtime ChainState ProgramUtils Market.

(** The economic parameters that [init_config] and [update_config] set. *)
Module ConfigParams.
Record t := mk {
  price_1 : Z; price_2 : Z; price_3 : Z; price_4 : Z; price_5plus : Z; price_numeric : Z;
  grace_period_seconds : Z; min_years : Z; max_years : Z; sol_treasury : Pubkey;
  marketplace_fee_bps : Z; staking_fee_bps : Z; referral_fee_bps : Z; burn_fee_bps : Z
}.

(** The ranges of the fields' types. *)
Definition typed (p : t) : Prop :=
  is_u64 (price_1 p) /\ is_u64 (price_2 p) /\ is_u64 (price_3 p) /\ is_u64 (price_4 p)
  /\ is_u64 (price_5plus p) /\ is_u64 (price_numeric p) /\ is_i64 (grace_period_seconds p)
  /\ is_u16 (min_years p) /\ is_u16 (max_years p) /\ is_u16 (marketplace_fee_bps p)
  /\ is_u16 (staking_fee_bps p) /\ is_u16 (referral_fee_bps p) /\ is_u16 (burn_fee_bps p).

(** The checks both make, in order. *)
Definition check (p : t) : Chain unit :=
  _ ← ensure ((min_years p >=? 1) && (min_years p <=? max_years p)) InvalidYears;
  _ ← ensure (grace_period_seconds p >=? 0) InvalidYears;
  _ ← ensure ((price_1 p >? 0) && (price_2 p >? 0) && (price_3 p >? 0) && (price_4 p >? 0)
              && (price_5plus p >? 0) && (price_numeric p >? 0)) InvalidPrice;
  _ ← ensure (marketplace_fee_bps p <=? MAX_FEE_BPS) InvalidFeeBps;
  ensure (staking_fee_bps p + referral_fee_bps p + burn_fee_bps p <? BPS_DENOMINATOR)
    InvalidFeeSplit.

(** The assignments both make. *)
Definition apply (p : t) (c : Config) : Config :=
  Build_Config (admin c) (payment_mint c) (treasury_token_account c)
    (price_1 p) (price_2 p) (price_3 p) (price_4 p) (price_5plus p) (price_numeric p)
    (grace_period_seconds p) (min_years p) (max_years p) (sol_treasury p)
    (marketplace_fee_bps p) (staking_vault c) (burn_vault c) (staking_fee_bps p)
    (referral_fee_bps p) (burn_fee_bps p) (solans_mint c) (solans_rate c)
    (solans_discount_bps c) (bump c).
End ConfigParams.

(** Assignments to single fields of [Config]. *)
Section Setters.
Variable c : Config.

Definition with_admin (v : Pubkey) : Config :=
  Build_Config v (payment_mint c) (treasury_token_account c) (price_1 c) (price_2 c) (price_3 c)
    (price_4 c) (price_5plus c) (price_numeric c) (grace_period_seconds c) (min_years c)
    (max_years c) (sol_treasury c) (marketplace_fee_bps c) (staking_vault c) (burn_vault c)
    (staking_fee_bps c) (referral_fee_bps c) (burn_fee_bps c) (solans_mint c) (solans_rate c)
    (solans_discount_bps c) (bump c).
Definition with_burn_pool (vault mint : Pubkey) : Config :=
  Build_Config (admin c) (payment_mint c) (treasury_token_account c) (price_1 c) (price_2 c)
    (price_3 c) (price_4 c) (price_5plus c) (price_numeric c) (grace_period_seconds c)
    (min_years c) (max_years c) (sol_treasury c) (marketplace_fee_bps c) (staking_vault c) vault
    (staking_fee_bps c) (referral_fee_bps c) (burn_fee_bps c) mint (solans_rate c)
    (solans_discount_bps c) (bump c).
Definition with_solans_params (rate discount_bps : Z) : Config :=
  Build_Config (admin c) (payment_mint c) (treasury_token_account c) (price_1 c) (price_2 c)
    (price_3 c) (price_4 c) (price_5plus c) (price_numeric c) (grace_period_seconds c)
    (min_years c) (max_years c) (sol_treasury c) (marketplace_fee_bps c) (staking_vault c)
    (burn_vault c) (staking_fee_bps c) (referral_fee_bps c) (burn_fee_bps c) (solans_mint c)
    rate discount_bps (bump c).
Definition with_staking_vault (v : Pubkey) : Config :=
  Build_Config (admin c) (payment_mint c) (treasury_token_account c) (price_1 c) (price_2 c)
    (price_3 c) (price_4 c) (price_5plus c) (price_numeric c) (grace_period_seconds c)
    (min_years c) (max_years c) (sol_treasury c) (marketplace_fee_bps c) v (burn_vault c)
    (staking_fee_bps c) (referral_fee_bps c) (burn_fee_bps c) (solans_mint c) (solans_rate c)
    (solans_discount_bps c) (bump c).
End Setters.

(** [has_one = admin @ NotAdmin]. *)
Definition has_admin (c : Config) (admin : Pubkey) : Chain unit :=
  ensure (bool_decide (OnChain.admin c = admin)) NotAdmin.

Module InitConfig.
Record t := mk {
  admin : Pubkey; config : Pubkey; payment_mint : Pubkey; treasury_token_account : Pubkey;
  staking_vault : Pubkey; burn_vault : Pubkey; token_program : Pubkey
}.

Definition handler `{Runtime, Addresses} (acc : t) (p : ConfigParams.t) (w : World)
    : Chain World :=
  m ← load_mint (payment_mint acc) w;
  treasury ← load_token (treasury_token_account acc) w;
  staking ← load_token (staking_vault acc) w;
  burn ← load_token (burn_vault acc) w;
  _ ← token_interface (token_program acc);
  '(bump, w) ← init (config acc) (admin acc) (8 + Config_INIT_SPACE) [CONFIG_SEED] w;
  _ ← token_mint_is treasury (payment_mint acc);
  _ ← token_program_is treasury (token_program acc);
  _ ← token_mint_is staking (payment_mint acc);
  _ ← token_program_is staking (token_program acc);
  _ ← token_mint_is burn (payment_mint acc);
  _ ← token_program_is burn (token_program acc);
  _ ← ConfigParams.check p;
  let c := Build_Config (admin acc) (payment_mint acc) (treasury_token_account acc)
             0 0 0 0 0 0 0 0 0 Pubkey_default 0 (staking_vault acc) (burn_vault acc) 0 0 0
             Pubkey_default 0 0 bump in
  Ok (put (config acc) (AConfig (ConfigParams.apply p c)) w).
End InitConfig.

Module UpdateConfig.
Record t := mk { admin : Pubkey; config : Pubkey }.

Definition handler `{Runtime, Addresses} (acc : t) (p : ConfigParams.t) (w : World)
    : Chain World :=
  c ← load pick_config (config acc) w;
  _ ← config_seeds (config acc) c;
  _ ← has_admin c (admin acc);
  _ ← ConfigParams.check p;
  Ok (put (config acc) (AConfig (ConfigParams.apply p c)) w).
End UpdateConfig.

Module TransferAdmin.
Record t := mk { admin : Pubkey; config : Pubkey }.

Definition handler `{Runtime, Addresses} (acc : t) (new_admin : Pubkey) (w : World)
    : Chain World :=
  c ← load pick_config (config acc) w;
  _ ← config_seeds (config acc) c;
  _ ← has_admin c (admin acc);
  Ok (emit (AdminTransferred (OnChain.admin c) new_admin)
        (put (config acc) (AConfig (with_admin c new_admin)) w)).
End TransferAdmin.

Module InitBurnPool.
Record t := mk {
  admin : Pubkey; config : Pubkey; solans_mint : Pubkey; payment_mint : Pubkey;
  burn_vault : Pubkey; token_program : Pubkey
}.

Definition handler `{Runtime, Addresses} (acc : t) (w : World) : Chain World :=
  c ← load pick_config (config acc) w;
  _ ← load_mint (solans_mint acc) w;
  _ ← load_mint (payment_mint acc) w;
  _ ← token_interface (token_program acc);
  w ← init_associated (burn_vault acc) (admin acc) (config acc) (payment_mint acc)
        (token_program acc) w;
  _ ← config_seeds (config acc) c;
  _ ← has_admin c (admin acc);
  _ ← ensure (bool_decide (payment_mint acc = OnChain.payment_mint c)) InvalidMint;
  Ok (put (config acc) (AConfig (with_burn_pool c (burn_vault acc) (solans_mint acc))) w).
End InitBurnPool.

Module SetSolansParams.
Record t := mk { admin : Pubkey; config : Pubkey }.

Definition handler `{Runtime, Addresses} (acc : t) (solans_rate solans_discount_bps : Z)
    (w : World) : Chain World :=
  c ← load pick_config (config acc) w;
  _ ← config_seeds (config acc) c;
  _ ← has_admin c (admin acc);
  _ ← ensure (solans_discount_bps <? BPS_DENOMINATOR) InvalidDiscount;
  Ok (put (config acc) (AConfig (with_solans_params c solans_rate solans_discount_bps)) w).
End SetSolansParams.

Module BuybackBurnIx.
Record t := mk {
  keeper : Pubkey; config : Pubkey; burn_vault : Pubkey; keeper_payment_account : Pubkey;
  keeper_solans_account : Pubkey; solans_mint : Pubkey; payment_mint : Pubkey;
  token_program : Pubkey
}.

Definition handler `{Runtime, Addresses} (acc : t) (solans_amount : Z) (w : World)
    : Chain World :=
  c ← load pick_config (config acc) w;
  vault ← load_token (burn_vault acc) w;
  payment ← load_token (keeper_payment_account acc) w;
  solans ← load_token (keeper_solans_account acc) w;
  solans_m ← load_mint (solans_mint acc) w;
  payment_m ← load_mint (payment_mint acc) w;
  _ ← token_interface (token_program acc);
  _ ← config_seeds (config acc) c;
  _ ← ensure (bool_decide (burn_vault acc = OnChain.burn_vault c)) InvalidTreasury;
  _ ← wallet_token vault (payment_mint acc) (config acc) (token_program acc);
  _ ← wallet_token payment (payment_mint acc) (keeper acc) (token_program acc);
  _ ← wallet_token solans (solans_mint acc) (keeper acc) (token_program acc);
  _ ← ensure (bool_decide (solans_mint acc = OnChain.solans_mint c)) InvalidMint;
  _ ← mint_program_is solans_m (token_program acc);
  _ ← ensure (bool_decide (payment_mint acc = OnChain.payment_mint c)) InvalidMint;
  _ ← mint_program_is payment_m (token_program acc);
  _ ← ensure (solans_enabled c) SolansNotConfigured;
  _ ← ensure (solans_amount >? 0) InsufficientBurnVault;
  usdc_out ← custom (buyback_usdc c solans_amount);
  _ ← ensure (usdc_out >? 0) InsufficientBurnVault;
  _ ← ensure (usdc_out <=? ta_amount vault) InsufficientBurnVault;
  w ← transfer_tokens_signed (token_program acc) (burn_vault acc) (keeper_payment_account acc)
        (payment_mint acc) (decimals payment_m) (config acc) (sign [CONFIG_SEED] (OnChain.bump c))
        usdc_out w;
  w ← burn_tokens (token_program acc) (solans_mint acc) (keeper_solans_account acc) (keeper acc)
        solans_amount w;
  Ok (emit (BuybackBurn (keeper acc) solans_amount usdc_out) w).
End BuybackBurnIx.
