(* ===== verification/StakingPool.v ===== *)
(** * Staking

    programs/solans/src/instructions: init_stake_pool.rs, stake.rs, unstake.rs and
    claim_rewards.rs, over the reward accounting of [Staking] (state/stake.rs). *)
From stdpp Require Import gmap.
From S2P Require Import Prelude JsString Errors OnChain Staking Runtime ChainState ProgramUtils.
From S2P Require Import Market Administration.

(** ** state/stake.rs on the accounts *)

Definition pool_of (p : ChainState.StakePool.t) : Staking.StakePool :=
  MkStakePool (StakePool.total_staked p) (StakePool.acc_reward_per_share p)
    (StakePool.last_reward_balance p).
Definition position_of (s : ChainState.StakeAccount.t) : Staking.StakeAccount :=
  MkStakeAccount (StakeAccount.amount s) (StakeAccount.reward_debt s).

(** The pool with the accounting of [q]. *)
Definition with_accounting (p : ChainState.StakePool.t) (q : Staking.StakePool)
    : ChainState.StakePool.t :=
  StakePool.mk (StakePool.solans_mint p) (StakePool.stake_vault p) (StakePool.reward_vault p)
    (total_staked q) (acc_reward_per_share q) (last_reward_balance q) (StakePool.bump p).

(** [pool.sync(reward_before)?; pool.pending(&stake)?]. *)
Definition settle (p : ChainState.StakePool.t) (s : ChainState.StakeAccount.t) (reward_before : Z)
    : Chain (ChainState.StakePool.t * Z) :=
  q ← custom (sync (pool_of p) reward_before);
  pending ← custom (pending q (position_of s));
  Ok (with_accounting p q, pending).

(** The position's new amount and the reward debt it re-bases to. *)
Definition rebase (p : ChainState.StakePool.t) (s : ChainState.StakeAccount.t) (amount : Z)
    : Chain ChainState.StakeAccount.t :=
  debt ← custom (accrued (pool_of p) amount);
  Ok (StakeAccount.mk (StakeAccount.owner s) amount debt (StakeAccount.bump s)).

Definition with_total (p : ChainState.StakePool.t) (total : Z) : ChainState.StakePool.t :=
  StakePool.mk (StakePool.solans_mint p) (StakePool.stake_vault p) (StakePool.reward_vault p)
    total (StakePool.acc_reward_per_share p) (StakePool.last_reward_balance p) (StakePool.bump p).
Definition with_watermark (p : ChainState.StakePool.t) (balance : Z) : ChainState.StakePool.t :=
  StakePool.mk (StakePool.solans_mint p) (StakePool.stake_vault p) (StakePool.reward_vault p)
    (StakePool.total_staked p) (StakePool.acc_reward_per_share p) balance (StakePool.bump p).

Section Shared.
Context `{Runtime, Addresses}.

Definition pool_seeds (a : Pubkey) (p : StakePool.t) : Chain unit :=
  seeds_bump a [STAKE_POOL_SEED] (StakePool.bump p).

(** [reward_vault.reload()]. *)
Definition reload (a : Pubkey) (w : World) : Chain Z := ta_amount <$> load_token a w.
End Shared.

Module InitStakePool.
Record t := mk {
  admin : Pubkey; config : Pubkey; stake_pool : Pubkey; solans_mint : Pubkey;
  payment_mint : Pubkey; stake_vault : Pubkey; reward_vault : Pubkey; token_program : Pubkey
}.

Definition handler `{Runtime, Addresses} (acc : t) (w : World) : Chain World :=
  c ← load pick_config (config acc) w;
  _ ← load_mint (solans_mint acc) w;
  _ ← load_mint (payment_mint acc) w;
  _ ← token_interface (token_program acc);
  '(bump, w) ← init (stake_pool acc) (admin acc) (8 + StakePool.INIT_SPACE) [STAKE_POOL_SEED] w;
  w ← init_associated (stake_vault acc) (admin acc) (stake_pool acc) (solans_mint acc)
        (token_program acc) w;
  w ← init_associated (reward_vault acc) (admin acc) (stake_pool acc) (payment_mint acc)
        (token_program acc) w;
  _ ← config_seeds (config acc) c;
  _ ← has_admin c (admin acc);
  _ ← ensure (bool_decide (payment_mint acc = OnChain.payment_mint c)) InvalidMint;
  let pool := StakePool.mk (solans_mint acc) (stake_vault acc) (reward_vault acc) 0 0 0 bump in
  Ok (put (config acc) (AConfig (with_staking_vault c (reward_vault acc)))
        (put (stake_pool acc) (AStakePool pool) w)).
End InitStakePool.

Module Stake.
Record t := mk {
  staker : Pubkey; config : Pubkey; stake_pool : Pubkey; stake_account : Pubkey;
  staker_token_account : Pubkey; staker_reward_account : Pubkey; stake_vault : Pubkey;
  reward_vault : Pubkey; solans_mint : Pubkey; payment_mint : Pubkey; token_program : Pubkey
}.

(** [init_if_needed]: the staker's position, all zero when it is new. *)
Definition open_position `{Runtime, Addresses} (acc : t) (w : World)
    : Chain (ChainState.StakeAccount.t * World) :=
  let seeds := [STAKE_SEED; staker acc] in
  match accounts w !! stake_account acc with
  | None =>
      '(_, w) ← init (stake_account acc) (staker acc) (8 + StakeAccount.INIT_SPACE) seeds w;
      Ok (StakeAccount.mk Pubkey_default 0 0 0, w)
  | Some x =>
      s ← of_option (Anchor AccountDiscriminatorMismatch) (pick_stake x);
      _ ← anchor (bool_decide (fst (find_program_address seeds ID) = stake_account acc))
            ConstraintSeeds;
      Ok (s, w)
  end.

(** The first stake records the owner and the bump. *)
Definition adopt `{Addresses} (acc : t) (s : ChainState.StakeAccount.t)
    : ChainState.StakeAccount.t :=
  if bool_decide (StakeAccount.owner s = Pubkey_default)
  then StakeAccount.mk (staker acc) (StakeAccount.amount s) (StakeAccount.reward_debt s)
         (snd (find_program_address [STAKE_SEED; staker acc] ID))
  else s.

Definition handler `{Runtime, Addresses} (acc : t) (amount : Z) (w : World) : Chain World :=
  c ← load pick_config (config acc) w;
  pool ← load pick_stake_pool (stake_pool acc) w;
  source ← load_token (staker_token_account acc) w;
  reward ← load_token (staker_reward_account acc) w;
  svault ← load_token (stake_vault acc) w;
  rvault ← load_token (reward_vault acc) w;
  m ← load_mint (solans_mint acc) w;
  pm ← load_mint (payment_mint acc) w;
  _ ← token_interface (token_program acc);
  '(s, w) ← open_position acc w;
  _ ← config_seeds (config acc) c;
  _ ← pool_seeds (stake_pool acc) pool;
  _ ← wallet_token source (solans_mint acc) (staker acc) (token_program acc);
  _ ← wallet_token reward (payment_mint acc) (staker acc) (token_program acc);
  _ ← ensure (bool_decide (stake_vault acc = StakePool.stake_vault pool)) StakeMintMismatch;
  _ ← token_program_is svault (token_program acc);
  _ ← ensure (bool_decide (reward_vault acc = StakePool.reward_vault pool)) InvalidTreasury;
  _ ← token_program_is rvault (token_program acc);
  _ ← ensure (bool_decide (solans_mint acc = StakePool.solans_mint pool)) StakeMintMismatch;
  _ ← ensure (bool_decide (payment_mint acc = OnChain.payment_mint c)) InvalidMint;
  _ ← ensure (amount >? 0) InsufficientStake;
  let s := adopt acc s in
  '(pool, pending) ← settle pool s (ta_amount rvault);
  w ← transfer_tokens_signed (token_program acc) (reward_vault acc) (staker_reward_account acc)
        (payment_mint acc) (decimals pm) (stake_pool acc)
        (sign [STAKE_POOL_SEED] (StakePool.bump pool)) pending w;
  w ← transfer_tokens (token_program acc) (staker_token_account acc) (stake_vault acc)
        (solans_mint acc) (decimals m) (staker acc) amount w;
  total ← custom (checked_u64 (StakePool.total_staked pool + amount));
  staked ← custom (checked_u64 (StakeAccount.amount s + amount));
  s ← rebase (with_total pool total) s staked;
  balance ← reload (reward_vault acc) w;
  Ok (put (stake_account acc) (AStake s)
        (put (stake_pool acc) (AStakePool (with_watermark (with_total pool total) balance)) w)).
End Stake.

Module Unstake.
Record t := mk {
  staker : Pubkey; config : Pubkey; stake_pool : Pubkey; stake_account : Pubkey;
  staker_token_account : Pubkey; staker_reward_account : Pubkey; stake_vault : Pubkey;
  reward_vault : Pubkey; solans_mint : Pubkey; payment_mint : Pubkey; token_program : Pubkey
}.

Definition handler `{Runtime, Addresses} (acc : t) (amount : Z) (w : World) : Chain World :=
  c ← load pick_config (config acc) w;
  pool ← load pick_stake_pool (stake_pool acc) w;
  s ← load pick_stake (stake_account acc) w;
  target ← load_token (staker_token_account acc) w;
  reward ← load_token (staker_reward_account acc) w;
  svault ← load_token (stake_vault acc) w;
  rvault ← load_token (reward_vault acc) w;
  m ← load_mint (solans_mint acc) w;
  pm ← load_mint (payment_mint acc) w;
  _ ← token_interface (token_program acc);
  _ ← config_seeds (config acc) c;
  _ ← pool_seeds (stake_pool acc) pool;
  _ ← seeds_bump (stake_account acc) [STAKE_SEED; staker acc] (StakeAccount.bump s);
  _ ← wallet_token target (solans_mint acc) (staker acc) (token_program acc);
  _ ← wallet_token reward (payment_mint acc) (staker acc) (token_program acc);
  _ ← ensure (bool_decide (stake_vault acc = StakePool.stake_vault pool)) StakeMintMismatch;
  _ ← token_program_is svault (token_program acc);
  _ ← ensure (bool_decide (reward_vault acc = StakePool.reward_vault pool)) InvalidTreasury;
  _ ← token_program_is rvault (token_program acc);
  _ ← ensure (bool_decide (solans_mint acc = StakePool.solans_mint pool)) StakeMintMismatch;
  _ ← ensure (bool_decide (payment_mint acc = OnChain.payment_mint c)) InvalidMint;
  _ ← ensure (amount <=? StakeAccount.amount s) InsufficientStake;
  '(pool, pending) ← settle pool s (ta_amount rvault);
  let signer := sign [STAKE_POOL_SEED] (StakePool.bump pool) in
  w ← transfer_tokens_signed (token_program acc) (reward_vault acc) (staker_reward_account acc)
        (payment_mint acc) (decimals pm) (stake_pool acc) signer pending w;
  w ← transfer_tokens_signed (token_program acc) (stake_vault acc) (staker_token_account acc)
        (solans_mint acc) (decimals m) (stake_pool acc) signer amount w;
  total ← custom (checked_u64 (StakePool.total_staked pool - amount));
  staked ← custom (checked_u64 (StakeAccount.amount s - amount));
  s ← rebase (with_total pool total) s staked;
  balance ← reload (reward_vault acc) w;
  Ok (put (stake_account acc) (AStake s)
        (put (stake_pool acc) (AStakePool (with_watermark (with_total pool total) balance)) w)).
End Unstake.

Module ClaimRewards.
Record t := mk {
  staker : Pubkey; config : Pubkey; stake_pool : Pubkey; stake_account : Pubkey;
  staker_reward_account : Pubkey; reward_vault : Pubkey; payment_mint : Pubkey;
  token_program : Pubkey
}.

Definition handler `{Runtime, Addresses} (acc : t) (w : World) : Chain World :=
  c ← load pick_config (config acc) w;
  pool ← load pick_stake_pool (stake_pool acc) w;
  s ← load pick_stake (stake_account acc) w;
  reward ← load_token (staker_reward_account acc) w;
  rvault ← load_token (reward_vault acc) w;
  pm ← load_mint (payment_mint acc) w;
  _ ← token_interface (token_program acc);
  _ ← config_seeds (config acc) c;
  _ ← pool_seeds (stake_pool acc) pool;
  _ ← seeds_bump (stake_account acc) [STAKE_SEED; staker acc] (StakeAccount.bump s);
  _ ← wallet_token reward (payment_mint acc) (staker acc) (token_program acc);
  _ ← ensure (bool_decide (reward_vault acc = StakePool.reward_vault pool)) InvalidTreasury;
  _ ← token_program_is rvault (token_program acc);
  _ ← ensure (bool_decide (payment_mint acc = OnChain.payment_mint c)) InvalidMint;
  '(pool, pending) ← settle pool s (ta_amount rvault);
  w ← transfer_tokens_signed (token_program acc) (reward_vault acc) (staker_reward_account acc)
        (payment_mint acc) (decimals pm) (stake_pool acc)
        (sign [STAKE_POOL_SEED] (StakePool.bump pool)) pending w;
  s ← rebase pool s (StakeAccount.amount s);
  balance ← reload (reward_vault acc) w;
  Ok (put (stake_account acc) (AStake s)
        (put (stake_pool acc) (AStakePool (with_watermark pool balance)) w)).
End ClaimRewards.
