(* ===== verification/Registry.v ===== *)
(** * The program as a state machine

    programs/solans/src/lib.rs: the forty instructions, one constructor each, and
    [execute], which runs the handler.  [reach] are the worlds the program can
    be in, with the paths of the names created on the way: after instructions of any
    wallets, in any order, and moves of the rest of the chain in between. *)
From stdpp Require Import gmap.
From S2P Require Import Prelude JsString Errors OnChain Runtime ChainState ProgramUtils.
From S2P Require Import Registration Ownership Market Auctions Administration StakingPool.

Inductive Instruction : Type :=
| init_config (acc : InitConfig.t) (p : ConfigParams.t)
| register_name (acc : RegisterName.t) (name tld : list Z) (name_hash : bytes) (years : Z)
| renew_name (acc : RenewName.t) (name tld : list Z) (years : Z)
| auto_renew (acc : AutoRenew.t) (name tld : list Z) (years : Z)
| transfer_name (acc : TransferName.t) (new_owner : Pubkey)
| lock_transfer (acc : LockTransfer.t) (lock : bool)
| set_controller (acc : SetController.t) (controller : option Pubkey)
| update_record (acc : UpdateRecord.t) (key : list Z) (value : option (list Z))
| set_resolver (acc : SetResolver.t) (resolver : option Pubkey)
| set_hosting (acc : SetHosting.t) (hosting_ref : option (list Z))
| set_reverse (acc : SetReverse.t) (name : list Z)
| claim_expired (acc : ClaimExpired.t) (name tld : list Z) (years : Z)
| burn_name (acc : BurnName.t)
| tokenize_name (acc : TokenizeName.t) (name : list Z)
| redeem_name (acc : RedeemName.t)
| wrap_subdomain (acc : WrapSubdomain.t) (label : list Z) (name_hash : bytes)
| revoke_subdomain (acc : RevokeSubdomain.t)
| list_name (acc : ListName.t) (price duration_seconds : Z)
| update_listing (acc : UpdateListing.t) (price duration_seconds : Z)
| cancel_listing (acc : CancelListing.t)
| buy_name (acc : BuyName.t) (expected_price : Z)
| make_offer (acc : MakeOffer.t) (amount duration_seconds : Z)
| accept_offer (acc : AcceptOffer.t)
| cancel_offer (acc : CancelOffer.t)
| start_auction (acc : StartAuction.t) (reserve_price min_increment duration_seconds : Z)
| bid (acc : Bid.t) (amount : Z)
| settle_auction (acc : SettleAuction.t)
| cancel_auction (acc : CancelAuction.t)
| update_config (acc : UpdateConfig.t) (p : ConfigParams.t)
| transfer_admin (acc : TransferAdmin.t) (new_admin : Pubkey)
| init_stake_pool (acc : InitStakePool.t)
| stake (acc : Stake.t) (amount : Z)
| unstake (acc : Unstake.t) (amount : Z)
| claim_rewards (acc : ClaimRewards.t)
| init_burn_pool (acc : InitBurnPool.t)
| set_solans_params (acc : SetSolansParams.t) (solans_rate solans_discount_bps : Z)
| register_with_solans (acc : RegisterWithSolans.t) (name tld : list Z) (name_hash : bytes)
    (years : Z)
| renew_with_solans (acc : RenewWithSolans.t) (name tld : list Z) (years : Z)
| buyback_burn (acc : BuybackBurnIx.t) (solans_amount : Z)
| resolve (acc : Resolve.t) (name_hash : bytes) (record_key : option (list Z)).

(** The accounts declared [Signer]. *)
Definition signers (ix : Instruction) : list Pubkey :=
  match ix with
  | init_config acc _ => [InitConfig.admin acc]
  | register_name acc _ _ _ _ => [RegisterName.payer acc]
  | renew_name acc _ _ _ => [RenewName.payer acc]
  | auto_renew acc _ _ _ => [AutoRenew.keeper acc]
  | transfer_name acc _ => [TransferName.owner acc]
  | lock_transfer acc _ => [LockTransfer.owner acc]
  | set_controller acc _ => [SetController.owner acc]
  | update_record acc _ _ => [UpdateRecord.authority acc]
  | set_resolver acc _ => [SetResolver.authority acc]
  | set_hosting acc _ => [SetHosting.authority acc]
  | set_reverse acc _ => [SetReverse.owner acc]
  | claim_expired acc _ _ _ => [ClaimExpired.claimer acc]
  | burn_name acc => [BurnName.owner acc]
  | tokenize_name acc _ => [TokenizeName.owner acc; TokenizeName.mint acc]
  | redeem_name acc => [RedeemName.redeemer acc]
  | wrap_subdomain acc _ _ => [WrapSubdomain.owner acc]
  | revoke_subdomain acc => [RevokeSubdomain.owner acc]
  | list_name acc _ _ => [ListName.owner acc]
  | update_listing acc _ _ => [UpdateListing.seller acc]
  | cancel_listing acc => [CancelListing.canceller acc]
  | buy_name acc _ => [BuyName.buyer acc]
  | make_offer acc _ _ => [MakeOffer.buyer acc]
  | accept_offer acc => [AcceptOffer.owner acc]
  | cancel_offer acc => [CancelOffer.canceller acc]
  | start_auction acc _ _ _ => [StartAuction.owner acc]
  | bid acc _ => [Bid.bidder acc]
  | settle_auction acc => [SettleAuction.settler acc]
  | cancel_auction acc => [CancelAuction.seller acc]
  | update_config acc _ => [UpdateConfig.admin acc]
  | transfer_admin acc _ => [TransferAdmin.admin acc]
  | init_stake_pool acc => [InitStakePool.admin acc]
  | stake acc _ => [Stake.staker acc]
  | unstake acc _ => [Unstake.staker acc]
  | claim_rewards acc => [ClaimRewards.staker acc]
  | init_burn_pool acc => [InitBurnPool.admin acc]
  | set_solans_params acc _ _ => [SetSolansParams.admin acc]
  | register_with_solans acc _ _ _ _ => [RegisterWithSolans.payer acc]
  | renew_with_solans acc _ _ _ => [RenewWithSolans.payer acc]
  | buyback_burn acc _ => [BuybackBurnIx.keeper acc]
  | resolve _ _ _ => []
  end.

(** The ranges of the arguments, as the instruction's types keep them. *)
Definition typed (ix : Instruction) : Prop :=
  match ix with
  | init_config _ p | update_config _ p => ConfigParams.typed p
  | register_name _ _ _ _ years | register_with_solans _ _ _ _ years
  | renew_name _ _ _ years | renew_with_solans _ _ _ years | auto_renew _ _ _ years
  | claim_expired _ _ _ years => is_u16 years
  | list_name _ amount duration_seconds | update_listing _ amount duration_seconds
  | make_offer _ amount duration_seconds => is_u64 amount /\ is_i64 duration_seconds
  | start_auction _ reserve_price min_increment duration_seconds =>
      is_u64 reserve_price /\ is_u64 min_increment /\ is_i64 duration_seconds
  | buy_name _ amount | bid _ amount | stake _ amount | unstake _ amount
  | buyback_burn _ amount => is_u64 amount
  | set_solans_params _ solans_rate solans_discount_bps =>
      is_u64 solans_rate /\ is_u16 solans_discount_bps
  | _ => True
  end.

Section Machine.
Context `{Runtime, Addresses, Keccak}.

(** The dispatch of [#[program] mod solans]. *)
Definition execute (ix : Instruction) (w : World) : Chain World :=
  match ix with
  | init_config acc p => InitConfig.handler acc p w
  | register_name acc name tld name_hash years => RegisterName.handler acc name tld name_hash years w
  | renew_name acc name tld years => RenewName.handler acc name tld years w
  | auto_renew acc name tld years => AutoRenew.handler acc name tld years w
  | transfer_name acc new_owner => TransferName.handler acc new_owner w
  | lock_transfer acc lock => LockTransfer.handler acc lock w
  | set_controller acc controller => SetController.handler acc controller w
  | update_record acc key value => UpdateRecord.handler acc key value w
  | set_resolver acc resolver => SetResolver.handler acc resolver w
  | set_hosting acc hosting_ref => SetHosting.handler acc hosting_ref w
  | set_reverse acc name => SetReverse.handler acc name w
  | claim_expired acc name tld years => ClaimExpired.handler acc name tld years w
  | burn_name acc => BurnName.handler acc w
  | tokenize_name acc name => TokenizeName.handler acc name w
  | redeem_name acc => RedeemName.handler acc w
  | wrap_subdomain acc label name_hash => WrapSubdomain.handler acc label name_hash w
  | revoke_subdomain acc => RevokeSubdomain.handler acc w
  | list_name acc price duration_seconds => ListName.handler acc price duration_seconds w
  | update_listing acc price duration_seconds => UpdateListing.handler acc price duration_seconds w
  | cancel_listing acc => CancelListing.handler acc w
  | buy_name acc expected_price => BuyName.handler acc expected_price w
  | make_offer acc amount duration_seconds => MakeOffer.handler acc amount duration_seconds w
  | accept_offer acc => AcceptOffer.handler acc w
  | cancel_offer acc => CancelOffer.handler acc w
  | start_auction acc reserve_price min_increment duration_seconds =>
      StartAuction.handler acc reserve_price min_increment duration_seconds w
  | bid acc amount => Bid.handler acc amount w
  | settle_auction acc => SettleAuction.handler acc w
  | cancel_auction acc => CancelAuction.handler acc w
  | update_config acc p => UpdateConfig.handler acc p w
  | transfer_admin acc new_admin => TransferAdmin.handler acc new_admin w
  | init_stake_pool acc => InitStakePool.handler acc w
  | stake acc amount => Stake.handler acc amount w
  | unstake acc amount => Unstake.handler acc amount w
  | claim_rewards acc => ClaimRewards.handler acc w
  | init_burn_pool acc => InitBurnPool.handler acc w
  | set_solans_params acc rate discount_bps => SetSolansParams.handler acc rate discount_bps w
  | register_with_solans acc name tld name_hash years =>
      RegisterWithSolans.handler acc name tld name_hash years w
  | renew_with_solans acc name tld years => RenewWithSolans.handler acc name tld years w
  | buyback_burn acc solans_amount => BuybackBurnIx.handler acc solans_amount w
  | resolve acc name_hash record_key => _ ← Resolve.handler acc name_hash record_key w; Ok w
  end.

(** ** The names created *)

(** A registered name, or a label under one. *)
Inductive Path : Type :=
| Top (name tld : list Z)
| Sub (p : Path) (label : list Z).

Fixpoint path_hash (p : Path) : bytes :=
  match p with
  | Top name tld => compute_name_hash name tld
  | Sub p label => compute_subdomain_hash (path_hash p) label
  end.

Fixpoint path_depth (p : Path) : Z :=
  match p with Top _ _ => 0 | Sub p _ => path_depth p + 1 end.

Fixpoint path_tld (p : Path) : list Z :=
  match p with Top _ tld => tld | Sub p _ => path_tld p end.

Definition name_address (name_hash : bytes) : Pubkey :=
  fst (find_program_address [NAME_SEED; name_hash] ID).
Definition path_address (p : Path) : Pubkey := name_address (path_hash p).

Definition path_parent (p : Path) : option Path :=
  match p with Top _ _ => None | Sub p _ => Some p end.

(** Every label passes the program's validation, under an allowed TLD. *)
Fixpoint valid_path (p : Path) : Prop :=
  match p with
  | Top name tld => validate_name name = Ok tt /\ validate_tld tld = Ok tt
  | Sub p label => valid_path p /\ validate_name label = Ok tt
  end.

(** The name an instruction creates, if it does: top-level, or a label under the record
    at an address. *)
Inductive Creation : Type :=
| Nothing
| TopLevel (name tld : list Z)
| Under (parent_name : Pubkey) (label : list Z).

Definition creation (ix : Instruction) : Creation :=
  match ix with
  | register_name _ name tld _ _ | register_with_solans _ name tld _ _ => TopLevel name tld
  | wrap_subdomain acc label _ => Under (WrapSubdomain.parent_name acc) label
  | _ => Nothing
  end.

(** Its paths, given those created before. *)
Definition created (c : Creation) (h : list Path) : list Path :=
  match c with
  | Nothing => []
  | TopLevel name tld => [Top name tld]
  | Under a label =>
      (fun p => Sub p label) <$> List.filter (fun p => bool_decide (path_address p = a)) h
  end.

(** ** Steps *)

(** The seeds of constants.rs: every address of the program is derived from one of them. *)
Definition PROGRAM_SEEDS : list bytes :=
  [CONFIG_SEED; NAME_SEED; REVERSE_SEED; LISTING_SEED; OFFER_SEED; STAKE_POOL_SEED; STAKE_SEED;
   AUCTION_SEED].

(** Addresses of the program have no private key: no account of the program signs, nor
    any that it could derive. *)
Definition wallet (w : World) (a : Pubkey) : Prop :=
  accounts w !! a = None
  /\ forall seed rest, seed ∈ PROGRAM_SEEDS -> create_program_address (seed :: rest) ID <> Some a.

(** The accounts of other programs that an instruction has them close. *)
Definition closes (ix : Instruction) : list Pubkey :=
  match ix with
  | redeem_name acc =>
      [RedeemName.metadata acc; RedeemName.token_account acc; RedeemName.master_edition acc]
  | settle_auction acc => [SettleAuction.bid_vault acc]
  | cancel_auction acc => [CancelAuction.bid_vault acc]
  | _ => []
  end.

(** What the runtime guarantees of an instruction it runs: the arguments have their types,
    the signers are wallets, and an account has one owner, so those that other programs
    close are not this program's. *)
Record callable (ix : Instruction) (w : World) : Prop := {
  call_typed : typed ix;
  call_signed : Forall (wallet w) (signers ix);
  call_closes : Forall (fun a => accounts w !! a = None) (closes ix);
}.

(** The rest of the chain: time passes, lamports and tokens move, but only this program
    takes lamports from its accounts, and only with its signature are tokens taken from
    the token accounts they own. *)
Definition elsewhere (w w' : World) : Prop :=
  accounts w' = accounts w /\ events w' = events w /\ now w <= now w'
  /\ (forall a x, accounts w !! a = Some x -> lamports (ledger w) a <= lamports (ledger w') a)
  /\ (forall a t x, token_account (ledger w) a = Some t -> plain t ->
       accounts w !! ta_owner t = Some x ->
       exists t', token_account (ledger w') a = Some t' /\ grown t t').

Inductive reach : list Path -> World -> Prop :=
| reach_start w : accounts w = ∅ -> reach [] w
| reach_execute h ix w w' : reach h w -> callable ix w -> execute ix w = Ok w' ->
    reach (created (creation ix) h ++ h) w'
| reach_elsewhere h w w' : reach h w -> elsewhere w w' -> reach h w'.

Definition reachable (w : World) : Prop := exists h, reach h w.
End Machine.
