(* ===== verification/SmallRuntime.v ===== *)
(** * A concrete runtime

    A runtime that satisfies [RuntimeSpec] and [AddressesSpec], on which the machine of
    [Registry] is run: lamports, token accounts and mints in maps, a flat rent, and the
    program addresses of [SmallKit].  Metaplex's programs do nothing here. *)
From stdpp Require Import gmap.
From S2P Require Import Prelude JsString Errors HashName OnChain Runtime ChainState ProgramUtils.
From S2P Require Import Registration Ownership Market Auctions Administration StakingPool.
From S2P Require Import Registry.

(** ** The ledger *)

Record SmallLedger := MkSmallLedger {
  balances : gmap Pubkey N; tokens : gmap Pubkey TokenAccount; mints : gmap Pubkey Mint
}.

Definition small_lamports (l : SmallLedger) (a : Pubkey) : Z := Z.of_N (default 0%N (balances l !! a)).
Definition small_set (l : SmallLedger) (a : Pubkey) (z : Z) : SmallLedger :=
  MkSmallLedger (<[a := Z.to_N z]> (balances l)) (tokens l) (mints l).
Definition small_tokens (t : gmap Pubkey TokenAccount) (l : SmallLedger) : SmallLedger :=
  MkSmallLedger (balances l) t (mints l).
Definition small_mints (m : gmap Pubkey Mint) (l : SmallLedger) : SmallLedger :=
  MkSmallLedger (balances l) (tokens l) m.

Definition small_transfer (l : SmallLedger) (from to : Pubkey) (z : Z) : option SmallLedger :=
  if (0 <=? z) && (z <=? small_lamports l from) then
    let l := small_set l from (small_lamports l from - z) in
    Some (small_set l to (small_lamports l to + z))
  else None.

Definition SMALL_RENT : Z := 10.
Definition small_token_program : Pubkey := replicate 32 201.

(** [t] with [z] more tokens, [None] below zero. *)
Definition credit (z : Z) (t : TokenAccount) : option TokenAccount :=
  if 0 <=? ta_amount t + z
  then Some (with_amount t (ta_amount t + z))
  else None.
Definition small_credit (a : Pubkey) (z : Z) (l : SmallLedger) : option SmallLedger :=
  t ← tokens l !! a; t ← credit z t; Some (small_tokens (<[a := t]> (tokens l)) l).

Definition small_invoke (l : SmallLedger) (signer : option Pubkey) (i : Invocation)
    : option SmallLedger :=
  match i with
  | Transfer from to z => small_transfer l from to z
  | CreateAccount payer a space => small_transfer l payer a SMALL_RENT
  | TransferChecked program from mint to authority z decimals =>
      f ← tokens l !! from; t ← tokens l !! to;
      if (bool_decide (ta_owner f = authority) || bool_decide (ta_delegate f = Some authority))
         && bool_decide (ta_mint f = mint) && bool_decide (ta_mint t = mint) && (0 <=? z)
      then l ← small_credit from (- z) l; small_credit to z l
      else None
  | Burn program mint from authority z =>
      f ← tokens l !! from;
      if bool_decide (ta_owner f = authority) && bool_decide (ta_mint f = mint) && (0 <=? z)
      then small_credit from (- z) l else None
  | CloseAccount program account destination authority =>
      t ← tokens l !! account;
      if bool_decide (ta_owner t = authority) && (ta_amount t =? 0) then
        small_transfer (small_tokens (delete account (tokens l)) l) account destination
          (small_lamports l account)
      else None
  | CreateAssociated payer authority mint program a =>
      match tokens l !! a with
      | Some _ => None
      | None => small_transfer (small_tokens (<[a := MkTokenAccount mint authority 0 program None]> (tokens l)) l)
                  payer a SMALL_RENT
      end
  | CreateMint payer a decimals authority freeze_authority =>
      match mints l !! a with
      | Some _ => None
      | None => small_transfer (small_mints (<[a := MkMint decimals small_token_program]> (mints l)) l)
                  payer a SMALL_RENT
      end
  | MintTo program mint to authority z => if 0 <=? z then small_credit to z l else None
  | CreateMetadata _ _ _ _ _ _ _ _ _ _ _ | CreateMasterEdition _ _ _ _ _ _ _ _ => Some l
  | BurnNft program metadata owner mint token edition =>
      t ← tokens l !! token;
      if bool_decide (ta_owner t = owner) then Some (small_tokens (delete token (tokens l)) l)
      else None
  end.

#[export] Instance SmallRuntime : Runtime := {
  Ledger := SmallLedger;
  lamports := small_lamports;
  set_lamports := small_set;
  system_owned := fun l a => bool_decide (tokens l !! a = None) && bool_decide (mints l !! a = None);
  token_account := fun l a => tokens l !! a;
  mint_account := fun l a => mints l !! a;
  invoke := small_invoke;
  TOKEN_PROGRAM_ID := small_token_program;
  TOKEN_2022_PROGRAM_ID := replicate 32 202;
  METADATA_PROGRAM_ID := replicate 32 203;
}.

Lemma small_lamports_set l a z b : 0 <= z ->
  small_lamports (small_set l a z) b = if decide (a = b) then z else small_lamports l b.
Proof.
  intros Hz. unfold small_lamports, small_set. cbn. rewrite lookup_insert.
  case_decide; cbn; [lia|done].
Qed.

Lemma small_lamports_nonneg l a : 0 <= small_lamports l a.
Proof. unfold small_lamports. lia. Qed.

(** A transfer takes from its payer only. *)
Lemma small_transfer_Some l from to z l' : small_transfer l from to z = Some l' ->
  0 <= z <= small_lamports l from
  /\ (forall a, a <> from -> small_lamports l a <= small_lamports l' a)
  /\ (from <> to -> small_lamports l' from = small_lamports l from - z
      /\ small_lamports l' to = small_lamports l to + z)
  /\ z <= small_lamports l' to.
Proof.
  unfold small_transfer. destruct ((0 <=? z) && (z <=? small_lamports l from)) eqn:Hz; [|done].
  bool_prop. intros [= <-]. set (l1 := small_set l from (small_lamports l from - z)).
  assert (forall b, small_lamports l1 b
    = if decide (from = b) then small_lamports l from - z else small_lamports l b) as H1
    by (intros b; apply small_lamports_set; lia).
  assert (forall b, small_lamports (small_set l1 to (small_lamports l1 to + z)) b
    = if decide (to = b) then small_lamports l1 to + z else small_lamports l1 b) as H2
    by (intros b; apply small_lamports_set; pose proof (small_lamports_nonneg l1 to); lia).
  pose proof (small_lamports_nonneg l to). split; [lia|]. split; [|split].
  - intros a Ha. rewrite H2, !H1. repeat case_decide; subst; try done; lia.
  - intros Hne. rewrite !H2, !H1. repeat case_decide; subst; try done; lia.
  - rewrite H2, H1. repeat case_decide; subst; try done; lia.
Qed.

(** Token operations leave the lamports alone. *)
Lemma small_credit_lamports a z l l' : small_credit a z l = Some l' -> balances l' = balances l.
Proof.
  unfold small_credit. destruct (tokens l !! a) as [t|]; [|done]. cbn.
  destruct (credit z t); [|done]. by intros [= <-].
Qed.

Lemma small_frame l s i l' a : small_invoke l s i = Some l' -> a ∉ pays i ->
  small_lamports l a <= small_lamports l' a.
Proof.
  assert (forall l l', balances l' = balances l -> small_lamports l a <= small_lamports l' a) as HB
    by (intros ? ? HB; unfold small_lamports; rewrite HB; lia).
  assert (forall l1 from to z, small_transfer l1 from to z = Some l' -> balances l1 = balances l ->
    a ∉ [from] -> small_lamports l a <= small_lamports l' a) as HT.
  { intros l1 from to z (_ & HF & _)%small_transfer_Some Hb Ha.
    etrans; [apply (HB l l1 Hb)|apply HF; set_solver]. }
  destruct i; cbn [small_invoke pays]; intros HI Ha.
  - by eapply HT.
  - by eapply HT.
  - destruct (tokens l !! from); [|done]. destruct (tokens l !! to); [|done]. cbn in HI.
    case_match; [|done]. destruct (small_credit from _ l) as [l1|] eqn:E; [|done]. cbn in HI.
    apply HB. by rewrite (small_credit_lamports _ _ _ _ HI), (small_credit_lamports _ _ _ _ E).
  - destruct (tokens l !! from); [|done]. cbn in HI. case_match; [|done].
    by eapply HB, small_credit_lamports.
  - destruct (tokens l !! account); [|done]. cbn in HI. case_match; [|done]. by eapply HT.
  - destruct (tokens l !! address); [done|]. by eapply HT.
  - destruct (mints l !! address); [done|]. by eapply HT.
  - case_match; [|done]. by eapply HB, small_credit_lamports.
  - injection HI as <-. lia.
  - injection HI as <-. lia.
  - destruct (tokens l !! token); [|done]. cbn in HI. case_match; [|done].
    injection HI as <-. by apply HB.
Qed.

#[export] Instance SmallRuntime_spec : RuntimeSpec SmallRuntime.
Proof.
  split.
  - apply small_lamports_nonneg.
  - apply small_lamports_set.
  - intros l s payer a space l' HI. apply small_transfer_Some in HI as (_ & _ & _ & HI).
    cbn. unfold SMALL_RENT in HI. lia.
  - apply small_frame.
  - intros l s from to z l' _ HI Hne. apply small_transfer_Some in HI as (? & _ & HI & _).
    destruct (HI Hne). cbn. lia.
  - done.
Qed.

(** *** Tokens *)

Lemma small_credit_Some a z l l' : small_credit a z l = Some l' ->
  exists t, tokens l !! a = Some t /\ 0 <= ta_amount t + z
    /\ tokens l' = <[a := with_amount t (ta_amount t + z)]> (tokens l).
Proof.
  unfold small_credit, credit. destruct (tokens l !! a) as [t|]; [|done]. cbn.
  destruct (Z.leb_spec 0 (ta_amount t + z)); [|done]. intros [= <-]. by exists t.
Qed.

Lemma small_transfer_tokens l from to z l' : small_transfer l from to z = Some l' ->
  tokens l' = tokens l.
Proof. unfold small_transfer. destruct (_ && _); [|done]. by intros [= <-]. Qed.

Lemma small_checked l s p from m to au z d l' :
  small_invoke l s (TransferChecked p from m to au z d) = Some l' ->
  exists f t1, tokens l !! from = Some f
    /\ (ta_owner f = au \/ ta_delegate f = Some au) /\ 0 <= z <= ta_amount f
    /\ <[from := with_amount f (ta_amount f - z)]> (tokens l) !! to = Some t1
    /\ tokens l' = <[to := with_amount t1 (ta_amount t1 + z)]>
                     (<[from := with_amount f (ta_amount f - z)]> (tokens l)).
Proof.
  cbn [small_invoke]. destruct (tokens l !! from) as [f|] eqn:Hf; [|done].
  destruct (tokens l !! to) as [t0|] eqn:Ht0; [|done]. cbn [mbind option_bind].
  destruct (_ && _ && _ && _) eqn:HG; [|done]. bool_prop.
  destruct (small_credit from (- z) l) as [l1|] eqn:HC1; [|done]. cbn. intros H2'.
  apply small_credit_Some in HC1 as (f' & Hf' & Hz & Hl1). rewrite Hf in Hf'. injection Hf' as <-.
  apply small_credit_Some in H2' as (t1 & Ht1 & _ & Hl').
  rewrite Hl1 in Ht1, Hl'. exists f, t1.
  match goal with HO : _ || _ = true |- _ => apply orb_true_iff in HO as [HO|HO]; bool_prop end;
    repeat split; try lia; eauto.
Qed.

Lemma small_burn l s p m from au z l' : small_invoke l s (Burn p m from au z) = Some l' ->
  exists f, tokens l !! from = Some f /\ ta_owner f = au /\ 0 <= z <= ta_amount f
    /\ tokens l' = <[from := with_amount f (ta_amount f - z)]> (tokens l).
Proof.
  cbn [small_invoke]. destruct (tokens l !! from) as [f|] eqn:Hf; [|done]. cbn [mbind option_bind].
  destruct (_ && _ && _) eqn:HG; [|done]. bool_prop. intros HC1.
  apply small_credit_Some in HC1 as (f' & Hf' & Hz & Hl1). rewrite Hf in Hf'. injection Hf' as <-.
  exists f. repeat split; try lia; eauto.
Qed.

(** A write to another account, or one that adds. *)
Lemma grown_insert (m : gmap Pubkey TokenAccount) a b t t' :
  m !! a = Some t -> (b = a -> grown t t') ->
  exists t'', <[b := t']> m !! a = Some t'' /\ grown t t''.
Proof.
  intros Ha Hg. rewrite lookup_insert. case_decide; [eauto|]. eauto using grown_refl.
Qed.

Lemma small_guarded l s i l' : small_invoke l s i = Some l' ->
  guarded (spends i) (authorities i) l l'.
Proof.
  intros HI a t Ha [Hp Hd] Hor. cbn in Ha.
  assert (tokens l' = tokens l -> exists t', token_account l' a = Some t' /\ grown t t') as HS
    by (intros Ht; exists t; cbn; rewrite Ht; eauto using grown_refl).
  destruct i; cbn [spends authorities] in *; try (by eapply HS, small_transfer_tokens);
    try (injection HI as <-; by apply HS).
  - apply small_checked in HI as (f & t1 & Hf & Ho & Hz & Ht1 & Hl'). cbn. rewrite Hl'.
    assert (from <> a) as Hne.
    { intros ->. rewrite Ha in Hf. injection Hf as <-. rewrite Hd in Ho.
      destruct Ho as [Ho|]; [|done]. set_solver. }
    apply grown_insert; [by rewrite lookup_insert_ne|]. intros ->.
    rewrite lookup_insert_ne in Ht1 by done. rewrite Ha in Ht1. injection Ht1 as <-.
    apply grown_add. lia.
  - apply small_burn in HI as (f & Hf & Ho & Hz & Hl'). cbn. rewrite Hl'.
    apply grown_insert; [done|]. intros ->. rewrite Ha in Hf. injection Hf as <-. set_solver.
  - cbn in HI. destruct (tokens l !! account) as [f|] eqn:Hf; [|done]. cbn in HI.
    destruct (_ && _) eqn:HG; [|done]. bool_prop. apply small_transfer_tokens in HI. cbn. rewrite HI.
    cbn. exists t. split; [|apply grown_refl]. rewrite lookup_delete_ne; [done|]. intros ->.
    rewrite Ha in Hf. injection Hf as <-. set_solver.
  - cbn in HI. destruct (tokens l !! address) eqn:Hn; [done|]. apply small_transfer_tokens in HI.
    cbn. rewrite HI. cbn. apply grown_insert; [done|]. intros ->. by rewrite Hn in Ha.
  - cbn in HI. destruct (mints l !! address); [done|]. apply small_transfer_tokens in HI. by apply HS.
  - cbn in HI. destruct (Z.leb_spec 0 amount); [|done]. apply small_credit_Some in HI as (f & Hf & Hz & Hl').
    cbn. rewrite Hl'. apply grown_insert; [done|]. intros ->. rewrite Ha in Hf. injection Hf as <-.
    apply grown_add. lia.
  - cbn in HI. destruct (tokens l !! token) as [f|] eqn:Hf; [|done]. cbn in HI.
    destruct (bool_decide _) eqn:HG; [|done]. bool_prop. injection HI as <-. cbn.
    exists t. split; [|apply grown_refl]. rewrite lookup_delete_ne; [done|]. intros ->.
    rewrite Ha in Hf. injection Hf as <-. set_solver.
Qed.

#[export] Instance SmallRuntime_tokens : TokenSpec SmallRuntime.
Proof.
  split.
  - apply small_guarded.
  - intros l s p from m to z d l' t Hz HI Ht _ Hne.
    apply small_checked in HI as (f & t1 & Hf & _ & Hle & _ & Hl'). cbn in Ht.
    rewrite Ht in Hf. injection Hf as <-. split; [lia|]. cbn.
    by rewrite Hl', lookup_insert_ne, lookup_insert_eq by done.
  - intros l s p from m to au z d l' t Hz HI Ht _ Hne.
    apply small_checked in HI as (f & t1 & _ & _ & _ & Ht1 & Hl'). cbn in Ht.
    rewrite lookup_insert_ne, Ht in Ht1 by done. injection Ht1 as <-. cbn.
    by rewrite Hl', lookup_insert_eq.
  - intros l s p m from z l' t Hz HI Ht _. apply small_burn in HI as (f & Hf & _ & Hle & Hl').
    cbn in Ht. rewrite Ht in Hf. injection Hf as <-. split; [lia|]. cbn. by rewrite Hl', lookup_insert_eq.
  - intros l s p a d au l' t HI Ht _. cbn in HI, Ht. rewrite Ht in HI. cbn in HI.
    destruct (_ && _) eqn:HG; [|done]. bool_prop. done.
  - intros l s payer au m p a l' HI. cbn in HI. destruct (tokens l !! a) eqn:Hn; [done|].
    split; [done|]. apply small_transfer_tokens in HI. cbn. rewrite HI. cbn.
    by rewrite lookup_insert_eq.
  - done.
Qed.

(** ** Program addresses *)

Definition small_address (seeds : list bytes) : Pubkey := take 32 (concat seeds ++ replicate 32 7).

#[export] Instance SmallAddresses : Addresses := {
  find_program_address := fun seeds _ => (small_address seeds, 255);
  create_program_address := fun seeds _ =>
    if bool_decide (last seeds = Some [255]) then Some (small_address (removelast seeds)) else None;
  get_associated_token_address := fun authority mint program =>
    take 32 (js "ata" ++ take 16 authority ++ take 8 mint ++ take 5 program ++ replicate 32 9);
}.

#[export] Instance SmallAddresses_spec : AddressesSpec SmallAddresses.
Proof.
  split. intros seeds program a b. cbn. intros [= <- <-].
  rewrite bool_decide_eq_true_2 by apply last_snoc. by rewrite removelast_last.
Qed.

(** ** Running the machine *)

(** Who is no address of the program. *)
Definition outsider (a : Pubkey) : bool :=
  match a with
  | b :: _ => negb (existsb (Z.eqb b) (js "cnrlosa"))
  | [] => false
  end.

Lemma outsider_wallet w a : accounts w !! a = None -> outsider a = true -> wallet w a.
Proof.
  intros Ha Ho. split; [done|]. intros seed rest Hs. cbn. case_bool_decide as HL; [|done].
  intros [= <-]. unfold PROGRAM_SEEDS in Hs.
  repeat (apply elem_of_cons in Hs as [->|Hs];
    [destruct rest; [by vm_compute in HL|by vm_compute in Ho]|]).
  by apply not_elem_of_nil in Hs.
Qed.

Definition succeeds (r : Chain World) : bool := match r with Ok _ => true | Err _ => false end.
Definition after (ix : Instruction) (w : World) : World :=
  match execute ix w with Ok w' => w' | Err _ => w end.

Definition ready (ix : Instruction) (w : World) : bool :=
  succeeds (execute ix w)
  && forallb (fun a => bool_decide (accounts w !! a = None) && outsider a) (signers ix)
  && forallb (fun a => bool_decide (accounts w !! a = None)) (closes ix).

(** An instruction sent, time passing, or tokens someone gives to an account. *)
Inductive Move : Type :=
| Send (ix : Instruction)
| Pass (seconds : Z)
| Gift (account : Pubkey) (amount : Z).

Definition move (m : Move) (w : World) : World :=
  match m with
  | Send ix => after ix w
  | Pass s => MkWorld _ (accounts w) (ledger w) (events w) (now w + s)
  | Gift a z => with_ledger (default (ledger w) (small_credit a z (ledger w))) w
  end.
Definition can_move (m : Move) (w : World) : bool :=
  match m with Send ix => ready ix w | Pass z | Gift _ z => 0 <=? z end.
Definition paths_of (m : Move) (h : list Path) : list Path :=
  match m with Send ix => created (creation ix) h ++ h | _ => h end.

Fixpoint play (ms : list Move) (h : list Path) (w : World) : list Path * World :=
  match ms with [] => (h, w) | m :: ms => play ms (paths_of m h) (move m w) end.
Fixpoint playable (ms : list Move) (w : World) : bool :=
  match ms with [] => true | m :: ms => can_move m w && playable ms (move m w) end.

Definition well_typed (m : Move) : Prop := match m with Send ix => typed ix | _ => True end.

Lemma ready_callable ix w : typed ix -> ready ix w = true ->
  callable ix w /\ execute ix w = Ok (after ix w).
Proof.
  intros HT HC. unfold ready in HC. apply andb_true_iff in HC as [HC Hcl].
  apply andb_true_iff in HC as [HE HS]. split.
  - split; [done|..]; apply List.Forall_forall; intros a Ha.
    + apply (proj1 (forallb_forall _ _) HS) in Ha. bool_prop. by apply outsider_wallet.
    + apply (proj1 (forallb_forall _ _) Hcl) in Ha. by bool_prop.
  - unfold after. by destruct (execute ix w).
Qed.

Lemma gift_elsewhere a z w : 0 <= z -> elsewhere w (move (Gift a z) w).
Proof.
  intros Hz. assert (exists l, move (Gift a z) w = with_ledger l w
    /\ balances l = balances (ledger w)
    /\ forall b t, tokens (ledger w) !! b = Some t ->
         exists t', tokens l !! b = Some t' /\ grown t t') as (l & -> & Hb & Ht).
  { cbn. destruct (small_credit a z (ledger w)) as [l|] eqn:E; cbn.
    - exists l. split; [done|]. split; [by eapply small_credit_lamports|]. intros b t Hb.
      apply small_credit_Some in E as (t0 & Ht0 & _ & ->). apply grown_insert; [done|].
      intros ->. rewrite Hb in Ht0. injection Ht0 as <-. by apply grown_add.
    - exists (ledger w). split; [done|]. split; [done|]. intros b t Hb. eauto using grown_refl. }
  repeat split; cbn; [lia| |eauto]. intros b x _. unfold small_lamports. by rewrite Hb.
Qed.

Lemma move_reach m h w : reach h w -> well_typed m -> can_move m w = true ->
  reach (paths_of m h) (move m w).
Proof.
  intros HR HT HC. destruct m as [ix|s|a z]; cbn [paths_of can_move well_typed] in *.
  - destruct (ready_callable _ _ HT HC). by eapply reach_execute.
  - apply Z.leb_le in HC. eapply reach_elsewhere; [exact HR|]. repeat split; cbn; [lia|intros; lia|].
    eauto using grown_refl.
  - apply Z.leb_le in HC. eapply reach_elsewhere; [exact HR|]. by apply gift_elsewhere.
Qed.

Lemma play_reach ms h w : reach h w -> Forall well_typed ms -> playable ms w = true ->
  reach (fst (play ms h w)) (snd (play ms h w)).
Proof.
  revert h w. induction ms as [|m ms IH]; intros h w HR HT HP; [done|].
  apply Forall_cons in HT as [Hm HT]. cbn in HP. apply andb_true_iff in HP as [HC HP].
  apply IH; [by apply move_reach|done..].
Qed.

(** The record at an address, where there is one. *)
Definition name_at (a : Pubkey) (w : World) : NameRecord.t :=
  match accounts w !! a with
  | Some (AName n) => n
  | _ => init_top_level_record [] [] [] 0 0 0
  end.
Definition has_name (a : Pubkey) (w : World) : bool :=
  match accounts w !! a with Some (AName _) => true | _ => false end.

Lemma name_at_lookup a w : has_name a w = true -> accounts w !! a = Some (AName (name_at a w)).
Proof. unfold has_name, name_at. by destruct (accounts w !! a) as [[]|]. Qed.

Lemma name_unique (m : gmap Pubkey Account) a n n' :
  m !! a = Some (AName n) -> m !! a = Some (AName n') -> n = n'.
Proof. congruence. Qed.
