(* ===== verification/SmallChain.v ===== *)
(** * Runs of the program

    Runs of the machine of [Registry] on [SmallRuntime], for the witnesses: a marketplace,
    an auction that outlives the registration it started under, one whose vault is given a
    token, a stake, and stakes whose rewards round above what the vault has. *)
From stdpp Require Import gmap.
From S2P Require Import Prelude JsString Errors HashName OnChain Runtime ChainState ProgramUtils.
From S2P Require Import Registration Ownership Market Auctions Administration StakingPool.
From S2P Require Import Registry SmallRuntime.

(** ** Who and what *)

Definition who (n : Z) : Pubkey := replicate 32 n.
Abbreviation ADMIN := (who 1).
Abbreviation ALICE := (who 2).
Abbreviation BOB := (who 3).
Abbreviation CAROL := (who 4).
Abbreviation USDC := (who 50).
Abbreviation SOLANS := (who 51).
Abbreviation TREASURY := (who 60).
Abbreviation STAKING := (who 61).
Abbreviation BURNED := (who 62).

(** The token account of a wallet. *)
Definition usdc_of (a : Pubkey) : Pubkey := match a with b :: _ => who (b + 10) | [] => [] end.
Definition solans_of (a : Pubkey) : Pubkey := match a with b :: _ => who (b + 20) | [] => [] end.

Definition token (mint owner : Pubkey) (amount : Z) : TokenAccount :=
  MkTokenAccount mint owner amount small_token_program None.

Definition genesis : World := MkWorld _ ∅
  (MkSmallLedger
    (list_to_map ((fun a => (a, 100000%N)) <$> [ADMIN; ALICE; BOB; CAROL]))
    (list_to_map
      ([(TREASURY, token USDC ADMIN 0); (STAKING, token USDC ADMIN 0); (BURNED, token USDC ADMIN 0)]
       ++ ((fun a => (usdc_of a, token USDC a 100000)) <$> [ALICE; BOB; CAROL])
       ++ ((fun a => (solans_of a, token SOLANS a 100000)) <$> [ALICE; BOB; CAROL])))
    (list_to_map [(USDC, MkMint 6 small_token_program); (SOLANS, MkMint 6 small_token_program)]))
  [] 1000.

Definition CONFIG : Pubkey := small_address [CONFIG_SEED].
Definition ALEX_HASH : bytes := compute_name_hash (js "alex") (js "sol").
Definition ALEX : Pubkey := name_address ALEX_HASH.
Definition PAY_HASH : bytes := compute_subdomain_hash ALEX_HASH (js "pay").
Definition PAY : Pubkey := name_address PAY_HASH.
Definition at_alex (seed : bytes) : Pubkey := small_address [seed; ALEX_HASH].

(** ** Instructions *)

Definition params : ConfigParams.t :=
  ConfigParams.mk 5000 4000 3000 2000 1000 1500 100 1 10 ADMIN 500 1000 500 500.

Definition open_registry : Instruction :=
  init_config (InitConfig.mk ADMIN CONFIG USDC TREASURY STAKING BURNED small_token_program) params.

Definition fees_of (a burn : Pubkey) : FeeAccounts.t :=
  FeeAccounts.mk (usdc_of a) TREASURY STAKING burn None USDC small_token_program.

Definition register_alex (a : Pubkey) : Instruction :=
  register_name (RegisterName.mk a a CONFIG ALEX (fees_of a BURNED)) (js "alex") (js "sol")
    ALEX_HASH 1.

Definition wrap_pay : Instruction :=
  wrap_subdomain (WrapSubdomain.mk ALICE BOB ALEX PAY) (js "pay") PAY_HASH.

Definition offer_key : Pubkey := small_address [OFFER_SEED; ALEX_HASH; BOB].
Definition offer_alex : Instruction := make_offer (MakeOffer.mk BOB ALEX offer_key) 500 3600.

Definition list_alex : Instruction :=
  list_name (ListName.mk ALICE ALEX (at_alex LISTING_SEED)) 700 3600.

Definition set_url : Instruction :=
  update_record (UpdateRecord.mk ALICE ALEX None) (js "url") (Some (js "https://a.example")).

(** A registry with a name, a subdomain, an offer and a listing. *)
Definition market_moves : list Move :=
  [Send open_registry; Send (register_alex ALICE); Pass 5; Send wrap_pay; Send set_url;
   Send offer_alex; Send list_alex].

Definition market_paths : list Path := fst (play market_moves [] genesis).
Definition market_world : World := snd (play market_moves [] genesis).

Lemma market_reached : reach market_paths market_world.
Proof.
  apply play_reach; [by constructor| |by vm_compute].
  repeat constructor; by compute.
Qed.

(** ** An auction that outlives the registration *)

Definition BURN_VAULT : Pubkey := get_associated_token_address CONFIG USDC small_token_program.
Definition AUCTION : Pubkey := at_alex AUCTION_SEED.
Definition BID_VAULT : Pubkey := get_associated_token_address AUCTION SOLANS small_token_program.

Definition open_burn_pool : Instruction :=
  init_burn_pool (InitBurnPool.mk ADMIN CONFIG SOLANS USDC BURN_VAULT small_token_program).
Definition set_solans : Instruction := set_solans_params (SetSolansParams.mk ADMIN CONFIG) 1000000 0.

Definition auction_alex : Instruction :=
  start_auction (StartAuction.mk ALICE CONFIG ALEX AUCTION SOLANS BID_VAULT small_token_program)
    100 10 3600.
Definition bid_alex : Instruction :=
  bid (Bid.mk BOB AUCTION (solans_of BOB) None BID_VAULT SOLANS small_token_program) 200.

Definition claim_alex : Instruction :=
  claim_expired (ClaimExpired.mk CAROL CONFIG ALEX (fees_of CAROL BURN_VAULT)) (js "alex")
    (js "sol") 1.

Definition settle_alex : Instruction :=
  settle_auction (SettleAuction.mk BOB CONFIG ALICE (Some (solans_of ALICE)) ALEX AUCTION
    BID_VAULT SOLANS small_token_program).

(** Alice auctions her name and Bob bids; the name expires and Carol claims it. *)
Definition auction_moves : list Move :=
  [Send open_registry; Send (register_alex ALICE); Send open_burn_pool; Send set_solans;
   Send auction_alex; Send bid_alex; Pass 40000000; Send claim_alex].

Definition auction_paths : list Path := fst (play auction_moves [] genesis).
Definition auction_world : World := snd (play auction_moves [] genesis).

Lemma auction_reached : reach auction_paths auction_world.
Proof.
  apply play_reach; [by constructor| |by vm_compute].
  repeat constructor; by compute.
Qed.

(** Bob bids; a token is given to the auction's vault, and the auction ends. *)
Definition donated_moves : list Move :=
  [Send open_registry; Send (register_alex ALICE); Send open_burn_pool; Send set_solans;
   Send auction_alex; Send bid_alex; Gift BID_VAULT 1; Pass 4000].

Definition donated_paths : list Path := fst (play donated_moves [] genesis).
Definition donated_world : World := snd (play donated_moves [] genesis).

Lemma donated_reached : reach donated_paths donated_world.
Proof.
  apply play_reach; [by constructor| |by vm_compute].
  repeat constructor; by compute.
Qed.

(** ** A stake *)

Definition POOL : Pubkey := small_address [STAKE_POOL_SEED].
Definition STAKE_VAULT : Pubkey := get_associated_token_address POOL SOLANS small_token_program.
Definition REWARD_VAULT : Pubkey := get_associated_token_address POOL USDC small_token_program.
Definition position (a : Pubkey) : Pubkey := small_address [STAKE_SEED; a].

Definition open_pool : Instruction :=
  init_stake_pool (InitStakePool.mk ADMIN CONFIG POOL SOLANS USDC STAKE_VAULT REWARD_VAULT
    small_token_program).

Definition stake_of (a : Pubkey) (amount : Z) : Instruction :=
  stake (Stake.mk a CONFIG POOL (position a) (solans_of a) (usdc_of a) STAKE_VAULT REWARD_VAULT
    SOLANS USDC small_token_program) amount.
Definition unstake_of (a : Pubkey) (amount : Z) : Instruction :=
  unstake (Unstake.mk a CONFIG POOL (position a) (solans_of a) (usdc_of a) STAKE_VAULT REWARD_VAULT
    SOLANS USDC small_token_program) amount.

Definition staking_moves : list Move :=
  [Send open_registry; Send open_pool; Send (stake_of ALICE 300); Send (stake_of BOB 200);
   Send (unstake_of ALICE 50)].

Definition staking_paths : list Path := fst (play staking_moves [] genesis).
Definition staking_world : World := snd (play staking_moves [] genesis).

Lemma staking_reached : reach staking_paths staking_world.
Proof.
  apply play_reach; [by constructor| |by vm_compute].
  repeat constructor; by compute.
Qed.

Definition claim_of (a : Pubkey) : Instruction :=
  claim_rewards (ClaimRewards.mk a CONFIG POOL (position a) (usdc_of a) REWARD_VAULT USDC
    small_token_program).

(** Alice's 100 earn 99; Bob and Carol stake 1 each and claim the 2 that come in next. *)
Definition short_moves : list Move :=
  [Send open_registry; Send open_pool; Send (stake_of ALICE 100); Gift REWARD_VAULT 99;
   Send (stake_of BOB 1); Send (stake_of CAROL 1); Gift REWARD_VAULT 2;
   Send (claim_of BOB); Send (claim_of CAROL)].

Definition short_paths : list Path := fst (play short_moves [] genesis).
Definition short_world : World := snd (play short_moves [] genesis).

Lemma short_reached : reach short_paths short_world.
Proof.
  apply play_reach; [by constructor| |by vm_compute].
  repeat constructor; by compute.
Qed.
