(* ===== verification/ChainFacts.v ===== *)
(** * What a successful handler did

    Inversion of the building blocks of [ChainState] and [ProgramUtils]: a step of a
    handler that succeeds leaves the accounts alone and changes the ledger as its
    invocation does.  [chain_inv] takes a successful handler apart with them. *)
From stdpp Require Import gmap.
From S2P Require Import Prelude JsString Errors OnChain Runtime ChainState ProgramUtils.
From S2P Require Import Registration.

Lemma custom_Ok {A} (r : Result A) a : custom r = Ok a -> r = Ok a.
Proof. destruct r; cbn; congruence. Qed.

Lemma ensure_Ok b e u : ensure b e = Ok u -> b = true.
Proof. destruct b; done. Qed.

Lemma anchor_Ok b e u : anchor b e = Ok u -> b = true.
Proof. destruct b; done. Qed.

Lemma of_option_Ok {E A} (e : E) (o : option A) a : of_option e o = Ok a -> o = Some a.
Proof. destruct o; cbn; congruence. Qed.

Lemma bool_decide_refl {A} (x : A) `{Decision (x = x)} : bool_decide (x = x) = true.
Proof. by apply bool_decide_eq_true. Qed.

Section Facts.
Context `{Runtime, Addresses}.

(** [l'] is [l] but for lamports taken from [payers]. *)
Definition moves (payers : list Pubkey) (l l' : Ledger) : Prop :=
  forall a, a ∉ payers -> lamports l a <= lamports l' a.

Lemma moves_refl payers l : moves payers l l.
Proof. intros a _. lia. Qed.

Lemma moves_trans payers l1 l2 l3 : moves payers l1 l2 -> moves payers l2 l3 -> moves payers l1 l3.
Proof. intros H1 H2 a Ha. specialize (H1 a Ha). specialize (H2 a Ha). lia. Qed.

Lemma moves_weaken p q l l' : moves p l l' -> p ⊆ q -> moves q l l'.
Proof. intros HM Hs a Ha. apply HM. set_solver. Qed.

Lemma with_ledger_id w : with_ledger (ledger w) w = w.
Proof. by destruct w. Qed.

Lemma load_name a w n : load pick_name a w = Ok n -> accounts w !! a = Some (AName n).
Proof.
  unfold load. destruct (accounts w !! a) as [x|]; [|done].
  destruct x; cbn; congruence.
Qed.
Lemma load_config a w n : load pick_config a w = Ok n -> accounts w !! a = Some (AConfig n).
Proof.
  unfold load. destruct (accounts w !! a) as [x|]; [|done].
  destruct x; cbn; congruence.
Qed.
Lemma load_listing a w n : load pick_listing a w = Ok n -> accounts w !! a = Some (AListing n).
Proof.
  unfold load. destruct (accounts w !! a) as [x|]; [|done].
  destruct x; cbn; congruence.
Qed.
Lemma load_offer a w n : load pick_offer a w = Ok n -> accounts w !! a = Some (AOffer n).
Proof.
  unfold load. destruct (accounts w !! a) as [x|]; [|done].
  destruct x; cbn; congruence.
Qed.
Lemma load_auction a w n : load pick_auction a w = Ok n -> accounts w !! a = Some (AAuction n).
Proof.
  unfold load. destruct (accounts w !! a) as [x|]; [|done].
  destruct x; cbn; congruence.
Qed.
Lemma load_stake_pool a w n :
  load pick_stake_pool a w = Ok n -> accounts w !! a = Some (AStakePool n).
Proof.
  unfold load. destruct (accounts w !! a) as [x|]; [|done].
  destruct x; cbn; congruence.
Qed.
Lemma load_stake a w n : load pick_stake a w = Ok n -> accounts w !! a = Some (AStake n).
Proof.
  unfold load. destruct (accounts w !! a) as [x|]; [|done].
  destruct x; cbn; congruence.
Qed.

Lemma seeds_bump_Ok a seeds b u : seeds_bump a seeds b = Ok u ->
  create_program_address (seeds ++ [[b]]) ID = Some a.
Proof. intros HS. apply anchor_Ok in HS. by bool_prop. Qed.

Lemma run_Ok s i w w' : run s i w = Ok w' ->
  exists l, invoke (ledger w) s i = Some l /\ w' = with_ledger l w.
Proof. unfold run. destruct (invoke _ _ _) as [l|]; [|done]. intros [= <-]. eauto. Qed.

Lemma init_Ok a payer space seeds w b w' : init a payer space seeds w = Ok (b, w') ->
  exists l, find_program_address seeds ID = (a, b) /\ accounts w !! a = None
    /\ invoke (ledger w) None (CreateAccount payer a space) = Some l /\ w' = with_ledger l w.
Proof.
  unfold init. destruct (find_program_address seeds ID) as [e b'] eqn:HF. intros HI.
  apply result_bind_Ok in HI as (u & HE & HI). apply anchor_Ok in HE. bool_prop. subst e.
  apply result_bind_Ok in HI as (u' & HA & HI).
  destruct (accounts w !! a) eqn:Ha; [done|].
  apply result_bind_Ok in HI as (w1 & HR & HI). apply run_Ok in HR as (l & Hl & ->).
  injection HI as <- <-. eauto 6.
Qed.

Lemma init_associated_Ok a payer authority mint program w w' :
  init_associated a payer authority mint program w = Ok w' ->
  exists l, get_associated_token_address authority mint program = a
    /\ invoke (ledger w) None (CreateAssociated payer authority mint program a) = Some l
    /\ w' = with_ledger l w.
Proof.
  unfold init_associated. intros HI. apply result_bind_Ok in HI as (u & HA & HI).
  apply anchor_Ok in HA. bool_prop. apply run_Ok in HI as (l & Hl & ->). eauto.
Qed.

(** A token transfer or burn changes tokens only. *)
Context {RS : RuntimeSpec _}.

Lemma transfer_tokens_signed_Ok p from to m d au s amount w w' :
  transfer_tokens_signed p from to m d au s amount w = Ok w' ->
  exists l, moves [] (ledger w) l /\ w' = with_ledger l w.
Proof.
  unfold transfer_tokens_signed. destruct (amount =? 0).
  - intros [= <-]. exists (ledger w). split; [apply moves_refl|by rewrite with_ledger_id].
  - intros HR. apply run_Ok in HR as (l & Hl & ->). exists l. split; [|done].
    intros a _. eapply invoke_frame; [exact Hl|]. cbn. set_solver.
Qed.

Lemma transfer_tokens_Ok p from to m d au amount w w' :
  transfer_tokens p from to m d au amount w = Ok w' ->
  exists l, moves [] (ledger w) l /\ w' = with_ledger l w.
Proof. apply transfer_tokens_signed_Ok. Qed.

Lemma burn_tokens_signed_Ok p m from au s amount w w' :
  burn_tokens_signed p m from au s amount w = Ok w' ->
  exists l, moves [] (ledger w) l /\ w' = with_ledger l w.
Proof.
  unfold burn_tokens_signed. destruct (amount =? 0).
  - intros [= <-]. exists (ledger w). split; [apply moves_refl|by rewrite with_ledger_id].
  - intros HR. apply run_Ok in HR as (l & Hl & ->). exists l. split; [|done].
    intros a _. eapply invoke_frame; [exact Hl|]. cbn. set_solver.
Qed.

Lemma burn_tokens_Ok p m from au amount w w' : burn_tokens p m from au amount w = Ok w' ->
  exists l, moves [] (ledger w) l /\ w' = with_ledger l w.
Proof. apply burn_tokens_signed_Ok. Qed.

Lemma move_lamports_Ok from to amount w w' : move_lamports from to amount w = Ok w' ->
  exists l, w' = with_ledger l w.
Proof.
  unfold move_lamports. destruct (amount =? 0).
  - intros [= <-]. exists (ledger w). by rewrite with_ledger_id.
  - intros HM. apply result_bind_Ok in HM as (f & _ & HM).
    apply result_bind_Ok in HM as (t & _ & HM). injection HM as <-. eauto.
Qed.

Lemma distribute_fee_Ok f d au amount cfg w w' : distribute_fee f d au amount cfg w = Ok w' ->
  exists l, moves [] (ledger w) l /\ w' = with_ledger l w.
Proof.
  unfold distribute_fee. destruct (fee_split cfg amount) as [[[tr st] rf] bu]. intros HD.
  apply result_bind_Ok in HD as (w1 & H1 & HD).
  apply transfer_tokens_Ok in H1 as (l1 & M1 & ->).
  apply result_bind_Ok in HD as (w2 & H2 & HD).
  apply transfer_tokens_Ok in H2 as (l2 & M2 & ->). cbn in M2.
  apply result_bind_Ok in HD as ([tr' w3] & H3 & HD).
  assert (exists l3, moves [] l2 l3 /\ w3 = with_ledger l3 w) as (l3 & M3 & ->).
  { destruct (FeeAccounts.referral_token_account f).
    - apply result_bind_Ok in H3 as (w4 & H4 & H3). injection H3 as <- <-.
      apply transfer_tokens_Ok in H4 as (l4 & M4 & ->). by exists l4.
    - apply result_bind_Ok in H3 as (t & _ & H3). injection H3 as <- <-.
      exists l2. split; [apply moves_refl|done]. }
  apply transfer_tokens_Ok in HD as (l & M & ->). cbn in M.
  exists l. split; [|done]. eauto using moves_trans.
Qed.

Lemma distribute_fee_signed_Ok f d au s amount cfg w w' :
  distribute_fee_signed f d au s amount cfg w = Ok w' ->
  exists l, moves [] (ledger w) l /\ w' = with_ledger l w.
Proof.
  unfold distribute_fee_signed. destruct (fee_split cfg amount) as [[[tr st] rf] bu]. intros HD.
  apply result_bind_Ok in HD as (t & _ & HD).
  apply result_bind_Ok in HD as (w1 & H1 & HD).
  apply transfer_tokens_signed_Ok in H1 as (l1 & M1 & ->).
  apply result_bind_Ok in HD as (w2 & H2 & HD).
  apply transfer_tokens_signed_Ok in H2 as (l2 & M2 & ->). cbn in M2.
  apply transfer_tokens_signed_Ok in HD as (l & M & ->). cbn in M.
  exists l. split; [|done]. eauto using moves_trans.
Qed.
End Facts.

(** Take a successful handler apart: its steps in order, each inverted.  [chain_basic] leaves
    the token transfers. *)
Ltac chain_basic :=
  match goal with
  | H : Err _ = Ok _ |- _ => discriminate H
  | H : Ok _ = Ok _ |- _ => injection H; clear H; intros; subst
  | H : _ ≫= _ = Ok _ |- _ =>
      let x := fresh "x" in let Hx := fresh "Hx" in
      apply result_bind_Ok in H as (x & Hx & H); cbn beta in H
  | H : match ?p with _ => _ end = Ok _ |- _ =>
      lazymatch type of p with (_ * _)%type => destruct p as [? ?] eqn:? end
  | H : custom _ = Ok _ |- _ => apply custom_Ok in H
  | H : seeds_bump _ _ _ = Ok _ |- _ => apply seeds_bump_Ok in H
  | H : ensure _ _ = Ok _ |- _ => apply ensure_Ok in H
  | H : anchor _ _ = Ok _ |- _ => apply anchor_Ok in H
  | H : of_option _ _ = Ok _ |- _ => apply of_option_Ok in H
  | H : load pick_name _ _ = Ok _ |- _ => apply load_name in H
  | H : load pick_config _ _ = Ok _ |- _ => apply load_config in H
  | H : load pick_listing _ _ = Ok _ |- _ => apply load_listing in H
  | H : load pick_offer _ _ = Ok _ |- _ => apply load_offer in H
  | H : load pick_auction _ _ = Ok _ |- _ => apply load_auction in H
  | H : load pick_stake_pool _ _ = Ok _ |- _ => apply load_stake_pool in H
  | H : load pick_stake _ _ = Ok _ |- _ => apply load_stake in H
  | H : init _ _ _ _ _ = Ok (_, _) |- _ =>
      let l := fresh "l" in apply init_Ok in H as (l & ? & ? & ? & ->)
  | H : init _ _ _ _ _ = Ok ?p |- _ => destruct p as [? ?]
  | H : run _ _ _ = Ok _ |- _ => let l := fresh "l" in apply run_Ok in H as (l & ? & ->)
  | H : init_associated _ _ _ _ _ _ = Ok _ |- _ =>
      let l := fresh "l" in apply init_associated_Ok in H as (l & ? & ? & ->)
  | H : close_token_account _ _ _ _ _ _ = Ok _ |- _ =>
      let l := fresh "l" in apply run_Ok in H as (l & ? & ->)
  end.

Ltac chain_transfer :=
  match goal with
  | H : distribute_fee _ _ _ _ _ _ = Ok _ |- _ =>
      let l := fresh "l" in apply distribute_fee_Ok in H as (l & ? & ->)
  | H : distribute_fee_signed _ _ _ _ _ _ _ = Ok _ |- _ =>
      let l := fresh "l" in apply distribute_fee_signed_Ok in H as (l & ? & ->)
  | H : transfer_tokens _ _ _ _ _ _ _ _ = Ok _ |- _ =>
      let l := fresh "l" in apply transfer_tokens_Ok in H as (l & ? & ->)
  | H : transfer_tokens_signed _ _ _ _ _ _ _ _ _ = Ok _ |- _ =>
      let l := fresh "l" in apply transfer_tokens_signed_Ok in H as (l & ? & ->)
  | H : burn_tokens _ _ _ _ _ _ = Ok _ |- _ =>
      let l := fresh "l" in apply burn_tokens_Ok in H as (l & ? & ->)
  | H : burn_tokens_signed _ _ _ _ _ _ _ = Ok _ |- _ =>
      let l := fresh "l" in apply burn_tokens_signed_Ok in H as (l & ? & ->)
  end.

Ltac chain_step := first [chain_basic | chain_transfer].

Ltac chain_inv := repeat (chain_step; cbn [accounts ledger now events with_ledger] in *).
