(* ===== verification/RegistrySpec.v ===== *)
(** * The registry as an abstract state machine

    [transition]: what one instruction may do to the program's accounts, who must have
    signed for it, and on what terms, without the account structs and the token movements of
    the handlers.  Nobody in particular signs where the program asks for nobody: a finished
    auction goes to its highest bidder whoever settles it, and a sale or an offer that is
    over is ended by anyone.  What is paid in lamports is part of a transition; of what is
    paid in tokens, whose account of which mint is presented.  [execute_refines]: every
    instruction [execute] runs is such a transition.  Invariants are proved on the
    transitions. *)
From stdpp Require Import gmap.
From S2P Require Import Prelude JsString Errors HashName OnChain Staking Runtime ChainState ProgramUtils.
From S2P Require Import Registration Ownership Market Auctions Administration StakingPool.
From S2P Require Import Registry ChainFacts SmallRuntime SmallChain.

(** Take a handler apart. *)
Ltac refine_start :=
  unfold check_name, term_price, expiry_after, has_owner, not_tokenized, not_listed, top_level,
    name_seeds, listing_seeds, offer_seeds, config_seeds, auction_seeds, pool_seeds, has_admin in *;
  chain_inv; bool_prop; cbn [accounts ledger now events with_ledger put remove emit close] in *;
  repeat match goal with u : unit |- _ => destruct u end.

(** The body of whichever handler ran. *)
Ltac open_handler HE :=
  unfold InitConfig.handler, RegisterName.handler, RenewName.handler, AutoRenew.handler,
    TransferName.handler, LockTransfer.handler, SetController.handler, UpdateRecord.handler,
    SetResolver.handler, SetHosting.handler, SetReverse.handler, ClaimExpired.handler,
    BurnName.handler, TokenizeName.handler, RedeemName.handler, WrapSubdomain.handler,
    RevokeSubdomain.handler, ListName.handler, UpdateListing.handler, CancelListing.handler,
    BuyName.handler, MakeOffer.handler, AcceptOffer.handler, CancelOffer.handler,
    StartAuction.handler, Bid.handler, SettleAuction.handler, CancelAuction.handler,
    UpdateConfig.handler, TransferAdmin.handler, InitStakePool.handler, Stake.handler,
    Unstake.handler, ClaimRewards.handler, InitBurnPool.handler, SetSolansParams.handler,
    RegisterWithSolans.handler, RenewWithSolans.handler, BuybackBurnIx.handler, Resolve.handler
    in HE.

(** ** Names *)

(** An edit of the records changes nothing else. *)
Lemma upsert_identity k v n n' : NameRecord.upsert_record k v n = Ok n' ->
  exists rs, n' = NameRecord.set_records rs n.
Proof.
  unfold NameRecord.upsert_record. destruct (NameRecord.overwrite _ _ _) as [rs|].
  - intros [= <-]. eauto.
  - intros HU. apply result_bind_Ok in HU as (u & _ & HU). injection HU as <-. eauto.
Qed.

Lemma delete_identity k n n' : NameRecord.delete_record k n = Ok n' ->
  exists rs, n' = NameRecord.set_records rs n.
Proof.
  unfold NameRecord.delete_record. intros HU. apply result_bind_Ok in HU as (u & _ & HU).
  injection HU as <-. eauto.
Qed.

(** Changes by the owner, NFT holder or controller. *)
Inductive managed_edit (n : NameRecord.t) : NameRecord.t -> Prop :=
| edit_resolver v : managed_edit n (NameRecord.set_resolver v n)
| edit_hosting v : (forall h, v = Some h -> len h <= HOSTING_MAX_LEN) ->
    managed_edit n (NameRecord.set_hosting_ref v n)
| edit_upsert k v n' : len k <= KEY_MAX_LEN -> len v <= VALUE_MAX_LEN ->
    NameRecord.upsert_record k v n = Ok n' -> managed_edit n n'
| edit_delete k n' : NameRecord.delete_record k n = Ok n' -> managed_edit n n'.

(** Changes by the owner alone. *)
Inductive owner_edit (n : NameRecord.t) : NameRecord.t -> Prop :=
| edit_lock v : owner_edit n (NameRecord.set_transfer_locked v n)
| edit_controller v : owner_edit n (NameRecord.set_controller v n)
| edit_tokenize mint : NameRecord.parent n = None ->
    owner_edit n (NameRecord.set_nft_mint (Some mint) n).

(** A listing or an auction: its seller and the hash of its name. *)
Definition sale_of (x : Account) : option (Pubkey * bytes) :=
  match x with
  | AListing l => Some (Listing.seller l, Listing.name_hash l)
  | AAuction u => Some (Auction.seller u, Auction.name_hash u)
  | _ => None
  end.

(** Its address. *)
Definition sale_seeds `{Addresses} (x : Account) (a : Pubkey) : Prop :=
  match x with
  | AListing l =>
      find_program_address [LISTING_SEED; Listing.name_hash l] ID = (a, Listing.bump l)
  | AAuction u =>
      find_program_address [AUCTION_SEED; Auction.name_hash u] ID = (a, Auction.bump u)
  | _ => False
  end.

(** ** Requests *)

(** What the abstract registry sees of an instruction: its signers, and the amount it names
    (a price, a bid, an offer, a stake). *)
Record Request := mk_request { signed_by : list Pubkey; amount_named : option Z }.

Definition request (ix : Instruction) : Request :=
  mk_request (signers ix)
    match ix with
    | list_name _ amount _ | update_listing _ amount _ | buy_name _ amount
    | make_offer _ amount _ | bid _ amount | stake _ amount | unstake _ amount => Some amount
    | _ => None
    end.

(** ** The configuration *)

Inductive config_change (c : Config) : Config -> Prop :=
| change_params p : ConfigParams.typed p -> ConfigParams.check p = Ok tt ->
    config_change c (ConfigParams.apply p c)
| change_admin v : config_change c (with_admin c v)
| change_burn_pool v mint : config_change c (with_burn_pool c v mint)
| change_solans rate discount : is_u64 rate -> 0 <= discount < BPS_DENOMINATOR ->
    config_change c (with_solans_params c rate discount)
| change_staking v : config_change c (with_staking_vault c v).

Section Spec.
Context `{Runtime, Addresses, Keccak}.

(** A token account shown to the program is one on the ledger. *)
Definition presented (w : World) (ta : option TokenAccount) : Prop :=
  ta = None \/ exists a, ta = token_account (ledger w) a.

(** [s] holds the NFT of [mint]. *)
Definition holds (w : World) (s mint : Pubkey) : Prop :=
  exists a ta, token_account (ledger w) a = Some ta
    /\ ta_mint ta = mint /\ ta_owner ta = s /\ ta_amount ta = 1.

(** [n] becomes [n'] by a signer who manages it: the owner, or the holder while tokenized, or
    the controller, who leaves the resolver as it is. *)
Definition managed_by (w : World) (S : list Pubkey) (n n' : NameRecord.t) : Prop :=
  exists s ta, s ∈ S /\ presented w ta /\ manages n s ta = true
    /\ (NameRecord.resolver n' <> NameRecord.resolver n -> name_authority_ok n s ta = true).

(** The owner signed, and the name is neither tokenized nor for sale. *)
Definition by_owner (S : list Pubkey) (n : NameRecord.t) : Prop :=
  NameRecord.owner n ∈ S /\ NameRecord.nft_mint n = None /\ NameRecord.listed n = false.

(** Who may end a sale without a buyer: the seller, or anyone once it is over. *)
Definition may_end (w : World) (S : list Pubkey) (x : Account) : Prop :=
  match x with
  | AListing l => Listing.seller l ∈ S \/ Listing.expires_at l < now w
  | AAuction u => Auction.highest_bidder u = None
                  /\ (Auction.seller u ∈ S \/ Auction.end_time u <= now w)
  | _ => False
  end.

(** How a sale starts: it ends in the future, a listing asks the price named, an auction is
    of a top-level name and has no bid. *)
Definition may_open (q : Request) (w : World) (n : NameRecord.t) (x : Account) : Prop :=
  match x with
  | AListing l => amount_named q = Some (Listing.price l) /\ now w < Listing.expires_at l
  | AAuction u => Auction.highest_bidder u = None /\ Auction.highest_bid u = 0
                  /\ now w < Auction.end_time u /\ NameRecord.parent n = None
  | _ => False
  end.

(** How a sale's terms change: its seller sets a new price and a future end, or a signer other
    than the seller bids what is required while the auction runs. *)
Inductive retermed (q : Request) (w : World) : Account -> Account -> Prop :=
| reprice l price e :
    Listing.seller l ∈ signed_by q -> amount_named q = Some price -> now w < e ->
    retermed q w (AListing l)
      (AListing (Listing.mk (Listing.seller l) (Listing.name_hash l) price e (Listing.bump l)))
| outbid x b amount required e :
    b ∈ signed_by q -> amount_named q = Some amount -> b <> Auction.seller x ->
    now w < Auction.end_time x ->
    Bid.min_required x = Ok required -> required <= amount -> 0 < amount ->
    Bid.extended_end x (now w) = Ok e ->
    retermed q w (AAuction x)
      (AAuction (Auction.mk (Auction.seller x) (Auction.name_hash x) (Auction.bid_vault x)
         (Some b) amount (Auction.reserve_price x) (Auction.min_increment x) e (Auction.bump x))).

(** A price in lamports: the seller has at least what the fee leaves of it more than before,
    the treasury the fee; unless one of them is among the [payers], which are debited. *)
Definition paid (c : Config) (w : World) (l' : Ledger) (payers : list Pubkey) (seller : Pubkey)
    (price : Z) : Prop :=
  exists fee rest, sale_split c price = Ok (fee, rest)
    /\ (seller ∉ payers -> lamports (ledger w) seller + rest <= lamports l' seller)
    /\ (OnChain.sol_treasury c ∉ payers ->
        lamports (ledger w) (OnChain.sol_treasury c) + fee <= lamports l' (OnChain.sol_treasury c)).

(** Who buys the name listed at [k]: a signer other than the seller, who is still the owner,
    at the price both named, which is paid out of the buyer's lamports. *)
Definition buys (q : Request) (w : World) (l' : Ledger) (n : NameRecord.t) (k : Pubkey)
    (l : Listing.t) (b : Pubkey) : Prop :=
  b ∈ signed_by q /\ NameRecord.listed n = true /\ NameRecord.owner n = Listing.seller l
  /\ b <> Listing.seller l /\ now w <= Listing.expires_at l
  /\ amount_named q = Some (Listing.price l)
  /\ exists ca c, accounts w !! ca = Some (AConfig c)
       /\ paid c w l' [b; k] (Listing.seller l) (Listing.price l)
       /\ (OnChain.sol_treasury c <> b ->
           lamports l' b = lamports (ledger w) b - Listing.price l).

(** Who takes an offer at [o]: the owner, who signed, from another, in time, and is paid. *)
Definition takes (w : World) (l' : Ledger) (n : NameRecord.t) (o : Pubkey) (x : Offer.t) : Prop :=
  now w <= Offer.expires_at x /\ Offer.buyer x <> NameRecord.owner n
  /\ exists ca c, accounts w !! ca = Some (AConfig c)
       /\ paid c w l' [o] (NameRecord.owner n) (Offer.amount x).

(** Who withdraws an offer: its bidder, the owner of its name, anyone once it is over. *)
Definition may_withdraw (w : World) (S : list Pubkey) (x : Offer.t) : Prop :=
  Offer.buyer x ∈ S
  \/ (exists a n, accounts w !! a = Some (AName n)
       /\ NameRecord.name_hash n = Offer.name_hash x /\ NameRecord.owner n ∈ S)
  \/ Offer.expires_at x < now w.

(** A signer's token account is presented, of a mint the registry is paid in. *)
Definition charged (w : World) (S : list Pubkey) : Prop :=
  exists ca c a ta, accounts w !! ca = Some (AConfig c) /\ token_account (ledger w) a = Some ta
    /\ ta_owner ta ∈ S
    /\ (ta_mint ta = payment_mint c \/ (ta_mint ta = solans_mint c /\ solans_enabled c = true)).

(** Renewals: a signer pays; or, for one year when the expiry is within the window, the
    owner, from an account of the payment mint. *)
Definition may_renew (w : World) (S : list Pubkey) (n : NameRecord.t) (years : Z) : Prop :=
  charged w S
  \/ (years = 1 /\ NameRecord.expires_at n - RENEWAL_WINDOW_SECONDS <= now w
      /\ exists ca c a ta, accounts w !! ca = Some (AConfig c)
           /\ token_account (ledger w) a = Some ta /\ ta_owner ta = NameRecord.owner n
           /\ ta_mint ta = payment_mint c).

(** The position at [a] is a signer's, and what it holds changed by the amount named. *)
Definition restaked (q : Request) (a : Pubkey) (old amount : Z) : Prop :=
  (exists s b, s ∈ signed_by q
    /\ create_program_address ([STAKE_SEED; s] ++ [[b]]) ID = Some a)
  /\ match amount_named q with
     | Some z => (0 < z /\ amount = old + z) \/ (z <= old /\ amount = old - z)
     | None => amount = old
     end.

(** The pool keeps its mint, vaults and bump. *)
Definition same_pool (q q' : StakePool.t) : Prop :=
  StakePool.solans_mint q' = StakePool.solans_mint q
  /\ StakePool.stake_vault q' = StakePool.stake_vault q
  /\ StakePool.reward_vault q' = StakePool.reward_vault q /\ StakePool.bump q' = StakePool.bump q.

(** A term in years that the configuration allows. *)
Definition in_terms (w : World) (years : Z) : Prop :=
  exists ca c, accounts w !! ca = Some (AConfig c) /\ min_years c <= years <= max_years c.

(** The record [wrap_subdomain] creates under [p] at [pa]. *)
Definition child_record (w : World) (pa : Pubkey) (p : NameRecord.t) (owner : Pubkey)
    (name_hash : bytes) (bump : Z) : NameRecord.t :=
  NameRecord.mk owner None name_hash (NameRecord.tld p) (now w) (NameRecord.expires_at p) [] None
    None false false None (Some pa) (NameRecord.registered_at p) (NameRecord.depth p + 1) false
    bump.

(** What a position holds, nothing when it is new. *)
Definition staked_at (w : World) (a : Pubkey) : option Z :=
  match accounts w !! a with
  | None => Some 0
  | Some (AStake s) => Some (StakeAccount.amount s)
  | Some _ => None
  end.

Inductive transition (rq : Request) (w : World) (l' : Ledger)
  : Creation -> gmap Pubkey Account -> Prop :=
| t_register a name tld owner expires b years :
    accounts w !! a = None ->
    find_program_address [NAME_SEED; compute_name_hash name tld] ID = (a, b) ->
    validate_name name = Ok tt -> validate_tld tld = Ok tt ->
    charged w (signed_by rq) -> in_terms w years -> expires = now w + years * SECONDS_PER_YEAR ->
    transition rq w l' (TopLevel name tld)
      (<[a := AName (init_top_level_record owner (compute_name_hash name tld) tld
                                    (now w) expires b)]> (accounts w))
| t_wrap a pa p label owner b :
    accounts w !! a = None -> accounts w !! pa = Some (AName p) ->
    find_program_address [NAME_SEED; compute_subdomain_hash (NameRecord.name_hash p) label] ID
      = (a, b) ->
    by_owner (signed_by rq) p -> now w <= NameRecord.expires_at p ->
    validate_name label = Ok tt -> NameRecord.depth p + 1 <= MAX_SUBDOMAIN_DEPTH ->
    transition rq w l' (Under pa label)
      (<[a := AName (child_record w pa p owner
        (compute_subdomain_hash (NameRecord.name_hash p) label) b)]> (accounts w))
| t_renew a n n' years :
    accounts w !! a = Some (AName n) -> in_terms w years -> may_renew w (signed_by rq) n years ->
    extend n years (now w) = Ok n' ->
    transition rq w l' Nothing (<[a := AName n']> (accounts w))
| t_manage a n n' :
    accounts w !! a = Some (AName n) -> managed_by w (signed_by rq) n n' ->
    NameRecord.listed n = false -> managed_edit n n' ->
    transition rq w l' Nothing (<[a := AName n']> (accounts w))
| t_set a n n' :
    accounts w !! a = Some (AName n) -> by_owner (signed_by rq) n -> owner_edit n n' ->
    transition rq w l' Nothing (<[a := AName n']> (accounts w))
| t_reverse a r n name b :
    accounts w !! a = Some (AName n) -> by_owner (signed_by rq) n ->
    (accounts w !! r = None \/ exists old, accounts w !! r = Some (AReverse old)) ->
    NameRecord.parent n = None ->
    compute_name_hash name (NameRecord.tld n) = NameRecord.name_hash n ->
    fst (find_program_address [REVERSE_SEED; NameRecord.owner n] ID) = r ->
    transition rq w l' Nothing (<[a := AName (NameRecord.set_reverse_set true n)]>
      (<[r := AReverse (ReverseRecord.mk (NameRecord.owner n) (NameRecord.name_hash n) name
                          (NameRecord.tld n) b)]> (accounts w)))
| t_transfer a n v :
    accounts w !! a = Some (AName n) -> by_owner (signed_by rq) n ->
    NameRecord.transfer_locked n = false ->
    transition rq w l' Nothing (<[a := AName (NameRecord.set_owner v n)]> (accounts w))
| t_redeem a n mint s :
    accounts w !! a = Some (AName n) -> NameRecord.nft_mint n = Some mint ->
    s ∈ signed_by rq -> holds w s mint ->
    transition rq w l' Nothing
      (<[a := AName (NameRecord.set_nft_mint None (NameRecord.set_owner s n))]> (accounts w))
| t_claim a n s ca c expires years :
    accounts w !! a = Some (AName n) -> s ∈ signed_by rq -> NameRecord.parent n = None ->
    accounts w !! ca = Some (AConfig c) ->
    NameRecord.expires_at n + grace_period_seconds c < now w ->
    charged w (signed_by rq) -> in_terms w years -> expires = now w + years * SECONDS_PER_YEAR ->
    transition rq w l' Nothing (<[a := AName (init_top_level_record s (NameRecord.name_hash n)
        (NameRecord.tld n) (now w) expires (NameRecord.bump n))]> (accounts w))
| t_burn a n :
    accounts w !! a = Some (AName n) -> by_owner (signed_by rq) n ->
    transition rq w l' Nothing (delete a (accounts w))
| t_revoke a n pa p :
    accounts w !! a = Some (AName n) -> NameRecord.parent n = Some pa ->
    accounts w !! pa = Some (AName p) -> NameRecord.owner p ∈ signed_by rq ->
    NameRecord.nft_mint n = None ->
    transition rq w l' Nothing (delete a (accounts w))
| t_freeze a n l x :
    accounts w !! a = Some (AName n) -> by_owner (signed_by rq) n ->
    NameRecord.transfer_locked n = false ->
    accounts w !! l = None -> sale_of x = Some (NameRecord.owner n, NameRecord.name_hash n) ->
    sale_seeds x l -> may_open rq w n x ->
    transition rq w l' Nothing
      (<[a := AName (NameRecord.set_listed true n)]> (<[l := x]> (accounts w)))
| t_unfreeze a n l x s :
    accounts w !! a = Some (AName n) -> accounts w !! l = Some x ->
    sale_of x = Some (s, NameRecord.name_hash n) -> may_end w (signed_by rq) x ->
    transition rq w l' Nothing
      (delete l (<[a := AName (NameRecord.set_listed false n)]> (accounts w)))
| t_buy a n k l s b :
    accounts w !! a = Some (AName n) -> accounts w !! k = Some (AListing l) ->
    sale_of (AListing l) = Some (s, NameRecord.name_hash n) -> buys rq w l' n k l b ->
    transition rq w l' Nothing
      (delete k (<[a := AName (NameRecord.set_listed false (NameRecord.set_owner b n))]>
        (accounts w)))
| t_won a n k x s b :
    accounts w !! a = Some (AName n) -> accounts w !! k = Some (AAuction x) ->
    sale_of (AAuction x) = Some (s, NameRecord.name_hash n) ->
    Auction.highest_bidder x = Some b -> Auction.end_time x <= now w ->
    transition rq w l' Nothing
      (delete k (<[a := AName (NameRecord.set_listed false (NameRecord.set_owner b n))]>
        (accounts w)))
| t_terms k x x' s :
    accounts w !! k = Some x -> retermed rq w x x' -> sale_of x = Some s -> sale_of x' = Some s ->
    (sale_seeds x k -> sale_seeds x' k) ->
    transition rq w l' Nothing (<[k := x']> (accounts w))
| t_offer o x :
    accounts w !! o = None -> Offer.buyer x ∈ signed_by rq -> Offer.amount x <= lamports l' o ->
    amount_named rq = Some (Offer.amount x) -> now w < Offer.expires_at x ->
    find_program_address [OFFER_SEED; Offer.name_hash x; Offer.buyer x] ID = (o, Offer.bump x) ->
    transition rq w l' Nothing (<[o := AOffer x]> (accounts w))
| t_accept a n o x :
    accounts w !! a = Some (AName n) -> by_owner (signed_by rq) n ->
    accounts w !! o = Some (AOffer x) ->
    Offer.name_hash x = NameRecord.name_hash n -> takes w l' n o x ->
    transition rq w l' Nothing
      (delete o (<[a := AName (NameRecord.set_owner (Offer.buyer x) n)]> (accounts w)))
| t_withdraw o x :
    accounts w !! o = Some (AOffer x) -> may_withdraw w (signed_by rq) x ->
    transition rq w l' Nothing (delete o (accounts w))
| t_open_config a p c :
    accounts w !! a = None -> admin c ∈ signed_by rq ->
    solans_discount_bps c = 0 -> solans_rate c = 0 ->
    ConfigParams.typed p -> ConfigParams.check p = Ok tt ->
    find_program_address [CONFIG_SEED] ID = (a, OnChain.bump c) ->
    transition rq w l' Nothing (<[a := AConfig (ConfigParams.apply p c)]> (accounts w))
| t_config a c c' :
    accounts w !! a = Some (AConfig c) -> config_change c c' -> admin c ∈ signed_by rq ->
    transition rq w l' Nothing (<[a := AConfig c']> (accounts w))
| t_open_pool a q ca c c' :
    accounts w !! a = None -> accounts w !! ca = Some (AConfig c) -> config_change c c' ->
    admin c ∈ signed_by rq -> StakePool.total_staked q = 0 ->
    fst (find_program_address [STAKE_POOL_SEED] ID) = a ->
    transition rq w l' Nothing (<[ca := AConfig c']> (<[a := AStakePool q]> (accounts w)))
| t_stake a s old pa q q' :
    accounts w !! pa = Some (AStakePool q) -> staked_at w a = Some old ->
    same_pool q q' ->
    StakePool.total_staked q' - StakePool.total_staked q = StakeAccount.amount s - old ->
    restaked rq a old (StakeAccount.amount s) ->
    StakeAccount.amount s = old \/ 0 <= StakeAccount.amount s ->
    transition rq w l' Nothing (<[a := AStake s]> (<[pa := AStakePool q']> (accounts w)))
| t_idle : transition rq w l' Nothing (accounts w).

(** ** The handlers are transitions *)

Context {RS : RuntimeSpec _} {AS : AddressesSpec _}.

Lemma by_owner_intro S n o : NameRecord.owner n = o -> o ∈ S ->
  NameRecord.nft_mint n = None -> NameRecord.listed n = false -> by_owner S n.
Proof. intros <- ? ? ?. done. Qed.

Lemma load_token_opt_presented a w ta : load_token_opt a w = Ok ta -> presented w ta.
Proof.
  unfold load_token_opt, load_token, presented. destruct a as [a|]; [|intros [= <-]; by left].
  intros HL. apply result_fmap_Ok in HL as (t & Ht & <-). apply of_option_Ok in Ht. eauto.
Qed.

Lemma in_terms_intro w ca c years u : accounts w !! ca = Some (AConfig c) ->
  validate_years years (min_years c) (max_years c) = Ok u -> in_terms w years.
Proof.
  intros Hc HV. exists ca, c. split; [done|]. destruct u. unfold validate_years in HV.
  apply require_Ok, andb_true_iff in HV as [Hlo Hhi]. lia.
Qed.

Lemma expiry_parts years secs base e :
  years_to_secs years = Ok secs -> checked_i64 (base + secs) = Ok e ->
  e = base + years * SECONDS_PER_YEAR.
Proof. unfold years_to_secs. intros [<- _]%checked_Ok [<- _]%checked_Ok. done. Qed.

(** A position's address is derived from its staker. *)
Lemma restaked_intro q a s b old amount : s ∈ signed_by q ->
  create_program_address ([STAKE_SEED; s] ++ [[b]]) ID = Some a ->
  match amount_named q with
  | Some z => (0 < z /\ amount = old + z) \/ (z <= old /\ amount = old - z)
  | None => amount = old
  end -> restaked q a old amount.
Proof. intros Hs Ha Hz. split; eauto. Qed.

(** The accounts a fee or a burn is taken from. *)
Lemma charged_intro w S ca c a ta : accounts w !! ca = Some (AConfig c) ->
  token_account (ledger w) a = Some ta -> ta_owner ta ∈ S ->
  ta_mint ta = payment_mint c \/ (ta_mint ta = solans_mint c /\ solans_enabled c = true) ->
  charged w S.
Proof. intros Hc Ha Ho Hm. exists ca, c, a, ta. done. Qed.

Lemma fee_tokens_Ok f w l : FeeAccounts.load f w = Ok l ->
  token_account (ledger w) (FeeAccounts.payer_token_account f) = Some (FeeAccounts.payer_account l).
Proof.
  unfold FeeAccounts.load, load_token. intros HL. refine_start. cbn.
  match goal with HA : token_account _ (FeeAccounts.payer_token_account f) = _ |- _ => exact HA end.
Qed.

Lemma fee_charged f w l payer ca c u : accounts w !! ca = Some (AConfig c) ->
  FeeAccounts.load f w = Ok l -> FeeAccounts.check f l payer c = Ok u -> charged w [payer].
Proof.
  intros Hc HL HC. unfold FeeAccounts.check, FeeAccounts.check_destinations, wallet_token,
    token_mint_is, token_authority_is in HC.
  refine_start. eapply charged_intro; [done|by eapply fee_tokens_Ok| |left; congruence].
  set_solver.
Qed.

Lemma solans_charged s w account mint payer ca c u : accounts w !! ca = Some (AConfig c) ->
  SolansAccounts.load s w = Ok (account, mint) ->
  SolansAccounts.check s account mint payer c = Ok u -> solans_enabled c = true ->
  charged w [payer].
Proof.
  unfold SolansAccounts.load, SolansAccounts.check, wallet_token, load_token, token_mint_is,
    token_authority_is. intros Hc HL HC He. refine_start.
  eapply charged_intro; [done|eassumption| |right; split; [congruence|done]]. set_solver.
Qed.

(** A positive duration ends in the future. *)
Lemma deadline_later w d e : deadline w d = Ok e -> 0 < d -> now w < e.
Proof. unfold deadline. intros HD Hd. apply custom_Ok, checked_Ok in HD as [<- _]. lia. Qed.

(** The owner signed, so [by_owner] holds. *)
Ltac owner_signed := eapply by_owner_intro; [eassumption|set_solver|assumption..].

Lemma register_name_refines acc name tld name_hash years w w' :
  RegisterName.handler acc name tld name_hash years w = Ok w' ->
  transition (mk_request [RegisterName.payer acc] None) w (ledger w') (TopLevel name tld) (accounts w').
Proof.
  unfold RegisterName.handler. intros HX. refine_start. subst.
  eapply t_register; eauto using in_terms_intro, expiry_parts, fee_charged, solans_charged.
Qed.

Lemma register_with_solans_refines acc name tld name_hash years w w' :
  RegisterWithSolans.handler acc name tld name_hash years w = Ok w' ->
  transition (mk_request [RegisterWithSolans.payer acc] None) w (ledger w') (TopLevel name tld)
    (accounts w').
Proof.
  unfold RegisterWithSolans.handler. intros HX. refine_start. subst.
  eapply t_register; eauto using in_terms_intro, expiry_parts, fee_charged, solans_charged.
Qed.

Lemma renew_name_refines acc name tld years w w' :
  RenewName.handler acc name tld years w = Ok w' ->
  transition (mk_request [RenewName.payer acc] None) w (ledger w') Nothing (accounts w').
Proof.
  unfold RenewName.handler. intros HX. refine_start. eapply t_renew; eauto using in_terms_intro.
  left. eauto using fee_charged.
Qed.

Lemma renew_with_solans_refines acc name tld years w w' :
  RenewWithSolans.handler acc name tld years w = Ok w' ->
  transition (mk_request [RenewWithSolans.payer acc] None) w (ledger w') Nothing (accounts w').
Proof.
  unfold RenewWithSolans.handler. intros HX. refine_start.
  eapply t_renew; eauto using in_terms_intro. left. eauto using solans_charged.
Qed.

Lemma auto_renew_refines acc name tld years w w' :
  AutoRenew.handler acc name tld years w = Ok w' ->
  transition (mk_request [AutoRenew.keeper acc] None) w (ledger w') Nothing (accounts w').
Proof.
  unfold AutoRenew.handler, token_mint_is, FeeAccounts.check_destinations. intros HX. refine_start.
  match goal with HL : FeeAccounts.load _ _ = Ok _ |- _ => apply fee_tokens_Ok in HL end.
  match goal with HG : checked_i64 (_ - RENEWAL_WINDOW_SECONDS) = _ |- _ =>
    apply checked_Ok in HG as [<- _] end.
  eapply t_renew; eauto using in_terms_intro.
  right. split; [done|]. split; [done|]. do 4 eexists. split; [eassumption|].
  split; [eassumption|]. split; [done|]. cbn in *. congruence.
Qed.

Lemma claim_expired_refines acc name tld years w w' :
  ClaimExpired.handler acc name tld years w = Ok w' ->
  transition (mk_request [ClaimExpired.claimer acc] None) w (ledger w') Nothing (accounts w').
Proof.
  unfold ClaimExpired.handler. intros HX. refine_start.
  match goal with HG : checked_i64 (_ + grace_period_seconds _) = _ |- _ =>
    apply checked_Ok in HG as [<- _] end.
  eapply t_claim; eauto using in_terms_intro, expiry_parts, fee_charged. constructor.
Qed.

Lemma transfer_name_refines acc new_owner w w' :
  TransferName.handler acc new_owner w = Ok w' ->
  transition (mk_request [TransferName.owner acc] None) w (ledger w') Nothing (accounts w').
Proof.
  unfold TransferName.handler. intros HX. refine_start. eapply t_transfer; eauto. owner_signed.
Qed.

Lemma lock_transfer_refines acc lock w w' :
  LockTransfer.handler acc lock w = Ok w' ->
  transition (mk_request [LockTransfer.owner acc] None) w (ledger w') Nothing (accounts w').
Proof.
  unfold LockTransfer.handler. intros HX. refine_start.
  eapply t_set; eauto using owner_edit. owner_signed.
Qed.

Lemma set_controller_refines acc controller w w' :
  SetController.handler acc controller w = Ok w' ->
  transition (mk_request [SetController.owner acc] None) w (ledger w') Nothing (accounts w').
Proof.
  unfold SetController.handler. intros HX. refine_start.
  eapply t_set; eauto using owner_edit. owner_signed.
Qed.

Lemma burn_name_refines acc w w' :
  BurnName.handler acc w = Ok w' ->
  transition (mk_request [BurnName.owner acc] None) w (ledger w') Nothing (accounts w').
Proof.
  unfold BurnName.handler. intros HX. refine_start. eapply t_burn; eauto. owner_signed.
Qed.

(** The authority that [name_authority_ok] or [manages] accepted signed. *)
Lemma managed_by_intro w S n n' s a ta :
  s ∈ S -> load_token_opt a w = Ok ta -> manages n s ta = true ->
  NameRecord.resolver n' = NameRecord.resolver n -> managed_by w S n n'.
Proof.
  intros Hs Ha Hm Hr. exists s, ta. split; [done|]. split; [by eapply load_token_opt_presented|].
  split; [done|congruence].
Qed.

Lemma set_resolver_refines acc resolver w w' :
  SetResolver.handler acc resolver w = Ok w' ->
  transition (mk_request [SetResolver.authority acc] None) w (ledger w') Nothing (accounts w').
Proof.
  unfold SetResolver.handler. intros HX. refine_start.
  eapply t_manage; eauto using managed_edit. exists (SetResolver.authority acc), x0.
  split; [constructor|]. split; [by eapply load_token_opt_presented|]. split; [|done].
  unfold manages. apply orb_true_iff. by left.
Qed.

Lemma set_hosting_refines acc hosting_ref w w' :
  SetHosting.handler acc hosting_ref w = Ok w' ->
  transition (mk_request [SetHosting.authority acc] None) w (ledger w') Nothing (accounts w').
Proof.
  unfold SetHosting.handler. intros HX. refine_start.
  eapply t_manage; eauto.
  - eapply managed_by_intro; [constructor|eassumption..|done].
  - constructor. intros h ->. refine_start. done.
Qed.

Lemma update_record_refines acc key value w w' :
  UpdateRecord.handler acc key value w = Ok w' ->
  transition (mk_request [UpdateRecord.authority acc] None) w (ledger w') Nothing (accounts w').
Proof.
  unfold UpdateRecord.handler. intros HX. refine_start.
  eapply t_manage; eauto.
  - eapply managed_by_intro; [constructor|eassumption..|].
    destruct value; refine_start.
    + match goal with HU : NameRecord.upsert_record _ _ _ = Ok _ |- _ =>
        by apply upsert_identity in HU as [rs ->] end.
    + match goal with HD : NameRecord.delete_record _ _ = Ok _ |- _ =>
        by apply delete_identity in HD as [rs ->] end.
  - destruct value; refine_start; eauto using managed_edit.
Qed.

Lemma set_reverse_refines acc name w w' :
  SetReverse.handler acc name w = Ok w' ->
  transition (mk_request [SetReverse.owner acc] None) w (ledger w') Nothing (accounts w').
Proof.
  unfold SetReverse.handler. intros HX. refine_start.
  match goal with HF : find_program_address _ _ = (?e, _) |- _ => rename e into expected end.
  assert (accounts x0 = accounts w /\ expected = SetReverse.reverse_record acc
    /\ (accounts w !! SetReverse.reverse_record acc = None \/ exists old,
          accounts w !! SetReverse.reverse_record acc = Some (AReverse old))) as (HW & He & Hr).
  { destruct (accounts w !! SetReverse.reverse_record acc) as [y|] eqn:Hr.
    - refine_start. destruct y; try discriminate. eauto.
    - apply result_fmap_Ok in Hx0 as ([b w1] & HI & <-). refine_start.
      split; [done|]. split; [congruence|by left]. }
  rewrite HW. replace (SetReverse.owner acc) with (NameRecord.owner x) in * by done.
  eapply t_reverse; eauto.
  - owner_signed.
  - by rewrite Heqp.
Qed.

Lemma tokenize_name_refines acc name w w' :
  TokenizeName.handler acc name w = Ok w' ->
  transition (mk_request [TokenizeName.owner acc; TokenizeName.mint acc] None) w (ledger w') Nothing
    (accounts w').
Proof.
  unfold TokenizeName.handler. intros HX. refine_start.
  eapply t_set; eauto using owner_edit. owner_signed.
Qed.

Lemma redeem_name_refines acc w w' :
  RedeemName.handler acc w = Ok w' ->
  transition (mk_request [RedeemName.redeemer acc] None) w (ledger w') Nothing (accounts w').
Proof.
  unfold RedeemName.handler, load_token, token_mint_is, token_authority_is. intros HX. refine_start.
  eapply t_redeem; [eassumption..|constructor|].
  eexists _, _. eauto.
Qed.

Lemma wrap_subdomain_refines acc label name_hash w w' :
  WrapSubdomain.handler acc label name_hash w = Ok w' ->
  transition (mk_request [WrapSubdomain.owner acc] None) w (ledger w')
    (Under (WrapSubdomain.parent_name acc) label) (accounts w').
Proof.
  unfold WrapSubdomain.handler. intros HX. refine_start. subst name_hash.
  match goal with HG : checked 0 255 _ = _ |- _ => apply checked_Ok in HG as [<- _] end.
  eapply t_wrap; eauto. owner_signed.
Qed.

Lemma revoke_subdomain_refines acc w w' :
  RevokeSubdomain.handler acc w = Ok w' ->
  transition (mk_request [RevokeSubdomain.owner acc] None) w (ledger w') Nothing (accounts w').
Proof.
  unfold RevokeSubdomain.handler. intros HX. refine_start.
  eapply t_revoke; eauto. set_solver.
Qed.

Lemma list_name_refines acc price duration w w' :
  ListName.handler acc price duration w = Ok w' ->
  transition (mk_request [ListName.owner acc] (Some price)) w (ledger w') Nothing (accounts w').
Proof.
  unfold ListName.handler. intros HX. refine_start.
  eapply t_freeze; eauto; [owner_signed|cbn; repeat f_equal; auto|].
  cbn. repeat split; auto. by eapply deadline_later.
Qed.

Lemma cancel_listing_refines acc w w' :
  CancelListing.handler acc w = Ok w' ->
  transition (mk_request [CancelListing.canceller acc] None) w (ledger w') Nothing (accounts w').
Proof.
  unfold CancelListing.handler. intros HX. refine_start.
  eapply t_unfreeze; eauto; [cbn; repeat f_equal; auto|]. cbn.
  match goal with HO : (_ || _)%bool = true |- _ => apply orb_true_iff in HO as [HO|HO] end;
    bool_prop; [left; set_solver|by right].
Qed.

Lemma update_listing_refines acc price duration w w' :
  UpdateListing.handler acc price duration w = Ok w' ->
  transition (mk_request [UpdateListing.seller acc] (Some price)) w (ledger w') Nothing (accounts w').
Proof.
  unfold UpdateListing.handler. intros HX. refine_start. eapply t_terms; eauto.
  constructor; [|done|by eapply deadline_later]. cbn. set_solver.
Qed.

Lemma pay_lamports_Ok from to amount w w' : pay_lamports from to amount w = Ok w' ->
  exists l, moves [from] (ledger w) l /\ w' = with_ledger l w.
Proof.
  unfold pay_lamports. destruct (amount >? 0).
  - intros HR. apply run_Ok in HR as (l & Hl & ->). exists l. split; [|done].
    intros a Ha. by eapply invoke_frame.
  - intros [= <-]. exists (ledger w). split; [apply moves_refl|by rewrite with_ledger_id].
Qed.

(** What a payment moved: its amount to the destination; more may have come. *)
Lemma pay_lamports_moved from to amount w w' : 0 <= amount -> pay_lamports from to amount w = Ok w' ->
  exists l, w' = with_ledger l w
    /\ (forall a, a <> from ->
        lamports (ledger w) a + (if decide (a = to) then amount else 0) <= lamports l a)
    /\ (from <> to -> lamports l from = lamports (ledger w) from - amount).
Proof.
  unfold pay_lamports. intros Hz. destruct (Z.gtb_spec amount 0).
  - intros HR. apply run_Ok in HR as (l & Hl & ->). exists l. split; [done|]. split.
    + intros a Ha.
      case_decide as Hd; [subst a; eapply transfer_moves in Hl as (_ & _ & ->); [lia|lia|congruence]|].
      rewrite Z.add_0_r. eapply invoke_frame; [exact Hl|]. cbn. set_solver.
    + intros Hft. by eapply transfer_moves in Hl as (_ & -> & _).
  - intros [= <-]. exists (ledger w). rewrite with_ledger_id. split; [done|].
    split; [|lia]. intros a _. case_decide; lia.
Qed.

Lemma move_lamports_moved from to amount w w' : move_lamports from to amount w = Ok w' ->
  exists l, w' = with_ledger l w
    /\ forall a, a <> from ->
        lamports l a = lamports (ledger w) a + (if decide (a = to) then amount else 0).
Proof.
  unfold move_lamports. destruct (Z.eqb_spec amount 0) as [->|_].
  - intros [= <-]. exists (ledger w). rewrite with_ledger_id. split; [done|].
    intros a _. case_decide; lia.
  - intros HM. chain_inv. unfold checked_u64 in *.
    repeat match goal with HC : checked _ _ _ = Ok _ |- _ => apply checked_Ok in HC as [<- ?] end.
    eexists. split; [done|]. intros a Ha.
    rewrite lamports_set by lia. rewrite (decide_ext (a = to) (to = a)) by done.
    case_decide; [by subst|]. rewrite lamports_set by lia. rewrite decide_False by done. lia.
Qed.

(** What an account holds after another, [k], is closed to [d]. *)
Lemma swept_lamports k d l a : a <> k ->
  lamports l a + (if decide (a = d) then lamports l k else 0)
  = lamports (set_lamports (set_lamports l d (lamports l d + lamports l k)) k 0) a.
Proof.
  intros Ha. pose proof (lamports_nonneg l k). pose proof (lamports_nonneg l d).
  rewrite !lamports_set by lia. repeat case_decide; subst; try lia; congruence.
Qed.

(** The fee and the rest of a price are amounts, and make it up. *)
Lemma sale_split_sum c price fee rest : sale_split c price = Ok (fee, rest) ->
  0 <= fee /\ 0 <= rest /\ fee + rest = price.
Proof.
  unfold sale_split, marketplace_fee. intros HS. chain_inv.
  match goal with HC : checked_u64 _ = Ok _ |- _ => apply checked_Ok in HC as [<- ?] end.
  pose proof (Z.mod_pos_bound x0 (2 ^ 64)). lia.
Qed.

(** The payments of a sale by listing, and the listing's account closed to the seller. *)
Lemma listing_paid c w b s k price fee rest w1 w2 :
  sale_split c price = Ok (fee, rest) -> b <> s -> b <> k ->
  pay_lamports b s rest w = Ok w1 -> pay_lamports b (OnChain.sol_treasury c) fee w1 = Ok w2 ->
  let l := ledger w2 in
  let l' := set_lamports (set_lamports l s (lamports l s + lamports l k)) k 0 in
  paid c w l' [b; k] s price
  /\ (OnChain.sol_treasury c <> b -> lamports l' b = lamports (ledger w) b - price).
Proof.
  intros HS Hbs Hbk HA HB. destruct (sale_split_sum _ _ _ _ HS) as (Hf & Hr & Hp).
  apply pay_lamports_moved in HA as (l1 & -> & HA & HAb); [|done].
  apply pay_lamports_moved in HB as (l2 & -> & HB & HBb); [|done]. cbn in *.
  split; [exists fee, rest; split; [done|]; split|].
  - intros Hs. rewrite <- swept_lamports by set_solver. pose proof (lamports_nonneg l2 k).
    specialize (HA s ltac:(done)). specialize (HB s ltac:(done)).
    repeat case_decide; try done; lia.
  - intros Ht. rewrite <- swept_lamports by set_solver. pose proof (lamports_nonneg l2 k).
    specialize (HA (OnChain.sol_treasury c) ltac:(set_solver)).
    specialize (HB (OnChain.sol_treasury c) ltac:(set_solver)).
    repeat case_decide; try done; lia.
  - intros Ht. rewrite <- swept_lamports by done. rewrite decide_False by done.
    rewrite HBb, HAb by congruence. lia.
Qed.

Lemma buy_name_refines acc price w w' :
  wallet w (BuyName.buyer acc) -> BuyName.handler acc price w = Ok w' ->
  transition (mk_request [BuyName.buyer acc] (Some price)) w (ledger w') Nothing (accounts w').
Proof.
  unfold BuyName.handler. intros [Hb _] HX. refine_start.
  rewrite Hx4, Hx5 in *. match goal with HS : sale_split _ _ = _ |- _ => rename HS into Hsplit end.
  match goal with HA : pay_lamports _ _ _ w = Ok ?w1, HB : pay_lamports _ _ _ ?w1 = Ok _ |- _ =>
    destruct (listing_paid _ _ _ _ (BuyName.listing acc) _ _ _ _ _ Hsplit ltac:(done)
      ltac:(congruence) HA HB) as [HP HL];
    apply pay_lamports_Ok in HA as (l1 & _ & ->); apply pay_lamports_Ok in HB as (l2 & _ & ->) end.
  cbn [accounts ledger with_ledger] in *.
  eapply t_buy; eauto; [cbn; repeat f_equal; auto|].
  repeat split; try done; [constructor|cbn; congruence|]. eauto.
Qed.

Lemma make_offer_refines acc amount duration w w' :
  0 <= amount -> wallet w (MakeOffer.buyer acc) ->
  MakeOffer.handler acc amount duration w = Ok w' ->
  transition (mk_request [MakeOffer.buyer acc] (Some amount)) w (ledger w') Nothing (accounts w').
Proof.
  unfold MakeOffer.handler. intros Ha [_ Hw] HX. refine_start.
  match goal with HF : find_program_address _ _ = _ |- _ => apply find_creates in HF as HF' end.
  match goal with HT : invoke _ _ (Transfer _ _ _) = Some _ |- _ =>
    apply transfer_moves in HT as (_ & _ & Hto); [|done|] end.
  2: { intros E. rewrite <- E in HF'. eapply (Hw OFFER_SEED); [set_solver|exact HF']. }
  match goal with HC : invoke _ _ (CreateAccount _ _ _) = Some _ |- _ =>
    apply lamports_created in HC end.
  apply t_offer; [done|constructor| |done| |done]; cbn; [lia|by eapply deadline_later].
Qed.

(** The payments out of an offer, and its account closed to the bidder. *)
Lemma offer_paid c w o s k price fee rest w1 w2 :
  sale_split c price = Ok (fee, rest) -> s <> k ->
  move_lamports k s rest w = Ok w1 -> move_lamports k (OnChain.sol_treasury c) fee w1 = Ok w2 ->
  let l := ledger w2 in
  paid c w (set_lamports (set_lamports l o (lamports l o + lamports l k)) k 0) [k] s price.
Proof.
  intros HS Hsk HA HB. destruct (sale_split_sum _ _ _ _ HS) as (Hf & Hr & _).
  apply move_lamports_moved in HA as (l1 & -> & HA). apply move_lamports_moved in HB as (l2 & -> & HB).
  cbn in *. pose proof (lamports_nonneg l2 k).
  exists fee, rest. split; [done|]. split; intros Hn;
    rewrite <- swept_lamports by set_solver; rewrite HB, HA by set_solver;
    repeat case_decide; try done; lia.
Qed.

Lemma accept_offer_refines acc w w' :
  wallet w (AcceptOffer.owner acc) -> AcceptOffer.handler acc w = Ok w' ->
  transition (mk_request [AcceptOffer.owner acc] None) w (ledger w') Nothing (accounts w').
Proof.
  unfold AcceptOffer.handler. intros [Hw _] HX. refine_start.
  match goal with HS : sale_split _ _ = _ |- _ => rename HS into Hsplit end.
  rewrite <- Hx8, Hx5 in *.
  assert (NameRecord.owner x2 <> AcceptOffer.offer acc) as Hne by congruence.
  match goal with HA : move_lamports _ _ _ w = Ok ?w1, HB : move_lamports _ _ _ ?w1 = Ok _ |- _ =>
    pose proof (offer_paid _ _ (AcceptOffer.buyer acc) _ _ _ _ _ _ _ Hsplit
      Hne HA HB) as HP;
    apply move_lamports_Ok in HA as (l1 & ->); apply move_lamports_Ok in HB as (l2 & ->) end.
  cbn [accounts ledger with_ledger] in *.
  eapply t_accept; eauto; [owner_signed|]. split; [done|]. split; [done|]. eauto.
Qed.

(** The record presented with an offer to cancel, when it is the canceller's. *)
Lemma presented_owner a w nr o s : load_opt pick_name a w = Ok nr ->
  CancelOffer.is_owner o s nr = true ->
  exists k n, accounts w !! k = Some (AName n) /\ NameRecord.name_hash n = Offer.name_hash o
    /\ NameRecord.owner n = s.
Proof.
  unfold load_opt. destruct a as [a|]; [|by intros [= <-]].
  intros (n & Hn & <-)%result_fmap_Ok HO. cbn in HO. bool_prop. apply load_name in Hn. eauto.
Qed.

Lemma cancel_offer_refines acc w w' :
  CancelOffer.handler acc w = Ok w' ->
  transition (mk_request [CancelOffer.canceller acc] None) w (ledger w') Nothing (accounts w').
Proof. unfold CancelOffer.handler. intros HX. refine_start.
  eapply t_withdraw; eauto. cbn.
  match goal with HO : (_ || _ || _)%bool = true |- _ =>
    apply orb_true_iff in HO as [[HA|HA]%orb_true_iff|HA] end.
  - bool_prop. left. set_solver.
  - right; left. eapply presented_owner in HA as (a & n & Ha & Hh & Ho); [|eassumption].
    exists a, n. split; [done|]. split; [done|]. rewrite Ho. constructor.
  - bool_prop. by right; right.
Qed.

Lemma start_auction_refines acc reserve increment duration w w' :
  StartAuction.handler acc reserve increment duration w = Ok w' ->
  transition (mk_request [StartAuction.owner acc] None) w (ledger w') Nothing (accounts w').
Proof.
  unfold StartAuction.handler. intros HX. refine_start.
  eapply t_freeze; eauto; [owner_signed|cbn; repeat f_equal; auto|].
  cbn. repeat split; auto. by eapply deadline_later.
Qed.

Lemma bid_refines acc amount w w' :
  Bid.handler acc amount w = Ok w' ->
  transition (mk_request [Bid.bidder acc] (Some amount)) w (ledger w') Nothing (accounts w').
Proof.
  unfold Bid.handler. intros HX. refine_start.
  match goal with HR : match Auction.highest_bidder x with _ => _ end = Ok ?v |- _ =>
    assert (accounts v = accounts w /\ now v = now w) as [HW Hnow]
      by (destruct (Auction.highest_bidder x); refine_start; done) end.
  rewrite HW. rewrite Hnow in *. eapply t_terms; eauto.
  by eapply outbid; try eassumption; [constructor|].
Qed.

Lemma pay_out_Ok acc cfg x m nr w fee nr' w' :
  SettleAuction.pay_out acc cfg x m nr w = Ok (fee, nr', w') ->
  (exists l, moves [] (ledger w) l /\ w' = with_ledger l w)
  /\ nr' = match Auction.highest_bidder x with
           | Some b => NameRecord.set_owner b nr
           | None => nr
           end.
Proof.
  unfold SettleAuction.pay_out. destruct (Auction.highest_bidder x) as [b|]; intros HP.
  - refine_start. split; [|done]. eauto using moves_trans.
  - injection HP as <- <- <-. split; [|done]. exists (ledger w).
    split; [apply moves_refl|by rewrite with_ledger_id].
Qed.

Lemma settle_auction_refines acc w w' :
  SettleAuction.handler acc w = Ok w' ->
  transition (mk_request [SettleAuction.settler acc] None) w (ledger w') Nothing (accounts w').
Proof.
  unfold SettleAuction.handler. intros HX. refine_start.
  match goal with HP : SettleAuction.pay_out _ _ _ _ _ _ = _ |- _ =>
    apply pay_out_Ok in HP as ((l' & _ & ->) & ->) end.
  cbn [accounts with_ledger] in *.
  destruct (Auction.highest_bidder x3) as [b|] eqn:HB.
  - eapply t_won; eauto. cbn. repeat f_equal; auto.
  - eapply t_unfreeze; eauto; [cbn; repeat f_equal; auto|]. cbn. auto.
Qed.

Lemma cancel_auction_refines acc w w' :
  CancelAuction.handler acc w = Ok w' ->
  transition (mk_request [CancelAuction.seller acc] None) w (ledger w') Nothing (accounts w').
Proof.
  unfold CancelAuction.handler. intros HX. refine_start.
  eapply t_unfreeze; eauto; [cbn; repeat f_equal; auto|]. cbn. split; [done|left; set_solver].
Qed.

(** *** Administration and staking *)

Lemma init_config_refines acc p w w' :
  ConfigParams.typed p -> InitConfig.handler acc p w = Ok w' ->
  transition (mk_request [InitConfig.admin acc] None) w (ledger w') Nothing (accounts w').
Proof.
  unfold InitConfig.handler. intros Hp HX. refine_start.
  eapply t_open_config; eauto. constructor.
Qed.

Lemma update_config_refines acc p w w' :
  ConfigParams.typed p -> UpdateConfig.handler acc p w = Ok w' ->
  transition (mk_request [UpdateConfig.admin acc] None) w (ledger w') Nothing (accounts w').
Proof.
  unfold UpdateConfig.handler. intros Hp HX. refine_start.
  eapply t_config; eauto using config_change. set_solver.
Qed.

Lemma transfer_admin_refines acc v w w' :
  TransferAdmin.handler acc v w = Ok w' ->
  transition (mk_request [TransferAdmin.admin acc] None) w (ledger w') Nothing (accounts w').
Proof.
  unfold TransferAdmin.handler. intros HX. refine_start.
  eapply t_config; eauto using config_change. set_solver.
Qed.

Lemma init_burn_pool_refines acc w w' :
  InitBurnPool.handler acc w = Ok w' ->
  transition (mk_request [InitBurnPool.admin acc] None) w (ledger w') Nothing (accounts w').
Proof.
  unfold InitBurnPool.handler. intros HX. refine_start.
  eapply t_config; eauto using config_change. set_solver.
Qed.

Lemma set_solans_params_refines acc rate discount w w' :
  is_u64 rate -> 0 <= discount -> SetSolansParams.handler acc rate discount w = Ok w' ->
  transition (mk_request [SetSolansParams.admin acc] None) w (ledger w') Nothing (accounts w').
Proof.
  unfold SetSolansParams.handler. intros Hr Hd HX. refine_start.
  eapply t_config; eauto using config_change. set_solver.
Qed.

Lemma buyback_burn_refines acc amount w w' :
  BuybackBurnIx.handler acc amount w = Ok w' ->
  transition (mk_request [BuybackBurnIx.keeper acc] None) w (ledger w') Nothing (accounts w').
Proof. unfold BuybackBurnIx.handler. intros HX. refine_start. apply t_idle. Qed.

Lemma init_stake_pool_refines acc w w' :
  InitStakePool.handler acc w = Ok w' ->
  transition (mk_request [InitStakePool.admin acc] None) w (ledger w') Nothing (accounts w').
Proof.
  unfold InitStakePool.handler. intros HX. refine_start.
  eapply t_open_pool; eauto using config_change.
  - set_solver.
  - match goal with HF : find_program_address _ _ = _ |- _ => by rewrite HF end.
Qed.

Lemma settle_total p s v q r : settle p s v = Ok (q, r) ->
  StakePool.total_staked q = StakePool.total_staked p.
Proof.
  unfold settle, sync. intros HS. refine_start. done.
Qed.

Lemma settle_same_pool p s v q r : settle p s v = Ok (q, r) -> same_pool p q.
Proof. unfold settle. intros HS. by refine_start. Qed.

Lemma rebase_amount p s amount s' : rebase p s amount = Ok s' -> StakeAccount.amount s' = amount.
Proof. unfold rebase. intros HR. by refine_start. Qed.

(** The position opened or found, and what it held. *)
Lemma staked_here w a s : accounts w !! a = Some (AStake s) ->
  staked_at w a = Some (StakeAccount.amount s).
Proof. unfold staked_at. by intros ->. Qed.

Lemma open_position_Ok acc w s w' : Stake.open_position acc w = Ok (s, w') ->
  accounts w' = accounts w /\ staked_at w (Stake.stake_account acc) = Some (StakeAccount.amount s)
  /\ exists b, create_program_address ([STAKE_SEED; Stake.staker acc] ++ [[b]]) ID
       = Some (Stake.stake_account acc).
Proof.
  unfold Stake.open_position, staked_at.
  destruct (accounts w !! Stake.stake_account acc) as [y|] eqn:Hy; intros HO; refine_start.
  - destruct y; try discriminate. simplify_eq/=. split; [done|]. split; [done|].
    destruct (find_program_address _ ID) as [e b] eqn:HF. cbn in *; subst.
    exists b. by apply find_creates in HF.
  - split; [done|]. split; [done|].
    match goal with HF : find_program_address _ ID = _ |- _ => apply find_creates in HF; eauto end.
Qed.

Lemma adopt_amount acc s : StakeAccount.amount (Stake.adopt acc s) = StakeAccount.amount s.
Proof. unfold Stake.adopt. by case_bool_decide. Qed.

Lemma stake_refines acc amount w w' :
  Stake.handler acc amount w = Ok w' ->
  transition (mk_request [Stake.staker acc] (Some amount)) w (ledger w') Nothing (accounts w').
Proof.
  unfold Stake.handler. intros HX. refine_start.
  match goal with HO : Stake.open_position _ _ = _ |- _ =>
    apply open_position_Ok in HO as (HW & Hold & b & Hb) end.
  match goal with HS : settle _ _ _ = _ |- _ =>
    apply settle_same_pool in HS as Hp; apply settle_total in HS as Ht end.
  match goal with HR : rebase _ _ _ = _ |- _ => apply rebase_amount in HR as Ha end.
  rewrite adopt_amount in *. rewrite HW.
  repeat match goal with HC : checked_u64 _ = Ok _ |- _ => apply checked_Ok in HC as [<- ?] end.
  eapply t_stake; [eassumption..|exact Hp| |eapply (restaked_intro _ _ _ b); [constructor|done|]|]; cbn;
    [lia|left; lia|right; lia].
Qed.

Lemma unstake_refines acc amount w w' :
  Unstake.handler acc amount w = Ok w' ->
  transition (mk_request [Unstake.staker acc] (Some amount)) w (ledger w') Nothing (accounts w').
Proof.
  unfold Unstake.handler. intros HX. refine_start.
  match goal with HS : settle _ _ _ = _ |- _ =>
    apply settle_same_pool in HS as Hp; apply settle_total in HS as Ht end.
  match goal with HR : rebase _ _ _ = _ |- _ => apply rebase_amount in HR as Ha end.
  repeat match goal with HC : checked_u64 _ = Ok _ |- _ => apply checked_Ok in HC as [<- ?] end.
  eapply t_stake; [eassumption|by apply staked_here|exact Hp|
    |eapply restaked_intro; [constructor|eassumption|]|];
    cbn; [lia|right; lia|right; lia].
Qed.

Lemma claim_rewards_refines acc w w' :
  ClaimRewards.handler acc w = Ok w' ->
  transition (mk_request [ClaimRewards.staker acc] None) w (ledger w') Nothing (accounts w').
Proof.
  unfold ClaimRewards.handler. intros HX. refine_start.
  match goal with HS : settle _ _ _ = _ |- _ =>
    apply settle_same_pool in HS as Hp; apply settle_total in HS as Ht end.
  match goal with HR : rebase _ _ _ = _ |- _ => apply rebase_amount in HR as Ha end.
  eapply t_stake; [eassumption|by apply staked_here|exact Hp|
    |eapply restaked_intro; [constructor|eassumption|]|];
    cbn; [lia|done|by left].
Qed.

(** Every instruction that succeeds is a transition of the abstract machine, with the
    authorisation the transition states. *)
Lemma execute_refines ix w w' : callable ix w -> execute ix w = Ok w' ->
  transition (request ix) w (ledger w') (creation ix) (accounts w').
Proof.
  intros [HT HW _]. destruct ix; unfold request; cbn [execute signers creation typed] in *; intros HE;
    eauto using register_name_refines, register_with_solans_refines, renew_name_refines,
      renew_with_solans_refines, auto_renew_refines, claim_expired_refines, transfer_name_refines,
      lock_transfer_refines, set_controller_refines, burn_name_refines, set_resolver_refines,
      set_hosting_refines, update_record_refines, set_reverse_refines, tokenize_name_refines,
      redeem_name_refines, wrap_subdomain_refines, revoke_subdomain_refines, list_name_refines,
      cancel_listing_refines, update_listing_refines, cancel_offer_refines, start_auction_refines, bid_refines,
      settle_auction_refines, cancel_auction_refines, init_config_refines, update_config_refines,
      transfer_admin_refines, init_burn_pool_refines, buyback_burn_refines,
      init_stake_pool_refines, stake_refines, unstake_refines, claim_rewards_refines.
  - apply Forall_cons in HW as [HW _]. eauto using buy_name_refines.
  - apply Forall_cons in HW as [HW _]. destruct HT as [[? _] _]. eauto using make_offer_refines.
  - apply Forall_cons in HW as [HW _]. eauto using accept_offer_refines.
  - destruct HT as [? [? _]]. eauto using set_solans_params_refines.
  - apply result_bind_Ok in HE as (d & _ & HE). injection HE as <-. apply t_idle.
Qed.
End Spec.

(** ** Concrete inputs *)

Definition opened : World := after open_registry genesis.

Lemma open_callable : callable open_registry genesis /\ execute open_registry genesis = Ok opened.
Proof. apply ready_callable; [by compute|by vm_compute]. Qed.

