(* ===== verification/OfferLaws.v ===== *)
(** * Offers hold their money

    An offer's account holds at least its amount in every reachable world, and its
    bidder can take it back at any time. *)
From stdpp Require Import gmap.
From S2P Require Import Prelude JsString Errors HashName OnChain Staking Runtime ChainState ProgramUtils.
From S2P Require Import Registration Ownership Market Auctions Administration StakingPool.
From S2P Require Import Registry ChainFacts RegistrySpec RegistryLaws.
From S2P Require Import SmallRuntime SmallChain.

Section Offers.
Context `{Runtime, Addresses, Keccak}.
Context {RS : RuntimeSpec _} {AS : AddressesSpec _}.

(** ** Lamports of the program's accounts *)

(** The lamports at [a] do not drop. *)
Abbreviation holds_at a l l' := (lamports l a <= lamports l' a).

Lemma invoke_keeps l s i l' (w : World) a x : invoke l s i = Some l' -> accounts w !! a = Some x ->
  Forall (fun b => accounts w !! b = None) (pays i) -> holds_at a l l'.
Proof.
  intros HI Ha HF. eapply invoke_frame; [exact HI|]. intros Hp.
  rewrite Forall_forall in HF. specialize (HF _ Hp). congruence.
Qed.

Lemma moves_keeps l l' a : moves [] l l' -> holds_at a l l'.
Proof. intros HM. apply HM. set_solver. Qed.

Lemma set_keeps l b z a : 0 <= z -> b <> a -> holds_at a l (set_lamports l b z).
Proof. intros Hz Hb. rewrite lamports_set by done. case_decide; [done|lia]. Qed.

Lemma close_keeps l c d a : c <> a ->
  holds_at a l (set_lamports (set_lamports l d (lamports l d + lamports l c)) c 0).
Proof.
  intros Hc. rewrite <- swept_lamports by done. pose proof (lamports_nonneg l c).
  case_decide; lia.
Qed.

Lemma move_lamports_keeps from to amount (w w' : World) a :
  move_lamports from to amount w = Ok w' -> 0 <= amount -> from <> a ->
  holds_at a (ledger w) (ledger w').
Proof.
  intros HM Hp Hf. apply move_lamports_moved in HM as (l & -> & HM). cbn.
  rewrite HM by done. case_decide; lia.
Qed.

Lemma pay_lamports_keeps from to amount (w w' : World) a :
  pay_lamports from to amount w = Ok w' -> from <> a -> holds_at a (ledger w) (ledger w').
Proof.
  intros HP Hf. apply pay_lamports_Ok in HP as (l & HM & ->). apply HM. set_solver.
Qed.

(** Every step of a handler keeps the lamports at [a]. *)
Ltac keep_step a :=
  match goal with
  | HI : invoke ?l ?s ?i = Some ?l', Ha : accounts ?w !! a = Some _ |- _ =>
      lazymatch goal with
      | _ : holds_at a l l' |- _ => fail
      | _ => assert (holds_at a l l')
               by (eapply (invoke_keeps l s i l' w); [exact HI|exact Ha|by repeat constructor])
      end
  | HM : moves [] ?l ?l' |- _ => apply (moves_keeps l l' a) in HM
  end.

Ltac keeps a :=
  repeat match goal with
  | HS : Forall (wallet _) (_ :: _) |- _ => apply Forall_cons in HS as [[? _] HS]
  | HS : Forall _ (_ :: _) |- _ => apply Forall_cons in HS as [? HS]
  end;
  repeat keep_step a;
  first
    [ lia
    | etrans; [|apply close_keeps; intros <-;
                match goal with HY : delete _ _ !! _ = Some _ |- _ => by rewrite lookup_delete_eq in HY end];
      lia ].

(** A record's reverse may be created. *)
Lemma set_reverse_keeps acc name w w' a x : wallet w (SetReverse.owner acc) ->
  SetReverse.handler acc name w = Ok w' -> accounts w !! a = Some x ->
  holds_at a (ledger w) (ledger w').
Proof.
  unfold SetReverse.handler. intros [HS _] HE Hx. refine_start.
  destruct (accounts w !! SetReverse.reverse_record acc) as [z'|] eqn:Hr.
  - refine_start. lia.
  - apply result_fmap_Ok in Hx1 as ([b w1] & HI & <-). refine_start. cbn. keeps a.
Qed.

Lemma bid_keeps acc amount w w' a : Bid.handler acc amount w = Ok w' ->
  holds_at a (ledger w) (ledger w').
Proof.
  unfold Bid.handler. intros HE. refine_start.
  match goal with HR : match Auction.highest_bidder x with _ => _ end = Ok ?v |- _ =>
    assert (holds_at a (ledger w) (ledger v)) as HW
      by (destruct (Auction.highest_bidder x); refine_start; try keeps a; lia) end.
  keeps a.
Qed.

Lemma buy_name_keeps acc price w w' a x y : wallet w (BuyName.buyer acc) ->
  BuyName.handler acc price w = Ok w' -> accounts w !! a = Some x -> accounts w' !! a = Some y ->
  holds_at a (ledger w) (ledger w').
Proof.
  unfold BuyName.handler. intros [HS _] HE Hx Hy. refine_start.
  repeat match goal with HP : pay_lamports _ _ _ _ = Ok _ |- _ =>
    apply (pay_lamports_keeps _ _ _ _ _ a) in HP; [|intros <-; by rewrite HS in Hx] end.
  keeps a.
Qed.

Lemma stake_keeps acc amount w w' a x : wallet w (Stake.staker acc) ->
  Stake.handler acc amount w = Ok w' -> accounts w !! a = Some x ->
  holds_at a (ledger w) (ledger w').
Proof.
  unfold Stake.handler, Stake.open_position. intros [HS _] HE Hx. refine_start.
  destruct (accounts w !! Stake.stake_account acc); refine_start; keeps a.
Qed.

Lemma accept_offer_keeps acc w w' a x y : AcceptOffer.handler acc w = Ok w' ->
  accounts w !! a = Some x -> accounts w' !! a = Some y ->
  holds_at a (ledger w) (ledger w').
Proof.
  unfold AcceptOffer.handler. intros HE Hx Hy. refine_start.
  match goal with HF : sale_split _ _ = Ok _ |- _ => apply sale_split_sum in HF as (? & ? & _) end.
  assert (AcceptOffer.offer acc <> a) as Hoff by (intros <-; by rewrite lookup_delete_eq in Hy).
  repeat match goal with HP : move_lamports _ _ _ _ = Ok _ |- _ =>
    apply (move_lamports_keeps _ _ _ _ _ a) in HP; [|lia|done] end.
  keeps a.
Qed.

Lemma execute_keeps ix w w' a x y : callable ix w -> execute ix w = Ok w' ->
  accounts w !! a = Some x -> accounts w' !! a = Some y -> holds_at a (ledger w) (ledger w').
Proof.
  intros [_ HS HC] HE Hx Hy.
  destruct ix; cbn [execute signers closes] in *.
  - unfold InitConfig.handler in HE. refine_start. keeps a.
  - unfold RegisterName.handler in HE. refine_start. keeps a.
  - unfold RenewName.handler in HE. refine_start. keeps a.
  - unfold AutoRenew.handler in HE. refine_start. keeps a.
  - unfold TransferName.handler in HE. refine_start. keeps a.
  - unfold LockTransfer.handler in HE. refine_start. keeps a.
  - unfold SetController.handler in HE. refine_start. keeps a.
  - unfold UpdateRecord.handler in HE. refine_start. keeps a.
  - unfold SetResolver.handler in HE. refine_start. keeps a.
  - unfold SetHosting.handler in HE. refine_start. keeps a.
  - apply Forall_cons in HS as [HS _]. by eapply set_reverse_keeps.
  - unfold ClaimExpired.handler in HE. refine_start. keeps a.
  - unfold BurnName.handler in HE. refine_start. keeps a.
  - unfold TokenizeName.handler in HE. refine_start. keeps a.
  - unfold RedeemName.handler in HE. refine_start. keeps a.
  - unfold WrapSubdomain.handler in HE. refine_start. keeps a.
  - unfold RevokeSubdomain.handler in HE. refine_start. keeps a.
  - unfold ListName.handler in HE. refine_start. keeps a.
  - unfold UpdateListing.handler in HE. refine_start. keeps a.
  - unfold CancelListing.handler in HE. refine_start. keeps a.
  - apply Forall_cons in HS as [HS _]. by eapply buy_name_keeps.
  - unfold MakeOffer.handler in HE. refine_start. keeps a.
  - by eapply accept_offer_keeps.
  - unfold CancelOffer.handler in HE. refine_start. keeps a.
  - unfold StartAuction.handler in HE. refine_start. keeps a.
  - by eapply bid_keeps.
  - unfold SettleAuction.handler in HE. refine_start.
    match goal with HP : SettleAuction.pay_out _ _ _ _ _ _ = _ |- _ =>
      apply pay_out_Ok in HP as ((l' & ? & ->) & _) end. cbn [ledger with_ledger accounts] in *. keeps a.
  - unfold CancelAuction.handler in HE. refine_start. keeps a.
  - unfold UpdateConfig.handler in HE. refine_start. keeps a.
  - unfold TransferAdmin.handler in HE. refine_start. keeps a.
  - unfold InitStakePool.handler in HE. refine_start. keeps a.
  - apply Forall_cons in HS as [HS _]. by eapply stake_keeps.
  - unfold Unstake.handler in HE. refine_start. keeps a.
  - unfold ClaimRewards.handler in HE. refine_start. keeps a.
  - unfold InitBurnPool.handler in HE. refine_start. keeps a.
  - unfold SetSolansParams.handler in HE. refine_start. keeps a.
  - unfold RegisterWithSolans.handler in HE. refine_start. keeps a.
  - unfold RenewWithSolans.handler in HE. refine_start. keeps a.
  - unfold BuybackBurnIx.handler in HE. refine_start. keeps a.
  - refine_start. keeps a.
Qed.

(** ** Offers *)

Record offer_ok (l : Ledger) (k : Pubkey) (o : Offer.t) : Prop := {
  offer_funded : Offer.amount o <= lamports l k;
  offer_address :
    find_program_address [OFFER_SEED; Offer.name_hash o; Offer.buyer o] ID = (k, Offer.bump o);
}.

(** Every offer was there before, or is funded as it is made. *)
Lemma transition_offers S w l' c m' k o : transition S w l' c m' -> m' !! k = Some (AOffer o) ->
  accounts w !! k = Some (AOffer o) \/ offer_ok l' k o.
Proof.
  intros HT Hk. destruct HT; map_cases Hk; auto. right. by split.
Qed.

Lemma reach_offers h w : reach h w ->
  forall k o, accounts w !! k = Some (AOffer o) -> offer_ok (ledger w) k o.
Proof.
  induction 1 as [w He|h ix w w' HR IH HC HE|h w w' _ IH (Ha & _ & _ & Hl & _)]; intros k o Hk.
  - by rewrite He, lookup_empty in Hk.
  - pose proof (execute_refines _ _ _ HC HE) as HT.
    destruct (transition_offers _ _ _ _ _ _ _ HT Hk) as [Hold|]; [|done].
    destruct (IH _ _ Hold) as [Hf Hs]. split; [|done].
    pose proof (execute_keeps _ _ _ _ _ _ HC HE Hold Hk). lia.
  - rewrite Ha in Hk. destruct (IH _ _ Hk) as [Hf Hs]. split; [|done].
    specialize (Hl _ _ Hk). lia.
Qed.

(** C6: In every reachable state each offer's account holds at least its amount, whatever
    instructions ran since, so its bidder, a system-owned wallet other than the offer's own
    address, can cancel at any time without presenting the name: cancel_offer succeeds,
    removes exactly that account, and the bidder's lamports grow by at least the amount. *)
Theorem bidders_can_withdraw h w k o :
  reach h w -> accounts w !! k = Some (AOffer o) -> system_owned (ledger w) (Offer.buyer o) = true ->
  Offer.buyer o <> k ->
  exists w', execute (cancel_offer (CancelOffer.mk (Offer.buyer o) (Offer.buyer o) None k)) w = Ok w'
    /\ accounts w' = delete k (accounts w)
    /\ lamports (ledger w) (Offer.buyer o) + Offer.amount o
       <= lamports (ledger w') (Offer.buyer o).
Proof.
  intros HR Hk Hs Hb. destruct (reach_offers _ _ HR _ _ Hk) as [Hf Ha].
  apply find_creates in Ha. cbn [execute]. unfold CancelOffer.handler. cbn.
  unfold system_account, load, offer_seeds, seeds_bump. rewrite Hs, Hk. cbn.
  cbn in Ha. rewrite Ha, !bool_decide_eq_true_2 by done. cbn.
  eexists. split; [done|]. cbn. split; [done|].
  pose proof (lamports_nonneg (ledger w) k). pose proof (lamports_nonneg (ledger w) (Offer.buyer o)).
  rewrite lamports_set by lia. rewrite decide_False by done.
  rewrite lamports_set by lia. rewrite decide_True by done. lia.
Qed.
End Offers.

(** ** Concrete inputs *)

Lemma offer_there : exists o, accounts market_world !! offer_key = Some (AOffer o)
  /\ system_owned (ledger market_world) (Offer.buyer o) = true
  /\ Offer.buyer o <> offer_key /\ Offer.amount o = 500.
Proof.
  assert (match accounts market_world !! offer_key with
          | Some (AOffer o) => bool_decide (Offer.buyer o = BOB) && (Offer.amount o =? 500)
          | _ => false end = true) as HC by by vm_compute.
  destruct (accounts market_world !! offer_key) as [[]|]; try discriminate HC.
  eexists. split; [done|]. apply andb_true_iff in HC as [HB HA]. bool_prop.
  rewrite HB. split; [by vm_compute|]. split; [|done]. by vm_compute.
Qed.

Lemma bidders_can_withdraw_witness :
  exists o w', accounts market_world !! offer_key = Some (AOffer o) /\ Offer.amount o = 500
    /\ execute (cancel_offer (CancelOffer.mk (Offer.buyer o) (Offer.buyer o) None offer_key))
         market_world = Ok w'
    /\ accounts w' = delete offer_key (accounts market_world).
Proof.
  destruct offer_there as (o & Ho & Hs & Hb & Ha).
  destruct (bidders_can_withdraw market_paths market_world offer_key o market_reached Ho Hs Hb)
    as (w' & HE & HA & _).
  exists o, w'. split; [exact Ho|]. split; [exact Ha|]. split; [exact HE|exact HA].
Defined.
