(* ===== verification/RegistryClient.v ===== *)
(** * The SDK on the program's chain

    [Client.resolve] run against an RPC node that serves the accounts of a reachable
    world: what it answers is what the program's records say. *)
From stdpp Require Import gmap.
From S2P Require Import Prelude JsString Errors OnChain Kit Pdas Accounts Normalize HashName.
From S2P Require Import Runtime ChainState ProgramUtils Registry ChainFacts RegistrySpec.
From S2P Require Import RegistryLaws Client SmallKit SmallRuntime SmallChain.
Import NameRecordAccount.

(** The path of a parsed name: its labels, leaf first, as the program hashes them. *)
Fixpoint path_of (labels : list (list Z)) (tld : list Z) : Path :=
  match labels with
  | [] => Top [] tld
  | [root] => Top root tld
  | label :: parent => Sub (path_of parent tld) label
  end.

Section Chain.
Context `{Runtime, Addresses, Keccak, Unicode, Kit}.

(** The client's copy of a record: the fields resolution reads, and the owner. *)
Record mirrors (addr : Pubkey -> Address) (n : NameRecord.t) (r : NameRecord) : Prop := {
  mirrors_owner : owner r = addr (NameRecord.owner n);
  mirrors_hash : nameHash r = NameRecord.name_hash n;
  mirrors_registered : registeredAt r = NameRecord.registered_at n;
  mirrors_parent : parent r = addr <$> NameRecord.parent n;
  mirrors_parent_registered : parentRegisteredAt r = NameRecord.parent_registered_at n;
  mirrors_depth : depth r = NameRecord.depth n;
}.

(** What the node serves for an address: nothing where there is nothing, a record as the
    program serializes it. *)
Record serves (addr : Pubkey -> Address) (w : World)
    (fetchAccount : Address -> result JsError (option bytes)) (k : Pubkey) : Prop := {
  serves_none : accounts w !! k = None -> fetchAccount (addr k) = Ok None;
  serves_name : forall n, accounts w !! k = Some (AName n) ->
    exists d r, fetchAccount (addr k) = Ok (Some d) /\ decodeNameRecord d = Ok r /\ mirrors addr n r;
}.

(** The kit derives the address of a name as the program does. *)
Definition derives (addr : Pubkey -> Address) (p : Path) : Prop :=
  getProgramDerivedAddress SOLANS_PROGRAM_ADDRESS [NAME_SEED; path_hash p]
  = Ok (addr (path_address p), snd (find_program_address [NAME_SEED; path_hash p] ID)).

(** Only names live at the addresses of names. *)
Definition names_apart (w : World) (p : Path) : Prop :=
  forall x, accounts w !! path_address p = Some x -> exists n, x = AName n.

(** A record is alive on chain while its ancestors are there, none registered anew. *)
Inductive alive (w : World) : NameRecord.t -> Prop :=
| alive_root n : NameRecord.parent n = None -> alive w n
| alive_sub n k p : NameRecord.parent n = Some k -> accounts w !! k = Some (AName p) ->
    NameRecord.registered_at p = NameRecord.parent_registered_at n -> alive w p -> alive w n.

Context {RS : RuntimeSpec _} {AS : AddressesSpec _}.
Variable addr : Pubkey -> Address.
Variable fetchAccount : Address -> result JsError (option bytes).

(** The walk over the parents decides it. *)
Lemma walk_decides h w fuel k n r : reach h w -> no_collision h ->
  (forall p, p ∈ h -> names_apart w p /\ serves addr w fetchAccount (path_address p)) ->
  accounts w !! k = Some (AName n) -> mirrors addr n r ->
  NameRecord.depth n <= Z.of_nat fuel ->
  (alive w n /\ walkParents fetchAccount fuel r = Some (Ok true))
  \/ (~ alive w n /\ walkParents fetchAccount fuel r = Some (Ok false)).
Proof.
  intros HR HC HA. revert k n r. induction fuel as [|fuel IH]; intros k n r Hk HM Hd;
    cbn; rewrite (mirrors_parent _ _ _ HM);
    destruct (NameRecord.parent n) as [pk|] eqn:Hp; cbn; try (left; split; [by constructor|done]).
  - destruct (reach_depth_parent _ _ _ _ _ n HR HC Hk Hp) as [? _]. lia.
  - destruct (reach_parent_address _ _ _ _ _ HR Hk Hp) as (q & Hq & ->).
    destruct (HA _ Hq) as [HAq [HN HS]]. destruct (accounts w !! path_address q) as [x|] eqn:Hx.
    + destruct (HAq _ Hx) as [p ->].
      destruct (reach_depth_parent _ _ _ _ _ p HR HC Hk Hp) as [_ Hdp]. specialize (Hdp Hx).
      destruct (HS _ eq_refl) as (d & pr & Hf & Hdec & HMp). rewrite Hf, Hdec.
      rewrite (mirrors_registered _ _ _ HMp), (mirrors_parent_registered _ _ _ HM).
      destruct (Z.eqb_spec (NameRecord.registered_at p) (NameRecord.parent_registered_at n)) as [E|E].
      * cbn. destruct (IH _ _ _ Hx HMp ltac:(lia)) as [[HL HW]|[HL HW]]; rewrite HW; [left|right].
        -- split; [by eapply alive_sub|done].
        -- split; [|done]. inversion 1 as [|? ? ? Hp' Hk']; simplify_eq. congruence.
      * right. split; [|done]. inversion 1; simplify_eq.
    + rewrite (HN eq_refl). right. split; [|done]. inversion 1; simplify_eq.
Qed.

Lemma path_of_hash ls tld : ls <> [] -> path_hash (path_of ls tld) = program_hash ls tld.
Proof.
  induction ls as [|l [|l' ls] IH]; [done..|]. intros _. cbn. f_equal. by apply IH.
Qed.

Context {KS : KeccakSpec _} {KitS : KitSpec _}.

(** C1: The SDK's resolve, run against a node that serves the accounts of any state the
    program can reach, answers what the chain says of the name: null when the program has no
    record at its address, the record when it and its ancestors are there and none was
    registered anew since, null otherwise. Record addresses are assumed not to collide and
    no other account to sit at one; subdomain depths and parents are what the program
    maintains. *)
Theorem resolve_follows_the_chain h w name info q :
  reach h w -> no_collision h -> nameInfo name None = Ok info ->
  q = path_of (map codePoints (HashName.labels info)) (HashName.tld info) -> derives addr q ->
  (forall p, p ∈ q :: h -> names_apart w p /\ serves addr w fetchAccount (path_address p)) ->
  match accounts w !! path_address q with
  | None => Client.resolve fetchAccount name = Some (Ok None)
  | Some x => exists n leaf, x = AName n /\ mirrors addr n leaf
      /\ (alive w n /\ Client.resolve fetchAccount name = Some (Ok (Some leaf))
          \/ ~ alive w n /\ Client.resolve fetchAccount name = Some (Ok None))
  end.
Proof.
  intros HR HC HI -> HD HA. set (q := path_of _ _) in *.
  destruct (nameInfo_Ok _ _ _ HI) as (_ & Hne & _ & _ & _ & Hh & _).
  rewrite <- path_of_hash in Hh by by destruct (HashName.labels info). fold q in Hh.
  pose proof (client_addresses_use_program_seeds name None) as [HF _]. rewrite HI in HF.
  destruct HF as [HF _]. rewrite Hh in HF. pose proof (eq_trans HF HD) as HPda.
  destruct (HA q (list_elem_of_here _ _)) as [HAq [HN HS]].
  assert (forall p, p ∈ h -> names_apart w p /\ serves addr w fetchAccount (path_address p)) as HA'
    by (intros p Hp; apply HA; by right).
  unfold Client.resolve. rewrite HPda.
  destruct (accounts w !! path_address q) as [x|] eqn:Hx; [|by rewrite HN].
  destruct (HAq _ Hx) as [n ->]. destruct (HS _ eq_refl) as (d & leaf & Hf & Hd & HM).
  exists n, leaf. split; [done|]. split; [done|]. rewrite Hf, Hd.
  pose proof (reach_depth_bound _ _ HR _ _ Hx) as Hb.
  assert (NameRecord.depth n <= Z.of_nat resolve_fuel) as Hfuel
    by (unfold resolve_fuel, OnChain.MAX_SUBDOMAIN_DEPTH in *; lia).
  destruct (walk_decides _ _ _ _ _ _ HR HC HA' Hx HM Hfuel) as [[HL HW]|[HL HW]];
    rewrite HW; auto.
Qed.
End Chain.

(** ** Concrete inputs *)

#[local] Existing Instance SmallUnicode.

(** The client's copy of a record, addresses in base58. *)
Definition copy_of (n : NameRecord.t) : NameRecordArgs :=
  let text := flat_map units_of in
  MkNameRecordArgs (base58_encode (NameRecord.owner n)) (base58_encode <$> NameRecord.controller n)
    (NameRecord.name_hash n) (text (NameRecord.tld n)) (NameRecord.registered_at n)
    (NameRecord.expires_at n)
    (map (fun e => MkRecord (text (ChainState.key e)) (text (ChainState.value e)))
       (NameRecord.records n))
    (base58_encode <$> NameRecord.resolver n) (text <$> NameRecord.hosting_ref n)
    (NameRecord.transfer_locked n) (NameRecord.reverse_set n)
    (base58_encode <$> NameRecord.nft_mint n) (base58_encode <$> NameRecord.parent n)
    (NameRecord.parent_registered_at n) (NameRecord.depth n) (NameRecord.listed n)
    (NameRecord.bump n).

Definition copy (a : Pubkey) : NameRecord :=
  MkNameRecord NAME_RECORD_DISCRIMINATOR (copy_of (name_at a market_world)).
Definition copy_bytes (a : Pubkey) : bytes :=
  encoded getNameRecordEncoder (copy_of (name_at a market_world)).

(** A node of the market: the record and its subdomain. *)
Definition market_fetch (a : Address) : result JsError (option bytes) :=
  Ok (if bool_decide (a = base58_encode ALEX) then Some (copy_bytes ALEX)
      else if bool_decide (a = base58_encode PAY) then Some (copy_bytes PAY)
      else None).

Definition pay_path : Path := Sub (Top (js "alex") (js "sol")) (js "pay").
Definition pay_info : NameInfo :=
  match nameInfo (js "Pay.Alex.sol") None with
  | Ok i => i | Err _ => MkNameInfo [] [] [] None 0 end.

Lemma pay_info_eq : nameInfo (js "Pay.Alex.sol") None = Ok pay_info
  /\ pay_path = path_of (map codePoints (HashName.labels pay_info)) (HashName.tld pay_info)
  /\ derives base58_encode pay_path.
Proof. repeat split; by vm_compute. Qed.

Lemma market_paths_eq : market_paths = [pay_path; Top (js "alex") (js "sol")].
Proof. by vm_compute. Qed.

Lemma paths_differ : path_address pay_path <> path_address (Top (js "alex") (js "sol")).
Proof. by vm_compute. Qed.

Lemma market_no_collision : no_collision market_paths.
Proof.
  rewrite market_paths_eq. intros p q Hp Hq He. pose proof paths_differ as HD.
  apply elem_of_cons in Hp as [->|Hp%list_elem_of_singleton];
    apply elem_of_cons in Hq as [->|Hq%list_elem_of_singleton]; subst; try done;
    exfalso; by apply HD.
Qed.

(** What the node serves at an address of the market. *)
Definition served (a : Pubkey) : bool :=
  has_name a market_world
  && bool_decide (market_fetch (base58_encode a) = Ok (Some (copy_bytes a)))
  && match decodeNameRecord (copy_bytes a) with
     | Ok r => bool_decide (owner r = base58_encode (NameRecord.owner (name_at a market_world))
         /\ nameHash r = NameRecord.name_hash (name_at a market_world)
         /\ registeredAt r = NameRecord.registered_at (name_at a market_world)
         /\ parent r = base58_encode <$> NameRecord.parent (name_at a market_world)
         /\ parentRegisteredAt r = NameRecord.parent_registered_at (name_at a market_world)
         /\ depth r = NameRecord.depth (name_at a market_world))
     | Err _ => false
     end.

Lemma served_serves p n : accounts market_world !! path_address p = Some (AName n) ->
  (exists d r, market_fetch (base58_encode (path_address p)) = Ok (Some d)
     /\ decodeNameRecord d = Ok r /\ mirrors base58_encode n r) ->
  names_apart market_world p
  /\ serves base58_encode market_world market_fetch (path_address p).
Proof.
  intros HN HF. split; [|split].
  - intros x Hx. rewrite HN in Hx. exists n. by apply (inj Some) in Hx.
  - intros Hx. by rewrite HN in Hx.
  - intros n' Hx. by rewrite (name_unique _ _ _ _ Hx HN).
Qed.

Lemma served_true a : served a = true ->
  accounts market_world !! a = Some (AName (name_at a market_world))
  /\ exists d r, market_fetch (base58_encode a) = Ok (Some d)
     /\ decodeNameRecord d = Ok r /\ mirrors base58_encode (name_at a market_world) r.
Proof.
  unfold served. intros HS. apply andb_true_iff in HS as [HS HD]. apply andb_true_iff in HS as [HN HF].
  split; [by apply name_at_lookup|]. apply bool_decide_eq_true in HF. exists (copy_bytes a).
  revert HD. generalize (name_at a market_world). intros n HD.
  destruct (decodeNameRecord (copy_bytes a)) as [r|]; [|discriminate HD].
  apply bool_decide_eq_true in HD as (H1 & H2 & H3 & H4 & H5 & H6). exists r.
  split; [exact HF|]. split; [reflexivity|]. by split.
Qed.

Lemma market_served p : p ∈ pay_path :: market_paths ->
  names_apart market_world p
  /\ serves base58_encode market_world market_fetch (path_address p).
Proof.
  rewrite market_paths_eq. intros Hp.
  assert (served (path_address p) = true) as HS
    by (repeat (apply elem_of_cons in Hp as [->|Hp]; [by vm_compute|]);
        by apply not_elem_of_nil in Hp).
  apply served_true in HS as [HN HF]. exact (served_serves _ _ HN HF).
Qed.

Lemma pay_there : has_name (path_address pay_path) market_world = true.
Proof. by vm_compute. Qed.

Lemma resolve_follows_the_chain_witness :
  exists n leaf, accounts market_world !! path_address pay_path = Some (AName n)
    /\ mirrors base58_encode n leaf
    /\ (alive market_world n
        /\ Client.resolve market_fetch (js "Pay.Alex.sol") = Some (Ok (Some leaf))
        \/ ~ alive market_world n
           /\ Client.resolve market_fetch (js "Pay.Alex.sol") = Some (Ok None)).
Proof.
  destruct pay_info_eq as (HI & HQ & HD).
  pose proof (resolve_follows_the_chain base58_encode market_fetch market_paths market_world
    (js "Pay.Alex.sol") pay_info pay_path market_reached market_no_collision HI HQ HD
    market_served) as HR.
  rewrite (name_at_lookup _ _ pay_there) in HR.
  destruct HR as (n & leaf & Hn & HM & HL).
  exists n, leaf. split; [|split; [exact HM|exact HL]].
  rewrite <- Hn. exact (name_at_lookup _ _ pay_there).
Defined.
