(* ===== verification/RegistrySafety.v ===== *)
(** * Who can take a name, and when a frozen one is released

    Safety of names over one instruction, whoever sends it, and the way out of every
    freeze that a listing makes. *)
From stdpp Require Import gmap.
From S2P Require Import Prelude JsString Errors HashName OnChain Staking Runtime ChainState ProgramUtils.
From S2P Require Import Registration Ownership Market Auctions Administration StakingPool.
From S2P Require Import Registry ChainFacts RegistrySpec RegistryLaws.
From S2P Require Import SmallRuntime SmallChain.

Section Safety.
Context `{Runtime, Addresses, Keccak}.
Context {RS : RuntimeSpec _} {AS : AddressesSpec _}.

(** What a record becomes while its owner keeps it, and on whose authority: untouched;
    renewed, for a term that is paid; released by the end of its sale; edited by someone who
    manages it; and, by its owner, locked, unlocked, given a controller, tokenized, named the
    owner's primary name, put up for sale. *)
Inductive undisturbed (q : Request) (w : World) (n : NameRecord.t) : NameRecord.t -> Prop :=
| undisturbed_same : undisturbed q w n n
| undisturbed_renewed n' years : in_terms w years -> may_renew w (signed_by q) n years ->
    extend n years (now w) = Ok n' -> undisturbed q w n n'
| undisturbed_ended k x s : accounts w !! k = Some x ->
    sale_of x = Some (s, NameRecord.name_hash n) -> may_end w (signed_by q) x ->
    undisturbed q w n (NameRecord.set_listed false n)
| undisturbed_managed n' : NameRecord.listed n = false -> managed_by w (signed_by q) n n' ->
    managed_edit n n' -> undisturbed q w n n'
| undisturbed_set n' : by_owner (signed_by q) n -> owner_edit n n' -> undisturbed q w n n'
| undisturbed_primary : by_owner (signed_by q) n -> NameRecord.parent n = None ->
    undisturbed q w n (NameRecord.set_reverse_set true n)
| undisturbed_offered x k : by_owner (signed_by q) n -> NameRecord.transfer_locked n = false ->
    sale_of x = Some (NameRecord.owner n, NameRecord.name_hash n) -> sale_seeds x k ->
    may_open q w n x -> undisturbed q w n (NameRecord.set_listed true n).

Lemma undisturbed_owner q w n n' : undisturbed q w n n' -> NameRecord.owner n' = NameRecord.owner n.
Proof.
  intros [|n1 years _ _ HE|k x s _ _ _|n1 _ _ HE|n1 _ HE| |]; try done.
  - by eapply kept_owner, extend_kept.
  - by eapply kept_owner, managed_kept.
  - by destruct HE.
Qed.

(** What becomes of a record that is taken, given away or removed, and who may do it: [None]
    is a record closed. *)
Inductive disposed (q : Request) (w : World) (l' : Ledger) (n : NameRecord.t)
  : option NameRecord.t -> Prop :=
| transferred v : by_owner (signed_by q) n -> NameRecord.transfer_locked n = false ->
    disposed q w l' n (Some (NameRecord.set_owner v n))
| burned : by_owner (signed_by q) n -> disposed q w l' n None
| accepted o x : by_owner (signed_by q) n -> accounts w !! o = Some (AOffer x) ->
    Offer.name_hash x = NameRecord.name_hash n -> takes w l' n o x ->
    disposed q w l' n (Some (NameRecord.set_owner (Offer.buyer x) n))
| redeemed s mint : s ∈ signed_by q -> NameRecord.nft_mint n = Some mint -> holds w s mint ->
    disposed q w l' n (Some (NameRecord.set_nft_mint None (NameRecord.set_owner s n)))
| bought k l b : accounts w !! k = Some (AListing l) ->
    Listing.name_hash l = NameRecord.name_hash n -> buys q w l' n k l b ->
    disposed q w l' n (Some (NameRecord.set_listed false (NameRecord.set_owner b n)))
| won k x b : accounts w !! k = Some (AAuction x) ->
    Auction.name_hash x = NameRecord.name_hash n -> Auction.highest_bidder x = Some b ->
    Auction.end_time x <= now w ->
    disposed q w l' n (Some (NameRecord.set_listed false (NameRecord.set_owner b n)))
| claimed s ca c years : s ∈ signed_by q -> accounts w !! ca = Some (AConfig c) ->
    NameRecord.parent n = None -> NameRecord.expires_at n + grace_period_seconds c < now w ->
    charged w (signed_by q) -> in_terms w years ->
    disposed q w l' n (Some (init_top_level_record s (NameRecord.name_hash n) (NameRecord.tld n)
      (now w) (now w + years * SECONDS_PER_YEAR) (NameRecord.bump n)))
| revoked k p : NameRecord.parent n = Some k -> accounts w !! k = Some (AName p) ->
    NameRecord.owner p ∈ signed_by q -> NameRecord.nft_mint n = None -> disposed q w l' n None.

Ltac at_key :=
  repeat first [rewrite lookup_insert | rewrite lookup_delete | case_decide]; subst; simplify_eq/=;
  try eassumption.

Lemma transition_undisturbed q w l' c m' a n : transition q w l' c m' ->
  accounts w !! a = Some (AName n) ->
  (exists n', m' !! a = Some (AName n') /\ undisturbed q w n n')
  \/ exists r, m' !! a = AName <$> r /\ disposed q w l' n r.
Proof.
  intros HT Ha. destruct HT; unfold staked_at in *;
    try match goal with
    | |- context [<[?k := AName _]> _] => destruct (decide (k = a)) as [->|]
    | |- context [delete ?k (accounts _)] => destruct (decide (k = a)) as [->|]
    end; simplify_eq/=;
    first
      [ left; eexists; split; [at_key; reflexivity|solve [eauto using undisturbed]]
      | right; eexists (Some _); split; [at_key; reflexivity|solve [eauto using disposed]]
      | right; exists None; split; [at_key; reflexivity|solve [eauto using disposed]]
      | idtac ].
  - left. exists n. split; [|constructor]. at_key; naive_solver.
  - left. exists n. split; [|constructor]. at_key. all: by rewrite Ha in *.
Qed.

(** C2: Whatever instruction runs, a name record that was there stays, with its owner, or
    changes hands or goes in one of eight ways, each with what it becomes and on whose
    authority. It stays untouched; renewed for an allowed term, with a signer's token
    account of a mint the registry charges in, or, for one year in the renewal window, the
    owner's; released by the end of its own sale; edited, when not for sale, by a signer who
    is the owner, NFT holder or controller; or, by its owner, who signed, of a name neither
    tokenized nor for sale: locked, given a controller, tokenized, made primary or put up
    for sale. Otherwise such an owner transferred it (unless locked), burned it, or took an
    unexpired offer for its hash, whose bidder has it now, and was paid; or the signer who
    holds its NFT has it; or the signer who named the price of the owner's open listing and
    paid it in lamports, the fee to the treasury and the rest to the seller where these are
    accounts apart, has it; or the highest bidder of a finished auction of its hash has it,
    whoever settled; or the signer who claimed the top-level name after its grace period has
    a new registration; or the owner of its parent, who signed, closed the subdomain. *)
Theorem names_change_only_by_right ix w w' a n :
  callable ix w -> execute ix w = Ok w' -> accounts w !! a = Some (AName n) ->
  (exists n', accounts w' !! a = Some (AName n') /\ NameRecord.owner n' = NameRecord.owner n
     /\ undisturbed (request ix) w n n')
  \/ exists r, accounts w' !! a = AName <$> r /\ disposed (request ix) w (ledger w') n r.
Proof.
  intros HC HE Ha. apply execute_refines in HE; [|done].
  destruct (transition_undisturbed _ _ _ _ _ _ _ HE Ha) as [(n' & Hn' & HU)|]; [left|by right].
  eauto using undisturbed_owner.
Qed.

(** ** The way out of a listing *)

Lemma transition_sale_seeds S w l' c m' k x s : transition S w l' c m' ->
  (forall k x s, accounts w !! k = Some x -> sale_of x = Some s -> sale_seeds x k) ->
  m' !! k = Some x -> sale_of x = Some s -> sale_seeds x k.
Proof.
  intros HT HI Hk Hs. destruct HT; map_cases Hk; eauto.
Qed.

Lemma reach_sales h w : reach h w ->
  forall k x s, accounts w !! k = Some x -> sale_of x = Some s -> sale_seeds x k.
Proof.
  induction 1 as [w He|h ix w w' HR IH HC HE|h w w' _ IH (Ha & _)]; intros k x s Hk Hs.
  - by rewrite He, lookup_empty in Hk.
  - eapply transition_sale_seeds; eauto using execute_refines.
  - rewrite Ha in Hk. eauto.
Qed.

(** C11: In every reachable state a frozen name has a listing or an auction of its own hash,
    so no name stays frozen without one; and a listing's seller at any time, or anyone once
    it expired, can cancel it, as long as the seller's account is system-owned:
    cancel_listing succeeds, closes the listing and unfreezes the record. *)
Theorem listed_names_can_be_released h w a n :
  reach h w -> accounts w !! a = Some (AName n) -> NameRecord.listed n = true ->
  exists k x s, accounts w !! k = Some x /\ sale_of x = Some (s, NameRecord.name_hash n)
    /\ forall l canceller, x = AListing l -> system_owned (ledger w) s = true ->
         canceller = s \/ Listing.expires_at l < now w ->
         exists w', execute (cancel_listing (CancelListing.mk canceller s a k)) w = Ok w'
           /\ accounts w' !! a = Some (AName (NameRecord.set_listed false n))
           /\ accounts w' !! k = None.
Proof.
  intros HR Ha HL. destruct (reach_on_sale _ _ _ _ HR Ha HL) as (k & x & s & Hk & Hs).
  exists k, x, s. split; [done|]. split; [done|]. intros l canceller -> Hsys Hmay.
  pose proof (reach_sales _ _ HR _ _ _ Hk Hs) as Hseed. cbn in Hseed, Hs.
  injection Hs as Hseller Hhash.
  destruct (reach_names _ _ HR) as [_ HN]. destruct (HN _ _ Ha) as [p HP].
  pose proof (find_creates _ _ _ _ (named_seeds _ _ _ _ HP)) as Hname.
  pose proof (find_creates _ _ _ _ Hseed) as Hlist. cbn in Hname, Hlist.
  assert (k <> a) by (intros ->; simplify_eq).
  assert (bool_decide (canceller = s) || (Listing.expires_at l <? now w) = true) as Hallowed.
  { apply orb_true_iff. destruct Hmay; [left|right]; [by apply bool_decide_eq_true|by apply Z.ltb_lt]. }
  eexists. split.
  - cbn. unfold CancelListing.handler, system_account, load, name_seeds, listing_seeds, seeds_bump.
    cbn. rewrite Hsys, Ha, Hk. cbn. rewrite Hname, Hlist, Hseller, Hhash.
    rewrite !bool_decide_refl. cbn. by rewrite Hallowed.
  - cbn. rewrite lookup_delete_ne, lookup_insert_eq, lookup_delete_eq by done. done.
Qed.
End Safety.

(** ** Concrete inputs *)

(** Bob, the highest bidder of Alice's auction, takes the name from Carol, who claimed it
    after its expiry. *)
Definition settled : World := after settle_alex auction_world.
Definition carols : NameRecord.t := name_at ALEX auction_world.
Definition bobs : NameRecord.t := name_at ALEX settled.

Lemma settle_callable : callable settle_alex auction_world
  /\ execute settle_alex auction_world = Ok settled.
Proof. apply ready_callable; [done|by vm_compute]. Qed.

Lemma carols_name : accounts auction_world !! ALEX = Some (AName carols)
  /\ NameRecord.owner carols = CAROL.
Proof. split; [apply (name_at_lookup ALEX)|]; by vm_compute. Qed.

Lemma bobs_name : accounts settled !! ALEX = Some (AName bobs) /\ NameRecord.owner bobs = BOB.
Proof. split; [apply (name_at_lookup ALEX)|]; by vm_compute. Qed.

Lemma bob_not_carol : BOB <> CAROL.
Proof. done. Qed.

Lemma only_record (w : World) a n r : accounts w !! a = Some (AName n) ->
  accounts w !! a = AName <$> r -> r = Some n.
Proof. intros ->. by destruct r as [m|]; intros [= ->]. Qed.

Lemma names_change_only_by_right_witness :
  accounts settled !! ALEX = Some (AName bobs)
  /\ disposed (request settle_alex) auction_world (ledger settled) carols (Some bobs).
Proof.
  destruct settle_callable as [HC HE]. destruct carols_name as [Hc Hco].
  destruct bobs_name as [Hb Hbo]. split; [exact Hb|].
  destruct (names_change_only_by_right settle_alex auction_world settled ALEX carols HC HE Hc)
    as [(n & Hn & Ho & _)|(r & Hr & HD)].
  - destruct (bob_not_carol (eq_trans (eq_sym Hbo)
      (eq_trans (f_equal NameRecord.owner (name_unique _ _ _ _ Hb Hn)) (eq_trans Ho Hco)))).
  - rewrite (only_record settled ALEX bobs r Hb Hr) in HD. exact HD.
Defined.

Definition alexs : NameRecord.t := name_at ALEX market_world.

Lemma alexs_name : accounts market_world !! ALEX = Some (AName alexs)
  /\ NameRecord.listed alexs = true.
Proof. split; [apply (name_at_lookup ALEX)|]; by vm_compute. Qed.

Lemma listed_names_can_be_released_witness :
  exists k x s, accounts market_world !! k = Some x
    /\ sale_of x = Some (s, NameRecord.name_hash alexs).
Proof.
  destruct alexs_name as [Ha HL].
  destruct (listed_names_can_be_released market_paths market_world ALEX alexs market_reached Ha HL)
    as (k & x & s & Hk & Hs & _).
  exists k, x, s. split; [exact Hk|exact Hs].
Defined.
