(* ===== verification/RegistryInvariants.v ===== *)
(** * Records, configuration and stakes stay well formed

    In every reachable world a record fits the account allocated for it, the
    configuration is one whose fees split exactly, and the pool's total is the sum of
    the positions. *)
From stdpp Require Import gmap.
From S2P Require Import Prelude JsString Errors HashName OnChain Staking Runtime ChainState ProgramUtils.
From S2P Require Import Registration Ownership Market Auctions Administration StakingPool.
From S2P Require Import Registry ChainFacts RegistrySpec RegistryLaws.
From S2P Require Import SmallRuntime SmallChain.

(** ** Records *)

Definition entry_ok (e : Entry) : Prop := len (key e) <= KEY_MAX_LEN /\ len (value e) <= VALUE_MAX_LEN.

(** What the caps of constants.rs mean for a record. *)
Record record_ok (n : NameRecord.t) : Prop := {
  ok_tld : In (NameRecord.tld n) ALLOWED_TLDS;
  ok_count : Z.of_nat (length (NameRecord.records n)) <= MAX_RECORDS;
  ok_entries : Forall entry_ok (NameRecord.records n);
  ok_keys : NoDup (key <$> NameRecord.records n);
  ok_hosting : forall h, NameRecord.hosting_ref n = Some h -> len h <= HOSTING_MAX_LEN;
}.

(** The length of the record's Borsh encoding. *)
Definition option_size (o : option Z) : Z := match o with Some z => 1 + z | None => 1 end.
Definition entry_size (e : Entry) : Z := (4 + len (key e)) + (4 + len (value e)).
Definition record_size (n : NameRecord.t) : Z :=
  32 + option_size ((fun _ => 32) <$> NameRecord.controller n) + 32 + (4 + len (NameRecord.tld n))
  + 8 + 8 + (4 + foldr (fun e z => entry_size e + z) 0 (NameRecord.records n))
  + option_size ((fun _ => 32) <$> NameRecord.resolver n)
  + option_size ((fun h => 4 + len h) <$> NameRecord.hosting_ref n) + 1 + 1
  + option_size ((fun _ => 32) <$> NameRecord.nft_mint n)
  + option_size ((fun _ => 32) <$> NameRecord.parent n) + 8 + 1 + 1 + 1.

Lemma entries_size rs : Forall entry_ok rs ->
  foldr (fun e z => entry_size e + z) 0 rs
  <= Z.of_nat (length rs) * ((4 + KEY_MAX_LEN) + (4 + VALUE_MAX_LEN)).
Proof.
  unfold KEY_MAX_LEN, VALUE_MAX_LEN. induction 1 as [|e rs [Hk Hv] _ IH]; [done|].
  cbn [foldr length]. assert (entry_size e <= 240)
    by (unfold entry_size, KEY_MAX_LEN, VALUE_MAX_LEN in *; lia).
  rewrite Nat2Z.inj_succ. lia.
Qed.

Lemma allowed_tld_len t : In t ALLOWED_TLDS -> len t <= TLD_MAX_LEN.
Proof. by intros [<-|[<-|[<-|[]]]]. Qed.

Lemma record_fits n : record_ok n -> record_size n <= NameRecord.INIT_SPACE.
Proof.
  intros [Ht Hc He _ Hh]. apply allowed_tld_len in Ht. apply entries_size in He.
  unfold record_size, NameRecord.INIT_SPACE.
  assert (forall o : option Pubkey, option_size ((fun _ => 32) <$> o) <= 1 + 32) as Ho
    by (intros []; cbn; lia).
  pose proof (Ho (NameRecord.controller n)). pose proof (Ho (NameRecord.resolver n)).
  pose proof (Ho (NameRecord.nft_mint n)). pose proof (Ho (NameRecord.parent n)).
  assert (option_size ((fun h => 4 + len h) <$> NameRecord.hosting_ref n) <= 1 + 4 + HOSTING_MAX_LEN).
  { destruct (NameRecord.hosting_ref n) as [h|]; cbn; [|unfold HOSTING_MAX_LEN; lia].
    specialize (Hh h eq_refl). lia. }
  unfold TLD_MAX_LEN, MAX_RECORDS, KEY_MAX_LEN, VALUE_MAX_LEN, HOSTING_MAX_LEN in *. lia.
Qed.

(** *** Edits *)

Lemma overwrite_Some k v rs rs' : NameRecord.overwrite k v rs = Some rs' ->
  key <$> rs' = key <$> rs /\ (Forall entry_ok rs -> len v <= VALUE_MAX_LEN -> Forall entry_ok rs').
Proof.
  revert rs'. induction rs as [|r rs IH]; intros rs' HO; cbn in HO; [done|].
  case_bool_decide.
  - injection HO as <-. split; [done|]. intros HF Hv. apply Forall_cons in HF as [[Hk _] HF].
    by constructor.
  - destruct (NameRecord.overwrite k v rs) as [rs1|]; [|done]. injection HO as <-.
    destruct (IH rs1 eq_refl) as [Hk HF]. split; [cbn; by f_equal|].
    intros HF' Hv. apply Forall_cons in HF' as [? ?]. constructor; auto.
Qed.

Lemma overwrite_None k v rs : NameRecord.overwrite k v rs = None -> k ∉ (key <$> rs).
Proof.
  induction rs as [|r rs IH]; cbn; [intros; set_solver|]. case_bool_decide; [done|].
  destruct (NameRecord.overwrite k v rs); [done|]. intros _. rewrite not_elem_of_cons. auto.
Qed.

Lemma upsert_ok k v n n' : len k <= KEY_MAX_LEN -> len v <= VALUE_MAX_LEN -> record_ok n ->
  NameRecord.upsert_record k v n = Ok n' -> record_ok n'.
Proof.
  unfold NameRecord.upsert_record. intros Hk Hv [Ht Hc He Hd Hh] HU.
  destruct (NameRecord.overwrite k v _) as [rs|] eqn:HO.
  - injection HU as <-. apply overwrite_Some in HO as [HK HF].
    split; cbn; auto; [|by rewrite HK].
    by rewrite <- (length_fmap key), HK, length_fmap.
  - apply result_bind_Ok in HU as (u & Hr & HU). injection HU as <-.
    destruct u. apply require_Ok in Hr. bool_prop. apply overwrite_None in HO.
    split; cbn; auto.
    + rewrite length_app. cbn. lia.
    + apply Forall_app. split; [done|]. by repeat constructor.
    + rewrite fmap_app. apply NoDup_app. split; [done|]. split; [|apply NoDup_singleton].
      intros x Hx Hx'. apply list_elem_of_singleton in Hx' as ->. done.
Qed.

Lemma delete_ok k n n' : record_ok n -> NameRecord.delete_record k n = Ok n' -> record_ok n'.
Proof.
  unfold NameRecord.delete_record. intros [Ht Hc He Hd Hh] HU.
  apply result_bind_Ok in HU as (u & _ & HU). injection HU as <-.
  set (f := fun r => negb (bool_decide (key r = k))).
  assert (List.filter f (NameRecord.records n) `sublist_of` NameRecord.records n) as Hsub.
  { generalize (NameRecord.records n) as l. intros l. induction l as [|e l IH]; cbn; [done|].
    destruct (f e); by constructor. }
  split; cbn; auto.
  - apply sublist_length in Hsub. lia.
  - apply List.Forall_forall. intros e He'. apply filter_In in He' as [He' _]. by eapply Forall_In.
  - eapply sublist_NoDup; [exact Hd|]. by rewrite Hsub.
Qed.

Lemma managed_ok n n' : managed_edit n n' -> record_ok n -> record_ok n'.
Proof.
  intros [v|v Hv|k v n1 Hk Hv HU|k n1 HD] HO; eauto using upsert_ok, delete_ok;
    destruct HO; split; auto.
Qed.

(** The rest of an update keeps what the caps are about. *)
Lemma record_ok_same n n' : record_ok n -> NameRecord.tld n' = NameRecord.tld n ->
  NameRecord.records n' = NameRecord.records n ->
  NameRecord.hosting_ref n' = NameRecord.hosting_ref n -> record_ok n'.
Proof.
  intros [? ? ? ? Hf] Ht Hr Hh.
  split; [by rewrite Ht|by rewrite Hr|by rewrite Hr|by rewrite Hr|rewrite Hh; exact Hf].
Qed.

Lemma record_ok_empty owner name_hash tld now e b p pr d : In tld ALLOWED_TLDS ->
  record_ok (NameRecord.mk owner None name_hash tld now e [] None None false false None p pr d false b).
Proof. intros Ht. split; cbn; auto; [done|constructor|done]. Qed.

Lemma validate_tld_In tld : validate_tld tld = Ok tt -> In tld ALLOWED_TLDS.
Proof.
  unfold validate_tld. intros HV. apply require_Ok in HV. apply existsb_exists in HV as (t & Ht & He).
  apply bool_decide_eq_true in He as ->. done.
Qed.

Section Invariants.
Context `{Runtime, Addresses, Keccak}.
Context {RS : RuntimeSpec _} {AS : AddressesSpec _}.

Lemma transition_records S w l' c m' a n' : transition S w l' c m' ->
  (forall a n, accounts w !! a = Some (AName n) -> record_ok n) ->
  m' !! a = Some (AName n') -> record_ok n'.
Proof.
  intros HT HI Ha. destruct HT; map_cases Ha; eauto using managed_ok.
  all: try (apply record_ok_empty; by eauto using validate_tld_In, ok_tld).
  all: try (eapply record_ok_same; [by eauto|done..]).
  - eapply record_ok_same; [by eauto|..];
      match goal with HE : extend _ _ _ = Ok _ |- _ =>
        unfold extend in HE; apply result_bind_Ok in HE as (e & _ & HE); by injection HE as <- end.
  - match goal with HE : owner_edit _ _ |- _ => destruct HE end;
      (eapply record_ok_same; [by eauto|done..]).
Qed.

(** C14: In every reachable state each name record is well formed: an allowed TLD, at most
    sixteen records with distinct keys within their length caps, a hosting reference within
    its cap; so its Borsh encoding fits the INIT_SPACE bytes its account was created with
    and no instruction fails for want of space. *)
Theorem records_fit_their_accounts h w a n :
  reach h w -> accounts w !! a = Some (AName n) ->
  record_ok n /\ record_size n <= NameRecord.INIT_SPACE.
Proof.
  intros HR Ha. assert (record_ok n) as HO; [|by split; [|apply record_fits]].
  revert a n Ha. induction HR as [w He|h ix w w' HR IH HC HE|h w w' _ IH (Ha' & _)]; intros a n Ha.
  - by rewrite He, lookup_empty in Ha.
  - eapply transition_records; eauto using execute_refines.
  - rewrite Ha' in Ha. eauto.
Qed.

(** ** The configuration *)

(** What the validation of the parameters gives the instructions that use them. *)
Record config_sound (a : Pubkey) (c : Config) : Prop := {
  sound_ok : config_ok c;
  sound_address : find_program_address [CONFIG_SEED] ID = (a, OnChain.bump c);
  sound_years : 1 <= min_years c <= max_years c;
  sound_grace : 0 <= grace_period_seconds c;
  sound_prices : 0 < price_1 c /\ 0 < price_2 c /\ 0 < price_3 c /\ 0 < price_4 c
                 /\ 0 < price_5plus c /\ 0 < price_numeric c;
  sound_fee : 0 <= marketplace_fee_bps c <= MAX_FEE_BPS;
}.

Lemma params_sound a p c : ConfigParams.typed p -> ConfigParams.check p = Ok tt ->
  find_program_address [CONFIG_SEED] ID = (a, OnChain.bump c) -> is_u64 (solans_rate c) ->
  0 <= solans_discount_bps c < BPS_DENOMINATOR -> config_sound a (ConfigParams.apply p c).
Proof.
  unfold ConfigParams.typed, ConfigParams.check. intros HT HC Ha Hr Hd. chain_inv.
  bool_prop. unfold is_u16 in *.
  repeat match goal with HX : _ && _ = true |- _ => apply andb_true_iff in HX as [? ?] end.
  bool_prop. destruct_and!. split; try split; cbn; try done; lia.
Qed.

Lemma change_sound a c c' : config_change c c' -> config_sound a c -> config_sound a c'.
Proof.
  intros HC [[] Ha Hy Hg Hp Hf]. destruct HC; [by apply params_sound|..];
    by split; [split|..].
Qed.

Lemma transition_configs S w l' c m' a k : transition S w l' c m' ->
  (forall a k, accounts w !! a = Some (AConfig k) -> config_sound a k) ->
  m' !! a = Some (AConfig k) -> config_sound a k.
Proof.
  intros HT HI Ha. destruct HT; map_cases Ha; eauto using change_sound.
  apply params_sound; try done; match goal with HX : _ c = 0 |- _ => rewrite HX end; by_compute.
Qed.

Lemma reach_configs h w a c : reach h w -> accounts w !! a = Some (AConfig c) -> config_sound a c.
Proof.
  intros HR. revert a c. induction HR as [w He|h ix w w' HR IH HC HE|h w w' _ IH (Ha' & _)]; intros a c Ha.
  - by rewrite He, lookup_empty in Ha.
  - eapply transition_configs; eauto using execute_refines.
  - rewrite Ha' in Ha. eauto.
Qed.

Lemma sale_split_exact c price : 0 <= marketplace_fee_bps c <= MAX_FEE_BPS -> is_u64 price ->
  sale_split c price = Ok (price * marketplace_fee_bps c / BPS_DENOMINATOR,
                           price - price * marketplace_fee_bps c / BPS_DENOMINATOR)
  /\ 0 <= price * marketplace_fee_bps c / BPS_DENOMINATOR <= price / 10.
Proof.
  unfold is_u64, MAX_FEE_BPS. intros Hf Hp.
  assert (0 <= price * marketplace_fee_bps c / BPS_DENOMINATOR <= price / 10) as Hb.
  { unfold BPS_DENOMINATOR. split; [apply Z.div_pos; lia|].
    replace (price / 10) with (price * 1000 / 10000)
      by (replace 10000 with (10 * 1000) by lia; by rewrite Z.div_mul_cancel_r by lia).
    apply Z.div_le_mono; [lia|]. nia. }
  assert (price / 10 <= price) by (apply Z.div_le_upper_bound; lia).
  split; [|done]. unfold sale_split, marketplace_fee.
  assert (checked_u128 (price * marketplace_fee_bps c) = Ok (price * marketplace_fee_bps c)) as ->
    by (apply checked_Ok; unfold U64_MAX, U128_MAX in *; split; [done|]; split; [nia|];
        etrans; [apply (Z.mul_le_mono_nonneg _ (2 ^ 64) _ 1000)|]; lia).
  cbn. rewrite Z.mod_small by (unfold BPS_DENOMINATOR, U64_MAX in *; lia).
  assert (forall z, 0 <= z <= price -> checked_u64 z = Ok z) as Hch
    by (intros z Hz; apply checked_Ok; split; [done|]; unfold U64_MAX in *; lia).
  by rewrite Hch by (unfold BPS_DENOMINATOR in *; lia).
Qed.

(** C13: In every reachable state there is one configuration, at its address, and its fees
    are exact for every 64-bit amount: the four shares of a registration fee are nonnegative
    and sum to it with something left for the treasury, and the marketplace fee and the
    seller's rest sum to the price, the fee being at most a tenth of it. *)
Theorem reachable_fees_add_up h w a c amount :
  reach h w -> accounts w !! a = Some (AConfig c) -> is_u64 amount ->
  (let '(treasury, staking, referral, burn) := fee_split c amount in
   treasury + staking + referral + burn = amount
   /\ 0 <= treasury /\ 0 <= staking /\ 0 <= referral /\ 0 <= burn /\ (0 < amount -> 0 < treasury))
  /\ (exists fee rest, sale_split c amount = Ok (fee, rest)
      /\ fee + rest = amount /\ 0 <= fee <= amount / 10)
  /\ a = fst (find_program_address [CONFIG_SEED] ID).
Proof.
  intros HR Ha Hu. destruct (reach_configs _ _ _ _ HR Ha) as [Hok Hadr _ _ _ Hf].
  pose proof (fee_split_conserves c amount Hok Hu) as HC.
  destruct (sale_split_exact c amount Hf Hu) as [HS Hb]. split; [|split].
  - destruct (fee_split c amount) as [[[t s] r] b]. by destruct_and!.
  - do 2 eexists. split; [exact HS|]. lia.
  - by rewrite Hadr.
Qed.

(** ** Staking *)

Definition weight (x : Account) : Z := match x with AStake s => StakeAccount.amount s | _ => 0 end.

(** What the positions hold together. *)
Definition staked (m : gmap Pubkey Account) : Z := map_fold (fun _ x z => weight x + z) 0 m.

Lemma staked_split m a x : m !! a = Some x -> staked m = weight x + staked (delete a m).
Proof. intros Ha. unfold staked. apply (map_fold_delete_L (fun _ x z => weight x + z)); [intros; lia|done]. Qed.

Lemma staked_insert m a x :
  staked (<[a := x]> m) = weight x - default 0 (weight <$> m !! a) + staked m.
Proof.
  rewrite (staked_split _ a x) by by rewrite lookup_insert_eq. rewrite delete_insert_eq.
  destruct (m !! a) as [y|] eqn:Hy; cbn.
  - rewrite (staked_split m a y Hy). lia.
  - rewrite delete_id by done. lia.
Qed.

Lemma staked_delete m a : staked (delete a m) = staked m - default 0 (weight <$> m !! a).
Proof.
  destruct (m !! a) as [y|] eqn:Hy; cbn; [rewrite (staked_split m a y Hy); lia|].
  rewrite delete_id by done. lia.
Qed.

Lemma staked_none m : (forall a s, m !! a <> Some (AStake s)) -> staked m = 0.
Proof.
  induction m as [|k x m Hk IH] using map_ind; [done|]. intros HN.
  rewrite staked_insert, Hk. cbn. rewrite IH.
  - destruct x; cbn; try lia. destruct (HN k s). by rewrite lookup_insert_eq.
  - intros a s Ha. apply (HN a s). rewrite lookup_insert_ne; [done|]. intros ->. by rewrite Hk in Ha.
Qed.

Lemma sale_weight x s : sale_of x = Some s -> weight x = 0.
Proof. by destruct x. Qed.

Lemma staked_at_default w a old : staked_at w a = Some old ->
  default 0 (weight <$> accounts w !! a) = old.
Proof. unfold staked_at. destruct (accounts w !! a) as [[]|]; cbn; by intros [= <-]. Qed.

(** *** Instructions that leave the staking accounts alone *)

Definition no_staking (x : option Account) : Prop :=
  match x with Some (AStakePool _) | Some (AStake _) => False | _ => True end.

Record calm (m m' : gmap Pubkey Account) : Prop := {
  calm_staked : staked m' = staked m;
  calm_accounts : forall a x, ~ no_staking (Some x) -> m' !! a = Some x <-> m !! a = Some x;
}.

Lemma no_staking_weight x : no_staking x -> default 0 (weight <$> x) = 0.
Proof. by destruct x as [[]|]. Qed.

Lemma calm_refl m : calm m m.
Proof. done. Qed.

Lemma calm_insert m m' a x : calm m m' -> no_staking (m' !! a) -> no_staking (Some x) ->
  calm m (<[a := x]> m').
Proof.
  intros [Hs Ha] Hold Hnew. split.
  - rewrite staked_insert, (no_staking_weight _ Hold), Hs.
    pose proof (no_staking_weight _ Hnew) as Hw. cbn in Hw. lia.
  - intros b y Hy. rewrite <- Ha by done. rewrite lookup_insert_Some. split.
    + intros [[-> ->]|[_ ?]]; [|done]. by destruct Hy.
    + intros Hb. right. split; [|done]. intros ->. by rewrite Hb in Hold.
Qed.

Lemma calm_delete m m' a : calm m m' -> no_staking (m' !! a) -> calm m (delete a m').
Proof.
  intros [Hs Ha] Hold. split.
  - rewrite staked_delete, (no_staking_weight _ Hold), Hs. lia.
  - intros b y Hy. rewrite <- Ha by done. rewrite lookup_delete_Some. split; [by intros []|].
    intros Hb. split; [|done]. intros ->. by rewrite Hb in Hold.
Qed.

Lemma sale_no_staking x s : sale_of x = Some s -> no_staking (Some x).
Proof. by destruct x. Qed.

(** *** The pool *)

Definition pool_pda : Pubkey := fst (find_program_address [STAKE_POOL_SEED] ID).

(** The pool is at its address, its total is the sum of the positions, and there are none
    without it. *)
Record pool_ok (m : gmap Pubkey Account) : Prop := {
  pool_total : forall a q, m !! a = Some (AStakePool q) ->
    a = pool_pda /\ StakePool.total_staked q = staked m;
  pool_positions : forall a s, m !! a = Some (AStake s) ->
    0 <= StakeAccount.amount s /\ exists q, m !! pool_pda = Some (AStakePool q);
}.

Lemma calm_pool m m' : calm m m' -> pool_ok m -> pool_ok m'.
Proof.
  intros [Hs Ha] [HP HQ]. split.
  - intros a q. rewrite Ha by by intros []. rewrite Hs. apply HP.
  - intros a s. rewrite Ha by by intros []. intros Hk. destruct (HQ _ _ Hk) as (? & q & Hq).
    split; [done|]. exists q. apply Ha; [by intros []|done].
Qed.

(** A new pool starts with no positions. *)
Lemma opened_pool m q : pool_ok m -> m !! pool_pda = None -> StakePool.total_staked q = 0 ->
  pool_ok (<[pool_pda := AStakePool q]> m).
Proof.
  intros [HP HQ] Hn Hq.
  assert (forall a s, m !! a <> Some (AStake s)) as HN.
  { intros a s Ha. destruct (HQ _ _ Ha) as (_ & q' & Hq'). congruence. }
  split.
  - intros a q'. rewrite lookup_insert_Some. intros [[<- Heq]|[_ Ha]].
    + injection Heq as <-. split; [done|]. rewrite staked_insert, Hn, Hq. cbn.
      by rewrite staked_none.
    + destruct (HP _ _ Ha) as [-> _]. congruence.
  - intros a s. rewrite lookup_insert_Some. intros [[_ Heq]|[_ Ha]]; [done|]. by apply HN in Ha.
Qed.

(** A stake moves the total as it moves its position. *)
Lemma moved_stake w a s old pa q q' : pool_ok (accounts w) ->
  accounts w !! pa = Some (AStakePool q) -> staked_at w a = Some old ->
  StakePool.total_staked q' - StakePool.total_staked q = StakeAccount.amount s - old ->
  StakeAccount.amount s = old \/ 0 <= StakeAccount.amount s ->
  pool_ok (<[a := AStake s]> (<[pa := AStakePool q']> (accounts w))).
Proof.
  intros [HP HQ] Hpa Hold Hd Hs. destruct (HP _ _ Hpa) as [-> Ht].
  assert (a <> pool_pda) as Hne by (intros ->; unfold staked_at in Hold; by rewrite Hpa in Hold).
  assert (staked (<[a := AStake s]> (<[pool_pda := AStakePool q']> (accounts w)))
          = StakePool.total_staked q') as Hstaked.
  { rewrite !staked_insert, lookup_insert_ne, Hpa by done. cbn.
    rewrite (staked_at_default _ _ _ Hold). lia. }
  split.
  - intros b q1 Hb. map_cases Hb; [done|]. destruct (HP _ _ Hb) as [-> _]. congruence.
  - intros b s1 Hb. rewrite lookup_insert_ne, lookup_insert_eq by done. split; [|eauto].
    map_cases Hb; [|by apply (HQ _ _ Hb)]. destruct Hs as [->|]; [|done].
    unfold staked_at in Hold. destruct (accounts w !! b) as [[]|] eqn:Hx; simplify_eq; [|done].
    by apply (HQ _ _ Hx).
Qed.

(** Peel the writes off a map that leaves staking alone. *)
Ltac calm_down :=
  repeat first [apply calm_delete|apply calm_insert|apply calm_refl];
  repeat first [rewrite lookup_insert|rewrite lookup_delete|case_decide]; subst;
  repeat match goal with
  | HX : accounts _ !! _ = _ |- _ => rewrite HX
  | HX : _ \/ exists _, _ |- _ => destruct HX as [HX|[? HX]]
  end;
  try done; eauto using sale_no_staking.

Lemma transition_pool S w l' c m' : transition S w l' c m' -> pool_ok (accounts w) -> pool_ok m'.
Proof.
  intros HT HI. destruct HT; try solve [eapply calm_pool; [|exact HI]; calm_down].
  - subst a. eapply calm_pool; [|by eapply opened_pool].
    assert (ca <> pool_pda) by (intros ->; unfold pool_pda in *; congruence).
    apply calm_insert; [apply calm_refl| |done]. rewrite lookup_insert_ne by done.
    match goal with HX : accounts w !! ca = _ |- _ => by rewrite HX end.
  - by eapply moved_stake.
Qed.

Lemma reach_pool h w : reach h w -> pool_ok (accounts w).
Proof.
  induction 1 as [w He|h ix w w' HR IH HC HE|h w w' _ IH (Ha & _)].
  - rewrite He. split; intros a; set_solver.
  - eapply transition_pool; eauto using execute_refines.
  - by rewrite Ha.
Qed.

(** A position is part of the sum. *)
Lemma staked_part m a s : (forall a s, m !! a = Some (AStake s) -> 0 <= StakeAccount.amount s) ->
  m !! a = Some (AStake s) -> StakeAccount.amount s <= staked m.
Proof.
  intros HP Ha. rewrite (staked_split _ _ _ Ha). cbn.
  assert (0 <= staked (delete a m)); [|lia].
  assert (forall b s, delete a m !! b = Some (AStake s) -> 0 <= StakeAccount.amount s) as HP'
    by (intros b s' Hb; apply lookup_delete_Some in Hb as [_ Hb]; eauto).
  revert HP'. generalize (delete a m) as k. clear. intros k.
  induction k as [|b x k Hb IH] using map_ind; intros HP; [done|].
  rewrite staked_insert, Hb. cbn.
  assert (0 <= weight x).
  { destruct x; cbn; try lia. apply (HP b). by rewrite lookup_insert_eq. }
  assert (0 <= staked k); [|lia]. apply IH. intros a s Ha. apply (HP a). rewrite lookup_insert_ne; [done|].
  intros ->. by rewrite Hb in Ha.
Qed.

(** C12: In every reachable state there is one stake pool, at its address, whose total is
    the sum of all positions: every position is between 0 and the total, so the subtraction
    of an unstake never underflows. *)
Theorem stakes_are_accounted h w a s :
  reach h w -> accounts w !! a = Some (AStake s) ->
  exists q, accounts w !! pool_pda = Some (AStakePool q)
    /\ StakePool.total_staked q = staked (accounts w)
    /\ (forall b q', accounts w !! b = Some (AStakePool q') -> b = pool_pda)
    /\ 0 <= StakeAccount.amount s <= StakePool.total_staked q.
Proof.
  intros HR Ha. destruct (reach_pool _ _ HR) as [HP HQ].
  destruct (HQ _ _ Ha) as (Hpos & q & Hq). exists q. destruct (HP _ _ Hq) as [_ Ht].
  split; [done|]. split; [done|]. split; [by intros b q' [-> _]%HP|]. rewrite Ht. split; [done|].
  apply (staked_part _ a); [|done]. intros b s' Hb. by apply (HQ b).
Qed.
End Invariants.

(** ** Concrete inputs *)

Definition alex_record : NameRecord.t := name_at ALEX market_world.

Lemma alex_there : accounts market_world !! ALEX = Some (AName alex_record)
  /\ length (NameRecord.records alex_record) = 1%nat.
Proof. split; [apply (name_at_lookup ALEX)|]; by vm_compute. Qed.

Lemma records_fit_their_accounts_witness :
  record_ok alex_record /\ record_size alex_record <= NameRecord.INIT_SPACE.
Proof.
  destruct alex_there as [Ha _].
  exact (records_fit_their_accounts market_paths market_world ALEX alex_record market_reached Ha).
Defined.

Lemma config_there : exists c, accounts market_world !! CONFIG = Some (AConfig c).
Proof.
  assert (match accounts market_world !! CONFIG with Some (AConfig _) => true | _ => false end = true)
    as HC by by vm_compute.
  destruct (accounts market_world !! CONFIG) as [[]|]; try discriminate HC. eexists. reflexivity.
Qed.

Lemma price_u64 : is_u64 1000001.
Proof. by compute. Qed.

Lemma reachable_fees_add_up_witness :
  exists c, accounts market_world !! CONFIG = Some (AConfig c)
    /\ exists fee rest, sale_split c 1000001 = Ok (fee, rest) /\ fee + rest = 1000001
         /\ 0 <= fee <= 1000001 / 10.
Proof.
  destruct config_there as [c Hc]. exists c. split; [exact Hc|].
  exact (proj1 (proj2 (reachable_fees_add_up market_paths market_world CONFIG c 1000001
    market_reached Hc price_u64))).
Defined.

Lemma position_there : exists s, accounts staking_world !! position ALICE = Some (AStake s)
  /\ StakeAccount.amount s = 250.
Proof.
  assert (match accounts staking_world !! position ALICE with
          | Some (AStake s) => StakeAccount.amount s =? 250 | _ => false end = true)
    as HC by by vm_compute.
  destruct (accounts staking_world !! position ALICE) as [[]|]; try discriminate HC.
  eexists. split; [done|]. by apply Z.eqb_eq.
Qed.

Lemma stakes_are_accounted_witness :
  exists s q, accounts staking_world !! position ALICE = Some (AStake s)
    /\ accounts staking_world !! pool_pda = Some (AStakePool q)
    /\ StakePool.total_staked q = staked (accounts staking_world).
Proof.
  destruct position_there as (s & Hs & _).
  destruct (stakes_are_accounted staking_paths staking_world (position ALICE) s staking_reached Hs)
    as (q & Hq & Ht & _).
  exists s, q. split; [exact Hs|]. split; [exact Hq|exact Ht].
Defined.
