(* ===== verification/TokenLaws.v ===== *)
(** * Whose tokens an instruction can take

    Over one instruction, a token account of the classic token program loses tokens only
    if its owner signed, or is the program's address the instruction acts for
    ([acting]). *)
From stdpp Require Import gmap.
From S2P Require Import Prelude JsString Errors OnChain Staking Runtime ChainState ProgramUtils.
From S2P Require Import Registration Ownership Market Auctions Administration StakingPool.
From S2P Require Import Registry ChainFacts RegistrySpec.

(** The program's addresses an instruction signs token movements for. *)
Definition acting (ix : Instruction) : list Pubkey :=
  match ix with
  | auto_renew acc _ _ _ => [AutoRenew.config acc]
  | bid acc _ => [Bid.auction acc]
  | settle_auction acc => [SettleAuction.auction acc]
  | cancel_auction acc => [CancelAuction.auction acc]
  | stake acc _ => [Stake.stake_pool acc]
  | unstake acc _ => [Unstake.stake_pool acc]
  | claim_rewards acc => [ClaimRewards.stake_pool acc]
  | buyback_burn acc _ => [BuybackBurnIx.config acc]
  | _ => []
  end.

Section Tokens.
Context `{Runtime, Addresses, Keccak}.

(** ** Token movements of the helpers *)

(** A transfer or a burn, which a zero amount skips. *)
Definition sent (s : option Pubkey) (p from m to : Pubkey) (d : Z) (au : Pubkey) (z : Z)
    (l l' : Ledger) : Prop :=
  if z =? 0 then l' = l else invoke l s (TransferChecked p from m to au z d) = Some l'.
Definition burned (s : option Pubkey) (p m from au : Pubkey) (z : Z) (l l' : Ledger) : Prop :=
  if z =? 0 then l' = l else invoke l s (Burn p m from au z) = Some l'.

Lemma transfer_tokens_signed_sent p from m to d au s z w w' :
  transfer_tokens_signed p from to m d au s z w = Ok w' ->
  exists l, sent s p from m to d au z (ledger w) l /\ w' = with_ledger l w.
Proof.
  unfold transfer_tokens_signed, sent. destruct (z =? 0).
  - intros [= <-]. exists (ledger w). by rewrite with_ledger_id.
  - intros HR. apply run_Ok in HR as (l & Hl & ->). eauto.
Qed.

Lemma transfer_tokens_sent p from m to d au z w w' :
  transfer_tokens p from to m d au z w = Ok w' ->
  exists l, sent None p from m to d au z (ledger w) l /\ w' = with_ledger l w.
Proof. apply transfer_tokens_signed_sent. Qed.

Lemma burn_tokens_signed_burned p m from au s z w w' :
  burn_tokens_signed p m from au s z w = Ok w' ->
  exists l, burned s p m from au z (ledger w) l /\ w' = with_ledger l w.
Proof.
  unfold burn_tokens_signed, burned. destruct (z =? 0).
  - intros [= <-]. exists (ledger w). by rewrite with_ledger_id.
  - intros HR. apply run_Ok in HR as (l & Hl & ->). eauto.
Qed.

Lemma burn_tokens_burned p m from au z w w' : burn_tokens p m from au z w = Ok w' ->
  exists l, burned None p m from au z (ledger w) l /\ w' = with_ledger l w.
Proof. apply burn_tokens_signed_burned. Qed.

(** What a transfer does to the two accounts. *)
Lemma with_amount_id t : with_amount t (ta_amount t) = t.
Proof. by destruct t. Qed.

Context {TS : TokenSpec _}.

Lemma sent_paid s p from m to d z l l' t : sent s p from m to d (ta_owner t) z l l' -> 0 <= z ->
  token_account l from = Some t -> plain t -> from <> to ->
  token_account l' from = Some (with_amount t (ta_amount t - z)).
Proof.
  unfold sent. intros HS Hz Ht Hp Hne. destruct (Z.eqb_spec z 0) as [->|].
  - subst. by rewrite Z.sub_0_r, with_amount_id.
  - by eapply token_paid.
Qed.

Lemma sent_received s p from m to d au z l l' t : sent s p from m to d au z l l' -> 0 <= z ->
  token_account l to = Some t -> plain t -> from <> to ->
  token_account l' to = Some (with_amount t (ta_amount t + z)).
Proof.
  unfold sent. intros HS Hz Ht Hp Hne. destruct (Z.eqb_spec z 0) as [->|].
  - subst. by rewrite Z.add_0_r, with_amount_id.
  - by eapply token_received.
Qed.

Lemma burned_paid s p m from z l l' t : burned s p m from (ta_owner t) z l l' -> 0 <= z ->
  token_account l from = Some t -> plain t ->
  token_account l' from = Some (with_amount t (ta_amount t - z)).
Proof.
  unfold burned. intros HS Hz Ht Hp. destruct (Z.eqb_spec z 0) as [->|].
  - subst. by rewrite Z.sub_0_r, with_amount_id.
  - by eapply token_burnt.
Qed.

(** ** Who can take tokens *)

(** Plain accounts whose owner is not among [auths] keep their tokens. *)
Definition heeds (auths : list Pubkey) (l l' : Ledger) : Prop :=
  forall a t, token_account l a = Some t -> plain t -> ta_owner t ∉ auths ->
    exists t', token_account l' a = Some t' /\ grown t t'.

Lemma heeds_refl A l : heeds A l l.
Proof. intros a t Ha _ _. eauto using grown_refl. Qed.

Lemma heeds_trans A l1 l2 l3 : heeds A l1 l2 -> heeds A l2 l3 -> heeds A l1 l3.
Proof.
  intros H12 H23 a t Ha Hp Ho. destruct (H12 _ _ Ha Hp Ho) as (t' & Ha' & Hg).
  destruct (H23 a t' Ha') as (t'' & Ha'' & Hg'); eauto using grown_plain, grown_trans.
  by rewrite (grown_owner _ _ Hg).
Qed.

Lemma heeds_invoke A l0 l s i l' : heeds A l0 l -> invoke l s i = Some l' ->
  authorities i ⊆ A -> heeds A l0 l'.
Proof.
  intros HH HI HA. eapply heeds_trans; [exact HH|]. intros a t Ha Hp Ho.
  eapply token_guarded; eauto.
Qed.

Lemma heeds_sent A l0 l s p from m to d au z l' : heeds A l0 l -> sent s p from m to d au z l l' ->
  au ∈ A -> heeds A l0 l'.
Proof.
  unfold sent. intros HH HS HA. destruct (z =? 0); [by subst|].
  eapply heeds_invoke; eauto. cbn. set_solver.
Qed.

Lemma heeds_burned A l0 l s p m from au z l' : heeds A l0 l -> burned s p m from au z l l' ->
  au ∈ A -> heeds A l0 l'.
Proof.
  unfold burned. intros HH HS HA. destruct (z =? 0); [by subst|].
  eapply heeds_invoke; eauto. cbn. set_solver.
Qed.

Lemma heeds_set A l0 l a z : heeds A l0 l -> heeds A l0 (set_lamports l a z).
Proof.
  intros HH. eapply heeds_trans; [exact HH|]. intros b t Hb _ _. rewrite token_set_lamports.
  eauto using grown_refl.
Qed.

Lemma heeds_pair A l0 l l' : heeds A l0 l -> heeds A l l' -> heeds A l0 l'.
Proof. apply heeds_trans. Qed.

Lemma distribute_fee_heeds A f d au amount cfg w w' : distribute_fee f d au amount cfg w = Ok w' ->
  exists l, (au ∈ A -> heeds A (ledger w) l) /\ w' = with_ledger l w.
Proof.
  unfold distribute_fee. destruct (fee_split cfg amount) as [[[tr st] rf] bu]. intros HD.
  apply result_bind_Ok in HD as (w1 & H1' & HD).
  apply transfer_tokens_sent in H1' as (l1 & M1 & ->).
  apply result_bind_Ok in HD as (w2 & H2' & HD).
  apply transfer_tokens_sent in H2' as (l2 & M2 & ->).
  apply result_bind_Ok in HD as ([tr' w3] & H3' & HD).
  assert (exists l3, (au ∈ A -> heeds A (ledger w) l3) /\ w3 = with_ledger l3 w) as (l3 & M3 & ->).
  { destruct (FeeAccounts.referral_token_account f).
    - apply result_bind_Ok in H3' as (w4 & H4' & H3'). injection H3' as <- <-.
      apply transfer_tokens_sent in H4' as (l4 & M4 & ->). exists l4. split; [|done].
      intros HA. eauto using heeds_sent, heeds_refl.
    - apply result_bind_Ok in H3' as (t & _ & H3'). injection H3' as <- <-. exists l2.
      split; [|done]. intros HA. eauto using heeds_sent, heeds_refl. }
  apply transfer_tokens_sent in HD as (l & M & ->). exists l. split; [|done].
  intros HA. eauto using heeds_sent.
Qed.

Lemma distribute_fee_signed_heeds A f d au s amount cfg w w' :
  distribute_fee_signed f d au s amount cfg w = Ok w' ->
  exists l, (au ∈ A -> heeds A (ledger w) l) /\ w' = with_ledger l w.
Proof.
  unfold distribute_fee_signed. destruct (fee_split cfg amount) as [[[tr st] rf] bu]. intros HD.
  apply result_bind_Ok in HD as (t & _ & HD).
  apply result_bind_Ok in HD as (w1 & H1' & HD).
  apply transfer_tokens_signed_sent in H1' as (l1 & M1 & ->).
  apply result_bind_Ok in HD as (w2 & H2' & HD).
  apply transfer_tokens_signed_sent in H2' as (l2 & M2 & ->).
  apply transfer_tokens_signed_sent in HD as (l & M & ->). exists l. split; [|done].
  intros HA. eauto using heeds_sent, heeds_refl.
Qed.
End Tokens.

(** Take a handler apart keeping its token movements: [chain_inv] for them. *)
Ltac token_step A :=
  match goal with
  | H : transfer_tokens _ _ _ _ _ _ _ _ = Ok _ |- _ =>
      let l := fresh "l" in apply transfer_tokens_sent in H as (l & ? & ->)
  | H : transfer_tokens_signed _ _ _ _ _ _ _ _ _ = Ok _ |- _ =>
      let l := fresh "l" in apply transfer_tokens_signed_sent in H as (l & ? & ->)
  | H : burn_tokens _ _ _ _ _ _ = Ok _ |- _ =>
      let l := fresh "l" in apply burn_tokens_burned in H as (l & ? & ->)
  | H : burn_tokens_signed _ _ _ _ _ _ _ = Ok _ |- _ =>
      let l := fresh "l" in apply burn_tokens_signed_burned in H as (l & ? & ->)
  | H : distribute_fee _ _ _ _ _ _ = Ok _ |- _ =>
      let l := fresh "l" in apply (distribute_fee_heeds A) in H as (l & ? & ->)
  | H : distribute_fee_signed _ _ _ _ _ _ _ = Ok _ |- _ =>
      let l := fresh "l" in apply (distribute_fee_signed_heeds A) in H as (l & ? & ->)
  end.

Ltac token_inv A :=
  unfold check_name, term_price, expiry_after, has_owner, not_tokenized, not_listed, top_level,
    name_seeds, listing_seeds, offer_seeds, config_seeds, auction_seeds, pool_seeds, has_admin,
    sale_split in *;
  repeat (first [chain_basic | token_step A];
          cbn [accounts ledger now events with_ledger put remove emit close] in *);
  bool_prop; cbn [accounts ledger now events with_ledger put remove emit close] in *;
  repeat match goal with u : unit |- _ => destruct u end.

(** Follow the ledgers of a handler from the first. *)
Ltac in_list := cbn; rewrite ?elem_of_cons; tauto.
Ltac heed_step :=
  match goal with
  | HH : heeds ?A ?l0 ?l, HI : invoke ?l _ _ = Some ?l' |- _ =>
      apply (heeds_invoke _ _ _ _ _ _ HH) in HI; [|cbn; set_solver]
  | HH : heeds ?A ?l0 ?l, HI : sent _ _ _ _ _ _ _ _ ?l ?l' |- _ =>
      apply (heeds_sent _ _ _ _ _ _ _ _ _ _ _ _ HH) in HI; [|in_list]
  | HH : heeds ?A ?l0 ?l, HI : burned _ _ _ _ _ _ ?l ?l' |- _ =>
      apply (heeds_burned _ _ _ _ _ _ _ _ _ _ HH) in HI; [|in_list]
  | HH : heeds ?A ?l0 ?l, HI : heeds ?A ?l ?l' |- _ =>
      lazymatch l with l0 => fail | _ => apply (heeds_trans _ _ _ _ HH) in HI end
  | HH : heeds ?A ?l0 ?l, HI : _ ∈ ?A -> heeds ?A ?l ?l' |- _ =>
      apply (heeds_trans _ _ _ _ HH) in HI; [|in_list]
  end.

Ltac heed A w :=
  assert (heeds A (ledger w) (ledger w)) by apply heeds_refl;
  repeat heed_step; repeat apply heeds_set; eassumption.

Section Takers.
Context `{Runtime, Addresses, Keccak}.
Context {RS : RuntimeSpec _} {TS : TokenSpec _}.

Lemma pay_lamports_heeds A from to z w w' : pay_lamports from to z w = Ok w' ->
  exists l, heeds A (ledger w) l /\ w' = with_ledger l w.
Proof.
  unfold pay_lamports. destruct (z >? 0).
  - intros HR. apply run_Ok in HR as (l & Hl & ->). exists l. split; [|done].
    eapply heeds_invoke; [apply heeds_refl|exact Hl|]. cbn. set_solver.
  - intros [= <-]. exists (ledger w). split; [apply heeds_refl|by rewrite with_ledger_id].
Qed.

Lemma move_lamports_heeds A from to z w w' : move_lamports from to z w = Ok w' ->
  exists l, heeds A (ledger w) l /\ w' = with_ledger l w.
Proof.
  unfold move_lamports. destruct (z =? 0).
  - intros [= <-]. exists (ledger w). split; [apply heeds_refl|by rewrite with_ledger_id].
  - intros HM. apply result_bind_Ok in HM as (f & _ & HM).
    apply result_bind_Ok in HM as (t & _ & HM). injection HM as <-. eexists. split; [|done].
    do 2 apply heeds_set. apply heeds_refl.
Qed.

Lemma pay_out_heeds A acc cfg x m nr w fee nr' w' :
  SettleAuction.pay_out acc cfg x m nr w = Ok (fee, nr', w') -> SettleAuction.auction acc ∈ A ->
  exists l, heeds A (ledger w) l /\ w' = with_ledger l w.
Proof.
  unfold SettleAuction.pay_out. intros HP HA. destruct (Auction.highest_bidder x).
  - token_inv A. eexists. split; [|done]. eauto using heeds_burned, heeds_sent, heeds_refl.
  - injection HP as <- <- <-. exists (ledger w). split; [apply heeds_refl|by rewrite with_ledger_id].
Qed.

Lemma open_position_heeds A acc w s w' : Stake.open_position acc w = Ok (s, w') ->
  exists l, heeds A (ledger w) l /\ w' = with_ledger l w.
Proof.
  unfold Stake.open_position. destruct (accounts w !! Stake.stake_account acc); intros HO; token_inv A.
  - eexists. split; [apply heeds_refl|by rewrite with_ledger_id].
  - eexists. split; [|done]. eapply heeds_invoke; [apply heeds_refl|eassumption|]. cbn. set_solver.
Qed.

(** The refund of a bid, when one stands. *)
Definition refunded (acc : Bid.t) (x : Auction.t) (l l' : Ledger) : Prop :=
  match Auction.highest_bidder x with
  | Some _ => exists prev d, Bid.prev_bidder_solans_account acc = Some prev
      /\ sent (auction_signer x) (Bid.token_program acc) (Bid.bid_vault acc) (Bid.solans_mint acc)
           prev d (Bid.auction acc) (Auction.highest_bid x) l l'
  | None => l' = l
  end.

Lemma refund_refunded acc x m w w' :
  match Auction.highest_bidder x with
  | Some _ =>
      prev ← of_option (Custom WrongRefundAccount) (Bid.prev_bidder_solans_account acc);
      transfer_tokens_signed (Bid.token_program acc) (Bid.bid_vault acc) prev (Bid.solans_mint acc)
        (decimals m) (Bid.auction acc) (auction_signer x) (Auction.highest_bid x) w
  | None => Ok w
  end = Ok w' -> exists l, refunded acc x (ledger w) l /\ w' = with_ledger l w.
Proof.
  unfold refunded. destruct (Auction.highest_bidder x); intros HR.
  - apply result_bind_Ok in HR as (prev & Hp & HR). apply of_option_Ok in Hp.
    apply transfer_tokens_signed_sent in HR as (l' & HS & ->). exists l'. eauto 8.
  - injection HR as <-. exists (ledger w). by rewrite with_ledger_id.
Qed.

Lemma refunded_heeds A acc x l l' : refunded acc x l l' -> Bid.auction acc ∈ A -> heeds A l l'.
Proof.
  unfold refunded. intros HR HA. destruct (Auction.highest_bidder x); [|subst; apply heeds_refl].
  destruct HR as (prev & d & _ & HS). eauto using heeds_sent, heeds_refl.
Qed.

(** The steps of handlers that branch. *)
Ltac branch_step A :=
  match goal with
  | H : pay_lamports _ _ _ _ = Ok _ |- _ =>
      let l := fresh "l" in apply (pay_lamports_heeds A) in H as (l & ? & ->)
  | H : move_lamports _ _ _ _ = Ok _ |- _ =>
      let l := fresh "l" in apply (move_lamports_heeds A) in H as (l & ? & ->)
  | H : SettleAuction.pay_out _ _ _ _ _ _ = Ok _ |- _ =>
      let l := fresh "l" in apply (pay_out_heeds A) in H as (l & ? & ->); [|in_list]
  | H : Stake.open_position _ _ = Ok _ |- _ =>
      let l := fresh "l" in apply (open_position_heeds A) in H as (l & ? & ->)
  | H : match Auction.highest_bidder _ with _ => _ end = Ok _ |- _ =>
      let l := fresh "l" in apply refund_refunded in H as (l & ? & ->)
  | H : refunded _ _ _ _ |- _ => apply (refunded_heeds A) in H; [|in_list]
  end; cbn [accounts ledger now events with_ledger put remove emit close] in *.

Lemma set_reverse_heeds acc name w w' : SetReverse.handler acc name w = Ok w' ->
  heeds [SetReverse.owner acc] (ledger w) (ledger w').
Proof.
  unfold SetReverse.handler. intros HE. token_inv [SetReverse.owner acc].
  destruct (accounts w !! SetReverse.reverse_record acc).
  - token_inv [SetReverse.owner acc]. apply heeds_refl.
  - match goal with HI : snd <$> _ = Ok _ |- _ => apply result_fmap_Ok in HI as ([b w1] & HI & <-) end.
    token_inv [SetReverse.owner acc]. heed [SetReverse.owner acc] w.
Qed.

Ltac handled w :=
  match goal with |- heeds ?A _ _ => token_inv A; repeat branch_step A; try heed A w end.

Lemma execute_heeds ix w w' : execute ix w = Ok w' ->
  heeds (signers ix ++ acting ix) (ledger w) (ledger w').
Proof.
  intros HE. destruct ix; cbn [execute signers acting app] in *;
    try (by eapply set_reverse_heeds);
    open_handler HE; handled w.
  apply heeds_refl.
Qed.
End Takers.

Lemma reverse_opened `{Runtime, Addresses} acc l seeds w w' :
  match accounts w !! SetReverse.reverse_record acc with
  | None => snd <$> init (SetReverse.reverse_record acc) (SetReverse.owner acc)
              (8 + ReverseRecord.INIT_SPACE) seeds w
  | Some x =>
      _ ← of_option (Anchor AccountDiscriminatorMismatch) (pick_reverse x);
      _ ← anchor (bool_decide (l = SetReverse.reverse_record acc)) ConstraintSeeds;
      Ok w
  end = Ok w' -> accounts w' = accounts w.
Proof.
  destruct (accounts w !! SetReverse.reverse_record acc); intros HX; [by chain_inv|].
  apply result_fmap_Ok in HX as ([b w1] & HI & <-). by chain_inv.
Qed.

(** The steps of handlers that branch leave the accounts alone. *)
Ltac accounts_only :=
  repeat match goal with
  | HX : pay_lamports _ _ _ _ = Ok _ |- _ => apply pay_lamports_Ok in HX as (? & _ & ->)
  | HX : move_lamports _ _ _ _ = Ok _ |- _ => apply move_lamports_Ok in HX as (? & ->)
  | HX : SettleAuction.pay_out _ _ _ _ _ _ = Ok _ |- _ => apply pay_out_Ok in HX as ((? & _ & ->) & ->)
  | HX : Stake.open_position _ _ = Ok _ |- _ =>
      let HA := fresh in apply open_position_Ok in HX as (HA & _); rewrite HA in *; clear HA
  | HX : match Auction.highest_bidder _ with _ => _ end = Ok _ |- _ =>
      apply refund_refunded in HX as (? & _ & ->)
  | HX : match accounts _ !! SetReverse.reverse_record _ with _ => _ end = Ok _ |- _ =>
      let HA := fresh in apply reverse_opened in HX as HA; rewrite HA in *; clear HA HX
  end; cbn [accounts ledger now events with_ledger put remove emit close] in *.
