(* ===== verification/EscrowLaws.v ===== *)
(** * Bids are escrowed

    In every reachable world whose tokens are classic, the vault of an auction holds its
    highest bid; a vault that holds more can no longer be closed. *)
From stdpp Require Import gmap.
From S2P Require Import Prelude JsString Errors HashName OnChain Staking Runtime ChainState ProgramUtils.
From S2P Require Import Registration Ownership Market Auctions Administration StakingPool.
From S2P Require Import Registry ChainFacts RegistrySpec RegistryLaws TokenLaws.
From S2P Require Import SmallRuntime SmallChain.

Section Escrows.
Context `{Runtime, Addresses, Keccak}.
Context {RS : RuntimeSpec _} {AS : AddressesSpec _} {TS : TokenSpec _}.

(** A program address is none of the signers. *)
Lemma wallet_not_account w s k x : wallet w s -> accounts w !! k = Some x -> s <> k.
Proof. intros [Hn _] Hk ->. congruence. Qed.

Lemma wallet_not_derived w s seed rest k b : wallet w s -> seed ∈ PROGRAM_SEEDS ->
  find_program_address (seed :: rest) ID = (k, b) -> s <> k.
Proof.
  intros [_ Hw] Hs Hf ->. apply find_creates in Hf. by apply (Hw seed (rest ++ [[b]]) Hs).
Qed.

(** ** Auctions *)

Definition standing (x : Auction.t) : Z :=
  match Auction.highest_bidder x with Some _ => Auction.highest_bid x | None => 0 end.

(** The vault is the auction's own account of the token, and holds the standing bid. *)
Record backed (l : Ledger) (k : Pubkey) (x : Auction.t) (t : TokenAccount) : Prop := {
  backed_vault : token_account l (Auction.bid_vault x) = Some t;
  backed_plain : plain t;
  backed_owner : ta_owner t = k;
  backed_amount : standing x <= ta_amount t;
}.

Record escrowed (l : Ledger) (k : Pubkey) (x : Auction.t) : Prop := {
  escrowed_seller : Auction.seller x <> k;
  escrowed_bidder : Auction.highest_bidder x <> Some k;
  escrowed_bid : 0 <= Auction.highest_bid x;
  escrowed_vault : exists mint p,
    Auction.bid_vault x = get_associated_token_address k mint p
    /\ (p = TOKEN_PROGRAM_ID -> exists t, backed l k x t);
}.

(** Only its start and its bids write an auction. *)
Lemma execute_auctions ix w w' k x : execute ix w = Ok w' -> accounts w' !! k = Some (AAuction x) ->
  (accounts w !! k = Some (AAuction x) /\ k ∉ acting ix)
  \/ (exists acc r m d, ix = start_auction acc r m d)
  \/ (exists acc z, ix = bid acc z /\ Bid.auction acc = k).
Proof.
  intros HE Hk. destruct ix; try (by right; left; eauto 6);
    cbn [execute acting] in *;
    open_handler HE; refine_start; accounts_only; map_cases Hk;
    try (left; split; [done|set_solver]); try (by right; right; eauto); try congruence.
Qed.

(** A new vault is empty. *)
Lemma start_escrowed acc r m d w w' k x :
  wallet w (StartAuction.owner acc) -> StartAuction.handler acc r m d w = Ok w' ->
  accounts w' !! k = Some (AAuction x) ->
  accounts w !! k = Some (AAuction x) \/ escrowed (ledger w') k x.
Proof.
  intros HW HE Hk. unfold StartAuction.handler in HE. token_inv (@nil Pubkey).
  map_cases Hk; [right|by left].
  match goal with HI : invoke _ _ (CreateAssociated _ _ _ _ _) = Some _ |- _ =>
    apply token_opened in HI as [_ HI] end.
  split; cbn; try done.
  - eapply wallet_not_derived; [exact HW| |eassumption]. set_solver.
  - do 2 eexists. split; [symmetry; eassumption|]. intros Hp. eexists.
    split; cbn; [eassumption|..]; try done.
Qed.

(** A refund takes the standing bid out of the vault. *)
Lemma refunded_vault acc x t l l' : refunded acc x l l' -> 0 <= Auction.highest_bid x ->
  backed l (Bid.auction acc) x t -> Bid.bid_vault acc = Auction.bid_vault x ->
  (forall prev, Bid.prev_bidder_solans_account acc = Some prev -> prev <> Bid.bid_vault acc) ->
  exists t', token_account l' (Bid.bid_vault acc) = Some t' /\ plain t'
    /\ ta_owner t' = Bid.auction acc /\ 0 <= ta_amount t'.
Proof.
  unfold refunded. intros HR Hz [Hv Hp Ho Ha] Hb Hne. unfold standing in Ha. rewrite Hb in *.
  destruct (Auction.highest_bidder x); [|subst; eauto].
  destruct HR as (prev & d & Hprev & HS). rewrite <- Ho in HS.
  eapply sent_paid in HS; [|done..|intros Hx; by apply (Hne _ Hprev)].
  eexists. split; [exact HS|]. split; [exact Hp|]. split; [done|]. cbn. lia.
Qed.

Lemma load_token_Ok a w t : load_token a w = Ok t -> token_account (ledger w) a = Some t.
Proof. apply of_option_Ok. Qed.

Lemma wallet_token_Ok t mint authority program u : wallet_token t mint authority program = Ok u ->
  ta_mint t = mint /\ ta_owner t = authority /\ ta_program t = program.
Proof.
  unfold wallet_token, token_mint_is, token_authority_is, token_program_is. intros HW.
  chain_inv. bool_prop. auto.
Qed.

(** The account refunded is the highest bidder's. *)
Lemma refund_account acc x w prev tp : load_token_opt (Bid.prev_bidder_solans_account acc) w = Ok tp ->
  Bid.check_refund acc x tp = Ok tt -> Bid.prev_bidder_solans_account acc = Some prev ->
  exists t, token_account (ledger w) prev = Some t
    /\ Auction.highest_bidder x = Some (ta_owner t).
Proof.
  unfold load_token_opt, Bid.check_refund. intros HL HC HP. rewrite HP in HL.
  apply result_fmap_Ok in HL as (t & Ht & <-). apply load_token_Ok in Ht.
  apply result_bind_Ok in HC as (u & HC & _). apply ensure_Ok in HC. bool_prop. eauto.
Qed.

(** A bid moves the vault from one standing bid to the next. *)
Lemma bid_escrowed acc z w w' x x' :
  wallet w (Bid.bidder acc) -> Bid.handler acc z w = Ok w' ->
  accounts w !! Bid.auction acc = Some (AAuction x) -> escrowed (ledger w) (Bid.auction acc) x ->
  accounts w' !! Bid.auction acc = Some (AAuction x') -> escrowed (ledger w') (Bid.auction acc) x'.
Proof.
  intros HW HE Hx [Hs Hb Hz (mint & p & Hv & HI)] Hk. unfold Bid.handler in HE. token_inv (@nil Pubkey).
  rewrite Hx in Hx0. injection Hx0 as <-.
  match goal with HX : match Auction.highest_bidder x with _ => _ end = Ok _ |- _ =>
    apply refund_refunded in HX as (l1 & HR & ->) end. cbn [accounts ledger with_ledger now] in *.
  rewrite lookup_insert_eq in Hk. injection Hk as <-.
  split; cbn; [done| |lia|].
  { intros [= Hk]. by apply (wallet_not_account _ _ _ _ HW Hx). }
  exists mint, p. split; [done|]. intros Hp. destruct (HI Hp) as [t HB].
  assert (forall prev, Bid.prev_bidder_solans_account acc = Some prev -> prev <> Bid.bid_vault acc) as Hprev.
  { intros prev HP ->. destruct (refund_account _ _ _ _ _ Hx2 Hx8 HP) as (tp & Htp & Hh).
    destruct HB as [Hvt _ Ho _]. rewrite <- Hx9, Htp in Hvt. injection Hvt as ->. by rewrite Ho in Hh. }
  destruct (refunded_vault _ _ _ _ _ HR Hz HB Hx9 Hprev) as (t1 & Ht1 & Hp1 & Ho1 & Ha1).
  apply load_token_Ok in Hx1. apply wallet_token_Ok in Hx7 as (_ & Ho & _).
  assert (Bid.bidder_solans_account acc <> Bid.bid_vault acc) as Hne.
  { intros He. destruct HB as [Hvt _ Hto _]. rewrite <- Hx9, <- He, Hx1 in Hvt. injection Hvt as ->.
    apply (wallet_not_account _ _ _ _ HW Hx). congruence. }
  match goal with HS : sent _ _ _ _ _ _ _ _ l1 _ |- _ => eapply sent_received in HS; [|lia|done..] end.
  eexists. split; cbn; [rewrite <- Hx9; eassumption|done|done|]. cbn. lia.
Qed.

(** *** Every reachable world *)

Lemma escrowed_heeds A l l' k x : escrowed l k x -> heeds A l l' -> k ∉ A -> escrowed l' k x.
Proof.
  intros [Hs Hb Hz (mint & p & Hv & HI)] HH HA. split; [done..|]. exists mint, p. split; [done|].
  intros Hp. destruct (HI Hp) as (t & [Ht Hpl Ho Ha]). rewrite <- Ho in HA.
  destruct (HH _ _ Ht Hpl HA) as (t' & Ht' & Hg). exists t'. split; [done|..].
  - by eapply grown_plain.
  - by rewrite (grown_owner _ _ Hg).
  - pose proof (grown_amount _ _ Hg). lia.
Qed.

Lemma not_signing ix w k x : callable ix w -> accounts w !! k = Some x -> k ∉ signers ix.
Proof.
  intros [_ HS _] Hk Hin. rewrite Forall_forall in HS. destruct (HS _ Hin) as [Hn _]. congruence.
Qed.

Lemma reach_escrowed h w : reach h w ->
  forall k x, accounts w !! k = Some (AAuction x) -> escrowed (ledger w) k x.
Proof.
  induction 1 as [w He|h ix w w' HR IH HC HE|h w w' HR IH (Ha & _ & _ & _ & Hl)]; intros k x Hk.
  - by rewrite He, lookup_empty in Hk.
  - destruct (execute_auctions _ _ _ _ _ HE Hk) as [[Hold Hact]|[(acc & r & m & d & ->)|(acc & z & -> & <-)]].
    + eapply escrowed_heeds; [by apply IH|by apply execute_heeds|]. rewrite not_elem_of_app.
      split; [|done]. by eapply not_signing.
    + assert (wallet w (StartAuction.owner acc)) as HW
        by (destruct HC as [_ HS _]; by apply Forall_cons in HS as [? _]).
      destruct (start_escrowed _ _ _ _ _ _ _ _ HW HE Hk) as [Hold|]; [|done].
      eapply escrowed_heeds; [by apply IH|by apply execute_heeds|]. rewrite not_elem_of_app.
      split; [by eapply not_signing|]. set_solver.
    + assert (wallet w (Bid.bidder acc)) as HW
        by (destruct HC as [_ HS _]; by apply Forall_cons in HS as [? _]).
      assert (exists x0, accounts w !! Bid.auction acc = Some (AAuction x0)) as [x0 Hx0].
      { cbn in HE. unfold Bid.handler in HE. apply result_bind_Ok in HE as (x0 & Hx0 & _).
        exists x0. by apply load_auction. }
      exact (bid_escrowed acc z w w' x0 x HW HE Hx0 (IH _ _ Hx0) Hk).
  - rewrite Ha in Hk. destruct (IH _ _ Hk) as [Hs Hb Hz (mint & p & Hv & HI)].
    split; [done..|]. exists mint, p. split; [done|]. intros Hp.
    destruct (HI Hp) as (t & [Ht Hpl Ho Hamt]). rewrite <- Ho in Hk.
    destruct (Hl _ _ _ Ht Hpl Hk) as (t' & Ht' & Hg). exists t'. split; [done|..].
    + by eapply grown_plain.
    + by rewrite (grown_owner _ _ Hg).
    + pose proof (grown_amount _ _ Hg). lia.
Qed.

(** C7: In every reachable state each auction's vault is the associated token account of the
    auction; when its tokens are the classic program's, it exists, belongs to the auction,
    and holds at least the standing bid, whatever instructions ran and whatever others did
    with their own tokens since. *)
Theorem bids_are_escrowed h w k x :
  reach h w -> accounts w !! k = Some (AAuction x) ->
  exists mint p, Auction.bid_vault x = get_associated_token_address k mint p
    /\ (p = TOKEN_PROGRAM_ID ->
        exists t, token_account (ledger w) (Auction.bid_vault x) = Some t /\ ta_owner t = k
          /\ standing x <= ta_amount t).
Proof.
  intros HR Hk. destruct (escrowed_vault _ _ _ (reach_escrowed _ _ HR _ _ Hk)) as (mint & p & Hv & HI).
  exists mint, p. split; [done|]. intros Hp. destruct (HI Hp) as (t & [? ? ? ?]). eauto.
Qed.

(** *** More than the bid *)

(** Settling pays exactly the standing bid out of the vault. *)
Lemma pay_out_vault acc cfg x m nr w fee nr' w' t payout :
  SettleAuction.pay_out acc cfg x m nr w = Ok (fee, nr', w') ->
  token_account (ledger w) (SettleAuction.bid_vault acc) = Some t -> plain t ->
  ta_owner t = SettleAuction.auction acc ->
  load_token_opt (SettleAuction.seller_solans_account acc) w = Ok payout ->
  (forall p, payout = Some p -> ta_owner p <> SettleAuction.auction acc) ->
  token_account (ledger w') (SettleAuction.bid_vault acc)
  = Some (with_amount t (ta_amount t - standing x)).
Proof.
  unfold SettleAuction.pay_out, standing. intros HP Ht Hpl Ho HL Hpay.
  destruct (Auction.highest_bidder x) as [b|].
  - apply result_bind_Ok in HP as ([f r] & HS & HP). apply sale_split_sum in HS as (Hf & Hr & Hsum).
    apply result_bind_Ok in HP as (to & HT & HP). apply of_option_Ok in HT.
    unfold load_token_opt in HL. rewrite HT in HL. apply result_fmap_Ok in HL as (pt & Hpt & <-).
    apply load_token_Ok in Hpt. rewrite <- Ho in HP, Hpay.
    assert (SettleAuction.bid_vault acc <> to) as Hne
      by (intros He; apply (Hpay _ eq_refl); rewrite <- He, Ht in Hpt; by injection Hpt as ->).
    apply result_bind_Ok in HP as (w1 & H1' & HP).
    apply transfer_tokens_signed_sent in H1' as (l1 & HS1 & ->).
    apply result_bind_Ok in HP as (w2 & H2' & HP).
    apply burn_tokens_signed_burned in H2' as (l2 & HB2 & ->). injection HP as <- <- <-.
    eapply sent_paid in HS1; [|done..]. cbn [ledger with_ledger] in *.
    eapply (burned_paid _ _ _ _ _ _ _ (with_amount t (ta_amount t - r))) in HB2; [|done..].
    rewrite HB2. unfold with_amount. cbn. do 2 f_equal. lia.
  - injection HP as <- <- <-. by rewrite Z.sub_0_r, with_amount_id.
Qed.

(** C10: An auction whose vault, an account of the classic token program that the auction
    owns, without delegate or close authority and not of wrapped SOL, holds more than the
    standing bid can be neither settled nor cancelled, whoever signs: settling pays out
    exactly the bid and the vault can only be closed empty, so one donated token keeps the
    name frozen and the winner without it. *)
Theorem donations_block_auctions h w k x t ix :
  reach h w -> accounts w !! k = Some (AAuction x) ->
  token_account (ledger w) (Auction.bid_vault x) = Some t -> plain t -> ta_owner t = k ->
  standing x < ta_amount t ->
  (exists acc, ix = settle_auction acc /\ SettleAuction.auction acc = k)
  \/ (exists acc, ix = cancel_auction acc /\ CancelAuction.auction acc = k) ->
  exists e, execute ix w = Err e.
Proof.
  intros HR Hk Ht Hp Ho Hlt Hix. destruct (reach_escrowed _ _ HR _ _ Hk) as [Hsel _ _ _].
  destruct (execute ix w) as [w'|e] eqn:HE; [exfalso|by eexists].
  destruct Hix as [(acc & -> & Ha)|(acc & -> & Ha)]; cbn [execute] in HE; open_handler HE;
    token_inv (@nil Pubkey); subst.
  - rewrite Ha, Hk in Hx3. injection Hx3 as <-.
    assert (forall p, x2 = Some p -> ta_owner p <> SettleAuction.auction acc) as Hpay.
    { intros p ->. apply wallet_token_Ok in Hx9 as (_ & Hpo & _). congruence. }
    eapply pay_out_vault in Hx18; [|by rewrite Hx13|done|done|done|done].
    eapply token_closed in H2; [|exact Hx18|done]. cbn in H2. lia.
  - rewrite Ha, Hk in Hx0. injection Hx0 as <-. rewrite Hx7 in H2.
    eapply token_closed in H2; [|exact Ht|done]. unfold standing in Hlt. rewrite Hx9 in Hlt. lia.
Qed.
End Escrows.

(** ** Runs *)

Definition auction_at (a : Pubkey) (w : World) : Auction.t :=
  match accounts w !! a with
  | Some (AAuction x) => x
  | _ => Auction.mk [] [] [] None 0 0 0 0 0
  end.
Definition has_auction (a : Pubkey) (w : World) : bool :=
  match accounts w !! a with Some (AAuction _) => true | _ => false end.

Lemma auction_at_lookup a w : has_auction a w = true ->
  accounts w !! a = Some (AAuction (auction_at a w)).
Proof. unfold has_auction, auction_at. by destruct (accounts w !! a) as [[]|]. Qed.

Lemma donated_auction : has_auction AUCTION donated_world = true.
Proof. by vm_compute. Qed.

Lemma bids_are_escrowed_witness :
  exists mint p, Auction.bid_vault (auction_at AUCTION donated_world)
      = get_associated_token_address AUCTION mint p
    /\ (p = TOKEN_PROGRAM_ID ->
        exists t, token_account (ledger donated_world)
                    (Auction.bid_vault (auction_at AUCTION donated_world)) = Some t
          /\ ta_owner t = AUCTION
          /\ standing (auction_at AUCTION donated_world) <= ta_amount t).
Proof.
  exact (bids_are_escrowed donated_paths donated_world AUCTION _ donated_reached
    (auction_at_lookup _ _ donated_auction)).
Defined.

Lemma donated_vault : token_account (ledger donated_world)
  (Auction.bid_vault (auction_at AUCTION donated_world)) = Some (token SOLANS AUCTION 201).
Proof. by vm_compute. Qed.

Lemma donated_standing : standing (auction_at AUCTION donated_world) = 200.
Proof. by vm_compute. Qed.

Lemma donated_exceeds : standing (auction_at AUCTION donated_world) < 201.
Proof. by rewrite donated_standing. Qed.

(** Bob has won, and cannot have the name. *)
Lemma donations_block_auctions_witness : exists e, execute settle_alex donated_world = Err e.
Proof.
  refine (donations_block_auctions donated_paths donated_world AUCTION _ (token SOLANS AUCTION 201)
    settle_alex donated_reached (auction_at_lookup _ _ donated_auction) donated_vault _ _ _ _).
  - by split.
  - reflexivity.
  - exact donated_exceeds.
  - left. eexists. by split.
Defined.
