(* ===== verification/StakeLaws.v ===== *)
(** * Stakes are backed

    In every reachable world whose tokens are classic, the pool's vault holds all that is
    staked, whatever the rewards; the rewards themselves can fall short by rounding. *)
From stdpp Require Import gmap.
From S2P Require Import Prelude JsString Errors HashName OnChain Staking Runtime ChainState ProgramUtils.
From S2P Require Import Registration Ownership Market Auctions Administration StakingPool.
From S2P Require Import Registry ChainFacts RegistrySpec RegistryLaws TokenLaws EscrowLaws.
From S2P Require Import SmallRuntime SmallChain.

Section Stakes.
Context `{Runtime, Addresses, Keccak}.
Context {RS : RuntimeSpec _} {AS : AddressesSpec _} {TS : TokenSpec _}.

(** The vault's token account holds the total, and is not the one rewards are paid from. *)
Record stake_backed (l : Ledger) (k : Pubkey) (q : StakePool.t) (t : TokenAccount) : Prop := {
  stake_vault_account : token_account l (StakePool.stake_vault q) = Some t;
  stake_vault_plain : plain t;
  stake_vault_owner : ta_owner t = k;
  stake_vault_amount : StakePool.total_staked q <= ta_amount t;
}.

Record stakes_held (l : Ledger) (k : Pubkey) (q : StakePool.t) : Prop := {
  held_apart : StakePool.stake_vault q <> StakePool.reward_vault q;
  held_vault : exists mint p,
    StakePool.stake_vault q = get_associated_token_address k mint p
    /\ (p = TOKEN_PROGRAM_ID -> exists t, stake_backed l k q t);
}.

(** The pool an instruction stakes with. *)
Definition staking_with (ix : Instruction) (k : Pubkey) : Prop :=
  match ix with
  | stake acc _ => Stake.stake_pool acc = k
  | unstake acc _ => Unstake.stake_pool acc = k
  | claim_rewards acc => ClaimRewards.stake_pool acc = k
  | _ => False
  end.

Lemma execute_pools ix w w' k q : execute ix w = Ok w' -> accounts w' !! k = Some (AStakePool q) ->
  (accounts w !! k = Some (AStakePool q) /\ k ∉ acting ix)
  \/ (exists acc, ix = init_stake_pool acc) \/ staking_with ix k.
Proof.
  intros HE Hk. destruct ix; try (by right; left; eauto 6);
    cbn [execute acting staking_with] in *;
    open_handler HE; refine_start; accounts_only; map_cases Hk;
    try (left; split; [done|set_solver]); try (by right; right); try congruence.
Qed.

(** A transfer out of one account leaves the others. *)
Lemma sent_elsewhere s p from m to d au z l l' a t : sent s p from m to d au z l l' ->
  token_account l a = Some t -> plain t -> a <> from ->
  exists t', token_account l' a = Some t' /\ grown t t'.
Proof.
  unfold sent. intros HS Ha Hp Hne. destruct (z =? 0); [subst; eauto using grown_refl|].
  eapply token_guarded; eauto. left. cbn. set_solver.
Qed.

Definition same_vaults (q q' : StakePool.t) : Prop :=
  StakePool.stake_vault q' = StakePool.stake_vault q
  /\ StakePool.reward_vault q' = StakePool.reward_vault q.

Lemma held_intro l l' k q q' : stakes_held l k q -> same_vaults q q' ->
  (forall t, stake_backed l k q t -> exists t', stake_backed l' k q' t') -> stakes_held l' k q'.
Proof.
  intros [Hne (mint & p & Hv & HI)] [Hq Hr] HB. split; [by rewrite Hq, Hr|].
  exists mint, p. split; [by rewrite Hq|]. intros Hp. destruct (HI Hp) as [t Ht]. eauto.
Qed.

Lemma backed_grown l l' k q t : stake_backed l k q t ->
  (exists t', token_account l' (StakePool.stake_vault q) = Some t' /\ grown t t') ->
  exists t', stake_backed l' k q t'.
Proof.
  intros [Hv Hp Ho Ha] (t' & Ht' & Hg). exists t'. split; [done|..].
  - by eapply grown_plain.
  - by rewrite (grown_owner _ _ Hg).
  - pose proof (grown_amount _ _ Hg). lia.
Qed.

Lemma backed_heeds A l l' k q t : stake_backed l k q t -> heeds A l l' -> k ∉ A ->
  exists t', stake_backed l' k q t'.
Proof.
  intros HB HH HA. eapply backed_grown; [done|]. destruct HB as [Hv Hp Ho _].
  apply HH; [done..|by rewrite Ho].
Qed.

(** Rewards are paid from the other vault. *)
Lemma backed_rewarded l l' k q t s p m to d au z : stake_backed l k q t ->
  StakePool.stake_vault q <> StakePool.reward_vault q ->
  sent s p (StakePool.reward_vault q) m to d au z l l' -> exists t', stake_backed l' k q t'.
Proof.
  intros HB Hne HS. eapply backed_grown; [done|]. destruct HB as [Hv Hp _ _].
  by eapply sent_elsewhere.
Qed.

Lemma backed_deposit l l' k q q' t s p from m d au z : stake_backed l k q t ->
  sent s p from m (StakePool.stake_vault q) d au z l l' -> 0 <= z ->
  from <> StakePool.stake_vault q -> same_vaults q q' ->
  StakePool.total_staked q' = StakePool.total_staked q + z -> exists t', stake_backed l' k q' t'.
Proof.
  intros [Hv Hp Ho Ha] HS Hz Hne [Hq _] Ht. eapply sent_received in HS; [|done..].
  eexists. split; [rewrite Hq; exact HS|done|done|]. cbn. lia.
Qed.

Lemma backed_withdrawal l l' k q q' t s p m to d z : stake_backed l k q t ->
  sent s p (StakePool.stake_vault q) m to d k z l l' -> 0 <= z ->
  StakePool.stake_vault q <> to -> same_vaults q q' ->
  StakePool.total_staked q' = StakePool.total_staked q - z -> exists t', stake_backed l' k q' t'.
Proof.
  intros [Hv Hp Ho Ha] HS Hz Hne [Hq _] Ht. rewrite <- Ho in HS.
  eapply sent_paid in HS; [|done..].
  eexists. split; [rewrite Hq; exact HS|done|done|]. cbn. lia.
Qed.

(** The account of a wallet is not the vault. *)
Lemma foreign_account w k q t a ta : stake_backed (ledger w) k q t -> load_token a w = Ok ta ->
  ta_owner ta <> k -> a <> StakePool.stake_vault q.
Proof.
  intros [Hv _ Ho _] HL Hne ->. apply load_token_Ok in HL. congruence.
Qed.

Lemma settle_vaults q s v q' r : settle q s v = Ok (q', r) -> same_vaults q q'.
Proof. unfold settle. intros HS. by chain_inv. Qed.

(** A new vault is empty, and not the reward vault, which is opened after it. *)
Lemma opened_held acc w w' k q : InitStakePool.handler acc w = Ok w' ->
  accounts w' !! k = Some (AStakePool q) ->
  accounts w !! k = Some (AStakePool q) \/ stakes_held (ledger w') k q.
Proof.
  intros HE Hk. unfold InitStakePool.handler in HE. token_inv (@nil Pubkey).
  map_cases Hk; [right|by left].
  match goal with
  | H1' : invoke ?l _ (CreateAssociated _ _ _ _ (InitStakePool.stake_vault acc)) = Some ?l1,
    H2' : invoke ?l1 _ _ = Some _ |- _ =>
      apply token_opened in H1' as [_ Hs]; apply token_opened in H2' as Hr; destruct Hr as [Hr _];
      pose proof (token_guarded _ _ _ _ H2' _ _ Hs) as HG
  end.
  split; cbn; [intros He; by rewrite He, Hr in Hs|].
  do 2 eexists. split; [symmetry; eassumption|]. intros Hp.
  destruct HG as (t' & Ht' & Hg); [done|by left; set_solver|].
  exists t'. split; cbn; [done|by eapply grown_plain|by rewrite (grown_owner _ _ Hg)|].
  by apply grown_amount in Hg.
Qed.

Lemma stake_held acc z w w' q q' : wallet w (Stake.staker acc) -> Stake.handler acc z w = Ok w' ->
  accounts w !! Stake.stake_pool acc = Some (AStakePool q) ->
  stakes_held (ledger w) (Stake.stake_pool acc) q ->
  accounts w' !! Stake.stake_pool acc = Some (AStakePool q') ->
  stakes_held (ledger w') (Stake.stake_pool acc) q'.
Proof.
  intros HW HE Hq HI Hk. unfold Stake.handler in HE. token_inv (@nil Pubkey).
  rewrite Hq in Hx0. injection Hx0 as <-.
  apply wallet_token_Ok in Hx11 as (_ & Ho & _).
  apply open_position_Ok in Hx8 as HA. destruct HA as [HA _].
  apply (open_position_heeds []) in Hx8 as (l1 & HH & ->). cbn [accounts ledger with_ledger] in *.
  apply settle_vaults in Hx20 as Hv. apply settle_total in Hx20.
  apply checked_Ok in Hx23 as [<- _].
  map_cases Hk.
  eapply held_intro; [exact HI|exact Hv|]. intros t1 HB.
  pose proof (foreign_account _ _ _ _ _ _ HB Hx1) as Hfrom. rewrite Ho in Hfrom.
  specialize (Hfrom (wallet_not_account _ _ _ _ HW Hq)).
  destruct (backed_heeds _ _ _ _ _ _ HB HH) as [t2 HB2]; [set_solver|].
  rewrite Hx15 in H3. destruct (backed_rewarded _ _ _ _ _ _ _ _ _ _ _ _ HB2 (held_apart _ _ _ HI) H3)
    as [t3 HB3].
  rewrite Hx13 in H2. eapply backed_deposit; [exact HB3|exact H2|lia|done|exact Hv|]. cbn. lia.
Qed.

Lemma unstake_held acc z w w' q q' : wallet w (Unstake.staker acc) -> 0 <= z ->
  Unstake.handler acc z w = Ok w' ->
  accounts w !! Unstake.stake_pool acc = Some (AStakePool q) ->
  stakes_held (ledger w) (Unstake.stake_pool acc) q ->
  accounts w' !! Unstake.stake_pool acc = Some (AStakePool q') ->
  stakes_held (ledger w') (Unstake.stake_pool acc) q'.
Proof.
  intros HW Hz HE Hq HI Hk. unfold Unstake.handler in HE. token_inv (@nil Pubkey).
  rewrite Hq in Hx0. injection Hx0 as <-.
  apply wallet_token_Ok in Hx12 as (_ & Ho & _).
  apply settle_vaults in Hx21 as Hv. apply settle_total in Hx21.
  apply checked_Ok in Hx24 as [<- _].
  map_cases Hk.
  eapply held_intro; [exact HI|exact Hv|]. intros t1 HB.
  pose proof (foreign_account _ _ _ _ _ _ HB Hx2) as Hto. rewrite Ho in Hto.
  specialize (Hto (wallet_not_account _ _ _ _ HW Hq)).
  rewrite Hx16 in H3. destruct (backed_rewarded _ _ _ _ _ _ _ _ _ _ _ _ HB (held_apart _ _ _ HI) H3)
    as [t2 HB2].
  rewrite Hx14 in H2. eapply backed_withdrawal; [exact HB2|exact H2|done|done|exact Hv|]. cbn. lia.
Qed.

Lemma claim_held acc w w' q q' : ClaimRewards.handler acc w = Ok w' ->
  accounts w !! ClaimRewards.stake_pool acc = Some (AStakePool q) ->
  stakes_held (ledger w) (ClaimRewards.stake_pool acc) q ->
  accounts w' !! ClaimRewards.stake_pool acc = Some (AStakePool q') ->
  stakes_held (ledger w') (ClaimRewards.stake_pool acc) q'.
Proof.
  intros HE Hq HI Hk. unfold ClaimRewards.handler in HE. token_inv (@nil Pubkey).
  rewrite Hq in Hx0. injection Hx0 as <-.
  apply settle_vaults in Hx13 as Hv. apply settle_total in Hx13.
  map_cases Hk.
  eapply held_intro; [exact HI|exact Hv|]. intros t1 HB.
  rewrite Hx10 in H2. destruct (backed_rewarded _ _ _ _ _ _ _ _ _ _ _ _ HB (held_apart _ _ _ HI) H2)
    as [t2 [Ht2 Hp2 Ho2 Ha2]].
  exists t2. destruct Hv as [Hv _]. split; cbn; [by rewrite Hv|done|done|lia].
Qed.

(** Whoever stakes loads the pool. *)
Lemma staking_pool ix w w' k : execute ix w = Ok w' -> staking_with ix k ->
  exists q, accounts w !! k = Some (AStakePool q).
Proof.
  destruct ix; try done; cbn; intros HE <-; apply result_bind_Ok in HE as (c & _ & HE);
    apply result_bind_Ok in HE as (q & HQ & _); exists q; by apply load_stake_pool.
Qed.

(** *** Every reachable world *)

Lemma held_heeds A l l' k q : stakes_held l k q -> heeds A l l' -> k ∉ A -> stakes_held l' k q.
Proof. intros HI HH HA. eapply held_intro; [exact HI|done|]. intros. by eapply backed_heeds. Qed.

Lemma reach_stakes_held h w : reach h w ->
  forall k q, accounts w !! k = Some (AStakePool q) -> stakes_held (ledger w) k q.
Proof.
  induction 1 as [w He|h ix w w' HR IH HC HE|h w w' HR IH (Ha & _ & _ & _ & Hl)]; intros k q Hk.
  - by rewrite He, lookup_empty in Hk.
  - destruct (execute_pools _ _ _ _ _ HE Hk) as [[Hold Hact]|[(acc & ->)|HS]].
    + eapply held_heeds; [by apply IH|by apply execute_heeds|]. rewrite not_elem_of_app.
      split; [|done]. by eapply not_signing.
    + destruct (opened_held _ _ _ _ _ HE Hk) as [Hold|]; [|done].
      eapply held_heeds; [by apply IH|by apply execute_heeds|]. rewrite not_elem_of_app.
      split; [by eapply not_signing|]. set_solver.
    + destruct (staking_pool _ _ _ _ HE HS) as [q0 Hq0]. destruct HC as [HT HW _].
      destruct ix; try done; cbn in HS, HE, HT, HW; subst k; try apply Forall_cons in HW as [HW _].
      * eauto using stake_held.
      * eapply unstake_held; eauto. by destruct HT.
      * eauto using claim_held.
  - rewrite Ha in Hk. eapply held_intro; [by apply IH|done|]. intros t HB.
    eapply backed_grown; [exact HB|]. destruct HB as [Hv Hp Ho _]. rewrite <- Ho in Hk. eauto.
Qed.

(** C8: In every reachable state the stake vault is the associated token account of the
    pool; when its tokens are the classic program's, it exists, belongs to the pool, and
    holds at least the pool's total, so what was staked is there to be taken out: rewards
    are only ever paid from the other vault. *)
Theorem stakes_are_backed h w k q :
  reach h w -> accounts w !! k = Some (AStakePool q) ->
  exists mint p, StakePool.stake_vault q = get_associated_token_address k mint p
    /\ (p = TOKEN_PROGRAM_ID ->
        exists t, token_account (ledger w) (StakePool.stake_vault q) = Some t /\ ta_owner t = k
          /\ StakePool.total_staked q <= ta_amount t).
Proof.
  intros HR Hk. destruct (held_vault _ _ _ (reach_stakes_held _ _ HR _ _ Hk)) as (mint & p & Hv & HI).
  exists mint, p. split; [done|]. intros Hp. destruct (HI Hp) as (t & [? ? ? ?]). eauto.
Qed.

(** *** Rewards that fall short *)

(** The position an instruction pays the rewards of before anything else. *)
Definition paying (ix : Instruction) (k a : Pubkey) : Prop :=
  match ix with
  | unstake acc _ => Unstake.stake_pool acc = k /\ Unstake.stake_account acc = a
  | claim_rewards acc => ClaimRewards.stake_pool acc = k /\ ClaimRewards.stake_account acc = a
  | _ => False
  end.

Lemma settle_nonneg q s v q' z : settle q s v = Ok (q', z) -> 0 <= z.
Proof.
  unfold settle, pending. intros HS. chain_inv. apply Z.mod_pos_bound. lia.
Qed.

(** A vault cannot pay more than it has. *)
Lemma overdrawn s p from m to d z l l' t : sent s p from m to d (ta_owner t) z l l' ->
  token_account l from = Some t -> plain t -> from <> to -> 0 <= ta_amount t -> ta_amount t < z -> False.
Proof.
  unfold sent. intros HS Ht Hp Hne Hz Hlt. destruct (Z.eqb_spec z 0); [lia|].
  eapply token_paid in HS as [Hle _]; [|eauto with lia..]; lia.
Qed.

Lemma short_payment w k a q q1 s s1 t t1 q' q2 z z1 ta mint staker prog sg p from m to d l :
  accounts w !! k = Some (AStakePool q) -> accounts w !! a = Some (AStake s) ->
  token_account (ledger w) (StakePool.reward_vault q) = Some t -> plain t -> ta_owner t = k ->
  0 <= ta_amount t -> settle q s (ta_amount t) = Ok (q', z) -> ta_amount t < z ->
  wallet w staker -> accounts w !! k = Some (AStakePool q1) -> accounts w !! a = Some (AStake s1) ->
  load_token to w = Ok ta -> wallet_token ta mint staker prog = Ok tt ->
  load_token from w = Ok t1 -> from = StakePool.reward_vault q1 ->
  settle q1 s1 (ta_amount t1) = Ok (q2, z1) -> sent sg p from m to d k z1 (ledger w) l -> False.
Proof.
  intros Hq Hs Ht Hp Ho Hpos HS Hlt HW Hq1 Hs1 Hto Hta Hfrom -> HS1 HM.
  rewrite Hq in Hq1. injection Hq1 as <-. rewrite Hs in Hs1. injection Hs1 as <-.
  apply load_token_Ok in Hfrom, Hto. rewrite Ht in Hfrom. injection Hfrom as <-.
  rewrite HS in HS1. injection HS1 as <- <-. rewrite <- Ho in HM.
  apply wallet_token_Ok in Hta as (_ & Hao & _).
  eapply overdrawn; [exact HM|exact Ht|done| |done|done].
  intros He. rewrite <- He, Ht in Hto. injection Hto as ->.
  apply (wallet_not_account _ _ _ _ HW Hq). congruence.
Qed.

(** C9: When a position's pending reward exceeds what the reward vault has, every unstake
    and claim of that position fails: the reward is paid first, so the stake itself cannot
    be taken out. The witness reaches such a state: debts are rounded down, so with 100
    staked and 99 paid in, two stakes of 1 each collect the next deposit of 2 and the first
    staker is owed 100 of the 99 left. *)
Theorem short_rewards_lock_stakes w k a q s t q' z ix :
  accounts w !! k = Some (AStakePool q) -> accounts w !! a = Some (AStake s) ->
  token_account (ledger w) (StakePool.reward_vault q) = Some t -> plain t -> ta_owner t = k ->
  0 <= ta_amount t ->
  settle q s (ta_amount t) = Ok (q', z) -> ta_amount t < z ->
  callable ix w -> paying ix k a -> exists e, execute ix w = Err e.
Proof.
  intros Hq Hs Ht Hp Ho Hpos HS Hlt [_ HW _] HP.
  destruct (execute ix w) as [w'|e] eqn:HE; [exfalso|by eexists].
  destruct ix; try done; destruct HP as [<- <-]; cbn [execute signers] in *;
    apply Forall_cons in HW as [HW _]; open_handler HE; token_inv (@nil Pubkey).
  - eapply (short_payment w _ _ q x0 s x1 t x5 _ _ _ _ x3); eauto.
  - eapply (short_payment w _ _ q x0 s x1 t x3 _ _ _ _ x2); eauto.
Qed.
End Stakes.

(** ** Runs *)

Definition pool_at (a : Pubkey) (w : World) : StakePool.t :=
  match accounts w !! a with Some (AStakePool q) => q | _ => StakePool.mk [] [] [] 0 0 0 0 end.
Definition stake_at (a : Pubkey) (w : World) : StakeAccount.t :=
  match accounts w !! a with Some (AStake s) => s | _ => StakeAccount.mk [] 0 0 0 end.

Definition has_pool (a : Pubkey) (w : World) : bool :=
  match accounts w !! a with Some (AStakePool _) => true | _ => false end.
Definition has_stake (a : Pubkey) (w : World) : bool :=
  match accounts w !! a with Some (AStake _) => true | _ => false end.

Lemma pool_at_lookup a w : has_pool a w = true -> accounts w !! a = Some (AStakePool (pool_at a w)).
Proof. unfold has_pool, pool_at. by destruct (accounts w !! a) as [[]|]. Qed.

Lemma stake_at_lookup a w : has_stake a w = true -> accounts w !! a = Some (AStake (stake_at a w)).
Proof. unfold has_stake, stake_at. by destruct (accounts w !! a) as [[]|]. Qed.

Lemma staking_pool_at : has_pool POOL staking_world = true.
Proof. by vm_compute. Qed.

Lemma stakes_are_backed_witness :
  exists mint p, StakePool.stake_vault (pool_at POOL staking_world)
      = get_associated_token_address POOL mint p
    /\ (p = TOKEN_PROGRAM_ID ->
        exists t, token_account (ledger staking_world)
                    (StakePool.stake_vault (pool_at POOL staking_world)) = Some t
          /\ ta_owner t = POOL
          /\ StakePool.total_staked (pool_at POOL staking_world) <= ta_amount t).
Proof.
  exact (stakes_are_backed staking_paths staking_world POOL _ staking_reached
    (pool_at_lookup _ _ staking_pool_at)).
Defined.

Lemma short_pool_at : has_pool POOL short_world && has_stake (position ALICE) short_world = true.
Proof. by vm_compute. Qed.

Definition short_vault : TokenAccount := token USDC POOL 99.

Lemma short_vault_holds : token_account (ledger short_world)
  (StakePool.reward_vault (pool_at POOL short_world)) = Some short_vault.
Proof. by vm_compute. Qed.

(** Alice is owed 100. *)
Lemma short_owes : settle (pool_at POOL short_world) (stake_at (position ALICE) short_world) 99
  = Ok (with_watermark (pool_at POOL short_world) 99, 100).
Proof. by vm_compute. Qed.

Lemma short_callable : callable (unstake_of ALICE 100) short_world.
Proof.
  split; [by compute| |by constructor]. apply Forall_cons. split; [|done].
  apply outsider_wallet; by vm_compute.
Qed.

(** Alice cannot take out what she staked. *)
Lemma short_rewards_lock_stakes_witness :
  reach short_paths short_world /\ exists e, execute (unstake_of ALICE 100) short_world = Err e.
Proof.
  split; [exact short_reached|].
  refine (short_rewards_lock_stakes short_world POOL (position ALICE) _ _ short_vault _ 100 _
    (pool_at_lookup _ _ (proj1 (proj1 (andb_true_iff _ _) short_pool_at)))
    (stake_at_lookup _ _ (proj2 (proj1 (andb_true_iff _ _) short_pool_at)))
    short_vault_holds _ _ _ short_owes _ short_callable _); by compute.
Defined.
