(* ===== verification/TermLaws.v ===== *)
(** * How long registrations last

    The terms of names on the chain of [Registry]: a name is registered for at least a
    year, an instruction that leaves a registration in place never shortens it, and the
    program takes an automatic renewal from the owner's delegation at most once per year
    and window, however many keepers run or sweep at the same time. *)
From stdpp Require Import gmap.
From S2P Require Import Prelude JsString Errors HashName OnChain Runtime ChainState ProgramUtils.
From S2P Require Import Registration Ownership Market Auctions Administration StakingPool.
From S2P Require Import Registry ChainFacts RegistrySpec RegistryLaws RegistryInvariants.
From S2P Require Import SmallRuntime SmallChain.

(** The least time between two automatic renewals of a name. *)
Definition RENEWAL_PERIOD : Z := SECONDS_PER_YEAR - RENEWAL_WINDOW_SECONDS.

(** Times at least [d] apart, from [lo] on. *)
Fixpoint spaced (d lo : Z) (ts : list Z) : Prop :=
  match ts with [] => True | t :: ts => lo <= t /\ spaced d (t + d) ts end.

Lemma spaced_length d ts : forall lo hi, 0 < d -> spaced d lo ts -> Forall (fun t => t <= hi) ts ->
  lo <= hi -> Z.of_nat (length ts) <= 1 + (hi - lo) / d.
Proof.
  induction ts as [|t ts IH]; intros lo hi Hd HS HF Hl; cbn [length spaced] in *.
  - pose proof (Z.div_pos (hi - lo) d). lia.
  - destruct HS as [Ht HS]. apply Forall_cons in HF as [Hh HF]. rewrite Nat2Z.inj_succ.
    destruct (Z.le_gt_cases (t + d) hi) as [Hle|Hgt].
    + specialize (IH _ _ Hd HS HF Hle).
      assert ((hi - (t + d)) / d = (hi - t) / d - 1) as HE
        by (replace (hi - (t + d)) with (hi - t + (-1) * d) by lia; by rewrite Z.div_add by lia).
      pose proof (Z.div_le_mono (hi - t) (hi - lo) d Hd). lia.
    + destruct ts as [|t' ts]; [pose proof (Z.div_pos (hi - lo) d); cbn; lia|].
      destruct HS as [Ht' _]. apply Forall_cons in HF as [Hh' _]. lia.
Qed.

Section Terms.
Context `{Runtime, Addresses, Keccak}.
Context {RS : RuntimeSpec _} {AS : AddressesSpec _}.

(** The clock does not move while an instruction runs. *)
Ltac clock :=
  repeat first
    [ match goal with
      | HP : pay_lamports _ _ _ _ = Ok _ |- _ => apply pay_lamports_Ok in HP as (? & _ & ->)
      | HP : move_lamports _ _ _ _ = Ok _ |- _ => apply move_lamports_Ok in HP as (? & ->)
      | HP : SettleAuction.pay_out _ _ _ _ _ _ = Ok _ |- _ => apply pay_out_Ok in HP as ((? & _ & ->) & _)
      | HP : Stake.open_position _ _ = Ok _ |- _ => unfold Stake.open_position in HP
      | HP : snd <$> _ = Ok _ |- _ => apply result_fmap_Ok in HP as ([? ?] & HP & <-); cbn [snd]
      | HP : match ?o with Some _ => _ | None => _ end = Ok _ |- _ => destruct o eqn:?
      end
    | progress refine_start ].

Lemma execute_now ix w w' : execute ix w = Ok w' -> now w' = now w.
Proof.
  destruct ix; cbn [execute]; intros HE; open_handler HE; refine_start; try done; by clock.
Qed.

(** ** The term of a record *)

(** Every allowed term is a year or more. *)
Lemma terms_are_years h w years : reach h w -> in_terms w years -> 1 <= years.
Proof.
  intros HR (ca & c & Hc & Hy). pose proof (sound_years _ _ (reach_configs _ _ _ _ HR Hc)). lia.
Qed.

(** A top-level record after an instruction: of the registration that was there, which was
    not shortened, or of one that starts now and runs for a year at least. *)
Definition term_kept (w : World) (a : Pubkey) (n' : NameRecord.t) : Prop :=
  (exists n, accounts w !! a = Some (AName n) /\ NameRecord.parent n = None
     /\ NameRecord.registered_at n = NameRecord.registered_at n'
     /\ NameRecord.expires_at n <= NameRecord.expires_at n')
  \/ (NameRecord.registered_at n' = now w /\ now w + SECONDS_PER_YEAR <= NameRecord.expires_at n').

Lemma extend_expiry n years t n' : extend n years t = Ok n' ->
  NameRecord.expires_at n' = Z.max (NameRecord.expires_at n) t + years * SECONDS_PER_YEAR
  /\ NameRecord.parent n' = NameRecord.parent n
  /\ NameRecord.registered_at n' = NameRecord.registered_at n.
Proof.
  unfold extend, expiry_after. intros HE. chain_inv. cbn. split; [|done]. by eapply expiry_parts.
Qed.

Lemma managed_term n n' : managed_edit n n' ->
  NameRecord.expires_at n' = NameRecord.expires_at n /\ NameRecord.parent n' = NameRecord.parent n
  /\ NameRecord.registered_at n' = NameRecord.registered_at n.
Proof.
  intros HE. destruct HE as [v|v _|k v n' _ _ HU|k n' HD]; [done..| |].
  - by apply upsert_identity in HU as [rs ->].
  - by apply delete_identity in HD as [rs ->].
Qed.

Lemma transition_terms S w l' c m' a n' : transition S w l' c m' ->
  (forall years, in_terms w years -> 1 <= years) ->
  m' !! a = Some (AName n') -> NameRecord.parent n' = None -> term_kept w a n'.
Proof.
  intros HT HY Ha HP.
  assert (forall years, in_terms w years -> SECONDS_PER_YEAR <= years * SECONDS_PER_YEAR) as HS
    by (intros years Hy; apply HY in Hy; unfold SECONDS_PER_YEAR; lia).
  destruct HT; map_cases Ha; unfold term_kept; try (left; eexists; split; [eassumption|]; done).
  - right. cbn. split; [done|]. apply Z.add_le_mono_l. auto.
  - left. match goal with HE : extend _ _ _ = Ok _, HT : in_terms _ _ |- _ =>
      apply extend_expiry in HE as (-> & HP' & ->); apply HS in HT end.
    eexists. split; [eassumption|]. split; [by rewrite <- HP'|]. unfold SECONDS_PER_YEAR in *. lia.
  - left. match goal with HE : managed_edit _ _ |- _ => apply managed_term in HE as (-> & HP' & ->) end.
    eexists. split; [eassumption|]. by rewrite <- HP'.
  - left. match goal with HE : owner_edit _ _ |- _ => destruct HE end; eexists; (split; [eassumption|]); done.
  - right. cbn. split; [done|]. apply Z.add_le_mono_l. auto.
Qed.

Lemma execute_terms h ix w w' a n' : reach h w -> callable ix w -> execute ix w = Ok w' ->
  accounts w' !! a = Some (AName n') -> NameRecord.parent n' = None -> term_kept w a n'.
Proof. intros HR HC HE. eapply transition_terms; [by eapply execute_refines|eauto using terms_are_years]. Qed.

(** In every reachable state a top-level name was registered in the past, for a year or more
    that only grew since. *)
Theorem registrations_last_a_year h w a n :
  reach h w -> accounts w !! a = Some (AName n) -> NameRecord.parent n = None ->
  NameRecord.registered_at n <= now w
  /\ NameRecord.registered_at n + SECONDS_PER_YEAR <= NameRecord.expires_at n.
Proof.
  intros HR. revert a n. induction HR as [w He|h ix w w' HR IH HC HE|h w w' _ IH (Ha' & _ & Ht & _)];
    intros a n Ha HP.
  - by rewrite He, lookup_empty in Ha.
  - rewrite (execute_now _ _ _ HE).
    destruct (execute_terms h ix w w' a n HR HC HE Ha HP) as [(n0 & Hn0 & HP0 & <- & Hle)|[-> ?]]; [|lia].
    destruct (IH _ _ Hn0 HP0). lia.
  - rewrite Ha' in Ha. destruct (IH _ _ Ha HP). lia.
Qed.

(** ** Automatic renewals *)

(** When the record at [a] of a top-level name is renewed by [auto_renew]. *)
Definition renewal_times (a : Pubkey) (ix : Instruction) (w : World) : list Z :=
  match ix, accounts w !! a with
  | auto_renew acc _ _ _, Some (AName n) =>
      if bool_decide (AutoRenew.name_record acc = a) && bool_decide (NameRecord.parent n = None)
      then [now w] else []
  | _, _ => []
  end.

(** A stretch of the chain's history, with the times at which [a] was renewed by keepers. *)
Inductive history (a : Pubkey) : World -> list Z -> World -> Prop :=
| history_end w : history a w [] w
| history_execute ix w w1 ts w' : callable ix w -> execute ix w = Ok w1 -> history a w1 ts w' ->
    history a w (renewal_times a ix w ++ ts) w'
| history_elsewhere w w1 ts w' : elsewhere w w1 -> history a w1 ts w' -> history a w ts w'.

Lemma auto_renew_window acc name tld years w w' n : AutoRenew.handler acc name tld years w = Ok w' ->
  accounts w !! AutoRenew.name_record acc = Some (AName n) ->
  NameRecord.expires_at n - RENEWAL_WINDOW_SECONDS <= now w
  /\ exists n', accounts w' !! AutoRenew.name_record acc = Some (AName n')
     /\ now w + SECONDS_PER_YEAR <= NameRecord.expires_at n'.
Proof.
  unfold AutoRenew.handler. intros HX Hn. refine_start. simplify_eq.
  repeat match goal with HC : checked_i64 _ = Ok _ |- _ => apply checked_Ok in HC as [<- ?] end.
  split; [lia|]. match goal with HE : extend _ _ _ = Ok _ |- _ => apply extend_expiry in HE as (HE & _) end.
  eexists. rewrite lookup_insert_eq. split; [done|]. unfold SECONDS_PER_YEAR in *. lia.
Qed.

(** The next automatic renewal of [a] is not before [lo]. *)
Definition not_before (a : Pubkey) (lo : Z) (w : World) : Prop :=
  lo <= now w
  \/ lo <= now w + RENEWAL_PERIOD
     /\ forall n, accounts w !! a = Some (AName n) -> NameRecord.parent n = None ->
          lo <= NameRecord.expires_at n - RENEWAL_WINDOW_SECONDS.

Lemma not_before_execute h ix w w' a lo : reach h w -> callable ix w -> execute ix w = Ok w' ->
  not_before a lo w -> not_before a lo w'.
Proof.
  intros HR HC HE. unfold not_before. rewrite (execute_now _ _ _ HE). intros [Hl|[Hl HN]]; [by left|right].
  split; [done|]. intros n' Ha HP.
  destruct (execute_terms h ix w w' a n' HR HC HE Ha HP) as [(n & Hn & HPn & _ & Hle)|[_ Hle]].
  - specialize (HN n Hn HPn). lia.
  - unfold RENEWAL_PERIOD in Hl. lia.
Qed.

Lemma renewed_not_before ix w w' a lo t : execute ix w = Ok w' -> renewal_times a ix w = [t] ->
  not_before a lo w -> lo <= t /\ t = now w /\ not_before a (t + RENEWAL_PERIOD) w'.
Proof.
  intros HE HT HN. pose proof (execute_now _ _ _ HE) as Hnow. destruct ix; try done. cbn [renewal_times] in HT.
  destruct (accounts w !! a) as [x|] eqn:Ha; [|done]. destruct x as [n| | | | | | |]; try done.
  destruct (bool_decide (AutoRenew.name_record acc = a)) eqn:Eq; [|done].
  destruct (bool_decide (NameRecord.parent n = None)) eqn:HP; [|done]. bool_prop. subst a.
  injection HT as <-. cbn [execute] in HE.
  destruct (auto_renew_window _ _ _ _ _ _ _ HE Ha) as (Hw & n' & Hn' & Hle). split_and!; [|done|].
  - destruct HN as [|[_ HN]]; [done|]. specialize (HN _ Ha HP). lia.
  - right. rewrite Hnow. split; [lia|]. intros n1 Hn1 _. rewrite Hn' in Hn1. injection Hn1 as <-.
    unfold RENEWAL_PERIOD. lia.
Qed.

Lemma renewal_times_cases a ix w : renewal_times a ix w = [] \/ renewal_times a ix w = [now w].
Proof.
  destruct ix; try by left. cbn. destruct (accounts w !! a) as [[]|]; try by left.
  destruct (_ && _); [by right|by left].
Qed.

Lemma history_spaced a w ts w' : history a w ts w' -> forall h lo, reach h w -> not_before a lo w ->
  spaced RENEWAL_PERIOD lo ts /\ Forall (fun t => t <= now w') ts /\ now w <= now w'.
Proof.
  induction 1 as [w|ix w w1 ts w' HC HE _ IH|w w1 ts w' HE _ IH]; intros h lo HR HN.
  - split_and!; [done|constructor|lia].
  - pose proof (execute_now _ _ _ HE) as Hnow.
    pose proof (reach_execute _ _ _ _ HR HC HE) as HR1.
    destruct (renewal_times_cases a ix w) as [Ht|Ht]; rewrite Ht; cbn [app].
    + rewrite <- Hnow. eapply IH; [exact HR1|exact (not_before_execute _ _ _ _ _ _ HR HC HE HN)].
    + destruct (renewed_not_before _ _ _ _ _ _ HE Ht HN) as (Hlo & _ & HN1).
      destruct (IH _ _ HR1 HN1) as (HS & HF & Hle). split_and!; [by split|constructor; [lia|done]|lia].
  - destruct HE as (Ha & Hev & Ht & Hrest). destruct (IH h lo) as (HS & HF & Hle).
    + eapply reach_elsewhere; [exact HR|done].
    + unfold not_before in *. rewrite Ha. destruct HN as [|[? ?]]; [left; lia|right; split; [lia|done]].
    + split_and!; [done..|lia].
Qed.

(** C5: However many keepers run or sweep at once and whatever instructions the wallets send
    in between, along any history of any reachable chain the automatic renewals of a
    top-level name succeed at times at least a year less the thirty-day window apart, so
    their number is at most one plus the elapsed time over that period: its owner's
    delegation is debited once per term, not once per keeper. *)
Theorem auto_renewals_are_spaced h w ts w' a :
  reach h w -> history a w ts w' ->
  spaced RENEWAL_PERIOD (now w) ts
  /\ Z.of_nat (length ts) <= 1 + (now w' - now w) / RENEWAL_PERIOD.
Proof.
  intros HR HH. destruct (history_spaced a w ts w' HH h (now w) HR) as (HS & HF & Hle); [left; lia|].
  split; [done|]. by apply spaced_length.
Qed.
End Terms.

(** ** A name renewed by keepers *)

Fixpoint play_times (a : Pubkey) (ms : list Move) (w : World) : list Z :=
  match ms with
  | [] => []
  | Send ix :: ms => renewal_times a ix w ++ play_times a ms (move (Send ix) w)
  | m :: ms => play_times a ms (move m w)
  end.

Lemma pass_elsewhere s w : 0 <= s -> elsewhere w (move (Pass s) w).
Proof. intros Hs. repeat split; cbn; [lia|intros; lia|]. eauto using grown_refl. Qed.

Lemma play_history a ms : forall h w, Forall well_typed ms -> playable ms w = true ->
  history a w (play_times a ms w) (snd (play ms h w)).
Proof.
  induction ms as [|m ms IH]; intros h w HT HP; [constructor|].
  apply Forall_cons in HT as [Hm HT]. cbn [playable] in HP. apply andb_true_iff in HP as [HC HP].
  destruct m as [ix|s|b z]; cbn [play_times play can_move well_typed] in *.
  - destruct (ready_callable _ _ Hm HC) as [Hca He]. eapply history_execute; [done|exact He|by apply IH].
  - eapply history_elsewhere; [|by apply IH]. apply pass_elsewhere. lia.
  - eapply history_elsewhere; [|by apply IH]. apply gift_elsewhere. lia.
Qed.

(** Alice delegates her payment account to the registry and registers her name. *)
Definition delegated_genesis : World := with_ledger
  (small_tokens (<[usdc_of ALICE := MkTokenAccount USDC ALICE 100000 small_token_program (Some CONFIG)]>
     (tokens (ledger genesis))) (ledger genesis)) genesis.
Definition registration_moves : list Move := [Send open_registry; Send (register_alex ALICE)].
Definition registered_world : World := snd (play registration_moves [] delegated_genesis).

(** Bob and Carol run keepers: each renews her name when its window opens, and a second
    attempt of the other on the same day is refused. *)
Definition keeper_renews (keeper : Pubkey) : Instruction :=
  auto_renew (AutoRenew.mk keeper CONFIG ALEX (usdc_of ALICE) TREASURY STAKING BURNED USDC
    small_token_program) (js "alex") (js "sol") 1.
Definition keeper_moves : list Move :=
  [Pass (340 * 86400); Send (keeper_renews BOB); Pass (366 * 86400); Send (keeper_renews CAROL);
   Pass 86400].

Lemma registered_reached : reach (fst (play registration_moves [] delegated_genesis)) registered_world.
Proof.
  apply play_reach; [by constructor| |by vm_compute].
  repeat constructor; by compute.
Qed.

Lemma keepers_refused :
  playable keeper_moves registered_world = true
  /\ match execute (keeper_renews CAROL) (snd (play (take 2 keeper_moves) [] registered_world)) with
     | Err e => e = Custom AutoRenewTooEarly
     | Ok _ => False
     end.
Proof. split; vm_compute; reflexivity. Qed.

Lemma auto_renewals_are_spaced_witness :
  play_times ALEX keeper_moves registered_world = [29377000; 60999400]
  /\ spaced RENEWAL_PERIOD (now registered_world) [29377000; 60999400].
Proof.
  assert (play_times ALEX keeper_moves registered_world = [29377000; 60999400]) as HT by by vm_compute.
  split; [exact HT|]. rewrite <- HT. refine (proj1 (auto_renewals_are_spaced
    (fst (play registration_moves [] delegated_genesis)) registered_world _
    (snd (play keeper_moves [] registered_world)) ALEX registered_reached _)).
  apply play_history; [repeat constructor; by compute|by vm_compute].
Defined.
