(* ===== verification/KeeperChain.v ===== *)
(** * The keeper's renewals on the program's chain

    The auto_renew instruction the keeper sends for a name it found due and covered
    (services/keeper/src), run by the program against the chain the keeper read. *)
From stdpp Require Import gmap.
From S2P Require Import Prelude JsString Errors OnChain Kit Pdas Accounts Instruction.
From S2P Require Import NameInstructions ProgramClient NameBuilders Builders Normalize HashName.
From S2P Require Import Client Renewal Keeper Tx TxLaws Transactions KeeperProcess.
From S2P Require Import Runtime ChainState ProgramUtils Registration Registry ChainFacts.
From S2P Require Import RegistrySpec RegistryLaws RegistryInvariants RegistryClient.
From S2P Require Import SmallKit SmallRuntime SmallChain.
Import Registration.

(** ** The program's side *)

Section Program.
Context `{Runtime, Addresses, Keccak}.
Context {RS : RuntimeSpec _} {AS : AddressesSpec _}.

(** A token account of the classic program, of the mint [m]; amounts are unsigned. *)
Definition holds (l : Ledger) (m a : Pubkey) : Prop :=
  exists t, token_account l a = Some t /\ ta_mint t = m /\ ta_program t = TOKEN_PROGRAM_ID
    /\ 0 <= ta_amount t.

(** [allowance l a] is what the delegate [au] may take from [a]: the token program lets it
    send as much, which leaves the rest and the accounts. *)
Definition delegated (allowance : Ledger -> Pubkey -> Z) (au : Pubkey) : Prop :=
  forall l from to m mt z, holds l m from -> holds l m to -> mint_account l m = Some mt ->
    0 < z <= allowance l from ->
    exists l', invoke l (Some au) (TransferChecked TOKEN_PROGRAM_ID from m to au z (decimals mt)) = Some l'
      /\ allowance l from - z <= allowance l' from
      /\ (forall a, holds l m a -> holds l' m a) /\ mint_account l' m = Some mt.

Variable allowance : Ledger -> Pubkey -> Z.

Lemma delegated_send au w from to m mt z : delegated allowance au ->
  holds (ledger w) m from -> holds (ledger w) m to -> mint_account (ledger w) m = Some mt ->
  0 <= z <= allowance (ledger w) from ->
  exists l', transfer_tokens_signed TOKEN_PROGRAM_ID from to m (decimals mt) au (Some au) z w
      = Ok (with_ledger l' w)
    /\ allowance (ledger w) from - z <= allowance l' from
    /\ (forall a, holds (ledger w) m a -> holds l' m a) /\ mint_account l' m = Some mt.
Proof.
  intros HD Hf Ht Hm Hz. unfold transfer_tokens_signed. destruct (Z.eqb_spec z 0) as [->|].
  - exists (ledger w). rewrite with_ledger_id. split; [done|]. split; [lia|auto].
  - destruct (HD _ _ _ _ _ z Hf Ht Hm) as (l' & HI & Hrest); [lia|]. exists l'.
    unfold run. by rewrite HI.
Qed.

(** The fee goes out in three transfers, its parts summing to it. *)
Lemma fee_is_charged au f mt amount c w : delegated allowance au -> config_ok c -> is_u64 amount ->
  FeeAccounts.token_program f = TOKEN_PROGRAM_ID ->
  Forall (holds (ledger w) (FeeAccounts.payment_mint f))
    [FeeAccounts.payer_token_account f; FeeAccounts.staking_vault f; FeeAccounts.burn_vault f;
     FeeAccounts.treasury_token_account f] ->
  mint_account (ledger w) (FeeAccounts.payment_mint f) = Some mt ->
  amount <= allowance (ledger w) (FeeAccounts.payer_token_account f) ->
  exists l, distribute_fee_signed f (decimals mt) au (Some au) amount c w = Ok (with_ledger l w).
Proof.
  intros HD Hc Ha Hp HF Hm Hz. pose proof (fee_split_conserves c amount Hc Ha) as HS.
  unfold distribute_fee_signed. destruct (fee_split c amount) as [[[tr st] rf] bu].
  destruct HS as (Hsum & _ & _ & _ & Htr & Hst & Hrf & Hbu & _).
  rewrite !Forall_cons in HF. destruct HF as (Hpay & Hsta & Hbur & Htre & _).
  unfold checked_u64. rewrite (proj2 (checked_Ok 0 U64_MAX (tr + rf) (tr + rf)))
    by (unfold is_u64 in *; lia). cbn [custom mbind result_bind]. rewrite Hp.
  edestruct (delegated_send au w) as (l1 & -> & Hl1 & Hh1 & Hm1); [done|exact Hpay|exact Hsta|exact Hm|lia|].
  cbn [mbind result_bind].
  edestruct (delegated_send au (with_ledger l1 w)) as (l2 & -> & Hl2 & Hh2 & Hm2);
    [done|by apply Hh1|by apply Hh1, Hbur|exact Hm1|cbn; lia|]. cbn [mbind result_bind] in *.
  edestruct (delegated_send au (with_ledger l2 (with_ledger l1 w))) as (l3 & -> & _);
    [done|by apply Hh2, Hh1|by apply Hh2, Hh1, Htre|exact Hm2|cbn in *; lia|]. by exists l3.
Qed.

(** ** auto_renew *)

(** What the chain holds for the renewal of [nr]: the configuration's fee accounts and the
    owner's account are of the payment mint, and the owner's lets [amount] be taken. *)
Record renewable (acc : AutoRenew.t) (c : Config) (nr : NameRecord.t) (amount : Z) (w : World)
    : Prop := {
  renewable_config : accounts w !! AutoRenew.config acc = Some (AConfig c);
  renewable_record : accounts w !! AutoRenew.name_record acc = Some (AName nr);
  renewable_fees : AutoRenew.treasury_token_account acc = OnChain.treasury_token_account c
    /\ AutoRenew.staking_vault acc = OnChain.staking_vault c
    /\ AutoRenew.burn_vault acc = OnChain.burn_vault c
    /\ AutoRenew.payment_mint acc = OnChain.payment_mint c
    /\ AutoRenew.token_program acc = TOKEN_PROGRAM_ID;
  renewable_owner : exists t, token_account (ledger w) (AutoRenew.owner_token_account acc) = Some t
    /\ ta_owner t = NameRecord.owner nr;
  renewable_tokens : Forall (holds (ledger w) (AutoRenew.payment_mint acc))
    [AutoRenew.owner_token_account acc; AutoRenew.staking_vault acc; AutoRenew.burn_vault acc;
     AutoRenew.treasury_token_account acc];
  renewable_mint : exists mt, mint_account (ledger w) (AutoRenew.payment_mint acc) = Some mt;
  renewable_amount : amount <= allowance (ledger w) (AutoRenew.owner_token_account acc);
}.

Lemma loaded_fees acc w m : AutoRenew.token_program acc = TOKEN_PROGRAM_ID ->
  Forall (holds (ledger w) (AutoRenew.payment_mint acc))
    [AutoRenew.owner_token_account acc; AutoRenew.staking_vault acc; AutoRenew.burn_vault acc;
     AutoRenew.treasury_token_account acc] ->
  mint_account (ledger w) (AutoRenew.payment_mint acc) = Some m ->
  exists t tr st bu, FeeAccounts.load (AutoRenew.fees acc) w = Ok (FeeAccounts.mk_loaded t tr st bu None m)
    /\ token_account (ledger w) (AutoRenew.owner_token_account acc) = Some t
    /\ ta_mint t = AutoRenew.payment_mint acc
    /\ Forall (fun t => ta_program t = TOKEN_PROGRAM_ID) [t; tr; st; bu].
Proof.
  intros Hp HF Hm. rewrite !Forall_cons in HF.
  destruct HF as ((t & Ht & Htm & Htp & _) & (st & Hst & _ & Hsp & _) & (bu & Hbu & _ & Hbp & _)
    & (tr & Htr & _ & Hrp & _) & _).
  exists t, tr, st, bu. split; [|by repeat constructor].
  unfold FeeAccounts.load, load_token, load_mint, token_interface. cbn.
  rewrite Ht, Htr, Hst, Hbu, Hm, Hp. cbn. by rewrite bool_decide_eq_true_2.
Qed.

Lemma extend_renews nr years t r :
  Renewal.extend (MkRenewable (NameRecord.name_hash nr) (NameRecord.expires_at nr)) years t = Ok r ->
  extend nr years t = Ok (NameRecord.set_expires_at (expires_at r) nr).
Proof.
  unfold Renewal.extend, extend, expiry_after. cbn. intros HE. chain_inv.
  rewrite Hx. cbn. by rewrite Hx0.
Qed.

(** The handler does what [Renewal.auto_renew] decides. *)
Lemma auto_renew_runs h acc c nr amount w name tld r :
  reach h w -> delegated allowance (AutoRenew.config acc) -> renewable acc c nr amount w ->
  Renewal.auto_renew (fun a => if a <=? amount then Ok tt else Err MathOverflow) c
    (MkRenewable (NameRecord.name_hash nr) (NameRecord.expires_at nr)) name tld 1 (now w) = Ok r ->
  exists l, AutoRenew.handler acc name tld 1 w
    = Ok (put (AutoRenew.name_record acc) (AName (NameRecord.set_expires_at (expires_at r) nr))
            (with_ledger l w)).
Proof.
  intros HR HD [Hc Hn (Htr & Hst & Hbu & Hpm & Htp) (t & Ht & Hto) HF [mt Hm] Hamt] HA.
  destruct (reach_configs _ _ _ _ HR Hc) as [Hok Hadr _ _ _ _].
  destruct (loaded_fees _ _ _ Htp HF Hm) as (t' & tr & st & bu & HL & Ht' & Htm & HP).
  rewrite Ht in Ht'. injection Ht' as <-. rewrite !Forall_cons in HP.
  destruct HP as (P1 & P2 & P3 & P4 & _).
  assert (FeeAccounts.check_destinations (AutoRenew.fees acc)
    (FeeAccounts.mk_loaded t tr st bu None mt) c = Ok tt) as HCD.
  { unfold FeeAccounts.check_destinations, token_program_is. cbn.
    by rewrite Htr, Hst, Hbu, Hpm, P2, P3, P4, Htp, !bool_decide_eq_true_2. }
  unfold Renewal.auto_renew in HA. chain_inv.
  repeat match goal with HX : require _ _ = Ok ?u |- _ => destruct u; apply require_Ok in HX end.
  assert (is_u64 x4) by (unfold checked_u64 in Hx4; by apply checked_Ok in Hx4 as [<- ?]).
  case_match; [|done]. bool_prop.
  destruct (fee_is_charged (AutoRenew.config acc) (AutoRenew.fees acc) mt x4 c w)
    as [l HL']; try done; [cbn; lia|].
  exists l. unfold AutoRenew.handler, load. rewrite Hc, Hn. cbn [of_option pick_config pick_name mbind result_bind].
  rewrite HL. cbn [mbind result_bind]. cbn in Hx1, Hx5.
  unfold seeds_bump, sign, token_mint_is, token_program_is, check_name, term_price, ensure, anchor.
  rewrite (find_creates _ _ _ _ Hadr).
  cbn [FeeAccounts.payer_account FeeAccounts.mint]. rewrite HCD, Htm, P1, Hto, Htp, Hx, Hx0, Hx1, Hx2, Hx4, Hx5.
  rewrite !bool_decide_eq_true_2 by done. cbn [mbind result_bind custom require Z.eqb Pos.eqb].
  rewrite (proj2 (Z.leb_le x5 (now w))) by done. cbn [mbind result_bind custom require]. rewrite HL'. cbn [mbind result_bind].
  change (now (with_ledger l w)) with (now w). by rewrite (extend_renews _ _ _ _ HA).
Qed.
End Program.

(** ** The keeper's side *)

Section Keeper.
Context `{KS : KeccakSpec} `{HU : Unicode} `{HUS : !UnicodeSpec HU} `{HKit : KitSpec} `{PS : ProgramClientSpec}.
Context `{TC : TokenClient} `{TS : !TokenClientSpec TC} `{TD : TokenDecoder}.
Context {W : Type} `{HH : Host W}.
Context `{Runtime, Addresses}.
Context {RS : RuntimeSpec _} {AS : AddressesSpec _}.
Variable addr : Pubkey -> Address.
Variable allowance : Ledger -> Pubkey -> Z.

Definition config_address : Pubkey := fst (find_program_address [CONFIG_SEED] ID).

(** The client's copy of the configuration: its prices and the fee accounts. *)
Record mirrors_config (c : Config) (cfg : ConfigAccount.Config) : Prop := {
  mirrors_prices : config_mirrors (ConfigAccount.args cfg) c;
  mirrors_treasury : ConfigAccount.treasuryTokenAccount (ConfigAccount.args cfg)
    = addr (OnChain.treasury_token_account c);
  mirrors_staking : ConfigAccount.stakingVault (ConfigAccount.args cfg) = addr (OnChain.staking_vault c);
  mirrors_burn : ConfigAccount.burnVault (ConfigAccount.args cfg) = addr (OnChain.burn_vault c);
  mirrors_mint : ConfigAccount.paymentMint (ConfigAccount.args cfg) = addr (OnChain.payment_mint c);
}.

(** The instruction is auto_renew of these accounts and arguments. *)
Record calls (ix : Kit.Instruction) (acc : AutoRenew.t) (label tld : jsstring) (years : Z) : Prop := {
  calls_accounts : map Kit.address (Kit.accounts ix) = map addr
    [AutoRenew.keeper acc; AutoRenew.config acc; AutoRenew.name_record acc;
     AutoRenew.owner_token_account acc; AutoRenew.treasury_token_account acc;
     AutoRenew.staking_vault acc; AutoRenew.burn_vault acc; AutoRenew.payment_mint acc;
     AutoRenew.token_program acc];
  calls_data : NameInstructions.AutoRenew.getAutoRenewInstructionDataEncoder
    (NameInstructions.AutoRenew.MkAutoRenewInstructionDataArgs label tld years) = Ok (Kit.data ix);
}.

(** What is built for addresses that the program's accounts have. *)
Lemma renewal_calls keeper years cfg c label tld u nr v ata acc ix :
  build (builder Builder.AutoRenewAsync)
    (renewal_input keeper years cfg label tld (u :: nr) (v :: ata)) None = Ok ix ->
  mirrors_config c cfg -> (forall k, addr k <> []) ->
  signerAddress keeper = addr (AutoRenew.keeper acc) ->
  (exists b, findConfigPda None = Ok (addr (AutoRenew.config acc), b)) ->
  u :: nr = addr (AutoRenew.name_record acc) ->
  v :: ata = addr (AutoRenew.owner_token_account acc) ->
  AutoRenew.treasury_token_account acc = OnChain.treasury_token_account c ->
  AutoRenew.staking_vault acc = OnChain.staking_vault c ->
  AutoRenew.burn_vault acc = OnChain.burn_vault c ->
  AutoRenew.payment_mint acc = OnChain.payment_mint c ->
  addr (AutoRenew.token_program acc) = js "TokenkegQfeZyiNwAJbNbGKPFXCWuBvf9Ss623VQ5DA" ->
  calls ix acc label tld years.
Proof.
  intros HB [_ M1 M2 M3 M4] Hne Hk [b Hc] Hn Ho Htr Hst Hbu Hpm Htp.
  pose proof HB as HD. apply built in HB as (addrs & dat & Ha & HE & _ & ->).
  split; [|exact HE].
  assert (forall k, given (Some (addr k)) = Some (addr k)) as HG
    by (intros k; cbn; specialize (Hne k); by destruct (addr k)).
  unfold_addresses Ha. unfold renewal_input in Ha. unfold or_default at 1 2 in Ha.
  cbn [AutoRenewBuilder.Async.config AutoRenewBuilder.Async.tokenProgram
    AutoRenewBuilder.Async.keeper AutoRenewBuilder.Async.nameRecord
    AutoRenewBuilder.Async.ownerTokenAccount AutoRenewBuilder.Async.treasuryTokenAccount
    AutoRenewBuilder.Async.stakingVault AutoRenewBuilder.Async.burnVault
    AutoRenewBuilder.Async.paymentMint] in Ha. change (given None) with (@None Address) in Ha.
  rewrite Hc in Ha. cbn [mbind result_bind fst] in Ha. apply Ok_inj in Ha as <-.
  rewrite Hn, Ho, M1, M2, M3, M4, Hk, !HG. cbn [map]. by rewrite Htr, Hst, Hbu, Hpm, Htp.
Qed.

(** What the keeper read is the chain of the world [w]: the record of the top-level name
    [label].[tld], with its expiry, and the configuration. *)
Record read_from (w : World) (name label tld : jsstring) (fetch : Fetcher)
    (rec : NameRecordAccount.NameRecord) (cfg : ConfigAccount.Config) (n : NameRecord.t) (c : Config)
    : Prop := {
  read_resolved : Client.resolve fetch name = Some (Ok (Some rec));
  read_record : accounts w !! path_address (Top (codePoints label) tld) = Some (AName n);
  read_mirrors : mirrors addr n rec;
  read_expiry : NameRecordAccount.expiresAt (NameRecordAccount.args rec) = NameRecord.expires_at n;
  read_config : accounts w !! config_address = Some (AConfig c);
  read_prices : mirrors_config c cfg;
}.

(** The addresses of the client for those of the program. *)
Record addressed (q : Path) : Prop := {
  addressed_any : forall k, addr k <> [];
  addressed_name : derives addr q;
  addressed_config : exists b, findConfigPda None = Ok (addr config_address, b);
  addressed_tokens : addr TOKEN_PROGRAM_ID = js "TokenkegQfeZyiNwAJbNbGKPFXCWuBvf9Ss623VQ5DA";
}.

(** The token accounts of the fee, and the owner's, from which [amount] may be taken. *)
Record funded (l : Ledger) (c : Config) (owner k : Pubkey) (amount : Z) : Prop := {
  funded_owner : exists t, token_account l k = Some t /\ ta_owner t = owner;
  funded_accounts : Forall (holds l (OnChain.payment_mint c))
    [k; OnChain.staking_vault c; OnChain.burn_vault c; OnChain.treasury_token_account c];
  funded_mint : exists mt, mint_account l (OnChain.payment_mint c) = Some mt;
  funded_amount : amount <= allowance l k;
}.

(** A name's record has its hash. *)
Lemma record_hash h w name label tld n : reach h w ->
  no_collision (Top (codePoints label) tld :: h) -> parseName name None = Ok (label, tld) ->
  accounts w !! path_address (Top (codePoints label) tld) = Some (AName n) ->
  NameRecord.name_hash n = computeNameHash label tld
  /\ path_hash (Top (codePoints label) tld) = computeNameHash label tld.
Proof.
  intros HR HC HP Ha. destruct (reach_names _ _ HR) as [_ HN]. destruct (HN _ _ Ha) as [p Hn].
  destruct (parseName_sound _ _ _ _ HP) as (Hl & _ & Ht).
  assert (path_hash (Top (codePoints label) tld) = computeNameHash label tld) as Hh
    by (cbn; symmetry; apply computeNameHash_program; [done|by apply allowed_tld_validate]).
  split; [|done]. rewrite (named_hash _ _ _ _ Hn).
  rewrite (HC p (Top (codePoints label) tld)); [done|right; by apply (named_in _ _ _ _ Hn)|by left|].
  by rewrite (named_address _ _ _ _ Hn).
Qed.

(** C4: A renewal the keeper attempts goes through: on any chain the program can reach, the
    instruction it builds for a name found due and covered is auto_renew of the right
    accounts, and executing it succeeds, extends that record by one year from the later of
    its expiry and now, and changes no other account of the program; given that the token
    program honours the delegation, the fee accounts are of the payment mint, the registry
    allows one-year terms, the keeper's clock is not ahead of the chain's, the new expiry
    fits an i64, the label has no U+2329 or U+232A, and addresses do not collide. *)
Theorem renewals_run_on_chain h w fetch keeper cfg c name label tld rec n s del ix (u u' : W) kk ka :
  reach h w -> no_collision (Top (codePoints label) tld :: h) -> delegated allowance config_address ->
  (forall u, exists u', chain u = (u', Ok fetch)) -> read_from w name label tld fetch rec cfg n c ->
  addressed (Top (codePoints label) tld) -> signerAddress keeper = addr kk -> min_years c = 1 ->
  parseName name None = Ok (label, tld) -> no_brackets label ->
  dueForRenewal (NameRecordAccount.expiresAt (NameRecordAccount.args rec)) s
    KeeperProcess.RENEWAL_WINDOW_SECONDS = true -> s <= now w ->
  covers (Some del) (addr config_address) (priceForLabel (ConfigAccount.args cfg) label * 1) = true ->
  renewInstruction keeper 1 cfg label tld u = (u', Ok ix) ->
  paymentAccount (NameRecordAccount.owner (NameRecordAccount.args rec))
    (ConfigAccount.paymentMint (ConfigAccount.args cfg)) = Ok (addr ka) ->
  funded (ledger w) c (NameRecord.owner n) ka (amount del) ->
  0 <= NameRecord.expires_at n ->
  Z.max (NameRecord.expires_at n) (now w) + SECONDS_PER_YEAR <= I64_MAX ->
  exists acc l, calls ix acc label tld 1
    /\ execute (auto_renew acc (codePoints label) tld 1) w
       = Ok (put (path_address (Top (codePoints label) tld))
               (AName (NameRecord.set_expires_at
                  (Z.max (NameRecord.expires_at n) (now w) + SECONDS_PER_YEAR) n))
               (with_ledger l w)).
Proof.
  intros HR HC HD HS [Hres Ha HM Hexp Hc HP] [Hne Hder Hcfg Htok] Hk Hy HPn Hb Hdue Hs Hcov HI Hata
    [Hto HF Hmt Hamt] Hpos Hmax.
  destruct (renewal_parts _ _ _ _ _ _ _ _ _ _ _ HS Hres HPn Hb HI)
    as (v & nr & bump & v' & ata & HFn & HA & HB).
  rewrite Hata in HA. injection HA as HA.
  destruct (record_hash _ _ _ _ _ _ HR HC HPn Ha) as [Hh Hq].
  assert (v :: nr = addr (path_address (Top (codePoints label) tld))) as Hnr.
  { pose proof (client_addresses_use_program_seeds name None) as [HNf _].
    assert (nameParts name None = Ok (label, tld, computeNameHash label tld)) as HNP
      by (unfold nameParts; by rewrite HPn).
    rewrite (nameParts_nameInfo _ _ _ _ _ HNP) in HNf. destruct HNf as [HNf _].
    unfold derives in Hder. rewrite Hq in Hder. cbn [hash] in HNf.
    pose proof (eq_trans (eq_sym HFn) (eq_trans HNf Hder)) as He. by injection He. }
  destruct (reach_configs _ _ _ _ HR Hc) as [Hok _ Hyears _ _ _].
  set (acc := AutoRenew.mk kk config_address (path_address (Top (codePoints label) tld)) ka
    (OnChain.treasury_token_account c) (OnChain.staking_vault c) (OnChain.burn_vault c)
    (OnChain.payment_mint c) TOKEN_PROGRAM_ID).
  unfold covers in Hcov. bool_prop.
  destruct (auto_renew_runs allowance h acc c n (amount del) w (codePoints label) tld
    (MkRenewable (NameRecord.name_hash n) (Z.max (NameRecord.expires_at n) (now w) + SECONDS_PER_YEAR)))
    as [l HE]; [done|done|by split|..].
  - rewrite <- Hexp in Hpos, Hmax |- *.
    apply (attempted_renewals_are_accepted
      (MkSettings [] s KeeperProcess.RENEWAL_WINDOW_SECONDS 0 1) (ConfigAccount.args cfg) c _
      (MkRenewable (NameRecord.name_hash n) (NameRecordAccount.expiresAt (NameRecordAccount.args rec)))
      name label tld rec del (priceForLabel (ConfigAccount.args cfg) label * 1) (now w));
      try done; [by destruct HP|lia|].
    intros a Hle. by rewrite (proj2 (Z.leb_le _ _) Hle).
  - exists acc, l. split; [|exact HE]. eapply renewal_calls; eauto.
Qed.
End Keeper.

(** ** A renewal *)

#[local] Existing Instance SmallUnicode.

(** Alice's account of the payment mint, where the client finds it. *)
Definition alice_payment : Pubkey :=
  small_address [take 16 (base58_encode ALICE); take 16 (base58_encode USDC)].

Definition renewal_genesis : World := with_ledger
  (small_tokens (<[alice_payment := MkTokenAccount USDC ALICE 50000 small_token_program (Some CONFIG)]>
     (tokens (ledger genesis))) (ledger genesis)) genesis.

(** Alice registers her name for a year; twenty days are left. *)
Definition renewal_moves : list Move :=
  [Send open_registry; Send (register_alex ALICE); Pass (345 * 86400)].
Definition renewal_paths : list Path := fst (play renewal_moves [] renewal_genesis).
Definition renewal_world : World := snd (play renewal_moves [] renewal_genesis).

Lemma renewal_reached : reach renewal_paths renewal_world.
Proof.
  apply play_reach; [by constructor| |by vm_compute].
  repeat constructor; by compute.
Qed.

Definition small_addr_of (k : Pubkey) : Address :=
  if bool_decide (k = small_token_program) then js "TokenkegQfeZyiNwAJbNbGKPFXCWuBvf9Ss623VQ5DA"
  else match base58_encode k with [] => js "1" | a => a end.

Definition small_allowance (l : SmallLedger) (a : Pubkey) : Z :=
  match tokens l !! a with
  | Some t => if bool_decide (ta_delegate t = Some CONFIG) then ta_amount t else 0
  | None => 0
  end.

(** A delegate's transfer succeeds, and writes the two accounts. *)
Lemma small_sends l s p from m to au z d f t :
  tokens l !! from = Some f -> tokens l !! to = Some t -> ta_delegate f = Some au ->
  ta_mint f = m -> ta_mint t = m -> 0 < z <= ta_amount f -> 0 <= ta_amount t ->
  exists l', small_invoke l s (TransferChecked p from m to au z d) = Some l' /\ mints l' = mints l.
Proof.
  intros Hf Ht Hd Hfm Htm Hz Hpos. cbn [small_invoke]. rewrite Hf, Ht. cbn [mbind option_bind].
  rewrite (bool_decide_eq_true_2 (ta_delegate f = _)), !(bool_decide_eq_true_2 (ta_mint _ = _)) by done.
  rewrite (proj2 (Z.leb_le 0 z)), orb_true_r by lia. cbn [andb].
  unfold small_credit, credit. rewrite Hf. cbn [mbind option_bind].
  rewrite (proj2 (Z.leb_le 0 (ta_amount f + - z))) by lia. cbn [mbind option_bind tokens small_tokens].
  rewrite lookup_insert.
  case_decide; [|rewrite Ht]; cbn [mbind option_bind with_amount ta_amount];
    (rewrite (proj2 (Z.leb_le _ _)) by lia); by eexists.
Qed.

Lemma small_holds (l l' : SmallLedger) from to f t1 z m a :
  tokens l !! from = Some f -> 0 <= z <= ta_amount f ->
  <[from := with_amount f (ta_amount f - z)]> (tokens l) !! to = Some t1 ->
  tokens l' = <[to := with_amount t1 (ta_amount t1 + z)]>
                (<[from := with_amount f (ta_amount f - z)]> (tokens l)) ->
  holds (H := SmallRuntime) l m a -> holds (H := SmallRuntime) l' m a.
Proof.
  intros Hf Hz Ht1 Hl' (t & Ht & Hm & Hp & Ha). cbn in Ht. unfold holds. cbn. rewrite Hl'.
  rewrite lookup_insert. case_decide; [subst|].
  - eexists. split; [done|]. cbn. rewrite lookup_insert in Ht1.
    case_decide; [subst|]; simplify_eq; cbn; repeat split; try done; lia.
  - rewrite lookup_insert. case_decide; [subst|]; simplify_eq;
      (eexists; split; [done|]); cbn; repeat split; try done; lia.
Qed.

Lemma small_delegated : delegated (H := SmallRuntime) small_allowance CONFIG.
Proof.
  intros l from to m mt z (f & Hf & Hfm & Hfp & Hfa) (t & Ht & Htm & Htp & Hta) Hmt Hz. cbn in Hf, Ht, Hmt.
  unfold small_allowance in Hz. rewrite Hf in Hz. case_bool_decide as Hd; [|lia].
  destruct (small_sends l (Some CONFIG) small_token_program from m to CONFIG z (decimals mt) f t)
    as (l' & HI & Hmm); try done.
  exists l'. split; [exact HI|].
  apply small_checked in HI as (f' & t1 & Hf' & _ & Hz' & Ht1 & Hl').
  rewrite Hf in Hf'. injection Hf' as <-. split; [|split].
  - unfold small_allowance. rewrite Hf, bool_decide_eq_true_2 by done. rewrite Hl', lookup_insert.
    case_decide; [subst|].
    + rewrite lookup_insert_eq in Ht1. injection Ht1 as <-. cbn.
      rewrite bool_decide_eq_true_2 by done. lia.
    + rewrite lookup_insert_eq. cbn. rewrite bool_decide_eq_true_2 by done. lia.
  - intros a Ha. exact (small_holds _ _ _ _ _ _ _ _ _ Hf Hz' Ht1 Hl' Ha).
  - cbn. by rewrite Hmm.
Qed.

(** *** What the node serves *)

Definition renewal_name : NameRecord.t := name_at ALEX renewal_world.
Definition renewal_config : Config :=
  match accounts renewal_world !! CONFIG with Some (AConfig c) => c | _ => sample_config end.

Definition renewal_copy : NameRecordAccount.NameRecord :=
  NameRecordAccount.MkNameRecord NameRecordAccount.NAME_RECORD_DISCRIMINATOR (copy_of renewal_name).
Definition renewal_fetch (a : Address) : result JsError (option bytes) :=
  Ok (if bool_decide (a = base58_encode ALEX)
      then Some (encoded NameRecordAccount.getNameRecordEncoder (copy_of renewal_name)) else None).

Definition renewal_client : ConfigAccount.Config :=
  let c := renewal_config in
  ConfigAccount.MkConfig ConfigAccount.CONFIG_DISCRIMINATOR
    (ConfigAccount.MkConfigArgs (base58_encode (admin c)) (small_addr_of (OnChain.payment_mint c))
       (small_addr_of (OnChain.treasury_token_account c)) (price_1 c) (price_2 c) (price_3 c)
       (price_4 c) (price_5plus c) (price_numeric c) (grace_period_seconds c) (min_years c)
       (max_years c) (base58_encode (sol_treasury c)) (marketplace_fee_bps c)
       (small_addr_of (OnChain.staking_vault c)) (small_addr_of (OnChain.burn_vault c))
       (staking_fee_bps c) (referral_fee_bps c) (burn_fee_bps c)
       (base58_encode (OnChain.solans_mint c)) (solans_rate c) (solans_discount_bps c)
       (OnChain.bump c)).

Definition renewal_keeper : TransactionSigner := MkSigner (small_addr_of CAROL).
Definition renewal_delegation : Delegation := MkDelegation (Some (small_addr_of CONFIG)) 50000.

#[local] Instance RenewalHost : Host unit := {
  Blockhash := unit; SignedTransaction := TransactionMessage unit;
  chain := mret renewal_fetch; getLatestBlockhash := mret tt;
  signTransactionMessageWithSigners := fun m => mret m;
  simulateTransaction := fun _ => mret (MkSimulation None [] None None);
  sendAndConfirm := fun _ => mret tt; getSignatureFromTransaction := fun _ => js "sig";
  console_log := fun _ => mret tt; console_error := fun _ => mret tt;
}.

Definition renewal_instruction : Kit.Instruction :=
  match (renewInstruction renewal_keeper 1 renewal_client (js "alex") (js "sol") tt).2 with
  | Ok ix => ix
  | Err _ => {| programAddress := []; Kit.accounts := []; Kit.data := [] |}
  end.

Abbreviation ALEX_PATH := (Top (js "alex") (js "sol")).

Lemma renewal_there : has_name (path_address ALEX_PATH) renewal_world = true.
Proof. by vm_compute. Qed.

Lemma renewal_config_there : accounts renewal_world !! config_address = Some (AConfig renewal_config).
Proof. by vm_compute. Qed.

Lemma renewal_read : read_from small_addr_of renewal_world (js "Alex.sol") (js "alex") (js "sol")
  renewal_fetch renewal_copy renewal_client (name_at (path_address ALEX_PATH) renewal_world) renewal_config.
Proof.
  split.
  - by vm_compute.
  - exact (name_at_lookup _ _ renewal_there).
  - split; by vm_compute.
  - by vm_compute.
  - exact renewal_config_there.
  - split; [split|..]; by vm_compute.
Qed.

Lemma small_addr_of_any k : small_addr_of k <> [].
Proof. unfold small_addr_of. case_bool_decide; [done|]. by destruct (base58_encode k). Qed.

Lemma renewal_addressed : addressed small_addr_of ALEX_PATH.
Proof.
  split.
  - exact small_addr_of_any.
  - by vm_compute.
  - exists 255. by vm_compute.
  - by vm_compute.
Qed.

Definition small_holding (l : SmallLedger) (m a : Pubkey) : bool :=
  match tokens l !! a with
  | Some t => bool_decide (ta_mint t = m) && bool_decide (ta_program t = small_token_program)
      && (0 <=? ta_amount t)
  | None => false
  end.

Lemma small_all_hold (l : SmallLedger) m ks : forallb (small_holding l m) ks = true ->
  Forall (holds (H := SmallRuntime) l m) ks.
Proof.
  intros HF. apply List.Forall_forall. intros a Ha. apply (proj1 (forallb_forall _ _) HF) in Ha.
  unfold small_holding in Ha. unfold holds. cbn. destruct (tokens l !! a) as [t|]; [|done].
  bool_prop. eauto.
Qed.

Lemma renewal_funded : funded small_allowance (ledger renewal_world) renewal_config
  (NameRecord.owner (name_at (path_address ALEX_PATH) renewal_world)) alice_payment 50000.
Proof.
  split.
  - exists (MkTokenAccount USDC ALICE 50000 small_token_program (Some CONFIG)). split; by vm_compute.
  - apply small_all_hold. by vm_compute.
  - exists (MkMint 6 small_token_program). by vm_compute.
  - by vm_compute.
Qed.

Lemma renewal_paths_eq : renewal_paths = [ALEX_PATH].
Proof. by vm_compute. Qed.

Lemma renewal_no_collision : no_collision (ALEX_PATH :: renewal_paths).
Proof.
  rewrite renewal_paths_eq. intros p q Hp Hq _.
  assert (forall p, p ∈ [ALEX_PATH; ALEX_PATH] -> p = ALEX_PATH) as HA by set_solver.
  by rewrite (HA _ Hp), (HA _ Hq).
Qed.

Lemma renewal_built : renewInstruction renewal_keeper 1 renewal_client (js "alex") (js "sol") tt
  = (tt, Ok renewal_instruction).
Proof. by vm_compute. Qed.

Lemma renewal_payment : paymentAccount
  (NameRecordAccount.owner (NameRecordAccount.args renewal_copy))
  (ConfigAccount.paymentMint (ConfigAccount.args renewal_client)) = Ok (small_addr_of alice_payment).
Proof. by vm_compute. Qed.

Lemma renewal_covered : covers (Some renewal_delegation) (small_addr_of config_address)
  (priceForLabel (ConfigAccount.args renewal_client) (js "alex") * 1) = true.
Proof. by vm_compute. Qed.

Lemma renewal_due : dueForRenewal
  (NameRecordAccount.expiresAt (NameRecordAccount.args renewal_copy)) (now renewal_world)
  KeeperProcess.RENEWAL_WINDOW_SECONDS = true.
Proof. by vm_compute. Qed.

Lemma renewal_in_range :
  0 <= NameRecord.expires_at (name_at (path_address ALEX_PATH) renewal_world)
  /\ Z.max (NameRecord.expires_at (name_at (path_address ALEX_PATH) renewal_world)) (now renewal_world)
     + SECONDS_PER_YEAR <= I64_MAX
  /\ min_years renewal_config = 1.
Proof. by vm_compute. Qed.

Lemma renewal_parsed : parseName (js "Alex.sol") None = Ok (js "alex", js "sol")
  /\ no_brackets (js "alex").
Proof. split; by vm_compute. Qed.

Lemma renewal_chain : forall u : unit, exists u', chain u = (u', Ok renewal_fetch).
Proof. intros u. by exists u. Qed.

Lemma renewals_run_on_chain_witness :
  exists acc l, calls small_addr_of renewal_instruction acc (js "alex") (js "sol") 1
    /\ execute (auto_renew acc (codePoints (js "alex")) (js "sol") 1) renewal_world
       = Ok (put (path_address ALEX_PATH)
               (AName (NameRecord.set_expires_at
                  (Z.max (NameRecord.expires_at (name_at (path_address ALEX_PATH) renewal_world))
                     (now renewal_world) + SECONDS_PER_YEAR)
                  (name_at (path_address ALEX_PATH) renewal_world)))
               (with_ledger l renewal_world)).
Proof.
  destruct renewal_parsed as [HP HB]. destruct renewal_in_range as (H0 & H1 & Hy).
  exact (renewals_run_on_chain small_addr_of small_allowance renewal_paths renewal_world
    renewal_fetch renewal_keeper renewal_client renewal_config (js "Alex.sol") (js "alex") (js "sol")
    renewal_copy (name_at (path_address ALEX_PATH) renewal_world) (now renewal_world)
    renewal_delegation renewal_instruction tt tt CAROL alice_payment
    renewal_reached renewal_no_collision small_delegated renewal_chain renewal_read
    renewal_addressed eq_refl Hy HP HB renewal_due (Z.le_refl _) renewal_covered renewal_built
    renewal_payment renewal_funded H0 H1).
Defined.
