(* ===== verification/InstructionData.v ===== *)
(** * Discriminators and data codecs of the instructions

    [getXDiscriminatorBytes] and [getXInstructionDataCodec] of each file of
    src/clients/ts/src/generated/instructions.  The theorems: the bytes of a kind identify
    it, alone and before anything, and no other; its codec reads back what it writes. *)
From S2P Require Import Prelude JsString Kit SmallKit Pdas Instruction NameInstructions.
From S2P Require Import MarketInstructions TokenInstructions Program AccountFetch.


Definition getRegisterNameDiscriminatorBytes `{Kit} : result JsError bytes :=
  fixEncoderSize getBytesEncoder 8 RegisterName.REGISTER_NAME_DISCRIMINATOR.
Definition getRegisterNameInstructionDataCodec `{Kit, AccountKit} : Encoder RegisterName.RegisterNameInstructionDataArgs * Decoder RegisterName.RegisterNameInstructionData :=
  combineCodec RegisterName.getRegisterNameInstructionDataEncoder RegisterName.getRegisterNameInstructionDataDecoder.

Definition getRenewNameDiscriminatorBytes `{Kit} : result JsError bytes :=
  fixEncoderSize getBytesEncoder 8 RenewName.RENEW_NAME_DISCRIMINATOR.
Definition getRenewNameInstructionDataCodec `{Kit, AccountKit} : Encoder RenewName.RenewNameInstructionDataArgs * Decoder RenewName.RenewNameInstructionData :=
  combineCodec RenewName.getRenewNameInstructionDataEncoder RenewName.getRenewNameInstructionDataDecoder.

Definition getAutoRenewDiscriminatorBytes `{Kit} : result JsError bytes :=
  fixEncoderSize getBytesEncoder 8 AutoRenew.AUTO_RENEW_DISCRIMINATOR.
Definition getAutoRenewInstructionDataCodec `{Kit, AccountKit} : Encoder AutoRenew.AutoRenewInstructionDataArgs * Decoder AutoRenew.AutoRenewInstructionData :=
  combineCodec AutoRenew.getAutoRenewInstructionDataEncoder AutoRenew.getAutoRenewInstructionDataDecoder.

Definition getClaimExpiredDiscriminatorBytes `{Kit} : result JsError bytes :=
  fixEncoderSize getBytesEncoder 8 ClaimExpired.CLAIM_EXPIRED_DISCRIMINATOR.
Definition getClaimExpiredInstructionDataCodec `{Kit, AccountKit} : Encoder ClaimExpired.ClaimExpiredInstructionDataArgs * Decoder ClaimExpired.ClaimExpiredInstructionData :=
  combineCodec ClaimExpired.getClaimExpiredInstructionDataEncoder ClaimExpired.getClaimExpiredInstructionDataDecoder.

Definition getTransferNameDiscriminatorBytes `{Kit} : result JsError bytes :=
  fixEncoderSize getBytesEncoder 8 TransferName.TRANSFER_NAME_DISCRIMINATOR.
Definition getTransferNameInstructionDataCodec `{Kit, AccountKit} : Encoder TransferName.TransferNameInstructionDataArgs * Decoder TransferName.TransferNameInstructionData :=
  combineCodec TransferName.getTransferNameInstructionDataEncoder TransferName.getTransferNameInstructionDataDecoder.

Definition getLockTransferDiscriminatorBytes `{Kit} : result JsError bytes :=
  fixEncoderSize getBytesEncoder 8 LockTransfer.LOCK_TRANSFER_DISCRIMINATOR.
Definition getLockTransferInstructionDataCodec `{Kit, AccountKit} : Encoder LockTransfer.LockTransferInstructionDataArgs * Decoder LockTransfer.LockTransferInstructionData :=
  combineCodec LockTransfer.getLockTransferInstructionDataEncoder LockTransfer.getLockTransferInstructionDataDecoder.

Definition getBurnNameDiscriminatorBytes `{Kit} : result JsError bytes :=
  fixEncoderSize getBytesEncoder 8 BurnName.BURN_NAME_DISCRIMINATOR.
Definition getBurnNameInstructionDataCodec `{Kit, AccountKit} : Encoder BurnName.BurnNameInstructionDataArgs * Decoder BurnName.BurnNameInstructionData :=
  combineCodec BurnName.getBurnNameInstructionDataEncoder BurnName.getBurnNameInstructionDataDecoder.

Definition getUpdateRecordDiscriminatorBytes `{Kit} : result JsError bytes :=
  fixEncoderSize getBytesEncoder 8 UpdateRecord.UPDATE_RECORD_DISCRIMINATOR.
Definition getUpdateRecordInstructionDataCodec `{Kit, AccountKit} : Encoder UpdateRecord.UpdateRecordInstructionDataArgs * Decoder UpdateRecord.UpdateRecordInstructionData :=
  combineCodec UpdateRecord.getUpdateRecordInstructionDataEncoder UpdateRecord.getUpdateRecordInstructionDataDecoder.

Definition getSetControllerDiscriminatorBytes `{Kit} : result JsError bytes :=
  fixEncoderSize getBytesEncoder 8 SetController.SET_CONTROLLER_DISCRIMINATOR.
Definition getSetControllerInstructionDataCodec `{Kit, AccountKit} : Encoder SetController.SetControllerInstructionDataArgs * Decoder SetController.SetControllerInstructionData :=
  combineCodec SetController.getSetControllerInstructionDataEncoder SetController.getSetControllerInstructionDataDecoder.

Definition getSetResolverDiscriminatorBytes `{Kit} : result JsError bytes :=
  fixEncoderSize getBytesEncoder 8 SetResolver.SET_RESOLVER_DISCRIMINATOR.
Definition getSetResolverInstructionDataCodec `{Kit, AccountKit} : Encoder SetResolver.SetResolverInstructionDataArgs * Decoder SetResolver.SetResolverInstructionData :=
  combineCodec SetResolver.getSetResolverInstructionDataEncoder SetResolver.getSetResolverInstructionDataDecoder.

Definition getSetHostingDiscriminatorBytes `{Kit} : result JsError bytes :=
  fixEncoderSize getBytesEncoder 8 SetHosting.SET_HOSTING_DISCRIMINATOR.
Definition getSetHostingInstructionDataCodec `{Kit, AccountKit} : Encoder SetHosting.SetHostingInstructionDataArgs * Decoder SetHosting.SetHostingInstructionData :=
  combineCodec SetHosting.getSetHostingInstructionDataEncoder SetHosting.getSetHostingInstructionDataDecoder.

Definition getSetReverseDiscriminatorBytes `{Kit} : result JsError bytes :=
  fixEncoderSize getBytesEncoder 8 SetReverse.SET_REVERSE_DISCRIMINATOR.
Definition getSetReverseInstructionDataCodec `{Kit, AccountKit} : Encoder SetReverse.SetReverseInstructionDataArgs * Decoder SetReverse.SetReverseInstructionData :=
  combineCodec SetReverse.getSetReverseInstructionDataEncoder SetReverse.getSetReverseInstructionDataDecoder.

Definition getResolveDiscriminatorBytes `{Kit} : result JsError bytes :=
  fixEncoderSize getBytesEncoder 8 Resolve.RESOLVE_DISCRIMINATOR.
Definition getResolveInstructionDataCodec `{Kit, AccountKit} : Encoder Resolve.ResolveInstructionDataArgs * Decoder Resolve.ResolveInstructionData :=
  combineCodec Resolve.getResolveInstructionDataEncoder Resolve.getResolveInstructionDataDecoder.

Definition getWrapSubdomainDiscriminatorBytes `{Kit} : result JsError bytes :=
  fixEncoderSize getBytesEncoder 8 WrapSubdomain.WRAP_SUBDOMAIN_DISCRIMINATOR.
Definition getWrapSubdomainInstructionDataCodec `{Kit, AccountKit} : Encoder WrapSubdomain.WrapSubdomainInstructionDataArgs * Decoder WrapSubdomain.WrapSubdomainInstructionData :=
  combineCodec WrapSubdomain.getWrapSubdomainInstructionDataEncoder WrapSubdomain.getWrapSubdomainInstructionDataDecoder.

Definition getRevokeSubdomainDiscriminatorBytes `{Kit} : result JsError bytes :=
  fixEncoderSize getBytesEncoder 8 RevokeSubdomain.REVOKE_SUBDOMAIN_DISCRIMINATOR.
Definition getRevokeSubdomainInstructionDataCodec `{Kit, AccountKit} : Encoder RevokeSubdomain.RevokeSubdomainInstructionDataArgs * Decoder RevokeSubdomain.RevokeSubdomainInstructionData :=
  combineCodec RevokeSubdomain.getRevokeSubdomainInstructionDataEncoder RevokeSubdomain.getRevokeSubdomainInstructionDataDecoder.

Definition getTokenizeNameDiscriminatorBytes `{Kit} : result JsError bytes :=
  fixEncoderSize getBytesEncoder 8 TokenizeName.TOKENIZE_NAME_DISCRIMINATOR.
Definition getTokenizeNameInstructionDataCodec `{Kit, AccountKit} : Encoder TokenizeName.TokenizeNameInstructionDataArgs * Decoder TokenizeName.TokenizeNameInstructionData :=
  combineCodec TokenizeName.getTokenizeNameInstructionDataEncoder TokenizeName.getTokenizeNameInstructionDataDecoder.

Definition getRedeemNameDiscriminatorBytes `{Kit} : result JsError bytes :=
  fixEncoderSize getBytesEncoder 8 RedeemName.REDEEM_NAME_DISCRIMINATOR.
Definition getRedeemNameInstructionDataCodec `{Kit, AccountKit} : Encoder RedeemName.RedeemNameInstructionDataArgs * Decoder RedeemName.RedeemNameInstructionData :=
  combineCodec RedeemName.getRedeemNameInstructionDataEncoder RedeemName.getRedeemNameInstructionDataDecoder.

Definition getListNameDiscriminatorBytes `{Kit} : result JsError bytes :=
  fixEncoderSize getBytesEncoder 8 ListName.LIST_NAME_DISCRIMINATOR.
Definition getListNameInstructionDataCodec `{Kit, AccountKit} : Encoder ListName.ListNameInstructionDataArgs * Decoder ListName.ListNameInstructionData :=
  combineCodec ListName.getListNameInstructionDataEncoder ListName.getListNameInstructionDataDecoder.

Definition getUpdateListingDiscriminatorBytes `{Kit} : result JsError bytes :=
  fixEncoderSize getBytesEncoder 8 UpdateListing.UPDATE_LISTING_DISCRIMINATOR.
Definition getUpdateListingInstructionDataCodec `{Kit, AccountKit} : Encoder UpdateListing.UpdateListingInstructionDataArgs * Decoder UpdateListing.UpdateListingInstructionData :=
  combineCodec UpdateListing.getUpdateListingInstructionDataEncoder UpdateListing.getUpdateListingInstructionDataDecoder.

Definition getCancelListingDiscriminatorBytes `{Kit} : result JsError bytes :=
  fixEncoderSize getBytesEncoder 8 CancelListing.CANCEL_LISTING_DISCRIMINATOR.
Definition getCancelListingInstructionDataCodec `{Kit, AccountKit} : Encoder CancelListing.CancelListingInstructionDataArgs * Decoder CancelListing.CancelListingInstructionData :=
  combineCodec CancelListing.getCancelListingInstructionDataEncoder CancelListing.getCancelListingInstructionDataDecoder.

Definition getBuyNameDiscriminatorBytes `{Kit} : result JsError bytes :=
  fixEncoderSize getBytesEncoder 8 BuyName.BUY_NAME_DISCRIMINATOR.
Definition getBuyNameInstructionDataCodec `{Kit, AccountKit} : Encoder BuyName.BuyNameInstructionDataArgs * Decoder BuyName.BuyNameInstructionData :=
  combineCodec BuyName.getBuyNameInstructionDataEncoder BuyName.getBuyNameInstructionDataDecoder.

Definition getMakeOfferDiscriminatorBytes `{Kit} : result JsError bytes :=
  fixEncoderSize getBytesEncoder 8 MakeOffer.MAKE_OFFER_DISCRIMINATOR.
Definition getMakeOfferInstructionDataCodec `{Kit, AccountKit} : Encoder MakeOffer.MakeOfferInstructionDataArgs * Decoder MakeOffer.MakeOfferInstructionData :=
  combineCodec MakeOffer.getMakeOfferInstructionDataEncoder MakeOffer.getMakeOfferInstructionDataDecoder.

Definition getCancelOfferDiscriminatorBytes `{Kit} : result JsError bytes :=
  fixEncoderSize getBytesEncoder 8 CancelOffer.CANCEL_OFFER_DISCRIMINATOR.
Definition getCancelOfferInstructionDataCodec `{Kit, AccountKit} : Encoder CancelOffer.CancelOfferInstructionDataArgs * Decoder CancelOffer.CancelOfferInstructionData :=
  combineCodec CancelOffer.getCancelOfferInstructionDataEncoder CancelOffer.getCancelOfferInstructionDataDecoder.

Definition getAcceptOfferDiscriminatorBytes `{Kit} : result JsError bytes :=
  fixEncoderSize getBytesEncoder 8 AcceptOffer.ACCEPT_OFFER_DISCRIMINATOR.
Definition getAcceptOfferInstructionDataCodec `{Kit, AccountKit} : Encoder AcceptOffer.AcceptOfferInstructionDataArgs * Decoder AcceptOffer.AcceptOfferInstructionData :=
  combineCodec AcceptOffer.getAcceptOfferInstructionDataEncoder AcceptOffer.getAcceptOfferInstructionDataDecoder.

Definition getStartAuctionDiscriminatorBytes `{Kit} : result JsError bytes :=
  fixEncoderSize getBytesEncoder 8 StartAuction.START_AUCTION_DISCRIMINATOR.
Definition getStartAuctionInstructionDataCodec `{Kit, AccountKit} : Encoder StartAuction.StartAuctionInstructionDataArgs * Decoder StartAuction.StartAuctionInstructionData :=
  combineCodec StartAuction.getStartAuctionInstructionDataEncoder StartAuction.getStartAuctionInstructionDataDecoder.

Definition getBidDiscriminatorBytes `{Kit} : result JsError bytes :=
  fixEncoderSize getBytesEncoder 8 Bid.BID_DISCRIMINATOR.
Definition getBidInstructionDataCodec `{Kit, AccountKit} : Encoder Bid.BidInstructionDataArgs * Decoder Bid.BidInstructionData :=
  combineCodec Bid.getBidInstructionDataEncoder Bid.getBidInstructionDataDecoder.

Definition getCancelAuctionDiscriminatorBytes `{Kit} : result JsError bytes :=
  fixEncoderSize getBytesEncoder 8 CancelAuction.CANCEL_AUCTION_DISCRIMINATOR.
Definition getCancelAuctionInstructionDataCodec `{Kit, AccountKit} : Encoder CancelAuction.CancelAuctionInstructionDataArgs * Decoder CancelAuction.CancelAuctionInstructionData :=
  combineCodec CancelAuction.getCancelAuctionInstructionDataEncoder CancelAuction.getCancelAuctionInstructionDataDecoder.

Definition getSettleAuctionDiscriminatorBytes `{Kit} : result JsError bytes :=
  fixEncoderSize getBytesEncoder 8 SettleAuction.SETTLE_AUCTION_DISCRIMINATOR.
Definition getSettleAuctionInstructionDataCodec `{Kit, AccountKit} : Encoder SettleAuction.SettleAuctionInstructionDataArgs * Decoder SettleAuction.SettleAuctionInstructionData :=
  combineCodec SettleAuction.getSettleAuctionInstructionDataEncoder SettleAuction.getSettleAuctionInstructionDataDecoder.

Definition getInitConfigDiscriminatorBytes `{Kit} : result JsError bytes :=
  fixEncoderSize getBytesEncoder 8 InitConfig.INIT_CONFIG_DISCRIMINATOR.
Definition getInitConfigInstructionDataCodec `{Kit, AccountKit} : Encoder InitConfig.InitConfigInstructionDataArgs * Decoder InitConfig.InitConfigInstructionData :=
  combineCodec InitConfig.getInitConfigInstructionDataEncoder InitConfig.getInitConfigInstructionDataDecoder.

Definition getUpdateConfigDiscriminatorBytes `{Kit} : result JsError bytes :=
  fixEncoderSize getBytesEncoder 8 UpdateConfig.UPDATE_CONFIG_DISCRIMINATOR.
Definition getUpdateConfigInstructionDataCodec `{Kit, AccountKit} : Encoder UpdateConfig.UpdateConfigInstructionDataArgs * Decoder UpdateConfig.UpdateConfigInstructionData :=
  combineCodec UpdateConfig.getUpdateConfigInstructionDataEncoder UpdateConfig.getUpdateConfigInstructionDataDecoder.

Definition getTransferAdminDiscriminatorBytes `{Kit} : result JsError bytes :=
  fixEncoderSize getBytesEncoder 8 TransferAdmin.TRANSFER_ADMIN_DISCRIMINATOR.
Definition getTransferAdminInstructionDataCodec `{Kit, AccountKit} : Encoder TransferAdmin.TransferAdminInstructionDataArgs * Decoder TransferAdmin.TransferAdminInstructionData :=
  combineCodec TransferAdmin.getTransferAdminInstructionDataEncoder TransferAdmin.getTransferAdminInstructionDataDecoder.

Definition getInitBurnPoolDiscriminatorBytes `{Kit} : result JsError bytes :=
  fixEncoderSize getBytesEncoder 8 InitBurnPool.INIT_BURN_POOL_DISCRIMINATOR.
Definition getInitBurnPoolInstructionDataCodec `{Kit, AccountKit} : Encoder InitBurnPool.InitBurnPoolInstructionDataArgs * Decoder InitBurnPool.InitBurnPoolInstructionData :=
  combineCodec InitBurnPool.getInitBurnPoolInstructionDataEncoder InitBurnPool.getInitBurnPoolInstructionDataDecoder.

Definition getSetSolansParamsDiscriminatorBytes `{Kit} : result JsError bytes :=
  fixEncoderSize getBytesEncoder 8 SetSolansParams.SET_SOLANS_PARAMS_DISCRIMINATOR.
Definition getSetSolansParamsInstructionDataCodec `{Kit, AccountKit} : Encoder SetSolansParams.SetSolansParamsInstructionDataArgs * Decoder SetSolansParams.SetSolansParamsInstructionData :=
  combineCodec SetSolansParams.getSetSolansParamsInstructionDataEncoder SetSolansParams.getSetSolansParamsInstructionDataDecoder.

Definition getRegisterWithSolansDiscriminatorBytes `{Kit} : result JsError bytes :=
  fixEncoderSize getBytesEncoder 8 RegisterWithSolans.REGISTER_WITH_SOLANS_DISCRIMINATOR.
Definition getRegisterWithSolansInstructionDataCodec `{Kit, AccountKit} : Encoder RegisterWithSolans.RegisterWithSolansInstructionDataArgs * Decoder RegisterWithSolans.RegisterWithSolansInstructionData :=
  combineCodec RegisterWithSolans.getRegisterWithSolansInstructionDataEncoder RegisterWithSolans.getRegisterWithSolansInstructionDataDecoder.

Definition getRenewWithSolansDiscriminatorBytes `{Kit} : result JsError bytes :=
  fixEncoderSize getBytesEncoder 8 RenewWithSolans.RENEW_WITH_SOLANS_DISCRIMINATOR.
Definition getRenewWithSolansInstructionDataCodec `{Kit, AccountKit} : Encoder RenewWithSolans.RenewWithSolansInstructionDataArgs * Decoder RenewWithSolans.RenewWithSolansInstructionData :=
  combineCodec RenewWithSolans.getRenewWithSolansInstructionDataEncoder RenewWithSolans.getRenewWithSolansInstructionDataDecoder.

Definition getBuybackBurnDiscriminatorBytes `{Kit} : result JsError bytes :=
  fixEncoderSize getBytesEncoder 8 BuybackBurn.BUYBACK_BURN_DISCRIMINATOR.
Definition getBuybackBurnInstructionDataCodec `{Kit, AccountKit} : Encoder BuybackBurn.BuybackBurnInstructionDataArgs * Decoder BuybackBurn.BuybackBurnInstructionData :=
  combineCodec BuybackBurn.getBuybackBurnInstructionDataEncoder BuybackBurn.getBuybackBurnInstructionDataDecoder.

Definition getInitStakePoolDiscriminatorBytes `{Kit} : result JsError bytes :=
  fixEncoderSize getBytesEncoder 8 InitStakePool.INIT_STAKE_POOL_DISCRIMINATOR.
Definition getInitStakePoolInstructionDataCodec `{Kit, AccountKit} : Encoder InitStakePool.InitStakePoolInstructionDataArgs * Decoder InitStakePool.InitStakePoolInstructionData :=
  combineCodec InitStakePool.getInitStakePoolInstructionDataEncoder InitStakePool.getInitStakePoolInstructionDataDecoder.

Definition getStakeDiscriminatorBytes `{Kit} : result JsError bytes :=
  fixEncoderSize getBytesEncoder 8 Stake.STAKE_DISCRIMINATOR.
Definition getStakeInstructionDataCodec `{Kit, AccountKit} : Encoder Stake.StakeInstructionDataArgs * Decoder Stake.StakeInstructionData :=
  combineCodec Stake.getStakeInstructionDataEncoder Stake.getStakeInstructionDataDecoder.

Definition getUnstakeDiscriminatorBytes `{Kit} : result JsError bytes :=
  fixEncoderSize getBytesEncoder 8 Unstake.UNSTAKE_DISCRIMINATOR.
Definition getUnstakeInstructionDataCodec `{Kit, AccountKit} : Encoder Unstake.UnstakeInstructionDataArgs * Decoder Unstake.UnstakeInstructionData :=
  combineCodec Unstake.getUnstakeInstructionDataEncoder Unstake.getUnstakeInstructionDataDecoder.

Definition getClaimRewardsDiscriminatorBytes `{Kit} : result JsError bytes :=
  fixEncoderSize getBytesEncoder 8 ClaimRewards.CLAIM_REWARDS_DISCRIMINATOR.
Definition getClaimRewardsInstructionDataCodec `{Kit, AccountKit} : Encoder ClaimRewards.ClaimRewardsInstructionDataArgs * Decoder ClaimRewards.ClaimRewardsInstructionData :=
  combineCodec ClaimRewards.getClaimRewardsInstructionDataEncoder ClaimRewards.getClaimRewardsInstructionDataDecoder.

(** ** By kind *)

Definition discriminator_of `{Kit} (k : SolansInstruction.t) : result JsError bytes :=
  match k with
  | SolansInstruction.RegisterName => getRegisterNameDiscriminatorBytes
  | SolansInstruction.RenewName => getRenewNameDiscriminatorBytes
  | SolansInstruction.AutoRenew => getAutoRenewDiscriminatorBytes
  | SolansInstruction.ClaimExpired => getClaimExpiredDiscriminatorBytes
  | SolansInstruction.TransferName => getTransferNameDiscriminatorBytes
  | SolansInstruction.LockTransfer => getLockTransferDiscriminatorBytes
  | SolansInstruction.BurnName => getBurnNameDiscriminatorBytes
  | SolansInstruction.UpdateRecord => getUpdateRecordDiscriminatorBytes
  | SolansInstruction.SetController => getSetControllerDiscriminatorBytes
  | SolansInstruction.SetResolver => getSetResolverDiscriminatorBytes
  | SolansInstruction.SetHosting => getSetHostingDiscriminatorBytes
  | SolansInstruction.SetReverse => getSetReverseDiscriminatorBytes
  | SolansInstruction.Resolve => getResolveDiscriminatorBytes
  | SolansInstruction.WrapSubdomain => getWrapSubdomainDiscriminatorBytes
  | SolansInstruction.RevokeSubdomain => getRevokeSubdomainDiscriminatorBytes
  | SolansInstruction.TokenizeName => getTokenizeNameDiscriminatorBytes
  | SolansInstruction.RedeemName => getRedeemNameDiscriminatorBytes
  | SolansInstruction.ListName => getListNameDiscriminatorBytes
  | SolansInstruction.UpdateListing => getUpdateListingDiscriminatorBytes
  | SolansInstruction.CancelListing => getCancelListingDiscriminatorBytes
  | SolansInstruction.BuyName => getBuyNameDiscriminatorBytes
  | SolansInstruction.MakeOffer => getMakeOfferDiscriminatorBytes
  | SolansInstruction.CancelOffer => getCancelOfferDiscriminatorBytes
  | SolansInstruction.AcceptOffer => getAcceptOfferDiscriminatorBytes
  | SolansInstruction.StartAuction => getStartAuctionDiscriminatorBytes
  | SolansInstruction.Bid => getBidDiscriminatorBytes
  | SolansInstruction.CancelAuction => getCancelAuctionDiscriminatorBytes
  | SolansInstruction.SettleAuction => getSettleAuctionDiscriminatorBytes
  | SolansInstruction.InitConfig => getInitConfigDiscriminatorBytes
  | SolansInstruction.UpdateConfig => getUpdateConfigDiscriminatorBytes
  | SolansInstruction.TransferAdmin => getTransferAdminDiscriminatorBytes
  | SolansInstruction.InitBurnPool => getInitBurnPoolDiscriminatorBytes
  | SolansInstruction.SetSolansParams => getSetSolansParamsDiscriminatorBytes
  | SolansInstruction.RegisterWithSolans => getRegisterWithSolansDiscriminatorBytes
  | SolansInstruction.RenewWithSolans => getRenewWithSolansDiscriminatorBytes
  | SolansInstruction.BuybackBurn => getBuybackBurnDiscriminatorBytes
  | SolansInstruction.InitStakePool => getInitStakePoolDiscriminatorBytes
  | SolansInstruction.Stake => getStakeDiscriminatorBytes
  | SolansInstruction.Unstake => getUnstakeDiscriminatorBytes
  | SolansInstruction.ClaimRewards => getClaimRewardsDiscriminatorBytes
  end.

Definition data_codec_of `{KitSpec, AccountKit} (k : SolansInstruction.t)
    : Encoder (Args (instruction_codec k)) * Decoder (Obj (instruction_codec k)) :=
  match k with
  | SolansInstruction.RegisterName => getRegisterNameInstructionDataCodec
  | SolansInstruction.RenewName => getRenewNameInstructionDataCodec
  | SolansInstruction.AutoRenew => getAutoRenewInstructionDataCodec
  | SolansInstruction.ClaimExpired => getClaimExpiredInstructionDataCodec
  | SolansInstruction.TransferName => getTransferNameInstructionDataCodec
  | SolansInstruction.LockTransfer => getLockTransferInstructionDataCodec
  | SolansInstruction.BurnName => getBurnNameInstructionDataCodec
  | SolansInstruction.UpdateRecord => getUpdateRecordInstructionDataCodec
  | SolansInstruction.SetController => getSetControllerInstructionDataCodec
  | SolansInstruction.SetResolver => getSetResolverInstructionDataCodec
  | SolansInstruction.SetHosting => getSetHostingInstructionDataCodec
  | SolansInstruction.SetReverse => getSetReverseInstructionDataCodec
  | SolansInstruction.Resolve => getResolveInstructionDataCodec
  | SolansInstruction.WrapSubdomain => getWrapSubdomainInstructionDataCodec
  | SolansInstruction.RevokeSubdomain => getRevokeSubdomainInstructionDataCodec
  | SolansInstruction.TokenizeName => getTokenizeNameInstructionDataCodec
  | SolansInstruction.RedeemName => getRedeemNameInstructionDataCodec
  | SolansInstruction.ListName => getListNameInstructionDataCodec
  | SolansInstruction.UpdateListing => getUpdateListingInstructionDataCodec
  | SolansInstruction.CancelListing => getCancelListingInstructionDataCodec
  | SolansInstruction.BuyName => getBuyNameInstructionDataCodec
  | SolansInstruction.MakeOffer => getMakeOfferInstructionDataCodec
  | SolansInstruction.CancelOffer => getCancelOfferInstructionDataCodec
  | SolansInstruction.AcceptOffer => getAcceptOfferInstructionDataCodec
  | SolansInstruction.StartAuction => getStartAuctionInstructionDataCodec
  | SolansInstruction.Bid => getBidInstructionDataCodec
  | SolansInstruction.CancelAuction => getCancelAuctionInstructionDataCodec
  | SolansInstruction.SettleAuction => getSettleAuctionInstructionDataCodec
  | SolansInstruction.InitConfig => getInitConfigInstructionDataCodec
  | SolansInstruction.UpdateConfig => getUpdateConfigInstructionDataCodec
  | SolansInstruction.TransferAdmin => getTransferAdminInstructionDataCodec
  | SolansInstruction.InitBurnPool => getInitBurnPoolInstructionDataCodec
  | SolansInstruction.SetSolansParams => getSetSolansParamsInstructionDataCodec
  | SolansInstruction.RegisterWithSolans => getRegisterWithSolansInstructionDataCodec
  | SolansInstruction.RenewWithSolans => getRenewWithSolansInstructionDataCodec
  | SolansInstruction.BuybackBurn => getBuybackBurnInstructionDataCodec
  | SolansInstruction.InitStakePool => getInitStakePoolInstructionDataCodec
  | SolansInstruction.Stake => getStakeInstructionDataCodec
  | SolansInstruction.Unstake => getUnstakeInstructionDataCodec
  | SolansInstruction.ClaimRewards => getClaimRewardsInstructionDataCodec
  end.

Section Laws.
Context `{KS : KitSpec} `{AK : AccountKit} `{AS : !AccountKitSpec AK}.

(** The discriminator bytes of a kind are eight, identify it with anything appended, and are
    those of no other kind. *)
Theorem discriminators_identify k :
  exists bs, discriminator_of k = Ok bs /\ length bs = 8%nat
    /\ (forall rest, identifySolansInstruction (bs ++ rest) = Ok k)
    /\ (forall k', discriminator_of k' = Ok bs -> k' = k).
Proof.
  assert (HD : forall k, discriminator_of k = Ok (tag (instruction_codec k)))
    by (intros []; by apply discriminator_bytes).
  assert (HI : forall k rest, identifySolansInstruction (tag (instruction_codec k) ++ rest) = Ok k).
  { intros k0 rest. apply identify_encoded. rewrite take_ge; [done|]. by rewrite instruction_tag_length. }
  exists (tag (instruction_codec k)). split; [apply HD|]. split; [apply instruction_tag_length|].
  split; [apply HI|]. intros k' Hk. rewrite HD in Hk. apply Ok_inj in Hk.
  pose proof (HI k' []) as H1. rewrite Hk, HI in H1. by apply Ok_inj in H1.
Qed.

(** What the codec of a kind encodes starts with the kind's discriminator and is decoded to
    the object encoded, the rest of the bytes being left. *)
Theorem data_codecs_round_trip k (v : Args (instruction_codec k)) :
  object_ok (instruction_codec k) v ->
  exists bs, (data_codec_of k).1 v = Ok bs /\ discriminator_of k = Ok (take 8 bs)
    /\ forall rest, (data_codec_of k).2 (bs ++ rest) = Ok (object (instruction_codec k) v, rest).
Proof.
  intros Hv. destruct (object_law _ v Hv) as (bs & He & Hd). exists bs.
  assert (data_codec_of k = (encoder (instruction_codec k), decoder (instruction_codec k))) as ->
    by (destruct k; apply combine_parts).
  split; [done|]. split; [|done]. rewrite (tag_law _ _ _ He). destruct k; by apply discriminator_bytes.
Qed.
End Laws.

Lemma data_codecs_round_trip_witness :
  exists bs, (data_codec_of SolansInstruction.BurnName).1 BurnName.MkBurnNameInstructionDataArgs = Ok bs
    /\ discriminator_of SolansInstruction.BurnName = Ok (take 8 bs).
Proof.
  destruct (data_codecs_round_trip SolansInstruction.BurnName BurnName.MkBurnNameInstructionDataArgs I)
    as (bs & He & Hd & _). by exists bs.
Defined.
