(* ===== verification/InstructionTypes.v ===== *)
(** * The types of the generated instructions

    Each file of src/clients/ts/src/generated/instructions types what its builders return:
    for every account the kind of meta (who signs, what is written) and, for programs and
    sysvars, the address a caller who omits it gets.  The theorem: what the builders return
    has the type they promise, except that an omitted optional account is the program's own
    address and read-only where the type may say writable. *)
From S2P Require Import Prelude JsString Kit Pdas Instruction NameInstructions MarketInstructions.
From S2P Require Import TokenInstructions Program ProgramAccounts ProgramClient NameBuilders.
From S2P Require Import MarketBuilders TokenBuilders Builders SmallKit TxLaws.

(** The account meta types of @solana/kit. *)
Inductive AccountKind :=
| ReadonlyAccount | WritableAccount | ReadonlySignerAccount | WritableSignerAccount.

Record AccountType := MkType {
  typeName : string; typeKind : AccountKind; typeDefault : option jsstring
}.

Definition kind_role (t : AccountKind) : AccountRole :=
  match t with
  | ReadonlyAccount => READONLY
  | WritableAccount => WRITABLE
  | ReadonlySignerAccount => READONLY_SIGNER
  | WritableSignerAccount => WRITABLE_SIGNER
  end.

Definition RegisterNameInstruction : list AccountType :=
  [MkType "payer" WritableSignerAccount None;
   MkType "owner" ReadonlyAccount None;
   MkType "config" ReadonlyAccount None;
   MkType "nameRecord" WritableAccount None;
   MkType "payerTokenAccount" WritableAccount None;
   MkType "treasuryTokenAccount" WritableAccount None;
   MkType "stakingVault" WritableAccount None;
   MkType "burnVault" WritableAccount None;
   MkType "referralTokenAccount" WritableAccount None;
   MkType "paymentMint" ReadonlyAccount None;
   MkType "tokenProgram" ReadonlyAccount (Some (js "TokenkegQfeZyiNwAJbNbGKPFXCWuBvf9Ss623VQ5DA"));
   MkType "systemProgram" ReadonlyAccount (Some (js "11111111111111111111111111111111"))]%string.

Definition RenewNameInstruction : list AccountType :=
  [MkType "payer" WritableSignerAccount None;
   MkType "config" ReadonlyAccount None;
   MkType "nameRecord" WritableAccount None;
   MkType "payerTokenAccount" WritableAccount None;
   MkType "treasuryTokenAccount" WritableAccount None;
   MkType "stakingVault" WritableAccount None;
   MkType "burnVault" WritableAccount None;
   MkType "referralTokenAccount" WritableAccount None;
   MkType "paymentMint" ReadonlyAccount None;
   MkType "tokenProgram" ReadonlyAccount (Some (js "TokenkegQfeZyiNwAJbNbGKPFXCWuBvf9Ss623VQ5DA"))]%string.

Definition AutoRenewInstruction : list AccountType :=
  [MkType "keeper" WritableSignerAccount None;
   MkType "config" ReadonlyAccount None;
   MkType "nameRecord" WritableAccount None;
   MkType "ownerTokenAccount" WritableAccount None;
   MkType "treasuryTokenAccount" WritableAccount None;
   MkType "stakingVault" WritableAccount None;
   MkType "burnVault" WritableAccount None;
   MkType "paymentMint" ReadonlyAccount None;
   MkType "tokenProgram" ReadonlyAccount (Some (js "TokenkegQfeZyiNwAJbNbGKPFXCWuBvf9Ss623VQ5DA"))]%string.

Definition ClaimExpiredInstruction : list AccountType :=
  [MkType "claimer" WritableSignerAccount None;
   MkType "config" ReadonlyAccount None;
   MkType "nameRecord" WritableAccount None;
   MkType "payerTokenAccount" WritableAccount None;
   MkType "treasuryTokenAccount" WritableAccount None;
   MkType "stakingVault" WritableAccount None;
   MkType "burnVault" WritableAccount None;
   MkType "referralTokenAccount" WritableAccount None;
   MkType "paymentMint" ReadonlyAccount None;
   MkType "tokenProgram" ReadonlyAccount (Some (js "TokenkegQfeZyiNwAJbNbGKPFXCWuBvf9Ss623VQ5DA"))]%string.

Definition TransferNameInstruction : list AccountType :=
  [MkType "owner" ReadonlySignerAccount None;
   MkType "nameRecord" WritableAccount None]%string.

Definition LockTransferInstruction : list AccountType :=
  [MkType "owner" ReadonlySignerAccount None;
   MkType "nameRecord" WritableAccount None]%string.

Definition BurnNameInstruction : list AccountType :=
  [MkType "owner" WritableSignerAccount None;
   MkType "nameRecord" WritableAccount None]%string.

Definition UpdateRecordInstruction : list AccountType :=
  [MkType "authority" ReadonlySignerAccount None;
   MkType "nameRecord" WritableAccount None;
   MkType "nftTokenAccount" ReadonlyAccount None]%string.

Definition SetControllerInstruction : list AccountType :=
  [MkType "owner" ReadonlySignerAccount None;
   MkType "nameRecord" WritableAccount None]%string.

Definition SetResolverInstruction : list AccountType :=
  [MkType "authority" ReadonlySignerAccount None;
   MkType "nameRecord" WritableAccount None;
   MkType "nftTokenAccount" ReadonlyAccount None]%string.

Definition SetHostingInstruction : list AccountType :=
  [MkType "authority" ReadonlySignerAccount None;
   MkType "nameRecord" WritableAccount None;
   MkType "nftTokenAccount" ReadonlyAccount None]%string.

Definition SetReverseInstruction : list AccountType :=
  [MkType "owner" WritableSignerAccount None;
   MkType "nameRecord" WritableAccount None;
   MkType "reverseRecord" WritableAccount None;
   MkType "systemProgram" ReadonlyAccount (Some (js "11111111111111111111111111111111"))]%string.

Definition ResolveInstruction : list AccountType :=
  [MkType "nameRecord" ReadonlyAccount None]%string.

Definition WrapSubdomainInstruction : list AccountType :=
  [MkType "owner" WritableSignerAccount None;
   MkType "subdomainOwner" ReadonlyAccount None;
   MkType "parentName" ReadonlyAccount None;
   MkType "nameRecord" WritableAccount None;
   MkType "systemProgram" ReadonlyAccount (Some (js "11111111111111111111111111111111"))]%string.

Definition RevokeSubdomainInstruction : list AccountType :=
  [MkType "owner" WritableSignerAccount None;
   MkType "parentName" ReadonlyAccount None;
   MkType "nameRecord" WritableAccount None]%string.

Definition TokenizeNameInstruction : list AccountType :=
  [MkType "owner" WritableSignerAccount None;
   MkType "nameRecord" WritableAccount None;
   MkType "mint" WritableSignerAccount None;
   MkType "tokenAccount" WritableAccount None;
   MkType "metadata" WritableAccount None;
   MkType "masterEdition" WritableAccount None;
   MkType "tokenProgram" ReadonlyAccount (Some (js "TokenkegQfeZyiNwAJbNbGKPFXCWuBvf9Ss623VQ5DA"));
   MkType "associatedTokenProgram" ReadonlyAccount (Some (js "ATokenGPvbdGVxr1b2hvZbsiqW5xWH25efTNsLJA8knL"));
   MkType "metadataProgram" ReadonlyAccount (Some (js "metaqbxxUerdq28cj1RbAWkYQm3ybzjb6a8bt518x1s"));
   MkType "systemProgram" ReadonlyAccount (Some (js "11111111111111111111111111111111"));
   MkType "rent" ReadonlyAccount (Some (js "SysvarRent111111111111111111111111111111111"))]%string.

Definition RedeemNameInstruction : list AccountType :=
  [MkType "redeemer" WritableSignerAccount None;
   MkType "nameRecord" WritableAccount None;
   MkType "mint" WritableAccount None;
   MkType "tokenAccount" WritableAccount None;
   MkType "metadata" WritableAccount None;
   MkType "masterEdition" WritableAccount None;
   MkType "tokenProgram" ReadonlyAccount (Some (js "TokenkegQfeZyiNwAJbNbGKPFXCWuBvf9Ss623VQ5DA"));
   MkType "metadataProgram" ReadonlyAccount (Some (js "metaqbxxUerdq28cj1RbAWkYQm3ybzjb6a8bt518x1s"))]%string.

Definition ListNameInstruction : list AccountType :=
  [MkType "owner" WritableSignerAccount None;
   MkType "nameRecord" WritableAccount None;
   MkType "listing" WritableAccount None;
   MkType "systemProgram" ReadonlyAccount (Some (js "11111111111111111111111111111111"))]%string.

Definition UpdateListingInstruction : list AccountType :=
  [MkType "seller" ReadonlySignerAccount None;
   MkType "listing" WritableAccount None]%string.

Definition CancelListingInstruction : list AccountType :=
  [MkType "canceller" ReadonlySignerAccount None;
   MkType "seller" WritableAccount None;
   MkType "nameRecord" WritableAccount None;
   MkType "listing" WritableAccount None]%string.

Definition BuyNameInstruction : list AccountType :=
  [MkType "buyer" WritableSignerAccount None;
   MkType "seller" WritableAccount None;
   MkType "solTreasury" WritableAccount None;
   MkType "config" ReadonlyAccount None;
   MkType "nameRecord" WritableAccount None;
   MkType "listing" WritableAccount None;
   MkType "systemProgram" ReadonlyAccount (Some (js "11111111111111111111111111111111"))]%string.

Definition MakeOfferInstruction : list AccountType :=
  [MkType "buyer" WritableSignerAccount None;
   MkType "nameRecord" ReadonlyAccount None;
   MkType "offer" WritableAccount None;
   MkType "systemProgram" ReadonlyAccount (Some (js "11111111111111111111111111111111"))]%string.

Definition CancelOfferInstruction : list AccountType :=
  [MkType "canceller" ReadonlySignerAccount None;
   MkType "buyer" WritableAccount None;
   MkType "nameRecord" ReadonlyAccount None;
   MkType "offer" WritableAccount None]%string.

Definition AcceptOfferInstruction : list AccountType :=
  [MkType "owner" ReadonlySignerAccount None;
   MkType "buyer" WritableAccount None;
   MkType "solTreasury" WritableAccount None;
   MkType "config" ReadonlyAccount None;
   MkType "nameRecord" WritableAccount None;
   MkType "offer" WritableAccount None]%string.

Definition StartAuctionInstruction : list AccountType :=
  [MkType "owner" WritableSignerAccount None;
   MkType "config" ReadonlyAccount None;
   MkType "nameRecord" WritableAccount None;
   MkType "auction" WritableAccount None;
   MkType "solansMint" ReadonlyAccount None;
   MkType "bidVault" WritableAccount None;
   MkType "tokenProgram" ReadonlyAccount (Some (js "TokenkegQfeZyiNwAJbNbGKPFXCWuBvf9Ss623VQ5DA"));
   MkType "associatedTokenProgram" ReadonlyAccount (Some (js "ATokenGPvbdGVxr1b2hvZbsiqW5xWH25efTNsLJA8knL"));
   MkType "systemProgram" ReadonlyAccount (Some (js "11111111111111111111111111111111"))]%string.

Definition BidInstruction : list AccountType :=
  [MkType "bidder" WritableSignerAccount None;
   MkType "auction" WritableAccount None;
   MkType "bidderSolansAccount" WritableAccount None;
   MkType "prevBidderSolansAccount" WritableAccount None;
   MkType "bidVault" WritableAccount None;
   MkType "solansMint" ReadonlyAccount None;
   MkType "tokenProgram" ReadonlyAccount (Some (js "TokenkegQfeZyiNwAJbNbGKPFXCWuBvf9Ss623VQ5DA"))]%string.

Definition CancelAuctionInstruction : list AccountType :=
  [MkType "seller" WritableSignerAccount None;
   MkType "nameRecord" WritableAccount None;
   MkType "auction" WritableAccount None;
   MkType "bidVault" WritableAccount None;
   MkType "tokenProgram" ReadonlyAccount (Some (js "TokenkegQfeZyiNwAJbNbGKPFXCWuBvf9Ss623VQ5DA"))]%string.

Definition SettleAuctionInstruction : list AccountType :=
  [MkType "settler" ReadonlySignerAccount None;
   MkType "config" ReadonlyAccount None;
   MkType "seller" WritableAccount None;
   MkType "sellerSolansAccount" WritableAccount None;
   MkType "nameRecord" WritableAccount None;
   MkType "auction" WritableAccount None;
   MkType "bidVault" WritableAccount None;
   MkType "solansMint" WritableAccount None;
   MkType "tokenProgram" ReadonlyAccount (Some (js "TokenkegQfeZyiNwAJbNbGKPFXCWuBvf9Ss623VQ5DA"))]%string.

Definition InitConfigInstruction : list AccountType :=
  [MkType "admin" WritableSignerAccount None;
   MkType "config" WritableAccount None;
   MkType "paymentMint" ReadonlyAccount None;
   MkType "treasuryTokenAccount" ReadonlyAccount None;
   MkType "stakingVault" ReadonlyAccount None;
   MkType "burnVault" ReadonlyAccount None;
   MkType "tokenProgram" ReadonlyAccount (Some (js "TokenkegQfeZyiNwAJbNbGKPFXCWuBvf9Ss623VQ5DA"));
   MkType "systemProgram" ReadonlyAccount (Some (js "11111111111111111111111111111111"))]%string.

Definition UpdateConfigInstruction : list AccountType :=
  [MkType "admin" ReadonlySignerAccount None;
   MkType "config" WritableAccount None]%string.

Definition TransferAdminInstruction : list AccountType :=
  [MkType "admin" ReadonlySignerAccount None;
   MkType "config" WritableAccount None]%string.

Definition InitBurnPoolInstruction : list AccountType :=
  [MkType "admin" WritableSignerAccount None;
   MkType "config" WritableAccount None;
   MkType "solansMint" ReadonlyAccount None;
   MkType "paymentMint" ReadonlyAccount None;
   MkType "burnVault" WritableAccount None;
   MkType "tokenProgram" ReadonlyAccount (Some (js "TokenkegQfeZyiNwAJbNbGKPFXCWuBvf9Ss623VQ5DA"));
   MkType "associatedTokenProgram" ReadonlyAccount (Some (js "ATokenGPvbdGVxr1b2hvZbsiqW5xWH25efTNsLJA8knL"));
   MkType "systemProgram" ReadonlyAccount (Some (js "11111111111111111111111111111111"))]%string.

Definition SetSolansParamsInstruction : list AccountType :=
  [MkType "admin" ReadonlySignerAccount None;
   MkType "config" WritableAccount None]%string.

Definition RegisterWithSolansInstruction : list AccountType :=
  [MkType "payer" WritableSignerAccount None;
   MkType "owner" ReadonlyAccount None;
   MkType "config" ReadonlyAccount None;
   MkType "nameRecord" WritableAccount None;
   MkType "payerSolansAccount" WritableAccount None;
   MkType "solansMint" WritableAccount None;
   MkType "tokenProgram" ReadonlyAccount (Some (js "TokenkegQfeZyiNwAJbNbGKPFXCWuBvf9Ss623VQ5DA"));
   MkType "systemProgram" ReadonlyAccount (Some (js "11111111111111111111111111111111"))]%string.

Definition RenewWithSolansInstruction : list AccountType :=
  [MkType "payer" WritableSignerAccount None;
   MkType "config" ReadonlyAccount None;
   MkType "nameRecord" WritableAccount None;
   MkType "payerSolansAccount" WritableAccount None;
   MkType "solansMint" WritableAccount None;
   MkType "tokenProgram" ReadonlyAccount (Some (js "TokenkegQfeZyiNwAJbNbGKPFXCWuBvf9Ss623VQ5DA"))]%string.

Definition BuybackBurnInstruction : list AccountType :=
  [MkType "keeper" ReadonlySignerAccount None;
   MkType "config" ReadonlyAccount None;
   MkType "burnVault" WritableAccount None;
   MkType "keeperPaymentAccount" WritableAccount None;
   MkType "keeperSolansAccount" WritableAccount None;
   MkType "solansMint" WritableAccount None;
   MkType "paymentMint" ReadonlyAccount None;
   MkType "tokenProgram" ReadonlyAccount (Some (js "TokenkegQfeZyiNwAJbNbGKPFXCWuBvf9Ss623VQ5DA"))]%string.

Definition InitStakePoolInstruction : list AccountType :=
  [MkType "admin" WritableSignerAccount None;
   MkType "config" WritableAccount None;
   MkType "stakePool" WritableAccount None;
   MkType "solansMint" ReadonlyAccount None;
   MkType "paymentMint" ReadonlyAccount None;
   MkType "stakeVault" WritableAccount None;
   MkType "rewardVault" WritableAccount None;
   MkType "tokenProgram" ReadonlyAccount (Some (js "TokenkegQfeZyiNwAJbNbGKPFXCWuBvf9Ss623VQ5DA"));
   MkType "associatedTokenProgram" ReadonlyAccount (Some (js "ATokenGPvbdGVxr1b2hvZbsiqW5xWH25efTNsLJA8knL"));
   MkType "systemProgram" ReadonlyAccount (Some (js "11111111111111111111111111111111"))]%string.

Definition StakeInstruction : list AccountType :=
  [MkType "staker" WritableSignerAccount None;
   MkType "config" ReadonlyAccount None;
   MkType "stakePool" WritableAccount None;
   MkType "stakeAccount" WritableAccount None;
   MkType "stakerTokenAccount" WritableAccount None;
   MkType "stakerRewardAccount" WritableAccount None;
   MkType "stakeVault" WritableAccount None;
   MkType "rewardVault" WritableAccount None;
   MkType "solansMint" ReadonlyAccount None;
   MkType "paymentMint" ReadonlyAccount None;
   MkType "tokenProgram" ReadonlyAccount (Some (js "TokenkegQfeZyiNwAJbNbGKPFXCWuBvf9Ss623VQ5DA"));
   MkType "systemProgram" ReadonlyAccount (Some (js "11111111111111111111111111111111"))]%string.

Definition UnstakeInstruction : list AccountType :=
  [MkType "staker" ReadonlySignerAccount None;
   MkType "config" ReadonlyAccount None;
   MkType "stakePool" WritableAccount None;
   MkType "stakeAccount" WritableAccount None;
   MkType "stakerTokenAccount" WritableAccount None;
   MkType "stakerRewardAccount" WritableAccount None;
   MkType "stakeVault" WritableAccount None;
   MkType "rewardVault" WritableAccount None;
   MkType "solansMint" ReadonlyAccount None;
   MkType "paymentMint" ReadonlyAccount None;
   MkType "tokenProgram" ReadonlyAccount (Some (js "TokenkegQfeZyiNwAJbNbGKPFXCWuBvf9Ss623VQ5DA"))]%string.

Definition ClaimRewardsInstruction : list AccountType :=
  [MkType "staker" ReadonlySignerAccount None;
   MkType "config" ReadonlyAccount None;
   MkType "stakePool" WritableAccount None;
   MkType "stakeAccount" WritableAccount None;
   MkType "stakerRewardAccount" WritableAccount None;
   MkType "rewardVault" WritableAccount None;
   MkType "paymentMint" ReadonlyAccount None;
   MkType "tokenProgram" ReadonlyAccount (Some (js "TokenkegQfeZyiNwAJbNbGKPFXCWuBvf9Ss623VQ5DA"))]%string.

(** The type of each instruction. *)
Definition instruction_type (k : SolansInstruction.t) : list AccountType :=
  match k with
  | SolansInstruction.RegisterName => RegisterNameInstruction
  | SolansInstruction.RenewName => RenewNameInstruction
  | SolansInstruction.AutoRenew => AutoRenewInstruction
  | SolansInstruction.ClaimExpired => ClaimExpiredInstruction
  | SolansInstruction.TransferName => TransferNameInstruction
  | SolansInstruction.LockTransfer => LockTransferInstruction
  | SolansInstruction.BurnName => BurnNameInstruction
  | SolansInstruction.UpdateRecord => UpdateRecordInstruction
  | SolansInstruction.SetController => SetControllerInstruction
  | SolansInstruction.SetResolver => SetResolverInstruction
  | SolansInstruction.SetHosting => SetHostingInstruction
  | SolansInstruction.SetReverse => SetReverseInstruction
  | SolansInstruction.Resolve => ResolveInstruction
  | SolansInstruction.WrapSubdomain => WrapSubdomainInstruction
  | SolansInstruction.RevokeSubdomain => RevokeSubdomainInstruction
  | SolansInstruction.TokenizeName => TokenizeNameInstruction
  | SolansInstruction.RedeemName => RedeemNameInstruction
  | SolansInstruction.ListName => ListNameInstruction
  | SolansInstruction.UpdateListing => UpdateListingInstruction
  | SolansInstruction.CancelListing => CancelListingInstruction
  | SolansInstruction.BuyName => BuyNameInstruction
  | SolansInstruction.MakeOffer => MakeOfferInstruction
  | SolansInstruction.CancelOffer => CancelOfferInstruction
  | SolansInstruction.AcceptOffer => AcceptOfferInstruction
  | SolansInstruction.StartAuction => StartAuctionInstruction
  | SolansInstruction.Bid => BidInstruction
  | SolansInstruction.CancelAuction => CancelAuctionInstruction
  | SolansInstruction.SettleAuction => SettleAuctionInstruction
  | SolansInstruction.InitConfig => InitConfigInstruction
  | SolansInstruction.UpdateConfig => UpdateConfigInstruction
  | SolansInstruction.TransferAdmin => TransferAdminInstruction
  | SolansInstruction.InitBurnPool => InitBurnPoolInstruction
  | SolansInstruction.SetSolansParams => SetSolansParamsInstruction
  | SolansInstruction.RegisterWithSolans => RegisterWithSolansInstruction
  | SolansInstruction.RenewWithSolans => RenewWithSolansInstruction
  | SolansInstruction.BuybackBurn => BuybackBurnInstruction
  | SolansInstruction.InitStakePool => InitStakePoolInstruction
  | SolansInstruction.Stake => StakeInstruction
  | SolansInstruction.Unstake => UnstakeInstruction
  | SolansInstruction.ClaimRewards => ClaimRewardsInstruction
  end.

(** The input of a program or sysvar account, by position. *)
Definition program_input `{KS : KitSpec} `{PS : ProgramClientSpec} (b : Builder.t)
    : Input (builder b) -> nat -> option Address :=
  match b with
  | Builder.RegisterNameAsync => fun input i =>
      match i with 10%nat => RegisterNameBuilder.Async.tokenProgram input | 11%nat => RegisterNameBuilder.Async.systemProgram input | _ => None end
  | Builder.RegisterName => fun input i =>
      match i with 10%nat => RegisterNameBuilder.Sync.tokenProgram input | 11%nat => RegisterNameBuilder.Sync.systemProgram input | _ => None end
  | Builder.RenewNameAsync => fun input i =>
      match i with 9%nat => RenewNameBuilder.Async.tokenProgram input | _ => None end
  | Builder.RenewName => fun input i =>
      match i with 9%nat => RenewNameBuilder.Sync.tokenProgram input | _ => None end
  | Builder.AutoRenewAsync => fun input i =>
      match i with 8%nat => AutoRenewBuilder.Async.tokenProgram input | _ => None end
  | Builder.AutoRenew => fun input i =>
      match i with 8%nat => AutoRenewBuilder.Sync.tokenProgram input | _ => None end
  | Builder.ClaimExpiredAsync => fun input i =>
      match i with 9%nat => ClaimExpiredBuilder.Async.tokenProgram input | _ => None end
  | Builder.ClaimExpired => fun input i =>
      match i with 9%nat => ClaimExpiredBuilder.Sync.tokenProgram input | _ => None end
  | Builder.TransferName => fun _ _ => None
  | Builder.LockTransfer => fun _ _ => None
  | Builder.BurnName => fun _ _ => None
  | Builder.UpdateRecord => fun _ _ => None
  | Builder.SetController => fun _ _ => None
  | Builder.SetResolver => fun _ _ => None
  | Builder.SetHosting => fun _ _ => None
  | Builder.SetReverseAsync => fun input i =>
      match i with 3%nat => SetReverseBuilder.Async.systemProgram input | _ => None end
  | Builder.SetReverse => fun input i =>
      match i with 3%nat => SetReverseBuilder.Sync.systemProgram input | _ => None end
  | Builder.Resolve => fun _ _ => None
  | Builder.WrapSubdomainAsync => fun input i =>
      match i with 4%nat => WrapSubdomainBuilder.Async.systemProgram input | _ => None end
  | Builder.WrapSubdomain => fun input i =>
      match i with 4%nat => WrapSubdomainBuilder.Sync.systemProgram input | _ => None end
  | Builder.RevokeSubdomain => fun _ _ => None
  | Builder.TokenizeNameAsync => fun input i =>
      match i with 6%nat => TokenizeNameBuilder.Async.tokenProgram input | 7%nat => TokenizeNameBuilder.Async.associatedTokenProgram input | 8%nat => TokenizeNameBuilder.Async.metadataProgram input | 9%nat => TokenizeNameBuilder.Async.systemProgram input | 10%nat => TokenizeNameBuilder.Async.rent input | _ => None end
  | Builder.TokenizeName => fun input i =>
      match i with 6%nat => TokenizeNameBuilder.Sync.tokenProgram input | 7%nat => TokenizeNameBuilder.Sync.associatedTokenProgram input | 8%nat => TokenizeNameBuilder.Sync.metadataProgram input | 9%nat => TokenizeNameBuilder.Sync.systemProgram input | 10%nat => TokenizeNameBuilder.Sync.rent input | _ => None end
  | Builder.RedeemNameAsync => fun input i =>
      match i with 6%nat => RedeemNameBuilder.Async.tokenProgram input | 7%nat => RedeemNameBuilder.Async.metadataProgram input | _ => None end
  | Builder.RedeemName => fun input i =>
      match i with 6%nat => RedeemNameBuilder.Sync.tokenProgram input | 7%nat => RedeemNameBuilder.Sync.metadataProgram input | _ => None end
  | Builder.ListName => fun input i =>
      match i with 3%nat => ListNameBuilder.Sync.systemProgram input | _ => None end
  | Builder.UpdateListing => fun _ _ => None
  | Builder.CancelListing => fun _ _ => None
  | Builder.BuyNameAsync => fun input i =>
      match i with 6%nat => BuyNameBuilder.Async.systemProgram input | _ => None end
  | Builder.BuyName => fun input i =>
      match i with 6%nat => BuyNameBuilder.Sync.systemProgram input | _ => None end
  | Builder.MakeOffer => fun input i =>
      match i with 3%nat => MakeOfferBuilder.Sync.systemProgram input | _ => None end
  | Builder.CancelOffer => fun _ _ => None
  | Builder.AcceptOfferAsync => fun _ _ => None
  | Builder.AcceptOffer => fun _ _ => None
  | Builder.StartAuctionAsync => fun input i =>
      match i with 6%nat => StartAuctionBuilder.Async.tokenProgram input | 7%nat => StartAuctionBuilder.Async.associatedTokenProgram input | 8%nat => StartAuctionBuilder.Async.systemProgram input | _ => None end
  | Builder.StartAuction => fun input i =>
      match i with 6%nat => StartAuctionBuilder.Sync.tokenProgram input | 7%nat => StartAuctionBuilder.Sync.associatedTokenProgram input | 8%nat => StartAuctionBuilder.Sync.systemProgram input | _ => None end
  | Builder.Bid => fun input i =>
      match i with 6%nat => BidBuilder.Sync.tokenProgram input | _ => None end
  | Builder.CancelAuction => fun input i =>
      match i with 4%nat => CancelAuctionBuilder.Sync.tokenProgram input | _ => None end
  | Builder.SettleAuctionAsync => fun input i =>
      match i with 8%nat => SettleAuctionBuilder.Async.tokenProgram input | _ => None end
  | Builder.SettleAuction => fun input i =>
      match i with 8%nat => SettleAuctionBuilder.Sync.tokenProgram input | _ => None end
  | Builder.InitConfigAsync => fun input i =>
      match i with 6%nat => InitConfigBuilder.Async.tokenProgram input | 7%nat => InitConfigBuilder.Async.systemProgram input | _ => None end
  | Builder.InitConfig => fun input i =>
      match i with 6%nat => InitConfigBuilder.Sync.tokenProgram input | 7%nat => InitConfigBuilder.Sync.systemProgram input | _ => None end
  | Builder.UpdateConfigAsync => fun _ _ => None
  | Builder.UpdateConfig => fun _ _ => None
  | Builder.TransferAdminAsync => fun _ _ => None
  | Builder.TransferAdmin => fun _ _ => None
  | Builder.InitBurnPoolAsync => fun input i =>
      match i with 5%nat => InitBurnPoolBuilder.Async.tokenProgram input | 6%nat => InitBurnPoolBuilder.Async.associatedTokenProgram input | 7%nat => InitBurnPoolBuilder.Async.systemProgram input | _ => None end
  | Builder.InitBurnPool => fun input i =>
      match i with 5%nat => InitBurnPoolBuilder.Sync.tokenProgram input | 6%nat => InitBurnPoolBuilder.Sync.associatedTokenProgram input | 7%nat => InitBurnPoolBuilder.Sync.systemProgram input | _ => None end
  | Builder.SetSolansParamsAsync => fun _ _ => None
  | Builder.SetSolansParams => fun _ _ => None
  | Builder.RegisterWithSolansAsync => fun input i =>
      match i with 6%nat => RegisterWithSolansBuilder.Async.tokenProgram input | 7%nat => RegisterWithSolansBuilder.Async.systemProgram input | _ => None end
  | Builder.RegisterWithSolans => fun input i =>
      match i with 6%nat => RegisterWithSolansBuilder.Sync.tokenProgram input | 7%nat => RegisterWithSolansBuilder.Sync.systemProgram input | _ => None end
  | Builder.RenewWithSolansAsync => fun input i =>
      match i with 5%nat => RenewWithSolansBuilder.Async.tokenProgram input | _ => None end
  | Builder.RenewWithSolans => fun input i =>
      match i with 5%nat => RenewWithSolansBuilder.Sync.tokenProgram input | _ => None end
  | Builder.BuybackBurnAsync => fun input i =>
      match i with 7%nat => BuybackBurnBuilder.Async.tokenProgram input | _ => None end
  | Builder.BuybackBurn => fun input i =>
      match i with 7%nat => BuybackBurnBuilder.Sync.tokenProgram input | _ => None end
  | Builder.InitStakePoolAsync => fun input i =>
      match i with 7%nat => InitStakePoolBuilder.Async.tokenProgram input | 8%nat => InitStakePoolBuilder.Async.associatedTokenProgram input | 9%nat => InitStakePoolBuilder.Async.systemProgram input | _ => None end
  | Builder.InitStakePool => fun input i =>
      match i with 7%nat => InitStakePoolBuilder.Sync.tokenProgram input | 8%nat => InitStakePoolBuilder.Sync.associatedTokenProgram input | 9%nat => InitStakePoolBuilder.Sync.systemProgram input | _ => None end
  | Builder.StakeAsync => fun input i =>
      match i with 10%nat => StakeBuilder.Async.tokenProgram input | 11%nat => StakeBuilder.Async.systemProgram input | _ => None end
  | Builder.Stake => fun input i =>
      match i with 10%nat => StakeBuilder.Sync.tokenProgram input | 11%nat => StakeBuilder.Sync.systemProgram input | _ => None end
  | Builder.UnstakeAsync => fun input i =>
      match i with 10%nat => UnstakeBuilder.Async.tokenProgram input | _ => None end
  | Builder.Unstake => fun input i =>
      match i with 10%nat => UnstakeBuilder.Sync.tokenProgram input | _ => None end
  | Builder.ClaimRewardsAsync => fun input i =>
      match i with 7%nat => ClaimRewardsBuilder.Async.tokenProgram input | _ => None end
  | Builder.ClaimRewards => fun input i =>
      match i with 7%nat => ClaimRewardsBuilder.Sync.tokenProgram input | _ => None end
  end.

(** ** The types and the program *)

(** What the types say is what the program declares. *)
Definition declared_as (ty : AccountType) (d : AccountDecl) : bool :=
  String.eqb (typeName ty) (declName d)
  && bool_decide (kind_role (typeKind ty) = role_of (declSigner d) (declMut d)).

Fixpoint all_declared (l : list AccountType) (ds : list AccountDecl) : bool :=
  match l, ds with
  | [], [] => true
  | ty :: l, d :: ds => declared_as ty d && all_declared l ds
  | _, _ => false
  end.

Lemma types_declared k : all_declared (instruction_type k) (declared k) = true.
Proof. by destruct k; vm_compute. Qed.

Lemma all_declared_lookup l ds i ty : all_declared l ds = true -> l !! i = Some ty ->
  exists d, ds !! i = Some d /\ typeName ty = declName d
    /\ kind_role (typeKind ty) = role_of (declSigner d) (declMut d).
Proof.
  revert ds i. induction l as [|t l IH]; intros [|d ds] [|i] HA Hi; try done; cbn in HA, Hi;
    apply andb_true_iff in HA as [HD HA].
  - injection Hi as <-. exists d. split; [done|]. unfold declared_as in HD. apply andb_true_iff in HD as [HN HD].
    apply String.eqb_eq in HN. by apply bool_decide_eq_true in HD.
  - exact (IH _ _ HA Hi).
Qed.

Lemma all_declared_length l ds : all_declared l ds = true -> length l = length ds.
Proof.
  revert ds. induction l as [|t l IH]; intros [|d ds] HA; try done. cbn in *.
  apply andb_true_iff in HA as [_ HA]. f_equal. by apply IH.
Qed.

Lemma or_default_omitted o m : given o = None -> or_default o m = m.
Proof. unfold or_default. by intros ->. Qed.

(** A default of the builder, where its input is not given. *)
Ltac defaulted Hd Hg :=
  apply (inj Some) in Hd as <-; cbn [program_input] in Hg;
  match type of Hg with given ?o = None =>
    match goal with H : or_default o _ = Ok _ |- _ =>
      rewrite (or_default_omitted o _ Hg) in H; apply Ok_inj in H as <-; reflexivity
    end
  end.

Section Laws.
Context `{KS : KitSpec} `{PS : ProgramClientSpec}.

(** An omitted program or sysvar gets the address of the type. *)
Lemma program_default (b : Builder.t) input addrs i ty a :
  addresses (builder b) input = Ok addrs -> instruction_type (kind (builder b)) !! i = Some ty ->
  typeDefault ty = Some a -> given (program_input b input i) = None ->
  addrs !! i = Some (Some a).
Proof.
  intros Ha Hi Hd Hg. destruct b; unfold_addresses Ha; unbind Ha; apply Ok_inj in Ha as <-;
    repeat (destruct i as [|i];
      [apply (inj Some) in Hi as <-; cbn [typeDefault] in Hd; first [discriminate Hd|defaulted Hd Hg]|]);
    try discriminate Hi.
Qed.

(** C26: What each generated builder returns has the TypeScript type the file declares for
    it: as many accounts, each with the name, signer and writable kind of its place, a
    program or sysvar the caller omits at the address the type writes; except that an
    omitted optional account is the program's own address, read-only where the type may say
    writable. *)
Theorem built_instructions_have_their_types (b : Builder.t) input ix :
  build (builder b) input None = Ok ix ->
  exists addrs, addresses (builder b) input = Ok addrs
    /\ length (accounts ix) = length (instruction_type (kind (builder b)))
    /\ forall i ty, instruction_type (kind (builder b)) !! i = Some ty ->
       exists m d, accounts ix !! i = Some m
         /\ declared (kind (builder b)) !! i = Some d /\ declName d = typeName ty
         /\ (role m = kind_role (typeKind ty)
             \/ addrs !! i = Some None /\ m = {| address := SOLANS_PROGRAM_ADDRESS; role := READONLY |})
         /\ (forall a, typeDefault ty = Some a -> given (program_input b input i) = None ->
              m = {| address := a; role := kind_role (typeKind ty) |}).
Proof.
  intros HB. apply built in HB as (addrs & bs & Ha & _ & Hlen & ->). exists addrs.
  pose proof (types_declared (kind (builder b))) as HT. split; [done|].
  cbn [accounts default]. split.
  - rewrite (all_declared_length _ _ HT), length_zip_with. lia.
  - intros i ty Hi. destruct (all_declared_lookup _ _ _ _ HT Hi) as (d & Hd & Hn & Hr).
    destruct (lookup_lt_is_Some_2 addrs i) as [o Ho];
      [rewrite Hlen; by eapply lookup_lt_Some|].
    exists (meta_spec SOLANS_PROGRAM_ADDRESS d o), d. split; [by rewrite lookup_zip_with, Hd, Ho|].
    split; [done|]. split; [done|]. split.
    + destruct o; [left|right]; [by rewrite Hr|]. by rewrite Ho.
    + intros a Hda Hg. rewrite (program_default _ _ _ _ _ _ Ha Hi Hda Hg) in Ho.
      injection Ho as <-. by rewrite Hr.
Qed.
End Laws.

(** ** Concrete inputs *)

(** A reverse record set without naming the System program. *)
Definition sample_reverse_input : Input (builder Builder.SetReverse) :=
  SetReverseBuilder.Sync.MkInput (MkSigner (small_addr 1)) (small_addr 2) (small_addr 3) None
    (SetReverse.MkSetReverseInstructionDataArgs (js "alex")).

Definition built_reverse : Instruction :=
  match build (builder Builder.SetReverse) sample_reverse_input None with
  | Ok ix => ix
  | Err _ => {| programAddress := []; accounts := []; data := [] |}
  end.

Lemma built_reverse_eq : build (builder Builder.SetReverse) sample_reverse_input None = Ok built_reverse.
Proof. vm_compute. reflexivity. Qed.

Lemma built_instructions_have_their_types_witness :
  accounts built_reverse !! 3%nat
  = Some {| address := js "11111111111111111111111111111111"; role := READONLY |}.
Proof.
  destruct (built_instructions_have_their_types Builder.SetReverse sample_reverse_input built_reverse
    built_reverse_eq) as (addrs & _ & _ & HT).
  destruct (HT 3%nat (MkType "systemProgram" ReadonlyAccount
    (Some (js "11111111111111111111111111111111"))) eq_refl) as (m & d & Hm & _ & _ & _ & HD).
  rewrite (HD _ eq_refl eq_refl) in Hm. exact Hm.
Defined.
