(* ===== verification/Plugin.v ===== *)
(** * The client plugin

    [solansProgram] of src/clients/ts/src/generated/programs/solans.ts: what it adds to an
    RPC client, one method per instruction, the account codecs with their fetch functions,
    the address derivations and the parsers.  [PluginCore] is the part of @solana/kit it
    calls.  The theorem: each method plans the instruction of its name, with the client as
    the payer where none is given. *)
From S2P Require Import Prelude JsString Errors Kit Pdas Accounts Instruction NameInstructions.
From S2P Require Import MarketInstructions TokenInstructions Program ProgramAccounts ProgramClient.
From S2P Require Import NameBuilders MarketBuilders TokenBuilders Builders AccountFetch SmallKit.

(** A client with a payer, and @solana/kit's program-client-core on it: an instruction, or the
    promise of one, with functions that plan and send it; a codec with functions that fetch. *)
Class PluginCore := {
  Client : Type;
  payer : Client -> TransactionSigner;
  SelfPlanAndSend : Type;
  addSelfPlanAndSendFunctions : Client -> result JsError Instruction -> SelfPlanAndSend;
  instruction_of : SelfPlanAndSend -> result JsError Instruction;
  SelfFetchFunctions : Type -> Type -> Type;
  addSelfFetchFunctions : forall {A T}, Client -> Encoder A * Decoder T -> SelfFetchFunctions A T;
}.

(** The functions are added to the instruction, which stays. *)
Class PluginSpec (P : PluginCore) : Prop :=
  planned : forall c i, instruction_of (addSelfPlanAndSendFunctions c i) = i.

(** [MakeOptional<I, payer>]: an input but for its payer, which may be given. *)
Record MakeOptional (I : Type) := MkOptional {
  rest : TransactionSigner -> I; optional_payer : option TransactionSigner
}.
Arguments MkOptional {I}. Arguments rest {I}. Arguments optional_payer {I}.

(** [{ ...input, payer: input.payer ?? client.payer }] *)
Definition with_payer {I} (input : MakeOptional I) (payer : TransactionSigner) : I :=
  rest input (default payer (optional_payer input)).


(** ** What the plugin adds *)

Module SolansPluginAccounts.
Record t `{KS : KitSpec} `{PluginCore} := mk {
  auction : SelfFetchFunctions AuctionAccount.AuctionArgs AuctionAccount.Auction;
  config : SelfFetchFunctions ConfigAccount.ConfigArgs ConfigAccount.Config;
  listing : SelfFetchFunctions ListingAccount.ListingArgs ListingAccount.Listing;
  nameRecord : SelfFetchFunctions NameRecordAccount.NameRecordArgs NameRecordAccount.NameRecord;
  offer : SelfFetchFunctions OfferAccount.OfferArgs OfferAccount.Offer;
  reverseRecord : SelfFetchFunctions ReverseRecordAccount.ReverseRecordArgs ReverseRecordAccount.ReverseRecord;
  stakeAccount : SelfFetchFunctions StakeAccountAccount.StakeAccountArgs StakeAccountAccount.StakeAccount;
  stakePool : SelfFetchFunctions StakePoolAccount.StakePoolArgs StakePoolAccount.StakePool
}.
End SolansPluginAccounts.

Module SolansPluginInstructions.
Record t `{KS : KitSpec} `{PluginCore} := mk {
  acceptOffer : AcceptOfferBuilder.Async.AcceptOfferAsyncInput -> SelfPlanAndSend;
  autoRenew : AutoRenewBuilder.Async.AutoRenewAsyncInput -> SelfPlanAndSend;
  bid : BidBuilder.Sync.BidInput -> SelfPlanAndSend;
  burnName : BurnNameBuilder.Sync.BurnNameInput -> SelfPlanAndSend;
  buyName : BuyNameBuilder.Async.BuyNameAsyncInput -> SelfPlanAndSend;
  buybackBurn : BuybackBurnBuilder.Async.BuybackBurnAsyncInput -> SelfPlanAndSend;
  cancelAuction : CancelAuctionBuilder.Sync.CancelAuctionInput -> SelfPlanAndSend;
  cancelListing : CancelListingBuilder.Sync.CancelListingInput -> SelfPlanAndSend;
  cancelOffer : CancelOfferBuilder.Sync.CancelOfferInput -> SelfPlanAndSend;
  claimExpired : ClaimExpiredBuilder.Async.ClaimExpiredAsyncInput -> SelfPlanAndSend;
  claimRewards : ClaimRewardsBuilder.Async.ClaimRewardsAsyncInput -> SelfPlanAndSend;
  initBurnPool : InitBurnPoolBuilder.Async.InitBurnPoolAsyncInput -> SelfPlanAndSend;
  initConfig : InitConfigBuilder.Async.InitConfigAsyncInput -> SelfPlanAndSend;
  initStakePool : InitStakePoolBuilder.Async.InitStakePoolAsyncInput -> SelfPlanAndSend;
  listName : ListNameBuilder.Sync.ListNameInput -> SelfPlanAndSend;
  lockTransfer : LockTransferBuilder.Sync.LockTransferInput -> SelfPlanAndSend;
  makeOffer : MakeOfferBuilder.Sync.MakeOfferInput -> SelfPlanAndSend;
  redeemName : RedeemNameBuilder.Async.RedeemNameAsyncInput -> SelfPlanAndSend;
  registerName : MakeOptional (RegisterNameBuilder.Async.RegisterNameAsyncInput) -> SelfPlanAndSend;
  registerWithSolans : MakeOptional (RegisterWithSolansBuilder.Async.RegisterWithSolansAsyncInput) -> SelfPlanAndSend;
  renewName : MakeOptional (RenewNameBuilder.Async.RenewNameAsyncInput) -> SelfPlanAndSend;
  renewWithSolans : MakeOptional (RenewWithSolansBuilder.Async.RenewWithSolansAsyncInput) -> SelfPlanAndSend;
  resolve : ResolveBuilder.Sync.ResolveInput -> SelfPlanAndSend;
  revokeSubdomain : RevokeSubdomainBuilder.Sync.RevokeSubdomainInput -> SelfPlanAndSend;
  setController : SetControllerBuilder.Sync.SetControllerInput -> SelfPlanAndSend;
  setHosting : SetHostingBuilder.Sync.SetHostingInput -> SelfPlanAndSend;
  setResolver : SetResolverBuilder.Sync.SetResolverInput -> SelfPlanAndSend;
  setReverse : SetReverseBuilder.Async.SetReverseAsyncInput -> SelfPlanAndSend;
  setSolansParams : SetSolansParamsBuilder.Async.SetSolansParamsAsyncInput -> SelfPlanAndSend;
  settleAuction : SettleAuctionBuilder.Async.SettleAuctionAsyncInput -> SelfPlanAndSend;
  stake : StakeBuilder.Async.StakeAsyncInput -> SelfPlanAndSend;
  startAuction : StartAuctionBuilder.Async.StartAuctionAsyncInput -> SelfPlanAndSend;
  tokenizeName : TokenizeNameBuilder.Async.TokenizeNameAsyncInput -> SelfPlanAndSend;
  transferAdmin : TransferAdminBuilder.Async.TransferAdminAsyncInput -> SelfPlanAndSend;
  transferName : TransferNameBuilder.Sync.TransferNameInput -> SelfPlanAndSend;
  unstake : UnstakeBuilder.Async.UnstakeAsyncInput -> SelfPlanAndSend;
  updateConfig : UpdateConfigBuilder.Async.UpdateConfigAsyncInput -> SelfPlanAndSend;
  updateListing : UpdateListingBuilder.Sync.UpdateListingInput -> SelfPlanAndSend;
  updateRecord : UpdateRecordBuilder.Sync.UpdateRecordInput -> SelfPlanAndSend;
  wrapSubdomain : WrapSubdomainBuilder.Async.WrapSubdomainAsyncInput -> SelfPlanAndSend
}.
End SolansPluginInstructions.

Module SolansPluginPdas.
Record t := mk {
  config : option Address -> result JsError ProgramDerivedAddress;
  stakePool : option Address -> result JsError ProgramDerivedAddress;
  stakeAccount : StakeAccountSeeds -> option Address -> result JsError ProgramDerivedAddress;
  metadata : MetadataSeeds -> option Address -> result JsError ProgramDerivedAddress;
  masterEdition : MetadataSeeds -> option Address -> result JsError ProgramDerivedAddress;
  nameRecord : NameRecordSeeds -> option Address -> result JsError ProgramDerivedAddress;
  reverseRecord : ReverseRecordSeeds -> option Address -> result JsError ProgramDerivedAddress
}.
End SolansPluginPdas.

Module SolansPlugin.
Record t `{KS : KitSpec} `{PluginCore} := mk {
  accounts : SolansPluginAccounts.t; instructions : SolansPluginInstructions.t;
  pdas : SolansPluginPdas.t;
  identifyAccount : bytes -> result JsError SolansAccount.t;
  identifyInstruction : bytes -> result JsError SolansInstruction.t;
  parseInstruction : Instruction -> result JsError ParsedSolansInstruction
}.
End SolansPlugin.

(** ** The methods *)

Module Methods.
Section Methods.
Context `{KS : KitSpec} `{PS : ProgramClientSpec} `{PC : PluginCore}.
Variable client : Client.

Definition acceptOffer (input : AcceptOfferBuilder.Async.AcceptOfferAsyncInput) : SelfPlanAndSend :=
  addSelfPlanAndSendFunctions client (AcceptOfferBuilder.getAcceptOfferInstructionAsync input None).
Definition autoRenew (input : AutoRenewBuilder.Async.AutoRenewAsyncInput) : SelfPlanAndSend :=
  addSelfPlanAndSendFunctions client (AutoRenewBuilder.getAutoRenewInstructionAsync input None).
Definition bid (input : BidBuilder.Sync.BidInput) : SelfPlanAndSend :=
  addSelfPlanAndSendFunctions client (BidBuilder.getBidInstruction input None).
Definition burnName (input : BurnNameBuilder.Sync.BurnNameInput) : SelfPlanAndSend :=
  addSelfPlanAndSendFunctions client (BurnNameBuilder.getBurnNameInstruction input None).
Definition buyName (input : BuyNameBuilder.Async.BuyNameAsyncInput) : SelfPlanAndSend :=
  addSelfPlanAndSendFunctions client (BuyNameBuilder.getBuyNameInstructionAsync input None).
Definition buybackBurn (input : BuybackBurnBuilder.Async.BuybackBurnAsyncInput) : SelfPlanAndSend :=
  addSelfPlanAndSendFunctions client (BuybackBurnBuilder.getBuybackBurnInstructionAsync input None).
Definition cancelAuction (input : CancelAuctionBuilder.Sync.CancelAuctionInput) : SelfPlanAndSend :=
  addSelfPlanAndSendFunctions client (CancelAuctionBuilder.getCancelAuctionInstruction input None).
Definition cancelListing (input : CancelListingBuilder.Sync.CancelListingInput) : SelfPlanAndSend :=
  addSelfPlanAndSendFunctions client (CancelListingBuilder.getCancelListingInstruction input None).
Definition cancelOffer (input : CancelOfferBuilder.Sync.CancelOfferInput) : SelfPlanAndSend :=
  addSelfPlanAndSendFunctions client (CancelOfferBuilder.getCancelOfferInstruction input None).
Definition claimExpired (input : ClaimExpiredBuilder.Async.ClaimExpiredAsyncInput) : SelfPlanAndSend :=
  addSelfPlanAndSendFunctions client (ClaimExpiredBuilder.getClaimExpiredInstructionAsync input None).
Definition claimRewards (input : ClaimRewardsBuilder.Async.ClaimRewardsAsyncInput) : SelfPlanAndSend :=
  addSelfPlanAndSendFunctions client (ClaimRewardsBuilder.getClaimRewardsInstructionAsync input None).
Definition initBurnPool (input : InitBurnPoolBuilder.Async.InitBurnPoolAsyncInput) : SelfPlanAndSend :=
  addSelfPlanAndSendFunctions client (InitBurnPoolBuilder.getInitBurnPoolInstructionAsync input None).
Definition initConfig (input : InitConfigBuilder.Async.InitConfigAsyncInput) : SelfPlanAndSend :=
  addSelfPlanAndSendFunctions client (InitConfigBuilder.getInitConfigInstructionAsync input None).
Definition initStakePool (input : InitStakePoolBuilder.Async.InitStakePoolAsyncInput) : SelfPlanAndSend :=
  addSelfPlanAndSendFunctions client (InitStakePoolBuilder.getInitStakePoolInstructionAsync input None).
Definition listName (input : ListNameBuilder.Sync.ListNameInput) : SelfPlanAndSend :=
  addSelfPlanAndSendFunctions client (ListNameBuilder.getListNameInstruction input None).
Definition lockTransfer (input : LockTransferBuilder.Sync.LockTransferInput) : SelfPlanAndSend :=
  addSelfPlanAndSendFunctions client (LockTransferBuilder.getLockTransferInstruction input None).
Definition makeOffer (input : MakeOfferBuilder.Sync.MakeOfferInput) : SelfPlanAndSend :=
  addSelfPlanAndSendFunctions client (MakeOfferBuilder.getMakeOfferInstruction input None).
Definition redeemName (input : RedeemNameBuilder.Async.RedeemNameAsyncInput) : SelfPlanAndSend :=
  addSelfPlanAndSendFunctions client (RedeemNameBuilder.getRedeemNameInstructionAsync input None).
Definition registerName (input : MakeOptional (RegisterNameBuilder.Async.RegisterNameAsyncInput)) : SelfPlanAndSend :=
  addSelfPlanAndSendFunctions client
    (RegisterNameBuilder.getRegisterNameInstructionAsync (with_payer input (payer client)) None).
Definition registerWithSolans (input : MakeOptional (RegisterWithSolansBuilder.Async.RegisterWithSolansAsyncInput)) : SelfPlanAndSend :=
  addSelfPlanAndSendFunctions client
    (RegisterWithSolansBuilder.getRegisterWithSolansInstructionAsync (with_payer input (payer client)) None).
Definition renewName (input : MakeOptional (RenewNameBuilder.Async.RenewNameAsyncInput)) : SelfPlanAndSend :=
  addSelfPlanAndSendFunctions client
    (RenewNameBuilder.getRenewNameInstructionAsync (with_payer input (payer client)) None).
Definition renewWithSolans (input : MakeOptional (RenewWithSolansBuilder.Async.RenewWithSolansAsyncInput)) : SelfPlanAndSend :=
  addSelfPlanAndSendFunctions client
    (RenewWithSolansBuilder.getRenewWithSolansInstructionAsync (with_payer input (payer client)) None).
Definition resolve (input : ResolveBuilder.Sync.ResolveInput) : SelfPlanAndSend :=
  addSelfPlanAndSendFunctions client (ResolveBuilder.getResolveInstruction input None).
Definition revokeSubdomain (input : RevokeSubdomainBuilder.Sync.RevokeSubdomainInput) : SelfPlanAndSend :=
  addSelfPlanAndSendFunctions client (RevokeSubdomainBuilder.getRevokeSubdomainInstruction input None).
Definition setController (input : SetControllerBuilder.Sync.SetControllerInput) : SelfPlanAndSend :=
  addSelfPlanAndSendFunctions client (SetControllerBuilder.getSetControllerInstruction input None).
Definition setHosting (input : SetHostingBuilder.Sync.SetHostingInput) : SelfPlanAndSend :=
  addSelfPlanAndSendFunctions client (SetHostingBuilder.getSetHostingInstruction input None).
Definition setResolver (input : SetResolverBuilder.Sync.SetResolverInput) : SelfPlanAndSend :=
  addSelfPlanAndSendFunctions client (SetResolverBuilder.getSetResolverInstruction input None).
Definition setReverse (input : SetReverseBuilder.Async.SetReverseAsyncInput) : SelfPlanAndSend :=
  addSelfPlanAndSendFunctions client (SetReverseBuilder.getSetReverseInstructionAsync input None).
Definition setSolansParams (input : SetSolansParamsBuilder.Async.SetSolansParamsAsyncInput) : SelfPlanAndSend :=
  addSelfPlanAndSendFunctions client (SetSolansParamsBuilder.getSetSolansParamsInstructionAsync input None).
Definition settleAuction (input : SettleAuctionBuilder.Async.SettleAuctionAsyncInput) : SelfPlanAndSend :=
  addSelfPlanAndSendFunctions client (SettleAuctionBuilder.getSettleAuctionInstructionAsync input None).
Definition stake (input : StakeBuilder.Async.StakeAsyncInput) : SelfPlanAndSend :=
  addSelfPlanAndSendFunctions client (StakeBuilder.getStakeInstructionAsync input None).
Definition startAuction (input : StartAuctionBuilder.Async.StartAuctionAsyncInput) : SelfPlanAndSend :=
  addSelfPlanAndSendFunctions client (StartAuctionBuilder.getStartAuctionInstructionAsync input None).
Definition tokenizeName (input : TokenizeNameBuilder.Async.TokenizeNameAsyncInput) : SelfPlanAndSend :=
  addSelfPlanAndSendFunctions client (TokenizeNameBuilder.getTokenizeNameInstructionAsync input None).
Definition transferAdmin (input : TransferAdminBuilder.Async.TransferAdminAsyncInput) : SelfPlanAndSend :=
  addSelfPlanAndSendFunctions client (TransferAdminBuilder.getTransferAdminInstructionAsync input None).
Definition transferName (input : TransferNameBuilder.Sync.TransferNameInput) : SelfPlanAndSend :=
  addSelfPlanAndSendFunctions client (TransferNameBuilder.getTransferNameInstruction input None).
Definition unstake (input : UnstakeBuilder.Async.UnstakeAsyncInput) : SelfPlanAndSend :=
  addSelfPlanAndSendFunctions client (UnstakeBuilder.getUnstakeInstructionAsync input None).
Definition updateConfig (input : UpdateConfigBuilder.Async.UpdateConfigAsyncInput) : SelfPlanAndSend :=
  addSelfPlanAndSendFunctions client (UpdateConfigBuilder.getUpdateConfigInstructionAsync input None).
Definition updateListing (input : UpdateListingBuilder.Sync.UpdateListingInput) : SelfPlanAndSend :=
  addSelfPlanAndSendFunctions client (UpdateListingBuilder.getUpdateListingInstruction input None).
Definition updateRecord (input : UpdateRecordBuilder.Sync.UpdateRecordInput) : SelfPlanAndSend :=
  addSelfPlanAndSendFunctions client (UpdateRecordBuilder.getUpdateRecordInstruction input None).
Definition wrapSubdomain (input : WrapSubdomainBuilder.Async.WrapSubdomainAsyncInput) : SelfPlanAndSend :=
  addSelfPlanAndSendFunctions client (WrapSubdomainBuilder.getWrapSubdomainInstructionAsync input None).

End Methods.
End Methods.

Section Plugin.
Context `{KS : KitSpec} `{PS : ProgramClientSpec} `{AK : AccountKit} `{PC : PluginCore}.
Variable client : Client.

Definition pluginAccounts : SolansPluginAccounts.t := {|
  SolansPluginAccounts.auction := addSelfFetchFunctions client AuctionFetch.getAuctionCodec;
  SolansPluginAccounts.config := addSelfFetchFunctions client ConfigFetch.getConfigCodec;
  SolansPluginAccounts.listing := addSelfFetchFunctions client ListingFetch.getListingCodec;
  SolansPluginAccounts.nameRecord := addSelfFetchFunctions client NameRecordFetch.getNameRecordCodec;
  SolansPluginAccounts.offer := addSelfFetchFunctions client OfferFetch.getOfferCodec;
  SolansPluginAccounts.reverseRecord := addSelfFetchFunctions client ReverseRecordFetch.getReverseRecordCodec;
  SolansPluginAccounts.stakeAccount := addSelfFetchFunctions client StakeAccountFetch.getStakeAccountCodec;
  SolansPluginAccounts.stakePool := addSelfFetchFunctions client StakePoolFetch.getStakePoolCodec
|}.

Definition pluginInstructions : SolansPluginInstructions.t := {|
  SolansPluginInstructions.acceptOffer := Methods.acceptOffer client;
  SolansPluginInstructions.autoRenew := Methods.autoRenew client;
  SolansPluginInstructions.bid := Methods.bid client;
  SolansPluginInstructions.burnName := Methods.burnName client;
  SolansPluginInstructions.buyName := Methods.buyName client;
  SolansPluginInstructions.buybackBurn := Methods.buybackBurn client;
  SolansPluginInstructions.cancelAuction := Methods.cancelAuction client;
  SolansPluginInstructions.cancelListing := Methods.cancelListing client;
  SolansPluginInstructions.cancelOffer := Methods.cancelOffer client;
  SolansPluginInstructions.claimExpired := Methods.claimExpired client;
  SolansPluginInstructions.claimRewards := Methods.claimRewards client;
  SolansPluginInstructions.initBurnPool := Methods.initBurnPool client;
  SolansPluginInstructions.initConfig := Methods.initConfig client;
  SolansPluginInstructions.initStakePool := Methods.initStakePool client;
  SolansPluginInstructions.listName := Methods.listName client;
  SolansPluginInstructions.lockTransfer := Methods.lockTransfer client;
  SolansPluginInstructions.makeOffer := Methods.makeOffer client;
  SolansPluginInstructions.redeemName := Methods.redeemName client;
  SolansPluginInstructions.registerName := Methods.registerName client;
  SolansPluginInstructions.registerWithSolans := Methods.registerWithSolans client;
  SolansPluginInstructions.renewName := Methods.renewName client;
  SolansPluginInstructions.renewWithSolans := Methods.renewWithSolans client;
  SolansPluginInstructions.resolve := Methods.resolve client;
  SolansPluginInstructions.revokeSubdomain := Methods.revokeSubdomain client;
  SolansPluginInstructions.setController := Methods.setController client;
  SolansPluginInstructions.setHosting := Methods.setHosting client;
  SolansPluginInstructions.setResolver := Methods.setResolver client;
  SolansPluginInstructions.setReverse := Methods.setReverse client;
  SolansPluginInstructions.setSolansParams := Methods.setSolansParams client;
  SolansPluginInstructions.settleAuction := Methods.settleAuction client;
  SolansPluginInstructions.stake := Methods.stake client;
  SolansPluginInstructions.startAuction := Methods.startAuction client;
  SolansPluginInstructions.tokenizeName := Methods.tokenizeName client;
  SolansPluginInstructions.transferAdmin := Methods.transferAdmin client;
  SolansPluginInstructions.transferName := Methods.transferName client;
  SolansPluginInstructions.unstake := Methods.unstake client;
  SolansPluginInstructions.updateConfig := Methods.updateConfig client;
  SolansPluginInstructions.updateListing := Methods.updateListing client;
  SolansPluginInstructions.updateRecord := Methods.updateRecord client;
  SolansPluginInstructions.wrapSubdomain := Methods.wrapSubdomain client
|}.

Definition pluginPdas : SolansPluginPdas.t := {|
  SolansPluginPdas.config := findConfigPda;
  SolansPluginPdas.stakePool := findStakePoolPda;
  SolansPluginPdas.stakeAccount := findStakeAccountPda;
  SolansPluginPdas.metadata := findMetadataPda;
  SolansPluginPdas.masterEdition := findMasterEditionPda;
  SolansPluginPdas.nameRecord := findNameRecordPda;
  SolansPluginPdas.reverseRecord := findReverseRecordPda
|}.

Definition solansProgram : SolansPlugin.t := {|
  SolansPlugin.accounts := pluginAccounts; SolansPlugin.instructions := pluginInstructions;
  SolansPlugin.pdas := pluginPdas; SolansPlugin.identifyAccount := identifySolansAccount;
  SolansPlugin.identifyInstruction := identifySolansInstruction;
  SolansPlugin.parseInstruction := parseSolansInstruction
|}.
End Plugin.

(** ** Methods by kind *)

Section ByKind.
Context `{KS : KitSpec} `{PS : ProgramClientSpec} `{PC : PluginCore}.

(** The builder a method calls. *)
Definition method_builder (k : SolansInstruction.t) : Builder.t :=
  match k with
  | SolansInstruction.AcceptOffer => Builder.AcceptOfferAsync
  | SolansInstruction.AutoRenew => Builder.AutoRenewAsync
  | SolansInstruction.Bid => Builder.Bid
  | SolansInstruction.BurnName => Builder.BurnName
  | SolansInstruction.BuyName => Builder.BuyNameAsync
  | SolansInstruction.BuybackBurn => Builder.BuybackBurnAsync
  | SolansInstruction.CancelAuction => Builder.CancelAuction
  | SolansInstruction.CancelListing => Builder.CancelListing
  | SolansInstruction.CancelOffer => Builder.CancelOffer
  | SolansInstruction.ClaimExpired => Builder.ClaimExpiredAsync
  | SolansInstruction.ClaimRewards => Builder.ClaimRewardsAsync
  | SolansInstruction.InitBurnPool => Builder.InitBurnPoolAsync
  | SolansInstruction.InitConfig => Builder.InitConfigAsync
  | SolansInstruction.InitStakePool => Builder.InitStakePoolAsync
  | SolansInstruction.ListName => Builder.ListName
  | SolansInstruction.LockTransfer => Builder.LockTransfer
  | SolansInstruction.MakeOffer => Builder.MakeOffer
  | SolansInstruction.RedeemName => Builder.RedeemNameAsync
  | SolansInstruction.RegisterName => Builder.RegisterNameAsync
  | SolansInstruction.RegisterWithSolans => Builder.RegisterWithSolansAsync
  | SolansInstruction.RenewName => Builder.RenewNameAsync
  | SolansInstruction.RenewWithSolans => Builder.RenewWithSolansAsync
  | SolansInstruction.Resolve => Builder.Resolve
  | SolansInstruction.RevokeSubdomain => Builder.RevokeSubdomain
  | SolansInstruction.SetController => Builder.SetController
  | SolansInstruction.SetHosting => Builder.SetHosting
  | SolansInstruction.SetResolver => Builder.SetResolver
  | SolansInstruction.SetReverse => Builder.SetReverseAsync
  | SolansInstruction.SetSolansParams => Builder.SetSolansParamsAsync
  | SolansInstruction.SettleAuction => Builder.SettleAuctionAsync
  | SolansInstruction.Stake => Builder.StakeAsync
  | SolansInstruction.StartAuction => Builder.StartAuctionAsync
  | SolansInstruction.TokenizeName => Builder.TokenizeNameAsync
  | SolansInstruction.TransferAdmin => Builder.TransferAdminAsync
  | SolansInstruction.TransferName => Builder.TransferName
  | SolansInstruction.Unstake => Builder.UnstakeAsync
  | SolansInstruction.UpdateConfig => Builder.UpdateConfigAsync
  | SolansInstruction.UpdateListing => Builder.UpdateListing
  | SolansInstruction.UpdateRecord => Builder.UpdateRecord
  | SolansInstruction.WrapSubdomain => Builder.WrapSubdomainAsync
  end.

Definition MethodInput (k : SolansInstruction.t) : Type :=
  match k with
  | SolansInstruction.RegisterName => MakeOptional (RegisterNameBuilder.Async.RegisterNameAsyncInput)
  | SolansInstruction.RegisterWithSolans => MakeOptional (RegisterWithSolansBuilder.Async.RegisterWithSolansAsyncInput)
  | SolansInstruction.RenewName => MakeOptional (RenewNameBuilder.Async.RenewNameAsyncInput)
  | SolansInstruction.RenewWithSolans => MakeOptional (RenewWithSolansBuilder.Async.RenewWithSolansAsyncInput)
  | k => Input (builder (method_builder k))
  end.

(** The input the builder gets. *)
Definition filled (client : Client) (k : SolansInstruction.t)
    : MethodInput k -> Input (builder (method_builder k)) :=
  match k with
  | SolansInstruction.RegisterName => fun input => with_payer input (payer client)
  | SolansInstruction.RegisterWithSolans => fun input => with_payer input (payer client)
  | SolansInstruction.RenewName => fun input => with_payer input (payer client)
  | SolansInstruction.RenewWithSolans => fun input => with_payer input (payer client)
  | SolansInstruction.AcceptOffer => fun input => input
  | SolansInstruction.AutoRenew => fun input => input
  | SolansInstruction.Bid => fun input => input
  | SolansInstruction.BurnName => fun input => input
  | SolansInstruction.BuyName => fun input => input
  | SolansInstruction.BuybackBurn => fun input => input
  | SolansInstruction.CancelAuction => fun input => input
  | SolansInstruction.CancelListing => fun input => input
  | SolansInstruction.CancelOffer => fun input => input
  | SolansInstruction.ClaimExpired => fun input => input
  | SolansInstruction.ClaimRewards => fun input => input
  | SolansInstruction.InitBurnPool => fun input => input
  | SolansInstruction.InitConfig => fun input => input
  | SolansInstruction.InitStakePool => fun input => input
  | SolansInstruction.ListName => fun input => input
  | SolansInstruction.LockTransfer => fun input => input
  | SolansInstruction.MakeOffer => fun input => input
  | SolansInstruction.RedeemName => fun input => input
  | SolansInstruction.Resolve => fun input => input
  | SolansInstruction.RevokeSubdomain => fun input => input
  | SolansInstruction.SetController => fun input => input
  | SolansInstruction.SetHosting => fun input => input
  | SolansInstruction.SetResolver => fun input => input
  | SolansInstruction.SetReverse => fun input => input
  | SolansInstruction.SetSolansParams => fun input => input
  | SolansInstruction.SettleAuction => fun input => input
  | SolansInstruction.Stake => fun input => input
  | SolansInstruction.StartAuction => fun input => input
  | SolansInstruction.TokenizeName => fun input => input
  | SolansInstruction.TransferAdmin => fun input => input
  | SolansInstruction.TransferName => fun input => input
  | SolansInstruction.Unstake => fun input => input
  | SolansInstruction.UpdateConfig => fun input => input
  | SolansInstruction.UpdateListing => fun input => input
  | SolansInstruction.UpdateRecord => fun input => input
  | SolansInstruction.WrapSubdomain => fun input => input
  end.

Definition method (p : SolansPluginInstructions.t) (k : SolansInstruction.t)
    : MethodInput k -> SelfPlanAndSend :=
  match k with
  | SolansInstruction.AcceptOffer => SolansPluginInstructions.acceptOffer p
  | SolansInstruction.AutoRenew => SolansPluginInstructions.autoRenew p
  | SolansInstruction.Bid => SolansPluginInstructions.bid p
  | SolansInstruction.BurnName => SolansPluginInstructions.burnName p
  | SolansInstruction.BuyName => SolansPluginInstructions.buyName p
  | SolansInstruction.BuybackBurn => SolansPluginInstructions.buybackBurn p
  | SolansInstruction.CancelAuction => SolansPluginInstructions.cancelAuction p
  | SolansInstruction.CancelListing => SolansPluginInstructions.cancelListing p
  | SolansInstruction.CancelOffer => SolansPluginInstructions.cancelOffer p
  | SolansInstruction.ClaimExpired => SolansPluginInstructions.claimExpired p
  | SolansInstruction.ClaimRewards => SolansPluginInstructions.claimRewards p
  | SolansInstruction.InitBurnPool => SolansPluginInstructions.initBurnPool p
  | SolansInstruction.InitConfig => SolansPluginInstructions.initConfig p
  | SolansInstruction.InitStakePool => SolansPluginInstructions.initStakePool p
  | SolansInstruction.ListName => SolansPluginInstructions.listName p
  | SolansInstruction.LockTransfer => SolansPluginInstructions.lockTransfer p
  | SolansInstruction.MakeOffer => SolansPluginInstructions.makeOffer p
  | SolansInstruction.RedeemName => SolansPluginInstructions.redeemName p
  | SolansInstruction.RegisterName => SolansPluginInstructions.registerName p
  | SolansInstruction.RegisterWithSolans => SolansPluginInstructions.registerWithSolans p
  | SolansInstruction.RenewName => SolansPluginInstructions.renewName p
  | SolansInstruction.RenewWithSolans => SolansPluginInstructions.renewWithSolans p
  | SolansInstruction.Resolve => SolansPluginInstructions.resolve p
  | SolansInstruction.RevokeSubdomain => SolansPluginInstructions.revokeSubdomain p
  | SolansInstruction.SetController => SolansPluginInstructions.setController p
  | SolansInstruction.SetHosting => SolansPluginInstructions.setHosting p
  | SolansInstruction.SetResolver => SolansPluginInstructions.setResolver p
  | SolansInstruction.SetReverse => SolansPluginInstructions.setReverse p
  | SolansInstruction.SetSolansParams => SolansPluginInstructions.setSolansParams p
  | SolansInstruction.SettleAuction => SolansPluginInstructions.settleAuction p
  | SolansInstruction.Stake => SolansPluginInstructions.stake p
  | SolansInstruction.StartAuction => SolansPluginInstructions.startAuction p
  | SolansInstruction.TokenizeName => SolansPluginInstructions.tokenizeName p
  | SolansInstruction.TransferAdmin => SolansPluginInstructions.transferAdmin p
  | SolansInstruction.TransferName => SolansPluginInstructions.transferName p
  | SolansInstruction.Unstake => SolansPluginInstructions.unstake p
  | SolansInstruction.UpdateConfig => SolansPluginInstructions.updateConfig p
  | SolansInstruction.UpdateListing => SolansPluginInstructions.updateListing p
  | SolansInstruction.UpdateRecord => SolansPluginInstructions.updateRecord p
  | SolansInstruction.WrapSubdomain => SolansPluginInstructions.wrapSubdomain p
  end.
End ByKind.

Section Laws.
Context `{KS : KitSpec} `{PS : ProgramClientSpec} `{AK : AccountKit} `{PC : PluginCore}.
Context {PL : PluginSpec PC}.

(** Each method plans the instruction of its name: what its builder returns for the input,
    with the client's payer where none is given, which the plugin's own parsers recognise. *)
Theorem plugin_methods_build (client : Client) k input ix :
  instruction_of (method (SolansPlugin.instructions (solansProgram client)) k input) = Ok ix ->
  build (builder (method_builder k)) (filled client k input) None = Ok ix
  /\ SolansPlugin.identifyInstruction (solansProgram client) (data ix) = Ok k.
Proof.
  intros HI. assert (build (builder (method_builder k)) (filled client k input) None = Ok ix) as HB
    by (rewrite <- (planned client (build _ _ _)); destruct k; exact HI).
  split; [exact HB|]. apply built in HB as (addrs & bs & _ & HE & _ & ->).
  assert (kind (builder (method_builder k)) = k) as Hk by by destruct k.
  transitivity (Ok (E := JsError) (kind (builder (method_builder k)))); [|by rewrite Hk].
  apply identified_tag. exact (tag_law _ _ _ HE).
Qed.
End Laws.

(** ** Recognising the program's errors

    [isSolansError] of src/clients/ts/src/generated/errors/solans.ts, over [isProgramError] of
    @solana/kit: whether a failure is a custom error, of the code asked if one is, raised by
    an instruction of the given program. *)
Class ProgramErrorKit := {
  Failure : Type;
  isProgramError : Failure -> list Address -> Address -> option Z -> bool;
  (** The index of the instruction that failed and its custom code, for such failures. *)
  customError : Failure -> option (nat * Z);
}.

Class ProgramErrorSpec (P : ProgramErrorKit) : Prop :=
  program_error : forall e programs program code, isProgramError e programs program code = true
    <-> exists i c, customError e = Some (i, c) /\ programs !! i = Some program
        /\ (code = None \/ code = Some c).

(** [transactionMessage.instructions], of which it looks at the program addresses. *)
Definition isSolansError `{ProgramErrorKit} (error : Failure) (instructions : list Instruction)
    (code : option Z) : bool :=
  isProgramError error (map programAddress instructions) SOLANS_PROGRAM_ADDRESS code.

(** The failure of an instruction of the program with one of its errors is recognised, with
    no code or with the error's own and no other, and explained with the program's message. *)
Theorem program_errors_are_recognised `{PE : ProgramErrorKit} `{PES : !ProgramErrorSpec PE}
    (error : Failure) instructions i ix (e : SolansError) code :
  customError error = Some (i, anchor_code e) -> instructions !! i = Some ix ->
  programAddress ix = SOLANS_PROGRAM_ADDRESS ->
  isSolansError error instructions code = bool_decide (code = None \/ code = Some (anchor_code e))
  /\ getSolansErrorMessage false (anchor_code e) = Some (msg e).
Proof.
  intros HE Hi Hp. split; [|apply client_error_table_matches_program].
  apply eq_bool_prop_intro. rewrite bool_decide_spec. split.
  - intros Ht%Is_true_eq_true. apply program_error in Ht as (j & c & HE' & _ & Hc).
    rewrite HE in HE'. by injection HE' as <- <-.
  - intros Hc. apply Is_true_eq_left, program_error. exists i, (anchor_code e).
    split; [done|]. split; [|done]. by rewrite list_lookup_fmap, Hi, <- Hp.
Qed.
